(* ===== verification/_CoqProject ===== *)
-Q . S2P
Prelude.v
Text.v
Float.v
Auth.v
ClipBase.v
ClipText.v
ClipHtml.v
ClipRtf.v
Sanitize.v
ClipFiles.v
ClipImage.v
ClipIncoming.v
ClipDownload.v
LoopDetector.v
Sync.v
ClipManager.v
ClipRun.v
ClipPaste.v
Transfer.v
H264Level.v
AdaptiveFps.v
Governor.v
Damage.v
Egfx.v
Simd.v
Color.v
YuvPack.v
AnnexB.v
Avc444.v
Avc420.v
Avc444Run.v
Frames.v
PixelConvert.v
Bitmap.v
Pipeline.v
Resize.v
Supervision.v
DisplayLoop.v
InputMapper.v
Keyboard.v
Coordinates.v
Mouse.v
InputQueue.v
SesProcess.v
SesConfig.v
SesIni.v
SesHost.v
Sesman.v
SesSample.v
SesTrace.v
SesSignal.v
SesLife.v
SesStart.v
SesScan.v
Connection.v
ManagedSocket.v
Binder.v
PortalState.v
PortalClipboard.v
PortalServices.v
PortalCapture.v
PortalInput.v
FramePath.v
PortalSession.v
