(* ===== verification/Prelude.v ===== *)
(** * WRDP (cheirizo): a verification library

    WRDP is a remote desktop server for Wayland.  A binder authenticates a client,
    the session manager (sesman) starts or finds the user's compositor and its
    helpers as that user, and one server per session captures the desktop,
    encodes it as H.264 for the RDP graphics channel and carries input and
    clipboard.  This library models the decision-making code of these parts as
    executable definitions and proves what each part promises.  A doc comment
    [[file.rs:a-b symbol]] before a definition names the lines it translates.

    ** Foundations
    - Prelude.v: outcomes of fallible code ([outcome]: value, error or panic),
      machine integers as [Z] with their wrap-around written out ([wrap]), byte
      order, list scans, ordered maps, durations in nanoseconds.
    - Text.v: Rust's [char] and [str], UTF-8, UTF-16, number formatting.
    - Float.v: [f32] and [f64] on the Standard Library's [SpecFloat].
    - Simd.v: the x86 and NEON intrinsics the colour conversion uses.

    ** Authentication (src/src/auth/)
    - Auth.v: user names (username.rs), peer throttling (peer_limit.rs), the static
      password validator and the PAM validator.  An accepted name is a safe path
      component and argument; the wrong passwords of a peer that are put to the test
      are at most six, and six more for every 140 seconds and every right one.

    ** Session manager (src/src/sesman/, src/src/desktop/compositor/)
    - SesConfig.v, SesIni.v: the configuration, its validation and its INI reader
      and writer (state.rs), with the round trip.
    - SesProcess.v: /proc parsing, process signatures and account look-ups
      (process.rs, identity.rs, launch.rs).
    - SesHost.v: the effects as a state and error monad over a [World] (clock,
      registry files, log of events) and a [Host] class that answers every read
      and decides every failure; theorems hold for all hosts.
    - Sesman.v: [SessionManager] (mod.rs, cleanup.rs): start, stop, status, client
      accounting, idle cleanup, reconciliation.  The client of the interfaces
      [Host] and [Json] (the registry codec); SesSample.v instantiates both.
    - SesTrace.v: a relation on worlds kept by every effect is kept by every run.
    - SesSignal.v: no process is signalled without having been authenticated in
      the same operation.  SesLife.v: lock discipline, teardown, accounting, idle
      cleanup.  SesStart.v: polling ends at its deadline, usable sessions are
      ready, a start registers the full identity of every component.  SesScan.v:
      the scans over all sessions at start-up and for idle clean-up.

    ** Connections (src/src/rdp/server/production.rs, src/src/rdp/session/supervision/)
    - Supervision.v: the health of a session as the latest report on each of its
      aspects; the supervisor task, its channels and the watcher as a step function
      over all interleavings.
    - Connection.v: one connection as a list of polls of its task: deadlines, the
      rule that nothing interrupts an admission, and the end of every connection;
      the back-off of the accept loop.
    - ManagedSocket.v: the target account and the checks of the Wayland socket.
    - Binder.v: the accept loop, admission and clean-up as a state and error monad
      over a [Daemon], which contains the [World] of the session manager; its log
      holds every session manager call with the worlds before and after it, which
      the theorems compare with the session manager's own operations; the portal, the display
      pipeline and wlr-randr are the interface [Desktop].  A program logic ([runs])
      gives what each step does; the loop over connections composes Auth.v's
      account names, Frames.v's geometry policy, Sesman.v's operations and
      Connection.v's cancellation.

    ** Clipboard (src/src/rdp/channels/clipboard/)
    - ClipBase.v, ClipText.v, ClipHtml.v, ClipRtf.v, ClipFiles.v: core/formats.rs,
      each codec with its round trip.  Sanitize.v: core/sanitize.rs.
    - LoopDetector.v refines a complete log of operations, Sync.v is the ownership
      state machine that uses it, Transfer.v the chunked transfer.
    - ClipIncoming.v (manager.rs): the files a client offers, from the parsed list
      to the disk, and local files served to it.  Disk and log are explicit, what
      fails is the class [Outside]; nothing but new plain files of the download
      directory is touched.  ClipDownload.v adds a client that answers the requests
      in any order: everything offered arrives.
    - ClipImage.v (core/image.rs): the bitmap conversions over an image library that
      is a parameter with its laws; pictures survive the way there and back.
    - ClipManager.v (manager.rs, mod.rs, provider.rs): the orchestrator's handlers as
      a monad over its state, each run to its end before the next; the clipboard
      provider and the channel to the client are parameters, toy instances witness
      the theorems.  ClipRun.v: over every run a local request is answered at most
      once and with genuine data.  ClipPaste.v: every request of the client is
      answered once, text survives both ways, copying from a file list is complete.

    ** The portal (src/src/desktop/portal/xdg_desktop/, rdp/session/backends/)
    - PortalState.v (types.rs, error.rs, session/): portal sessions and the session
      manager with its counters, well formed after every sequence of operations.
    - PortalClipboard.v (wayland/data_control.rs, services/clipboard/,
      clipboard/providers/data_control.rs): the data-control clipboard from the
      compositor's events through the command channel and the backend to the
      provider that the orchestrator uses: what was written is what is pasted.
    - PortalServices.v (services/capture/, services/input/, config/portal_startup.rs):
      detection and choice of protocols, and the settings of the daemon.
    - PortalCapture.v (wayland/screencopy.rs, dispatch.rs, services/capture/): the
      capture backends and the screencopy state machine, which refines a
      specification that says frame by frame what is passed on.
    - PortalInput.v (services/input/): virtual pointers and keyboards over a keymap
      library ([Xkb]), and the EIS bridge; the compositor's rules for requests are an
      executable acceptor, and every run is accepted.
    - FramePath.v (portal_generic.rs, production.rs, pw_thread.rs): the three threads
      between the capture and the display loop as one machine whose labels are the
      threads' turns in any order: nothing is invented or reordered, and the newest
      frame arrives.
    - PortalSession.v (portal_generic.rs): one session from its construction, with
      its rollback, to its shutdown.  It composes PortalServices.v, PortalCapture.v,
      PortalInput.v and PortalClipboard.v; the events of Supervision.v pass its health
      latch.  The effects of a session on the outside are a list, and what they
      leave behind is computed from it: threads that end only when told to and
      joined, devices, and captures.

    ** Input (src/src/rdp/channels/input/)
    - InputMapper.v, Keyboard.v: scancode tables and the key event handler.
    - Coordinates.v, Mouse.v: pointer coordinates and buttons.
    - InputQueue.v (src/src/rdp/server/input_handler.rs): the queue between the
      protocol callbacks and the worker, the worker with its failure counters, and
      every handler, over the session backend as the class [Backend]; runs are lists
      of labels.  It is the client of Keyboard.v, Mouse.v, Coordinates.v and
      Supervision.v.

    ** Graphics (src/src/rdp/channels/graphics/, src/src/rdp/server/)
    - Damage.v (damage/), AdaptiveFps.v and Governor.v (performance/),
      H264Level.v (egfx/h264/level.rs).
    - Color.v, YuvPack.v (egfx/color/): the conversion and its vector versions, the
      split of a 4:4:4 picture into two 4:2:0 views.
    - AnnexB.v, Avc444.v, Avc420.v (egfx/h264/): the encoders as state machines over
      the OpenH264 library, which is the class [Codec].  Avc444Run.v runs them with
      a library that logs its calls: when the auxiliary view may be left out, what
      reaches the client, recovery by intra frames.
    - Egfx.v (egfx/handler.rs, egfx/channel/): codec policy, negotiation, the state
      shared with the protocol library (the class [GraphicsServer]), and sending.
    - PixelConvert.v, Bitmap.v (desktop/pipewire/format.rs and yuv.rs,
      bitmap/converter.rs): the two sets of pixel converters and their agreement,
      the buffer pool, the damage tracker and the bitmap fallback.
    - Frames.v, Resize.v, Pipeline.v (rdp/server/display_handler.rs): frame
      transforms and the geometry policy, resize transactions as a step function
      over all interleavings with client requests, and one frame from capture to
      channel, composed from damage detection, scheduling, padding, encoding
      through the interface [Video], and the sender's check.
    - DisplayLoop.v: the loop of [start_pipeline], one turn as a program in a state
      and early-exit monad whose answers from outside (clock, frames, failures) are
      a record; it composes Resize.v, Frames.v, Pipeline.v, Egfx.v, Bitmap.v, the
      encoders and Supervision.v.

    ** Reading the theorems
    A theorem marked C<n> is a property of the manifest; the lemma
    [<name>_witness] applies it to a concrete input.  Lemmas under headings such as
    "What goes wrong" evaluate the code on inputs where it does not do what its
    comments say.

    ** Fuel and bounds
    Loops whose recursion is not structural take fuel.  Character and byte loops
    take the length of their input, of which every turn consumes at least one
    element; where the result could reveal an exhausted fuel it is an option, and
    a lemma shows it is never [None] (AnnexB.v).  Merging takes the number of
    regions, polling the number of intervals before its deadline, and both are
    proved enough.  Arithmetic wraps as in the release profile unless the code
    checks it; sums that cannot overflow are proved to fit.

    ** Not modelled
    The tokio runtime beyond the polls, channels and notifications described above,
    the PipeWire bindings (the daemon uses the direct frame path instead), the
    ext-image-copy-capture session (whose backend never yields a stream there),
    TLS, VA-API and audio bindings, the command line tools and logging: they
    consist of calls into libraries.  The D-Bus service that offers the portal to
    other programs is not modelled, the sessions it manages are.  Of display_handler.rs,
    the compositor process behind a resize and the tasks around the loop are left
    out.  Of production.rs, start-up and listeners are left out, and what the
    connection builder wires together after the portal session exists is one
    answer of [Desktop]; poisoned locks occur in PortalSession.v only.  The schema of
    config/ is read by a library.  Hash functions, JSON, the argon2, PAM, OpenH264,
    keymap and image libraries, graphics and shared memory, the host and Unicode
    tables are parameters with documented laws only.

    ** What could follow
    The D-Bus handlers on top of PortalState.v, the connection builder of
    production.rs in place of one answer of [Desktop], and the PipeWire cursor and
    bitrate helpers. *)
From Stdlib Require Export ZArith Lia.
From stdpp Require Export base numbers list list_numbers gmap sets strings.

#[global] Open Scope Z_scope.
#[export] Set Default Goal Selector "!".

(** ** Outcomes of fallible code

    A Rust function that returns [Result<A, E>] and may also panic (slicing
    off a character boundary, an index out of range, an arithmetic check)
    has one of three outcomes. *)
Inductive outcome (E A : Type) : Type :=
| Ok (a : A)
| Err (e : E)
| Panic.
Arguments Ok {E A} a.
Arguments Err {E A} e.
Arguments Panic {E A}.

#[export] Instance outcome_ret E : MRet (outcome E) := fun A a => Ok a.
#[export] Instance outcome_bind E : MBind (outcome E) := fun A B k m =>
  match m with Ok a => k a | Err e => Err e | Panic => Panic end.
#[export] Instance outcome_fmap E : FMap (outcome E) := fun A B f m =>
  match m with Ok a => Ok (f a) | Err e => Err e | Panic => Panic end.

(** [opt.ok_or(e)] *)
Definition ok_or {E A} (e : E) (o : option A) : outcome E A :=
  match o with Some a => Ok a | None => Err e end.

Definition is_ok {E A} (r : outcome E A) : bool :=
  match r with Ok _ => true | _ => false end.

#[export] Instance outcome_eq_dec {E A} `{EqDecision E, EqDecision A} : EqDecision (outcome E A).
Proof. solve_decision. Defined.

Lemma Ok_inj {E A} (a b : A) : @Ok E A a = Ok b -> a = b.
Proof. by intros [= ->]. Qed.

Lemma bind_ok {E A B} (m : outcome E A) (k : A -> outcome E B) b :
  m ≫= k = Ok b -> exists a, m = Ok a /\ k a = Ok b.
Proof. destruct m; cbn; intros H; [eauto | discriminate..]. Qed.

(** [for x in xs { acc = f(acc, x)? }] *)
Fixpoint mfold {E A S} (f : S -> A -> outcome E S) (s : S) (xs : list A) : outcome E S :=
  match xs with
  | [] => Ok s
  | x :: xs => f s x ≫= fun s => mfold f s xs
  end.

Lemma mfold_app {E A S} (f : S -> A -> outcome E S) s a b :
  mfold f s (a ++ b) = mfold f s a ≫= fun s => mfold f s b.
Proof.
  revert s. induction a as [|x a IH]; intros s; [done|]. cbn [app mfold].
  destruct (f s x); cbn [mbind outcome_bind]; [apply IH|done..].
Qed.

(** ** Unsigned machine integers, kept as [Z] with their wrap-around written out *)
Definition wrap (w z : Z) : Z := z mod 2 ^ w.
Definition u8_max : Z := 255.
Definition u16_max : Z := 65535.
Definition u32_max : Z := 4294967295.
Definition u64_max : Z := 18446744073709551615.
Definition i32_max : Z := 2147483647.
Definition i64_max : Z := 9223372036854775807.

Definition sat_add (mx a b : Z) : Z := Z.min (a + b) mx.
Definition sat_sub (a b : Z) : Z := Z.max (a - b) 0.
(** [a.div_ceil(b)] for [b > 0] *)
Definition div_ceil (a b : Z) : Z := (a + b - 1) / b.

Abbreviation is_byte b := (0 <= b < 256).

Lemma wrap_small w z : 0 <= z < 2 ^ w -> wrap w z = z.
Proof. intros. unfold wrap. by apply Z.mod_small. Qed.

Lemma wrap_bound w z : 0 <= w -> 0 <= wrap w z < 2 ^ w.
Proof. intros. unfold wrap. apply Z.mod_pos_bound. lia. Qed.

Lemma sat_sub_bound a b : 0 <= a -> 0 <= b -> 0 <= sat_sub a b <= a.
Proof. unfold sat_sub. lia. Qed.

Lemma div_ceil_spec a b : 0 < b -> 0 <= a ->
  a <= div_ceil a b * b < a + b.
Proof. intros. unfold div_ceil. Z.div_mod_to_equations. nia. Qed.

(** Packing two fields into one word. *)
Lemma lor_shiftl_add hi lo n : 0 <= n -> 0 <= lo < 2 ^ n ->
  Z.lor (Z.shiftl hi n) lo = hi * 2 ^ n + lo.
Proof.
  intros Hn Hlo. rewrite <- Z.shiftl_mul_pow2 by done. symmetry. apply Z.add_nocarry_lor.
  apply Z.bits_inj'. intros k Hk. rewrite Z.land_spec, Z.bits_0.
  destruct (Z.lt_ge_cases k n).
  - by rewrite Z.shiftl_spec_low.
  - rewrite <- (Z.mod_small lo (2 ^ n)), Z.mod_pow2_bits_high by lia. apply andb_false_r.
Qed.

Create HintDb wrdp discriminated.
#[export] Hint Resolve wrap_bound sat_sub_bound : wrdp.

(** ** Little-endian byte encodings ([to_le_bytes], [from_le_bytes]) *)
Fixpoint to_le (n : nat) (z : Z) : list Z :=
  match n with
  | O => []
  | S n => z mod 256 :: to_le n (z / 256)
  end.

Fixpoint of_le (bs : list Z) : Z :=
  match bs with
  | [] => 0
  | b :: bs => b + 256 * of_le bs
  end.

Lemma length_to_le n z : length (to_le n z) = n.
Proof. revert z; induction n; cbn; intros; [done | by f_equal]. Qed.

Lemma to_le_bytes n z : Forall (fun b => is_byte b) (to_le n z).
Proof.
  revert z; induction n; cbn; intros; constructor; [|done].
  apply Z.mod_pos_bound; lia.
Qed.

Lemma of_to_le n z : 0 <= z < 256 ^ Z.of_nat n -> of_le (to_le n z) = z.
Proof.
  revert z; induction n as [|n IH]; intros z Hz.
  { cbn in *. lia. }
  rewrite Nat2Z.inj_succ, Z.pow_succ_r in Hz by lia.
  cbn [to_le of_le]. rewrite IH.
  - pose proof (Z.div_mod z 256). lia.
  - split; [apply Z.div_pos; lia|]. apply Z.div_lt_upper_bound; lia.
Qed.

(** ** Lists *)
Section lists.
Context {A : Type}.
Implicit Types (l : list A).

(** [iter().take_while(p)] *)
Fixpoint take_while (p : A -> bool) (l : list A) : list A :=
  match l with
  | [] => []
  | x :: l => if p x then x :: take_while p l else []
  end.

Fixpoint drop_while (p : A -> bool) (l : list A) : list A :=
  match l with
  | [] => []
  | x :: l' => if p x then drop_while p l' else l
  end.
Lemma drop_while_length (p : A -> bool) l : (length (drop_while p l) <= length l)%nat.
Proof. induction l as [|x l IH]; cbn; [lia|]. destruct (p x); cbn; lia. Qed.

(** [iter().position(p)] *)
Fixpoint position (p : A -> bool) (l : list A) : option nat :=
  match l with
  | [] => None
  | x :: l => if p x then Some O else S <$> position p l
  end.

Lemma take_drop_while p l : take_while p l ++ drop_while p l = l.
Proof. induction l as [|x l IH]; cbn; [done|]. destruct (p x); cbn; by rewrite ?IH. Qed.

Lemma take_while_all p l : forallb p l = true -> take_while p l = l.
Proof.
  induction l as [|x l IH]; cbn; [done|].
  destruct (p x); cbn; [|done]. intros. f_equal. auto.
Qed.

Lemma drop_while_app p l1 x l2 :
  forallb p l1 = true -> p x = false -> drop_while p (l1 ++ x :: l2) = x :: l2.
Proof.
  induction l1 as [|y l1 IH]; cbn; intros H1 Hx; [by rewrite Hx|].
  apply andb_prop in H1 as [-> H1]. auto.
Qed.

Lemma take_while_app_stop p l1 x l2 :
  forallb p l1 = true -> p x = false -> take_while p (l1 ++ x :: l2) = l1.
Proof.
  induction l1 as [|y l1 IH]; cbn; intros H1 Hx; [by rewrite Hx|].
  apply andb_prop in H1 as [-> H1]. f_equal. auto.
Qed.

Lemma forallb_Forall_true p l : forallb p l = true <-> Forall (fun x => p x = true) l.
Proof.
  induction l; cbn; [done|].
  by rewrite andb_true_iff, Forall_cons, IHl.
Qed.

Lemma take_while_sound p l : Forall (fun x => p x = true) (take_while p l).
Proof. induction l as [|x l IH]; cbn; [done|]. destruct (p x) eqn:?; eauto. Qed.

Lemma drop_while_suffix p l : exists l', l = l' ++ drop_while p l.
Proof. exists (take_while p l). by rewrite take_drop_while. Qed.
End lists.

(** [slice.chunks(n)] for [n > 0] *)
Fixpoint chunks_fuel {A} (fuel n : nat) (l : list A) : list (list A) :=
  match fuel, l with
  | O, _ | _, [] => []
  | S fuel, _ => take n l :: chunks_fuel fuel n (drop n l)
  end.
Definition chunks {A} (n : nat) (l : list A) : list (list A) := chunks_fuel (length l) n l.

Lemma chunks_fuel_concat {A} n fuel (l : list A) :
  (0 < n)%nat -> (length l <= fuel)%nat -> concat (chunks_fuel fuel n l) = l.
Proof.
  intros Hn. revert l. induction fuel as [|fuel IH]; intros l Hl; cbn.
  { destruct l; cbn in *; [done | lia]. }
  destruct l as [|x l]; cbn -[take drop]; [done|].
  rewrite IH; [apply take_drop|]. rewrite length_drop. cbn in *; lia.
Qed.

Lemma chunks_fuel_length {A} n fuel (l : list A) :
  (0 < n)%nat -> Forall (fun c => (0 < length c <= n)%nat) (chunks_fuel fuel n l).
Proof.
  intros Hn. revert l. induction fuel as [|fuel IH]; intros l; cbn; [done|].
  destruct l as [|x l]; [done|]. constructor; [|apply IH].
  rewrite length_take. cbn. lia.
Qed.

Lemma chunks_concat {A} n (l : list A) : (0 < n)%nat -> concat (chunks n l) = l.
Proof. intros. by apply chunks_fuel_concat. Qed.

Lemma chunks_length {A} n (l : list A) :
  (0 < n)%nat -> Forall (fun c => (0 < length c <= n)%nat) (chunks n l).
Proof. apply chunks_fuel_length. Qed.

(** Case analysis on the boolean comparisons of [Z] in the goal or context. *)
Ltac bool_cases :=
  repeat match goal with
  | H : (_ && _)%bool = true |- _ => apply andb_prop in H as [? ?]
  | H : (_ <? _)%Z = true |- _ => apply Z.ltb_lt in H
  | H : (_ <? _)%Z = false |- _ => apply Z.ltb_ge in H
  | H : (_ <=? _)%Z = true |- _ => apply Z.leb_le in H
  | H : (_ <=? _)%Z = false |- _ => apply Z.leb_gt in H
  | H : (_ =? _)%Z = true |- _ => apply Z.eqb_eq in H
  | H : (_ =? _)%Z = false |- _ => apply Z.eqb_neq in H
  end.

(** ** [BTreeMap] with string keys

    Sorted association lists: UTF-8 orders strings by their code points, so
    the iteration order is the lexicographic order of the characters. *)
Fixpoint str_compare (a b : list Z) : comparison :=
  match a, b with
  | [], [] => Eq
  | [], _ => Lt
  | _, [] => Gt
  | x :: a, y :: b => match x ?= y with Eq => str_compare a b | c => c end
  end.

Section btree.
Context {V : Type}.
Implicit Types (m : list (list Z * V)).

Fixpoint bt_insert (k : list Z) (v : V) m : list (list Z * V) :=
  match m with
  | [] => [(k, v)]
  | (k', v') :: m' =>
      match str_compare k k' with
      | Eq => (k, v) :: m'
      | Lt => (k, v) :: m
      | Gt => (k', v') :: bt_insert k v m'
      end
  end.

Fixpoint bt_get (k : list Z) m : option V :=
  match m with
  | [] => None
  | (k', v) :: m => if bool_decide (k = k') then Some v else bt_get k m
  end.

(** [iter.collect::<BTreeMap<_, _>>()] *)
Definition bt_collect (kvs : list (list Z * V)) : list (list Z * V) :=
  fold_left (fun m kv => bt_insert kv.1 kv.2 m) kvs [].

Lemma bt_insert_in k v m kv :
  kv ∈ bt_insert k v m -> kv = (k, v) \/ kv ∈ m.
Proof.
  induction m as [|[k' v'] m IH]; cbn; [set_solver|].
  destruct (str_compare k k'); set_solver.
Qed.
End btree.

Lemma str_compare_eq a b : str_compare a b = Eq <-> a = b.
Proof.
  revert b; induction a as [|x a IH]; intros b; destruct b as [|y b]; cbn;
    try (split; congruence).
  destruct (Z.compare_spec x y) as [->|?|?].
  - rewrite IH. split; congruence.
  - split; [done|]. intros [= -> ->]. lia.
  - split; [done|]. intros [= -> ->]. lia.
Qed.

Lemma bt_get_insert {V} k v (m : list (list Z * V)) : bt_get k (bt_insert k v m) = Some v.
Proof.
  induction m as [|[k' v'] m IH]; cbn; [by rewrite bool_decide_true|].
  destruct (str_compare k k') eqn:E; cbn; try by rewrite bool_decide_true.
  rewrite bool_decide_false; [done|]. intros ->.
  by rewrite (proj2 (str_compare_eq k' k')) in E.
Qed.

(** ** The clock

    [Instant] and [Duration] are nanosecond counts; every read of the clock is
    an argument of the operation that makes it. *)
Definition ms (n : Z) : Z := n * 1000000.
Definition secs (n : Z) : Z := n * 1000000000.
(** [now.duration_since(t)] and [t.elapsed()] saturate at zero. *)
Definition since (now t : Z) : Z := sat_sub now t.
