(* ===== verification/Text.v ===== *)
(** * Text: the Rust standard library's [char], [str] and [String]

    A [char] is its Unicode scalar value; a [str] is the list of its
    characters.  [len()], byte offsets and [as_bytes()] go through the UTF-8
    encoding, as in Rust.  Functions whose tables the standard library takes
    from the Unicode database beyond ASCII are the class [Unicode]. *)
From S2P Require Import Prelude.
From Stdlib Require Import Ascii.

Abbreviation char := Z (only parsing).
Abbreviation str := (list Z) (only parsing).

Definition is_scalar (c : Z) : bool :=
  ((0 <=? c) && (c <? 0xD800)) || ((0xE000 <=? c) && (c <? 0x110000)).

Abbreviation valid_str t := (Forall (fun c => is_scalar c = true) t).

(** A string literal of the source (ASCII). *)
Fixpoint lit (s : string) : list Z :=
  match s with
  | EmptyString => []
  | String a s => Z.of_N (N_of_ascii a) :: lit s
  end.

Definition ch (a : ascii) : Z := Z.of_N (N_of_ascii a).

(** ** Character classes *)
Definition is_ascii (c : Z) : bool := c <? 128.
Definition is_ascii_digit (c : Z) : bool := (48 <=? c) && (c <=? 57).
Definition is_ascii_upper (c : Z) : bool := (65 <=? c) && (c <=? 90).
Definition is_ascii_lower (c : Z) : bool := (97 <=? c) && (c <=? 122).
Definition is_ascii_alphabetic (c : Z) : bool := is_ascii_upper c || is_ascii_lower c.
Definition is_ascii_alphanumeric (c : Z) : bool := is_ascii_alphabetic c || is_ascii_digit c.

(** [char::is_control]: general category Cc. *)
Definition is_control (c : Z) : bool := (c <? 32) || ((127 <=? c) && (c <? 160)).

(** [char::is_whitespace]: the White_Space property. *)
Definition is_whitespace (c : Z) : bool :=
  ((9 <=? c) && (c <=? 13)) || (c =? 32) || (c =? 0x85) || (c =? 0xA0) || (c =? 0x1680)
  || ((0x2000 <=? c) && (c <=? 0x200A)) || (c =? 0x2028) || (c =? 0x2029)
  || (c =? 0x202F) || (c =? 0x205F) || (c =? 0x3000).

Definition ascii_upper (c : Z) : Z := if is_ascii_lower c then c - 32 else c.
Definition ascii_lower (c : Z) : Z := if is_ascii_upper c then c + 32 else c.

(** What the source relies on of the standard library's Unicode tables. *)
Class Unicode := {
  is_alphanumeric : Z -> bool;
  to_uppercase : Z -> list Z;
  to_lowercase : Z -> list Z;
  is_alphanumeric_ascii c : is_ascii c = true -> is_alphanumeric c = is_ascii_alphanumeric c;
  is_alphanumeric_not_control c : is_alphanumeric c = true -> is_control c = false;
  to_uppercase_ascii c : is_ascii c = true -> to_uppercase c = [ascii_upper c];
  to_lowercase_ascii c : is_ascii c = true -> to_lowercase c = [ascii_lower c];
}.

(** The instance that knows only ASCII; it shows the laws are satisfiable. *)
#[export, refine] Instance ascii_unicode : Unicode := {
  is_alphanumeric c := (0 <=? c) && is_ascii_alphanumeric c;
  to_uppercase c := [ascii_upper c];
  to_lowercase c := [ascii_lower c];
}.
Proof.
  - intros c _. unfold is_ascii_alphanumeric, is_ascii_alphabetic, is_ascii_upper,
      is_ascii_lower, is_ascii_digit. destruct (Z.leb_spec 0 c); [done|]. cbn. lia.
  - unfold is_ascii_alphanumeric, is_ascii_alphabetic, is_ascii_upper,
      is_ascii_lower, is_ascii_digit, is_control. lia.
  - done.
  - done.
Defined.

Definition str_to_uppercase `{Unicode} (s : str) : str := s ≫= to_uppercase.
Definition str_to_lowercase `{Unicode} (s : str) : str := s ≫= to_lowercase.

(** ** UTF-8 *)
Definition utf8_char (c : Z) : list Z :=
  if c <? 0x80 then [c]
  else if c <? 0x800 then [0xC0 + c / 64; 0x80 + c mod 64]
  else if c <? 0x10000 then [0xE0 + c / 4096; 0x80 + c / 64 mod 64; 0x80 + c mod 64]
  else [0xF0 + c / 262144; 0x80 + c / 4096 mod 64; 0x80 + c / 64 mod 64; 0x80 + c mod 64].

(** [str::as_bytes] *)
Definition as_bytes (s : str) : list Z := s ≫= utf8_char.
(** [str::len] *)
Definition slen (s : str) : Z := Z.of_nat (length (as_bytes s)).

(** The sequence length announced by a lead byte. *)
Definition utf8_width (b : Z) : nat :=
  if b <? 0x80 then 1
  else if (0xC0 <=? b) && (b <? 0xE0) then 2
  else if (0xE0 <=? b) && (b <? 0xF0) then 3
  else if (0xF0 <=? b) && (b <? 0xF8) then 4
  else 0.

Definition utf8_assemble (bs : list Z) : Z :=
  match bs with
  | [a] => a
  | [a; b] => (a - 0xC0) * 64 + (b - 0x80)
  | [a; b; c] => (a - 0xE0) * 4096 + (b - 0x80) * 64 + (c - 0x80)
  | [a; b; c; d] => (a - 0xF0) * 262144 + (b - 0x80) * 4096 + (c - 0x80) * 64 + (d - 0x80)
  | _ => -1
  end.

(** One strictly decoded character: the scalar value whose (shortest) encoding
    is exactly the bytes at the front. *)
Definition utf8_next (bs : list Z) : option (Z * list Z) :=
  match bs with
  | [] => None
  | b :: _ =>
      let n := utf8_width b in
      let front := take n bs in
      let c := utf8_assemble front in
      if is_scalar c && bool_decide (utf8_char c = front) then Some (c, drop n bs) else None
  end.

Fixpoint from_utf8_fuel (fuel : nat) (bs : list Z) : option str :=
  match fuel, bs with
  | _, [] => Some []
  | O, _ => None
  | S fuel, _ =>
      match utf8_next bs with
      | Some (c, rest) => cons c <$> from_utf8_fuel fuel rest
      | None => None
      end
  end.
(** [std::str::from_utf8] (every byte is consumed in at most [length] steps). *)
Definition from_utf8 (bs : list Z) : option str := from_utf8_fuel (length bs) bs.

Lemma is_scalar_range c : is_scalar c = true -> 0 <= c < 0x110000.
Proof. unfold is_scalar. lia. Qed.

Lemma utf8_char_length c : (1 <= length (utf8_char c) <= 4)%nat.
Proof. unfold utf8_char. repeat case_match; cbn; lia. Qed.

Lemma utf8_char_bytes c : 0 <= c < 0x110000 -> Forall (fun b => is_byte b) (utf8_char c).
Proof.
  intros Hc. unfold utf8_char.
  repeat case_match; bool_cases; repeat (constructor; [Z.div_mod_to_equations; lia|]); constructor.
Qed.

Lemma utf8_char_ascii c : is_ascii c = true -> utf8_char c = [c].
Proof. unfold is_ascii, utf8_char. intros H. case_match; bool_cases; [done | lia]. Qed.

Ltac utf8_arith :=
  repeat (match goal with |- context [(?a <? ?b)%Z] => destruct (Z.ltb_spec a b) end;
          try (exfalso; Z.div_mod_to_equations; lia));
  repeat (match goal with |- context [(?a <=? ?b)%Z] => destruct (Z.leb_spec a b) end;
          try (exfalso; Z.div_mod_to_equations; lia)).

Lemma utf8_width_char c r : 0 <= c < 0x110000 ->
  utf8_width (hd 0 (utf8_char c ++ r)) = length (utf8_char c).
Proof.
  intros Hc. unfold utf8_char.
  repeat case_match; bool_cases; cbn [app hd length]; unfold utf8_width; utf8_arith; reflexivity.
Qed.

Lemma utf8_assemble_char c : 0 <= c < 0x110000 -> utf8_assemble (utf8_char c) = c.
Proof.
  intros Hc. unfold utf8_char.
  repeat case_match; bool_cases; cbn [utf8_assemble]; [done | Z.div_mod_to_equations; lia ..].
Qed.

Lemma utf8_next_char c r : is_scalar c = true -> utf8_next (utf8_char c ++ r) = Some (c, r).
Proof.
  intros Hc. pose proof (is_scalar_range _ Hc) as Hr.
  pose proof (utf8_width_char c r Hr) as Hw.
  pose proof (utf8_char_length c).
  destruct (utf8_char c ++ r) as [|b bs] eqn:E.
  { apply app_eq_nil in E as [E _]. rewrite E in *. cbn in *. lia. }
  cbn [hd] in Hw. unfold utf8_next. rewrite Hw, <- E.
  rewrite take_app_length, drop_app_length, utf8_assemble_char by done.
  rewrite Hc, bool_decide_true by done. done.
Qed.

Lemma as_bytes_cons c s : as_bytes (c :: s) = utf8_char c ++ as_bytes s.
Proof. done. Qed.

Lemma as_bytes_app s t : as_bytes (s ++ t) = as_bytes s ++ as_bytes t.
Proof. unfold as_bytes. apply bind_app. Qed.

Lemma slen_app s t : slen (s ++ t) = slen s + slen t.
Proof. unfold slen. rewrite as_bytes_app, length_app. lia. Qed.

Lemma slen_cons c s : slen (c :: s) = Z.of_nat (length (utf8_char c)) + slen s.
Proof. unfold slen. rewrite as_bytes_cons, length_app. lia. Qed.

Lemma slen_nonneg s : 0 <= slen s.
Proof. unfold slen. lia. Qed.

Lemma length_le_slen s : Z.of_nat (length s) <= slen s.
Proof.
  induction s as [|c s IH]; [apply slen_nonneg|].
  rewrite slen_cons. pose proof (utf8_char_length c). cbn [length]. lia.
Qed.

Lemma as_bytes_ascii s : forallb is_ascii s = true -> as_bytes s = s.
Proof.
  induction s as [|c s IH]; intros H; [done|].
  apply andb_prop in H as [Hc H]. by rewrite as_bytes_cons, utf8_char_ascii, IH by done.
Qed.

Lemma as_bytes_byte s : valid_str s -> Forall (fun b => is_byte b) (as_bytes s).
Proof.
  induction 1 as [|c s Hc Hs IH]; [constructor|].
  rewrite as_bytes_cons. apply Forall_app; split; [|done].
  by apply utf8_char_bytes, is_scalar_range.
Qed.

(** Decoding is the inverse of encoding. *)
Lemma from_utf8_fuel_as_bytes s fuel :
  valid_str s -> (length (as_bytes s) <= fuel)%nat -> from_utf8_fuel fuel (as_bytes s) = Some s.
Proof.
  intros Hs. revert fuel. induction Hs as [|c s Hc Hs IH]; intros fuel Hf.
  { by destruct fuel. }
  rewrite as_bytes_cons in *. rewrite length_app in Hf.
  pose proof (utf8_char_length c).
  destruct fuel as [|fuel]; [lia|].
  destruct (utf8_char c ++ as_bytes s) as [|b bs] eqn:E.
  { apply app_eq_nil in E as [E _]. rewrite E in *. cbn in *. lia. }
  cbn [from_utf8_fuel]. rewrite <- E, utf8_next_char by done.
  by rewrite IH by lia.
Qed.

Lemma from_utf8_as_bytes s : valid_str s -> from_utf8 (as_bytes s) = Some s.
Proof. intros. by apply from_utf8_fuel_as_bytes. Qed.

Lemma utf8_next_sound bs c r :
  utf8_next bs = Some (c, r) -> bs = utf8_char c ++ r /\ is_scalar c = true.
Proof.
  unfold utf8_next. destruct bs as [|b bs]; [done|].
  set (n := utf8_width b). case_match eqn:E; [|done]. bool_cases.
  intros [= <- <-]. apply bool_decide_eq_true in H0.
  split; [|done]. by rewrite H0, take_drop.
Qed.

Lemma from_utf8_fuel_sound fuel bs s :
  from_utf8_fuel fuel bs = Some s -> as_bytes s = bs /\ valid_str s.
Proof.
  revert bs s. induction fuel as [|fuel IH]; intros bs s.
  { destruct bs; [|done]. by intros [= <-]. }
  destruct bs as [|b bs]; [by intros [= <-]|]. cbn -[utf8_next].
  destruct (utf8_next _) as [[c r]|] eqn:E; [|done].
  destruct (from_utf8_fuel fuel r) as [s'|] eqn:E2; cbn; [|done].
  intros [= <-]. apply utf8_next_sound in E as [-> ?].
  apply IH in E2 as [<- ?]. by rewrite as_bytes_cons; auto.
Qed.

Lemma from_utf8_sound bs s : from_utf8 bs = Some s -> as_bytes s = bs /\ valid_str s.
Proof. apply from_utf8_fuel_sound. Qed.

(** [&s[start..]] and [&s[..end]] by byte offset: [None] when the offset is not
    on a character boundary (Rust panics). *)
Fixpoint split_at_byte (s : str) (n : Z) : option (str * str) :=
  if n =? 0 then Some ([], s) else
  match s with
  | [] => None
  | c :: s' =>
      let w := Z.of_nat (length (utf8_char c)) in
      if n <? w then None
      else prod_map (cons c) id <$> split_at_byte s' (n - w)
  end.

(** [&s[a..b]] *)
Definition byte_slice (s : str) (a b : Z) : option str :=
  if b <? a then None else
  match split_at_byte s a with
  | Some (_, rest) => fst <$> split_at_byte rest (b - a)
  | None => None
  end.

Lemma split_at_byte_app s t : split_at_byte (s ++ t) (slen s) = Some (s, t).
Proof.
  induction s as [|c s IH].
  { destruct t; reflexivity. }
  cbn [app split_at_byte]. rewrite slen_cons.
  pose proof (utf8_char_length c). pose proof (slen_nonneg s).
  case_match; bool_cases; [lia|]. case_match; bool_cases; [lia|].
  replace (_ - _) with (slen s) by lia. by rewrite IH.
Qed.

Lemma byte_slice_mid a m b :
  byte_slice (a ++ m ++ b) (slen a) (slen a + slen m) = Some m.
Proof.
  unfold byte_slice. pose proof (slen_nonneg m).
  case_match; bool_cases; [lia|].
  rewrite split_at_byte_app. replace (_ - _) with (slen m) by lia.
  by rewrite split_at_byte_app.
Qed.

(** ** UTF-16 *)
Definition utf16_char (c : Z) : list Z :=
  if c <? 0x10000 then [c]
  else [0xD800 + (c - 0x10000) / 1024; 0xDC00 + (c - 0x10000) mod 1024].

(** [str::encode_utf16] *)
Definition encode_utf16 (s : str) : list Z := s ≫= utf16_char.

Definition is_high_surrogate (u : Z) : bool := (0xD800 <=? u) && (u <=? 0xDBFF).
Definition is_low_surrogate (u : Z) : bool := (0xDC00 <=? u) && (u <=? 0xDFFF).

(** [String::from_utf16] *)
Fixpoint from_utf16 (us : list Z) : option str :=
  match us with
  | [] => Some []
  | u :: us =>
      if is_high_surrogate u then
        match us with
        | v :: us => if is_low_surrogate v
                     then cons (0x10000 + (u - 0xD800) * 1024 + (v - 0xDC00)) <$> from_utf16 us
                     else None
        | [] => None
        end
      else if is_low_surrogate u then None
      else cons u <$> from_utf16 us
  end.

Lemma encode_utf16_cons c s : encode_utf16 (c :: s) = utf16_char c ++ encode_utf16 s.
Proof. done. Qed.

Lemma from_utf16_char c us : is_scalar c = true ->
  from_utf16 (utf16_char c ++ us) = cons c <$> from_utf16 us.
Proof.
  intros Hc. unfold is_scalar in Hc. unfold utf16_char. case_match; bool_cases.
  - cbn [app from_utf16].
    replace (is_high_surrogate c) with false by (unfold is_high_surrogate; lia).
    replace (is_low_surrogate c) with false by (unfold is_low_surrogate; lia). done.
  - cbn [app from_utf16]. set (q := (c - 0x10000) / 1024). set (m := (c - 0x10000) mod 1024).
    assert (0 <= q < 1024 /\ 0 <= m < 1024 /\ c = 0x10000 + q * 1024 + m) as (Hq & Hm & Hcc)
      by (subst q m; Z.div_mod_to_equations; lia).
    replace (is_high_surrogate _) with true by (unfold is_high_surrogate; lia).
    replace (is_low_surrogate _) with true by (unfold is_low_surrogate; lia).
    do 2 f_equal. lia.
Qed.

Lemma from_utf16_encode s : valid_str s -> from_utf16 (encode_utf16 s) = Some s.
Proof.
  induction 1 as [|c s Hc Hs IH]; [done|].
  by rewrite encode_utf16_cons, from_utf16_char, IH.
Qed.

Lemma encode_utf16_units s : valid_str s -> Forall (fun u => 0 <= u < 65536) (encode_utf16 s).
Proof.
  induction 1 as [|c s Hc Hs IH]; [constructor|].
  rewrite encode_utf16_cons. apply Forall_app; split; [|done].
  apply is_scalar_range in Hc. unfold utf16_char. case_match; bool_cases;
    repeat (constructor; [Z.div_mod_to_equations; lia|]); constructor.
Qed.

Lemma encode_utf16_nonzero s : valid_str s -> Forall (fun c => c <> 0) s ->
  Forall (fun u => u <> 0) (encode_utf16 s).
Proof.
  intros Hv H. induction H as [|c s Hc Hs IH]; [constructor|].
  apply Forall_cons in Hv as [Hc' Hv].
  rewrite encode_utf16_cons. apply Forall_app; split; [|auto].
  apply is_scalar_range in Hc'. unfold utf16_char. case_match; bool_cases;
    repeat (constructor; [Z.div_mod_to_equations; lia|]); constructor.
Qed.

(** UTF-16 never takes more than twice the UTF-8 length in bytes. *)
Lemma encode_utf16_length s : valid_str s -> Z.of_nat (length (encode_utf16 s)) <= slen s.
Proof.
  induction 1 as [|c s Hc Hs IH]; [apply slen_nonneg|].
  rewrite encode_utf16_cons, length_app, slen_cons.
  apply is_scalar_range in Hc.
  assert (length (utf16_char c) <= length (utf8_char c))%nat; [|lia].
  unfold utf16_char, utf8_char. repeat case_match; bool_cases; cbn; lia.
Qed.

(** ** Searching, splitting and trimming *)
Definition eqs (a b : str) : bool := bool_decide (a = b).

Lemma eqs_true a b : eqs a b = true <-> a = b.
Proof. unfold eqs. apply bool_decide_eq_true. Qed.

(** [s.starts_with(p)] *)
Fixpoint starts_with (p s : str) : bool :=
  match p, s with
  | [], _ => true
  | a :: p, b :: s => (a =? b) && starts_with p s
  | _, [] => false
  end.

(** [s.strip_prefix(p)] *)
Definition strip_prefix (p s : str) : option str :=
  if starts_with p s then Some (drop (length p) s) else None.

(** [s.strip_suffix(p)] *)
Definition strip_suffix (p s : str) : option str :=
  if starts_with (rev p) (rev s) then Some (take (length s - length p) s) else None.

(** [s.ends_with(c)] *)
Definition ends_with (c : Z) (s : str) : bool :=
  match last s with Some d => d =? c | None => false end.

(** [s.contains(c)] *)
Definition contains (c : Z) (s : str) : bool := existsb (Z.eqb c) s.

(** [s.split_once(c)] *)
Fixpoint split_once (c : Z) (s : str) : option (str * str) :=
  match s with
  | [] => None
  | x :: s => if x =? c then Some ([], s) else prod_map (cons x) id <$> split_once c s
  end.

(** [s.rsplit_once(c)] *)
Fixpoint rsplit_once (c : Z) (s : str) : option (str * str) :=
  match s with
  | [] => None
  | x :: s' =>
      match rsplit_once c s' with
      | Some (a, b) => Some (x :: a, b)
      | None => if x =? c then Some ([], s') else None
      end
  end.

(** [s.split(c)] *)
Fixpoint split_on (c : Z) (s : str) : list str :=
  match s with
  | [] => [[]]
  | x :: s =>
      if x =? c then [] :: split_on c s
      else match split_on c s with
           | l :: ls => (x :: l) :: ls
           | [] => [[x]]
           end
  end.

Definition trim_start (s : str) : str := drop_while is_whitespace s.
Definition trim_end (s : str) : str := rev (drop_while is_whitespace (rev s)).
(** [s.trim()] *)
Definition trim (s : str) : str := trim_end (trim_start s).

Definition LF : Z := 10.
Definition CR : Z := 13.

(** A line ended by LF loses the LF and one CR before it. *)
Definition strip_cr (l : str) : str :=
  match strip_suffix [CR] l with Some l => l | None => l end.

Fixpoint lines_acc (s acc : str) : list str :=
  match s with
  | [] => match acc with [] => [] | _ => [rev acc] end
  | c :: s => if c =? LF then strip_cr (rev acc) :: lines_acc s [] else lines_acc s (c :: acc)
  end.
(** [s.lines()] *)
Definition lines (s : str) : list str := lines_acc s [].

Lemma starts_with_app p s : starts_with p (p ++ s) = true.
Proof. induction p; cbn; [done|]. by rewrite Z.eqb_refl. Qed.

Lemma starts_with_spec p s : starts_with p s = true <-> exists r, s = p ++ r.
Proof.
  revert s; induction p as [|a p IH]; intros s; cbn; [naive_solver|].
  destruct s as [|b s]; [split; [done | by intros [r ?]]|].
  rewrite andb_true_iff, Z.eqb_eq, IH. split.
  - intros [-> [r ->]]. by exists r.
  - intros [r Hr]. injection Hr as -> ->. eauto.
Qed.

Lemma strip_prefix_app p s : strip_prefix p (p ++ s) = Some s.
Proof. unfold strip_prefix. by rewrite starts_with_app, drop_app_length. Qed.

Lemma strip_suffix_app p s : strip_suffix p (s ++ p) = Some s.
Proof.
  unfold strip_suffix. rewrite rev_app_distr, starts_with_app.
  rewrite length_app. replace (_ + _ - _)%nat with (length s) by lia. by rewrite take_app_length.
Qed.

Lemma split_once_stop c a b : forallb (fun x => negb (x =? c)) a = true ->
  split_once c (a ++ c :: b) = Some (a, b).
Proof.
  induction a as [|x a IH]; cbn; intros H; [by rewrite Z.eqb_refl|].
  apply andb_prop in H as [Hx Ha]. apply negb_true_iff in Hx. by rewrite Hx, IH.
Qed.

Lemma rsplit_once_spec c s :
  match rsplit_once c s with
  | Some (a, b) => s = a ++ c :: b /\ Forall (fun x => x <> c) b
  | None => Forall (fun x => x <> c) s
  end.
Proof.
  induction s as [|x s IH]; cbn; [done|].
  destruct (rsplit_once c s) as [[a b]|].
  - destruct IH as [-> ?]. done.
  - destruct (Z.eqb_spec x c) as [->|]; [done|]. by constructor.
Qed.

Lemma split_once_spec c s :
  match split_once c s with
  | Some (a, b) => s = a ++ c :: b /\ Forall (fun x => x <> c) a
  | None => Forall (fun x => x <> c) s
  end.
Proof.
  induction s as [|x s IH]; cbn; [done|].
  destruct (Z.eqb_spec x c) as [->|]; [done|].
  destruct (split_once c s) as [[a b]|]; cbn; [|by constructor].
  destruct IH as [-> ?]. split; [done|]. by constructor.
Qed.

Lemma lines_acc_app_LF l s acc : Forall (fun c => c <> LF) l ->
  lines_acc (l ++ LF :: s) acc = strip_cr (rev acc ++ l) :: lines_acc s [].
Proof.
  intros H. revert acc. induction H as [|c l Hc Hl IH]; intros acc; cbn.
  { by rewrite app_nil_r. }
  destruct (Z.eqb_spec c LF); [done|]. rewrite IH. cbn. by rewrite <- app_assoc.
Qed.

(** The first CRLF-terminated line. *)
Lemma lines_crlf l s : Forall (fun c => c <> LF) l ->
  lines (l ++ CR :: LF :: s) = l :: lines s.
Proof.
  intros H. unfold lines.
  change (CR :: LF :: s) with ([CR] ++ LF :: s). rewrite app_assoc.
  rewrite lines_acc_app_LF.
  - unfold strip_cr. by rewrite app_nil_l, strip_suffix_app.
  - apply Forall_app; split; [done|]. by repeat constructor.
Qed.

Lemma lines_crlf_end l : Forall (fun c => c <> LF) l -> l <> [] -> lines l = [l].
Proof.
  intros H Hne. unfold lines.
  assert (forall acc, acc ++ l <> [] -> lines_acc l (rev acc) = [acc ++ l]) as Hacc.
  { induction H as [|c l Hc Hl IH]; intros acc Hn; cbn.
    - rewrite app_nil_r in *. destruct (rev acc) eqn:E.
      + apply (f_equal (@rev Z)) in E. rewrite rev_involutive in E. by subst.
      + rewrite <- E. by rewrite rev_involutive.
    - destruct (Z.eqb_spec c LF); [done|].
      destruct l as [|d l].
      + cbn. destruct (rev acc ++ [c]) eqn:E; [by destruct (rev acc)|].
        by rewrite rev_involutive.
      + specialize (IH ltac:(done) (acc ++ [c])).
        rewrite rev_app_distr in IH. cbn [rev app] in IH. rewrite <- app_assoc in IH.
        apply IH. by destruct acc. }
  by apply (Hacc []).
Qed.

(** ** Numbers in text *)
Fixpoint dec_digits (fuel : nat) (n : Z) (acc : str) : str :=
  match fuel with
  | O => acc
  | S fuel => let acc := 48 + n mod 10 :: acc in
              if n / 10 =? 0 then acc else dec_digits fuel (n / 10) acc
  end.
(** [format!("{}", n)] for [n >= 0] (twenty digits hold every [u64]). *)
Definition fmt_dec (n : Z) : str := dec_digits 40 n [].
(** [format!("{:08}", n)] *)
Definition fmt_dec08 (n : Z) : str :=
  let d := fmt_dec n in replicate (8 - length d) 48 ++ d.

Fixpoint digits_value (s : str) (acc : Z) : option Z :=
  match s with
  | [] => Some acc
  | c :: s => if is_ascii_digit c then digits_value s (10 * acc + (c - 48)) else None
  end.

(** [s.parse::<uN>()]: an optional [+], at least one digit, no overflow. *)
Definition parse_unsigned (mx : Z) (s : str) : option Z :=
  let s := match s with 43 :: s => s | _ => s end in
  match s with
  | [] => None
  | _ => match digits_value s 0 with
         | Some n => if n <=? mx then Some n else None
         | None => None
         end
  end.

(** [s.parse::<i32>()] *)
Definition parse_i32 (s : str) : option Z :=
  match s with
  | 45 :: d => match d with
               | [] => None
               | _ => match digits_value d 0 with
                      | Some n => if n <=? 2147483648 then Some (- n) else None
                      | None => None
                      end
               end
  | _ => parse_unsigned i32_max s
  end.

Definition hex_value (c : Z) : option Z :=
  if is_ascii_digit c then Some (c - 48)
  else if (97 <=? c) && (c <=? 102) then Some (c - 87)
  else if (65 <=? c) && (c <=? 70) then Some (c - 55)
  else None.

Fixpoint hex_digits_value (s : str) (acc : Z) : option Z :=
  match s with
  | [] => Some acc
  | c :: s => match hex_value c with Some v => hex_digits_value s (16 * acc + v) | None => None end
  end.

(** [u8::from_str_radix(s, 16)]: a leading [+] is accepted. *)
Definition u8_from_hex (s : str) : option Z :=
  let s := match s with 43 :: s => s | _ => s end in
  match s with
  | [] => None
  | _ => match hex_digits_value s 0 with
         | Some n => if n <=? 255 then Some n else None
         | None => None
         end
  end.

Definition hex_upper (v : Z) : Z := if v <? 10 then 48 + v else 55 + v.
(** [format!("{:02X}", b)] for a byte *)
Definition fmt_hex02 (b : Z) : str := [hex_upper (b / 16); hex_upper (b mod 16)].

Lemma dec_digits_app fuel n acc : dec_digits fuel n acc = dec_digits fuel n [] ++ acc.
Proof.
  revert n acc. induction fuel as [|fuel IH]; intros n acc; cbn -[Z.div Z.modulo]; [done|].
  case_match; [done|]. rewrite IH, (IH _ [_]), <- app_assoc. done.
Qed.

Lemma digits_value_app a b acc v : digits_value a acc = Some v ->
  digits_value (a ++ b) acc = digits_value b v.
Proof.
  revert acc. induction a as [|c a IH]; cbn -[Z.mul]; intros acc H; [by injection H as ->|].
  case_match; [|done]. auto.
Qed.

Lemma is_digit_of n : 0 <= n < 10 -> is_ascii_digit (48 + n) = true.
Proof. unfold is_ascii_digit. lia. Qed.

Lemma digits_value_digits fuel n a : 0 <= n < 10 ^ Z.of_nat fuel -> (0 < fuel)%nat ->
  digits_value (dec_digits fuel n []) a
  = Some (a * 10 ^ Z.of_nat (length (dec_digits fuel n [])) + n).
Proof.
  revert n a. induction fuel as [|fuel IH]; intros n a Hn Hf; [lia|].
  rewrite Nat2Z.inj_succ, Z.pow_succ_r in Hn by lia.
  cbn [dec_digits].
  assert (0 <= n mod 10 < 10) by (apply Z.mod_pos_bound; lia).
  pose proof (Z.div_mod n 10).
  destruct (Z.eqb_spec (n / 10) 0) as [E|E].
  - cbn -[Z.mul Z.modulo Z.div Z.add]. rewrite is_digit_of by done.
    change (10 ^ Z.of_nat 1) with 10. f_equal. lia.
  - assert (0 <= n / 10) by (apply Z.div_pos; lia).
    assert (0 < fuel)%nat. { destruct fuel; [|lia]. cbn in Hn. lia. }
    rewrite dec_digits_app.
    erewrite digits_value_app; [|apply IH; [|done]; split; [lia|];
      apply Z.div_lt_upper_bound; lia].
    rewrite length_app. cbn -[Z.mul Z.modulo Z.div Z.add Z.pow]. rewrite is_digit_of by done.
    f_equal. replace (Z.of_nat (length _ + 1)) with (Z.of_nat (length (dec_digits fuel (n / 10) [])) + 1) by lia.
    rewrite Z.pow_add_r by lia. lia.
Qed.

Lemma dec_digits_nonempty fuel n acc : (0 < fuel)%nat -> dec_digits fuel n acc <> [].
Proof.
  destruct fuel; [lia|]. intros _. cbn -[Z.div Z.modulo]. case_match; [done|].
  rewrite dec_digits_app. by destruct (dec_digits fuel _ _).
Qed.

Lemma dec_digits_all fuel n : 0 <= n -> Forall (fun c => is_ascii_digit c = true) (dec_digits fuel n []).
Proof.
  revert n. induction fuel as [|fuel IH]; intros n Hn; cbn -[Z.div Z.modulo]; [constructor|].
  assert (0 <= n mod 10 < 10) by (apply Z.mod_pos_bound; lia).
  case_match; [by repeat constructor; apply is_digit_of|].
  rewrite dec_digits_app. apply Forall_app; split.
  - apply IH. apply Z.div_pos; lia.
  - repeat constructor. by apply is_digit_of.
Qed.

Lemma digits_value_zeros k s : digits_value (replicate k 48 ++ s) 0 = digits_value s 0.
Proof. induction k; cbn; [done|]. exact IHk. Qed.

Lemma parse_unsigned_digits mx s n :
  s <> [] -> Forall (fun c => is_ascii_digit c = true) s ->
  digits_value s 0 = Some n -> n <= mx -> parse_unsigned mx s = Some n.
Proof.
  intros Hne Hd Hv Hn. unfold parse_unsigned.
  destruct s as [|c s]; [done|]. apply Forall_cons in Hd as [Hc _].
  assert (c <> 43) by (unfold is_ascii_digit in Hc; lia).
  replace (match c :: s with 43 :: s' => s' | _ => c :: s end) with (c :: s)
    by (repeat case_match; simplify_eq; done).
  rewrite Hv. case_match; bool_cases; [done | lia].
Qed.

Lemma fmt_dec_digits n : 0 <= n -> Forall (fun c => is_ascii_digit c = true) (fmt_dec n).
Proof. apply dec_digits_all. Qed.

Lemma parse_fmt_dec mx n : 0 <= n <= mx -> mx < 10 ^ 40 -> parse_unsigned mx (fmt_dec n) = Some n.
Proof.
  intros Hn Hmx. apply parse_unsigned_digits.
  - by apply dec_digits_nonempty; lia.
  - apply fmt_dec_digits; lia.
  - unfold fmt_dec. rewrite digits_value_digits; [f_equal; lia| |lia]. cbn -[Z.pow]. lia.
  - lia.
Qed.

Lemma parse_fmt_dec08 mx n : 0 <= n <= mx -> mx < 10 ^ 40 -> parse_unsigned mx (fmt_dec08 n) = Some n.
Proof.
  intros Hn Hmx. apply parse_unsigned_digits.
  - unfold fmt_dec08, fmt_dec. intros [_ H]%app_eq_nil. by apply dec_digits_nonempty in H; [|lia].
  - apply Forall_app; split; [|apply fmt_dec_digits; lia].
    apply Forall_replicate. done.
  - unfold fmt_dec08, fmt_dec. rewrite digits_value_zeros, digits_value_digits;
      [f_equal; lia| |lia]. cbn -[Z.pow]. lia.
  - lia.
Qed.

(** [{:08}] is exactly eight characters below 10^8. *)
Lemma dec_digits_length fuel k n : 0 <= n < 10 ^ Z.of_nat k -> (0 < k)%nat ->
  (length (dec_digits fuel n []) <= k)%nat.
Proof.
  revert k n. induction fuel as [|fuel IH]; intros k n Hn Hk; cbn -[Z.div Z.modulo]; [lia|].
  case_match eqn:E; [cbn; lia|]. apply Z.eqb_neq in E.
  rewrite dec_digits_app, length_app. cbn.
  destruct k as [|k]; [lia|].
  rewrite Nat2Z.inj_succ, Z.pow_succ_r in Hn by lia.
  destruct k as [|k].
  { cbn in Hn. rewrite Z.div_small in E; lia. }
  enough (length (dec_digits fuel (n / 10) []) <= S k)%nat by lia.
  apply IH; [|lia]. split; [apply Z.div_pos; lia|]. apply Z.div_lt_upper_bound; lia.
Qed.

Lemma fmt_dec08_length n : 0 <= n < 10 ^ 8 -> length (fmt_dec08 n) = 8%nat.
Proof.
  intros Hn. unfold fmt_dec08, fmt_dec. rewrite length_app, length_replicate.
  pose proof (dec_digits_length 40 8 n Hn ltac:(lia)). lia.
Qed.

Lemma fmt_dec08_digits n : 0 <= n -> Forall (fun c => is_ascii_digit c = true) (fmt_dec08 n).
Proof.
  intros. apply Forall_app; split; [by apply Forall_replicate | by apply fmt_dec_digits].
Qed.

Lemma digit_not_whitespace c : is_ascii_digit c = true -> is_whitespace c = false.
Proof. unfold is_ascii_digit, is_whitespace. lia. Qed.

Lemma trim_id s : Forall (fun c => is_whitespace c = false) s -> trim s = s.
Proof.
  intros H. unfold trim, trim_start, trim_end.
  assert (forall l, Forall (fun c => is_whitespace c = false) l -> drop_while is_whitespace l = l) as Hd.
  { intros l Hl. destruct Hl as [|c l Hc Hl]; [done|]. cbn -[is_whitespace]. by rewrite Hc. }
  rewrite (Hd s) by done. rewrite (Hd (rev s)) by (by apply List.Forall_rev).
  apply rev_involutive.
Qed.
