(* ===== verification/Float.v ===== *)
(** * IEEE 754 arithmetic: Rust's [f32] and [f64]

    Values and rounding are the Standard Library's [SpecFloat] (round to
    nearest, ties to even).  Comparison is by exact value, so it does not depend
    on how a value is normalised.  Casts to integers truncate and saturate, and
    a [Duration] is a whole number of nanoseconds. *)
From S2P Require Import Prelude.
From Stdlib Require Export Floats.SpecFloat.

Abbreviation f32 := spec_float (only parsing).
Abbreviation f64 := spec_float (only parsing).

(** ** Conversions from integers and exact decimal literals *)
Definition f32_of_Z (z : Z) : spec_float := binary_normalize 24 128 z 0 false.
Definition f64_of_Z (z : Z) : spec_float := binary_normalize 53 1024 z 0 false.

(** [f64::from(f32)] and [f64 as f32] *)
Definition round_to (prec emax : Z) (f : spec_float) : spec_float :=
  match f with
  | S754_finite s m e => binary_normalize prec emax (if s then Zneg m else Zpos m) e s
  | _ => f
  end.
Definition f64_of_f32 (f : spec_float) : spec_float := round_to 53 1024 f.
Definition f32_of_f64 (f : spec_float) : spec_float := round_to 24 128 f.

Definition add32 := SFadd 24 128.
Definition sub32 := SFsub 24 128.
Definition mul32 := SFmul 24 128.
Definition div32 := SFdiv 24 128.
Definition add64 := SFadd 53 1024.
Definition sub64 := SFsub 53 1024.
Definition mul64 := SFmul 53 1024.
Definition div64 := SFdiv 53 1024.

(** The literal [n / d]: both are exact, so one division rounds it correctly. *)
Definition lit32 (n d : Z) : spec_float := div32 (f32_of_Z n) (f32_of_Z d).
Definition lit64 (n d : Z) : spec_float := div64 (f64_of_Z n) (f64_of_Z d).

Definition fzero : spec_float := S754_zero false.
(** [f32::EPSILON] *)
Definition epsilon32 : spec_float := binary_normalize 24 128 1 (-23) false.

(** ** Comparison *)
Definition signed (s : bool) (m : positive) : Z := if s then Zneg m else Zpos m.

(** Compare [m1 * 2^e1] with [m2 * 2^e2]. *)
Definition dyadic_compare (m1 e1 m2 e2 : Z) : comparison :=
  let e := Z.min e1 e2 in
  Z.compare (m1 * 2 ^ (e1 - e)) (m2 * 2 ^ (e2 - e)).

Definition fcompare (a b : spec_float) : option comparison :=
  match a, b with
  | S754_nan, _ | _, S754_nan => None
  | S754_infinity s, S754_infinity t => Some (Bool.compare t s)
  | S754_infinity s, _ => Some (if s then Lt else Gt)
  | _, S754_infinity s => Some (if s then Gt else Lt)
  | S754_zero _, S754_zero _ => Some Eq
  | S754_zero _, S754_finite s _ _ => Some (if s then Gt else Lt)
  | S754_finite s _ _, S754_zero _ => Some (if s then Lt else Gt)
  | S754_finite s m e, S754_finite t n d => Some (dyadic_compare (signed s m) e (signed t n) d)
  end.

Definition flt (a b : spec_float) : bool := match fcompare a b with Some Lt => true | _ => false end.
Definition fle (a b : spec_float) : bool :=
  match fcompare a b with Some (Lt | Eq) => true | _ => false end.
Definition fgt a b := flt b a.
Definition fge a b := fle b a.
Definition feq (a b : spec_float) : bool := match fcompare a b with Some Eq => true | _ => false end.

Definition is_nan (a : spec_float) : bool := match a with S754_nan => true | _ => false end.

(** [a.max(b)], [a.min(b)]: a NaN operand is ignored. *)
Definition fmax (a b : spec_float) : spec_float :=
  if is_nan a then b else if is_nan b then a else if flt a b then b else a.
Definition fmin (a b : spec_float) : spec_float :=
  if is_nan a then b else if is_nan b then a else if flt b a then b else a.
(** [a.clamp(lo, hi)]: a NaN stays. *)
Definition fclamp (a lo hi : spec_float) : spec_float :=
  if flt a lo then lo else if flt hi a then hi else a.

(** ** To integers *)
(** The integer part of [m * 2^e], rounded towards zero, up, or half away from zero. *)
Definition trunc_abs (m e : Z) : Z := if 0 <=? e then m * 2 ^ e else m / 2 ^ (- e).
Definition ceil_abs (m e : Z) : Z := if 0 <=? e then m * 2 ^ e else - (- m / 2 ^ (- e)).
Definition round_abs (m e : Z) : Z :=
  if 0 <=? e then m * 2 ^ e else (m + 2 ^ (- e - 1)) / 2 ^ (- e).

Definition saturate (mx z : Z) : Z := Z.max 0 (Z.min z mx).

(** [f as uN], for [mx = 2^N - 1] *)
Definition as_uint (mx : Z) (f : spec_float) : Z :=
  match f with
  | S754_finite false m e => saturate mx (trunc_abs (Zpos m) e)
  | S754_infinity false => mx
  | _ => 0
  end.
(** [f.ceil() as uN] *)
Definition ceil_as_uint (mx : Z) (f : spec_float) : Z :=
  match f with
  | S754_finite false m e => saturate mx (ceil_abs (Zpos m) e)
  | S754_infinity false => mx
  | _ => 0
  end.
(** [f.round() as uN] *)
Definition round_as_uint (mx : Z) (f : spec_float) : Z :=
  match f with
  | S754_finite false m e => saturate mx (round_abs (Zpos m) e)
  | S754_infinity false => mx
  | _ => 0
  end.

(** [f as iN]: truncated and saturated; a NaN is zero. *)
Definition as_int (lo hi : Z) (f : spec_float) : Z :=
  match f with
  | S754_finite s m e => Z.max lo (Z.min hi ((if s then -1 else 1) * trunc_abs (Zpos m) e))
  | S754_infinity s => if s then lo else hi
  | _ => 0
  end.
(** [f.floor()] and [f.trunc()] of an [f64] *)
Definition ffloor (f : spec_float) : spec_float :=
  match f with
  | S754_finite s m e => if 0 <=? e then f else binary_normalize 53 1024 (signed s m / 2 ^ (- e)) 0 s
  | _ => f
  end.
Definition ftrunc (f : spec_float) : spec_float :=
  match f with
  | S754_finite s m e => if 0 <=? e then f else binary_normalize 53 1024 (Z.quot (signed s m) (2 ^ (- e))) 0 s
  | _ => f
  end.
Definition is_finite (f : spec_float) : bool :=
  match f with S754_nan | S754_infinity _ => false | _ => true end.

(** ** Durations *)
(** [d.as_secs_f64()] of a duration in nanoseconds *)
Definition as_secs_f64 (ns : Z) : spec_float :=
  add64 (f64_of_Z (ns / 1000000000)) (div64 (f64_of_Z (ns mod 1000000000)) (f64_of_Z 1000000000)).

(** [d.as_secs_f32()] *)
Definition as_secs_f32 (ns : Z) : spec_float :=
  add32 (f32_of_Z (ns / 1000000000)) (div32 (f32_of_Z (ns mod 1000000000)) (f32_of_Z 1000000000)).

(** [a / b] rounded to nearest, ties to even. *)
Definition div_half_even (a b : Z) : Z :=
  let q := a / b in
  let r := a mod b in
  match 2 * r ?= b with
  | Lt => q
  | Gt => q + 1
  | Eq => if Z.even q then q else q + 1
  end.

(** [Duration::from_secs_f64] of a value that is not negative: nanoseconds. *)
Definition duration_from_secs_f64 (f : spec_float) : Z :=
  match f with
  | S754_finite false m e =>
      if 0 <=? e then Zpos m * 2 ^ e * 1000000000
      else div_half_even (Zpos m * 1000000000) (2 ^ (- e))
  | _ => 0
  end.

(** ** Facts *)
Lemma saturate_bound mx z : 0 <= mx -> 0 <= saturate mx z <= mx.
Proof. unfold saturate. lia. Qed.

Lemma as_uint_bound mx f : 0 <= mx -> 0 <= as_uint mx f <= mx.
Proof. intros. unfold as_uint. repeat case_match; try lia; by apply saturate_bound. Qed.

Lemma dyadic_compare_le m1 e1 m2 e2 : dyadic_compare m1 e1 m2 e2 <> Gt <->
  m1 * 2 ^ (e1 - Z.min e1 e2) <= m2 * 2 ^ (e2 - Z.min e1 e2).
Proof. unfold dyadic_compare. apply Z.compare_le_iff. Qed.

(** The exact value of the float for an integer of at most 24 bits, up to the
    exponent. *)
Definition represents (f : spec_float) (n : Z) : Prop :=
  exists m e, f = S754_finite false m e /\ e <= 0 /\ Zpos m = n * 2 ^ (- e).

Lemma ceil_abs_le k d n mn : mn <= 0 -> mn <= d ->
  k * 2 ^ (d - mn) <= n * 2 ^ (- mn) -> ceil_abs k d <= n.
Proof.
  intros H0 Hd H. unfold ceil_abs. destruct (Z.leb_spec 0 d).
  - replace (d - mn) with (d + - mn) in H by lia. rewrite Z.pow_add_r in H by lia.
    assert (0 < 2 ^ (- mn)) by (apply Z.pow_pos_nonneg; lia). nia.
  - replace (- mn) with (- d + (d - mn)) in H by lia. rewrite Z.pow_add_r in H by lia.
    assert (0 < 2 ^ (d - mn)) by (apply Z.pow_pos_nonneg; lia).
    assert (0 < 2 ^ (- d)) by (apply Z.pow_pos_nonneg; lia).
    assert (k <= n * 2 ^ (- d)) by nia.
    assert (- n <= - k / 2 ^ (- d)); [|lia]. apply Z.div_le_lower_bound; nia.
Qed.

(** A float at most the integer [n] has a ceiling at most [n]. *)
Lemma ceil_le mx f g n : 0 <= n <= mx -> represents g n -> fle f g = true -> ceil_as_uint mx f <= n.
Proof.
  intros Hn (m & e & -> & He & Hm). unfold fle, ceil_as_uint.
  destruct f as [s|s| |s k d]; cbn [fcompare]; [lia | destruct s; [lia | done] | done |].
  destruct s; [lia|]. cbn [signed]. intros H.
  assert (dyadic_compare (Z.pos k) d (Z.pos m) e <> Gt) as Hc
    by (destruct (dyadic_compare (Z.pos k) d (Z.pos m) e); done).
  rewrite dyadic_compare_le in Hc.
  rewrite Hm in Hc. rewrite <- (Z.mul_assoc n), <- (Z.pow_add_r 2 (- e)) in Hc by lia.
  unfold saturate. apply Z.max_lub; [lia|]. etrans; [apply Z.le_min_l|].
  apply (ceil_abs_le _ _ _ (Z.min d e)); [lia..|].
  replace (- e + (e - Z.min d e)) with (- Z.min d e) in Hc by lia. exact Hc.
Qed.

(** ** Signs

    The sign of a rounded result is the sign of the exact one. *)
Definition nonneg (f : spec_float) : Prop :=
  match f with S754_zero _ | S754_finite false _ _ | S754_infinity false => True | _ => False end.

Lemma shr_1_nonneg r : 0 <= shr_m r -> 0 <= shr_m (shr_1 r).
Proof. destruct r as [[|[p|p|]|[p|p|]] b c]; cbn; lia. Qed.

Lemma iter_pos_inv {A} (P : A -> Prop) (f : A -> A) n : (forall a, P a -> P (f a)) ->
  forall a, P a -> P (iter_pos f n a).
Proof. intros Hf. induction n; cbn; eauto. Qed.

Lemma shr_fexp_nonneg prec emax m e l : 0 <= m -> 0 <= shr_m (shr_fexp prec emax m e l).1.
Proof.
  intros Hm. unfold shr_fexp, shr.
  assert (0 <= shr_m (shr_record_of_loc m l)) by (by destruct l as [|[]]).
  case_match; cbn; [done| |done].
  apply (iter_pos_inv (fun r => 0 <= shr_m r)); [apply shr_1_nonneg|done].
Qed.

Lemma normalize_nonneg prec emax z e : 0 <= z -> nonneg (binary_normalize prec emax z e false).
Proof.
  intros Hz. unfold binary_normalize. destruct z as [|m|m]; [done| |lia].
  unfold binary_round. destruct (shl_align m e _) as [mz ez]. unfold binary_round_aux.
  pose proof (shr_fexp_nonneg prec emax (Z.pos mz) ez loc_Exact ltac:(lia)) as H1.
  destruct (shr_fexp prec emax (Z.pos mz) ez loc_Exact) as [r1 e1]. cbn [fst] in H1.
  assert (0 <= round_nearest_even (shr_m r1) (loc_of_shr_record r1)) as H2.
  { unfold round_nearest_even. repeat case_match; lia. }
  pose proof (shr_fexp_nonneg prec emax _ e1 loc_Exact H2) as H3.
  destruct (shr_fexp prec emax (round_nearest_even _ _) e1 loc_Exact) as [r2 e2]. cbn [fst] in H3.
  destruct (shr_m r2); [done| |lia]. by destruct (_ <=? _).
Qed.

Lemma nonneg_le f : nonneg f -> fle fzero f = true /\ is_nan f = false.
Proof. destruct f as [|[]| |[]]; cbn; intros; done. Qed.

Lemma fcompare_opp a b : fcompare b a = CompOpp <$> fcompare a b.
Proof.
  destruct a as [|[]| |[]], b as [|[]| |[]]; try done; cbn; f_equal;
    unfold dyadic_compare; rewrite Z.min_comm; apply Z.compare_antisym.
Qed.

Lemma fnot_lt_le a b : is_nan a = false -> is_nan b = false -> flt a b = false -> fle b a = true.
Proof.
  intros Ha Hb. unfold flt, fle. rewrite (fcompare_opp a b).
  destruct (fcompare a b) as [[]|] eqn:E; try done. by destruct a as [|[]| |[]], b as [|[]| |[]].
Qed.

Lemma fle_refl a : is_nan a = false -> fle a a = true.
Proof.
  intros Ha. apply fnot_lt_le; [done..|].
  destruct a as [|[]| |[]]; try done; unfold flt; cbn; unfold dyadic_compare; by rewrite Z.compare_refl.
Qed.

(** [x.max(0.0).min(b)] lies between zero and [b], whatever [x]. *)
Lemma max_min_between x b : nonneg b ->
  fle fzero (fmin (fmax x fzero) b) = true /\ fle (fmin (fmax x fzero) b) b = true.
Proof.
  intros Hb. destruct (nonneg_le b Hb) as [Hb0 Hbn].
  assert (nonneg (fmax x fzero)) as Hx.
  { unfold fmax. destruct x as [|[]| |[]]; cbn; try done. }
  destruct (nonneg_le _ Hx) as [Hx0 Hxn]. unfold fmin. rewrite Hxn, Hbn.
  destruct (flt b (fmax x fzero)) eqn:E; [by rewrite fle_refl|].
  split; [done|]. by apply fnot_lt_le.
Qed.

(** ** Integers below [2^53] are exact *)
Lemma digits2_lower m : 2 ^ (Zpos (digits2_pos m) - 1) <= Zpos m.
Proof.
  induction m as [p IH|p IH|]; cbn [digits2_pos]; [..|done];
    rewrite Pos2Z.inj_succ, Z.sub_succ_l, Z.pow_succ_r by lia; lia.
Qed.

Lemma digits2_shift m d : Zpos (digits2_pos (Pos.iter xO m d)) = Zpos (digits2_pos m) + Zpos d.
Proof.
  induction d as [|d IH] using Pos.peano_ind; [cbn [Pos.iter digits2_pos]; lia|].
  rewrite Pos.iter_succ. cbn [digits2_pos]. lia.
Qed.

Lemma pos_shift_value m d : Zpos (Pos.iter xO m d) = Zpos m * 2 ^ Zpos d.
Proof.
  induction d as [|d IH] using Pos.peano_ind; [cbn [Pos.iter]; lia|].
  rewrite Pos.iter_succ, Pos2Z.inj_succ, Z.pow_succ_r by lia. rewrite Pos2Z.inj_xO. lia.
Qed.

(** A mantissa of exactly 53 digits is kept. *)
Lemma round_exact m e : Zpos (digits2_pos m) = 53 -> -1074 <= e <= 971 ->
  binary_round_aux 53 1024 false (Zpos m) e loc_Exact = S754_finite false m e.
Proof.
  intros Hd He. unfold binary_round_aux, shr_fexp, shr. cbn [Zdigits2].
  rewrite Hd. replace (fexp 53 1024 (53 + e) - e) with 0 by (unfold fexp, emin; lia).
  cbn [shr_record_of_loc shr_m loc_of_shr_record round_nearest_even Zdigits2].
  rewrite Hd. replace (fexp 53 1024 (53 + e) - e) with 0 by (unfold fexp, emin; lia).
  cbn [shr_record_of_loc shr_m]. rewrite (proj2 (Z.leb_le e (1024 - 53))) by lia. done.
Qed.

Lemma f64_of_Z_exact n : 1 <= n < 2 ^ 53 -> represents (f64_of_Z n) n.
Proof.
  intros Hn. destruct n as [|m|m]; [lia| |lia].
  unfold f64_of_Z, binary_normalize, binary_round, shl_align.
  assert (Zpos (digits2_pos m) <= 53) as Hd.
  { pose proof (digits2_lower m). apply Z.nlt_ge. intros Hd.
    assert (2 ^ 53 <= 2 ^ (Zpos (digits2_pos m) - 1)) by (apply Z.pow_le_mono_r; lia). lia. }
  replace (fexp 53 1024 (Z.pos (digits2_pos m) + 0) - 0) with (Zpos (digits2_pos m) - 53) by (unfold fexp, emin; lia).
  destruct (Z.pos (digits2_pos m) - 53) as [|d|d] eqn:E; [|lia|].
  - rewrite round_exact by lia. exists m, 0. rewrite Z.mul_1_r. done.
  - replace (fexp 53 1024 (Z.pos (digits2_pos m) + 0)) with (Zneg d) by (unfold fexp, emin; lia).
    rewrite round_exact by (rewrite ?digits2_shift; lia).
    exists (Pos.iter xO m d), (Zneg d). rewrite pos_shift_value. cbn [Z.opp]. split; [done|]. split; [lia|done].
Qed.

(** The last index of a dimension, [w as f64 - 1.0], is not negative. *)
Lemma pred_nonneg w : 1 <= w < 2 ^ 53 -> nonneg (sub64 (f64_of_Z w) (f64_of_Z 1)).
Proof.
  intros Hw. destruct (f64_of_Z_exact w Hw) as (m & e & -> & He & Hm).
  destruct (f64_of_Z_exact 1 ltac:(lia)) as (k & d & -> & Hd & Hk).
  unfold sub64, SFsub. apply normalize_nonneg. cbn [cond_Zopp].
  assert (forall p a mn, mn <= a -> Zpos (shl_align p a mn).1 = Zpos p * 2 ^ (a - mn)) as Hal.
  { intros p a mn Hle. unfold shl_align. destruct (mn - a) as [|q|q] eqn:E; cbn [fst]; [|lia|].
    - replace (a - mn) with 0 by lia. lia.
    - rewrite pos_shift_value. f_equal. f_equal. lia. }
  rewrite !Hal by lia. rewrite Hm, Hk, <- !Z.mul_assoc, <- !Z.pow_add_r by lia.
  replace (- e + (e - Z.min e d)) with (- Z.min e d) by lia.
  replace (- d + (d - Z.min e d)) with (- Z.min e d) by lia.
  assert (0 < 2 ^ (- Z.min e d)) by (apply Z.pow_pos_nonneg; lia). nia.
Qed.
