(* ===== verification/Auth.v ===== *)
(** * Authentication: user names, peer throttling, static credentials

    Models src/src/auth/username.rs, peer_limit.rs and static_password.rs. *)
From S2P Require Import Prelude Text.

(** ** username.rs *)
Inductive UsernameError :=
| UsernameEmpty | UsernameTooLong | UsernameControl | UsernamePunctuation | UsernameNoLocal.

(** [username.rs:45-53 normalize_local_account_name] *)
Definition normalize_local_account_name (username : str) : str :=
  let without_domain :=
    match rsplit_once 92 username with Some (_, user) => user | None => username end in
  match split_once 64 without_domain with Some (user, _) => user | None => without_domain end.

Section username.
Context `{Unicode}.

(** The characters a user name may hold.
    [username.rs:30-33 validate_username] *)
Definition username_char (c : Z) : bool :=
  is_alphanumeric c || existsb (Z.eqb c) [95; 45; 46; 92; 64].

(** [username.rs:17-42 validate_username] *)
Definition validate_username (username : str) : outcome UsernameError unit :=
  if bool_decide (username = []) then Err UsernameEmpty
  else if 255 <? slen username then Err UsernameTooLong
  else if contains 0 username || existsb is_control username then Err UsernameControl
  else if negb (forallb username_char username) then Err UsernamePunctuation
  else if bool_decide (normalize_local_account_name username = []) then Err UsernameNoLocal
  else Ok tt.
End username.

(** ** peer_limit.rs *)
Inductive IpAddr := V4 (octets : Z) | V6 (segments : Z).
#[export] Instance IpAddr_eq_dec : EqDecision IpAddr.
Proof. solve_decision. Defined.
#[export] Instance IpAddr_countable : Countable IpAddr.
Proof.
  apply (inj_countable' (fun ip => match ip with V4 a => inl a | V6 a => inr a end)
                        (fun s => match s with inl a => V4 a | inr a => V6 a end)).
  by intros [].
Defined.

(** [peer_limit.rs:7-11 Failure] *)
Record Failure := mkFailure { count : Z; at_ : Z }.

(** [peer_limit.rs:12-15 PeerGuard] *)
Record PeerGuard := mkPeerGuard { current : IpAddr; failures : gmap IpAddr Failure }.

Module Peer.
(** [peer_limit.rs:17-22 new] *)
Definition new : PeerGuard := mkPeerGuard (V4 0) ∅.
(** [peer_limit.rs:23-28 set_peer] *)
Definition set_peer (ip : IpAddr) (g : PeerGuard) : PeerGuard := mkPeerGuard ip (failures g).
(** [peer_limit.rs:29-34 peer] *)
Definition peer (g : PeerGuard) : IpAddr := current g.

(** The lock-out that follows the [count]-th failure.
    [peer_limit.rs:41-46 blocked_for] *)
Definition lock_for (count : Z) : option Z :=
  if count <=? 3 then None
  else if count =? 4 then Some (secs 5)
  else if count =? 5 then Some (secs 15)
  else Some (secs 60).

(** [peer_limit.rs:35-48 blocked_for] *)
Definition blocked_for (now : Z) (ip : IpAddr) (g : PeerGuard) : option Z :=
  e ← failures g !! ip;
  lock ← lock_for (count e);
  if since now (at_ e) <=? lock then Some (lock - since now (at_ e)) else None.

(** [peer_limit.rs:49-60 failure] *)
Definition failure (now : Z) (ip : IpAddr) (g : PeerGuard) : PeerGuard :=
  let c := match failures g !! ip with Some e => count e | None => 0 end in
  mkPeerGuard (current g) (<[ip := mkFailure (sat_add u8_max c 1) now]> (failures g)).

(** [peer_limit.rs:61-66 success] *)
Definition success (ip : IpAddr) (g : PeerGuard) : PeerGuard :=
  mkPeerGuard (current g) (delete ip (failures g)).

(** [peer_limit.rs:67-72 prune] *)
Definition prune (now : Z) (g : PeerGuard) : PeerGuard :=
  mkPeerGuard (current g) (filter (fun kv => since now (at_ kv.2) < secs 120) (failures g)).
End Peer.

(** ** static_password.rs *)
Inductive CredentialDecision := Accept | Reject.
#[export] Instance CredentialDecision_eq_dec : EqDecision CredentialDecision.
Proof. solve_decision. Defined.

(** A password that was put to the test: the peer it came from, and the verdict. *)
Record Check := mkCheck { by_peer : IpAddr; right : bool }.

(** The fields of IronRDP's [Credentials] the validator reads. *)
Record Credentials := mkCredentials { username : str; password : str }.

(** The argon2 crate: parsing of PHC strings and verification. *)
Class Argon2 := {
  PasswordHash : Type;
  parse_hash : str -> option PasswordHash;
  algorithm : PasswordHash -> str;
  verify_password : list Z -> PasswordHash -> bool;
}.

Inductive StaticError :=
| NoCredential | BadUser (e : UsernameError) | BadHash | NotArgon2id (user : str).

(** [static_password.rs:15-18 StaticPasswordValidator] *)
Record StaticPasswordValidator := mkStatic { hashes : list (str * str); peers : PeerGuard }.

Section static.
Context `{U : Unicode, A : Argon2}.

(** [static_password.rs:29-36 new_hashes] *)
Definition check_hash (user hash : str) : outcome StaticError unit :=
  match validate_username user with
  | Err e => Err (BadUser e)
  | Panic => Panic
  | Ok _ =>
      parsed ← ok_or BadHash (parse_hash hash);
      if eqs (algorithm parsed) (lit "argon2id") then Ok tt else Err (NotArgon2id user)
  end.

(** [static_password.rs:23-41 new_hashes] *)
Definition new_hashes (values : list (str * str)) : outcome StaticError StaticPasswordValidator :=
  let hashes := bt_collect values in
  if bool_decide (hashes = []) then Err NoCredential
  else mfold (fun _ kv => check_hash kv.1 kv.2) tt hashes ≫= fun _ =>
       Ok (mkStatic hashes Peer.new).

(** [static_password.rs:20-22 new_hash] *)
Definition new_hash (username hash : str) : outcome StaticError StaticPasswordValidator :=
  new_hashes [(username, hash)].

(** [static_password.rs:42-44 set_peer_ip] *)
Definition set_peer_ip (ip : IpAddr) (v : StaticPasswordValidator) :=
  mkStatic (hashes v) (Peer.set_peer ip (peers v)).

(** [static_password.rs:45-47 prune_stale_entries] *)
Definition prune_stale_entries (now : Z) (v : StaticPasswordValidator) :=
  mkStatic (hashes v) (Peer.prune now (peers v)).

(** [static_password.rs:70-78 validate] *)
Definition password_accepted (c : Credentials) (v : StaticPasswordValidator) : bool :=
  match bt_get (normalize_local_account_name (username c)) (hashes v) ≫= parse_hash with
  | Some h => verify_password (as_bytes (password c)) h
  | None => false
  end.

(** The decision, the password tests it took and the validator after it; [t_check]
    and [t_fail] are the clock reads of [blocked_for] and [failure].
    [static_password.rs:57-86 validate] *)
Definition validate (t_check t_fail : Z) (c : Credentials) (v : StaticPasswordValidator)
    : CredentialDecision * list Check * StaticPasswordValidator :=
  if negb (is_ok (validate_username (username c))) then (Reject, [], v)
  else
    let ip := Peer.peer (peers v) in
    match Peer.blocked_for t_check ip (peers v) with
    | Some _ => (Reject, [], v)
    | None =>
        let accepted := password_accepted c v in
        if accepted
        then (Accept, [mkCheck ip accepted], mkStatic (hashes v) (Peer.success ip (peers v)))
        else (Reject, [mkCheck ip accepted], mkStatic (hashes v) (Peer.failure t_fail ip (peers v)))
    end.
End static.

(** ** pam_validator.rs

    The PAM library, asked on a thread of its own: its verdict, or [None] when that
    thread panics. *)
Class Pam := { authenticate : forall (service user password : str), option bool }.

(** [pam_validator.rs:13-17 PamValidator] *)
Record PamValidator := mkPam { service : str; allowed : option str; pam_peers : PeerGuard }.

Section pam.
Context `{U : Unicode, P : Pam}.

(** [pam_validator.rs:22-28 new_with_allowed_username] *)
Definition new_with_allowed_username (service allowed : option str) : PamValidator :=
  mkPam (match service with Some s => s | None => lit "wrdp" end) allowed Peer.new.

(** [pam_validator.rs:29-31 set_peer_ip] *)
Definition pam_set_peer_ip (ip : IpAddr) (v : PamValidator) : PamValidator :=
  mkPam (service v) (allowed v) (Peer.set_peer ip (pam_peers v)).

(** [pam_validator.rs:32-34 prune_stale_entries] *)
Definition pam_prune_stale_entries (now : Z) (v : PamValidator) : PamValidator :=
  mkPam (service v) (allowed v) (Peer.prune now (pam_peers v)).

(** A panic of the library's thread is an error of the validation.
    [pam_validator.rs:81-118 validate] *)
Definition pam_validate (t_check t_fail : Z) (c : Credentials) (v : PamValidator) : outcome unit CredentialDecision * list Check * PamValidator :=
  if negb (is_ok (validate_username (username c))) then (Ok Reject, [], v)
  else
    let user := normalize_local_account_name (username c) in
    if match allowed v with Some a => negb (eqs a user) | None => false end then (Ok Reject, [], v)
    else
      let ip := Peer.peer (pam_peers v) in
      match Peer.blocked_for t_check ip (pam_peers v) with
      | Some _ => (Ok Reject, [], v)
      | None =>
          match authenticate (service v) user (password c) with
          | None => (Err tt, [], v)
          | Some true => (Ok Accept, [mkCheck ip true], mkPam (service v) (allowed v) (Peer.success ip (pam_peers v)))
          | Some false => (Ok Reject, [mkCheck ip false], mkPam (service v) (allowed v) (Peer.failure t_fail ip (pam_peers v)))
          end
      end.

(** PAM accepts only a valid name of the permitted account, from a peer that is not
    locked out, whose password the library has confirmed for that very account. *)
Lemma pam_accepts t1 t2 c v cs v' : pam_validate t1 t2 c v = (Ok Accept, cs, v') ->
  is_ok (validate_username (username c)) = true /\
  authenticate (service v) (normalize_local_account_name (username c)) (password c) = Some true /\
  Peer.blocked_for t1 (Peer.peer (pam_peers v)) (pam_peers v) = None /\
  forall a, allowed v = Some a -> normalize_local_account_name (username c) = a.
Proof.
  unfold pam_validate. destruct (is_ok _); [|done]. cbn [negb].
  destruct (allowed v) as [a|]; [unfold eqs; case_bool_decide as B; cbn [negb]; [|done]|];
    destruct (Peer.blocked_for _ _ _); try done; destruct (authenticate _ _ _) as [[]|]; try done; intros _; split_and!; try done; congruence.
Qed.
End pam.

(** ** User names *)
(** The local name is a part of the user name that holds neither separator. *)
Lemma normalize_part u :
  (exists a b, u = a ++ normalize_local_account_name u ++ b) /\
  Forall (fun c => c <> 92 /\ c <> 64) (normalize_local_account_name u).
Proof.
  unfold normalize_local_account_name.
  pose proof (rsplit_once_spec 92 u) as Hr.
  set (w := match rsplit_once 92 u with Some (_, user) => user | None => u end).
  assert (exists a, u = a ++ w) as [a Ha].
  { subst w. destruct (rsplit_once 92 u) as [[a b]|]; [|by exists []].
    destruct Hr as [-> _]. exists (a ++ [92]). by rewrite <- app_assoc. }
  assert (Forall (fun c => c <> 92) w) as Hw.
  { subst w. by destruct (rsplit_once 92 u) as [[? ?]|]; [destruct Hr|]. }
  clearbody w. pose proof (split_once_spec 64 w) as Hs.
  destruct (split_once 64 w) as [[x y]|].
  - destruct Hs as [-> Hx]. apply Forall_app in Hw as [Hw _]. split.
    + by exists a, (64 :: y).
    + apply Forall_and. by split.
  - split; [exists a, []; by rewrite app_nil_r|]. apply Forall_and. by split.
Qed.

Lemma contains_spec c s : contains c s = true <-> c ∈ s.
Proof.
  unfold contains. rewrite existsb_exists. setoid_rewrite list_elem_of_In.
  setoid_rewrite Z.eqb_eq. naive_solver.
Qed.

Section username_facts.
Context `{Unicode}.

Lemma username_char_not_control c : username_char c = true -> is_control c = false.
Proof.
  unfold username_char. intros [Ha|Hp]%orb_prop; [by apply is_alphanumeric_not_control|].
  apply existsb_exists in Hp as (d & Hd & ->%Z.eqb_eq).
  cbn in Hd. destruct_or!; subst; done.
Qed.

(** Acceptance, spelled out. *)
Lemma validate_username_ok u :
  validate_username u = Ok tt <->
  u <> [] /\ slen u <= 255 /\ Forall (fun c => username_char c = true) u /\
  normalize_local_account_name u <> [].
Proof.
  unfold validate_username. split.
  - intros Hv. repeat case_bool_decide; repeat case_match; bool_cases; try done.
    apply negb_false_iff, forallb_Forall_true in H4. done.
  - intros (Hne & Hl & Hc & Hn).
    rewrite bool_decide_false by done.
    destruct (Z.ltb_spec 255 (slen u)); [lia|].
    assert (existsb is_control u = false) as Hctl.
    { apply not_true_is_false. intros (c & Hin & Hcc)%existsb_exists.
      rewrite List.Forall_forall in Hc. apply Hc in Hin.
      by rewrite username_char_not_control in Hcc. }
    assert (contains 0 u = false) as Hz.
    { apply not_true_is_false. intros Hin%contains_spec.
      rewrite Forall_forall in Hc. apply Hc, username_char_not_control in Hin. done. }
    rewrite Hz, Hctl. cbn. rewrite (proj2 (forallb_Forall_true _ _) Hc). cbn.
    by rewrite bool_decide_false.
Qed.

(** A user name the validator accepts hands PAM and the session manager a
    local account name that is not empty, has at most 255 bytes, and is made
    of alphanumeric characters, ['_'], ['-'] and ['.'] only: no control
    character, no domain separator, no shell or path punctuation. *)
Theorem validated_local_name_safe u :
  validate_username u = Ok tt ->
  let n := normalize_local_account_name u in
  n <> [] /\ slen n <= 255 /\
  Forall (fun c => is_control c = false /\
                   (is_alphanumeric c = true \/ c = 95 \/ c = 45 \/ c = 46)) n.
Proof.
  intros (Hne & Hl & Hc & Hn)%validate_username_ok n. subst n. split; [done|].
  destruct (normalize_part u) as [(a & b & Hu) Hsep].
  split.
  { rewrite Hu, !slen_app in Hl. pose proof (slen_nonneg a). pose proof (slen_nonneg b). lia. }
  rewrite Hu, !Forall_app in Hc. destruct Hc as (_ & Hc & _).
  apply Forall_forall. intros c Hin. rewrite Forall_forall in Hc, Hsep.
  specialize (Hc c Hin). specialize (Hsep c Hin).
  split; [by apply username_char_not_control|].
  unfold username_char in Hc. apply orb_prop in Hc as [?|Hp]; [by left|right].
  apply existsb_exists in Hp as (d & Hd & ->%Z.eqb_eq). cbn in Hd. destruct_or!; naive_solver.
Qed.
End username_facts.

Lemma validated_local_name_safe_witness :
  validate_username (lit "EXAMPLE\alice@example.com") = Ok tt /\
  normalize_local_account_name (lit "EXAMPLE\alice@example.com") <> [].
Proof.
  split; [by vm_compute|].
  apply (validated_local_name_safe (lit "EXAMPLE\alice@example.com")). by vm_compute.
Defined.

(** ** Throttling *)
Section decision.
Context `{U : Unicode, A : Argon2}.

(** Credentials are accepted exactly when the user name is valid, the peer
    is not locked out, and the stored hash of the normalised account verifies
    the password; acceptance forgets the peer's failures, and a rejection
    while locked out neither runs the verification nor extends the lock. *)
Theorem validate_decision t1 t2 c (v : StaticPasswordValidator) :
  let ip := current (peers v) in
  let r := validate t1 t2 c v in
  (r.1.1 = Accept <->
     validate_username (username c) = Ok tt /\
     Peer.blocked_for t1 ip (peers v) = None /\
     exists stored h, bt_get (normalize_local_account_name (username c)) (hashes v) = Some stored /\
       parse_hash stored = Some h /\ verify_password (as_bytes (password c)) h = true) /\
  (r.1.1 = Accept -> failures (peers r.2) !! ip = None) /\
  (Peer.blocked_for t1 ip (peers v) <> None -> r = (Reject, [], v)).
Proof.
  intros ip r. subst r. unfold validate, Peer.peer. fold ip.
  assert (forall x : outcome UsernameError unit, is_ok x = true <-> x = Ok tt) as Hok.
  { intros [[]| |]; cbn; split; done. }
  assert (password_accepted c v = true <->
    exists stored h, bt_get (normalize_local_account_name (username c)) (hashes v) = Some stored /\
       parse_hash stored = Some h /\ verify_password (as_bytes (password c)) h = true) as Hpw.
  { unfold password_accepted. destruct (bt_get _ _) as [st|]; cbn; [|naive_solver].
    destruct (parse_hash st) eqn:?; naive_solver. }
  destruct (is_ok (validate_username (username c))) eqn:E; cbn.
  - apply Hok in E. rewrite E.
    destruct (Peer.blocked_for t1 ip (peers v)) eqn:Eb; cbn.
    { split_and!; naive_solver. }
    destruct (password_accepted c v) eqn:Ep; cbn.
    + split_and!; [naive_solver | intros _; apply lookup_delete_eq | done].
    + split_and!; [|done..]. rewrite <- Hpw. naive_solver.
  - split_and!; [|done..]. split; [done|]. intros (Hv & _). apply Hok in Hv. congruence.
Qed.
End decision.

(** *** The guard alone

    What the daemon does with a validator: it names the peer of the connection it
    has accepted, prunes the old records, and validates credentials.  For the guard
    a validation is a test with its verdict, or with none when no password would be
    tested; the test takes place unless the peer is locked out. *)
Inductive GuardOp := GuardPeer (ip : IpAddr) | GuardPrune (now : Z) | GuardTest (t_check t_fail : Z) (verdict : option bool).
Definition guard_step (o : GuardOp) (g : PeerGuard) : list Check * PeerGuard :=
  match o with
  | GuardPeer ip => ([], Peer.set_peer ip g)
  | GuardPrune now => ([], Peer.prune now g)
  | GuardTest t1 t2 verdict =>
      let ip := Peer.peer g in
      match Peer.blocked_for t1 ip g, verdict with
      | None, Some true => ([mkCheck ip true], Peer.success ip g)
      | None, Some false => ([mkCheck ip false], Peer.failure t2 ip g)
      | _, _ => ([], g)
      end
  end.

(** A run of operations, for the guard and for the validators. *)
Fixpoint run_ops {O V} (step : O -> V -> list Check * V) (ops : list O) (v : V) : list Check * V :=
  match ops with
  | [] => ([], v)
  | o :: ops => let '(cs, v) := step o v in let '(cs', v) := run_ops step ops v in (cs ++ cs', v)
  end.

(** How many tests of a peer ended with the verdict. *)
Definition tests (ip : IpAddr) (verdict : bool) (cs : list Check) : Z :=
  Z.of_nat (length (filter (fun c => by_peer c = ip /\ right c = verdict) cs)).

(** The clock does not run backwards, from [t] on to [t']. *)
Definition op_times (o : GuardOp) : list Z := match o with GuardPeer _ => [] | GuardPrune t => [t] | GuardTest t1 t2 _ => [t1; t2] end.
Fixpoint clocked (t : Z) (ts : list Z) (t' : Z) : Prop := match ts with [] => t <= t' | s :: ts => t <= s /\ clocked s ts t' end.

Lemma tests_app ip b cs cs' : tests ip b (cs ++ cs') = tests ip b cs + tests ip b cs'.
Proof. unfold tests. rewrite filter_app, length_app. lia. Qed.
Lemma tests_one ip b ip' b' : tests ip b [mkCheck ip' b'] = if bool_decide (ip' = ip /\ b' = b) then 1 else 0.
Proof. unfold tests. rewrite filter_cons, filter_nil. cbn [by_peer right]. case_decide; case_bool_decide; try done. Qed.
Lemma clocked_app t ts ts' t' : clocked t (ts ++ ts') t' <-> exists s, clocked t ts s /\ clocked s ts' t'.
Proof.
  revert t. induction ts as [|s ts IH]; intros t; cbn.
  - split; [intros H; exists t; split; [lia|done]|intros (s & H & H')]. destruct ts' as [|s' ts']; cbn in *; [lia|split; [lia|apply H']].
  - rewrite IH. naive_solver.
Qed.

(** The tests a peer may have had by its record: with [n] failures the [n]-th is
    this much behind an even rate of six tests in 140 seconds. *)
Definition credit (n : Z) : Z := if n <=? 4 then secs 70 * n else if n =? 5 then secs 335 else secs 360.
(** The state of the account at [t]: its failed and its successful tests since [t0]
    against the time that went by. *)
Definition accounted (t0 t failed passed : Z) (e : option Failure) : Prop :=
  match e with
  | None => secs 70 * failed <= 3 * (t - t0) + secs 360 * passed
  | Some e => 1 <= count e <= u8_max /\ at_ e <= t /\ secs 70 * failed <= 3 * (at_ e - t0) + credit (count e) + secs 360 * passed
  end.

Lemma accounted_later t0 t t' n m e : t <= t' -> accounted t0 t n m e -> accounted t0 t' n m e.
Proof. destruct e; cbn; lia. Qed.

Ltac credits := unfold credit, sat_add, since, sat_sub, secs, u8_max in *; cbn [count at_] in *;
  repeat (case_match; bool_cases; try lia); try lia.

Lemma failed_accounted t0 t t1 t2 n m e : t <= t1 -> t1 <= t2 -> accounted t0 t n m e ->
  match e with Some e => forall lock, Peer.lock_for (count e) = Some lock -> lock < since t1 (at_ e) | None => True end ->
  accounted t0 t2 (n + 1) m (Some (mkFailure (sat_add u8_max (match e with Some e => count e | None => 0 end) 1) t2)).
Proof.
  intros H1 H2 H B. destruct e as [[k a]|]; cbn [accounted count at_] in *.
  - unfold Peer.lock_for in B. destruct (k <=? 3) eqn:K3; [|destruct (k =? 4) eqn:K4; [|destruct (k =? 5) eqn:K5]];
      try specialize (B _ eq_refl); bool_cases; credits.
  - change (sat_add u8_max 0 1) with 1. unfold credit, u8_max, secs in *. cbn. lia.
Qed.
Lemma passed_accounted t0 t n m e : accounted t0 t n m e -> accounted t0 t n (m + 1) None.
Proof. destruct e as [[k a]|]; cbn [accounted]; [intros (? & ? & ?)|]; credits. Qed.
Lemma pruned_accounted t0 t now n m e : t <= now -> accounted t0 t n m (Some e) -> secs 120 <= since now (at_ e) -> accounted t0 now n m None.
Proof. destruct e as [k a]. cbn [accounted count at_]. intros H (? & ? & ?) K. credits. Qed.

(** One operation keeps the account of every peer. *)
Lemma guard_accounted ip t0 t t' n m o g : clocked t (op_times o) t' -> accounted t0 t n m (failures g !! ip) ->
  let '(cs, g') := guard_step o g in accounted t0 t' (n + tests ip false cs) (m + tests ip true cs) (failures g' !! ip).
Proof.
  intros C H. assert (forall b, tests ip b [] = 0) as Z by done. destruct o as [ip'|now|t1 t2 verdict]; cbn [guard_step op_times clocked] in *.
  - rewrite !Z, !Z.add_0_r. by eapply accounted_later.
  - rewrite !Z, !Z.add_0_r. destruct C as [C1 C2]. unfold Peer.prune; cbn [failures]. apply (accounted_later t0 now); [done|].
    destruct (failures g !! ip) as [e|] eqn:E.
    + destruct (decide (since now (at_ e) < secs 120)) as [K|K].
      * rewrite (map_lookup_filter_Some_2 _ _ _ e) by done. by eapply accounted_later.
      * rewrite map_lookup_filter_None_2; [eapply pruned_accounted; [exact C1|exact H|lia]|]. right. intros x Ex. rewrite E in Ex. by injection Ex as <-.
    + rewrite map_lookup_filter_None_2 by by left. by eapply accounted_later.
  - destruct C as (C1 & C2 & C3). unfold Peer.peer. destruct (Peer.blocked_for t1 (current g) g) as [w|] eqn:B.
    { rewrite !Z, !Z.add_0_r. eapply accounted_later; [|exact H]. lia. }
    destruct verdict as [[]|]; [| |rewrite !Z, !Z.add_0_r; eapply accounted_later; [|exact H]; lia].
    + rewrite !tests_one. unfold Peer.success; cbn [failures]. case_bool_decide as D1; [by destruct D1|]. rewrite Z.add_0_r. case_bool_decide as D.
      * destruct D as [D _]. rewrite D, lookup_delete_eq. apply (accounted_later t0 t); [lia|]. by eapply passed_accounted.
      * rewrite Z.add_0_r. rewrite lookup_delete_ne by (intros ?; by apply D). eapply accounted_later; [|exact H]. lia.
    + rewrite !tests_one. unfold Peer.failure; cbn [failures]. case_bool_decide as D; (case_bool_decide as D1; [by destruct D1|]); rewrite Z.add_0_r.
      * destruct D as [D _]. rewrite D in B |- *. rewrite lookup_insert_eq. apply (accounted_later t0 t2); [done|]. eapply failed_accounted; [exact C1|exact C2|exact H|].
        unfold Peer.blocked_for in B. destruct (failures g !! ip) as [e|]; [|done]. intros lock L. cbn in B. rewrite L in B. cbn in B.
        destruct (Z.leb_spec (since t1 (at_ e)) lock); [done|lia].
      * rewrite Z.add_0_r. rewrite lookup_insert_ne by (intros ?; by apply D). eapply accounted_later; [|exact H]. lia.
Qed.

(** Over a run, from a clean record. *)
Lemma guard_bounded ip t0 t' ops g : clocked t0 (ops ≫= op_times) t' -> failures g !! ip = None ->
  let cs := (run_ops guard_step ops g).1 in
  secs 70 * tests ip false cs <= 3 * (t' - t0) + secs 360 * (1 + tests ip true cs).
Proof.
  intros C E. cbv zeta. assert (accounted t0 t0 0 0 (failures g !! ip)) as H by (rewrite E; cbn; unfold secs; lia).
  assert (forall n m t g, clocked t (ops ≫= op_times) t' -> accounted t0 t n m (failures g !! ip) ->
    let '(cs, g') := run_ops guard_step ops g in accounted t0 t' (n + tests ip false cs) (m + tests ip true cs) (failures g' !! ip)) as K.
  { clear. induction ops as [|o ops IH]; intros n m t g C H; cbn [run_ops].
    - change (tests ip false []) with 0. change (tests ip true []) with 0. rewrite !Z.add_0_r. eapply accounted_later; [exact C|exact H].
    - cbn in C. apply clocked_app in C as (s & C1 & C2). pose proof (guard_accounted ip t0 t s n m o g C1 H) as H1.
      destruct (guard_step o g) as [cs g1]. specialize (IH _ _ _ _ C2 H1). destruct (run_ops guard_step ops g1) as [cs' g2].
      by rewrite !tests_app, !Z.add_assoc. }
  specialize (K 0 0 t0 g C H). destruct (run_ops guard_step ops g) as [cs g']. cbn [fst]. rewrite !Z.add_0_l in K.
  destruct (failures g' !! ip) as [[k a]|]; cbn [accounted count at_] in K.
  - destruct K as (? & ? & ?). assert (credit k <= secs 360) by (unfold credit, secs; case_match; bool_cases; [lia|case_match; lia]). unfold secs in *. lia.
  - unfold secs in *. lia.
Qed.

(** *** The validators *)
Section throttling.
Context `{U : Unicode, A : Argon2, P : Pam}.

Inductive AuthOp := SetPeer (ip : IpAddr) | Prune (now : Z) | Validate (t_check t_fail : Z) (c : Credentials).
Definition auth_times (o : AuthOp) : list Z := match o with SetPeer _ => [] | Prune t => [t] | Validate t1 t2 _ => [t1; t2] end.
Definition static_step (o : AuthOp) (v : StaticPasswordValidator) : list Check * StaticPasswordValidator :=
  match o with
  | SetPeer ip => ([], set_peer_ip ip v)
  | Prune now => ([], prune_stale_entries now v)
  | Validate t1 t2 c => let '(_, cs, v) := validate t1 t2 c v in (cs, v)
  end.
Definition pam_step (o : AuthOp) (v : PamValidator) : list Check * PamValidator :=
  match o with
  | SetPeer ip => ([], pam_set_peer_ip ip v)
  | Prune now => ([], pam_prune_stale_entries now v)
  | Validate t1 t2 c => let '(_, cs, v) := pam_validate t1 t2 c v in (cs, v)
  end.

(** A validator that does to its guard what the guard's operations do. *)
Lemma run_guarded {V} (guard : V -> PeerGuard) (step : AuthOp -> V -> list Check * V) :
  (forall o v, exists o', op_times o' = auth_times o /\ guard_step o' (guard v) = ((step o v).1, guard (step o v).2)) ->
  forall ops v, exists ops', ops' ≫= op_times = ops ≫= auth_times /\ (run_ops guard_step ops' (guard v)).1 = (run_ops step ops v).1.
Proof.
  intros S. induction ops as [|o ops IH]; intros v; [by exists []|]. destruct (S o v) as (o' & T & E). cbn [run_ops].
  destruct (step o v) as [cs v1]. cbn [fst snd] in E. destruct (IH v1) as (ops' & T' & E'). exists (o' :: ops'). split; [cbn; by rewrite T, T'|].
  cbn [run_ops]. rewrite E. destruct (run_ops guard_step ops' (guard v1)), (run_ops step ops v1). cbn in *. by subst.
Qed.

Lemma static_guarded o v : exists o', op_times o' = auth_times o /\ guard_step o' (peers v) = ((static_step o v).1, peers (static_step o v).2).
Proof.
  destruct o as [ip|now|t1 t2 c]; [by exists (GuardPeer ip)|by exists (GuardPrune now)|].
  exists (GuardTest t1 t2 (if is_ok (validate_username (username c)) then Some (password_accepted c v) else None)). split; [done|].
  cbn [guard_step static_step]. unfold validate. destruct (is_ok _); cbn [negb].
  - destruct (Peer.blocked_for _ _ _); [done|]. by destruct (password_accepted c v).
  - by destruct (Peer.blocked_for _ _ _).
Qed.
Lemma pam_guarded o v : exists o', op_times o' = auth_times o /\ guard_step o' (pam_peers v) = ((pam_step o v).1, pam_peers (pam_step o v).2).
Proof.
  destruct o as [ip|now|t1 t2 c]; [by exists (GuardPeer ip)|by exists (GuardPrune now)|].
  exists (GuardTest t1 t2 (if is_ok (validate_username (username c)) && negb match allowed v with Some a => negb (eqs a (normalize_local_account_name (username c))) | None => false end
    then authenticate (service v) (normalize_local_account_name (username c)) (password c) else None)). split; [done|].
  cbn [guard_step pam_step]. unfold pam_validate. destruct (is_ok _); cbn [negb andb]; [|by destruct (Peer.blocked_for _ _ _)].
  destruct (match allowed v with Some a => _ | None => false end); cbn [negb]; [by destruct (Peer.blocked_for _ _ _)|].
  destruct (Peer.blocked_for _ _ _); [done|]. by destruct (authenticate _ _ _) as [[]|].
Qed.

(** C40. Brute force is bounded.  Over any sequence of accepted connections from
    any peers, prunings of the old records and validations, by the static validator
    as by the one for PAM, the passwords of one peer that are put to the test and
    found wrong are at most six, and six more for every 140 seconds that go by and
    for every password found right: [70 s * wrong <= 3 * time + 360 s * (1 +
    right)].  The bound is for a peer without failures on record at the beginning,
    as every peer is when the daemon starts, and a clock that does not run
    backwards.  (Right passwords, those of another account too, reset the record,
    and the pruning forgets a peer that has paused for two minutes.) *)
Theorem brute_force_bounded ip t0 t' ops :
  clocked t0 (ops ≫= auth_times) t' ->
  (forall v, failures (peers v) !! ip = None -> let cs := (run_ops static_step ops v).1 in
     secs 70 * tests ip false cs <= 3 * (t' - t0) + secs 360 * (1 + tests ip true cs)) /\
  (forall v, failures (pam_peers v) !! ip = None -> let cs := (run_ops pam_step ops v).1 in
     secs 70 * tests ip false cs <= 3 * (t' - t0) + secs 360 * (1 + tests ip true cs)).
Proof.
  intros C. split; intros v E.
  - destruct (run_guarded peers static_step static_guarded ops v) as (ops' & T & <-). apply guard_bounded; [by rewrite T|done].
  - destruct (run_guarded pam_peers pam_step pam_guarded ops v) as (ops' & T & <-). apply guard_bounded; [by rewrite T|done].
Qed.
End throttling.

(** A verifier that rejects everything, for concrete runs. *)
Definition deny_all : Argon2 := {|
  PasswordHash := unit; parse_hash := fun _ => Some tt; algorithm := fun _ => [];
  verify_password := fun _ _ => false |}.
Definition deny_pam : Pam := {| authenticate := fun _ _ _ => Some false |}.

(** An attempt at a second, on a connection of its own. *)
Definition alice_attempt (s : Z) : list AuthOp :=
  [SetPeer (V4 7); Prune (secs s); Validate (secs s) (secs s) (mkCredentials (lit "alice") (lit "guess"))].

(** Someone who tries at the earliest moments gets six tests within 20 seconds, and
    after two minutes of pause the next six; a seventh at once is not made. *)
Definition greedy : list AuthOp := [0; 0; 0; 0; 1; 6; 22; 23; 142; 142; 142; 142; 148; 164] ≫= alice_attempt.
Lemma brute_force_bounded_witness :
  let cs := (run_ops (static_step (A := deny_all)) greedy (mkStatic [] Peer.new)).1 in
  tests (V4 7) false cs = 12 /\ secs 70 * tests (V4 7) false cs <= 3 * (secs 164 - 0) + secs 360 * (1 + tests (V4 7) true cs).
Proof.
  cbv zeta. split; [by vm_compute|].
  destruct (brute_force_bounded (A := deny_all) (P := deny_pam) (V4 7) 0 (secs 164) greedy) as [H _]; [vm_compute; by split_and!|].
  exact (H (mkStatic [] Peer.new) eq_refl).
Defined.
