(* ===== verification/ClipBase.v ===== *)
(** * Clipboard: errors, formats and the MIME mapping

    Models src/src/rdp/channels/clipboard/core/error.rs and the first part of
    core/formats.rs: the CLIPRDR format ids, [ClipboardFormat] and the mapping
    between MIME types and RDP formats. *)
From S2P Require Import Prelude Text.

(** [core/error.rs:10-75 ClipboardError] *)
Inductive ClipboardError :=
| Backend (msg : str)
| FormatConversion (msg : str)
| UnsupportedFormat (msg : str)
| InvalidUtf8
| InvalidUtf16
| ImageDecode (msg : str)
| ImageEncode (msg : str)
| DataSizeExceeded (actual max : Z)
| TransferTimeout (ms : Z)
| TransferCancelled
| LoopDetected
| InvalidState (msg : str)
| FileNotFound (msg : str)
| PermissionDenied (msg : str)
| Io.

#[export] Instance ClipboardError_eq_dec : EqDecision ClipboardError.
Proof. solve_decision. Defined.

(** [ClipboardResult<T>] of error.rs *)
Abbreviation ClipboardResult := (outcome ClipboardError).

(** [core/error.rs:79-84 is_recoverable] *)
Definition is_recoverable (e : ClipboardError) : bool :=
  match e with TransferTimeout _ | LoopDetected | InvalidState _ => true | _ => false end.

(** [core/error.rs:87-97 is_format_error] *)
Definition is_format_error (e : ClipboardError) : bool :=
  match e with
  | FormatConversion _ | UnsupportedFormat _ | InvalidUtf8 | InvalidUtf16
  | ImageDecode _ | ImageEncode _ => true
  | _ => false
  end.

(** [core/formats.rs:13-13 CF_UNICODETEXT] *)
Definition CF_UNICODETEXT : Z := 13.
(** [core/formats.rs:16-16 CF_TEXT] *)
Definition CF_TEXT : Z := 1.
(** [core/formats.rs:20-20 CF_OEMTEXT] *)
Definition CF_OEMTEXT : Z := 7.
(** [core/formats.rs:23-23 CF_DIB] *)
Definition CF_DIB : Z := 8.
(** [core/formats.rs:27-27 CF_DIBV5] *)
Definition CF_DIBV5 : Z := 17.
(** [core/formats.rs:30-30 CF_HDROP] *)
Definition CF_HDROP : Z := 15.
(** [core/formats.rs:33-33 CF_WAVE] *)
Definition CF_WAVE : Z := 12.
(** [core/formats.rs:36-36 CF_RIFF] *)
Definition CF_RIFF : Z := 11.
(** [core/formats.rs:39-39 CF_HTML] *)
Definition CF_HTML : Z := 0xD010.
(** [core/formats.rs:42-42 CF_PNG] *)
Definition CF_PNG : Z := 0xD011.
(** [core/formats.rs:45-45 CF_JPEG] *)
Definition CF_JPEG : Z := 0xD012.
(** [core/formats.rs:48-48 CF_GIF] *)
Definition CF_GIF : Z := 0xD013.
(** [core/formats.rs:51-51 CF_RTF] *)
Definition CF_RTF : Z := 0xD014.
(** [core/formats.rs:56-56 CF_FILEGROUPDESCRIPTORW] *)
Definition CF_FILEGROUPDESCRIPTORW : Z := 49430.
(** [core/formats.rs:60-60 CF_FILECONTENTS] *)
Definition CF_FILECONTENTS : Z := 49338.

(** [core/formats.rs:68-74 ClipboardFormat] *)
Record ClipboardFormat := mkFormat { id : Z; name : option str }.
#[export] Instance ClipboardFormat_eq_dec : EqDecision ClipboardFormat.
Proof. solve_decision. Defined.

(** [core/formats.rs:78-80 new] *)
Definition format_new (id : Z) : ClipboardFormat := mkFormat id None.
(** [core/formats.rs:83-88 with_name] *)
Definition with_name (id : Z) (name : str) : ClipboardFormat := mkFormat id (Some name).
(** [core/formats.rs:91-93 unicode_text] *)
Definition unicode_text : ClipboardFormat := format_new CF_UNICODETEXT.
(** [core/formats.rs:96-98 html] *)
Definition html : ClipboardFormat := with_name CF_HTML (lit "HTML Format").
(** [core/formats.rs:101-103 png] *)
Definition png : ClipboardFormat := with_name CF_PNG (lit "PNG").
(** [core/formats.rs:106-108 file_drop] *)
Definition file_drop : ClipboardFormat := format_new CF_HDROP.

(** [formats.iter().any(|f| f.id == n)] *)
Definition has_id (n : Z) (formats : list ClipboardFormat) : bool :=
  existsb (fun f => id f =? n) formats.
(** [formats.iter().any(|f| f.name.as_ref().is_some_and(|n| n == s))] *)
Definition has_name (s : str) (formats : list ClipboardFormat) : bool :=
  existsb (fun f => match name f with Some n => eqs n s | None => false end) formats.

Definition one_of (mime : str) (names : list string) : bool :=
  existsb (fun n => eqs mime (lit n)) names.

(** What one announced MIME type adds to the formats collected so far.
    [core/formats.rs:129-204 mime_to_rdp_formats] *)
Definition mime_step (formats : list ClipboardFormat) (mime : str) : list ClipboardFormat :=
  if one_of mime ["text/plain"; "text/plain;charset=utf-8"; "UTF8_STRING"; "STRING"]%string then
    if has_id CF_UNICODETEXT formats then formats
    else formats ++ [unicode_text; format_new CF_TEXT; format_new CF_OEMTEXT]
  else if one_of mime ["text/html"]%string then formats ++ [html]
  else if one_of mime ["text/rtf"; "application/rtf"]%string then
    formats ++ [with_name CF_RTF (lit "Rich Text Format")]
  else if one_of mime ["image/png"]%string then
    let formats := formats ++ [png] in
    let formats := if has_id CF_DIBV5 formats then formats else formats ++ [format_new CF_DIBV5] in
    if has_id CF_DIB formats then formats else formats ++ [format_new CF_DIB]
  else if one_of mime ["image/jpeg"; "image/jpg"]%string then
    let formats := formats ++ [with_name CF_JPEG (lit "JFIF")] in
    if has_id CF_DIB formats then formats else formats ++ [format_new CF_DIB]
  else if one_of mime ["image/gif"]%string then formats ++ [with_name CF_GIF (lit "GIF")]
  else if one_of mime ["image/bmp"; "image/x-bmp"]%string then formats ++ [format_new CF_DIB]
  else if one_of mime ["text/uri-list"; "x-special/gnome-copied-files"]%string then
    if has_name (lit "FileGroupDescriptorW") formats then formats
    else formats ++ [with_name 0 (lit "FileGroupDescriptorW"); with_name 0 (lit "FileContents")]
  else if one_of mime ["audio/wav"; "audio/x-wav"]%string then formats ++ [format_new CF_WAVE]
  else formats.

(** [core/formats.rs:125-208 mime_to_rdp_formats] *)
Definition mime_to_rdp_formats (mime_types : list str) : list ClipboardFormat :=
  fold_left mime_step mime_types [].

(** [core/formats.rs:220-235 rdp_format_to_mime] *)
Definition rdp_format_to_mime (format_id : Z) : option str :=
  let any (l : list Z) := existsb (Z.eqb format_id) l in
  if any [CF_UNICODETEXT; CF_TEXT; CF_OEMTEXT] then Some (lit "text/plain;charset=utf-8")
  else if any [CF_HTML] then Some (lit "text/html")
  else if any [CF_RTF] then Some (lit "text/rtf")
  else if any [CF_DIB; CF_DIBV5] then Some (lit "image/png")
  else if any [CF_PNG] then Some (lit "image/png")
  else if any [CF_JPEG] then Some (lit "image/jpeg")
  else if any [CF_GIF] then Some (lit "image/gif")
  else if any [CF_HDROP; CF_FILEGROUPDESCRIPTORW] then Some (lit "text/uri-list")
  else if any [CF_WAVE; CF_RIFF] then Some (lit "audio/wav")
  else None.

(** ** Facts *)

(** A format the client can be served: it has a MIME type, or it is one of the
    two registered names of the file stream. *)
Definition servable (f : ClipboardFormat) : bool :=
  match rdp_format_to_mime (id f) with
  | Some _ => true
  | None => has_name (lit "FileGroupDescriptorW") [f] || has_name (lit "FileContents") [f]
  end.

Lemma mime_step_grows formats mime :
  exists added, mime_step formats mime = formats ++ added /\ Forall (fun f => servable f = true) added.
Proof.
  unfold mime_step.
  repeat case_match; try (by exists []; rewrite app_nil_r);
    rewrite <- ?app_assoc; eexists; (split; [reflexivity|]); by repeat constructor.
Qed.

Definition is_text_mime (mime : str) : bool :=
  one_of mime ["text/plain"; "text/plain;charset=utf-8"; "UTF8_STRING"; "STRING"]%string.

Lemma has_id_app n a b : has_id n (a ++ b) = has_id n a || has_id n b.
Proof. apply existsb_app. Qed.

(** One step announces the three text formats exactly once. *)
Lemma mime_step_text formats mime :
  has_id CF_UNICODETEXT (mime_step formats mime) = has_id CF_UNICODETEXT formats || is_text_mime mime.
Proof.
  unfold mime_step. fold (is_text_mime mime).
  destruct (is_text_mime mime); [|rewrite orb_false_r].
  - destruct (has_id CF_UNICODETEXT formats) eqn:E; [by rewrite E|].
    by rewrite has_id_app, orb_true_r.
  - repeat case_match; rewrite ?has_id_app, ?orb_false_r; cbn; rewrite ?orb_false_r; done.
Qed.

Definition count_id (n : Z) (formats : list ClipboardFormat) : nat :=
  length (filter (fun f => id f = n) formats).

Lemma count_id_app n a b : count_id n (a ++ b) = (count_id n a + count_id n b)%nat.
Proof. unfold count_id. by rewrite filter_app, length_app. Qed.

Lemma has_id_count n l : has_id n l = true <-> (0 < count_id n l)%nat.
Proof.
  unfold has_id, count_id. induction l as [|f l IH]; [cbn; split; [done|lia]|].
  rewrite filter_cons. cbn [existsb]. destruct (Z.eqb_spec (id f) n) as [E|E].
  - rewrite decide_True by done. cbn. split; [lia|done].
  - rewrite decide_False by done. exact IH.
Qed.

Lemma mime_step_text_count formats mime :
  (count_id CF_UNICODETEXT formats <= 1)%nat ->
  (count_id CF_UNICODETEXT (mime_step formats mime) <= 1)%nat.
Proof.
  intros Hc. unfold mime_step.
  assert (forall b, count_id CF_UNICODETEXT b = 0%nat ->
            count_id CF_UNICODETEXT (formats ++ b) <= 1)%nat as Hadd.
  { intros b Hb. rewrite count_id_app. lia. }
  case_match.
  { destruct (has_id CF_UNICODETEXT formats) eqn:E; [done|].
    rewrite count_id_app. assert (~ (0 < count_id CF_UNICODETEXT formats)%nat).
    { intros ?%has_id_count. congruence. }
    change (count_id CF_UNICODETEXT [unicode_text; _; _]) with 1%nat. lia. }
  repeat case_match; rewrite <- ?app_assoc; by apply Hadd || done.
Qed.

(** Whatever MIME types the desktop offers, every format announced to the
    client is one the server can serve (it maps back to a MIME type, or it is
    a registered file-stream name), and Unicode text is announced exactly when
    some text type was offered, and then exactly once. *)
Theorem announced_formats_servable mimes :
  let formats := mime_to_rdp_formats mimes in
  Forall (fun f => servable f = true) formats /\
  count_id CF_UNICODETEXT formats = (if existsb is_text_mime mimes then 1 else 0)%nat.
Proof.
  unfold mime_to_rdp_formats.
  enough (forall acc, Forall (fun f => servable f = true) acc ->
      (count_id CF_UNICODETEXT acc <= 1)%nat ->
      let formats := fold_left mime_step mimes acc in
      Forall (fun f => servable f = true) formats /\
      (count_id CF_UNICODETEXT formats <= 1)%nat /\
      has_id CF_UNICODETEXT formats = has_id CF_UNICODETEXT acc || existsb is_text_mime mimes) as Hg.
  { destruct (Hg []) as (H1 & H2 & H3); [constructor | cbn; lia |]. split; [done|].
    cbn [has_id existsb orb] in H3. fold (mime_to_rdp_formats mimes) in *.
    pose proof (has_id_count CF_UNICODETEXT (mime_to_rdp_formats mimes)) as Hi.
    rewrite H3 in Hi. destruct (existsb _ mimes).
    - assert (0 < count_id CF_UNICODETEXT (mime_to_rdp_formats mimes))%nat by (by apply Hi). lia.
    - destruct (count_id _ _); [done|]. exfalso. assert (false = true) by (apply Hi; lia). done. }
  induction mimes as [|m mimes IH]; intros acc Ha Hc; cbn [fold_left existsb];
    [by rewrite orb_false_r|].
  destruct (mime_step_grows acc m) as (added & Hm & Hadd).
  destruct (IH (mime_step acc m)) as (H1 & H2 & H3).
  - rewrite Hm. by apply Forall_app.
  - by apply mime_step_text_count.
  - split_and!; [done..|]. by rewrite H3, mime_step_text, orb_assoc.
Qed.
