(* ===== verification/ClipText.v ===== *)
(** * Clipboard text: UTF-16, Windows-1252 and CP437

    Models the text part of [FormatConverter] and the code-page helpers of
    src/src/rdp/channels/clipboard/core/formats.rs. *)
From S2P Require Import Prelude Text ClipBase.

(** ** Code pages *)
Definition assoc (d : Z) (k : Z) (t : list (Z * Z)) : Z :=
  match find (fun p => p.1 =? k) t with Some p => p.2 | None => d end.

(** [core/formats.rs:1268-1296 char_to_windows1252] *)
Definition windows1252_encode_table : list (Z * Z) := [
    (0x20AC, 128); (0x201A, 130); (0x0192, 131); (0x201E, 132); (0x2026, 133);
    (0x2020, 134); (0x2021, 135); (0x02C6, 136); (0x2030, 137); (0x0160, 138);
    (0x2039, 139); (0x0152, 140); (0x017D, 142); (0x2018, 145); (0x2019, 146);
    (0x201C, 147); (0x201D, 148); (0x2022, 149); (0x2013, 150); (0x2014, 151);
    (0x02DC, 152); (0x2122, 153); (0x0161, 154); (0x203A, 155); (0x0153, 156);
    (0x017E, 158); (0x0178, 159) ].

(** [core/formats.rs:1258-1302 char_to_windows1252] *)
Definition char_to_windows1252 (cp : Z) : Z :=
  if cp <? 128 then cp
  else match find (fun p => p.1 =? cp) windows1252_encode_table with
       | Some p => p.2
       | None => if (160 <=? cp) && (cp <=? 255) then cp else 63
       end.

(** [core/formats.rs:1317-1344 windows1252_to_char] *)
Definition windows1252_decode_table : list (Z * Z) := [
    (128, 0x20AC); (130, 0x201A); (131, 0x0192); (132, 0x201E); (133, 0x2026);
    (134, 0x2020); (135, 0x2021); (136, 0x02C6); (137, 0x2030); (138, 0x0160);
    (139, 0x2039); (140, 0x0152); (142, 0x017D); (145, 0x2018); (146, 0x2019);
    (147, 0x201C); (148, 0x201D); (149, 0x2022); (150, 0x2013); (151, 0x2014);
    (152, 0x02DC); (153, 0x2122); (154, 0x0161); (155, 0x203A); (156, 0x0153);
    (158, 0x017E); (159, 0x0178) ].

(** [core/formats.rs:1305-1348 windows1252_to_char] *)
Definition windows1252_to_char (b : Z) : Z :=
  if b <? 128 then b
  else if 160 <=? b then b
  else assoc 63 b windows1252_decode_table.

(** [core/formats.rs:1367-1414 char_to_cp437] *)
Definition cp437_encode_table : list (Z * Z) := [
    (0x00C7, 128); (0x00FC, 129); (0x00E9, 130); (0x00E2, 131); (0x00E4, 132);
    (0x00E0, 133); (0x00E5, 134); (0x00E7, 135); (0x00EA, 136); (0x00EB, 137);
    (0x00E8, 138); (0x00EF, 139); (0x00EE, 140); (0x00EC, 141); (0x00C4, 142);
    (0x00C5, 143); (0x00C9, 144); (0x00E6, 145); (0x00C6, 146); (0x00F4, 147);
    (0x00F6, 148); (0x00F2, 149); (0x00FB, 150); (0x00F9, 151); (0x00FF, 152);
    (0x00D6, 153); (0x00DC, 154); (0x00A2, 155); (0x00A3, 156); (0x00A5, 157);
    (0x20A7, 158); (0x0192, 159); (0x00E1, 160); (0x00ED, 161); (0x00F3, 162);
    (0x00FA, 163); (0x00F1, 164); (0x00D1, 165); (0x00AA, 166); (0x00BA, 167);
    (0x00BF, 168); (0x00A1, 173); (0x00AB, 174); (0x00BB, 175); (0x00B0, 248);
    (0x00B7, 249); (0x00B2, 253) ].

(** [core/formats.rs:1353-1417 char_to_cp437] *)
Definition char_to_cp437 (cp : Z) : Z :=
  if (32 <=? cp) && (cp <? 127) then cp
  else if cp <? 32 then cp
  else assoc 63 cp cp437_encode_table.

(** [core/formats.rs:1422-1431 cp437_to_char] *)
Definition CP437_HIGH : list Z := [
    0x00C7; 0x00FC; 0x00E9; 0x00E2; 0x00E4; 0x00E0; 0x00E5; 0x00E7; 0x00EA; 0x00EB;
    0x00E8; 0x00EF; 0x00EE; 0x00EC; 0x00C4; 0x00C5; 0x00C9; 0x00E6; 0x00C6; 0x00F4;
    0x00F6; 0x00F2; 0x00FB; 0x00F9; 0x00FF; 0x00D6; 0x00DC; 0x00A2; 0x00A3; 0x00A5;
    0x20A7; 0x0192; 0x00E1; 0x00ED; 0x00F3; 0x00FA; 0x00F1; 0x00D1; 0x00AA; 0x00BA;
    0x00BF; 0x2310; 0x00AC; 0x00BD; 0x00BC; 0x00A1; 0x00AB; 0x00BB; 0x2591; 0x2592;
    0x2593; 0x2502; 0x2524; 0x2561; 0x2562; 0x2556; 0x2555; 0x2563; 0x2551; 0x2557;
    0x255D; 0x255C; 0x255B; 0x2510; 0x2514; 0x2534; 0x252C; 0x251C; 0x2500; 0x253C;
    0x255E; 0x255F; 0x255A; 0x2554; 0x2569; 0x2566; 0x2560; 0x2550; 0x256C; 0x2567;
    0x2568; 0x2564; 0x2565; 0x2559; 0x2558; 0x2552; 0x2553; 0x256B; 0x256A; 0x2518;
    0x250C; 0x2588; 0x2584; 0x258C; 0x2590; 0x2580; 0x03B1; 0x00DF; 0x0393; 0x03C0;
    0x03A3; 0x03C3; 0x00B5; 0x03C4; 0x03A6; 0x0398; 0x03A9; 0x03B4; 0x221E; 0x03C6;
    0x03B5; 0x2229; 0x2261; 0x00B1; 0x2265; 0x2264; 0x2320; 0x2321; 0x00F7; 0x2248;
    0x00B0; 0x2219; 0x00B7; 0x221A; 0x207F; 0x00B2; 0x25A0; 0x0020 ].

(** [core/formats.rs:1420-1446 cp437_to_char] *)
Definition cp437_to_char (b : Z) : Z :=
  if b <? 32 then b
  else if b <? 127 then b
  else if b =? 127 then 0x2302
  else nth (Z.to_nat (b - 128)) CP437_HIGH 0.

(** What the converter needs of a single-byte code page. *)
Class CodePage := { to_byte : Z -> Z; to_char : Z -> Z }.
Definition windows1252 : CodePage := {| to_byte := char_to_windows1252; to_char := windows1252_to_char |}.
Definition cp437 : CodePage := {| to_byte := char_to_cp437; to_char := cp437_to_char |}.

(** ** FormatConverter *)
(** [core/formats.rs:243-246 FormatConverter] *)
Record FormatConverter := mkConverter { max_size : Z }.
(** [core/formats.rs:250-254 new] *)
Definition converter_new : FormatConverter := mkConverter (16 * 1024 * 1024).
(** [core/formats.rs:257-259 with_max_size] *)
Definition with_max_size (n : Z) : FormatConverter := mkConverter n.

Definition blen (data : list Z) : Z := Z.of_nat (length data).

Definition check_size {A} (self : FormatConverter) (n : Z) (k : ClipboardResult A) : ClipboardResult A :=
  if max_size self <? n then Err (DataSizeExceeded n (max_size self)) else k.

Definition le16 (u : Z) : list Z := [u mod 256; u / 256].

Fixpoint units_le (data : list Z) : list Z :=
  match data with
  | a :: b :: data => a + 256 * b :: units_le data
  | _ => []
  end.

(** Drop one trailing zero. *)
Definition strip_nul (l : list Z) : list Z :=
  match last l with Some 0 => take (length l - 1) l | _ => l end.

(** [core/formats.rs:264-278 text_to_unicode] *)
Definition text_to_unicode (self : FormatConverter) (text : str) : ClipboardResult (list Z) :=
  check_size self (slen text)
    (Ok ((encode_utf16 text ≫= le16) ++ [0; 0])).

(** [core/formats.rs:281-306 unicode_to_text] *)
Definition unicode_to_text (self : FormatConverter) (data : list Z) : ClipboardResult str :=
  check_size self (blen data)
    (if negb (blen data mod 2 =? 0) then Err InvalidUtf16
     else ok_or InvalidUtf16 (from_utf16 (strip_nul (units_le data)))).

Section codepage.
Context (cp : CodePage).
Definition text_to_codepage (self : FormatConverter) (text : str) : ClipboardResult (list Z) :=
  check_size self (slen text) (Ok (map to_byte text ++ [0])).
Definition codepage_to_text (self : FormatConverter) (data : list Z) : ClipboardResult str :=
  check_size self (blen data) (Ok (map to_char (strip_nul data))).
End codepage.

(** [core/formats.rs:312-330 text_to_ansi] *)
Definition text_to_ansi := text_to_codepage windows1252.
(** [core/formats.rs:333-350 ansi_to_text] *)
Definition ansi_to_text := codepage_to_text windows1252.
(** [core/formats.rs:356-374 text_to_oem] *)
Definition text_to_oem := text_to_codepage cp437.
(** [core/formats.rs:377-394 oem_to_text] *)
Definition oem_to_text := codepage_to_text cp437.

(** ** Facts *)
Lemma strip_nul_snoc l : strip_nul (l ++ [0]) = l.
Proof.
  unfold strip_nul. rewrite last_snoc, length_app. cbn.
  replace (_ + 1 - 1)%nat with (length l) by lia. by rewrite take_app_length.
Qed.

Lemma units_le_app us data : Forall (fun u => 0 <= u < 65536) us ->
  units_le ((us ≫= le16) ++ data) = us ++ units_le data.
Proof.
  induction 1 as [|u us Hu Hus IH]; [done|].
  cbn -[Z.modulo Z.div Z.mul]. f_equal; [|exact IH].
  pose proof (Z.div_mod u 256). lia.
Qed.

Lemma length_le16s us : length (us ≫= le16) = (2 * length us)%nat.
Proof. induction us as [|u us IH]; [done|]. cbn -[Z.div Z.modulo Nat.mul]. rewrite IH. lia. Qed.

(** Text survives the trip through CF_UNICODETEXT: what [text_to_unicode]
    produces is an even number of bytes ended by a UTF-16 NUL, and whenever its
    size passes the converter's limit [unicode_to_text] returns exactly the
    original text (surrogate pairs included). *)
Theorem unicode_roundtrip self text data :
  valid_str text ->
  text_to_unicode self text = Ok data ->
  blen data = 2 * Z.of_nat (length (encode_utf16 text)) + 2 /\
  drop (length data - 2) data = [0; 0] /\
  (blen data <= max_size self -> unicode_to_text self data = Ok text).
Proof.
  intros Hv. unfold text_to_unicode, check_size. case_match; [done|]. intros [= <-].
  unfold blen. rewrite length_app, length_le16s. cbn [length].
  split_and!; [lia| |].
  - replace (_ + 2 - 2)%nat with (length (encode_utf16 text ≫= le16)) by (rewrite length_le16s; lia).
    apply drop_app_length.
  - intros Hs. unfold unicode_to_text, check_size, blen.
    rewrite length_app, length_le16s. cbn [length].
    destruct (Z.ltb_spec (max_size self) (Z.of_nat (2 * length (encode_utf16 text) + 2))); [lia|].
    replace (Z.of_nat _ mod 2) with 0 by (Z.div_mod_to_equations; lia). cbn [negb Z.eqb].
    rewrite units_le_app by (by apply encode_utf16_units).
    change (units_le [0; 0]) with [0]. rewrite strip_nul_snoc.
    by rewrite from_utf16_encode.
Qed.

(** A text with an ASCII letter, a BMP letter and a supplementary character. *)
Lemma unicode_roundtrip_witness :
  unicode_to_text converter_new [65; 0; 0xE9; 0; 0x3D; 0xD8; 0x00; 0xDE; 0; 0]
  = Ok [65; 0xE9; 0x1F600].
Proof.
  apply (unicode_roundtrip converter_new [65; 0xE9; 0x1F600]).
  - by repeat constructor.
  - by vm_compute.
  - by vm_compute.
Defined.

(** A character the code page can hold. *)
Definition representable (cp : CodePage) (c : Z) : Prop := to_char (to_byte c) = c.

Section codepage_facts.
Context (cp : CodePage).

Lemma codepage_roundtrip self text data :
  Forall (representable cp) text ->
  text_to_codepage cp self text = Ok data -> blen data <= max_size self ->
  codepage_to_text cp self data = Ok text.
Proof.
  intros Hr. unfold text_to_codepage, codepage_to_text, check_size.
  case_match; [done|]. intros [= <-] Hs.
  destruct (Z.ltb_spec (max_size self) (blen (map to_byte text ++ [0]))); [lia|].
  rewrite strip_nul_snoc, map_map. f_equal.
  induction Hr as [|c text Hc Hr IH]; [done|]. cbn. rewrite Hc. f_equal.
  clear -Hr. induction Hr as [|c text Hc Hr IH]; [done|]. cbn. by rewrite Hc, IH.
Qed.
End codepage_facts.

Definition bytes256 : list Z := seqZ 0 256.

Lemma byte_in_256 b : is_byte b -> b ∈ bytes256.
Proof. intros. apply elem_of_seqZ. lia. Qed.

(** A boolean fact about all bytes, checked by computation. *)
Lemma for_all_bytes (P : Z -> bool) : forallb P bytes256 = true -> forall b, is_byte b -> P b = true.
Proof.
  intros H b Hb. rewrite forallb_Forall_true, Forall_forall in H. by apply H, byte_in_256.
Qed.

(** The five bytes Windows-1252 leaves undefined. *)
Definition undefined_1252 (b : Z) : bool := existsb (Z.eqb b) [129; 141; 143; 144; 157].

(** The two Windows-1252 tables agree: every defined byte decodes to a
    character that encodes back to it, the undefined ones decode to ['?'], and
    a character is lost (encoded as ['?']) exactly when no byte decodes to it. *)
Theorem windows1252_tables_agree b c :
  is_byte b -> 0 <= c ->
  char_to_windows1252 (windows1252_to_char b) = (if undefined_1252 b then 63 else b) /\
  (windows1252_to_char b = c -> undefined_1252 b = false -> char_to_windows1252 c = b) /\
  (char_to_windows1252 c = b -> b <> 63 -> windows1252_to_char b = c).
Proof.
  intros Hb Hc.
  assert (char_to_windows1252 (windows1252_to_char b) = (if undefined_1252 b then 63 else b)) as H1.
  { apply Z.eqb_eq. revert b Hb. apply for_all_bytes. by vm_compute. }
  split_and!; [done| |].
  - intros <- Hu. by rewrite H1, Hu.
  - intros Henc Hq. unfold char_to_windows1252 in Henc.
    destruct (Z.ltb_spec c 128).
    { subst c. unfold windows1252_to_char. destruct (Z.ltb_spec b 128); [done|lia]. }
    destruct (find _ _) as [[k v]|] eqn:Hf.
    { apply find_some in Hf as [Hin Hk]. cbn [fst snd] in *. bool_cases. subst k b.
      clear -Hin. cbn in Hin. destruct_or!; simplify_eq; done. }
    destruct ((160 <=? c) && (c <=? 255)) eqn:Er; [|congruence]. bool_cases. subst c.
    unfold windows1252_to_char. destruct (Z.ltb_spec b 128); [lia|].
    destruct (Z.leb_spec 160 b); [done|lia].
Qed.

Lemma windows1252_tables_agree_witness :
  windows1252_to_char 128 = 0x20AC /\ char_to_windows1252 0x20AC = 128.
Proof.
  split; [by vm_compute|].
  apply (windows1252_tables_agree 128 0x20AC); [lia | lia | by vm_compute | by vm_compute].
Defined.

(** ANSI and OEM text round trips: text whose characters the code page
    holds comes back unchanged from CF_TEXT and CF_OEMTEXT within the size
    limit, and every ASCII text (DEL apart, for OEM) is such a text. *)
Theorem single_byte_roundtrip self text :
  slen text + 1 <= max_size self ->
  (Forall (representable windows1252) text ->
     (text_to_ansi self text ≫= ansi_to_text self) = Ok text) /\
  (Forall (representable cp437) text ->
     (text_to_oem self text ≫= oem_to_text self) = Ok text) /\
  (Forall (fun c => 0 <= c < 127) text ->
     Forall (representable windows1252) text /\ Forall (representable cp437) text).
Proof.
  intros Hs.
  assert (forall cp, Forall (representable cp) text ->
    (text_to_codepage cp self text ≫= codepage_to_text cp self) = Ok text) as Hr.
  { intros cp Hr. destruct (text_to_codepage cp self text) as [data| |] eqn:E.
    - cbn. eapply codepage_roundtrip; [done..|].
      unfold text_to_codepage, check_size in E. case_match; [done|]. injection E as <-.
      unfold blen. rewrite length_app, length_map. cbn. pose proof (length_le_slen text). lia.
    - exfalso. unfold text_to_codepage, check_size in E. case_match; bool_cases; [|done]. lia.
    - unfold text_to_codepage, check_size in E. by case_match. }
  split_and!; [apply Hr..|].
  intros Ha. split; (eapply Forall_impl; [exact Ha|]); intros c Hc; unfold representable; cbn in *.
  - unfold char_to_windows1252, windows1252_to_char.
    destruct (Z.ltb_spec c 128); [|lia]. destruct (Z.ltb_spec c 128); [done|lia].
  - unfold char_to_cp437. destruct ((32 <=? c) && (c <? 127)) eqn:E; bool_cases.
    + unfold cp437_to_char. destruct (Z.ltb_spec c 32); [lia|].
      destruct (Z.ltb_spec c 127); [done|lia].
    + assert (c < 32) by lia. destruct (Z.ltb_spec c 32); [|lia].
      unfold cp437_to_char. destruct (Z.ltb_spec c 32); [done|lia].
Qed.

Lemma single_byte_roundtrip_witness :
  (text_to_ansi converter_new (lit "caf" ++ [0xE9]) ≫= ansi_to_text converter_new)
  = Ok (lit "caf" ++ [0xE9]).
Proof.
  apply (single_byte_roundtrip converter_new (lit "caf" ++ [0xE9])).
  - by vm_compute.
  - by repeat constructor.
Defined.

(** The middle dot is the one character the two CP437 tables disagree on: it is
    written as byte 249, which reads back as U+2219. *)
Lemma cp437_middle_dot : char_to_cp437 0xB7 = 249 /\ cp437_to_char 249 = 0x2219 /\ cp437_to_char 250 = 0xB7.
Proof. by vm_compute. Qed.
