(* ===== verification/ClipHtml.v ===== *)
(** * Clipboard HTML: the Windows CF_HTML container

    Models [html_to_cf_html], [cf_html_to_html] and [parse_header_value] of
    src/src/rdp/channels/clipboard/core/formats.rs. *)
From S2P Require Import Prelude Text ClipBase ClipText.

Definition CRLF : str := [CR; LF].

(** [core/formats.rs:415-419 html_to_cf_html] *)
Definition header_template : str :=
  lit "Version:0.9" ++ CRLF ++ lit "StartHTML:XXXXXXXX" ++ CRLF ++ lit "EndHTML:XXXXXXXX" ++ CRLF
  ++ lit "StartFragment:XXXXXXXX" ++ CRLF ++ lit "EndFragment:XXXXXXXX" ++ CRLF.

(** [core/formats.rs:421-421 html_to_cf_html] *)
Definition html_prefix : str := lit "<html><body><!--StartFragment-->".
(** [core/formats.rs:422-422 html_to_cf_html] *)
Definition html_suffix : str := lit "<!--EndFragment--></body></html>".

(** [core/formats.rs:430-437 html_to_cf_html] *)
Definition html_header (start_html end_html start_fragment end_fragment : Z) : str :=
  lit "Version:0.9" ++ CRLF
  ++ (lit "StartHTML:" ++ fmt_dec08 start_html) ++ CRLF
  ++ (lit "EndHTML:" ++ fmt_dec08 end_html) ++ CRLF
  ++ (lit "StartFragment:" ++ fmt_dec08 start_fragment) ++ CRLF
  ++ (lit "EndFragment:" ++ fmt_dec08 end_fragment) ++ CRLF.

(** [core/formats.rs:399-445 html_to_cf_html] *)
Definition html_to_cf_html (self : FormatConverter) (html : str) : ClipboardResult (list Z) :=
  check_size self (slen html)
    (let header_len := slen header_template in
     let start_html := header_len in
     let start_fragment := header_len + slen html_prefix in
     let end_fragment := start_fragment + slen html in
     let end_html := end_fragment + slen html_suffix in
     let header := html_header start_html end_html start_fragment end_fragment in
     Ok (as_bytes (header ++ html_prefix ++ html ++ html_suffix))).

(** [core/formats.rs:466-471 parse_header_value] *)
Definition parse_header_value (text key : str) : ClipboardResult Z :=
  ok_or (FormatConversion (lit "missing " ++ key ++ lit " header"))
    (line ← find (starts_with key) (lines text);
     parse_unsigned u64_max (trim (drop (length key) line))).

(** Slicing off a character boundary panics.
    [core/formats.rs:448-463 cf_html_to_html] *)
Definition cf_html_to_html (self : FormatConverter) (data : list Z) : ClipboardResult str :=
  text ← ok_or InvalidUtf8 (from_utf8 data);
  start_fragment ← parse_header_value text (lit "StartFragment:");
  end_fragment ← parse_header_value text (lit "EndFragment:");
  if (end_fragment <=? start_fragment) || (blen data <? end_fragment)
  then Err (FormatConversion (lit "invalid CF_HTML offsets"))
  else match byte_slice text start_fragment end_fragment with
       | Some fragment => Ok fragment
       | None => Panic
       end.

(** ** Facts *)
Lemma ascii_no_lf s : forallb (fun c => is_ascii c && negb (c =? LF)) s = true -> Forall (fun c => c <> LF) s.
Proof.
  rewrite forallb_Forall_true. intros H. eapply Forall_impl; [exact H|].
  cbn. intros c [_ Hc%negb_true_iff]%andb_prop. by apply Z.eqb_neq.
Qed.

Lemma digits_no_lf s : Forall (fun c => is_ascii_digit c = true) s -> Forall (fun c => c <> LF) s.
Proof. intros H. eapply Forall_impl; [exact H|]. cbn. unfold is_ascii_digit, LF. lia. Qed.

Lemma fmt_dec08_valid n : 0 <= n -> valid_str (fmt_dec08 n).
Proof.
  intros Hn. eapply Forall_impl; [by apply fmt_dec08_digits|].
  cbn. unfold is_ascii_digit, is_scalar. lia.
Qed.

Lemma lit_valid s : valid_str (lit s).
Proof.
  induction s as [|a s IH]; cbn [lit]; [constructor|]. constructor; [|done].
  unfold is_scalar. destruct a as [[] [] [] [] [] [] [] []]; done.
Qed.

Lemma slen_ascii s : Forall (fun c => 0 <= c < 128) s -> slen s = Z.of_nat (length s).
Proof.
  intros H. unfold slen. rewrite as_bytes_ascii; [done|].
  rewrite forallb_Forall_true. eapply Forall_impl; [exact H|]. cbn. unfold is_ascii. lia.
Qed.

Lemma fmt_dec08_slen n : 0 <= n < 10 ^ 8 -> slen (fmt_dec08 n) = 8.
Proof.
  intros Hn. rewrite slen_ascii; [pose proof (fmt_dec08_length n Hn); lia|].
  eapply Forall_impl; [apply fmt_dec08_digits; lia|]. cbn. unfold is_ascii_digit. lia.
Qed.

Section header.
Context (a b c d : Z) (rest : str).
Hypothesis Ha : 0 <= a < 10 ^ 8.
Hypothesis Hb : 0 <= b < 10 ^ 8.
Hypothesis Hc : 0 <= c < 10 ^ 8.
Hypothesis Hd : 0 <= d < 10 ^ 8.

Lemma html_header_slen : slen (html_header a b c d) = slen header_template.
Proof.
  unfold html_header. rewrite !slen_app, !fmt_dec08_slen by done. by vm_compute.
Qed.

(** The five header lines, and whatever follows. *)
Lemma html_header_lines :
  lines (html_header a b c d ++ rest)
  = lit "Version:0.9" :: (lit "StartHTML:" ++ fmt_dec08 a) :: (lit "EndHTML:" ++ fmt_dec08 b)
    :: (lit "StartFragment:" ++ fmt_dec08 c) :: (lit "EndFragment:" ++ fmt_dec08 d) :: lines rest.
Proof.
  assert (forall n s, 0 <= n -> forallb (fun c => is_ascii c && negb (c =? LF)) s = true ->
            Forall (fun c => c <> LF) (s ++ fmt_dec08 n)) as Hl.
  { intros n s Hn Hs. apply Forall_app; split; [by apply ascii_no_lf|].
    by apply digits_no_lf, fmt_dec08_digits. }
  pose proof (Hl a (lit "StartHTML:") ltac:(lia) eq_refl) as H1.
  pose proof (Hl b (lit "EndHTML:") ltac:(lia) eq_refl) as H2.
  pose proof (Hl c (lit "StartFragment:") ltac:(lia) eq_refl) as H3.
  pose proof (Hl d (lit "EndFragment:") ltac:(lia) eq_refl) as H4.
  unfold html_header, CRLF. revert H1 H2 H3 H4.
  generalize (lit "StartHTML:" ++ fmt_dec08 a), (lit "EndHTML:" ++ fmt_dec08 b),
    (lit "StartFragment:" ++ fmt_dec08 c), (lit "EndFragment:" ++ fmt_dec08 d).
  intros l1 l2 l3 l4 H1 H2 H3 H4. rewrite <- !app_assoc. cbn [app].
  rewrite lines_crlf by (by apply ascii_no_lf).
  rewrite !lines_crlf by done.
  done.
Qed.

Lemma parse_start_fragment :
  parse_header_value (html_header a b c d ++ rest) (lit "StartFragment:") = Ok c.
Proof.
  unfold parse_header_value. rewrite html_header_lines. cbn [find].
  change (starts_with _ (lit "Version:0.9")) with false.
  change (starts_with _ (lit "StartHTML:" ++ _)) with false.
  change (starts_with _ (lit "EndHTML:" ++ _)) with false.
  rewrite starts_with_app. cbn [mbind option_bind]. rewrite drop_app_length.
  rewrite trim_id by (eapply Forall_impl; [apply fmt_dec08_digits; lia | apply digit_not_whitespace]).
  by rewrite parse_fmt_dec08 by (unfold u64_max; lia).
Qed.

Lemma parse_end_fragment :
  parse_header_value (html_header a b c d ++ rest) (lit "EndFragment:") = Ok d.
Proof.
  unfold parse_header_value. rewrite html_header_lines. cbn [find].
  change (starts_with _ (lit "Version:0.9")) with false.
  change (starts_with _ (lit "StartHTML:" ++ _)) with false.
  change (starts_with _ (lit "EndHTML:" ++ _)) with false.
  change (starts_with _ (lit "StartFragment:" ++ _)) with false.
  rewrite starts_with_app. cbn [mbind option_bind]. rewrite drop_app_length.
  rewrite trim_id by (eapply Forall_impl; [apply fmt_dec08_digits; lia | apply digit_not_whitespace]).
  by rewrite parse_fmt_dec08 by (unfold u64_max; lia).
Qed.

Lemma html_header_valid : valid_str (html_header a b c d).
Proof.
  unfold html_header, CRLF. rewrite !Forall_app.
  split_and!; try apply lit_valid; try (apply fmt_dec08_valid; lia); by repeat constructor.
Qed.
End header.

(** CF_HTML round trips: the byte offsets written in the header delimit
    exactly the fragment, so every non-empty fragment shorter than the eight
    digits of the header fields can express is recovered unchanged.  The empty
    fragment is the one input that is not: the reader refuses it. *)
Theorem cf_html_roundtrip self html data :
  valid_str html -> slen html < 99999000 ->
  html_to_cf_html self html = Ok data ->
  cf_html_to_html self data =
    (if bool_decide (html = []) then Err (FormatConversion (lit "invalid CF_HTML offsets")) else Ok html).
Proof.
  intros Hv Hl. unfold html_to_cf_html, check_size. case_match; [done|]. intros Hd%Ok_inj.
  pose proof (slen_nonneg html) as Hn.
  set (sh := slen header_template). set (sp := slen html_prefix). set (ss := slen html_suffix).
  assert (sh = 97 /\ sp = 32 /\ ss = 32) as (Esh & Esp & Ess) by (by vm_compute).
  set (header := html_header sh (sh + sp + slen html + ss) (sh + sp) (sh + sp + slen html)).
  set (text := header ++ html_prefix ++ html ++ html_suffix).
  change (as_bytes text = data) in Hd. subst data.
  assert (slen header = sh) as Hhl by (apply html_header_slen; lia).
  unfold cf_html_to_html. rewrite from_utf8_as_bytes.
  2: { subst text header. rewrite !Forall_app. split_and!; [|apply lit_valid|done|apply lit_valid].
       apply html_header_valid; lia. }
  cbn [ok_or mbind outcome_bind].
  assert (parse_header_value text (lit "StartFragment:") = Ok (sh + sp)) as ->
    by (apply parse_start_fragment; lia).
  assert (parse_header_value text (lit "EndFragment:") = Ok (sh + sp + slen html)) as ->
    by (apply parse_end_fragment; lia).
  cbn [mbind outcome_bind].
  assert (blen (as_bytes text) = sh + sp + slen html + ss) as Hb.
  { change (blen (as_bytes text)) with (slen text). unfold text. rewrite !slen_app. lia. }
  rewrite Hb.
  assert (byte_slice text (sh + sp) (sh + sp + slen html) = Some html) as Hsl.
  { unfold text. rewrite app_assoc.
    replace (sh + sp) with (slen (header ++ html_prefix)) by (rewrite slen_app; lia).
    apply byte_slice_mid. }
  case_bool_decide as He.
  - subst html. replace (slen []) with 0 by done.
    replace (_ <=? _) with true; [done|]. symmetry. apply Z.leb_le. lia.
  - assert (0 < slen html).
    { destruct html as [|x html]; [done|]. rewrite slen_cons.
      pose proof (utf8_char_length x). pose proof (slen_nonneg html). lia. }
    replace (_ || _) with false; [by rewrite Hsl|].
    symmetry. apply orb_false_iff. split; [apply Z.leb_gt | apply Z.ltb_ge]; lia.
Qed.

Lemma cf_html_roundtrip_witness :
  (html_to_cf_html converter_new (lit "<b>hi</b>") ≫= cf_html_to_html converter_new) = Ok (lit "<b>hi</b>").
Proof.
  destruct (html_to_cf_html converter_new (lit "<b>hi</b>")) as [data| |] eqn:E;
    [|by vm_compute in E..].
  change (cf_html_to_html converter_new data = Ok (lit "<b>hi</b>")).
  apply (cf_html_roundtrip converter_new (lit "<b>hi</b>") data); [apply lit_valid | by vm_compute | exact E].
Defined.

(** A peer's CF_HTML block whose offsets split a two-byte character. *)
Definition crafted_cf_html : list Z :=
  as_bytes (lit "StartFragment:00000047" ++ CRLF ++ lit "EndFragment:00000048" ++ CRLF ++ [0xE9; 0xE9]).

(** The reader is not total on peer data: a well-formed block whose offsets
    pass both range checks but fall inside a multi-byte character makes the
    slice, and with it the conversion, panic. *)
Theorem cf_html_panics_inside_character self :
  Forall (fun b => is_byte b) crafted_cf_html /\
  cf_html_to_html self crafted_cf_html = Panic.
Proof. split; [by repeat constructor | by vm_compute]. Qed.
