(* ===== verification/ClipRtf.v ===== *)
(** * Clipboard RTF: validation, the plain-text writer and the text extractor

    Models [validate_rtf], [is_rtf], [text_to_rtf] and [rtf_to_text] of
    src/src/rdp/channels/clipboard/core/formats.rs.  The extractor's loop is a
    state machine over the remaining characters; every iteration consumes at
    least one, so as many iterations as there are characters are enough. *)
From S2P Require Import Prelude Text ClipBase ClipText.

Definition OPEN : Z := 123.
Definition CLOSE : Z := 125.
Definition BSLASH : Z := 92.
Definition QUOTE : Z := 39.
Definition STAR : Z := 42.
Definition MINUS : Z := 45.
Definition SPACE : Z := 32.
Definition REPLACEMENT : Z := 0xFFFD.

(** Two's complement wrap of an [i32] counter. *)
Definition wrap_i32 (z : Z) : Z := (z + 2147483648) mod 4294967296 - 2147483648.

(** [data.starts_with(b"{\\rtf")]
    [core/formats.rs:529-531 is_rtf] *)
Definition is_rtf (data : list Z) : bool := starts_with (lit "{\rtf") data.

(** The brace count: [None] when it goes negative.
    [core/formats.rs:503-515 validate_rtf] *)
Fixpoint brace_depth (data : list Z) (depth : Z) : option Z :=
  match data with
  | [] => Some depth
  | b :: data =>
      let depth := if b =? OPEN then wrap_i32 (depth + 1)
                   else if b =? CLOSE then wrap_i32 (depth - 1) else depth in
      if depth <? 0 then None else brace_depth data depth
  end.

(** [core/formats.rs:487-524 validate_rtf] *)
Definition validate_rtf (self : FormatConverter) (data : list Z) : ClipboardResult (list Z) :=
  check_size self (blen data)
    (if negb (is_rtf data) then Err (FormatConversion (lit "Invalid RTF: must start with {\rtf"))
     else match brace_depth data 0 with
          | None => Err (FormatConversion (lit "Invalid RTF: unmatched closing brace"))
          | Some depth =>
              if negb (depth =? 0) then Err (FormatConversion (lit "Invalid RTF: unmatched braces"))
              else Ok data
          end).

(** ** The writer *)
(** [unit as i16] *)
Definition as_i16 (u : Z) : Z := if u <? 32768 then u else u - 65536.
(** [format!("{}", n)] of a signed integer *)
Definition fmt_signed (n : Z) : str := if n <? 0 then MINUS :: fmt_dec (- n) else fmt_dec n.

(** [core/formats.rs:562-567 text_to_rtf] *)
Definition rtf_unit (u : Z) : str := BSLASH :: 117 :: fmt_signed (as_i16 u) ++ [63].

(** [core/formats.rs:554-569 text_to_rtf] *)
Definition rtf_char (c : Z) : str :=
  if c =? BSLASH then [BSLASH; BSLASH]
  else if c =? OPEN then [BSLASH; OPEN]
  else if c =? CLOSE then [BSLASH; CLOSE]
  else if c =? LF then lit "\par" ++ [LF]
  else if c =? CR then []
  else if is_ascii c then [c]
  else utf16_char c ≫= rtf_unit.

(** [core/formats.rs:547-550 text_to_rtf] *)
Definition rtf_prologue : str :=
  lit "{\rtf1\ansi\deff0" ++ [LF] ++ lit "{\fonttbl{\f0\fswiss\fcharset0 Arial;}}" ++ [LF].

(** [core/formats.rs:537-576 text_to_rtf] *)
Definition text_to_rtf (self : FormatConverter) (text : str) : ClipboardResult (list Z) :=
  check_size self (slen text)
    (Ok (as_bytes (rtf_prologue ++ (text ≫= rtf_char) ++ [CLOSE]))).

(** ** The text extractor *)
(** [core/formats.rs:592-598 rtf_to_text] *)
Record RtfState := mkRtf {
  result : str;
  skip_depth : option Z;
  group_depth : Z;
  unicode_fallback_count : Z;
  fallback_chars_to_skip : Z;
  pending_high_surrogate : option Z;
}.

Definition rtf_init : RtfState := mkRtf [] None 0 1 0 None.

Definition rtf_push (c : Z) (st : RtfState) : RtfState :=
  mkRtf (result st ++ [c]) (skip_depth st) (group_depth st) (unicode_fallback_count st)
    (fallback_chars_to_skip st) (pending_high_surrogate st).
Definition set_skip (d : option Z) (st : RtfState) : RtfState :=
  mkRtf (result st) d (group_depth st) (unicode_fallback_count st)
    (fallback_chars_to_skip st) (pending_high_surrogate st).
Definition set_depth (d : Z) (st : RtfState) : RtfState :=
  mkRtf (result st) (skip_depth st) d (unicode_fallback_count st)
    (fallback_chars_to_skip st) (pending_high_surrogate st).
Definition set_uc (n : Z) (st : RtfState) : RtfState :=
  mkRtf (result st) (skip_depth st) (group_depth st) n
    (fallback_chars_to_skip st) (pending_high_surrogate st).
Definition set_fallback (n : Z) (st : RtfState) : RtfState :=
  mkRtf (result st) (skip_depth st) (group_depth st) (unicode_fallback_count st)
    n (pending_high_surrogate st).
Definition set_pending (u : option Z) (st : RtfState) : RtfState :=
  mkRtf (result st) (skip_depth st) (group_depth st) (unicode_fallback_count st)
    (fallback_chars_to_skip st) u.

(** [if chars.peek() == Some(&c) { chars.next(); }] *)
Definition skip_if (c : Z) (r : str) : str :=
  match r with x :: r' => if x =? c then r' else r | [] => [] end.

(** What a fallback character [c] consumes after itself.
    [core/formats.rs:606-624 rtf_to_text] *)
Definition skip_fallback (c : Z) (r : str) : str :=
  if c =? BSLASH then
    match r with
    | [] => []
    | e :: r =>
        if e =? QUOTE then drop 2 r
        else if is_ascii_alphabetic e then
          skip_if SPACE (drop_while is_ascii_digit (skip_if MINUS (drop_while is_ascii_alphabetic r)))
        else r
    end
  else r.

(** [core/formats.rs:674-691 rtf_to_text] *)
Definition skip_destinations : list str :=
  [lit "fonttbl"; lit "colortbl"; lit "stylesheet"; lit "info"; lit "pict"; lit "header";
   lit "footer"; lit "footnote"; lit "annotation"; lit "field"; lit "fldinst"; lit "datafield";
   lit "docvar"; lit "xe"; lit "tc"; lit "rxe"].

(** [char::from_u32(n).unwrap_or(char::REPLACEMENT_CHARACTER)] *)
Definition char_or_replacement (n : Z) : Z := if is_scalar n then n else REPLACEMENT.

(** A pending high surrogate that is not continued becomes U+FFFD. *)
Definition flush_pending (st : RtfState) : RtfState :=
  match pending_high_surrogate st with
  | Some _ => rtf_push REPLACEMENT (set_pending None st)
  | None => st
  end.

(** [core/formats.rs:714-741 rtf_to_text] *)
Definition rtf_unicode (unit : Z) (st : RtfState) : RtfState :=
  if is_high_surrogate unit then set_pending (Some unit) (flush_pending st)
  else if is_low_surrogate unit then
    match pending_high_surrogate st with
    | Some high =>
        rtf_push (char_or_replacement (0x10000 + Z.shiftl (high - 0xD800) 10 + (unit - 0xDC00)))
          (set_pending None st)
    | None => rtf_push REPLACEMENT st
    end
  else rtf_push (char_or_replacement unit) (flush_pending st).

(** The character after a backslash that starts no control word.
    [core/formats.rs:745-764 rtf_to_text] *)
Definition rtf_escaped (st : RtfState) (r : str) : RtfState * str :=
  match r with
  | [] => (st, [])
  | e :: r =>
      if (e =? BSLASH) || (e =? OPEN) || (e =? CLOSE) then (rtf_push e st, r)
      else if e =? QUOTE then
        (match u8_from_hex (take 2 r) with
         | Some byte => rtf_push (windows1252_to_char byte) st
         | None => st
         end, drop 2 r)
      else if e =? STAR then (set_skip (Some (group_depth st)) st, r)
      else (st, r)
  end.

(** [core/formats.rs:704-767 rtf_to_text] *)
Definition rtf_word (word : str) (parameter : option Z) (st : RtfState) (r : str) : RtfState * str :=
  if eqs word (lit "par") || eqs word (lit "line") then (rtf_push LF st, r)
  else if eqs word (lit "tab") then (rtf_push 9 st, r)
  else if eqs word (lit "uc") then
    (match parameter with
     | Some v => if 0 <=? v then set_uc v st else st
     | None => st
     end, r)
  else if eqs word (lit "u") then
    (match parameter with
     | Some v => let st := rtf_unicode (wrap 16 v) st in
                 set_fallback (unicode_fallback_count st) st
     | None => st
     end, r)
  else if eqs word [] then rtf_escaped st r
  else (st, r).

(** Everything a backslash starts.
    [core/formats.rs:640-768 rtf_to_text] *)
Definition rtf_control (st : RtfState) (r : str) : RtfState * str :=
  let word := take_while is_ascii_alphabetic r in
  let r := drop_while is_ascii_alphabetic r in
  let sign := match r with x :: _ => if x =? MINUS then [MINUS] else [] | [] => [] end in
  let r := skip_if MINUS r in
  let parameter := parse_i32 (sign ++ take_while is_ascii_digit r) in
  let r := skip_if SPACE (drop_while is_ascii_digit r) in
  if existsb (eqs word) skip_destinations then (set_skip (Some (group_depth st)) st, r)
  else match skip_depth st with
       | Some _ => (st, r)
       | None => rtf_word word parameter st r
       end.

(** One iteration of the loop on the character [c] and what follows it.
    [core/formats.rs:600-773 rtf_to_text] *)
Definition rtf_step (st : RtfState) (c : Z) (r : str) : RtfState * str :=
  if 0 <? fallback_chars_to_skip st then
    (set_fallback (fallback_chars_to_skip st - 1) st, skip_fallback c r)
  else if c =? OPEN then (set_depth (wrap_i32 (group_depth st + 1)) st, r)
  else if c =? CLOSE then
    let st := match skip_depth st with
              | Some sd => if group_depth st =? sd then set_skip None st else st
              | None => st
              end in
    (set_depth (wrap_i32 (group_depth st - 1)) st, r)
  else if c =? BSLASH then rtf_control st r
  else match skip_depth st with
       | None => if SPACE <=? c then (rtf_push c st, r) else (st, r)
       | Some _ => (st, r)
       end.

Fixpoint rtf_loop (fuel : nat) (st : RtfState) (cs : str) : RtfState :=
  match fuel, cs with
  | O, _ | _, [] => st
  | S fuel, c :: r => let '(st, r) := rtf_step st c r in rtf_loop fuel st r
  end.
Definition rtf_run (st : RtfState) (cs : str) : RtfState := rtf_loop (length cs) st cs.

(** [core/formats.rs:582-780 rtf_to_text] *)
Definition rtf_to_text (self : FormatConverter) (data : list Z) : ClipboardResult str :=
  check_size self (blen data)
    (text ← ok_or InvalidUtf8 (from_utf8 data);
     Ok (result (flush_pending (rtf_run rtf_init text)))).

(** ** The loop *)
Lemma skip_if_length c r : (length (skip_if c r) <= length r)%nat.
Proof. destruct r as [|x r]; cbn; [lia|]. destruct (x =? c); cbn; lia. Qed.

Lemma skip_fallback_length c r : (length (skip_fallback c r) <= length r)%nat.
Proof.
  unfold skip_fallback. destruct (c =? BSLASH); [|lia].
  destruct r as [|e r]; [cbn; lia|]. cbn [length].
  destruct (e =? QUOTE); [rewrite length_drop; lia|].
  destruct (is_ascii_alphabetic e); [|lia].
  etrans; [apply skip_if_length|]. etrans; [apply drop_while_length|].
  etrans; [apply skip_if_length|]. etrans; [apply drop_while_length|]. lia.
Qed.

Lemma rtf_word_length w p st r : (length (rtf_word w p st r).2 <= length r)%nat.
Proof.
  unfold rtf_word. repeat case_match; cbn; try lia.
  unfold rtf_escaped. destruct r as [|e r]; [cbn; lia|].
  repeat case_match; cbn; rewrite ?length_drop; lia.
Qed.

Lemma rtf_control_length st r : (length (rtf_control st r).2 <= length r)%nat.
Proof.
  unfold rtf_control. set (r' := skip_if SPACE _).
  assert (length r' <= length r)%nat.
  { subst r'. etrans; [apply skip_if_length|]. etrans; [apply drop_while_length|].
    etrans; [apply skip_if_length|]. apply drop_while_length. }
  destruct (existsb _ _); [done|]. destruct (skip_depth st); [done|].
  etrans; [apply rtf_word_length | done].
Qed.

(** Every iteration leaves no more than the characters after the current one. *)
Lemma rtf_step_length st c r : (length (rtf_step st c r).2 <= length r)%nat.
Proof.
  unfold rtf_step. destruct (0 <? _); [apply skip_fallback_length|].
  destruct (c =? OPEN); [done|]. destruct (c =? CLOSE); [done|].
  destruct (c =? BSLASH); [apply rtf_control_length|].
  destruct (skip_depth st); [done|]. by destruct (SPACE <=? c).
Qed.

Lemma rtf_loop_enough fuel st cs :
  (length cs <= fuel)%nat -> rtf_loop fuel st cs = rtf_run st cs.
Proof.
  unfold rtf_run. revert st cs. induction fuel as [fuel IH] using lt_wf_ind. intros st cs Hl.
  destruct cs as [|c r]; [by destruct fuel|].
  destruct fuel as [|fuel]; cbn [length] in Hl; [lia|]. cbn [rtf_loop length].
  pose proof (rtf_step_length st c r) as Hs.
  destruct (rtf_step st c r) as [st' r']. cbn in Hs.
  destruct (decide (length r = fuel)) as [->|]; [done|].
  rewrite (IH fuel), (IH (length r)) by lia. done.
Qed.

Lemma rtf_run_cons st c r :
  rtf_run st (c :: r) = rtf_run (rtf_step st c r).1 (rtf_step st c r).2.
Proof.
  unfold rtf_run at 1. cbn [length rtf_loop]. pose proof (rtf_step_length st c r).
  destruct (rtf_step st c r) as [st' r']. by apply rtf_loop_enough.
Qed.

(** ** The writer's output is read back *)
(** The state inside the document body, all fallback characters consumed. *)
Definition body (res : str) (pending : option Z) : RtfState := mkRtf res None 1 1 0 pending.

(** The characters the extractor keeps. *)
Definition rtf_visible (c : Z) : bool := (c =? LF) || (SPACE <=? c).

Lemma fmt_dec_head n : 0 <= n -> exists d ds, fmt_dec n = d :: ds /\
  Forall (fun c => is_ascii_digit c = true) (d :: ds).
Proof.
  intros Hn. pose proof (fmt_dec_digits n Hn) as H. destruct (fmt_dec n) as [|d ds] eqn:E; eauto.
  exfalso. revert E. apply dec_digits_nonempty. lia.
Qed.

Lemma digits_value_fmt_dec n : 0 <= n < 10 ^ 40 -> digits_value (fmt_dec n) 0 = Some n.
Proof.
  intros Hn. unfold fmt_dec. rewrite digits_value_digits; [f_equal; lia| |lia].
  cbn -[Z.pow]. lia.
Qed.

Lemma parse_i32_signed n : -2147483648 <= n <= i32_max -> parse_i32 (fmt_signed n) = Some n.
Proof.
  unfold i32_max. intros Hn. unfold fmt_signed. destruct (Z.ltb_spec n 0).
  - destruct (fmt_dec_head (- n)) as (d & ds & E & _); [lia|].
    cbn [parse_i32]. rewrite E, <- E, digits_value_fmt_dec by lia.
    destruct (Z.leb_spec (- n) 2147483648); [f_equal; lia | lia].
  - destruct (fmt_dec_head n) as (d & ds & E & Hd); [lia|].
    apply Forall_inv in Hd. rewrite <- (parse_fmt_dec i32_max n) by (unfold i32_max; lia).
    rewrite E. unfold is_ascii_digit in Hd. unfold parse_i32. repeat case_match; try done; lia.
Qed.

(** The digits of a number, then a question mark. *)
Lemma control_unit st n r : -2147483648 <= n <= i32_max -> skip_depth st = None ->
  rtf_control st (117 :: fmt_signed n ++ 63 :: r) = rtf_word (lit "u") (Some n) st (63 :: r).
Proof.
  intros Hn Hs. unfold rtf_control. pose proof (parse_i32_signed n Hn) as Hp. revert Hp.
  assert (exists sg d ds, fmt_signed n = sg ++ d :: ds /\ (sg = [] \/ sg = [MINUS]) /\
            Forall (fun c => is_ascii_digit c = true) (d :: ds)) as (sg & d & ds & -> & Hsg & Hd).
  { unfold fmt_signed. destruct (Z.ltb_spec n 0);
      [destruct (fmt_dec_head (- n)) as (d & ds & -> & Hd) | destruct (fmt_dec_head n) as (d & ds & -> & Hd)];
      [lia | by exists [MINUS], d, ds; eauto | lia | by exists [], d, ds; eauto]. }
  pose proof (Forall_inv Hd) as Hh. cbn in Hh.
  assert (is_ascii_alphabetic d = false /\ (d =? MINUS) = false) as [Ha Hm].
  { revert Hh. unfold is_ascii_digit, is_ascii_alphabetic, is_ascii_upper, is_ascii_lower, MINUS. lia. }
  intros Hp.
  assert (take_while is_ascii_alphabetic (117 :: (sg ++ d :: ds) ++ 63 :: r) = lit "u") as ->.
  { destruct Hsg as [-> | ->]; cbn; by rewrite ?Ha. }
  assert (drop_while is_ascii_alphabetic (117 :: (sg ++ d :: ds) ++ 63 :: r) = sg ++ (d :: ds) ++ 63 :: r) as ->.
  { destruct Hsg as [-> | ->]; cbn; by rewrite ?Ha. }
  assert (match sg ++ (d :: ds) ++ 63 :: r with x :: _ => if x =? MINUS then [MINUS] else [] | [] => [] end = sg) as ->.
  { destruct Hsg as [-> | ->]; cbn; by rewrite ?Hm. }
  assert (skip_if MINUS (sg ++ (d :: ds) ++ 63 :: r) = (d :: ds) ++ 63 :: r) as ->.
  { destruct Hsg as [-> | ->]; cbn; by rewrite ?Hm. }
  rewrite <- forallb_Forall_true in Hd.
  rewrite take_while_app_stop, drop_while_app by done.
  rewrite Hp. cbn [skip_if]. by rewrite Hs.
Qed.

(** One escaped UTF-16 code unit and its fallback character. *)
Lemma run_unit res p u r : 0 <= u < 65536 ->
  rtf_run (body res p) (rtf_unit u ++ r) = rtf_run (rtf_unicode u (body res p)) r.
Proof.
  intros Hu. unfold rtf_unit. cbn [app]. rewrite <- app_assoc. cbn [app].
  rewrite rtf_run_cons. unfold rtf_step. cbn [fallback_chars_to_skip body].
  change (0 <? 0) with false. change (BSLASH =? OPEN) with false.
  change (BSLASH =? CLOSE) with false. change (BSLASH =? BSLASH) with true. cbv iota.
  assert (-32768 <= as_i16 u < 32768) as Hi by (unfold as_i16; destruct (Z.ltb_spec u 32768); lia).
  rewrite control_unit by (unfold i32_max; try done; lia).
  assert (wrap 16 (as_i16 u) = u) as Hw.
  { unfold wrap, as_i16. destruct (Z.ltb_spec u 32768).
    - by rewrite Z.mod_small by lia.
    - replace (u - 65536) with (u + (-1) * 2 ^ 16) by lia. rewrite Z_mod_plus_full, Z.mod_small; lia. }
  unfold rtf_word. change (eqs (lit "u") (lit "par") || eqs (lit "u") (lit "line")) with false.
  change (eqs (lit "u") (lit "tab")) with false. change (eqs (lit "u") (lit "uc")) with false.
  change (eqs (lit "u") (lit "u")) with true. cbv iota. rewrite Hw. cbv zeta. cbn [fst snd].
  rewrite rtf_run_cons. unfold rtf_step.
  assert (forall st, fallback_chars_to_skip st = 0 -> unicode_fallback_count st = 1 ->
            rtf_run (set_fallback 0 st) r = rtf_run st r) as Hst.
  { intros [] ? ?; cbn in *. by subst. }
  assert (unicode_fallback_count (rtf_unicode u (body res p)) = 1 /\
          fallback_chars_to_skip (rtf_unicode u (body res p)) = 0) as [-> Hf].
  { unfold rtf_unicode, flush_pending. destruct p; cbn; repeat case_match; done. }
  cbn -[rtf_unicode rtf_run]. etrans; [|apply (Hst (rtf_unicode u (body res p)))]; [done..|].
  unfold rtf_unicode, flush_pending. destruct p; cbn; repeat case_match; done.
Qed.

Lemma run_char res c r : is_scalar c = true ->
  rtf_run (body res None) (rtf_char c ++ r)
  = rtf_run (body (res ++ (if rtf_visible c then [c] else [])) None) r.
Proof.
  intros Hc. unfold rtf_char.
  destruct (Z.eqb_spec c BSLASH) as [->|]; [cbn [app]; by rewrite rtf_run_cons|].
  destruct (Z.eqb_spec c OPEN) as [->|]; [cbn [app]; by rewrite rtf_run_cons|].
  destruct (Z.eqb_spec c CLOSE) as [->|]; [cbn [app]; by rewrite rtf_run_cons|].
  destruct (Z.eqb_spec c LF) as [->|].
  { cbn [app lit]. rewrite rtf_run_cons.
    change (rtf_run (body (res ++ [LF]) None) (LF :: r) = rtf_run (body (res ++ [LF]) None) r).
    by rewrite rtf_run_cons. }
  destruct (Z.eqb_spec c CR) as [->|]; [cbn; by rewrite app_nil_r|].
  unfold rtf_visible. replace (c =? LF) with false by (symmetry; by apply Z.eqb_neq). cbn [orb].
  destruct (is_ascii c) eqn:Ha.
  - cbn [app]. rewrite rtf_run_cons. unfold rtf_step. cbn [fallback_chars_to_skip body].
    change (0 <? 0) with false. cbv iota.
    rewrite (proj2 (Z.eqb_neq c OPEN)), (proj2 (Z.eqb_neq c CLOSE)), (proj2 (Z.eqb_neq c BSLASH)) by done.
    cbn [skip_depth body]. destruct (SPACE <=? c); [done|]. cbn. by rewrite app_nil_r.
  - pose proof (is_scalar_range c Hc) as Hr. unfold is_ascii in Ha. bool_cases.
    replace (SPACE <=? c) with true by (unfold SPACE; lia).
    unfold utf16_char. case_match; bool_cases; cbn [mbind list_bind]; rewrite app_nil_r.
    + rewrite run_unit by lia. unfold rtf_unicode, char_or_replacement. rewrite Hc.
      replace (is_high_surrogate c) with false by (unfold is_high_surrogate, is_scalar in *; lia).
      replace (is_low_surrogate c) with false by (unfold is_low_surrogate, is_scalar in *; lia). done.
    + set (q := (c - 0x10000) / 1024). set (m := (c - 0x10000) mod 1024).
      assert (0 <= q < 1024 /\ 0 <= m < 1024 /\ c = 0x10000 + q * 1024 + m) as (Hq & Hm & Hcc)
        by (subst q m; Z.div_mod_to_equations; lia).
      rewrite <- app_assoc, !run_unit by lia. unfold rtf_unicode at 1.
      replace (is_high_surrogate (0xD800 + q)) with true by (unfold is_high_surrogate; lia).
      change (set_pending _ _) with (body res (Some (0xD800 + q))).
      rewrite run_unit by lia. unfold rtf_unicode.
      replace (is_high_surrogate (0xDC00 + m)) with false by (unfold is_high_surrogate; lia).
      replace (is_low_surrogate (0xDC00 + m)) with true by (unfold is_low_surrogate; lia).
      cbn [pending_high_surrogate body].
      replace (0x10000 + _ + _) with c
        by (rewrite Z.shiftl_mul_pow2 by lia; change (2 ^ 10) with 1024; lia).
      unfold char_or_replacement. by rewrite Hc.
Qed.

(** Twenty iterations read the header and the font table, and emit nothing. *)
Lemma run_prologue r : rtf_run rtf_init (rtf_prologue ++ r) = rtf_run (body [] None) r.
Proof.
  rewrite <- (rtf_loop_enough (20 + (length rtf_prologue + length r))).
  2: { rewrite length_app. lia. }
  transitivity (rtf_loop (length rtf_prologue + length r) (body [] None) r); [reflexivity|].
  apply rtf_loop_enough. lia.
Qed.

Lemma run_body text res r : valid_str text ->
  rtf_run (body res None) ((text ≫= rtf_char) ++ r)
  = rtf_run (body (res ++ filter (fun c => rtf_visible c = true) text) None) r.
Proof.
  intros Hv. revert res. induction Hv as [|c text Hc Hv IH]; intros res; [cbn; by rewrite app_nil_r|].
  cbn [mbind list_bind]. rewrite <- app_assoc, run_char, IH by done.
  rewrite filter_cons, <- app_assoc. by destruct (rtf_visible c).
Qed.

Lemma rtf_char_valid c : is_scalar c = true -> valid_str (rtf_char c).
Proof.
  intros Hc. unfold rtf_char. repeat (case_match; [by repeat constructor|]).
  apply Forall_forall. intros x (u & Hx & Hu)%list_elem_of_bind.
  revert x Hx. apply Forall_forall. unfold rtf_unit, fmt_signed.
  assert (forall n, 0 <= n -> valid_str (fmt_dec n)) as Hd.
  { intros n Hn. eapply Forall_impl; [by apply fmt_dec_digits|].
    cbn. unfold is_ascii_digit, is_scalar. lia. }
  do 2 (constructor; [done|]). apply Forall_app. split; [|by repeat constructor].
  destruct (Z.ltb_spec (as_i16 u) 0); [constructor; [done|]|]; apply Hd; lia.
Qed.

Lemma rtf_text_valid text : valid_str text -> valid_str (text ≫= rtf_char).
Proof.
  induction 1 as [|c text Hc Hv IH]; [constructor|].
  apply Forall_app. split; [by apply rtf_char_valid | done].
Qed.

(** The RTF writer and the RTF reader agree: whatever the writer emits for
    a text, the reader extracts that text, with exactly the carriage returns and
    the control characters other than the line feed removed. *)
Theorem rtf_roundtrip self text data :
  valid_str text -> text_to_rtf self text = Ok data -> blen data <= max_size self ->
  rtf_to_text self data = Ok (filter (fun c => rtf_visible c = true) text).
Proof.
  intros Hv. unfold text_to_rtf, check_size. case_match; [done|]. intros Hd%Ok_inj Hb.
  unfold rtf_to_text, check_size. case_match; bool_cases; [lia|]. subst data.
  set (doc := rtf_prologue ++ (text ≫= rtf_char) ++ [CLOSE]).
  assert (valid_str doc) as Hdoc.
  { subst doc. rewrite !Forall_app.
    split_and!; [by repeat constructor | by apply rtf_text_valid | by repeat constructor]. }
  rewrite from_utf8_as_bytes by done. cbn [ok_or mbind outcome_bind]. f_equal.
  subst doc. by rewrite run_prologue, run_body.
Qed.

Lemma rtf_roundtrip_witness :
  (text_to_rtf converter_new (lit "a{b}" ++ [BSLASH; CR; LF; 9; 0xE9; 0x1F600]) ≫= rtf_to_text converter_new)
  = Ok (lit "a{b}" ++ [BSLASH; LF; 0xE9; 0x1F600]).
Proof.
  destruct (text_to_rtf converter_new (lit "a{b}" ++ [BSLASH; CR; LF; 9; 0xE9; 0x1F600])) as [data| |] eqn:E;
    [|by vm_compute in E..].
  cbn [mbind outcome_bind]. etrans; [|by vm_compute].
  apply (rtf_roundtrip converter_new (lit "a{b}" ++ [BSLASH; CR; LF; 9; 0xE9; 0x1F600]) data);
    [by repeat constructor | exact E | apply Ok_inj in E; subst data; by vm_compute].
Defined.

(** The writer's own output need not pass the validator, which counts escaped
    braces like group braces. *)
Lemma writer_output_may_fail_validation :
  exists data, text_to_rtf converter_new [OPEN] = Ok data /\
    validate_rtf converter_new data = Err (FormatConversion (lit "Invalid RTF: unmatched braces")).
Proof. eexists. split; [done | by vm_compute]. Qed.
