(* ===== verification/Sanitize.v ===== *)
(** * Clipboard sanitization: file names, file URIs and line endings

    Models src/src/rdp/channels/clipboard/core/sanitize.rs.  A [PathBuf] is its
    byte string; the file system is the class [FileSystem]. *)
From S2P Require Import Prelude Text.

Definition DOT : Z := 46.
Definition SLASH : Z := 47.
Definition UNDERSCORE : Z := 95.
Definition DASH : Z := 45.
Definition PERCENT : Z := 37.
Definition unnamed : str := lit "_unnamed_".

Definition mem (c : Z) (l : list Z) : bool := existsb (Z.eqb c) l.

(** [core/sanitize.rs:32-32 WINDOWS_INVALID_CHARS] *)
Definition WINDOWS_INVALID_CHARS : list Z := [92; 47; 58; 42; 63; 34; 60; 62; 124].

(** [core/sanitize.rs:36-39 WINDOWS_RESERVED_NAMES] *)
Definition WINDOWS_RESERVED_NAMES : list str :=
  [lit "CON"; lit "PRN"; lit "AUX"; lit "NUL"; lit "COM1"; lit "COM2"; lit "COM3"; lit "COM4";
   lit "COM5"; lit "COM6"; lit "COM7"; lit "COM8"; lit "COM9"; lit "LPT1"; lit "LPT2"; lit "LPT3";
   lit "LPT4"; lit "LPT5"; lit "LPT6"; lit "LPT7"; lit "LPT8"; lit "LPT9"].

(** [core/sanitize.rs:42-42 WINDOWS_MAX_FILENAME_LEN] *)
Definition WINDOWS_MAX_FILENAME_LEN : Z := 255.
(** [core/sanitize.rs:135-135 LINUX_INVALID_CHARS] *)
Definition LINUX_INVALID_CHARS : list Z := [47; 0].
(** [core/sanitize.rs:138-138 LINUX_MAX_FILENAME_LEN] *)
Definition LINUX_MAX_FILENAME_LEN : Z := 255.

(** The truncation both file-name functions end with: the limit is compared with
    the length in bytes, and the cut is made by characters.
    [core/sanitize.rs:106-124 sanitize_filename_for_windows] *)
Definition truncate_name (limit : Z) (s : str) : str :=
  if limit <? slen s then
    match rsplit_once DOT s with
    | Some (base, e) =>
        let ext := DOT :: e in
        let ext_len := slen ext in
        if ext_len <? limit - 1 then take (Z.to_nat (limit - ext_len)) base ++ ext
        else take (Z.to_nat limit) s
    | None => take (Z.to_nat limit) s
    end
  else s.

(** [core/sanitize.rs:77-86 sanitize_filename_for_windows] *)
Definition windows_char (c : Z) : Z :=
  if mem c WINDOWS_INVALID_CHARS || is_control c then UNDERSCORE else c.

Definition dot_or_space (c : Z) : bool := (c =? DOT) || (c =? 32).

(** [core/sanitize.rs:88-91 sanitize_filename_for_windows] *)
Definition strip_trailing (s : str) : str := rev (drop_while dot_or_space (rev s)).

(** The part of the upper-cased name before its first dot.
    [core/sanitize.rs:98-100 sanitize_filename_for_windows] *)
Definition reserved_base `{Unicode} (s : str) : str := hd [] (split_on DOT (str_to_uppercase s)).

Definition is_reserved `{Unicode} (s : str) : bool :=
  existsb (eqs (reserved_base s)) WINDOWS_RESERVED_NAMES.

(** [core/sanitize.rs:71-127 sanitize_filename_for_windows] *)
Definition sanitize_filename_for_windows `{Unicode} (filename : str) : str :=
  match filename with
  | [] => unnamed
  | _ =>
      let sanitized := strip_trailing (map windows_char filename) in
      match sanitized with
      | [] => unnamed
      | _ =>
          let sanitized := if is_reserved sanitized then UNDERSCORE :: sanitized else sanitized in
          truncate_name WINDOWS_MAX_FILENAME_LEN sanitized
      end
  end.

(** [core/sanitize.rs:171-181 sanitize_filename_for_linux] *)
Definition linux_char (c : Z) : Z :=
  if mem c LINUX_INVALID_CHARS || (c =? 92) then UNDERSCORE else c.

(** [core/sanitize.rs:166-212 sanitize_filename_for_linux] *)
Definition sanitize_filename_for_linux (filename : str) : str :=
  match filename with
  | [] => unnamed
  | _ =>
      let sanitized := map linux_char filename in
      let sanitized := if starts_with [DASH] sanitized then UNDERSCORE :: sanitized else sanitized in
      if eqs sanitized [] || eqs sanitized [DOT] || eqs sanitized [DOT; DOT] then unnamed
      else truncate_name LINUX_MAX_FILENAME_LEN sanitized
  end.

(** ** Line endings *)
(** [text.replace("\r\n", "\n")]
    [core/sanitize.rs:411-413 convert_line_endings_to_unix] *)
Fixpoint convert_line_endings_to_unix (s : str) : str :=
  match s with
  | [] => []
  | c :: r =>
      match r with
      | d :: r' => if (c =? CR) && (d =? LF) then LF :: convert_line_endings_to_unix r'
                   else c :: convert_line_endings_to_unix r
      | [] => [c]
      end
  end.

(** [core/sanitize.rs:384-388 convert_line_endings_to_windows] *)
Definition convert_line_endings_to_windows (text : str) : str :=
  convert_line_endings_to_unix text ≫= fun c => if c =? LF then [CR; LF] else [c].

(** [result.retain(|c| c != '\0')] *)
Definition remove_nul (s : str) : str := List.filter (fun c => negb (c =? 0)) s.

(** [core/sanitize.rs:429-434 sanitize_text_for_windows] *)
Definition sanitize_text_for_windows (text : str) : str := remove_nul (convert_line_endings_to_windows text).
(** [core/sanitize.rs:450-455 sanitize_text_for_linux] *)
Definition sanitize_text_for_linux (text : str) : str := remove_nul (convert_line_endings_to_unix text).

(** ** File URIs *)
(** The multi-byte continuation of a percent escape: the bytes collected so far,
    the rest of the input; returns the text to push and what is left.
    [core/sanitize.rs:317-342 percent_decode] *)
Fixpoint percent_tail (fuel : nat) (bytes : list Z) (acc : str) (r : str) : str * str :=
  match fuel with
  | O => (acc ++ [0xFFFD], r)
  | S fuel =>
      match r with
      | c :: r' =>
          if c =? PERCENT then
            let hex2 := take 2 r' in
            let r'' := drop 2 r' in
            if slen hex2 =? 2 then
              match u8_from_hex hex2 with
              | Some b =>
                  let bytes := bytes ++ [b] in
                  match from_utf8 bytes with
                  | Some s => (acc ++ s, r'')
                  | None => percent_tail fuel bytes acc r''
                  end
              | None => (acc ++ PERCENT :: hex2 ++ [0xFFFD], r'')
              end
            else percent_tail fuel bytes acc r''
          else (acc ++ [0xFFFD], r)
      | [] => (acc ++ [0xFFFD], r)
      end
  end.

(** One character of the input: what it pushes and what is left.
    [core/sanitize.rs:306-350 percent_decode] *)
Definition percent_step (c : Z) (r : str) : str * str :=
  if c =? PERCENT then
    let hex := take 2 r in
    let r' := drop 2 r in
    if slen hex =? 2 then
      match u8_from_hex hex with
      | Some byte => if byte <? 128 then ([byte], r') else percent_tail (S (length r')) [byte] [] r'
      | None => (PERCENT :: hex, r')
      end
    else (PERCENT :: hex, r')
  else ([c], r).

(** [core/sanitize.rs:306-353 percent_decode] *)
Fixpoint percent_decode_loop (fuel : nat) (s : str) : str :=
  match fuel, s with
  | O, _ | _, [] => []
  | S fuel, c :: r => let '(out, r) := percent_step c r in out ++ percent_decode_loop fuel r
  end.
(** [core/sanitize.rs:302-356 percent_decode] *)
Definition percent_decode (s : str) : str := percent_decode_loop (length s) s.

(** What the code asks of the file system, by path bytes. *)
Class FileSystem := {
  exists_ : list Z -> bool;
  (** [std::fs::metadata]: an error's text, or whether it is a directory and its length *)
  metadata : list Z -> list Z + bool * Z;
}.

(** [core/sanitize.rs:290-297 parse_file_uri] *)
Definition parse_file_uri (uri : str) : option (list Z) :=
  path_str ← strip_prefix (lit "file://") uri;
  Some (as_bytes (percent_decode path_str)).

(** [String::from_utf8_lossy]: how many bytes one replacement character stands for. *)
Definition lossy_skip (bs : list Z) : nat :=
  let cont b := (128 <=? b) && (b <=? 191) in
  match bs with
  | [] => 1%nat
  | b0 :: r =>
      let second b :=
        if b0 =? 0xE0 then (0xA0 <=? b) && (b <=? 0xBF)
        else if b0 =? 0xED then (0x80 <=? b) && (b <=? 0x9F)
        else if b0 =? 0xF0 then (0x90 <=? b) && (b <=? 0xBF)
        else if b0 =? 0xF4 then (0x80 <=? b) && (b <=? 0x8F)
        else cont b in
      let w := if 0xF4 <? b0 then 0%nat else utf8_width b0 in
      match w, r with
      | 3%nat, b1 :: _ => if second b1 then 2%nat else 1%nat
      | 4%nat, b1 :: b2 :: _ => if second b1 then (if cont b2 then 3%nat else 2%nat) else 1%nat
      | 4%nat, [b1] => if second b1 then 2%nat else 1%nat
      | _, _ => 1%nat
      end
  end.

Fixpoint from_utf8_lossy_fuel (fuel : nat) (bs : list Z) : str :=
  match fuel, bs with
  | O, _ | _, [] => []
  | S fuel, _ =>
      match utf8_next bs with
      | Some (c, rest) => c :: from_utf8_lossy_fuel fuel rest
      | None => 0xFFFD :: from_utf8_lossy_fuel fuel (drop (lossy_skip bs) bs)
      end
  end.
Definition from_utf8_lossy (bs : list Z) : str := from_utf8_lossy_fuel (length bs) bs.

(** [core/sanitize.rs:254-277 parse_file_uris] *)
Definition parse_file_uris `{FileSystem} (data : list Z) : list (list Z) :=
  let keep line :=
    let line := trim line in
    if eqs line [] || eqs line (lit "copy") || eqs line (lit "cut") then None
    else match parse_file_uri line with
         | Some path => if exists_ path then Some path else None
         | None => None
         end in
  omap keep (lines (from_utf8_lossy data)).

(** ** Truncation *)
Lemma slen_le_length s : slen s <= 4 * Z.of_nat (length s).
Proof.
  induction s as [|c s IH]; [done|]. rewrite slen_cons. pose proof (utf8_char_length c).
  cbn [length]. lia.
Qed.

(** What truncation does: nothing, or a cut of at least three characters that
    keeps the first character. *)
Lemma truncate_name_spec s :
  let r := truncate_name 255 s in
  (forall c, c ∈ r -> c ∈ s) /\ Z.of_nat (length r) <= 255 /\
  (r = s \/ (255 < slen s /\ (3 <= length r)%nat /\ head r = head s)).
Proof.
  cbv zeta. unfold truncate_name. pose proof (length_le_slen s). pose proof (slen_le_length s).
  destruct (Z.ltb_spec 255 (slen s)); [|by split_and!; auto; lia].
  assert (Hcut : let r := take (Z.to_nat 255) s in (forall c, c ∈ r -> c ∈ s) /\
            Z.of_nat (length r) <= 255 /\
            (r = s \/ (255 < slen s /\ (3 <= length r)%nat /\ head r = head s))).
  { cbv zeta. rewrite length_take. split_and!; [|lia|right; split_and!; [lia|lia|]].
    - intros c Hc. by apply elem_of_take in Hc as (i & Hc & _); apply list_elem_of_lookup; exists i.
    - destruct s; [cbn in *; lia | done]. }
  destruct (rsplit_once DOT s) as [[base e]|] eqn:E; [|exact Hcut].
  pose proof (rsplit_once_spec DOT s) as Hs. rewrite E in Hs. destruct Hs as [Hs _]. clear E.
  destruct (Z.ltb_spec (slen (DOT :: e)) (255 - 1)); [|exact Hcut].
  clear Hcut. subst s.
  rewrite slen_app in *.
  pose proof (slen_le_length base). pose proof (length_le_slen (DOT :: e)).
  assert (slen (DOT :: e) = 1 + slen e) as He by (rewrite slen_cons; done).
  pose proof (slen_nonneg e). pose proof (length_le_slen e). pose proof (slen_le_length e).
  rewrite length_app, length_take. cbn [length] in *. split_and!.
  - intros c [Hc|Hc]%elem_of_app; apply elem_of_app; [left|by right].
    by apply elem_of_take in Hc as (i & Hc & _); apply list_elem_of_lookup; exists i.
  - lia.
  - right. split_and!; [lia | lia |].
    destruct base as [|b base]; [cbn in *; lia|].
    destruct (Z.to_nat (255 - slen (DOT :: e))) eqn:?; [lia | done].
Qed.

(** Every name produced for the local file system is one path component that
    the shell and the kernel take as a plain name: it is not empty, not [.] or
    [..], contains no separator, NUL or backslash, does not begin with a dash,
    and has at most 255 characters. *)
Theorem linux_name_safe f :
  let r := sanitize_filename_for_linux f in
  r <> [] /\ r <> [DOT] /\ r <> [DOT; DOT] /\ head r <> Some DASH /\
  Forall (fun c => c <> SLASH /\ c <> 0 /\ c <> 92) r /\ Z.of_nat (length r) <= LINUX_MAX_FILENAME_LEN.
Proof.
  cbv zeta. unfold sanitize_filename_for_linux.
  assert (Hun : unnamed <> [] /\ unnamed <> [DOT] /\ unnamed <> [DOT; DOT] /\ head unnamed <> Some DASH /\
    Forall (fun c => c <> SLASH /\ c <> 0 /\ c <> 92) unnamed /\ Z.of_nat (length unnamed) <= LINUX_MAX_FILENAME_LEN)
    by (split_and!; [done..| | done]; by repeat constructor).
  destruct f as [|x f]; [exact Hun|]. set (m := map linux_char (x :: f)).
  assert (forall c, c ∈ m -> c <> SLASH /\ c <> 0 /\ c <> 92) as Hm.
  { intros c (y & -> & _)%list_elem_of_fmap. unfold linux_char, mem, LINUX_INVALID_CHARS. cbn.
    destruct ((y =? 47) || ((y =? 0) || false) || (y =? 92)) eqn:E; [done|]. unfold SLASH. lia. }
  set (m' := if starts_with [DASH] m then UNDERSCORE :: m else m).
  assert (forall c, c ∈ m' -> c <> SLASH /\ c <> 0 /\ c <> 92) as Hm'.
  { subst m'. destruct (starts_with [DASH] m); [|done]. by intros c [->|Hc]%elem_of_cons; auto. }
  assert (head m' <> Some DASH) as Hh.
  { subst m'. destruct m as [|y m0] eqn:E; [done|]. cbn [starts_with].
    destruct (Z.eqb_spec DASH y); cbn [andb head]; [|congruence].
    intros H. by vm_compute in H. }
  destruct (eqs m' [] || eqs m' [DOT] || eqs m' [DOT; DOT]) eqn:E; [exact Hun|].
  apply orb_false_iff in E as [[E1 E2]%orb_false_iff E3].
  assert (m' <> [] /\ m' <> [DOT] /\ m' <> [DOT; DOT]) as (N1 & N2 & N3).
  { split_and!; intros ->; by vm_compute in E1, E2, E3. }
  destruct (truncate_name_spec m') as (Hin & Hl & Hr).
  unfold LINUX_MAX_FILENAME_LEN. set (r := truncate_name 255 m') in *.
  assert (Forall (fun c => c <> SLASH /\ c <> 0 /\ c <> 92) r) as Hf.
  { apply Forall_forall. auto. }
  destruct Hr as [Hr|(_ & Hlen & Hhd)]; [by rewrite Hr in *|].
  split_and!; try done; try (intros Hr; rewrite Hr in Hlen; cbn in Hlen; lia). by rewrite Hhd.
Qed.

(** ** Names for Windows *)
Lemma drop_while_stop {A} (p : A -> bool) l x r : drop_while p l = x :: r -> p x = false.
Proof.
  induction l as [|y l IH]; cbn; [done|]. destruct (p y) eqn:E; [auto|]. by intros [= -> ->].
Qed.

Lemma strip_trailing_prefix s : exists t, s = strip_trailing s ++ t.
Proof.
  unfold strip_trailing. destruct (drop_while_suffix dot_or_space (rev s)) as [l' Hl].
  exists (rev l'). by rewrite <- rev_app_distr, <- Hl, rev_involutive.
Qed.

Lemma strip_trailing_end s c : last (strip_trailing s) = Some c -> dot_or_space c = false.
Proof.
  unfold strip_trailing. destruct (drop_while dot_or_space (rev s)) as [|x r] eqn:E; [done|].
  cbn [rev]. rewrite last_snoc. intros [= <-]. by eapply drop_while_stop.
Qed.

Lemma windows_char_ok c :
  mem (windows_char c) WINDOWS_INVALID_CHARS = false /\ is_control (windows_char c) = false.
Proof.
  unfold windows_char. destruct (mem c WINDOWS_INVALID_CHARS || is_control c) eqn:E; [done|].
  by apply orb_false_iff in E.
Qed.

Lemma windows_char_slen s : slen (map windows_char s) <= slen s.
Proof.
  induction s as [|c s IH]; [done|]. cbn [map]. rewrite !slen_cons.
  assert (length (utf8_char (windows_char c)) <= length (utf8_char c))%nat; [|lia].
  unfold windows_char. destruct (_ || _); [|done]. apply (utf8_char_length c).
Qed.

Lemma underscore_not_reserved `{U : Unicode} s : is_reserved (UNDERSCORE :: s) = false.
Proof.
  unfold is_reserved, reserved_base, str_to_uppercase. cbn [mbind list_bind].
  rewrite to_uppercase_ascii by done. change (ascii_upper UNDERSCORE) with UNDERSCORE.
  cbn [app split_on]. change (UNDERSCORE =? DOT) with false. cbv iota.
  apply not_true_iff_false. intros (n & Hn & E)%existsb_exists. apply eqs_true in E.
  subst n. revert Hn. destruct (split_on DOT _); cbn [hd];
    intros Hn; repeat (destruct Hn as [Hn|Hn]; [by vm_compute in Hn|]); done.
Qed.

(** What holds of every character of the sanitized name. *)
Lemma sanitize_windows_forall `{U : Unicode} (P : Z -> Prop) f :
  Forall P unnamed -> P UNDERSCORE -> Forall (fun c => P (windows_char c)) f ->
  Forall P (sanitize_filename_for_windows f).
Proof.
  intros Hun Hu Hf. unfold sanitize_filename_for_windows. destruct f as [|x f]; [done|].
  destruct (strip_trailing_prefix (map windows_char (x :: f))) as [t Ht].
  assert (Forall P (map windows_char (x :: f))) as Hm by (by apply Forall_fmap).
  rewrite Ht in Hm. apply Forall_app in Hm as [Hm _].
  destruct (strip_trailing (map windows_char (x :: f))) as [|y s]; [done|].
  set (s' := if is_reserved (y :: s) then _ else _).
  assert (Forall P s') as Hs' by (subst s'; case_match; [by constructor | done]).
  destruct (truncate_name_spec s') as (Hin & _). rewrite Forall_forall in *. auto.
Qed.

Lemma sanitize_windows_shape `{U : Unicode} f :
  let r := sanitize_filename_for_windows f in
  r <> [] /\ Z.of_nat (length r) <= WINDOWS_MAX_FILENAME_LEN /\
  (slen f <= 254 -> is_reserved r = false /\ ends_with DOT r = false /\ ends_with 32 r = false).
Proof.
  cbv zeta. unfold sanitize_filename_for_windows.
  assert (Hun : unnamed <> [] /\ Z.of_nat (length unnamed) <= WINDOWS_MAX_FILENAME_LEN /\
    (slen f <= 254 -> is_reserved unnamed = false /\ ends_with DOT unnamed = false /\ ends_with 32 unnamed = false)).
  { split_and!; [done | done | intros _; split; [|done]].
    change unnamed with (UNDERSCORE :: lit "unnamed_"). apply underscore_not_reserved. }
  destruct f as [|x f]; [exact Hun|].
  destruct (strip_trailing_prefix (map windows_char (x :: f))) as [t Ht].
  pose proof (strip_trailing_end (map windows_char (x :: f))) as Hend.
  pose proof (windows_char_slen (x :: f)) as Hsl. rewrite Ht in Hsl.
  destruct (strip_trailing (map windows_char (x :: f))) as [|y s] eqn:E; [exact Hun|].
  set (s' := if is_reserved (y :: s) then UNDERSCORE :: y :: s else y :: s).
  assert (s' <> [] /\ slen s' <= 1 + slen (x :: f) /\ is_reserved s' = false /\ last s' = last (y :: s))
    as (Hne & Hl' & Hres & Hlast).
  { rewrite slen_app in Hsl. pose proof (slen_nonneg t). subst s'.
    destruct (is_reserved (y :: s)) eqn:Er; split_and!; try done; try lia.
    - rewrite slen_cons. change (Z.of_nat (length (utf8_char UNDERSCORE))) with 1. lia.
    - apply underscore_not_reserved. }
  destruct (truncate_name_spec s') as (_ & Hlen & Hr).
  unfold WINDOWS_MAX_FILENAME_LEN. set (r := truncate_name 255 s') in *. split_and!; [|done|].
  - destruct Hr as [-> | (_ & ? & _)]; [done|]. intros Hr. rewrite Hr in *. cbn in *. lia.
  - intros Hf. destruct Hr as [-> | (? & _)]; [|lia]. split; [done|].
    unfold ends_with. rewrite Hlast.
    destruct (last (y :: s)) as [c|] eqn:El; [|done]. specialize (Hend c eq_refl).
    unfold dot_or_space in Hend. by apply orb_false_iff in Hend.
Qed.

(** A name offered to a Windows peer is not empty, contains no character
    Windows forbids and no control character, and has at most 255 characters;
    and for every name of at most 254 bytes it is not a reserved device name and
    does not end with a dot or a space.  The bound is needed: see
    [long_name_may_end_in_space]. *)
Theorem windows_name_safe `{U : Unicode} f :
  let r := sanitize_filename_for_windows f in
  r <> [] /\
  Forall (fun c => mem c WINDOWS_INVALID_CHARS = false /\ is_control c = false) r /\
  Z.of_nat (length r) <= WINDOWS_MAX_FILENAME_LEN /\
  (slen f <= 254 -> is_reserved r = false /\ ends_with DOT r = false /\ ends_with 32 r = false).
Proof.
  destruct (sanitize_windows_shape f) as (Hne & Hlen & Hs). split_and!; [done| |done|done].
  apply sanitize_windows_forall; [by repeat constructor | done |].
  apply Forall_true. intros c. apply windows_char_ok.
Qed.

Lemma windows_name_safe_witness :
  slen (lit "con.txt. ") <= 254 /\
  ends_with DOT (sanitize_filename_for_windows (lit "con.txt. ")) = false.
Proof.
  assert (slen (lit "con.txt. ") <= 254) as H by (by vm_compute). split; [exact H|].
  apply (windows_name_safe (lit "con.txt. ")). exact H.
Defined.

(** The cut is made after the trailing dots and spaces were removed, so it can
    expose one. *)
Lemma long_name_may_end_in_space :
  ends_with 32 (sanitize_filename_for_windows (replicate 254 97 ++ [32; 97])) = true.
Proof. by vm_compute. Qed.

(** The limit is compared in bytes but applied in characters: the local name may
    be longer than the 255 bytes a Linux file name can have. *)
Lemma linux_name_may_exceed_255_bytes :
  slen (sanitize_filename_for_linux (replicate 200 0xE9)) = 400.
Proof. by vm_compute. Qed.

(** ** Line endings *)
Definition expand_lf (c : Z) : str := if c =? LF then [CR; LF] else [c].

Lemma unix_expand s : convert_line_endings_to_unix (s ≫= expand_lf) = s.
Proof.
  induction s as [|c s IH]; [done|]. cbn [mbind list_bind]. unfold expand_lf at 1.
  destruct (Z.eqb_spec c LF) as [->|Hc].
  - cbn [app convert_line_endings_to_unix]. rewrite !Z.eqb_refl. cbn [andb]. by rewrite IH.
  - cbn [app]. rewrite <- IH at 2. cbn [convert_line_endings_to_unix].
    destruct (s ≫= expand_lf) as [|d r] eqn:E; [done|].
    replace (d =? LF) with false; [by rewrite andb_false_r|].
    symmetry. apply Z.eqb_neq. intros ->. destruct s as [|e s]; [done|].
    cbn [mbind list_bind] in E. unfold expand_lf in E.
    destruct (Z.eqb_spec e LF); [discriminate E|]. cbn in E. congruence.
Qed.

Lemma remove_nul_expand s : remove_nul (s ≫= expand_lf) = remove_nul s ≫= expand_lf.
Proof.
  induction s as [|c s IH]; [done|]. cbn [mbind list_bind]. unfold remove_nul in *.
  rewrite List.filter_app, IH. unfold expand_lf at 1.
  destruct (Z.eqb_spec c LF) as [->|Hc]; [done|]. cbn [List.filter].
  destruct (Z.eqb_spec c 0) as [->|]; [done|]. cbn [negb app mbind list_bind].
  unfold expand_lf at 2. by rewrite (proj2 (Z.eqb_neq c LF)).
Qed.

Lemma remove_nul_idem s : remove_nul (remove_nul s) = remove_nul s.
Proof.
  unfold remove_nul. induction s as [|c s IH]; [done|]. cbn [List.filter].
  destruct (negb (c =? 0)) eqn:E; [|done]. cbn [List.filter]. by rewrite E, IH.
Qed.

(** The text handed to Windows has canonical line endings: translating it
    back gives exactly the text with CRLF read as LF and NULs removed, and
    sanitizing again changes nothing. *)
Theorem windows_text_canonical text :
  convert_line_endings_to_unix (sanitize_text_for_windows text) = sanitize_text_for_linux text /\
  sanitize_text_for_windows (sanitize_text_for_windows text) = sanitize_text_for_windows text /\
  Forall (fun c => c <> 0) (sanitize_text_for_windows text).
Proof.
  unfold sanitize_text_for_windows, sanitize_text_for_linux, convert_line_endings_to_windows.
  fold expand_lf. rewrite remove_nul_expand. split_and!.
  - apply unix_expand.
  - by rewrite unix_expand, remove_nul_expand, remove_nul_idem.
  - rewrite <- remove_nul_expand. apply Forall_forall.
    intros c (_ & Hc)%list_elem_of_In%List.filter_In. by apply negb_true_iff, Z.eqb_neq in Hc.
Qed.

(** A NUL between CR and LF survives the line-ending pass and is removed after
    it, so the local text can still contain CRLF. *)
Lemma linux_text_may_keep_crlf : sanitize_text_for_linux [CR; 0; LF] = [CR; LF].
Proof. done. Qed.
