(* ===== verification/ClipFiles.v ===== *)
(** * Clipboard file lists: CF_HDROP and FILEDESCRIPTORW

    Models [uri_list_to_hdrop], [hdrop_to_uri_list], the percent codec and
    [FileDescriptor] of src/src/rdp/channels/clipboard/core/formats.rs. *)
From S2P Require Import Prelude Text ClipBase ClipText Sanitize.

Definition join (sep : str) (l : list str) : str :=
  match l with
  | [] => []
  | x :: l => x ++ (l ≫= fun y => sep ++ y)
  end.

(** ** Percent encoding of UTF-8 paths *)
(** [core/formats.rs:928-944 percent_decode] *)
Fixpoint percent_decode_bytes (fuel : nat) (bs : list Z) : list Z :=
  match fuel, bs with
  | O, _ | _, [] => []
  | S fuel, b :: r =>
      let decoded := if (b =? PERCENT) && (2 <=? blen r)
                     then from_utf8 (take 2 r) ≫= u8_from_hex else None in
      match decoded with
      | Some byte => byte :: percent_decode_bytes fuel (drop 2 r)
      | None => b :: percent_decode_bytes fuel r
      end
  end.

(** [core/formats.rs:925-947 percent_decode] *)
Definition percent_decode (input : str) : ClipboardResult str :=
  let bytes := as_bytes input in
  ok_or InvalidUtf8 (from_utf8 (percent_decode_bytes (length bytes) bytes)).

(** [core/formats.rs:954-954 percent_encode] *)
Definition unreserved (b : Z) : bool := is_ascii_alphanumeric b || mem b [45; 46; 95; 126; 47; 58].

(** [core/formats.rs:950-963 percent_encode] *)
Definition percent_encode (input : str) : str :=
  as_bytes input ≫= fun b => if unreserved b then [b] else PERCENT :: fmt_hex02 b.

(** ** CF_HDROP *)
Definition file_scheme : str := lit "file://".

(** The twenty bytes of the DROPFILES header.
    [core/formats.rs:814-823 uri_list_to_hdrop] *)
Definition dropfiles_header : list Z := to_le 4 20 ++ to_le 4 0 ++ to_le 4 0 ++ to_le 4 0 ++ to_le 4 1.

(** [core/formats.rs:785-846 uri_list_to_hdrop] *)
Definition uri_list_to_hdrop (self : FormatConverter) (uri_list : str) : ClipboardResult (list Z) :=
  check_size self (slen uri_list)
    (let paths := omap (strip_prefix file_scheme)
                    (List.filter (fun line => negb (starts_with [35] line)) (lines uri_list)) in
     match paths with
     | [] => Err (FormatConversion (lit "no valid file URIs"))
     | _ =>
         result ← mfold (fun result path =>
                           decoded ← percent_decode path;
                           Ok (result ++ (encode_utf16 decoded ≫= le16) ++ [0; 0]))
                        dropfiles_header paths;
         let result := result ++ [0; 0] in
         check_size self (blen result) (Ok result)
     end).

(** The paths of a UTF-16 list; one that is not valid UTF-16 is left out.
    [core/formats.rs:877-895 hdrop_to_uri_list] *)
Fixpoint hdrop_wide (fuel : nat) (units : list Z) : list str :=
  match fuel with
  | O => []
  | S fuel =>
      match units with
      | [] => []
      | _ =>
          let path_chars := take_while (fun u => negb (u =? 0)) units in
          match path_chars with
          | [] => []
          | _ =>
              let rest := drop (S (length path_chars)) units in
              match from_utf16 path_chars with
              | Some path => (file_scheme ++ percent_encode path) :: hdrop_wide fuel rest
              | None => hdrop_wide fuel rest
              end
          end
      end
  end.

(** [core/formats.rs:898-912 hdrop_to_uri_list] *)
Fixpoint hdrop_ansi (fuel : nat) (data : list Z) : list str :=
  match fuel with
  | O => []
  | S fuel =>
      match data with
      | [] => []
      | _ =>
          let name := take_while (fun b => negb (b =? 0)) data in
          match name with
          | [] => []
          | _ =>
              let rest := drop (S (length name)) data in
              match from_utf8 name with
              | Some path => (file_scheme ++ percent_encode path) :: hdrop_ansi fuel rest
              | None => hdrop_ansi fuel rest
              end
          end
      end
  end.

(** [u32::from_le_bytes] of the four bytes at an offset. *)
Definition le_at (n off : nat) (data : list Z) : Z := of_le (take n (drop off data)).

(** [core/formats.rs:849-917 hdrop_to_uri_list] *)
Definition hdrop_to_uri_list (self : FormatConverter) (data : list Z) : ClipboardResult str :=
  check_size self (blen data)
    (if blen data <? 20 then Err (FormatConversion (lit "HDROP too small"))
     else
       let p_files := le_at 4 0 data in
       let f_wide := negb (le_at 4 16 data =? 0) in
       if (p_files <? 20) || (blen data <=? p_files) || (f_wide && negb (p_files mod 2 =? 0))
       then Err (FormatConversion (lit "invalid pFiles offset"))
       else
         let file_data := drop (Z.to_nat p_files) data in
         let paths := if f_wide
                      then let units := units_le file_data in hdrop_wide (length units) units
                      else hdrop_ansi (length file_data) file_data in
         Ok (join [CR; LF] paths)).

(** ** FILEDESCRIPTORW *)
(** [core/formats.rs:975-975 FileDescriptorFlags::ATTRIBUTES] *)
Definition FLAG_ATTRIBUTES : Z := 1.
(** [core/formats.rs:977-977 FileDescriptorFlags::FILESIZE] *)
Definition FLAG_FILESIZE : Z := 64.
(** [core/formats.rs:979-979 FileDescriptorFlags::WRITESTIME] *)
Definition FLAG_WRITESTIME : Z := 32.
(** [core/formats.rs:981-981 FileDescriptorFlags::CREATETIME] *)
Definition FLAG_CREATETIME : Z := 2.
(** [core/formats.rs:983-983 FileDescriptorFlags::ACCESSTIME] *)
Definition FLAG_ACCESSTIME : Z := 16.
(** [core/formats.rs:991-993 has_flag] *)
Definition has_flag (flags flag : Z) : bool := negb (Z.land flags flag =? 0).

(** [core/formats.rs:1001-1022 FileDescriptor] *)
Record FileDescriptor := mkDescriptor {
  fd_flags : Z;
  fd_attributes : Z;
  creation_time : option Z;
  access_time : option Z;
  write_time : option Z;
  fd_size : option Z;
  fd_name : str;
}.

(** [core/formats.rs:1109-1121 parse_utf16_filename] *)
Definition parse_utf16_filename (data : list Z) : ClipboardResult str :=
  if negb (blen data mod 2 =? 0) then Err InvalidUtf16
  else ok_or InvalidUtf16 (from_utf16 (take_while (fun u => negb (u =? 0)) (units_le data))).

Definition descriptor_len : nat := 592.

(** [core/formats.rs:1042-1106 FileDescriptor::parse] *)
Definition parse_descriptor (data : list Z) : ClipboardResult FileDescriptor :=
  if blen data <? 592
  then Err (FormatConversion (lit "FILEDESCRIPTORW too small: " ++ fmt_dec (blen data) ++ lit " bytes (need 592)"))
  else
    let flags := le_at 4 0 data in
    let attributes := le_at 4 36 data in
    let opt flag v := if has_flag flags flag then Some v else None in
    let creation := opt FLAG_CREATETIME (le_at 8 40 data) in
    let access := opt FLAG_ACCESSTIME (le_at 8 48 data) in
    let write := opt FLAG_WRITESTIME (le_at 8 56 data) in
    let size := opt FLAG_FILESIZE (Z.lor (Z.shiftl (le_at 4 64 data) 32) (le_at 4 68 data)) in
    name ← parse_utf16_filename (take 520 (drop 72 data));
    Ok (mkDescriptor flags attributes creation access write size name).

(** [core/formats.rs:1159-1165 FileDescriptor::parse_list] *)
Fixpoint parse_descriptors (count : nat) (data : list Z) : ClipboardResult (list FileDescriptor) :=
  match count with
  | O => Ok []
  | S count =>
      d ← parse_descriptor (take descriptor_len data);
      ds ← parse_descriptors count (drop descriptor_len data);
      Ok (d :: ds)
  end.

(** The count is a [u32], so [4 + count * 592] does not overflow a 64-bit [usize].
    [core/formats.rs:1134-1168 FileDescriptor::parse_list] *)
Definition parse_list (data : list Z) : ClipboardResult (list FileDescriptor) :=
  if blen data <? 4 then Err (FormatConversion (lit "FileGroupDescriptorW too small for count"))
  else
    let count := le_at 4 0 data in
    if count =? 0 then Ok []
    else
      let expected_size := 4 + count * 592 in
      if blen data <? expected_size
      then Err (FormatConversion (lit "FileGroupDescriptorW too small: " ++ fmt_dec (blen data)
                  ++ lit " bytes (need " ++ fmt_dec expected_size ++ lit " for " ++ fmt_dec count ++ lit " files)"))
      else parse_descriptors (Z.to_nat count) (drop 4 data).

(** [data[off..off + bs.len()].copy_from_slice(bs)] *)
Definition write_at (off : nat) (bs data : list Z) : list Z :=
  take off data ++ bs ++ drop (off + length bs) data.

(** [core/formats.rs:1208-1210 FileDescriptor::build] *)
Fixpoint write_units (off : nat) (us data : list Z) : list Z :=
  match us with
  | [] => data
  | u :: us => write_units (off + 2) us (write_at off (to_le 2 u) data)
  end.

(** [Path::file_name]: the last component, unless it is [..]. *)
Definition file_name (path : list Z) : option (list Z) :=
  match last (List.filter (fun c => negb (eqs c [] || eqs c [DOT])) (split_on SLASH path)) with
  | Some c => if eqs c [DOT; DOT] then None else Some c
  | None => None
  end.

(** The 592 bytes, given the name and the metadata.
    [core/formats.rs:1187-1213 FileDescriptor::build] *)
Definition descriptor_bytes (filename : str) (is_dir : bool) (len : Z) : list Z :=
  let data := replicate descriptor_len 0 in
  let data := write_at 0 (to_le 4 FLAG_FILESIZE) data in
  let attributes := if is_dir then 16 else 128 in
  let data := write_at 36 (to_le 4 attributes) data in
  let data := write_at 64 (to_le 4 (Z.shiftr len 32)) data in
  let data := write_at 68 (to_le 4 (wrap 32 len)) data in
  let filename_utf16 := encode_utf16 filename in
  write_units 72 (take (Nat.min (length filename_utf16) 259) filename_utf16) data.

Section build.
Context `{U : Unicode, F : FileSystem}.

(** [core/formats.rs:1174-1214 FileDescriptor::build] *)
Definition build (path : list Z) : ClipboardResult (list Z) :=
  match metadata path with
  | inl e => Err (FormatConversion (lit "Failed to get file metadata: " ++ e))
  | inr (is_dir, len) =>
      raw_filename ← ok_or (FormatConversion (lit "Invalid filename")) (file_name path ≫= from_utf8);
      Ok (descriptor_bytes (sanitize_filename_for_windows raw_filename) is_dir len)
  end.

(** [core/formats.rs:1227-1241 FileDescriptor::build_list] *)
Definition build_list (paths : list (list Z)) : ClipboardResult (list Z) :=
  mfold (fun data path => descriptor ← build path; Ok (data ++ descriptor))
    (to_le 4 (wrap 32 (Z.of_nat (length paths)))) paths.
End build.

(** ** The percent codec *)
Lemma hex_byte b : is_byte b -> (from_utf8 (fmt_hex02 b) ≫= u8_from_hex) = Some b.
Proof.
  intros Hb. apply (bool_decide_eq_true_1 _). revert b Hb.
  apply (for_all_bytes (fun b => bool_decide ((from_utf8 (fmt_hex02 b) ≫= u8_from_hex) = Some b))).
  by vm_compute.
Qed.

Definition enc_byte (b : Z) : str := if unreserved b then [b] else PERCENT :: fmt_hex02 b.

Lemma enc_byte_facts b : is_byte b ->
  Forall (fun c => is_ascii c = true /\ is_scalar c = true /\ c <> LF /\ c <> CR) (enc_byte b) /\
  (unreserved b = true -> b <> PERCENT /\ b < 128) /\
  u8_from_hex (fmt_hex02 b) = Some b /\ slen (fmt_hex02 b) = 2.
Proof.
  intros Hb.
  assert (forallb (fun b => forallb (fun c => is_ascii c && is_scalar c && negb (c =? LF) && negb (c =? CR)) (enc_byte b)
    && (negb (unreserved b) || (negb (b =? PERCENT) && (b <? 128)))
    && bool_decide (u8_from_hex (fmt_hex02 b) = Some b) && (slen (fmt_hex02 b) =? 2)) bytes256 = true) as H
    by (by vm_compute).
  pose proof (for_all_bytes _ H b Hb) as Hx. cbv beta in Hx.
  apply andb_prop in Hx as [[[H1 H2]%andb_prop H3]%andb_prop H4]. split_and!.
  - apply forallb_Forall_true in H1. eapply Forall_impl; [exact H1|]. cbv beta.
    intros c [[[Ha Hs]%andb_prop H5]%andb_prop H6]%andb_prop.
    apply negb_true_iff, Z.eqb_neq in H5, H6. done.
  - intros Hu. rewrite Hu in H2. cbn [negb orb] in H2.
    apply andb_prop in H2 as [Hp%negb_true_iff%Z.eqb_neq Hl%Z.ltb_lt]. done.
  - by apply bool_decide_eq_true in H3.
  - by apply Z.eqb_eq in H4.
Qed.

Lemma percent_decode_bytes_enc bs fuel : Forall (fun b => is_byte b) bs ->
  (length (bs ≫= enc_byte) <= fuel)%nat -> percent_decode_bytes fuel (bs ≫= enc_byte) = bs.
Proof.
  intros Hb. revert fuel. induction Hb as [|b bs Hb Hbs IH]; intros fuel Hf; [by destruct fuel|].
  pose proof (enc_byte_facts b Hb) as (_ & Hu & _). pose proof (hex_byte b Hb) as Hx.
  cbn [mbind list_bind] in *. rewrite length_app in Hf. destruct (unreserved b) eqn:Eu.
  - assert (enc_byte b = [b]) as E by (unfold enc_byte; by rewrite Eu). rewrite E in *.
    destruct fuel as [|fuel]; cbn [length Nat.add fmt_hex02] in Hf; [lia|]. cbn [app percent_decode_bytes].
    rewrite (proj2 (Z.eqb_neq b PERCENT)) by (by apply Hu). cbn [andb]. f_equal. apply IH. lia.
  - assert (enc_byte b = PERCENT :: fmt_hex02 b) as E by (unfold enc_byte; by rewrite Eu). rewrite E in *.
    destruct fuel as [|fuel]; cbn [length Nat.add fmt_hex02] in Hf; [lia|]. cbn [app percent_decode_bytes].
    rewrite Z.eqb_refl. replace (2 <=? _) with true
      by (symmetry; apply Z.leb_le; unfold blen; rewrite length_app; cbn; lia). cbn [andb].
    change 2%nat with (length (fmt_hex02 b)). rewrite take_app_length, drop_app_length, Hx.
    f_equal. apply IH. cbn [length Nat.add fmt_hex02] in Hf. lia.
Qed.

Lemma percent_encode_bytes s : valid_str s ->
  Forall (fun c => is_ascii c = true /\ is_scalar c = true /\ c <> LF /\ c <> CR) (percent_encode s).
Proof.
  intros Hv. unfold percent_encode. apply Forall_forall. intros c (b & Hc & Hb)%list_elem_of_bind.
  pose proof (as_bytes_byte s Hv) as Hbs. rewrite Forall_forall in Hbs.
  pose proof (enc_byte_facts b (Hbs b Hb)) as (Hf & _). rewrite Forall_forall in Hf. by apply Hf.
Qed.

Lemma percent_decode_encode s : valid_str s -> percent_decode (percent_encode s) = Ok s.
Proof.
  intros Hv. unfold percent_decode. rewrite (as_bytes_ascii (percent_encode s)).
  2: { apply forallb_Forall_true. eapply Forall_impl; [by apply percent_encode_bytes|]. by cbn; intros ? []. }
  change (percent_encode s) with (as_bytes s ≫= enc_byte).
  rewrite percent_decode_bytes_enc by (by try apply as_bytes_byte).
  by rewrite from_utf8_as_bytes.
Qed.

(** ** The second decoder, of [sanitize.rs], inverts the same encoder *)
(** No proper prefix of a character's encoding decodes. *)
Lemma from_utf8_prefix c pre rest : is_scalar c = true ->
  utf8_char c = pre ++ rest -> pre <> [] -> rest <> [] -> from_utf8 pre = None.
Proof.
  intros Hc E Hd Hr. destruct (from_utf8 pre) as [s|] eqn:Es; [|done]. exfalso.
  apply from_utf8_sound in Es as [Es Hv]. destruct s as [|x s]; [by subst pre|].
  apply Forall_cons in Hv as [Hx _]. rewrite as_bytes_cons in Es.
  pose proof (utf8_width_char c [] (is_scalar_range _ Hc)) as Hw1.
  pose proof (utf8_width_char x (as_bytes s) (is_scalar_range _ Hx)) as Hw2.
  rewrite app_nil_r, E in Hw1. rewrite Es in Hw2.
  assert (hd 0 (pre ++ rest) = hd 0 pre) as Hh by (by destruct pre).
  rewrite Hh, Hw2 in Hw1. rewrite length_app in Hw1. rewrite <- Es, length_app in Hw1.
  destruct rest; [done|]. cbn in Hw1. lia.
Qed.

Lemma utf8_char_high c : 0 <= c < 0x110000 -> 128 <= c -> Forall (fun b => 128 <= b) (utf8_char c).
Proof.
  intros Hc Hb. unfold utf8_char. repeat case_match; bool_cases; [lia|..];
    repeat (constructor; [Z.div_mod_to_equations; lia|]); constructor.
Qed.

Lemma percent_tail_char c pre rest r fuel : is_scalar c = true -> 128 <= c ->
  utf8_char c = pre ++ rest -> pre <> [] -> rest <> [] -> (length rest < fuel)%nat ->
  percent_tail fuel pre [] ((rest ≫= enc_byte) ++ r) = ([c], r).
Proof.
  intros Hc Hbig. revert pre fuel. induction rest as [|b rest IH]; intros pre fuel E Hd Hr Hf; [done|].
  destruct fuel as [|fuel]; [cbn in Hf; lia|].
  assert (is_byte b) as Hb.
  { pose proof (utf8_char_bytes c (is_scalar_range _ Hc)) as H. rewrite E in H.
    apply Forall_app in H as [_ H]. exact (Forall_inv H). }
  pose proof (enc_byte_facts b Hb) as (_ & Hu & Hx & Hl).
  assert (128 <= b) as Hb128.
  { pose proof (utf8_char_high c (is_scalar_range _ Hc) Hbig) as H. rewrite E in H.
    apply Forall_app in H as [_ H]. exact (Forall_inv H). }
  cbn [mbind list_bind].
  assert (enc_byte b = PERCENT :: fmt_hex02 b) as ->.
  { unfold enc_byte. destruct (unreserved b); [specialize (Hu eq_refl); lia | done]. }
  cbn [app percent_tail]. rewrite Z.eqb_refl.
  rewrite <- app_assoc. change 2%nat with (length (fmt_hex02 b)).
  rewrite take_app_length, drop_app_length, Hl, Hx. cbn [Z.eqb Pos.eqb].
  destruct rest as [|b' rest].
  - replace (pre ++ [b]) with (as_bytes [c]) by (unfold as_bytes; cbn; by rewrite app_nil_r, E).
    rewrite from_utf8_as_bytes by (by repeat constructor). done.
  - rewrite (from_utf8_prefix c (pre ++ [b]) (b' :: rest)); [|done|by rewrite <- app_assoc|by destruct pre|done].
    apply IH; [by rewrite <- app_assoc | by destruct pre | done | cbn in Hf |- *; lia].
Qed.

Lemma percent_step_char c r : is_scalar c = true ->
  exists x t, utf8_char c ≫= enc_byte = x :: t /\
    Sanitize.percent_step x (t ++ r) = ([c], r).
Proof.
  intros Hc. pose proof (is_scalar_range _ Hc) as Hr. destruct (Z.ltb_spec c 128) as [Hs|Hb].
  - rewrite utf8_char_ascii by (unfold is_ascii; lia). cbn [mbind list_bind].
    pose proof (enc_byte_facts c ltac:(lia)) as (_ & Hu & Hx & Hl). unfold enc_byte.
    destruct (unreserved c) eqn:Eu.
    + exists c, []. split; [done|]. unfold percent_step.
      by rewrite (proj2 (Z.eqb_neq c PERCENT)) by (by apply Hu).
    + exists PERCENT, (fmt_hex02 c). split; [by rewrite app_nil_r|].
      unfold percent_step. rewrite Z.eqb_refl. change 2%nat with (length (fmt_hex02 c)).
      rewrite take_app_length, drop_app_length, Hl, Hx. cbn [Z.eqb Pos.eqb].
      by destruct (Z.ltb_spec c 128); [|lia].
  - pose proof (utf8_char_high c Hr Hb) as Hh. pose proof (utf8_char_bytes c Hr) as Hbs.
    assert (2 <= length (utf8_char c))%nat as Hlen
      by (unfold utf8_char; repeat case_match; bool_cases; cbn; lia).
    destruct (utf8_char c) as [|b0 [|b1 rest]] eqn:E; [cbn in Hlen; lia..|].
    apply Forall_inv in Hh. apply Forall_inv in Hbs.
    pose proof (enc_byte_facts b0 Hbs) as (_ & Hu & Hx & Hl).
    assert (enc_byte b0 = PERCENT :: fmt_hex02 b0) as Eb.
    { unfold enc_byte. destruct (unreserved b0); [specialize (Hu eq_refl); lia | done]. }
    exists PERCENT, (fmt_hex02 b0 ++ ((b1 :: rest) ≫= enc_byte)).
    split; [cbn [mbind list_bind]; by rewrite Eb|].
    unfold percent_step. rewrite Z.eqb_refl, <- app_assoc. change 2%nat with (length (fmt_hex02 b0)).
    rewrite take_app_length, drop_app_length, Hl, Hx. cbn [Z.eqb Pos.eqb].
    destruct (Z.ltb_spec b0 128); [lia|].
    apply percent_tail_char; [done|done|by rewrite E|done|done|].
    rewrite length_app. assert (length (b1 :: rest) <= length ((b1 :: rest) ≫= enc_byte))%nat; [|lia].
    clear. generalize (b1 :: rest). intros l. induction l as [|y l IH]; [done|].
    cbn [mbind list_bind length]. rewrite length_app.
    unfold enc_byte at 1. destruct (unreserved y); cbn [length]; cbn in IH |- *; lia.
Qed.

Lemma sanitize_decode_loop s fuel : valid_str s ->
  (length (percent_encode s) <= fuel)%nat ->
  Sanitize.percent_decode_loop fuel (percent_encode s) = s.
Proof.
  unfold percent_encode. fold enc_byte. intros Hv. revert fuel.
  induction Hv as [|c s Hc Hv IH]; intros fuel Hf; [by destruct fuel|].
  rewrite as_bytes_cons, bind_app in *. destruct (percent_step_char c (as_bytes s ≫= enc_byte) Hc) as (x & t & E & Hst).
  rewrite E in *. destruct fuel as [|fuel]; [cbn in Hf; lia|].
  cbn [app percent_decode_loop]. rewrite Hst. cbn [app]. f_equal. apply IH.
  rewrite length_app in Hf. cbn [length] in Hf. lia.
Qed.

(** Both percent decoders of the program invert its encoder on every path:
    the URI written for a file name, whatever Unicode it holds, leads back to
    the same bytes on the receiving side. *)
Theorem percent_codec_roundtrip s :
  valid_str s ->
  percent_decode (percent_encode s) = Ok s /\
  parse_file_uri (file_scheme ++ percent_encode s) = Some (as_bytes s).
Proof.
  intros Hv. split; [by apply percent_decode_encode|].
  unfold parse_file_uri. change (lit "file://") with file_scheme.
  unfold strip_prefix. rewrite starts_with_app, drop_app_length. cbn [mbind option_bind].
  unfold Sanitize.percent_decode. by rewrite sanitize_decode_loop.
Qed.

Lemma percent_codec_roundtrip_witness :
  parse_file_uri (file_scheme ++ lit "/tmp/na%C3%AFve%20%F0%9F%98%80.txt")
  = Some (as_bytes (lit "/tmp/na" ++ [0xEF] ++ lit "ve " ++ [0x1F600] ++ lit ".txt")).
Proof.
  apply (percent_codec_roundtrip (lit "/tmp/na" ++ [0xEF] ++ lit "ve " ++ [0x1F600] ++ lit ".txt")).
  by repeat constructor.
Defined.

(** ** CF_HDROP round trip *)
Definition uri_line (p : str) : str := file_scheme ++ percent_encode p.

(** A path the format can carry: not empty, no NUL. *)
Definition hdrop_path (p : str) : Prop := valid_str p /\ p <> [] /\ Forall (fun c => c <> 0) p.

Lemma lines_join l : l <> [] -> Forall (fun x => x <> [] /\ Forall (fun c => c <> LF) x) l ->
  lines (join [CR; LF] l) = l.
Proof.
  intros Hne H. destruct l as [|x l]; [done|]. clear Hne. revert x H.
  induction l as [|y l IH]; intros x [[Hx Hlf] H]%Forall_cons.
  - cbn [join mbind list_bind]. rewrite app_nil_r. by apply lines_crlf_end.
  - cbn [join mbind list_bind app]. rewrite lines_crlf by done. f_equal. by apply (IH y).
Qed.

Lemma uri_line_ok p : valid_str p -> uri_line p <> [] /\ Forall (fun c => c <> LF) (uri_line p).
Proof.
  intros Hv. split; [done|]. apply Forall_app. split; [by repeat constructor|].
  eapply Forall_impl; [by apply percent_encode_bytes|]. by cbn; intros ? (_ & _ & ? & _).
Qed.

Lemma uri_lines_paths ps : Forall hdrop_path ps ->
  omap (strip_prefix file_scheme) (List.filter (fun line => negb (starts_with [35] line)) (map uri_line ps))
  = map percent_encode ps.
Proof.
  induction 1 as [|p ps Hp Hps IH]; [done|]. cbn [map List.filter].
  change (negb (starts_with [35] (uri_line p))) with true. cbv iota. cbn [omap list_omap].
  unfold uri_line at 1, strip_prefix. rewrite starts_with_app, drop_app_length. by f_equal.
Qed.

Definition hdrop_unit (p : str) : list Z := encode_utf16 p ++ [0].

Lemma hdrop_body ps acc : Forall hdrop_path ps ->
  mfold (fun result path => decoded ← percent_decode path;
                            Ok (result ++ (encode_utf16 decoded ≫= le16) ++ [0; 0]))
        acc (map percent_encode ps)
  = @Ok ClipboardError _ (acc ++ ((ps ≫= hdrop_unit) ≫= le16)).
Proof.
  intros H. revert acc. induction H as [|p ps (Hv & _ & _) Hps IH]; intros acc; cbn [map mfold mbind list_bind].
  { by rewrite app_nil_r. }
  rewrite percent_decode_encode by done. cbn [mbind outcome_bind]. rewrite IH. f_equal.
  rewrite bind_app. unfold hdrop_unit at 2. by rewrite bind_app, <- !app_assoc.
Qed.

Definition hdrop_units (ps : list str) : list Z := (ps ≫= hdrop_unit) ++ [0].

Lemma hdrop_wide_spec ps fuel : Forall hdrop_path ps ->
  (length (hdrop_units ps) <= fuel)%nat -> hdrop_wide fuel (hdrop_units ps) = map uri_line ps.
Proof.
  intros H. revert fuel. induction H as [|p ps (Hv & Hne & Hnz) Hps IH]; intros fuel Hf.
  { destruct fuel as [|fuel]; [cbn in Hf; lia | done]. }
  assert (hdrop_units (p :: ps) = encode_utf16 p ++ 0 :: hdrop_units ps) as E.
  { unfold hdrop_units. cbn [mbind list_bind]. unfold hdrop_unit at 1. by rewrite <- !app_assoc. }
  rewrite E in *. destruct fuel as [|fuel]; [rewrite length_app in Hf; cbn in Hf; lia|].
  assert (forallb (fun u => negb (u =? 0)) (encode_utf16 p) = true) as Hz.
  { apply forallb_Forall_true. eapply Forall_impl; [by apply encode_utf16_nonzero|].
    cbn. intros u Hu. by apply negb_true_iff, Z.eqb_neq. }
  assert (encode_utf16 p <> []) as He.
  { destruct p as [|c p]; [done|]. rewrite encode_utf16_cons. unfold utf16_char. by case_match. }
  cbn [hdrop_wide]. rewrite take_while_app_stop by done.
  destruct (encode_utf16 p ++ _) as [|x l] eqn:El; [by apply app_eq_nil in El as []|]. rewrite <- El.
  replace (drop _ _) with (hdrop_units ps).
  2: { change (0 :: hdrop_units ps) with ([0] ++ hdrop_units ps). rewrite app_assoc.
       replace (S (length (encode_utf16 p))) with (length (encode_utf16 p ++ [0%Z]))
         by (rewrite length_app; cbn; lia). by rewrite drop_app_length. }
  rewrite from_utf16_encode by done.
  rewrite IH by (rewrite <- El, length_app in Hf; cbn in Hf; lia).
  by destruct (encode_utf16 p).
Qed.

Lemma hdrop_units_bound ps : Forall hdrop_path ps -> Forall (fun u => 0 <= u < 65536) (hdrop_units ps).
Proof.
  intros H. apply Forall_app. split; [|by repeat constructor]. apply Forall_bind.
  eapply Forall_impl; [exact H|]. intros p (Hv & _). apply Forall_app.
  split; [by apply encode_utf16_units | by repeat constructor].
Qed.

(** A list of files survives the trip through CF_HDROP: for every
    non-empty list of non-empty, NUL-free paths, what [uri_list_to_hdrop] makes
    of their URIs is read back by [hdrop_to_uri_list] as the same URI list,
    and the writer refuses only on size. *)
Theorem hdrop_roundtrip self ps :
  ps <> [] -> Forall hdrop_path ps ->
  let uris := join [CR; LF] (map uri_line ps) in
  match uri_list_to_hdrop self uris with
  | Ok data => hdrop_to_uri_list self data = Ok uris
  | Err e => exists n, e = DataSizeExceeded n (max_size self) /\ max_size self < n
  | Panic => False
  end.
Proof.
  intros Hne H. cbv zeta. unfold uri_list_to_hdrop, check_size.
  destruct (Z.ltb_spec (max_size self) (slen (join [CR; LF] (map uri_line ps)))); [by eexists|].
  rewrite lines_join.
  2: by destruct ps.
  2: { apply Forall_fmap. eapply Forall_impl; [exact H|]. intros p (Hv & _). by apply uri_line_ok. }
  rewrite uri_lines_paths by done.
  destruct (map percent_encode ps) as [|x xs] eqn:Ex; [by destruct ps|]. rewrite <- Ex.
  rewrite hdrop_body by done. cbn [mbind outcome_bind].
  replace ((dropfiles_header ++ _) ++ [0; 0]) with (dropfiles_header ++ (hdrop_units ps ≫= le16)).
  2: { unfold hdrop_units. by rewrite bind_app, <- app_assoc. }
  set (data := dropfiles_header ++ (hdrop_units ps ≫= le16)).
  destruct (Z.ltb_spec (max_size self) (blen data)) as [|Hs]; [by eexists|].
  unfold hdrop_to_uri_list, check_size. destruct (Z.ltb_spec (max_size self) (blen data)); [lia|].
  assert (22 <= blen data) as Hd.
  { unfold blen, data. rewrite length_app, length_le16s. unfold hdrop_units. rewrite length_app.
    change (length dropfiles_header) with 20%nat. cbn. lia. }
  destruct (Z.ltb_spec (blen data) 20); [lia|].
  change (le_at 4 0 data) with 20. change (le_at 4 16 data) with 1.
  destruct (Z.leb_spec (blen data) 20); [lia|]. cbn [Z.ltb Z.compare Pos.compare Pos.compare_cont orb negb Z.eqb andb].
  change (20 mod 2) with 0. cbn [Z.eqb negb andb].
  change (drop (Z.to_nat 20) data) with (hdrop_units ps ≫= le16).
  rewrite <- (app_nil_r (hdrop_units ps ≫= le16)), units_le_app by (by apply hdrop_units_bound).
  cbn [units_le]. rewrite app_nil_r. by rewrite hdrop_wide_spec.
Qed.

Lemma hdrop_roundtrip_witness :
  let uris := join [CR; LF] (map uri_line [lit "/tmp/a b"; lit "/tmp/" ++ [0xE9; 0x1F600]]) in
  (uri_list_to_hdrop converter_new uris ≫= hdrop_to_uri_list converter_new) = Ok uris.
Proof.
  cbv zeta.
  pose proof (hdrop_roundtrip converter_new [lit "/tmp/a b"; lit "/tmp/" ++ [0xE9; 0x1F600]] ltac:(done)) as H.
  cbv zeta in H. revert H. destruct (uri_list_to_hdrop _ _) as [data|e|] eqn:E; [|by vm_compute in E..].
  intros H. apply H. repeat constructor; done.
Defined.

(** ** File descriptors *)
Lemma sanitize_name_ok `{U : Unicode} f : valid_str f ->
  valid_str (sanitize_filename_for_windows f) /\ Forall (fun c => c <> 0) (sanitize_filename_for_windows f).
Proof.
  intros Hv. split; (apply sanitize_windows_forall; [by repeat constructor | done |]).
  - eapply Forall_impl; [exact Hv|]. cbn. intros c Hc. unfold windows_char. by case_match.
  - apply Forall_true. intros c Hc. pose proof (windows_char_ok c) as [_ H]. by rewrite Hc in H.
Qed.

Lemma le16_to_le u : 0 <= u < 65536 -> to_le 2 u = le16 u.
Proof. intros Hu. unfold le16. cbn [to_le]. by rewrite (Z.mod_small (u / 256)) by (Z.div_mod_to_equations; lia). Qed.

Lemma write_units_app a us n :
  Forall (fun u => 0 <= u < 65536) us -> (2 * length us <= n)%nat ->
  write_units (length a) us (a ++ replicate n 0) = a ++ (us ≫= le16) ++ replicate (n - 2 * length us) 0.
Proof.
  revert a n. induction us as [|u us IH]; intros a n Hu Hn.
  { cbn [write_units mbind list_bind app length]. do 2 f_equal. lia. }
  apply Forall_cons in Hu as [Hu Hus]. cbn [length] in Hn. cbn [write_units mbind list_bind].
  rewrite le16_to_le by done. unfold write_at. rewrite take_app_length.
  change (length (le16 u)) with 2%nat.
  rewrite drop_app_ge by lia. replace (length a + 2 - length a)%nat with 2%nat by lia.
  destruct n as [|[|n]]; [lia..|]. cbn [replicate drop].
  replace (length a + 2)%nat with (length (a ++ le16 u)) by (rewrite length_app; done).
  rewrite drop_0, (app_assoc a (le16 u) (replicate _ _)), IH by (done || lia). rewrite <- !app_assoc. do 4 f_equal. cbn [length]. lia.
Qed.

Lemma parse_units us n : Forall (fun u => 0 <= u < 65536) us -> Forall (fun u => u <> 0) us -> (0 < n)%nat ->
  take_while (fun u => negb (u =? 0)) (units_le ((us ≫= le16) ++ replicate (2 * n) 0)) = us.
Proof.
  intros Hu Hz Hn. rewrite units_le_app by done. destruct n as [|n]; [lia|].
  replace (2 * S n)%nat with (S (S (2 * n))) by lia. cbn [replicate units_le].
  apply take_while_app_stop; [|done].
  apply forallb_Forall_true. eapply Forall_impl; [exact Hz|]. cbn. intros u Hx.
  by apply negb_true_iff, Z.eqb_neq.
Qed.

Lemma descriptor_layout filename is_dir len :
  valid_str filename -> (length (encode_utf16 filename) <= 259)%nat ->
  let us := encode_utf16 filename in
  descriptor_bytes filename is_dir len
  = (to_le 4 FLAG_FILESIZE ++ replicate 32 0 ++ to_le 4 (if is_dir then 16 else 128) ++ replicate 24 0
     ++ to_le 4 (Z.shiftr len 32) ++ to_le 4 (wrap 32 len))
    ++ (us ≫= le16) ++ replicate (2 * (260 - length us)) 0.
Proof.
  intros Hv Hl. cbv zeta. unfold descriptor_bytes.
  rewrite take_ge by lia.
  set (hd := to_le 4 FLAG_FILESIZE ++ _).
  transitivity (write_units (length hd) (encode_utf16 filename) (hd ++ replicate 520 0)); [reflexivity|].
  rewrite write_units_app by (try apply encode_utf16_units; done || lia).
  do 3 f_equal. lia.
Qed.

Lemma parse_descriptor_bytes filename is_dir len :
  valid_str filename -> Forall (fun c => c <> 0) filename ->
  (length (encode_utf16 filename) <= 259)%nat -> 0 <= len < 2 ^ 64 ->
  length (descriptor_bytes filename is_dir len) = descriptor_len /\
  parse_descriptor (descriptor_bytes filename is_dir len) =
    Ok (mkDescriptor FLAG_FILESIZE (if is_dir then 16 else 128) None None None (Some len) filename).
Proof.
  intros Hv Hz Hl Hlen. rewrite descriptor_layout by done.
  set (us := encode_utf16 filename) in *. set (name := (us ≫= le16) ++ _).
  assert (length name = 520%nat) as Hn.
  { unfold name. rewrite length_app, length_le16s, length_replicate. lia. }
  set (hi := Z.shiftr len 32). set (lo := wrap 32 len). set (at_ := if is_dir then 16 else 128).
  set (h := to_le 4 FLAG_FILESIZE ++ _).
  assert (length (h ++ name) = 592%nat) as Hlen2 by (rewrite length_app, Hn; done).
  split; [done|]. unfold parse_descriptor, blen. rewrite Hlen2. change (Z.of_nat 592 <? 592) with false.
  cbv iota. change (le_at 4 0 (h ++ name)) with FLAG_FILESIZE.
  change (le_at 4 36 (h ++ name)) with (of_le (to_le 4 at_)).
  change (le_at 4 64 (h ++ name)) with (of_le (to_le 4 hi)).
  change (le_at 4 68 (h ++ name)) with (of_le (to_le 4 lo)).
  change (drop 72 (h ++ name)) with name.
  rewrite take_ge by lia. unfold parse_utf16_filename, blen. rewrite Hn.
  change (negb (Z.of_nat 520 mod 2 =? 0)) with false. cbv iota.
  unfold name. rewrite parse_units by (try apply encode_utf16_units; try apply encode_utf16_nonzero; done || lia).
  unfold us. rewrite from_utf16_encode by done. cbn [ok_or mbind outcome_bind].
  assert (0 <= hi < 4294967296 /\ 0 <= lo < 4294967296 /\ len = hi * 2 ^ 32 + lo) as (Hhi & Hlo & E).
  { subst hi lo. unfold wrap. rewrite Z.shiftr_div_pow2 by lia. Z.div_mod_to_equations. lia. }
  assert (forall z, 0 <= z < 4294967296 -> of_le (to_le 4 z) = z) as Hle
    by (intros z Hr; by apply of_to_le).
  rewrite (Hle hi), (Hle lo), (Hle at_) by (done || (subst at_; destruct is_dir; lia)).
  do 2 f_equal. change (has_flag FLAG_FILESIZE FLAG_FILESIZE) with true. cbv iota. f_equal.
  rewrite lor_shiftl_add by lia. by rewrite E.
Qed.

Section descriptor_list.
Context `{U : Unicode, F : FileSystem}.

(** The path names a file whose (sanitized) name fits the 259 UTF-16 units the
    structure has room for; the length is a [u64]. *)
Definition describable (path : list Z) (d : FileDescriptor) : Prop :=
  exists raw is_dir len,
    metadata path = inr (is_dir, len) /\ 0 <= len < 2 ^ 64 /\
    file_name path ≫= from_utf8 = Some raw /\
    (length (encode_utf16 (sanitize_filename_for_windows raw)) <= 259)%nat /\
    d = mkDescriptor FLAG_FILESIZE (if is_dir then 16 else 128) None None None (Some len)
          (sanitize_filename_for_windows raw).

Lemma build_parse path d : describable path d ->
  exists data, build path = Ok data /\ length data = descriptor_len /\ parse_descriptor data = Ok d.
Proof.
  intros (raw & is_dir & len & Hm & Hl & Hr & Hn & ->).
  assert (valid_str raw) as Hv.
  { destruct (file_name path) as [b|]; [|done]. cbn in Hr. by apply from_utf8_sound in Hr as [_ ?]. }
  destruct (sanitize_name_ok raw Hv) as [Hv' Hz].
  unfold build. rewrite Hm, Hr. cbn [ok_or mbind outcome_bind].
  destruct (parse_descriptor_bytes _ is_dir len Hv' Hz Hn Hl) as [H1 H2]. eauto.
Qed.

Lemma build_list_data paths ds acc : Forall2 describable paths ds ->
  exists datas,
    mfold (fun data path => descriptor ← build path; Ok (data ++ descriptor)) acc paths
    = Ok (acc ++ concat datas) /\
    Forall2 (fun data d => length data = descriptor_len /\ parse_descriptor data = Ok d) datas ds.
Proof.
  intros H. revert acc. induction H as [|path d paths ds Hd Hds IH]; intros acc.
  { exists []. cbn. by rewrite app_nil_r. }
  destruct (build_parse path d Hd) as (data & Hb & Hl & Hp).
  destruct (IH (acc ++ data)) as (datas & Hm & Hf).
  exists (data :: datas). cbn [mfold concat]. rewrite Hb. cbn [mbind outcome_bind].
  rewrite Hm, <- app_assoc. split; [done | by constructor].
Qed.

Lemma parse_descriptors_concat datas ds :
  Forall2 (fun data d => length data = descriptor_len /\ parse_descriptor data = Ok d) datas ds ->
  parse_descriptors (length ds) (concat datas) = Ok ds.
Proof.
  induction 1 as [|data d datas ds [Hl Hp] H IH]; [done|]. cbn [length parse_descriptors concat].
  rewrite <- Hl, take_app_length, drop_app_length, Hp. cbn [mbind outcome_bind].
  by rewrite IH.
Qed.

(** The file list offered for a transfer is read back exactly: the
    FILEGROUPDESCRIPTORW block built for describable files has four plus 592
    bytes per file and parses to their descriptors, in order, with the
    sanitized name, the attributes and the 64-bit length of each. *)
Theorem file_list_roundtrip paths ds :
  Forall2 describable paths ds -> Z.of_nat (length paths) < 2 ^ 32 ->
  exists data, build_list paths = Ok data /\
    blen data = 4 + 592 * Z.of_nat (length paths) /\ parse_list data = Ok ds.
Proof.
  intros H Hn. pose proof (Forall2_length _ _ _ H) as Hlen.
  destruct (build_list_data paths ds (to_le 4 (wrap 32 (Z.of_nat (length paths)))) H) as (datas & Hm & Hf).
  exists (to_le 4 (wrap 32 (Z.of_nat (length paths))) ++ concat datas). split; [exact Hm|].
  rewrite wrap_small by lia. set (n := Z.of_nat (length paths)) in *.
  assert (Z.of_nat (length (concat datas)) = 592 * n) as Hc.
  { subst n. rewrite Hlen. clear -Hf. induction Hf as [|data d datas ds [Hl _] H IH]; [done|].
    cbn [concat length]. rewrite length_app, Hl. unfold descriptor_len. lia. }
  assert (blen (to_le 4 n ++ concat datas) = 4 + 592 * n) as Hb.
  { unfold blen. rewrite length_app, length_to_le. lia. }
  split; [done|]. unfold parse_list. rewrite Hb.
  assert (0 <= n) by lia. destruct (Z.ltb_spec (4 + 592 * n) 4); [lia|].
  change (le_at 4 0 (to_le 4 n ++ concat datas)) with (of_le (to_le 4 n)).
  rewrite of_to_le by (change (256 ^ Z.of_nat 4) with (2 ^ 32); lia).
  destruct (Z.eqb_spec n 0) as [E|].
  { destruct ds; [done|]. cbn in Hlen. lia. }
  destruct (Z.ltb_spec (4 + 592 * n) (4 + n * 592)); [lia|].
  change (drop 4 (to_le 4 n ++ concat datas)) with (concat datas).
  replace (Z.to_nat n) with (length ds) by lia. by apply parse_descriptors_concat.
Qed.
End descriptor_list.

(** A file system with one regular file. *)
Definition one_file : FileSystem := {|
  exists_ p := eqs p (lit "/tmp/a:b.txt");
  metadata p := if eqs p (lit "/tmp/a:b.txt") then inr (false, 5000000000) else inl (lit "not found");
|}.

Lemma file_list_roundtrip_witness :
  exists data, build_list (F := one_file) [lit "/tmp/a:b.txt"] = Ok data /\
    blen data = 596 /\
    parse_list data = Ok [mkDescriptor 64 128 None None None (Some 5000000000) (lit "a_b.txt")].
Proof.
  apply (file_list_roundtrip (F := one_file) [lit "/tmp/a:b.txt"]).
  - constructor; [|constructor].
    exists (lit "a:b.txt"), false, 5000000000. split_and!; try done; vm_compute; lia.
  - by vm_compute.
Defined.
