(* ===== verification/ClipImage.v ===== *)
(** * Clipboard images

    Models src/src/rdp/channels/clipboard/core/image.rs: pictures between the
    Windows bitmap formats DIB and DIBV5 and the encoded formats.  Decoding and
    encoding are the image library's, the class [ImageLibrary]. *)
From S2P Require Import Prelude Text ClipBase ClipText ClipFiles.

(** ** The image library *)

Inductive ImageFormat := Png | Jpeg | Gif.
(** A picture of the library is known by what [to_rgba8] says of it: width, height
    and four bytes for each pixel, row by row. *)
Class ImageLibrary := {
  DynamicImage : Type;
  load_from_memory : list Z -> str + DynamicImage;
  load_from_memory_with_format : ImageFormat -> list Z -> str + DynamicImage;
  write_to : ImageFormat -> DynamicImage -> str + list Z;
  rgba_from_raw : Z -> Z -> list Z -> option DynamicImage;
  rgb_from_raw : Z -> Z -> list Z -> option DynamicImage;
  to_rgba8 : DynamicImage -> Z * Z * list Z;
}.

(** Groups of [k] bytes. *)
Definition pixels (k : nat) (d : list Z) : list (list Z) := (fun x => take k (drop (k * x) d)) <$> seq 0 (length d / k).
Definition opaque (rgb : list Z) : list Z := pixels 3 rgb ≫= fun p => p ++ [255].
(** What the library documents of these calls: its buffers have four bytes for each
    pixel, a buffer of the right length is taken as it is, and PNG is lossless. *)
Class ImageLaws `{ImageLibrary} := {
  rgba_shape i w h d : to_rgba8 i = (w, h, d) -> 0 <= w <= u32_max /\ 0 <= h <= u32_max /\ Z.of_nat (length d) = w * h * 4 /\ Forall (fun b => is_byte b) d;
  rgba_taken w h d : 0 <= w <= u32_max -> 0 <= h <= u32_max -> Forall (fun b => is_byte b) d -> Z.of_nat (length d) = w * h * 4 -> exists i, rgba_from_raw w h d = Some i /\ to_rgba8 i = (w, h, d);
  rgb_taken w h d : 0 <= w <= u32_max -> 0 <= h <= u32_max -> Forall (fun b => is_byte b) d -> Z.of_nat (length d) = w * h * 3 -> exists i, rgb_from_raw w h d = Some i /\ to_rgba8 i = (w, h, opaque d);
  png_lossless i bytes : write_to Png i = inr bytes -> exists j, load_from_memory_with_format Png bytes = inr j /\ to_rgba8 j = to_rgba8 i;
}.

(** ** Numbers in headers *)

(** [i32::from_le_bytes(...).unsigned_abs()] *)
Definition abs32 (n : Z) : Z := if n <? 2 ^ 31 then n else 2 ^ 32 - n.
Definition is_negative32 (n : Z) : bool := 2 ^ 31 <=? n.
(** [i32::try_from(n).unwrap_or(i32::MAX)] *)
Definition try_i32 (n : Z) : Z := Z.min n i32_max.
Definition upto (n : Z) : list Z := Z.of_nat <$> seq 0 (Z.to_nat n).
Definition at_ (l : list Z) (i : Z) : Z := nth (Z.to_nat i) l 0.
Definition decode_error {A} (m : str) : ClipboardResult A := Err (ImageDecode m).
Definition u32_sat_mul (a b : Z) : Z := Z.min (a * b) u32_max.

Section image.
Context `{ImageLibrary}.

Definition decoded (r : str + DynamicImage) : ClipboardResult DynamicImage := match r with inl e => Err (ImageDecode e) | inr i => Ok i end.
Definition encoded (r : str + list Z) : ClipboardResult (list Z) := match r with inl e => Err (ImageEncode e) | inr d => Ok d end.

(** ** Writing bitmaps *)

(** Red and blue change places. *)
Definition swapped (p : list Z) : list Z := [nth 2 p 0; nth 1 p 0; nth 0 p 0; nth 3 p 0].
Definition swap_channels (d : list Z) : list Z := pixels 4 d ≫= swapped.

Definition image_size (w h : Z) : Z := u32_sat_mul (u32_sat_mul w h) 4.
(** Size, dimensions, planes and depth begin every header. *)
Definition header_start (size w h : Z) : list Z :=
  to_le 4 size ++ to_le 4 (try_i32 w) ++ to_le 4 (- try_i32 h) ++ to_le 2 1 ++ to_le 2 32.

(** [core/image.rs:263-294 create_dib_from_image] *)
Definition create_dib_from_image (image : DynamicImage) : ClipboardResult (list Z) :=
  let '(w, h, rgba) := to_rgba8 image in
  Ok (header_start 40 w h ++ to_le 4 0 ++ to_le 4 (image_size w h) ++ to_le 4 0 ++ to_le 4 0 ++ to_le 4 0 ++ to_le 4 0 ++ swap_channels rgba).

(** [core/image.rs:423-423 DIBV5_HEADER_SIZE] *)
Definition DIBV5_HEADER_SIZE : Z := 124.
(** [core/image.rs:426-426 LCS_SRGB] *)
Definition LCS_SRGB : Z := 0x73524742.
(** [core/image.rs:429-429 LCS_GM_IMAGES] *)
Definition LCS_GM_IMAGES : Z := 2.
Definition BGRA_MASKS : list Z := [0x00FF0000; 0x0000FF00; 0x000000FF; 0xFF000000].

(** [core/image.rs:437-533 create_dibv5_from_image] *)
Definition create_dibv5_from_image (image : DynamicImage) : ClipboardResult (list Z) :=
  let '(w, h, rgba) := to_rgba8 image in
  Ok (header_start DIBV5_HEADER_SIZE w h ++ to_le 4 3 ++ to_le 4 (image_size w h) ++ to_le 4 0 ++ to_le 4 0 ++ to_le 4 0 ++ to_le 4 0
      ++ (BGRA_MASKS ≫= to_le 4) ++ to_le 4 LCS_SRGB ++ (replicate 9 0 ≫= to_le 4) ++ to_le 4 0 ++ to_le 4 0 ++ to_le 4 0
      ++ to_le 4 LCS_GM_IMAGES ++ to_le 4 0 ++ to_le 4 0 ++ to_le 4 0 ++ swap_channels rgba).

(** ** Reading bitmaps *)

(** The source row of an image row: bitmaps are stored from the bottom, unless
    their height is negative. *)
Definition source_row (top_down : bool) (h y : Z) : Z := if top_down then y else h - 1 - y.

(** The bytes of a 32-bit picture, in 64 bits. *)
Definition expected_size (w h : Z) : Z := wrap 64 (wrap 64 (w * h) * 4).

(** [core/image.rs:341-376 convert_32bit_dib] *)
Definition convert_32bit_dib (pixel_data : list Z) (w h : Z) (top_down : bool) : ClipboardResult DynamicImage :=
  let expected := expected_size w h in
  if blen pixel_data <? expected then decode_error (lit "Insufficient pixel data: " ++ fmt_dec (blen pixel_data) ++ lit " < " ++ fmt_dec expected)
  else
    let rgba := upto h ≫= fun y =>
      let row := wrap 64 (wrap 64 (source_row top_down h y * w) * 4) in
      upto w ≫= fun x =>
        let o := wrap 64 (row + x * 4) in
        if o + 3 <? blen pixel_data then [at_ pixel_data (o + 2); at_ pixel_data (o + 1); at_ pixel_data o; at_ pixel_data (o + 3)] else [] in
    match rgba_from_raw w h rgba with Some i => Ok i | None => decode_error (lit "Failed to create image from DIB") end.

(** Rows of 24-bit pixels are padded to four bytes; the size is computed in 32 bits. *)
Definition row_size24 (w : Z) : Z := wrap 32 (div_ceil (wrap 32 (w * 3)) 4 * 4).

(** [core/image.rs:379-416 convert_24bit_dib] *)
Definition convert_24bit_dib (pixel_data : list Z) (w h : Z) (top_down : bool) : ClipboardResult DynamicImage :=
  let expected := wrap 64 (row_size24 w * h) in
  if blen pixel_data <? expected then decode_error (lit "Insufficient pixel data: " ++ fmt_dec (blen pixel_data) ++ lit " < " ++ fmt_dec expected)
  else
    let rgb := upto h ≫= fun y =>
      let row := wrap 64 (source_row top_down h y * row_size24 w) in
      upto w ≫= fun x =>
        let o := wrap 64 (row + x * 3) in
        if o + 2 <? blen pixel_data then [at_ pixel_data (o + 2); at_ pixel_data (o + 1); at_ pixel_data o] else [] in
    match rgb_from_raw w h rgb with Some i => Ok i | None => decode_error (lit "Failed to create image from DIB") end.

(** [core/image.rs:297-338 parse_dib_to_image] *)
Definition parse_dib_to_image (d : list Z) : ClipboardResult DynamicImage :=
  if blen d <? 40 then decode_error (lit "DIB too small")
  else
    let bi_size := le_at 4 0 d in
    if bi_size <? 40 then decode_error (lit "Invalid DIB header size")
    else
      let w := abs32 (le_at 4 4 d) in
      let h := abs32 (le_at 4 8 d) in
      let top_down := is_negative32 (le_at 4 8 d) in
      let bit_count := le_at 2 14 d in
      if blen d <=? bi_size then decode_error (lit "DIB header larger than data")
      else
        let pixel_data := drop (Z.to_nat bi_size) d in
        if bit_count =? 32 then convert_32bit_dib pixel_data w h top_down
        else if bit_count =? 24 then convert_24bit_dib pixel_data w h top_down
        else decode_error (lit "Unsupported DIB bit depth: " ++ fmt_dec bit_count).

Fixpoint trailing_zeros (fuel : nat) (n : Z) : Z :=
  match fuel with O => 0 | S fuel => if Z.odd n then 0 else 1 + trailing_zeros fuel (n / 2) end.
(** [((pixel & mask) >> mask.trailing_zeros()) as u8]; a shift by 32 shifts by 0. *)
Definition channel (mask pixel : Z) : Z := wrap 8 (Z.shiftr (Z.land pixel mask) (trailing_zeros 32 mask mod 32)).

(** [core/image.rs:613-675 convert_32bit_dibv5] *)
Definition convert_32bit_dibv5 (pixel_data : list Z) (w h : Z) (top_down : bool) (red_mask green_mask blue_mask alpha_mask : Z) : ClipboardResult DynamicImage :=
  let expected := expected_size w h in
  if blen pixel_data <? expected then decode_error (lit "Insufficient DIBV5 pixel data: " ++ fmt_dec (blen pixel_data) ++ lit " < " ++ fmt_dec expected)
  else
    let rgba := upto h ≫= fun y =>
      let row := wrap 64 (wrap 64 (source_row top_down h y * w) * 4) in
      upto w ≫= fun x =>
        let o := wrap 64 (row + x * 4) in
        if o + 3 <? blen pixel_data then
          let pixel := of_le [at_ pixel_data o; at_ pixel_data (o + 1); at_ pixel_data (o + 2); at_ pixel_data (o + 3)] in
          [channel red_mask pixel; channel green_mask pixel; channel blue_mask pixel; if alpha_mask =? 0 then 255 else channel alpha_mask pixel]
        else [] in
    match rgba_from_raw w h rgba with Some i => Ok i | None => decode_error (lit "Failed to create image from DIBV5") end.

(** [core/image.rs:566-609 parse_full_dibv5] *)
Definition parse_full_dibv5 (d : list Z) : ClipboardResult DynamicImage :=
  if blen d <? DIBV5_HEADER_SIZE then decode_error (lit "DIBV5 data too small for header")
  else
    let w := abs32 (le_at 4 4 d) in
    let h := abs32 (le_at 4 8 d) in
    let top_down := is_negative32 (le_at 4 8 d) in
    let bit_count := le_at 2 14 d in
    let '(red, green, blue, alpha) :=
      if le_at 4 16 d =? 3 then (le_at 4 40 d, le_at 4 44 d, le_at 4 48 d, le_at 4 52 d)
      else (0x00FF0000, 0x0000FF00, 0x000000FF, 0xFF000000) in
    let pixel_data := drop (Z.to_nat DIBV5_HEADER_SIZE) d in
    if bit_count =? 32 then convert_32bit_dibv5 pixel_data w h top_down red green blue alpha
    else if bit_count =? 24 then convert_24bit_dib pixel_data w h top_down
    else decode_error (lit "Unsupported DIBV5 bit depth: " ++ fmt_dec bit_count).

(** [core/image.rs:539-563 parse_dibv5_to_image] *)
Definition parse_dibv5_to_image (d : list Z) : ClipboardResult DynamicImage :=
  if blen d <? 4 then decode_error (lit "DIBV5 too small")
  else
    let header_size := le_at 4 0 d in
    if header_size =? 40 then parse_dib_to_image d
    else if header_size =? 124 then parse_full_dibv5 d
    else decode_error (lit "Invalid DIBV5 header size: " ++ fmt_dec header_size ++ lit " (expected 40 or 124)").

(** ** The conversions *)

(** [core/image.rs:41-46 png_to_dib] *)
Definition png_to_dib (d : list Z) : ClipboardResult (list Z) := i ← decoded (load_from_memory_with_format Png d); create_dib_from_image i.
(** [core/image.rs:49-54 jpeg_to_dib] *)
Definition jpeg_to_dib (d : list Z) : ClipboardResult (list Z) := i ← decoded (load_from_memory_with_format Jpeg d); create_dib_from_image i.
(** [core/image.rs:59-64 gif_to_dib] *)
Definition gif_to_dib (d : list Z) : ClipboardResult (list Z) := i ← decoded (load_from_memory_with_format Gif d); create_dib_from_image i.
(** [core/image.rs:70-86 bmp_to_dib] *)
Definition bmp_to_dib (d : list Z) : ClipboardResult (list Z) :=
  if blen d <? 14 then decode_error (lit "BMP file too small")
  else if negb (bool_decide (take 2 d = lit "BM")) then decode_error (lit "Invalid BMP signature")
  else Ok (drop 14 d).
(** [core/image.rs:91-100 dib_to_png] *)
Definition dib_to_png (d : list Z) : ClipboardResult (list Z) := i ← parse_dib_to_image d; encoded (write_to Png i).
(** [core/image.rs:105-114 dib_to_jpeg] *)
Definition dib_to_jpeg (d : list Z) : ClipboardResult (list Z) := i ← parse_dib_to_image d; encoded (write_to Jpeg i).
(** [core/image.rs:119-142 dib_to_bmp] *)
Definition dib_to_bmp (d : list Z) : ClipboardResult (list Z) :=
  if blen d <? 40 then decode_error (lit "DIB too small")
  else if u32_max <? 14 + blen d then decode_error (lit "DIB too large")
  else Ok (lit "BM" ++ to_le 4 (14 + blen d) ++ to_le 2 0 ++ to_le 2 0 ++ to_le 4 54 ++ d).
(** [core/image.rs:147-152 any_to_dib] *)
Definition any_to_dib (d : list Z) : ClipboardResult (list Z) := i ← decoded (load_from_memory d); create_dib_from_image i.
(** [core/image.rs:172-177 png_to_dibv5] *)
Definition png_to_dibv5 (d : list Z) : ClipboardResult (list Z) := i ← decoded (load_from_memory_with_format Png d); create_dibv5_from_image i.
(** [core/image.rs:182-187 jpeg_to_dibv5] *)
Definition jpeg_to_dibv5 (d : list Z) : ClipboardResult (list Z) := i ← decoded (load_from_memory_with_format Jpeg d); create_dibv5_from_image i.
(** [core/image.rs:192-201 dibv5_to_png] *)
Definition dibv5_to_png (d : list Z) : ClipboardResult (list Z) := i ← parse_dibv5_to_image d; encoded (write_to Png i).
(** [core/image.rs:207-216 dibv5_to_jpeg] *)
Definition dibv5_to_jpeg (d : list Z) : ClipboardResult (list Z) := i ← parse_dibv5_to_image d; encoded (write_to Jpeg i).
(** [core/image.rs:222-227 any_to_dibv5] *)
Definition any_to_dibv5 (d : list Z) : ClipboardResult (list Z) := i ← decoded (load_from_memory d); create_dibv5_from_image i.
(** [core/image.rs:233-240 has_transparency] *)
Definition has_transparency (d : list Z) : bool :=
  match load_from_memory d with
  | inr i => let '(_, _, rgba) := to_rgba8 i in existsb (fun p => negb (nth 3 p 0 =? 255)) (pixels 4 rgba)
  | inl _ => false
  end.
(** [core/image.rs:245-256 dib_dimensions] *)
Definition dib_dimensions (d : list Z) : ClipboardResult (Z * Z) :=
  if blen d <? 12 then decode_error (lit "DIB too small") else Ok (abs32 (le_at 4 4 d), abs32 (le_at 4 8 d)).

(** ** What a bitmap shows *)

Lemma list_bind_ext_in {A B} (f g : A -> list B) l : (forall x, x ∈ l -> f x = g x) -> l ≫= f = l ≫= g.
Proof.
  induction l as [|x l IH]; intros He; [done|]. cbn [mbind list_bind]. rewrite He by left. f_equal. apply IH. intros y Hy. apply He. by right.
Qed.

Lemma pixels_length k d : length (pixels k d) = (length d / k)%nat.
Proof. unfold pixels. by rewrite length_fmap, length_seq. Qed.
Lemma pixels_nth k n d : (0 < k)%nat -> length d = (k * n)%nat -> pixels k d = (fun x => take k (drop (k * x) d)) <$> seq 0 n.
Proof. intros Hk Hl. unfold pixels. rewrite Hl, Nat.mul_comm, Nat.div_mul by lia. done. Qed.
(** The pixels of a row of a picture. *)
Lemma pixels_row k n row d : (0 < k)%nat -> (row + k * n <= length d)%nat ->
  pixels k (take (k * n) (drop row d)) = (fun x => take k (drop (row + k * x) d)) <$> seq 0 n.
Proof.
  intros Hk Hl. rewrite (pixels_nth k n) by (done || rewrite length_take, length_drop; lia).
  apply list_fmap_ext. intros i x [-> Hi]%lookup_seq. rewrite <- drop_drop. generalize (drop row d). intros e.
  rewrite !take_drop_commute, take_take. do 2 f_equal. nia.
Qed.
Lemma pixels_app k n a b : (0 < k)%nat -> length a = (k * n)%nat -> pixels k (a ++ b) = pixels k a ++ pixels k b.
Proof.
  intros Hk Ha. unfold pixels. rewrite length_app, Ha, (Nat.mul_comm k n), Nat.div_add_l, Nat.div_mul, seq_app, fmap_app by lia. f_equal.
  - apply list_fmap_ext. intros i x [-> Hi]%lookup_seq. rewrite drop_app_le, take_app_le; [done|rewrite length_drop; nia|nia].
  - rewrite Nat.add_0_l, <- (Nat.add_0_r n), <- fmap_add_seq, <- list_fmap_compose. apply list_fmap_ext. intros i x _. cbn.
    rewrite drop_app_ge by nia. do 2 f_equal. nia.
Qed.
(** A pixel-wise change keeps the pixels apart. *)
Lemma pixels_bind k g ps : (0 < k)%nat -> Forall (fun p => length (g p) = k) ps -> pixels k (ps ≫= g) = g <$> (ps : list (list Z)).
Proof.
  intros Hk. induction 1 as [|p ps Hp Hps IH]; [unfold pixels; cbn; by rewrite Nat.Div0.div_0_l|]. cbn [mbind list_bind fmap list_fmap]. rewrite (pixels_app k 1) by lia. rewrite IH, (pixels_nth k 1) by lia.
  cbn [seq fmap list_fmap app]. rewrite Nat.mul_0_r, drop_0, take_ge by lia. done.
Qed.
Lemma pixels_concat k n d : (0 < k)%nat -> length d = (k * n)%nat -> concat (pixels k d) = d.
Proof.
  intros Hk. revert d. induction n as [|n IH]; intros d Hl; [destruct d; [unfold pixels; cbn; by rewrite Nat.Div0.div_0_l|cbn in Hl; lia]|].
  rewrite <- (take_drop k d) at 1. rewrite (pixels_app k 1) by (done || rewrite length_take; lia). rewrite concat_app, (IH (drop k d)) by (rewrite length_drop; lia).
  rewrite (pixels_nth k 1) by (done || rewrite length_take; lia). cbn [seq fmap list_fmap concat]. rewrite Nat.mul_0_r, drop_0, take_take, Nat.min_id, app_nil_r. apply take_drop.
Qed.
Lemma pixels_each k n d : (0 < k)%nat -> length d = (k * n)%nat -> Forall (fun p => length p = k) (pixels k d).
Proof.
  intros Hk Hl. rewrite (pixels_nth k n) by done. apply Forall_fmap, Forall_forall. intros x Hx%elem_of_seq. cbn. rewrite length_take, length_drop. nia.
Qed.

(** The bytes of a row, picked by offset, are its pixels. *)
Lemma nth_part k o i d : (i < k)%nat -> nth i (take k (drop o d)) 0 = nth (o + i) d 0.
Proof. intros Hi. by rewrite !nth_lookup, lookup_take_lt, lookup_drop by done. Qed.
Lemma row_pixels {A} (k : nat) (body : Z -> list A) (g : list Z -> list A) row w d :
  (0 < k)%nat -> 0 <= row -> 0 <= w -> row + w * Z.of_nat k <= blen d -> blen d < 2 ^ 63 ->
  (forall o, 0 <= o -> o + Z.of_nat k <= blen d -> body o = g (take k (drop (Z.to_nat o) d))) ->
  (upto w ≫= fun x => let o := wrap 64 (row + x * Z.of_nat k) in if o + (Z.of_nat k - 1) <? blen d then body o else []) =
  pixels k (take (Z.to_nat (w * Z.of_nat k)) (drop (Z.to_nat row) d)) ≫= g.
Proof.
  intros Hk Hr Hw Hl Hb Hbody. unfold upto. rewrite list_fmap_bind. replace (Z.to_nat (w * Z.of_nat k)) with (k * Z.to_nat w)%nat by nia.
  rewrite pixels_row by (done || unfold blen in *; nia). rewrite list_fmap_bind. apply list_bind_ext_in. intros x Hx%elem_of_seq. cbn [compose].
  rewrite wrap_small by nia. destruct (_ <? _) eqn:E; bool_cases; [|nia]. rewrite Hbody by nia. do 3 f_equal. nia.
Qed.

Lemma swapped_body d o : 0 <= o -> [at_ d (o + 2); at_ d (o + 1); at_ d o; at_ d (o + 3)] = swapped (take 4 (drop (Z.to_nat o) d)).
Proof.
  intros Ho. unfold swapped, at_. rewrite !nth_part by lia. rewrite !Z2Nat.inj_add by lia. by rewrite Nat.add_0_r.
Qed.
Definition reversed (p : list Z) : list Z := [nth 2 p 0; nth 1 p 0; nth 0 p 0].
Lemma reversed_body d o : 0 <= o -> [at_ d (o + 2); at_ d (o + 1); at_ d o] = reversed (take 3 (drop (Z.to_nat o) d)).
Proof. intros Ho. unfold reversed, at_. rewrite !nth_part by lia. rewrite !Z2Nat.inj_add by lia. by rewrite Nat.add_0_r. Qed.

Lemma source_row_bound td h y : 0 <= y < h -> 0 <= source_row td h y < h.
Proof. unfold source_row. destruct td; lia. Qed.

(** The rows of a picture in the order of the image: [n] bytes of each [stride]. *)
Definition picture_rows (d : list Z) (stride n h : Z) (top_down : bool) : list (list Z) :=
  (fun y => take (Z.to_nat n) (drop (Z.to_nat (source_row top_down h y * stride)) d)) <$> upto h.
Definition shown32 (d : list Z) (w h : Z) (td : bool) : list Z := picture_rows d (w * 4) (w * 4) h td ≫= swap_channels.
Definition shown24 (d : list Z) (stride w h : Z) (td : bool) : list Z := picture_rows d stride (w * 3) h td ≫= fun row => pixels 3 row ≫= reversed.

Lemma upto_elem y n : y ∈ upto n -> 0 <= y < n.
Proof. unfold upto. intros (k & -> & Hk%elem_of_seq)%list_elem_of_fmap. lia. Qed.
Lemma upto_length n : 0 <= n -> Z.of_nat (length (upto n)) = n.
Proof. intros. unfold upto. rewrite length_fmap, length_seq. lia. Qed.
Lemma bind_length {A B} (f : A -> list B) (n : nat) l : (forall x, x ∈ l -> length (f x) = n) -> length (l ≫= f) = (length l * n)%nat.
Proof.
  induction l as [|x l IH]; intros Hf; [done|]. cbn [mbind list_bind length]. rewrite length_app, Hf, IH by (try intros; try apply Hf; try (by left); by right). lia.
Qed.

Lemma row_of_length {A} k (g : list Z -> list A) m (n : nat) row : (0 < k)%nat -> (forall p, length (g p) = m) -> length row = (k * n)%nat -> length (pixels k row ≫= g) = (n * m)%nat.
Proof. intros Hk Hg Hl. rewrite (bind_length g m) by (intros; apply Hg). by rewrite pixels_length, Hl, (Nat.mul_comm k n), Nat.div_mul by lia. Qed.

(** The rows lie in the data. *)
Lemma rows_inside stride n h td d y : 0 <= n <= stride -> h * stride <= blen d -> y ∈ upto h ->
  0 <= source_row td h y * stride /\ source_row td h y * stride + n <= blen d /\
  length (take (Z.to_nat n) (drop (Z.to_nat (source_row td h y * stride)) d)) = Z.to_nat n.
Proof.
  intros Hn Hd Hy%upto_elem. pose proof (source_row_bound td h y Hy). assert ((source_row td h y + 1) * stride <= h * stride) by (apply Z.mul_le_mono_nonneg_r; lia).
  assert (0 <= source_row td h y * stride) by nia. split_and!; [done|lia|]. rewrite length_take, length_drop. unfold blen in *. lia.
Qed.

Lemma shown32_length d w h td : 0 <= w -> 0 <= h -> w * h * 4 <= blen d -> Z.of_nat (length (shown32 d w h td)) = w * h * 4.
Proof.
  intros Hw Hh Hd. unfold shown32, picture_rows. rewrite list_fmap_bind, (bind_length _ (Z.to_nat w * 4)); [rewrite Nat2Z.inj_mul, upto_length by done; lia|].
  intros y Hy. cbn [compose]. apply row_of_length; [lia|done|]. destruct (rows_inside (w * 4) (w * 4) h td d y) as (_ & _ & ->); [lia|lia|done|]. lia.
Qed.
Lemma shown24_length d stride w h td : 0 <= w -> 0 <= h -> w * 3 <= stride -> h * stride <= blen d -> Z.of_nat (length (shown24 d stride w h td)) = w * h * 3.
Proof.
  intros Hw Hh Hs Hd. unfold shown24, picture_rows. rewrite list_fmap_bind, (bind_length _ (Z.to_nat w * 3)); [rewrite Nat2Z.inj_mul, upto_length by done; lia|].
  intros y Hy. cbn [compose]. apply row_of_length; [lia|done|]. destruct (rows_inside stride (w * 3) h td d y) as (_ & _ & ->); [lia|lia|done|]. lia.
Qed.

Lemma convert32_shows d w h td : 0 <= w -> 0 <= h -> w * h * 4 <= blen d < 2 ^ 63 ->
  convert_32bit_dib d w h td = match rgba_from_raw w h (shown32 d w h td) with Some i => Ok i | None => decode_error (lit "Failed to create image from DIB") end.
Proof.
  intros Hw Hh [Hd Hb]. unfold convert_32bit_dib, expected_size. assert (wrap 64 (wrap 64 (w * h) * 4) = w * h * 4) as -> by (rewrite (wrap_small 64 (w * h)) by nia; apply wrap_small; nia).
  destruct (_ <? _) eqn:E; [bool_cases; lia|]. match goal with |- context [rgba_from_raw w h ?r] => replace r with (shown32 d w h td); [done|] end. symmetry.
  unfold shown32, picture_rows. rewrite list_fmap_bind. apply list_bind_ext_in. intros y Hy. cbn [compose].
  destruct (rows_inside (w * 4) (w * 4) h td d y) as (R1 & R2 & R3); [lia|lia|done|]. pose proof (source_row_bound td h y (upto_elem _ _ Hy)).
  assert (wrap 64 (wrap 64 (source_row td h y * w) * 4) = source_row td h y * (w * 4)) as -> by (rewrite (wrap_small 64 (_ * w)) by nia; rewrite wrap_small by nia; lia).
  apply (row_pixels 4 (fun o => [at_ d (o + 2); at_ d (o + 1); at_ d o; at_ d (o + 3)]) swapped); try lia. intros o Ho _. by apply swapped_body.
Qed.

Lemma row_size24_spec w : 0 <= w -> w * 3 + 3 < 2 ^ 32 -> w * 3 <= row_size24 w < w * 3 + 4 /\ row_size24 w mod 4 = 0.
Proof.
  intros Hw Hs. unfold row_size24. rewrite (wrap_small 32 (w * 3)) by lia. pose proof (div_ceil_spec (w * 3) 4 ltac:(lia) ltac:(lia)).
  rewrite wrap_small by lia. split; [lia|]. by rewrite Z.mod_mul.
Qed.
Lemma convert24_shows d w h td : 0 <= w -> 0 <= h -> w * 3 + 3 < 2 ^ 32 -> h * row_size24 w <= blen d < 2 ^ 63 ->
  convert_24bit_dib d w h td = match rgb_from_raw w h (shown24 d (row_size24 w) w h td) with Some i => Ok i | None => decode_error (lit "Failed to create image from DIB") end.
Proof.
  intros Hw Hh Hs [Hd Hb]. destruct (row_size24_spec w Hw Hs) as [[S1 S2] _]. unfold convert_24bit_dib. assert (wrap 64 (row_size24 w * h) = row_size24 w * h) as -> by (apply wrap_small; nia).
  destruct (_ <? _) eqn:E; [bool_cases; lia|]. match goal with |- context [rgb_from_raw w h ?r] => replace r with (shown24 d (row_size24 w) w h td); [done|] end. symmetry.
  unfold shown24, picture_rows. rewrite list_fmap_bind. apply list_bind_ext_in. intros y Hy. cbn [compose].
  destruct (rows_inside (row_size24 w) (w * 3) h td d y) as (R1 & R2 & R3); [lia|lia|done|].
  rewrite (wrap_small 64 (source_row td h y * _)) by nia.
  apply (row_pixels 3 (fun o => [at_ d (o + 2); at_ d (o + 1); at_ d o]) reversed); try lia. intros o Ho _. by apply reversed_body.
Qed.

(** *** Single pixels *)

Lemma bind_nth {A B} (f : A -> list B) n l k x : (forall x, x ∈ l -> length (f x) = n) -> l !! k = Some x -> take n (drop (n * k) (l ≫= f)) = f x.
Proof.
  revert k. induction l as [|y l IH]; intros k Hf Hk; [done|]. cbn [mbind list_bind]. assert (length (f y) = n) as Hy by (apply Hf; by left). destruct k as [|k].
  - injection Hk as <-. by rewrite Nat.mul_0_r, drop_0, take_app_length'.
  - rewrite drop_app_ge by lia. replace (n * S k - length (f y))%nat with (n * k)%nat by lia. apply IH; [|done]. intros z Hz. apply Hf. by right.
Qed.
Lemma pixels_lookup k n d x : (0 < k)%nat -> length d = (k * n)%nat -> (x < n)%nat -> pixels k d !! x = Some (take k (drop (k * x) d)).
Proof. intros Hk Hl Hx. rewrite (pixels_nth k n) by done. by rewrite list_lookup_fmap, lookup_seq_lt. Qed.

Lemma sub_slice {A} (n a N o : nat) (d : list A) : (a + n <= N)%nat -> take n (drop a (take N (drop o d))) = take n (drop (o + a) d).
Proof. intros Ha. rewrite take_drop_commute, take_take, Nat.min_l by done. by rewrite <- take_drop_commute, drop_drop. Qed.

(** The pixel in column [x] of row [y] of a picture made row by row. *)
Lemma picture_pixel (k m : nat) (g : list Z -> list Z) d stride w h td x y : (0 < k)%nat -> (forall p, length (g p) = m) -> 0 <= w -> w * Z.of_nat k <= stride -> h * stride <= blen d ->
  0 <= x < w -> 0 <= y < h ->
  take m (drop (m * Z.to_nat (y * w + x)) (picture_rows d stride (w * Z.of_nat k) h td ≫= fun row => pixels k row ≫= g)) =
  g (take k (drop (Z.to_nat (source_row td h y * stride + x * Z.of_nat k)) d)).
Proof.
  intros Hk Hg Hw Hs Hd Hx Hy. unfold picture_rows. rewrite list_fmap_bind. set (F := compose _ _). set (W := Z.to_nat w).
  assert (forall y, y ∈ upto h -> length (F y) = (W * m)%nat) as HF.
  { intros y' Hy'. unfold F. cbn [compose]. apply (row_of_length k g m W); [done|done|]. destruct (rows_inside stride (w * Z.of_nat k) h td d y') as (_ & _ & ->); [nia|done|done|]. unfold W. nia. }
  assert (upto h !! Z.to_nat y = Some y) as Hl.
  { unfold upto. rewrite list_lookup_fmap, lookup_seq_lt by lia. cbn. f_equal. lia. }
  pose proof (bind_nth F (W * m) (upto h) (Z.to_nat y) y HF Hl) as Hrow.
  assert (take m (drop (m * Z.to_nat x) (F y)) = g (take k (drop (Z.to_nat (source_row td h y * stride + x * Z.of_nat k)) d))) as <-.
  { destruct (rows_inside stride (w * Z.of_nat k) h td d y) as (R1 & R2 & R3); [nia|done|by eapply list_elem_of_lookup_2|]. unfold F. cbn [compose]. set (row := take (Z.to_nat (w * Z.of_nat k)) _). fold row in R3.
    rewrite (bind_nth g m _ _ (take k (drop (k * Z.to_nat x) row))); [|done|apply (pixels_lookup k W); unfold W; nia].
    f_equal. unfold row. rewrite sub_slice by nia. do 2 f_equal. nia. }
  rewrite <- Hrow, sub_slice by (unfold W; nia). do 2 f_equal. unfold W. nia.
Qed.

(** *** Bit masks *)

Lemma channel_byte mask k pixel : 0 <= k -> k < 32 -> trailing_zeros 32 mask = k -> Z.shiftr mask k = 255 -> channel mask pixel = pixel / 2 ^ k mod 256.
Proof.
  intros Hk Hk' Ht Hm. unfold channel. rewrite Ht, Z.mod_small by lia. rewrite Z.shiftr_land, Hm. change 255 with (Z.ones 8). rewrite Z.land_ones by lia.
  rewrite Z.shiftr_div_pow2 by done. unfold wrap. change (2 ^ 8) with 256. by rewrite Zmod_mod.
Qed.
Lemma masked_body b g r a : is_byte b -> is_byte g -> is_byte r -> is_byte a -> let pixel := of_le [b; g; r; a] in
  [channel 0x00FF0000 pixel; channel 0x0000FF00 pixel; channel 0x000000FF pixel; channel 0xFF000000 pixel] = [r; g; b; a].
Proof.
  intros Hb Hg Hr Ha. cbn zeta. rewrite (channel_byte 0x00FF0000 16), (channel_byte 0x0000FF00 8), (channel_byte 0x000000FF 0), (channel_byte 0xFF000000 24) by done.
  cbn [of_le]. change (2 ^ 16) with 65536. change (2 ^ 8) with 256. change (2 ^ 0) with 1. change (2 ^ 24) with 16777216.
  f_equal; [|f_equal; [|f_equal; [|f_equal]]]; Z.div_mod_to_equations; lia.
Qed.

Lemma at_byte d o : Forall (fun b => is_byte b) d -> is_byte (at_ d o).
Proof.
  intros Hd. unfold at_. rewrite nth_lookup. destruct (d !! Z.to_nat o) as [b|] eqn:E; [|done]. by eapply (Forall_lookup_1 _ _ _ _ Hd).
Qed.

Lemma part_bytes g k d : (forall p, Forall (fun b => is_byte b) p -> Forall (fun b => is_byte b) (g p)) -> Forall (fun b => is_byte b) d -> Forall (fun b => is_byte b) (pixels k d ≫= g).
Proof. intros Hg Hd. apply Forall_bind, Forall_fmap, Forall_forall. intros x _. cbn [compose]. by apply Hg, Forall_take, Forall_drop. Qed.
Lemma nth_byte k p : Forall (fun b => is_byte b) p -> is_byte (nth k p 0).
Proof. intros Hp. apply (at_byte p (Z.of_nat k)) in Hp. unfold at_ in Hp. by rewrite Nat2Z.id in Hp. Qed.
Lemma swap_channels_bytes d : Forall (fun b => is_byte b) d -> Forall (fun b => is_byte b) (swap_channels d).
Proof. apply part_bytes. intros p Hp. unfold swapped. by repeat constructor; apply nth_byte. Qed.
Lemma rows_bytes g stride n h td d : (forall p, Forall (fun b => is_byte b) p -> Forall (fun b => is_byte b) (g p)) -> Forall (fun b => is_byte b) d ->
  Forall (fun b => is_byte b) (picture_rows d stride n h td ≫= g).
Proof. intros Hg Hd. apply Forall_bind, Forall_fmap, Forall_forall. intros y _. cbn [compose]. by apply Hg, Forall_take, Forall_drop. Qed.
Lemma shown32_bytes d w h td : Forall (fun b => is_byte b) d -> Forall (fun b => is_byte b) (shown32 d w h td).
Proof. apply rows_bytes, swap_channels_bytes. Qed.
Lemma shown24_bytes d stride w h td : Forall (fun b => is_byte b) d -> Forall (fun b => is_byte b) (shown24 d stride w h td).
Proof. apply rows_bytes. intros row. apply part_bytes. intros p Hp. unfold reversed. by repeat constructor; apply nth_byte. Qed.

(** With the masks of a plain bitmap the extended reader reads the same picture. *)
Lemma masked_same d w h td : Forall (fun b => is_byte b) d -> 0 <= w -> 0 <= h -> w * h * 4 <= blen d < 2 ^ 63 ->
  convert_32bit_dibv5 d w h td 0x00FF0000 0x0000FF00 0x000000FF 0xFF000000 =
  match rgba_from_raw w h (shown32 d w h td) with Some i => Ok i | None => decode_error (lit "Failed to create image from DIBV5") end.
Proof.
  intros Hd Hw Hh [Hl Hb]. unfold convert_32bit_dibv5, expected_size. assert (wrap 64 (wrap 64 (w * h) * 4) = w * h * 4) as -> by (rewrite (wrap_small 64 (w * h)) by nia; apply wrap_small; nia).
  destruct (_ <? _) eqn:E; [bool_cases; lia|]. match goal with |- context [rgba_from_raw w h ?r] => replace r with (shown32 d w h td); [done|] end. symmetry.
  unfold shown32, picture_rows. rewrite list_fmap_bind. apply list_bind_ext_in. intros y Hy. cbn [compose].
  destruct (rows_inside (w * 4) (w * 4) h td d y) as (R1 & R2 & R3); [lia|lia|done|]. pose proof (source_row_bound td h y (upto_elem _ _ Hy)).
  assert (wrap 64 (wrap 64 (source_row td h y * w) * 4) = source_row td h y * (w * 4)) as -> by (rewrite (wrap_small 64 (_ * w)) by nia; rewrite wrap_small by nia; lia).
  set (body := fun o => let pixel := of_le [at_ d o; at_ d (o + 1); at_ d (o + 2); at_ d (o + 3)] in
    [channel 0x00FF0000 pixel; channel 0x0000FF00 pixel; channel 0x000000FF pixel; if 0xFF000000 =? 0 then 255 else channel 0xFF000000 pixel]).
  apply (row_pixels 4 body swapped); try lia. unfold body. intros o Ho _. rewrite <- swapped_body by done. change (4278190080 =? 0) with false. cbv iota.
  by apply masked_body; apply at_byte.
Qed.

(** ** The readers *)

Lemma of_le_bound d : Forall (fun b => is_byte b) d -> 0 <= of_le d < 256 ^ Z.of_nat (length d).
Proof.
  induction 1 as [|b d Hb Hd IH]; [done|]. cbn [of_le length]. rewrite Nat2Z.inj_succ, Z.pow_succ_r by lia. lia.
Qed.
Lemma le_at_bound n o d : Forall (fun b => is_byte b) d -> 0 <= le_at n o d < 256 ^ Z.of_nat n.
Proof.
  intros Hd. unfold le_at. destruct (of_le_bound (take n (drop o d))) as [H1 H2]; [by apply Forall_take, Forall_drop|]. split; [done|].
  eapply Z.lt_le_trans; [exact H2|]. apply Z.pow_le_mono_r; [done|]. rewrite length_take. lia.
Qed.
Lemma abs32_bound d o : Forall (fun b => is_byte b) d -> 0 <= abs32 (le_at 4 o d) <= u32_max.
Proof. intros Hd. pose proof (le_at_bound 4 o d Hd) as Hb. change (256 ^ Z.of_nat 4) with (2 ^ 32) in Hb. unfold abs32, u32_max. destruct (_ <? _) eqn:?; bool_cases; lia. Qed.

Definition pixel_at (rgba : list Z) (w x y : Z) : list Z := take 4 (drop (4 * Z.to_nat (y * w + x)) rgba).

Lemma shown32_pixel d w h td x y : w * h * 4 <= blen d -> 0 <= x < w -> 0 <= y < h ->
  pixel_at (shown32 d w h td) w x y = swapped (take 4 (drop (Z.to_nat (source_row td h y * (w * 4) + x * 4)) d)).
Proof. intros Hd Hx Hy. apply (picture_pixel 4 4 swapped d (w * 4) w h td x y); lia || done. Qed.
Lemma opaque_pixel d stride w h td x y : w * 3 <= stride -> h * stride <= blen d -> 0 <= x < w -> 0 <= y < h ->
  pixel_at (opaque (shown24 d stride w h td)) w x y = reversed (take 3 (drop (Z.to_nat (source_row td h y * stride + x * 3)) d)) ++ [255].
Proof.
  intros Hs Hd Hx Hy. unfold pixel_at, opaque. pose proof (shown24_length d stride w h td ltac:(lia) ltac:(lia) Hs Hd) as Hl.
  assert (length (shown24 d stride w h td) = 3 * Z.to_nat (w * h))%nat as Hl' by lia.
  rewrite (bind_nth (fun p => p ++ [255]) 4 _ (Z.to_nat (y * w + x)) (take 3 (drop (3 * Z.to_nat (y * w + x)) (shown24 d stride w h td)))).
  - f_equal. apply (picture_pixel 3 3 reversed d stride w h td x y); lia || done.
  - intros p Hp. pose proof (proj1 (Forall_forall _ _) (pixels_each 3 _ _ ltac:(lia) Hl') p Hp) as E. rewrite length_app, E. done.
  - apply (pixels_lookup 3 (Z.to_nat (w * h))); [lia|done|]. assert ((y + 1) * w <= h * w) by (apply Z.mul_le_mono_nonneg_r; lia). nia.
Qed.

Section laws.
Context `{!ImageLaws}.

(** A bitmap is read exactly.  For every header size and either depth, when the
    data hold the picture its header announces, the picture handed to the image
    library has in every place the channels of the right source pixel: rows from
    the bottom unless the height is negative, 24-bit rows padded to four bytes and
    opaque, the fourth byte as alpha otherwise; and the extended format with the
    usual masks is read to the same picture. *)
Theorem bitmaps_read_exactly d : Forall (fun b => is_byte b) d -> blen d < 2 ^ 63 ->
  let size := le_at 4 0 d in let w := abs32 (le_at 4 4 d) in let h := abs32 (le_at 4 8 d) in let td := is_negative32 (le_at 4 8 d) in
  let px := drop (Z.to_nat size) d in
  40 <= size < blen d ->
  (le_at 2 14 d = 32 -> w * h * 4 <= blen px -> exists i rgba, parse_dib_to_image d = Ok i /\ to_rgba8 i = (w, h, rgba) /\
     (forall x y, 0 <= x < w -> 0 <= y < h -> pixel_at rgba w x y = swapped (take 4 (drop (Z.to_nat (source_row td h y * (w * 4) + x * 4)) px))) /\
     (size = 124 -> le_at 4 16 d <> 3 -> parse_dibv5_to_image d = Ok i)) /\
  (le_at 2 14 d = 24 -> w * 3 + 3 < 2 ^ 32 -> h * row_size24 w <= blen px -> exists i rgba, parse_dib_to_image d = Ok i /\ to_rgba8 i = (w, h, rgba) /\
     (forall x y, 0 <= x < w -> 0 <= y < h -> pixel_at rgba w x y = reversed (take 3 (drop (Z.to_nat (source_row td h y * row_size24 w + x * 3)) px)) ++ [255]) /\
     (size = 124 -> parse_dibv5_to_image d = Ok i)).
Proof.
  intros Hd Hb size w h td px Hs. assert (0 <= w <= u32_max) as Hw' by (by apply abs32_bound). assert (0 <= h <= u32_max) as Hh' by (by apply abs32_bound). assert (0 <= w) as Hw by lia. assert (0 <= h) as Hh by lia.
  assert (Forall (fun b => is_byte b) px) as Hpx by (by apply Forall_drop). assert (blen px < 2 ^ 63) as Hbp by (unfold px, blen in *; rewrite length_drop; lia).
  assert (parse_dib_to_image d = if le_at 2 14 d =? 32 then convert_32bit_dib px w h td else if le_at 2 14 d =? 24 then convert_24bit_dib px w h td
          else decode_error (lit "Unsupported DIB bit depth: " ++ fmt_dec (le_at 2 14 d))) as Hp.
  { unfold parse_dib_to_image. fold size w h td px. assert (blen d <? 40 = false) as -> by lia. assert (size <? 40 = false) as -> by lia. by assert (blen d <=? size = false) as -> by lia. }
  assert (size = 124 -> parse_dibv5_to_image d = parse_full_dibv5 d) as H5.
  { intros E. unfold parse_dibv5_to_image. fold size. rewrite E. by assert (blen d <? 4 = false) as -> by lia. }
  assert (size = 124 -> blen d <? DIBV5_HEADER_SIZE = false /\ drop (Z.to_nat DIBV5_HEADER_SIZE) d = px) as Hl by (intros E; unfold px; rewrite E; split; [unfold DIBV5_HEADER_SIZE; lia|done]).
  split.
  - intros E Hn. rewrite Hp, E. cbn [Z.eqb Pos.eqb]. destruct (rgba_taken w h (shown32 px w h td)) as (i & Ei & Et); [done|done|by apply shown32_bytes|by apply shown32_length|].
    exists i, (shown32 px w h td). rewrite convert32_shows, Ei by lia. split_and!; [done|done|by intros; apply shown32_pixel|].
    intros E5 Ec. rewrite H5 by done. unfold parse_full_dibv5. destruct (Hl E5) as [-> ->]. fold w h td. rewrite (proj2 (Z.eqb_neq _ _) Ec), E. cbn [Z.eqb Pos.eqb].
    by rewrite masked_same, Ei by (done || lia).
  - intros E Hw3 Hn. rewrite Hp, E. cbn [Z.eqb Pos.eqb]. destruct (row_size24_spec w Hw Hw3) as [[S1 S2] _].
    destruct (rgb_taken w h (shown24 px (row_size24 w) w h td)) as (i & Ei & Et); [done|done|by apply shown24_bytes|by apply shown24_length|].
    exists i, (opaque (shown24 px (row_size24 w) w h td)). rewrite convert24_shows, Ei by lia. split_and!; [done|done|by intros; apply opaque_pixel|].
    intros E5. rewrite H5 by done. unfold parse_full_dibv5. destruct (Hl E5) as [-> ->]. fold w h td. rewrite E. cbn [Z.eqb Pos.eqb].
    destruct (if le_at 4 16 d =? 3 then _ else _) as [[[? ?] ?] ?]. by rewrite convert24_shows, Ei by lia.
Qed.

(** ** There and back *)

Lemma of_to_le_mod n z : of_le (to_le n z) = z mod 256 ^ Z.of_nat n.
Proof.
  revert z. induction n as [|n IH]; intros z; [by rewrite Z.mod_1_r|]. cbn [to_le of_le]. rewrite IH, Nat2Z.inj_succ, Z.pow_succ_r by lia.
  rewrite Z.rem_mul_r by lia. lia.
Qed.
Lemma swapped_twice p : length p = 4%nat -> swapped (swapped p) = p.
Proof. by destruct p as [|? [|? [|? [|? [|]]]]]. Qed.
Lemma swap_channels_twice n d : length d = (4 * n)%nat -> swap_channels (swap_channels d) = d.
Proof.
  intros Hl. unfold swap_channels. rewrite pixels_bind by (lia || by apply Forall_true; intros). rewrite list_fmap_bind.
  transitivity (pixels 4 d ≫= fun p => p).
  - apply list_bind_ext_in. intros p Hp. cbn. apply swapped_twice. by apply (proj1 (Forall_forall _ _) (pixels_each 4 n d ltac:(lia) Hl)).
  - rewrite <- (pixels_concat 4 n d) at 2 by (done || lia). by induction (pixels 4 d) as [|p ps IH]; [|cbn; rewrite <- IH].
Qed.
Lemma swap_channels_concat m ps : Forall (fun p => length p = (4 * m)%nat) ps -> swap_channels (concat ps) = ps ≫= swap_channels.
Proof.
  induction 1 as [|p ps Hp Hps IH]; [done|]. cbn [concat mbind list_bind]. unfold swap_channels at 1. rewrite (pixels_app 4 m), bind_app by (done || lia). by rewrite <- IH.
Qed.
(** From the top, the rows of a picture are the picture. *)
Lemma shown32_top d w h : 0 < w -> 0 <= h -> blen d = w * h * 4 -> shown32 d w h true = swap_channels d.
Proof.
  intros Hw Hh Hl. assert (length d = Z.to_nat (w * 4) * Z.to_nat h)%nat as Hd by (unfold blen in Hl; nia).
  rewrite <- (pixels_concat (Z.to_nat (w * 4)) (Z.to_nat h) d) at 2 by (done || lia). rewrite (swap_channels_concat (Z.to_nat w)).
  - rewrite (pixels_nth _ (Z.to_nat h)) by (done || lia). unfold shown32, picture_rows, upto. rewrite !list_fmap_bind. apply list_bind_ext_in. intros y _. cbn [compose source_row].
    do 3 f_equal. nia.
  - eapply Forall_impl; [apply (pixels_each _ (Z.to_nat h)); [lia|done]|]. cbn. intros p ->. lia.
Qed.

Lemma swap_channels_blen n d : length d = (4 * n)%nat -> length (swap_channels d) = length d.
Proof. intros Hl. unfold swap_channels. rewrite (row_of_length 4 swapped 4 n) by (done || lia). lia. Qed.
(** The dimensions read back from a header the writer made. *)
Lemma header_dimensions size w h rest : 1 <= w <= i32_max -> 1 <= h <= i32_max -> 0 <= size < 2 ^ 32 ->
  let d := header_start size w h ++ rest in
  le_at 4 0 d = size /\ abs32 (le_at 4 4 d) = w /\ abs32 (le_at 4 8 d) = h /\ is_negative32 (le_at 4 8 d) = true /\ le_at 2 14 d = 32.
Proof.
  intros Hw Hh Hs. cbn zeta. change (le_at 4 0 _) with (of_le (to_le 4 size)). change (le_at 4 4 _) with (of_le (to_le 4 (try_i32 w))).
  change (le_at 4 8 _) with (of_le (to_le 4 (- try_i32 h))). change (le_at 2 14 _) with 32. unfold try_i32. rewrite !Z.min_l by lia.
  rewrite !of_to_le_mod. change (256 ^ Z.of_nat 4) with (2 ^ 32). unfold i32_max in *.
  assert ((- h) mod 2 ^ 32 = 2 ^ 32 - h) as -> by (symmetry; apply (Z.mod_unique_pos _ _ (-1)); lia). rewrite !Z.mod_small by lia.
  unfold abs32, is_negative32. repeat (destruct (_ <? _) eqn:?; bool_cases; try lia); split_and!; lia.
Qed.

Lemma dib_back i w h rgba : to_rgba8 i = (w, h, rgba) -> 1 <= w <= i32_max -> 1 <= h <= i32_max -> w * h * 4 < 2 ^ 62 ->
  exists dib j, create_dib_from_image i = Ok dib /\ dib_dimensions dib = Ok (w, h) /\ parse_dib_to_image dib = Ok j /\ to_rgba8 j = (w, h, rgba).
Proof.
  intros Hi Hw Hh Hs. destruct (rgba_shape _ _ _ _ Hi) as (Hw' & Hh' & Hl & Hb). assert (length rgba = 4 * Z.to_nat (w * h))%nat as Hn by nia.
  unfold create_dib_from_image. rewrite Hi. set (mid := to_le 4 0 ++ _). set (d := header_start 40 w h ++ mid). exists d.
  destruct (header_dimensions 40 w h mid Hw Hh ltac:(lia)) as (E1 & E2 & E3 & E4 & E5). fold d in E1, E2, E3, E4, E5.
  assert (drop 40 d = swap_channels rgba) as Ep by done. pose proof (swap_channels_blen _ _ Hn) as Hsl.
  assert (blen d = 40 + w * h * 4) as Hd by (unfold blen; rewrite <- (take_drop 40 d), length_app, Ep, Hsl; change (length (take 40 d)) with 40%nat; lia).
  assert (blen (swap_channels rgba) = w * h * 4) as Hp by (unfold blen; lia).
  destruct (rgba_taken w h rgba Hw' Hh' Hb Hl) as (j & Ej & Tj). exists j. split; [done|]. split.
  { unfold dib_dimensions. rewrite E2, E3. by assert (blen d <? 12 = false) as -> by lia. }
  split; [|done]. unfold parse_dib_to_image. rewrite E1, E2, E3, E4, E5. assert (blen d <? 40 = false) as -> by lia. assert (blen d <=? 40 = false) as -> by nia.
  cbn [Z.ltb Z.compare Pos.compare Pos.compare_cont Z.eqb Pos.eqb]. change (Z.to_nat 40) with 40%nat. rewrite Ep, convert32_shows by lia.
  rewrite shown32_top, (swap_channels_twice _ _ Hn), Ej by (done || lia). done.
Qed.

Lemma dibv5_back i w h rgba : to_rgba8 i = (w, h, rgba) -> 1 <= w <= i32_max -> 1 <= h <= i32_max -> w * h * 4 < 2 ^ 62 ->
  exists dib j, create_dibv5_from_image i = Ok dib /\ dib_dimensions dib = Ok (w, h) /\ parse_dibv5_to_image dib = Ok j /\ to_rgba8 j = (w, h, rgba).
Proof.
  intros Hi Hw Hh Hs. destruct (rgba_shape _ _ _ _ Hi) as (Hw' & Hh' & Hl & Hb). assert (length rgba = 4 * Z.to_nat (w * h))%nat as Hn by nia.
  unfold create_dibv5_from_image. rewrite Hi. set (mid := to_le 4 3 ++ _). set (d := header_start DIBV5_HEADER_SIZE w h ++ mid). exists d.
  destruct (header_dimensions DIBV5_HEADER_SIZE w h mid Hw Hh ltac:(unfold DIBV5_HEADER_SIZE; lia)) as (E1 & E2 & E3 & E4 & E5). fold d in E1, E2, E3, E4, E5.
  assert (drop 124 d = swap_channels rgba) as Ep by done. pose proof (swap_channels_blen _ _ Hn) as Hsl.
  assert (blen d = 124 + w * h * 4) as Hd by (unfold blen; rewrite <- (take_drop 124 d), length_app, Ep, Hsl; change (length (take 124 d)) with 124%nat; lia).
  assert (blen (swap_channels rgba) = w * h * 4) as Hp by (unfold blen; lia).
  destruct (rgba_taken w h rgba Hw' Hh' Hb Hl) as (j & Ej & Tj). exists j. split; [done|]. split.
  { unfold dib_dimensions. rewrite E2, E3. by assert (blen d <? 12 = false) as -> by lia. }
  split; [|done]. unfold parse_dibv5_to_image. rewrite E1. assert (blen d <? 4 = false) as -> by lia. cbn [DIBV5_HEADER_SIZE Z.eqb Pos.eqb].
  unfold parse_full_dibv5. rewrite E2, E3, E4, E5. assert (blen d <? DIBV5_HEADER_SIZE = false) as -> by (unfold DIBV5_HEADER_SIZE; nia).
  change (le_at 4 16 d) with 3. change (le_at 4 40 d) with 0x00FF0000. change (le_at 4 44 d) with 0x0000FF00. change (le_at 4 48 d) with 0x000000FF. change (le_at 4 52 d) with 0xFF000000.
  cbn [Z.eqb Pos.eqb]. change (Z.to_nat DIBV5_HEADER_SIZE) with 124%nat. rewrite Ep, masked_same by (by apply swap_channels_bytes || lia).
  rewrite shown32_top, (swap_channels_twice _ _ Hn), Ej by (done || lia). done.
Qed.

(** C16. A picture survives the clipboard.  Every PNG picture of Windows' dimensions
    becomes a bitmap in either format, with its dimensions, and reading it back
    gives the same picture, pixel for pixel and with its alpha channel; when the
    library then writes a PNG again, that is the same picture too. *)
Theorem png_survives_clipboard png i w h rgba : load_from_memory_with_format Png png = inr i -> to_rgba8 i = (w, h, rgba) ->
  1 <= w <= i32_max -> 1 <= h <= i32_max -> w * h * 4 < 2 ^ 62 ->
  exists dib dib5 j j5, png_to_dib png = Ok dib /\ png_to_dibv5 png = Ok dib5 /\
    dib_dimensions dib = Ok (w, h) /\ dib_dimensions dib5 = Ok (w, h) /\
    parse_dib_to_image dib = Ok j /\ to_rgba8 j = (w, h, rgba) /\ parse_dibv5_to_image dib5 = Ok j5 /\ to_rgba8 j5 = (w, h, rgba) /\
    forall back, dib_to_png dib = Ok back \/ dibv5_to_png dib5 = Ok back ->
      exists k, load_from_memory_with_format Png back = inr k /\ to_rgba8 k = (w, h, rgba).
Proof.
  intros Hp Hi Hw Hh Hs. destruct (dib_back i w h rgba Hi Hw Hh Hs) as (dib & j & D1 & D2 & D3 & D4).
  destruct (dibv5_back i w h rgba Hi Hw Hh Hs) as (dib5 & j5 & F1 & F2 & F3 & F4).
  exists dib, dib5, j, j5. unfold png_to_dib, png_to_dibv5. rewrite Hp. cbn [decoded mbind outcome_bind]. split_and!; try done.
  intros back [E|E]; [unfold dib_to_png in E; rewrite D3 in E|unfold dibv5_to_png in E; rewrite F3 in E]; cbn [mbind outcome_bind] in E.
  - destruct (write_to Png j) as [|b] eqn:Wr; [done|]. injection E as <-. destruct (png_lossless j b Wr) as (k & ? & ?). exists k. split; congruence.
  - destruct (write_to Png j5) as [|b] eqn:Wr; [done|]. injection E as <-. destruct (png_lossless j5 b Wr) as (k & ? & ?). exists k. split; congruence.
Qed.
End laws.
End image.

(** ** A library *)

Definition toy_ok (p : Z * Z * list Z) : bool :=
  let '(w, h, d) := p in
  (0 <=? w) && (w <=? u32_max) && (0 <=? h) && (h <=? u32_max) && (Z.of_nat (length d) =? w * h * 4) && forallb (fun b => (0 <=? b) && (b <? 256)) d.
(** Pictures are their pixels; the encoded form is the dimensions and the pixels. *)
Definition toy_load (d : list Z) : Z * Z * list Z := (of_le (take 4 d), of_le (take 4 (drop 4 d)), drop 8 d).
Definition toy_write (p : Z * Z * list Z) : list Z := to_le 4 p.1.1 ++ to_le 4 p.1.2 ++ p.2.
#[export] Instance toy_library : ImageLibrary := {|
  DynamicImage := Z * Z * list Z;
  load_from_memory d := inr (toy_load d);
  load_from_memory_with_format _ d := inr (toy_load d);
  write_to _ p := inr (if toy_ok p then toy_write p else toy_write (0, 0, []));
  rgba_from_raw w h d := Some (w, h, d);
  rgb_from_raw w h d := Some (w, h, opaque d);
  to_rgba8 p := if toy_ok p then p else (0, 0, []);
|}.

Lemma toy_ok_iff w h d : toy_ok (w, h, d) = true <-> 0 <= w <= u32_max /\ 0 <= h <= u32_max /\ Z.of_nat (length d) = w * h * 4 /\ Forall (fun b => is_byte b) d.
Proof.
  unfold toy_ok. rewrite !andb_true_iff, forallb_Forall_true, !Z.leb_le, Z.eqb_eq. split.
  - intros [[[[[? ?] ?] ?] ?] Hf]. split_and!; try done. eapply Forall_impl; [exact Hf|]. cbn. intros; bool_cases; lia.
  - intros ((? & ?) & (? & ?) & ? & Hf). split_and!; try done. eapply Forall_impl; [exact Hf|]. cbn. intros b Hb. apply andb_true_iff. split; lia.
Qed.
Lemma toy_write_load p : toy_ok p = true -> toy_load (toy_write p) = p.
Proof.
  destruct p as [[w h] d]. intros (Hw & Hh & _)%toy_ok_iff. unfold toy_load.
  change (take 4 (toy_write (w, h, d))) with (to_le 4 w). change (take 4 (drop 4 (toy_write (w, h, d)))) with (to_le 4 h). change (drop 8 (toy_write (w, h, d))) with d.
  rewrite !of_to_le_mod. change (256 ^ Z.of_nat 4) with (u32_max + 1). by rewrite !Z.mod_small by lia.
Qed.
#[export] Instance toy_laws : ImageLaws.
Proof.
  constructor.
  - intros i w h d. cbn. destruct (toy_ok i) eqn:E; [intros ->; by apply toy_ok_iff|]. intros [= <- <- <-]. by split_and!.
  - intros w h d Hw Hh Hd Hl. exists (w, h, d). cbn -[toy_ok]. by rewrite (proj2 (toy_ok_iff w h d)).
  - intros w h d Hw Hh Hd Hl. exists (w, h, opaque d). cbn [rgb_from_raw to_rgba8 toy_library]. rewrite (proj2 (toy_ok_iff w h (opaque d))); [done|]. split_and!; try lia.
    + unfold opaque. assert (length d = 3 * Z.to_nat (w * h))%nat as Hn by nia.
      rewrite (bind_length _ 4) by (intros p Hp; pose proof (proj1 (Forall_forall _ _) (pixels_each 3 _ _ ltac:(lia) Hn) p Hp) as E; cbn beta in E; rewrite length_app, E; done).
      rewrite pixels_length, Hn, (Nat.mul_comm 3), Nat.div_mul by lia. nia.
    + apply part_bytes; [|done]. intros p Hp. apply Forall_app. by split; [|repeat constructor].
  - intros i bytes. cbn [write_to load_from_memory_with_format to_rgba8 toy_library]. intros [= <-]. eexists. split; [done|]. destruct (toy_ok i) eqn:E; [|done].
    by rewrite toy_write_load, E.
Qed.

(** Two pixels, one of them translucent. *)
Definition toy_png : list Z := to_le 4 2 ++ to_le 4 1 ++ [1; 2; 3; 255; 4; 5; 6; 128].
Lemma png_survives_clipboard_witness :
  exists dib dib5 j j5, png_to_dib toy_png = Ok dib /\ png_to_dibv5 toy_png = Ok dib5 /\
    dib_dimensions dib = Ok (2, 1) /\ dib_dimensions dib5 = Ok (2, 1) /\
    parse_dib_to_image dib = Ok j /\ to_rgba8 j = (2, 1, [1; 2; 3; 255; 4; 5; 6; 128]) /\ parse_dibv5_to_image dib5 = Ok j5 /\ to_rgba8 j5 = (2, 1, [1; 2; 3; 255; 4; 5; 6; 128]) /\
    forall back, dib_to_png dib = Ok back \/ dibv5_to_png dib5 = Ok back ->
      exists k, load_from_memory_with_format Png back = inr k /\ to_rgba8 k = (2, 1, [1; 2; 3; 255; 4; 5; 6; 128]).
Proof. by apply (png_survives_clipboard (H := toy_library) toy_png (2, 1, [1; 2; 3; 255; 4; 5; 6; 128]) 2 1). Defined.

(** A 24-bit picture of one column and two rows, from the bottom. *)
Definition toy_dib24 : list Z := to_le 4 40 ++ to_le 4 1 ++ to_le 4 2 ++ to_le 2 1 ++ to_le 2 24 ++ replicate 24 0 ++ [1; 2; 3; 0; 4; 5; 6; 0].
Lemma bitmaps_read_exactly_witness : exists i rgba, parse_dib_to_image toy_dib24 = Ok i /\ to_rgba8 i = (1, 2, rgba) /\
     (forall x y, 0 <= x < 1 -> 0 <= y < 2 -> pixel_at rgba 1 x y = reversed (take 3 (drop (Z.to_nat (source_row false 2 y * row_size24 1 + x * 3)) [1; 2; 3; 0; 4; 5; 6; 0])) ++ [255]) /\
     (40 = 124 -> parse_dibv5_to_image toy_dib24 = Ok i).
Proof.
  assert (Forall (fun b => is_byte b) toy_dib24) as Hb.
  { apply (Forall_impl (fun b => (0 <=? b) && (b <? 256) = true)); [|cbn; intros; bool_cases; lia]. by apply forallb_Forall_true. }
  assert (40 <= le_at 4 0 toy_dib24 < blen toy_dib24) as Hs by done.
  exact (proj2 (bitmaps_read_exactly (H := toy_library) toy_dib24 Hb eq_refl Hs) eq_refl eq_refl ltac:(done)).
Defined.

(** ** What goes wrong *)

(** A picture of 2^31 by 2^31 pixels has a size of zero bytes: it passes the size
    check with any data, and the loops over its pixels do not end in this world. *)
Lemma huge_picture_passes px : (blen px <? expected_size (2 ^ 31) (2 ^ 31)) = false.
Proof. change (expected_size (2 ^ 31) (2 ^ 31)) with 0. apply Z.ltb_ge. unfold blen. lia. Qed.
(** The row size of a wide 24-bit picture wraps around: four bytes stand for more
    than a thousand million pixels, for which memory is asked for. *)
Lemma wide_rows_wrap : row_size24 1431655766 = 4 /\ abs32 1431655766 = 1431655766.
Proof. done. Qed.
(** The masks that follow the header of a bitmap with bit fields are shown as its
    first pixels. *)
Lemma masks_shown_as_pixels pixel : length pixel = 4%nat ->
  let d := to_le 4 40 ++ to_le 4 1 ++ to_le 4 1 ++ to_le 2 1 ++ to_le 2 32 ++ to_le 4 3 ++ replicate 20 0 ++ ([0x00FF0000; 0x0000FF00; 0x000000FF] ≫= to_le 4) ++ pixel in
  exists i : DynamicImage, parse_dib_to_image d = Ok i /\ to_rgba8 i = (1, 1, [255; 0; 0; 0]).
Proof. destruct pixel as [|a [|b [|c [|e [|]]]]]; intros [=]. exists (1, 1, [255; 0; 0; 0]). split; by vm_compute. Qed.
(** The pixel offset of a BMP file is that of the shortest header, whatever the
    header it carries. *)
Lemma bmp_offset_fixed d bmp : dib_to_bmp d = Ok bmp -> le_at 4 10 bmp = 54.
Proof. unfold dib_to_bmp. destruct (_ <? _); [done|]. destruct (_ <? _); [done|]. by intros [= <-]. Qed.
