(* ===== verification/ClipIncoming.v ===== *)
(** * Files through the clipboard

    Models the file transfers of src/src/rdp/channels/clipboard/manager.rs:
    [FileTransferState], the download of the files a Windows clipboard offers
    (from the parsed descriptors on; ClipFiles.v has the parser) and the serving of
    local files.  Paths are byte lists.  The disk maps paths to contents; what may
    fail outside is asked of [Outside], whose answers may depend on everything
    that happened before.  Directories are not modelled. *)
From S2P Require Import Prelude Text Sanitize ClipBase ClipFiles.

(** The errors of the clipboard manager. *)
Module Failure.
(** [clipboard/error.rs:8-32 ClipboardError] *)
Inductive ClipboardError :=
| Core (e : ClipBase.ClipboardError) | PortalError (m : str) | InvalidState (m : str) | RdpConnectionError (m : str) | DBus (m : str)
| ChannelSend | ChannelReceive | LoopDetected | FileIoError (m : str) | NotInitialized | Unknown (m : str).
End Failure.

Abbreviation path := (list Z) (only parsing).

(** ** State *)

(** The open handle writes to the file at [temp_path].
    [manager.rs:279-290 IncomingFile] *)
Record IncomingFile := mkIncoming {
  final_path : path; total_size : option Z; awaiting_size : bool; received_size : Z; temp_path : path; file_index : Z; clip_data_id : Z;
}.
(** [manager.rs:309-312 OutgoingFile] *)
Record OutgoingFile := mkOutgoing { out_path : path; out_size : Z }.

(** [manager.rs:253-275 FileTransferState] *)
Record FileTransferState := mkTransfer {
  incoming_files : gmap Z IncomingFile;
  outgoing_files : list OutgoingFile;
  pending_descriptors : list FileDescriptor;
  download_dir : path;
  portal_serial : option Z;
  next_stream_id : Z;
  completed_files : list path;
}.
Definition with_incoming (v : gmap Z IncomingFile) (t : FileTransferState) : FileTransferState :=
  mkTransfer v (outgoing_files t) (pending_descriptors t) (download_dir t) (portal_serial t) (next_stream_id t) (completed_files t).
Definition with_outgoing (v : list OutgoingFile) (t : FileTransferState) : FileTransferState :=
  mkTransfer (incoming_files t) v (pending_descriptors t) (download_dir t) (portal_serial t) (next_stream_id t) (completed_files t).
Definition with_serial (v : option Z) (t : FileTransferState) : FileTransferState :=
  mkTransfer (incoming_files t) (outgoing_files t) (pending_descriptors t) (download_dir t) v (next_stream_id t) (completed_files t).
Definition with_next (v : Z) (t : FileTransferState) : FileTransferState :=
  mkTransfer (incoming_files t) (outgoing_files t) (pending_descriptors t) (download_dir t) (portal_serial t) v (completed_files t).
Definition with_completed (v : list path) (t : FileTransferState) : FileTransferState :=
  mkTransfer (incoming_files t) (outgoing_files t) (pending_descriptors t) (download_dir t) (portal_serial t) (next_stream_id t) v.
(** [manager.rs:376-381 set_pending_descriptors] *)
Definition set_pending_descriptors (v : list FileDescriptor) (t : FileTransferState) : FileTransferState :=
  mkTransfer (incoming_files t) (outgoing_files t) v (download_dir t) (portal_serial t) (next_stream_id t) (completed_files t).

(** [manager.rs:315-325 new] *)
Definition transfer_new (dir : path) : FileTransferState := mkTransfer ∅ [] [] dir None 1 [].
(** [manager.rs:372-374 clear_outgoing] *)
Definition clear_outgoing (t : FileTransferState) : FileTransferState := with_outgoing [] t.
(** [manager.rs:383-387 allocate_stream_id] *)
Definition allocate_stream_id (t : FileTransferState) : Z * FileTransferState := (next_stream_id t, with_next (wrap 32 (next_stream_id t + 1)) t).

(** What the manager does outside: to the disk, to the client, to the clipboard's
    owner on this side. *)
Inductive effect :=
| CreateDir | OpenNew (p : path) | WriteAll (p : path) (data : list Z) | Flush (p : path) | RemoveFile (p : path) | Rename (a b : path)
| RequestContents (stream index : Z) (size_only : bool) (position requested : Z)
| SendSize (stream size : Z) | SendContents (stream : Z) (data : list Z) | SendContentsError (stream : Z)
| Complete (serial : Z) (mime : str) (data : list Z) (success : bool)
| Announce (mimes : list str) | Provide (mime : str) (data : list Z) | ReadData (mime : str)
| InitiateCopy (formats : list ClipboardFormat) | InitiatePaste (format_id : Z) | FormatData (data : option (list Z)).

(** Whether the next effect fails, how much of a failed write is on the disk, and
    what the local clipboard holds. *)
Class Outside := { fails : list effect -> effect -> bool; written : list effect -> nat; reads : list effect -> str -> list Z }.

Record World := mkWorld { disk : gmap path (list Z); xfer : FileTransferState; log : list effect }.
Definition with_xfer (t : FileTransferState) (w : World) : World := mkWorld (disk w) t (log w).
Definition on_xfer (f : FileTransferState -> FileTransferState) (w : World) : World := with_xfer (f (xfer w)) w.

(** A new file is created, and a file renamed, only where nothing is. *)
Definition possible (e : effect) (d : gmap path (list Z)) : bool :=
  match e with
  | OpenNew p => negb (bool_decide (is_Some (d !! p)))
  | Rename a b => bool_decide (is_Some (d !! a)) && negb (bool_decide (is_Some (d !! b)))
  | RemoveFile p => bool_decide (is_Some (d !! p))
  | _ => true
  end.
Definition append (p : path) (data : list Z) (d : gmap path (list Z)) : gmap path (list Z) := alter (fun c => c ++ data) p d.
Definition apply (e : effect) (d : gmap path (list Z)) : gmap path (list Z) :=
  match e with
  | OpenNew p => <[p := []]> d
  | WriteAll p data => append p data d
  | RemoveFile p => delete p d
  | Rename a b => match d !! a with Some c => <[b := c]> (delete a d) | None => d end
  | _ => d
  end.

Definition comp (dir : path) (name : str) : path := dir ++ [SLASH] ++ as_bytes name.

(** The last dot of a name that does not begin with its only one.
    [Path::file_stem] and [Path::extension] *)
Definition stem_ext (name : str) : str * option str :=
  match rsplit_once DOT name with
  | Some (before, after) => if eqs before [] then (name, None) else (before, Some after)
  | None => (name, None)
  end.
(** [manager.rs:339-361 reserve_destination] *)
Definition suffixed (name : str) (index : Z) : str :=
  let '(stem, ext) := stem_ext name in
  let numbered := stem ++ lit " (" ++ fmt_dec index ++ lit ")" in
  match ext with Some e => numbered ++ [DOT] ++ e | None => numbered end.

(** [manager.rs:293-304 apply_size_response] *)
Definition apply_size_response (data : list Z) (f : IncomingFile) : outcome Failure.ClipboardError (Z * IncomingFile) :=
  if (length data =? 8)%nat then
    let size := of_le data in
    Ok (size, mkIncoming (final_path f) (Some size) false (received_size f) (temp_path f) (file_index f) (clip_data_id f))
  else Err (Failure.FileIoError (lit "invalid clipboard file size response: expected 8 bytes, got " ++ fmt_dec (Z.of_nat (length data)))).

(** At most 64 MiB are asked for at once.  [manager.rs:1560-1562 handle_rdp_data_response] *)
Definition CHUNK : Z := 67108864.

(** The URI list of the saved files, for the clipboard's owner: everything but the
    problematic characters as it is.  [manager.rs:2304-2314 FILE_URI_ENCODE] *)
Definition encoded_in_uri (b : Z) : bool :=
  (b <? 32) || (127 <=? b) || mem b [32; 34; 35; 37; 60; 62; 63; 96; 123; 125].
(** [manager.rs:2315-2327 handle_rdp_file_contents_response] *)
Definition file_uri (p : path) : str :=
  let encode component := as_bytes component ≫= fun b => if encoded_in_uri b then PERCENT :: fmt_hex02 b else [b] in
  lit "file://" ++ join [SLASH] (encode <$> split_on SLASH (from_utf8_lossy p)).
(** [manager.rs:2330-2330 handle_rdp_file_contents_response] *)
Definition uri_list (ps : list path) : list Z := as_bytes (lit "copy" ++ [LF] ++ join [LF] (file_uri <$> ps) ++ [0]).

(** ** Operations *)

Section operations.
Context `{Outside} (provider connected : bool).

(** An effect is attempted: whether it succeeded, and the disk after it. *)
Definition perform (e : effect) (w : World) : bool * World :=
  let ok := possible e (disk w) && negb (fails (log w) e) in
  let d := if ok then apply e (disk w)
           else match e with WriteAll p data => append p (take (written (log w)) data) (disk w) | _ => disk w end in
  (ok, mkWorld d (xfer w) (log w ++ [e])).

(** The owner of the local clipboard is answered, when there is one. *)
Definition complete (serial : Z) (mime : str) (data : list Z) (success : bool) (w : World) : World :=
  if provider then (perform (Complete serial mime data success) w).2 else w.

(** [manager.rs:363-370 destination_is_taken] *)
Definition destination_is_taken (candidate : path) (w : World) : bool :=
  bool_decide (is_Some (disk w !! candidate)) || bool_decide (candidate ∈ completed_files (xfer w))
  || existsb (fun f : Z * IncomingFile => bool_decide (final_path f.2 = candidate)) (map_to_list (incoming_files (xfer w))).

(** The names that can be taken: a free suffix is among one more than that, so the
    search is bounded by this number instead of 2^32, where the code would panic. *)
Definition taken_names (w : World) : nat := (size (disk w) + length (completed_files (xfer w)) + size (incoming_files (xfer w)))%nat.
(** [manager.rs:339-361 reserve_destination] *)
Definition reserve_destination (name : str) (w : World) : outcome Empty_set path :=
  let candidate := comp (download_dir (xfer w)) name in
  if negb (destination_is_taken candidate w) then Ok candidate
  else match list_find (fun i => destination_is_taken (comp (download_dir (xfer w)) (suffixed name (Z.of_nat i))) w = false) (seq 1 (S (taken_names w))) with
       | Some (_, i) => Ok (comp (download_dir (xfer w)) (suffixed name (Z.of_nat i)))
       | None => Panic
       end.

(** [manager.rs:327-337 clear_incoming] *)
Definition clear_incoming (w : World) : World :=
  let w' := fold_left (fun w (f : Z * IncomingFile) => (perform (RemoveFile (temp_path f.2)) w).2) (map_to_list (incoming_files (xfer w))) w in
  on_xfer (fun t => with_completed [] (with_serial None (with_incoming ∅ t))) w'.

(** The request a file waits for an answer to. *)
Definition request_for (stream : Z) (f : IncomingFile) : effect :=
  let index := if i32_max <? file_index f then i32_max else file_index f in
  match total_size f with
  | Some total => if awaiting_size f then RequestContents stream index true 0 8
                  else RequestContents stream index false (received_size f) (wrap 32 (Z.min (total - received_size f) CHUNK))
  | None => RequestContents stream index true 0 8
  end.

Definition clip_lock : Z := 1.
Definition temp_name (name : str) (stream : Z) : str := [DOT] ++ name ++ [DOT] ++ fmt_dec stream ++ lit ".tmp".

(** One offered file: a place for it, a temporary file, and the first request; a
    file that cannot be created is skipped.  [manager.rs:1509-1593 handle_rdp_data_response] *)
Definition begin_file (index : Z) (desc : FileDescriptor) (w : World) : outcome Empty_set World :=
  let '(stream, t) := allocate_stream_id (xfer w) in
  let w := with_xfer t w in
  let name := sanitize_filename_for_linux (fd_name desc) in
  final ← reserve_destination name w;
  let temp := comp (download_dir (xfer w)) (temp_name name stream) in
  let '(made, w) := perform CreateDir w in
  if negb made then Ok w
  else
    let '(opened, w) := perform (OpenNew temp) w in
    if negb opened then Ok w
    else
      let total := fd_size desc in
      let f := mkIncoming final total (bool_decide (total = None) || bool_decide (total = Some 0)) 0 temp (Z.min index u32_max) clip_lock in
      let w := on_xfer (fun t => with_incoming (<[stream := f]> (incoming_files t)) t) w in
      Ok (perform (request_for stream f) w).2.

Fixpoint begin_files (index : Z) (descs : list FileDescriptor) (w : World) : outcome Empty_set World :=
  match descs with
  | [] => Ok w
  | d :: descs => w ← begin_file index d w; begin_files (index + 1) descs w
  end.

(** The client's list of files arrives for a pending request of the local
    clipboard.  [manager.rs:1448-1604 handle_rdp_data_response] *)
Definition begin_transfer (serial : Z) (mime : str) (descs : list FileDescriptor) (w : World) : outcome Empty_set World :=
  if negb (bool_decide (incoming_files (xfer w) = ∅)) then Ok (complete serial mime [] false w)
  else if negb connected then Ok (complete serial mime [] false w)
  else
    let w := clear_incoming w in
    let w := on_xfer (fun t => with_serial (Some serial) (set_pending_descriptors descs t)) w in
    begin_files 0 descs w.

(** A failed stream ends the transfer for the local clipboard.
    [manager.rs:2180-2198 handle_rdp_file_contents_response] *)
Definition contents_error (stream : Z) (w : World) : World :=
  let w := match incoming_files (xfer w) !! stream with
           | Some f => (perform (RemoveFile (temp_path f)) (on_xfer (fun t => with_incoming (delete stream (incoming_files t)) t) w)).2
           | None => w
           end in
  match portal_serial (xfer w) with
  | Some serial => complete serial [] [] false (on_xfer (with_serial None) w)
  | None => w
  end.

(** The file is complete: it gets its name, and with the last one the local
    clipboard gets the list.  [manager.rs:2272-2374 handle_rdp_file_contents_response] *)
Definition finish_file (stream : Z) (f : IncomingFile) (w : World) : outcome Failure.ClipboardError unit * World :=
  let '(flushed, w) := perform (Flush (temp_path f)) w in
  if negb flushed then (Err (Failure.FileIoError (lit "Failed to flush file")), w)
  else
    let w := on_xfer (fun t => with_incoming (delete stream (incoming_files t)) (with_completed (completed_files t ++ [final_path f]) t)) w in
    let all_complete := bool_decide (incoming_files (xfer w) = ∅) in
    let '(named, w) := perform (Rename (temp_path f) (final_path f)) w in
    if negb named then (Err (Failure.FileIoError (lit "Failed to finalize file")), w)
    else if all_complete then
      let w := match portal_serial (xfer w) with
               | Some serial => complete serial (lit "x-special/gnome-copied-files") (uri_list (completed_files (xfer w))) true w
               | None => w
               end in
      (Ok tt, on_xfer (fun t => with_serial None (with_completed [] t)) w)
    else (Ok tt, w).

Definition update_file (stream : Z) (f : IncomingFile) : World -> World := on_xfer (fun t => with_incoming (<[stream := f]> (incoming_files t)) t).

(** The next request of an unfinished file, or its end.
    [manager.rs:2254-2410 handle_rdp_file_contents_response] *)
Definition continue_file (stream : Z) (f : IncomingFile) (w : World) : outcome Failure.ClipboardError unit * World :=
  match total_size f with
  | None => (Ok tt, w)
  | Some total =>
      if total <=? received_size f then finish_file stream f w
      else if connected then (Ok tt, (perform (request_for stream f) w).2)
      else (Ok tt, w)
  end.

(** [manager.rs:2172-2413 handle_rdp_file_contents_response] *)
Definition handle_rdp_file_contents_response (stream : Z) (data : list Z) (is_error : bool) (w : World) : outcome Failure.ClipboardError unit * World :=
  if is_error then (Ok tt, contents_error stream w)
  else match incoming_files (xfer w) !! stream with
  | None => (Ok tt, w)
  | Some f =>
      if awaiting_size f then
        match apply_size_response data f with
        | Err e => (Err e, w)
        | Panic => (Panic, w)
        | Ok (total, f) =>
            let w := update_file stream f w in
            if 0 <? total then
              if connected then
                let '(sent, w) := perform (request_for stream f) w in
                if sent then (Ok tt, w) else (Err (Failure.InvalidState (lit "failed to request clipboard file data")), w)
              else (Ok tt, w)
            else continue_file stream f w
        end
      else
        let '(stored, w) := perform (WriteAll (temp_path f) data) w in
        if negb stored then (Err (Failure.FileIoError (lit "File write failed")), w)
        else
          let f := mkIncoming (final_path f) (total_size f) (awaiting_size f) (wrap 64 (received_size f + Z.of_nat (length data))) (temp_path f) (file_index f) (clip_data_id f) in
          continue_file stream f (update_file stream f w)
  end.

(** [manager.rs:2150-2165 read_file_chunk] *)
Definition read_file_chunk (p : path) (offset size : Z) (w : World) : option (list Z) :=
  content ← disk w !! p;
  if i64_max <? offset then None else Some (take (Z.to_nat size) (drop (Z.to_nat offset) content)).

(** [manager.rs:2053-2147 handle_rdp_file_contents_request] *)
Definition handle_rdp_file_contents_request (stream index position requested : Z) (size_only : bool) (w : World) : outcome Failure.ClipboardError unit * World :=
  if negb connected then (Err Failure.NotInitialized, w)
  else match outgoing_files (xfer w) !! Z.to_nat index with
  | None => (Err (Failure.InvalidState (lit "File index " ++ fmt_dec index ++ lit " not found")), w)
  | Some f =>
      if size_only then (Ok tt, (perform (SendSize stream (out_size f)) w).2)
      else match read_file_chunk (out_path f) position requested w with
           | Some data => (Ok tt, (perform (SendContents stream data) w).2)
           | None => (Ok tt, (perform (SendContentsError stream) w).2)
           end
  end.
End operations.

(** ** Runs *)

(** What happens to the transfers: a list of files to fetch, an answer of the
    client, a request of the client, the connection's end. *)
Inductive label :=
| Begin (serial : Z) (mime : str) (descs : list FileDescriptor) | Contents (stream : Z) (data : list Z) (is_error : bool)
| Asked (stream index position requested : Z) (size_only : bool) | Reset.

Section runs.
Context `{Outside} (provider connected : bool).

(** A panic leaves the state behind. *)
Definition step (w : World) (l : label) : World :=
  match l with
  | Begin serial mime descs => match begin_transfer provider connected serial mime descs w with Ok w => w | _ => w end
  | Contents stream data is_error => (handle_rdp_file_contents_response provider connected stream data is_error w).2
  | Asked stream index position requested size_only => (handle_rdp_file_contents_request connected stream index position requested size_only w).2
  | Reset => clear_incoming w
  end.
Definition run (ls : list label) (w : World) : World := fold_left step ls w.

(** A plain name in the download directory. *)
Definition inside (dir p : path) : Prop :=
  exists name, p = comp dir name /\ name <> [] /\ name <> [DOT] /\ name <> [DOT; DOT] /\ Forall (fun c => c <> SLASH) name.
Definition confined (dir : path) (e : effect) : Prop :=
  match e with
  | OpenNew p | WriteAll p _ | Flush p | RemoveFile p => inside dir p
  | Rename a b => inside dir a /\ inside dir b
  | _ => True
  end.
(** An effect that can change nothing in [keep]. *)
Definition sparing (keep : gmap path (list Z)) (e : effect) : Prop :=
  match e with WriteAll p _ | RemoveFile p | Rename p _ => keep !! p = None | _ => True end.

Record tidy (dir : path) (keep : gmap path (list Z)) (w : World) : Prop := mkTidy {
  td_dir : download_dir (xfer w) = dir;
  td_log : Forall (confined dir) (log w);
  td_incoming : map_Forall (fun _ f => inside dir (temp_path f) /\ inside dir (final_path f) /\ keep !! temp_path f = None) (incoming_files (xfer w));
  td_keep : keep ⊆ disk w;
}.

Lemma append_keeps keep d p data : keep !! p = None -> keep ⊆ d -> keep ⊆ append p data d.
Proof.
  intros Hp Hk. apply map_subseteq_spec. intros q c Hq. unfold append. rewrite lookup_alter_ne; [by eapply lookup_weaken|]. intros ->. congruence.
Qed.
Lemma apply_keeps keep d e : possible e d = true -> sparing keep e -> keep ⊆ d -> keep ⊆ apply e d.
Proof.
  intros Hp Hs Hk. destruct e as [|p|p data|p|p|a b| | | | | | | | | | |]; cbn in *; try done.
  - apply negb_true_iff, bool_decide_eq_false in Hp. apply insert_subseteq_r; [|done]. destruct (keep !! p) as [c|] eqn:E; [|done].
    exfalso. apply Hp. exists c. by eapply lookup_weaken.
  - by apply append_keeps.
  - apply map_subseteq_spec. intros q c Hq. rewrite lookup_delete_ne by (intros ->; congruence). by eapply lookup_weaken.
  - apply andb_true_iff in Hp as [Ha Hb]. apply negb_true_iff, bool_decide_eq_false in Hb. destruct (d !! a) as [c|] eqn:Ea; [|done].
    apply map_subseteq_spec. intros q c' Hq. pose proof (lookup_weaken _ _ _ _ Hq Hk) as Hd.
    rewrite lookup_insert_ne by (intros ->; apply Hb; by exists c'). by rewrite lookup_delete_ne by (intros ->; congruence).
Qed.

Lemma perform_tidy dir keep e w : confined dir e -> sparing keep e -> tidy dir keep w -> tidy dir keep (perform e w).2.
Proof.
  intros Hc Hs [D L I K]. unfold perform. constructor; cbn [xfer log disk snd]; [done| |done|].
  - apply Forall_app. split; [done|]. by constructor.
  - destruct (possible e (disk w)) eqn:P; cbn [andb].
    + destruct (negb _); [by apply apply_keeps|]. destruct e; try done. by apply append_keeps.
    + by destruct e.
Qed.
Lemma complete_tidy dir keep serial mime data ok w : tidy dir keep w -> tidy dir keep (complete provider serial mime data ok w).
Proof. intros Ht. unfold complete. destruct provider; [|done]. by apply perform_tidy. Qed.
(** A change of the transfer state that keeps the directory and adds no file. *)
Lemma on_xfer_tidy dir keep f w : (forall t, download_dir (f t) = download_dir t /\ incoming_files (f t) ⊆ incoming_files t) -> tidy dir keep w -> tidy dir keep (on_xfer f w).
Proof.
  intros Hf [D L I K]. destruct (Hf (xfer w)) as [E S']. constructor; cbn [xfer log disk on_xfer with_xfer]; [congruence|done| |done].
  intros s g Hg. apply (I s). by eapply lookup_weaken.
Qed.

Lemma clear_incoming_tidy dir keep w : tidy dir keep w -> tidy dir keep (clear_incoming w).
Proof.
  intros Ht. unfold clear_incoming. apply on_xfer_tidy; [intros t; cbn; split; [done|]; apply map_empty_subseteq|].
  assert (Forall (fun f : Z * IncomingFile => inside dir (temp_path f.2) /\ keep !! temp_path f.2 = None) (map_to_list (incoming_files (xfer w)))) as Hl.
  { apply Forall_forall. intros [s f] Hf. apply elem_of_map_to_list in Hf. destruct (td_incoming _ _ _ Ht s f Hf) as (T & _ & N). done. }
  revert Hl. generalize (map_to_list (incoming_files (xfer w))) as fs. intros fs Hl. revert w Ht.
  induction Hl as [|[s f] fs [T N] Hl IH]; intros w Ht; [done|]. cbn [fold_left]. apply IH. by apply perform_tidy.
Qed.

(** *** Names *)

Lemma suffixed_plain name i : Forall (fun c => c <> SLASH) name -> 0 <= i -> let n := suffixed name i in
  n <> [] /\ n <> [DOT] /\ n <> [DOT; DOT] /\ Forall (fun c => c <> SLASH) n.
Proof.
  intros Hn Hi. cbn zeta. unfold suffixed, stem_ext. pose proof (rsplit_once_spec DOT name) as Hs.
  assert (Forall (fun c => c <> SLASH) (fmt_dec i)) as Hd.
  { eapply Forall_impl; [by apply fmt_dec_digits|]. intros c Hc ->. by vm_compute in Hc. }
  assert (forall stem tail, Forall (fun c => c <> SLASH) stem -> Forall (fun c => c <> SLASH) tail -> let n := (stem ++ lit " (" ++ fmt_dec i ++ lit ")") ++ tail in
    n <> [] /\ n <> [DOT] /\ n <> [DOT; DOT] /\ Forall (fun c => c <> SLASH) n) as Hgen.
  { intros stem tail H1' H2'. cbn zeta. assert (32 ∈ (stem ++ lit " (" ++ fmt_dec i ++ lit ")") ++ tail) as Hin by (rewrite !elem_of_app; left; right; left; left).
    split_and!; [intros E; rewrite E in Hin; set_solver..|]. repeat (apply Forall_app; split); try done; by repeat constructor. }
  destruct (rsplit_once DOT name) as [[a b]|].
  - destruct Hs as [-> _]. apply Forall_app in Hn as [Ha Hb]. apply Forall_cons in Hb as [_ Hb]. destruct (eqs a []).
    + specialize (Hgen (a ++ DOT :: b) []). rewrite app_nil_r in Hgen. apply Hgen; [|done]. apply Forall_app. split; [done|]. by constructor.
    + apply Hgen; [done|]. by constructor.
  - specialize (Hgen name []). rewrite app_nil_r in Hgen. by apply Hgen.
Qed.

Lemma name_plain f : let n := sanitize_filename_for_linux f in n <> [] /\ n <> [DOT] /\ n <> [DOT; DOT] /\ Forall (fun c => c <> SLASH) n.
Proof. destruct (linux_name_safe f) as (N1 & N2 & N3 & _ & Hf & _). split_and!; try done. eapply Forall_impl; [exact Hf|]. by intros c [? _]. Qed.

Lemma temp_plain f stream : 0 <= stream -> let n := temp_name (sanitize_filename_for_linux f) stream in n <> [] /\ n <> [DOT] /\ n <> [DOT; DOT] /\ Forall (fun c => c <> SLASH) n.
Proof.
  intros Hs. cbn zeta. destruct (name_plain f) as (_ & _ & _ & Hf). unfold temp_name. split_and!.
  1-3: intros E; apply (f_equal length) in E; rewrite !length_app in E; cbn [length lit] in E; vm_compute (length (lit ".tmp")) in E; lia.
  - assert (Forall (fun c => c <> SLASH) (fmt_dec stream)) as Hd.
    { eapply Forall_impl; [by apply fmt_dec_digits|]. intros c Hc ->. by vm_compute in Hc. }
    repeat (apply Forall_app; split); try done; by repeat constructor.
Qed.

Lemma reserve_inside name w p : (name <> [] /\ name <> [DOT] /\ name <> [DOT; DOT] /\ Forall (fun c => c <> SLASH) name) ->
  reserve_destination name w = Ok p -> inside (download_dir (xfer w)) p /\ destination_is_taken p w = false.
Proof.
  intros (N1 & N2 & N3 & Hf). unfold reserve_destination. destruct (destination_is_taken _ w) eqn:T; cbn [negb].
  - destruct (list_find _ _) as [[k i]|] eqn:E; [|done]. intros [= <-]. apply list_find_Some in E as (_ & Hi & _). split; [|done].
    destruct (suffixed_plain name (Z.of_nat i) Hf ltac:(lia)) as (M1 & M2 & M3 & M4). by eexists.
  - intros [= <-]. split; [|done]. by eexists.
Qed.

(** *** Confinement *)

Lemma perform_xfer e w : xfer (perform e w).2 = xfer w.
Proof. done. Qed.
Lemma complete_xfer serial mime data ok w : xfer (complete provider serial mime data ok w) = xfer w.
Proof. unfold complete. by destruct provider. Qed.

(** Stream numbers stay 32-bit words. *)
Definition streams_ok (w : World) : Prop := 0 <= next_stream_id (xfer w).

Lemma request_confined dir keep stream f : confined dir (request_for stream f) /\ sparing keep (request_for stream f).
Proof. unfold request_for. destruct (total_size f); [|done]. by destruct (awaiting_size f). Qed.

Lemma begin_file_tidy dir keep index desc w w' : tidy dir keep w -> streams_ok w -> begin_file index desc w = Ok w' -> tidy dir keep w' /\ streams_ok w'.
Proof.
  intros Ht Hs. unfold begin_file, allocate_stream_id. set (stream := next_stream_id (xfer w)). cbn [mbind].
  set (w0 := with_xfer (with_next _ (xfer w)) w). assert (tidy dir keep w0) as T0 by (apply (on_xfer_tidy dir keep (with_next _)); [by intros t|done]).
  assert (streams_ok w0) as S0 by (unfold streams_ok; cbn; apply wrap_bound; lia).
  set (name := sanitize_filename_for_linux (fd_name desc)). destruct (reserve_destination name w0) as [final|[]|] eqn:R; cbn [outcome_bind]; [|done].
  destruct (reserve_inside name w0 final (name_plain _) R) as [If _]. rewrite (td_dir _ _ _ T0) in If.
  destruct (perform CreateDir w0) as [made w1] eqn:P1. assert (tidy dir keep w1 /\ xfer w1 = xfer w0) as [T1 X1].
  { pose proof (perform_tidy dir keep CreateDir w0 I I T0) as T. rewrite P1 in T. split; [done|]. by injection P1 as _ <-. }
  destruct made; cbn [negb]; [|intros [= <-]; split; [done|]; unfold streams_ok; by rewrite X1].
  set (temp := comp (download_dir (xfer w1)) (temp_name name stream)).
  assert (temp = comp dir (temp_name name stream)) as Et by (unfold temp; by rewrite (td_dir _ _ _ T1)).
  assert (inside dir temp) as It by (rewrite Et; destruct (temp_plain (fd_name desc) stream Hs) as (M1 & M2 & M3 & M4); by eexists).
  assert (comp (download_dir (xfer w0)) (temp_name name stream) = temp) as -> by (unfold temp; by rewrite X1).
  destruct (perform (OpenNew temp) w1) as [opened w2] eqn:P2. assert (tidy dir keep w2 /\ xfer w2 = xfer w1) as [T2 X2].
  { pose proof (perform_tidy dir keep (OpenNew temp) w1 It I T1) as T. rewrite P2 in T. split; [done|]. by injection P2 as _ <-. }
  destruct opened; cbn [negb]; [|intros [= <-]; split; [done|]; unfold streams_ok; by rewrite X2, X1].
  assert (keep !! temp = None) as Kt.
  { injection P2 as Ho _. apply andb_true_iff in Ho as [Ho _]. cbn in Ho. apply negb_true_iff, bool_decide_eq_false in Ho.
    destruct (keep !! temp) as [c|] eqn:E; [|done]. exfalso. apply Ho. exists c. eapply lookup_weaken; [exact E|]. apply (td_keep _ _ _ T1). }
  intros Hw. cbv zeta in Hw. apply Ok_inj in Hw as <-. set (f := mkIncoming final _ _ _ temp _ _). destruct (request_confined dir keep stream f) as [Rc Rs]. split; [|unfold streams_ok; cbn; by rewrite X2, X1].
  apply perform_tidy; [done|done|]. destruct T2 as [D L In K]. constructor; cbn [xfer log disk on_xfer with_xfer with_incoming download_dir incoming_files]; try done.
  apply map_Forall_insert_2; [|done]. done.
Qed.

Lemma begin_files_tidy dir keep descs index w w' : tidy dir keep w -> streams_ok w -> begin_files index descs w = Ok w' -> tidy dir keep w' /\ streams_ok w'.
Proof.
  revert index w. induction descs as [|d descs IH]; intros index w Ht Hs; cbn [begin_files]; [by intros [= <-]|].
  destruct (begin_file index d w) as [w1|[]|] eqn:E; cbn [mbind outcome_bind]; [|done]. destruct (begin_file_tidy _ _ _ _ _ _ Ht Hs E). by apply IH.
Qed.

Lemma finish_tidy dir keep stream f w : tidy dir keep w -> inside dir (temp_path f) -> inside dir (final_path f) -> keep !! temp_path f = None ->
  tidy dir keep (finish_file provider stream f w).2.
Proof.
  intros Ht It If Kt. unfold finish_file. destruct (perform (Flush (temp_path f)) w) as [flushed w1] eqn:P1.
  assert (tidy dir keep w1) as T1 by (pose proof (perform_tidy dir keep (Flush (temp_path f)) w It I Ht) as T; by rewrite P1 in T).
  destruct flushed; cbn [negb]; [|done].
  set (w2 := on_xfer _ w1). assert (tidy dir keep w2) as T2 by (apply on_xfer_tidy; [intros t; cbn; split; [done|apply delete_subseteq]|done]).
  destruct (perform (Rename (temp_path f) (final_path f)) w2) as [named w3] eqn:P3.
  assert (tidy dir keep w3) as T3 by (pose proof (perform_tidy dir keep (Rename (temp_path f) (final_path f)) w2 (conj It If) Kt T2) as T; by rewrite P3 in T).
  destruct named; cbn [negb]; [|done]. destruct (bool_decide _); [|done]. cbn [snd]. apply on_xfer_tidy; [by intros t|].
  destruct (portal_serial (xfer w3)); [by apply complete_tidy|done].
Qed.

Lemma continue_tidy dir keep stream f w : tidy dir keep w -> inside dir (temp_path f) -> inside dir (final_path f) -> keep !! temp_path f = None ->
  tidy dir keep (continue_file provider connected stream f w).2.
Proof.
  intros Ht It If Kt. unfold continue_file. destruct (total_size f) as [total|] eqn:E; [|done]. destruct (_ <=? _); [by apply finish_tidy|].
  destruct connected; [|done]. destruct (request_confined dir keep stream f) as [Rc Rs]. by apply perform_tidy.
Qed.
Lemma update_tidy dir keep stream f w : tidy dir keep w -> inside dir (temp_path f) -> inside dir (final_path f) -> keep !! temp_path f = None ->
  tidy dir keep (update_file stream f w).
Proof.
  intros [D L In K] It If Kt. constructor; cbn [xfer log disk update_file on_xfer with_xfer with_incoming download_dir incoming_files]; try done. by apply map_Forall_insert_2.
Qed.

Lemma response_tidy dir keep stream data is_error w : tidy dir keep w -> tidy dir keep (handle_rdp_file_contents_response provider connected stream data is_error w).2.
Proof.
  intros Ht. unfold handle_rdp_file_contents_response. destruct is_error.
  - cbn [snd]. unfold contents_error. set (w1 := match incoming_files (xfer w) !! stream with Some _ => _ | None => w end).
    assert (tidy dir keep w1) as T1.
    { unfold w1. destruct (incoming_files (xfer w) !! stream) as [f|] eqn:E; [|done]. destruct (td_incoming _ _ _ Ht _ _ E) as (It & If & Kt).
      apply perform_tidy; [done|done|]. apply on_xfer_tidy; [intros t; cbn; split; [done|apply delete_subseteq]|done]. }
    destruct (portal_serial (xfer w1)); [|done]. apply complete_tidy. by apply on_xfer_tidy; [intros t|].
  - destruct (incoming_files (xfer w) !! stream) as [f|] eqn:E; [|done]. destruct (td_incoming _ _ _ Ht _ _ E) as (It & If & Kt). destruct (awaiting_size f).
    + unfold apply_size_response. destruct (length data =? 8)%nat; [|done]. set (g := mkIncoming _ _ _ _ _ _ _).
      assert (tidy dir keep (update_file stream g w)) as T1 by by apply update_tidy. destruct (0 <? of_le data); [|by apply continue_tidy].
      destruct connected; [|done]. destruct (request_confined dir keep stream g) as [Rc Rs]. destruct (perform (request_for stream g) (update_file stream g w)) as [sent w2] eqn:P.
      pose proof (perform_tidy dir keep (request_for stream g) (update_file stream g w) Rc Rs T1) as T2. rewrite P in T2. by destruct sent.
    + destruct (perform (WriteAll (temp_path f) data) w) as [stored w1] eqn:P. assert (tidy dir keep w1) as T1 by (pose proof (perform_tidy dir keep (WriteAll (temp_path f) data) w It Kt Ht) as T; by rewrite P in T).
      destruct stored; cbn [negb]; [|done]. apply continue_tidy; try done. by apply update_tidy.
Qed.

Lemma clear_incoming_streams w : next_stream_id (xfer (clear_incoming w)) = next_stream_id (xfer w) /\ incoming_files (xfer (clear_incoming w)) = ∅.
Proof.
  unfold clear_incoming. cbn [xfer on_xfer with_xfer with_completed with_serial with_incoming next_stream_id incoming_files]. split; [|done].
  generalize (map_to_list (incoming_files (xfer w))) as fs. intros fs. revert w. induction fs as [|f fs IH]; intros w; [done|]. cbn [fold_left]. by rewrite IH.
Qed.

Lemma response_streams stream data is_error w : next_stream_id (xfer (handle_rdp_file_contents_response provider connected stream data is_error w).2) = next_stream_id (xfer w).
Proof.
  assert (forall f w', next_stream_id (xfer (finish_file provider stream f w').2) = next_stream_id (xfer w')) as Hf.
  { intros f w'. unfold finish_file. cbn [perform fst snd]. destruct (_ && _); [|done]. cbn [negb]. destruct (possible _ _ && _); [|done]. cbn [negb].
    destruct (bool_decide _); [|done]. cbn [snd xfer on_xfer with_xfer next_stream_id with_serial with_completed]. destruct (portal_serial _); [|done]. by rewrite complete_xfer. }
  assert (forall f w', next_stream_id (xfer (continue_file provider connected stream f w').2) = next_stream_id (xfer w')) as Hc.
  { intros f w'. unfold continue_file. destruct (total_size f); [|done]. destruct (_ <=? _); [apply Hf|]. by destruct connected. }
  unfold handle_rdp_file_contents_response. destruct is_error.
  - cbn [snd]. unfold contents_error. destruct (incoming_files (xfer w) !! stream); cbn [perform snd xfer]; destruct (portal_serial _); rewrite ?complete_xfer; done.
  - destruct (incoming_files (xfer w) !! stream) as [f|]; [|done]. destruct (awaiting_size f).
    + destruct (apply_size_response data f) as [[total g]| |]; [|done..]. destruct (0 <? total); [|by rewrite Hc]. destruct connected; [|done]. cbn [perform fst snd]. by destruct (_ && _).
    + cbn [perform fst snd]. destruct (_ && _); [|done]. cbn [negb]. by rewrite Hc.
Qed.

Lemma step_tidy dir keep w l : tidy dir keep w -> streams_ok w -> tidy dir keep (step w l) /\ streams_ok (step w l).
Proof.
  intros Ht Hs. destruct l as [serial mime descs|stream data is_error|stream index position requested size_only|]; cbn [step].
  - unfold begin_transfer. destruct (negb _); [split; [by apply complete_tidy|unfold streams_ok; by rewrite complete_xfer]|].
    destruct (negb connected); [split; [by apply complete_tidy|unfold streams_ok; by rewrite complete_xfer]|].
    set (w1 := on_xfer _ (clear_incoming w)). assert (tidy dir keep w1) as T1 by (apply on_xfer_tidy; [by intros t|by apply clear_incoming_tidy]).
    assert (streams_ok w1) as S1 by (unfold streams_ok; change (0 <= next_stream_id (xfer (clear_incoming w))); by rewrite (proj1 (clear_incoming_streams w))).
    destruct (begin_files 0 descs w1) as [w2|[]|] eqn:E; [|done]. by eapply begin_files_tidy.
  - split; [by apply response_tidy|]. unfold streams_ok. by rewrite response_streams.
  - unfold handle_rdp_file_contents_request. destruct (negb connected); [done|]. destruct (outgoing_files (xfer w) !! Z.to_nat index) as [f|]; [|done].
    destruct size_only; [split; [by apply perform_tidy|done]|]. destruct (read_file_chunk _ _ _ _); split; by try apply perform_tidy.
  - split; [by apply clear_incoming_tidy|]. unfold streams_ok. by rewrite (proj1 (clear_incoming_streams w)).
Qed.

Lemma run_tidy dir keep ls w : tidy dir keep w -> streams_ok w -> tidy dir keep (run ls w) /\ streams_ok (run ls w).
Proof.
  revert w. induction ls as [|l ls IH]; intros w Ht Hs; [done|]. cbn [run fold_left]. destruct (step_tidy dir keep w l Ht Hs). by apply IH.
Qed.

Definition fresh_world (dir : path) (d : gmap path (list Z)) : World := mkWorld d (transfer_new dir) [].

(** C11. A client that sends files reaches nothing but plain new files in the
    download directory.  Whatever descriptors, names and answers it sends, in
    whatever order, and whatever fails on the way, every file the transfers
    create, write, rename or remove is directly in the download directory, under a
    name without separators that is not a directory entry of its own; and a file
    that is not a transfer's own temporary file, be it older or downloaded
    before, is never changed, replaced or removed. *)
Theorem incoming_files_confined dir d ls1 ls2 p c : let w1 := run ls1 (fresh_world dir d) in let w2 := run ls2 w1 in
  Forall (confined dir) (log w2) /\
  (disk w1 !! p = Some c -> map_Forall (fun _ f => temp_path f <> p) (incoming_files (xfer w1)) -> disk w2 !! p = Some c).
Proof.
  cbn zeta. destruct (run_tidy dir ∅ ls1 (fresh_world dir d)) as [T1 S1]; [|done|].
  { constructor; cbn; [done|done|apply map_Forall_empty|apply map_empty_subseteq]. }
  split; [by apply (td_log dir ∅), run_tidy|]. intros Hp Hn. destruct (run_tidy dir {[p := c]} ls2 (run ls1 (fresh_world dir d))) as [T2 _].
  - destruct T1 as [D L In K]. constructor; [done|done| |by apply map_singleton_subseteq_l].
    intros s f Hf. destruct (In s f Hf) as (It & If & _). split_and!; try done. apply lookup_singleton_ne. intros ->. by apply (Hn s f Hf).
  - done.
  - eapply lookup_weaken; [apply lookup_singleton_eq|apply (td_keep _ _ _ T2)].
Qed.

(** ** What failures leave behind *)

(** A file whose answer could not be written stays in the table, and while it
    stays every further list of files is refused. *)
Lemma failed_write_refuses_pastes stream data f w serial mime descs :
  incoming_files (xfer w) !! stream = Some f -> awaiting_size f = false -> fails (log w) (WriteAll (temp_path f) data) = true ->
  let w' := step w (Contents stream data false) in
  incoming_files (xfer w') = incoming_files (xfer w) /\ step w' (Begin serial mime descs) = complete provider serial mime [] false w'.
Proof.
  intros Hf Ha Hfail. cbn zeta. cbn [step handle_rdp_file_contents_response]. rewrite Hf, Ha. unfold perform. rewrite Hfail. cbn [possible negb andb snd].
  split; [done|]. unfold begin_transfer. rewrite bool_decide_eq_false_2; [done|]. cbn [xfer]. intros E. by rewrite E in Hf.
Qed.

(** An empty list of files leaves its request unanswered. *)
Lemma empty_list_unanswered serial mime w : connected = true -> incoming_files (xfer w) = ∅ ->
  let w' := step w (Begin serial mime []) in log w' = log w /\ portal_serial (xfer w') = Some serial /\ incoming_files (xfer w') = ∅.
Proof.
  intros Hc Hi. cbn zeta. cbn [step]. unfold begin_transfer. rewrite Hi, Hc, bool_decide_eq_true_2 by done. cbn [negb begin_files].
  unfold clear_incoming. rewrite Hi, map_to_list_empty. done.
Qed.

(** An empty answer is answered with the same request. *)
Lemma empty_answer_repeats stream f total w : connected = true -> incoming_files (xfer w) !! stream = Some f -> awaiting_size f = false -> total_size f = Some total ->
  0 <= received_size f < total -> total < 2 ^ 64 -> (forall es e, fails es e = false) ->
  let w' := step w (Contents stream [] false) in incoming_files (xfer w') = incoming_files (xfer w) /\ last (log w') = Some (request_for stream f).
Proof.
  intros Hc Hf Ha Ht Hr Hb Hok. cbn zeta. cbn [step handle_rdp_file_contents_response]. rewrite Hf, Ha.
  assert (forall e w, possible e (disk w) = true -> perform e w = (true, mkWorld (apply e (disk w)) (xfer w) (log w ++ [e]))) as P by (intros ? ? Hp; unfold perform; by rewrite Hp, Hok).
  rewrite P by done. cbn [negb length].
  set (g := mkIncoming _ _ _ _ _ _ _). assert (g = f) as -> by (unfold g; destruct f; cbn in *; subst; by rewrite Z.add_0_r, wrap_small by lia).
  unfold continue_file. rewrite Ht. destruct (total <=? received_size f) eqn:E; [bool_cases; lia|]. rewrite Hc. cbn [snd xfer log perform]. split; [|exact (last_snoc (request_for stream f) (log w ++ [WriteAll (temp_path f) []]))].
  cbn [update_file on_xfer with_xfer xfer with_incoming incoming_files]. by apply insert_id.
Qed.
End runs.

(** ** A run *)

Definition calm : Outside := {| fails := fun _ _ => false; written := fun _ => 0%nat; reads := fun _ _ => [] |}.
Definition dl : path := as_bytes (lit "/dl").
Definition offered (name : string) (size : option Z) : FileDescriptor := mkDescriptor 0 0 None None None size (lit name).
Definition at_dl (name : string) : path := comp dl (lit name).
(** Twice the same file, the second time with an unknown size. *)
Definition first_paste : list label := [Begin 7 (lit "text/uri-list") [offered "a.txt" (Some 2)]; Contents 1 [104; 105] false].
Definition second_paste : list label := [Begin 8 (lit "text/uri-list") [offered "a.txt" None]; Contents 2 [1; 0; 0; 0; 0; 0; 0; 0] false; Contents 2 [33] false].

Lemma incoming_files_confined_witness :
  let w1 := run (H := calm) true true first_paste (fresh_world dl ∅) in let w2 := run (H := calm) true true second_paste w1 in
  disk w1 !! at_dl "a.txt" = Some [104; 105] /\ disk w2 !! at_dl "a.txt" = Some [104; 105] /\ disk w2 !! at_dl "a (1).txt" = Some [33].
Proof.
  cbn zeta. split_and!; [by vm_compute| |by vm_compute].
  apply (incoming_files_confined (H := calm) true true dl ∅ first_paste second_paste (at_dl "a.txt") [104; 105]); [by vm_compute|].
  assert (incoming_files (xfer (run (H := calm) true true first_paste (fresh_world dl ∅))) = ∅) as -> by (by vm_compute). apply map_Forall_empty.
Defined.
