(* ===== verification/ClipDownload.v ===== *)
(** * A whole download

    A client that answers the requests of ClipIncoming.v, and nothing that fails:
    the offered files arrive.  The client's files are byte lists; it answers the
    last request of whatever stream it likes, in any order. *)
From S2P Require Import Prelude Text Sanitize ClipBase ClipFiles ClipIncoming.

#[local] Existing Instance calm.

(** ** The client *)

Section client.
Context (held : list (list Z)).

(** What a client that holds these files says to a request. *)
Definition answer (e : effect) : option label :=
  match e with
  | RequestContents stream index size_only position requested =>
      c ← held !! Z.to_nat index;
      Some (Contents stream (if size_only : bool then to_le 8 (Z.of_nat (length c)) else take (Z.to_nat requested) (drop (Z.to_nat position) c)) false)
  | _ => None
  end.
Definition asks (stream : Z) (e : effect) : bool := match e with RequestContents s _ _ _ _ => s =? stream | _ => false end.
Definition last_request (stream : Z) (es : list effect) : option effect := last (filter (fun e => asks stream e = true) es).
Definition reply (w : World) (stream : Z) : World :=
  match last_request stream (log w) ≫= answer with Some l => step true true w l | None => w end.
End client.

Definition is_completion (e : effect) : bool := match e with Complete _ _ _ _ => true | _ => false end.
Definition completions (es : list effect) : list effect := filter (fun e => is_completion e = true) es.

Lemma last_request_app s es es' : last_request s (es ++ es') = match last_request s es' with Some e => Some e | None => last_request s es end.
Proof. unfold last_request. rewrite filter_app, last_app. by destruct (last (filter _ es')). Qed.
Lemma completions_app es es' : completions (es ++ es') = completions es ++ completions es'.
Proof. apply filter_app. Qed.

(** The number of requests that fetch [n] bytes. *)
Definition pieces (n : Z) : Z := (n + (CHUNK - 1)) / CHUNK.
Lemma pieces_pos n : 0 < n -> 1 <= pieces n.
Proof. intros Hn. unfold pieces, CHUNK. apply Z.div_le_lower_bound; lia. Qed.
Lemma pieces_step n : 0 < n -> pieces (n - Z.min n CHUNK) <= pieces n - 1.
Proof.
  intros Hn. unfold pieces, CHUNK in *. destruct (Z.min_spec n 67108864) as [[? ->]|[? ->]].
  - rewrite Z.sub_diag. replace ((0 + (67108864 - 1)) / 67108864) with 0 by done. pose proof (Z.div_le_lower_bound (n + (67108864 - 1)) 67108864 1). lia.
  - replace (n + (67108864 - 1)) with ((n - 67108864 + (67108864 - 1)) + 1 * 67108864) by lia. rewrite Z.div_add by lia. lia.
Qed.
Lemma pieces_nonneg n : 0 <= n -> 0 <= pieces n.
Proof. intros. unfold pieces, CHUNK. apply Z.div_pos; lia. Qed.

Lemma pieces_mono m n : m <= n -> pieces m <= pieces n.
Proof. intros. unfold pieces, CHUNK. apply Z.div_le_mono; lia. Qed.

(** ** The transfers in progress *)

Record job := mkJob { j_stream : Z; j_temp : path; j_final : path; j_content : list Z; j_index : Z }.
#[global] Instance job_eq_dec : EqDecision job.
Proof. solve_decision. Defined.
Definition len (j : job) : Z := Z.of_nat (length (j_content j)).

Section jobs.
Context (held : list (list Z)) (jobs : list job) (serial : Z) (before : list effect).
Hypothesis jobs_once : NoDup jobs.
Hypothesis jobs_held : forall j, j ∈ jobs -> held !! Z.to_nat (j_index j) = Some (j_content j) /\ 0 <= j_index j <= i32_max /\ len j < 2 ^ 63.
Hypothesis same_stream : forall j j', j ∈ jobs -> j' ∈ jobs -> j_stream j = j_stream j' -> j = j'.
Hypothesis same_final : forall j j', j ∈ jobs -> j' ∈ jobs -> j_final j = j_final j' -> j = j'.
Hypothesis same_temp : forall j j', j ∈ jobs -> j' ∈ jobs -> j_temp j = j_temp j' -> j = j'.
Hypothesis temp_not_final : forall j j', j ∈ jobs -> j' ∈ jobs -> j_temp j <> j_final j'.

(** The file's entry, with its request on the way. *)
Record progress (j : job) (f : IncomingFile) (w : World) : Prop := mkProgress {
  pr_paths : final_path f = j_final j /\ temp_path f = j_temp j /\ file_index f = j_index j;
  pr_state : if awaiting_size f then received_size f = 0 else total_size f = Some (len j) /\ 0 <= received_size f < len j;
  pr_temp : disk w !! j_temp j = Some (take (Z.to_nat (received_size f)) (j_content j));
  pr_final : disk w !! j_final j = None;
  pr_request : last_request (j_stream j) (log w) = Some (request_for (j_stream j) f);
}.

(** The state of the transfers other than [except]. *)
Record going (except : option job) (w : World) : Prop := mkGoing {
  go_serial : portal_serial (xfer w) = Some serial;
  go_incoming s f : incoming_files (xfer w) !! s = Some f -> exists j, j ∈ jobs /\ j_stream j = s /\ (Some j = except \/ progress j f w);
  go_done j : j ∈ jobs -> incoming_files (xfer w) !! j_stream j = None -> Some j = except \/ (j_final j ∈ completed_files (xfer w) /\ disk w !! j_final j = Some (j_content j));
  go_completed p : p ∈ completed_files (xfer w) -> exists j, j ∈ jobs /\ j_final j = p /\ incoming_files (xfer w) !! j_stream j = None /\ Some j <> except;
  go_once : NoDup (completed_files (xfer w));
  go_quiet : completions (log w) = before;
}.

(** All files are saved and the local clipboard has the list. *)
Definition ended (w : World) : Prop :=
  incoming_files (xfer w) = ∅ /\ (forall j, j ∈ jobs -> disk w !! j_final j = Some (j_content j)) /\
  exists order, order ≡ₚ j_final <$> jobs /\ completions (log w) = before ++ [Complete serial (lit "x-special/gnome-copied-files") (uri_list order) true].
Definition state_ok (w : World) : Prop := (going None w /\ incoming_files (xfer w) <> ∅) \/ ended w.

(** Requests the file still takes. *)
Definition need (j : job) (w : World) : Z :=
  match incoming_files (xfer w) !! j_stream j with
  | Some f => if awaiting_size f then 1 + pieces (len j) else pieces (len j - received_size f)
  | None => 0
  end.


Lemma need_bound j f w : progress j f w -> incoming_files (xfer w) !! j_stream j = Some f -> need j w <= 1 + pieces (len j).
Proof.
  intros P Hf. unfold need. rewrite Hf. pose proof (pr_state _ _ _ P) as Hs. destruct (awaiting_size f); [done|]. pose proof (pieces_mono (len j - received_size f) (len j)). lia.
Qed.

(** *** The other transfers *)

Lemma going_frame j w w' : going (Some j) w -> j ∈ jobs ->
  portal_serial (xfer w') = portal_serial (xfer w) -> completed_files (xfer w') = completed_files (xfer w) ->
  (forall s, s <> j_stream j -> incoming_files (xfer w') !! s = incoming_files (xfer w) !! s) ->
  (forall p, p <> j_temp j -> p <> j_final j -> disk w' !! p = disk w !! p) ->
  (forall s, s <> j_stream j -> last_request s (log w') = last_request s (log w)) -> completions (log w') = completions (log w) ->
  going (Some j) w'.
Proof.
  intros [Hs Hi Hd Hc Ho Hq] Hj Es Ec Ei Ed El Eq.
  assert (forall k, k ∈ jobs -> Some k <> Some j -> j_stream k <> j_stream j /\ disk w' !! j_temp k = disk w !! j_temp k /\ disk w' !! j_final k = disk w !! j_final k) as Hk.
  { intros k Hk Hne. assert (k <> j) by (by intros ->). split_and!.
    - by intros E; apply same_stream in E.
    - apply Ed; [by intros E; apply same_temp in E|by apply temp_not_final].
    - apply Ed; [intros E; by apply (temp_not_final j k)|by intros E; apply same_final in E]. }
  constructor; [congruence| | | |congruence|congruence].
  - intros s f Hf. destruct (decide (s = j_stream j)) as [->|Hne]; [exists j; by split_and!; [..|left]|]. rewrite Ei in Hf by done.
    destruct (Hi _ _ Hf) as (k & Hk' & <- & [[= ->]|P]); [done|]. assert (Some k <> Some j) as Hkj by (by intros [= ->]).
    exists k. split_and!; [done..|]. right. destruct (Hk k Hk' Hkj) as (_ & Et & Ef). destruct P as [P1 P2 P3 P4 P5]. constructor; [done|done|congruence|congruence|by rewrite El].
  - intros k Hk' Hn. destruct (decide (k = j)) as [->|Hne]; [by left|]. assert (Some k <> Some j) as Hkj by (by intros [= ->]).
    destruct (Hk k Hk' Hkj) as (Hst & Et & Ef). rewrite Ei in Hn by done. destruct (Hd k Hk' Hn) as [|[H1 H2]]; [done|]. right. by rewrite Ec, Ef.
  - intros p. rewrite Ec. intros Hp. destruct (Hc p Hp) as (k & Hk' & Ek & Hn & Hne). destruct (Hk k Hk' Hne) as (Hst & _ & _). exists k. by rewrite Ei.
Qed.

Lemma going_open j f w : going None w -> incoming_files (xfer w) !! j_stream j = Some f -> going (Some j) w.
Proof.
  intros [Hs Hi Hd Hc Ho Hq] Hf. constructor; try done.
  - intros s g Hg. destruct (Hi s g Hg) as (k & ? & ? & [|]); [done|]. exists k. by split_and!; [..|right].
  - intros k Hk Hn. destruct (Hd k Hk Hn) as [|]; [done|by right].
  - intros p Hp. destruct (Hc p Hp) as (k & ? & ? & Hn & _). exists k. split_and!; [done..|]. intros [= ->]. congruence.
Qed.
Lemma going_close j f w : j ∈ jobs -> going (Some j) w -> incoming_files (xfer w) !! j_stream j = Some f -> progress j f w -> going None w.
Proof.
  intros Hj [Hs Hi Hd Hc Ho Hq] Hf Hp. constructor; try done.
  - intros s g Hg. destruct (Hi s g Hg) as (k & Hk & <- & [[= ->]|P]); [|exists k; by split_and!; [..|right]].
    exists j. split_and!; [done..|]. right. by replace g with f by congruence.
  - intros k Hk Hn. destruct (Hd k Hk Hn) as [[= ->]|]; [congruence|by right].
  - intros p Hp'. destruct (Hc p Hp') as (k & ? & ? & Hn & _). by exists k.
Qed.
Lemma going_once j w : j ∈ jobs -> going (Some j) w -> NoDup (completed_files (xfer w) ++ [j_final j]).
Proof.
  intros Hj [_ _ _ Hc Ho _]. apply NoDup_app. split_and!; [done| |apply NoDup_singleton]. intros p Hp ->%list_elem_of_singleton.
  destruct (Hc _ Hp) as (k & Hk & Ek & _ & Hne). apply same_final in Ek; [|done..]. congruence.
Qed.

(** *** One file *)

Lemma perform_ok e w : possible e (disk w) = true -> perform e w = (true, mkWorld (apply e (disk w)) (xfer w) (log w ++ [e])).
Proof. intros Hp. unfold perform. by rewrite Hp. Qed.

Lemma finish_ok j f w : j ∈ jobs -> going (Some j) w -> incoming_files (xfer w) !! j_stream j = Some f ->
  final_path f = j_final j -> temp_path f = j_temp j -> disk w !! j_temp j = Some (j_content j) -> disk w !! j_final j = None ->
  let w' := (finish_file true (j_stream j) f w).2 in state_ok w' /\ incoming_files (xfer w') = delete (j_stream j) (incoming_files (xfer w)).
Proof.
  intros Hj Hg Hf Ef Et Ht Hn. cbn zeta. unfold finish_file. rewrite perform_ok by done. cbn [negb].
  set (w1 := on_xfer _ _). rewrite (perform_ok (Rename (temp_path f) (final_path f)) w1); swap 1 2.
  { cbn [possible]. change (disk w1) with (disk w). by rewrite Ef, Et, Ht, Hn. }
  cbn [negb]. change (incoming_files (xfer w1)) with (delete (j_stream j) (incoming_files (xfer w))).
  change (disk w1) with (disk w). change (log w1) with (log w ++ [Flush (temp_path f)]). rewrite Ef, Et. cbn [apply]. rewrite Ht.
  set (d := <[j_final j := j_content j]> _). set (es := (log w ++ _) ++ _).
  assert (j_temp j <> j_final j) as Hne by (by apply temp_not_final).
  assert (going (Some j) (mkWorld d (with_incoming (delete (j_stream j) (incoming_files (xfer w))) (xfer w)) es)) as G.
  { apply (going_frame j w); cbn [xfer disk log with_incoming portal_serial completed_files incoming_files]; try done.
    - intros s Hs. by rewrite lookup_delete_ne.
    - intros p Hp Hq. unfold d. by rewrite lookup_insert_ne, lookup_delete_ne.
    - intros s _. unfold es. by rewrite !last_request_app.
    - unfold es. by rewrite !completions_app, !app_nil_r. }
  pose proof (going_once j _ Hj G) as Ho. cbn [xfer with_incoming completed_files] in Ho. destruct G as [Gs Gi Gd Gc _ Gq]. cbn [xfer disk log with_incoming portal_serial completed_files incoming_files] in *.
  assert (d !! j_final j = Some (j_content j)) as Hd by apply lookup_insert_eq.
  destruct (bool_decide _) eqn:E; [apply bool_decide_eq_true in E|apply bool_decide_eq_false in E]; cbn [fst snd].
  - cbn [xfer portal_serial w1 on_xfer with_xfer with_completed with_incoming]. rewrite Gs. split; [right|by cbn [xfer on_xfer with_xfer with_serial with_completed incoming_files]; rewrite complete_xfer].
    split_and!.
    + exact E.
    + intros k Hk. cbn [disk on_xfer with_xfer complete perform snd possible negb andb apply]. destruct (Gd k Hk) as [[= ->]|[_ H]]; [by rewrite E|done..].
    + exists (completed_files (xfer w) ++ [j_final j]). split.
      * apply NoDup_Permutation; [done|by apply NoDup_fmap_2_strong; [intros x y Hx Hy; by apply same_final|]|]. intros p. rewrite list_elem_of_fmap, elem_of_app, list_elem_of_singleton. split.
        -- intros [Hp| ->]; [|by exists j]. destruct (Gc p Hp) as (k & ? & ? & _). by exists k.
        -- intros (k & -> & Hk). destruct (Gd k Hk) as [[= ->]|[H _]]; [by rewrite E|by right|by left].
      * cbn [log on_xfer with_xfer complete perform snd]. rewrite completions_app, Gq. cbn [xfer completed_files with_incoming with_completed]. by rewrite Ef.
  - split; [left|done]. split; [|done]. constructor; cbn [xfer disk log w1 on_xfer with_xfer with_completed with_incoming portal_serial completed_files incoming_files]; rewrite ?Ef; try done.
    + intros s g Hs. destruct (Gi s g Hs) as (k & Hk & <- & [[= ->]|P]); [by rewrite lookup_delete_eq in Hs|]. exists k. split_and!; [done..|right].
      by destruct P.
    + intros k Hk Hn'. right. destruct (Gd k Hk Hn') as [[= ->]|[H1 H2]]; rewrite elem_of_app, list_elem_of_singleton; by eauto.
    + intros p. rewrite elem_of_app, list_elem_of_singleton. intros [Hp| ->]; [destruct (Gc p Hp) as (k & ? & ? & ? & _); by exists k|]. exists j. by rewrite lookup_delete_eq.
Qed.

(** The requests of a file of the list. *)
Lemma request_shape s f : 0 <= file_index f <= i32_max -> request_for s f =
  match total_size f with
  | Some total => if awaiting_size f then RequestContents s (file_index f) true 0 8
                  else RequestContents s (file_index f) false (received_size f) (wrap 32 (Z.min (total - received_size f) CHUNK))
  | None => RequestContents s (file_index f) true 0 8
  end.
Proof. intros Hf. unfold request_for. destruct (i32_max <? file_index f) eqn:E; [bool_cases; lia|done]. Qed.
Lemma request_asks s f : asks s (request_for s f) = true /\ (forall t, t <> s -> asks t (request_for s f) = false) /\ is_completion (request_for s f) = false.
Proof. unfold request_for, asks. destruct (total_size f); [destruct (awaiting_size f)|]; (split_and!; [lia|intros; lia|done]). Qed.
Lemma last_request_snoc s e es : last_request s (es ++ [e]) = if asks s e then Some e else last_request s es.
Proof. rewrite last_request_app. unfold last_request. rewrite filter_cons, filter_nil. by destruct (asks s e). Qed.
Lemma completions_snoc e es : completions (es ++ [e]) = if is_completion e then completions es ++ [e] else completions es.
Proof. rewrite completions_app. unfold completions at 2. rewrite filter_cons, filter_nil. destruct (is_completion e); [done|]. apply app_nil_r. Qed.

Lemma continue_ok j f w : j ∈ jobs -> going (Some j) w -> incoming_files (xfer w) !! j_stream j = Some f ->
  final_path f = j_final j /\ temp_path f = j_temp j /\ file_index f = j_index j -> awaiting_size f = false -> total_size f = Some (len j) ->
  0 <= received_size f <= len j -> disk w !! j_temp j = Some (take (Z.to_nat (received_size f)) (j_content j)) -> disk w !! j_final j = None ->
  let w' := (continue_file true true (j_stream j) f w).2 in
  state_ok w' /\ incoming_files (xfer w') = if len j <=? received_size f then delete (j_stream j) (incoming_files (xfer w)) else incoming_files (xfer w).
Proof.
  intros Hj Hg Hf (Ef & Et & Ei) Ha Htot Hr Ht Hn. cbn zeta. unfold continue_file. rewrite Htot. destruct (len j <=? received_size f) eqn:E; bool_cases.
  - apply finish_ok; try done. rewrite Ht. f_equal. apply take_ge. unfold len in *. lia.
  - rewrite perform_ok by (unfold request_for; by rewrite Htot, Ha). cbn [fst snd xfer]. split; [left|done]. split; [|intros Em; change (incoming_files (xfer w) = ∅) in Em; by rewrite Em in Hf].
    assert (disk w = apply (request_for (j_stream j) f) (disk w)) as <- by (unfold request_for; by rewrite Htot, Ha).
    destruct (request_asks (j_stream j) f) as (A1 & A2 & A3). apply (going_close j f); cbn [xfer disk log]; try done.
    + apply (going_frame j w); cbn [xfer disk log]; try done; [|by rewrite completions_snoc, A3]. intros s Hs. by rewrite last_request_snoc, A2.
    + constructor; cbn [disk log]; try done; [rewrite Ha; split; [done|lia]|by rewrite last_request_snoc, A1].
Qed.

Definition sized (n : Z) (f : IncomingFile) : IncomingFile :=
  mkIncoming (final_path f) (Some n) false (received_size f) (temp_path f) (file_index f) (clip_data_id f).
Definition grown (n : Z) (f : IncomingFile) : IncomingFile :=
  mkIncoming (final_path f) (total_size f) (awaiting_size f) (wrap 64 (received_size f + n)) (temp_path f) (file_index f) (clip_data_id f).
Lemma size_answer s n f w : incoming_files (xfer w) !! s = Some f -> awaiting_size f = true -> received_size f = 0 -> 0 <= n < 2 ^ 64 ->
  step true true w (Contents s (to_le 8 n) false) = (continue_file true true s (sized n f) (update_file s (sized n f) w)).2.
Proof.
  intros Hf Ha Hr Hn. cbn [step handle_rdp_file_contents_response]. rewrite Hf, Ha. unfold apply_size_response. rewrite length_to_le. cbn [Nat.eqb].
  rewrite of_to_le by done. fold (sized n f). destruct (0 <? n) eqn:E; [|done]. unfold continue_file. cbn [total_size sized received_size]. rewrite Hr.
  assert (n <=? 0 = false) as -> by (bool_cases; lia). set (e := request_for s _). by rewrite (perform_ok e).
Qed.
Lemma data_answer s data f w : incoming_files (xfer w) !! s = Some f -> awaiting_size f = false ->
  step true true w (Contents s data false) = (continue_file true true s (grown (Z.of_nat (length data)) f)
    (update_file s (grown (Z.of_nat (length data)) f) (mkWorld (append (temp_path f) data (disk w)) (xfer w) (log w ++ [WriteAll (temp_path f) data])))).2.
Proof. intros Hf Ha. cbn [step handle_rdp_file_contents_response]. unfold grown. by rewrite Hf, Ha, perform_ok. Qed.

Lemma need_same k w w' : incoming_files (xfer w') !! j_stream k = incoming_files (xfer w) !! j_stream k -> need k w' = need k w.
Proof. intros E. unfold need. by rewrite E. Qed.

Lemma reply_ok j f w : going None w -> j ∈ jobs -> incoming_files (xfer w) !! j_stream j = Some f ->
  let w' := reply held w (j_stream j) in
  state_ok w' /\ need j w' <= need j w - 1 /\ forall k, k ∈ jobs -> k <> j -> need k w' = need k w.
Proof.
  intros Hg Hj Hf. cbn zeta. destruct (jobs_held j Hj) as (Hheld & Hi & Hlen). assert (0 <= len j) by (unfold len; lia).
  destruct (go_incoming _ _ Hg _ _ Hf) as (j' & Hj' & Es & [[=]|[(Ef & Et & Ei) Hst Ht Hn Hreq]]). apply same_stream in Es as ->; [|done..].
  unfold reply. rewrite Hreq, request_shape by (by rewrite Ei). cbn [mbind option_bind]. rewrite Ei.
  assert (forall g w1, going (Some j) w1 -> incoming_files (xfer w1) = <[j_stream j := g]> (incoming_files (xfer w)) -> final_path g = j_final j /\ temp_path g = j_temp j /\ file_index g = j_index j ->
    awaiting_size g = false -> total_size g = Some (len j) -> 0 <= received_size g <= len j -> disk w1 !! j_temp j = Some (take (Z.to_nat (received_size g)) (j_content j)) -> disk w1 !! j_final j = None ->
    pieces (len j - received_size g) <= need j w - 1 ->
    state_ok (continue_file true true (j_stream j) g w1).2 /\ need j (continue_file true true (j_stream j) g w1).2 <= need j w - 1 /\ forall k, k ∈ jobs -> k <> j -> need k (continue_file true true (j_stream j) g w1).2 = need k w) as Hend.
  { intros g w1 Hg1 Hi1 Hp1 Ha1 Ht1 Hr1 Hd1 Hf1 Hm. destruct (continue_ok j g w1 Hj Hg1) as [S1 S2]; try done; [by rewrite Hi1, lookup_insert_eq|]. rewrite Hi1 in S2.
    split; [done|]. split.
    - unfold need at 1. rewrite S2. pose proof (pieces_nonneg (len j - received_size g)). destruct (_ <=? _); [rewrite lookup_delete_eq; lia|]. by rewrite lookup_insert_eq, Ha1.
    - intros k Hk Hne. apply need_same. rewrite S2. assert (j_stream j <> j_stream k) by (by intros E; apply same_stream in E). destruct (_ <=? _); by rewrite ?lookup_delete_ne, lookup_insert_ne. }
  assert (need j w = if awaiting_size f then 1 + pieces (len j) else pieces (len j - received_size f)) as Hneed by (unfold need; by rewrite Hf).
  destruct (awaiting_size f) eqn:Ha.
  - replace (match total_size f with Some _ => _ | None => _ end) with (RequestContents (j_stream j) (j_index j) true 0 8) by (by destruct (total_size f)).
    cbn [answer mbind option_bind]. rewrite Hheld. cbn [mbind option_bind]. rewrite (size_answer _ _ f w) by (done || unfold len in *; lia).
    apply Hend; cbn [sized final_path temp_path file_index awaiting_size total_size received_size]; rewrite ?Hneed, ?Hst, ?Z.sub_0_r; try done; try lia; [|by rewrite Hst in Ht].
    apply (going_frame j w); try done; [by apply (going_open j f)|]. intros s Hs. cbn [xfer update_file on_xfer with_xfer with_incoming incoming_files]. by rewrite lookup_insert_ne.
  - destruct Hst as [Htot Hr]. rewrite Htot. cbn [answer mbind option_bind]. rewrite Hheld. cbn [mbind option_bind].
    set (n := wrap 32 _). assert (n = Z.min (len j - received_size f) CHUNK) as En by (unfold n; apply wrap_small; unfold CHUNK; lia).
    clearbody n. set (data := take _ _). assert (Z.of_nat (length data) = n) as Ed by (unfold data; rewrite length_take, length_drop, En; unfold len, CHUNK in *; lia).
    rewrite (data_answer _ _ f w) by done. rewrite Ed. assert (wrap 64 (received_size f + n) = received_size f + n) as Ew by (apply wrap_small; change (2 ^ 63) with 9223372036854775808 in Hlen; change (2 ^ 64) with 18446744073709551616; unfold CHUNK in *; lia).
    apply Hend; cbn [grown final_path temp_path file_index awaiting_size total_size received_size]; rewrite ?Ew; try done.
    + apply (going_frame j w); try done; [by apply (going_open j f)| | | |].
      * intros s Hs. cbn [xfer update_file on_xfer with_xfer with_incoming incoming_files]. by rewrite lookup_insert_ne.
      * intros p Hp _. cbn [disk update_file on_xfer with_xfer]. unfold append. by rewrite lookup_alter_ne by congruence.
      * intros s _. cbn [log update_file on_xfer with_xfer]. by rewrite last_request_snoc.
      * cbn [log update_file on_xfer with_xfer]. by rewrite completions_snoc.
    + unfold CHUNK in *. lia.
    + cbn [disk update_file on_xfer with_xfer]. unfold append. rewrite Et, lookup_alter_eq, Ht. cbn [fmap option_fmap option_map]. f_equal.
      unfold data. rewrite take_take_drop. f_equal. unfold CHUNK in *. lia.
    + cbn [disk update_file on_xfer with_xfer]. unfold append. rewrite lookup_alter_ne; [done|]. rewrite Et. by apply temp_not_final.
    + rewrite Hneed, Z.sub_add_distr, En. apply pieces_step. lia.
Qed.

(** *** All of them *)

Lemma reply_idle s w : incoming_files (xfer w) !! s = None -> reply held w s = w.
Proof.
  intros Hn. unfold reply. destruct (last_request s (log w)) as [e|] eqn:E; cbn [mbind option_bind]; [|done].
  assert (asks s e = true) as Ha.
  { unfold last_request in E. apply last_Some_elem_of, list_elem_of_filter in E. apply E. }
  destruct e; try done. cbn [asks] in Ha. bool_cases. subst s. cbn [answer]. destruct (held !! _); cbn [mbind option_bind]; [|done].
  cbn [step handle_rdp_file_contents_response]. by rewrite Hn.
Qed.

Definition turns (s : Z) (ss : list Z) : Z := Z.of_nat (length (filter (fun t => t = s) ss)).

Lemma need_pos j f w : going None w -> j ∈ jobs -> incoming_files (xfer w) !! j_stream j = Some f -> 1 <= need j w.
Proof.
  intros Hg Hj Hf. destruct (go_incoming _ _ Hg _ _ Hf) as (k & Hk & Es & [[=]|P]). apply same_stream in Es as ->; [|done..].
  unfold need. rewrite Hf. pose proof (pr_state _ _ _ P) as Hs. destruct (awaiting_size f).
  - pose proof (pieces_nonneg (len j)). unfold len in *. lia.
  - apply pieces_pos. lia.
Qed.

Lemma replies_ok ss w : state_ok w -> (forall j, j ∈ jobs -> need j w <= turns (j_stream j) ss) -> ended (fold_left (reply held) ss w).
Proof.
  revert w. induction ss as [|s ss IH]; intros w Hs Hn; cbn [fold_left].
  - destruct Hs as [[Hg He]|]; [|done]. exfalso. apply map_choose in He as (s & f & Hf).
    destruct (go_incoming _ _ Hg _ _ Hf) as (j & Hj & <- & _). pose proof (need_pos j f w Hg Hj Hf). specialize (Hn j Hj). by unfold turns in Hn; cbn in Hn; lia.
  - assert (forall j, turns (j_stream j) (s :: ss) = turns (j_stream j) ss + (if bool_decide (s = j_stream j) then 1 else 0)) as Ht.
    { intros j. unfold turns. rewrite filter_cons. case_bool_decide; case_decide; try done; cbn [length]; lia. }
    destruct (incoming_files (xfer w) !! s) as [f|] eqn:Hf.
    + destruct Hs as [[Hg He]|He]; [|destruct He as (He & _); by rewrite He in Hf].
      destruct (go_incoming _ _ Hg _ _ Hf) as (j & Hj & <- & _). destruct (reply_ok j f w Hg Hj Hf) as (S1 & S2 & S3). apply IH; [done|].
      intros k Hk. specialize (Hn k Hk). rewrite Ht in Hn. destruct (decide (k = j)) as [->|Hne].
      * rewrite bool_decide_eq_true_2 in Hn by done. lia.
      * rewrite S3 by done. rewrite bool_decide_eq_false_2 in Hn; [lia|]. intros E. by apply same_stream in E.
    + rewrite reply_idle by done. apply IH; [done|]. intros j Hj. specialize (Hn j Hj). rewrite Ht in Hn. case_bool_decide as E; [|lia].
      unfold need in *. rewrite <- E, Hf. unfold turns. lia.
Qed.
End jobs.

(** ** Names of the files of a list *)

Lemma utf8_head c : head (utf8_char c) = Some DOT -> c = DOT.
Proof. unfold utf8_char, DOT. repeat case_match; cbn; intros [= E]; bool_cases; try done; Z.div_mod_to_equations; lia. Qed.
Lemma comp_head dir n m : comp dir (DOT :: n) = comp dir m -> head m = Some DOT.
Proof.
  intros E. unfold comp in E. apply app_inv_head, app_inv_head in E. rewrite as_bytes_cons in E. cbn in E. destruct m as [|c m]; [done|].
  rewrite as_bytes_cons in E. cbn [head]. f_equal. apply utf8_head. destruct (utf8_char c) as [|b bs] eqn:Ec; [pose proof (utf8_char_length c); rewrite Ec in *; cbn in *; lia|].
  cbn [head]. by injection E as <- _.
Qed.
Lemma after_last c (a b d d' : list Z) : c ∉ d -> c ∉ d' -> a ++ c :: d = b ++ c :: d' -> d = d'.
Proof.
  intros Hd Hd'. revert b. induction a as [|x a IH]; intros [|y b]; cbn; intros E.
  - by injection E.
  - exfalso. apply Hd. injection E as _ ->. apply elem_of_app. right. left.
  - exfalso. apply Hd'. injection E as _ <-. apply elem_of_app. right. left.
  - injection E as _ E. by eapply IH.
Qed.
Lemma fmt_dec_inj i j : 0 <= i <= u64_max -> 0 <= j <= u64_max -> fmt_dec i = fmt_dec j -> i = j.
Proof. intros Hi Hj E. assert (Some i = Some j) as [= ->]; [|done]. rewrite <- (parse_fmt_dec u64_max i), <- (parse_fmt_dec u64_max j); (done || by rewrite E). Qed.
Lemma fmt_dec_ascii i : 0 <= i -> as_bytes (fmt_dec i) = fmt_dec i /\ DOT ∉ fmt_dec i.
Proof.
  intros Hi. pose proof (fmt_dec_digits i Hi) as Hd. split.
  - apply as_bytes_ascii, forallb_forall. intros c Hc%list_elem_of_In. apply (proj1 (Forall_forall _ _) Hd) in Hc. unfold is_ascii_digit, is_ascii in *. bool_cases. lia.
  - intros Hin. apply (proj1 (Forall_forall _ _) Hd) in Hin. by vm_compute in Hin.
Qed.
Lemma temp_inj dir n m s t : 0 <= s <= u64_max -> 0 <= t <= u64_max -> comp dir (temp_name n s) = comp dir (temp_name m t) -> s = t.
Proof.
  intros Hs Ht E. unfold comp in E. apply app_inv_head, app_inv_head in E. unfold temp_name in E. rewrite !as_bytes_app in E.
  destruct (fmt_dec_ascii s) as [Es Ds]; [lia|]. destruct (fmt_dec_ascii t) as [Et Dt]; [lia|].
  rewrite Es, Et, !app_assoc in E. apply app_inv_tail in E. rewrite <- !app_assoc in E. apply app_inv_head in E. apply after_last in E; [|done..].
  by apply fmt_dec_inj.
Qed.
Lemma suffixed_inj dir n i j : 0 <= i <= u64_max -> 0 <= j <= u64_max -> comp dir (suffixed n i) = comp dir (suffixed n j) -> i = j.
Proof.
  intros Hi Hj E. unfold comp in E. apply app_inv_head, app_inv_head in E. unfold suffixed in E. destruct (stem_ext n) as [stem ext].
  assert (as_bytes (stem ++ lit " (" ++ fmt_dec i ++ lit ")") = as_bytes (stem ++ lit " (" ++ fmt_dec j ++ lit ")")) as E'.
  { destruct ext as [e|]; [|done]. rewrite !(as_bytes_app _ ([DOT] ++ e)) in E. by apply app_inv_tail in E. }
  rewrite !as_bytes_app in E'. apply app_inv_head, app_inv_head, app_inv_tail in E'. destruct (fmt_dec_ascii i) as [Ei _]; [lia|]. destruct (fmt_dec_ascii j) as [Ej _]; [lia|].
  rewrite Ei, Ej in E'. by apply fmt_dec_inj.
Qed.

(** *** A free name *)

Section names.
Context (w : World) (dir : path).
Hypothesis in_dir : download_dir (xfer w) = dir.

Definition taken_list : list path :=
  ((map_to_list (disk w)).*1 ++ completed_files (xfer w)) ++ ((fun f : Z * IncomingFile => final_path f.2) <$> map_to_list (incoming_files (xfer w))).
Lemma taken_list_spec p : destination_is_taken p w = true -> p ∈ taken_list.
Proof.
  unfold destination_is_taken, taken_list. rewrite !orb_true_iff, !bool_decide_eq_true, !elem_of_app. intros [[[c Hc]|]|Hf]; [left; left|left; by right|right].
  - apply list_elem_of_fmap. exists (p, c). split; [done|by apply elem_of_map_to_list].
  - apply existsb_exists in Hf as ([s f] & Hin & Hf). apply bool_decide_eq_true in Hf as <-. apply list_elem_of_fmap. exists (s, f). split; [done|by apply list_elem_of_In].
Qed.
Lemma taken_list_length : length taken_list = taken_names w.
Proof. unfold taken_list, taken_names. by rewrite !length_app, !length_fmap, !length_map_to_list. Qed.

(** A free name is found, and the search's bound is enough. *)
Lemma reserve_total name : (Z.of_nat (taken_names w) < u64_max) -> exists p, reserve_destination name w = Ok p.
Proof.
  intros Hb. unfold reserve_destination. destruct (negb _); [by eexists|]. destruct (list_find _ _) as [[k i]|] eqn:E; [by eexists|]. exfalso.
  rewrite list_find_None, Forall_forall in E. set (n := S (taken_names w)) in *.
  set (cs := (fun i => comp (download_dir (xfer w)) (suffixed name (Z.of_nat i))) <$> seq 1 n).
  assert (NoDup cs) as Hn.
  { apply NoDup_fmap_2_strong; [|apply NoDup_seq]. intros i j Hi%elem_of_seq Hj%elem_of_seq Es. apply suffixed_inj in Es; lia. }
  assert (cs ⊆+ taken_list) as Hs.
  { apply NoDup_submseteq; [done|]. intros p (i & -> & Hi)%list_elem_of_fmap. apply taken_list_spec. specialize (E i Hi). by destruct (destination_is_taken _ _). }
  apply submseteq_length in Hs. rewrite taken_list_length in Hs. unfold cs in Hs. rewrite length_fmap, length_seq in Hs. lia.
Qed.
End names.

(** A visible name stays visible with a suffix. *)
Definition visible (name : str) : Prop := name <> [] /\ head name <> Some DOT.
Lemma suffixed_visible name i : visible name -> visible (suffixed name i).
Proof.
  intros [Hn Hh]. unfold suffixed, stem_ext. pose proof (rsplit_once_spec DOT name) as Hs.
  assert (forall stem tail, stem <> [] -> head stem <> Some DOT -> visible ((stem ++ lit " (" ++ fmt_dec i ++ lit ")") ++ tail)) as Hg by (intros [|c stem] tail ? ?; [done|by split]).
  destruct (rsplit_once DOT name) as [[a b]|].
  - destruct Hs as [-> _]. destruct (eqs a []) eqn:E; bool_cases.
    + rewrite <- (app_nil_r (_ ++ lit " (" ++ _)). by apply Hg.
    + destruct a as [|c a]; [done|]. by apply Hg.
  - rewrite <- (app_nil_r (_ ++ lit " (" ++ _)). by apply Hg.
Qed.
Lemma reserve_visible name w p : visible name -> reserve_destination name w = Ok p ->
  destination_is_taken p w = false /\ exists n, p = comp (download_dir (xfer w)) n /\ visible n.
Proof.
  intros Hv. unfold reserve_destination. destruct (destination_is_taken _ w) eqn:T; cbn [negb].
  - destruct (list_find _ _) as [[k i]|] eqn:E; [|done]. intros [= <-]. apply list_find_Some in E as (_ & Hi & _). split; [done|].
    eexists. split; [done|]. by apply suffixed_visible.
  - intros [= <-]. by eauto.
Qed.

Lemma not_taken p w : destination_is_taken p w = false ->
  disk w !! p = None /\ p ∉ completed_files (xfer w) /\ forall s f, incoming_files (xfer w) !! s = Some f -> final_path f <> p.
Proof.
  unfold destination_is_taken. rewrite !orb_false_iff, !bool_decide_eq_false. intros [[Hd Hc] Hf]. split_and!; [by apply eq_None_not_Some|done|].
  intros s f Hs E. assert (existsb (fun f : Z * IncomingFile => bool_decide (final_path f.2 = p)) (map_to_list (incoming_files (xfer w))) = true); [|congruence].
  apply existsb_exists. exists (s, f). split; [by apply list_elem_of_In, elem_of_map_to_list|by apply bool_decide_eq_true].
Qed.

(** ** The beginning *)

Section beginning.
Context (held : list (list Z)) (serial s0 : Z) (dir : path) (w0 : World).
Hypothesis streams : 0 <= s0.

(** The jobs of the files begun so far. *)
Record begun (js : list job) (w : World) : Prop := mkBegun {
  b_dir : download_dir (xfer w) = dir;
  b_serial : portal_serial (xfer w) = Some serial;
  b_completed : completed_files (xfer w) = [];
  b_next : next_stream_id (xfer w) = s0 + Z.of_nat (length js);
  b_quiet : completions (log w) = completions (log w0);
  b_files s f : incoming_files (xfer w) !! s = Some f -> exists j, j ∈ js /\ j_stream j = s /\ progress j f w;
  b_all j : j ∈ js -> exists f, incoming_files (xfer w) !! j_stream j = Some f;
  b_job k j : js !! k = Some j -> j_stream j = s0 + Z.of_nat k /\ j_index j = Z.of_nat k /\ held !! k = Some (j_content j) /\
    (exists n, j_temp j = comp dir (temp_name n (j_stream j))) /\ (exists n, j_final j = comp dir n /\ visible n);
  b_finals : NoDup (j_final <$> js);
  b_new j : j ∈ js -> disk w0 !! j_final j = None;
  b_old p c : disk w0 !! p = Some c -> disk w !! p = Some c;
  b_disk p c : disk w !! p = Some c -> disk w0 !! p = Some c \/ exists j, j ∈ js /\ p = j_temp j;
  b_size : (size (disk w) <= size (disk w0) + length js)%nat /\ (size (incoming_files (xfer w)) <= length js)%nat;
}.

Lemma begun_stream js w j : begun js w -> j ∈ js -> s0 <= j_stream j < s0 + Z.of_nat (length js) /\ exists n, j_temp j = comp dir (temp_name n (j_stream j)).
Proof.
  intros B [k Hk]%list_elem_of_lookup. destruct (b_job _ _ B _ _ Hk) as (-> & _ & _ & Ht & _). apply lookup_lt_Some in Hk. split; [lia|done].
Qed.

Lemma begun_same js w j k : begun js w -> j ∈ js -> k ∈ js -> j_stream j = j_stream k -> j = k.
Proof.
  intros B [a Ha]%list_elem_of_lookup [b Hb]%list_elem_of_lookup E. destruct (b_job _ _ B _ _ Ha) as (E1 & _). destruct (b_job _ _ B _ _ Hb) as (E2 & _).
  assert (a = b) as -> by lia. congruence.
Qed.
Lemma begun_progress js w j : begun js w -> j ∈ js -> exists f, incoming_files (xfer w) !! j_stream j = Some f /\ progress j f w.
Proof.
  intros B Hj. destruct (b_all _ _ B j Hj) as [f Hf]. exists f. split; [done|]. destruct (b_files _ _ B _ _ Hf) as (k & Hk & E & P).
  by apply (begun_same js w) in E as ->.
Qed.
(** A file of the list stays where it is while the others change. *)
Lemma progress_frame j f w w' : progress j f w -> disk w' !! j_temp j = disk w !! j_temp j -> disk w' !! j_final j = disk w !! j_final j ->
  last_request (j_stream j) (log w') = last_request (j_stream j) (log w) -> progress j f w'.
Proof. intros [P1 P2 P3 P4 P5] E1 E2 E3. constructor; try done; congruence. Qed.

Definition expected (d : FileDescriptor) (c : list Z) : Prop := fd_size d = None \/ fd_size d = Some (Z.of_nat (length c)).

Lemma begin_file_ok js w d c : begun js w -> held !! length js = Some c -> expected d c -> visible (sanitize_filename_for_linux (fd_name d)) ->
  s0 + Z.of_nat (length js) + 1 < 2 ^ 32 -> Z.of_nat (size (disk w0) + 2 * length js) < u64_max -> Z.of_nat (length js) <= i32_max ->
  disk w0 !! comp dir (temp_name (sanitize_filename_for_linux (fd_name d)) (s0 + Z.of_nat (length js))) = None ->
  exists j w', begin_file (Z.of_nat (length js)) d w = Ok w' /\ begun (js ++ [j]) w'.
Proof.
  intros B Hc He Hv Hb Hz Hi Ht. pose proof B as [B1 B2 B3 B4 B5 B6 B7 B8 B9 B10 B11 B12 [B13 B14]].
  unfold begin_file, allocate_stream_id. rewrite B4. set (s := s0 + Z.of_nat (length js)) in *. set (w1 := with_xfer _ w). set (name := sanitize_filename_for_linux (fd_name d)) in *.
  destruct (reserve_total w1 name) as [final R].
  { unfold taken_names, w1. cbn [disk xfer with_xfer with_next completed_files incoming_files]. rewrite B3. cbn [length]. lia. }
  rewrite R. cbn [mbind outcome_bind]. destruct (reserve_visible name w1 final Hv R) as (Nt & n & Ef & Hn). apply not_taken in Nt as (Nd & _ & Nf).
  change (disk w1) with (disk w) in Nd. change (incoming_files (xfer w1)) with (incoming_files (xfer w)) in Nf. change (download_dir (xfer w1)) with (download_dir (xfer w)) in *. rewrite B1 in *.
  set (temp := comp dir (temp_name name s)) in *. rewrite perform_ok by done. cbn [negb disk xfer log apply].
  assert (forall k, k ∈ js -> j_temp k <> temp /\ j_stream k <> s /\ j_final k <> final /\ j_final k <> temp /\ j_temp k <> final) as Hother.
  { intros k Hk. destruct (begun_stream js w k B Hk) as (Hr & nk & Ek). destruct (begun_progress js w k B Hk) as (fk & Hfk & [(F1 & _) _ P3 _ _]).
    apply list_elem_of_lookup in Hk as [a Ha]. destruct (B8 _ _ Ha) as (_ & _ & _ & _ & m & Em & [_ Hm]). unfold u64_max. split_and!.
    - rewrite Ek. intros E. apply temp_inj in E; unfold u64_max; lia.
    - lia.
    - rewrite <- F1. by apply (Nf (j_stream k)).
    - rewrite Em. intros E. by apply eq_sym, comp_head in E.
    - intros E. congruence. }
  assert (final <> temp) as Hft by (rewrite Ef; intros E; destruct Hn as [_ Hn]; by apply eq_sym, comp_head in E).
  assert (disk w !! temp = None) as Hnt.
  { destruct (disk w !! temp) as [x|] eqn:E; [|done]. destruct (B12 _ _ E) as [|(k & Hk & E')]; [congruence|]. by destruct (Hother k Hk) as (? & _). }
  rewrite (perform_ok (OpenNew temp)) by (cbn [possible disk w1 with_xfer]; by rewrite Hnt). cbn [negb].
  set (f := mkIncoming final _ _ _ temp _ _). set (nj := mkJob s temp final c (Z.of_nat (length js))).
  assert (file_index f = Z.of_nat (length js)) as Ei by (cbn [file_index f]; unfold u32_max, i32_max in *; lia).
  exists nj. eexists. split; [done|]. rewrite perform_ok by (unfold request_for; destruct (total_size f); [destruct (awaiting_size f)|]; done). cbn [snd].
  set (e := request_for s f). destruct (request_asks s f) as (A1 & A2 & A3). fold e in A1, A2, A3.
  assert (forall d, apply e d = d) as Ea by (intros ?; unfold e, request_for; destruct (total_size f); [destruct (awaiting_size f)|]; done). rewrite Ea.
  cbn [disk xfer log on_xfer with_xfer w1 apply].
  constructor; cbn [disk xfer log with_incoming with_next download_dir portal_serial completed_files next_stream_id incoming_files]; try done.
  - rewrite wrap_small by lia. rewrite length_app. cbn [length]. lia.
  - by rewrite !completions_snoc, A3.
  - intros t g. destruct (decide (t = s)) as [->|Hne].
    + rewrite lookup_insert_eq. intros [= <-]. exists nj. split_and!; [apply elem_of_app; right; by left|done|]. constructor; cbn [j_final j_temp j_index nj disk log j_stream j_content].
      * done.
      * unfold len. cbn [awaiting_size received_size total_size f j_content nj]. destruct He as [->| ->]; [done|].
        destruct (decide (Z.of_nat (length c) = 0)) as [->|Hne]; [done|]. rewrite bool_decide_eq_false_2, bool_decide_eq_false_2 by congruence. cbn [orb]. split; [done|lia].
      * cbn [received_size f]. by rewrite lookup_insert_eq.
      * by rewrite lookup_insert_ne.
      * by rewrite last_request_snoc, A1.
    + rewrite lookup_insert_ne by done. intros Hg. destruct (B6 _ _ Hg) as (k & Hk & <- & P). exists k. split_and!; [apply elem_of_app; by left|done|].
      destruct (Hother k Hk) as (O1 & O2 & O3 & O4 & O5). apply (progress_frame _ _ w); [done|..]; cbn [disk log]; rewrite ?lookup_insert_ne by done; try done.
      by rewrite !last_request_snoc, A2.
  - intros k [Hk| ->%list_elem_of_singleton]%elem_of_app; [|exists f; by rewrite lookup_insert_eq]. destruct (B7 k Hk) as [g Hg]. exists g.
    rewrite lookup_insert_ne; [done|]. by destruct (Hother k Hk) as (_ & ? & _).
  - intros k j [Hk|[Hk Hl]]%lookup_app_Some; [by apply B8|]. apply list_lookup_singleton_Some in Hl as [Hk0 <-]. assert (k = length js) as -> by lia.
    split_and!; [done|done|done|by exists name|by exists n].
  - rewrite fmap_app. apply NoDup_app. split_and!; [done| |apply NoDup_singleton]. intros p (k & -> & Hk)%list_elem_of_fmap E%list_elem_of_singleton.
    destruct (Hother k Hk) as (_ & _ & O & _). done.
  - intros k [Hk| ->%list_elem_of_singleton]%elem_of_app; [by apply B10|]. cbn [j_final nj]. destruct (disk w0 !! final) eqn:E; [|done]. apply B11 in E. congruence.
  - intros p x Hp. pose proof (B11 _ _ Hp). by rewrite lookup_insert_ne by congruence.
  - intros p x. destruct (decide (p = temp)) as [->|Hne]; [intros _; right; exists nj; split; [apply elem_of_app; right; by left|done]|].
    rewrite lookup_insert_ne by done. intros [?|(k & Hk & ->)]%B12; [by left|right; exists k; split; [apply elem_of_app; by left|done]].
  - rewrite length_app. cbn [length]. rewrite (map_size_insert s f), (map_size_insert temp []). split; repeat case_match; unfold Datatypes.id; lia.
Qed.

(** What the client offers fits together, and fits the machine. *)
Record offer (ds : list FileDescriptor) : Prop := mkOffer {
  of_held : Forall2 expected ds held;
  of_visible : Forall (fun d => visible (sanitize_filename_for_linux (fd_name d))) ds;
  of_streams : s0 + Z.of_nat (length ds) < 2 ^ 32;
  of_room : Z.of_nat (size (disk w0) + 2 * length ds) < u64_max;
  of_count : Z.of_nat (length ds) <= i32_max;
  of_length : Forall (fun c => Z.of_nat (length c) < 2 ^ 63) held;
  of_temps k d : ds !! k = Some d -> disk w0 !! comp dir (temp_name (sanitize_filename_for_linux (fd_name d)) (s0 + Z.of_nat k)) = None;
}.

Lemma begin_files_ok ds : offer ds -> forall rest js w, begun js w -> ds = take (length js) ds ++ rest -> (length js + length rest = length ds)%nat ->
  exists js' w', begin_files (Z.of_nat (length js)) rest w = Ok w' /\ begun js' w' /\ length js' = length ds.
Proof.
  intros O. induction rest as [|d rest IH]; intros js w B Hr Hl; cbn [begin_files].
  - exists js, w. split_and!; [done|done|]. cbn in Hl. lia.
  - cbn [length] in Hl. assert (ds !! length js = Some d) as Hd.
    { rewrite Hr, lookup_app_r; rewrite length_take, Nat.min_l by lia; [|done]. by rewrite Nat.sub_diag. }
    destruct O as [O1 O2 O3 O4 O5 O6 O7]. destruct (Forall2_lookup_l _ _ _ _ _ O1 Hd) as (c & Hc & He).
    destruct (begin_file_ok js w d c B Hc He) as (j & w1 & E & B1); try lia; [by eapply Forall_lookup_1 in O2|by apply O7|].
    rewrite E. cbn [mbind outcome_bind]. replace (Z.of_nat (length js) + 1) with (Z.of_nat (length (js ++ [j]))) by (rewrite length_app; cbn [length]; lia).
    apply IH; [done| |rewrite length_app; cbn [length]; lia]. rewrite length_app. cbn [length]. rewrite Nat.add_1_r, (take_S_r _ _ d Hd), <- app_assoc. done.
Qed.

Lemma begun_going js w : begun js w -> js <> [] -> state_ok js serial (completions (log w0)) w.
Proof.
  intros B Hne. left. split.
  - pose proof B as [B1 B2 B3 B4 B5 B6 B7 B8 B9 B10 B11 B12 _]. constructor; rewrite ?B3; try done; [| |set_solver|constructor].
    + intros s f Hf. destruct (B6 _ _ Hf) as (j & Hj & E & P). exists j. split_and!; [done|done|by right].
    + intros j Hj Hn. destruct (B7 j Hj). congruence.
  - destruct js as [|j js]; [done|]. intros E. destruct (b_all _ _ B j (list_elem_of_here _ _)) as [f Hf]. by rewrite E in Hf.
Qed.
End beginning.

(** C10. Whatever files a client offers, they arrive.  When nothing fails outside and
    the client answers, in any order and between any other answers, as many
    requests of each file as its length takes - one for its size, one for each
    64 MiB - then every offered file is on the disk with exactly the client's
    bytes, each under a name of its own that was free before, no two files of the
    list sharing one however they are called; and the local clipboard was answered
    once, with the list of these names. *)
Theorem downloads_arrive held ds w serial mime ss :
  incoming_files (xfer w) = ∅ -> 0 <= next_stream_id (xfer w) -> ds <> [] -> offer held (next_stream_id (xfer w)) (download_dir (xfer w)) w ds ->
  (forall k c, held !! k = Some c -> 1 + pieces (Z.of_nat (length c)) <= turns (next_stream_id (xfer w) + Z.of_nat k) ss) ->
  let w' := fold_left (reply held) ss (step true true w (Begin serial mime ds)) in
  exists saved, length saved = length ds /\ NoDup saved /\
    (forall k p c, saved !! k = Some p -> held !! k = Some c -> disk w !! p = None /\ disk w' !! p = Some c) /\
    incoming_files (xfer w') = ∅ /\
    exists order, order ≡ₚ saved /\ completions (log w') = completions (log w) ++ [Complete serial (lit "x-special/gnome-copied-files") (uri_list order) true].
Proof.
  intros Hi Hs Hne O Ht. cbn zeta. cbn [step]. unfold begin_transfer. rewrite Hi. cbn [negb]. rewrite bool_decide_eq_true_2 by done. cbn [negb].
  set (w1 := on_xfer _ (clear_incoming w)).
  assert (begun held serial (next_stream_id (xfer w)) (download_dir (xfer w)) w [] w1) as B.
  { unfold w1, clear_incoming. rewrite Hi. cbn [fold_left]. rewrite map_to_list_empty. cbn [fold_left].
    constructor; cbn [xfer disk log on_xfer with_xfer with_serial set_pending_descriptors with_completed with_incoming download_dir portal_serial completed_files next_stream_id incoming_files length].
    all: try done.
    - lia.
    - intros j Hj. set_solver.
    - constructor.
    - set_solver.
    - intros p c Hp. by left.
    - rewrite map_size_empty. lia. }
  destruct (begin_files_ok held serial _ _ w Hs ds O ds [] w1 B) as (js & w2 & E & B2 & Hlen); [done|done|]. cbn [length] in E. change (Z.of_nat 0) with 0 in E. rewrite E.
  assert (js <> []) as Hjs by (intros ->; by destruct ds).
  pose proof (begun_going _ _ _ _ _ Hs _ _ B2 Hjs) as Hok.
  destruct (replies_ok held js serial (completions (log w)) (NoDup_fmap_1 j_final _ (b_finals _ _ _ _ _ _ _ B2))) with (ss := ss) (w := w2) as (R1 & R2 & R3); try done.
  - intros j Hj. apply list_elem_of_lookup in Hj as [k Hk]. destruct (b_job _ _ _ _ _ _ _ B2 _ _ Hk) as (_ & Ei & Hc & _). apply lookup_lt_Some in Hk.
    destruct O as [_ _ _ _ O5 O6 _]. rewrite Ei. split_and!; [by rewrite Nat2Z.id|lia|lia|]. unfold len. by eapply (Forall_lookup_1 _ _ _ _ O6).
  - intros j k Hj Hk. by eapply begun_same.
  - intros j k Hj Hk E'. apply list_elem_of_lookup in Hj as [a Ha], Hk as [b Hb].
    assert (a = b) as ->; [|congruence]. eapply (NoDup_lookup (j_final <$> js)); [exact (b_finals _ _ _ _ _ _ _ B2)|by rewrite list_lookup_fmap, Ha|by rewrite list_lookup_fmap, Hb, E'].
  - intros j k Hj Hk E'. destruct (begun_stream _ _ _ _ _ _ _ _ B2 Hj) as (Rj & n & Ej). destruct (begun_stream _ _ _ _ _ _ _ _ B2 Hk) as (Rk & m & Ek).
    rewrite Ej, Ek in E'. destruct O as [_ _ O3 _ _ _ _]. apply temp_inj in E'; [by eapply begun_same|unfold u64_max; lia..].
  - intros j k Hj Hk E'. destruct (begun_stream _ _ _ _ _ _ _ _ B2 Hj) as (_ & n & Ej). apply list_elem_of_lookup in Hk as [b Hb].
    destruct (b_job _ _ _ _ _ _ _ B2 _ _ Hb) as (_ & _ & _ & _ & m & Em & [_ Hm]). rewrite Ej, Em in E'. by apply comp_head in E'.
  - intros j Hj. destruct (begun_progress _ _ _ _ _ _ _ _ B2 Hj) as (f & Hf & P). apply list_elem_of_lookup in Hj as [k Hk].
    destruct (b_job _ _ _ _ _ _ _ B2 _ _ Hk) as (-> & _ & Hc & _). specialize (Ht k _ Hc). fold (len j) in Ht. pose proof (need_bound j f w2 P Hf). lia.
  - exists (j_final <$> js). split_and!; [by rewrite length_fmap|exact (b_finals _ _ _ _ _ _ _ B2)| |done|done].
    intros k p c Hp Hc. apply list_lookup_fmap_Some in Hp as (j & -> & Hj). destruct (b_job _ _ _ _ _ _ _ B2 _ _ Hj) as (_ & _ & Hc' & _).
    assert (c = j_content j) as -> by congruence. apply list_elem_of_lookup_2 in Hj. split; [by apply (b_new _ _ _ _ _ _ _ B2)|by apply R2].
Qed.

(** ** A run *)

(** Two files of the same name, one of unknown size, answered from the last. *)
Definition pasted : list (list Z) := [[104; 105]; [33]].
Definition pasted_names : list FileDescriptor := [offered "a.txt" (Some 2); offered "a.txt" None].
Lemma downloads_arrive_witness : let w' := fold_left (reply pasted) [2; 1; 1; 2] (step true true (fresh_world dl ∅) (Begin 7 (lit "text/uri-list") pasted_names)) in
  (exists saved, length saved = 2%nat /\ NoDup saved /\ (forall k p c, saved !! k = Some p -> pasted !! k = Some c -> (∅ : gmap path (list Z)) !! p = None /\ disk w' !! p = Some c) /\
    incoming_files (xfer w') = ∅ /\ exists order, order ≡ₚ saved /\ completions (log w') = [] ++ [Complete 7 (lit "x-special/gnome-copied-files") (uri_list order) true]) /\
  disk w' !! at_dl "a.txt" = Some [104; 105] /\ disk w' !! at_dl "a (1).txt" = Some [33].
Proof.
  cbn zeta. split; [|by vm_compute].
  apply (downloads_arrive pasted pasted_names (fresh_world dl ∅) 7 (lit "text/uri-list") [2; 1; 1; 2]); [by vm_compute|done|done| |].
  - constructor.
    + constructor; [by right|]. constructor; [by left|constructor].
    + by repeat (constructor; [split; by vm_compute|]).
    + done.
    + done.
    + done.
    + by repeat (constructor; [done|]).
    + intros k d Hd. apply lookup_empty.
  - intros [|[|k]] c; cbn; intros [= <-]; by vm_compute.
Defined.
