(* ===== verification/LoopDetector.v ===== *)
(** * Clipboard loop detection

    Models src/src/rdp/channels/clipboard/core/loop_detector.rs.  A history is
    the list of its operations, oldest first; SHA-256 (the sha2 crate) is the
    class [ContentHash]; the clock reads of one operation are its arguments. *)
From S2P Require Import Prelude Text ClipBase.
From Stdlib Require Import Sorting.Sorted.

(** The hexadecimal digest of a byte string. *)
Class ContentHash := { sha256_hex : list Z -> str }.

(** [core/loop_detector.rs:14-30 LoopDetectionConfig] *)
Record LoopDetectionConfig := mkLoopConfig {
  window_ms : Z;
  max_history : nat;
  enable_content_hashing : bool;
  rate_limit_ms : option Z;
}.

(** [core/loop_detector.rs:33-40 default] *)
Definition loop_config_default : LoopDetectionConfig := mkLoopConfig 500 10 true None.
(** [core/loop_detector.rs:54-59 with_rate_limit] *)
Definition with_rate_limit (n : Z) : LoopDetectionConfig := mkLoopConfig 500 10 true (Some n).

(** [core/loop_detector.rs:64-69 ClipboardSource] *)
Inductive ClipboardSource := Rdp | Local.
#[export] Instance ClipboardSource_eq_dec : EqDecision ClipboardSource.
Proof. solve_decision. Defined.

(** [core/loop_detector.rs:73-78 opposite] *)
Definition opposite (s : ClipboardSource) : ClipboardSource :=
  match s with Rdp => Local | Local => Rdp end.

(** [core/loop_detector.rs:83-90 ClipboardOperation] *)
Record ClipboardOperation := mkOp { hash : str; source : ClipboardSource; timestamp : Z }.

(** [core/loop_detector.rs:126-139 LoopDetector] *)
Record LoopDetector := mkDetector {
  config : LoopDetectionConfig;
  format_history : list ClipboardOperation;
  content_history : list ClipboardOperation;
  last_sync_rdp : option Z;
  last_sync_local : option Z;
}.

(** [core/loop_detector.rs:154-162 with_config] *)
Definition with_config (c : LoopDetectionConfig) : LoopDetector := mkDetector c [] [] None None.
(** [core/loop_detector.rs:149-151 new] *)
Definition detector_new : LoopDetector := with_config loop_config_default.

(** Pop the front while it is older than the window.
    [core/loop_detector.rs:377-384 cleanup_history] *)
Definition drop_stale (window now : Z) (h : list ClipboardOperation) : list ClipboardOperation :=
  drop_while (fun op => window <? since now (timestamp op)) h.

(** Pop the front while the history is too long.
    [core/loop_detector.rs:395-397 cleanup_history] *)
Definition drop_excess (n : nat) (h : list ClipboardOperation) : list ClipboardOperation :=
  drop (length h - n) h.

Definition cleanup_window (c : LoopDetectionConfig) : Z := ms (wrap 64 (window_ms c * 2)).

(** [core/loop_detector.rs:373-402 cleanup_history] *)
Definition cleanup_history (now : Z) (d : LoopDetector) : LoopDetector :=
  let c := config d in
  let clean h := drop_excess (max_history c) (drop_stale (cleanup_window c) now h) in
  mkDetector c (clean (format_history d)) (clean (content_history d))
    (last_sync_rdp d) (last_sync_local d).

(** [core/loop_detector.rs:336-358 check_hash_collision] *)
Definition check_hash_collision (c : LoopDetectionConfig) (now : Z)
    (history : list ClipboardOperation) (h : str) (current_source : ClipboardSource) : bool :=
  existsb (fun op => bool_decide (source op = opposite current_source) && eqs (hash op) h)
    (take_while (fun op => negb (ms (window_ms c) <? since now (timestamp op))) (rev history)).

(** [core/loop_detector.rs:404-413 hash_formats] *)
Definition formats_preimage (formats : list ClipboardFormat) : list Z :=
  formats ≫= fun f => to_le 4 (id f) ++ match name f with Some n => as_bytes n | None => [] end.
(** [core/loop_detector.rs:415-422 hash_mime_types] *)
Definition mime_preimage (mime_types : list str) : list Z := mime_types ≫= fun m => as_bytes m ++ [0].

Section detector.
Context `{ContentHash}.

(** [core/loop_detector.rs:404-413 hash_formats] *)
Definition hash_formats (formats : list ClipboardFormat) : str := sha256_hex (formats_preimage formats).
(** [core/loop_detector.rs:415-422 hash_mime_types] *)
Definition hash_mime_types (mimes : list str) : str := sha256_hex (mime_preimage mimes).
(** [core/loop_detector.rs:424-428 hash_content] *)
Definition hash_content (data : list Z) : str := sha256_hex data.

Definition push_format (op : ClipboardOperation) (d : LoopDetector) : LoopDetector :=
  mkDetector (config d) (format_history d ++ [op]) (content_history d) (last_sync_rdp d) (last_sync_local d).
Definition push_content (op : ClipboardOperation) (d : LoopDetector) : LoopDetector :=
  mkDetector (config d) (format_history d) (content_history d ++ [op]) (last_sync_rdp d) (last_sync_local d).

(** The first call of [record_operation] works on a copy and has no effect.
    [core/loop_detector.rs:165-176 record_formats] *)
Definition record_formats (t now : Z) (formats : list ClipboardFormat) (src : ClipboardSource) (d : LoopDetector) : LoopDetector :=
  cleanup_history now (push_format (mkOp (hash_formats formats) src t) d).

(** [core/loop_detector.rs:179-187 record_mime_types] *)
Definition record_mime_types (t now : Z) (mimes : list str) (src : ClipboardSource) (d : LoopDetector) : LoopDetector :=
  cleanup_history now (push_format (mkOp (hash_mime_types mimes) src t) d).

(** [core/loop_detector.rs:190-202 record_content] *)
Definition record_content (t now : Z) (data : list Z) (src : ClipboardSource) (d : LoopDetector) : LoopDetector :=
  if negb (enable_content_hashing (config d)) then d
  else cleanup_history now (push_content (mkOp (hash_content data) src t) d).

(** [core/loop_detector.rs:208-211 would_cause_loop] *)
Definition would_cause_loop (now : Z) (formats : list ClipboardFormat) (d : LoopDetector) : bool :=
  check_hash_collision (config d) now (format_history d) (hash_formats formats) Local.

(** [core/loop_detector.rs:214-217 would_cause_loop_mime] *)
Definition would_cause_loop_mime (now : Z) (mimes : list str) (d : LoopDetector) : bool :=
  check_hash_collision (config d) now (format_history d) (hash_mime_types mimes) Rdp.

(** [core/loop_detector.rs:220-227 would_cause_content_loop] *)
Definition would_cause_content_loop (now : Z) (data : list Z) (src : ClipboardSource) (d : LoopDetector) : bool :=
  if negb (enable_content_hashing (config d)) then false
  else check_hash_collision (config d) now (content_history d) (hash_content data) src.

(** [core/loop_detector.rs:230-232 compute_hash] *)
Definition compute_hash (data : list Z) : str := hash_content data.

(** [core/loop_detector.rs:235-240 clear] *)
Definition detector_clear (d : LoopDetector) : LoopDetector := mkDetector (config d) [] [] None None.

(** [core/loop_detector.rs:265-281 is_rate_limited] *)
Definition is_rate_limited (now : Z) (src : ClipboardSource) (d : LoopDetector) : bool :=
  match rate_limit_ms (config d) with
  | None => false
  | Some limit =>
      match (match src with Rdp => last_sync_rdp d | Local => last_sync_local d end) with
      | None => false
      | Some last => since now last <? ms limit
      end
  end.

(** [core/loop_detector.rs:287-293 record_sync] *)
Definition record_sync (now : Z) (src : ClipboardSource) (d : LoopDetector) : LoopDetector :=
  match src with
  | Rdp => mkDetector (config d) (format_history d) (content_history d) (Some now) (last_sync_local d)
  | Local => mkDetector (config d) (format_history d) (content_history d) (last_sync_rdp d) (Some now)
  end.

(** [core/loop_detector.rs:299-313 should_skip_sync] *)
Definition should_skip_sync (now : Z) (formats : list ClipboardFormat) (src : ClipboardSource) (d : LoopDetector) : bool :=
  if is_rate_limited now src d then true
  else check_hash_collision (config d) now (format_history d) (hash_formats formats) src.

(** [core/loop_detector.rs:316-330 should_skip_sync_mime] *)
Definition should_skip_sync_mime (now : Z) (mimes : list str) (src : ClipboardSource) (d : LoopDetector) : bool :=
  if is_rate_limited now src d then true
  else check_hash_collision (config d) now (format_history d) (hash_mime_types mimes) src.
End detector.

(** ** Histories and the log they abstract *)
Definition older (a b : ClipboardOperation) : Prop := timestamp a <= timestamp b.

Definition stale (w now : Z) (op : ClipboardOperation) : Prop := w < since now (timestamp op).

(** One step of a history: push (or not) an operation, then clean up. *)
Definition hist_step (c : LoopDetectionConfig) (now : Z) (o : list ClipboardOperation)
    (h : list ClipboardOperation) : list ClipboardOperation :=
  drop_excess (max_history c) (drop_stale (cleanup_window c) now (h ++ o)).

(** The history [h] holds the end of the log; what it lost is either beyond its
    size or older than the cleanup window at time [T]. *)
Record hist_inv (c : LoopDetectionConfig) (T : Z) (log h : list ClipboardOperation) : Prop := {
  hi_sorted : StronglySorted older log;
  hi_past : Forall (fun op => timestamp op <= T) log;
  hi_len : (length h <= max_history c)%nat;
  hi_suffix : exists dropped, log = dropped ++ h /\
    (length h = max_history c \/ Forall (stale (cleanup_window c) T) dropped);
}.

Lemma stale_mono w T T' op : 0 <= w -> T <= T' -> stale w T op -> stale w T' op.
Proof. unfold stale, since, sat_sub. lia. Qed.

Lemma sorted_snoc {A} (R : A -> A -> Prop) l x :
  StronglySorted R l -> Forall (fun y => R y x) l -> StronglySorted R (l ++ [x]).
Proof.
  induction 1 as [|y l Hs IH Hy]; intros Hx; cbn; [by repeat constructor|].
  apply Forall_cons in Hx as [Hyx Hx]. constructor; [auto|]. apply Forall_app; auto.
Qed.

Lemma clean_inv c log h' now :
  0 <= cleanup_window c -> StronglySorted older log -> Forall (fun op => timestamp op <= now) log ->
  (exists dropped, log = dropped ++ h' /\
     ((max_history c <= length h')%nat \/ Forall (stale (cleanup_window c) now) dropped)) ->
  hist_inv c now log (drop_excess (max_history c) (drop_stale (cleanup_window c) now h')).
Proof.
  intros Hw Hs Hp (dropped & E & Hd). unfold drop_excess, drop_stale.
  set (p := fun op => cleanup_window c <? since now (timestamp op)).
  pose proof (take_drop_while p h') as Htd. set (k := drop_while p h') in *.
  pose proof (take_while_sound p h') as Htw. set (tw := take_while p h') in *.
  constructor.
  - done.
  - done.
  - rewrite length_drop. lia.
  - exists (dropped ++ tw ++ take (length k - max_history c) k). split.
    { by rewrite <- !app_assoc, take_drop, Htd. }
    rewrite length_drop. destruct (decide (max_history c <= length k)%nat); [left; lia|right].
    replace (length k - max_history c)%nat with 0%nat by lia. rewrite take_0, app_nil_r.
    assert (Forall (stale (cleanup_window c) now) tw) as Ht.
    { eapply Forall_impl; [exact Htw|]. subst p. cbn. unfold stale. lia. }
    apply Forall_app. split; [|done].
    destruct Hd as [Hd|Hd]; [|done].
    (* the oldest survivor of the size limit is stale, and so is all before it *)
    destruct tw as [|x tw'] eqn:Et; [rewrite <- Htd in Hd; cbn in Hd; lia|].
    apply Forall_inv in Ht. subst log. rewrite <- Htd in Hs.
    clear -Hs Ht. induction dropped as [|y dr IH]; [constructor|].
    cbn in Hs. apply StronglySorted_inv in Hs as [Hs Hy]. constructor; [|auto].
    rewrite Forall_forall in Hy. specialize (Hy x).
    assert (older y x) as Ho by (apply Hy; set_solver).
    unfold older, stale, since, sat_sub in *. lia.
Qed.

Lemma hist_inv_step c T log h now o :
  hist_inv c T log h -> 0 <= cleanup_window c -> T <= now ->
  (o = [] \/ exists op, o = [op] /\ T <= timestamp op <= now) ->
  hist_inv c now (log ++ o) (hist_step c now o h).
Proof.
  intros [Hs Hp Hl (dropped & E & Hd)] Hw HT Ho. unfold hist_step. apply clean_inv; [done|..].
  - destruct Ho as [-> | (op & -> & Hop)]; [by rewrite app_nil_r|].
    apply sorted_snoc; [done|]. eapply Forall_impl; [exact Hp|]. unfold older. cbn. lia.
  - apply Forall_app. split; [eapply Forall_impl; [exact Hp|]; cbn; lia|].
    destruct Ho as [-> | (op & -> & Hop)]; [done|]. constructor; [lia | done].
  - exists dropped. split; [by rewrite E, <- app_assoc|].
    destruct Hd as [Hd|Hd]; [left; rewrite length_app; lia|right].
    eapply Forall_impl; [exact Hd|]. intros op. by apply stale_mono.
Qed.

(** ** What a collision check answers *)
Lemma collision_sorted c now h hs src :
  StronglySorted older h ->
  check_hash_collision c now h hs src = true <->
  exists op, op ∈ h /\ source op = opposite src /\ hash op = hs /\ since now (timestamp op) <= ms (window_ms c).
Proof.
  intros Hs. unfold check_hash_collision.
  set (fresh := fun op => negb (ms (window_ms c) <? since now (timestamp op))).
  assert (forall op, op ∈ take_while fresh (rev h) <-> op ∈ h /\ fresh op = true) as Htw.
  { intros op. induction h as [|x h IH] using rev_ind; [cbn; set_solver|].
    rewrite rev_app_distr. cbn [rev app take_while].
    assert (StronglySorted older h /\ Forall (fun y => older y x) h) as [Hs' Hx].
    { clear IH. induction h as [|y h IH]; [by repeat constructor|].
      cbn in Hs. apply StronglySorted_inv in Hs as [Hs Hy]. apply Forall_app in Hy as [Hy Hyx].
      destruct (IH Hs) as [? ?]. split; [by constructor|]. constructor; [by apply Forall_inv in Hyx | done]. }
    destruct (fresh x) eqn:Ef.
    - rewrite elem_of_cons, elem_of_app, list_elem_of_singleton, IH by done. naive_solver.
    - rewrite elem_of_nil, elem_of_app, list_elem_of_singleton. split; [done|].
      intros [[Hop | ->] Hf]; [|congruence]. rewrite Forall_forall in Hx. specialize (Hx op Hop).
      subst fresh. unfold older, since, sat_sub in *. cbv beta in *. lia. }
  rewrite existsb_exists. split.
  - intros (op & Hop & [Hsrc%bool_decide_eq_true Hh%eqs_true]%andb_prop).
    apply list_elem_of_In, Htw in Hop as [Hop Hf]. exists op. subst fresh. cbv beta in Hf.
    split_and!; try done. lia.
  - intros (op & Hop & Hsrc & Hh & Hf). exists op. split.
    + apply list_elem_of_In, Htw. split; [done|]. subst fresh. cbv beta. lia.
    + apply andb_true_intro. split; [by apply bool_decide_eq_true | by apply eqs_true].
Qed.

(** Among the last [max_history] operations of the log, one of source [src] with
    this hash, at most the window old. *)
Definition recent (c : LoopDetectionConfig) (now : Z) (log : list ClipboardOperation) (hs : str) (src : ClipboardSource) : Prop :=
  exists op, op ∈ drop_excess (max_history c) log /\ source op = src /\ hash op = hs /\
    since now (timestamp op) <= ms (window_ms c).

Lemma collision_recent c T log h now hs src :
  hist_inv c T log h -> T <= now -> 0 <= window_ms c -> window_ms c * 2 < 2 ^ 64 ->
  check_hash_collision c now h hs src = true <-> recent c now log hs (opposite src).
Proof.
  intros [Hs Hp Hl (dropped & -> & Hd)] HT Hw Hw2.
  assert (StronglySorted older h) as Hsh.
  { clear -Hs. induction dropped as [|y l IH]; [done|]. apply StronglySorted_inv in Hs as [Hs _]. auto. }
  rewrite collision_sorted by done. unfold recent, drop_excess.
  assert (cleanup_window c = ms (window_ms c * 2)) as Hcw by (unfold cleanup_window; by rewrite wrap_small by lia).
  rewrite length_app. split; intros (op & Hop & Hsrc & Hh & Hf); exists op; (split_and!; [|done..]).
  - rewrite drop_app_le by lia. apply elem_of_app. by right.
  - destruct Hd as [Hd|Hd].
    + rewrite drop_app_ge in Hop by lia. replace (_ - _)%nat with 0%nat in Hop by lia. by rewrite drop_0 in Hop.
    + apply list_elem_of_In in Hop.
      assert (op ∈ dropped ++ h) as [Hin|Hin]%elem_of_app; [|exfalso|done].
      { apply list_elem_of_In. rewrite <- (take_drop (length dropped + length h - max_history c) (dropped ++ h)).
        apply in_or_app. by right. }
      rewrite Forall_forall in Hd. specialize (Hd op Hin). unfold stale in Hd. rewrite Hcw in Hd.
      unfold ms, since, sat_sub in *. lia.
Qed.

(** ** The detector refines the full log *)
Section refinement.
Context {H : ContentHash}.

(** The calls that change a detector, with the times of their two clock reads. *)
Inductive event :=
| EvFormats (t now : Z) (formats : list ClipboardFormat) (src : ClipboardSource)
| EvMimes (t now : Z) (mimes : list str) (src : ClipboardSource)
| EvContent (t now : Z) (data : list Z) (src : ClipboardSource)
| EvSync (now : Z) (src : ClipboardSource)
| EvClear.

Definition apply_event (d : LoopDetector) (e : event) : LoopDetector :=
  match e with
  | EvFormats t now formats src => record_formats t now formats src d
  | EvMimes t now mimes src => record_mime_types t now mimes src d
  | EvContent t now data src => record_content t now data src d
  | EvSync now src => record_sync now src d
  | EvClear => detector_clear d
  end.

(** The specification keeps everything that was recorded since the last clear. *)
Definition log_event (c : LoopDetectionConfig) (l : list ClipboardOperation * list ClipboardOperation) (e : event) :=
  match e with
  | EvFormats t _ formats src => (l.1 ++ [mkOp (hash_formats formats) src t], l.2)
  | EvMimes t _ mimes src => (l.1 ++ [mkOp (hash_mime_types mimes) src t], l.2)
  | EvContent t _ data src =>
      if enable_content_hashing c then (l.1, l.2 ++ [mkOp (hash_content data) src t]) else l
  | EvSync _ _ => l
  | EvClear => ([], [])
  end.

(** The clock does not go back; the result is the time of the last read. *)
Fixpoint clocked (T : Z) (es : list event) : option Z :=
  match es with
  | [] => Some T
  | e :: es =>
      match e with
      | EvFormats t now _ _ | EvMimes t now _ _ | EvContent t now _ _ =>
          if (T <=? t) && (t <=? now) then clocked now es else None
      | EvSync now _ => if T <=? now then clocked now es else None
      | EvClear => clocked T es
      end
  end.

Definition detector_inv (c : LoopDetectionConfig) (T : Z) (l : list ClipboardOperation * list ClipboardOperation) (d : LoopDetector) : Prop :=
  config d = c /\ hist_inv c T l.1 (format_history d) /\ hist_inv c T l.2 (content_history d).

Lemma hist_inv_nil c T : hist_inv c T [] [].
Proof. constructor; [constructor | done | cbn; lia | exists []; eauto]. Qed.

Lemma hist_inv_later c T T' log h : 0 <= cleanup_window c -> T <= T' ->
  hist_inv c T log h -> hist_inv c T' log h.
Proof.
  intros Hw HT [Hs Hp Hl (dropped & E & Hd)]. constructor; [done| |done|].
  - eapply Forall_impl; [exact Hp|]. cbn. lia.
  - exists dropped. split; [done|]. destruct Hd as [|Hd]; [by left | right].
    eapply Forall_impl; [exact Hd|]. intros op. by apply stale_mono.
Qed.

Lemma cleanup_window_nonneg c : 0 <= cleanup_window c.
Proof. unfold cleanup_window, ms. pose proof (wrap_bound 64 (window_ms c * 2)). lia. Qed.

Lemma push_inv c T t now l d o1 o2 :
  detector_inv c T l d -> T <= t -> t <= now ->
  (o1 = [] \/ exists op, o1 = [op] /\ timestamp op = t) ->
  (o2 = [] \/ exists op, o2 = [op] /\ timestamp op = t) ->
  detector_inv c now (l.1 ++ o1, l.2 ++ o2)
    (cleanup_history now (mkDetector (config d) (format_history d ++ o1) (content_history d ++ o2)
                            (last_sync_rdp d) (last_sync_local d))).
Proof.
  intros (Ec & Hf & Hc) Ht Hn H1 H2. pose proof (cleanup_window_nonneg c).
  unfold cleanup_history. cbn [config format_history content_history]. rewrite Ec.
  split_and!; [done| |]; cbn [fst snd format_history content_history];
    [apply (hist_inv_step c T _ (format_history d)) | apply (hist_inv_step c T _ (content_history d))];
    try done; try lia.
  - destruct H1 as [->|(op & -> & Hop)]; [by left | right; exists op; split; [done|lia]].
  - destruct H2 as [->|(op & -> & Hop)]; [by left | right; exists op; split; [done|lia]].
Qed.

Lemma event_inv c T l d e T' :
  detector_inv c T l d -> clocked T [e] = Some T' ->
  detector_inv c T' (log_event c l e) (apply_event d e).
Proof.
  intros Hi. pose proof Hi as (Ec & Hf & Hc). pose proof (cleanup_window_nonneg c) as Hw.
  destruct e as [t now formats src|t now mimes src|t now data src|now src|]; cbn [clocked];
    try (destruct ((T <=? t) && (t <=? now)) eqn:E; [|done]; apply andb_prop in E as [?%Z.leb_le ?%Z.leb_le];
         intros [= <-]).
  - pose proof (push_inv c T t now l d [mkOp (hash_formats formats) src t] [] Hi) as Hp.
    rewrite !app_nil_r in Hp. apply Hp; eauto.
  - pose proof (push_inv c T t now l d [mkOp (hash_mime_types mimes) src t] [] Hi) as Hp.
    rewrite !app_nil_r in Hp. apply Hp; eauto.
  - cbn [apply_event log_event]. unfold record_content. rewrite Ec.
    destruct (enable_content_hashing c); cbn [negb].
    + pose proof (push_inv c T t now l d [] [mkOp (hash_content data) src t] Hi) as Hp.
      rewrite !app_nil_r in Hp. apply Hp; eauto.
    + split_and!; [done|..]; (eapply hist_inv_later; [done| |done]; lia).
  - destruct (Z.leb_spec T now); [|done]. intros [= <-]. cbn. unfold record_sync.
    destruct src; (split_and!; [done|..]; (eapply hist_inv_later; [done| |done]; lia)).
  - intros [= <-]. cbn. split_and!; [done|..]; apply hist_inv_nil.
Qed.

Lemma clocked_cons T e es T' : clocked T (e :: es) = Some T' ->
  exists T1, clocked T [e] = Some T1 /\ clocked T1 es = Some T'.
Proof. destruct e; cbn; try (case_match; [|done]); eauto. Qed.

Lemma run_inv c es T T' l d :
  detector_inv c T l d -> clocked T es = Some T' ->
  detector_inv c T' (fold_left (log_event c) es l) (fold_left apply_event es d).
Proof.
  revert T l d. induction es as [|e es IH]; intros T l d Hi; [by intros [= <-]|].
  intros (T1 & H1 & H2)%clocked_cons. cbn [fold_left]. eapply IH; [|done]. by eapply event_inv.
Qed.

(** The bounded, self-cleaning histories lose nothing that matters: after
    any sequence of calls with a clock that does not go back, the detector's
    three questions have the answers of the complete log restricted to its last
    [max_history] operations, and no history exceeds [max_history].  A format
    check looks for remote announcements, a MIME check for local ones. *)
Theorem detector_refines_log c T es now T' :
  0 <= window_ms c -> window_ms c * 2 < 2 ^ 64 ->
  clocked T es = Some T' -> T' <= now ->
  let d := fold_left apply_event es (with_config c) in
  let log := fold_left (log_event c) es ([], []) in
  (forall formats, would_cause_loop now formats d = true <-> recent c now log.1 (hash_formats formats) Rdp) /\
  (forall mimes, would_cause_loop_mime now mimes d = true <-> recent c now log.1 (hash_mime_types mimes) Local) /\
  (forall data src, would_cause_content_loop now data src d = true <->
     enable_content_hashing c = true /\ recent c now log.2 (hash_content data) (opposite src)) /\
  (length (format_history d) <= max_history c)%nat /\ (length (content_history d) <= max_history c)%nat.
Proof.
  intros Hw Hw2 Hck Hn. cbv zeta.
  assert (detector_inv c T ([], []) (with_config c)) as H0
    by (split_and!; [done | apply hist_inv_nil | apply hist_inv_nil]).
  destruct (run_inv c es T T' _ _ H0 Hck) as (Ec & Hf & Hc).
  set (d := fold_left apply_event es (with_config c)) in *. set (log := fold_left (log_event c) es ([], [])) in *.
  pose proof (fun hs src => collision_recent c T' log.1 (format_history d) now hs src Hf Hn Hw Hw2) as Qf.
  pose proof (fun hs src => collision_recent c T' log.2 (content_history d) now hs src Hc Hn Hw Hw2) as Qc.
  split_and!; [..|apply (hi_len _ _ _ _ Hf)|apply (hi_len _ _ _ _ Hc)].
  - intros formats. unfold would_cause_loop. rewrite Ec. apply Qf.
  - intros mimes. unfold would_cause_loop_mime. rewrite Ec. apply Qf.
  - intros data src. unfold would_cause_content_loop. rewrite Ec.
    destruct (enable_content_hashing c); cbn [negb]; [rewrite Qc; naive_solver | naive_solver].
Qed.
End refinement.

(** A toy digest: the bytes themselves. *)
Definition identity_hash : ContentHash := {| sha256_hex := fun bs => bs |}.

Lemma detector_refines_log_witness :
  would_cause_loop (H := identity_hash) (ms 600) [unicode_text]
    (fold_left (apply_event (H := identity_hash)) [EvFormats (ms 100) (ms 100) [unicode_text] Rdp] (with_config loop_config_default))
  = true.
Proof.
  apply (detector_refines_log (H := identity_hash) loop_config_default 0
           [EvFormats (ms 100) (ms 100) [unicode_text] Rdp] (ms 600) (ms 100)).
  - by vm_compute.
  - by vm_compute.
  - by vm_compute.
  - by vm_compute.
  - exists (mkOp (hash_formats (H := identity_hash) [unicode_text]) Rdp (ms 100)).
    split_and!; [by vm_compute; left | done | done | by vm_compute].
Defined.

(** The hash of a format list does not delimit its fields: a name can imitate the
    identifier of another format, so two different lists share their digest
    whatever the hash function. *)
Lemma formats_hash_ambiguous {H : ContentHash} :
  hash_formats [with_name 1 [2; 0; 0; 0]] = hash_formats [format_new 1; format_new 2].
Proof. reflexivity. Qed.
