(* ===== verification/Sync.v ===== *)
(** * Clipboard ownership: the SyncManager state machine

    Models src/src/rdp/channels/clipboard/sync.rs.  The clock reads inside one
    call are taken as one instant, the call's [now]. *)
From S2P Require Import Prelude Text ClipBase LoopDetector.

(** [sync.rs:9-9 ECHO_WINDOW] *)
Definition ECHO_WINDOW : Z := secs 2.

(** [sync.rs:12-15 SyncDirection] *)
Inductive SyncDirection := RdpToPortal | PortalToRdp.
#[export] Instance SyncDirection_eq_dec : EqDecision SyncDirection.
Proof. solve_decision. Defined.

(** [sync.rs:17-20 PortalSyncDecision] *)
Inductive PortalSyncDecision := Allow | Block.
#[export] Instance PortalSyncDecision_eq_dec : EqDecision PortalSyncDecision.
Proof. solve_decision. Defined.

(** [sync.rs:23-28 ClipboardState] *)
Inductive ClipboardState :=
| Idle
| RdpOwned (formats : list ClipboardFormat) (since_ : Z)
| PortalOwned (mimes : list str)
| Syncing (d : SyncDirection).

(** Equality ignores the time and the names of the formats.
    [sync.rs:30-40 ClipboardState::eq] *)
Definition state_eqb (a b : ClipboardState) : bool :=
  match a, b with
  | Idle, Idle => true
  | RdpOwned f _, RdpOwned g _ => bool_decide (map id f = map id g)
  | PortalOwned m, PortalOwned n => bool_decide (m = n)
  | Syncing d, Syncing e => bool_decide (d = e)
  | _, _ => false
  end.

(** [sync.rs:45-48 SyncManager] *)
Record SyncManager := mkSync { state : ClipboardState; detector : LoopDetector }.

(** [sync.rs:55-60 new] *)
Definition sync_new : SyncManager := mkSync Idle detector_new.
(** [sync.rs:61-66 with_config] *)
Definition sync_with_config (c : LoopDetectionConfig) : SyncManager := mkSync Idle (LoopDetector.with_config c).

Section manager.
Context `{H : ContentHash}.

(** [sync.rs:70-78 handle_rdp_formats] *)
Definition handle_rdp_formats (now : Z) (formats : list ClipboardFormat) (m : SyncManager) : SyncManager * bool :=
  if would_cause_loop now formats (detector m) then (m, false)
  else
    let d := record_formats now now formats Rdp (detector m) in
    let d := record_sync now Rdp d in
    (mkSync (RdpOwned formats now) d, true).

(** [sync.rs:79-97 handle_portal_formats] *)
Definition handle_portal_formats (now : Z) (mime_types : list str) (authoritative : bool) (m : SyncManager)
    : SyncManager * PortalSyncDecision :=
  let owned := match state m with
               | RdpOwned _ since_ => negb authoritative || (since now since_ <? ECHO_WINDOW)
               | _ => false
               end in
  if owned then (m, Block)
  else if negb authoritative && would_cause_loop_mime now mime_types (detector m) then (m, Block)
  else
    let d := record_mime_types now now mime_types Local (detector m) in
    let d := record_sync now Local d in
    (mkSync (PortalOwned mime_types) d, Allow).

(** [sync.rs:98-110 check_content] *)
Definition check_content (now : Z) (content : list Z) (from_rdp : bool) (m : SyncManager) : SyncManager * bool :=
  let source := if from_rdp then Rdp else Local in
  if would_cause_content_loop now content source (detector m) then (m, false)
  else (mkSync (state m) (record_content now now content source (detector m)), true).

(** [sync.rs:111-113 set_syncing] *)
Definition set_syncing (direction : SyncDirection) (m : SyncManager) : SyncManager :=
  mkSync (Syncing direction) (detector m).
(** [sync.rs:114-116 reset] *)
Definition reset (m : SyncManager) : SyncManager := mkSync Idle (detector m).
(** [sync.rs:117-119 reset_loop_detector] *)
Definition reset_loop_detector (m : SyncManager) : SyncManager := mkSync (state m) (detector_clear (detector m)).
(** [sync.rs:120-122 would_cause_loop_rdp] *)
Definition would_cause_loop_rdp (now : Z) (formats : list ClipboardFormat) (m : SyncManager) : bool :=
  would_cause_loop now formats (detector m).
(** [sync.rs:123-125 would_cause_loop_portal] *)
Definition would_cause_loop_portal (now : Z) (mimes : list str) (m : SyncManager) : bool :=
  would_cause_loop_mime now mimes (detector m).
(** [sync.rs:126-129 set_rdp_formats] *)
Definition set_rdp_formats (now : Z) (formats : list ClipboardFormat) (m : SyncManager) : SyncManager :=
  mkSync (RdpOwned formats now) (record_formats now now formats Rdp (detector m)).
(** [sync.rs:130-134 set_portal_formats] *)
Definition set_portal_formats (now : Z) (mimes : list str) (m : SyncManager) : SyncManager :=
  mkSync (PortalOwned mimes) (record_mime_types now now mimes Local (detector m)).
(** [sync.rs:135-141 is_rate_limited] *)
Definition sync_is_rate_limited (now : Z) (from_rdp : bool) (m : SyncManager) : bool :=
  is_rate_limited now (if from_rdp then Rdp else Local) (detector m).

(** ** Announcements from both sides *)
(** The calls that apply the policy, with the time of each. *)
Inductive sync_event :=
| RdpFormats (now : Z) (formats : list ClipboardFormat)
| PortalFormats (now : Z) (mimes : list str) (authoritative : bool)
| Content (now : Z) (content : list Z) (from_rdp : bool).

Definition event_time (e : sync_event) : Z :=
  match e with RdpFormats t _ | PortalFormats t _ _ | Content t _ _ => t end.

(** The manager after the event, and whether the event was let through. *)
Definition sync_step (m : SyncManager) (e : sync_event) : SyncManager * bool :=
  match e with
  | RdpFormats now formats => handle_rdp_formats now formats m
  | PortalFormats now mimes auth =>
      let '(m, d) := handle_portal_formats now mimes auth m in (m, bool_decide (d = Allow))
  | Content now content from_rdp => check_content now content from_rdp m
  end.

Definition sync_run (m : SyncManager) (es : list sync_event) : SyncManager :=
  fold_left (fun m e => (sync_step m e).1) es m.

(** The events happen in order, none before [T]. *)
Fixpoint in_order (T : Z) (es : list sync_event) : Prop :=
  match es with
  | [] => True
  | e :: es => T <= event_time e /\ in_order (event_time e) es
  end.

(** The remote side took the clipboard at [t1]: either it still owns it, or the
    echo window has passed. *)
Definition echo_inv (t1 T : Z) (m : SyncManager) : Prop :=
  (exists formats s, state m = RdpOwned formats s /\ t1 <= s <= T) \/ t1 + ECHO_WINDOW <= T.

Lemma echo_step t1 T m e :
  echo_inv t1 T m -> T <= event_time e -> echo_inv t1 (event_time e) (sync_step m e).1.
Proof.
  intros [(formats & s & Es & Hs)|Hw] Ht; [|right; lia].
  destruct e as [now f|now mimes auth|now content rdp]; cbn [event_time sync_step] in *.
  - unfold handle_rdp_formats. destruct (would_cause_loop _ _ _); cbn [fst].
    + left. exists formats, s. split; [done | lia].
    + left. exists f, now. cbn. split; [done | lia].
  - unfold handle_portal_formats. rewrite Es.
    destruct (negb auth || (since now s <? ECHO_WINDOW)) eqn:E.
    { left. exists formats, s. cbn. split; [done | lia]. }
    apply orb_false_iff in E as [_ E%Z.ltb_ge]. right. unfold since, sat_sub in E. unfold ECHO_WINDOW, secs in *. lia.
  - unfold check_content. destruct (would_cause_content_loop _ _ _ _); cbn [fst];
      (left; exists formats, s; split; [done | lia]).
Qed.

Lemma echo_run t1 T m es T' : echo_inv t1 T m -> in_order T es ->
  (forall e, last es = Some e -> event_time e <= T') -> T <= T' -> echo_inv t1 T' (sync_run m es).
Proof.
  revert T m. induction es as [|e es IH]; intros T m Hi Ho Hl HT.
  - cbn. destruct Hi as [(f & s & ? & ?)|]; [left; exists f, s; split; [done|lia] | right; lia].
  - destruct Ho as [Ht Ho]. change (sync_run m (e :: es)) with (sync_run (sync_step m e).1 es).
    apply (IH (event_time e)).
    + eapply echo_step; done.
    + done.
    + intros e' He'. apply Hl. destruct es; [done | exact He'].
    + destruct es as [|e' es]; [by apply Hl|].
      assert (forall l t, in_order t l -> forall x, last l = Some x -> t <= event_time x) as Hmono.
      { clear. induction l as [|y l IH]; intros t Hl x Hx; [done|]. destruct Hl as [H1 H2].
        destruct l as [|z l]; [by injection Hx as <-|]. etrans; [exact H1|]. by apply IH. }
      destruct (last (e' :: es)) as [x|] eqn:Ex; [|by apply last_None in Ex].
      etrans; [by apply (Hmono (e' :: es) _ Ho x)|]. apply Hl. done.
Qed.

(** No echo within the window: once a remote announcement was accepted, the
    local side cannot take the clipboard back during the next two seconds,
    whatever announcements and contents arrive in between and whether or not
    its announcement is authoritative. *)
Theorem local_never_displaces_fresh_remote m t1 formats m1 es t2 mimes auth m2 :
  handle_rdp_formats t1 formats m = (m1, true) ->
  in_order t1 (es ++ [PortalFormats t2 mimes auth]) ->
  handle_portal_formats t2 mimes auth (sync_run m1 es) = (m2, Allow) ->
  t1 + ECHO_WINDOW <= t2.
Proof.
  intros H1 Ho H2.
  assert (echo_inv t1 t1 m1) as Hi.
  { unfold handle_rdp_formats in H1. destruct (would_cause_loop _ _ _); [done|]. injection H1 as <-.
    left. exists formats, t1. split; [done | lia]. }
  assert (in_order t1 es /\ (forall e, last es = Some e -> event_time e <= t2) /\ t1 <= t2) as (Hes & Hle & Ht).
  { clear -Ho. revert t1 Ho. induction es as [|e es IH]; intros t Ho; cbn in *; [naive_solver|].
    destruct Ho as [He Ho]. destruct (IH _ Ho) as (I1 & I2 & I3). split; [done|]. split; [|lia].
    intros x Hx. destruct es; [injection Hx as <-; lia | auto]. }
  pose proof (echo_run t1 t1 m1 es t2 Hi Hes Hle Ht) as [(f & s & Es & Hs)|]; [|done].
  unfold handle_portal_formats in H2. rewrite Es in H2.
  destruct (negb auth || (since t2 s <? ECHO_WINDOW)) eqn:E; [done|].
  apply orb_false_iff in E as [_ E%Z.ltb_ge]. unfold since, sat_sub in E. unfold ECHO_WINDOW, secs in *. lia.
Qed.

(** An announcement the other side makes in answer to a local one is not
    recognised: [handle_rdp_formats] asks about earlier remote announcements. *)
Lemma remote_echo_of_local_accepted t t' mimes formats :
  (handle_rdp_formats t' formats (sync_run sync_new [PortalFormats t mimes true])).2 = true.
Proof.
  change (sync_run sync_new [PortalFormats t mimes true]) with (handle_portal_formats t mimes true sync_new).1.
  unfold handle_rdp_formats. replace (would_cause_loop _ _ _) with false; [done|]. symmetry.
  unfold would_cause_loop, check_hash_collision.
  assert (forall h, h = [] \/ h = [mkOp (hash_mime_types mimes) Local t] ->
    existsb (fun op => bool_decide (source op = opposite Local) && eqs (hash op) (hash_formats formats))
      (take_while (fun op => negb (ms (window_ms loop_config_default) <? since t' (timestamp op))) (rev h)) = false) as Hh.
  { intros h [-> | ->]; [done|]. cbn [rev app take_while]. by destruct (negb _). }
  apply Hh. cbn [handle_portal_formats fst detector state sync_new negb andb].
  unfold record_sync, record_mime_types, cleanup_history, drop_stale, drop_excess.
  cbn [format_history push_format detector_new LoopDetector.with_config app config drop_while max_history loop_config_default].
  destruct (_ <? _); [by left | by right].
Qed.
End manager.

Lemma local_never_displaces_fresh_remote_witness :
  secs 1 + ECHO_WINDOW <= secs 4.
Proof.
  pose (m1 := (handle_rdp_formats (H := identity_hash) (secs 1) [unicode_text] sync_new).1).
  apply (local_never_displaces_fresh_remote (H := identity_hash) sync_new (secs 1) [unicode_text] m1
           [PortalFormats (secs 2) [lit "text/plain"] true] (secs 4) [lit "text/plain"] true
           (handle_portal_formats (H := identity_hash) (secs 4) [lit "text/plain"] true
              (sync_run (H := identity_hash) m1 [PortalFormats (secs 2) [lit "text/plain"] true])).1).
  - by vm_compute.
  - by vm_compute.
  - by vm_compute.
Defined.
