(* ===== verification/ClipManager.v ===== *)
(** * The clipboard orchestrator

    Models src/src/rdp/channels/clipboard/manager.rs but for the file transfers,
    which are ClipIncoming.v's, and the two MIME tables of clipboard/mod.rs.  The
    state is what the handlers share; what they say to the client and to the
    owner of the local clipboard goes to the log of ClipIncoming.v, which also
    decides what fails.  The texts of the provider's own errors are left out. *)
From S2P Require Import Prelude Text ClipBase ClipText ClipFiles Sanitize ClipImage ClipIncoming LoopDetector Sync.

(** ** MIME types and registered formats *)

(** [clipboard/mod.rs:46-53 format_name_to_mime] *)
Definition format_name_to_mime (name : str) : option str :=
  if one_of name ["FileGroupDescriptorW"; "FileGroupDescriptor"]%string then Some (lit "text/uri-list")
  else if one_of name ["HTML Format"]%string then Some (lit "text/html")
  else if one_of name ["Rich Text Format"]%string then Some (lit "text/rtf")
  else None.

Definition known_mime (output : list str) (mime : str) : bool := existsb (eqs mime) output.
Definition mime_of_format (f : ClipboardFormat) : option str :=
  match rdp_format_to_mime (id f) with Some m => Some m | None => name f ≫= format_name_to_mime end.
Definition add_mime (output : list str) (f : ClipboardFormat) : list str :=
  match mime_of_format f with
  | None => output
  | Some mime =>
      let output := if known_mime output mime then output else output ++ [mime] in
      if eqs mime (lit "text/uri-list") && negb (known_mime output (lit "x-special/gnome-copied-files"))
      then output ++ [lit "x-special/gnome-copied-files"] else output
  end.
(** [clipboard/mod.rs:55-76 rdp_formats_to_mimes] *)
Definition rdp_formats_to_mimes (formats : list ClipboardFormat) : list str :=
  let output := fold_left add_mime formats [] in
  if bool_decide (output = []) && negb (bool_decide (formats = [])) then [lit "text/plain"] else output.

(** Registered formats have other numbers in every session.
    [manager.rs:405-450 lookup_format_id_for_mime] *)
Definition lookup_format_id_for_mime (formats : list ClipboardFormat) (mime : str) : option Z :=
  let text := eqs mime (lit "text/plain;charset=utf-8") || eqs mime (lit "text/plain") in
  if text && has_id 13 formats then Some 13
  else if text && has_id 1 formats then Some 1
  else
    id <$> List.find (fun f =>
      (match rdp_format_to_mime (id f) with Some m => eqs m mime | None => false end) ||
      (match name f ≫= format_name_to_mime with
       | Some m => eqs m mime || eqs m (lit "text/uri-list") && eqs mime (lit "x-special/gnome-copied-files")
       | None => false
       end)) formats.

(** ** Configuration *)

(** [manager.rs:49-77 ClipboardOrchestratorConfig] *)
Record ClipboardOrchestratorConfig := mkConfig {
  max_data_size : Z; enable_images : bool; enable_files : bool; enable_html : bool; enable_rtf : bool;
  chunk_size : Z; timeout_ms : Z; loop_detection_window_ms : Z; rate_limit_ms : Z;
}.
(** [manager.rs:80-92 default] *)
Definition config_default : ClipboardOrchestratorConfig := mkConfig (16 * 1024 * 1024) true true true true (64 * 1024) 5000 500 200.

Definition to_ascii_lowercase (s : str) : str := map ascii_lower s.
Definition eq_ignore_ascii_case (a b : str) : bool := eqs (to_ascii_lowercase a) (to_ascii_lowercase b).

(** [manager.rs:1887-1904 handle_portal_formats] *)
Definition mime_enabled (c : ClipboardOrchestratorConfig) (mime : str) : bool :=
  if starts_with (lit "text/html") (to_ascii_lowercase mime) && negb (enable_html c) then false
  else if eq_ignore_ascii_case mime (lit "text/rtf") && negb (enable_rtf c) then false
  else if starts_with (lit "image/") mime && negb (enable_images c) then false
  else if eq_ignore_ascii_case mime (lit "text/uri-list") && negb (enable_files c) then false
  else true.

(** ** Conversions *)

(** [String::from_utf16_lossy] *)
Fixpoint from_utf16_lossy (us : list Z) : str :=
  match us with
  | [] => []
  | u :: us =>
      if is_high_surrogate u then
        match us with
        | v :: us' => if is_low_surrogate v then 0x10000 + (u - 0xD800) * 1024 + (v - 0xDC00) :: from_utf16_lossy us'
                      else 0xFFFD :: from_utf16_lossy us
        | [] => [0xFFFD]
        end
      else if is_low_surrogate u then 0xFFFD :: from_utf16_lossy us
      else u :: from_utf16_lossy us
  end.

(** Windows' text up to its terminator, with local line endings.
    [manager.rs:1717-1734 handle_rdp_data_response] *)
Definition windows_text (data : list Z) : list Z :=
  as_bytes (sanitize_text_for_linux (from_utf16_lossy (take_while (fun u => negb (u =? 0)) (units_le data)))).

(** [manager.rs:1083-1100 handle_rdp_data_request] *)
Definition text_for_windows (data : list Z) : list Z :=
  (encode_utf16 (sanitize_text_for_windows (from_utf8_lossy data)) ≫= le16) ++ [0; 0].

Section images.
Context `{ImageLibrary}.

(** What the client asked for, from what the local clipboard holds.
    [manager.rs:1083-1153 handle_rdp_data_request] *)
Definition to_rdp (format_id : Z) (mime : str) (data : list Z) : ClipboardResult (list Z) :=
  if format_id =? 13 then Ok (text_for_windows data)
  else if format_id =? 8 then
    if starts_with (lit "image/png") mime then png_to_dib data
    else if starts_with (lit "image/jpeg") mime then jpeg_to_dib data
    else if starts_with (lit "image/bmp") mime || starts_with (lit "image/x-bmp") mime then bmp_to_dib data
    else Ok data
  else if format_id =? 17 then
    if starts_with (lit "image/png") mime then png_to_dibv5 data
    else if starts_with (lit "image/jpeg") mime then jpeg_to_dibv5 data
    else Ok data
  else Ok data.

Definition too_small {A} : ClipboardResult A := Err (ImageDecode (lit "Data too small for bitmap")).

(** What the local application asked for, from what the client sent.
    [manager.rs:1605-1748 handle_rdp_data_response] *)
Definition to_local (mime : str) (data : list Z) : ClipboardResult (list Z) :=
  if starts_with (lit "image/png") mime then
    if 4 <=? blen data then if le_at 4 0 data =? 40 then dib_to_png data else dibv5_to_png data else too_small
  else if starts_with (lit "image/jpeg") mime then
    if 4 <=? blen data then if le_at 4 0 data =? 124 then dibv5_to_jpeg data else dib_to_jpeg data else too_small
  else if starts_with (lit "image/bmp") mime || starts_with (lit "image/x-bmp") mime then dib_to_bmp data
  else if eqs mime (lit "text/rtf") || eqs mime (lit "application/rtf") then Ok (as_bytes (sanitize_text_for_linux (from_utf8_lossy data)))
  else if (starts_with (lit "text/plain") mime || starts_with (lit "text/html") mime) && (2 <=? blen data) then Ok (windows_text data)
  else Ok data.
End images.

(** ** State *)

(** [manager.rs:97-97 EAGER_FETCH_SERIAL] *)
Definition EAGER_FETCH_SERIAL : Z := u32_max.

(** What the event handlers share; the times in the queue are not read.
    [manager.rs:196-249 ClipboardOrchestrator] *)
Record Manager := mkManager {
  pending : list (Z * str);
  current_rdp_formats : list ClipboardFormat;
  local_advertised_formats : list ClipboardFormat;
  sync_manager : SyncManager;
  world : World;
}.
Definition with_pending (v : list (Z * str)) (m : Manager) : Manager :=
  mkManager v (current_rdp_formats m) (local_advertised_formats m) (sync_manager m) (world m).
Definition with_rdp_formats (v : list ClipboardFormat) (m : Manager) : Manager :=
  mkManager (pending m) v (local_advertised_formats m) (sync_manager m) (world m).
Definition with_advertised (v : list ClipboardFormat) (m : Manager) : Manager :=
  mkManager (pending m) (current_rdp_formats m) v (sync_manager m) (world m).
Definition with_sync (v : SyncManager) (m : Manager) : Manager :=
  mkManager (pending m) (current_rdp_formats m) (local_advertised_formats m) v (world m).
Definition with_world (v : World) (m : Manager) : Manager :=
  mkManager (pending m) (current_rdp_formats m) (local_advertised_formats m) (sync_manager m) v.

(** [manager.rs:469-531 new] *)
Definition manager_new (c : ClipboardOrchestratorConfig) (download_dir : path) (d : gmap path (list Z)) : Manager :=
  mkManager [] [] []
    (sync_with_config (mkLoopConfig (loop_detection_window_ms c) 10 true (if 0 <? rate_limit_ms c then Some (rate_limit_ms c) else None)))
    (fresh_world download_dir d).

(** ** The handlers *)

Section handlers.
Context `{ContentHash, ImageLibrary, FileSystem, Unicode, Outside} (provider upfront connected : bool).

(** The handlers may fail, and keep what they changed before. *)
Definition handler (A : Type) : Type := Manager -> outcome Failure.ClipboardError A * Manager.
Definition ret {A} (x : A) : handler A := fun m => (Ok x, m).
Definition bind {A B} (h : handler A) (k : A -> handler B) : handler B := fun m =>
  match h m with (Ok x, m) => k x m | (Err e, m) => (Err e, m) | (Panic, m) => (Panic, m) end.
Definition fail {A} (e : Failure.ClipboardError) : handler A := fun m => (Err e, m).
Definition get {A} (f : Manager -> A) : handler A := fun m => (Ok (f m), m).
Definition modify (f : Manager -> Manager) : handler unit := fun m => (Ok tt, f m).
(** An effect, and whether it succeeded. *)
Definition act (e : effect) : handler bool := fun m => let '(ok, w) := perform e (world m) in (Ok ok, with_world w m).
(** A call of ClipIncoming.v. *)
Definition on_world {A} (f : World -> outcome Failure.ClipboardError A * World) : handler A := fun m => let '(r, w) := f (world m) in (r, with_world w m).
End handlers.

#[local] Notation "'let!' x := m 'in' k" := (bind m (fun x => k)) (at level 200, x name, m at level 100, k at level 200).
#[local] Notation "'do!' m 'in' k" := (bind m (fun _ => k)) (at level 200, m at level 100, k at level 200).

Section orchestrator.
Context `{ContentHash, ImageLibrary, FileSystem, Unicode, Outside} (provider upfront connected : bool).

(** Messages to the client are lost when it is gone; the caller only logs that. *)
Definition say (e : effect) : handler bool := if connected then act e else ret false.
Definition send_ (e : effect) : handler unit := do! say e in ret tt.
(** [manager.rs:1299-1319 send_format_data_error] *)
Definition send_format_data_error : handler unit := send_ (FormatData None).

Definition push (serial : Z) (mime : str) : handler unit := modify (fun m => with_pending (pending m ++ [(serial, mime)]) m).
Definition forget (serial : Z) : handler unit := modify (fun m => with_pending (List.filter (fun p => negb (p.1 =? serial)) (pending m)) m).

(** A provider that needs the data before the announcement gets the text fetched
    at once. *)
Definition fetch_eagerly : handler unit :=
  do! push EAGER_FETCH_SERIAL (lit "text/plain") in
  let! sent := say (InitiatePaste 13) in
  if sent : bool then ret tt else forget EAGER_FETCH_SERIAL.

(** [manager.rs:890-1005 handle_rdp_format_list] *)
Definition handle_rdp_format_list (now : Z) (formats : list ClipboardFormat) : handler unit :=
  do! modify (with_rdp_formats formats) in
  let! m := get (fun m => m) in
  let '(s, should_sync) := Sync.handle_rdp_formats now formats (sync_manager m) in
  do! modify (with_sync s) in
  let mimes := rdp_formats_to_mimes formats in
  if negb should_sync || bool_decide (mimes = []) || negb provider then ret tt
  else if upfront then
    let! cleared := act (Announce []) in
    if negb cleared then fail (Failure.PortalError (lit "Provider clear selection failed: "))
    else if existsb (starts_with (lit "text/plain")) mimes && has_id 13 formats then fetch_eagerly else ret tt
  else
    let! announced := act (Announce mimes) in
    if announced : bool then ret tt else fail (Failure.PortalError (lit "Provider announce_formats failed: ")).

(** What the local clipboard holds, if it answers. *)
Definition read_data (mime : str) : handler (option (list Z)) :=
  if negb provider then ret None
  else
    let! m := get (fun m => m) in
    let! ok := act (ReadData mime) in
    ret (if ok : bool then Some (reads (log (world m)) mime) else None).

Definition outgoing_of (paths : list path) : list OutgoingFile :=
  omap (fun p => match metadata p with inr (_, len) => Some (mkOutgoing p len) | inl _ => None end) paths.

(** [manager.rs:1185-1296 handle_file_descriptor_request] *)
Definition handle_file_descriptor_request : handler unit :=
  let! first := read_data (lit "x-special/gnome-copied-files") in
  let! uris := match first with
               | Some ((_ :: _) as d) => ret (Some d)
               | _ => read_data (lit "text/uri-list")
               end in
  match uris with
  | None => send_format_data_error
  | Some d =>
      match parse_file_uris d with
      | [] => send_format_data_error
      | paths =>
          do! modify (fun m => with_world (on_xfer (fun t => with_outgoing (outgoing_of paths) (clear_outgoing t)) (world m)) m) in
          match build_list paths with
          | Ok descriptor => send_ (FormatData (Some descriptor))
          | Err _ => send_format_data_error
          | Panic => fun m => (Panic, m)
          end
      end
  end.

(** [manager.rs:1012-1180 handle_rdp_data_request] *)
Definition handle_rdp_data_request (format_id : Z) : handler unit :=
  let! advertised := get local_advertised_formats in
  let format_name := List.find (fun f => (id f =? format_id) || ((format_id =? 0) && bool_decide (is_Some (name f)))) advertised ≫= name in
  if bool_decide (format_name = Some (lit "FileGroupDescriptorW")) then handle_file_descriptor_request
  else match rdp_format_to_mime format_id with
  | None => send_format_data_error
  | Some mime =>
      let! data := read_data mime in
      match data with
      | None => send_format_data_error
      | Some d =>
          match to_rdp format_id mime d with
          | Ok rdp_data => send_ (FormatData (Some rdp_data))
          | Err e => fail (Failure.Core e)
          | Panic => fun m => (Panic, m)
          end
      end
  end.

(** The text a provider was promised at the announcement.
    [manager.rs:1376-1438 handle_rdp_data_response] *)
Definition provide_eagerly (data : list Z) : handler unit :=
  if 2 <=? blen data then
    let text := windows_text data in
    do! act (Provide (lit "text/plain") text) in
    do! act (Provide (lit "text/plain;charset=utf-8") text) in
    if upfront then do! act (Announce [lit "text/plain"; lit "text/plain;charset=utf-8"]) in ret tt else ret tt
  else ret tt.

(** Requests the local clipboard's owner gets no data for. *)
Fixpoint cancel_all (entries : list (Z * str)) : handler unit :=
  match entries with [] => ret tt | (serial, mime) :: entries => do! act (Complete serial mime [] false) in cancel_all entries end.

(** The data are delivered; one delivery ends all other requests.
    [manager.rs:1750-1799 handle_rdp_data_response] *)
Definition deliver (serial : Z) (mime : str) (data : list Z) : handler unit :=
  let! delivered := act (Complete serial mime data true) in
  if delivered : bool then
    let! unfulfilled := get (fun m => List.filter (fun p => negb (p.1 =? serial)) (pending m)) in
    do! modify (with_pending []) in
    cancel_all unfulfilled
  else forget serial.

(** [manager.rs:1330-1803 handle_rdp_data_response] *)
Definition handle_rdp_data_response (now : Z) (data : list Z) : handler unit :=
  let! m := get (fun m => m) in
  let '(s, fresh) := check_content now data true (sync_manager m) in
  do! modify (with_sync s) in
  if negb fresh || negb provider then ret tt
  else match pending m with
  | [] => ret tt
  | (serial, mime) :: rest =>
      do! modify (with_pending rest) in
      let generic := match to_local mime data with
                     | Ok d => deliver serial mime d
                     | Err e => fail (Failure.Core e)
                     | Panic => fun m => (Panic, m)
                     end in
      if serial =? EAGER_FETCH_SERIAL then provide_eagerly data
      else if eqs mime (lit "text/uri-list") || eqs mime (lit "x-special/gnome-copied-files") then
        match parse_list data with
        | Ok descs => on_world (fun w => match begin_transfer provider connected serial mime descs w with Ok w => (Ok tt, w) | _ => (Panic, w) end)
        | Err _ => generic
        | Panic => fun m => (Panic, m)
        end
      else generic
  end.

(** [manager.rs:1815-1848 handle_rdp_data_error] *)
Definition handle_rdp_data_error : handler unit :=
  let! entries := get pending in
  do! (if provider then cancel_all entries else ret tt) in
  modify (with_pending []).

(** [manager.rs:1853-1993 handle_portal_formats] *)
Definition handle_portal_formats (config : ClipboardOrchestratorConfig) (now : Z) (mimes : list str) (force : bool) : handler unit :=
  let! m := get (fun m => m) in
  let '(s, decision) := Sync.handle_portal_formats now mimes force (sync_manager m) in
  do! modify (with_sync s) in
  match decision with
  | Block => ret tt
  | Allow =>
      let filtered := List.filter (mime_enabled config) mimes in
      match filtered with
      | [] => ret tt
      | _ =>
          let formats := mime_to_rdp_formats filtered in
          do! modify (with_advertised formats) in
          send_ (InitiateCopy formats)
      end
  end.

(** [manager.rs:2000-2050 handle_portal_data_request] *)
Definition handle_portal_data_request (mime : str) : handler unit :=
  let! formats := get current_rdp_formats in
  match lookup_format_id_for_mime formats mime with
  | Some id => send_ (InitiatePaste id)
  | None =>
      match mime_to_rdp_formats [mime] with
      | f :: _ => send_ (InitiatePaste (id f))
      | [] => fail (Failure.Core (UnsupportedFormat mime))
      end
  end.

(** [manager.rs:104-143 ClipboardEvent] *)
Inductive ClipboardEvent :=
| RdpReady | RdpFormatList (formats : list ClipboardFormat) | RdpDataRequest (format_id : Z) | RdpDataResponse (data : list Z) | RdpDataError
| RdpFileContentsRequest (stream_id list_index position size : Z) (is_size_request : bool)
| RdpFileContentsResponse (stream_id : Z) (data : list Z) (is_error : bool)
| PortalFormatsAvailable (mimes : list str) (force : bool) | PortalDataRequest (mime : str).

(** [manager.rs:718-883 handle_event] *)
Definition handle_event (config : ClipboardOrchestratorConfig) (now : Z) (e : ClipboardEvent) : handler unit :=
  match e with
  | RdpReady =>
      let! formats := get local_advertised_formats in
      match formats with [] => ret tt | _ => send_ (InitiateCopy formats) end
  | RdpFormatList formats => handle_rdp_format_list now formats
  | RdpDataRequest format_id => handle_rdp_data_request format_id
  | RdpDataResponse data => handle_rdp_data_response now data
  | RdpDataError => handle_rdp_data_error
  | RdpFileContentsRequest stream index position size size_only =>
      on_world (handle_rdp_file_contents_request connected stream index position size size_only)
  | RdpFileContentsResponse stream data is_error => on_world (handle_rdp_file_contents_response provider connected stream data is_error)
  | PortalFormatsAvailable mimes force => handle_portal_formats config now mimes force
  | PortalDataRequest mime => handle_portal_data_request mime
  end.

(** The connection ends: what the client offered and asked for before stays.
    [manager.rs:2419-2430 clear_connection_state] *)
Definition clear_connection_state (m : Manager) : Manager :=
  let w := if provider then (perform (Announce []) (world m)).2 else world m in
  let w := clear_incoming w in
  with_world (on_xfer (fun t => with_serial None (set_pending_descriptors [] (clear_outgoing t))) w) m.

(** ** The event loop *)

(** What the owner of the local clipboard reports.
    [provider.rs:14-23 ClipboardProviderEvent] *)
Inductive ClipboardProviderEvent := SelectionChanged (mimes : list str) (force : bool) | SelectionTransfer (serial : Z) (mime : str).

(** The reports on the clipboard's health. *)
Inductive Health := Failed | Healthy.
(** [core/error.rs:10-67 ClipboardError] *)
Definition core_text (e : ClipboardError) : str :=
  match e with
  | Backend m => lit "backend error: " ++ m
  | FormatConversion m => lit "format conversion failed: " ++ m
  | UnsupportedFormat m => lit "unsupported format: " ++ m
  | InvalidUtf8 => lit "invalid UTF-8 data"
  | InvalidUtf16 => lit "invalid UTF-16 data"
  | ImageDecode m => lit "image decode error: " ++ m
  | ImageEncode m => lit "image encode error: " ++ m
  | DataSizeExceeded actual max => lit "data size " ++ fmt_dec actual ++ lit " exceeds maximum " ++ fmt_dec max
  | TransferTimeout ms => lit "transfer timeout after " ++ fmt_dec ms ++ lit "ms"
  | TransferCancelled => lit "transfer cancelled"
  | LoopDetected => lit "clipboard loop detected"
  | InvalidState m => lit "invalid state: " ++ m
  | FileNotFound m => lit "file not found: " ++ m
  | PermissionDenied m => lit "permission denied: " ++ m
  | Io => lit "I/O error: "
  end.
(** [clipboard/error.rs:8-32 ClipboardError] *)
Definition error_text (e : Failure.ClipboardError) : str :=
  match e with
  | Failure.Core e => core_text e
  | Failure.PortalError m => lit "clipboard provider: " ++ m
  | Failure.InvalidState m => lit "invalid clipboard state: " ++ m
  | Failure.RdpConnectionError m => lit "RDP clipboard channel: " ++ m
  | Failure.DBus m => lit "clipboard IPC: " ++ m
  | Failure.ChannelSend => lit "clipboard event sender closed"
  | Failure.ChannelReceive => lit "clipboard event receiver closed"
  | Failure.LoopDetected => lit "clipboard loop suppressed"
  | Failure.FileIoError m => lit "clipboard file I/O: " ++ m
  | Failure.NotInitialized => lit "clipboard component not initialized"
  | Failure.Unknown m => lit "clipboard failure: " ++ m
  end.
(** [s.contains(part)] *)
Definition holds_part (part s : str) : bool := existsb (fun i => starts_with part (drop i s)) (seq 0 (S (length s))).
(** [manager.rs:678-680 start_event_processor] *)
Definition fatal (e : Failure.ClipboardError) : bool := holds_part (lit "session invalid") (error_text e) || holds_part (lit "Session invalid") (error_text e).
(** [reporter] tells whether one was known when the loop started.
    [manager.rs:674-699 start_event_processor] *)
Definition account (reporter : bool) (r : outcome Failure.ClipboardError unit) (errors : Z) : Z * option Health :=
  match r with
  | Err e =>
      let errors := wrap 32 (errors + 1) in
      (errors, if (fatal e || (3 <=? errors)) && reporter then Some Failed else None)
  | _ => (0, if (3 <=? errors) && reporter then Some Healthy else None)
  end.

(** The handlers' state, the events that wait for the processor, the event the
    forwarder holds until there is room, and the processor. *)
Record System := mkSystem {
  manager : Manager; events : list ClipboardEvent; held : option ClipboardEvent; errors : Z; reports : list Health; processing : bool;
}.
(** [manager.rs:494-494 new] *)
Definition CAPACITY : nat := 100.

Inductive label := Forward (e : ClipboardProviderEvent) | Enqueue | Receive (e : ClipboardEvent) | Process (now : Z) | Disconnect | Shutdown.

(** The forwarder notes a request before it waits for room.
    [manager.rs:576-615 set_clipboard_provider] *)
Definition forward (e : ClipboardProviderEvent) (s : System) : System :=
  match e with
  | SelectionChanged mimes force => mkSystem (manager s) (events s) (Some (PortalFormatsAvailable mimes force)) (errors s) (reports s) (processing s)
  | SelectionTransfer serial mime =>
      mkSystem ((push serial mime (manager s)).2) (events s) (Some (PortalDataRequest mime)) (errors s) (reports s) (processing s)
  end.

(** The loop gets no reporter: [new] starts it before one can be set.  A panic
    ends it.  [manager.rs:639-711 start_event_processor] *)
Definition process (config : ClipboardOrchestratorConfig) (reporter : bool) (now : Z) (e : ClipboardEvent) (rest : list ClipboardEvent) (s : System) : System :=
  let '(r, m) := handle_event config now e (manager s) in
  let '(n, report) := account reporter r (errors s) in
  mkSystem m rest (held s) n (reports s ++ option_list report) (match r with Panic => false | _ => true end).

(** [manager.rs:2440-2489 shutdown] *)
Definition shutdown (s : System) : System :=
  let w := if provider then (perform (Announce []) (world (manager s))).2 else world (manager s) in
  mkSystem (with_world (clear_incoming w) (manager s)) (events s) (held s) (errors s) (reports s) false.

(** An impossible step changes nothing. *)
Definition step (config : ClipboardOrchestratorConfig) (reporter : bool) (s : System) (l : label) : System :=
  match l with
  | Forward e => if provider && bool_decide (held s = None) then forward e s else s
  | Enqueue =>
      match held s with
      | Some e => if decide (length (events s) < CAPACITY)%nat then mkSystem (manager s) (events s ++ [e]) None (errors s) (reports s) (processing s) else s
      | None => s
      end
  | Receive e => if decide (length (events s) < CAPACITY)%nat then mkSystem (manager s) (events s ++ [e]) (held s) (errors s) (reports s) (processing s) else s
  | Process now => match events s with e :: rest => if processing s then process config reporter now e rest s else s | [] => s end
  | Disconnect => mkSystem (clear_connection_state (manager s)) (events s) (held s) (errors s) (reports s) (processing s)
  | Shutdown => shutdown s
  end.
Definition run (config : ClipboardOrchestratorConfig) (reporter : bool) (ls : list label) (s : System) : System := fold_left (step config reporter) ls s.

(** A new manager: its health reporter is unset.  [manager.rs:503-527 new] *)
Definition health_reporter : bool := false.
Definition system_new (c : ClipboardOrchestratorConfig) (dir : path) (d : gmap path (list Z)) : System := mkSystem (manager_new c dir d) [] None 0 [] true.
End orchestrator.
