(* ===== verification/ClipRun.v ===== *)
(** * The clipboard orchestrator at work

    What holds of ClipManager.v over every run: how often a request of the local
    clipboard is answered, and with what.  Both follow from relations between the
    states before and after that every handler keeps. *)
From S2P Require Import Prelude Text ClipBase ClipText ClipFiles Sanitize ClipImage ClipIncoming LoopDetector Sync ClipManager.

(** ** Handlers and relations *)

(** What a handler does to the state, whatever it returns, is in [R]. *)
Definition keeps {A} (R : Manager -> Manager -> Prop) (h : handler A) : Prop := forall m, R m (h m).2.

Section keeps.
Context (R : Manager -> Manager -> Prop) `{PreOrder Manager R}.

Lemma keeps_ret {A} (x : A) : keeps R (ret x).
Proof. intros m. by cbn. Qed.
Lemma keeps_fail {A} e : keeps R (fail (A := A) e).
Proof. intros m. by cbn. Qed.
Lemma keeps_panic {A} : keeps R (fun m => (@Panic _ A, m)).
Proof. intros m. by cbn. Qed.
Lemma keeps_get {A} (f : Manager -> A) : keeps R (get f).
Proof. intros m. by cbn. Qed.
Lemma keeps_bind {A B} (h : handler A) (k : A -> handler B) : keeps R h -> (forall x, keeps R (k x)) -> keeps R (bind h k).
Proof.
  intros Hh Hk m. unfold bind. specialize (Hh m). destruct (h m) as [[x|e|] m']; cbn [snd] in *; [|done..]. transitivity m'; [done|apply Hk].
Qed.
(** Reading the state changes nothing: what follows may depend on it. *)
Lemma keeps_get_bind {A B} (f : Manager -> A) (k : A -> handler B) : (forall m, R m (k (f m) m).2) -> keeps R (bind (get f) k).
Proof. intros Hk m. apply Hk. Qed.
End keeps.
Create HintDb keeps.
#[export] Hint Resolve keeps_ret keeps_fail keeps_panic keeps_get : keeps.

(** Walks through a handler whose steps are known. *)
Ltac walk := repeat first [ solve [eauto with keeps typeclass_instances] | apply keeps_bind; [typeclasses eauto| |intros ?] | case_match ].

(** ** How often a request is answered *)

Section answers.
Context `{ContentHash, ImageLibrary, FileSystem, Unicode, Outside} (provider upfront connected : bool) (s : Z).

Definition bit (b : bool) : nat := if b then 1 else 0.
Definition hit (n : Z) : nat := bit (n =? s).
(** An answer to the request [s]. *)
Definition answer (e : effect) : nat := match e with Complete n _ _ _ => hit n | _ => 0 end.
Definition answers (es : list effect) : nat := sum_list_with answer es.
Definition waiting (q : list (Z * str)) : nat := sum_list_with (fun p => hit p.1) q.
(** The answers given, and the one a file transfer will give. *)
Definition owed (w : World) : nat := (answers (log w) + bit (bool_decide (portal_serial (xfer w) = Some s)))%nat.
Definition balance (m : Manager) : nat := (owed (world m) + waiting (pending m))%nat.

Lemma answers_app es es' : answers (es ++ es') = (answers es + answers es')%nat.
Proof. apply sum_list_with_app. Qed.
Lemma waiting_app q q' : waiting (q ++ q') = (waiting q + waiting q')%nat.
Proof. apply sum_list_with_app. Qed.
Lemma waiting_filter (f : Z * str -> bool) q : (waiting (List.filter f q) <= waiting q)%nat.
Proof. induction q as [|p q IH]; [done|]. cbn [List.filter]. unfold waiting in *. destruct (f p); cbn [sum_list_with]; lia. Qed.

Lemma perform_owed e w : owed (perform e w).2 = (owed w + answer e)%nat.
Proof. unfold owed. cbn [perform snd log xfer]. rewrite answers_app. unfold answers at 2. cbn. lia. Qed.
Lemma perform_silent e w : answer e = 0%nat -> owed (perform e w).2 = owed w.
Proof. intros E. rewrite perform_owed, E. lia. Qed.
Lemma complete_owed n mime data ok w : (owed (complete provider n mime data ok w) <= owed w + hit n)%nat.
Proof. unfold complete. destruct provider; [by rewrite perform_owed|lia]. Qed.
(** A change of the transfer state that leaves the request of the local clipboard. *)
Lemma on_xfer_owed f w : (forall t, portal_serial (f t) = portal_serial t) -> owed (on_xfer f w) = owed w.
Proof. intros E. unfold owed. cbn [on_xfer with_xfer log xfer]. by rewrite E. Qed.

Lemma clear_incoming_owed w : (owed (clear_incoming w) <= owed w)%nat /\ portal_serial (xfer (clear_incoming w)) = None.
Proof.
  split; [|done]. unfold clear_incoming. set (w' := fold_left _ _ w). transitivity (owed w').
  - unfold owed. cbn [on_xfer with_xfer log xfer with_serial with_completed portal_serial]. rewrite (bool_decide_eq_false_2 (None = _)) by done. unfold bit at 1. lia.
  - unfold w'. generalize (map_to_list (incoming_files (xfer w))) as fs. intros fs. revert w w'. induction fs as [|f fs IH]; intros w w'; [done|].
    cbn [fold_left]. etrans; [apply IH|]. by rewrite perform_silent.
Qed.

Lemma request_silent stream f : answer (request_for stream f) = 0%nat.
Proof. unfold request_for. destruct (total_size f); [|done]. by destruct (awaiting_size f). Qed.

Lemma begin_files_owed descs index w w' : begin_files index descs w = Ok w' -> owed w' = owed w.
Proof.
  revert index w. induction descs as [|d descs IH]; intros index w; cbn [begin_files]; [by intros [= <-]|].
  destruct (begin_file index d w) as [w1|[]|] eqn:E; cbn [mbind outcome_bind]; [|done]. intros Hw. rewrite (IH _ _ Hw). clear IH Hw.
  unfold begin_file, allocate_stream_id in E. set (w0 := with_xfer _ w) in E. assert (owed w0 = owed w) as <- by (by apply (on_xfer_owed (with_next _))).
  destruct (reserve_destination _ w0) as [final|[]|]; cbn [outcome_bind mbind] in E; [|done].
  pose proof (perform_silent CreateDir w0 eq_refl) as P0. destruct (perform CreateDir w0) as [made w2]. cbn [snd] in P0.
  destruct made; cbn [negb] in E; [|apply Ok_inj in E as <-; done].
  set (temp := comp _ _) in E. pose proof (perform_silent (OpenNew temp) w2 eq_refl) as P1. destruct (perform (OpenNew temp) w2) as [opened w3]. cbn [snd] in P1.
  destruct opened; cbn [negb] in E; [|apply Ok_inj in E as <-; congruence].
  apply Ok_inj in E as <-. rewrite perform_silent by apply request_silent. rewrite on_xfer_owed by done. congruence.
Qed.

Lemma begin_transfer_owed n mime descs w w' : begin_transfer provider connected n mime descs w = Ok w' -> (owed w' <= owed w + hit n)%nat.
Proof.
  unfold begin_transfer. destruct (negb _); [intros Hw%Ok_inj; subst; apply complete_owed|]. destruct (negb connected); [intros Hw%Ok_inj; subst; apply complete_owed|].
  intros Hw. rewrite (begin_files_owed _ _ _ _ Hw). destruct (clear_incoming_owed w) as [L N]. unfold owed in *. cbn [on_xfer with_xfer log xfer with_serial portal_serial].
  assert (bit (bool_decide (Some n = Some s)) = hit n) as ->; [|lia]. unfold hit. f_equal. destruct (Z.eqb_spec n s); [subst; by apply bool_decide_eq_true_2|apply bool_decide_eq_false_2; congruence].
Qed.

Lemma contents_error_owed stream w : (owed (contents_error provider stream w) <= owed w)%nat.
Proof.
  unfold contents_error. set (w1 := match incoming_files (xfer w) !! stream with Some _ => _ | None => w end).
  assert (owed w1 = owed w) as <- by (unfold w1; case_match; [by rewrite perform_silent, on_xfer_owed|done]).
  destruct (portal_serial (xfer w1)) as [n|] eqn:E; [|done]. etrans; [apply complete_owed|]. unfold owed, hit. cbn [on_xfer with_xfer log xfer with_serial portal_serial]. rewrite E.
  destruct (Z.eqb_spec n s); [subst; rewrite (bool_decide_eq_true_2 (Some s = _)) by done|]; rewrite (bool_decide_eq_false_2 (None = _)) by done; unfold bit; lia.
Qed.

Lemma finish_file_owed stream f w : (owed (finish_file provider stream f w).2 <= owed w)%nat.
Proof.
  unfold finish_file. pose proof (perform_silent (Flush (temp_path f)) w eq_refl) as P0. destruct (perform (Flush (temp_path f)) w) as [flushed w1]. cbn [snd] in P0.
  destruct flushed; cbn [negb snd]; [|lia]. set (w2 := on_xfer _ w1). assert (owed w2 = owed w) as E2 by (unfold w2; by rewrite on_xfer_owed).
  clearbody w2. pose proof (perform_silent (Rename (temp_path f) (final_path f)) w2 eq_refl) as P2. destruct (perform (Rename _ _) w2) as [named w3]. cbn [snd] in P2.
  destruct named; cbn [negb snd]; [|lia]. destruct (bool_decide _); cbn [snd]; [|lia]. rewrite <-E2, <-P2.
  destruct (portal_serial (xfer w3)) as [n|] eqn:E.
  - set (w4 := complete _ _ _ _ _ _). pose proof (complete_owed n (lit "x-special/gnome-copied-files") (uri_list (completed_files (xfer w3))) true w3) as C. fold w4 in C.
    assert (xfer w4 = xfer w3) as X by apply complete_xfer. unfold owed, hit in *. cbn [on_xfer with_xfer log xfer with_serial portal_serial]. rewrite X, E in *.
    rewrite (bool_decide_eq_false_2 (None = _)) by done.
    destruct (Z.eqb_spec n s); [subst; rewrite (bool_decide_eq_true_2 (Some s = _)) in * by done|rewrite (bool_decide_eq_false_2 (Some n = _)) in * by congruence]; unfold bit in *; lia.
  - unfold owed. cbn [on_xfer with_xfer log xfer with_serial portal_serial with_completed]. rewrite (bool_decide_eq_false_2 (None = _)) by done. unfold bit at 1. lia.
Qed.

Lemma continue_file_owed stream f w : (owed (continue_file provider connected stream f w).2 <= owed w)%nat.
Proof.
  unfold continue_file. destruct (total_size f); [|done]. destruct (_ <=? _); [apply finish_file_owed|]. destruct connected; [|done]. cbn [snd]. by rewrite perform_silent by apply request_silent.
Qed.

Lemma response_owed stream data is_error w : (owed (handle_rdp_file_contents_response provider connected stream data is_error w).2 <= owed w)%nat.
Proof.
  unfold handle_rdp_file_contents_response. destruct is_error; [apply contents_error_owed|]. destruct (incoming_files (xfer w) !! stream) as [f|]; [|done]. destruct (awaiting_size f).
  - destruct (apply_size_response data f) as [[total g]| |]; [|done..]. assert (owed (update_file stream g w) = owed w) as E by by apply on_xfer_owed.
    destruct (0 <? total); [|rewrite <-E; apply continue_file_owed]. destruct connected; [|cbn [snd]; lia].
    pose proof (perform_silent (request_for stream g) (update_file stream g w) (request_silent _ _)) as P. destruct (perform _ _) as [sent w2]. cbn [snd] in *. destruct sent; cbn [snd]; lia.
  - pose proof (perform_silent (WriteAll (temp_path f) data) w eq_refl) as P. destruct (perform _ _) as [stored w1]. cbn [snd] in P.
    destruct stored; cbn [negb snd]; [|lia]. etrans; [apply continue_file_owed|]. unfold update_file. rewrite on_xfer_owed by done. lia.
Qed.

Lemma contents_request_owed stream index position requested size_only w :
  owed (handle_rdp_file_contents_request connected stream index position requested size_only w).2 = owed w.
Proof.
  unfold handle_rdp_file_contents_request. destruct (negb connected); [done|]. destruct (outgoing_files _ !! _); [|done]. destruct size_only; [cbn [snd]; by rewrite perform_silent|].
  destruct (read_file_chunk _ _ _ _); cbn [snd]; by rewrite perform_silent.
Qed.

(** *** The handlers *)

Definition falls (m m' : Manager) : Prop := (balance m' <= balance m)%nat.
#[local] Instance falls_preorder : PreOrder falls.
Proof. split; [intros ?|intros ? ? ? ? ?]; unfold falls in *; lia. Qed.

Lemma falls_on_world {A} (f : World -> outcome Failure.ClipboardError A * World) : (forall w, (owed (f w).2 <= owed w)%nat) -> keeps falls (on_world f).
Proof. intros Hf m. unfold on_world. specialize (Hf (world m)). destruct (f (world m)). unfold falls, balance. cbn [snd with_world world pending] in *. lia. Qed.
Lemma falls_act e : answer e = 0%nat -> keeps falls (act e).
Proof. intros He m. unfold falls, balance. pose proof (perform_silent e (world m) He) as P. unfold act. destruct (perform e (world m)). cbn [snd with_world world pending] in *. lia. Qed.
Lemma falls_say e : answer e = 0%nat -> keeps falls (say connected e).
Proof. intros He. unfold say. destruct connected; [by apply falls_act|apply keeps_ret; apply _]. Qed.
Lemma falls_send e : answer e = 0%nat -> keeps falls (send_ connected e).
Proof. intros He. unfold send_. apply keeps_bind; [apply _|by apply falls_say|intros ?; apply keeps_ret; apply _]. Qed.
(** Changes of the parts that hold no requests. *)
Lemma falls_modify f : (forall m, world (f m) = world m /\ pending (f m) = pending m) -> keeps falls (modify f).
Proof. intros Hf m. destruct (Hf m) as [E E']. unfold falls, balance. cbn. by rewrite E, E'. Qed.
Lemma falls_forget n : keeps falls (forget n).
Proof. intros m. unfold falls, balance, forget, modify. cbn [snd with_pending world pending]. pose proof (waiting_filter (fun p => negb (p.1 =? n)) (pending m)). lia. Qed.
Lemma falls_push n mime : n <> s -> keeps falls (push n mime).
Proof. intros Hn m. unfold falls, balance, push, modify. cbn [snd with_pending world pending]. rewrite waiting_app. unfold waiting at 2, hit. cbn [sum_list_with fst]. destruct (Z.eqb_spec n s); [done|]. unfold bit. lia. Qed.
Hint Resolve falls_act falls_say falls_send falls_modify falls_forget falls_push : keeps.

Lemma read_data_falls mime : keeps falls (read_data provider mime).
Proof. unfold read_data. destruct (negb provider); [walk|]. apply keeps_get_bind. intros m. apply keeps_bind; [apply _|by apply falls_act|]. intros ok. by apply keeps_ret, _. Qed.
Hint Resolve read_data_falls : keeps.

Lemma cancel_all_owed es m : owed (world (cancel_all es m).2) = (owed (world m) + waiting es)%nat.
Proof.
  revert m. induction es as [|[n mime] es IH]; intros m; [cbn; lia|]. cbn [cancel_all]. unfold bind, act. pose proof (perform_owed (Complete n mime [] false) (world m)) as P.
  destruct (perform _ (world m)) as [ok w]. cbn [snd] in P. rewrite IH. cbn [with_world world]. rewrite P. unfold waiting. cbn [sum_list_with answer fst]. lia.
Qed.
Lemma cancel_all_pending es m : pending (cancel_all es m).2 = pending m.
Proof. revert m. induction es as [|[n mime] es IH]; intros m; [done|]. cbn [cancel_all]. unfold bind, act. destruct (perform _ _). by rewrite IH. Qed.
Lemma cancel_all_log es m : log (world (cancel_all es m).2) = log (world m) ++ map (fun p => Complete p.1 p.2 [] false) es.
Proof.
  revert m. induction es as [|[n mime] es IH]; intros m; [by rewrite app_nil_r|]. cbn [cancel_all]. unfold bind, act.
  destruct (perform _ _) as [ok w] eqn:P. rewrite IH. injection P as _ <-. cbn. by rewrite <-app_assoc.
Qed.
Lemma deliver_balance n mime data m : (balance (deliver n mime data m).2 <= balance m + hit n)%nat.
Proof.
  unfold deliver, bind at 1, act. pose proof (perform_owed (Complete n mime data true) (world m)) as P. destruct (perform _ (world m)) as [ok w]. cbn [snd answer] in P. destruct ok.
  - unfold bind at 1, get. cbn [with_world pending]. unfold bind, modify. unfold balance at 1. rewrite cancel_all_owed. cbn [with_pending with_world world].
    pose proof (waiting_filter (fun p => negb (p.1 =? n)) (pending m)). unfold balance.
    rewrite cancel_all_pending. cbn. lia.
  - pose proof (falls_forget n (with_world w m)) as F. unfold falls, balance in *. cbn [with_world world pending] in *. lia.
Qed.

Context (Hs : s <> EAGER_FETCH_SERIAL).

Lemma fetch_eagerly_falls : keeps falls (fetch_eagerly connected).
Proof. unfold fetch_eagerly. walk. Qed.
Hint Resolve fetch_eagerly_falls : keeps.
Lemma format_list_falls now formats : keeps falls (handle_rdp_format_list provider upfront connected now formats).
Proof. unfold handle_rdp_format_list. walk. Qed.
Lemma send_error_falls : keeps falls (send_format_data_error connected).
Proof. unfold send_format_data_error. walk. Qed.
Hint Resolve send_error_falls : keeps.
Lemma file_list_falls : keeps falls (handle_file_descriptor_request provider connected).
Proof.
  unfold handle_file_descriptor_request. walk. intros m. unfold falls, balance, modify. cbn [snd with_world world pending].
  by rewrite on_xfer_owed.
Qed.
Hint Resolve file_list_falls : keeps.
Lemma data_request_falls format_id : keeps falls (handle_rdp_data_request provider connected format_id).
Proof. unfold handle_rdp_data_request. walk. Qed.
Lemma provide_falls data : keeps falls (provide_eagerly upfront data).
Proof. unfold provide_eagerly. walk. Qed.
Lemma portal_formats_falls config now mimes force : keeps falls (ClipManager.handle_portal_formats connected config now mimes force).
Proof. unfold ClipManager.handle_portal_formats. walk. Qed.
Lemma portal_request_falls mime : keeps falls (handle_portal_data_request connected mime).
Proof. unfold handle_portal_data_request. walk. Qed.
Lemma data_error_falls : keeps falls (handle_rdp_data_error provider).
Proof.
  unfold handle_rdp_data_error. apply keeps_get_bind. intros m. unfold falls, balance, bind, modify. destruct provider; cbn [snd with_pending world pending].
  - pose proof (cancel_all_owed (pending m) m) as C. destruct (cancel_all (pending m) m) as [[[]|e|] m'] eqn:E; cbn [snd] in *; [cbn [with_pending world pending]; unfold waiting at 1; cbn [sum_list_with]; lia|..].
    all: exfalso; revert E; generalize m at 2; generalize (pending m) as es; intros es; induction es as [|[n mime] es IH]; intros m0; [done|]; cbn [cancel_all]; unfold bind, act; destruct (perform _ _); apply IH.
  - cbn. lia.
Qed.
Lemma data_response_falls now data : keeps falls (handle_rdp_data_response provider upfront connected now data).
Proof.
  unfold handle_rdp_data_response. apply keeps_get_bind. intros m. destruct (check_content now data true (sync_manager m)) as [y fresh]. unfold bind at 1, modify.
  assert (falls m (with_sync y m)) as F0 by by apply (falls_modify (with_sync y)).
  destruct (negb fresh || negb provider); [exact F0|]. destruct (pending m) as [|[n mime] rest] eqn:Q; [exact F0|].
  set (m1 := with_sync y m). unfold bind at 1. set (m2 := with_pending rest m1). cbn [snd].
  assert (balance m = balance m2 + hit n)%nat as Eb by (unfold balance; rewrite Q; unfold m2, m1, waiting; cbn; lia).
  unfold falls. rewrite Eb. clearbody m2.
  assert (forall h : handler unit, keeps falls h -> (balance (h m2).2 <= balance m2 + hit n)%nat) as K by (intros h Hh; specialize (Hh m2); unfold falls in Hh; lia).
  assert ((balance (match to_local mime data with Ok d => deliver n mime d | Err e => fail (Failure.Core e) | Panic => fun m => (Panic, m) end m2).2 <= balance m2 + hit n)%nat) as G
    by (destruct (to_local mime data); [apply deliver_balance|unfold fail; cbn [snd]; lia..]).
  destruct (n =? EAGER_FETCH_SERIAL); [apply K, provide_falls|]. destruct (_ || _); [|exact G].
  destruct (parse_list data) as [descs|e|]; [|exact G|cbn [snd]; lia].
  unfold on_world. destruct (begin_transfer provider connected n mime descs (world m2)) as [w|[]|] eqn:B; [|unfold balance; cbn [snd with_world world pending]; lia].
  apply begin_transfer_owed in B. unfold balance. cbn [snd with_world world pending]. lia.
Qed.
Hint Resolve format_list_falls data_request_falls portal_formats_falls portal_request_falls data_error_falls data_response_falls falls_on_world response_owed : keeps.
Lemma event_falls config now e : keeps falls (handle_event provider upfront connected config now e).
Proof. destruct e; cbn [handle_event]; walk. apply falls_on_world. intros w. by rewrite contents_request_owed. Qed.

(** *** Runs *)

Definition asked (ls : list label) : nat := sum_list_with (fun l => match l with Forward (SelectionTransfer n _) => hit n | _ => 0%nat end) ls.

Lemma announce_falls m : (owed (if provider then (perform (Announce []) (world m)).2 else world m) <= owed (world m))%nat.
Proof. destruct provider; [by rewrite perform_silent|done]. Qed.
Lemma step_falls config reporter y l : (balance (manager (step provider upfront connected config reporter y l)) <= balance (manager y) + asked [l])%nat.
Proof.
  unfold asked. destruct l as [e| |e|now| |]; cbn [step sum_list_with].
  - destruct (provider && _); [|lia]. destruct e as [mimes force|n mime]; cbn [forward manager]; [lia|].
    unfold push, modify, balance. cbn [snd with_pending world pending]. rewrite waiting_app. unfold waiting at 2. cbn. lia.
  - destruct (held y); [|lia]. destruct (decide _); cbn [manager]; lia.
  - destruct (decide _); cbn [manager]; lia.
  - destruct (events y) as [|e rest]; [lia|]. destruct (processing y); [|lia]. unfold process. pose proof (event_falls config now e (manager y)) as F.
    destruct (handle_event _ _ _ _ _ _ _) as [r m]. destruct (account _ _ _). unfold falls in F. cbn [manager snd] in *. lia.
  - cbn [manager]. unfold clear_connection_state. unfold balance. cbn [with_world world pending]. set (w := if provider then _ else _).
    pose proof (announce_falls (manager y)) as A. fold w in A. destruct (clear_incoming_owed w) as [L N]. clearbody w.
    assert (owed (on_xfer (fun t => with_serial None (set_pending_descriptors [] (clear_outgoing t))) (clear_incoming w)) = owed (clear_incoming w)) as ->; [|lia].
    unfold owed. cbn [on_xfer with_xfer log xfer with_serial portal_serial]. by rewrite N.
  - cbn [manager shutdown]. unfold balance. cbn [with_world world pending]. set (w := if provider then _ else _).
    pose proof (announce_falls (manager y)) as A. fold w in A. destruct (clear_incoming_owed w) as [L N]. clearbody w. unfold hit in *. lia.
Qed.
Lemma run_falls config reporter ls y : (balance (manager (run provider upfront connected config reporter ls y)) <= balance (manager y) + asked ls)%nat.
Proof.
  revert y. induction ls as [|l ls IH]; intros y; [cbn; lia|]. cbn [run fold_left]. etrans; [apply IH|]. pose proof (step_falls config reporter y l) as S'.
  unfold asked in *. cbn [sum_list_with] in *. lia.
Qed.

(** C12. A request of the local clipboard is answered at most once.  Over every run
    of the orchestrator -- whatever the client and the local applications do, in
    whatever order the events reach the queue and are processed, and whatever
    fails -- the answers sent under a serial number are no more than the times a
    request came with it, whether they carry data or cancel it, come from a data
    response or from the end of a file transfer.  Only the number the manager
    uses itself for data fetched ahead is left out. *)
Theorem answered_at_most_once config reporter ls dir d :
  (answers (log (world (manager (run provider upfront connected config reporter ls (system_new config dir d))))) <= asked ls)%nat.
Proof.
  pose proof (run_falls config reporter ls (system_new config dir d)) as R. change (balance (manager (system_new config dir d))) with 0%nat in R.
  unfold balance, owed in R. lia.
Qed.
End answers.

(** ** What a request is answered with *)

Definition is_file_mime (mime : str) : bool := eqs mime (lit "text/uri-list") || eqs mime (lit "x-special/gnome-copied-files").

Section provenance.
Context `{ContentHash, ImageLibrary, FileSystem, Unicode, Outside} (provider upfront connected : bool).
Context (dir : path) (requested : Z -> str -> Prop) (sent : list Z -> Prop).

(** What reaches the local clipboard: the conversion of something the client sent,
    for a request that was made; or the list of files saved in the download
    directory, for a request for files. *)
Definition genuine (e : effect) : Prop :=
  match e with
  | Complete n mime data true =>
      (requested n mime /\ exists d, sent d /\ to_local mime d = Ok data) \/
      (exists m names, requested n m /\ is_file_mime m = true /\ Forall (inside dir) names /\ data = uri_list names /\ mime = lit "x-special/gnome-copied-files")
  | Provide mime data => exists d, sent d /\ data = windows_text d
  | _ => True
  end.

(** The invariant of the transfers. *)
Record lawful (w : World) : Prop := mkLawful {
  lw_log : Forall genuine (log w);
  lw_serial : forall n, portal_serial (xfer w) = Some n -> exists m, requested n m /\ is_file_mime m = true;
  lw_completed : Forall (inside dir) (completed_files (xfer w));
}.

Lemma perform_lawful e w : genuine e -> lawful w -> lawful (perform e w).2.
Proof. intros He [L S' C]. constructor; [|done..]. cbn. apply Forall_app. by repeat constructor. Qed.
Lemma complete_lawful n mime data ok w : genuine (Complete n mime data ok) -> lawful w -> lawful (complete provider n mime data ok w).
Proof. intros He Hw. unfold complete. destruct provider; [by apply perform_lawful|done]. Qed.
Lemma on_xfer_lawful f w : (forall t, (portal_serial (f t) = portal_serial t \/ portal_serial (f t) = None) /\ completed_files (f t) ⊆+ completed_files t) ->
  lawful w -> lawful (on_xfer f w).
Proof.
  intros Hf [L S' C]. destruct (Hf (xfer w)) as [E Cs]. constructor; cbn [on_xfer with_xfer log xfer]; [done| |].
  - intros n Hn. destruct E as [E|E]; rewrite E in Hn; [by apply S'|done].
  - rewrite Forall_forall in C |- *. intros p Hp. apply C. by eapply elem_of_submseteq.
Qed.
Lemma request_genuine stream f : genuine (request_for stream f).
Proof. unfold request_for. destruct (total_size f); [|done]. by destruct (awaiting_size f). Qed.

Lemma clear_incoming_lawful w : lawful w -> lawful (clear_incoming w).
Proof.
  intros Hw. unfold clear_incoming. apply on_xfer_lawful; [intros t; cbn; split; [by right|apply submseteq_nil_l]|].
  generalize (map_to_list (incoming_files (xfer w))) as fs. intros fs. revert w Hw. induction fs as [|f fs IH]; intros w Hw; [done|]. cbn [fold_left]. apply IH. by apply perform_lawful.
Qed.

Lemma begin_files_lawful descs index w w' : begin_files index descs w = Ok w' -> lawful w -> lawful w'.
Proof.
  revert index w. induction descs as [|d descs IH]; intros index w; cbn [begin_files]; [by intros [= <-]|].
  destruct (begin_file index d w) as [w1|[]|] eqn:E; cbn [mbind outcome_bind]; [|done]. intros Hw Hl. apply (IH _ _ Hw). clear IH Hw.
  unfold begin_file, allocate_stream_id in E. set (w0 := with_xfer _ w) in E. assert (lawful w0) as L0 by (apply (on_xfer_lawful (with_next _)); [intros t; split; [by left|done]|done]).
  destruct (reserve_destination _ w0) as [final|[]|]; cbn [outcome_bind mbind] in E; [|done].
  pose proof (perform_lawful CreateDir w0 I L0) as P0. destruct (perform CreateDir w0) as [made w2]. cbn [snd] in P0.
  destruct made; cbn [negb] in E; [|apply Ok_inj in E as <-; done].
  set (temp := comp _ _) in E. pose proof (perform_lawful (OpenNew temp) w2 I P0) as P1. destruct (perform (OpenNew temp) w2) as [opened w3]. cbn [snd] in P1.
  destruct opened; cbn [negb] in E; [|apply Ok_inj in E as <-; done].
  apply Ok_inj in E as <-. apply perform_lawful; [apply request_genuine|]. apply on_xfer_lawful; [intros t; split; [by left|done]|done].
Qed.
Lemma begin_transfer_lawful n mime descs w w' : requested n mime -> is_file_mime mime = true -> begin_transfer provider connected n mime descs w = Ok w' -> lawful w -> lawful w'.
Proof.
  intros Hr Hm. unfold begin_transfer. destruct (negb _); [intros Hw%Ok_inj ?; subst; by apply complete_lawful|]. destruct (negb connected); [intros Hw%Ok_inj ?; subst; by apply complete_lawful|].
  intros Hw Hl. apply (begin_files_lawful _ _ _ _ Hw). destruct (clear_incoming_lawful w Hl) as [L S' C]. constructor; cbn [on_xfer with_xfer log xfer]; [done| |done].
  intros k [= <-]. by exists mime.
Qed.

Lemma contents_error_lawful stream w : lawful w -> lawful (contents_error provider stream w).
Proof.
  intros Hw. unfold contents_error. set (w1 := match incoming_files (xfer w) !! stream with Some _ => _ | None => w end).
  assert (lawful w1) as L1 by (unfold w1; case_match; [apply perform_lawful, on_xfer_lawful; [done|intros t; split; [by left|done]|done]|done]).
  destruct (portal_serial (xfer w1)); [|done]. apply complete_lawful; [done|]. apply on_xfer_lawful; [|done]. intros t. split; [by right|done].
Qed.
Lemma finish_file_lawful stream f w : inside dir (final_path f) -> lawful w -> lawful (finish_file provider stream f w).2.
Proof.
  intros Hf Hw. unfold finish_file. pose proof (perform_lawful (Flush (temp_path f)) w I Hw) as P0. destruct (perform (Flush (temp_path f)) w) as [flushed w1]. cbn [snd] in P0.
  destruct flushed; cbn [negb snd]; [|done]. set (w2 := on_xfer _ w1).
  assert (lawful w2) as L2 by (destruct P0 as [L S' C]; constructor; [done..|]; cbn; apply Forall_app; by repeat constructor).
  clearbody w2. pose proof (perform_lawful (Rename (temp_path f) (final_path f)) w2 I L2) as P2. destruct (perform (Rename _ _) w2) as [named w3]. cbn [snd] in P2.
  destruct named; cbn [negb snd]; [|done]. destruct (bool_decide _); cbn [snd]; [|done].
  apply on_xfer_lawful; [intros t; cbn; split; [by right|apply submseteq_nil_l]|]. destruct (portal_serial (xfer w3)) as [n|] eqn:E; [|done].
  apply complete_lawful; [|done]. destruct (lw_serial _ P2 n E) as (m & Hr & Hm). right. exists m, (completed_files (xfer w3)). split_and!; try done. apply (lw_completed _ P2).
Qed.
Lemma continue_file_lawful stream f w : inside dir (final_path f) -> lawful w -> lawful (continue_file provider connected stream f w).2.
Proof.
  intros Hf Hw. unfold continue_file. destruct (total_size f); [|done]. destruct (_ <=? _); [by apply finish_file_lawful|]. destruct connected; [|done].
  apply perform_lawful; [apply request_genuine|done].
Qed.
Lemma update_lawful stream f w : lawful w -> lawful (update_file stream f w).
Proof. apply on_xfer_lawful. intros t. split; [by left|done]. Qed.
Lemma response_lawful stream data is_error w : tidy dir ∅ w -> lawful w -> lawful (handle_rdp_file_contents_response provider connected stream data is_error w).2.
Proof.
  intros Ht Hw. unfold handle_rdp_file_contents_response. destruct is_error; [by apply contents_error_lawful|]. destruct (incoming_files (xfer w) !! stream) as [f|] eqn:E; [|done].
  destruct (td_incoming _ _ _ Ht _ _ E) as (_ & If & _). destruct (awaiting_size f).
  - unfold apply_size_response. destruct (_ =? 8)%nat; [|done]. set (g := mkIncoming _ _ _ _ _ _ _). pose proof (update_lawful stream g w Hw) as L.
    destruct (0 <? _); [|by apply continue_file_lawful]. destruct connected; [|done].
    pose proof (perform_lawful (request_for stream g) _ (request_genuine _ _) L) as P. destruct (perform _ _) as [ok w2]. by destruct ok.
  - pose proof (perform_lawful (WriteAll (temp_path f) data) w I Hw) as P. destruct (perform _ _) as [stored w1]. cbn [snd] in P.
    destruct stored; cbn [negb snd]; [|done]. apply continue_file_lawful; [done|]. by apply update_lawful.
Qed.
Lemma contents_request_lawful stream index position amount size_only w : lawful w ->
  lawful (handle_rdp_file_contents_request connected stream index position amount size_only w).2.
Proof.
  intros Hw. unfold handle_rdp_file_contents_request. destruct (negb connected); [done|]. destruct (outgoing_files _ !! _); [|done].
  destruct size_only; [by apply perform_lawful|]. destruct (read_file_chunk _ _ _ _); by apply perform_lawful.
Qed.

(** *** The handlers *)

Record sound (w : World) : Prop := mkSound { so_tidy : tidy dir ∅ w; so_streams : streams_ok w; so_lawful : lawful w }.
Record good (m : Manager) : Prop := mkGood {
  gd_world : sound (world m); gd_pending : Forall (fun p => requested p.1 p.2 \/ p.1 = EAGER_FETCH_SERIAL) (pending m);
}.
Definition stays (m m' : Manager) : Prop := good m -> good m'.
#[local] Instance stays_preorder : PreOrder stays.
Proof. split; [intros ?|intros ? ? ? ? ?]; unfold stays in *; auto. Qed.

(** What the orchestrator does beside the transfers. *)
Definition plain (e : effect) : Prop := confined dir e /\ sparing ∅ e /\ genuine e.
Lemma perform_sound e w : plain e -> sound w -> sound (perform e w).2.
Proof. intros (C & S' & G) [T S L]. constructor; [by apply perform_tidy|done|by apply perform_lawful]. Qed.
Lemma clear_incoming_sound w : sound w -> sound (clear_incoming w).
Proof.
  intros [T S L]. constructor; [by apply clear_incoming_tidy| |by apply clear_incoming_lawful]. unfold streams_ok. by rewrite (proj1 (clear_incoming_streams w)).
Qed.
Lemma on_xfer_sound f w : (forall t, download_dir (f t) = download_dir t /\ incoming_files (f t) ⊆ incoming_files t /\ next_stream_id (f t) = next_stream_id t /\
  (portal_serial (f t) = portal_serial t \/ portal_serial (f t) = None) /\ completed_files (f t) = completed_files t) -> sound w -> sound (on_xfer f w).
Proof.
  intros Hf [T S L]. constructor.
  - apply on_xfer_tidy; [|done]. intros t. destruct (Hf t) as (? & ? & ?). done.
  - unfold streams_ok. cbn. by rewrite (proj1 (proj2 (proj2 (Hf _)))).
  - apply on_xfer_lawful; [|done]. intros t. destruct (Hf t) as (? & ? & ? & ? & E). split; [done|]. by rewrite E.
Qed.

Lemma stays_on_world {A} (f : World -> outcome Failure.ClipboardError A * World) : (forall w, sound w -> sound (f w).2) -> keeps stays (on_world f).
Proof. intros Hf m [W P]. unfold on_world. specialize (Hf _ W). destruct (f (world m)). by constructor. Qed.
Lemma act_good e m : plain e -> good m -> good (act e m).2.
Proof. intros He [W P]. unfold act. pose proof (perform_sound e (world m) He W) as S'. destruct (perform e (world m)). by constructor. Qed.
Lemma stays_act e : plain e -> keeps stays (act e).
Proof. intros He m Hm. by apply act_good. Qed.
Lemma stays_say e : plain e -> keeps stays (say connected e).
Proof. intros He. unfold say. destruct connected; [by apply stays_act|apply keeps_ret; apply _]. Qed.
Lemma stays_send e : plain e -> keeps stays (send_ connected e).
Proof. intros He. unfold send_. apply keeps_bind; [apply _|by apply stays_say|intros ?; apply keeps_ret; apply _]. Qed.
Lemma stays_modify f : (forall m, world (f m) = world m /\ pending (f m) = pending m) -> keeps stays (modify f).
Proof. intros Hf m [W P]. destruct (Hf m) as [E E']. constructor; cbn [modify snd]; by rewrite ?E, ?E'. Qed.
Lemma stays_forget n : keeps stays (forget n).
Proof. intros m [W P]. constructor; [done|]. cbn. rewrite Forall_forall in P |- *. intros p Hp. apply P. by apply list_elem_of_In, filter_In, proj1, list_elem_of_In in Hp. Qed.
Lemma stays_eager mime : keeps stays (push EAGER_FETCH_SERIAL mime).
Proof. intros m [W P]. constructor; [done|]. cbn. apply Forall_app. split; [done|]. constructor; [by right|done]. Qed.
Lemma plain_other e : match e with Announce _ | ReadData _ | InitiateCopy _ | InitiatePaste _ | FormatData _ | Complete _ _ _ false => True | _ => False end -> plain e.
Proof. destruct e as [| | | | | | | | | |? ? ? []| | | | | |]; done. Qed.
Hint Resolve plain_other I : keeps.
Hint Resolve stays_act stays_say stays_send stays_modify stays_forget stays_eager : keeps.
Hint Extern 1 (plain _) => by apply plain_other : keeps.

Lemma read_data_stays mime : keeps stays (read_data provider mime).
Proof. unfold read_data. walk. Qed.
Lemma fetch_eagerly_stays : keeps stays (fetch_eagerly connected).
Proof. unfold fetch_eagerly. walk. Qed.
Hint Resolve read_data_stays fetch_eagerly_stays : keeps.
Lemma format_list_stays now formats : keeps stays (handle_rdp_format_list provider upfront connected now formats).
Proof. unfold handle_rdp_format_list. walk. Qed.
Lemma send_error_stays : keeps stays (send_format_data_error connected).
Proof. unfold send_format_data_error. walk. Qed.
Hint Resolve send_error_stays : keeps.
Lemma file_list_stays : keeps stays (handle_file_descriptor_request provider connected).
Proof.
  unfold handle_file_descriptor_request. walk. intros m [W P]. constructor; [|done]. cbn. apply on_xfer_sound; [|done]. intros t. split_and!; try done. by left.
Qed.
Hint Resolve file_list_stays : keeps.
Lemma data_request_stays format_id : keeps stays (handle_rdp_data_request provider connected format_id).
Proof. unfold handle_rdp_data_request. walk. Qed.
Lemma portal_formats_stays config now mimes force : keeps stays (ClipManager.handle_portal_formats connected config now mimes force).
Proof. unfold ClipManager.handle_portal_formats. walk. Qed.
Lemma portal_request_stays mime : keeps stays (handle_portal_data_request connected mime).
Proof. unfold handle_portal_data_request. walk. Qed.
Lemma cancel_all_stays es : keeps stays (cancel_all es).
Proof. induction es as [|[n mime] es IH]; cbn [cancel_all]; walk. Qed.
Lemma empty_stays : keeps stays (modify (with_pending [])).
Proof. intros m [W P]. by constructor. Qed.
Hint Resolve cancel_all_stays empty_stays : keeps.
Lemma data_error_stays : keeps stays (handle_rdp_data_error provider).
Proof. unfold handle_rdp_data_error. walk. Qed.
Lemma deliver_stays n mime data : genuine (Complete n mime data true) -> keeps stays (deliver n mime data).
Proof. intros Hg. assert (plain (Complete n mime data true)) by done. unfold deliver. walk. Qed.
Lemma provide_stays data : sent data -> keeps stays (provide_eagerly upfront data).
Proof.
  intros Hd. assert (forall mime, plain (Provide mime (windows_text data))) by (intros mime; split_and!; [done..|by exists data]). unfold provide_eagerly. walk.
Qed.
Lemma data_response_stays now data : sent data -> keeps stays (handle_rdp_data_response provider upfront connected now data).
Proof.
  intros Hd. unfold handle_rdp_data_response. apply keeps_get_bind. intros m. destruct (check_content now data true (sync_manager m)) as [y fresh]. unfold bind at 1, modify. intros G.
  assert (good (with_sync y m)) as G1 by by destruct G.
  destruct (negb fresh || negb provider); [exact G1|]. destruct (pending m) as [|[n mime] rest] eqn:Q; [exact G1|].
  set (m1 := with_sync y m) in *. unfold bind at 1. set (m2 := with_pending rest m1). cbn [snd].
  destruct G as [W P]. rewrite Q in P. apply Forall_cons in P as [Hp P]. assert (good m2) as G2 by by constructor. clearbody m2. cbn [fst snd] in Hp.
  destruct (Z.eqb_spec n EAGER_FETCH_SERIAL) as [->|Hn]; [by apply provide_stays|]. destruct Hp as [Hp|Hp]; [|done].
  assert (good (match to_local mime data with Ok d => deliver n mime d | Err e => fail (Failure.Core e) | Panic => fun m => (Panic, m) end m2).2) as D.
  { destruct (to_local mime data) as [d| |] eqn:T; [|done..]. apply deliver_stays; [|done]. left. split; [done|]. by exists data. }
  destruct (_ || _) eqn:F; [|exact D]. destruct (parse_list data) as [descs|e|]; [|exact D|done].
  unfold on_world. destruct (begin_transfer provider connected n mime descs (world m2)) as [w|[]|] eqn:B; cbn [snd]; [|by destruct G2].
  destruct G2 as [[T S L] P2]. constructor; [|done]. cbn. destruct (step_tidy provider connected dir ∅ (world m2) (Begin n mime descs) T S) as [T' S']. cbn [ClipIncoming.step] in T', S'. rewrite B in T', S'.
  constructor; [done..|]. by eapply begin_transfer_lawful.
Qed.

Definition genuine_event (e : ClipboardEvent) : Prop := match e with RdpDataResponse d => sent d | _ => True end.
Hint Resolve format_list_stays data_request_stays portal_formats_stays portal_request_stays data_error_stays data_response_stays stays_on_world : keeps.
Lemma event_stays config now e : genuine_event e -> keeps stays (handle_event provider upfront connected config now e).
Proof.
  intros He. destruct e as [| | | | |stream index position amount size_only|stream data is_error| |]; cbn [handle_event] in *; walk.
  - apply stays_on_world. intros w [T S L]. destruct (step_tidy provider connected dir ∅ w (Asked stream index position amount size_only) T S). constructor; [done..|]. by apply contents_request_lawful.
  - apply stays_on_world. intros w [T S L]. destruct (step_tidy provider connected dir ∅ w (Contents stream data is_error) T S). constructor; [done..|]. by apply response_lawful.
Qed.

(** *** Runs *)

Record fine (y : System) : Prop := mkFine {
  fi_manager : good (manager y); fi_events : Forall genuine_event (events y); fi_held : forall e, held y = Some e -> genuine_event e;
}.
Definition genuine_label (l : label) : Prop :=
  match l with Forward (SelectionTransfer n mime) => requested n mime | Receive e => genuine_event e | _ => True end.
Lemma announce_sound w : sound w -> sound (if provider then (perform (Announce []) w).2 else w).
Proof. intros Hw. destruct provider; [by apply perform_sound|done]. Qed.
Lemma step_fine config reporter y l : genuine_label l -> fine y -> fine (step provider upfront connected config reporter y l).
Proof.
  intros Hl Hy. pose proof Hy as [[W P] E Hd]. destruct l as [e| |e|now| |]; cbn [step].
  - destruct (provider && _); [|done]. destruct e as [mimes force|n mime]; constructor; cbn [forward manager events held]; try done.
    all: try (by intros ? [= <-]). constructor; [done|]. cbn. apply Forall_app. split; [done|]. constructor; [by left|done].
  - destruct (held y) as [e|] eqn:He; [|done]. destruct (decide _); [|done]. constructor; cbn [manager events held]; [done| |done]. apply Forall_app. split; [done|]. constructor; [by apply Hd|done].
  - destruct (decide _); [|done]. constructor; cbn [manager events held]; [done| |done]. apply Forall_app. by repeat constructor.
  - destruct (events y) as [|e rest] eqn:Q; [done|]. destruct (processing y); [|done]. apply Forall_cons in E as [He E]. unfold process.
    pose proof (event_stays config now e He (manager y)) as F. destruct (handle_event _ _ _ _ _ _ _) as [r m]. destruct (account _ _ _). constructor; [|done..]. by apply F.
  - constructor; [|done..]. constructor; [|done]. cbn. apply on_xfer_sound; [intros t; split_and!; try done; by right|]. by apply clear_incoming_sound, announce_sound.
  - constructor; [|done..]. constructor; [|done]. by apply clear_incoming_sound, announce_sound.
Qed.
Lemma run_fine config reporter ls y : Forall genuine_label ls -> fine y -> fine (run provider upfront connected config reporter ls y).
Proof. intros Hl. revert y. induction Hl as [|l ls Hl _ IH]; intros y Hy; [done|]. cbn [run fold_left]. by apply IH, step_fine. Qed.
End provenance.

(** C13. Everything that reaches the local clipboard is genuine.  Over every run, data
    delivered with success under a serial number answer a request that was made
    with this number, for the type it asked, and are the conversion to this type
    of something the client sent -- or they are the list of the files received
    for a request for files, all of them in the download directory; text provided
    ahead is the text of something the client sent.  And every file that is
    created, written, renamed or removed is in the download directory. *)
Theorem pasted_data_genuine `{ContentHash, ImageLibrary, FileSystem, Unicode, Outside} provider upfront connected config reporter ls dir d e :
  e ∈ log (world (manager (run provider upfront connected config reporter ls (system_new config dir d)))) ->
  genuine dir (fun n mime => Forward (SelectionTransfer n mime) ∈ ls) (fun data => Receive (RdpDataResponse data) ∈ ls) e /\ confined dir e.
Proof.
  set (requested := fun n mime => _). set (sent := fun data => _). intros He.
  assert (fine dir requested sent (system_new config dir d)) as F0.
  { constructor; [|done..]. constructor; [|done]. constructor; [|done|by constructor]. constructor; cbn; [done|done|apply map_Forall_empty|apply map_empty_subseteq]. }
  assert (Forall (genuine_label requested sent) ls) as Hl.
  { apply Forall_forall. intros l Hin. destruct l as [[]| |[]|now| |]; done. }
  destruct (run_fine provider upfront connected dir requested sent config reporter ls _ Hl F0) as [[[T _ L] _] _ _].
  split; [exact (proj1 (Forall_forall _ _) (lw_log _ _ _ _ L) e He)|exact (proj1 (Forall_forall _ _) (td_log _ _ _ T) e He)].
Qed.
