(* ===== verification/ClipPaste.v ===== *)
(** * The clipboard orchestrator's handlers

    What the handlers of ClipManager.v achieve: the client's requests are
    answered, text survives both directions, announced types can be asked for;
    then where they fail, by runs with a toy outside, which also holds the
    witnesses of ClipRun.v. *)
From S2P Require Import Prelude Text ClipBase ClipText ClipHtml ClipFiles Sanitize ClipImage ClipIncoming LoopDetector Sync ClipManager ClipRun.

(** ** What the client is answered *)

Section requests.
Context `{ContentHash, ImageLibrary, FileSystem, Unicode, Outside} (provider : bool).

(** What the local clipboard answers for a type after the effects [l], and the read
    this takes: nothing without an owner that can be asked, or when the read fails. *)
Definition holds (l : list effect) (mime : str) : option (list Z) :=
  if provider && negb (fails l (ReadData mime)) then Some (reads l mime) else None.
Definition read_of (mime : str) : list effect := if provider then [ReadData mime] else [].

Lemma read_data_spec mime m : exists m', read_data provider mime m = (Ok (holds (log (world m)) mime), m') /\
  log (world m') = log (world m) ++ read_of mime /\ xfer (world m') = xfer (world m).
Proof.
  unfold read_data, holds, read_of. destruct provider; cbn [negb andb].
  - unfold bind, get, act, ret, perform. cbn [possible andb]. eexists. split; [done|]. by destruct (fails _ _).
  - exists m. by rewrite app_nil_r.
Qed.
Lemma send_spec e m : exists m', send_ true e m = (Ok tt, m') /\ log (world m') = log (world m) ++ [e] /\ xfer (world m') = xfer (world m).
Proof. unfold send_, say, bind, act, ret. destruct (perform e (world m)) as [ok w] eqn:P. eexists. split; [done|]. by injection P as _ <-. Qed.

Lemma to_rdp_error format_id mime d : match to_rdp format_id mime d with Ok _ => True | Err _ => format_id = 8 \/ format_id = 17 | Panic => False end.
Proof.
  unfold to_rdp. destruct (format_id =? 13); [done|]. destruct (Z.eqb_spec format_id 8).
  - repeat case_match; unfold png_to_dib, jpeg_to_dib, bmp_to_dib, decoded, create_dib_from_image in *; repeat case_match; simplify_eq; cbn in *; simplify_eq; auto.
    all: repeat case_match; simplify_eq; auto.
  - destruct (Z.eqb_spec format_id 17); [|done]. repeat case_match; unfold png_to_dibv5, jpeg_to_dibv5, decoded, create_dibv5_from_image in *; repeat case_match; simplify_eq; cbn in *; simplify_eq; auto.
    all: repeat case_match; simplify_eq; auto.
Qed.
Lemma build_list_total paths : build_list paths <> Panic.
Proof.
  unfold build_list. generalize (to_le 4 (wrap 32 (Z.of_nat (length paths)))). induction paths as [|p paths IH]; intros acc; [done|]. cbn [mfold].
  unfold build. destruct (metadata p) as [e|[is_dir len]]; [done|]. destruct (file_name p ≫= from_utf8); [apply IH|done].
Qed.

Definition GNOME_FILES : str := lit "x-special/gnome-copied-files".
Definition URI_LIST : str := lit "text/uri-list".

(** The client asks for the files the local clipboard lists: the format it asks for,
    by its number or, with the number 0, as the first one with a name, was announced
    as the file list. *)
Definition asks_for_files (format_id : Z) (m : Manager) : Prop := exists f pre post,
  local_advertised_formats m = pre ++ f :: post /\ name f = Some (lit "FileGroupDescriptorW") /\
  (id f = format_id \/ format_id = 0) /\
  Forall (fun g => id g <> format_id /\ (format_id = 0 -> name g = None)) pre.

(** The files come from the file manager's own type when it holds something, and
    from the list of URIs otherwise; the reads this takes. *)
Definition listed (l : list effect) (d : list Z) : Prop :=
  (holds l GNOME_FILES = Some d /\ d <> []) \/
  (default [] (holds l GNOME_FILES) = [] /\ holds (l ++ read_of GNOME_FILES) URI_LIST = Some d).
Definition listing_reads (l : list effect) : list effect :=
  read_of GNOME_FILES ++ match default [] (holds l GNOME_FILES) with [] => read_of URI_LIST | _ => [] end.

(** The reply that carries data: the descriptors of the files listed, when there are
    any and all can be looked at; or what the local clipboard holds of the type of
    the format asked for, converted. *)
Definition file_data (l : list effect) (b : list Z) : Prop :=
  exists d, listed l d /\ parse_file_uris d <> [] /\ build_list (parse_file_uris d) = Ok b.
Definition format_data (format_id : Z) (l : list effect) (b : list Z) : Prop :=
  exists mime d, rdp_format_to_mime format_id = Some mime /\ holds l mime = Some d /\ to_rdp format_id mime d = Ok b.

(** One reply follows the reads: the data when there is some, and an error only
    when there is none. *)
Definition answered (l : list effect) (rs : list effect) (data : list Z -> Prop) (l' : list effect) : Prop :=
  exists x, l' = l ++ rs ++ [FormatData x] /\ match x with Some b => data b | None => forall b, ~ data b end.

Definition replied (format_id : Z) (m : Manager) (p : outcome Failure.ClipboardError unit * Manager) : Prop :=
  let l := log (world m) in
  let rs := match rdp_format_to_mime format_id with Some mime => read_of mime | None => [] end in
  match p with
  | (Ok _, m') =>
      (asks_for_files format_id m /\ answered l (listing_reads l) (file_data l) (log (world m'))) \/
      (~ asks_for_files format_id m /\ answered l rs (format_data format_id l) (log (world m')) /\ xfer (world m') = xfer (world m))
  | (Err e, m') => ~ asks_for_files format_id m /\ log (world m') = log (world m) ++ rs /\ (format_id = 8 \/ format_id = 17) /\
      exists err mime d, e = Failure.Core err /\ rdp_format_to_mime format_id = Some mime /\ holds l mime = Some d /\
        to_rdp format_id mime d = Err err
  | (Panic, _) => False
  end.

Lemma find_split {A} (p : A -> bool) (l : list A) (x : A) :
  List.find p l = Some x -> exists pre post, l = pre ++ x :: post /\ p x = true /\ Forall (fun y => p y = false) pre.
Proof.
  induction l as [|y l IH]; [done|]. cbn. destruct (p y) eqn:E.
  - intros [= ->]. by exists [], l.
  - intros (pre & post & -> & Hx & Hp)%IH. exists (y :: pre), post. by repeat constructor.
Qed.
Lemma find_after_prefix {A} (p : A -> bool) (pre post : list A) (x : A) : p x = true -> Forall (fun y => p y = false) pre ->
  List.find p (pre ++ x :: post) = Some x.
Proof. intros Hx Hp. induction Hp as [|y pre Hy Hp IH]; cbn; [by rewrite Hx|by rewrite Hy]. Qed.

Lemma matches_format format_id (f : ClipboardFormat) : (id f =? format_id) || ((format_id =? 0) && bool_decide (is_Some (name f))) = false <->
  id f <> format_id /\ (format_id = 0 -> name f = None).
Proof.
  rewrite orb_false_iff, andb_false_iff, !Z.eqb_neq, bool_decide_eq_false, <-eq_None_not_Some.
  destruct (Z.eq_dec format_id 0); tauto.
Qed.

(** The handler's search for the file list. *)
Lemma files_found format_id m : asks_for_files format_id m <->
  List.find (fun f => (id f =? format_id) || ((format_id =? 0) && bool_decide (is_Some (name f)))) (local_advertised_formats m) ≫= name =
  Some (lit "FileGroupDescriptorW").
Proof.
  split.
  - intros (f & pre & post & -> & Hn & Hf & Hpre). rewrite (find_after_prefix _ pre post f); [exact Hn| |].
    + rewrite Hn. destruct Hf as [-> | ->]; [by rewrite Z.eqb_refl|]. by rewrite orb_true_r.
    + eapply Forall_impl; [exact Hpre|]. intros g. by rewrite <-matches_format.
  - destruct (List.find _ _) as [f|] eqn:E; [|done]. intros Hn. cbn in Hn. apply find_split in E as (pre & post & E & Hf & Hpre).
    exists f, pre, post. split_and!; [done..| |].
    + apply orb_true_iff in Hf as [?%Z.eqb_eq|[?%Z.eqb_eq _]%andb_true_iff]; auto.
    + eapply Forall_impl; [exact Hpre|]. intros g. by rewrite matches_format.
Qed.

Lemma answered_send l rs (data : list Z -> Prop) x m : log (world m) = l ++ rs ->
  match x with Some b => data b | None => forall b, ~ data b end ->
  exists m', send_ true (FormatData x) m = (Ok tt, m') /\ answered l rs data (log (world m')) /\ xfer (world m') = xfer (world m).
Proof.
  intros E K. destruct (send_spec (FormatData x) m) as (m' & -> & E' & X). exists m'. split_and!; [done| |done].
  exists x. by rewrite E', E, <-app_assoc.
Qed.

Lemma file_list_answered m : exists m', handle_file_descriptor_request provider true m = (Ok tt, m') /\
  answered (log (world m)) (listing_reads (log (world m))) (file_data (log (world m))) (log (world m')).
Proof.
  set (l := log (world m)). unfold handle_file_descriptor_request.
  destruct (read_data_spec (lit "x-special/gnome-copied-files") m) as (m1 & E & L & _). unfold bind at 1. rewrite E. fold l in L |- *.
  change (lit "x-special/gnome-copied-files") with GNOME_FILES in *. change (lit "text/uri-list") with URI_LIST.
  assert (exists r m2, match holds l GNOME_FILES with Some ((_ :: _) as d) => ret (Some d) | _ => read_data provider URI_LIST end m1 = (Ok r, m2) /\
    log (world m2) = l ++ listing_reads l /\ (forall d, r = Some d <-> listed l d)) as (r & m2 & E2 & L2 & D2).
  { unfold listing_reads, listed. destruct (read_data_spec URI_LIST m1) as (m2 & E2 & L2 & _). rewrite L in E2, L2.
    destruct (holds l GNOME_FILES) as [[|b d]|] eqn:G; cbn [default].
    2: { exists (Some (b :: d)), m1. split_and!; [done|by rewrite app_nil_r|]. intros d'. split; [intros [= <-]; by left|by intros [[[= ->] _]|[? _]]]. }
    all: eexists _, m2; split_and!; [exact E2|by rewrite L2, app_assoc|]; intros d'; split; [by right|]; by intros [[? ?]|[_ ?]]; simplify_eq. }
  unfold bind at 1. rewrite E2. unfold file_data.
  assert (forall b, (forall d, r = Some d -> parse_file_uris d <> [] -> build_list (parse_file_uris d) = Ok b -> False) ->
    ~ exists d, listed l d /\ parse_file_uris d <> [] /\ build_list (parse_file_uris d) = Ok b) as Hno.
  { intros b K (d & Hd & Hp & Hb). eapply K; [by apply D2|done..]. }
  destruct r as [d|]; [|destruct (answered_send l _ (file_data l) None m2 L2) as (m' & ? & ? & _); [intros b; by apply Hno|by exists m']].
  assert (listed l d) as Ed by by apply D2.
  destruct (parse_file_uris d) as [|p ps] eqn:Q.
  { destruct (answered_send l _ (file_data l) None m2 L2) as (m' & ? & ? & _); [|by exists m']. intros b. apply Hno. intros d' [= <-]. by rewrite Q. }
  unfold bind, modify. set (m3 := with_world _ m2). assert (log (world m3) = l ++ listing_reads l) as L3 by done. clearbody m3.
  pose proof (build_list_total (p :: ps)) as T. destruct (build_list (p :: ps)) as [b|e|] eqn:B; [| |done].
  - destruct (answered_send l _ (file_data l) (Some b) m3 L3) as (m' & ? & ? & _); [exists d; by rewrite Q|by exists m'].
  - destruct (answered_send l _ (file_data l) None m3 L3) as (m' & ? & ? & _); [|by exists m']. intros b. apply Hno. intros d' [= <-]. by rewrite Q, B.
Qed.

End requests.

(** ** Text *)

Lemma from_utf8_lossy_valid t : valid_str t -> from_utf8_lossy (as_bytes t) = t.
Proof.
  intros Hv. unfold from_utf8_lossy. assert (forall fuel, (length t <= fuel)%nat -> from_utf8_lossy_fuel fuel (as_bytes t) = t) as G.
  { induction Hv as [|c t Hc Hv IH]; intros fuel Hf; [by destruct fuel|]. destruct fuel as [|fuel]; [cbn in Hf; lia|]. rewrite as_bytes_cons. pose proof (utf8_next_char c (as_bytes t) Hc) as N.
    pose proof (utf8_char_length c) as L. destruct (utf8_char c ++ as_bytes t) as [|b bs] eqn:Q; [destruct (utf8_char c); cbn in *; [lia|done]|]. cbn [from_utf8_lossy_fuel]. rewrite N. f_equal. apply IH. cbn in Hf. lia. }
  apply G. pose proof (length_le_slen t) as L. unfold slen in L. lia.
Qed.
Lemma from_utf16_lossy_sound us : forall t, from_utf16 us = Some t -> from_utf16_lossy us = t.
Proof.
  induction us as [us IH] using (induction_ltof1 _ (@length Z)); unfold ltof in IH. destruct us as [|u us]; [by intros t [= <-]|]. intros t. cbn [from_utf16 from_utf16_lossy].
  destruct (is_high_surrogate u).
  - destruct us as [|v us]; [done|]. destruct (is_low_surrogate v); [|done]. destruct (from_utf16 us) as [t'|] eqn:E; [|done]. intros [= <-]. f_equal. apply IH; [cbn; lia|done].
  - destruct (is_low_surrogate u); [done|]. destruct (from_utf16 us) as [t'|] eqn:E; [|done]. intros [= <-]. f_equal. apply IH; [cbn; lia|done].
Qed.
Lemma unix_valid t : valid_str t -> valid_str (convert_line_endings_to_unix t).
Proof.
  induction t as [t IH] using (induction_ltof1 _ (@length Z)); unfold ltof in IH. destruct t as [|c t]; [done|]. intros [Hc Hv]%Forall_cons.
  assert (forall r, valid_str r -> (length r <= length t)%nat -> valid_str (convert_line_endings_to_unix r)) as K by (intros r Hr Hl; apply IH; [cbn; lia|done]).
  cbn [convert_line_endings_to_unix]. repeat case_match; subst; repeat (constructor; [done|]); try (apply K; [|cbn; lia]); try done; by apply Forall_cons in Hv as [_ Hv].
Qed.
Lemma for_windows_valid t : valid_str t -> valid_str (sanitize_text_for_windows t).
Proof.
  intros Hv. unfold sanitize_text_for_windows, convert_line_endings_to_windows. apply Forall_forall. intros c Hc.
  apply list_elem_of_In, filter_In, proj1, list_elem_of_In, list_elem_of_bind in Hc as (x & Hx & Hin).
  pose proof (proj1 (Forall_forall _ _) (unix_valid t Hv) _ Hin) as Vx. destruct (x =? LF); [|apply list_elem_of_singleton in Hx; congruence].
  apply elem_of_cons in Hx as [->|Hx]; [done|]. by apply list_elem_of_singleton in Hx as ->.
Qed.

(** What is sent to the client and comes back is the text with local line endings. *)
Lemma text_there_and_back t : valid_str t -> windows_text (text_for_windows (as_bytes t)) = as_bytes (sanitize_text_for_linux t) /\ 2 <= blen (text_for_windows (as_bytes t)).
Proof.
  intros Hv. unfold windows_text, text_for_windows. rewrite from_utf8_lossy_valid by done. set (u := sanitize_text_for_windows t).
  assert (valid_str u) as Vu by by apply for_windows_valid. destruct (windows_text_canonical t) as (C & _ & N). fold u in C, N. split.
  - rewrite units_le_app by by apply encode_utf16_units. change (units_le [0; 0]) with [0]. rewrite take_while_app_stop; [|apply forallb_forall|done].
    + rewrite (from_utf16_lossy_sound _ u) by by apply from_utf16_encode. f_equal. unfold sanitize_text_for_linux at 1. rewrite C. apply remove_nul_idem.
    + intros c Hc%list_elem_of_In. pose proof (proj1 (Forall_forall _ _) (encode_utf16_nonzero u Vu N) c Hc) as Hn. cbn in Hn. by apply negb_true_iff, Z.eqb_neq.
  - unfold blen. rewrite length_app. cbn. lia.
Qed.

Section pasting.
Context `{ContentHash, ImageLibrary, FileSystem, Unicode, Outside} (upfront : bool).

(** C15. Text survives the clipboard in both directions.  When the client asks for the
    text a local application holds, it is sent the text as UTF-16 with Windows'
    line endings; and when any manager later gets these very bytes as the answer
    to a local request for text, and they are not recognised as an echo, it
    delivers to that request exactly the original text, but for line endings and
    NUL characters, and nothing remains to be answered. *)
Theorem text_survives_both_ways t m (m' := (handle_rdp_data_request true true 13 m).2) serial mime rest now m2 :
  valid_str t -> reads (log (world m)) (lit "text/plain;charset=utf-8") = as_bytes t -> fails (log (world m)) (ReadData (lit "text/plain;charset=utf-8")) = false ->
  (List.find (fun f => id f =? 13) (local_advertised_formats m) ≫= name) <> Some (lit "FileGroupDescriptorW") ->
  let sent := text_for_windows (as_bytes t) in
  last (log (world m')) = Some (FormatData (Some sent)) /\
  (pending m2 = (serial, mime) :: rest -> serial <> EAGER_FETCH_SERIAL -> starts_with (lit "text/plain") mime = true ->
   (check_content now sent true (sync_manager m2)).2 = true -> fails (log (world m2)) (Complete serial mime (as_bytes (sanitize_text_for_linux t)) true) = false ->
   let m2' := (handle_rdp_data_response true upfront true now sent m2).2 in
   pending m2' = [] /\ exists cancelled, log (world m2') = log (world m2) ++ Complete serial mime (as_bytes (sanitize_text_for_linux t)) true :: cancelled /\
     Forall (fun e => match e with Complete n _ _ ok => n <> serial /\ ok = false | _ => False end) cancelled).
Proof.
  intros Hv Hr Hf Hn sent. destruct (text_there_and_back t Hv) as [W L]. fold sent in W, L. split.
  - unfold m', handle_rdp_data_request. unfold bind at 1, get.
    assert (List.find (fun f => (id f =? 13) || ((13 =? 0) && bool_decide (is_Some (name f)))) (local_advertised_formats m) = List.find (fun f => id f =? 13) (local_advertised_formats m)) as ->.
    { generalize (local_advertised_formats m) as fs. induction fs as [|f fs IH]; [done|]. cbn [List.find]. rewrite orb_false_r, IH. done. }
    rewrite bool_decide_eq_false_2 by exact Hn. change (rdp_format_to_mime 13) with (Some (lit "text/plain;charset=utf-8")). cbv beta iota.
    unfold read_data, bind, get, act, ret, perform. cbn [negb possible andb]. rewrite Hf. cbn [negb]. rewrite Hr. change (to_rdp 13 _ (as_bytes t)) with (Ok (E := ClipboardError) sent). cbv beta iota.
    destruct (send_spec (FormatData (Some sent)) (with_world (mkWorld (apply (ReadData (lit "text/plain;charset=utf-8")) (disk (world m))) (xfer (world m)) (log (world m) ++ [ReadData (lit "text/plain;charset=utf-8")])) m)) as (m3 & -> & E & _).
    cbn [snd]. rewrite E. apply last_snoc.
  - intros Hp He Hm Hc Hok. cbn zeta. pattern (handle_rdp_data_response true upfront true now sent m2).2. match goal with |- ?P _ => set (Q := P) end.
    unfold handle_rdp_data_response. unfold bind at 1, get. destruct (check_content now sent true (sync_manager m2)) as [y fresh]. cbn [snd] in Hc. subst fresh.
    unfold bind at 1, modify. cbn [negb orb]. rewrite Hp. unfold bind at 1. rewrite (proj2 (Z.eqb_neq _ _) He).
    apply starts_with_spec in Hm as [tail ->].
    assert (forall p, head p <> Some 116 \/ take 10 p <> lit "text/plain" -> eqs (lit "text/plain" ++ tail) p = false) as Ne.
    { intros p Hd. apply bool_decide_eq_false_2. intros <-. by destruct Hd. }
    rewrite !Ne by (right; by vm_compute). cbn [orb].
    assert (to_local (lit "text/plain" ++ tail) sent = Ok (as_bytes (sanitize_text_for_linux t))) as ->.
    { unfold to_local. rewrite !Ne, starts_with_app by (right; by vm_compute).
      change (starts_with (lit "image/png") (lit "text/plain" ++ tail)) with false. change (starts_with (lit "image/jpeg") (lit "text/plain" ++ tail)) with false.
      change (starts_with (lit "image/bmp") (lit "text/plain" ++ tail)) with false. change (starts_with (lit "image/x-bmp") (lit "text/plain" ++ tail)) with false.
      cbn [orb andb]. rewrite (proj2 (Z.leb_le _ _) L). by rewrite W. }
    unfold deliver, bind, act, perform, get, modify. cbn [with_pending with_sync world possible andb]. rewrite Hok. cbn [negb].
unfold Q.
    rewrite cancel_all_pending, cancel_all_log. cbn [with_pending with_world with_sync pending world log]. split; [done|]. rewrite <-app_assoc. eexists. split; [reflexivity|].
    apply Forall_forall. intros e (p & <- & Hin%filter_In)%list_elem_of_In%in_map_iff. cbn in Hin. destruct Hin as [_ Hin%negb_true_iff%Z.eqb_neq]. done.
Qed.
End pasting.

(** ** Requests for announced types *)

Lemma add_mime_sound output f mime : mime ∈ add_mime output f ->
  mime ∈ output \/ mime_of_format f = Some mime \/ (mime = GNOME_FILES /\ mime_of_format f = Some URI_LIST).
Proof.
  unfold add_mime. destruct (mime_of_format f) as [t|] eqn:E; [|auto]. intros Hin.
  assert (forall l, mime ∈ (if known_mime output t then output else output ++ [t]) ++ l -> mime ∈ output \/ Some t = Some mime \/ mime ∈ l) as K.
  { intros l [Hi|Hi]%elem_of_app; [|auto]. destruct (known_mime output t); [auto|]. apply elem_of_app in Hi as [Hi|Hi%list_elem_of_singleton]; subst; auto. }
  destruct (eqs t (lit "text/uri-list") && _) eqn:U.
  - apply andb_true_iff in U as [U%eqs_true _]. subst t. destruct (K _ Hin) as [?|[?|Hi%list_elem_of_singleton]]; subst; auto.
  - destruct (K []) as [Hi|[Hi|Hi%elem_of_nil]]; [by rewrite app_nil_r|auto..|done].
Qed.
Lemma mimes_sound formats mime : mime ∈ rdp_formats_to_mimes formats ->
  (exists f, f ∈ formats /\ (mime_of_format f = Some mime \/ (mime = GNOME_FILES /\ mime_of_format f = Some URI_LIST))) \/
  (mime = lit "text/plain" /\ fold_left add_mime formats [] = []).
Proof.
  assert (forall output, mime ∈ fold_left add_mime formats output -> mime ∈ output \/
    exists f, f ∈ formats /\ (mime_of_format f = Some mime \/ (mime = GNOME_FILES /\ mime_of_format f = Some URI_LIST))) as G.
  { induction formats as [|f formats IH]; intros output Hin; [by left|]. cbn [fold_left] in Hin. destruct (IH _ Hin) as [Hi|(g & Hg & Hm)].
    - apply add_mime_sound in Hi as [?|Hf]; [by left|]. right. exists f. split; [left|done].
    - right. exists g. split; [by right|done]. }
  unfold rdp_formats_to_mimes. destruct (bool_decide (fold_left add_mime formats [] = [])) eqn:E.
  - apply bool_decide_eq_true in E. rewrite E. destruct (negb _); cbn [andb]; [|by intros ?%elem_of_nil]. intros Hi%list_elem_of_singleton. by right.
  - cbn [andb]. intros Hin. destruct (G _ Hin) as [?%elem_of_nil|?]; [done|by left].
Qed.
Lemma known_kept output f mime : mime ∈ output -> mime ∈ add_mime output f.
Proof.
  intros Hin. unfold add_mime. destruct (mime_of_format f) as [t|]; [|done]. assert (forall b (x : list str) l, mime ∈ x -> mime ∈ (if b : bool then x ++ l else x)) as K by (intros []; set_solver).
  apply (K _ _ [_]). destruct (known_mime output t); set_solver.
Qed.
(** A format with a type leaves something to announce. *)
Lemma mimes_complete formats f mime : f ∈ formats -> mime_of_format f = Some mime -> fold_left add_mime formats [] <> [].
Proof.
  intros Hf Hm. assert (forall l output, mime ∈ output -> mime ∈ fold_left add_mime l output) as K.
  { induction l as [|g l IH]; intros output Ho; [done|]. cbn. by apply IH, known_kept. }
  assert (forall output, mime ∈ fold_left add_mime formats output) as G; [|intros E; specialize (G []); rewrite E in G; by apply elem_of_nil in G].
  induction formats as [|g formats IH]; [by apply elem_of_nil in Hf|]. intros output. cbn [fold_left]. apply elem_of_cons in Hf as [<-|Hf]; [|by apply IH]. apply K. unfold add_mime. rewrite Hm.
  assert (mime ∈ (if known_mime output mime then output else output ++ [mime])) as Hin.
  { destruct (known_mime output mime) eqn:E; [|set_solver]. apply existsb_exists in E as (x & Hx & Ex%eqs_true). subst x. by apply list_elem_of_In. }
  destruct (_ && _); set_solver.
Qed.

Lemma lookup_offered formats mime n : lookup_format_id_for_mime formats mime = Some n -> exists f, f ∈ formats /\ id f = n.
Proof.
  assert (forall k, has_id k formats = true -> exists f, f ∈ formats /\ id f = k) as K.
  { intros k (f & Hf & E%Z.eqb_eq)%existsb_exists. exists f. split; [by apply list_elem_of_In|done]. }
  unfold lookup_format_id_for_mime. destruct (_ || _); cbn [andb]; [destruct (has_id 13 formats) eqn:E13; [intros [= <-]; auto|destruct (has_id 1 formats) eqn:E1; [intros [= <-]; auto|]]|].
  all: destruct (List.find _ formats) as [f|] eqn:F; [|done]; intros [= <-]; apply find_some in F as [F _]; exists f; split; [by apply list_elem_of_In|done].
Qed.

(** A type the client's formats stand for is found again. *)
Lemma lookup_finds formats f mime : f ∈ formats -> mime_of_format f = Some mime -> lookup_format_id_for_mime formats mime <> None.
Proof.
  intros Hf Hm. unfold lookup_format_id_for_mime. destruct (_ || _); cbn [andb]; [destruct (has_id 13 formats); [done|destruct (has_id 1 formats); [done|]]|].
  all: destruct (List.find _ formats) eqn:F; [done|]; exfalso; apply list_elem_of_In in Hf; pose proof (find_none _ _ F f Hf) as N; cbn beta in N.
  all: unfold mime_of_format in Hm; destruct (rdp_format_to_mime (id f)) as [t|]; [injection Hm as ->; by rewrite (proj2 (eqs_true mime mime) eq_refl) in N|].
  all: rewrite Hm, (proj2 (eqs_true mime mime) eq_refl) in N; done.
Qed.
Definition named_files (formats : list ClipboardFormat) : bool :=
  existsb (fun f => match name f ≫= format_name_to_mime with Some m => eqs m URI_LIST | None => false end) formats.
Lemma lookup_gnome formats : named_files formats = true -> lookup_format_id_for_mime formats GNOME_FILES <> None.
Proof.
  intros (f & Hf & Hn)%existsb_exists. unfold lookup_format_id_for_mime. cbn [orb andb]. change (eqs GNOME_FILES (lit "text/plain;charset=utf-8") || eqs GNOME_FILES (lit "text/plain")) with false. cbn [andb].
  destruct (List.find _ formats) eqn:F; [done|]. exfalso. pose proof (find_none _ _ F f Hf) as N. cbn beta in N. destruct (name f ≫= format_name_to_mime) as [m|]; [|done].
  apply eqs_true in Hn. subst m. apply orb_false_iff in N as [_ N]. by vm_compute in N.
Qed.

Section announced.
Context `{ContentHash, ImageLibrary, FileSystem, Unicode, Outside}.

(** Every type announced to the local clipboard can be asked for.  A local
    application's request for a type that stands for the client's formats always
    sends the client one request, for a format the client offers -- but for two
    cases: a client that offers nothing the program knows is asked for Unicode
    text, and one that offers files without their registered name is asked for
    the format 0, which no client has. *)
Theorem announced_types_requestable mime m : mime ∈ rdp_formats_to_mimes (current_rdp_formats m) ->
  exists n m', handle_portal_data_request true mime m = (Ok tt, m') /\ log (world m') = log (world m) ++ [InitiatePaste n] /\
  ((exists f, f ∈ current_rdp_formats m /\ id f = n) \/
   (n = 13 /\ mime = lit "text/plain" /\ forall f, f ∈ current_rdp_formats m -> mime_of_format f = None) \/
   (n = 0 /\ mime = GNOME_FILES /\ named_files (current_rdp_formats m) = false)).
Proof.
  intros Hin. unfold handle_portal_data_request. unfold bind at 1, get. set (formats := current_rdp_formats m) in *.
  destruct (lookup_format_id_for_mime formats mime) as [n|] eqn:L.
  { destruct (send_spec (InitiatePaste n) m) as (m' & E & Lg & _). exists n, m'. split_and!; [done..|]. left. by apply lookup_offered in L. }
  destruct (mimes_sound formats mime Hin) as [(f & Hf & [Hm|[-> Hm]])|[-> He]].
  - by destruct (lookup_finds formats f mime Hf Hm).
  - destruct (send_spec (InitiatePaste 0) m) as (m' & E & Lg & _). exists 0, m'. split_and!; [exact E|done|]. right. right. split_and!; [done..|].
    apply not_true_iff_false. intros N. by destruct (lookup_gnome _ N).
  - destruct (send_spec (InitiatePaste 13) m) as (m' & E & Lg & _). exists 13, m'. split_and!; [exact E|done|]. right. left. split_and!; [done..|].
    intros f Hf. destruct (mime_of_format f) eqn:M; [|done]. by destruct (mimes_complete formats f _ Hf M).
Qed.
End announced.

(** ** Where the orchestrator fails *)

(** Echoes of the content are never recognised: the handlers record only what the
    client sends, and compare with what the other side sent. *)
Section echoes.
Context `{ContentHash, ImageLibrary, FileSystem, Unicode, Outside} (provider upfront connected : bool).

Definition from_client (d : LoopDetector) : Prop := Forall (fun op => source op = Rdp) (content_history d).
Definition one_sided (m m' : Manager) : Prop := from_client (detector (sync_manager m)) -> from_client (detector (sync_manager m')).
#[local] Instance one_sided_preorder : PreOrder one_sided.
Proof. split; [intros ?|intros ? ? ? ? ?]; unfold one_sided in *; auto. Qed.

Lemma cleanup_from_client now d : from_client d -> from_client (cleanup_history now d).
Proof.
  unfold from_client, cleanup_history, drop_excess. cbn [content_history]. intros Hd. apply Forall_drop. unfold drop_stale. revert Hd. generalize (content_history d). intros l Hl.
  induction Hl as [|op l Ho Hl IH]; [by constructor|]. cbn [drop_while]. destruct (_ <? _); [done|by constructor].
Qed.
Lemma push_from_client now op d : from_client d -> from_client (cleanup_history now (push_format op d)).
Proof. intros Hd. by apply cleanup_from_client. Qed.
Lemma check_content_fresh now data y : from_client (detector y) -> let '(y', fresh) := check_content now data true y in fresh = true /\ from_client (detector y').
Proof.
  intros Hd. unfold check_content. assert (would_cause_content_loop now data Rdp (detector y) = false) as ->.
  { unfold would_cause_content_loop, check_hash_collision. destruct (negb _); [done|]. apply not_true_iff_false. intros (op & Ho & Hs)%existsb_exists.
    apply list_elem_of_In in Ho. apply andb_true_iff in Hs as [Hs%bool_decide_eq_true _].
    assert (op ∈ content_history (detector y)) as Hin.
    { apply list_elem_of_In, in_rev, list_elem_of_In. revert Ho. generalize (rev (content_history (detector y))). intros l.
      induction l as [|o l IH]; cbn; [done|]. destruct (negb _); [|by intros ?%elem_of_nil]. intros [->|Ho]%elem_of_cons; [left|right; auto]. }
    pose proof (proj1 (Forall_forall _ _) Hd op Hin) as E. cbn beta in E. rewrite E in Hs. done. }
  split; [done|]. cbn [detector]. unfold record_content. destruct (negb _); [done|]. apply cleanup_from_client. unfold from_client. cbn. apply Forall_app. by repeat constructor.
Qed.

Lemma one_sided_world {A} (f : World -> outcome Failure.ClipboardError A * World) : keeps one_sided (on_world f).
Proof. intros m. unfold on_world, one_sided. by destruct (f (world m)). Qed.
Lemma one_sided_act e : keeps one_sided (act e).
Proof. intros m. unfold act, one_sided. by destruct (perform e (world m)). Qed.
Lemma one_sided_say e : keeps one_sided (say connected e).
Proof. unfold say. destruct connected; [apply one_sided_act|apply keeps_ret; apply _]. Qed.
Lemma one_sided_send e : keeps one_sided (send_ connected e).
Proof. unfold send_. apply keeps_bind; [apply _|apply one_sided_say|intros ?; apply keeps_ret; apply _]. Qed.
Lemma one_sided_modify f : (forall m, sync_manager (f m) = sync_manager m) -> keeps one_sided (modify f).
Proof. intros Hf m. unfold one_sided. cbn. by rewrite Hf. Qed.
Hint Resolve one_sided_world one_sided_act one_sided_say one_sided_send one_sided_modify : keeps.
Hint Extern 2 (keeps _ (modify _)) => by apply one_sided_modify : keeps.
Lemma one_sided_cancel es : keeps one_sided (cancel_all es).
Proof. induction es as [|[n mime] es IH]; cbn [cancel_all]; walk. Qed.
Hint Resolve one_sided_cancel : keeps.
Lemma one_sided_deliver n mime data : keeps one_sided (deliver n mime data).
Proof. unfold deliver, forget. walk. Qed.
Lemma one_sided_provide data : keeps one_sided (provide_eagerly upfront data).
Proof. unfold provide_eagerly. walk. Qed.
Hint Resolve one_sided_deliver one_sided_provide : keeps.
Lemma one_sided_read mime : keeps one_sided (read_data provider mime).
Proof. unfold read_data. walk. Qed.
Hint Resolve one_sided_read : keeps.

Lemma one_sided_sync y m : (from_client (detector (sync_manager m)) -> from_client (detector y)) -> one_sided m (with_sync y m).
Proof. unfold one_sided. auto. Qed.
(** After a change of the detector that keeps its content, a handler that leaves it. *)
Lemma one_sided_then {A} y m (h : handler A) : (from_client (detector (sync_manager m)) -> from_client (detector y)) -> keeps one_sided h -> one_sided m (h (with_sync y m)).2.
Proof. intros Hy Hh. etrans; [by apply one_sided_sync|apply Hh]. Qed.

Lemma event_one_sided config now e : keeps one_sided (handle_event provider upfront connected config now e).
Proof.
  destruct e as [|formats|format_id|data| |stream index position amount size_only|stream data is_error|mimes force|mime]; cbn [handle_event]; [walk| | | | |auto with keeps..| |].
  - unfold handle_rdp_format_list. apply keeps_bind; [apply _|by apply one_sided_modify|intros _]. apply keeps_get_bind. intros m.
    assert (from_client (detector (sync_manager m)) -> from_client (detector (Sync.handle_rdp_formats now formats (sync_manager m)).1)) as Hy.
    { unfold Sync.handle_rdp_formats. destruct (would_cause_loop _ _ _); [done|]. intros Hd. by apply push_from_client. }
    destruct (Sync.handle_rdp_formats now formats (sync_manager m)) as [y should]. unfold bind at 1, modify. apply one_sided_then; [exact Hy|]. unfold fetch_eagerly, push, forget. walk.
  - unfold handle_rdp_data_request, handle_file_descriptor_request, send_format_data_error. walk.
  - unfold handle_rdp_data_response. apply keeps_get_bind. intros m. pose proof (check_content_fresh now data (sync_manager m)) as Hy.
    destruct (check_content now data true (sync_manager m)) as [y fresh]. unfold bind at 1, modify. apply one_sided_then; [by intros; apply Hy|]. walk.
  - unfold handle_rdp_data_error. walk.
  - unfold ClipManager.handle_portal_formats. apply keeps_get_bind. intros m.
    assert (from_client (detector (sync_manager m)) -> from_client (detector (Sync.handle_portal_formats now mimes force (sync_manager m)).1)) as Hy.
    { unfold Sync.handle_portal_formats. repeat case_match; try done; intros Hd; by apply push_from_client. }
    destruct (Sync.handle_portal_formats now mimes force (sync_manager m)) as [y should]. unfold bind at 1, modify. apply one_sided_then; [exact Hy|]. walk.
  - unfold handle_portal_data_request. walk.
Qed.

Lemma step_one_sided config reporter y l : one_sided (manager y) (manager (step provider upfront connected config reporter y l)).
Proof.
  unfold one_sided. destruct l as [e| |e|now| |]; cbn [step]; try done.
  - destruct (provider && _); [|done]. by destruct e.
  - destruct (held y); [|done]. by destruct (decide _).
  - by destruct (decide _).
  - destruct (events y) as [|e rest]; [done|]. destruct (processing y); [|done]. unfold process. pose proof (event_one_sided config now e (manager y)) as F.
    destruct (handle_event _ _ _ _ _ _ _) as [r m]. unfold one_sided in F. by destruct (account _ _ _).
Qed.
(** Whatever happened before, no answer of the client is taken for an echo. *)
Lemma no_echo_recognised config reporter ls dir d now data :
  (check_content now data true (sync_manager (manager (run provider upfront connected config reporter ls (system_new config dir d))))).2 = true.
Proof.
  assert (from_client (detector (sync_manager (manager (run provider upfront connected config reporter ls (system_new config dir d)))))) as F.
  { assert (from_client (detector (sync_manager (manager (system_new config dir d))))) as F0 by constructor. revert F0. generalize (system_new config dir d). induction ls as [|l ls IH]; intros y F; [done|].
    cbn [run fold_left]. apply IH. by apply step_one_sided. }
  pose proof (check_content_fresh now data _ F) as C. destruct (check_content _ _ _ _). by destruct C.
Qed.
End echoes.

(** Examples run with a toy outside: a fixed local clipboard, nothing fails. *)
Module Toy.
#[local] Existing Instances identity_hash one_file.
Definition holding (content : list Z) : Outside := {| fails := fun _ _ => false; written := fun _ => 0%nat; reads := fun _ _ => content |}.
Definition config : ClipboardOrchestratorConfig := config_default.
Definition start : System := system_new config dl ∅.
Definition play (o : Outside) (ls : list label) : System := run (H3 := o) true false true config health_reporter ls start.
Definition ask (serial : Z) (mime : string) : list label := [Forward (SelectionTransfer serial (lit mime)); Enqueue; Process 0].
Definition respond (now : Z) (data : list Z) : list label := [Receive (RdpDataResponse data); Process now].
Definition offer (fs : list ClipboardFormat) : list label := [Receive (RdpFormatList fs); Process 0].
Definition said (y : System) : list effect := log (world (manager y)).

(** A request for a type the client is never asked for keeps its place in the
    queue, so the next answer, here to a request for text, is delivered to it. *)
Lemma unsupported_request_misdirects :
  let y := play calm (ask 7 "chemical/x-pdb" ++ ask 8 "text/plain" ++ respond 0 [104; 0; 0; 0]) in
  said y = [InitiatePaste 13; Complete 7 (lit "chemical/x-pdb") [104; 0; 0; 0] true; Complete 8 (lit "text/plain") [] false] /\ errors y = 0.
Proof. by vm_compute. Qed.

(** Files offered without their registered name are announced, but asked for
    under the format 0. *)
Lemma files_without_name_ask_zero : said (play calm (offer [file_drop] ++ ask 7 "x-special/gnome-copied-files")) =
  [Announce [URI_LIST; GNOME_FILES]; InitiatePaste 0].
Proof. by vm_compute. Qed.

(** HTML and single-byte text are read as UTF-16. *)
Lemma html_misread : said (play calm (ask 7 "text/html" ++ respond 0 (as_bytes (lit "<b>")))) = [InitiatePaste CF_HTML; Complete 7 (lit "text/html") (as_bytes [0x623C]) true].
Proof. by vm_compute. Qed.
Lemma ansi_misread : said (play calm (offer [format_new CF_TEXT] ++ ask 7 "text/plain" ++ respond 0 (as_bytes (lit "hi")))) =
  [Announce [lit "text/plain;charset=utf-8"]; InitiatePaste CF_TEXT; Complete 7 (lit "text/plain") (as_bytes [0x6968]) true].
Proof. by vm_compute. Qed.
(** And sent without a conversion: an umlaut, and HTML without its header. *)
Lemma ansi_sent_as_utf8 : said (play (holding (as_bytes [0xFC])) [Receive (RdpDataRequest CF_TEXT); Process 0]) = [ReadData (lit "text/plain;charset=utf-8"); FormatData (Some [0xC3; 0xBC])].
Proof. by vm_compute. Qed.
Lemma html_sent_bare : said (play (holding (as_bytes (lit "<b>"))) [Receive (RdpDataRequest CF_HTML); Process 0]) = [ReadData (lit "text/html"); FormatData (Some (as_bytes (lit "<b>")))].
Proof. by vm_compute. Qed.

(** The file formats are announced under the format 0; the search by this number
    stops at the first format with a name. *)
Lemma html_hides_files : said (play calm [Receive (PortalFormatsAvailable [lit "text/html"; URI_LIST] false); Process 0; Receive (RdpDataRequest 0); Process 0]) =
  [InitiateCopy [html; with_name 0 (lit "FileGroupDescriptorW"); with_name 0 (lit "FileContents")]; FormatData None].
Proof. by vm_compute. Qed.

(** A request of the connection before is answered with what the next client sends. *)
Lemma request_outlives_connection : said (play calm (ask 7 "text/plain" ++ [Disconnect] ++ ask 8 "text/plain" ++ respond 0 [104; 0])) =
  [InitiatePaste 13; Announce []; InitiatePaste 13; Complete 7 (lit "text/plain") [104] true; Complete 8 (lit "text/plain") [] false].
Proof. by vm_compute. Qed.

(** Configuration that turns files off lets their other type through. *)
Lemma files_disabled_still_offered :
  filter (fun m => mime_enabled (mkConfig 0 true false true true 0 0 0 0) m = true) [URI_LIST; GNOME_FILES] = [GNOME_FILES] /\
  mime_to_rdp_formats [GNOME_FILES] = mime_to_rdp_formats [URI_LIST] /\
  mime_enabled (mkConfig 0 true true true false 0 0 0 0) (lit "application/rtf") = true.
Proof. by vm_compute. Qed.

(** A request that arrives while a failure is reported is forgotten: it is neither
    answered nor kept. *)
Lemma request_lost_in_failure : let m := manager start in
  let m1 := (cancel_all (H3 := calm) (pending m) m).2 in let m2 := (push 9 (lit "text/plain") m1).2 in let m3 := (modify (with_pending []) m2).2 in
  pending m3 = [] /\ log (world m3) = [].
Proof. by vm_compute. Qed.

(** Three failures in a row, and nothing is reported. *)
Lemma failures_not_reported : let y := play calm (concat (repeat [Receive (PortalDataRequest (lit "x/y")); Process 0] 3)) in errors y = 3 /\ reports y = [].
Proof. by vm_compute. Qed.

(** *** Witnesses *)

Definition pasting : list label :=
  offer [unicode_text] ++ ask 7 "text/plain" ++ [Forward (SelectionTransfer 8 (lit "text/html"))] ++ respond 0 [104; 0; 13; 0; 10; 0; 0; 0].
Lemma answered_at_most_once_witness : 7 <> EAGER_FETCH_SERIAL /\ said (play calm pasting) =
    [Announce [lit "text/plain;charset=utf-8"]; InitiatePaste 13; Complete 7 (lit "text/plain") [104; 10] true; Complete 8 (lit "text/html") [] false] /\
  (answers 7 (said (play calm pasting)) <= asked 7 pasting)%nat.
Proof. split_and!; [done|by vm_compute|]. by apply (answered_at_most_once (H3 := calm) true false true 7). Defined.
Lemma pasted_data_genuine_witness : genuine dl (fun n mime => Forward (SelectionTransfer n mime) ∈ pasting) (fun data => Receive (RdpDataResponse data) ∈ pasting)
    (Complete 7 (lit "text/plain") [104; 10] true).
Proof.
  apply (pasted_data_genuine (H3 := calm) true false true config health_reporter pasting dl ∅). change (Complete 7 (lit "text/plain") [104; 10] true ∈ said (play calm pasting)).
  assert (said (play calm pasting) = [Announce [lit "text/plain;charset=utf-8"]; InitiatePaste 13; Complete 7 (lit "text/plain") [104; 10] true; Complete 8 (lit "text/html") [] false]) as -> by (by vm_compute).
  apply list_elem_of_In. right. right. by left.
Defined.

Definition greeting : str := lit "h" ++ [LF; 0xE4; 0x1F600].
Definition waiting_paste : Manager := manager (play calm [Forward (SelectionTransfer 7 (lit "text/plain"))]).
Lemma text_survives_both_ways_witness :
  let sent := text_for_windows (as_bytes greeting) in
  last (log (world (handle_rdp_data_request (H3 := holding (as_bytes greeting)) true true 13 (manager start)).2)) = Some (FormatData (Some sent)) /\
  pending (handle_rdp_data_response (H3 := holding (as_bytes greeting)) true false true 0 sent waiting_paste).2 = [].
Proof.
  cbn zeta. destruct (text_survives_both_ways (H3 := holding (as_bytes greeting)) false greeting (manager start) 7 (lit "text/plain") [] 0 waiting_paste) as [L R].
  - by repeat constructor.
  - done.
  - done.
  - by vm_compute.
  - split; [exact L|]. apply R; by vm_compute.
Defined.
Lemma announced_types_requestable_witness : let m := manager (play calm (offer [unicode_text])) in
  exists m', handle_portal_data_request (H3 := calm) true (lit "text/plain;charset=utf-8") m = (Ok tt, m') /\ log (world m') = log (world m) ++ [InitiatePaste 13].
Proof.
  cbn zeta. destruct (announced_types_requestable (H3 := calm) (lit "text/plain;charset=utf-8") (manager (play calm (offer [unicode_text])))) as (n & m' & E & L & Hn).
  - assert (rdp_formats_to_mimes (current_rdp_formats (manager (play calm (offer [unicode_text])))) = [lit "text/plain;charset=utf-8"]) as -> by (by vm_compute). left.
  - exists m'. split; [exact E|]. rewrite L. do 3 f_equal. destruct Hn as [(f & Hf & <-)|[(-> & Hm & _)|(_ & Hm & _)]].
    + assert (current_rdp_formats (manager (play calm (offer [unicode_text]))) = [unicode_text]) as Ef by (by vm_compute). rewrite Ef in Hf. by apply list_elem_of_singleton in Hf as ->.
    + done.
    + by vm_compute in Hm.
Defined.
End Toy.
