(* ===== verification/Transfer.v ===== *)
(** * Chunked clipboard transfers

    Models src/src/rdp/channels/clipboard/core/transfer.rs.  The clock reads
    inside one call are taken as one instant, the call's [now]; machine
    arithmetic wraps, as in the release profile. *)
From S2P Require Import Prelude Text Float ClipBase LoopDetector.

(** [core/transfer.rs:12-12 DEFAULT_CHUNK_SIZE] *)
Definition DEFAULT_CHUNK_SIZE : Z := 64 * 1024.
(** [core/transfer.rs:15-15 DEFAULT_MAX_SIZE] *)
Definition DEFAULT_MAX_SIZE : Z := 16 * 1024 * 1024.
(** [core/transfer.rs:18-18 DEFAULT_TIMEOUT_MS] *)
Definition DEFAULT_TIMEOUT_MS : Z := 30000.

(** [core/transfer.rs:22-33 TransferState] *)
Inductive TransferState := Pending | InProgress | Completed | Cancelled | Failed.
#[export] Instance TransferState_eq_dec : EqDecision TransferState.
Proof. solve_decision. Defined.

(** [core/transfer.rs:37-39 is_active] *)
Definition state_is_active (s : TransferState) : bool :=
  match s with Pending | InProgress => true | _ => false end.
(** [core/transfer.rs:42-44 is_finished] *)
Definition state_is_finished (s : TransferState) : bool :=
  match s with Completed | Cancelled | Failed => true | _ => false end.

(** The [Debug] name. *)
Definition state_name (s : TransferState) : str :=
  match s with
  | Pending => lit "Pending" | InProgress => lit "InProgress" | Completed => lit "Completed"
  | Cancelled => lit "Cancelled" | Failed => lit "Failed"
  end.

(** [core/transfer.rs:49-64 TransferProgress] *)
Record TransferProgress := mkProgress {
  total_bytes : Z;
  transferred_bytes : Z;
  tp_state : TransferState;
  tp_started_at : option Z;
  eta_ms : option Z;
}.

(** [core/transfer.rs:68-76 TransferProgress::new] *)
Definition progress_new (total : Z) : TransferProgress := mkProgress total 0 Pending None None.

(** [core/transfer.rs:79-84 percentage] *)
Definition percentage (p : TransferProgress) : spec_float :=
  if total_bytes p =? 0 then f64_of_Z 100
  else mul64 (div64 (f64_of_Z (transferred_bytes p)) (f64_of_Z (total_bytes p))) (f64_of_Z 100).

(** [core/transfer.rs:87-95 bytes_per_second] *)
Definition bytes_per_second (now : Z) (p : TransferProgress) : option spec_float :=
  started ← tp_started_at p;
  let elapsed := as_secs_f64 (since now started) in
  if flt fzero elapsed then Some (div64 (f64_of_Z (transferred_bytes p)) elapsed) else None.

(** [core/transfer.rs:100-112 TransferConfig] *)
Record TransferConfig := mkTransferConfig {
  tc_chunk_size : Z;
  tc_max_size : Z;
  timeout_ms : Z;
  verify_integrity : bool;
}.

(** [core/transfer.rs:115-122 default] *)
Definition transfer_config_default : TransferConfig :=
  mkTransferConfig DEFAULT_CHUNK_SIZE DEFAULT_MAX_SIZE DEFAULT_TIMEOUT_MS true.

(** [core/transfer.rs:156-171 TransferEngine] *)
Record TransferEngine := mkEngine {
  te_config : TransferConfig;
  progress : option TransferProgress;
  received_chunks : list (list Z);
  expected_hash : option str;
  started_at : option Z;
}.

(** [core/transfer.rs:186-194 with_config] *)
Definition engine_with_config (c : TransferConfig) : TransferEngine := mkEngine c None [] None None.
(** [core/transfer.rs:181-183 new] *)
Definition engine_new : TransferEngine := engine_with_config transfer_config_default.

Definition blength (data : list Z) : Z := Z.of_nat (length data).

(** [progress.state = InProgress; progress.started_at = Some(now)] *)
Definition begin (now total : Z) : TransferProgress := mkProgress total 0 InProgress (Some now) None.

(** A chunk size of zero makes [slice::chunks] panic.
    [core/transfer.rs:204-226 prepare_send] *)
Definition prepare_send (now : Z) (data : list Z) (e : TransferEngine) : TransferEngine * ClipboardResult (list (list Z)) :=
  let c := te_config e in
  if tc_max_size c <? blength data then (e, Err (DataSizeExceeded (blength data) (tc_max_size c)))
  else
    let e := mkEngine c (Some (begin now (blength data))) (received_chunks e) (expected_hash e) (Some now) in
    (e, if tc_chunk_size c =? 0 then Panic else Ok (chunks (Z.to_nat (tc_chunk_size c)) data)).

(** [core/transfer.rs:229-252 start_receive] *)
Definition start_receive (now total_size : Z) (hash : option str) (e : TransferEngine) : TransferEngine * ClipboardResult unit :=
  let c := te_config e in
  if tc_max_size c <? total_size then (e, Err (DataSizeExceeded total_size (tc_max_size c)))
  else (mkEngine c (Some (begin now total_size)) [] hash (Some now), Ok tt).

(** The estimate of the time left.
    [core/transfer.rs:282-290 receive_chunk] *)
Definition eta (now : Z) (p : TransferProgress) : option Z :=
  match tp_started_at p with
  | Some started =>
      let elapsed := as_secs_f64 (since now started) in
      if flt fzero elapsed && (0 <? transferred_bytes p) then
        let rate := div64 (f64_of_Z (transferred_bytes p)) elapsed in
        let remaining := wrap 64 (total_bytes p - transferred_bytes p) in
        Some (as_uint u64_max (mul64 (div64 (f64_of_Z remaining) rate) (f64_of_Z 1000)))
      else eta_ms p
  | None => eta_ms p
  end.

(** [core/transfer.rs:279-298 receive_chunk] *)
Definition advance (now : Z) (chunk : list Z) (p : TransferProgress) : TransferProgress :=
  let p := mkProgress (total_bytes p) (wrap 64 (transferred_bytes p + blength chunk)) (tp_state p) (tp_started_at p) (eta_ms p) in
  let st := if total_bytes p <=? transferred_bytes p then Completed else tp_state p in
  mkProgress (total_bytes p) (transferred_bytes p) st (tp_started_at p) (eta now p).

Definition set_state (s : TransferState) (p : TransferProgress) : TransferProgress :=
  mkProgress (total_bytes p) (transferred_bytes p) s (tp_started_at p) (eta_ms p).

(** [core/transfer.rs:255-301 receive_chunk] *)
Definition receive_chunk (now : Z) (chunk : list Z) (e : TransferEngine) : TransferEngine * ClipboardResult unit :=
  let c := te_config e in
  let timed_out := match started_at e with
                   | Some started => ms (timeout_ms c) <? since now started
                   | None => false
                   end in
  if timed_out then
    (mkEngine c (set_state Failed <$> progress e) (received_chunks e) (expected_hash e) (started_at e),
     Err (TransferTimeout (timeout_ms c)))
  else match progress e with
       | None => (e, Err (InvalidState (lit "no active transfer")))
       | Some p =>
           if negb (state_is_active (tp_state p)) then (e, Err (InvalidState (lit "transfer not active")))
           else (mkEngine c (Some (advance now chunk p)) (received_chunks e ++ [chunk]) (expected_hash e) (started_at e), Ok tt)
       end.

Section engine.
Context `{H : ContentHash}.

(** [core/transfer.rs:353-357 compute_hash] *)
Definition transfer_hash (data : list Z) : str := sha256_hex data.

(** [core/transfer.rs:304-342 finalize_receive] *)
Definition finalize_receive (e : TransferEngine) : TransferEngine * ClipboardResult (list Z) :=
  match progress e with
  | None => (e, Err (InvalidState (lit "no active transfer")))
  | Some p =>
      if negb (bool_decide (tp_state p = Completed))
      then (e, Err (InvalidState (lit "transfer not completed: " ++ state_name (tp_state p))))
      else
        let data := concat (received_chunks e) in
        let mismatch := verify_integrity (te_config e) &&
                        match expected_hash e with
                        | Some expected => negb (eqs (transfer_hash data) expected)
                        | None => false
                        end in
        if mismatch then (e, Err (FormatConversion (lit "integrity check failed: hash mismatch")))
        else (mkEngine (te_config e) None [] None None, Ok data)
  end.
End engine.

(** [core/transfer.rs:345-350 cancel] *)
Definition cancel (e : TransferEngine) : TransferEngine :=
  mkEngine (te_config e) (set_state Cancelled <$> progress e) [] (expected_hash e) (started_at e).

(** [core/transfer.rs:360-365 is_active] *)
Definition engine_is_active (e : TransferEngine) : bool :=
  match progress e with Some p => state_is_active (tp_state p) | None => false end.
(** [core/transfer.rs:368-370 chunk_size] *)
Definition engine_chunk_size (e : TransferEngine) : Z := tc_chunk_size (te_config e).
(** [core/transfer.rs:373-375 max_size] *)
Definition engine_max_size (e : TransferEngine) : Z := tc_max_size (te_config e).

(** Receive the chunks one after the other; stop at the first error. *)
Fixpoint receive_all (arrivals : list (Z * list Z)) (e : TransferEngine) : TransferEngine * ClipboardResult unit :=
  match arrivals with
  | [] => (e, Ok tt)
  | (now, chunk) :: arrivals =>
      match receive_chunk now chunk e with
      | (e, Ok _) => receive_all arrivals e
      | r => r
      end
  end.

(** ** From one engine to the other *)
Definition total_length (cs : list (list Z)) : Z := blength (concat cs).

(** Receiving is under way: [p] bytes of [n] have come. *)
Definition receiving (e : TransferEngine) (c : TransferConfig) (t0 n p : Z) (got : list (list Z)) (h : option str) : Prop :=
  exists et, e = mkEngine c (Some (mkProgress n p InProgress (Some t0) et)) got h (Some t0).

Lemma receive_one e c t0 n p got h now chunk :
  receiving e c t0 n p got h -> since now t0 <= ms (timeout_ms c) -> 0 <= p -> p + blength chunk < 2 ^ 64 ->
  (receive_chunk now chunk e).2 = Ok tt /\
  (p + blength chunk < n -> receiving (receive_chunk now chunk e).1 c t0 n (p + blength chunk) (got ++ [chunk]) h) /\
  (n <= p + blength chunk -> exists q, tp_state q = Completed /\
     (receive_chunk now chunk e).1 = mkEngine c (Some q) (got ++ [chunk]) h (Some t0)).
Proof.
  intros (et & ->) Ht Hp Hb. unfold receive_chunk. cbn [te_config started_at progress].
  destruct (Z.ltb_spec (ms (timeout_ms c)) (since now t0)); [lia|].
  cbn [tp_state state_is_active negb fst snd received_chunks expected_hash]. split; [done|].
  assert (0 <= blength chunk) by (unfold blength; lia).
  unfold advance. cbn [total_bytes transferred_bytes tp_state tp_started_at].
  rewrite wrap_small by lia. split; intros Hn.
  - destruct (Z.leb_spec n (p + blength chunk)); [lia|]. eexists; reflexivity.
  - destruct (Z.leb_spec n (p + blength chunk)); [|lia]. eexists; split; [|reflexivity]; done.
Qed.

Lemma receive_rest cs times e c t0 n p got h :
  receiving e c t0 n p got h -> Forall (fun t => since t t0 <= ms (timeout_ms c)) times ->
  length times = length cs -> cs <> [] -> Forall (fun ch => (0 < length ch)%nat) cs ->
  0 <= p -> n = p + total_length cs -> n < 2 ^ 64 ->
  exists q, tp_state q = Completed /\
    receive_all (zip times cs) e = (mkEngine c (Some q) (got ++ cs) h (Some t0), Ok tt).
Proof.
  revert times e p got. induction cs as [|ch cs IH]; intros times e p got He Ht Hl Hne Hpos Hp Hn Hb; [done|].
  destruct times as [|t times]; [done|]. apply Forall_cons in Ht as [Ht Hts]. apply Forall_cons in Hpos as [Hch Hpos].
  unfold total_length, blength in Hn. cbn [concat] in Hn. rewrite length_app in Hn.
  destruct (receive_one e c t0 n p got h t ch He Ht Hp) as (H1 & H2 & H3); [unfold blength; lia|].
  cbn [zip zip_with receive_all]. destruct (receive_chunk t ch e) as [e' r] eqn:Er. cbn [fst snd] in *. subst r.
  destruct cs as [|ch' cs].
  - destruct H3 as (q & Hq & ->); [unfold blength; cbn in *; lia|].
    destruct times; [|done]. exists q. done.
  - apply Forall_cons in Hpos as [Hch' Hpos].
    assert (receiving e' c t0 n (p + blength ch) (got ++ [ch]) h) as He'.
    { apply H2. unfold blength. cbn [concat] in Hn. rewrite length_app in Hn. lia. }
    destruct (IH times e' (p + blength ch) (got ++ [ch]) He' Hts) as (q & Hq & E); try done.
    { cbn in Hl |- *. lia. }
    { by constructor. }
    { unfold blength. lia. }
    { unfold total_length, blength. cbn [concat] in *. lia. }
    exists q. split; [done|]. rewrite E. by rewrite <- app_assoc.
Qed.

Section roundtrip.
Context `{H : ContentHash}.

(** A payload survives the chunked transfer: the receiver that was told the
    size and the digest, and gets the sender's chunks in order before its
    timeout, ends with exactly the payload and a cleared state.  An empty payload
    is the exception: it has no chunk, so its transfer never completes. *)
Theorem transfer_roundtrip s r t ts t0 data s' cs r1 :
  prepare_send t data s = (s', Ok cs) -> 0 <= tc_chunk_size (te_config s) -> blength data < 2 ^ 64 ->
  start_receive t0 (blength data) (Some (transfer_hash data)) r = (r1, Ok tt) ->
  length ts = length cs -> Forall (fun t => since t t0 <= ms (timeout_ms (te_config r))) ts ->
  exists r2, receive_all (zip ts cs) r1 = (r2, Ok tt) /\
    finalize_receive r2 =
      (if bool_decide (data = [])
       then (r2, Err (InvalidState (lit "transfer not completed: InProgress")))
       else (engine_with_config (te_config r), Ok data)).
Proof.
  unfold prepare_send, start_receive. intros Hs Hcs Hd Hr Hl Ht.
  destruct (_ <? _); [done|]. destruct (Z.eqb_spec (tc_chunk_size (te_config s)) 0); [done|].
  injection Hs as _ Hcs'. destruct (tc_max_size (te_config r) <? blength data); [done|]. injection Hr as <-.
  set (k := Z.to_nat (tc_chunk_size (te_config s))) in *. assert (0 < k)%nat as Hk by lia.
  pose proof (chunks_concat k data Hk) as Hcc. pose proof (chunks_length k data Hk) as Hcl.
  rewrite Hcs' in Hcc, Hcl. clear Hcs'.
  case_bool_decide as He.
  - rewrite He in Hcc |- *. destruct cs as [|ch cs].
    + destruct ts; [|done]. eexists. split; [done|]. done.
    + apply Forall_cons in Hcl as [Hch _]. cbn in Hcc. apply app_eq_nil in Hcc as [-> _]. cbn in Hch. lia.
  - destruct (receive_rest cs ts (mkEngine (te_config r) (Some (begin t0 (blength data))) [] (Some (transfer_hash data)) (Some t0))
                (te_config r) t0 (blength data) 0 [] (Some (transfer_hash data))) as (q & Hq & E); try done.
    + by eexists.
    + by destruct cs.
    + eapply Forall_impl; [exact Hcl|]. cbn. lia.
    + unfold total_length. by rewrite Hcc.
    + eexists. split; [exact E|]. unfold finalize_receive. cbn [progress received_chunks te_config expected_hash app].
      rewrite Hq, Hcc. cbn [bool_decide decide]. rewrite bool_decide_true by done. cbn [negb].
      replace (eqs (transfer_hash data) (transfer_hash data)) with true by (symmetry; by apply eqs_true).
      by rewrite andb_false_r.
Qed.
End roundtrip.

Definition small_chunks : TransferConfig := mkTransferConfig 2 100 1000 true.

Lemma transfer_roundtrip_witness :
  exists r2, receive_all [(5, [1; 2]); (6, [3])] 
      (start_receive 0 3 (Some (transfer_hash (H := identity_hash) [1; 2; 3])) (engine_with_config small_chunks)).1 = (r2, Ok tt) /\
    finalize_receive (H := identity_hash) r2 = (engine_with_config small_chunks, Ok [1; 2; 3]).
Proof.
  apply (transfer_roundtrip (H := identity_hash) (engine_with_config small_chunks) (engine_with_config small_chunks)
           0 [5; 6] 0 [1; 2; 3] (prepare_send 0 [1; 2; 3] (engine_with_config small_chunks)).1 [[1; 2]; [3]]).
  - by vm_compute.
  - by vm_compute.
  - by vm_compute.
  - by vm_compute.
  - done.
  - repeat constructor; by vm_compute.
Defined.

(** A chunk that overshoots the announced size makes the remaining-bytes
    subtraction wrap (a panic in a checked build): the estimate explodes just
    when the transfer is complete. *)
Lemma overshoot_wraps_remaining :
  let e := (start_receive 0 2 None (engine_with_config small_chunks)).1 in
  exists q, progress (receive_chunk (ms 1) [1; 2; 3] e).1 = Some q /\ tp_state q = Completed /\
    match eta_ms q with Some n => 2 ^ 60 < n | None => False end.
Proof. cbv zeta. eexists. split; [reflexivity|]. split; [done|]. by vm_compute. Qed.
