(* ===== verification/H264Level.v ===== *)
(** * H.264 level selection

    Models src/src/rdp/channels/graphics/egfx/h264/level.rs. *)
From S2P Require Import Prelude Text Float.
From Stdlib Require Import Sorting.Sorted.

(** [level.rs:7-17 H264Level] *)
Inductive H264Level := L3_0 | L3_1 | L3_2 | L4_0 | L4_1 | L4_2 | L5_0 | L5_1 | L5_2.
#[export] Instance H264Level_eq_dec : EqDecision H264Level.
Proof. solve_decision. Defined.

(** [level.rs:20-23 Limits] *)
Record Limits := mkLimits { frame : Z; rate : Z }.

(** [level.rs:25-60 limits] *)
Definition limits (l : H264Level) : Limits :=
  match l with
  | L3_0 => mkLimits 1620 40500
  | L3_1 => mkLimits 3600 108000
  | L3_2 => mkLimits 5120 216000
  | L4_0 | L4_1 => mkLimits 8192 245760
  | L4_2 => mkLimits 8704 522240
  | L5_0 => mkLimits 22080 589824
  | L5_1 => mkLimits 36864 983040
  | L5_2 => mkLimits 36864 2073600
  end.

(** [level.rs:61-63 max_macroblocks_per_second] *)
Definition max_macroblocks_per_second (l : H264Level) : Z := rate (limits l).
(** [level.rs:64-66 max_frame_macroblocks] *)
Definition max_frame_macroblocks (l : H264Level) : Z := frame (limits l).
(** [level.rs:67-69 effective_max_mbs_per_sec] *)
Definition effective_max_mbs_per_sec (l : H264Level) (frame_mbs : Z) : Z := rate (limits l).
(** [level.rs:70-72 to_openh264_level_idc] *)
Definition to_openh264_level_idc (l : H264Level) : Z :=
  match l with
  | L3_0 => 30 | L3_1 => 31 | L3_2 => 32 | L4_0 => 40 | L4_1 => 41 | L4_2 => 42
  | L5_0 => 50 | L5_1 => 51 | L5_2 => 52
  end.

(** [level.rs:99-112 levels] *)
Definition levels : list H264Level := [L3_0; L3_1; L3_2; L4_0; L4_1; L4_2; L5_0; L5_1; L5_2].

(** [level.rs:113-125 as_str] *)
Definition as_str (l : H264Level) : str :=
  match l with
  | L3_0 => lit "3.0" | L3_1 => lit "3.1" | L3_2 => lit "3.2" | L4_0 => lit "4.0" | L4_1 => lit "4.1"
  | L4_2 => lit "4.2" | L5_0 => lit "5.0" | L5_1 => lit "5.1" | L5_2 => lit "5.2"
  end.
(** [level.rs:128-130 fmt] *)
Definition level_display (l : H264Level) : str := lit "Level " ++ as_str l.

(** Widths and heights are [u16], so the product fits a [u32].
    [level.rs:180-182 macroblocks] *)
Definition macroblocks (width height : Z) : Z := div_ceil width 16 * div_ceil height 16.

Definition mb_rate (mbs : Z) (fps : spec_float) : spec_float := mul32 (f32_of_Z mbs) (fmax fps fzero).

(** The test [for_config] searches with. *)
Definition fits (mbs : Z) (fps : spec_float) (l : H264Level) : bool :=
  (mbs <=? frame (limits l)) && fle (mb_rate mbs fps) (f32_of_Z (rate (limits l))).

(** [level.rs:89-95 for_config] *)
Definition for_config (width height : Z) (fps : spec_float) : H264Level :=
  match find (fits (macroblocks width height) fps) levels with
  | Some l => l
  | None => L5_2
  end.

(** [level.rs:133-137 LevelConstraints] *)
Record LevelConstraints := mkConstraints { lc_width : Z; lc_height : Z; lc_macroblocks : Z }.
(** [level.rs:139-145 LevelConstraints::new] *)
Definition constraints_new (w h : Z) : LevelConstraints := mkConstraints w h (macroblocks w h).

(** [level.rs:190-203 ConstraintViolation] *)
Inductive ConstraintViolation :=
| FrameSizeExceeded (mbs max : Z) (level : H264Level)
| MacroblocksPerSecondExceeded (required max : Z) (level : H264Level) (resolution : Z * Z) (fps : spec_float).

(** [level.rs:149-151 max_fps_for_level] *)
Definition max_fps_for_level (c : LevelConstraints) (l : H264Level) : spec_float :=
  div32 (f32_of_Z (rate (limits l))) (f32_of_Z (Z.max (lc_macroblocks c) 1)).

(** [level.rs:152-154 recommend_level] *)
Definition recommend_level (c : LevelConstraints) (fps : spec_float) : H264Level :=
  for_config (lc_width c) (lc_height c) fps.

(** [level.rs:155-175 validate] *)
Definition validate_level (c : LevelConstraints) (fps : spec_float) (l : H264Level) : outcome ConstraintViolation unit :=
  let lim := limits l in
  if frame lim <? lc_macroblocks c then Err (FrameSizeExceeded (lc_macroblocks c) (frame lim) l)
  else
    let required := ceil_as_uint u32_max (mb_rate (lc_macroblocks c) fps) in
    if rate lim <? required
    then Err (MacroblocksPerSecondExceeded required (rate lim) l (lc_width c, lc_height c) fps)
    else Ok tt.

(** [level.rs:176-178 adjust_fps_for_level] *)
Definition adjust_fps_for_level (c : LevelConstraints) (target : spec_float) (l : H264Level) : spec_float :=
  fmin target (max_fps_for_level c l).

(** ** Facts *)
(** All the limits are exact in binary32. *)
Lemma rate_exact l : represents (f32_of_Z (rate (limits l))) (rate (limits l)).
Proof. unfold represents. destruct l; do 2 eexists; (split; [by vm_compute|]; split; [by vm_compute | by vm_compute]). Qed.

Lemma fits_valid w h fps l : fits (macroblocks w h) fps l = true ->
  validate_level (constraints_new w h) fps l = Ok tt.
Proof.
  intros [Hf%Z.leb_le Hr]%andb_prop. unfold validate_level. cbn [lc_macroblocks constraints_new].
  destruct (Z.ltb_spec (frame (limits l)) (macroblocks w h)); [lia|].
  assert (ceil_as_uint u32_max (mb_rate (macroblocks w h) fps) <= rate (limits l)).
  { apply (ceil_le _ _ (f32_of_Z (rate (limits l)))); [|apply rate_exact|done].
    unfold u32_max. destruct l; cbn; lia. }
  destruct (Z.ltb_spec (rate (limits l)) (ceil_as_uint u32_max (mb_rate (macroblocks w h) fps))); [lia|done].
Qed.

Lemma find_first {A} (p : A -> bool) l x :
  find p l = Some x -> exists l1 l2, l = l1 ++ x :: l2 /\ forallb (fun y => negb (p y)) l1 = true /\ p x = true.
Proof.
  induction l as [|y l IH]; cbn; [done|]. destruct (p y) eqn:E.
  - intros [= ->]. by exists [], l.
  - intros (l1 & l2 & -> & H1 & H2)%IH. exists (y :: l1), l2. cbn. by rewrite E.
Qed.

(** The level chosen for a picture size and frame rate is the right one: if any
    level of the table accommodates the configuration, the chosen level does,
    passes the later check [validate], and no level with a smaller identifier
    would do; otherwise the highest level is the fallback. *)
Theorem for_config_minimal w h fps :
  let l := for_config w h fps in
  (exists l', fits (macroblocks w h) fps l' = true) ->
  validate_level (constraints_new w h) fps l = Ok tt /\
  forall l', fits (macroblocks w h) fps l' = true -> to_openh264_level_idc l <= to_openh264_level_idc l'.
Proof.
  cbv zeta. intros (l0 & H0). unfold for_config.
  assert (forall l', l' ∈ levels) as Hall by (intros []; cbn; set_solver).
  destruct (find _ levels) as [l|] eqn:E.
  2: { exfalso. pose proof (find_none _ _ E l0) as Hn. rewrite H0 in Hn. by discriminate Hn; apply list_elem_of_In. }
  destruct (find_first _ _ _ E) as (l1 & l2 & El & Hn & Hl). split; [by apply fits_valid|].
  intros l' Hl'. rewrite forallb_forall in Hn.
  assert (l' ∉ l1) as Hni.
  { intros Hin. apply list_elem_of_In in Hin. specialize (Hn l' Hin). by rewrite Hl' in Hn. }
  specialize (Hall l'). rewrite El in Hall. apply elem_of_app in Hall as [?|Hall]; [done|].
  assert (StronglySorted (fun a b => to_openh264_level_idc a <= to_openh264_level_idc b) (l1 ++ l :: l2)) as Hs.
  { rewrite <- El. by repeat constructor. }
  clear -Hs Hall. induction l1 as [|x l1 IH]; cbn in Hs; apply StronglySorted_inv in Hs as [Hs Hx]; [|auto].
  apply elem_of_cons in Hall as [->|Hin]; [lia|]. rewrite Forall_forall in Hx. auto.
Qed.

(** 1080p at 30 frames per second. *)
Lemma for_config_minimal_witness :
  validate_level (constraints_new 1920 1080) (f32_of_Z 30) L4_0 = Ok tt.
Proof.
  apply (for_config_minimal 1920 1080 (f32_of_Z 30)). exists L4_0. by vm_compute.
Defined.
