(* ===== verification/AdaptiveFps.v ===== *)
(** * Damage-driven frame rate

    Models src/src/rdp/channels/graphics/performance/adaptive_fps.rs.  Sample
    history is oldest first; the clock reads of one call are its arguments;
    durations are nanoseconds. *)
From S2P Require Import Prelude Float.

(** [adaptive_fps.rs:10-20 AdaptiveFpsConfig] *)
Record AdaptiveFpsConfig := mkFpsConfig {
  enabled : bool;
  min_fps : Z;
  max_fps : Z;
  history_size : nat;
  high_activity_threshold : spec_float;
  medium_activity_threshold : spec_float;
  low_activity_threshold : spec_float;
  ramp_up_frames : Z;
  ramp_down_frames : Z;
}.

(** [adaptive_fps.rs:23-35 default] *)
Definition fps_config_default : AdaptiveFpsConfig :=
  mkFpsConfig true 5 30 10 (lit32 30 100) (lit32 10 100) (lit32 1 100) 2 5.

(** [adaptive_fps.rs:45-50 ActivityLevel] *)
Inductive ActivityLevel := Static | Low | Medium | High.
#[export] Instance ActivityLevel_eq_dec : EqDecision ActivityLevel.
Proof. solve_decision. Defined.

(** The derived order. *)
Definition level_rank (l : ActivityLevel) : Z :=
  match l with Static => 0 | Low => 1 | Medium => 2 | High => 3 end.

(** [adaptive_fps.rs:53-60 fps_multiplier] *)
Definition fps_multiplier (l : ActivityLevel) : spec_float :=
  match l with
  | Static => fzero | Low => lit32 1 2 | Medium => lit32 67 100 | High => f32_of_Z 1
  end.

(** [adaptive_fps.rs:64-72 AdaptiveFpsStats] *)
Record AdaptiveFpsStats := mkFpsStats {
  frames_processed : Z;
  frames_skipped : Z;
  time_at : ActivityLevel -> Z;
  last_level_change : option Z;
}.
Definition fps_stats_default : AdaptiveFpsStats := mkFpsStats 0 0 (fun _ => 0) None.

(** [adaptive_fps.rs:74-84 AdaptiveFpsController] *)
Record AdaptiveFpsController := mkFps {
  config : AdaptiveFpsConfig;
  current_fps : Z;
  activity_level : ActivityLevel;
  samples : list spec_float;
  candidate : ActivityLevel;
  candidate_frames : Z;
  last_capture : Z;
  last_update : Z;
  stats : AdaptiveFpsStats;
}.

(** [adaptive_fps.rs:88-90 new] *)
Definition normalize_config (c : AdaptiveFpsConfig) : AdaptiveFpsConfig :=
  let mn := Z.max (min_fps c) 1 in
  mkFpsConfig (enabled c) mn (Z.max (max_fps c) mn) (Nat.max (history_size c) 1)
    (high_activity_threshold c) (medium_activity_threshold c) (low_activity_threshold c)
    (ramp_up_frames c) (ramp_down_frames c).

(** [adaptive_fps.rs:87-103 new] *)
Definition fps_new (now : Z) (c : AdaptiveFpsConfig) : AdaptiveFpsController :=
  let c := normalize_config c in
  mkFps c (max_fps c) High [] High 0 now now fps_stats_default.

(** [adaptive_fps.rs:177-187 classify] *)
Definition classify (c : AdaptiveFpsConfig) (mean : spec_float) : ActivityLevel :=
  if fge mean (high_activity_threshold c) then High
  else if fge mean (medium_activity_threshold c) then Medium
  else if fge mean (low_activity_threshold c) then Low
  else Static.

(** [adaptive_fps.rs:189-195 target_fps] *)
Definition target_fps (c : AdaptiveFpsConfig) (l : ActivityLevel) : Z :=
  if bool_decide (l = Static) then min_fps c
  else Z.max (min_fps c) (Z.min (max_fps c)
         (round_as_uint u32_max (mul32 (f32_of_Z (max_fps c)) (fps_multiplier l)))).

(** The clock total of the level that was active.
    [adaptive_fps.rs:197-206 add_elapsed] *)
Definition add_elapsed (now : Z) (a : AdaptiveFpsController) : AdaptiveFpsController :=
  let elapsed := since now (last_update a) in
  let s := stats a in
  let t l := if bool_decide (l = activity_level a) then time_at s l + elapsed else time_at s l in
  mkFps (config a) (current_fps a) (activity_level a) (samples a) (candidate a) (candidate_frames a)
    (last_capture a) now (mkFpsStats (frames_processed s) (frames_skipped s) t (last_level_change s)).

(** The samples kept after a new one.
    [adaptive_fps.rs:111-114 update] *)
Definition push_sample (c : AdaptiveFpsConfig) (ratio : spec_float) (l : list spec_float) : list spec_float :=
  let l := l ++ [fclamp ratio fzero (f32_of_Z 1)] in
  drop (length l - history_size c) l.

(** [adaptive_fps.rs:115-115 update] *)
Definition mean (l : list spec_float) : spec_float :=
  div32 (fold_left add32 l fzero) (f32_of_Z (Z.of_nat (length l))).

(** How many agreeing frames a change towards [target] takes.
    [adaptive_fps.rs:123-128 update] *)
Definition needed (c : AdaptiveFpsConfig) (level target : ActivityLevel) : Z :=
  Z.max (if level_rank level <? level_rank target then ramp_up_frames c else ramp_down_frames c) 1.

(** [adaptive_fps.rs:105-136 update] *)
Definition update (now : Z) (damage_ratio : spec_float) (a : AdaptiveFpsController) : AdaptiveFpsController :=
  if negb (enabled (config a)) then a
  else
    let a := add_elapsed now a in
    let c := config a in
    let samples := push_sample c damage_ratio (samples a) in
    let target := classify c (mean samples) in
    let frames := if bool_decide (target = candidate a) then wrap 64 (candidate_frames a + 1) else 1 in
    let change := negb (bool_decide (target = activity_level a)) && (needed c (activity_level a) target <=? frames) in
    let level := if change then target else activity_level a in
    let s := stats a in
    mkFps c (target_fps c level) level samples target (if change then 0 else frames)
      (last_capture a) (last_update a)
      (mkFpsStats (wrap 64 (frames_processed s + 1)) (frames_skipped s) (time_at s)
         (if change then Some now else last_level_change s)).

(** The shortest time between two captures at [fps].
    [adaptive_fps.rs:145-145 should_capture_frame] *)
Definition capture_interval (fps : Z) : Z :=
  duration_from_secs_f64 (div64 (f64_of_Z 1) (f64_of_Z fps)).

(** [adaptive_fps.rs:138-152 should_capture_frame] *)
Definition should_capture_frame (now now' : Z) (a : AdaptiveFpsController) : AdaptiveFpsController * bool :=
  let fps := Z.max (if enabled (config a) then current_fps a else max_fps (config a)) 1 in
  if capture_interval fps <=? since now (last_capture a) then
    (mkFps (config a) (current_fps a) (activity_level a) (samples a) (candidate a) (candidate_frames a)
       now' (last_update a) (stats a), true)
  else
    let s := stats a in
    (mkFps (config a) (current_fps a) (activity_level a) (samples a) (candidate a) (candidate_frames a)
       (last_capture a) (last_update a)
       (mkFpsStats (frames_processed s) (wrap 64 (frames_skipped s + 1)) (time_at s) (last_level_change s)), false).

(** [adaptive_fps.rs:163-166 reset_stats] *)
Definition reset_stats (now : Z) (a : AdaptiveFpsController) : AdaptiveFpsController :=
  mkFps (config a) (current_fps a) (activity_level a) (samples a) (candidate a) (candidate_frames a)
    (last_capture a) now fps_stats_default.

(** [adaptive_fps.rs:170-175 set_enabled] *)
Definition set_enabled (b : bool) (a : AdaptiveFpsController) : AdaptiveFpsController :=
  let c := config a in
  let c' := mkFpsConfig b (min_fps c) (max_fps c) (history_size c) (high_activity_threshold c)
              (medium_activity_threshold c) (low_activity_threshold c) (ramp_up_frames c) (ramp_down_frames c) in
  mkFps c' (if negb b then max_fps c else current_fps a) (activity_level a) (samples a) (candidate a)
    (candidate_frames a) (last_capture a) (last_update a) (stats a).

(** ** Runs *)
(** The calls of the capture loop. *)
Inductive fps_call :=
| Update (now : Z) (ratio : spec_float)
| Capture (now now' : Z)
| SetEnabled (b : bool)
| ResetStats (now : Z).

Definition fps_step (a : AdaptiveFpsController) (k : fps_call) : AdaptiveFpsController :=
  match k with
  | Update now ratio => update now ratio a
  | Capture now now' => (should_capture_frame now now' a).1
  | SetEnabled b => set_enabled b a
  | ResetStats now => reset_stats now a
  end.

(** What an update made of its sample: the classifications, newest first. *)
Definition verdicts (a : AdaptiveFpsController) (k : fps_call) (hist : list ActivityLevel) : list ActivityLevel :=
  match k with
  | Update now ratio =>
      if enabled (config a) then classify (config a) (mean (push_sample (config a) ratio (samples a))) :: hist
      else hist
  | _ => hist
  end.

Definition fps_trace (s : AdaptiveFpsController * list ActivityLevel) (k : fps_call) :=
  (fps_step s.1 k, verdicts s.1 k s.2).

(** Bounds, and a run of agreeing verdicts at least as long as the counter says. *)
Record fps_inv (a : AdaptiveFpsController) (hist : list ActivityLevel) : Prop := {
  fi_min : 1 <= min_fps (config a);
  fi_max : min_fps (config a) <= max_fps (config a);
  fi_fps : min_fps (config a) <= current_fps a <= max_fps (config a);
  fi_samples : (length (samples a) <= history_size (config a))%nat;
  fi_frames : 0 <= candidate_frames a;
  fi_run : exists run rest, hist = run ++ rest /\ Forall (fun l => l = candidate a) run /\
             candidate_frames a <= Z.of_nat (length run);
}.

Lemma target_fps_bound c l : 1 <= min_fps c <= max_fps c -> min_fps c <= target_fps c l <= max_fps c.
Proof. unfold target_fps. case_bool_decide; lia. Qed.

Lemma fps_inv_new now c : fps_inv (fps_new now c) [].
Proof.
  constructor; cbn; try lia. exists [], []. split_and!; [done | constructor | cbn; lia].
Qed.

Lemma update_inv now ratio a hist : fps_inv a hist ->
  fps_inv (update now ratio a) (verdicts a (Update now ratio) hist).
Proof.
  intros Hi. pose proof Hi as [H1 H2 H3 H4 H5 (run & rest & -> & Hr & Hlen)].
  unfold update. cbn [verdicts]. destruct (enabled (config a)); cbn [negb]; [|done].
  cbn [config add_elapsed samples candidate candidate_frames activity_level].
  set (t := classify _ _). set (ch := negb _ && _). set (fr := if bool_decide _ then _ else 1).
  assert (0 <= fr /\ exists run' rest', t :: run ++ rest = run' ++ rest' /\ Forall (fun l => l = t) run' /\
            fr <= Z.of_nat (length run')) as (Hfr & run' & rest' & E & Hr' & Hl').
  { subst fr. case_bool_decide as E.
    - rewrite <- E in Hr. split; [apply wrap_bound; lia|].
      exists (t :: run), rest. split_and!; [done | by constructor |].
      unfold wrap. cbn [length].
      pose proof (Z.mod_le (candidate_frames a + 1) (2 ^ 64)). lia.
    - split; [lia|]. exists [t], (run ++ rest). split_and!; [done | by repeat constructor | cbn; lia]. }
  constructor; cbn [config current_fps samples candidate candidate_frames]; try done.
  - apply target_fps_bound. lia.
  - unfold push_sample. rewrite length_drop. lia.
  - destruct ch; lia.
  - exists run', rest'. split_and!; [done..|]. destruct ch; lia.
Qed.

Lemma fps_step_inv a hist k : fps_inv a hist -> fps_inv (fps_step a k) (verdicts a k hist).
Proof.
  destruct k as [now ratio|now now'|b|now]; [apply update_inv|..]; intros [H1 H2 H3 H4 H5 H6].
  - cbn. unfold should_capture_frame. destruct (_ <=? _); by constructor.
  - constructor; cbn; try done. destruct b; cbn; lia.
  - by constructor.
Qed.

Lemma fps_run_inv ks s : fps_inv s.1 s.2 ->
  let s' := fold_left fps_trace ks s in fps_inv s'.1 s'.2.
Proof.
  revert s. induction ks as [|k ks IH]; intros s Hs; [done|]. cbn [fold_left]. apply IH. by apply fps_step_inv.
Qed.

(** The controller keeps its promises over any sequence of calls, whatever the
    ratios (NaN included) and the clock: the frame rate stays between the
    (normalised) bounds and is never zero, the history stays within its size,
    and the activity level only changes after as many consecutive updates as
    the ramp asks for were all classified as the new level. *)
Theorem fps_bounded_with_hysteresis now0 c ks now ratio :
  let '(a, hist) := fold_left fps_trace ks (fps_new now0 c, []) in
  let a' := update now ratio a in
  1 <= min_fps (config a) <= current_fps a /\ current_fps a <= max_fps (config a) /\
  (length (samples a) <= history_size (config a))%nat /\
  (activity_level a' <> activity_level a ->
     let hist' := verdicts a (Update now ratio) hist in
     let n := Z.to_nat (needed (config a) (activity_level a) (activity_level a')) in
     (n <= length hist')%nat /\ Forall (fun l => l = activity_level a') (take n hist')).
Proof.
  pose proof (fps_run_inv ks (fps_new now0 c, []) (fps_inv_new now0 c)) as Hi.
  destruct (fold_left fps_trace ks (fps_new now0 c, [])) as [a hist]. cbn [fst snd] in Hi.
  pose proof Hi as [H1 H2 H3 H4 H5 (run & rest & -> & Hr & Hlen)].
  split_and!; [lia | lia | lia | done |]. intros Hne. cbv zeta. unfold update in *. cbn [verdicts].
  destruct (enabled (config a)); cbn [negb] in *; [|done].
  cbn [config add_elapsed samples candidate candidate_frames activity_level] in *.
  set (t := classify _ _) in *.
  destruct (negb (bool_decide (t = activity_level a)) && _) eqn:Ech; [|done].
  apply andb_prop in Ech as [_ Hn%Z.leb_le].
  assert (exists run' rest', t :: run ++ rest = run' ++ rest' /\ Forall (fun l => l = t) run' /\
            needed (config a) (activity_level a) t <= Z.of_nat (length run')) as (run' & rest' & -> & Hr' & Hl').
  { case_bool_decide as E.
    - rewrite <- E in Hr. exists (t :: run), rest. split_and!; [done | by constructor |].
      unfold wrap in Hn. cbn [length]. pose proof (Z.mod_le (candidate_frames a + 1) (2 ^ 64)). lia.
    - exists [t], (run ++ rest). split_and!; [done | by repeat constructor | cbn; lia]. }
  rewrite length_app, take_app_le by lia. split; [lia|]. by apply Forall_take.
Qed.
