(* ===== verification/Governor.v ===== *)
(** * Encode scheduling

    Models src/src/rdp/channels/graphics/performance/latency_governor.rs.  The
    clock reads of one call are taken as one instant, the call's [now];
    durations are nanoseconds. *)
From S2P Require Import Prelude Text Float.

(** [latency_governor.rs:11-16 LatencyMode] *)
Inductive LatencyMode := Interactive | Balanced | Quality.
#[export] Instance LatencyMode_eq_dec : EqDecision LatencyMode.
Proof. solve_decision. Defined.

(** [latency_governor.rs:19-25 target_latency_ms] *)
Definition target_latency_ms (m : LatencyMode) : Z :=
  match m with Interactive => 50 | Balanced => 100 | Quality => 300 end.
(** [latency_governor.rs:26-32 description] *)
Definition description (m : LatencyMode) : str :=
  match m with Interactive => lit "interactive" | Balanced => lit "balanced" | Quality => lit "quality" end.

(** [latency_governor.rs:74-79 Policy] *)
Record Policy := mkPolicy { threshold : spec_float; delay : Z; timeout : Z; adaptive : bool }.

(** [latency_governor.rs:33-54 policy] *)
Definition policy_of (m : LatencyMode) : Policy :=
  match m with
  | Interactive => mkPolicy fzero (ms 16) (ms 10) false
  | Balanced => mkPolicy (lit32 2 100) (ms 33) (ms 20) true
  | Quality => mkPolicy (lit32 5 100) (ms 100) (ms 50) true
  end.

(** [latency_governor.rs:63-70 from_str] *)
Definition mode_from_str (v : str) : str + LatencyMode :=
  let l := map ascii_lower v in
  let any names := existsb (fun n => eqs l (lit n)) names in
  if any ["interactive"; "low"; "fast"]%string then inr Interactive
  else if any ["balanced"; "default"; "normal"]%string then inr Balanced
  else if any ["quality"; "high"; "slow"]%string then inr Quality
  else inl (lit "unknown latency mode: " ++ v).

(** [latency_governor.rs:82-89 EncodingDecision] *)
Inductive EncodingDecision := EncodeNow | EncodeKeepalive | EncodeBatch | EncodeTimeout | Skip | WaitForMore.
#[export] Instance EncodingDecision_eq_dec : EqDecision EncodingDecision.
Proof. solve_decision. Defined.

(** [latency_governor.rs:91-96 should_encode] *)
Definition should_encode (d : EncodingDecision) : bool :=
  match d with EncodeNow | EncodeKeepalive | EncodeBatch | EncodeTimeout => true | _ => false end.

(** [latency_governor.rs:100-107 LatencyMetrics] *)
Record LatencyMetrics := mkMetrics {
  capture_to_encode_avg_ms : spec_float;
  encode_duration_avg_ms : spec_float;
  total_latency_avg_ms : spec_float;
  frames_encoded : Z;
  frames_skipped : Z;
  batches_encoded : Z;
}.
Definition metrics_default : LatencyMetrics := mkMetrics fzero fzero fzero 0 0 0.

(** [latency_governor.rs:109-117 LatencyGovernor] *)
Record LatencyGovernor := mkGovernor {
  mode : LatencyMode;
  policy : Policy;
  pending : spec_float;
  pending_since : option Z;
  pending_frames : Z;
  last_encode : Z;
  metrics : LatencyMetrics;
}.

(** [latency_governor.rs:120-130 new] *)
Definition governor_new (now : Z) (m : LatencyMode) : LatencyGovernor :=
  mkGovernor m (policy_of m) fzero None 0 now metrics_default.

(** [latency_governor.rs:209-211 reached] *)
Definition reached (value threshold : spec_float) : bool := fge (add32 value epsilon32) threshold.

(** What a frame adds to the pending damage.
    [latency_governor.rs:132-137 should_encode_frame] *)
Definition add_damage (now : Z) (damage : spec_float) (g : LatencyGovernor) : LatencyGovernor :=
  if flt fzero damage then
    mkGovernor (mode g) (policy g) (fmin (add32 (pending g) damage) (f32_of_Z 1))
      (Some (match pending_since g with Some t => t | None => now end))
      (wrap 32 (pending_frames g + 1)) (last_encode g) (metrics g)
  else g.

(** [latency_governor.rs:138-160 should_encode_frame] *)
Definition decide_frame (now : Z) (damage : spec_float) (g : LatencyGovernor) : EncodingDecision :=
  let elapsed := match pending_since g with Some t => since now t | None => 0 end in
  let some_pending := flt fzero (pending g) in
  match mode g with
  | Interactive =>
      if flt fzero damage then EncodeNow
      else if delay (policy g) <=? since now (last_encode g) then EncodeKeepalive
      else Skip
  | Balanced =>
      if reached (pending g) (threshold (policy g)) then EncodeNow
      else if some_pending && (delay (policy g) <=? elapsed) then EncodeTimeout
      else Skip
  | Quality =>
      if reached (pending g) (threshold (policy g)) then EncodeBatch
      else if some_pending && (delay (policy g) <=? elapsed) then EncodeTimeout
      else if some_pending then WaitForMore
      else Skip
  end.

(** [latency_governor.rs:161-172 should_encode_frame] *)
Definition account (now : Z) (choice : EncodingDecision) (g : LatencyGovernor) : LatencyGovernor :=
  let m := metrics g in
  if should_encode choice then
    mkGovernor (mode g) (policy g) fzero None 0 now
      (mkMetrics (capture_to_encode_avg_ms m) (encode_duration_avg_ms m) (total_latency_avg_ms m)
         (wrap 64 (frames_encoded m + 1)) (frames_skipped m)
         (if 1 <? pending_frames g then wrap 64 (batches_encoded m + 1) else batches_encoded m))
  else
    mkGovernor (mode g) (policy g) (pending g) (pending_since g) (pending_frames g) (last_encode g)
      (mkMetrics (capture_to_encode_avg_ms m) (encode_duration_avg_ms m) (total_latency_avg_ms m)
         (frames_encoded m) (wrap 64 (frames_skipped m + 1)) (batches_encoded m)).

(** [latency_governor.rs:131-174 should_encode_frame] *)
Definition should_encode_frame (now : Z) (damage : spec_float) (g : LatencyGovernor) : LatencyGovernor * EncodingDecision :=
  let damage := fclamp damage fzero (f32_of_Z 1) in
  let g := add_damage now damage g in
  let choice := decide_frame now damage g in
  (account now choice g, choice).

(** [latency_governor.rs:213-219 ema] *)
Definition ema (old new weight : spec_float) : spec_float :=
  if feq old fzero then new
  else add32 (mul32 old (sub32 (f32_of_Z 1) weight)) (mul32 new weight).

(** [latency_governor.rs:175-182 record_encode_timing] *)
Definition record_encode_timing (capture encode : spec_float) (g : LatencyGovernor) : LatencyGovernor :=
  let W := lit32 1 10 in
  let m := metrics g in
  mkGovernor (mode g) (policy g) (pending g) (pending_since g) (pending_frames g) (last_encode g)
    (mkMetrics (ema (capture_to_encode_avg_ms m) capture W) (ema (encode_duration_avg_ms m) encode W)
       (ema (total_latency_avg_ms m) (add32 capture encode) W)
       (frames_encoded m) (frames_skipped m) (batches_encoded m)).

(** [latency_governor.rs:186-192 set_mode] *)
Definition set_mode (m : LatencyMode) (g : LatencyGovernor) : LatencyGovernor :=
  mkGovernor m (policy_of m) fzero None 0 (last_encode g) (metrics g).

(** [latency_governor.rs:202-204 reset_metrics] *)
Definition reset_metrics (g : LatencyGovernor) : LatencyGovernor :=
  mkGovernor (mode g) (policy g) (pending g) (pending_since g) (pending_frames g) (last_encode g) metrics_default.

(** [latency_governor.rs:205-207 time_since_last_encode] *)
Definition time_since_last_encode (now : Z) (g : LatencyGovernor) : Z := since now (last_encode g).

(** ** Runs *)
Inductive governor_call :=
| Frame (now : Z) (damage : spec_float)
| SetMode (m : LatencyMode)
| Timing (capture encode : spec_float)
| ResetMetrics.

Definition governor_step (g : LatencyGovernor) (k : governor_call) : LatencyGovernor :=
  match k with
  | Frame now damage => (should_encode_frame now damage g).1
  | SetMode m => set_mode m g
  | Timing c e => record_encode_timing c e g
  | ResetMetrics => reset_metrics g
  end.

(** The policy is the mode's, and nothing is pending without a start time. *)
Definition governor_inv (g : LatencyGovernor) : Prop :=
  policy g = policy_of (mode g) /\ (pending_since g = None -> pending g = fzero /\ pending_frames g = 0).

Lemma add_damage_inv now damage g : governor_inv g -> governor_inv (add_damage now damage g).
Proof. intros [H1 H2]. unfold add_damage. destruct (flt _ _); [|done]. by split. Qed.

Lemma account_inv now choice g : governor_inv g -> governor_inv (account now choice g).
Proof. intros [H1 H2]. unfold account. by destruct (should_encode choice). Qed.

Lemma governor_step_inv g k : governor_inv g -> governor_inv (governor_step g k).
Proof.
  intros Hg. destruct k as [now damage|m|c e|]; cbn.
  - by apply account_inv, add_damage_inv.
  - done.
  - destruct Hg. done.
  - destruct Hg. done.
Qed.

Lemma governor_run_inv ks g : governor_inv g -> governor_inv (fold_left governor_step ks g).
Proof. revert g. induction ks as [|k ks IH]; intros g Hg; [done|]. apply IH. by apply governor_step_inv. Qed.

(** Damage does not starve: whatever calls came before, at every frame the
    governor either encodes, and then starts from nothing, or the damage it
    still holds back is younger than the mode's delay and below its threshold;
    an interactive session never holds damage back and never stays silent for
    longer than its delay. *)
Theorem damage_never_starves now0 m ks now damage :
  let g := fold_left governor_step ks (governor_new now0 m) in
  let '(g', choice) := should_encode_frame now damage g in
  if should_encode choice
  then pending g' = fzero /\ pending_since g' = None /\ pending_frames g' = 0 /\ last_encode g' = now
  else match mode g with
       | Interactive => flt fzero (fclamp damage fzero (f32_of_Z 1)) = false /\ since now (last_encode g') < ms 16
       | Balanced | Quality =>
           reached (pending g') (threshold (policy_of (mode g))) = false /\
           (flt fzero (pending g') = true ->
              exists t, pending_since g' = Some t /\ since now t < delay (policy_of (mode g)))
       end.
Proof.
  pose proof (governor_run_inv ks (governor_new now0 m)) as Hg.
  set (g := fold_left governor_step ks _) in *. cbv zeta.
  assert (governor_inv g) as Hi by (apply Hg; done). clear Hg.
  unfold should_encode_frame. set (d := fclamp damage _ _).
  assert (mode (add_damage now d g) = mode g) as Em by (unfold add_damage; by destruct (flt _ _)).
  pose proof (add_damage_inv now d g Hi) as [Ep Hn]. rewrite Em in Ep.
  set (g1 := add_damage now d g) in *. unfold account, decide_frame. rewrite Em, Ep.
  assert (forall t, flt fzero (pending g1) && (t <=? match pending_since g1 with Some t => since now t | None => 0 end) = false ->
            flt fzero (pending g1) = true -> exists t0, pending_since g1 = Some t0 /\ since now t0 < t) as Hwait.
  { intros t Ht Hp. rewrite Hp in Ht. cbn [andb] in Ht. destruct (pending_since g1) as [t0|].
    - exists t0. split; [done|]. by apply Z.leb_gt.
    - destruct (Hn eq_refl) as [Hz _]. rewrite Hz in Hp. by vm_compute in Hp. }
  destruct (mode g).
  - destruct (flt fzero d) eqn:Ed; [done|]. destruct (Z.leb_spec (delay (policy_of Interactive)) (since now (last_encode g1))); [done|].
    cbn [should_encode last_encode]. done.
  - destruct (reached _ _) eqn:Er; [done|].
    destruct (flt fzero (pending g1) && (delay (policy_of Balanced) <=? _)) eqn:Et; [done|].
    cbn [should_encode pending pending_since]. split; [done|]. by apply Hwait.
  - destruct (reached _ _) eqn:Er; [done|].
    destruct (flt fzero (pending g1) && (delay (policy_of Quality) <=? _)) eqn:Et; [done|].
    destruct (flt fzero (pending g1)) eqn:Ef; cbn [should_encode pending pending_since]; (split; [done|]).
    + intros _. apply Hwait; [by rewrite ?Ef | done].
    + rewrite Ef. done.
Qed.
