(* ===== verification/Damage.v ===== *)
(** * Damage detection

    Models src/src/rdp/channels/graphics/damage/: the rectangle operations, the
    merging pass, the tile comparison, the detector and its counters. *)
From S2P Require Import Prelude Float.

(** ** Regions *)
(** [region.rs:3-12 DamageRegion] *)
Record DamageRegion := mkRegion { rx : Z; ry : Z; width : Z; height : Z }.
#[export] Instance DamageRegion_eq_dec : EqDecision DamageRegion.
Proof. solve_decision. Defined.

(** [region.rs:26-33 full_frame] *)
Definition full_frame (w h : Z) : DamageRegion := mkRegion 0 0 w h.
(** [region.rs:36-38 area] *)
Definition area (r : DamageRegion) : Z := width r * height r.

Definition right_edge (r : DamageRegion) : Z := sat_add u32_max (rx r) (width r).
Definition bottom_edge (r : DamageRegion) : Z := sat_add u32_max (ry r) (height r).

(** [region.rs:40-50 overlaps] *)
Definition overlaps (a b : DamageRegion) : bool :=
  (rx a <? right_edge b) && (rx b <? right_edge a) && (ry a <? bottom_edge b) && (ry b <? bottom_edge a).

(** [region.rs:53-58 contains] *)
Definition contains (r : DamageRegion) (x y : Z) : bool :=
  (rx r <=? x) && (x <? right_edge r) && (ry r <=? y) && (y <? bottom_edge r).

(** [region.rs:60-78 union] *)
Definition union (a b : DamageRegion) : DamageRegion :=
  let x := Z.min (rx a) (rx b) in
  let y := Z.min (ry a) (ry b) in
  let right := Z.max (right_edge a) (right_edge b) in
  let bottom := Z.max (bottom_edge a) (bottom_edge b) in
  mkRegion x y (right - x) (bottom - y).

(** [region.rs:80-102 is_adjacent] *)
Definition is_adjacent (a b : DamageRegion) (merge_distance : Z) : bool :=
  let gap_x := if right_edge a <=? rx b then rx b - right_edge a else sat_sub (rx a) (right_edge b) in
  let gap_y := if bottom_edge a <=? ry b then ry b - bottom_edge a else sat_sub (ry a) (bottom_edge b) in
  (gap_x <=? merge_distance) && (gap_y <=? merge_distance).

(** ** Merging *)
(** One rectangle absorbs the later ones it is adjacent to, growing as it goes;
    the ones it took are marked used, here removed.
    [regions.rs:26-36 merge_regions] *)
Fixpoint absorb (d : Z) (current : DamageRegion) (rest : list DamageRegion)
    : DamageRegion * list DamageRegion * bool :=
  match rest with
  | [] => (current, [], false)
  | r :: rest =>
      if is_adjacent current r d then
        let '(c, kept, _) := absorb d (union current r) rest in (c, kept, true)
      else
        let '(c, kept, ch) := absorb d current rest in (c, r :: kept, ch)
  end.

(** One round over the list; [length] bounds its steps.
    [regions.rs:15-39 merge_regions] *)
Fixpoint merge_pass (fuel : nat) (d : Z) (regions : list DamageRegion) : list DamageRegion * bool :=
  match fuel, regions with
  | O, _ | _, [] => ([], false)
  | S fuel, r :: rest =>
      let '(c, kept, ch) := absorb d r rest in
      let '(merged, ch') := merge_pass fuel d kept in
      (c :: merged, ch || ch')
  end.

(** Rounds until nothing changes; each changing round shortens the list.
    [regions.rs:12-42 merge_regions] *)
Fixpoint merge_loop (fuel : nat) (d : Z) (regions : list DamageRegion) : list DamageRegion :=
  match fuel with
  | O => regions
  | S fuel =>
      let '(merged, changed) := merge_pass (length regions) d regions in
      if changed then merge_loop fuel d merged else merged
  end.

(** [regions.rs:4-45 merge_regions] *)
Definition merge_regions (regions : list DamageRegion) (d : Z) : list DamageRegion :=
  if (length regions <=? 1)%nat then regions else merge_loop (length regions) d regions.

(** ** Tiles *)
(** The cells [(ty, tx)] in the order of the two loops. *)
Definition cells (tiles_x tiles_y : nat) : list (nat * nat) :=
  seq 0 tiles_y ≫= fun ty => map (pair ty) (seq 0 tiles_x).

(** [regions.rs:62-69 tiles_to_regions] *)
Definition tile_region (tile_size w h : Z) (ty tx : nat) : option DamageRegion :=
  let x := wrap 32 (Z.of_nat tx * tile_size) in
  let y := wrap 32 (Z.of_nat ty * tile_size) in
  let tw := Z.min (wrap 32 tile_size) (sat_sub w x) in
  let th := Z.min (wrap 32 tile_size) (sat_sub h y) in
  if (0 <? tw) && (0 <? th) then Some (mkRegion x y tw th) else None.

(** An index out of range panics.
    [regions.rs:48-75 tiles_to_regions] *)
Definition tiles_to_regions (dirty : list bool) (tiles_x tiles_y : nat) (tile_size w h : Z)
    : outcome Empty_set (list DamageRegion) :=
  mfold (fun regions '(ty, tx) =>
           match dirty !! (ty * tiles_x + tx)%nat with
           | None => Panic
           | Some false => Ok regions
           | Some true => Ok (regions ++ option_list (tile_region tile_size w h ty tx))
           end) [] (cells tiles_x tiles_y).

(** ** Pixels *)
(** [compare.rs:6-23 count_different_pixels_scalar] *)
Fixpoint count_different_pixels (prev curr : list Z) (threshold : Z) : Z :=
  match prev, curr with
  | p0 :: p1 :: p2 :: _ :: prev, c0 :: c1 :: c2 :: _ :: curr =>
      (if (threshold <? Z.abs (p0 - c0)) || (threshold <? Z.abs (p1 - c1)) || (threshold <? Z.abs (p2 - c2))
       then 1 else 0) + count_different_pixels prev curr threshold
  | _, _ => 0
  end.

(** [config.rs:3-18 DamageConfig] *)
Record DamageConfig := mkDamageConfig {
  tile_size : Z;
  diff_threshold : spec_float;
  pixel_threshold : Z;
  merge_distance : Z;
  min_region_area : Z;
}.
(** [config.rs:21-29 default] *)
Definition damage_config_default : DamageConfig := mkDamageConfig 64 (lit32 5 100) 4 32 256.
(** [config.rs:33-41 low_bandwidth] *)
Definition low_bandwidth : DamageConfig := mkDamageConfig 32 (lit32 2 100) 2 16 64.
(** [config.rs:43-51 high_motion] *)
Definition high_motion : DamageConfig := mkDamageConfig 128 (lit32 10 100) 8 64 1024.

Definition slice (off len : Z) (l : list Z) : list Z := take (Z.to_nat len) (drop (Z.to_nat off) l).

(** [detector.rs:198-227 compare_tile] *)
Definition compare_tile (prev curr : list Z) (tile_x tile_y tile_width tile_height stride pixel_threshold : Z) : Z :=
  let bytes_per_row := tile_width * 4 in
  fold_left (fun total row =>
      let offset := (tile_y + row) * stride + tile_x * 4 in
      if (Z.of_nat (length prev) <? offset + bytes_per_row) || (Z.of_nat (length curr) <? offset + bytes_per_row)
      then total
      else wrap 32 (total + count_different_pixels (slice offset bytes_per_row prev) (slice offset bytes_per_row curr) pixel_threshold))
    (seqZ 0 tile_height) 0.

(** Whether the comparison marks a tile.
    [detector.rs:148-177 detect_changes] *)
Definition tile_flag (c : DamageConfig) (prev curr : list Z) (w h : Z) (ty tx : nat) : bool :=
  let tile_x := Z.of_nat tx * tile_size c in
  let tile_y := Z.of_nat ty * tile_size c in
  let tile_width := Z.min (tile_size c) (sat_sub w tile_x) in
  let tile_height := Z.min (tile_size c) (sat_sub h tile_y) in
  if (tile_width =? 0) || (tile_height =? 0) then false
  else
    let diff_count := compare_tile prev curr tile_x tile_y tile_width tile_height (w * 4) (pixel_threshold c) in
    let tile_pixels := wrap 32 (tile_width * tile_height) in
    let diff_threshold_count := as_uint u32_max (mul32 (f32_of_Z tile_pixels) (diff_threshold c)) in
    diff_threshold_count <? diff_count.

(** ** Counters *)
(** [stats.rs:3-16 DamageStats] *)
Record DamageStats := mkDamageStats {
  frames_processed : Z;
  frames_skipped : Z;
  frames_full : Z;
  frames_partial : Z;
  total_damage_area : Z;
  total_frame_area : Z;
  total_detection_time_ns : Z;
  avg_damage_ratio : spec_float;
  avg_detection_time_ms : spec_float;
}.
Definition damage_stats_default : DamageStats := mkDamageStats 0 0 0 0 0 0 0 fzero fzero.

(** [stats.rs:20-26 bandwidth_reduction_percent] *)
Definition bandwidth_reduction_percent (s : DamageStats) : spec_float :=
  if total_frame_area s =? 0 then fzero
  else mul32 (sub32 (f32_of_Z 1) (div32 (f32_of_Z (total_damage_area s)) (f32_of_Z (total_frame_area s)))) (f32_of_Z 100).

(** [stats.rs:28-58 record_frame] *)
Definition record_frame (frame_area damage_area time_ns : Z) (s : DamageStats) : DamageStats :=
  let processed := wrap 64 (frames_processed s + 1) in
  let tda := wrap 64 (total_damage_area s + damage_area) in
  let tfa := wrap 64 (total_frame_area s + frame_area) in
  let tdt := wrap 64 (total_detection_time_ns s + time_ns) in
  let skipped := damage_area =? 0 in
  let full := negb skipped && (wrap 64 (frame_area * 9) / 10 <=? damage_area) in
  let bump (b : bool) n := if b then wrap 64 (n + 1) else n in
  mkDamageStats processed
    (bump skipped (frames_skipped s)) (bump full (frames_full s))
    (bump (negb skipped && negb full) (frames_partial s))
    tda tfa tdt
    (if 0 <? processed then div32 (f32_of_Z tda) (f32_of_Z (Z.max tfa 1)) else avg_damage_ratio s)
    (if 0 <? processed
     then f32_of_f64 (div64 (div64 (f64_of_Z tdt) (f64_of_Z processed)) (f64_of_Z 1000000))
     else avg_detection_time_ms s).

(** ** The detector *)
(** [detector.rs:13-24 DamageDetector] *)
Record DamageDetector := mkDamage {
  config : DamageConfig;
  previous_frame : option (list Z);
  previous_dimensions : option (Z * Z);
  tile_dirty : list bool;
  tiles_x : nat;
  tiles_y : nat;
  stats : DamageStats;
  invalidated : bool;
}.

(** [detector.rs:27-38 new] *)
Definition detector_new (c : DamageConfig) : DamageDetector := mkDamage c None None [] 0 0 damage_stats_default true.

(** A tile size of zero makes [div_ceil] panic.
    [detector.rs:124-132 update_tile_grid] *)
Definition update_tile_grid (w h : Z) (d : DamageDetector) : outcome Empty_set DamageDetector :=
  if tile_size (config d) =? 0 then Panic
  else
    let nx := Z.to_nat (div_ceil w (tile_size (config d))) in
    let ny := Z.to_nat (div_ceil h (tile_size (config d))) in
    let total := (nx * ny)%nat in
    let dirty := if bool_decide (length (tile_dirty d) = total) then tile_dirty d else replicate total false in
    Ok (mkDamage (config d) (previous_frame d) (previous_dimensions d) dirty nx ny (stats d) (invalidated d)).

(** The flags are recomputed cell by cell, in index order.
    [detector.rs:134-192 detect_changes] *)
Definition detect_changes (prev curr : list Z) (w h : Z) (d : DamageDetector)
    : list bool * outcome Empty_set (list DamageRegion) :=
  let c := config d in
  let flags := map (fun '(ty, tx) => tile_flag c prev curr w h ty tx) (cells (tiles_x d) (tiles_y d)) in
  (flags,
   regions ← tiles_to_regions flags (tiles_x d) (tiles_y d) (tile_size c) w h;
   Ok (List.filter (fun r => min_region_area c <=? area r) (merge_regions regions (merge_distance c)))).

(** A frame of the wrong size panics.  [time_ns] is the measured detection time.
    [detector.rs:52-98 detect] *)
Definition detect (time_ns : Z) (frame : list Z) (w h : Z) (d : DamageDetector)
    : outcome Empty_set (DamageDetector * list DamageRegion) :=
  let frame_area := w * h in
  if negb (Z.of_nat (length frame) =? w * h * 4) then Panic
  else
    let dimensions_changed := match previous_dimensions d with
                              | Some (pw, ph) => negb (pw =? w) || negb (ph =? h)
                              | None => true
                              end in
    match previous_frame d with
    | Some prev =>
        if invalidated d || dimensions_changed then
          d ← update_tile_grid w h d;
          Ok (mkDamage (config d) (Some frame) (Some (w, h)) (tile_dirty d) (tiles_x d) (tiles_y d)
                (record_frame frame_area frame_area time_ns (stats d)) false, [full_frame w h])
        else
          let '(flags, r) := detect_changes prev frame w h d in
          regions ← r;
          let damage_area := wrap 64 (foldr Z.add 0 (map area regions)) in
          Ok (mkDamage (config d) (Some frame) (previous_dimensions d) flags (tiles_x d) (tiles_y d)
                (record_frame frame_area damage_area time_ns (stats d)) false, regions)
    | None =>
        d ← update_tile_grid w h d;
        Ok (mkDamage (config d) (Some frame) (Some (w, h)) (tile_dirty d) (tiles_x d) (tiles_y d)
              (record_frame frame_area frame_area time_ns (stats d)) false, [full_frame w h])
    end.

(** [detector.rs:102-104 invalidate] *)
Definition invalidate (d : DamageDetector) : DamageDetector :=
  mkDamage (config d) (previous_frame d) (previous_dimensions d) (tile_dirty d) (tiles_x d) (tiles_y d) (stats d) true.
(** [detector.rs:110-112 reset_stats] *)
Definition damage_reset_stats (d : DamageDetector) : DamageDetector :=
  mkDamage (config d) (previous_frame d) (previous_dimensions d) (tile_dirty d) (tiles_x d) (tiles_y d) damage_stats_default (invalidated d).
(** [detector.rs:119-122 set_config] *)
Definition set_config (c : DamageConfig) (d : DamageDetector) : DamageDetector :=
  invalidate (mkDamage c (previous_frame d) (previous_dimensions d) (tile_dirty d) (tiles_x d) (tiles_y d) (stats d) (invalidated d)).

(** ** Coverage *)
Definition region_ok (r : DamageRegion) : Prop := 0 <= rx r /\ 0 <= ry r /\ 0 <= width r /\ 0 <= height r.

(** The region lies inside a [w] by [h] frame. *)
Definition inside (w h : Z) (r : DamageRegion) : Prop :=
  region_ok r /\ rx r + width r <= w /\ ry r + height r <= h.

Definition covered (rs : list DamageRegion) (x y : Z) : Prop := exists r, r ∈ rs /\ contains r x y = true.

(** Every pixel of [a] lies in [b]. *)
Definition within (a b : DamageRegion) : Prop := forall x y, contains a x y = true -> contains b x y = true.
(** The rectangles around one or more of the given ones. *)
Inductive around (tiles : list DamageRegion) : DamageRegion -> Prop :=
| around_tile t : t ∈ tiles -> around tiles t
| around_both a b : around tiles a -> around tiles b -> around tiles (union a b).

Lemma union_contains a b x y : region_ok a -> region_ok b ->
  contains a x y = true \/ contains b x y = true -> contains (union a b) x y = true.
Proof.
  unfold region_ok, contains, union, right_edge, bottom_edge, sat_add, u32_max. cbn [rx ry width height]. lia.
Qed.

Lemma union_inside w h a b : w <= u32_max -> h <= u32_max -> inside w h a -> inside w h b -> inside w h (union a b).
Proof.
  unfold inside, region_ok, union, right_edge, bottom_edge, sat_add, u32_max. cbn [rx ry width height]. lia.
Qed.

Section merge.
Context (w h d : Z).
Hypothesis Hw : w <= u32_max.
Hypothesis Hh : h <= u32_max.

(** What a round may do to the rectangles: keep them in the frame, lose no
    pixel, and never make the list longer. *)
Record coarser (rs rs' : list DamageRegion) : Prop := {
  co_inside : Forall (inside w h) rs';
  co_covers : forall x y, covered rs x y -> covered rs' x y;
  co_length : (length rs' <= length rs)%nat;
  co_within : forall q, q ∈ rs -> exists q', q' ∈ rs' /\ within q q';
  co_around : forall tiles, Forall (around tiles) rs -> Forall (around tiles) rs';
}.

Lemma coarser_refl rs : Forall (inside w h) rs -> coarser rs rs.
Proof. intros H. constructor; [done..| |done]. intros q Hq. exists q. split; [done|]. by intros x y. Qed.
Lemma coarser_trans rs rs' rs'' : coarser rs rs' -> coarser rs' rs'' -> coarser rs rs''.
Proof.
  intros [_ C1 L1 W1 A1] [I2 C2 L2 W2 A2]. constructor; [done|auto|lia| |auto]. intros q Hq. destruct (W1 q Hq) as (q1 & Hq1 & E1).
  destruct (W2 q1 Hq1) as (q2 & Hq2 & E2). exists q2. split; [done|]. intros x y Hx. by apply E2, E1.
Qed.
Lemma coarser_cons r rs rs' : inside w h r -> coarser rs rs' -> coarser (r :: rs) (r :: rs').
Proof.
  intros Hr [I C L W A]. constructor; [by constructor| |cbn; lia| |].
  - intros x y (q & [->|Hq]%elem_of_cons & Hx); [exists r; split; [set_solver|done]|]. destruct (C x y) as (q' & Hq' & Hx'); [by exists q|]. exists q'. split; [set_solver|done].
  - intros q [->|Hq]%elem_of_cons; [exists r; split; [set_solver|by intros x y]|]. destruct (W q Hq) as (q' & Hq' & E). exists q'. split; [set_solver|done].
  - intros tiles [H1 H2]%Forall_cons. constructor; auto.
Qed.
Lemma coarser_swap a b rs rs' : coarser (a :: b :: rs) rs' -> coarser (b :: a :: rs) rs'.
Proof.
  intros [I C L W A]. constructor; [done| |done| |].
  - intros x y (q & Hq & Hx). apply C. exists q. split; [set_solver|done].
  - intros q Hq. apply W. set_solver.
  - intros tiles H. apply A. rewrite !Forall_cons in *. tauto.
Qed.
Lemma coarser_union a b rs : inside w h a -> inside w h b -> Forall (inside w h) rs -> coarser (a :: b :: rs) (union a b :: rs).
Proof.
  intros Ha Hb Hr. assert (forall x y, contains a x y = true \/ contains b x y = true -> contains (union a b) x y = true) as U.
  { intros x y. apply union_contains; [apply Ha|apply Hb]. }
  constructor; [by constructor; [apply union_inside|]| |cbn; lia| |].
  - intros x y (q & Hq & Hx). rewrite !elem_of_cons in Hq. destruct Hq as [->|[->|Hq]]; [exists (union a b); split; [set_solver|auto]..|].
    exists q. split; [set_solver|done].
  - intros q Hq. rewrite !elem_of_cons in Hq. destruct Hq as [->|[->|Hq]]; [exists (union a b); split; [set_solver|intros x y; auto]..|].
    exists q. split; [set_solver|by intros x y].
  - intros tiles. rewrite !Forall_cons. intros (? & ? & ?). split; [by apply around_both|done].
Qed.

Lemma absorb_spec c rest c' kept ch :
  inside w h c -> Forall (inside w h) rest -> absorb d c rest = (c', kept, ch) ->
  coarser (c :: rest) (c' :: kept) /\
  (ch = false -> c' = c /\ kept = rest /\ Forall (fun r => is_adjacent c r d = false) rest) /\
  (ch = true -> (length kept < length rest)%nat).
Proof.
  revert c c' kept ch. induction rest as [|r rest IH]; intros c c' kept ch Hc Hr; cbn [absorb].
  { intros [= <- <- <-]. split_and!; [by apply coarser_refl, Forall_singleton | done | done]. }
  apply Forall_cons in Hr as [Hr Hrest]. destruct (is_adjacent c r d) eqn:Ea.
  - destruct (absorb d (union c r) rest) as [[c1 k1] ch1] eqn:E. intros [= <- <- <-].
    destruct (IH _ _ _ _ (union_inside w h c r Hw Hh Hc Hr) Hrest E) as (K & _ & Hlt).
    split_and!; [by eapply coarser_trans; [apply coarser_union|]|done|].
    intros _. pose proof (co_length _ _ K). cbn in *. lia.
  - destruct (absorb d c rest) as [[c1 k1] ch1] eqn:E. intros [= <- <- <-].
    destruct (IH _ _ _ _ Hc Hrest E) as (K & Hf & Ht). split_and!.
    + apply coarser_swap. eapply coarser_trans; [by apply coarser_cons, K|]. apply coarser_swap, coarser_refl.
      pose proof (co_inside _ _ K) as Hi. rewrite !Forall_cons in *. tauto.
    + intros Hch. destruct (Hf Hch) as (-> & -> & Hadj). split_and!; [done..|]. by constructor.
    + intros Hch. specialize (Ht Hch). cbn. lia.
Qed.

(** No rectangle is adjacent to a later one. *)
Fixpoint separated (rs : list DamageRegion) : Prop :=
  match rs with
  | [] => True
  | r :: rs => Forall (fun q => is_adjacent r q d = false) rs /\ separated rs
  end.

Lemma pass_spec fuel rs out ch :
  (length rs <= fuel)%nat -> Forall (inside w h) rs -> merge_pass fuel d rs = (out, ch) ->
  coarser rs out /\ (ch = false -> out = rs /\ separated rs) /\ (ch = true -> (length out < length rs)%nat).
Proof.
  revert rs out ch. induction fuel as [|fuel IH]; intros rs out ch Hf Hi.
  { destruct rs; [|cbn in Hf; lia]. intros [= <- <-]. split_and!; [by apply coarser_refl | done | done]. }
  destruct rs as [|r rest]; cbn [merge_pass].
  { intros [= <- <-]. split_and!; [by apply coarser_refl | done | done]. }
  apply Forall_cons in Hi as [Hr Hrest].
  destruct (absorb d r rest) as [[c kept] ch1] eqn:E.
  destruct (absorb_spec _ _ _ _ _ Hr Hrest E) as (K1 & Hf1 & Ht1).
  pose proof (co_inside _ _ K1) as [Hic Hik]%Forall_cons. pose proof (co_length _ _ K1) as Hl1.
  destruct (merge_pass fuel d kept) as [m ch2] eqn:Em. intros [= <- <-].
  cbn [length] in *. destruct (IH kept m ch2 ltac:(lia) Hik Em) as (K2 & Hf2 & Ht2). pose proof (co_length _ _ K2) as Hl2.
  split_and!.
  - eapply coarser_trans; [exact K1|]. by apply coarser_cons.
  - intros [-> ->]%orb_false_iff. destruct (Hf1 eq_refl) as (-> & -> & Hadj).
    destruct (Hf2 eq_refl) as (-> & Hsep). done.
  - intros [-> | ->]%orb_true_iff; [specialize (Ht1 eq_refl) | specialize (Ht2 eq_refl)]; cbn; lia.
Qed.

Lemma loop_spec fuel rs : (length rs <= fuel)%nat -> Forall (inside w h) rs ->
  coarser rs (merge_loop fuel d rs) /\ separated (merge_loop fuel d rs).
Proof.
  revert rs. induction fuel as [|fuel IH]; intros rs Hf Hi.
  { destruct rs; [|cbn in Hf; lia]. split; [by apply coarser_refl | done]. }
  cbn [merge_loop]. destruct (merge_pass (length rs) d rs) as [m ch] eqn:E.
  destruct (pass_spec _ _ _ _ (le_n _) Hi E) as (K1 & Hf1 & Ht1).
  destruct ch.
  - specialize (Ht1 eq_refl). destruct (IH m ltac:(lia) (co_inside _ _ K1)) as (K2 & Hs).
    split; [by eapply coarser_trans|done].
  - destruct (Hf1 eq_refl) as [-> Hs]. done.
Qed.

Lemma merge_spec rs : Forall (inside w h) rs ->
  coarser rs (merge_regions rs d) /\ separated (merge_regions rs d).
Proof.
  intros Hi. unfold merge_regions. destruct (Nat.leb_spec (length rs) 1); [|by apply loop_spec].
  split; [by apply coarser_refl|]. destruct rs as [|r [|]]; cbn in *; [done | done | lia].
Qed.
End merge.

(** ** Tiles *)
Lemma seq_cells_lookup nx s n i tx : (i < n)%nat -> (tx < nx)%nat ->
  (seq s n ≫= fun ty => map (pair ty) (seq 0 nx)) !! (i * nx + tx)%nat = Some ((s + i)%nat, tx).
Proof.
  revert s i. induction n as [|n IH]; intros s i Hi Htx; [lia|]. cbn [seq mbind list_bind].
  destruct i as [|i].
  - rewrite lookup_app_l by (rewrite length_map, length_seq; lia).
    change (map (pair s) (seq 0 nx)) with (pair s <$> seq 0 nx).
    rewrite list_lookup_fmap, lookup_seq_lt by lia. cbn. do 2 f_equal; lia.
  - rewrite lookup_app_r by (rewrite length_map, length_seq; lia).
    rewrite length_map, length_seq. replace (S i * nx + tx - nx)%nat with (i * nx + tx)%nat by lia.
    rewrite IH by lia. do 2 f_equal. lia.
Qed.

Lemma elem_of_cells nx ny ty tx : (ty, tx) ∈ cells nx ny <-> (ty < ny)%nat /\ (tx < nx)%nat.
Proof.
  unfold cells. rewrite list_elem_of_bind. split.
  - intros (t & Hc & Ht%elem_of_seq). apply list_elem_of_fmap in Hc as (x & [= -> ->] & Hx%elem_of_seq). lia.
  - intros [Hy Hx]. exists ty. split; [|apply elem_of_seq; lia].
    apply list_elem_of_fmap. exists tx. split; [done | apply elem_of_seq; lia].
Qed.

Definition flags_of (f : nat -> nat -> bool) (nx ny : nat) : list bool := map (fun '(ty, tx) => f ty tx) (cells nx ny).

Lemma flags_lookup f nx ny ty tx : (ty < ny)%nat -> (tx < nx)%nat ->
  flags_of f nx ny !! (ty * nx + tx)%nat = Some (f ty tx).
Proof.
  intros Hy Hx. unfold flags_of.
  change (map ?g (cells nx ny)) with (g <$> cells nx ny).
  rewrite list_lookup_fmap. unfold cells. by rewrite seq_cells_lookup by lia.
Qed.

Definition cell_regions (f : nat -> nat -> bool) (ts w h : Z) (c : nat * nat) : list DamageRegion :=
  if f c.1 c.2 then option_list (tile_region ts w h c.1 c.2) else [].

(** With flags for every cell no index is out of range. *)
Lemma tiles_to_regions_ok f nx ny ts w h :
  tiles_to_regions (flags_of f nx ny) nx ny ts w h = Ok (cells nx ny ≫= cell_regions f ts w h).
Proof.
  unfold tiles_to_regions.
  enough (forall l acc, (forall c, c ∈ l -> c ∈ cells nx ny) ->
    mfold (fun regions '(ty, tx) =>
             match flags_of f nx ny !! (ty * nx + tx)%nat with
             | None => Panic
             | Some false => Ok regions
             | Some true => Ok (regions ++ option_list (tile_region ts w h ty tx))
             end) acc l = @Ok Empty_set _ (acc ++ (l ≫= cell_regions f ts w h))) as Hl by (by apply (Hl _ [])).
  induction l as [|[ty tx] l IH]; intros acc Hin; cbn [mfold mbind list_bind]; [by rewrite app_nil_r|].
  assert ((ty < ny)%nat /\ (tx < nx)%nat) as [Hy Hx] by (apply elem_of_cells, Hin; set_solver).
  rewrite flags_lookup by done. unfold cell_regions at 1. cbn [fst snd].
  assert (forall c, c ∈ l -> c ∈ cells nx ny) as Hl by set_solver.
  destruct (f ty tx); cbn [mbind outcome_bind]; rewrite (IH _ Hl); [by rewrite app_assoc | done].
Qed.

Lemma tile_region_inside ts w h ty tx r : 0 <= w <= u32_max -> 0 <= h <= u32_max ->
  tile_region ts w h ty tx = Some r -> inside w h r.
Proof.
  intros Hw Hh. unfold tile_region.
  pose proof (wrap_bound 32 (Z.of_nat tx * ts)). pose proof (wrap_bound 32 (Z.of_nat ty * ts)).
  destruct (_ && _) eqn:E; [|done]. intros [= <-]. apply andb_prop in E as [E1%Z.ltb_lt E2%Z.ltb_lt].
  unfold inside, region_ok, sat_sub in *. cbn [rx ry width height]. lia.
Qed.

(** The tile of a pixel contains it. *)
Lemma tile_region_contains ts w h x y : 0 < ts < 2 ^ 32 -> 0 <= x < w -> 0 <= y < h -> w <= u32_max -> h <= u32_max ->
  exists r, tile_region ts w h (Z.to_nat (y / ts)) (Z.to_nat (x / ts)) = Some r /\ contains r x y = true.
Proof.
  intros Ht Hx Hy Hw Hh. unfold tile_region.
  assert (0 <= x / ts /\ 0 <= y / ts) as [Hdx Hdy] by (split; apply Z.div_pos; lia).
  rewrite !Z2Nat.id by done.
  pose proof (Z.mul_div_le x ts ltac:(lia)). pose proof (Z.mul_succ_div_gt x ts ltac:(lia)).
  pose proof (Z.mul_div_le y ts ltac:(lia)). pose proof (Z.mul_succ_div_gt y ts ltac:(lia)).
  unfold u32_max in *. rewrite !wrap_small by nia.
  assert (0 < Z.min ts (sat_sub w (x / ts * ts)) /\ 0 < Z.min ts (sat_sub h (y / ts * ts))) as [Hp1 Hp2]
    by (unfold sat_sub; lia).
  destruct (Z.ltb_spec 0 (Z.min ts (sat_sub w (x / ts * ts)))); [|lia].
  destruct (Z.ltb_spec 0 (Z.min ts (sat_sub h (y / ts * ts)))); [|lia].
  eexists. split; [done|]. unfold contains, right_edge, bottom_edge, sat_add, sat_sub, u32_max in *.
  cbn [rx ry width height]. lia.
Qed.

Lemma cell_covers f ts w h x y :
  0 < ts < 2 ^ 32 -> 0 <= x < w -> 0 <= y < h -> w <= u32_max -> h <= u32_max ->
  f (Z.to_nat (y / ts)) (Z.to_nat (x / ts)) = true ->
  covered (cells (Z.to_nat (div_ceil w ts)) (Z.to_nat (div_ceil h ts)) ≫= cell_regions f ts w h) x y.
Proof.
  intros Ht Hx Hy Hw Hh Hf. destruct (tile_region_contains ts w h x y) as (r & Hr & Hc); [done..|].
  exists r. split; [|done]. apply list_elem_of_bind.
  exists (Z.to_nat (y / ts), Z.to_nat (x / ts)). split.
  - unfold cell_regions. cbn [fst snd]. rewrite Hf, Hr. cbn. set_solver.
  - assert (forall a n, 0 <= a < n -> (Z.to_nat (a / ts) < Z.to_nat (div_ceil n ts))%nat) as Hlt.
    { intros a n Ha. apply Z2Nat.inj_lt; [apply Z.div_pos; lia| |].
      - unfold div_ceil. apply Z.div_pos; lia.
      - apply Z.div_lt_upper_bound; [lia|]. pose proof (div_ceil_spec n ts ltac:(lia) ltac:(lia)). lia. }
    apply elem_of_cells. split; by apply Hlt.
Qed.

(** ** The detector over its life *)
(** Sizes are [u32]; every public call is a step. *)
Inductive reachable : DamageDetector -> Prop :=
| reach_new c : reachable (detector_new c)
| reach_detect d t f w h d' rs :
    reachable d -> 0 <= w <= u32_max -> 0 <= h <= u32_max ->
    detect t f w h d = Ok (d', rs) -> reachable d'
| reach_invalidate d : reachable d -> reachable (invalidate d)
| reach_reset d : reachable d -> reachable (damage_reset_stats d)
| reach_config c d : reachable d -> reachable (set_config c d).

(** A detector that is not invalidated has a grid for the size of its frame. *)
Definition grid_inv (d : DamageDetector) : Prop :=
  invalidated d = false ->
  exists p w h, previous_frame d = Some p /\ previous_dimensions d = Some (w, h) /\
    tile_size (config d) <> 0 /\ Z.of_nat (length p) = w * h * 4 /\
    tiles_x d = Z.to_nat (div_ceil w (tile_size (config d))) /\
    tiles_y d = Z.to_nat (div_ceil h (tile_size (config d))).

(** The frame is compared with its predecessor rather than sent whole. *)
Definition comparable (d : DamageDetector) (w h : Z) : bool :=
  match previous_frame d, previous_dimensions d with
  | Some _, Some (pw, ph) => negb (invalidated d) && (pw =? w) && (ph =? h)
  | _, _ => false
  end.

Definition changed_regions (c : DamageConfig) (p f : list Z) (w h : Z) : list DamageRegion :=
  merge_regions (cells (Z.to_nat (div_ceil w (tile_size c))) (Z.to_nat (div_ceil h (tile_size c)))
                   ≫= cell_regions (tile_flag c p f w h) (tile_size c) w h) (merge_distance c).

(** The two outcomes of [detect] that are not panics. *)
Lemma detect_cases t f w h d d' rs : grid_inv d -> detect t f w h d = Ok (d', rs) ->
  Z.of_nat (length f) = w * h * 4 /\ previous_frame d' = Some f /\ config d' = config d /\ grid_inv d' /\
  (comparable d w h = false /\ rs = [full_frame w h] \/
   exists p, comparable d w h = true /\ previous_frame d = Some p /\
     rs = List.filter (fun r => min_region_area (config d) <=? area r) (changed_regions (config d) p f w h)).
Proof.
  intros Hg. unfold detect. destruct (Z.eqb_spec (Z.of_nat (length f)) (w * h * 4)) as [Hl|]; cbn [negb]; [|done].
  assert (forall e, update_tile_grid w h d = Ok e -> config e = config d /\ tile_size (config d) <> 0 /\
            tiles_x e = Z.to_nat (div_ceil w (tile_size (config d))) /\
            tiles_y e = Z.to_nat (div_ceil h (tile_size (config d)))) as Hu.
  { intros e. unfold update_tile_grid. destruct (Z.eqb_spec (tile_size (config d)) 0); [done|]. by intros [= <-]. }
  assert (Hfull : forall e x, update_tile_grid w h d = Ok e ->
    x = mkDamage (config e) (Some f) (Some (w, h)) (tile_dirty e) (tiles_x e) (tiles_y e)
          (record_frame (w * h) (w * h) t (stats e)) false ->
    comparable d w h = false ->
    Z.of_nat (length f) = w * h * 4 /\ previous_frame x = Some f /\ config x = config d /\ grid_inv x /\
    (comparable d w h = false /\ [full_frame w h] = [full_frame w h] \/
     exists p, comparable d w h = true /\ previous_frame d = Some p /\
       [full_frame w h] = List.filter (fun r => min_region_area (config d) <=? area r) (changed_regions (config d) p f w h))).
  { intros e x He -> Hc. destruct (Hu e He) as (H1 & H2 & H3 & H4). split_and!; [done..| |by left].
    intros _. exists f, w, h. cbn. rewrite H1. done. }
  destruct (previous_frame d) as [p|] eqn:Ep.
  - destruct (invalidated d || _) eqn:Ei.
    + destruct (update_tile_grid w h d) as [e| |] eqn:Eu; [|done..]. intros [= <- <-]. eapply Hfull; [done..|].
      unfold comparable. rewrite Ep. destruct (previous_dimensions d) as [[pw ph]|]; [|done].
      destruct (invalidated d); [done|]. cbn in *. destruct (pw =? w); [|done]. by destruct (ph =? h).
    + apply orb_false_iff in Ei as [Ei Hd].
      destruct (Hg Ei) as (p' & w' & h' & Ep' & Edim & Hts & Hlp & Htx & Hty).
      rewrite Ep in Ep'. injection Ep' as <-. rewrite Edim in Hd.
      apply orb_false_iff in Hd as [Hw%negb_false_iff%Z.eqb_eq Hh%negb_false_iff%Z.eqb_eq]. subst w' h'.
      unfold detect_changes. change (map _ (cells (tiles_x d) (tiles_y d)))
        with (flags_of (tile_flag (config d) p f w h) (tiles_x d) (tiles_y d)).
      rewrite tiles_to_regions_ok. cbn [mbind outcome_bind]. intros [= <- <-].
      split_and!; [done..| |right].
      * intros _. exists f, w, h. done.
      * exists p. split_and!; [|done|].
        { unfold comparable. by rewrite Ep, Edim, Ei, !Z.eqb_refl. }
        { unfold changed_regions. by rewrite Htx, Hty. }
  - destruct (update_tile_grid w h d) as [e| |] eqn:Eu; [|done..]. intros [= <- <-]. eapply Hfull; [done..|].
    unfold comparable. by rewrite Ep.
Qed.

Lemma reachable_grid d : reachable d -> grid_inv d.
Proof.
  induction 1 as [c|d t f w h d' rs Hd IH Hw Hh Hdet|d Hd IH|d Hd IH|c d Hd IH]; [done| |done|done|done].
  by apply (detect_cases _ _ _ _ _ _ _ IH) in Hdet as (_ & _ & _ & ? & _).
Qed.

Lemma separated_filter dist (p : DamageRegion -> bool) rs : separated dist rs -> separated dist (List.filter p rs).
Proof.
  induction rs as [|r rs IH]; [done|]. intros [Hr Hs]. cbn [List.filter].
  destruct (p r); [|auto]. split; [|auto]. apply Forall_forall. intros q Hq.
  apply list_elem_of_In, filter_In in Hq as [Hq _]. rewrite Forall_forall in Hr. by apply Hr, list_elem_of_In.
Qed.

(** The rectangles of the tiles that differ beyond the thresholds. *)
Definition changed_tiles (c : DamageConfig) (p f : list Z) (w h : Z) : list DamageRegion :=
  cells (Z.to_nat (div_ceil w (tile_size c))) (Z.to_nat (div_ceil h (tile_size c))) ≫= cell_regions (tile_flag c p f w h) (tile_size c) w h.

(** A way to merge rectangles: every one of them lies whole in a merged one, a
    merged one is the rectangle around some of them and nothing more, and no two
    merged ones are close enough to merge. *)
Record grouped (distance : Z) (tiles merged : list DamageRegion) : Prop := mkGrouped {
  gr_whole : forall t, t ∈ tiles -> exists r, r ∈ merged /\ within t r;
  gr_tight : Forall (around tiles) merged;
  gr_separated : separated distance merged }.

(** What is reported of the changed tiles: the merged rectangles that are large
    enough; and every pixel of a tile that differs lies in a merged one. *)
Definition reported (c : DamageConfig) (p f : list Z) (w h : Z) (rs : list DamageRegion) : Prop :=
  exists merged, grouped (merge_distance c) (changed_tiles c p f w h) merged /\
    rs = List.filter (fun r => min_region_area c <=? area r) merged /\
    forall x y, 0 <= x < w -> 0 <= y < h ->
      tile_flag c p f w h (Z.to_nat (y / tile_size c)) (Z.to_nat (x / tile_size c)) = true -> covered merged x y.

Lemma changed_tiles_inside c p f w h : 0 <= w <= u32_max -> 0 <= h <= u32_max -> Forall (inside w h) (changed_tiles c p f w h).
Proof.
  intros Hw Hh. apply Forall_forall. intros r (c' & Hr & _)%list_elem_of_bind. unfold cell_regions in Hr.
  destruct (tile_flag _ _ _ _ _ _ _); [|set_solver].
  destruct (tile_region (tile_size c) w h c'.1 c'.2) as [q|] eqn:E; cbn in Hr; [|set_solver].
  apply list_elem_of_singleton in Hr as ->. by eapply tile_region_inside.
Qed.
Lemma changed_regions_spec c p f w h : 0 <= w <= u32_max -> 0 <= h <= u32_max -> 0 < tile_size c < 2 ^ 32 ->
  Forall (inside w h) (changed_regions c p f w h) /\
  reported c p f w h (List.filter (fun r => min_region_area c <=? area r) (changed_regions c p f w h)).
Proof.
  intros Hw Hh Hts. pose proof (changed_tiles_inside c p f w h Hw Hh) as Hi.
  destruct (merge_spec w h (merge_distance c) ltac:(lia) ltac:(lia) _ Hi) as [[H1 H2 _ H4 H5] H3]. split; [done|].
  exists (changed_regions c p f w h). split_and!; [|done|].
  - constructor; [exact H4| |done]. apply H5, Forall_forall. intros t Ht. by apply around_tile.
  - intros x y Hx Hy Hf. apply H2. apply cell_covers; (done || lia).
Qed.
Lemma reported_separated c p f w h rs : reported c p f w h rs -> separated (merge_distance c) rs.
Proof. intros (m & G & -> & _). apply separated_filter, G. Qed.
Lemma contains_inside w h r x y : inside w h r -> w <= u32_max -> h <= u32_max ->
  contains r x y = true <-> (rx r <= x < rx r + width r) /\ (ry r <= y < ry r + height r).
Proof.
  intros [(?&?&?&?) [??]] Hw Hh. unfold contains, right_edge, bottom_edge, sat_add. rewrite !Z.min_l by lia.
  rewrite !andb_true_iff, !Z.leb_le, !Z.ltb_lt. lia.
Qed.
Lemma within_area w h t r : inside w h t -> inside w h r -> w <= u32_max -> h <= u32_max -> 0 < width t -> 0 < height t -> within t r -> area t <= area r.
Proof.
  intros It Ir Hw Hh Hp Hq W.
  assert (contains r (rx t) (ry t) = true) as W1 by (apply W, (contains_inside w h); [done..|lia]).
  assert (contains r (rx t + width t - 1) (ry t + height t - 1) = true) as W2 by (apply W, (contains_inside w h); [done..|lia]).
  apply (contains_inside w h) in W1, W2; [|done..]. unfold area. apply Z.mul_le_mono_nonneg; lia.
Qed.
Lemma around_inside w h tiles r : w <= u32_max -> h <= u32_max -> Forall (inside w h) tiles -> around tiles r -> inside w h r.
Proof. intros Hw Hh Hi A. induction A as [t Ht|a b _ IHa _ IHb]; [by eapply Forall_forall in Hi|by apply union_inside]. Qed.
Lemma tile_region_positive ts w h ty tx r : tile_region ts w h ty tx = Some r -> 0 < width r /\ 0 < height r.
Proof. unfold tile_region. destruct (_ && _) eqn:E; [|done]. intros [= <-]. by apply andb_prop in E as [E1%Z.ltb_lt E2%Z.ltb_lt]. Qed.
Lemma changed_tile_positive c p f w h t : t ∈ changed_tiles c p f w h -> 0 < width t /\ 0 < height t.
Proof.
  intros (c' & Hr & _)%list_elem_of_bind. unfold cell_regions in Hr. destruct (tile_flag _ _ _ _ _ _ _); [|set_solver].
  destruct (tile_region (tile_size c) w h c'.1 c'.2) as [q|] eqn:E; cbn in Hr; [|set_solver].
  apply list_elem_of_singleton in Hr as ->. by eapply tile_region_positive.
Qed.
(** A changed tile that is large enough by itself is always reported. *)
Lemma reported_tile c p f w h rs t : 0 <= w <= u32_max -> 0 <= h <= u32_max -> reported c p f w h rs -> t ∈ changed_tiles c p f w h ->
  min_region_area c <= area t -> exists r, r ∈ rs /\ within t r.
Proof.
  intros Hw Hh (m & [W T _] & -> & _) Ht A. destruct (W t Ht) as (r & Hr & E). exists r. split; [|done].
  apply list_elem_of_In, filter_In. split; [by apply list_elem_of_In|]. apply Z.leb_le. etrans; [exact A|].
  pose proof (changed_tiles_inside c p f w h Hw Hh) as Hi. destruct (changed_tile_positive _ _ _ _ _ _ Ht). eapply Forall_forall in T; [|exact Hr].
  apply (within_area w h); [by eapply Forall_forall in Hi|eapply around_inside; [lia|lia|exact Hi|exact T]|lia|lia|done..].
Qed.

Lemma detect_covers d t f w h d' rs :
  reachable d -> 0 <= w <= u32_max -> 0 <= h <= u32_max -> 0 < tile_size (config d) < 2 ^ 32 ->
  detect t f w h d = Ok (d', rs) ->
  Forall (inside w h) rs /\ separated (merge_distance (config d)) rs /\
  (comparable d w h = false -> rs = [full_frame w h]) /\
  (forall p, comparable d w h = true -> previous_frame d = Some p -> reported (config d) p f w h rs).
Proof.
  intros Hr Hw Hh Hts Hd.
  destruct (detect_cases _ _ _ _ _ _ _ (reachable_grid d Hr) Hd) as (_ & _ & _ & _ & [[Ec ->]|(p & Ec & Ep & ->)]).
  - split; [|split; [by cbn|split; [done|by rewrite Ec]]]. constructor; [|done]. unfold inside, region_ok, full_frame. cbn. lia.
  - destruct (changed_regions_spec (config d) p f w h Hw Hh Hts) as [Hi Hp]. split_and!; [|exact (reported_separated _ _ _ _ _ _ Hp)|by rewrite Ec|].
    + apply Forall_forall. intros r (Hin & _)%list_elem_of_In%filter_In. rewrite Forall_forall in Hi. by apply Hi, list_elem_of_In.
    + intros p' _ Ep'. rewrite Ep in Ep'. by injection Ep' as <-.
Qed.

(** C37. What the detector reports is exact for any history of frames,
    invalidations and reconfigurations.  All regions lie in the frame and no two
    are close enough to merge.  A frame that cannot be compared is reported whole.
    Otherwise the tiles that differ beyond the thresholds are merged: each lies
    whole in one merged region, every merged region is the rectangle around some of
    them, and no two are close enough to merge; every pixel of such a tile is covered by a merged
    region, and the regions reported are precisely the merged ones whose area
    is not below the configured minimum.  In particular a tile that reaches the
    minimum by itself is always reported, whole. *)
Theorem damage_covers_changes d t f w h d' rs :
  reachable d -> 0 <= w <= u32_max -> 0 <= h <= u32_max -> 0 < tile_size (config d) < 2 ^ 32 ->
  detect t f w h d = Ok (d', rs) ->
  Forall (inside w h) rs /\ separated (merge_distance (config d)) rs /\
  (comparable d w h = false -> rs = [full_frame w h]) /\
  (forall p, comparable d w h = true -> previous_frame d = Some p ->
     (forall tile, tile ∈ changed_tiles (config d) p f w h -> min_region_area (config d) <= area tile -> exists r, r ∈ rs /\ within tile r) /\
     exists merged, grouped (merge_distance (config d)) (changed_tiles (config d) p f w h) merged /\
       rs = List.filter (fun r => min_region_area (config d) <=? area r) merged /\
       forall x y, 0 <= x < w -> 0 <= y < h ->
         tile_flag (config d) p f w h (Z.to_nat (y / tile_size (config d))) (Z.to_nat (x / tile_size (config d))) = true -> covered merged x y).
Proof.
  intros Hr Hw Hh Hts Hd. destruct (detect_covers d t f w h d' rs Hr Hw Hh Hts Hd) as (I & S & F & C). split_and!; [done..|]. intros p Hc Hp.
  specialize (C p Hc Hp). split; [|exact C]. intros tile Ht A. exact (reported_tile _ _ _ _ _ _ _ Hw Hh C Ht A).
Qed.

(** A first frame of two by one pixels, then a second one with both changed. *)
Definition tiny_config : DamageConfig := mkDamageConfig 1 fzero 4 0 2.
Definition tiny_detector : DamageDetector :=
  match detect 0 [0; 0; 0; 0; 0; 0; 0; 0] 2 1 (detector_new tiny_config) with
  | Ok (d, _) => d
  | _ => detector_new tiny_config
  end.

Lemma tiny_reachable : reachable tiny_detector.
Proof.
  apply (reach_detect (detector_new tiny_config) 0 [0; 0; 0; 0; 0; 0; 0; 0] 2 1 _ [full_frame 2 1]);
    [constructor | by vm_compute | by vm_compute | by vm_compute].
Qed.

(** Each pixel alone is below the minimum, both together are not. *)
Lemma damage_covers_changes_witness :
  exists merged, grouped 0 [mkRegion 0 0 1 1; mkRegion 1 0 1 1] merged /\
    [mkRegion 0 0 2 1] = List.filter (fun r => 2 <=? area r) merged /\ covered merged 1 0.
Proof.
  destruct (detect 0 [9; 0; 0; 0; 0; 9; 0; 0] 2 1 tiny_detector) as [[d' rs]| |] eqn:E; [|by vm_compute in E..].
  assert (rs = [mkRegion 0 0 2 1]) as Hrs by (by vm_compute in E; injection E as <- <-).
  destruct (damage_covers_changes tiny_detector 0 [9; 0; 0; 0; 0; 9; 0; 0] 2 1 d' rs tiny_reachable) as (_ & _ & _ & H);
    [by vm_compute..|exact E|].
  destruct (H [0; 0; 0; 0; 0; 0; 0; 0]) as (_ & merged & G & F & C); [by vm_compute..|].
  exists merged. split; [exact G|]. split; [by rewrite <-Hrs|]. apply C; [lia|lia|by vm_compute].
Defined.

Lemma count_same p threshold : 0 <= threshold -> count_different_pixels p p threshold = 0.
Proof.
  intros Ht. remember (length p) as n eqn:E. revert p E.
  induction n as [n IH] using lt_wf_ind. intros p E.
  destruct p as [|a [|b [|c [|x p]]]]; try done. cbn [count_different_pixels].
  rewrite !Z.sub_diag. change (Z.abs 0) with 0. destruct (Z.ltb_spec threshold 0); [lia|]. cbn [orb].
  rewrite (IH (length p)); [done | cbn in E; lia | done].
Qed.

Lemma compare_same p tx ty tw th stride threshold : 0 <= threshold -> compare_tile p p tx ty tw th stride threshold = 0.
Proof.
  intros Ht. unfold compare_tile. induction (seqZ 0 th) as [|row l IH]; [done|]. cbn [fold_left].
  replace (if (_ : bool) then 0 else _) with 0; [exact IH|].
  destruct (_ || _); [done|]. by rewrite count_same.
Qed.

Lemma detect_total d t f w h :
  reachable d -> 0 <= w <= u32_max -> 0 <= h <= u32_max -> 0 <= pixel_threshold (config d) ->
  tile_size (config d) <> 0 -> Z.of_nat (length f) = w * h * 4 ->
  exists d' rs, detect t f w h d = Ok (d', rs) /\
    (comparable d w h = true -> previous_frame d = Some f -> rs = []).
Proof.
  intros Hr Hw Hh Hpt Hts Hl. pose proof (reachable_grid d Hr) as Hg.
  assert (exists d' rs, detect t f w h d = Ok (d', rs)) as (d' & rs & E).
  { unfold detect. rewrite Hl, Z.eqb_refl. cbn [negb].
    assert (exists e, update_tile_grid w h d = Ok e) as [e He]
      by (unfold update_tile_grid; rewrite (proj2 (Z.eqb_neq _ _)) by done; eauto).
    rewrite He. cbn [mbind outcome_bind]. destruct (previous_frame d) as [p|]; [|eauto].
    destruct (_ || _); [eauto|]. unfold detect_changes.
    change (map _ (cells (tiles_x d) (tiles_y d))) with (flags_of (tile_flag (config d) p f w h) (tiles_x d) (tiles_y d)).
    rewrite tiles_to_regions_ok. cbn [mbind outcome_bind]. eauto. }
  exists d', rs. split; [done|]. intros Hc Hp.
  destruct (detect_cases _ _ _ _ _ _ _ Hg E) as (_ & _ & _ & _ & [[Ec _]|(p & _ & Ep & ->)]); [by rewrite Hc in Ec|].
  rewrite Hp in Ep. injection Ep as <-.
  assert (forall ty tx, tile_flag (config d) f f w h ty tx = false) as Hf.
  { intros ty tx. unfold tile_flag. destruct (_ || _); [done|]. rewrite compare_same by done.
    apply Z.ltb_ge. apply as_uint_bound. by vm_compute. }
  unfold changed_regions. set (rs := _ ≫= _). assert (rs = []) as ->; [|done].
  subst rs. induction (cells _ _) as [|c l IH]; [done|]. cbn [mbind list_bind].
  unfold cell_regions at 1. by rewrite Hf.
Qed.

(** Detection is total and quiet: for a frame of the announced size and a
    tile size that is not zero, [detect] returns, whatever happened before, and
    a frame equal to its predecessor yields no region. *)
Theorem detect_total_and_quiet d t f w h :
  reachable d -> 0 <= w <= u32_max -> 0 <= h <= u32_max -> 0 <= pixel_threshold (config d) ->
  tile_size (config d) <> 0 -> Z.of_nat (length f) = w * h * 4 ->
  exists d' rs, detect t f w h d = Ok (d', rs) /\
    (comparable d w h = true -> previous_frame d = Some f -> rs = []).
Proof. apply detect_total. Qed.

Lemma detect_total_and_quiet_witness :
  exists d' rs, detect 0 [0; 0; 0; 0; 0; 0; 0; 0] 2 1 tiny_detector = Ok (d', rs) /\ rs = [].
Proof.
  destruct (detect_total_and_quiet tiny_detector 0 [0; 0; 0; 0; 0; 0; 0; 0] 2 1 tiny_reachable) as (d' & rs & E & Hq);
    [by vm_compute..|]. exists d', rs. split; [exact E | by apply Hq].
Defined.

(** A change below the thresholds is not reported, and becomes the reference for
    the next frame: repeating the changed frame does not report it either. *)
Lemma small_change_is_lost :
  let c := mkDamageConfig 2 (lit32 1 2) 4 0 0 in
  match detect 0 (replicate 16 0) 2 2 (detector_new c) with
  | Ok (d1, _) =>
      match detect 0 (99 :: replicate 15 0) 2 2 d1 with
      | Ok (d2, rs) =>
          rs = [] /\ match detect 0 (99 :: replicate 15 0) 2 2 d2 with Ok (_, rs') => rs' = [] | _ => False end
      | _ => False
      end
  | _ => False
  end.
Proof. by vm_compute. Qed.
