(* ===== verification/Egfx.v ===== *)
(** * The EGFX channel

    Models src/src/rdp/channels/graphics/egfx/handler.rs, channel/factory.rs and
    channel/sender.rs: the codec policy and what the client's capability set makes
    of it, the state its callbacks publish, the per-connection server, and the
    sender that checks a frame before it reaches the protocol library.  IronRDP's
    pipeline server, its region helper, its flag bits and its DVC encoder are
    parameters ([EgfxFlags], [GraphicsServer]); a lock taken without waiting is a
    function of the attempt. *)
From S2P Require Import Prelude Text Damage.

(** ** Policy and mode *)

(** [factory.rs:76-81 EgfxCodecPolicy] *)
Inductive EgfxCodecPolicy := Auto | Avc420 | Avc444 | Bitmap.
#[export] Instance EgfxCodecPolicy_eq_dec : EqDecision EgfxCodecPolicy.
Proof. solve_decision. Defined.

(** [factory.rs:84-92 parse] *)
Definition parse_codec_policy (value : str) : option EgfxCodecPolicy :=
  if eqs value (lit "auto") then Some Auto
  else if eqs value (lit "avc420") then Some Avc420
  else if eqs value (lit "avc444") then Some Avc444
  else if eqs value (lit "bitmap") then Some Bitmap
  else None.

(** [production.rs:69-78 effective_codec_policy] *)
Definition effective_codec_policy (configured : EgfxCodecPolicy) (hardware_enabled : bool) : EgfxCodecPolicy :=
  if bool_decide (configured = Auto) && hardware_enabled then Avc420 else configured.

(** [factory.rs:97-101 NegotiatedEgfxMode] *)
Inductive NegotiatedEgfxMode := ModeBitmap | ModeAvc420 | ModeAvc444.
#[export] Instance NegotiatedEgfxMode_eq_dec : EqDecision NegotiatedEgfxMode.
Proof. solve_decision. Defined.

(** [factory.rs:104-110 name] *)
Definition mode_name (m : NegotiatedEgfxMode) : str :=
  match m with ModeBitmap => lit "FastPath bitmap" | ModeAvc420 => lit "AVC420" | ModeAvc444 => lit "AVC444" end.

(** [factory.rs:112-114 uses_avc] *)
Definition uses_avc (m : NegotiatedEgfxMode) : bool := match m with ModeAvc420 | ModeAvc444 => true | ModeBitmap => false end.

(** [factory.rs:121-144 HandlerState] *)
Record HandlerState := mkHandlerState {
  is_ready : bool;
  negotiated_mode : option NegotiatedEgfxMode;
  is_avc420_enabled : bool;
  is_avc444_enabled : bool;
  requires_core_reset : bool;
  needs_android_pointer_updates : bool;
  primary_surface_id : option Z;
  dvc_channel_id : Z;
}.

(** ** Capability negotiation *)

(** The bits of the library's flag types. *)
Class EgfxFlags := {
  v81_AVC420_ENABLED : Z; v81_SMALL_CACHE : Z;
  v10_AVC_DISABLED : Z; v10_SMALL_CACHE : Z;
  v103_AVC_DISABLED : Z; v104_AVC_DISABLED : Z;
  v107_AVC_DISABLED : Z; v107_SMALL_CACHE : Z;
}.
Definition contains_flag (flags bit : Z) : bool := Z.land flags bit =? bit.

(** A client's capability set, with its flags. *)
Inductive CapabilitySet :=
| V8 (flags : Z) | V8_1 (flags : Z) | V10 (flags : Z) | V10_1 | V10_2 (flags : Z) | V10_3 (flags : Z) | V10_4 (flags : Z)
| V10_5 (flags : Z) | V10_6 (flags : Z) | V10_6Err (flags : Z) | V10_7 (flags : Z).

(** [handler.rs:112-116 CodecSupport] *)
Record CodecSupport := mkSupport { support_avc420 : bool; support_avc444 : bool }.
(** [handler.rs:146-151 enabled] *)
Definition enabled (value : bool) : CodecSupport := mkSupport value value.
(** [handler.rs:153-155 disabled] *)
Definition disabled : CodecSupport := enabled false.

(** [handler.rs:118-145 codec_support] *)
Definition codec_support `{EgfxFlags} (cap : CapabilitySet) : CodecSupport :=
  match cap with
  | V8 _ => disabled
  | V8_1 flags => mkSupport (contains_flag flags v81_AVC420_ENABLED) false
  | V10 flags | V10_2 flags => enabled (negb (contains_flag flags v10_AVC_DISABLED))
  | V10_1 => enabled true
  | V10_3 flags => enabled (negb (contains_flag flags v103_AVC_DISABLED))
  | V10_4 flags | V10_5 flags | V10_6 flags | V10_6Err flags => enabled (negb (contains_flag flags v104_AVC_DISABLED))
  | V10_7 flags => enabled (negb (contains_flag flags v107_AVC_DISABLED))
  end.

(** [handler.rs:98-110 preferred_capabilities] *)
Definition preferred_capabilities `{EgfxFlags} : list CapabilitySet :=
  [V10_7 v107_SMALL_CACHE; V10 v10_SMALL_CACHE; V8_1 (Z.lor v81_AVC420_ENABLED v81_SMALL_CACHE)].

(** [handler.rs:167-176 select_mode] *)
Definition select_mode (policy : EgfxCodecPolicy) (s : CodecSupport) : NegotiatedEgfxMode :=
  match policy with
  | Bitmap => ModeBitmap
  | Avc444 => if support_avc444 s then ModeAvc444 else ModeBitmap
  | Avc420 => if support_avc420 s then ModeAvc420 else ModeBitmap
  | Auto => if support_avc444 s then ModeAvc444 else if support_avc420 s then ModeAvc420 else ModeBitmap
  end.

(** [handler.rs:157-165 bitmap_fallback_state] *)
Definition bitmap_fallback_state (core_reset : bool) : HandlerState :=
  mkHandlerState true (Some ModeBitmap) false false core_reset false None 0.

(** What [on_ready] publishes for a mode. *)
Definition ready_with (mode : NegotiatedEgfxMode) : HandlerState :=
  mkHandlerState true (Some mode) (bool_decide (mode = ModeAvc420)) (bool_decide (mode = ModeAvc444)) false false None 0.

(** [handler.rs:14-18 WrdpGraphicsHandler] *)
Record WrdpGraphicsHandler := mkHandler { handler_policy : EgfxCodecPolicy; max_frames : Z }.
(** [handler.rs:21-31 with_quirks] *)
Definition handler_with_quirks (_width _height : Z) (avc420_only : bool) : WrdpGraphicsHandler :=
  mkHandler (if avc420_only then Avc420 else Auto) 3.

(** A try-lock [free n] at attempt [n]; the update is given up after fifty.
    [handler.rs:45-54 publish] *)
Definition publish (free : nat -> bool) (value shared : option HandlerState) : option HandlerState :=
  if existsb free (seq 0 50) then value else shared.

(** [handler.rs:60-87 on_ready] *)
Definition on_ready `{EgfxFlags} (free : nat -> bool) (cap : CapabilitySet) (h : WrdpGraphicsHandler) (shared : option HandlerState) : option HandlerState :=
  publish free (Some (ready_with (select_mode (handler_policy h) (codec_support cap)))) shared.

(** [handler.rs:88-94 on_close] *)
Definition on_close (free : nat -> bool) (shared : option HandlerState) : option HandlerState :=
  publish free (Some (bitmap_fallback_state true)) shared.

(** ** The protocol library *)

(** A rectangle of an AVC frame, edges included, with its quality. *)
Record Avc420Region := mkAvcRegion { left : Z; top : Z; right : Z; bottom : Z; quantization_parameter : Z; quality : Z }.
#[export] Instance Avc420Region_eq_dec : EqDecision Avc420Region.
Proof. solve_decision. Defined.

(** A monitor of the layout announced with a reset. *)
Record Monitor := mkMonitor { m_left : Z; m_top : Z; m_right : Z; m_bottom : Z; m_primary : bool }.

(** IronRDP's pipeline server [S] with its DVC messages [M]: a frame may be
    refused by the acknowledgement window, a surface by an unready server. *)
Class GraphicsServer (S M : Type) := {
  channel_id : S -> option Z;
  send_avc420_frame : Z -> list Z -> list Avc420Region -> Z -> S -> option Z * S;
  send_avc444_frame : Z -> list Z -> list Avc420Region -> option (list Z) -> option (list Avc420Region) -> Z -> S -> option Z * S;
  drain_output : S -> list M * S;
  set_output_dimensions : Z -> Z -> S -> S;
  resize_with_monitors : Z -> Z -> list Monitor -> S -> S;
  create_surface : Z -> Z -> S -> option Z * S;
  map_surface_to_output : Z -> Z -> Z -> S -> bool * S;
  encode_dvc_messages : Z -> list M -> str + list (list Z);
  full_frame_region : Z -> Z -> Z -> Avc420Region;
}.
Arguments channel_id {S M _}. Arguments send_avc420_frame {S M _}. Arguments send_avc444_frame {S M _}.
Arguments drain_output {S M _}. Arguments set_output_dimensions {S M _}. Arguments resize_with_monitors {S M _}.
Arguments create_surface {S M _}. Arguments map_surface_to_output {S M _}. Arguments full_frame_region {S M _}.
Arguments encode_dvc_messages {S M _}.

(** [Arc<Mutex<GraphicsPipelineServer>>] *)
Record GfxServerHandle (S : Type) := mkServer { poisoned : bool; server : S }.
Arguments mkServer {S}. Arguments poisoned {S}. Arguments server {S}.

(** The unbounded server event channel: whether the connection still reads it,
    and the messages of each event sent. *)
Record EventChannel := mkEvents { events_open : bool; sent_events : list (list (list Z)) }.

(** ** The factory *)

(** A try-lock [free n] at attempt [n], for at most a hundred.
    [factory.rs:220-238 retry_rwlock_write] *)
Definition retry_rwlock_write {T} (free : nat -> bool) (update : T -> T) (value : T) : T * bool :=
  if existsb free (seq 0 100) then (update value, true) else (value, false).

(** [factory.rs:52-73 EgfxChannelFactory] *)
Record EgfxChannelFactory := mkFactory { codec_policy : EgfxCodecPolicy; max_frames_in_flight : Z }.
(** [factory.rs:161-181 with_config] *)
Definition factory_with_config (force_avc420_only : bool) (in_flight : Z) : EgfxChannelFactory :=
  mkFactory (if force_avc420_only then Avc420 else Auto) in_flight.
(** [factory.rs:183-186 with_codec_policy] *)
Definition with_codec_policy (policy : EgfxCodecPolicy) (f : EgfxChannelFactory) : EgfxChannelFactory :=
  mkFactory policy (max_frames_in_flight f).
(** [factory.rs:241-250 build_gfx_handler] *)
Definition build_gfx_handler (f : EgfxChannelFactory) : WrdpGraphicsHandler := mkHandler (codec_policy f) (max_frames_in_flight f).

(** What the display handler shares with the connection's factory. *)
Record SharedEgfx (S : Type) := mkShared { handler_state : option HandlerState; server_handle : option (GfxServerHandle S) }.
Arguments mkShared {S}. Arguments handler_state {S}. Arguments server_handle {S}.

(** The readiness of the previous client is cleared, then the new server's handle
    is stored; both give up when the lock stays taken.
    [factory.rs:252-297 build_server_with_handle] *)
Definition build_server_with_handle {S} (new_server : WrdpGraphicsHandler -> S) (free_state free_handle : nat -> bool) (f : EgfxChannelFactory)
    (shared : SharedEgfx S) : SharedEgfx S :=
  let st := (retry_rwlock_write free_state (fun _ => None) (handler_state shared)).1 in
  let fresh := mkServer false (new_server (build_gfx_handler f)) in
  mkShared st (retry_rwlock_write free_handle (fun _ => Some fresh) (server_handle shared)).1.

(** ** The sender *)

Inductive SendError :=
| NotReady | Avc420Unsupported | Avc444Unsupported | InvalidFrame | AuxiliaryEmpty | NoSurface | LockPoisoned
| WindowFull | DvcEncoding (e : str) | EventChannelClosed | PlanarEncoding (e : str) | PlanarUnavailable.

(** [sender.rs:38-55 resize_with_primary_monitor] *)
Definition resize_with_primary_monitor {S M} `{GraphicsServer S M} (width height : Z) : S -> S :=
  resize_with_monitors width height [mkMonitor 0 0 (width - 1) (height - 1) true].

(** [sender.rs:110-124 ready_state] *)
Definition ready_state (shared : option HandlerState) : outcome SendError HandlerState :=
  state ← ok_or NotReady shared; if is_ready state then Ok state else Err NotReady.
(** [sender.rs:126-133 avc420_state] *)
Definition avc420_state (shared : option HandlerState) : outcome SendError HandlerState :=
  state ← ready_state shared; if is_avc420_enabled state then Ok state else Err Avc420Unsupported.
(** [sender.rs:135-142 avc444_state] *)
Definition avc444_state (shared : option HandlerState) : outcome SendError HandlerState :=
  state ← ready_state shared; if is_avc444_enabled state then Ok state else Err Avc444Unsupported.

(** [sender.rs:144-167 validate_frame] *)
Definition validate_frame (data : list Z) (encoded_width encoded_height display_width display_height : Z) : outcome SendError unit :=
  if bool_decide (data = []) || (encoded_width =? 0) || (encoded_height =? 0) || (display_width =? 0) || (display_height =? 0)
     || (encoded_width <? display_width) || (encoded_height <? display_height)
     || negb (encoded_width mod 16 =? 0) || negb (encoded_height mod 16 =? 0)
  then Err InvalidFrame else Ok tt.

(** [sender.rs:169-173 surface_id] *)
Definition surface_id (state : HandlerState) : outcome SendError Z := ok_or NoSurface (primary_surface_id state).

(** One damage region, clamped to the display; [None] when nothing of it is left.
    [sender.rs:418-447 damage_regions_to_avc420] *)
Definition damage_region_to_avc420 (display_width display_height : Z) (r : DamageRegion) : option Avc420Region :=
  let l := wrap 16 (Z.min (rx r) display_width) in
  let t := wrap 16 (Z.min (ry r) display_height) in
  let r' := wrap 16 (sat_sub (Z.min (sat_add u32_max (rx r) (Damage.width r)) display_width) 1) in
  let b := wrap 16 (sat_sub (Z.min (sat_add u32_max (ry r) (Damage.height r)) display_height) 1) in
  if (r' <? l) || (b <? t) then None else Some (mkAvcRegion l t r' b 22 100).

(** [sender.rs:411-449 damage_regions_to_avc420] *)
Definition damage_regions_to_avc420 (regions : list DamageRegion) (display_width display_height : Z) : list Avc420Region :=
  omap (damage_region_to_avc420 display_width display_height) regions.

(** [sender.rs:102-108 is_egfx_ready] *)
Definition sender_is_ready (shared : option HandlerState) : bool := match shared with Some st => is_ready st | None => false end.

(** The picture is encoded by the library's planar encoder, rebuilt for its size,
    and then not sent.  [sender.rs:204-251 send_planar_frame] *)
Definition send_planar_frame {P} (new_encoder : Z -> Z -> P) (encode_bitmap : P -> list Z -> (str + list Z) * P)
    (data : list Z) (width height : Z) (shared : option HandlerState) (planar : P) : outcome SendError Z * P :=
  match (state ← ready_state shared; surface_id state) with
  | Ok _ =>
      let '(r, planar) := encode_bitmap (new_encoder width height) data in
      (match r with inl e => Err (PlanarEncoding e) | inr _ => Err PlanarUnavailable end, planar)
  | Err e => (Err e, planar)
  | Panic => (Panic, planar)
  end.

Section sender.
Context {S M : Type} `{GraphicsServer S M}.

(** The regions sent with a frame.  [sender.rs:275-288 send_frame_with_regions] *)
Definition avc_regions (regions : list DamageRegion) (encoded_width encoded_height display_width display_height : Z) : list Avc420Region :=
  match regions with
  | [] => [full_frame_region encoded_width encoded_height 22]
  | _ => damage_regions_to_avc420 regions display_width display_height
  end.

(** [sender.rs:175-197 send_dvc_messages] *)
Definition send_dvc_messages (channel : Z) (messages : list M) (tx : EventChannel) : outcome SendError Z * EventChannel :=
  match messages with
  | [] => (Ok 0, tx)
  | _ =>
      match encode_dvc_messages channel messages with
      | inl e => (Err (DvcEncoding e), tx)
      | inr svc => if events_open tx then (Ok (Z.of_nat (length svc)), mkEvents true (sent_events tx ++ [svc])) else (Err EventChannelClosed, tx)
      end
  end.

(** [sender.rs:73-99 flush_pending_server_messages] *)
Definition flush_pending_server_messages (gfx : GfxServerHandle S) (tx : EventChannel) : outcome SendError Z * GfxServerHandle S * EventChannel :=
  if poisoned gfx then (Err LockPoisoned, gfx, tx)
  else match channel_id (server gfx) with
       | None => (Err NotReady, gfx, tx)
       | Some channel =>
           let '(messages, sv) := drain_output (server gfx) in
           let '(r, tx') := send_dvc_messages channel messages tx in
           ((fun _ => Z.of_nat (length messages)) <$> r, mkServer false sv, tx')
       end.

(** The part both codecs share: lock, check the channel, hand the frame over,
    drain and forward what the library queued.  [sender.rs:290-318 send_frame_with_regions] *)
Definition submit (send : S -> option Z * S) (gfx : GfxServerHandle S) (tx : EventChannel) : outcome SendError Z * GfxServerHandle S * EventChannel :=
  if poisoned gfx then (Err LockPoisoned, gfx, tx)
  else match channel_id (server gfx) with
       | None => (Err NotReady, gfx, tx)
       | Some channel =>
           match send (server gfx) with
           | (None, sv) => (Err WindowFull, mkServer false sv, tx)
           | (Some frame, sv) =>
               let '(messages, sv) := drain_output sv in
               let '(r, tx') := send_dvc_messages channel messages tx in
               ((fun _ => frame) <$> r, mkServer false sv, tx')
           end
       end.

(** [sender.rs:256-319 send_frame_with_regions] *)
Definition send_frame_with_regions (h264_data : list Z) (encoded_width encoded_height display_width display_height : Z)
    (regions : list DamageRegion) (timestamp : Z) (shared : option HandlerState) (gfx : GfxServerHandle S) (tx : EventChannel)
    : outcome SendError Z * GfxServerHandle S * EventChannel :=
  let checked :=
    _ ← validate_frame h264_data encoded_width encoded_height display_width display_height;
    state ← avc420_state shared; surface_id state in
  match checked with
  | Ok surface =>
      submit (send_avc420_frame surface h264_data (avc_regions regions encoded_width encoded_height display_width display_height) timestamp) gfx tx
  | Err e => (Err e, gfx, tx)
  | Panic => (Panic, gfx, tx)
  end.

(** [sender.rs:329-404 send_avc444_frame_with_regions] *)
Definition send_avc444_frame_with_regions (stream1 : list Z) (stream2 : option (list Z)) (encoded_width encoded_height display_width display_height : Z)
    (regions : list DamageRegion) (timestamp : Z) (shared : option HandlerState) (gfx : GfxServerHandle S) (tx : EventChannel)
    : outcome SendError Z * GfxServerHandle S * EventChannel :=
  let checked :=
    _ ← validate_frame stream1 encoded_width encoded_height display_width display_height;
    _ ← (if bool_decide (stream2 = Some []) then Err AuxiliaryEmpty else Ok tt);
    state ← avc444_state shared; surface_id state in
  match checked with
  | Ok surface =>
      let avc := avc_regions regions encoded_width encoded_height display_width display_height in
      submit (send_avc444_frame surface stream1 avc stream2 ((fun _ => avc) <$> stream2) timestamp) gfx tx
  | Err e => (Err e, gfx, tx)
  | Panic => (Panic, gfx, tx)
  end.
End sender.

(** ** Negotiation *)

Lemma publish_locked value shared : publish (fun _ => true) value shared = value.
Proof. done. Qed.

Lemma ready_with_codec mode : is_ok (avc420_state (Some (ready_with mode))) = bool_decide (mode = ModeAvc420) /\
  is_ok (avc444_state (Some (ready_with mode))) = bool_decide (mode = ModeAvc444).
Proof. by destruct mode. Qed.

(** The mode negotiated with a client is the best one that both the policy and
    the client's capability set allow: AVC444 needs both, AVC420 under [auto] only
    stands in for a client without AVC444, a client that disabled AVC always gets
    bitmaps; and unless the update of the shared state was lost to the contended
    lock, the sender accepts exactly the frames of the negotiated codec. *)
Theorem mode_is_best_allowed `{EgfxFlags} free cap h shared :
  let s := codec_support cap in
  let mode := select_mode (handler_policy h) s in
  (mode = ModeAvc444 <-> support_avc444 s = true /\ (handler_policy h = Auto \/ handler_policy h = Avc444)) /\
  (mode = ModeAvc420 <-> support_avc420 s = true /\ (handler_policy h = Avc420 \/ handler_policy h = Auto /\ support_avc444 s = false)) /\
  (support_avc444 s = true -> support_avc420 s = true) /\
  let st := on_ready free cap h shared in
  st = shared \/ (is_ok (avc420_state st) = bool_decide (mode = ModeAvc420) /\ is_ok (avc444_state st) = bool_decide (mode = ModeAvc444)).
Proof.
  cbn zeta. split_and!.
  - destruct (codec_support cap) as [[] []], (handler_policy h); cbn; intuition congruence.
  - destruct (codec_support cap) as [[] []], (handler_policy h); cbn; intuition congruence.
  - destruct cap; cbn; congruence.
  - unfold on_ready, publish. destruct (existsb _ _); [right|by left]. apply ready_with_codec.
Qed.

(** ** Regions *)

Definition avc_contains (a : Avc420Region) (x y : Z) : bool :=
  (left a <=? x) && (x <=? right a) && (top a <=? y) && (y <=? bottom a).

(** A damage region of the detector: not empty, on 32 bits. *)
Definition u32_region (r : DamageRegion) : Prop :=
  0 <= rx r <= u32_max /\ 0 <= ry r <= u32_max /\ 0 < Damage.width r <= u32_max /\ 0 < Damage.height r <= u32_max.

(** One clamped axis: [lo .. hi] is what is left of [x .. x + n) below [d]. *)
Lemma clamped_axis d x n : 0 < d <= u16_max -> 0 <= x <= u32_max -> 0 < n <= u32_max ->
  let lo := wrap 16 (Z.min x d) in let hi := wrap 16 (sat_sub (Z.min (sat_add u32_max x n) d) 1) in
  0 <= lo /\ 0 <= hi < d /\ (forall v, v < d -> (lo <= v <= hi <-> x <= v < sat_add u32_max x n)).
Proof.
  intros Hd Hx Hn. cbn zeta. unfold u16_max, u32_max, sat_add, sat_sub in *.
  rewrite !wrap_small by lia. split_and!; [lia..|]. intros v Hv. lia.
Qed.

Lemma clamped_region w h r : 0 < w <= u16_max -> 0 < h <= u16_max -> u32_region r ->
  match damage_region_to_avc420 w h r with
  | Some a => 0 <= left a <= right a /\ right a < w /\ 0 <= top a <= bottom a /\ bottom a < h /\
              forall x y, x < w -> y < h -> avc_contains a x y = contains r x y
  | None => forall x y, 0 <= x < w -> 0 <= y < h -> contains r x y = false
  end.
Proof.
  intros Hw Hh (Hx & Hy & Hrw & Hrh). unfold damage_region_to_avc420.
  destruct (clamped_axis w _ _ Hw Hx Hrw) as (Hl & Hr & HX). destruct (clamped_axis h _ _ Hh Hy Hrh) as (Ht & Hb & HY).
  set (l := wrap 16 (Z.min (rx r) w)) in *. set (t := wrap 16 (Z.min (ry r) h)) in *.
  set (r' := wrap 16 (sat_sub (Z.min (sat_add u32_max (rx r) _) w) 1)) in *. set (b := wrap 16 (sat_sub (Z.min (sat_add u32_max (ry r) _) h) 1)) in *.
  unfold contains, avc_contains, right_edge, bottom_edge. destruct ((r' <? l) || (b <? t)) eqn:E; cbn [left right top bottom].
  - intros x y Hxx Hyy. apply orb_true_iff in E. destruct (HX x ltac:(lia)), (HY y ltac:(lia)). lia.
  - apply orb_false_iff in E. split_and!; [lia..|]. intros x y Hxx Hyy. destruct (HX x ltac:(lia)), (HY y ltac:(lia)). lia.
Qed.

(** The rectangles sent with a partial update lie within the display, left to
    right and top to bottom, and together cover exactly the pixels of the display
    that the damage regions cover, for every display of 16-bit size and every
    non-empty 32-bit region, overflowing ones included. *)
Theorem avc_regions_cover_damage rs w h : 0 < w <= u16_max -> 0 < h <= u16_max -> Forall u32_region rs ->
  Forall (fun a => 0 <= left a <= right a /\ right a < w /\ 0 <= top a <= bottom a /\ bottom a < h) (damage_regions_to_avc420 rs w h) /\
  forall x y, 0 <= x < w -> 0 <= y < h ->
    existsb (fun a => avc_contains a x y) (damage_regions_to_avc420 rs w h) = existsb (fun r => contains r x y) rs.
Proof.
  intros Hw Hh. induction 1 as [|r rs Hr Hrs [IH1 IH2]]; [by split|]. pose proof (clamped_region w h r Hw Hh Hr) as Hc.
  unfold damage_regions_to_avc420 in *. cbn [omap list_omap]. destruct (damage_region_to_avc420 w h r) as [a|].
  - destruct Hc as (H1 & H2 & H3 & H4 & H5). split; [by constructor|]. intros x y Hx Hy. cbn [existsb]. rewrite H5, IH2 by lia. done.
  - split; [done|]. intros x y Hx Hy. cbn [existsb]. rewrite (Hc x y Hx Hy). by apply IH2.
Qed.

Lemma avc_regions_cover_damage_witness :
  existsb (fun a => avc_contains a 9 5) (damage_regions_to_avc420 [mkRegion 4294967294 4294967294 100 100; mkRegion 8 0 100 100] 10 6) = true /\
  damage_regions_to_avc420 [mkRegion 4294967294 4294967294 100 100] 10 6 = [].
Proof.
  split; [|by vm_compute]. assert (Forall u32_region [mkRegion 4294967294 4294967294 100 100; mkRegion 8 0 100 100]) as F
    by (unfold u32_region, u32_max; repeat constructor; cbn; lia).
  rewrite (proj2 (avc_regions_cover_damage _ 10 6 ltac:(unfold u16_max; lia) ltac:(unfold u16_max; lia) F) 9 5 ltac:(lia) ltac:(lia)). by vm_compute.
Defined.

(** An empty region at the edge still sends its first column: the exclusive bound
    zero saturates. *)
Lemma empty_region_at_the_edge : damage_regions_to_avc420 [mkRegion 0 0 0 1; mkRegion 1 0 0 1] 10 6 = [mkAvcRegion 0 0 0 0 22 100].
Proof. by vm_compute. Qed.

(** ** What reaches the library *)

Lemma validated data ew eh dw dh u : validate_frame data ew eh dw dh = Ok u ->
  data <> [] /\ dw <> 0 /\ dh <> 0 /\ dw <= ew /\ dh <= eh /\ ew mod 16 = 0 /\ eh mod 16 = 0.
Proof.
  unfold validate_frame. destruct (bool_decide _) eqn:B; [done|]. apply bool_decide_eq_false in B. cbn [orb].
  destruct (_ || _) eqn:E; [done|]. intros _. repeat (apply orb_false_iff in E as [E ?]). split; [done|]. lia.
Qed.

Section vetted.
Context {S M : Type} `{GraphicsServer S M}.

(** What an accepted hand-over [send] to the library leads to: the window refuses
    the frame, or its messages are drained and forwarded as one event; a failed
    forward is reported although the library counts the frame as sent. *)
Definition handed_over (send : S -> option Z * S) (gfx : GfxServerHandle S) (tx : EventChannel)
    (result : outcome SendError Z * GfxServerHandle S * EventChannel) : Prop :=
  exists channel, poisoned gfx = false /\ channel_id (server gfx) = Some channel /\
  match send (server gfx) with
  | (None, sv) => result = (Err WindowFull, mkServer false sv, tx)
  | (Some frame, sv) =>
      let '(messages, sv) := drain_output sv in
      result = ((fun _ => frame) <$> (send_dvc_messages channel messages tx).1, mkServer false sv, (send_dvc_messages channel messages tx).2)
  end.

Lemma submit_cases send gfx tx :
  (exists e, submit send gfx tx = (Err e, gfx, tx)) \/ handed_over send gfx tx (submit send gfx tx).
Proof.
  unfold submit, handed_over. destruct (poisoned gfx) eqn:P; [by left; eexists|]. destruct (channel_id _) as [c|] eqn:C; [|by left; eexists].
  right. exists c. split_and!; [done..|]. destruct (send (server gfx)) as [[f|] sv]; [|done].
  destruct (drain_output sv) as [ms sv']. by destruct (send_dvc_messages c ms tx) as [r tx'].
Qed.

Lemma forwarded channel messages tx n : (send_dvc_messages channel messages tx).1 = Ok n ->
  (messages = [] /\ (send_dvc_messages channel messages tx).2 = tx) \/
  (exists svc, encode_dvc_messages channel messages = inr svc /\ events_open tx = true /\
     (send_dvc_messages channel messages tx).2 = mkEvents true (sent_events tx ++ [svc])).
Proof.
  unfold send_dvc_messages. destruct messages; [by left|]. destruct (encode_dvc_messages _ _); [done|].
  destruct (events_open tx) eqn:O; [|done]. intros _. right. by eexists.
Qed.

Lemma codec_state_ready (enabled : HandlerState -> bool) e (shared : option HandlerState) id :
  (state ← ready_state shared; if enabled state then Ok state else Err e) ≫= surface_id = Ok id ->
  exists st, shared = Some st /\ is_ready st = true /\ enabled st = true /\ primary_surface_id st = Some id.
Proof.
  unfold ready_state. destruct shared as [st|]; [|done]. cbn. destruct (is_ready st) eqn:R; [|done]. cbn. destruct (enabled st) eqn:N; [|done].
  cbn. unfold surface_id. destruct (primary_surface_id st) as [i|] eqn:P; [|done]. intros [= ->]. by exists st.
Qed.

Lemma codec_state_total (enabled : HandlerState -> bool) e (shared : option HandlerState) :
  let r := (state ← ready_state shared; if enabled state then Ok state else Err e) ≫= (fun st => surface_id st) in (exists id, r = Ok id) \/ exists e, r = Err e.
Proof.
  unfold ready_state. destruct shared as [st|]; cbn; [|eauto]. destruct (is_ready st); cbn; [|eauto]. destruct (enabled st); cbn; [|eauto].
  unfold surface_id. destruct (primary_surface_id st); cbn; eauto.
Qed.
Lemma validate_frame_total data ew eh dw dh : validate_frame data ew eh dw dh = Ok tt \/ exists e, validate_frame data ew eh dw dh = Err e.
Proof. unfold validate_frame. destruct (_ || _); eauto. Qed.

(** A geometry the protocol allows: a 16-aligned picture that covers the display. *)
Definition aligned_cover (ew eh dw dh : Z) : Prop :=
  dw <> 0 /\ dh <> 0 /\ dw <= ew /\ dh <= eh /\ ew mod 16 = 0 /\ eh mod 16 = 0.

(** A frame reaches the protocol library only when it is not empty, its
    macroblock-aligned picture covers a non-empty display, the client's codec is the
    negotiated one and a surface exists; every other call fails without touching the
    server or the event channel.  A dual-stream frame whose auxiliary stream is left
    out carries no auxiliary regions, one that has it carries a non-empty stream. *)
Theorem only_vetted_frames data aux ew eh dw dh regions ts shared gfx tx :
  let avc := avc_regions regions ew eh dw dh in
  (let result := send_frame_with_regions data ew eh dw dh regions ts shared gfx tx in
   (exists e, result = (Err e, gfx, tx)) \/
   (data <> [] /\ aligned_cover ew eh dw dh /\ exists st id, shared = Some st /\ is_ready st = true /\ is_avc420_enabled st = true /\
      primary_surface_id st = Some id /\ handed_over (send_avc420_frame id data avc ts) gfx tx result)) /\
  (let result := send_avc444_frame_with_regions data aux ew eh dw dh regions ts shared gfx tx in
   (exists e, result = (Err e, gfx, tx)) \/
   (data <> [] /\ aux <> Some [] /\ aligned_cover ew eh dw dh /\ exists st id, shared = Some st /\ is_ready st = true /\ is_avc444_enabled st = true /\
      primary_surface_id st = Some id /\ handed_over (send_avc444_frame id data avc aux ((fun _ => avc) <$> aux) ts) gfx tx result)).
Proof.
  cbn zeta. set (avc := avc_regions regions ew eh dw dh). split.
  - unfold send_frame_with_regions. destruct (validate_frame_total data ew eh dw dh) as [E|[e E]]; rewrite E; cbn [mbind outcome_bind]; [|by left; eexists].
    apply validated in E as [? V]. destruct (codec_state_total is_avc420_enabled Avc420Unsupported shared) as [[id C]|[e C]];
      unfold avc420_state; rewrite C; [|by left; eexists].
    apply codec_state_ready in C as (st & C). destruct (submit_cases (send_avc420_frame id data avc ts) gfx tx); [by left|].
    right. split_and!; [done..|]. exists st, id. naive_solver.
  - unfold send_avc444_frame_with_regions. destruct (validate_frame_total data ew eh dw dh) as [E|[e E]]; rewrite E; cbn [mbind outcome_bind]; [|by left; eexists].
    apply validated in E as [? V]. destruct (bool_decide (aux = Some [])) eqn:B; [by left; eexists|]. apply bool_decide_eq_false in B. cbn [mbind outcome_bind].
    destruct (codec_state_total is_avc444_enabled Avc444Unsupported shared) as [[id C]|[e C]]; unfold avc444_state; rewrite C; [|by left; eexists].
    apply codec_state_ready in C as (st & C). destruct (submit_cases (send_avc444_frame id data avc aux ((fun _ => avc) <$> aux) ts) gfx tx); [by left|].
    right. split_and!; [done..|]. exists st, id. naive_solver.
Qed.
End vetted.
