(* ===== verification/Simd.v ===== *)
(** * Vector registers: the x86 and ARM intrinsics the colour conversion uses

    [std::arch] as the source uses it.  An x86 register is the list of its
    bytes, lowest first, and every intrinsic reads it in lanes of its own width;
    the two 128-bit halves of a 256-bit register are separate for the unpack,
    pack and horizontal operations.  A NEON register is typed, so it is the list
    of its lanes. *)
From S2P Require Import Prelude.

(** ** Lanes *)

(** The signed value of the low [w] bits. *)
Definition as_signed (w z : Z) : Z := let z := wrap w z in if z <? 2 ^ (w - 1) then z else z - 2 ^ w.

Fixpoint u16s (v : list Z) : list Z :=
  match v with a :: b :: v => of_le [a; b] :: u16s v | _ => [] end.
Fixpoint u32s (v : list Z) : list Z :=
  match v with a :: b :: c :: d :: v => of_le [a; b; c; d] :: u32s v | _ => [] end.
Definition i16s (v : list Z) : list Z := map (as_signed 16) (u16s v).
Definition i32s (v : list Z) : list Z := map (as_signed 32) (u32s v).
(** Lanes to bytes; what does not fit is cut off. *)
Definition from16 (xs : list Z) : list Z := xs ≫= to_le 2.
Definition from32 (xs : list Z) : list Z := xs ≫= to_le 4.

Fixpoint interleave (a b : list Z) : list Z :=
  match a, b with x :: a, y :: b => x :: y :: interleave a b | _, _ => [] end.
Fixpoint pair_sums (l : list Z) : list Z :=
  match l with x :: y :: l => x + y :: pair_sums l | _ => [] end.
Definition sat (lo hi z : Z) : Z := Z.max lo (Z.min z hi).

(** The same operation on both halves. *)
Definition halves (f : list Z -> list Z -> list Z) (a b : list Z) : list Z :=
  f (take 16 a) (take 16 b) ++ f (drop 16 a) (drop 16 b).

(** ** x86: 128 bits *)
Definition _mm_setzero_si128 : list Z := replicate 16 0.
Definition _mm_shuffle_epi8 (a mask : list Z) : list Z :=
  map (fun m => if m <? 0 then 0 else nth (Z.to_nat (m mod 16)) a 0) mask.
Definition _mm_unpacklo_epi8 (a b : list Z) : list Z := interleave (take 8 a) (take 8 b).
Definition _mm_unpackhi_epi8 (a b : list Z) : list Z := interleave (drop 8 a) (drop 8 b).
(** [n] bytes from offset [o] *)
Definition bytes_at (o n : nat) (a : list Z) : list Z := take n (drop o a).
Definition _mm_unpacklo_epi16 (a b : list Z) : list Z :=
  concat (map (fun i => bytes_at (2 * i) 2 a ++ bytes_at (2 * i) 2 b) [0; 1; 2; 3]%nat).
Definition _mm_unpackhi_epi16 (a b : list Z) : list Z :=
  concat (map (fun i => bytes_at (2 * i) 2 a ++ bytes_at (2 * i) 2 b) [4; 5; 6; 7]%nat).
Definition _mm_unpacklo_epi32 (a b : list Z) : list Z :=
  concat (map (fun i => bytes_at (4 * i) 4 a ++ bytes_at (4 * i) 4 b) [0; 1]%nat).
(** The low 64 bits, as [_mm_storel_epi64] stores them. *)
Definition low_64 (a : list Z) : list Z := take 8 a.

(** ** x86: 256 bits *)
Definition _mm256_setzero_si256 : list Z := replicate 32 0.
Definition _mm256_set1_epi32 (z : Z) : list Z := from32 (replicate 8 z).
Definition _mm256_set1_epi16 (z : Z) : list Z := from16 (replicate 16 z).
Definition _mm256_set_m128i (hi lo : list Z) : list Z := lo ++ hi.
Definition _mm256_castsi256_si128 (a : list Z) : list Z := take 16 a.
Definition _mm256_extracti128_si256_1 (a : list Z) : list Z := drop 16 a.
Definition _mm256_mullo_epi32 (a b : list Z) : list Z := from32 (zip_with Z.mul (i32s a) (i32s b)).
Definition _mm256_add_epi32 (a b : list Z) : list Z := from32 (zip_with Z.add (i32s a) (i32s b)).
Definition _mm256_srai_epi32 (a : list Z) (n : Z) : list Z := from32 (map (fun x => Z.shiftr x n) (i32s a)).
Definition _mm256_max_epi32 (a b : list Z) : list Z := from32 (zip_with Z.max (i32s a) (i32s b)).
Definition _mm256_min_epi32 (a b : list Z) : list Z := from32 (zip_with Z.min (i32s a) (i32s b)).
Definition _mm256_packs_epi32 : list Z -> list Z -> list Z :=
  halves (fun a b => from16 (map (sat (-32768) 32767) (i32s a ++ i32s b))).
Definition _mm256_packus_epi16 : list Z -> list Z -> list Z :=
  halves (fun a b => map (sat 0 255) (i16s a ++ i16s b)).
Definition _mm256_unpacklo_epi8 : list Z -> list Z -> list Z := halves _mm_unpacklo_epi8.
Definition _mm256_unpackhi_epi8 : list Z -> list Z -> list Z := halves _mm_unpackhi_epi8.
Definition _mm256_add_epi16 (a b : list Z) : list Z := from16 (zip_with Z.add (u16s a) (u16s b)).
Definition _mm256_hadd_epi16 : list Z -> list Z -> list Z :=
  halves (fun a b => from16 (pair_sums (u16s a) ++ pair_sums (u16s b))).
Definition _mm256_srli_epi16 (a : list Z) (n : Z) : list Z := from16 (map (fun x => Z.shiftr x n) (u16s a)).
Definition _mm256_permute4x64_epi64 (a : list Z) (imm : Z) : list Z :=
  concat (map (fun i => bytes_at (8 * Z.to_nat (Z.land (Z.shiftr imm (2 * i)) 3)) 8 a) [0; 1; 2; 3]).

(** ** NEON *)
Definition vdupq_n_s32 (z : Z) : list Z := replicate 4 (as_signed 32 z).
Definition vdupq_n_u16 (z : Z) : list Z := replicate 8 (wrap 16 z).
Definition vmulq_s32 (a b : list Z) : list Z := map (as_signed 32) (zip_with Z.mul a b).
Definition vaddq_s32 (a b : list Z) : list Z := map (as_signed 32) (zip_with Z.add a b).
Definition vmlaq_s32 (a b c : list Z) : list Z := vaddq_s32 a (vmulq_s32 b c).
Definition vshrq_n_s32 (a : list Z) (n : Z) : list Z := map (fun x => Z.shiftr x n) a.
Definition vmaxq_s32 (a b : list Z) : list Z := zip_with Z.max a b.
Definition vminq_s32 (a b : list Z) : list Z := zip_with Z.min a b.
(** Widening keeps the unsigned lanes; [vreinterpretq_s32_u32] makes them signed. *)
Definition vmovl_u8 (a : list Z) : list Z := a.
Definition vmovl_u16 (a : list Z) : list Z := a.
Definition vreinterpretq_s32_u32 (a : list Z) : list Z := map (as_signed 32) a.
Definition vget_low (a : list Z) : list Z := take (length a / 2) a.
Definition vget_high (a : list Z) : list Z := drop (length a / 2) a.
Definition vmovn_s32 (a : list Z) : list Z := map (as_signed 16) a.
Definition vcombine_s16 (lo hi : list Z) : list Z := lo ++ hi.
Definition vqmovun_s16 (a : list Z) : list Z := map (sat 0 255) a.
(** [vld4_u8]: every fourth byte from [k] *)
Definition vld4_u8 (k : nat) (a : list Z) : list Z := map (fun i => nth (4 * i + k) a 0) (seq 0 8).
Definition vaddq_u16 (a b : list Z) : list Z := map (wrap 16) (zip_with Z.add a b).
Definition vpaddq_u16 (a b : list Z) : list Z := map (wrap 16) (pair_sums a ++ pair_sums b).
Definition vshrq_n_u16 (a : list Z) (n : Z) : list Z := map (fun x => Z.shiftr x n) a.
Definition vmovn_u16 (a : list Z) : list Z := map (wrap 8) a.

(** ** Lemmas *)
Lemma as_signed_small w z : 0 < w -> - 2 ^ (w - 1) <= z < 2 ^ (w - 1) -> as_signed w z = z.
Proof.
  intros Hw Hz. unfold as_signed, wrap. assert (2 ^ w = 2 * 2 ^ (w - 1)) as E.
  { rewrite <- Z.pow_succ_r by lia. f_equal. lia. }
  assert (0 < 2 ^ (w - 1)) by (apply Z.pow_pos_nonneg; lia). rewrite E.
  destruct (Z.le_gt_cases 0 z).
  - rewrite Z.mod_small by lia. destruct (Z.ltb_spec z (2 ^ (w - 1))); lia.
  - rewrite <- (Z.mod_unique z (2 * 2 ^ (w - 1)) (-1) (z + 2 * 2 ^ (w - 1))) by lia.
    destruct (Z.ltb_spec (z + 2 * 2 ^ (w - 1)) (2 ^ (w - 1))); lia.
Qed.

Lemma as_signed_wrap w z : as_signed w (wrap w z) = as_signed w z.
Proof. unfold as_signed, wrap. by rewrite Zmod_mod. Qed.

Lemma of_to_le2 z : of_le (to_le 2 z) = wrap 16 z.
Proof. cbn [to_le of_le]. unfold wrap. change (2 ^ 16) with 65536. Z.div_mod_to_equations. lia. Qed.
Lemma of_to_le4 z : of_le (to_le 4 z) = wrap 32 z.
Proof. cbn [to_le of_le]. unfold wrap. change (2 ^ 32) with 4294967296. Z.div_mod_to_equations. lia. Qed.

Lemma u16s_from16 xs : u16s (from16 xs) = map (wrap 16) xs.
Proof. induction xs as [|x xs IH]; [done|]. cbn -[wrap of_le]. f_equal; [apply of_to_le2|exact IH]. Qed.
Lemma i16s_from16 xs : i16s (from16 xs) = map (as_signed 16) xs.
Proof. unfold i16s. rewrite u16s_from16, map_map. apply map_ext. intros. apply as_signed_wrap. Qed.
Lemma i32s_from32 xs : i32s (from32 xs) = map (as_signed 32) xs.
Proof.
  unfold i32s. induction xs as [|x xs IH]; [done|]. cbn -[as_signed of_le]. f_equal; [|exact IH].
  change [x mod 256; (x / 256) mod 256; (x / 256 / 256) mod 256; (x / 256 / 256 / 256) mod 256] with (to_le 4 x).
  by rewrite of_to_le4, as_signed_wrap.
Qed.

Lemma length_from16 xs : length (from16 xs) = (2 * length xs)%nat.
Proof. induction xs as [|x xs IH]; [done|]. cbn. unfold from16 in IH. cbn in IH. lia. Qed.
Lemma length_from32 xs : length (from32 xs) = (4 * length xs)%nat.
Proof. induction xs as [|x xs IH]; [done|]. cbn. unfold from32 in IH. cbn in IH. lia. Qed.
Lemma from16_app a b : from16 (a ++ b) = from16 a ++ from16 b.
Proof. apply bind_app. Qed.
Lemma from32_app a b : from32 (a ++ b) = from32 a ++ from32 b.
Proof. apply bind_app. Qed.

(** Blocks of [k] followed by a remainder compute a map. *)
Lemma blocks_map {A} (f : nat -> A) (block : nat -> list A) (k n r : nat) :
  (forall c, (c < n)%nat -> block c = map f (seq (k * c) k)) ->
  concat (map block (seq 0 n)) ++ map f (seq (k * n) r) = map f (seq 0 (k * n + r)).
Proof.
  intros Hb. rewrite seq_app, map_app. f_equal. clear r. induction n as [|n IH]; [by rewrite Nat.mul_0_r|].
  rewrite seq_S, map_app, concat_app, IH by (intros; apply Hb; lia). cbn [map concat].
  rewrite app_nil_r, Hb by lia. replace (k * S n)%nat with (k * n + k)%nat by lia. by rewrite seq_app, map_app.
Qed.
