(* ===== verification/Color.v ===== *)
(** * Colour conversion for the AVC444 encoder

    Models src/src/rdp/channels/graphics/egfx/color/convert.rs and space.rs: the
    fixed-point conversion of BGRA frames to YUV 4:4:4, the 2x2 chroma filter,
    their AVX2 and NEON versions instruction by instruction, and the colour
    metadata.  A plane is the list of its bytes; sizes are natural numbers. *)
From S2P Require Import Prelude Text Simd.

(** ** Matrices *)

(** [convert.rs:9-25 ColorMatrix] *)
Inductive ColorMatrix := BT601 | BT709 | OpenH264.
#[export] Instance ColorMatrix_eq_dec : EqDecision ColorMatrix.
Proof. solve_decision. Defined.

(** [convert.rs:37-43 auto_select] *)
Definition matrix_auto_select (width height : Z) : ColorMatrix :=
  if (1280 <=? width) && (720 <=? height) then BT709 else BT601.

(** [convert.rs:48-55 y_coefficients_fixed] *)
Definition y_coefficients_fixed (m : ColorMatrix) : Z * Z * Z :=
  match m with
  | BT601 => (19595, 38470, 7471)
  | BT709 => (13933, 46871, 4732)
  | OpenH264 => (16896, 33024, 6400)
  end.
(** [convert.rs:59-61 is_limited_range] *)
Definition matrix_limited_range (m : ColorMatrix) : bool := match m with OpenH264 => true | _ => false end.
(** [convert.rs:78-87 u_coefficients_fixed] *)
Definition u_coefficients_fixed (m : ColorMatrix) : Z * Z * Z :=
  match m with
  | BT601 => (-11056, -21712, 32768)
  | BT709 => (-7508, -25260, 32768)
  | OpenH264 => (-9728, -18944, 28672)
  end.
(** [convert.rs:92-101 v_coefficients_fixed] *)
Definition v_coefficients_fixed (m : ColorMatrix) : Z * Z * Z :=
  match m with
  | BT601 => (32768, -27440, -5328)
  | BT709 => (32768, -29764, -3004)
  | OpenH264 => (28672, -24064, -4608)
  end.

(** ** One pixel *)

(** [convert.rs:105-109 BgraSample] *)
Record BgraSample := mkSample { sample_r : Z; sample_g : Z; sample_b : Z }.

(** Reading a plane; out of range only where the callers have checked the size. *)
Definition byte_at (l : list Z) (i : nat) : Z := nth i l 0.

(** [convert.rs:112-119 from_bgra_slice] *)
Definition from_bgra_slice (bgra : list Z) (pixel_index : nat) : BgraSample :=
  let offset := (pixel_index * 4)%nat in
  mkSample (byte_at bgra (offset + 2)) (byte_at bgra (offset + 1)) (byte_at bgra offset).

(** [kr * r + kg * g + kb * b], which no sample overflows ([dot_fits_i32]) *)
Definition dot (k : Z * Z * Z) (s : BgraSample) : Z :=
  k.1.1 * sample_r s + k.1.2 * sample_g s + k.2 * sample_b s.
(** [z.clamp(lo, hi)] *)
Definition clamp (lo hi z : Z) : Z := sat lo hi z.

(** [convert.rs:122-154 convert_bgra_sample_to_yuv] *)
Definition convert_bgra_sample_to_yuv (s : BgraSample) (m : ColorMatrix) : Z * Z * Z :=
  let limited_range := matrix_limited_range m in
  let y_base := Z.shiftr (dot (y_coefficients_fixed m) s + 32768) 16 in
  let y_val := if limited_range then clamp 16 235 (y_base + 16) else clamp 0 255 y_base in
  let u_val := Z.shiftr (dot (u_coefficients_fixed m) s + 32768) 16 + 128 in
  let u_val := if limited_range then clamp 16 240 u_val else clamp 0 255 u_val in
  let v_val := Z.shiftr (dot (v_coefficients_fixed m) s + 32768) 16 + 128 in
  let v_val := if limited_range then clamp 16 240 v_val else clamp 0 255 v_val in
  (y_val, u_val, v_val).

(** ** Frames *)

(** [convert.rs:161-172 Yuv444Frame] *)
Record Yuv444Frame := mkYuv444 { y444 : list Z; u444 : list Z; v444 : list Z; width444 : nat; height444 : nat }.

(** [convert.rs:175-184 new] *)
Definition yuv444_new (width height : nat) : Yuv444Frame :=
  mkYuv444 (replicate (width * height) 0) (replicate (width * height) 128) (replicate (width * height) 128) width height.
(** [convert.rs:187-189 pixel_count] *)
Definition pixel_count (f : Yuv444Frame) : nat := (width444 f * height444 f)%nat.

(** A frame of the same size with its planes written from the first pixel on. *)
Definition with_planes (f : Yuv444Frame) (y u v : list Z) : Yuv444Frame := mkYuv444 y u v (width444 f) (height444 f).

(** [convert.rs:243-254 bgra_to_yuv444_scalar] *)
Definition bgra_to_yuv444_scalar (bgra : list Z) (f : Yuv444Frame) (m : ColorMatrix) : Yuv444Frame :=
  let samples := map (fun i => convert_bgra_sample_to_yuv (from_bgra_slice bgra i) m) (seq 0 (pixel_count f)) in
  with_planes f (map (fun yuv => yuv.1.1) samples) (map (fun yuv => yuv.1.2) samples) (map snd samples).

(** The full-range conversion that the vector versions use for the last pixels:
    a plane with coefficients [k] and [offset].  [convert.rs:448-467 bgra_to_yuv444_avx2_impl] *)
Definition full_range_value (k : Z * Z * Z) (offset : Z) (s : BgraSample) : Z :=
  clamp 0 255 (Z.shiftr (dot k s + 32768) 16 + offset).

Definition offset_value (offset : option Z) : Z := match offset with Some o => o | None => 0 end.

(** Blocks of [per] pixels from [block], then the remaining pixels one by one. *)
Definition blocks_then (n per : nat) (block : nat -> list Z) (last : nat -> Z) : list Z :=
  concat (map block (seq 0 (n / per))) ++ map last (seq (per * (n / per)) (n mod per)).

(** *** AVX2 *)

(** The 32-bit channels of eight pixels: blue, green and red.
    [convert.rs:313-368 bgra_to_yuv444_avx2_impl] *)
Definition avx2_channel (k : Z) (pixels : list Z) : list Z :=
  let lo := _mm256_castsi256_si128 pixels in
  let hi := _mm256_extracti128_si256_1 pixels in
  let shuffle := [k; 4 + k; 8 + k; 12 + k] ++ replicate 12 (-1) in
  let c_lo := _mm_shuffle_epi8 lo shuffle in
  let c_hi := _mm_shuffle_epi8 hi shuffle in
  let packed := _mm_unpacklo_epi32 c_lo c_hi in
  let c_16 := _mm_unpacklo_epi8 packed _mm_setzero_si128 in
  let c_32_lo := _mm_unpacklo_epi16 c_16 _mm_setzero_si128 in
  let c_32_hi := _mm_unpackhi_epi16 c_16 _mm_setzero_si128 in
  _mm256_set_m128i c_32_hi c_32_lo.

(** One plane of eight pixels; luma has no offset.  [convert.rs:370-400 bgra_to_yuv444_avx2_impl] *)
Definition avx2_plane (k : Z * Z * Z) (offset : option Z) (r_32 g_32 b_32 : list Z) : list Z :=
  let r := _mm256_mullo_epi32 r_32 (_mm256_set1_epi32 k.1.1) in
  let g := _mm256_mullo_epi32 g_32 (_mm256_set1_epi32 k.1.2) in
  let b := _mm256_mullo_epi32 b_32 (_mm256_set1_epi32 k.2) in
  let sum := _mm256_add_epi32 (_mm256_add_epi32 r g) b in
  let sum := _mm256_add_epi32 sum (_mm256_set1_epi32 32768) in
  let val := _mm256_srai_epi32 sum 16 in
  let val := match offset with Some o => _mm256_add_epi32 val (_mm256_set1_epi32 o) | None => val end in
  let val := _mm256_max_epi32 val _mm256_setzero_si256 in
  _mm256_min_epi32 val (_mm256_set1_epi32 255).

(** The packing of eight 32-bit values to the eight bytes that are stored.
    [convert.rs:402-445 bgra_to_yuv444_avx2_impl] *)
Definition avx2_pack (val : list Z) : list Z :=
  let v_16 := _mm256_packs_epi32 val val in
  let v_8 := _mm256_packus_epi16 v_16 v_16 in
  let shuffle_mask := [0; 1; 2; 3; 8; 9; 10; 11] ++ replicate 8 (-1) in
  low_64 (_mm_shuffle_epi8 (_mm256_castsi256_si128 v_8) shuffle_mask).

(** [convert.rs:261-469 bgra_to_yuv444_avx2_impl] *)
Definition bgra_to_yuv444_avx2_impl (bgra : list Z) (f : Yuv444Frame) (m : ColorMatrix) : Yuv444Frame :=
  let n := pixel_count f in
  let plane k offset :=
    blocks_then n 8
      (fun i => let pixels := bytes_at (i * 8 * 4) 32 bgra in
                avx2_pack (avx2_plane k offset (avx2_channel 2 pixels) (avx2_channel 1 pixels) (avx2_channel 0 pixels)))
      (fun i => full_range_value k (offset_value offset) (from_bgra_slice bgra i)) in
  with_planes f (plane (y_coefficients_fixed m) None) (plane (u_coefficients_fixed m) (Some 128))
    (plane (v_coefficients_fixed m) (Some 128)).

(** *** NEON *)

(** Four pixels of one plane.  [convert.rs:532-588 bgra_to_yuv444_neon] *)
Definition neon_plane (k : Z * Z * Z) (offset : option Z) (r g b : list Z) : list Z :=
  let v := vmulq_s32 r (vdupq_n_s32 k.1.1) in
  let v := vmlaq_s32 v g (vdupq_n_s32 k.1.2) in
  let v := vmlaq_s32 v b (vdupq_n_s32 k.2) in
  let v := vaddq_s32 v (vdupq_n_s32 32768) in
  let v := vshrq_n_s32 v 16 in
  let v := match offset with Some o => vaddq_s32 v (vdupq_n_s32 o) | None => v end in
  let v := vmaxq_s32 v (vdupq_n_s32 0) in
  vminq_s32 v (vdupq_n_s32 255).

(** Eight pixels of one plane.  [convert.rs:506-610 bgra_to_yuv444_neon] *)
Definition neon_block (k : Z * Z * Z) (offset : option Z) (pixels : list Z) : list Z :=
  let b_16 := vmovl_u8 (vld4_u8 0 pixels) in
  let g_16 := vmovl_u8 (vld4_u8 1 pixels) in
  let r_16 := vmovl_u8 (vld4_u8 2 pixels) in
  let low c := vreinterpretq_s32_u32 (vmovl_u16 (vget_low c)) in
  let high c := vreinterpretq_s32_u32 (vmovl_u16 (vget_high c)) in
  let lo := neon_plane k offset (low r_16) (low g_16) (low b_16) in
  let hi := neon_plane k offset (high r_16) (high g_16) (high b_16) in
  vqmovun_s16 (vcombine_s16 (vmovn_s32 lo) (vmovn_s32 hi)).

(** [convert.rs:475-630 bgra_to_yuv444_neon] *)
Definition bgra_to_yuv444_neon (bgra : list Z) (f : Yuv444Frame) (m : ColorMatrix) : Yuv444Frame :=
  let n := pixel_count f in
  let plane k offset :=
    blocks_then n 8 (fun i => neon_block k offset (bytes_at (i * 8 * 4) 32 bgra))
      (fun i => full_range_value k (offset_value offset) (from_bgra_slice bgra i)) in
  with_planes f (plane (y_coefficients_fixed m) None) (plane (u_coefficients_fixed m) (Some 128))
    (plane (v_coefficients_fixed m) (Some 128)).

(** What the processor offers: the target and its detected features. *)
Inductive simd := Avx2 | Neon | NoSimd.

(** [convert.rs:192-237 bgra_to_yuv444] *)
Definition bgra_to_yuv444 (cpu : simd) (bgra : list Z) (width height : nat) (m : ColorMatrix)
  : outcome Empty_set Yuv444Frame :=
  if negb (length bgra =? width * height * 4)%nat then Panic
  else
    let frame := yuv444_new width height in
    Ok (match matrix_limited_range m, cpu with
        | false, Avx2 => bgra_to_yuv444_avx2_impl bgra frame m
        | false, Neon => bgra_to_yuv444_neon bgra frame m
        | _, _ => bgra_to_yuv444_scalar bgra frame m
        end).

(** ** The 2x2 chroma filter *)

(** The rounded average of the block whose corner is at column [2 * out_x] of the
    rows that start at [row0] and [row1].  [convert.rs:671-688 subsample_chroma_420] *)
Definition box_average (l : list Z) (row0 row1 out_x : nat) : Z :=
  (byte_at l (row0 + 2 * out_x) + byte_at l (row0 + 2 * out_x + 1)
   + byte_at l (row1 + 2 * out_x) + byte_at l (row1 + 2 * out_x + 1) + 2) / 4.

(** The rows of the result, from the starts of their two source rows. *)
Definition filter_rows (width height : nat) (row : nat -> nat -> list Z) : list Z :=
  concat (map (fun out_y => row (2 * out_y * width)%nat ((2 * out_y + 1) * width)%nat) (seq 0 (height / 2))).

Definition subsample_scalar (l : list Z) (width height : nat) : list Z :=
  filter_rows width height (fun row0 row1 => map (box_average l row0 row1) (seq 0 (width / 2))).

(** Sixteen results.  [convert.rs:724-765 subsample_chroma_420_avx2] *)
Definition avx2_filter_block (r0 r1 : list Z) : list Z :=
  let zero := _mm256_setzero_si256 in
  let r0_lo := _mm256_unpacklo_epi8 r0 zero in
  let r0_hi := _mm256_unpackhi_epi8 r0 zero in
  let r1_lo := _mm256_unpacklo_epi8 r1 zero in
  let r1_hi := _mm256_unpackhi_epi8 r1 zero in
  let v_lo := _mm256_add_epi16 r0_lo r1_lo in
  let v_hi := _mm256_add_epi16 r0_hi r1_hi in
  let h_lo := _mm256_hadd_epi16 v_lo v_hi in
  let sum := _mm256_add_epi16 h_lo (_mm256_set1_epi16 2) in
  let avg := _mm256_srli_epi16 sum 2 in
  let result := _mm256_packus_epi16 avg avg in
  let permuted := _mm256_permute4x64_epi64 result 216 in
  _mm256_castsi256_si128 permuted.

(** [convert.rs:698-790 subsample_chroma_420_avx2] *)
Definition subsample_chroma_420_avx2 (l : list Z) (width height : nat) : list Z :=
  filter_rows width height (fun row0 row1 =>
    blocks_then (width / 2) 16
      (fun chunk => avx2_filter_block (bytes_at (row0 + chunk * 32) 32 l) (bytes_at (row1 + chunk * 32) 32 l))
      (box_average l row0 row1)).

(** Eight results.  [convert.rs:816-847 subsample_chroma_420_neon] *)
Definition neon_filter_block (r0 r1 : list Z) : list Z :=
  let v_lo := vaddq_u16 (vmovl_u8 (vget_low r0)) (vmovl_u8 (vget_low r1)) in
  let v_hi := vaddq_u16 (vmovl_u8 (vget_high r0)) (vmovl_u8 (vget_high r1)) in
  let h_sum := vpaddq_u16 v_lo v_hi in
  let sum := vaddq_u16 h_sum (vdupq_n_u16 2) in
  let avg := vshrq_n_u16 sum 2 in
  vmovn_u16 avg.

(** [convert.rs:796-870 subsample_chroma_420_neon] *)
Definition subsample_chroma_420_neon (l : list Z) (width height : nat) : list Z :=
  filter_rows width height (fun row0 row1 =>
    blocks_then (width / 2) 8
      (fun chunk => neon_filter_block (bytes_at (row0 + chunk * 16) 16 l) (bytes_at (row1 + chunk * 16) 16 l))
      (box_average l row0 row1)).

(** [convert.rs:632-693 subsample_chroma_420] *)
Definition subsample_chroma_420 (cpu : simd) (l : list Z) (width height : nat) : outcome Empty_set (list Z) :=
  if negb (width mod 2 =? 0)%nat || negb (height mod 2 =? 0)%nat || negb (length l =? width * height)%nat then Panic
  else Ok (match cpu with
           | Avx2 => subsample_chroma_420_avx2 l width height
           | Neon => subsample_chroma_420_neon l width height
           | NoSimd => subsample_scalar l width height
           end).

(** ** Lemmas on registers *)
Abbreviation is_u8 b := (0 <= b <= 255).

Lemma bytes_at_map l o n : (o + n <= length l)%nat -> bytes_at o n l = map (byte_at l) (seq o n).
Proof.
  intros Hl. unfold bytes_at. apply list_eq. intros i. rewrite list_lookup_fmap. destruct (decide (i < n)%nat).
  - rewrite lookup_take_lt, lookup_drop, lookup_seq_lt by lia. cbn. unfold byte_at.
    destruct (lookup_lt_is_Some_2 l (o + i)) as [x Hx]; [lia|]. rewrite Hx. by rewrite (nth_lookup_Some _ _ _ _ Hx).
  - rewrite lookup_take_ge, lookup_seq_ge by lia. done.
Qed.

Lemma map_seq_shift {A} (f : nat -> A) o n : map f (seq o n) = map (fun i => f (o + i)%nat) (seq 0 n).
Proof. revert f o. induction n as [|n IH]; intros f o; [done|]. cbn [seq map]. rewrite Nat.add_0_r. f_equal.
  rewrite IH, (IH _ 1%nat). apply map_ext. intros. f_equal. lia. Qed.

Lemma u32s_take n v : u32s (take (4 * n) v) = take n (u32s v).
Proof.
  revert v. induction n as [|n IH]; intros v; [done|]. replace (4 * S n)%nat with (S (S (S (S (4 * n))))) by lia.
  destruct v as [|a [|b [|c [|d v]]]]; try done. cbn [take u32s]. f_equal. apply IH.
Qed.
Lemma u32s_drop n v : u32s (drop (4 * n) v) = drop n (u32s v).
Proof.
  revert v. induction n as [|n IH]; intros v; [done|]. replace (4 * S n)%nat with (S (S (S (S (4 * n))))) by lia.
  destruct v as [|a [|b [|c [|d v]]]]; try (cbn [drop u32s]; by rewrite ?drop_nil).
Qed.
Lemma i32s_take n v : i32s (take (4 * n) v) = take n (i32s v).
Proof. unfold i32s. by rewrite u32s_take, firstn_map. Qed.
Lemma i32s_drop n v : i32s (drop (4 * n) v) = drop n (i32s v).
Proof. unfold i32s. by rewrite u32s_drop, skipn_map. Qed.

Lemma byte_lane b : is_u8 b -> as_signed 32 (of_le [b; 0; 0; 0]) = b.
Proof. intros Hb. replace (of_le [b; 0; 0; 0]) with b by (cbn [of_le]; lia). apply as_signed_small; lia. Qed.

(** The packing keeps the low half only, twice. *)
Lemma avx2_pack_lanes v x0 x1 x2 x3 x4 x5 x6 x7 : i32s v = [x0; x1; x2; x3; x4; x5; x6; x7] ->
  Forall (fun x => is_u8 x) [x0; x1; x2; x3; x4; x5; x6; x7] -> avx2_pack v = [x0; x1; x2; x3; x0; x1; x2; x3].
Proof.
  intros Hv Hx. unfold avx2_pack, _mm256_packs_epi32, halves.
  rewrite (i32s_take 4), (i32s_drop 4), Hv. cbn [take drop app].
  rewrite !Forall_cons in Hx. destruct Hx as (H0 & H1 & H2 & H3 & H4 & H5 & H6 & H7 & _).
  assert (forall x, is_u8 x -> sat (-32768) 32767 x = x /\ as_signed 16 x = x /\ sat 0 255 x = x) as Hs.
  { intros x Hb. unfold sat. split; [lia|]. split; [|lia]. apply as_signed_small; lia. }
  cbn [map]. rewrite !(fun x H => proj1 (Hs x H)) by done.
  set (p := from16 [x0; x1; x2; x3; x0; x1; x2; x3]). set (q := from16 [x4; x5; x6; x7; x4; x5; x6; x7]).
  assert (length p = 16%nat) as Hp by (unfold p; by rewrite length_from16).
  unfold _mm256_packus_epi16, halves. rewrite <- Hp at 1 2. rewrite take_app_length. unfold p.
  rewrite i16s_from16. unfold _mm256_castsi256_si128. cbn [map app].
  rewrite !(fun x H => proj1 (proj2 (Hs x H))) by done. rewrite !(fun x H => proj2 (proj2 (Hs x H))) by done. reflexivity.
Qed.

(** What one lane of the vector code computes. *)
Definition vector_lane (k : Z * Z * Z) (offset : option Z) (r g b : Z) : Z :=
  let c := as_signed 32 in
  let v := c (c (c (c (r * c k.1.1) + c (g * c k.1.2)) + c (b * c k.2)) + c 32768) in
  let v := c (Z.shiftr v 16) in
  let v := match offset with Some o => c (v + c o) | None => v end in
  c (Z.min (c (Z.max v 0)) (c 255)).

(** Coefficients small enough for the 32-bit arithmetic. *)
Definition small_coefficients (k : Z * Z * Z) : Prop :=
  Z.abs k.1.1 <= 65536 /\ Z.abs k.1.2 <= 65536 /\ Z.abs k.2 <= 65536.

Lemma shiftr_16_bound z b : 0 <= b -> - (b * 65536) <= z < b * 65536 -> - b <= Z.shiftr z 16 < b.
Proof. intros Hb Hz. rewrite Z.shiftr_div_pow2 by done. change (2 ^ 16) with 65536. Z.div_mod_to_equations. lia. Qed.

Lemma dot_bound k s : small_coefficients k -> is_u8 (sample_r s) -> is_u8 (sample_g s) -> is_u8 (sample_b s) ->
  Z.abs (k.1.1 * sample_r s) <= 16711680 /\ Z.abs (k.1.2 * sample_g s) <= 16711680 /\ Z.abs (k.2 * sample_b s) <= 16711680.
Proof. intros (H1 & H2 & H3) Hr Hg Hb. rewrite !Z.abs_mul. nia. Qed.

(** No step of the sum leaves the 32-bit range. *)
Lemma i32_dot_exact k r g b : small_coefficients k -> is_u8 r -> is_u8 g -> is_u8 b ->
  let c := as_signed 32 in
  c (c (c (c (r * c k.1.1) + c (g * c k.1.2)) + c (b * c k.2)) + c 32768) = dot k (mkSample r g b) + 32768 /\
  - 1000 <= Z.shiftr (dot k (mkSample r g b) + 32768) 16 < 1000.
Proof.
  intros Hk Hr Hg Hb. pose proof (dot_bound k (mkSample r g b) Hk Hr Hg Hb) as (D1 & D2 & D3).
  destruct Hk as (K1 & K2 & K3). unfold dot. cbn [sample_r sample_g sample_b] in *. cbv zeta.
  split; [|apply (shiftr_16_bound _ 1000); lia].
  assert (forall z, Z.abs z < 2147483648 -> as_signed 32 z = z) as Hc by (intros z Hz; apply as_signed_small; lia).
  rewrite (Hc 32768), (Hc k.1.1), (Hc k.1.2), (Hc k.2), (Z.mul_comm r), (Z.mul_comm g), (Z.mul_comm b) by lia.
  rewrite (Hc (k.1.1 * r)), (Hc (k.1.2 * g)), (Hc (k.2 * b)) by lia.
  rewrite (Hc (k.1.1 * r + k.1.2 * g)) by lia. rewrite (Hc (k.1.1 * r + k.1.2 * g + k.2 * b)) by lia.
  by rewrite (Hc (k.1.1 * r + k.1.2 * g + k.2 * b + 32768)) by lia.
Qed.

Definition offset_ok (offset : option Z) : Prop := match offset with Some o => 0 <= o <= 255 | None => True end.

Lemma vector_lane_exact k offset r g b : small_coefficients k -> offset_ok offset -> is_u8 r -> is_u8 g -> is_u8 b ->
  vector_lane k offset r g b = full_range_value k (offset_value offset) (mkSample r g b).
Proof.
  intros Hk Ho Hr Hg Hb. destruct (i32_dot_exact k r g b Hk Hr Hg Hb) as [Hd Hs]. cbv zeta in Hd.
  unfold vector_lane, full_range_value, clamp, sat. rewrite Hd.
  assert (forall z, Z.abs z < 2147483648 -> as_signed 32 z = z) as Hc by (intros z Hz; apply as_signed_small; lia).
  rewrite (Hc 255), (Hc (Z.shiftr _ 16)) by lia. destruct offset as [o|]; cbn [offset_ok offset_value] in *.
  - rewrite (Hc o) by lia. rewrite (Hc (_ + o)) by lia. rewrite (Hc (Z.max _ 0)) by lia. rewrite Hc by lia. lia.
  - rewrite (Hc (Z.max _ 0)) by lia. rewrite Hc by lia. lia.
Qed.

(** One lane of the NEON code. *)
Definition neon_lane (k : Z * Z * Z) (offset : option Z) (r g b : Z) : Z :=
  let c := as_signed 32 in
  let v := Z.shiftr (c (c (c (c (r * c k.1.1) + c (g * c k.1.2)) + c (b * c k.2)) + c 32768)) 16 in
  let v := match offset with Some o => c (v + c o) | None => v end in
  Z.min (Z.max v (c 0)) (c 255).

Lemma neon_lane_exact k offset r g b : small_coefficients k -> offset_ok offset -> is_u8 r -> is_u8 g -> is_u8 b ->
  neon_lane k offset r g b = full_range_value k (offset_value offset) (mkSample r g b).
Proof.
  intros Hk Ho Hr Hg Hb. destruct (i32_dot_exact k r g b Hk Hr Hg Hb) as [Hd Hs]. cbv zeta in Hd.
  unfold neon_lane, full_range_value, clamp, sat. rewrite Hd.
  assert (forall z, Z.abs z < 2147483648 -> as_signed 32 z = z) as Hc by (intros z Hz; apply as_signed_small; lia).
  rewrite (Hc 255), (Hc 0) by lia. destruct offset as [o|]; cbn [offset_ok offset_value] in *; [|lia].
  rewrite (Hc o) by lia. rewrite (Hc (_ + o)) by lia. lia.
Qed.

Lemma avx2_channel_lanes k (p : nat -> Z) : (k <= 2)%nat -> (forall i, (i < 32)%nat -> is_u8 (p i)) ->
  i32s (avx2_channel (Z.of_nat k) (map p (seq 0 32))) = map (fun i => p (4 * i + k)%nat) (seq 0 8).
Proof.
  intros Hk Hp. destruct k as [|[|[|k]]]; [| | |lia].
  all: cbv [seq map] in *; cbv -[of_le as_signed].
  all: by rewrite !byte_lane by (apply Hp; lia).
Qed.

Lemma avx2_plane_lanes k offset r g b r0 r1 r2 r3 r4 r5 r6 r7 g0 g1 g2 g3 g4 g5 g6 g7 b0 b1 b2 b3 b4 b5 b6 b7 :
  i32s r = [r0; r1; r2; r3; r4; r5; r6; r7] -> i32s g = [g0; g1; g2; g3; g4; g5; g6; g7] ->
  i32s b = [b0; b1; b2; b3; b4; b5; b6; b7] ->
  let lane := vector_lane k offset in
  i32s (avx2_plane k offset r g b) = [lane r0 g0 b0; lane r1 g1 b1; lane r2 g2 b2; lane r3 g3 b3;
    lane r4 g4 b4; lane r5 g5 b5; lane r6 g6 b6; lane r7 g7 b7].
Proof.
  intros Hr Hg Hb. cbv zeta. unfold avx2_plane, _mm256_min_epi32, _mm256_max_epi32, _mm256_srai_epi32, _mm256_add_epi32,
    _mm256_mullo_epi32, _mm256_set1_epi32.
  assert (i32s _mm256_setzero_si256 = replicate 8 0) as Hz by reflexivity.
  assert (forall z, map (as_signed 32) (replicate 8 z) = replicate 8 (as_signed 32 z)) as Hrep by reflexivity.
  destruct offset; rewrite !i32s_from32, Hr, Hg, Hb, Hz, !Hrep; unfold vector_lane; cbn [replicate zip_with map]; reflexivity.
Qed.

(** The pixel whose value the AVX2 code stores for pixel [i] of [n]: in every
    block of eight the last four take the values of the first four. *)
Definition avx2_source (n i : nat) : nat :=
  if (i <? 8 * (n / 8))%nat && (4 <=? i mod 8)%nat then (i - 4)%nat else i.

Definition all_bytes (l : list Z) : Prop := Forall (fun b => is_u8 b) l.

Lemma byte_at_u8 l i : all_bytes l -> is_u8 (byte_at l i).
Proof.
  intros Hl. unfold byte_at. destruct (decide (i < length l)%nat) as [H|H].
  - unfold all_bytes in Hl. rewrite Forall_forall in Hl. apply Hl, list_elem_of_In, nth_In, H.
  - rewrite nth_overflow; lia.
Qed.

Definition plane_value (k : Z * Z * Z) (offset : option Z) (bgra : list Z) (i : nat) : Z :=
  full_range_value k (offset_value offset) (from_bgra_slice bgra i).

Lemma vector_lane_at k offset bgra i : small_coefficients k -> offset_ok offset -> all_bytes bgra ->
  vector_lane k offset (byte_at bgra (i * 4 + 2)) (byte_at bgra (i * 4 + 1)) (byte_at bgra (i * 4)) = plane_value k offset bgra i.
Proof. intros Hk Ho Hb. by apply vector_lane_exact; try apply byte_at_u8. Qed.

Lemma plane_value_u8 k offset bgra i : is_u8 (plane_value k offset bgra i).
Proof. unfold plane_value, full_range_value, clamp, sat. lia. Qed.

Lemma avx2_block k offset bgra c : small_coefficients k -> offset_ok offset -> all_bytes bgra ->
  (c * 8 * 4 + 32 <= length bgra)%nat ->
  let pixels := bytes_at (c * 8 * 4) 32 bgra in
  avx2_pack (avx2_plane k offset (avx2_channel 2 pixels) (avx2_channel 1 pixels) (avx2_channel 0 pixels)) =
  map (fun j => plane_value k offset bgra (8 * c + j mod 4)%nat) (seq 0 8).
Proof.
  intros Hk Ho Hb Hl pixels. unfold pixels. rewrite bytes_at_map, map_seq_shift by done.
  set (p := fun i => byte_at bgra (c * 8 * 4 + i)). assert (forall i, (i < 32)%nat -> is_u8 (p i)) as Hp by (intros; by apply byte_at_u8).
  pose proof (avx2_channel_lanes 2 p ltac:(lia) Hp) as H2. pose proof (avx2_channel_lanes 1 p ltac:(lia) Hp) as H1.
  pose proof (avx2_channel_lanes 0 p ltac:(lia) Hp) as H0. cbn [seq map] in H2, H1, H0.
  pose proof (avx2_plane_lanes k offset _ _ _ _ _ _ _ _ _ _ _ _ _ _ _ _ _ _ _ _ _ _ _ _ _ _ _ H2 H1 H0) as Hv. cbv zeta in Hv.
  assert (forall j r g b, (r = c * 8 * 4 + (4 * j + 2))%nat -> (g = c * 8 * 4 + (4 * j + 1))%nat -> (b = c * 8 * 4 + (4 * j + 0))%nat ->
    vector_lane k offset (byte_at bgra r) (byte_at bgra g) (byte_at bgra b) = plane_value k offset bgra (8 * c + j)) as Hj.
  { intros j r g b -> -> ->. rewrite <- vector_lane_at by done. do 2 f_equal; [| |f_equal]; lia. }
  unfold p in Hv.
  rewrite (Hj 0%nat), (Hj 1%nat), (Hj 2%nat), (Hj 3%nat), (Hj 4%nat), (Hj 5%nat), (Hj 6%nat), (Hj 7%nat) in Hv by lia.
  etrans; [apply (avx2_pack_lanes _ _ _ _ _ _ _ _ _ Hv); repeat (constructor; [apply plane_value_u8|]); constructor|reflexivity].
Qed.

Lemma neon_plane_lanes k offset r0 r1 r2 r3 g0 g1 g2 g3 b0 b1 b2 b3 :
  let lane := neon_lane k offset in
  neon_plane k offset [r0; r1; r2; r3] [g0; g1; g2; g3] [b0; b1; b2; b3] = [lane r0 g0 b0; lane r1 g1 b1; lane r2 g2 b2; lane r3 g3 b3].
Proof. destruct offset; unfold neon_plane, neon_lane; reflexivity. Qed.

Lemma neon_block_exact k offset bgra c : small_coefficients k -> offset_ok offset -> all_bytes bgra ->
  (c * 8 * 4 + 32 <= length bgra)%nat ->
  neon_block k offset (bytes_at (c * 8 * 4) 32 bgra) = map (fun j => plane_value k offset bgra (8 * c + j)%nat) (seq 0 8).
Proof.
  intros Hk Ho Hb Hl. rewrite bytes_at_map, map_seq_shift by done. unfold neon_block, vld4_u8.
  assert (forall i, as_signed 32 (byte_at bgra i) = byte_at bgra i) as Hs.
  { intros i. pose proof (byte_at_u8 bgra i Hb). apply as_signed_small; lia. }
  cbn [seq map nth Nat.mul Nat.add]. unfold vmovl_u8, vmovl_u16, vget_low, vget_high, vreinterpretq_s32_u32.
  cbn [length Nat.div Nat.divmod fst take drop map]. rewrite !Hs, !neon_plane_lanes. cbv zeta.
  assert (forall j r g b, (r = c * 8 * 4 + (4 * j + 2))%nat -> (g = c * 8 * 4 + (4 * j + 1))%nat -> (b = c * 8 * 4 + (4 * j + 0))%nat ->
    neon_lane k offset (byte_at bgra r) (byte_at bgra g) (byte_at bgra b) = plane_value k offset bgra (8 * c + j)) as Hj.
  { intros j r g b -> -> ->. rewrite neon_lane_exact by (try apply byte_at_u8; done). unfold plane_value, from_bgra_slice.
    do 2 f_equal; f_equal; lia. }
  rewrite (Hj 0%nat), (Hj 1%nat), (Hj 2%nat), (Hj 3%nat), (Hj 4%nat), (Hj 5%nat), (Hj 6%nat), (Hj 7%nat) by lia.
  unfold vmovn_s32, vcombine_s16, vqmovun_s16. cbn [map app].
  assert (forall i, sat 0 255 (as_signed 16 (plane_value k offset bgra i)) = plane_value k offset bgra i) as Hp.
  { intros i. pose proof (plane_value_u8 k offset bgra i). rewrite as_signed_small by lia. unfold sat. lia. }
  by rewrite !Hp.
Qed.

Lemma blocks_then_map n per block last f : (0 < per)%nat ->
  (forall c, (c < n / per)%nat -> block c = map f (seq (per * c) per)) ->
  (forall i, (per * (n / per) <= i < n)%nat -> last i = f i) -> blocks_then n per block last = map f (seq 0 n).
Proof.
  intros Hp Hb Hl. unfold blocks_then. pose proof (Nat.div_mod n per). rewrite (map_ext_in last f).
  2: { intros i Hi%in_seq. apply Hl. lia. }
  rewrite (blocks_map f block per (n / per) (n mod per) Hb). do 2 f_equal. symmetry. apply Nat.div_mod. lia.
Qed.

Lemma block_fits {A} (l : list A) n c : (length l = n * 4)%nat -> (c < n / 8)%nat -> (c * 8 * 4 + 32 <= length l)%nat.
Proof. intros -> Hc. pose proof (Nat.div_mod n 8). pose proof (Nat.mod_upper_bound n 8). lia. Qed.

(** The plane that the AVX2 code stores, given the right one. *)
Definition repeated (n : nat) (plane : list Z) : list Z := map (fun i => byte_at plane (avx2_source n i)) (seq 0 n).

Lemma byte_at_map (f : nat -> Z) n i : (i < n)%nat -> byte_at (map f (seq 0 n)) i = f i.
Proof.
  intros Hi. unfold byte_at. rewrite (nth_indep _ 0 (f 0%nat)) by (by rewrite length_map, length_seq).
  rewrite map_nth, seq_nth by done. done.
Qed.

Lemma avx2_plane_exact n k offset bgra : small_coefficients k -> offset_ok offset -> all_bytes bgra -> length bgra = (n * 4)%nat ->
  blocks_then n 8
    (fun i => let pixels := bytes_at (i * 8 * 4) 32 bgra in
              avx2_pack (avx2_plane k offset (avx2_channel 2 pixels) (avx2_channel 1 pixels) (avx2_channel 0 pixels)))
    (plane_value k offset bgra) =
  repeated n (map (plane_value k offset bgra) (seq 0 n)).
Proof.
  intros Hk Ho Hb Hl. apply blocks_then_map; [lia| |].
  - intros c Hc. rewrite avx2_block by (done || by eapply block_fits). rewrite (map_seq_shift _ (8 * c)).
    apply map_ext_in. intros j Hj%in_seq. pose proof (Nat.div_mod n 8). assert (8 * c + j < 8 * (n / 8))%nat by lia.
    assert (j mod 4 = if (4 <=? j)%nat then j - 4 else j)%nat as ->.
    { do 8 (destruct j as [|j]; [done|]). lia. }
    assert (avx2_source n (8 * c + j) = 8 * c + (if (4 <=? j)%nat then j - 4 else j))%nat as ->.
    { unfold avx2_source. replace ((8 * c + j) mod 8)%nat with j.
      - rewrite (proj2 (Nat.ltb_lt _ _)) by done. cbn [andb]. destruct (Nat.leb_spec 4 j); lia.
      - symmetry. rewrite Nat.mul_comm, Nat.add_comm, Nat.Div0.mod_add. apply Nat.mod_small. lia. }
    rewrite byte_at_map; [done|]. destruct (Nat.leb_spec 4 j); lia.
  - intros i Hi. unfold avx2_source. rewrite (proj2 (Nat.ltb_ge i _)) by lia. cbn [andb]. by rewrite byte_at_map by lia.
Qed.

Lemma neon_plane_exact n k offset bgra : small_coefficients k -> offset_ok offset -> all_bytes bgra -> length bgra = (n * 4)%nat ->
  blocks_then n 8 (fun i => neon_block k offset (bytes_at (i * 8 * 4) 32 bgra)) (plane_value k offset bgra) =
  map (plane_value k offset bgra) (seq 0 n).
Proof.
  intros Hk Ho Hb Hl. apply blocks_then_map; [lia| |done].
  intros c Hc. rewrite neon_block_exact by (done || by eapply block_fits). by rewrite (map_seq_shift _ (8 * c)).
Qed.

Lemma coefficients_small m : small_coefficients (y_coefficients_fixed m) /\ small_coefficients (u_coefficients_fixed m) /\
  small_coefficients (v_coefficients_fixed m).
Proof. unfold small_coefficients. destruct m; cbn; lia. Qed.

(** The full-range scalar conversion is the value of each plane. *)
Lemma scalar_planes bgra f m : matrix_limited_range m = false ->
  bgra_to_yuv444_scalar bgra f m =
  with_planes f (map (plane_value (y_coefficients_fixed m) None bgra) (seq 0 (pixel_count f)))
    (map (plane_value (u_coefficients_fixed m) (Some 128) bgra) (seq 0 (pixel_count f)))
    (map (plane_value (v_coefficients_fixed m) (Some 128) bgra) (seq 0 (pixel_count f))).
Proof.
  intros Hm. unfold bgra_to_yuv444_scalar. cbv zeta. rewrite !map_map.
  f_equal; apply map_ext; intros i; unfold convert_bgra_sample_to_yuv, plane_value, full_range_value;
    rewrite Hm; cbn [fst snd offset_value]; by rewrite ?Z.add_0_r.
Qed.

Lemma vector_planes bgra width height m :
  all_bytes bgra -> length bgra = (width * height * 4)%nat ->
  let reference := bgra_to_yuv444_scalar bgra (yuv444_new width height) m in
  bgra_to_yuv444 NoSimd bgra width height m = Ok reference /\
  bgra_to_yuv444 Neon bgra width height m = Ok reference /\
  bgra_to_yuv444 Avx2 bgra width height m = Ok (
    if matrix_limited_range m then reference
    else let n := pixel_count reference in
         with_planes reference (repeated n (y444 reference)) (repeated n (u444 reference)) (repeated n (v444 reference))).
Proof.
  intros Hb Hl. cbv zeta. unfold bgra_to_yuv444. rewrite (proj2 (Nat.eqb_eq _ _) Hl). cbn [negb].
  split; [by destruct (matrix_limited_range m)|]. destruct (coefficients_small m) as (Hy & Hu & Hv).
  destruct (matrix_limited_range m) eqn:Hm; [done|]. rewrite !scalar_planes by done.
  unfold bgra_to_yuv444_neon, bgra_to_yuv444_avx2_impl. cbv zeta.
  change (pixel_count (yuv444_new width height)) with (width * height)%nat.
  split; do 2 f_equal; (apply neon_plane_exact || apply avx2_plane_exact); done.
Qed.

(** The vector code against its scalar reference: on every processor the
    conversion returns for a buffer of the announced size; NEON stores exactly
    the scalar planes, and so does every processor for the limited-range matrix;
    but the AVX2 code, which the full-range matrices select on x86, stores in
    every block of eight pixels the first four twice (its packing keeps one half
    of the register), so that half of the picture is replaced by its left
    neighbourhood. *)
Theorem conversion_simd bgra width height m :
  all_bytes bgra -> length bgra = (width * height * 4)%nat ->
  let reference := bgra_to_yuv444_scalar bgra (yuv444_new width height) m in
  bgra_to_yuv444 NoSimd bgra width height m = Ok reference /\
  bgra_to_yuv444 Neon bgra width height m = Ok reference /\
  bgra_to_yuv444 Avx2 bgra width height m = Ok (
    if matrix_limited_range m then reference
    else let n := pixel_count reference in
         with_planes reference (repeated n (y444 reference)) (repeated n (u444 reference)) (repeated n (v444 reference))).
Proof. apply vector_planes. Qed.

(** Eight pixels of increasing brightness come out as four. *)
Definition ramp : list Z := concat (map (fun i => [16 * i; 16 * i; 16 * i; 255]) [0; 1; 2; 3; 4; 5; 6; 7]).
Lemma conversion_simd_witness :
  exists f, bgra_to_yuv444 Avx2 ramp 8 1 BT709 = Ok f /\ y444 f = [0; 16; 32; 48; 0; 16; 32; 48] /\
    exists f', bgra_to_yuv444 NoSimd ramp 8 1 BT709 = Ok f' /\ y444 f' = [0; 16; 32; 48; 64; 80; 96; 112].
Proof.
  destruct (conversion_simd ramp 8 1 BT709) as (H1 & _ & H2); [by repeat (constructor; [lia|])|done|].
  eexists. split; [exact H2|]. split; [by vm_compute|]. eexists. split; [exact H1|]. by vm_compute.
Defined.

(** ** The chroma filter *)

(** The filter on two rows of bytes. *)
Definition average4 (a b c d : Z) : Z := Z.shiftr (wrap 16 (wrap 16 (wrap 16 (a + c) + wrap 16 (b + d)) + 2)) 2.

Lemma average4_exact a b c d : is_u8 a -> is_u8 b -> is_u8 c -> is_u8 d ->
  average4 a b c d = (a + b + c + d + 2) / 4 /\ is_u8 (average4 a b c d).
Proof.
  intros Ha Hb Hc Hd. unfold average4. assert (forall z, 0 <= z < 65536 -> wrap 16 z = z) as Hw by (intros; by apply wrap_small).
  rewrite (Hw (a + c)), (Hw (b + d)) by lia. rewrite (Hw (a + c + (b + d))) by lia. rewrite (Hw (_ + 2)) by lia.
  rewrite Z.shiftr_div_pow2 by done. change (2 ^ 2) with 4. split; [f_equal; lia|]. Z.div_mod_to_equations. lia.
Qed.

Lemma word_of_byte b : is_u8 b -> of_le [b; 0] = b.
Proof. intros. cbn [of_le]. lia. Qed.

Lemma from16_take n xs : take (2 * n) (from16 xs) = from16 (take n xs).
Proof.
  revert xs. induction n as [|n IH]; intros xs; [done|]. replace (2 * S n)%nat with (S (S (2 * n))) by lia.
  destruct xs as [|x xs]; [done|]. change (from16 (x :: xs)) with (to_le 2 x ++ from16 xs). cbn [to_le app take].
  change (from16 (x :: take n xs)) with (to_le 2 x ++ from16 (take n xs)). cbn [to_le app]. do 2 f_equal. apply IH.
Qed.
Lemma from16_drop n xs : drop (2 * n) (from16 xs) = from16 (drop n xs).
Proof.
  revert xs. induction n as [|n IH]; intros xs; [done|]. replace (2 * S n)%nat with (S (S (2 * n))) by lia.
  destruct xs as [|x xs]; [done|]. change (from16 (x :: xs)) with (to_le 2 x ++ from16 xs). cbn [to_le app drop]. apply IH.
Qed.

Lemma hadd_from16 a b : _mm256_hadd_epi16 (from16 a) (from16 b) =
  from16 (pair_sums (map (wrap 16) (take 8 a)) ++ pair_sums (map (wrap 16) (take 8 b))
          ++ pair_sums (map (wrap 16) (drop 8 a)) ++ pair_sums (map (wrap 16) (drop 8 b))).
Proof.
  unfold _mm256_hadd_epi16, halves. rewrite !(from16_take 8), !(from16_drop 8), !u16s_from16, <- from16_app.
  by rewrite <- app_assoc.
Qed.

Lemma packus_from16 xs : _mm256_packus_epi16 (from16 xs) (from16 xs) =
  map (fun x => sat 0 255 (as_signed 16 x)) (take 8 xs ++ take 8 xs ++ drop 8 xs ++ drop 8 xs).
Proof.
  unfold _mm256_packus_epi16, halves. rewrite !(from16_take 8), !(from16_drop 8), !i16s_from16.
  by rewrite <- !map_app, map_map, !app_assoc, <- app_assoc.
Qed.

Lemma avx2_filter_block_exact (p q : nat -> Z) : (forall i, is_u8 (p i)) -> (forall i, is_u8 (q i)) ->
  avx2_filter_block (map p (seq 0 32)) (map q (seq 0 32)) =
  map (fun j => average4 (p (2 * j)%nat) (p (2 * j + 1)%nat) (q (2 * j)%nat) (q (2 * j + 1)%nat)) (seq 0 16).
Proof.
  intros Hp Hq. unfold avx2_filter_block. cbv zeta.
  assert (forall a, (forall i, is_u8 (a i)) ->
    u16s (_mm256_unpacklo_epi8 (map a (seq 0 32)) _mm256_setzero_si256) = map a (seq 0 8 ++ seq 16 8) /\
    u16s (_mm256_unpackhi_epi8 (map a (seq 0 32)) _mm256_setzero_si256) = map a (seq 8 8 ++ seq 24 8)) as Hu.
  { intros a Ha. split; cbn -[of_le]; by rewrite !word_of_byte by done. }
  unfold _mm256_add_epi16 at 2 3 5 6. destruct (Hu p Hp) as [-> ->]. destruct (Hu q Hq) as [-> ->].
  rewrite hadd_from16. unfold _mm256_set1_epi16, _mm256_add_epi16. rewrite !u16s_from16.
  unfold _mm256_srli_epi16. rewrite !u16s_from16, packus_from16.
  assert (forall j, sat 0 255 (as_signed 16 (average4 (p (2 * j)%nat) (p (2 * j + 1)%nat) (q (2 * j)%nat) (q (2 * j + 1)%nat)))
    = average4 (p (2 * j)%nat) (p (2 * j + 1)%nat) (q (2 * j)%nat) (q (2 * j + 1)%nat)) as Ha.
  { intros j. destruct (average4_exact _ _ _ _ (Hp (2 * j)%nat) (Hp (2 * j + 1)%nat) (Hq (2 * j)%nat) (Hq (2 * j + 1)%nat)) as [_ H].
    rewrite as_signed_small by lia. unfold sat. lia. }
  rewrite <- (map_ext _ _ Ha). unfold average4.
  change (_mm256_castsi256_si128 (_mm256_permute4x64_epi64 ?l 216)) with (take 8 l ++ take 8 (drop 16 l)).
  change (map (wrap 16) (replicate 16 2)) with (replicate 16 2).
  cbn [seq app map zip_with take drop pair_sums replicate Nat.mul Nat.add]. reflexivity.
Qed.

Lemma neon_filter_block_exact (p q : nat -> Z) : (forall i, is_u8 (p i)) -> (forall i, is_u8 (q i)) ->
  neon_filter_block (map p (seq 0 16)) (map q (seq 0 16)) =
  map (fun j => average4 (p (2 * j)%nat) (p (2 * j + 1)%nat) (q (2 * j)%nat) (q (2 * j + 1)%nat)) (seq 0 8).
Proof.
  intros Hp Hq. unfold neon_filter_block, vmovn_u16.
  assert (forall j, wrap 8 (average4 (p (2 * j)%nat) (p (2 * j + 1)%nat) (q (2 * j)%nat) (q (2 * j + 1)%nat))
    = average4 (p (2 * j)%nat) (p (2 * j + 1)%nat) (q (2 * j)%nat) (q (2 * j + 1)%nat)) as Ha.
  { intros j. destruct (average4_exact _ _ _ _ (Hp (2 * j)%nat) (Hp (2 * j + 1)%nat) (Hq (2 * j)%nat) (Hq (2 * j + 1)%nat)) as [_ H].
    apply wrap_small. change (2 ^ 8) with 256. lia. }
  rewrite <- (map_ext _ _ Ha). unfold average4, vdupq_n_u16. change (replicate 8 (wrap 16 2)) with (replicate 8 2). reflexivity.
Qed.

Lemma box_average_exact l row0 row1 j : all_bytes l ->
  box_average l row0 row1 j = average4 (byte_at l (row0 + 2 * j)) (byte_at l (row0 + 2 * j + 1))
    (byte_at l (row1 + 2 * j)) (byte_at l (row1 + 2 * j + 1)).
Proof. intros Hl. symmetry. apply average4_exact; by apply byte_at_u8. Qed.

(** A vector row computes the scalar row. *)
Lemma filter_row l row0 row1 n per block : all_bytes l -> (0 < per)%nat ->
  (forall c, (c < n / per)%nat -> block c =
    map (fun j => average4 (byte_at l (row0 + c * (2 * per) + 2 * j)) (byte_at l (row0 + c * (2 * per) + (2 * j + 1)))
                   (byte_at l (row1 + c * (2 * per) + 2 * j)) (byte_at l (row1 + c * (2 * per) + (2 * j + 1)))) (seq 0 per)) ->
  blocks_then n per block (box_average l row0 row1) = map (box_average l row0 row1) (seq 0 n).
Proof.
  intros Hl Hp Hb. apply blocks_then_map; [done| |done]. intros c Hc. rewrite Hb by done.
  rewrite (map_seq_shift _ (per * c)). apply map_ext. intros j. rewrite box_average_exact by done.
  f_equal; f_equal; lia.
Qed.

Lemma row_fits width height out_y c per : (out_y < height / 2)%nat -> (c < width / 2 / per)%nat -> (0 < per)%nat ->
  ((2 * out_y + 1) * width + c * (2 * per) + 2 * per <= width * height)%nat.
Proof.
  intros Hy Hc Hp. pose proof (Nat.div_mod height 2). pose proof (Nat.div_mod width 2). pose proof (Nat.div_mod (width / 2) per).
  assert ((c + 1) * (2 * per) <= width)%nat by nia. nia.
Qed.

(** Rows of equal length, one after the other. *)
Lemma length_rows (row : nat -> list Z) k n : (forall y, (y < k)%nat -> length (row y) = n) ->
  length (concat (map row (seq 0 k))) = (n * k)%nat.
Proof.
  intros Hr. induction k as [|k IH]; [by rewrite Nat.mul_0_r|].
  rewrite seq_S, map_app, concat_app, length_app, IH by (intros; apply Hr; lia). cbn. rewrite app_nil_r, Hr by lia. lia.
Qed.

Lemma byte_at_rows (row : nat -> list Z) k n x y : (forall y, (y < k)%nat -> length (row y) = n) -> (y < k)%nat -> (x < n)%nat ->
  byte_at (concat (map row (seq 0 k))) (y * n + x) = byte_at (row y) x.
Proof.
  intros Hr Hy Hx. unfold byte_at. induction k as [|k IH]; [lia|].
  assert (length (concat (map row (seq 0 k))) = n * k)%nat as Hl by (apply length_rows; intros; apply Hr; lia).
  rewrite seq_S, map_app, concat_app. cbn [map concat]. rewrite app_nil_r. destruct (decide (y = k)) as [->|].
  - rewrite app_nth2; rewrite Hl; [f_equal; lia|lia].
  - rewrite app_nth1 by (rewrite Hl; nia). apply IH; [intros; apply Hr; lia|lia].
Qed.

Lemma filter_exact cpu l width height :
  all_bytes l -> length l = (width * height)%nat -> (width mod 2 = 0)%nat -> (height mod 2 = 0)%nat ->
  subsample_chroma_420 cpu l width height = Ok (subsample_scalar l width height) /\
  length (subsample_scalar l width height) = (width / 2 * (height / 2))%nat /\
  forall x y, (x < width / 2)%nat -> (y < height / 2)%nat ->
    byte_at (subsample_scalar l width height) (y * (width / 2) + x) =
    (byte_at l (2 * y * width + 2 * x) + byte_at l (2 * y * width + 2 * x + 1)
     + byte_at l ((2 * y + 1) * width + 2 * x) + byte_at l ((2 * y + 1) * width + 2 * x + 1) + 2) / 4.
Proof.
  intros Hb Hl Hw Hh.
  assert (forall per block, (0 < per)%nat ->
    (forall p q, (forall i, is_u8 (p i)) -> (forall i, is_u8 (q i)) ->
      block (map p (seq 0 (2 * per))) (map q (seq 0 (2 * per))) =
      map (fun j => average4 (p (2 * j)%nat) (p (2 * j + 1)%nat) (q (2 * j)%nat) (q (2 * j + 1)%nat)) (seq 0 per)) ->
    filter_rows width height (fun row0 row1 => blocks_then (width / 2) per
      (fun chunk => block (bytes_at (row0 + chunk * (2 * per)) (2 * per) l) (bytes_at (row1 + chunk * (2 * per)) (2 * per) l))
      (box_average l row0 row1)) = subsample_scalar l width height) as Hv.
  { intros per block Hp Hk. unfold subsample_scalar, filter_rows. f_equal. apply map_ext_in. intros y Hy%in_seq.
    apply filter_row; [done..|]. intros c Hc. pose proof (row_fits width height y c per ltac:(lia) Hc Hp).
    rewrite !bytes_at_map by nia. rewrite (map_seq_shift _ (2 * y * width + _)), (map_seq_shift _ ((2 * y + 1) * width + _)).
    rewrite Hk by (intros; by apply byte_at_u8). apply map_ext. intros j. f_equal; f_equal; lia. }
  assert (forall y, (y < height / 2)%nat ->
    length (map (box_average l (2 * y * width) ((2 * y + 1) * width)) (seq 0 (width / 2))) = (width / 2)%nat) as Hrow.
  { intros. by rewrite length_map, length_seq. }
  split; [|split].
  - unfold subsample_chroma_420. rewrite Hw, Hh, (proj2 (Nat.eqb_eq _ _) Hl). cbn [Nat.eqb negb orb]. f_equal. destruct cpu; [| |done].
    + apply (Hv 16%nat avx2_filter_block); [lia|]. apply avx2_filter_block_exact.
    + apply (Hv 8%nat neon_filter_block); [lia|]. apply neon_filter_block_exact.
  - apply (length_rows (fun y => map (box_average l (2 * y * width) ((2 * y + 1) * width)) (seq 0 (width / 2)))). exact Hrow.
  - intros x y Hx Hy. unfold subsample_scalar, filter_rows.
    rewrite (byte_at_rows (fun y => map (box_average l (2 * y * width) ((2 * y + 1) * width)) (seq 0 (width / 2)))) by done.
    by rewrite byte_at_map.
Qed.

(** The vector filters are exact: for every plane of bytes with even
    dimensions, AVX2 and NEON compute the rounded average of every 2x2 block, the
    very plane of the scalar code, which has a quarter of the samples. *)
Theorem subsample_simd cpu l width height :
  all_bytes l -> length l = (width * height)%nat -> (width mod 2 = 0)%nat -> (height mod 2 = 0)%nat ->
  subsample_chroma_420 cpu l width height = Ok (subsample_scalar l width height) /\
  length (subsample_scalar l width height) = (width / 2 * (height / 2))%nat /\
  forall x y, (x < width / 2)%nat -> (y < height / 2)%nat ->
    byte_at (subsample_scalar l width height) (y * (width / 2) + x) =
    (byte_at l (2 * y * width + 2 * x) + byte_at l (2 * y * width + 2 * x + 1)
     + byte_at l ((2 * y + 1) * width + 2 * x) + byte_at l ((2 * y + 1) * width + 2 * x + 1) + 2) / 4.
Proof. exact (filter_exact cpu l width height). Qed.

Lemma subsample_simd_witness : 
  subsample_chroma_420 Avx2 (map Z.of_nat (seq 0 136)) 68 2 = Ok (subsample_scalar (map Z.of_nat (seq 0 136)) 68 2) /\
  byte_at (subsample_scalar (map Z.of_nat (seq 0 136)) 68 2) 33 = 101.
Proof.
  destruct (subsample_simd Avx2 (map Z.of_nat (seq 0 136)) 68 2) as (H & _ & Hx); [|done..|].
  - apply Forall_map, Forall_forall. intros i Hi%list_elem_of_In%in_seq. cbn. lia.
  - split; [exact H|]. etrans; [apply (Hx 33%nat 0%nat); cbn; lia|done].
Defined.

(** ** Single colours *)

(** The weights of the luma definitions, in units of 1/10000. *)
Definition luma_weights (m : ColorMatrix) : Z * Z * Z :=
  match m with BT709 => (2126, 7152, 722) | _ => (2990, 5870, 1140) end.

(** The fixed-point conversion of one colour: no intermediate result leaves the
    32-bit range; the results are bytes, and in the limited-range matrix they keep
    to 16..235 and 16..240; a grey has exactly neutral chroma, and in full range
    its luma is its level; the full-range luma is within 0.506 of the real value
    of its standard, and the limited-range one is the rounded eighth-bit formula
    plus 16 (rounded, where the documented formula truncates). *)
Theorem sample_conversion s m : is_u8 (sample_r s) -> is_u8 (sample_g s) -> is_u8 (sample_b s) ->
  let '(y, u, v) := convert_bgra_sample_to_yuv s m in
  (forall k, k ∈ [y_coefficients_fixed m; u_coefficients_fixed m; v_coefficients_fixed m] -> Z.abs (dot k s + 32768) <= i32_max) /\
  (if matrix_limited_range m
   then 16 <= y <= 235 /\ 16 <= u <= 240 /\ 16 <= v <= 240 /\
        y = (66 * sample_r s + 129 * sample_g s + 25 * sample_b s + 128) / 256 + 16
   else is_u8 y /\ is_u8 u /\ is_u8 v /\ Z.abs (10000 * y - dot (luma_weights m) s) <= 5060) /\
  (sample_r s = sample_g s -> sample_g s = sample_b s ->
   u = 128 /\ v = 128 /\ (matrix_limited_range m = false -> y = sample_g s)).
Proof.
  destruct s as [r g b]. cbn [sample_r sample_g sample_b]. intros Hr Hg Hb.
  unfold convert_bgra_sample_to_yuv, dot, clamp, sat, i32_max, luma_weights. rewrite !Z.shiftr_div_pow2 by done. change (2 ^ 16) with 65536.
  split; [|split].
  - intros k Hk. assert (k = y_coefficients_fixed m \/ k = u_coefficients_fixed m \/ k = v_coefficients_fixed m) as Hk' by set_solver.
    destruct Hk' as [->|[->| ->]], m; cbn [y_coefficients_fixed u_coefficients_fixed v_coefficients_fixed fst snd sample_r sample_g sample_b]; lia.
  - destruct m; cbn [matrix_limited_range y_coefficients_fixed u_coefficients_fixed v_coefficients_fixed fst snd sample_r sample_g sample_b];
      Z.div_mod_to_equations; lia.
  - intros -> ->. destruct m; cbn [matrix_limited_range y_coefficients_fixed u_coefficients_fixed v_coefficients_fixed fst snd sample_r sample_g sample_b];
      Z.div_mod_to_equations; lia.
Qed.

Lemma sample_conversion_witness : 
  (16 <= (convert_bgra_sample_to_yuv (mkSample 0 0 255) OpenH264).1.1 <= 235) /\
  (convert_bgra_sample_to_yuv (mkSample 2 0 0) OpenH264).1.1 = 17.
Proof.
  split; [|done]. pose proof (sample_conversion (mkSample 0 0 255) OpenH264 ltac:(by split) ltac:(by split) ltac:(by split)) as (_ & H & _).
  apply H.
Defined.

(** ** Colour metadata *)

(** [space.rs:8-12 ColorRange] *)
Inductive ColorRange := Limited | Full.
(** [space.rs:14-16 vui_flag] *)
Definition vui_flag (r : ColorRange) : Z := match r with Full => 1 | Limited => 0 end.
(** [space.rs:17-23 y_range] *)
Definition y_range (r : ColorRange) : Z * Z := match r with Full => (0, 255) | Limited => (16, 235) end.
(** [space.rs:24-30 uv_range] *)
Definition uv_range (r : ColorRange) : Z * Z := match r with Full => (0, 255) | Limited => (16, 240) end.

(** The enumerations by their H.273 codes.  [space.rs:35-41 ColourPrimaries] *)
Inductive ColourPrimaries := PrimBT709 | PrimUnspecified | PrimBT601PAL | PrimBT601NTSC | PrimBT2020.
(** [space.rs:44-51 TransferCharacteristics] *)
Inductive TransferCharacteristics := TrBT709 | TrUnspecified | TrBT601 | TrSRGB | TrBT2020_10 | TrBT2020_12.
(** [space.rs:54-59 MatrixCoefficients] *)
Inductive MatrixCoefficients := McBT709 | McUnspecified | McBT601 | McBT2020NCL.

(** [space.rs:62-68 ColorSpaceConfig] *)
Record ColorSpaceConfig := mkSpace {
  cs_matrix : ColorMatrix; cs_range : ColorRange; cs_primaries : ColourPrimaries;
  cs_transfer : TransferCharacteristics; cs_matrix_coeff : MatrixCoefficients;
}.
(** [space.rs:70-76 OPENH264_COMPATIBLE] *)
Definition OPENH264_COMPATIBLE : ColorSpaceConfig := mkSpace OpenH264 Limited PrimBT601NTSC TrBT601 McBT601.
(** [space.rs:77-83 BT601_LIMITED] *)
Definition BT601_LIMITED : ColorSpaceConfig := mkSpace BT601 Limited PrimBT601NTSC TrBT601 McBT601.
(** [space.rs:84-90 BT709_LIMITED] *)
Definition BT709_LIMITED : ColorSpaceConfig := mkSpace BT709 Limited PrimBT709 TrBT709 McBT709.
(** [space.rs:91-97 BT709_FULL] *)
Definition BT709_FULL : ColorSpaceConfig := mkSpace BT709 Full PrimBT709 TrBT709 McBT709.
(** [space.rs:98-104 SRGB_FULL] *)
Definition SRGB_FULL : ColorSpaceConfig := mkSpace BT709 Full PrimBT709 TrSRGB McBT709.

(** [space.rs:105-113 auto_select] *)
Definition space_auto_select (width height : Z) (openh264_compat : bool) : ColorSpaceConfig :=
  if openh264_compat then OPENH264_COMPATIBLE
  else if (1280 <=? width) && (720 <=? height) then BT709_LIMITED else BT601_LIMITED.

(** [space.rs:117-131 from_config] *)
Definition space_from_config (space range : str) (width height : Z) : ColorSpaceConfig :=
  let name := map ascii_lower space in
  let selected :=
    if eqs name (lit "bt709") then BT709_LIMITED
    else if eqs name (lit "bt601") then BT601_LIMITED
    else if eqs name (lit "srgb") then SRGB_FULL
    else if eqs name (lit "openh264") then OPENH264_COMPATIBLE
    else space_auto_select width height true in
  let with_range r := mkSpace (cs_matrix selected) r (cs_primaries selected) (cs_transfer selected) (cs_matrix_coeff selected) in
  if eqs (map ascii_lower range) (lit "full") then with_range Full
  else if eqs (map ascii_lower range) (lit "limited") then with_range Limited
  else selected.

(** A stream tagged with the BT.709 preset says that its range is limited, but
    the conversion by its matrix is full-range. *)
Lemma announced_range_differs_from_samples :
  cs_range (space_from_config (lit "bt709") [] 1920 1080) = Limited /\
  matrix_limited_range (cs_matrix (space_from_config (lit "bt709") [] 1920 1080)) = false /\
  (convert_bgra_sample_to_yuv (mkSample 255 255 255) (cs_matrix (space_from_config (lit "bt709") [] 1920 1080))).1.1 = 255.
Proof. by vm_compute. Qed.
