(* ===== verification/YuvPack.v ===== *)
(** * Packing 4:4:4 frames into two 4:2:0 views

    Models src/src/rdp/channels/graphics/egfx/color/yuv444_packing.rs, the frame
    padding of src/src/rdp/server/display_handler.rs and [align_to_16] of
    egfx/h264/encoder.rs.  Logging is left out. *)
From S2P Require Import Prelude Text Float Simd Color.

(** ** Frames *)

(** [yuv444_packing.rs:13-24 Yuv420Frame] *)
Record Yuv420Frame := mkYuv420 { y420 : list Z; u420 : list Z; v420 : list Z; width420 : nat; height420 : nat }.

(** [yuv444_packing.rs:26-28 chroma_dimensions_420] *)
Definition chroma_dimensions_420 (width height : nat) : nat * nat := (width / 2, height / 2)%nat.
(** [yuv444_packing.rs:30-32 chroma_index_420] *)
Definition chroma_index_420 (x y chroma_width : nat) : nat := (y * chroma_width + x)%nat.

(** [yuv444_packing.rs:55-66 new] *)
Definition yuv420_new (width height : nat) : Yuv420Frame :=
  let '(cw, ch) := chroma_dimensions_420 width height in
  mkYuv420 (replicate (width * height) 0) (replicate (cw * ch) 128) (replicate (cw * ch) 128) width height.
(** [yuv444_packing.rs:69-71 total_size] *)
Definition total_size (f : Yuv420Frame) : nat := (length (y420 f) + length (u420 f) + length (v420 f))%nat.
(** [yuv444_packing.rs:143-146 strides] *)
Definition strides (f : Yuv420Frame) : nat * nat * nat :=
  let '(uv, _) := chroma_dimensions_420 (width420 f) (height420 f) in (width420 f, uv, uv).

Inductive PlaneError := OddWidth | OddHeight | YPlaneSize | UPlaneSize | VPlaneSize.
(** [yuv444_packing.rs:167-202 validate_for_encoding] *)
Definition validate_for_encoding (f : Yuv420Frame) : outcome PlaneError unit :=
  let '(cw, ch) := chroma_dimensions_420 (width420 f) (height420 f) in
  if negb (width420 f mod 2 =? 0)%nat then Err OddWidth
  else if negb (height420 f mod 2 =? 0)%nat then Err OddHeight
  else if negb (length (y420 f) =? width420 f * height420 f)%nat then Err YPlaneSize
  else if negb (length (u420 f) =? cw * ch)%nat then Err UPlaneSize
  else if negb (length (v420 f) =? cw * ch)%nat then Err VPlaneSize
  else Ok tt.

(** [l[i]] *)
Definition index (l : list Z) (i : nat) : outcome Empty_set Z := match l !! i with Some z => Ok z | None => Panic end.
(** [l[o..o + n]] *)
Definition slice_of (l : list Z) (o n : nat) : outcome Empty_set (list Z) :=
  if (o + n <=? length l)%nat then Ok (bytes_at o n l) else Panic.
(** [dst[o..].copy_from_slice(row)] *)
Definition write_at (o : nat) (row dst : list Z) : list Z := take o dst ++ row ++ drop (o + length row) dst.
(** A loop that collects a result per element. *)
Fixpoint collect {E A B} (f : A -> outcome E B) (xs : list A) : outcome E (list B) :=
  match xs with [] => Ok [] | x :: xs => y ← f x; ys ← collect f xs; Ok (y :: ys) end.

(** ** Back to BGRA *)

(** The coefficients (rv, gu, gv, bu).  [yuv444_packing.rs:91-94 to_bgra_with_matrix] *)
Definition inverse_coefficients (m : ColorMatrix) : spec_float * spec_float * spec_float * spec_float :=
  match m with
  | BT601 | OpenH264 => (lit32 1402 1000, lit32 (-344136) 1000000, lit32 (-714136) 1000000, lit32 1772 1000)
  | BT709 => (lit32 15748 10000, lit32 (-1873) 10000, lit32 (-4681) 10000, lit32 18556 10000)
  end.

(** One pixel.  [yuv444_packing.rs:98-116 to_bgra_with_matrix] *)
Definition yuv_to_bgra (m : ColorMatrix) (y u v : Z) : list Z :=
  let '(rv, gu, gv, bu) := inverse_coefficients m in
  let y_val := f32_of_Z y in
  let u_val := sub32 (f32_of_Z u) (f32_of_Z 128) in
  let v_val := sub32 (f32_of_Z v) (f32_of_Z 128) in
  let byte f := as_uint 255 (fclamp f fzero (f32_of_Z 255)) in
  let r := add32 y_val (mul32 rv v_val) in
  let g := add32 (add32 y_val (mul32 gu u_val)) (mul32 gv v_val) in
  let b := add32 y_val (mul32 bu u_val) in
  [byte b; byte g; byte r; 255].

(** [yuv444_packing.rs:85-121 to_bgra_with_matrix] *)
Definition to_bgra_with_matrix (f : Yuv420Frame) (m : ColorMatrix) : outcome Empty_set (list Z) :=
  let '(chroma_width, _) := chroma_dimensions_420 (width420 f) (height420 f) in
  rows ← collect (fun y => collect (fun x =>
    y_val ← index (y420 f) (y * width420 f + x);
    let chroma_idx := chroma_index_420 (x / 2) (y / 2) chroma_width in
    u_val ← index (u420 f) chroma_idx;
    v_val ← index (v420 f) chroma_idx;
    Ok (yuv_to_bgra m y_val u_val v_val)) (seq 0 (width420 f))) (seq 0 (height420 f));
  Ok (concat (concat rows)).

(** ** The two views *)

(** [yuv444_packing.rs:215-292 pack_main_view] *)
Definition pack_main_view (cpu : simd) (f : Yuv444Frame) : outcome Empty_set Yuv420Frame :=
  u ← subsample_chroma_420 cpu (u444 f) (width444 f) (height444 f);
  v ← subsample_chroma_420 cpu (v444 f) (width444 f) (height444 f);
  Ok (mkYuv420 (y444 f) u v (width444 f) (height444 f)).

(** One row of the auxiliary luma: the next odd row of U in the first half of a
    macroblock row, of V in the second; rows beyond the picture stay neutral.
    [yuv444_packing.rs:372-409 pack_auxiliary_view_spec_compliant] *)
Definition aux_row_step (f : Yuv444Frame) (st : list Z * nat * nat) (aux_row : nat) : outcome Empty_set (list Z * nat * nat) :=
  let '(aux_y, u_row_counter, v_row_counter) := st in
  let width := width444 f in
  let copy plane counter :=
    let source_row := (2 * counter + 1)%nat in
    if (height444 f <=? source_row)%nat then Ok aux_y
    else row ← slice_of plane (source_row * width) width; Ok (write_at (aux_row * width) row aux_y) in
  if (aux_row mod 16 <? 8)%nat then
    aux_y ← copy (u444 f) u_row_counter; Ok (aux_y, S u_row_counter, v_row_counter)
  else
    aux_y ← copy (v444 f) v_row_counter; Ok (aux_y, u_row_counter, S v_row_counter).

(** The samples of a plane at odd columns of even rows.
    [yuv444_packing.rs:425-447 pack_auxiliary_view_spec_compliant] *)
Definition aux_chroma (plane : list Z) (width height : nat) : outcome Empty_set (list Z) :=
  let '(chroma_width, chroma_height) := chroma_dimensions_420 width height in
  rows ← collect (fun cy => collect (fun cx => index plane (cy * 2 * width + (cx * 2 + 1))) (seq 0 chroma_width)) (seq 0 chroma_height);
  Ok (concat rows).

Definition padded_rows (height : nat) : nat := ((height + 15) / 16 * 16)%nat.

(** [yuv444_packing.rs:348-447 pack_auxiliary_view_spec_compliant] *)
Definition pack_auxiliary_view (f : Yuv444Frame) : outcome Empty_set Yuv420Frame :=
  let width := width444 f in
  let height := height444 f in
  let padded_height := padded_rows height in
  st ← mfold (aux_row_step f) (replicate (padded_height * width) 128, 0%nat, 0%nat) (seq 0 padded_height);
  aux_u ← aux_chroma (u444 f) width height;
  aux_v ← aux_chroma (v444 f) width height;
  Ok (mkYuv420 (take (height * width) st.1.1) aux_u aux_v width height).

(** [yuv444_packing.rs:692-696 pack_dual_views] *)
Definition pack_dual_views (cpu : simd) (f : Yuv444Frame) : outcome Empty_set (Yuv420Frame * Yuv420Frame) :=
  main_view ← pack_main_view cpu f;
  aux_view ← pack_auxiliary_view f;
  Ok (main_view, aux_view).

(** [yuv444_packing.rs:702-704 validate_dimensions] *)
Definition validate_dimensions (width height : nat) : bool :=
  (width mod 2 =? 0)%nat && (height mod 2 =? 0)%nat && (0 <? width)%nat && (0 <? height)%nat.

(** ** Aligned frames *)

(** [h264/encoder.rs:91-93 align_to_16] *)
Definition align_to_16 (value : nat) : nat := ((value + 15) / 16 * 16)%nat.

(** One row, its last pixel repeated up to the aligned width.
    [display_handler.rs:936-951 pad_frame_to_aligned] *)
Definition pad_row (data : list Z) (width aligned_width y : nat) : outcome Empty_set (list Z) :=
  row ← slice_of data (y * (width * 4)) (width * 4);
  if (width <? aligned_width)%nat then
    last ← slice_of data (y * (width * 4) + (width * 4 - 4)) 4;
    Ok (row ++ concat (replicate (aligned_width - width) last))
  else Ok row.

(** For an aligned size that is not smaller.  [display_handler.rs:924-963 pad_frame_to_aligned] *)
Definition pad_frame_to_aligned (data : list Z) (width height aligned_width aligned_height : nat) : outcome Empty_set (list Z) :=
  rows ← collect (pad_row data width aligned_width) (seq 0 height);
  if (height <? aligned_height)%nat then
    match last rows with
    | Some last_row => Ok (concat rows ++ concat (replicate (aligned_height - height) last_row))
    | None => Panic
    end
  else Ok (concat rows).

(** ** Lemmas on loops *)
Lemma collect_ok {E A B} (f : A -> outcome E B) (g : A -> B) xs :
  (forall x, In x xs -> f x = Ok (g x)) -> collect f xs = Ok (map g xs).
Proof.
  induction xs as [|x xs IH]; intros H; [done|]. cbn [collect map]. rewrite H by (by left). cbn.
  rewrite IH by (intros; apply H; by right). done.
Qed.

Lemma index_ok l i : (i < length l)%nat -> index l i = Ok (byte_at l i).
Proof.
  intros Hi. unfold index, byte_at. destruct (lookup_lt_is_Some_2 l i Hi) as [z Hz]. rewrite Hz. by rewrite (nth_lookup_Some _ _ _ _ Hz).
Qed.

Lemma slice_ok l o n : (o + n <= length l)%nat -> slice_of l o n = Ok (bytes_at o n l).
Proof. intros H. unfold slice_of. by rewrite (proj2 (Nat.leb_le _ _) H). Qed.

Lemma length_bytes_at l o n : (o + n <= length l)%nat -> length (bytes_at o n l) = n.
Proof. intros H. unfold bytes_at. rewrite length_take, length_drop. lia. Qed.

Lemma byte_at_bytes_at l o n i : (o + n <= length l)%nat -> (i < n)%nat -> byte_at (bytes_at o n l) i = byte_at l (o + i).
Proof. intros Ho Hi. rewrite bytes_at_map by done. rewrite map_seq_shift, byte_at_map by done. done. Qed.

Lemma write_at_front l row rest : length rest = length row -> write_at (length l) row (l ++ rest) = l ++ row.
Proof.
  intros Hr. unfold write_at. rewrite take_app_length, drop_ge; [by rewrite app_nil_r|]. rewrite length_app. lia.
Qed.

Lemma write_at_next l row more : length more = length row -> forall rest,
  write_at (length l) row (l ++ more ++ rest) = (l ++ row) ++ rest.
Proof.
  intros Hm rest. unfold write_at. rewrite take_app_length, <- app_assoc. do 2 f_equal.
  rewrite app_assoc, drop_app_length'; [done|]. rewrite length_app. lia.
Qed.

Lemma byte_at_take l n i : (i < n)%nat -> byte_at (take n l) i = byte_at l i.
Proof.
  intros Hi. unfold byte_at. revert n i Hi. induction l as [|x l IH]; intros n i Hi; [by rewrite take_nil|].
  destruct n as [|n]; [lia|]. destruct i as [|i]; [done|]. cbn. apply IH. lia.
Qed.

Lemma byte_at_replicate n z i : (i < n)%nat -> byte_at (replicate n z) i = z.
Proof.
  intros Hi. unfold byte_at. rewrite (nth_lookup_Some _ _ _ z); [done|]. by apply lookup_replicate_2.
Qed.

(** ** The auxiliary view *)

(** A frame whose planes have the announced size and hold bytes. *)
Definition frame_ok (f : Yuv444Frame) : Prop :=
  let n := (width444 f * height444 f)%nat in
  length (y444 f) = n /\ length (u444 f) = n /\ length (v444 f) = n /\
  all_bytes (u444 f) /\ all_bytes (v444 f).

Section aux.
Context (f : Yuv444Frame) (Hf : frame_ok f).
Notation w := (width444 f).
Notation h := (height444 f).

(** How many rows of either plane are packed before row [r]. *)
Definition u_count (r : nat) : nat := (8 * (r / 16) + Nat.min (r mod 16) 8)%nat.
Definition v_count (r : nat) : nat := (8 * (r / 16) + (r mod 16 - 8))%nat.

Definition aux_source_row (r : nat) : nat := (2 * (if r mod 16 <? 8 then u_count r else v_count r) + 1)%nat.
Definition aux_plane (r : nat) : list Z := if (r mod 16 <? 8)%nat then u444 f else v444 f.
Definition aux_row (r : nat) : list Z :=
  if (h <=? aux_source_row r)%nat then replicate w 128 else bytes_at (aux_source_row r * w) w (aux_plane r).

Lemma plane_length r : length (aux_plane r) = (w * h)%nat.
Proof. destruct Hf as (_ & Hu & Hv & _). unfold aux_plane. by case_match. Qed.

Lemma length_aux_row r : length (aux_row r) = w.
Proof.
  unfold aux_row. destruct (Nat.leb_spec h (aux_source_row r)); [by rewrite length_replicate|].
  apply length_bytes_at. rewrite plane_length. nia.
Qed.

Lemma counts_succ r : u_count (S r) = (if (r mod 16 <? 8)%nat then S (u_count r) else u_count r) /\
  v_count (S r) = (if (r mod 16 <? 8)%nat then v_count r else S (v_count r)).
Proof.
  unfold u_count, v_count. pose proof (Nat.div_mod r 16). pose proof (Nat.mod_upper_bound r 16).
  pose proof (Nat.div_mod (S r) 16). pose proof (Nat.mod_upper_bound (S r) 16). destruct (Nat.ltb_spec (r mod 16) 8).
  - assert (S r / 16 = r / 16)%nat as -> by (symmetry; apply (Nat.div_unique _ _ _ (S (r mod 16))); lia).
    assert (S r mod 16 = S (r mod 16))%nat as -> by (symmetry; apply (Nat.mod_unique _ _ (r / 16)); lia). lia.
  - destruct (decide (r mod 16 = 15)%nat) as [E|].
    + assert (S r / 16 = S (r / 16))%nat as -> by (symmetry; apply (Nat.div_unique _ _ _ 0); lia).
      assert (S r mod 16 = 0)%nat as -> by (symmetry; apply (Nat.mod_unique _ _ (S (r / 16))); lia). lia.
    + assert (S r / 16 = r / 16)%nat as -> by (symmetry; apply (Nat.div_unique _ _ _ (S (r mod 16))); lia).
      assert (S r mod 16 = S (r mod 16))%nat as -> by (symmetry; apply (Nat.mod_unique _ _ (r / 16)); lia). lia.
Qed.

Definition aux_rows (n : nat) : list Z := concat (map aux_row (seq 0 n)).

Lemma length_aux_rows n : length (aux_rows n) = (n * w)%nat.
Proof. unfold aux_rows. rewrite (length_rows aux_row n w) by (intros; apply length_aux_row). lia. Qed.

Lemma aux_step r m : aux_row_step f (aux_rows r ++ replicate (S m * w) 128, u_count r, v_count r) r =
  Ok (aux_rows (S r) ++ replicate (m * w) 128, u_count (S r), v_count (S r)).
Proof.
  destruct (counts_succ r) as [-> ->].
  assert (aux_rows (S r) = aux_rows r ++ aux_row r) as ->.
  { unfold aux_rows. rewrite seq_S, map_app, concat_app. cbn. by rewrite app_nil_r. }
  assert (replicate (S m * w) 128 = replicate w 128 ++ replicate (m * w) 128) as -> by (rewrite <- replicate_add; done).
  unfold aux_row_step. cbv zeta beta.
  assert (forall k, (2 * k + 1)%nat = aux_source_row r ->
    (if (h <=? 2 * k + 1)%nat then Ok (aux_rows r ++ replicate w 128 ++ replicate (m * w) 128)
     else row ← slice_of (aux_plane r) ((2 * k + 1) * w) w;
       Ok (write_at (r * w) row (aux_rows r ++ replicate w 128 ++ replicate (m * w) 128))) =
    Ok ((aux_rows r ++ aux_row r) ++ replicate (m * w) 128) :> outcome Empty_set _) as Hc.
  { intros k ->. unfold aux_row. destruct (Nat.leb_spec h (aux_source_row r)); [by rewrite app_assoc|].
    assert (aux_source_row r * w + w <= length (aux_plane r))%nat as Hfit by (rewrite plane_length; nia).
    rewrite slice_ok by done. cbn. rewrite <- (length_aux_rows r), write_at_next; [done|].
    by rewrite length_replicate, length_bytes_at. }
  unfold aux_source_row, aux_plane in Hc. destruct (r mod 16 <? 8)%nat eqn:Er; rewrite Hc by done; done.
Qed.

Lemma aux_loop m : forall r, mfold (aux_row_step f) (aux_rows r ++ replicate (m * w) 128, u_count r, v_count r) (seq r m) =
  Ok (aux_rows (r + m), u_count (r + m), v_count (r + m)).
Proof.
  induction m as [|m IH]; intros r; cbn [seq mfold].
  - by rewrite Nat.add_0_r, app_nil_r.
  - rewrite aux_step. cbn [mbind outcome_bind]. rewrite IH. by rewrite Nat.add_succ_comm.
Qed.

Lemma aux_chroma_ok plane : length plane = (w * h)%nat ->
  aux_chroma plane w h = Ok (concat (map (fun cy => map (fun cx => byte_at plane (cy * 2 * w + (cx * 2 + 1))) (seq 0 (w / 2))) (seq 0 (h / 2)))).
Proof.
  intros Hl. unfold aux_chroma, chroma_dimensions_420. pose proof (Nat.div_mod w 2). pose proof (Nat.div_mod h 2).
  rewrite (collect_ok _ (fun cy => map (fun cx => byte_at plane (cy * 2 * w + (cx * 2 + 1))) (seq 0 (w / 2)))); [done|].
  intros cy Hcy%in_seq. apply collect_ok. intros cx Hcx%in_seq. apply index_ok. rewrite Hl. nia.
Qed.

Lemma pack_auxiliary_ok : exists aux, pack_auxiliary_view f = Ok aux /\ width420 aux = w /\ height420 aux = h /\
  y420 aux = take (h * w) (aux_rows (padded_rows h)) /\
  u420 aux = concat (map (fun cy => map (fun cx => byte_at (u444 f) (cy * 2 * w + (cx * 2 + 1))) (seq 0 (w / 2))) (seq 0 (h / 2))) /\
  v420 aux = concat (map (fun cy => map (fun cx => byte_at (v444 f) (cy * 2 * w + (cx * 2 + 1))) (seq 0 (w / 2))) (seq 0 (h / 2))).
Proof.
  unfold pack_auxiliary_view. cbv zeta. pose proof (aux_loop (padded_rows h) 0) as Hl. cbn [aux_rows seq map concat app Nat.add] in Hl.
  change (u_count 0) with 0%nat in Hl. change (v_count 0) with 0%nat in Hl. rewrite Hl. cbn [mbind outcome_bind].
  destruct Hf as (_ & Hu & Hv & _). rewrite !aux_chroma_ok by done. cbn [mbind outcome_bind]. eexists. split; [reflexivity|]. done.
Qed.
End aux.

(** ** What a client can reconstruct *)

(** The sample of a chroma plane that the MS-RDPEGFX layout places in the two
    views: odd rows in the auxiliary luma ([half] is 0 for U and 8 for V), odd
    columns of even rows in the auxiliary chroma, and the remaining quarter from
    the average in the main chroma and its three neighbours. *)
Definition client_direct (aux_y aux_c : list Z) (half w x y : nat) : Z :=
  if Nat.odd y then byte_at aux_y ((16 * (y / 16) + half + (y mod 16) / 2) * w + x)
  else byte_at aux_c (y / 2 * (w / 2) + x / 2).
Definition client_sample (main_c aux_y aux_c : list Z) (half w x y : nat) : Z :=
  let direct := client_direct aux_y aux_c half w in
  if Nat.odd y || Nat.odd x then direct x y
  else 4 * byte_at main_c (y / 2 * (w / 2) + x / 2) - direct (x + 1)%nat y - direct x (y + 1)%nat - direct (x + 1)%nat (y + 1)%nat.
Definition client_u (main aux : Yuv420Frame) : nat -> nat -> Z := client_sample (u420 main) (y420 aux) (u420 aux) 0 (width420 main).
Definition client_v (main aux : Yuv420Frame) : nat -> nat -> Z := client_sample (v420 main) (y420 aux) (v420 aux) 8 (width420 main).

Lemma odd_source_row f y half : (half = 0 \/ half = 8)%nat -> Nat.odd y = true ->
  let r := (16 * (y / 16) + half + (y mod 16) / 2)%nat in
  aux_source_row r = y /\ aux_plane f r = (if (half =? 0)%nat then u444 f else v444 f).
Proof.
  intros Hh Hy. cbv zeta. set (r := (16 * (y / 16) + half + (y mod 16) / 2)%nat).
  pose proof (Nat.mod_upper_bound y 16). pose proof (Nat.div_mod y 16).
  assert (y mod 16 = 2 * (y mod 16 / 2) + 1)%nat as Hy2.
  { apply Nat.odd_spec in Hy as [k Hk]. pose proof (Nat.div_mod (y mod 16) 2). pose proof (Nat.mod_upper_bound (y mod 16) 2). lia. }
  assert (half + y mod 16 / 2 < 16)%nat by lia.
  assert (r / 16 = y / 16)%nat as Hd by (symmetry; apply (Nat.div_unique _ _ _ (half + y mod 16 / 2)); unfold r; lia).
  assert (r mod 16 = half + y mod 16 / 2)%nat as Hm by (symmetry; apply (Nat.mod_unique _ _ (y / 16)); unfold r; lia).
  unfold aux_source_row, aux_plane, u_count, v_count. rewrite Hm, Hd.
  destruct Hh as [-> | ->]; cbn [Nat.eqb].
  - rewrite (proj2 (Nat.ltb_lt _ _)) by lia. split; [lia|done].
  - rewrite (proj2 (Nat.ltb_ge _ _)) by lia. split; [lia|done].
Qed.

Lemma padded_rows_exact h : (h mod 16 = 0)%nat -> padded_rows h = h.
Proof.
  intros Hh. unfold padded_rows. pose proof (Nat.div_mod h 16).
  assert ((h + 15) / 16 = h / 16)%nat as -> by (symmetry; apply (Nat.div_unique _ _ _ 15); lia). lia.
Qed.

Lemma mod_16_even h : (h mod 16 = 0)%nat -> (h mod 2 = 0)%nat.
Proof. intros Hh. pose proof (Nat.div_mod h 16). apply Nat.Div0.mod_divides. exists (8 * (h / 16))%nat. lia. Qed.

(** The direct part of the layout is exact. *)
Lemma client_direct_exact f aux half x y : frame_ok f -> (width444 f mod 2 = 0)%nat -> (height444 f mod 16 = 0)%nat ->
  (half = 0 \/ half = 8)%nat -> pack_auxiliary_view f = Ok aux -> (x < width444 f)%nat -> (y < height444 f)%nat ->
  Nat.odd y || Nat.odd x = true ->
  client_direct (y420 aux) (if (half =? 0)%nat then u420 aux else v420 aux) half (width444 f) x y =
  byte_at (if (half =? 0)%nat then u444 f else v444 f) (y * width444 f + x).
Proof.
  intros Hf Hw Hh Hhalf Ha Hx Hy Ho. destruct (pack_auxiliary_ok f Hf) as (aux' & Ha' & _ & _ & Ey & Eu & Ev).
  rewrite Ha in Ha'. apply Ok_inj in Ha' as <-. unfold client_direct. destruct (Nat.odd y) eqn:Hoy.
  - set (r := (16 * (y / 16) + half + (y mod 16) / 2)%nat). destruct (odd_source_row f y half Hhalf Hoy) as [Hs Hp]. fold r in Hs, Hp.
    assert (r < height444 f)%nat as Hr.
    { pose proof (Nat.div_mod y 16). pose proof (Nat.mod_upper_bound y 16). pose proof (Nat.div_mod (height444 f) 16).
      assert (y / 16 < height444 f / 16)%nat by (apply Nat.div_lt_upper_bound; lia).
      assert (y mod 16 / 2 < 8)%nat by (apply Nat.div_lt_upper_bound; lia). unfold r. lia. }
    rewrite Ey, byte_at_take by nia. rewrite padded_rows_exact by done. unfold aux_rows.
    rewrite (byte_at_rows (aux_row f) (height444 f) (width444 f)) by (done || (intros; by apply length_aux_row)).
    unfold aux_row. rewrite Hs, (proj2 (Nat.leb_gt _ _) Hy).
    rewrite byte_at_bytes_at by (done || (rewrite plane_length by done; nia)). by rewrite Hp.
  - cbn [orb] in Ho. assert (y = y / 2 * 2)%nat as Hy2.
    { pose proof (Nat.div_mod y 2). rewrite <- Nat.negb_even in Hoy. apply negb_false_iff, Nat.even_spec in Hoy as [k Hk].
      pose proof (Nat.mod_upper_bound y 2). lia. }
    assert (x = x / 2 * 2 + 1)%nat as Hx2.
    { apply Nat.odd_spec in Ho as [k Hk]. pose proof (Nat.div_mod x 2). pose proof (Nat.mod_upper_bound x 2). lia. }
    pose proof (Nat.div_mod (width444 f) 2). pose proof (Nat.div_mod (height444 f) 2). pose proof (mod_16_even _ Hh).
    assert (forall plane, byte_at (concat (map (fun cy => map (fun cx => byte_at plane (cy * 2 * width444 f + (cx * 2 + 1))) (seq 0 (width444 f / 2)))
       (seq 0 (height444 f / 2)))) (y / 2 * (width444 f / 2) + x / 2) = byte_at plane (y * width444 f + x)) as Hc.
    { intros plane. rewrite (byte_at_rows (fun cy => map (fun cx => byte_at plane (cy * 2 * width444 f + (cx * 2 + 1))) (seq 0 (width444 f / 2)))).
      - rewrite byte_at_map by lia. f_equal. lia.
      - intros. by rewrite length_map, length_seq.
      - lia.
      - lia. }
    destruct Hhalf as [-> | ->]; cbn [Nat.eqb]; rewrite ?Eu, ?Ev; apply Hc.
Qed.

(** The averaged quarter is off by what the rounding of the average lost. *)
Lemma client_sample_bound f aux half x y : frame_ok f -> (width444 f mod 2 = 0)%nat -> (height444 f mod 16 = 0)%nat ->
  (half = 0 \/ half = 8)%nat -> pack_auxiliary_view f = Ok aux -> (x < width444 f)%nat -> (y < height444 f)%nat ->
  let plane := if (half =? 0)%nat then u444 f else v444 f in
  let sample := client_sample (subsample_scalar plane (width444 f) (height444 f)) (y420 aux)
    (if (half =? 0)%nat then u420 aux else v420 aux) half (width444 f) x y in
  -1 <= sample - byte_at plane (y * width444 f + x) <= 2 /\
  (Nat.odd y || Nat.odd x = true -> sample = byte_at plane (y * width444 f + x)).
Proof.
  intros Hf Hw Hh Hhalf Ha Hx Hy. cbv zeta. set (plane := if (half =? 0)%nat then u444 f else v444 f).
  unfold client_sample. pose proof (client_direct_exact f aux half) as Hd. fold plane in Hd. destruct (Nat.odd y || Nat.odd x) eqn:Ho.
  { rewrite Hd by done. split; [lia|done]. }
  apply orb_false_iff in Ho as [Hoy Hox]. split; [|done].
  assert (y = 2 * (y / 2))%nat as Hy2.
  { rewrite <- Nat.negb_even in Hoy. apply negb_false_iff, Nat.even_spec in Hoy as [k ->]. rewrite (Nat.mul_comm 2 k) at 2.
    by rewrite Nat.div_mul. }
  assert (x = 2 * (x / 2))%nat as Hx2.
  { rewrite <- Nat.negb_even in Hox. apply negb_false_iff, Nat.even_spec in Hox as [k ->]. rewrite (Nat.mul_comm 2 k) at 2.
    by rewrite Nat.div_mul. }
  pose proof (Nat.div_mod (width444 f) 2). pose proof (Nat.div_mod (height444 f) 2). pose proof (mod_16_even _ Hh).
  assert (Nat.odd (y + 1) = true) as Ho1 by (rewrite Nat.add_1_r, Nat.odd_succ, <- Nat.negb_odd, Hoy; done).
  assert (Nat.odd (x + 1) = true) as Ho2 by (rewrite Nat.add_1_r, Nat.odd_succ, <- Nat.negb_odd, Hox; done).
  rewrite (Hd (x + 1)%nat y), (Hd x (y + 1)%nat), (Hd (x + 1)%nat (y + 1)%nat)
    by (try done; try lia; by rewrite ?Ho1, ?Ho2, ?orb_true_r).
  assert (all_bytes plane /\ length plane = (width444 f * height444 f)%nat) as [Hb Hl].
  { destruct Hf as (_ & ? & ? & ? & ?). unfold plane. by case_match. }
  destruct (filter_exact NoSimd plane (width444 f) (height444 f) Hb Hl Hw ltac:(done)) as (_ & _ & Hs).
  rewrite Hs by lia. rewrite <- Hy2, <- Hx2.
  replace ((y + 1) * width444 f + (x + 1))%nat with ((y + 1) * width444 f + x + 1)%nat by lia.
  replace (y * width444 f + (x + 1))%nat with (y * width444 f + x + 1)%nat by lia.
  Z.div_mod_to_equations. lia.
Qed.

Lemma pack_main_ok cpu f : frame_ok f -> (width444 f mod 2 = 0)%nat -> (height444 f mod 2 = 0)%nat ->
  pack_main_view cpu f = Ok (mkYuv420 (y444 f) (subsample_scalar (u444 f) (width444 f) (height444 f))
    (subsample_scalar (v444 f) (width444 f) (height444 f)) (width444 f) (height444 f)).
Proof.
  intros (Hy & Hu & Hv & Bu & Bv) Hw Hh. unfold pack_main_view.
  destruct (filter_exact cpu (u444 f) (width444 f) (height444 f) Bu Hu Hw Hh) as (-> & _).
  destruct (filter_exact cpu (v444 f) (width444 f) (height444 f) Bv Hv Hw Hh) as (-> & _). done.
Qed.

Lemma valid_views f main aux : frame_ok f -> (width444 f mod 2 = 0)%nat -> (height444 f mod 2 = 0)%nat ->
  pack_main_view NoSimd f = Ok main -> pack_auxiliary_view f = Ok aux ->
  validate_for_encoding main = Ok tt /\ (height444 f <= padded_rows (height444 f))%nat /\ validate_for_encoding aux = Ok tt.
Proof.
  intros Hf Hw Hh Hm Ha. rewrite pack_main_ok in Hm by done. apply Ok_inj in Hm as <-.
  destruct (pack_auxiliary_ok f Hf) as (aux' & Ha' & Ew & Eh & Ey & Eu & Ev). rewrite Ha in Ha'. apply Ok_inj in Ha' as <-.
  assert (height444 f <= padded_rows (height444 f))%nat as Hp.
  { unfold padded_rows. pose proof (Nat.div_mod (height444 f + 15) 16). pose proof (Nat.mod_upper_bound (height444 f + 15) 16). lia. }
  destruct Hf as (Hy & Hu & Hv & Bu & Bv).
  destruct (filter_exact NoSimd (u444 f) (width444 f) (height444 f) Bu Hu Hw Hh) as (_ & Lu & _).
  destruct (filter_exact NoSimd (v444 f) (width444 f) (height444 f) Bv Hv Hw Hh) as (_ & Lv & _).
  assert (forall plane, length (concat (map (fun cy => map (fun cx => byte_at plane (cy * 2 * width444 f + (cx * 2 + 1))) (seq 0 (width444 f / 2)))
    (seq 0 (height444 f / 2)))) = (width444 f / 2 * (height444 f / 2))%nat) as Hc.
  { intros plane. apply (length_rows (fun cy => map (fun cx => byte_at plane (cy * 2 * width444 f + (cx * 2 + 1))) (seq 0 (width444 f / 2)))).
    intros. by rewrite length_map, length_seq. }
  split; [|split; [done|]]; unfold validate_for_encoding, chroma_dimensions_420; cbn [width420 height420 y420 u420 v420].
  - rewrite Hw, Hh, Hy, Lu, Lv, !Nat.eqb_refl. done.
  - rewrite Ew, Eh, Hw, Hh, Ey, Eu, Ev, !Hc. rewrite length_take, length_aux_rows by done.
    rewrite Nat.min_l by nia. by rewrite (Nat.mul_comm (height444 f)), !Nat.eqb_refl.
Qed.


Definition sample_frame (h : nat) (v : list Z) : Yuv444Frame :=
  mkYuv444 (replicate (2 * h) 7) (map Z.of_nat (seq 0 (2 * h))) v 2 h.


(** Without the padding the last odd rows of V are cut off: two frames of eight
    rows that differ there are packed to the same views. *)
Lemma short_frame_loses_rows :
  let f v1 v2 := sample_frame 8 (replicate 2 100 ++ [v1; v2] ++ replicate 12 100) in
  pack_dual_views NoSimd (f 90 110) = pack_dual_views NoSimd (f 110 90) /\
  is_ok (pack_dual_views NoSimd (f 90 110)) = true.
Proof. by vm_compute. Qed.

(** ** Aligned frames *)
Lemma align_to_16_spec v : (align_to_16 v mod 16 = 0 /\ v <= align_to_16 v < v + 16)%nat.
Proof.
  unfold align_to_16. split; [apply Nat.Div0.mod_mul|].
  pose proof (Nat.div_mod (v + 15) 16). pose proof (Nat.mod_upper_bound (v + 15) 16). lia.
Qed.

Lemma length_concat_replicate {A} n (l : list A) : length (concat (replicate n l)) = (n * length l)%nat.
Proof. induction n as [|n IH]; [done|]. cbn. rewrite length_app, IH. done. Qed.

Lemma byte_at_app1 a b i : (i < length a)%nat -> byte_at (a ++ b) i = byte_at a i.
Proof. intros. unfold byte_at. by rewrite app_nth1. Qed.
Lemma byte_at_app2 a b i : (length a <= i)%nat -> byte_at (a ++ b) i = byte_at b (i - length a).
Proof. intros. unfold byte_at. by rewrite app_nth2. Qed.

Lemma byte_at_repeat n l k i : (k < n)%nat -> (i < length l)%nat -> byte_at (concat (replicate n l)) (k * length l + i) = byte_at l i.
Proof.
  revert k. induction n as [|n IH]; intros k Hk Hi; [lia|]. cbn [replicate concat]. destruct k as [|k].
  - by rewrite byte_at_app1.
  - rewrite byte_at_app2 by nia. rewrite <- (IH k) by lia. f_equal. nia.
Qed.

(** One padded row, pixel by pixel. *)
Definition padded_row (data : list Z) (width aligned_width y : nat) : list Z :=
  bytes_at (y * (width * 4)) (width * 4) data ++
  concat (replicate (aligned_width - width) (bytes_at (y * (width * 4) + (width * 4 - 4)) 4 data)).

Section pad.
Context (data : list Z) (w h aw ah : nat).
Context (Hw : (0 < w <= aw)%nat) (Hh : (0 < h <= ah)%nat) (Hl : length data = (w * h * 4)%nat).

Lemma row_in_data y : (y < h)%nat -> (y * (w * 4) + w * 4 <= length data)%nat.
Proof. intros. rewrite Hl. nia. Qed.

Lemma pad_row_ok y : (y < h)%nat -> pad_row data w aw y = Ok (padded_row data w aw y).
Proof.
  intros Hy. pose proof (row_in_data y Hy). unfold pad_row, padded_row. rewrite (slice_ok data (y * (w * 4)) (w * 4)) by done. cbn [mbind outcome_bind].
  destruct (Nat.ltb_spec w aw) as [|].
  - rewrite slice_ok by lia. done.
  - replace (aw - w)%nat with 0%nat by lia. cbn [replicate concat]. by rewrite app_nil_r.
Qed.

Lemma length_padded_row y : (y < h)%nat -> length (padded_row data w aw y) = (aw * 4)%nat.
Proof.
  intros Hy. pose proof (row_in_data y Hy). unfold padded_row.
  rewrite length_app, length_concat_replicate, !length_bytes_at by lia. lia.
Qed.

Lemma padded_row_pixel y x c : (y < h)%nat -> (x < aw)%nat -> (c < 4)%nat ->
  byte_at (padded_row data w aw y) (x * 4 + c) = byte_at data ((y * w + Nat.min x (w - 1)) * 4 + c).
Proof.
  intros Hy Hx Hc. pose proof (row_in_data y Hy). unfold padded_row. destruct (decide (x < w)%nat).
  - rewrite byte_at_app1 by (rewrite length_bytes_at by lia; lia). rewrite byte_at_bytes_at by lia. f_equal. lia.
  - rewrite byte_at_app2 by (rewrite length_bytes_at by lia; lia). rewrite length_bytes_at by lia.
    assert (length (bytes_at (y * (w * 4) + (w * 4 - 4)) 4 data) = 4)%nat as H4 by (apply length_bytes_at; lia).
    replace (x * 4 + c - w * 4)%nat with ((x - w) * length (bytes_at (y * (w * 4) + (w * 4 - 4)) 4 data) + c)%nat by lia.
    rewrite byte_at_repeat by lia. rewrite byte_at_bytes_at by lia. f_equal. nia.
Qed.

Lemma pad_frame_ok : exists p, pad_frame_to_aligned data w h aw ah = Ok p /\ length p = (aw * ah * 4)%nat /\
  forall x y c, (x < aw)%nat -> (y < ah)%nat -> (c < 4)%nat ->
    byte_at p ((y * aw + x) * 4 + c) = byte_at data ((Nat.min y (h - 1) * w + Nat.min x (w - 1)) * 4 + c).
Proof.
  unfold pad_frame_to_aligned.
  rewrite (collect_ok _ (padded_row data w aw)) by (intros y Hy%in_seq; apply pad_row_ok; lia). cbn [mbind outcome_bind].
  set (top := concat (map (padded_row data w aw) (seq 0 h))).
  assert (length top = aw * 4 * h)%nat as Ht by (apply length_rows; intros; by apply length_padded_row).
  assert (forall x y c, (x < aw)%nat -> (y < h)%nat -> (c < 4)%nat ->
    byte_at top ((y * aw + x) * 4 + c) = byte_at data ((y * w + Nat.min x (w - 1)) * 4 + c)) as Htop.
  { intros x y c Hx Hy Hc. rewrite <- padded_row_pixel by done.
    assert (x * 4 + c < aw * 4)%nat as Hxc by lia.
    rewrite <- (byte_at_rows (padded_row data w aw) h (aw * 4)) by (done || (intros; by apply length_padded_row)).
    fold top. f_equal. lia. }
  destruct (Nat.ltb_spec h ah).
  - assert (last (map (padded_row data w aw) (seq 0 h)) = Some (padded_row data w aw (h - 1))) as ->.
    { destruct h as [|k]; [lia|]. rewrite seq_S, map_app. cbn [map]. rewrite last_snoc. do 2 f_equal. lia. }
    eexists. split; [reflexivity|]. assert (length (padded_row data w aw (h - 1)) = aw * 4)%nat as Hlast by (apply length_padded_row; lia).
    split; [rewrite length_app, length_concat_replicate, Ht, Hlast; nia|].
    intros x y c Hx Hy Hc. destruct (decide (y < h)%nat).
    + rewrite byte_at_app1 by nia. rewrite Htop by done. by replace (Nat.min y (h - 1)) with y by lia.
    + rewrite byte_at_app2 by nia. rewrite Ht.
      replace ((y * aw + x) * 4 + c - aw * 4 * h)%nat with ((y - h) * length (padded_row data w aw (h - 1)) + (x * 4 + c))%nat by nia.
      rewrite byte_at_repeat by lia. rewrite padded_row_pixel by lia. by replace (Nat.min y (h - 1)) with (h - 1)%nat by lia.
  - eexists. split; [reflexivity|]. split; [rewrite Ht; nia|]. intros x y c Hx Hy Hc. rewrite Htop by lia. by replace (Nat.min y (h - 1)) with y by lia.
Qed.
End pad.

Lemma padded_bytes data w h aw ah p : all_bytes data -> length p = (aw * ah * 4)%nat ->
  (forall x y c, (x < aw)%nat -> (y < ah)%nat -> (c < 4)%nat ->
     byte_at p ((y * aw + x) * 4 + c) = byte_at data ((Nat.min y (h - 1) * w + Nat.min x (w - 1)) * 4 + c)) -> all_bytes p.
Proof.
  intros Hb Lp Pp. unfold all_bytes. rewrite Forall_forall. intros b Hin%list_elem_of_In. apply (In_nth _ _ 0) in Hin as (i & Hi & <-).
  fold (byte_at p i). pose proof (Nat.div_mod i 4). pose proof (Nat.mod_upper_bound i 4).
  pose proof (Nat.div_mod (i / 4) aw). pose proof (Nat.mod_upper_bound (i / 4) aw).
  replace i with ((i / 4 / aw * aw + i / 4 mod aw) * 4 + i mod 4)%nat by lia. rewrite Pp; [by apply byte_at_u8|nia| |lia].
  apply Nat.div_lt_upper_bound; [nia|]. nia.
Qed.

Lemma conversion_frame_ok cpu bgra w h m : all_bytes bgra -> length bgra = (w * h * 4)%nat ->
  exists f, bgra_to_yuv444 cpu bgra w h m = Ok f /\ width444 f = w /\ height444 f = h /\ frame_ok f.
Proof.
  intros Hb Hl. destruct (vector_planes bgra w h m Hb Hl) as (H1 & H2 & H3).
  set (r := bgra_to_yuv444_scalar bgra (yuv444_new w h) m) in *.
  assert (width444 r = w /\ height444 r = h) as [Ew Eh] by done.
  assert (frame_ok r) as Hr.
  { unfold frame_ok. rewrite Ew, Eh. unfold r, bgra_to_yuv444_scalar, with_planes. cbv zeta. cbn [y444 u444 v444 with_planes].
    change (pixel_count (yuv444_new w h)) with (w * h)%nat. rewrite !length_map, length_seq. split; [done|]. split; [done|]. split; [done|].
    split; apply Forall_map, Forall_map, Forall_forall; intros i _; unfold convert_bgra_sample_to_yuv, clamp, sat;
      cbn; case_match; lia. }
  assert (forall p, all_bytes p -> all_bytes (repeated (w * h) p) /\ length (repeated (w * h) p) = (w * h)%nat) as Hrep.
  { intros p Hp. unfold repeated. split; [|by rewrite length_map, length_seq]. apply Forall_map, Forall_forall. intros. by apply byte_at_u8. }
  destruct cpu; [| by exists r..]. rewrite H3. destruct (matrix_limited_range m); [by exists r|].
  eexists. split; [reflexivity|]. split; [done|]. split; [done|]. destruct Hr as (Ly & Lu & Lv & Bu & Bv).
  unfold frame_ok. cbn [y444 u444 v444 width444 height444 with_planes]. rewrite Ew, Eh in *.
  change (pixel_count r) with (w * h)%nat. split; [by unfold repeated; rewrite length_map, length_seq|]. destruct (Hrep _ Bu), (Hrep _ Bv). done.
Qed.

(** From a captured frame to the encoder nothing is lost on the way and
    nothing panics: for every BGRA frame with at least one pixel, padding to
    multiples of 16 returns a frame of the aligned size that repeats the last
    column and row, and its conversion and packing return, with either matrix and
    on every processor, two views of that size that the encoder accepts. *)
Theorem captured_frame_to_views cpu data w h m : all_bytes data -> length data = (w * h * 4)%nat -> (0 < w)%nat -> (0 < h)%nat ->
  let aw := align_to_16 w in let ah := align_to_16 h in
  exists padded yuv main aux,
    pad_frame_to_aligned data w h aw ah = Ok padded /\
    (forall x y c, (x < aw)%nat -> (y < ah)%nat -> (c < 4)%nat ->
       byte_at padded ((y * aw + x) * 4 + c) = byte_at data ((Nat.min y (h - 1) * w + Nat.min x (w - 1)) * 4 + c)) /\
    bgra_to_yuv444 cpu padded aw ah m = Ok yuv /\
    pack_dual_views cpu yuv = Ok (main, aux) /\
    validate_dimensions aw ah = true /\ validate_for_encoding main = Ok tt /\ validate_for_encoding aux = Ok tt /\
    (width420 main, height420 main) = (aw, ah) /\ (width420 aux, height420 aux) = (aw, ah).
Proof.
  intros Hb Hl Hw Hh. cbv zeta. set (aw := align_to_16 w). set (ah := align_to_16 h).
  destruct (align_to_16_spec w) as [Aw Bw]. destruct (align_to_16_spec h) as [Ah Bh]. fold aw ah in Aw, Bw, Ah, Bh.
  destruct (pad_frame_ok data w h aw ah ltac:(lia) ltac:(lia) Hl) as (p & Hp & Lp & Pp).
  assert (all_bytes p) as Bp by exact (padded_bytes data w h aw ah p Hb Lp Pp).
  destruct (conversion_frame_ok cpu p aw ah m Bp Lp) as (f & Hf & Ew & Eh & Of).
  assert (aw mod 2 = 0 /\ ah mod 2 = 0)%nat as [Aw2 Ah2] by (split; by apply mod_16_even).
  destruct (pack_auxiliary_ok f Of) as (aux & Ha & Wa & Ha' & _).
  assert (pack_main_view NoSimd f = pack_main_view cpu f) as Hcpu by (by rewrite !pack_main_ok by (by rewrite ?Ew, ?Eh)).
  pose proof (pack_main_ok cpu f Of) as Hm. rewrite Ew, Eh in Hm. specialize (Hm Aw2 Ah2).
  destruct (valid_views f _ aux Of ltac:(by rewrite Ew) ltac:(by rewrite Eh) (eq_trans Hcpu Hm) Ha) as (V1 & _ & V2).
  eexists p, f, _, aux. split; [done|]. split; [done|]. split; [done|].
  split; [unfold pack_dual_views; rewrite Hm, Ha; reflexivity|].
  split; [|split; [done|split; [done|]]].
  - unfold validate_dimensions. rewrite Aw2, Ah2, !(proj2 (Nat.ltb_lt _ _)) by lia. done.
  - split; [done|]. by rewrite Wa, Ha', Ew, Eh.
Qed.

Lemma captured_frame_to_views_witness : exists padded,
  pad_frame_to_aligned [1; 2; 3; 255; 4; 5; 6; 255] 2 1 16 16 = Ok padded /\ byte_at padded ((9 * 16 + 7) * 4 + 1) = 5.
Proof.
  destruct (captured_frame_to_views Neon [1; 2; 3; 255; 4; 5; 6; 255] 2 1 OpenH264) as (padded & _ & _ & _ & Hp & Hx & _).
  - repeat (constructor; [lia|]). constructor.
  - done.
  - lia.
  - lia.
  - exists padded. split; [exact Hp|]. etrans; [apply (Hx 7%nat 9%nat 1%nat); cbn; lia|done].
Defined.
