(* ===== verification/AnnexB.v ===== *)
(** * Annex B byte streams

    Models the two readers of H.264 parameter sets: [extract_sps_pps] of
    src/src/rdp/channels/graphics/egfx/h264/avc444/encoder.rs and
    [parameter_sets] of egfx/h264/encoder.rs.  A stream is the list of its
    bytes. *)
From S2P Require Import Prelude Text.

(** The length of the start code the bytes begin with, 0 when there is none. *)
Definition start_code (l : list Z) : nat :=
  match l with
  | 0 :: 0 :: 0 :: 1 :: _ => 4
  | 0 :: 0 :: 1 :: _ => 3
  | _ => 0
  end.

(** NAL types 7 (SPS) and 8 (PPS) of the first payload byte. *)
Definition is_parameter_set (header : Z) : bool := let t := Z.land header 31 in (t =? 7) || (t =? 8).

(** ** The reader of the AVC444 encoder *)

(** How far the next start code is, or the end.
    [avc444/encoder.rs:790-801 extract_sps_pps] *)
Fixpoint next_start (l : list Z) : nat :=
  match l with
  | [] => 0
  | _ :: r => match start_code l with O => S (next_start r) | _ => 0 end
  end.

(** The loop on what follows index [i]; [None] when the fuel does not suffice.
    [avc444/encoder.rs:769-811 extract_sps_pps] *)
Fixpoint extract_loop (fuel : nat) (l sps_pps : list Z) : option (list Z) :=
  match l, fuel with
  | [], _ => Some sps_pps
  | _ :: _, O => None
  | _ :: r, S fuel =>
      match start_code l with
      | O => extract_loop fuel r sps_pps
      | n =>
          match drop n l with
          | [] => Some sps_pps
          | header :: rest =>
              let len := (n + 1 + next_start rest)%nat in
              let sps_pps := if is_parameter_set header then sps_pps ++ take len l else sps_pps in
              extract_loop fuel (drop len l) sps_pps
          end
      end
  end.

(** [avc444/encoder.rs:765-817 extract_sps_pps] *)
Definition extract_sps_pps (data : list Z) : option (option (list Z)) :=
  (fun s => match s with [] => None | _ => Some s end) <$> extract_loop (length data) data [].

(** ** The reader of the AVC420 encoder *)

(** The offsets and lengths of the start codes from offset [i] on.
    [h264/encoder.rs:221-234 annex_b] *)
Fixpoint starts_from (fuel i : nat) (data : list Z) : list (nat * nat) :=
  match fuel with
  | O => []
  | S fuel =>
      if (i + 3 <=? length data)%nat then
        match start_code (drop i data) with
        | O => starts_from fuel (i + 1) data
        | n => (i, n) :: starts_from fuel (i + n) data
        end
      else []
  end.

(** [h264/encoder.rs:244-260 starts_get] *)
Fixpoint starts_get_from (fuel i count : nat) (data : list Z) (wanted : nat) : option nat :=
  match fuel with
  | O => None
  | S fuel =>
      if (i + 3 <=? length data)%nat then
        match start_code (drop i data) with
        | O => starts_get_from fuel (i + 1) count data wanted
        | _ => if (count =? wanted)%nat then Some i else starts_get_from fuel (i + 3) (S count) data wanted
        end
      else None
  end.
Definition starts_get (data : list Z) (wanted : nat) : option nat := starts_get_from (S (length data)) 0 0 data wanted.

(** [h264/encoder.rs:220-243 annex_b] *)
Definition annex_b (data : list Z) : list (list Z * Z) :=
  omap (fun '(index, (start, prefix)) =>
      let end_ := default (length data) (starts_get data (S index)) in
      let payload := (start + prefix)%nat in
      if (payload <? end_)%nat then Some (take (end_ - start) (drop start data), Z.land (nth payload data 0) 31) else None)
    (imap (fun index s => (index, s)) (starts_from (S (length data)) 0 data)).

(** [h264/encoder.rs:214-219 parameter_sets] *)
Definition parameter_sets (data : list Z) : list Z :=
  concat (map fst (filter (fun u : list Z * Z => (u.2 =? 7) || (u.2 =? 8) = true) (annex_b data))).

(** ** What a stream is made of *)

(** A NAL unit with its start code: three bytes, or four with [wide]. *)
Record unit_ := mkUnit { wide : bool; header : Z; body : list Z }.
Definition prefix_of (u : unit_) : list Z := if wide u then [0; 0; 0; 1] else [0; 0; 1].
Definition unit_bytes (u : unit_) : list Z := prefix_of u ++ header u :: body u.
Definition stream (us : list unit_) : list Z := us ≫= unit_bytes.
(** The parameter sets among the units, as they stand in the stream. *)
Definition parameter_units (us : list unit_) : list Z := stream (filter (fun u => is_parameter_set (header u) = true) us).

(** What emulation prevention guarantees of a payload: it contains neither
    [0 0 0] nor [0 0 1], and its last byte is not 0. *)
Fixpoint clean (l : list Z) : bool :=
  match l with
  | [] => true
  | [b] => negb (b =? 0)
  | 0 :: ((0 :: b :: _) as r) => negb ((b =? 0) || (b =? 1)) && clean r
  | _ :: r => clean r
  end.
Definition unit_ok (u : unit_) : Prop := clean (header u :: body u) = true.

(** Unit boundaries. *)
Definition at_boundary (rest : list Z) : Prop := rest = [] \/ start_code rest <> 0%nat.

Lemma clean_tail b l : clean (b :: l) = true -> clean l = true \/ l = [].
Proof.
  destruct l as [|c l]; [by right|]. intros H. left. cbn in H.
  destruct b as [|?|?]; [|done..]. destruct c as [|?|?]; [|done..]. destruct l as [|d l]; [done|].
  by apply andb_prop in H as [_ H].
Qed.

(** No start code begins inside a payload, not even one that would reach into the
    next start code. *)
Lemma clean_no_start b l rest : clean (b :: l) = true -> at_boundary rest -> start_code ((b :: l) ++ rest) = 0%nat.
Proof.
  intros H Hb. destruct b as [|b|b]; [|done..]. destruct l as [|c l]; [done|].
  destruct c as [|c|c]; [|done..].
  destruct l as [|d l]; [done|]. cbn in H |- *. by destruct d as [|[?|?|]|?].
Qed.

Lemma next_start_payload l rest : clean l = true -> at_boundary rest -> next_start (l ++ rest) = length l.
Proof.
  intros H Hb. induction l as [|b l IH].
  - destruct rest as [|r rest]; [done|]. destruct Hb as [|Hb]; [done|]. cbn [app next_start length]. by destruct (start_code (r :: rest)).
  - change (match start_code ((b :: l) ++ rest) with O => S (next_start (l ++ rest)) | _ => 0%nat end = S (length l)).
    rewrite clean_no_start by done. f_equal. apply clean_tail in H as [H|H]; [by apply IH|]. subst l.
    cbn [app length]. destruct rest as [|r rest]; [done|]. destruct Hb as [|Hb]; [done|]. cbn [next_start]. by destruct (start_code (r :: rest)).
Qed.

Lemma start_code_unit u l : start_code (unit_bytes u ++ l) = length (prefix_of u).
Proof. by destruct u as [[] h b]. Qed.
Lemma stream_cons u us : stream (u :: us) = unit_bytes u ++ stream us.
Proof. done. Qed.
Lemma stream_boundary us : at_boundary (stream us).
Proof. destruct us as [|u us]; [by left|]. right. rewrite stream_cons, start_code_unit. by destruct u as [[] ? ?]. Qed.
Lemma length_unit u : length (unit_bytes u) = (length (prefix_of u) + 1 + length (body u))%nat.
Proof. unfold unit_bytes. rewrite length_app. cbn. lia. Qed.
Lemma body_clean u rest : unit_ok u -> at_boundary rest -> next_start (body u ++ rest) = length (body u).
Proof.
  intros H Hb. apply clean_tail in H as [H| ->]; [by apply next_start_payload|]. by apply (next_start_payload [] rest).
Qed.

(** ** The first reader *)

(** One turn of the loop on a stream: the first unit. *)
Lemma extract_unit fuel u us acc : unit_ok u ->
  extract_loop (S fuel) (stream (u :: us)) acc =
  extract_loop fuel (stream us) (if is_parameter_set (header u) then acc ++ unit_bytes u else acc).
Proof.
  intros Hu. rewrite stream_cons. pose proof (start_code_unit u (stream us)) as Hs.
  assert (drop (length (prefix_of u)) (unit_bytes u ++ stream us) = header u :: body u ++ stream us) as Hd
    by (unfold unit_bytes; by rewrite <- app_assoc, drop_app_length).
  assert (exists n, length (prefix_of u) = S n) as [n Hn] by (destruct u as [[] ? ?]; by eexists).
  assert (exists b r, unit_bytes u ++ stream us = b :: r) as (b & r & E) by (by destruct u as [[] ? ?]; eexists _, _).
  rewrite E in *. cbn [extract_loop]. rewrite Hs, Hn. cbn match. rewrite <- Hn, Hd, body_clean by (done || apply stream_boundary).
  rewrite <- length_unit, <- E, take_app_length, drop_app_length. done.
Qed.

Lemma extract_stream us fuel acc : Forall unit_ok us -> (length us <= fuel)%nat ->
  extract_loop fuel (stream us) acc = Some (acc ++ parameter_units us).
Proof.
  intros H. revert fuel acc. induction H as [|u us Hu H IH]; intros fuel acc Hf.
  - destruct fuel; unfold parameter_units; cbn; by rewrite app_nil_r.
  - destruct fuel as [|fuel]; [cbn in Hf; lia|]. rewrite extract_unit, IH by (done || (cbn in Hf; lia)).
    unfold parameter_units. rewrite filter_cons. destruct (is_parameter_set (header u)) eqn:E.
    + rewrite decide_True by done. by rewrite stream_cons, app_assoc.
    + by rewrite decide_False by done.
Qed.

(** The loop ends on every input, whatever the bytes. *)
Lemma extract_terminates fuel l acc : (length l <= fuel)%nat -> is_Some (extract_loop fuel l acc).
Proof.
  revert l acc. induction fuel as [|fuel IH]; intros l acc Hf; (destruct l as [|b r]; [by eexists|]); [cbn in Hf; lia|].
  cbn [extract_loop]. destruct (start_code (b :: r)) as [|n]; [apply IH; cbn in Hf; lia|].
  destruct (drop (S n) (b :: r)) as [|h rest]; [by eexists|]. apply IH. rewrite length_drop. cbn [length] in *. lia.
Qed.

Lemma extract_total data : is_Some (extract_sps_pps data).
Proof. unfold extract_sps_pps. destruct (extract_terminates (length data) data []) as [r ->]; [lia|]. by eexists. Qed.

Lemma length_stream_units us : (length us <= length (stream us))%nat.
Proof. induction us as [|u us IH]; [done|]. rewrite stream_cons, length_app, length_unit. cbn. lia. Qed.

(** ** The second reader *)
Section scan.
Context (data : list Z).
#[local] Notation starts := (starts_from (S (length data))).

Lemma start_code_length l n : start_code l = n -> (n <= length l)%nat.
Proof. intros <-. unfold start_code. repeat case_match; cbn; lia. Qed.

Lemma starts_fuel f f' i : (length data - i < f)%nat -> (length data - i < f')%nat -> starts_from f i data = starts_from f' i data.
Proof.
  revert f' i. induction f as [|f IH]; intros f' i H H'; [lia|]. destruct f' as [|f']; [lia|]. cbn [starts_from].
  destruct (Nat.leb_spec (i + 3) (length data)); [|done]. destruct (start_code (drop i data)) as [|n] eqn:E.
  - apply IH; lia.
  - f_equal. apply IH; lia.
Qed.

Lemma starts_from_S f i : starts_from (S f) i data =
  if (i + 3 <=? length data)%nat then
    match start_code (drop i data) with O => starts_from f (i + 1) data | n => (i, n) :: starts_from f (i + n) data end
  else [].
Proof. done. Qed.

Lemma starts_step i : starts i data =
  match start_code (drop i data) with O => if (i <? length data)%nat then starts (i + 1) data else [] | n => (i, n) :: starts (i + n) data end.
Proof.
  rewrite (starts_from_S _ i). destruct (Nat.leb_spec (i + 3) (length data)).
  - destruct (start_code (drop i data)) as [|n] eqn:E.
    + rewrite (proj2 (Nat.ltb_lt _ _)) by lia. apply (starts_fuel (length data)); lia.
    + f_equal. apply (starts_fuel (length data)); lia.
  - destruct (start_code (drop i data)) as [|n] eqn:E.
    + destruct (Nat.ltb_spec i (length data)); [|done]. by rewrite starts_from_S, (proj2 (Nat.leb_gt _ _)) by lia.
    + exfalso. pose proof (start_code_length _ _ E) as Hn. rewrite length_drop in Hn. assert (n = 2 \/ n = 3)%nat by (revert E; unfold start_code; repeat case_match; lia). lia.
Qed.

(** The other loop counts the same start codes, although it steps over four-byte
    codes by three. *)
Lemma starts_get_spec fuel i count wanted : (length data - i < fuel)%nat -> (count <= wanted)%nat ->
  starts_get_from fuel i count data wanted = fst <$> starts i data !! (wanted - count)%nat.
Proof.
  revert i count. induction fuel as [fuel IH] using lt_wf_ind. intros i count Hf Hc. destruct fuel as [|fuel]; [lia|].
  rewrite starts_step. cbn [starts_get_from]. destruct (start_code (drop i data)) as [|n] eqn:E.
  - destruct (Nat.leb_spec (i + 3) (length data)).
    + rewrite (proj2 (Nat.ltb_lt _ _)) by lia. apply IH; lia.
    + destruct (Nat.ltb_spec i (length data)); [|done]. by rewrite starts_from_S, (proj2 (Nat.leb_gt _ _)) by lia.
  - pose proof (start_code_length _ _ E) as Hn. rewrite length_drop in Hn.
    assert (n = 2 \/ n = 3)%nat as Hcode by (revert E; unfold start_code; repeat case_match; lia).
    rewrite (proj2 (Nat.leb_le _ _)) by lia. destruct (Nat.eqb_spec count wanted) as [->|]; [by rewrite Nat.sub_diag|].
    replace (wanted - count)%nat with (S (wanted - S count)) by lia. cbn [lookup list_lookup].
    rewrite IH by lia. destruct Hcode as [-> | ->]; [done|]. rewrite starts_step.
    replace (drop (i + 3) data) with (drop 3 (drop i data)) by (by rewrite drop_drop).
    assert (start_code (drop 3 (drop i data)) = 0%nat) as -> by (revert E; unfold start_code; repeat case_match; cbn; congruence || lia || done).
    rewrite (proj2 (Nat.ltb_lt _ _)) by lia. by rewrite <- Nat.add_assoc.
Qed.
Lemma starts_get_starts wanted : starts_get data wanted = fst <$> starts 0 data !! wanted.
Proof. unfold starts_get. rewrite starts_get_spec by lia. by rewrite Nat.sub_0_r. Qed.

(** No start code begins inside a payload. *)
Lemma starts_payload l rest i : clean l = true \/ l = [] -> at_boundary rest -> drop i data = l ++ rest ->
  starts i data = starts (i + length l) data.
Proof.
  revert i. induction l as [|b l IH]; intros i Hc Hb Hd; [by rewrite Nat.add_0_r|]. destruct Hc as [Hc|]; [|done].
  rewrite starts_step, Hd, clean_no_start by done. assert (i < length data)%nat.
  { apply (f_equal length) in Hd. rewrite length_drop, length_app in Hd. cbn in Hd. lia. }
  rewrite (proj2 (Nat.ltb_lt _ _)) by done. rewrite IH.
  - f_equal. cbn. lia.
  - by apply clean_tail in Hc.
  - done.
  - by rewrite <- drop_drop, Hd.
Qed.

(** Where the units of a stream begin. *)
Fixpoint offsets (i : nat) (us : list unit_) : list (nat * nat) :=
  match us with [] => [] | u :: us => (i, length (prefix_of u)) :: offsets (i + length (unit_bytes u)) us end.

Lemma starts_stream us i : Forall unit_ok us -> drop i data = stream us -> starts i data = offsets i us.
Proof.
  intros H. revert i. induction H as [|u us Hu H IH]; intros i Hd.
  - rewrite starts_step, Hd. assert (length data <= i)%nat by (apply (f_equal length) in Hd; rewrite length_drop in Hd; cbn in Hd; lia).
    change (start_code (stream [])) with 0%nat. cbn match. by rewrite (proj2 (Nat.ltb_ge _ _)).
  - rewrite starts_step, Hd, stream_cons, start_code_unit. assert (exists n, length (prefix_of u) = S n) as [n Hn] by (destruct u as [[] ? ?]; by eexists).
    rewrite Hn, <- Hn. cbn [offsets]. f_equal.
    rewrite (starts_payload (header u :: body u) (stream us)); [|by left|apply stream_boundary|].
    + rewrite IH; [f_equal; rewrite length_unit; cbn; lia|].
      rewrite length_cons. replace (i + length (prefix_of u) + S (length (body u)))%nat with (i + length (unit_bytes u))%nat by (rewrite length_unit; lia).
      by rewrite <- drop_drop, Hd, stream_cons, drop_app_length.
    + rewrite <- drop_drop, Hd, stream_cons. unfold unit_bytes. by rewrite <- app_assoc, drop_app_length.
Qed.
End scan.

Lemma stream_one u : stream [u] = unit_bytes u.
Proof. unfold stream. cbn. by rewrite app_nil_r. Qed.
Lemma length_stream_app us vs : length (stream (us ++ vs)) = (length (stream us) + length (stream vs))%nat.
Proof. unfold stream. by rewrite bind_app, length_app. Qed.

Lemma offsets_lookup us i k : fst <$> offsets i us !! k =
  if (k <? length us)%nat then Some (i + length (stream (take k us)))%nat else None.
Proof.
  revert i k. induction us as [|u us IH]; intros i [|k]; try done.
  - cbn. by rewrite Nat.add_0_r.
  - cbn [offsets lookup list_lookup take length]. rewrite IH, stream_cons, length_app. change (S k <? S (length us))%nat with (k <? length us)%nat.
    destruct (k <? length us)%nat; [|done]. f_equal. lia.
Qed.

Definition unit_entry (u : unit_) : list Z * Z := (unit_bytes u, Z.land (header u) 31).

Lemma annex_b_from us pre : Forall unit_ok (pre ++ us) -> let data := stream (pre ++ us) in
  omap (fun '(index, (start, prefix)) =>
      let end_ := default (length data) (starts_get data (S index)) in
      let payload := (start + prefix)%nat in
      if (payload <? end_)%nat then Some (take (end_ - start) (drop start data), Z.land (nth payload data 0) 31) else None)
    (imap (fun index s => (length pre + index, s)%nat) (offsets (length (stream pre)) us)) = map unit_entry us.
Proof.
  revert pre. induction us as [|u us IH]; intros pre H; [done|]. cbv zeta. cbn [offsets imap omap list_omap map].
  assert (pre ++ u :: us = (pre ++ [u]) ++ us) as Happ by (by rewrite <- app_assoc).
  specialize (IH (pre ++ [u])). rewrite <- Happ in IH. specialize (IH H). cbv zeta in IH.
  set (data := stream (pre ++ u :: us)) in *.
  rewrite length_stream_app, length_app, stream_one in IH. cbn [length] in IH.
  assert (data = stream pre ++ unit_bytes u ++ stream us) as Hd by (unfold data, stream; by rewrite bind_app).
  assert (default (length data) (starts_get data (S (length pre + 0))) = length (stream pre) + length (unit_bytes u))%nat as Hend.
  { rewrite starts_get_starts, (starts_stream data (pre ++ u :: us) 0) by done. rewrite offsets_lookup, length_app. cbn [length].
    destruct (Nat.ltb_spec (S (length pre + 0)) (length pre + S (length us))).
    - cbn [default Nat.add]. rewrite Happ. replace (S (length pre + 0)) with (length (pre ++ [u])) by (rewrite length_app; cbn; lia).
      by rewrite take_app_length, length_stream_app, stream_one.
    - assert (us = []) as -> by (destruct us; [done|cbn in *; lia]). cbn [default]. by rewrite Hd, length_app, app_nil_r. }
  rewrite Hend. rewrite length_unit at 1. rewrite (proj2 (Nat.ltb_lt _ _)) by lia.
  replace (length (stream pre) + length (unit_bytes u) - length (stream pre))%nat with (length (unit_bytes u)) by lia.
  rewrite Hd at 1. rewrite drop_app_length, take_app_length.
  assert (nth (length (stream pre) + length (prefix_of u)) data 0 = header u) as ->.
  { rewrite Hd, app_nth2 by lia. rewrite Nat.add_comm, Nat.add_sub. unfold unit_bytes. rewrite <- app_assoc, app_nth2 by lia. by rewrite Nat.sub_diag. }
  f_equal. rewrite <- IH. f_equal. apply imap_ext. intros j s _. cbn. f_equal. lia.
Qed.

Lemma annex_b_stream us : Forall unit_ok us -> annex_b (stream us) = map unit_entry us.
Proof.
  intros H. rewrite <- (annex_b_from us [] H). unfold annex_b. by rewrite (starts_stream (stream us) us 0).
Qed.

Lemma extract_parameter_units us : Forall unit_ok us ->
  extract_sps_pps (stream us) = Some (match parameter_units us with [] => None | s => Some s end).
Proof.
  intros H. unfold extract_sps_pps. rewrite extract_stream by (done || apply length_stream_units). cbn [fmap option_fmap option_map app]. by destruct (parameter_units us).
Qed.

(** Both readers find the parameter sets, and the parameter sets only: for every
    stream of units whose payloads are protected by emulation prevention, with
    start codes of three and four bytes in any mixture, each reader returns
    exactly the SPS and PPS units with their start codes, in order; the loops
    end on every input. *)
Theorem parameter_sets_exact us : Forall unit_ok us ->
  parameter_sets (stream us) = parameter_units us /\
  extract_sps_pps (stream us) = Some (match parameter_units us with [] => None | s => Some s end) /\
  forall data, is_Some (extract_sps_pps data).
Proof.
  intros H. split; [|split; [by apply extract_parameter_units|intros; apply extract_total]]. unfold parameter_sets, parameter_units. rewrite annex_b_stream by done.
  induction us as [|u us IH]; [done|]. inversion H as [|? ? _ H']; subst. cbn [map]. rewrite !filter_cons.
  destruct (is_parameter_set (header u)) eqn:E.
  - rewrite !decide_True by done. cbn [map concat]. rewrite stream_cons, <- IH by done. done.
  - rewrite !decide_False by (unfold unit_entry, is_parameter_set in *; cbn in *; congruence). by apply IH.
Qed.

Definition sps_pps_idr : list unit_ := [mkUnit true 103 [66; 0; 30]; mkUnit false 104 [206; 60; 128]; mkUnit true 101 [136; 0; 0; 3; 1]].
Lemma parameter_sets_exact_witness :
  parameter_sets (stream sps_pps_idr) = [0; 0; 0; 1; 103; 66; 0; 30; 0; 0; 1; 104; 206; 60; 128].
Proof. destruct (parameter_sets_exact sps_pps_idr) as (-> & _); [by repeat constructor|done]. Defined.

(** On streams with an empty unit the two readers disagree: the first takes the
    start code that follows immediately for a payload. *)
Lemma empty_unit_hides_parameters :
  let data := [0; 0; 1; 0; 0; 1; 103; 66] in
  extract_sps_pps data = Some None /\ parameter_sets data = [0; 0; 1; 103; 66].
Proof. done. Qed.
