(* ===== verification/Avc444.v ===== *)
(** * The AVC444 encoder

    Models src/src/rdp/channels/graphics/egfx/h264/avc444/encoder.rs and the
    configuration it shares with egfx/h264/encoder.rs.  The OpenH264 encoder is a
    library: a type of states with its two operations ([Codec]), given to every
    definition that uses it.  Every operation runs in a state and error monad over
    the encoder's fields, so what a failing call leaves behind is visible.
    Logging is left out. *)
From S2P Require Import Prelude Text Float Simd Color YuvPack H264Level AnnexB.

(** ** Configuration and errors *)

(** [h264/encoder.rs:7-16 EncoderError] *)
Inductive EncoderError :=
| InitFailed (reason : str)
| EncodeFailed (reason : str)
| InvalidDimensions (width height : Z)
| FeatureDisabled.

(** [h264/encoder.rs:19-29 EncoderConfig] *)
Record EncoderConfig := mkConfig {
  bitrate_kbps : Z; max_fps : spec_float; enable_skip_frame : bool;
  cfg_width : option Z; cfg_height : option Z; cfg_color_space : option ColorSpaceConfig;
  qp_min : Z; qp_max : Z; encoder_threads : Z;
}.
(** [h264/encoder.rs:31-43 default] *)
Definition config_default : EncoderConfig := mkConfig 5000 (f32_of_Z 30) true None None None 0 51 0.
(** [h264/encoder.rs:46-52 for_resolution] *)
Definition for_resolution (width height : Z) : EncoderConfig :=
  let d := config_default in
  mkConfig (bitrate_kbps d) (max_fps d) (enable_skip_frame d) (Some width) (Some height) (cfg_color_space d) (qp_min d) (qp_max d) (encoder_threads d).
(** [h264/encoder.rs:53-61 high_quality] *)
Definition high_quality : EncoderConfig :=
  let d := config_default in
  mkConfig 10000 (max_fps d) false (cfg_width d) (cfg_height d) (cfg_color_space d) 10 25 (encoder_threads d).
(** [h264/encoder.rs:62-68 high_performance] *)
Definition high_performance : EncoderConfig :=
  let d := config_default in
  mkConfig 8000 (f32_of_Z 60) (enable_skip_frame d) (cfg_width d) (cfg_height d) (cfg_color_space d) (qp_min d) (qp_max d) (encoder_threads d).
(** [h264/encoder.rs:69-77 low_bandwidth] *)
Definition low_bandwidth : EncoderConfig :=
  let d := config_default in
  mkConfig 1000 (f32_of_Z 15) (enable_skip_frame d) (cfg_width d) (cfg_height d) (cfg_color_space d) 20 45 (encoder_threads d).
(** [h264/encoder.rs:78-81 with_color_space] *)
Definition config_with_color_space (c : EncoderConfig) (value : ColorSpaceConfig) : EncoderConfig :=
  mkConfig (bitrate_kbps c) (max_fps c) (enable_skip_frame c) (cfg_width c) (cfg_height c) (Some value) (qp_min c) (qp_max c) (encoder_threads c).

(** ** The library *)

(** The kinds of frame the source tells apart: I and IDR from the others. *)
Inductive FrameType := IDRFrame | IFrame | OtherFrame.
(** [avc444/encoder.rs:546-549 encode_bgra] *)
Definition is_key (t : FrameType) : bool := match t with IDRFrame | IFrame => true | OtherFrame => false end.

(** An OpenH264 encoder: forcing the next frame to be intra coded, and encoding a
    picture with its timestamp in milliseconds, which fails or yields a frame
    type and a bitstream. *)
Class Codec (C : Type) := {
  force_intra_frame : C -> C;
  encode_at : C -> Yuv420Frame -> Z -> (str + (FrameType * list Z)) * C;
}.

(** ** The encoder's state *)

(** [avc444/encoder.rs:33-66 Avc444Frame] *)
Record Avc444Frame := mkFrame {
  stream1_data : list Z; stream2_data : option (list Z); is_keyframe : bool; timestamp_ms : Z;
  frame_size : Z; color_convert_ms : spec_float; packing_ms : spec_float; encoding_ms : spec_float; total_ms : spec_float;
}.

(** [avc444/encoder.rs:114-114 MIN_AUX_INTERVAL] *)
Definition MIN_AUX_INTERVAL : Z := 10.
(** [avc444/encoder.rs:117-124 AuxStreamPrecheck] *)
Inductive AuxStreamPrecheck :=
| SendForced | SendOmissionDisabled | SendFirstFrame | SendMaxInterval | SkipRateLimited | CompareContentHash.

(** [avc444/encoder.rs:126-149 precheck_aux_stream_policy] *)
Definition precheck_aux_stream_policy (force_aux omission_enabled has_previous_aux : bool) (frames_since_aux max_aux_interval : Z)
  : AuxStreamPrecheck :=
  if force_aux then SendForced
  else if negb omission_enabled then SendOmissionDisabled
  else if negb has_previous_aux then SendFirstFrame
  else if max_aux_interval <=? frames_since_aux then SendMaxInterval
  else if frames_since_aux <? MIN_AUX_INTERVAL then SkipRateLimited
  else CompareContentHash.

(** [avc444/encoder.rs:152-235 Avc444Encoder] *)
Record Avc444Encoder (C : Type) := mkEncoder {
  encoder : C;
  config : EncoderConfig;
  color_space : ColorSpaceConfig;
  color_matrix : ColorMatrix;
  frame_count : Z;
  bytes_encoded : Z;
  total_encode_time_ms : spec_float;
  cached_sps_pps : option (list Z);
  current_level : option H264Level;
  force_all_keyframes : bool;
  last_aux_hash : option Z;
  frames_since_aux : Z;
  max_aux_interval : Z;
  force_aux_idr_on_return : bool;
  enable_aux_omission : bool;
  last_idr_time : Z;
  periodic_idr_interval_secs : Z;
  force_next_idr : bool;
  force_aux_on_next_frame : bool;
}.
Arguments encoder {C}. Arguments config {C}. Arguments color_space {C}. Arguments color_matrix {C}. Arguments 
frame_count {C}. Arguments bytes_encoded {C}. Arguments total_encode_time_ms {C}. Arguments cached_sps_pps 
{C}. Arguments current_level {C}. Arguments force_all_keyframes {C}. Arguments last_aux_hash {C}. Arguments 
frames_since_aux {C}. Arguments max_aux_interval {C}. Arguments force_aux_idr_on_return {C}. Arguments 
enable_aux_omission {C}. Arguments last_idr_time {C}. Arguments periodic_idr_interval_secs {C}. Arguments 
force_next_idr {C}. Arguments force_aux_on_next_frame {C}.
Arguments mkEncoder {C}.

(** Field updates. *)
Definition with_encoder {C} (c : C) (s : Avc444Encoder C) : Avc444Encoder C :=
  mkEncoder c (config s) (color_space s) (color_matrix s) (frame_count s) (bytes_encoded s)
    (total_encode_time_ms s) (cached_sps_pps s) (current_level s) (force_all_keyframes s) (last_aux_hash s)
    (frames_since_aux s) (max_aux_interval s) (force_aux_idr_on_return s) (enable_aux_omission s)
    (last_idr_time s) (periodic_idr_interval_secs s) (force_next_idr s) (force_aux_on_next_frame s).
Definition with_matrix {C} (m : ColorMatrix) (s : Avc444Encoder C) : Avc444Encoder C :=
  mkEncoder (encoder s) (config s) (color_space s) m (frame_count s) (bytes_encoded s) (total_encode_time_ms
    s) (cached_sps_pps s) (current_level s) (force_all_keyframes s) (last_aux_hash s) (frames_since_aux s)
    (max_aux_interval s) (force_aux_idr_on_return s) (enable_aux_omission s) (last_idr_time s)
    (periodic_idr_interval_secs s) (force_next_idr s) (force_aux_on_next_frame s).
Definition with_stats {C} (n bytes : Z) (t : spec_float) (s : Avc444Encoder C) : Avc444Encoder C :=
  mkEncoder (encoder s) (config s) (color_space s) (color_matrix s) n bytes t (cached_sps_pps s)
    (current_level s) (force_all_keyframes s) (last_aux_hash s) (frames_since_aux s) (max_aux_interval s)
    (force_aux_idr_on_return s) (enable_aux_omission s) (last_idr_time s) (periodic_idr_interval_secs s)
    (force_next_idr s) (force_aux_on_next_frame s).
Definition with_sps_pps {C} (p : option (list Z)) (s : Avc444Encoder C) : Avc444Encoder C :=
  mkEncoder (encoder s) (config s) (color_space s) (color_matrix s) (frame_count s) (bytes_encoded s)
    (total_encode_time_ms s) p (current_level s) (force_all_keyframes s) (last_aux_hash s) (frames_since_aux
    s) (max_aux_interval s) (force_aux_idr_on_return s) (enable_aux_omission s) (last_idr_time s)
    (periodic_idr_interval_secs s) (force_next_idr s) (force_aux_on_next_frame s).
Definition with_aux {C} (hash : option Z) (since : Z) (s : Avc444Encoder C) : Avc444Encoder C :=
  mkEncoder (encoder s) (config s) (color_space s) (color_matrix s) (frame_count s) (bytes_encoded s)
    (total_encode_time_ms s) (cached_sps_pps s) (current_level s) (force_all_keyframes s) hash since
    (max_aux_interval s) (force_aux_idr_on_return s) (enable_aux_omission s) (last_idr_time s)
    (periodic_idr_interval_secs s) (force_next_idr s) (force_aux_on_next_frame s).
Definition with_omission {C} (enable : bool) (interval : Z) (idr : bool) (s : Avc444Encoder C) : Avc444Encoder C :=
  mkEncoder (encoder s) (config s) (color_space s) (color_matrix s) (frame_count s) (bytes_encoded s)
    (total_encode_time_ms s) (cached_sps_pps s) (current_level s) (force_all_keyframes s) (last_aux_hash s)
    (frames_since_aux s) interval idr enable (last_idr_time s) (periodic_idr_interval_secs s) (force_next_idr
    s) (force_aux_on_next_frame s).
Definition with_idr_timer {C} (last interval : Z) (s : Avc444Encoder C) : Avc444Encoder C :=
  mkEncoder (encoder s) (config s) (color_space s) (color_matrix s) (frame_count s) (bytes_encoded s)
    (total_encode_time_ms s) (cached_sps_pps s) (current_level s) (force_all_keyframes s) (last_aux_hash s)
    (frames_since_aux s) (max_aux_interval s) (force_aux_idr_on_return s) (enable_aux_omission s) last
    interval (force_next_idr s) (force_aux_on_next_frame s).
Definition with_idr_flags {C} (next aux : bool) (last : Z) (s : Avc444Encoder C) : Avc444Encoder C :=
  mkEncoder (encoder s) (config s) (color_space s) (color_matrix s) (frame_count s) (bytes_encoded s)
    (total_encode_time_ms s) (cached_sps_pps s) (current_level s) (force_all_keyframes s) (last_aux_hash s)
    (frames_since_aux s) (max_aux_interval s) (force_aux_idr_on_return s) (enable_aux_omission s) last
    (periodic_idr_interval_secs s) next aux.

(** ** Construction *)

(** The presets of the library for the colour description in the SPS. *)
Inductive VuiConfig := vui_bt709_full | vui_bt709 | vui_bt601.
(** What the library is configured with. *)
Record NativeConfig := mkNative { bitrate_bps : Z; native_fps : spec_float; skip_frames : bool; native_vui : VuiConfig; native_level : option H264Level }.

(** [avc444/encoder.rs:243-250 new] *)
Definition choose_color_space (c : EncoderConfig) : ColorSpaceConfig :=
  match cfg_color_space c with
  | Some space => space
  | None =>
      match cfg_width c, cfg_height c with
      | Some w, Some h => if (1280 <=? w) && (720 <=? h) then BT709_FULL else BT601_LIMITED
      | _, _ => BT709_FULL
      end
  end.
(** [avc444/encoder.rs:260-266 new] *)
Definition choose_vui (cs : ColorSpaceConfig) : VuiConfig :=
  match cs_matrix cs, cs_range cs with
  | BT709, Full => vui_bt709_full
  | BT709, Limited => vui_bt709
  | BT601, _ | OpenH264, _ => vui_bt601
  end.

(** Loading the library and creating its encoder are parameters.
    [avc444/encoder.rs:239-336 new] *)
Definition new {C} (load_openh264_api : outcome EncoderError unit) (with_api_config : NativeConfig -> str + C) (now : Z)
    (c : EncoderConfig) : outcome EncoderError (Avc444Encoder C) :=
  let cs := choose_color_space c in
  let level := match cfg_width c, cfg_height c with Some w, Some h => Some (for_config w h (max_fps c)) | _, _ => None end in
  load_openh264_api ≫= fun _ =>
  match with_api_config (mkNative (wrap 32 (bitrate_kbps c * 1000)) (max_fps c) (enable_skip_frame c) (choose_vui cs) level) with
  | inl e => Err (InitFailed (lit "AVC444 single encoder init failed: " ++ e))
  | inr enc => Ok (mkEncoder enc c cs (cs_matrix cs) 0 0 fzero None level false None 0 30 false false now 5 false false)
  end.
(** [avc444/encoder.rs:343-347 with_color_matrix] *)
Definition with_color_matrix {C} load (create : NativeConfig -> str + C) (now : Z) (c : EncoderConfig) (m : ColorMatrix)
    : outcome EncoderError (Avc444Encoder C) := with_matrix m <$> new load create now c.
(** [avc444/encoder.rs:349-355 with_color_space] *)
Definition encoder_with_color_space {C} load (create : NativeConfig -> str + C) (now : Z) (c : EncoderConfig) (cs : ColorSpaceConfig)
    : outcome EncoderError (Avc444Encoder C) := new load create now (config_with_color_space c cs).

(** ** Settings and requests *)

(** [avc444/encoder.rs:367-388 configure_aux_omission] *)
Definition configure_aux_omission {C} (enable : bool) (max_interval : Z) (force_idr_on_return : bool) (s : Avc444Encoder C) : Avc444Encoder C :=
  with_omission enable (Z.max 1 (Z.min max_interval 120)) force_idr_on_return s.
(** [avc444/encoder.rs:402-414 configure_periodic_idr] *)
Definition configure_periodic_idr {C} (now interval_secs : Z) (s : Avc444Encoder C) : Avc444Encoder C :=
  with_idr_timer now interval_secs s.
(** [avc444/encoder.rs:420-423 request_idr] *)
Definition request_idr {C} (s : Avc444Encoder C) : Avc444Encoder C :=
  with_idr_flags true (force_aux_on_next_frame s) (last_idr_time s) s.
(** [avc444/encoder.rs:430-440 is_periodic_idr_due] *)
Definition is_periodic_idr_due {C} (now : Z) (s : Avc444Encoder C) : bool :=
  force_next_idr s ||
  ((0 <? periodic_idr_interval_secs s) && (secs (periodic_idr_interval_secs s) <=? since now (last_idr_time s))).
(** [avc444/encoder.rs:823-826 force_keyframe] *)
Definition force_keyframe {C} `{Codec C} (s : Avc444Encoder C) : Avc444Encoder C := with_encoder (force_intra_frame (encoder s)) s.

(** [avc444/encoder.rs:83-94 Avc444Stats] *)
Record Avc444Stats := mkStats { stat_frames : Z; stat_bytes : Z; avg_encode_time_ms : spec_float; stat_bitrate_kbps : Z; stat_matrix : ColorMatrix }.
(** [avc444/encoder.rs:938-950 stats] *)
Definition stats {C} (s : Avc444Encoder C) : Avc444Stats :=
  mkStats (frame_count s) (bytes_encoded s)
    (if 0 <? frame_count s then f32_of_f64 (div64 (total_encode_time_ms s) (f64_of_Z (frame_count s))) else fzero)
    (wrap 32 (bitrate_kbps (config s) * 2)) (color_matrix s).

(** ** Operations on the state *)
Definition enc (C A : Type) : Type := Avc444Encoder C -> outcome EncoderError A * Avc444Encoder C.
Definition ret {C A} (a : A) : enc C A := fun s => (Ok a, s).
Definition bind {C A B} (m : enc C A) (k : A -> enc C B) : enc C B := fun s =>
  match m s with (Ok a, s) => k a s | (Err e, s) => (Err e, s) | (Panic, s) => (Panic, s) end.
#[local] Notation "'let!' x := m 'in' k" := (bind m (fun x => k)) (at level 200, x name, m at level 100, k at level 200).
#[local] Notation "'do!' m 'in' k" := (bind m (fun _ => k)) (at level 200, m at level 100, k at level 200).
Definition raise {C A} (e : EncoderError) : enc C A := fun s => (Err e, s).
Definition lift {C A} (r : outcome Empty_set A) : enc C A := fun s =>
  (match r with Ok a => Ok a | Err e => match e with end | Panic => Panic end, s).
Definition gets {C A} (f : Avc444Encoder C -> A) : enc C A := fun s => (Ok (f s), s).
Definition modify {C} (f : Avc444Encoder C -> Avc444Encoder C) : enc C unit := fun s => (Ok tt, f s).

(** The clock readings of one call, in the order in which they are made. *)
Record Instants := mkInstants { at_start : Z; at_converted : Z; at_packed : Z; at_idr_check : Z; at_idr : Z; at_encoded : Z; at_end : Z }.
Definition monotone (t : Instants) : Prop :=
  at_start t <= at_converted t /\ at_converted t <= at_packed t /\ at_packed t <= at_idr_check t /\
  at_idr_check t <= at_idr t /\ at_idr t <= at_encoded t /\ at_encoded t <= at_end t.

(** FNV-1a over all three planes.  [avc444/encoder.rs:832-844 hash_yuv420] *)
Definition hash_yuv420 (f : Yuv420Frame) : Z :=
  fold_left (fun hash byte => wrap 64 (Z.lxor hash byte * 0x100000001b3)) (y420 f ++ u420 f ++ v420 f) 0xcbf29ce484222325.

Section encode.
Context {C : Type} `{Codec C} (cpu : simd) (t : Instants).

(** [avc444/encoder.rs:448-473 should_force_idr] *)
Definition should_force_idr : enc C bool :=
  let! s := gets id in
  if force_next_idr s then
    do! modify (with_idr_flags false true (at_idr t)) in ret true
  else if (0 <? periodic_idr_interval_secs s) && (secs (periodic_idr_interval_secs s) <=? since (at_idr_check t) (last_idr_time s)) then
    do! modify (with_idr_flags (force_next_idr s) true (at_idr t)) in ret true
  else ret false.

(** [avc444/encoder.rs:874-936 should_send_aux] *)
Definition should_send_aux (aux_frame : Yuv420Frame) (_main_is_keyframe : bool) : enc C bool :=
  let! s := gets id in
  match precheck_aux_stream_policy (force_aux_on_next_frame s) (enable_aux_omission s)
          (bool_decide (is_Some (last_aux_hash s))) (frames_since_aux s) (max_aux_interval s) with
  | SendForced => do! modify (with_idr_flags (force_next_idr s) false (last_idr_time s)) in ret true
  | SendOmissionDisabled | SendFirstFrame | SendMaxInterval => ret true
  | SkipRateLimited => ret false
  | CompareContentHash =>
      ret (match last_aux_hash s with Some previous => negb (hash_yuv420 aux_frame =? previous) | None => false end)
  end.

(** [handle_sps_pps] keeps the parameter sets of the last key frame that has some
    and puts them before every other frame.
    [avc444/encoder.rs:744-762 handle_sps_pps] *)
Definition handle_sps_pps (data : list Z) (is_key : bool) : enc C (list Z) :=
  let! s := gets id in
  if is_key then
    match extract_sps_pps data with
    | Some (Some sps_pps) => do! modify (with_sps_pps (Some sps_pps)) in ret data
    | _ => ret data
    end
  else ret (match cached_sps_pps s with Some sps_pps => sps_pps ++ data | None => data end).

Definition force_intra : enc C unit := modify (fun s => with_encoder (force_intra_frame (encoder s)) s).

(** A subframe through the library, with its error message.
    [avc444/encoder.rs:537-549 encode_bgra] *)
Definition encode_subframe (name : str) (f : Yuv420Frame) (timestamp : Z) : enc C (bool * list Z) := fun s =>
  let '(r, c) := encode_at (encoder s) f timestamp in
  (match r with
   | inl e => Err (EncodeFailed (name ++ lit " subframe encoding failed: " ++ e))
   | inr (kind, data) => Ok (is_key kind, data)
   end, with_encoder c s).

(** [avc444/encoder.rs:486-497 encode_bgra] *)
Definition check_input (bgra_data : list Z) (width height : Z) : enc C unit :=
  if (width =? 0) || (height =? 0) || negb (width mod 2 =? 0) || negb (height mod 2 =? 0) then raise (InvalidDimensions width height)
  else
    let expected_size := wrap 32 (wrap 32 (width * height) * 4) in
    if Z.of_nat (length bgra_data) <? expected_size then
      raise (EncodeFailed (lit "BGRA buffer too small: " ++ fmt_dec (Z.of_nat (length bgra_data)) ++ lit " < " ++ fmt_dec expected_size))
    else ret tt.

(** Colour conversion and packing, then the times they took.
    [avc444/encoder.rs:500-510 encode_bgra] *)
Definition convert_and_pack (bgra_data : list Z) (width height : Z) : enc C (Yuv420Frame * Yuv420Frame) :=
  let! s := gets id in
  let! yuv444 := lift (bgra_to_yuv444 cpu bgra_data (Z.to_nat width) (Z.to_nat height) (color_matrix s)) in
  let! views := lift (pack_dual_views cpu yuv444) in
  if since (at_packed t) (at_start t) <? since (at_converted t) (at_start t) then fun s => (Panic, s) else ret views.

(** [avc444/encoder.rs:519-552 encode_bgra] *)
Definition encode_main (main_yuv420 : Yuv420Frame) (timestamp : Z) : enc C (bool * list Z) :=
  let! force := should_force_idr in
  do! (if force : bool then force_intra else ret tt) in
  let! all := gets force_all_keyframes in
  do! (if all : bool then force_intra else ret tt) in
  encode_subframe (lit "Main") main_yuv420 timestamp.

(** The auxiliary view was encoded to nothing, or not at all. *)
Definition count_omission : enc C unit := modify (fun s => with_aux (last_aux_hash s) (wrap 32 (frames_since_aux s + 1)) s).

(** [avc444/encoder.rs:574-628 encode_bgra] *)
Definition encode_aux (aux_yuv420 : Yuv420Frame) (main_is_keyframe : bool) (timestamp : Z) : enc C (option (list Z)) :=
  let! send := should_send_aux aux_yuv420 main_is_keyframe in
  if send : bool then
    let! s := gets id in
    do! (if main_is_keyframe then force_intra
     else if force_aux_idr_on_return s && (0 <? frames_since_aux s) then force_intra
     else ret tt) in
    let! encoded := encode_subframe (lit "Aux") aux_yuv420 timestamp in
    match encoded.2 with
    | [] => do! count_omission in ret None
    | aux_data => do! modify (with_aux (Some (hash_yuv420 aux_yuv420)) 0) in ret (Some aux_data)
    end
  else do! count_omission in ret None.

Definition ms_f32 (ns : Z) : spec_float := mul32 (as_secs_f32 ns) (f32_of_Z 1000).

(** Statistics and the frame.  [avc444/encoder.rs:685-733 encode_bgra] *)
Definition finish (stream1 : list Z) (stream2 : option (list Z)) (is_key : bool) (timestamp : Z) : enc C Avc444Frame :=
  let! s := gets id in
  let total_size := Z.of_nat (length stream1) + match stream2 with Some d => Z.of_nat (length d) | None => 0 end in
  let elapsed i := since i (at_start t) in
  do! modify (with_stats (wrap 64 (frame_count s + 1)) (wrap 64 (bytes_encoded s + total_size))
            (add64 (total_encode_time_ms s) (mul64 (as_secs_f64 (elapsed (at_end t))) (f64_of_Z 1000)))) in
  let pack_time := elapsed (at_packed t) - elapsed (at_converted t) in
  let encode_time := elapsed (at_encoded t) - elapsed (at_converted t) - pack_time in
  ret (mkFrame stream1 stream2 is_key timestamp total_size (ms_f32 (elapsed (at_converted t))) (ms_f32 pack_time)
          (ms_f32 (Z.max 0 encode_time)) (ms_f32 (elapsed (at_end t)))).

(** The two views through the encoder.  [avc444/encoder.rs:519-734 encode_bgra] *)
Definition encode_views (main_yuv420 aux_yuv420 : Yuv420Frame) (timestamp : Z) : enc C (option Avc444Frame) :=
  let! main := encode_main main_yuv420 timestamp in
  let! stream2 := encode_aux aux_yuv420 main.1 timestamp in
  match main.2 with
  | [] => ret None
  | raw =>
      let! stream1 := handle_sps_pps raw main.1 in
      let! frame := finish stream1 stream2 main.1 timestamp in
      ret (Some frame)
  end.

(** [avc444/encoder.rs:476-734 encode_bgra] *)
Definition encode_bgra (bgra_data : list Z) (width height timestamp : Z) : enc C (option Avc444Frame) :=
  do! check_input bgra_data width height in
  let! views := convert_and_pack bgra_data width height in
  encode_views views.1 views.2 timestamp.
End encode.
