(* ===== verification/Avc420.v ===== *)
(** * The AVC420 encoder

    Models [Avc420Encoder] of src/src/rdp/channels/graphics/egfx/h264/encoder.rs,
    over the same library interface as the AVC444 encoder; the library's
    conversion of a BGRA picture is a parameter. *)
From S2P Require Import Prelude Text Float Simd Color YuvPack H264Level AnnexB Avc444.

(** [h264/encoder.rs:84-89 H264Frame] *)
Record H264Frame := mkH264 { h264_data : list Z; h264_keyframe : bool; h264_timestamp_ms : Z; h264_size : Z }.
(** [h264/encoder.rs:119-124 Avc420Encoder] *)
Record Avc420Encoder (C : Type) := mkAvc420 { codec : C; avc420_config : EncoderConfig; frames : Z; kept_sets : list Z }.
Arguments mkAvc420 {C}. Arguments codec {C}. Arguments avc420_config {C}. Arguments frames {C}. Arguments kept_sets {C}.

(** What this encoder sets of the library's configuration. *)
Record Native420 := mkNative420 {
  n420_bps : Z; n420_fps : spec_float; n420_threads : Z; n420_skip : bool; n420_qp : Z * Z; n420_level : option H264Level;
}.
(** [h264/encoder.rs:127-153 new] *)
Definition avc420_new {C} (load_openh264_api : outcome EncoderError unit) (with_api_config : Native420 -> str + C) (c : EncoderConfig)
    : outcome EncoderError (Avc420Encoder C) :=
  let level := match cfg_width c, cfg_height c with Some w, Some h => Some (for_config w h (max_fps c)) | _, _ => None end in
  load_openh264_api ≫= fun _ =>
  match with_api_config (mkNative420 (wrap 32 (bitrate_kbps c * 1000)) (max_fps c) (encoder_threads c) (enable_skip_frame c) (qp_min c, qp_max c) level) with
  | inl e => Err (InitFailed e)
  | inr enc => Ok (mkAvc420 enc c 0 [])
  end.

Section encode.
Context {C : Type} `{Codec C} (from_bgra : list Z -> nat -> nat -> Yuv420Frame).

(** [h264/encoder.rs:203-205 force_keyframe] *)
Definition avc420_force_keyframe (s : Avc420Encoder C) : Avc420Encoder C :=
  mkAvc420 (force_intra_frame (codec s)) (avc420_config s) (frames s) (kept_sets s).
(** The two numbers of the statistics.  [h264/encoder.rs:206-211 stats] *)
Definition avc420_stats (s : Avc420Encoder C) : Z * Z := (frames s, bitrate_kbps (avc420_config s)).

(** The bitstream of one call, delivered.  [h264/encoder.rs:182-201 encode_bgra] *)
Definition avc420_deliver (kind : FrameType) (data : list Z) (timestamp : Z) (s : Avc420Encoder C) : option H264Frame * Avc420Encoder C :=
  match data with
  | [] => (None, s)
  | _ =>
      let keyframe := is_key kind in
      let framed := if keyframe then data else kept_sets s ++ data in
      (Some (mkH264 framed keyframe timestamp (Z.of_nat (length framed))),
       mkAvc420 (codec s) (avc420_config s) (wrap 64 (frames s + 1)) (if keyframe then parameter_sets data else kept_sets s))
  end.

(** [h264/encoder.rs:154-202 encode_bgra] *)
Definition avc420_encode_bgra (bgra : list Z) (width height timestamp : Z) (s : Avc420Encoder C)
    : outcome EncoderError (option H264Frame) * Avc420Encoder C :=
  if (width =? 0) || (height =? 0) || negb (width mod 2 =? 0) || negb (height mod 2 =? 0) then (Err (InvalidDimensions width height), s)
  else
    let required := Z.to_nat (width * height * 4) in
    if (length bgra <? required)%nat then (Err (EncodeFailed (lit "BGRA input is shorter than its dimensions")), s)
    else
      let '(r, c) := encode_at (codec s) (from_bgra (take required bgra) (Z.to_nat width) (Z.to_nat height)) timestamp in
      let s := mkAvc420 c (avc420_config s) (frames s) (kept_sets s) in
      match r with
      | inl e => (Err (EncodeFailed e), s)
      | inr (kind, data) => let '(f, s) := avc420_deliver kind data timestamp s in (Ok f, s)
      end.

(** Deliver a sequence of library results. *)
Definition deliver_step (st : list (option H264Frame) * Avc420Encoder C) (x : FrameType * list Z) : list (option H264Frame) * Avc420Encoder C :=
  let '(f, s) := avc420_deliver x.1 x.2 0 st.2 in (st.1 ++ [f], s).
End encode.

(** A key frame without parameter sets makes this encoder forget the ones it had,
    where the AVC444 encoder keeps them; the frames after it then carry none. *)
Lemma key_frame_without_sets_forgets {C} (c : C) :
  let outs := [(IDRFrame, stream sps_pps_idr); (IDRFrame, stream [mkUnit true 101 [136]]); (OtherFrame, stream [mkUnit true 65 [136]])] in
  map (fun f : option H264Frame => h264_data <$> f) (fold_left deliver_step outs ([], mkAvc420 c config_default 0 [])).1 =
    [Some (stream sps_pps_idr); Some [0; 0; 0; 1; 101; 136]; Some [0; 0; 0; 1; 65; 136]].
Proof. done. Qed.
