(* ===== verification/Avc444Run.v ===== *)
(** * Runs of the AVC444 encoder

    The properties of Avc444.v over sequences of calls: what the library is asked
    to encode, what of it reaches the client, and when the auxiliary view may be
    left out.  [logged] records the calls of any library. *)
From S2P Require Import Prelude Text Float Simd Color YuvPack H264Level AnnexB Avc444.

(** ** A library that remembers its calls *)

(** One call of [encode_at]: whether an intra frame was forced, the picture and
    the result. *)
Record call := mkCall { forced : bool; picture : Yuv420Frame; result : str + (FrameType * list Z) }.
Record logged (C : Type) := mkLogged { inner : C; force_pending : bool; calls : list call }.
Arguments mkLogged {C}. Arguments inner {C}. Arguments force_pending {C}. Arguments calls {C}.
#[export] Instance logged_codec {C} `{Codec C} : Codec (logged C) := {
  force_intra_frame c := mkLogged (force_intra_frame (inner c)) true (calls c);
  encode_at c f ts := let '(r, i) := encode_at (inner c) f ts in (r, mkLogged i false (calls c ++ [mkCall (force_pending c) f r]));
}.

Section run.
Context {C : Type} `{Codec C}.
#[local] Notation st := (Avc444Encoder (logged C)).

(** ** What one call does *)

(** When the auxiliary view is encoded: an intra refresh is due or was left over,
    omission is off, no auxiliary view was sent yet, the last one is
    [max_aux_interval] frames old, or at least ten and different. *)
Definition aux_due (t : Instants) (s : st) (aux : Yuv420Frame) : bool :=
  is_periodic_idr_due (at_idr_check t) s || force_aux_on_next_frame s || negb (enable_aux_omission s) ||
  match last_aux_hash s with
  | None => true
  | Some h => (max_aux_interval s <=? frames_since_aux s) || ((MIN_AUX_INTERVAL <=? frames_since_aux s) && negb (hash_yuv420 aux =? h))
  end.
Definition main_forced (t : Instants) (s : st) : bool :=
  is_periodic_idr_due (at_idr_check t) s || force_all_keyframes s || force_pending (encoder s).

(** What happened to the auxiliary view: the calls, the stream for the client,
    and the new [last_aux_hash] and [frames_since_aux]. *)
Inductive aux_outcome (t : Instants) (s : st) (a : Yuv420Frame) (main_key : bool) : list call -> option (list Z) -> option Z -> Z -> Prop :=
| aux_omitted : aux_due t s a = false -> aux_outcome t s a main_key [] None (last_aux_hash s) (wrap 32 (frames_since_aux s + 1))
| aux_skipped f k : aux_due t s a = true -> implb main_key f = true ->
    aux_outcome t s a main_key [mkCall f a (inr (k, []))] None (last_aux_hash s) (wrap 32 (frames_since_aux s + 1))
| aux_sent f k d : aux_due t s a = true -> d <> [] -> implb main_key f = true ->
    aux_outcome t s a main_key [mkCall f a (inr (k, d))] (Some d) (Some (hash_yuv420 a)) 0.

(** The parameter sets before a frame, and those kept afterwards. *)
Definition sets_before (cached : option (list Z)) (key : bool) : list Z :=
  if key then [] else default [] cached.
Definition sets_after (cached : option (list Z)) (key : bool) (raw : list Z) : option (list Z) :=
  match extract_sps_pps raw with Some (Some p) => if key then Some p else cached | _ => cached end.

(** Settings and request flags after a call that reached the library. *)
Definition settled (s s' : st) (force_aux : bool) : Prop :=
  enable_aux_omission s' = enable_aux_omission s /\ max_aux_interval s' = max_aux_interval s /\
  force_next_idr s' = false /\ force_aux_on_next_frame s' = force_aux.

Inductive encoded (t : Instants) (s : st) (m a : Yuv420Frame) : list call -> outcome EncoderError (option Avc444Frame) -> st -> Prop :=
| main_failed e e' s' : settled s s' (is_periodic_idr_due (at_idr_check t) s || force_aux_on_next_frame s) ->
    last_aux_hash s' = last_aux_hash s -> frames_since_aux s' = frames_since_aux s -> cached_sps_pps s' = cached_sps_pps s ->
    encoded t s m a [mkCall (main_forced t s) m (inl e)] (Err (EncodeFailed e')) s'
| aux_failed k d f e e' s' : settled s s' false -> aux_due t s a = true -> implb (is_key k) f = true ->
    last_aux_hash s' = last_aux_hash s -> frames_since_aux s' = frames_since_aux s -> cached_sps_pps s' = cached_sps_pps s ->
    encoded t s m a [mkCall (main_forced t s) m (inr (k, d)); mkCall f a (inl e)] (Err (EncodeFailed e')) s'
| main_skipped k aux_calls stream2 h n s' : settled s s' false -> aux_outcome t s a (is_key k) aux_calls stream2 h n ->
    last_aux_hash s' = h -> frames_since_aux s' = n -> cached_sps_pps s' = cached_sps_pps s ->
    encoded t s m a (mkCall (main_forced t s) m (inr (k, [])) :: aux_calls) (Ok None) s'
| frame_produced k d aux_calls stream2 h n fr s' : settled s s' false -> aux_outcome t s a (is_key k) aux_calls stream2 h n -> d <> [] ->
    last_aux_hash s' = h -> frames_since_aux s' = n -> cached_sps_pps s' = sets_after (cached_sps_pps s) (is_key k) d ->
    stream1_data fr = sets_before (cached_sps_pps s) (is_key k) ++ d -> stream2_data fr = stream2 -> is_keyframe fr = is_key k ->
    encoded t s m a (mkCall (main_forced t s) m (inr (k, d)) :: aux_calls) (Ok (Some fr)) s'.

Lemma should_force_idr_spec t (s : st) : exists s1, should_force_idr t s = (Ok (is_periodic_idr_due (at_idr_check t) s), s1) /\
  encoder s1 = encoder s /\ cached_sps_pps s1 = cached_sps_pps s /\ last_aux_hash s1 = last_aux_hash s /\
  frames_since_aux s1 = frames_since_aux s /\ force_all_keyframes s1 = force_all_keyframes s /\
  force_aux_idr_on_return s1 = force_aux_idr_on_return s /\
  settled s s1 (is_periodic_idr_due (at_idr_check t) s || force_aux_on_next_frame s).
Proof.
  unfold should_force_idr, bind, gets, modify, ret, is_periodic_idr_due, settled. cbn [id]. destruct (force_next_idr s) eqn:E.
  - eexists. split; [reflexivity|]. cbn. rewrite ?E. auto 10.
  - destruct ((0 <? periodic_idr_interval_secs s) && _) eqn:E2; (eexists; split; [reflexivity|]); cbn; rewrite ?E; auto 10.
Qed.

Lemma maybe_force (b : bool) (s : st) : exists c, (if b then force_intra else ret tt) s = (Ok tt, with_encoder c s) /\
  calls c = calls (encoder s) /\ force_pending c = b || force_pending (encoder s).
Proof. destruct b; [by eexists|]. exists (encoder s). by destruct s. Qed.

Lemma encode_subframe_spec name f ts (s : st) : exists i lib e',
  encode_subframe name f ts s =
    (match lib with inl _ => Err (EncodeFailed e') | inr (k, d) => Ok (is_key k, d) end,
     with_encoder (mkLogged i false (calls (encoder s) ++ [mkCall (force_pending (encoder s)) f lib])) s).
Proof.
  unfold encode_subframe. cbn [encode_at logged_codec]. destruct (encode_at (inner (encoder s)) f ts) as [[e|[k d]] i].
  - exists i, (inl e). eexists. reflexivity.
  - by exists i, (inr (k, d)), [].
Qed.

Lemma encode_main_spec t m ts (s : st) : exists r s1, encode_main t m ts s = (r, s1) /\
  cached_sps_pps s1 = cached_sps_pps s /\ last_aux_hash s1 = last_aux_hash s /\ frames_since_aux s1 = frames_since_aux s /\
  force_pending (encoder s1) = false /\
  settled s s1 (is_periodic_idr_due (at_idr_check t) s || force_aux_on_next_frame s) /\
  exists lib, calls (encoder s1) = calls (encoder s) ++ [mkCall (main_forced t s) m lib] /\
    match lib with inl _ => exists e', r = Err (EncodeFailed e') | inr (k, d) => r = Ok (is_key k, d) end.
Proof.
  destruct (should_force_idr_spec t s) as (s1 & E & He & Hc & Hh & Hn & Ha & Hr & Hs).
  unfold encode_main, bind. rewrite E. unfold main_forced. set (due := is_periodic_idr_due (at_idr_check t) s) in *. cbv beta iota.
  destruct (maybe_force due s1) as (c1 & -> & L1 & P1). cbn [gets].
  change (force_all_keyframes (with_encoder c1 s1)) with (force_all_keyframes s1).
  destruct (maybe_force (force_all_keyframes s1) (with_encoder c1 s1)) as (c2 & -> & L2 & P2).
  destruct (encode_subframe_spec (lit "Main") m ts (with_encoder c2 (with_encoder c1 s1))) as (i & lib & e' & ->).
  eexists _, _. split; [reflexivity|]. split; [done|]. split; [done|]. split; [done|]. split; [done|]. split; [exact Hs|].
  exists lib. cbn. rewrite L2, P2. cbn. rewrite L1, P1, Ha, He. split.
  - by rewrite orb_assoc, (orb_comm (force_all_keyframes s)).
  - destruct lib as [|[k d]]; [by eexists|done].
Qed.

Lemma should_send_aux_spec t (s s0 : st) a key :
  enable_aux_omission s = enable_aux_omission s0 -> max_aux_interval s = max_aux_interval s0 ->
  last_aux_hash s = last_aux_hash s0 -> frames_since_aux s = frames_since_aux s0 ->
  force_aux_on_next_frame s = is_periodic_idr_due (at_idr_check t) s0 || force_aux_on_next_frame s0 ->
  exists s1, should_send_aux a key s = (Ok (aux_due t s0 a), s1) /\
    encoder s1 = encoder s /\ cached_sps_pps s1 = cached_sps_pps s /\ last_aux_hash s1 = last_aux_hash s /\ frames_since_aux s1 = frames_since_aux s /\
    force_aux_idr_on_return s1 = force_aux_idr_on_return s /\
    (enable_aux_omission s1 = enable_aux_omission s /\ max_aux_interval s1 = max_aux_interval s /\
     force_next_idr s1 = force_next_idr s /\ force_aux_on_next_frame s1 = false).
Proof.
  intros He Hm Hh Hn Hf. unfold aux_due, should_send_aux, precheck_aux_stream_policy, bind, gets, modify, ret. cbv beta iota. cbn [id].
  rewrite <- Hf, <- He, <- Hm, <- Hh, <- Hn. clear He Hm Hh Hn Hf.
  destruct (force_aux_on_next_frame s) eqn:E1; [eexists; split; [reflexivity|]; cbn; auto 10|].
  cbn [orb]. destruct (enable_aux_omission s) eqn:E2; [|eexists; split; [reflexivity|]; cbn; auto 10]. cbn [negb orb].
  destruct (last_aux_hash s) as [h|] eqn:E3; [|eexists; split; [reflexivity|]; cbn; auto 10].
  rewrite bool_decide_true by by eexists. cbn [negb]. destruct (max_aux_interval s <=? frames_since_aux s); [eexists; split; [reflexivity|]; cbn; auto 10|].
  cbn [orb]. destruct (Z.ltb_spec (frames_since_aux s) MIN_AUX_INTERVAL).
  - rewrite (proj2 (Z.leb_gt _ _)) by done. eexists; split; [reflexivity|]; cbn; auto 10.
  - rewrite (proj2 (Z.leb_le _ _)) by done. eexists; split; [reflexivity|]; cbn; auto 10.
Qed.

Lemma encode_aux_spec t (s s0 : st) a key ts :
  enable_aux_omission s = enable_aux_omission s0 -> max_aux_interval s = max_aux_interval s0 ->
  last_aux_hash s = last_aux_hash s0 -> frames_since_aux s = frames_since_aux s0 ->
  force_aux_on_next_frame s = is_periodic_idr_due (at_idr_check t) s0 || force_aux_on_next_frame s0 ->
  force_next_idr s = false ->
  exists r s', encode_aux a key ts s = (r, s') /\ cached_sps_pps s' = cached_sps_pps s /\ settled s0 s' false /\
    exists seg, calls (encoder s') = calls (encoder s) ++ seg /\
      match r with
      | Ok stream2 => aux_outcome t s0 a key seg stream2 (last_aux_hash s') (frames_since_aux s')
      | Err e => aux_due t s0 a = true /\ (exists f e1 e2, implb key f = true /\ seg = [mkCall f a (inl e1)] /\ e = EncodeFailed e2) /\
                 last_aux_hash s' = last_aux_hash s0 /\ frames_since_aux s' = frames_since_aux s0
      | Panic => False
      end.
Proof.
  intros He Hm Hh Hn Hf Hnext.
  destruct (should_send_aux_spec t s s0 a key He Hm Hh Hn Hf) as (s1 & E & Hc & Hs1 & Hs2 & Hs3 & Hr & S1 & S2 & S3 & S4).
  unfold encode_aux, bind. rewrite E. destruct (aux_due t s0 a) eqn:Ed; cbv beta iota.
  2:{ unfold count_omission, modify, ret. eexists _, _. split; [reflexivity|]. split; [done|]. split; [repeat split; cbn; congruence|].
      exists []. rewrite app_nil_r. split; [by rewrite <- Hc|]. cbn. rewrite Hs2, Hs3, Hh, Hn. by constructor. }
  unfold gets. cbv beta iota. unfold id. set (force := if key then true else force_aux_idr_on_return s1 && (0 <? frames_since_aux s1)).
  assert (((if key then force_intra else if force_aux_idr_on_return s1 && (0 <? frames_since_aux s1) then force_intra else ret tt) : enc (logged C) unit) =
    (if force then force_intra else ret tt)) as -> by (unfold force; by destruct key).
  destruct (maybe_force force s1) as (c1 & -> & L1 & P1).
  destruct (encode_subframe_spec (lit "Aux") a ts (with_encoder c1 s1)) as (i & lib & e' & ->). cbn [encoder with_encoder].
  assert (implb key (force_pending c1) = true) as Himpl by (rewrite P1; unfold force; by destruct key).
  rewrite L1, Hc. destruct lib as [e|[k [|b d]]]; cbn [fst snd].
  - eexists _, _. split; [reflexivity|]. split; [done|]. split; [repeat split; cbn; congruence|]. exists [mkCall (force_pending c1) a (inl e)].
    split; [done|]. split; [done|]. split; [by eexists _, _, _|]. cbn. by rewrite Hs2, Hs3.
  - unfold count_omission, modify, ret. eexists _, _. split; [reflexivity|]. split; [done|]. split; [repeat split; cbn; congruence|].
    eexists. split; [reflexivity|]. cbn. rewrite Hs2, Hs3, Hh, Hn. by constructor.
  - unfold modify, ret. eexists _, _. split; [reflexivity|]. split; [done|]. split; [repeat split; cbn; congruence|].
    eexists. split; [reflexivity|]. cbn. by constructor.
Qed.

Lemma handle_sps_pps_spec data key (s : st) : exists s', handle_sps_pps data key s = (Ok (sets_before (cached_sps_pps s) key ++ data), s') /\
  cached_sps_pps s' = sets_after (cached_sps_pps s) key data /\ encoder s' = encoder s /\ last_aux_hash s' = last_aux_hash s /\
  frames_since_aux s' = frames_since_aux s /\
  (enable_aux_omission s' = enable_aux_omission s /\ max_aux_interval s' = max_aux_interval s /\
   force_next_idr s' = force_next_idr s /\ force_aux_on_next_frame s' = force_aux_on_next_frame s).
Proof.
  unfold handle_sps_pps, sets_before, sets_after, bind, gets, modify, ret. cbn [id]. destruct key.
  - destruct (extract_sps_pps data) as [[p|]|]; (eexists; split; [reflexivity|]); cbn; auto 10.
  - eexists. split; [|destruct (extract_sps_pps data) as [[p|]|]; cbn; auto 10]. by destruct (cached_sps_pps s).
Qed.

Lemma encode_views_spec t m a ts (s : st) : exists seg,
  calls (encoder (encode_views t m a ts s).2) = calls (encoder s) ++ seg /\
  encoded t s m a seg (encode_views t m a ts s).1 (encode_views t m a ts s).2.
Proof.
  destruct (encode_main_spec t m ts s) as (r & s1 & E1 & Hc & Hh & Hn & _ & (He & Hm & Hnext & Hf) & lib & Hcalls & Hr).
  unfold encode_views, bind. rewrite E1. destruct lib as [e|[k d]].
  { destruct Hr as [e' ->]. cbn. eexists. split; [exact Hcalls|]. by apply main_failed. }
  rewrite Hr. cbn [fst snd]. destruct (encode_aux_spec t s1 s a (is_key k) ts He Hm Hh Hn Hf Hnext) as (r2 & s2 & E2 & Hc2 & Hs2 & seg & Hcalls2 & Hr2).
  rewrite E2. destruct r2 as [stream2|e|]; [| |done].
  2:{ destruct Hr2 as (Hdue & (f & e1 & e2 & Hi & -> & ->) & Hh2 & Hn2). cbn. eexists. split; [by rewrite Hcalls2, Hcalls, <- app_assoc|]. cbn.
      apply aux_failed; congruence || done. }
  destruct d as [|b d].
  { cbn. eexists. split; [by rewrite Hcalls2, Hcalls, <- app_assoc|]. cbn. eapply main_skipped; eauto. congruence. }
  destruct (handle_sps_pps_spec (b :: d) (is_key k) s2) as (s3 & -> & Hc3 & He3 & Hh3 & Hn3 & Hs3).
  unfold finish, bind, gets, modify, ret. cbn [fst snd]. eexists. split; [cbn; by rewrite He3, Hcalls2, Hcalls, <- app_assoc|].
  rewrite Hc2, Hc in Hc3. cbn [app].
  eapply frame_produced; cbn; eauto; try done; try congruence.
  - unfold settled in *. cbn. destruct Hs3 as (-> & -> & -> & ->). destruct Hs2 as (-> & -> & -> & ->). auto.
Qed.

(** ** Sequences of calls *)

(** What a client of the encoder can do. *)
Inductive op :=
| Encode (t : Instants) (bgra : list Z) (width height timestamp : Z)
| RequestIdr
| ForceKeyframe
| ConfigureIdr (now interval_secs : Z).

(** The two views of a captured frame. *)
Definition views_of (cpu : simd) (s : st) (bgra : list Z) (width height : Z) : outcome Empty_set (Yuv420Frame * Yuv420Frame) :=
  yuv ← bgra_to_yuv444 cpu bgra (Z.to_nat width) (Z.to_nat height) (color_matrix s); pack_dual_views cpu yuv.

(** One frame in the history: its views, the calls of the library and what was
    returned. *)
Record entry := mkEntry { e_views : outcome Empty_set (Yuv420Frame * Yuv420Frame); seg : list call; res : outcome EncoderError (option Avc444Frame) }.

Definition perform (cpu : simd) (s : st) (o : op) : list entry * st :=
  match o with
  | Encode t bgra w h ts =>
      let '(r, s') := encode_bgra cpu t bgra w h ts s in
      ([mkEntry (views_of cpu s bgra w h) (drop (length (calls (encoder s))) (calls (encoder s'))) r], s')
  | RequestIdr => ([], request_idr s)
  | ForceKeyframe => ([], force_keyframe s)
  | ConfigureIdr now n => ([], configure_periodic_idr now n s)
  end.
Fixpoint run (cpu : simd) (ops : list op) (s : st) : list entry * st :=
  match ops with
  | [] => ([], s)
  | o :: ops => let '(e, s) := perform cpu s o in let '(es, s) := run cpu ops s in (e ++ es, s)
  end.

(** The auxiliary picture after a history: the hash of the last one the library
    encoded, and the number of frames since. *)
Definition aux_step (st : option Z * Z) (e : entry) : option Z * Z :=
  match seg e with
  | [mkCall _ _ (inr _); mkCall _ a (inr (_, _ :: _))] => (Some (hash_yuv420 a), 0)
  | [mkCall _ _ (inr _); mkCall _ _ (inr (_, []))] | [mkCall _ _ (inr _)] => (st.1, st.2 + 1)
  | _ => st
  end.
Definition aux_history (es : list entry) : option Z * Z := fold_left aux_step es (None, 0).
(** The parameter sets of the last key frame delivered that has some. *)
Definition sets_step (cached : option (list Z)) (e : entry) : option (list Z) :=
  match seg e, res e with
  | mkCall _ _ (inr (k, d)) :: _, Ok (Some _) => sets_after cached (is_key k) d
  | _, _ => cached
  end.
Definition sets_history (es : list entry) : option (list Z) := fold_left sets_step es None.

(** An encoder that has not encoded anything yet. *)
Definition fresh (s : st) : Prop := last_aux_hash s = None /\ frames_since_aux s = 0 /\ cached_sps_pps s = None.

(** A call that is refused or panics on its input does not reach the library. *)
Lemma encode_bgra_spec cpu t bgra w h ts (s : st) :
  (is_ok (encode_bgra cpu t bgra w h ts s).1 = false /\ (encode_bgra cpu t bgra w h ts s).2 = s) \/
  exists m a new, views_of cpu s bgra w h = Ok (m, a) /\
    calls (encoder (encode_bgra cpu t bgra w h ts s).2) = calls (encoder s) ++ new /\
    encoded t s m a new (encode_bgra cpu t bgra w h ts s).1 (encode_bgra cpu t bgra w h ts s).2.
Proof.
  unfold encode_bgra, bind at 1 2 3. unfold check_input, raise, ret.
  destruct ((w =? 0) || (h =? 0) || negb (w mod 2 =? 0) || negb (h mod 2 =? 0)); [by left|]. cbv zeta.
  destruct (_ <? wrap 32 _); [by left|]. unfold convert_and_pack, bind, gets, lift, id, views_of.
  destruct (bgra_to_yuv444 cpu bgra (Z.to_nat w) (Z.to_nat h) (color_matrix s)) as [yuv|[]|]; [|by left]. cbn [mbind outcome_bind].
  destruct (pack_dual_views cpu yuv) as [[m a]|[]|]; [|by left].
  destruct (_ <? since (at_converted t) _); [by left|]. right. unfold ret. cbn [fst snd].
  destruct (encode_views_spec t m a ts s) as (new & Hc & He). by exists m, a, new.
Qed.

Lemma perform_encode cpu t bgra w h ts (s : st) : exists e, perform cpu s (Encode t bgra w h ts) = ([e], (encode_bgra cpu t bgra w h ts s).2) /\
  e_views e = views_of cpu s bgra w h /\ res e = (encode_bgra cpu t bgra w h ts s).1 /\
  ((is_ok (res e) = false /\ seg e = [] /\ (encode_bgra cpu t bgra w h ts s).2 = s) \/
   exists m a, e_views e = Ok (m, a) /\ encoded t s m a (seg e) (res e) (encode_bgra cpu t bgra w h ts s).2).
Proof.
  unfold perform. pose proof (encode_bgra_spec cpu t bgra w h ts s) as Hs. destruct (encode_bgra cpu t bgra w h ts s) as [r s'].
  cbn [fst snd] in *. eexists. split; [reflexivity|]. split; [done|]. split; [done|]. cbn [seg res e_views].
  destruct Hs as [[Hr ->]|(m & a & new & Hv & Hc & He)].
  - left. by rewrite drop_all.
  - right. exists m, a. by rewrite Hc, drop_app_length.
Qed.

(** The encoder's counters are the history's. *)
Record tracks (s0 : st) (h : option Z * Z) (c : option (list Z)) (s : st) : Prop := mkTracks {
  tr_hash : last_aux_hash s = h.1; tr_since : frames_since_aux s = h.2; tr_sets : cached_sps_pps s = c;
  tr_enable : enable_aux_omission s = enable_aux_omission s0; tr_max : max_aux_interval s = max_aux_interval s0; tr_nonneg : 0 <= h.2;
}.

Lemma aux_outcome_step t (s : st) a key sg stream2 h n m f x e : aux_outcome t s a key sg stream2 h n ->
  seg e = mkCall f m (inr x) :: sg -> 0 <= frames_since_aux s < 2 ^ 32 - 1 ->
  aux_step (last_aux_hash s, frames_since_aux s) e = (h, n).
Proof.
  intros Ho Hs Hb. unfold aux_step. rewrite Hs. destruct Ho as [|f' k|f' k d]; cbn; [by rewrite wrap_small by lia..|]. by destruct d.
Qed.

Lemma encoded_tracks t (s0 s : st) m a h c e s' : tracks s0 h c s -> h.2 < 2 ^ 32 - 1 -> encoded t s m a (seg e) (res e) s' ->
  tracks s0 (aux_step h e) (sets_step c e) s'.
Proof.
  intros [T1 T2 T3 T4 T5 T6] Hb He. destruct h as [hash n]. cbn [fst snd] in *. remember (seg e) as sg eqn:Es. remember (res e) as r eqn:Er.
  assert (forall n', (last_aux_hash s', frames_since_aux s') = n' -> aux_step (hash, n) e = n' -> sets_step c e = cached_sps_pps s' ->
    settled s s' (force_aux_on_next_frame s') -> 0 <= n'.2 -> tracks s0 (aux_step (hash, n) e) (sets_step c e) s') as Hend.
  { intros n' <- -> -> (E1 & E2 & _) ?. split; cbn in *; congruence || done. }
  destruct He as [? ? ? Hset|? ? ? ? ? ? Hset|? ? ? ? ? ? Hset Ho|? ? ? ? ? ? ? ? Hset Ho]; (eapply Hend; [reflexivity|..]);
    try (by destruct Hset as (? & ? & ? & Hfa); repeat split; congruence);
    try (unfold aux_step, sets_step; rewrite <- Es, <- ?Er; cbn; congruence);
    try (cbn; lia).
  - rewrite <- T1, <- T2. rewrite (aux_outcome_step _ _ _ _ _ _ _ _ _ _ _ e Ho (eq_sym Es)) by lia. congruence.
  - cbn. destruct Ho; pose proof (wrap_bound 32 (frames_since_aux s + 1)); lia.
  - rewrite <- T1, <- T2. rewrite (aux_outcome_step _ _ _ _ _ _ _ _ _ _ _ e Ho (eq_sym Es)) by lia. congruence.
  - cbn. destruct Ho; pose proof (wrap_bound 32 (frames_since_aux s + 1)); lia.
Qed.

Lemma aux_step_bound h e : (aux_step h e).2 <= Z.max 0 (h.2 + 1).
Proof. unfold aux_step. repeat case_match; cbn; lia. Qed.
Lemma tracks_settings (s0 s s' : st) h c : tracks s0 h c s -> last_aux_hash s' = last_aux_hash s -> frames_since_aux s' = frames_since_aux s ->
  cached_sps_pps s' = cached_sps_pps s -> enable_aux_omission s' = enable_aux_omission s -> max_aux_interval s' = max_aux_interval s ->
  tracks s0 h c s'.
Proof. intros [? ? ? ? ? ?]. split; congruence. Qed.

Lemma perform_tracks cpu o (s0 s : st) h c : tracks s0 h c s -> h.2 < 2 ^ 32 - 1 ->
  let '(es, s') := perform cpu s o in
  tracks s0 (fold_left aux_step es h) (fold_left sets_step es c) s' /\ (fold_left aux_step es h).2 <= h.2 + 1 /\ (length es <= 1)%nat.
Proof.
  intros T Hb. pose proof (tr_nonneg _ _ _ _ T). destruct o as [t bgra w ht ts| | |now n].
  - destruct (perform_encode cpu t bgra w ht ts s) as (e & -> & _ & _ & He). cbn [fold_left length].
    assert ((aux_step h e).2 <= h.2 + 1) by (pose proof (aux_step_bound h e); lia). split; [|done].
    destruct He as [(Hr & Hs & ->)|(m & a & _ & He)]; [|by eapply encoded_tracks].
    unfold aux_step, sets_step. rewrite Hs. by destruct h.
  - cbn. split; [by eapply tracks_settings|]. lia.
  - cbn. split; [by eapply tracks_settings|]. lia.
  - cbn. split; [by eapply tracks_settings|]. lia.
Qed.

Lemma run_tracks cpu ops (s0 s : st) h c : tracks s0 h c s -> h.2 + Z.of_nat (length ops) < 2 ^ 32 ->
  let '(es, s') := run cpu ops s in tracks s0 (fold_left aux_step es h) (fold_left sets_step es c) s' /\ (length es <= length ops)%nat.
Proof.
  revert s h c. induction ops as [|o ops IH]; intros s h c T Hb; [done|]. cbn [run]. cbn [length] in Hb.
  pose proof (perform_tracks cpu o s0 s h c T ltac:(lia)) as Hp. destruct (perform cpu s o) as [e s1]. destruct Hp as (T1 & Hn & Hl).
  specialize (IH s1 _ _ T1 ltac:(lia)). destruct (run cpu ops s1) as [es s2]. destruct IH as [T2 Hl2].
  rewrite !fold_left_app, length_app. split; [done|]. cbn. lia.
Qed.

(** Every entry of a history was made by an encode call after the entries before. *)
Lemma run_split cpu ops (s s' : st) pre e post : run cpu ops s = (pre ++ e :: post, s') ->
  exists ops1 t bgra w h ts ops2 s1, ops = ops1 ++ Encode t bgra w h ts :: ops2 /\ run cpu ops1 s = (pre, s1) /\
    (perform cpu s1 (Encode t bgra w h ts)).1 = [e].
Proof.
  revert s pre. induction ops as [|o ops IH]; intros s pre Hrun; [cbn in Hrun; by destruct pre|]. cbn [run] in Hrun.
  destruct (perform cpu s o) as [es1 s1] eqn:Ep. destruct (run cpu ops s1) as [es s2] eqn:Er. injection Hrun as Hes ->.
  assert (es1 = [] \/ exists e1 t bgra w h ts, es1 = [e1] /\ o = Encode t bgra w h ts) as [->|(e1 & t & bgra & w & h & ts & -> & ->)].
  { destruct o as [t bgra w h ts| | |]; [|by injection Ep; left..]. right.
    destruct (perform_encode cpu t bgra w h ts s) as (e1 & Ep1 & _). rewrite Ep1 in Ep. injection Ep as <- _. by eexists _, _, _, _, _, _. }
  - cbn in Hes. subst es. destruct (IH s1 pre Er) as (ops1 & t & bgra & w & h & ts & ops2 & s3 & -> & R & P).
    exists (o :: ops1), t, bgra, w, h, ts, ops2, s3. split; [done|]. split; [|done]. cbn [run]. by rewrite Ep, R.
  - destruct pre as [|e0 pre]; cbn in Hes; injection Hes as -> ->.
    + exists [], t, bgra, w, h, ts, ops, s. split; [done|]. split; [done|]. by rewrite Ep.
    + destruct (IH s1 pre Er) as (ops1 & t' & bgra' & w' & h' & ts' & ops2 & s3 & -> & R & P).
      exists (Encode t bgra w h ts :: ops1), t', bgra', w', h', ts', ops2, s3. split; [done|]. split; [|done]. cbn [run]. by rewrite Ep, R.
Qed.

(** The state in which an entry was made, and what was done. *)
Lemma entry_inv cpu ops (s0 s' : st) pre e post : fresh s0 -> Z.of_nat (length ops) < 2 ^ 32 -> run cpu ops s0 = (pre ++ e :: post, s') ->
  seg e <> [] -> exists t s m a s1, tracks s0 (aux_history pre) (sets_history pre) s /\ e_views e = Ok (m, a) /\ encoded t s m a (seg e) (res e) s1.
Proof.
  intros (F1 & F2 & F3) Hb Hrun Hs. destruct (run_split _ _ _ _ _ _ _ Hrun) as (ops1 & t & bgra & w & h & ts & ops2 & s & -> & R & P).
  assert (tracks s0 (None, 0) None s0) as T by done. rewrite length_app in Hb. cbn [length] in Hb.
  pose proof (run_tracks cpu ops1 s0 s0 _ _ T ltac:(cbn; lia)) as T'. rewrite R in T'. destruct T' as [T' _].
  destruct (perform_encode cpu t bgra w h ts s) as (e1 & Ep & _ & _ & He). rewrite Ep in P. injection P as ->.
  destruct He as [(_ & He & _)|(m & a & Hv & He)]; [done|]. by exists t, s, m, a, (encode_bgra cpu t bgra w h ts s).2.
Qed.
End run.

(** ** When the auxiliary view is left out *)

(** Only the main view was encoded. *)
Definition main_only (e : entry) : Prop := exists f m x, seg e = [mkCall f m (inr x)].

Lemma aux_history_grows pre mid : Forall main_only mid -> (aux_history (pre ++ mid)).2 = (aux_history pre).2 + Z.of_nat (length mid).
Proof.
  unfold aux_history. rewrite fold_left_app. generalize (fold_left aux_step pre (None, 0)). intros st Hm. revert st.
  induction Hm as [|e mid (f & m & x & Hs) Hm IH]; intros st; [cbn; lia|]. cbn [fold_left length]. rewrite IH. unfold aux_step. rewrite Hs. cbn. lia.
Qed.

Lemma aux_history_nonneg es : 0 <= (aux_history es).2.
Proof.
  unfold aux_history. cut (forall st, 0 <= st.2 -> 0 <= (fold_left aux_step es st).2); [intros Hc; by apply Hc|].
  induction es as [|e es IH]; intros st Hst; [done|]. apply IH. unfold aux_step. repeat case_match; cbn; lia.
Qed.

Section properties.
Context {C : Type} `{Codec C} (cpu : simd) (ops : list op) (s0 s' : Avc444Encoder (logged C)).
Context (Hfresh : fresh s0) (Hlen : Z.of_nat (length ops) < 2 ^ 32).

Lemma main_only_justified pre e post : run cpu ops s0 = (pre ++ e :: post, s') -> main_only e ->
  enable_aux_omission s0 = true /\ exists m a h n, e_views e = Ok (m, a) /\ aux_history pre = (Some h, n) /\
    n < max_aux_interval s0 /\ (n < MIN_AUX_INTERVAL \/ hash_yuv420 a = h).
Proof.
  intros Hrun (f & m0 & x & Hs). destruct (entry_inv cpu ops s0 s' pre e post Hfresh Hlen Hrun ltac:(by rewrite Hs))
    as (t & s & m & a & s1 & [T1 T2 _ T4 T5 _] & Hv & He). rewrite Hs in He.
  assert (aux_due t s a = false) as Hd.
  { inversion He as [| |? ? ? ? ? ? Hset Ho|? ? ? ? ? ? ? ? Hset Ho]; subst; by inversion Ho. }
  unfold aux_due in Hd. apply orb_false_elim in Hd as [Hd Hlast]. apply orb_false_elim in Hd as [_ Hen].
  apply negb_false_iff in Hen. split; [congruence|]. destruct (last_aux_hash s) as [h|] eqn:Eh; [|done].
  apply orb_false_elim in Hlast as [Hmax Hhash]. apply Z.leb_gt in Hmax. exists m, a, h, (frames_since_aux s).
  split; [done|]. split; [rewrite T1, T2; by destruct (aux_history pre)|]. split; [lia|].
  apply andb_false_iff in Hhash as [Hn|Hn]; [left; by apply Z.leb_gt|right]. apply negb_false_iff, Z.eqb_eq in Hn. done.
Qed.

End properties.

(** C36. The auxiliary view is left out only when an older one can stand in: over any
    sequence of calls on a new encoder, with any library, a frame of which only
    the main view was encoded comes when omission is switched on, an auxiliary
    picture was encoded before, that picture is fewer than [max_aux_interval]
    frames old, and either it is fewer than ten frames old or the hash of the
    current auxiliary view is the one of that picture. *)
Theorem omission_justified {C} `{Codec C} cpu ops (s0 s' : Avc444Encoder (logged C)) pre e post :
  fresh s0 -> Z.of_nat (length ops) < 2 ^ 32 -> run cpu ops s0 = (pre ++ e :: post, s') -> main_only e ->
  enable_aux_omission s0 = true /\ exists m a h n, e_views e = Ok (m, a) /\ aux_history pre = (Some h, n) /\
    n < max_aux_interval s0 /\ (n < MIN_AUX_INTERVAL \/ hash_yuv420 a = h).
Proof. intros Hf Hl. apply (main_only_justified cpu ops s0 s' Hf Hl). Qed.

(** The auxiliary picture is refreshed: in no history are more than
    [max_aux_interval] frames in a row encoded without an attempt to encode the
    auxiliary view, and the first frame is never encoded without it. *)
Theorem auxiliary_refreshed {C} `{Codec C} cpu ops (s0 s' : Avc444Encoder (logged C)) pre mid post :
  fresh s0 -> Z.of_nat (length ops) < 2 ^ 32 -> run cpu ops s0 = (pre ++ mid ++ post, s') -> Forall main_only mid ->
  Z.of_nat (length mid) <= Z.max 0 (max_aux_interval s0) /\ (mid <> [] -> pre <> []).
Proof.
  intros Hf Hl Hrun Hm. split.
  - destruct mid as [|e mid _] using rev_ind; [cbn; lia|]. apply Forall_app in Hm as [Hm [He _]%Forall_cons].
    replace (pre ++ (mid ++ [e]) ++ post) with ((pre ++ mid) ++ e :: post) in Hrun by (by rewrite <- !app_assoc).
    destruct (main_only_justified cpu ops s0 s' Hf Hl _ e post Hrun He) as (_ & m & a & h & n & _ & Hn & Hmax & _).
    pose proof (aux_history_grows pre mid Hm) as Hg. rewrite Hn in Hg. rewrite length_app. cbn in Hg |- *.
    pose proof (aux_history_nonneg pre). lia.
  - intros Hne ->. destruct mid as [|e mid]; [done|]. apply Forall_cons in Hm as [He _].
    destruct (main_only_justified cpu ops s0 s' Hf Hl [] e (mid ++ post) Hrun He) as (_ & m & a & h & n & _ & Hn & _). done.
Qed.

(** ** What reaches the client *)

(** The auxiliary stream for the client, from the calls after the main one. *)
Definition aux_data (rest : list call) : option (list Z) :=
  match rest with [mkCall _ _ (inr (_, b :: d))] => Some (b :: d) | _ => None end.

(** A frame carries what was encoded for it and what the client needs to decode
    it: over any sequence of calls, a frame that is returned has the main
    bitstream of its own call, unchanged for a key frame and after the parameter
    sets of the last key frame delivered otherwise, and the auxiliary bitstream
    if and only if one was produced; no frame is returned only when the main
    bitstream is empty, and an error says that the last call of the library
    failed or that the input was refused. *)
Theorem frames_carry_encoded {C} `{Codec C} cpu ops (s0 s' : Avc444Encoder (logged C)) pre e post :
  fresh s0 -> Z.of_nat (length ops) < 2 ^ 32 -> run cpu ops s0 = (pre ++ e :: post, s') ->
  match res e with
  | Ok (Some fr) => exists f m k d rest, seg e = mkCall f m (inr (k, d)) :: rest /\ d <> [] /\ is_keyframe fr = is_key k /\
      stream1_data fr = (if is_key k then d else default [] (sets_history pre) ++ d) /\ stream2_data fr = aux_data rest
  | Ok None => exists f m k rest, seg e = mkCall f m (inr (k, [])) :: rest
  | Err _ => seg e = [] \/ exists f m err, last (seg e) = Some (mkCall f m (inl err))
  | Panic => seg e = []
  end.
Proof.
  intros Hf Hl Hrun. destruct (decide (seg e = [])) as [Hs|Hs].
  - destruct (run_split _ _ _ _ _ _ _ Hrun) as (ops1 & t & bgra & w & h & ts & ops2 & s & _ & _ & P).
    destruct (perform_encode cpu t bgra w h ts s) as (e1 & Ep & _ & _ & He). rewrite Ep in P. injection P as ->.
    destruct He as [(Hr & _)|(m & a & _ & He)]; [|rewrite Hs in He; by inversion He]. destruct (res e); auto. done.
  - destruct (entry_inv cpu ops s0 s' pre e post Hf Hl Hrun Hs) as (t & s & m & a & s1 & [_ _ T3 _ _ _] & _ & He).
    destruct He as [| |k aux_calls stream2 h n s1 ? Ho|k d aux_calls stream2 h n fr s1 ? Ho Hd ? ? ? Hst1 Hst2 Hkey].
    + right. by eexists _, _, _.
    + right. by eexists _, _, _.
    + by eexists _, _, _, _.
    + eexists _, _, _, _, _. split; [reflexivity|]. split; [done|]. split; [done|]. rewrite Hst1, Hst2, T3. unfold sets_before.
      split; [by destruct (is_key k)|]. destruct Ho as [| |? ? [|b d']]; done.
Qed.

(** ** Recovery *)

(** What the library documents of [force_intra_frame]: the next picture is intra
    coded. *)
Definition honours_force (cs : list call) : Prop :=
  Forall (fun c => forced c = true -> match result c with inr (k, _) => is_key k = true | inl _ => True end) cs.

(** An intra refresh, requested by the client or due by the timer, covers both
    views: the next call that reaches the library forces the main view, and as
    soon as a main view is encoded, in this call or, after failures, a later one,
    the auxiliary view is encoded too, whatever the omission settings, as an intra
    frame if the main view is one; with a library that honours the request and
    produces both bitstreams the frame is a key frame with both. *)
Theorem intra_refresh {C} `{Codec C} cpu t bgra w h ts (s s' : Avc444Encoder (logged C)) e :
  perform cpu s (Encode t bgra w h ts) = ([e], s') -> seg e <> [] ->
  is_periodic_idr_due (at_idr_check t) s || force_aux_on_next_frame s = true ->
  exists m a r rest, e_views e = Ok (m, a) /\ seg e = mkCall (main_forced t s) m r :: rest /\
    (is_periodic_idr_due (at_idr_check t) s = true -> main_forced t s = true) /\
    match r with
    | inl _ => rest = [] /\ force_aux_on_next_frame s' = true
    | inr (k, d) => exists f r', rest = [mkCall f a r'] /\ implb (is_key k) f = true /\ force_aux_on_next_frame s' = false /\
        (honours_force (seg e) -> main_forced t s = true -> d <> [] ->
         forall k' d', r' = inr (k', d') -> d' <> [] ->
         is_key k' = true /\ exists fr, res e = Ok (Some fr) /\ is_keyframe fr = true /\ stream1_data fr = d /\ stream2_data fr = Some d')
    end.
Proof.
  intros Hp Hs Hdue. destruct (perform_encode cpu t bgra w h ts s) as (e1 & Ep & _ & _ & He). rewrite Ep in Hp. injection Hp as -> <-.
  destruct He as [(_ & ? & _)|(m & a & Hv & He)]; [done|]. assert (aux_due t s a = true) as Hd by (unfold aux_due; by rewrite Hdue).
  assert (is_periodic_idr_due (at_idr_check t) s = true -> main_forced t s = true) as Hmf by (unfold main_forced; by intros ->).
  generalize dependent (encode_bgra cpu t bgra w h ts s).2. intros s1 He Ep. remember (seg e) as sg eqn:Es. remember (res e) as r eqn:Er.
  destruct He as [err err' s1 Hset|k d f err err' s1 Hset _ Hf|k aux_calls stream2 hs n s1 Hset Ho|k d aux_calls stream2 hs n fr s1 Hset Ho Hne ? ? ? Hst1 Hst2 Hkey];
    exists m, a; eexists _, _; (split; [done|]); (split; [reflexivity|]); (split; [done|]); cbn beta iota.
  - split; [done|]. destruct Hset as (_ & _ & _ & ->). done.
  - exists f, (inl err). split; [done|]. split; [done|]. split; [apply Hset|]. intros _ _ _ k' d' [=].
  - destruct Ho as [|f k' _ Hf|f k' d' _ Hd' Hf]; [congruence|..]; eexists f, _; (split; [reflexivity|]); (split; [done|]);
      (split; [apply Hset|]); done.
  - destruct Ho as [|f k' _ Hf|f k' d' _ Hd' Hf]; [congruence|..]; eexists f, _; (split; [reflexivity|]); (split; [done|]); (split; [apply Hset|]).
    + intros _ _ _ k2 d2 [= <- <-]. done.
    + intros [Hm1 [Hm2 _]%Forall_cons]%Forall_cons Hforced _ k2 d2 [= <- <-] _. cbn in Hm1, Hm2. specialize (Hm1 Hforced).
      rewrite Hm1 in *. cbn in Hf. subst f. split; [by apply Hm2|]. exists fr. by rewrite Hst1, Hst2, Hkey.
Qed.

(** ** Which input is accepted *)

Lemma input_cases {C} `{Codec C} cpu t bgra w h ts (s : Avc444Encoder (logged C)) :
  monotone t -> all_bytes bgra -> 0 <= w -> 0 <= h -> w * h * 4 < 2 ^ 32 ->
  let r := encode_bgra cpu t bgra w h ts s in
  if (w =? 0) || (h =? 0) || Z.odd w || Z.odd h then r = (Err (InvalidDimensions w h), s)
  else match Z.of_nat (length bgra) ?= w * h * 4 with
       | Lt => exists reason, r = (Err (EncodeFailed reason), s)
       | Eq => exists m a, views_of cpu s bgra w h = Ok (m, a) /\ r = encode_views t m a ts s /\ r.1 <> Panic
       | Gt => r = (Panic, s)
       end.
Proof.
  intros Ht Hb Hw Hh Hs. cbv zeta. unfold encode_bgra, bind at 1 2, check_input, raise, ret. rewrite !Zmod_odd.
  assert (forall z b, b = Z.odd z -> negb ((if b then 1 else 0) =? 0) = b) as Hodd by (by intros ? [] _).
  rewrite (Hodd w _ eq_refl), (Hodd h _ eq_refl). destruct ((w =? 0) || (h =? 0) || Z.odd w || Z.odd h) eqn:Ed; [done|].
  apply orb_false_elim in Ed as [Ed Oh]. apply orb_false_elim in Ed as [Ed Ow]. apply orb_false_elim in Ed as [Zw Zh].
  apply Z.eqb_neq in Zw, Zh. rewrite (wrap_small 32 (w * h)), wrap_small by nia.
  destruct (Z.compare_spec (Z.of_nat (length bgra)) (w * h * 4)) as [Hl|Hl|Hl].
  - rewrite (proj2 (Z.ltb_ge _ _)) by lia. unfold convert_and_pack, bind, gets, lift, id, views_of.
    destruct (conversion_frame_ok cpu bgra (Z.to_nat w) (Z.to_nat h) (color_matrix s) Hb ltac:(nia)) as (f & -> & Ew & Eh & Hf).
    cbn [mbind outcome_bind]. assert (forall z, 0 <= z -> Z.odd z = false -> (Z.to_nat z mod 2 = 0)%nat) as Hev.
    { intros z Hz Ho. apply Nat2Z.inj. rewrite Nat2Z.inj_mod, Z2Nat.id by done.
      change (Z.of_nat 2) with 2. rewrite Zmod_odd, Ho. done. }
    destruct (pack_auxiliary_ok f Hf) as (a & Ha & _). unfold pack_dual_views. rewrite pack_main_ok, Ha by (done || by rewrite ?Ew, ?Eh; apply Hev).
    cbn [mbind outcome_bind]. destruct Ht as (T1 & T2 & _). rewrite (proj2 (Z.ltb_ge _ _)) by (unfold since, sat_sub; lia).
    unfold ret. cbn [fst snd]. eexists _, a. split; [reflexivity|]. split; [reflexivity|].
    match goal with |- (encode_views ?t ?m ?a ?ts ?s).1 <> _ => destruct (encode_views_spec t m a ts s) as (sg & _ & He) end.
    intros Hp. rewrite Hp in He. inversion He.
  - rewrite (proj2 (Z.ltb_lt _ _)) by lia. by eexists.
  - rewrite (proj2 (Z.ltb_ge _ _)) by lia. unfold convert_and_pack, bind, gets, lift, id, bgra_to_yuv444.
    rewrite (proj2 (Nat.eqb_neq _ _)) by nia. done.
Qed.

(** What a call does with its input, for every frame of up to 2^32 bytes: zero
    and odd dimensions and short buffers are refused with their errors and
    change nothing; a buffer of exactly the announced size is converted and
    packed without a panic and both views are handed to the library; a longer
    buffer passes the check and panics in the conversion. *)
Theorem input_decision {C} `{Codec C} cpu t bgra w h ts (s : Avc444Encoder (logged C)) :
  monotone t -> all_bytes bgra -> 0 <= w -> 0 <= h -> w * h * 4 < 2 ^ 32 ->
  let r := encode_bgra cpu t bgra w h ts s in
  if (w =? 0) || (h =? 0) || Z.odd w || Z.odd h then r = (Err (InvalidDimensions w h), s)
  else match Z.of_nat (length bgra) ?= w * h * 4 with
       | Lt => exists reason, r = (Err (EncodeFailed reason), s)
       | Eq => exists m a, views_of cpu s bgra w h = Ok (m, a) /\ r = encode_views t m a ts s /\ r.1 <> Panic
       | Gt => r = (Panic, s)
       end.
Proof. apply input_cases. Qed.

(** ** A small library to run the encoder with *)

(** It answers with its call number as the bitstream, an IDR frame at first and
    when forced, and with an empty bitstream at the calls in [t_empty]. *)
Record toy := mkToy { t_force : bool; t_count : nat; t_empty : list nat }.
#[export] Instance toy_codec : Codec toy := {
  force_intra_frame c := mkToy true (t_count c) (t_empty c);
  encode_at c f ts :=
    (inr (if t_force c || (t_count c =? 0)%nat then IDRFrame else OtherFrame,
          if existsb (Nat.eqb (t_count c)) (t_empty c) then [] else [Z.of_nat (t_count c)]),
     mkToy false (S (t_count c)) (t_empty c));
}.
(** A new encoder with omission switched on. *)
Definition toy_state (empty : list nat) : Avc444Encoder (logged toy) :=
  match new (Ok tt) (fun _ => inr (mkLogged (mkToy false 0 empty) false [])) 0 config_default with
  | Ok s => configure_aux_omission true 30 true s
  | _ => mkEncoder (mkLogged (mkToy false 0 empty) false []) config_default BT709_FULL BT709 0 0 fzero None None false None 0 30 false false 0 5 false false
  end.
Definition at_ms (n : Z) : Instants := mkInstants (ms n) (ms n) (ms n) (ms n) (ms n) (ms n) (ms n).
(** A picture of 2x2 pixels. *)
Definition shot (n grey : Z) : op := Encode (at_ms n) (replicate 16 grey) 2 2 n.
Definition entries (empty : list nat) (ops : list op) : list entry := (run NoSimd ops (toy_state empty)).1.

Lemma toy_fresh empty : fresh (toy_state empty).
Proof. done. Qed.
Lemma toy_run empty ops : run NoSimd ops (toy_state empty) = (entries empty ops, (run NoSimd ops (toy_state empty)).2).
Proof. unfold entries. by destruct (run _ _ _). Qed.
Lemma split_at {A} n (l : list A) x : l !! n = Some x -> l = take n l ++ x :: drop (S n) l.
Proof. intros. by rewrite take_drop_middle. Qed.

Definition three_shots : list op := [shot 0 0; shot 1 9; shot 2 200].
Definition nth_entry (empty : list nat) (ops : list op) (n : nat) : entry :=
  nth n (entries empty ops) (mkEntry Panic [] Panic).
Lemma three_run n : (n < 3)%nat -> run NoSimd three_shots (toy_state []) =
  (take n (entries [] three_shots) ++ nth_entry [] three_shots n :: drop (S n) (entries [] three_shots), (run NoSimd three_shots (toy_state [])).2).
Proof.
  intros Hn. rewrite toy_run at 1. f_equal. apply split_at. unfold nth_entry. destruct n as [|[|[|n]]]; [vm_compute; reflexivity..|lia].
Qed.

Lemma omission_justified_witness : exists h, aux_history (take 1 (entries [] three_shots)) = (Some h, 0) /\ main_only (nth_entry [] three_shots 1).
Proof.
  assert (main_only (nth_entry [] three_shots 1)) as Hm by (eexists _, _, _; vm_compute; reflexivity).
  assert (1 < 3)%nat as H1 by lia. assert (Z.of_nat (length three_shots) < 2 ^ 32) as Hl by (vm_compute; reflexivity).
  destruct (omission_justified NoSimd three_shots (toy_state []) (run NoSimd three_shots (toy_state [])).2 (take 1 (entries [] three_shots))
    (nth_entry [] three_shots 1) (drop 2 (entries [] three_shots)) (toy_fresh []) Hl (three_run 1 H1) Hm) as (_ & m & a & h & n & _ & Hh & _).
  exists h. split; [|exact Hm]. rewrite Hh. f_equal. apply (f_equal snd) in Hh. vm_compute in Hh. by symmetry.
Defined.

Lemma main_only_all es : forallb (fun e => match seg e with [mkCall _ _ (inr _)] => true | _ => false end) es = true -> Forall main_only es.
Proof.
  induction es as [|e es IH]; [constructor|]. cbn [forallb]. intros [He Hes]%andb_prop. constructor; [|by apply IH].
  destruct (seg e) as [|[f m [x|x]] [|]] eqn:E; try done. by exists f, m, x.
Qed.
Lemma auxiliary_refreshed_witness : Forall main_only (drop 1 (entries [] three_shots)) /\
  (drop 1 (entries [] three_shots) <> [] -> take 1 (entries [] three_shots) <> []).
Proof.
  assert (Forall main_only (drop 1 (entries [] three_shots))) as Hm by (apply main_only_all; vm_compute; reflexivity).
  split; [exact Hm|].
  refine (proj2 (auxiliary_refreshed NoSimd three_shots (toy_state []) (run NoSimd three_shots (toy_state [])).2 _ _ [] (toy_fresh []) _ _ Hm)).
  - vm_compute; reflexivity.
  - rewrite app_nil_r, take_drop. apply toy_run.
Defined.

Lemma frames_carry_encoded_witness : exists fr, res (nth_entry [] three_shots 2) = Ok (Some fr) /\ stream2_data fr = None.
Proof.
  assert (2 < 3)%nat as H2 by lia. assert (Z.of_nat (length three_shots) < 2 ^ 32) as Hl by (vm_compute; reflexivity).
  pose proof (frames_carry_encoded NoSimd three_shots (toy_state []) (run NoSimd three_shots (toy_state [])).2 (take 2 (entries [] three_shots))
    (nth_entry [] three_shots 2) (drop 3 (entries [] three_shots)) (toy_fresh []) Hl (three_run 2 H2)) as Hf.
  assert (match res (nth_entry [] three_shots 2) with Ok (Some _) => true | _ => false end = true) as Hok by (vm_compute; reflexivity).
  destruct (res (nth_entry [] three_shots 2)) as [[fr|]| |] eqn:Hr; [|discriminate..]. exists fr. split; [reflexivity|]. destruct Hf as (f & m & k & d & rest & Hs & _ & _ & _ & ->).
  apply (f_equal (fun l => length l)) in Hs. vm_compute in Hs. by destruct rest.
Defined.

(** A refresh requested after the first frame. *)
Definition requested : Avc444Encoder (logged toy) := request_idr (run NoSimd [shot 0 0] (toy_state [])).2.
Lemma intra_refresh_witness : exists e s' f a r, perform NoSimd requested (shot 1 9) = ([e], s') /\ is_periodic_idr_due (ms 1) requested = true /\
  drop 1 (seg e) = [mkCall f a r].
Proof.
  destruct (perform_encode NoSimd (at_ms 1) (replicate 16 9) 2 2 1 requested) as (e & Hp & _).
  fold (shot 1 9) in Hp. assert (exists c cs, seg e = c :: cs /\ match result c with inr _ => true | _ => false end = true) as (c & cs & Hs & Hc).
  { apply (f_equal fst) in Hp. cbn [fst] in Hp. assert ((perform NoSimd requested (shot 1 9)).1 = [e]) as He by exact Hp. clear Hp.
    replace e with (nth 0 (perform NoSimd requested (shot 1 9)).1 e) by (by rewrite He). clear He. eexists _, _. split; vm_compute; reflexivity. }
  assert (seg e <> []) as Hne by (by rewrite Hs).
  assert (is_periodic_idr_due (ms 1) requested = true) as Hdue by (vm_compute; reflexivity).
  assert (is_periodic_idr_due (at_idr_check (at_ms 1)) requested || force_aux_on_next_frame requested = true) as Hdue2 by (vm_compute; reflexivity).
  destruct (intra_refresh NoSimd (at_ms 1) (replicate 16 9) 2 2 1 requested _ e Hp Hne Hdue2) as (m & a & r & rest & _ & Hseg & _ & Hr).
  rewrite Hs in Hseg. injection Hseg as -> ->. cbn in Hc. destruct r as [|[k d]]; [done|]. destruct Hr as (f & r' & -> & _).
  eexists e, _, f, a, r'. split; [exact Hp|]. split; [exact Hdue|]. by rewrite Hs.
Defined.

Lemma input_decision_witness : (encode_bgra NoSimd (at_ms 0) (replicate 17 0) 2 2 0 (toy_state [])).1 = Panic.
Proof.
  pose proof (input_decision NoSimd (at_ms 0) (replicate 17 0) 2 2 0 (toy_state []) ltac:(cbn; unfold monotone; cbn; lia)
    ltac:(apply Forall_replicate; lia) ltac:(lia) ltac:(lia) ltac:(lia)) as Hd.
  cbv zeta in Hd. cbn [Z.eqb Z.odd orb] in Hd. rewrite length_replicate in Hd. cbn [Z.of_nat Z.compare] in Hd. by rewrite Hd.
Defined.

(** ** What the client misses *)

(** An auxiliary stream that was encoded with an empty main stream is thrown away
    but remembered as sent: the client of these two frames has never received an
    auxiliary picture, and the second frame tells it to use the one it has. *)
Lemma lost_auxiliary_is_remembered :
  let es := entries [0%nat] [shot 0 0; shot 1 0] in
  match es with
  | [e0; e1] => match res e0, seg e0 with Ok None, [_; mkCall _ _ (inr (_, d))] => bool_decide (d <> []) | _, _ => false end &&
                match res e1 with Ok (Some fr) => bool_decide (stream2_data fr = None) | _ => false end
  | _ => false
  end = true.
Proof. by vm_compute. Qed.

(** A requested refresh of the auxiliary view is not repeated when the library
    skips that picture: the client keeps the old one. *)
Lemma skipped_refresh_is_lost :
  let es := entries [3%nat] [shot 0 0; RequestIdr; shot 1 9; shot 2 9] in
  match es with
  | [_; e1; e2] => match res e1 with Ok (Some fr) => is_keyframe fr && bool_decide (stream2_data fr = None) | _ => false end &&
                   match res e2, seg e2 with Ok (Some fr), [_] => bool_decide (stream2_data fr = None) | _, _ => false end
  | _ => false
  end = true.
Proof. by vm_compute. Qed.
