(* ===== verification/Frames.v ===== *)
(** * Captured frames and the desktop geometry

    Models the frame record of src/src/desktop/pipewire/frame.rs, the pixel formats
    of desktop/pipewire/format.rs, and from src/src/rdp/server/display_handler.rs
    the frame transforms, the geometry policy, the frame rate regulator and the
    reader of the compositor's mode list.  Logging is left out; buffer sizes are
    below 2^64. *)
From S2P Require Import Prelude Text Float Simd Color YuvPack.

(** ** Frames *)

(** [format.rs:12-33 PixelFormat] *)
Inductive PixelFormat := BGRA | BGRx | RGBA | RGBx | RGB | BGR | GRAY8 | NV12 | YUY2 | I420.
(** [format.rs:70-78 bytes_per_pixel] *)
Definition bytes_per_pixel (f : PixelFormat) : nat :=
  match f with BGRA | BGRx | RGBA | RGBx => 4 | RGB | BGR => 3 | GRAY8 | NV12 | I420 => 1 | YUY2 => 2 end.

(** The sizes are kept as natural numbers; [f_damage] are the regions the capture
    reports.  [frame.rs:30-69 VideoFrame] *)
Record VideoFrame := mkVideo {
  frame_id : Z; pts : Z; dts : Z; duration : Z;
  f_width : nat; f_height : nat; f_stride : nat; f_format : PixelFormat;
  monitor_index : Z; f_data : list Z; capture_time : Z; f_damage : list (Z * Z * Z * Z); f_flags : Z;
}.
Definition with_pixels (stride : nat) (data : list Z) (f : VideoFrame) : VideoFrame :=
  mkVideo (frame_id f) (pts f) (dts f) (duration f) (f_width f) (f_height f) stride (f_format f) (monitor_index f) data (capture_time f) [] (f_flags f).

(** The bytes of one pixel. *)
Definition bpp (f : VideoFrame) : nat := bytes_per_pixel (f_format f).
Definition pixel (f : VideoFrame) (x y : nat) : list Z := bytes_at (y * f_stride f + x * bpp f) (bpp f) (f_data f).
(** The last row may end before its stride. *)
Definition required_len (f : VideoFrame) : nat := (f_stride f * (f_height f - 1) + f_width f * bpp f)%nat.

(** [display_handler.rs:868-910 copy_frame_with_transform] *)
Definition copy_frame_with_transform (f : VideoFrame) (src_xy : nat -> nat -> nat -> nat -> nat * nat) : outcome Empty_set VideoFrame :=
  let width := f_width f in
  let height := f_height f in
  if (width =? 0)%nat || (height =? 0)%nat || (bpp f =? 0)%nat then Ok f
  else if (length (f_data f) <? required_len f)%nat then Ok f
  else
    rows ← collect (fun y => collect (fun x =>
      let '(src_x, src_y) := src_xy x y width height in
      slice_of (f_data f) (src_y * f_stride f + src_x * bpp f) (bpp f)) (seq 0 width)) (seq 0 height);
    Ok (with_pixels (width * bpp f) (concat (map (fun row => concat row) rows)) f).

(** [display_handler.rs:912-916 flip_frame_vertical] *)
Definition flip_frame_vertical (f : VideoFrame) : outcome Empty_set VideoFrame :=
  copy_frame_with_transform f (fun x y _ height => (x, height - 1 - y)%nat).
(** [display_handler.rs:918-922 rotate_frame_180] *)
Definition rotate_frame_180 (f : VideoFrame) : outcome Empty_set VideoFrame :=
  copy_frame_with_transform f (fun x y width height => (width - 1 - x, height - 1 - y)%nat).

(** The products are 32-bit here.  [display_handler.rs:995-1031 compact_frame] *)
Definition compact_frame (f : VideoFrame) : outcome Empty_set VideoFrame :=
  let row_bytes := (if (Z.of_nat (f_width f * bpp f) <=? u32_max)%Z then f_width f * bpp f else Z.to_nat u32_max)%nat in
  if (f_stride f =? row_bytes)%nat then Ok f
  else if (length (f_data f) <? (f_height f - 1) * f_stride f + row_bytes)%nat then Ok f
  else
    let wrapped n := Z.to_nat (wrap 32 (Z.of_nat n)) in
    rows ← collect (fun y => 
      if (wrapped (y * row_bytes)%nat + row_bytes <=? wrapped (row_bytes * f_height f)%nat)%nat
      then slice_of (f_data f) (wrapped (y * f_stride f)%nat) row_bytes else Panic) (seq 0 (f_height f));
    Ok (with_pixels row_bytes (concat rows) f).

(** ** Geometry policy *)

(** [types.rs:868-873 DisplayConfig] *)
Record DisplayConfig := mkDisplay { allow_resize : bool; allowed_resolutions : list str }.
Inductive GeometryError := ZeroSize | AreaTooLarge | DiffersFromFixed | ResizingDisabled | NotAllowed.
(** [display_handler.rs:785-785 MAX_DESKTOP_AREA] *)
Definition MAX_DESKTOP_AREA : Z := 3840 * 2400.
Definition resolution (w h : Z) : str := fmt_dec w ++ lit "x" ++ fmt_dec h.

(** The errors without their texts.  [display_handler.rs:780-824 validate_geometry_policy] *)
Definition validate_geometry_policy (c : DisplayConfig) (requested : Z * Z) (fixed_size : option (Z * Z)) : outcome GeometryError (Z * Z) :=
  let '(w, h) := requested in
  if (w =? 0) || (h =? 0) then Err ZeroSize
  else if MAX_DESKTOP_AREA <? w * h then Err AreaTooLarge
  else
    let check_list := 
      if bool_decide (allowed_resolutions c = []) || bool_decide (resolution w h ∈ allowed_resolutions c) then Ok requested else Err NotAllowed in
    if allow_resize c then check_list
    else match fixed_size with
         | Some fixed => if bool_decide (fixed = requested) then check_list else Err DiffersFromFixed
         | None => Err ResizingDisabled
         end.

(** [MonitorLayoutEntry::adjust_display_size] is the library's.
    [display_handler.rs:965-980 allowed_resize] *)
Definition allowed_resize (adjust_display_size : Z -> Z -> Z * Z) (c : DisplayConfig) (raw_width raw_height : Z) : option (Z * Z) :=
  let '(width, height) := adjust_display_size raw_width raw_height in
  if (u16_max <? width) || (u16_max <? height) then None
  else match validate_geometry_policy c (width, height) None with Ok accepted => Some accepted | _ => None end.

(** ** Frame rate regulator *)

(** [display_handler.rs:620-629 FrameRateRegulator] *)
Record FrameRateRegulator := mkRegulator { target_fps : Z; last_frame_time : Z; token_budget : spec_float; max_tokens : spec_float }.
(** [display_handler.rs:632-639 new] *)
Definition regulator_new (now fps : Z) : FrameRateRegulator := mkRegulator fps now (f32_of_Z 1) (f32_of_Z 2).
(** [display_handler.rs:643-663 should_send_frame] *)
Definition should_send_frame (now : Z) (r : FrameRateRegulator) : FrameRateRegulator * bool :=
  let elapsed := since now (last_frame_time r) in
  let tokens_earned := mul32 (as_secs_f32 elapsed) (f32_of_Z (target_fps r)) in
  let budget := fmin (add32 (token_budget r) tokens_earned) (max_tokens r) in
  if fge budget (f32_of_Z 1) then (mkRegulator (target_fps r) now (sub32 budget (f32_of_Z 1)) (max_tokens r), true)
  else (mkRegulator (target_fps r) now budget (max_tokens r), false).

(** ** The compositor's mode list *)

Fixpoint is_infix (p s : str) : bool := starts_with p s || match s with [] => false | _ :: s => is_infix p s end.
(** The output, already decoded.  [display_handler.rs:468-476 wlr_randr_reports_current_mode] *)
Definition wlr_randr_reports_current_mode (output : str) (width height : Z) : bool :=
  let mode := resolution width height in
  existsb (fun line =>
    let line := trim line in
    eqs (take_while (fun c => negb (is_whitespace c)) line) mode && negb (eqs line []) && is_infix (lit " px") line && is_infix (lit "(current)") line)
    (lines output).

(** ** What the transforms do to the picture *)

Lemma bytes_at_bytes_at o n o' n' l : (o' + n' <= n)%nat -> bytes_at o' n' (bytes_at o n l) = bytes_at (o + o') n' l.
Proof. intros. unfold bytes_at. rewrite skipn_firstn_comm, drop_drop, take_take. f_equal. lia. Qed.

Lemma length_concat_map {A} (g : nat -> list A) b n : (forall i, (i < n)%nat -> length (g i) = b) ->
  length (concat (map g (seq 0 n))) = (n * b)%nat.
Proof.
  induction n as [|n IH]; intros Hg; [done|]. rewrite seq_S, map_app, concat_app, length_app, IH by (intros; apply Hg; lia).
  cbn. rewrite length_app, Hg by lia. cbn. lia.
Qed.

Lemma bytes_at_concat (g : nat -> list Z) b n i : (forall i, (i < n)%nat -> length (g i) = b) -> (i < n)%nat ->
  bytes_at (i * b) b (concat (map g (seq 0 n))) = g i.
Proof.
  intros Hg Hi. assert (seq 0 n = seq 0 i ++ i :: seq (S i) (n - S i)) as ->.
  { rewrite <- (seq_app i (S (n - S i))) with (start := 0%nat) at 1. f_equal. lia. }
  rewrite map_app, concat_app. cbn [map concat]. unfold bytes_at.
  rewrite drop_app_ge by (rewrite (length_concat_map g b) by (intros; apply Hg; lia); lia).
  rewrite (length_concat_map g b), Nat.sub_diag by (intros; apply Hg; lia). rewrite drop_0. rewrite take_app_le by (rewrite Hg; lia).
  apply take_ge. rewrite Hg; lia.
Qed.

(** A buffer that holds the picture. *)
Definition frame_valid (f : VideoFrame) : Prop := (0 < f_width f)%nat /\ (0 < f_height f)%nat /\ (required_len f <= length (f_data f))%nat.

Lemma bpp_pos f : (0 < bpp f)%nat.
Proof. unfold bpp. destruct (f_format f); cbn; lia. Qed.
Lemma pixel_in_buffer f x y : frame_valid f -> (x < f_width f)%nat -> (y < f_height f)%nat ->
  (y * f_stride f + x * bpp f + bpp f <= length (f_data f))%nat.
Proof. intros (Hw & Hh & Hl) Hx Hy. unfold required_len in Hl. nia. Qed.
Lemma length_pixel f x y : frame_valid f -> (x < f_width f)%nat -> (y < f_height f)%nat -> length (pixel f x y) = bpp f.
Proof. intros. apply length_bytes_at. by apply pixel_in_buffer. Qed.

(** A frame of the same format whose pixels are those of [f] at other places. *)
Definition rearranged (f f' : VideoFrame) (src : nat -> nat -> nat * nat) : Prop :=
  f_width f' = f_width f /\ f_height f' = f_height f /\ f_format f' = f_format f /\ f_stride f' = (f_width f * bpp f)%nat /\
  length (f_data f') = (f_width f * f_height f * bpp f)%nat /\ f_damage f' = [] /\
  forall x y, (x < f_width f)%nat -> (y < f_height f)%nat -> pixel f' x y = pixel f (src x y).1 (src x y).2.

Lemma rearranged_pixels f (g : nat -> nat -> list Z) src : frame_valid f ->
  (forall x y, (x < f_width f)%nat -> (y < f_height f)%nat -> g x y = pixel f (src x y).1 (src x y).2 /\ length (g x y) = bpp f) ->
  rearranged f (with_pixels (f_width f * bpp f) (concat (map (fun y => concat (map (fun x => g x y) (seq 0 (f_width f)))) (seq 0 (f_height f)))) f) src.
Proof.
  intros (Hw & Hh & _) Hg. set (row y := concat (map (fun x => g x y) (seq 0 (f_width f)))).
  assert (forall y, (y < f_height f)%nat -> length (row y) = (f_width f * bpp f)%nat) as Hrow
    by (intros; apply (length_concat_map (fun x => g x y)); intros; by apply Hg).
  unfold rearranged, pixel, bpp, with_pixels. cbn [f_width f_height f_format f_stride f_data f_damage]. fold (bpp f).
  split; [done|]. split; [done|]. split; [done|]. split; [done|]. split; [rewrite (length_concat_map row (f_width f * bpp f)) by done; lia|].
  split; [done|]. intros x y Hx Hy. rewrite <- (bytes_at_bytes_at (y * (f_width f * bpp f)) (f_width f * bpp f)) by nia.
  rewrite (bytes_at_concat row) by done. unfold row. rewrite (bytes_at_concat (fun x => g x y)); [by apply Hg| |done]. intros. by apply Hg.
Qed.

Lemma transform_rearranges f src_xy : frame_valid f ->
  (forall x y, (x < f_width f)%nat -> (y < f_height f)%nat ->
     ((src_xy x y (f_width f) (f_height f)).1 < f_width f)%nat /\ ((src_xy x y (f_width f) (f_height f)).2 < f_height f)%nat) ->
  exists f', copy_frame_with_transform f src_xy = Ok f' /\ rearranged f f' (fun x y => src_xy x y (f_width f) (f_height f)).
Proof.
  intros Hv Hsrc. pose proof Hv as (Hw & Hh & Hl). unfold copy_frame_with_transform. cbv zeta. pose proof (bpp_pos f).
  rewrite !(proj2 (Nat.eqb_neq _ _)), (proj2 (Nat.ltb_ge _ _)) by lia. cbn [orb].
  set (g x y := pixel f (src_xy x y (f_width f) (f_height f)).1 (src_xy x y (f_width f) (f_height f)).2).
  rewrite (collect_ok _ (fun y => map (fun x => g x y) (seq 0 (f_width f)))).
  - cbn [mbind outcome_bind]. eexists. split; [reflexivity|]. rewrite map_map. apply (rearranged_pixels f g); [done|].
    intros x y Hx Hy. split; [done|]. destruct (Hsrc x y Hx Hy). by apply length_pixel.
  - intros y [_ Hy]%in_seq. apply (collect_ok _ (fun x => g x y)). intros x [_ Hx]%in_seq. destruct (Hsrc x y ltac:(lia) ltac:(lia)) as [Sx Sy].
    unfold g. destruct (src_xy x y (f_width f) (f_height f)) as [sx sy]. cbn [fst snd] in *. apply slice_ok. by apply pixel_in_buffer.
Qed.

Lemma compact_rearranges f : frame_valid f -> f_stride f <> (f_width f * bpp f)%nat ->
  Z.of_nat (f_width f * bpp f * f_height f) < 2 ^ 32 -> Z.of_nat (f_stride f * f_height f) < 2 ^ 32 ->
  exists f', compact_frame f = Ok f' /\ rearranged f f' (fun x y => (x, y)).
Proof.
  intros Hv Hs Hb Hb2. pose proof Hv as (Hw & Hh & Hl). unfold compact_frame. cbv zeta.
  assert (f_width f * bpp f <= f_width f * bpp f * f_height f)%nat by nia.
  rewrite (proj2 (Z.leb_le _ _)) by (unfold u32_max; lia).
  rewrite (proj2 (Nat.eqb_neq _ _)), (proj2 (Nat.ltb_ge _ _)) by (done || (unfold required_len in Hl; lia)).
  assert (forall n, Z.of_nat n < 2 ^ 32 -> Z.to_nat (wrap 32 (Z.of_nat n)) = n) as Hwrap by (intros; rewrite wrap_small; lia).
  rewrite (collect_ok _ (fun y => concat (map (fun x => pixel f x y) (seq 0 (f_width f))))).
  - cbn [mbind outcome_bind]. eexists. split; [reflexivity|]. apply (rearranged_pixels f (pixel f)); [done|].
    intros x y Hx Hy. split; [done|]. by apply length_pixel.
  - intros y [_ Hy]%in_seq. rewrite (Hwrap (f_width f * bpp f * f_height f)%nat), (Hwrap (y * _)%nat) by nia. rewrite (proj2 (Nat.leb_le _ _)) by nia.
    rewrite (Hwrap (y * f_stride f)%nat) by nia. rewrite slice_ok by (unfold required_len in Hl; nia). f_equal.
    apply (nth_ext _ _ 0 0).
    { rewrite (length_concat_map (fun x => pixel f x y) (bpp f)) by (intros; apply length_pixel; (done || lia)).
      apply length_bytes_at. unfold required_len in Hl. nia. }
    rewrite length_bytes_at by (unfold required_len in Hl; nia). intros i Hi. fold (byte_at (bytes_at (y * f_stride f) (f_width f * bpp f) (f_data f)) i).
    pose proof (bpp_pos f). pose proof (Nat.div_mod i (bpp f)). pose proof (Nat.mod_upper_bound i (bpp f)).
    assert (i / bpp f < f_width f)%nat as Hx by (apply Nat.div_lt_upper_bound; nia).
    set (l := concat _). fold (byte_at l i). assert (length l = f_width f * bpp f)%nat as Hlen
      by (apply (length_concat_map (fun x => pixel f x y)); intros; apply length_pixel; (done || lia)). replace i with (i / bpp f * bpp f + i mod bpp f)%nat by lia.
    rewrite <- (byte_at_bytes_at l _ (bpp f)) by (rewrite ?Hlen; nia). unfold l. rewrite (bytes_at_concat (fun x => pixel f x y)) by (done || (intros; apply length_pixel; (done || lia))).
    pose proof (pixel_in_buffer f (i / bpp f) y Hv Hx ltac:(lia)). assert (y * f_stride f + f_width f * bpp f <= length (f_data f))%nat by (unfold required_len in Hl; nia).
    unfold pixel. rewrite byte_at_bytes_at by lia. rewrite byte_at_bytes_at by lia. f_equal. lia.
Qed.

Lemma rearranged_valid f f' src : frame_valid f -> rearranged f f' src -> frame_valid f'.
Proof.
  intros (Hw & Hh & _) (Ew & Eh & Ef & Es & El & _). unfold frame_valid, required_len, bpp. rewrite Ew, Eh, Ef, Es, El. fold (bpp f).
  split; [done|]. split; [done|]. nia.
Qed.
Lemma flip_ok f : frame_valid f -> exists f', flip_frame_vertical f = Ok f' /\ rearranged f f' (fun x y => (x, f_height f - 1 - y)%nat).
Proof. intros Hv. apply (transform_rearranges f (fun x y _ height => (x, height - 1 - y)%nat) Hv). intros x y Hx Hy. cbn. lia. Qed.
Lemma rotate_ok f : frame_valid f -> exists f', rotate_frame_180 f = Ok f' /\ rearranged f f' (fun x y => (f_width f - 1 - x, f_height f - 1 - y)%nat).
Proof. intros Hv. apply (transform_rearranges f (fun x y width height => (width - 1 - x, height - 1 - y)%nat) Hv). intros x y Hx Hy. cbn. lia. Qed.

(** The same picture, pixel for pixel. *)
Definition same_picture (f f' : VideoFrame) : Prop :=
  f_width f' = f_width f /\ f_height f' = f_height f /\ f_format f' = f_format f /\
  forall x y, (x < f_width f)%nat -> (y < f_height f)%nat -> pixel f' x y = pixel f x y.

Lemma involution f f1 f2 src : rearranged f f1 src -> rearranged f1 f2 src ->
  (forall x y, (x < f_width f)%nat -> (y < f_height f)%nat ->
     ((src x y).1 < f_width f)%nat /\ ((src x y).2 < f_height f)%nat /\ src (src x y).1 (src x y).2 = (x, y)) -> same_picture f f2.
Proof.
  intros (W1 & H1 & F1 & _ & _ & _ & P1) (W2 & H2 & F2 & _ & _ & _ & P2) Hsrc. split; [congruence|]. split; [congruence|]. split; [congruence|].
  intros x y Hx Hy. destruct (Hsrc x y Hx Hy) as (Sx & Sy & Ss). rewrite P2, P1 by congruence. by rewrite Ss.
Qed.

(** The transforms of a captured frame keep every pixel: for every format and
    every buffer that holds its picture, with any stride, none of them panics,
    compacting keeps the picture, flipping and rotating permute its pixels
    exactly, and doing either twice gives the picture back. *)
Theorem transforms_keep_pixels f : frame_valid f ->
  Z.of_nat (f_width f * bpp f * f_height f) < 2 ^ 32 -> Z.of_nat (f_stride f * f_height f) < 2 ^ 32 ->
  (exists c, compact_frame f = Ok c /\ same_picture f c /\ f_stride c = (f_width f * bpp f)%nat) /\
  (exists v vv, flip_frame_vertical f = Ok v /\ rearranged f v (fun x y => (x, f_height f - 1 - y)%nat) /\
     flip_frame_vertical v = Ok vv /\ same_picture f vv) /\
  (exists r rr, rotate_frame_180 f = Ok r /\ rearranged f r (fun x y => (f_width f - 1 - x, f_height f - 1 - y)%nat) /\
     rotate_frame_180 r = Ok rr /\ same_picture f rr).
Proof.
  intros Hv Hb Hb2. split; [|split].
  - destruct (decide (f_stride f = f_width f * bpp f)%nat) as [Es|Es].
    + exists f. split; [|by split]. unfold compact_frame. cbv zeta. pose proof Hv as (_ & Hh & _).
      rewrite (proj2 (Z.leb_le _ _)) by (unfold u32_max; nia). by rewrite (proj2 (Nat.eqb_eq _ _)).
    + destruct (compact_rearranges f Hv Es Hb Hb2) as (c & -> & (W & H & F & S & _ & _ & P)). exists c. by repeat split.
  - destruct (flip_ok f Hv) as (v & Ev & Rv). destruct (flip_ok v (rearranged_valid _ _ _ Hv Rv)) as (vv & Evv & Rvv).
    exists v, vv. split; [done|]. split; [done|]. split; [done|]. pose proof Rv as (_ & Eh & _). rewrite Eh in Rvv.
    apply (involution f v vv _ Rv Rvv). intros x y Hx Hy. cbn. split; [lia|]. split; [lia|]. f_equal. lia.
  - destruct (rotate_ok f Hv) as (r & Er & Rr). destruct (rotate_ok r (rearranged_valid _ _ _ Hv Rr)) as (rr & Err & Rrr).
    exists r, rr. split; [done|]. split; [done|]. split; [done|]. pose proof Rr as (Ew & Eh & _). rewrite Ew, Eh in Rrr.
    apply (involution f r rr _ Rr Rrr). intros x y Hx Hy. cbn. split; [lia|]. split; [lia|]. f_equal; lia.
Qed.

(** Two by two grey pixels with a stride of three. *)
Definition small_frame : VideoFrame := mkVideo 1 0 0 0 2 2 3 GRAY8 0 [1; 2; 99; 3; 4] 0 [] 0.
Lemma transforms_keep_pixels_witness : exists r, rotate_frame_180 small_frame = Ok r /\ pixel r 0 0 = [4].
Proof.
  destruct (transforms_keep_pixels small_frame) as (_ & _ & (r & rr & Hr & (_ & _ & _ & _ & _ & _ & P) & _));
    [unfold frame_valid; cbn; lia|cbn; lia|cbn; lia|].
  exists r. split; [exact Hr|]. rewrite (P 0%nat 0%nat) by (cbn; lia). done.
Defined.
