(* ===== verification/PixelConvert.v ===== *)
(** * Pixel format conversion

    Models src/src/desktop/pipewire/format.rs, the in-place conversions the bitmap
    fallback uses, and src/src/desktop/pipewire/yuv.rs, which converts the YUV
    formats a second time into a fresh buffer.  Buffers are lists of bytes indexed
    by natural numbers; an index or a slice beyond a buffer panics, and the 32-bit
    products of format.rs wrap as in a release build. *)
From S2P Require Import Prelude Text Simd Color YuvPack Frames.
Local Open Scope nat_scope.

(** ** Buffers *)

Definition buf_get (src : list Z) (i : nat) : outcome str Z := match src !! i with Some b => Ok b | None => Panic end.
Definition buf_put (i : nat) (bytes dst : list Z) : outcome str (list Z) :=
  if i + length bytes <=? length dst then Ok (take i dst ++ bytes ++ drop (i + length bytes) dst) else Panic.
(** [&l[n..]] and [&l[a..b]] *)
Definition slice_from (l : list Z) (n : nat) : outcome str (list Z) := if n <=? length l then Ok (drop n l) else Panic.
Definition slice_range (l : list Z) (a b : nat) : outcome str (list Z) :=
  if (a <=? b) && (b <=? length l) then Ok (bytes_at a (b - a) l) else Panic.
(** A [u32] sum of products, as an index. *)
Definition u32 (n : nat) : nat := Z.to_nat (wrap 32 (Z.of_nat n)).

(** ** One pixel *)

(** [format.rs:358-366 clamp] *)
Definition clamp (val min max : Z) : Z := if (val <? min)%Z then min else if (max <? val)%Z then max else val.

(** [format.rs:340-354 yuv_to_rgb] *)
Definition yuv_to_rgb (y u v : Z) : Z * Z * Z :=
  let c := (y - 16)%Z in
  let d := (u - 128)%Z in
  let e := (v - 128)%Z in
  (clamp (Z.shiftr (298 * c + 409 * e + 128) 8) 0 255,
   clamp (Z.shiftr (298 * c - 100 * d - 208 * e + 128) 8) 0 255,
   clamp (Z.shiftr (298 * c + 516 * d + 128) 8) 0 255)%Z.

(** The same matrix, clamped by the standard library.  [yuv.rs:188-209 yuv_to_rgb] *)
Definition bt601 (y u v : Z) : Z * Z * Z :=
  let y := (y - 16)%Z in
  let u := (u - 128)%Z in
  let v := (v - 128)%Z in
  let sat x := Z.max 0 (Z.min x 255) in
  (sat (Z.shiftr (298 * y + 409 * v + 128) 8), sat (Z.shiftr (298 * y - 100 * u - 208 * v + 128) 8),
   sat (Z.shiftr (298 * y + 516 * u + 128) 8))%Z.

Definition as_bgra (rgb : Z * Z * Z) : list Z := let '(r, g, b) := rgb in [b; g; r; 255]%Z.

(** ** format.rs *)

(** The loop over rows and columns of the packed formats: [pix] reads the pixel of
    a column from the rest of the source from its row on. *)
Definition convert_rows (pix : list Z -> nat -> outcome str (list Z)) (src : list Z) (width height src_stride dst_stride : nat) (dst : list Z)
    : outcome str (list Z) :=
  mfold (fun dst y =>
    src_row ← slice_from src (u32 (y * src_stride));
    _ ← slice_from dst (u32 (y * dst_stride));
    mfold (fun dst x => p ← pix src_row x; buf_put (u32 (y * dst_stride) + x * 4) p dst) dst (seq 0 width)) dst (seq 0 height).

(** [format.rs:146-169 convert_rgb_to_bgra] *)
Definition convert_rgb_to_bgra : list Z -> nat -> nat -> nat -> nat -> list Z -> outcome str (list Z) :=
  convert_rows (fun row x =>
    b ← buf_get row (x * 3 + 2); g ← buf_get row (x * 3 + 1); r ← buf_get row (x * 3); Ok [b; g; r; 255%Z]).
(** [format.rs:172-195 convert_rgba_to_bgra] *)
Definition convert_rgba_to_bgra : list Z -> nat -> nat -> nat -> nat -> list Z -> outcome str (list Z) :=
  convert_rows (fun row x =>
    b ← buf_get row (x * 4 + 2); g ← buf_get row (x * 4 + 1); r ← buf_get row (x * 4); a ← buf_get row (x * 4 + 3); Ok [b; g; r; a]).
(** [format.rs:198-221 convert_bgr_to_bgra] *)
Definition convert_bgr_to_bgra : list Z -> nat -> nat -> nat -> nat -> list Z -> outcome str (list Z) :=
  convert_rows (fun row x =>
    b ← buf_get row (x * 3); g ← buf_get row (x * 3 + 1); r ← buf_get row (x * 3 + 2); Ok [b; g; r; 255%Z]).

(** [format.rs:224-258 convert_nv12_to_bgra] *)
Definition convert_nv12_to_bgra (src : list Z) (width height : nat) (dst : list Z) : outcome str (list Z) :=
  y_plane ← slice_range src 0 (u32 (width * height));
  uv_plane ← slice_from src (u32 (width * height));
  mfold (fun dst y => mfold (fun dst x =>
    y_val ← buf_get y_plane (u32 (y * width + x));
    let uv_idx := u32 (y / 2 * width + x / 2 * 2) in
    u_val ← buf_get uv_plane uv_idx;
    v_val ← buf_get uv_plane (uv_idx + 1);
    buf_put (u32 ((y * width + x) * 4)) (as_bgra (yuv_to_rgb y_val u_val v_val)) dst) dst (seq 0 width)) dst (seq 0 height).

(** Columns two by two.  [format.rs:261-301 convert_yuy2_to_bgra] *)
Definition convert_yuy2_to_bgra (src : list Z) (width height src_stride dst_stride : nat) (dst : list Z) : outcome str (list Z) :=
  mfold (fun dst y =>
    src_row ← slice_from src (u32 (y * src_stride));
    _ ← slice_from dst (u32 (y * dst_stride));
    mfold (fun dst i =>
      let x := 2 * i in
      y0 ← buf_get src_row (x * 2);
      u ← buf_get src_row (x * 2 + 1);
      y1 ← buf_get src_row (x * 2 + 2);
      v ← buf_get src_row (x * 2 + 3);
      dst ← buf_put (u32 (y * dst_stride) + x * 4) (as_bgra (yuv_to_rgb y0 u v)) dst;
      if x + 1 <? width then buf_put (u32 (y * dst_stride) + (x + 1) * 4) (as_bgra (yuv_to_rgb y1 u v)) dst else Ok dst)
      dst (seq 0 ((width + 1) / 2))) dst (seq 0 height).

(** [format.rs:304-336 convert_i420_to_bgra] *)
Definition convert_i420_to_bgra (src : list Z) (width height : nat) (dst : list Z) : outcome str (list Z) :=
  let y_plane_size := u32 (width * height) in
  let uv_plane_size := y_plane_size / 4 in
  y_plane ← slice_range src 0 y_plane_size;
  u_plane ← slice_range src y_plane_size (y_plane_size + uv_plane_size);
  v_plane ← slice_from src (y_plane_size + uv_plane_size);
  mfold (fun dst y => mfold (fun dst x =>
    y_val ← buf_get y_plane (u32 (y * width + x));
    let uv_idx := u32 (u32 (y / 2 * width) / 2 + x / 2) in
    u_val ← buf_get u_plane uv_idx;
    v_val ← buf_get v_plane uv_idx;
    buf_put (u32 ((y * width + x) * 4)) (as_bgra (yuv_to_rgb y_val u_val v_val)) dst) dst (seq 0 width)) dst (seq 0 height).

#[export] Instance PixelFormat_eq_dec : EqDecision PixelFormat.
Proof. solve_decision. Defined.

(** [format.rs:82-143 convert_format] *)
Definition convert_format (src : list Z) (src_format dst_format : PixelFormat) (width height src_stride dst_stride : nat) (dst : list Z)
    : outcome str (list Z) :=
  if bool_decide (src_format = dst_format) && (src_stride =? dst_stride) then
    let row_bytes := u32 (width * bytes_per_pixel src_format) in
    if row_bytes =? src_stride then buf_put 0 src dst
    else mfold (fun dst y =>
      row ← slice_range src (u32 (y * src_stride)) (u32 (y * src_stride) + row_bytes);
      buf_put (u32 (y * dst_stride)) row dst) dst (seq 0 height)
  else match src_format, dst_format with
  | RGB, BGRA => convert_rgb_to_bgra src width height src_stride dst_stride dst
  | RGBA, BGRA => convert_rgba_to_bgra src width height src_stride dst_stride dst
  | BGR, BGRA => convert_bgr_to_bgra src width height src_stride dst_stride dst
  | NV12, BGRA => convert_nv12_to_bgra src width height dst
  | YUY2, BGRA => convert_yuy2_to_bgra src width height src_stride dst_stride dst
  | I420, BGRA => convert_i420_to_bgra src width height dst
  | _, _ => Err (lit "Unsupported conversion")
  end.

(** ** yuv.rs *)

Definition zeros (n : nat) : list Z := replicate n 0%Z.

(** [yuv.rs:28-67 nv12_to_bgra] *)
Definition nv12_to_bgra (src : list Z) (w h : nat) : outcome str (list Z) :=
  let y_plane_size := w * h in
  let uv_plane_size := w * h / 2 in
  if length src <? y_plane_size + uv_plane_size then Panic else
  y_plane ← slice_range src 0 y_plane_size;
  uv_plane ← slice_range src y_plane_size (y_plane_size + uv_plane_size);
  mfold (fun dst y => mfold (fun dst x =>
    let uv_idx := y / 2 * w + x / 2 * 2 in
    y_val ← buf_get y_plane (y * w + x);
    u_val ← buf_get uv_plane uv_idx;
    v_val ← buf_get uv_plane (uv_idx + 1);
    buf_put ((y * w + x) * 4) (as_bgra (bt601 y_val u_val v_val)) dst) dst (seq 0 w)) (zeros (w * h * 4)) (seq 0 h).

(** [yuv.rs:86-124 i420_to_bgra] *)
Definition i420_to_bgra (src : list Z) (w h : nat) : outcome str (list Z) :=
  let y_plane_size := w * h in
  let uv_plane_size := w / 2 * (h / 2) in
  if length src <? y_plane_size + uv_plane_size * 2 then Panic else
  y_plane ← slice_range src 0 y_plane_size;
  u_plane ← slice_range src y_plane_size (y_plane_size + uv_plane_size);
  v_plane ← slice_range src (y_plane_size + uv_plane_size) (y_plane_size + uv_plane_size * 2);
  mfold (fun dst y => mfold (fun dst x =>
    let uv_idx := y / 2 * (w / 2) + x / 2 in
    y_val ← buf_get y_plane (y * w + x);
    u_val ← buf_get u_plane uv_idx;
    v_val ← buf_get v_plane uv_idx;
    buf_put ((y * w + x) * 4) (as_bgra (bt601 y_val u_val v_val)) dst) dst (seq 0 w)) (zeros (w * h * 4)) (seq 0 h).

(** [yuv.rs:142-179 yuy2_to_bgra] *)
Definition yuy2_to_bgra (src : list Z) (w h : nat) : outcome str (list Z) :=
  if negb (w mod 2 =? 0) || (length src <? w * h * 2) then Panic else
  mfold (fun dst y => mfold (fun dst i =>
    let x := 2 * i in
    let src_idx := (y * w + x) * 2 in
    y0 ← buf_get src src_idx;
    u ← buf_get src (src_idx + 1);
    y1 ← buf_get src (src_idx + 2);
    v ← buf_get src (src_idx + 3);
    dst ← buf_put ((y * w + x) * 4) (as_bgra (bt601 y0 u v)) dst;
    buf_put ((y * w + x + 1) * 4) (as_bgra (bt601 y1 u v)) dst) dst (seq 0 ((w + 1) / 2))) (zeros (w * h * 4)) (seq 0 h).

(** The converter's cached output.  [yuv.rs:238-259 convert_to_bgra] *)
Definition convert_to_bgra (src : list Z) (w h : nat) (f : PixelFormat) (output_buffer : list Z) : outcome str (option (list Z) * list Z) :=
  let converted := match f with NV12 => Some (nv12_to_bgra src w h) | I420 => Some (i420_to_bgra src w h) | YUY2 => Some (yuy2_to_bgra src w h) | _ => None end in
  match converted with
  | Some r => out ← r; Ok (Some out, out)
  | None => Ok (None, output_buffer)
  end.
(** [yuv.rs:262-267 needs_conversion] *)
Definition needs_conversion (f : PixelFormat) : bool := match f with NV12 | I420 | YUY2 => true | _ => false end.
(** [yuv.rs:271-273 output_size] *)
Definition output_size (w h : nat) : nat := w * h * 4.

(** ** Writing a buffer pixel by pixel *)

Lemma clamp_sat x : clamp x 0 255 = Z.max 0 (Z.min x 255).
Proof. unfold clamp. destruct (Z.ltb_spec x 0); [lia|]. destruct (Z.ltb_spec 255 x); lia. Qed.
Lemma matrices_agree y u v : yuv_to_rgb y u v = bt601 y u v.
Proof. unfold yuv_to_rgb, bt601. by rewrite !clamp_sat. Qed.

Lemma mfold_ext {E A S} (P : S -> Prop) (f g : S -> A -> outcome E S) s xs :
  P s -> (forall s x, P s -> x ∈ xs -> f s x = g s x) -> (forall s x s', P s -> x ∈ xs -> g s x = Ok s' -> P s') -> mfold f s xs = mfold g s xs.
Proof.
  revert s. induction xs as [|x xs IH]; [done|]. intros s Hs Hfg HP. cbn. rewrite Hfg by (done || left). 
  destruct (g s x) as [s'| |] eqn:Eg; [|done..]. cbn. apply IH; [eapply HP; [exact Hs|left|done]|..]; intros; [apply Hfg|eapply HP]; try done; by right.
Qed.

Lemma mfold_flat {E A B S} (f : A -> S -> B -> outcome E S) (g : A -> list B) s xs :
  mfold (fun s a => mfold (f a) s (g a)) s xs = mfold (fun s p => f p.1 s p.2) s (flat_map (fun a => map (pair a) (g a)) xs).
Proof.
  assert (forall a ys s, mfold (fun s p => f p.1 s p.2) s (map (pair a) ys) = mfold (f a) s ys) as Hmap.
  { intros a. induction ys as [|y ys IH]; [done|]. intros t. cbn. destruct (f a t y); [|done..]. cbn. apply IH. }
  revert s. induction xs as [|x xs IH]; [done|]. intros s. cbn. rewrite mfold_app, Hmap. destruct (mfold (f x) s (g x)); [|done..]. cbn. apply IH.
Qed.

Lemma buf_put_ok i bytes dst : i + length bytes <= length dst ->
  exists dst', buf_put i bytes dst = Ok dst' /\ length dst' = length dst /\ bytes_at i (length bytes) dst' = bytes /\
    forall j n, j + n <= i \/ i + length bytes <= j -> bytes_at j n dst' = bytes_at j n dst.
Proof.
  intros Hi. unfold buf_put. rewrite (proj2 (Nat.leb_le _ _)) by done. eexists. split; [done|].
  assert (length (take i dst) = i) as Ht by (rewrite length_take; lia). split; [rewrite !length_app, length_drop; lia|].
  unfold bytes_at. split.
  - rewrite drop_app_length' by done. by rewrite take_app_length.
  - intros j n [Hj|Hj].
    + apply list_eq. intros k. destruct (decide (k < n)); [|by rewrite !lookup_take_ge by lia].
      rewrite !lookup_take_lt, !lookup_drop by done. rewrite lookup_app_l by lia. by rewrite lookup_take_lt by lia.
    + rewrite app_assoc, drop_app_ge by (rewrite length_app; lia). rewrite drop_drop. do 2 f_equal. rewrite length_app. lia.
Qed.

(** A loop that writes the bytes [val x] of every item at places that do not
    overlap writes them all. *)
Lemma mfold_puts {A} (step : list Z -> A -> outcome str (list Z)) (pos : A -> nat) (val : A -> list Z) n xs dst :
  NoDup xs -> (forall x, x ∈ xs -> length (val x) = n /\ pos x + n <= length dst) ->
  (forall x y, x ∈ xs -> y ∈ xs -> x <> y -> pos x + n <= pos y \/ pos y + n <= pos x) ->
  (forall d x, x ∈ xs -> length d = length dst -> step d x = buf_put (pos x) (val x) d) ->
  exists out, mfold step dst xs = Ok out /\ length out = length dst /\ forall x, x ∈ xs -> bytes_at (pos x) n out = val x.
Proof.
  intros Hnd. revert dst. induction Hnd as [|x xs Hx Hnd IH]; intros dst Hlen Hdis Hstep; [by exists dst; split; [|split; [|intros ? []%not_elem_of_nil]]|].
  destruct (Hlen x ltac:(left)) as [Hlx Hpx]. destruct (buf_put_ok (pos x) (val x) dst ltac:(lia)) as (d1 & E1 & L1 & B1 & K1).
  cbn. rewrite Hstep, E1 by (done || left). cbn.
  destruct (IH d1) as (out & Eo & Lo & Bo).
  { intros y Hy. rewrite L1. apply Hlen. by right. }
  { intros y z Hy Hz. apply Hdis; by right. }
  { intros d y Hy Hd. apply Hstep; [by right|congruence]. }
  exists out. split; [done|]. split; [congruence|]. intros y [->|Hy]%elem_of_cons; [|by apply Bo].
  rewrite Hlx in *. rewrite <- B1. revert Eo. generalize (eq_refl (length d1)). rewrite L1 at 2. intros Hd1. clear Lo Bo IH B1 K1 L1 E1.
  assert (forall z, z ∈ xs -> z ∈ xs) as Hin by done. revert d1 Hd1 out Hin. generalize xs at 1 3 as ys.
  induction ys as [|y ys IHy]; intros d Hd o Hin; [by intros [= ->]|]. cbn. assert (y ∈ xs) as Hyx by (apply Hin; left).
  rewrite Hstep by (done || by right). destruct (Hlen y ltac:(by right)) as [Hly Hpy].
  destruct (buf_put_ok (pos y) (val y) d ltac:(rewrite Hd; lia)) as (d2 & -> & L2 & _ & K2). cbn. intros Ho.
  rewrite (IHy d2 ltac:(congruence) o ltac:(intros; apply Hin; by right) Ho). apply K2. rewrite Hly.
  destruct (Hdis x y ltac:(left) ltac:(by right) ltac:(intros ->; done)); lia.
Qed.

Definition raster (w h : nat) : list (nat * nat) := flat_map (fun y => map (@pair nat nat y) (seq 0 w)) (seq 0 h).
(** The picture whose pixels are [val]. *)
Definition painted (val : nat -> nat -> list Z) (w h : nat) (dst : list Z) : outcome str (list Z) :=
  mfold (fun d p => buf_put ((p.1 * w + p.2) * 4) (val p.1 p.2) d) dst (raster w h).

Lemma elem_of_raster w h p : p ∈ raster w h <-> p.1 < h /\ p.2 < w.
Proof.
  unfold raster. rewrite list_elem_of_In, in_flat_map. split.
  - intros (y & Hy%in_seq & (x & <- & Hx%in_seq)%in_map_iff). cbn. lia.
  - destruct p as [y x]. cbn. intros [Hy Hx]. exists y. split; [apply in_seq; lia|]. apply in_map_iff. exists x. split; [done|]. apply in_seq. lia.
Qed.
Lemma NoDup_raster w h : NoDup (raster w h).
Proof.
  unfold raster. assert (forall ys, NoDup ys -> NoDup (flat_map (fun y => map (@pair nat nat y) (seq 0 w)) ys)) as Hf; [|apply Hf, NoDup_seq].
  induction 1 as [|y ys Hy Hnd IH]; [constructor|]. cbn. apply NoDup_app. split_and!; [|intros p Hp Hp'|done].
  - apply NoDup_fmap; [by intros a b [= ->]|apply NoDup_seq].
  - apply list_elem_of_In, in_map_iff in Hp as (x & <- & _). apply list_elem_of_In, in_flat_map in Hp' as (y' & Hy' & (x' & [= -> _] & _)%in_map_iff). apply Hy. by apply list_elem_of_In.
Qed.

Lemma painted_ok val w h dst : (forall y x, y < h -> x < w -> length (val y x) = 4) -> length dst = w * h * 4 ->
  exists out, painted val w h dst = Ok out /\ length out = w * h * 4 /\
    forall y x, y < h -> x < w -> bytes_at ((y * w + x) * 4) 4 out = val y x.
Proof.
  intros Hval Hdst. destruct (mfold_puts (fun d p => buf_put ((p.1 * w + p.2) * 4) (val p.1 p.2) d)
    (fun p => (p.1 * w + p.2) * 4) (fun p => val p.1 p.2) 4 (raster w h) dst) as (out & E & L & B).
  - apply NoDup_raster.
  - intros [y x] [Hy Hx]%elem_of_raster. cbn in *. split; [by apply Hval|]. nia.
  - intros [y x] [y' x'] [Hy Hx]%elem_of_raster [Hy' Hx']%elem_of_raster Hne. cbn in *. assert (y * w + x <> y' * w + x'); [|lia].
    intros He. apply Hne. assert (y = y') by nia. subst. f_equal. lia.
  - done.
  - exists out. split; [done|]. split; [congruence|]. intros y x Hy Hx. apply (B (y, x)). by apply elem_of_raster.
Qed.

Lemma buf_put_length i bytes d d' : buf_put i bytes d = Ok d' -> length d' = length d.
Proof. unfold buf_put. destruct (Nat.leb_spec (i + length bytes) (length d)); [|done]. intros [= <-]. rewrite !length_app, length_take, length_drop. lia. Qed.
Lemma loops_paint step val w h dst : (forall y x d, y < h -> x < w -> length d = w * h * 4 -> step y d x = buf_put ((y * w + x) * 4) (val y x) d) ->
  length dst = w * h * 4 -> mfold (fun d y => mfold (step y) d (seq 0 w)) dst (seq 0 h) = painted val w h dst.
Proof.
  intros Hs Hd. rewrite (mfold_flat step). apply (mfold_ext (fun d => length d = w * h * 4)); [done|..].
  - intros d [y x] Hlen [Hy Hx]%elem_of_raster. by apply Hs.
  - intros d [y x] d' Hlen _ Hp%buf_put_length. congruence.
Qed.

(** Two columns at a time, in a picture of even width. *)
Lemma pairs_paint step val w h dst : w mod 2 = 0 -> (forall y i d, y < h -> 2 * i + 1 < w -> length d = w * h * 4 ->
    step y d i = d ← buf_put ((y * w + 2 * i) * 4) (val y (2 * i)) d; buf_put ((y * w + (2 * i + 1)) * 4) (val y (2 * i + 1)) d) ->
  length dst = w * h * 4 -> mfold (fun d y => mfold (step y) d (seq 0 ((w + 1) / 2))) dst (seq 0 h) = painted val w h dst.
Proof.
  intros He Hs Hd. rewrite <- (loops_paint (fun y d x => buf_put ((y * w + x) * 4) (val y x) d)) by done.
  assert (forall y n d, y < h -> 2 * n <= w -> length d = w * h * 4 ->
    mfold (step y) d (seq 0 n) = mfold (fun d x => buf_put ((y * w + x) * 4) (val y x) d) d (seq 0 (2 * n)) /\
    forall d', mfold (step y) d (seq 0 n) = Ok d' -> length d' = w * h * 4) as Hrow.
  { intros y n d Hy. induction n as [|n IH]; intros Hn Hlen; [by split; [|intros ? [= <-]]|]. destruct IH as [IH1 IH2]; [lia|done|].
    replace (2 * S n) with (2 * n + 1 + 1) by lia. rewrite seq_S, !seq_app, !mfold_app, IH1. cbn [seq mfold].
    rewrite !Nat.add_0_l. destruct (mfold _ d (seq 0 (2 * n))) as [d1| |]; [|by split..]. rewrite IH1 in IH2. pose proof (IH2 d1 eq_refl) as L1.
    cbn [mbind outcome_bind]. rewrite Hs by (done || lia).
    destruct (buf_put _ (val y (2 * n)) d1) as [d2| |] eqn:E2; cbn [mbind outcome_bind]; [|by split..]. apply buf_put_length in E2.
    destruct (buf_put _ (val y (2 * n + 1)) d2) as [d3| |] eqn:E3; cbn [mbind outcome_bind]; [|by split..].
    split; [done|]. intros ? [= <-]. apply buf_put_length in E3. congruence. }
  pose proof (Nat.div_mod w 2 ltac:(lia)) as Hw. assert ((w + 1) / 2 = w / 2) as -> by (symmetry; apply (Nat.div_unique _ _ _ 1); lia).
  apply (mfold_ext (fun d => length d = w * h * 4)); [done|..].
  - intros d y Hlen Hy. apply elem_of_seq in Hy. rewrite (proj1 (Hrow y (w / 2) d ltac:(lia) ltac:(lia) Hlen)). do 2 f_equal. lia.
  - intros d y d' Hlen Hy. apply elem_of_seq in Hy. destruct (Hrow y (w / 2) d ltac:(lia) ltac:(lia) Hlen) as [E L]. intros Ho. apply L. rewrite E. rewrite <- Ho. do 2 f_equal. lia.
Qed.

(** ** Two implementations of one conversion *)

Lemma get_at src i : i < length src -> buf_get src i = Ok (byte_at src i).
Proof. intros Hi. unfold buf_get, byte_at. destruct (src !! i) as [b|] eqn:E; [|apply lookup_ge_None in E; lia]. by rewrite (nth_lookup_Some _ _ _ _ E). Qed.
Lemma range_ok src a b : a <= b -> b <= length src -> exists p, slice_range src a b = Ok p /\ forall i, i < b - a -> buf_get p i = Ok (byte_at src (a + i)).
Proof.
  intros Ha Hb. unfold slice_range. rewrite !(proj2 (Nat.leb_le _ _)) by done. cbn. eexists. split; [done|]. intros i Hi.
  rewrite get_at by (unfold bytes_at; rewrite length_take, length_drop; lia). f_equal. apply byte_at_bytes_at; lia.
Qed.
Lemma from_ok src a : a <= length src -> exists p, slice_from src a = Ok p /\ forall i, a + i < length src -> buf_get p i = Ok (byte_at src (a + i)).
Proof.
  intros Ha. unfold slice_from. rewrite (proj2 (Nat.leb_le _ _)) by done. eexists. split; [done|]. intros i Hi.
  rewrite get_at by (rewrite length_drop; lia). f_equal. unfold byte_at. by rewrite nth_skipn.
Qed.
Lemma u32_small n : (Z.of_nat n < 2 ^ 32)%Z -> u32 n = n.
Proof. intros Hn. unfold u32. rewrite wrap_small; lia. Qed.

(** Pixel (x, y) of the three YUV layouts, for an even size. *)
Definition nv12_pixel (src : list Z) (w h y x : nat) : list Z :=
  as_bgra (bt601 (byte_at src (y * w + x)) (byte_at src (w * h + (y / 2 * w + x / 2 * 2))) (byte_at src (w * h + (y / 2 * w + x / 2 * 2 + 1)))).
Definition i420_pixel (src : list Z) (w h y x : nat) : list Z :=
  as_bgra (bt601 (byte_at src (y * w + x)) (byte_at src (w * h + (y / 2 * (w / 2) + x / 2)))
             (byte_at src (w * h + w / 2 * (h / 2) + (y / 2 * (w / 2) + x / 2)))).
Definition yuy2_pixel (src : list Z) (w h y x : nat) : list Z :=
  as_bgra (bt601 (byte_at src ((y * w + x) * 2)) (byte_at src ((y * w + x / 2 * 2) * 2 + 1)) (byte_at src ((y * w + x / 2 * 2) * 2 + 3))).

Lemma as_bgra_length p : length (as_bgra p) = 4.
Proof. by destruct p as [[r g] b]. Qed.

(** What halving an even size gives, and where its samples lie. *)
Lemma half_area w h : w mod 2 = 0 -> h mod 2 = 0 ->
  w = 2 * (w / 2) /\ h = 2 * (h / 2) /\ w * h / 2 = w * (h / 2) /\ w * h / 4 = w / 2 * (h / 2).
Proof.
  intros [m ->]%Nat.Div0.mod_divides [n ->]%Nat.Div0.mod_divides. rewrite !(Nat.mul_comm 2), !Nat.div_mul by done. split_and!; [done..| |].
  - rewrite (Nat.mul_assoc (m * 2) n 2). by rewrite Nat.div_mul.
  - replace (m * 2 * (n * 2)) with (m * n * 4) by lia. by rewrite Nat.div_mul.
Qed.
Lemma half_index n v : v < n -> n = 2 * (n / 2) -> v / 2 < n / 2 /\ v / 2 * 2 + 1 < n /\ v / 2 * 2 <= v.
Proof. intros Hv Hn. pose proof (Nat.div_mod v 2 ltac:(lia)). pose proof (Nat.mod_upper_bound v 2 ltac:(lia)). lia. Qed.

Section yuv.
Context (src : list Z) (w h : nat) (Hw : w mod 2 = 0) (Hh : h mod 2 = 0) (Hsize : (Z.of_nat (w * h * 4) < 2 ^ 32)%Z).

Lemma nv12_index y x : y < h -> x < w -> y * w + x < w * h /\ y / 2 * w + x / 2 * 2 + 1 < w * h / 2.
Proof.
  intros Hy Hx. destruct (half_area w h Hw Hh) as (Ew & Eh & -> & _). destruct (half_index w x Hx Ew) as (_ & X & _).
  destruct (half_index h y Hy Eh) as (Y & _). split; [nia|]. nia.
Qed.
Lemma i420_index y x : y < h -> x < w -> y / 2 * (w / 2) + x / 2 < w / 2 * (h / 2) /\ y / 2 * w / 2 = y / 2 * (w / 2).
Proof.
  intros Hy Hx. destruct (half_area w h Hw Hh) as (Ew & Eh & _ & _). destruct (half_index w x Hx Ew) as (X & _).
  destruct (half_index h y Hy Eh) as (Y & _). split; [nia|]. rewrite Ew at 1. rewrite (Nat.mul_comm 2), Nat.mul_assoc. by rewrite Nat.div_mul.
Qed.

Lemma nv12_paints : w * h + w * h / 2 <= length src ->
  nv12_to_bgra src w h = painted (nv12_pixel src w h) w h (zeros (w * h * 4)) /\
  convert_nv12_to_bgra src w h (zeros (w * h * 4)) = painted (nv12_pixel src w h) w h (zeros (w * h * 4)).
Proof.
  intros Hs. unfold nv12_to_bgra, convert_nv12_to_bgra. cbn zeta. rewrite (proj2 (Nat.ltb_ge _ _)) by done.
  rewrite !u32_small by lia.
  destruct (range_ok src 0 (w * h)) as (yp & -> & Y); [lia..|]. destruct (range_ok src (w * h) (w * h + w * h / 2)) as (uv & -> & UV); [lia..|].
  destruct (from_ok src (w * h)) as (uv' & -> & UV'); [lia|]. cbn [mbind outcome_bind].
  split; apply loops_paint; try apply length_replicate; intros y x d Hy Hx Hd; destruct (nv12_index y x Hy Hx) as [I1 I2].
  - rewrite Y, !UV by lia. done.
  - rewrite (u32_small (y * w + x)) by lia. rewrite (u32_small ((y * w + x) * 4)) by lia. rewrite (u32_small (y / 2 * w + x / 2 * 2)) by (assert (w * h / 2 <= w * h) by (apply Nat.div_le_upper_bound; lia); lia). rewrite Y, !UV' by lia. cbn [mbind outcome_bind]. by rewrite matrices_agree.
Qed.

Lemma i420_paints : w * h + w / 2 * (h / 2) * 2 <= length src ->
  i420_to_bgra src w h = painted (i420_pixel src w h) w h (zeros (w * h * 4)) /\
  convert_i420_to_bgra src w h (zeros (w * h * 4)) = painted (i420_pixel src w h) w h (zeros (w * h * 4)).
Proof.
  intros Hs. unfold i420_to_bgra, convert_i420_to_bgra. cbn zeta. rewrite (proj2 (Nat.ltb_ge _ _)) by done.
  destruct (half_area w h Hw Hh) as (Ew & Eh & _ & Hq).
  rewrite !(u32_small (w * h)), Hq by lia. set (q := w / 2 * (h / 2)) in *.
  destruct (range_ok src 0 (w * h)) as (yp & -> & Y); [lia..|]. destruct (range_ok src (w * h) (w * h + q)) as (up & -> & U); [lia..|].
  destruct (range_ok src (w * h + q) (w * h + q * 2)) as (vp & -> & V); [lia..|].
  destruct (from_ok src (w * h + q)) as (vp' & -> & V'); [lia|]. cbn [mbind outcome_bind].
  split; apply loops_paint; try apply length_replicate; intros y x d Hy Hx Hd;
    destruct (nv12_index y x Hy Hx) as [I1 _]; destruct (i420_index y x Hy Hx) as (I2 & I3); fold q in I2.
  - rewrite Y, U, V by lia. done.
  - assert (q <= w * h) by (unfold q; nia). destruct (half_index h y Hy Eh) as (Y2 & _). assert (y / 2 * w <= w * h) by nia.
    rewrite (u32_small (y / 2 * w)), I3 by lia. rewrite !u32_small by lia. rewrite Y, U, V' by lia. cbn [mbind outcome_bind]. by rewrite matrices_agree.
Qed.

Lemma length_zeros n : length (zeros n) = n.
Proof. apply length_replicate. Qed.

(** The pair of columns [2 i] and [2 i + 1] of row [y], read from byte [o] on. *)
Lemma pair_pixels row o y i d (mat : Z -> Z -> Z -> Z * Z * Z) : (forall a b c, mat a b c = bt601 a b c) -> 2 * i + 1 < w ->
  (forall k, k < 4 -> buf_get row (o + k) = Ok (byte_at src ((y * w + 2 * i) * 2 + k))) ->
  (y0 ← buf_get row o; u ← buf_get row (o + 1); y1 ← buf_get row (o + 2); v ← buf_get row (o + 3);
   d ← buf_put ((y * w + 2 * i) * 4) (as_bgra (mat y0 u v)) d; buf_put ((y * w + (2 * i + 1)) * 4) (as_bgra (mat y1 u v)) d) =
  d ← buf_put ((y * w + 2 * i) * 4) (yuy2_pixel src w h y (2 * i)) d; buf_put ((y * w + (2 * i + 1)) * 4) (yuy2_pixel src w h y (2 * i + 1)) d.
Proof.
  intros Hm Hi Hrow. pose proof (Hrow 0 ltac:(lia)) as R0. rewrite !Nat.add_0_r in R0. rewrite R0, !Hrow by lia. cbn [mbind outcome_bind].
  unfold yuy2_pixel. assert (2 * i / 2 = i /\ (2 * i + 1) / 2 = i) as [-> ->].
  { split; [rewrite Nat.mul_comm; by apply Nat.div_mul|]. symmetry. apply (Nat.div_unique _ _ _ 1); lia. }
  rewrite !Hm. replace ((y * w + (2 * i + 1)) * 2) with ((y * w + 2 * i) * 2 + 2) by lia. by rewrite !(Nat.mul_comm i 2).
Qed.

Lemma yuy2_paints : w * h * 2 <= length src ->
  yuy2_to_bgra src w h = painted (yuy2_pixel src w h) w h (zeros (w * h * 4)) /\
  convert_yuy2_to_bgra src w h (w * 2) (w * 4) (zeros (w * h * 4)) = painted (yuy2_pixel src w h) w h (zeros (w * h * 4)).
Proof.
  intros Hs. split.
  - unfold yuy2_to_bgra. rewrite (proj2 (Nat.eqb_eq _ _) Hw), (proj2 (Nat.ltb_ge _ _)) by done. cbn [negb orb].
    apply pairs_paint; [done| |apply length_zeros]. intros y i d Hy Hi Hd. rewrite <- (pair_pixels src ((y * w + 2 * i) * 2) y i d bt601).
    + cbn zeta. by replace (y * w + 2 * i + 1) with (y * w + (2 * i + 1)) by lia.
    + done.
    + done.
    + intros k Hk. apply get_at. nia.
  - rewrite <- (pairs_paint (fun y d i => d ← buf_put ((y * w + 2 * i) * 4) (yuy2_pixel src w h y (2 * i)) d;
                                      buf_put ((y * w + (2 * i + 1)) * 4) (yuy2_pixel src w h y (2 * i + 1)) d)) by (done || apply length_zeros).
    unfold convert_yuy2_to_bgra. apply (mfold_ext (fun d => length d = w * h * 4)); [apply length_zeros|..].
    + intros d y Hd Hy. apply elem_of_seq in Hy. rewrite !u32_small by nia.
      destruct (from_ok src (y * (w * 2))) as (row & -> & R); [nia|]. destruct (from_ok d (y * (w * 4))) as (? & -> & _); [nia|]. cbn [mbind outcome_bind].
      apply (mfold_ext (fun _ => True)); [done| |done]. intros d' i _ Hi. apply elem_of_seq in Hi.
      assert (2 * i + 1 < w). { destruct (half_area w h Hw Hh) as (Ew & _). assert (i < w / 2); [|lia]. eapply Nat.lt_le_trans; [apply Hi|]. rewrite Ew at 1. rewrite (Nat.mul_comm 2), Nat.div_add_l by lia. cbn. lia. }
      rewrite (proj2 (Nat.ltb_lt _ _)) by lia. rewrite <- (pair_pixels row (2 * i * 2) y i d' yuv_to_rgb).
      * replace (y * (w * 4) + 2 * i * 4) with ((y * w + 2 * i) * 4) by lia. by replace (y * (w * 4) + (2 * i + 1) * 4) with ((y * w + (2 * i + 1)) * 4) by lia.
      * apply matrices_agree.
      * done.
      * intros k Hk. rewrite R by nia. do 2 f_equal. lia.
    + intros d y d' Hd Hy. revert d d' Hd. induction (seq 0 ((w + 1) / 2)) as [|i js IH]; intros d d' Hd; [by intros [= <-]|]. cbn [mfold].
      destruct (buf_put _ _ d) as [d1| |] eqn:E1; [|done..]. cbn [mbind outcome_bind]. destruct (buf_put _ _ d1) as [d2| |] eqn:E2; [|done..].
      cbn [mbind outcome_bind]. apply IH. apply buf_put_length in E1, E2. congruence.
Qed.

(** C30. The two implementations of the YUV conversions agree: for every even size
    whose picture has 32-bit offsets and every source that holds its planes, the
    conversion the bitmap fallback uses and the one of the capture helpers both
    return, without a panic, the same picture, in which every pixel is the BT.601
    value of its own luma and of the chroma sample its 2x2 (or 2x1) block shares. *)
Theorem yuv_conversions_agree f bytes pix : (f, bytes, pix) ∈
    [(NV12, w * h + w * h / 2, nv12_pixel src w h); (I420, w * h + w / 2 * (h / 2) * 2, i420_pixel src w h); (YUY2, w * h * 2, yuy2_pixel src w h)] ->
  bytes <= length src -> exists out,
  convert_to_bgra src w h f [] = Ok (Some out, out) /\
  convert_format src f BGRA w h (w * bytes_per_pixel f) (w * 4) (zeros (w * h * 4)) = Ok out /\
  length out = w * h * 4 /\ forall y x, y < h -> x < w -> bytes_at ((y * w + x) * 4) 4 out = pix y x.
Proof.
  intros Hf Hs. destruct (painted_ok pix w h (zeros (w * h * 4))) as (out & E & L & P).
  { intros. rewrite !elem_of_cons, elem_of_nil in Hf. destruct Hf as [Hf | [Hf | [Hf | Hf] ] ]; [injection Hf as -> -> ->..|done]; apply as_bgra_length. }
  { apply length_zeros. }
  exists out. rewrite !elem_of_cons, elem_of_nil in Hf. destruct Hf as [Hf | [Hf | [Hf | Hf] ] ]; [injection Hf as -> -> ->..|done].
  - pose proof (nv12_paints Hs) as [P1 P2]. rewrite E in P1, P2. unfold convert_to_bgra. by rewrite P1.
  - pose proof (i420_paints Hs) as [P1 P2]. rewrite E in P1, P2. unfold convert_to_bgra. by rewrite P1.
  - pose proof (yuy2_paints Hs) as [P1 P2]. rewrite E in P1, P2. unfold convert_to_bgra. by rewrite P1.
Qed.
End yuv.

Lemma yuv_conversions_agree_witness : exists out,
  convert_to_bgra [10; 20; 235; 16; 90; 240]%Z 2 2 I420 [] = Ok (Some out, out) /\ bytes_at 8 4 out = [178; 179; 255; 255]%Z.
Proof.
  destruct (yuv_conversions_agree [10; 20; 235; 16; 90; 240]%Z 2 2 eq_refl eq_refl ltac:(vm_compute; done) I420 6 _ ltac:(right; left) ltac:(cbn; lia)) as (out & E & _ & _ & P).
  exists out. split; [exact E|]. exact (P 1 0 ltac:(lia) ltac:(lia)).
Defined.
