(* ===== verification/Bitmap.v ===== *)
(** * The bitmap fallback

    Models src/src/rdp/channels/graphics/bitmap/converter.rs: the buffer pool, the
    damage tracker, and the converter that turns a captured frame into rectangles;
    and from src/src/rdp/server/display_handler.rs the translation of its result
    for the protocol library.  A vector is its contents with its capacity; a pool's
    instants are parameters. *)
From S2P Require Import Prelude Text Float Simd Color YuvPack Frames PixelConvert.

(** ** Rectangles *)

(** [converter.rs:16-19 RdpPixelFormat] *)
Inductive RdpPixelFormat := BgrX32 | Bgr24.
(** [converter.rs:22-27 bytes_per_pixel] *)
Definition rdp_bytes_per_pixel (f : RdpPixelFormat) : nat := match f with BgrX32 => 4 | Bgr24 => 3 end.
(** [converter.rs:29-41 from_pixel_format] *)
Definition from_pixel_format (f : PixelFormat) : RdpPixelFormat := match f with RGB | BGR => Bgr24 | _ => BgrX32 end.
(** [converter.rs:43-48 pipewire_format] *)
Definition pipewire_format (f : RdpPixelFormat) : PixelFormat := match f with BgrX32 => BGRx | Bgr24 => BGR end.

(** [converter.rs:52-57 Rectangle] *)
Record Rectangle := mkRect { r_left : Z; r_top : Z; r_right : Z; r_bottom : Z }.
#[export] Instance Rectangle_eq_dec : EqDecision Rectangle.
Proof. solve_decision. Defined.

(** [converter.rs:69-71 width] *)
Definition rect_width (r : Rectangle) : Z := sat_sub (r_right r) (r_left r).
(** [converter.rs:73-75 height] *)
Definition rect_height (r : Rectangle) : Z := sat_sub (r_bottom r) (r_top r).
(** [converter.rs:77-79 area] *)
Definition rect_area (r : Rectangle) : Z := wrap 32 (rect_width r * rect_height r).
(** [converter.rs:81-86 intersects] *)
Definition intersects (a b : Rectangle) : bool :=
  negb ((r_right a <=? r_left b) || (r_right b <=? r_left a) || (r_bottom a <=? r_top b) || (r_bottom b <=? r_top a)).
(** [converter.rs:88-93 merge] *)
Definition merge_rect (a b : Rectangle) : Rectangle :=
  mkRect (Z.min (r_left a) (r_left b)) (Z.min (r_top a) (r_top b)) (Z.max (r_right a) (r_right b)) (Z.max (r_bottom a) (r_bottom b)).

(** [u32 as i32] and [i32::saturating_add] *)
Definition as_i32 (n : Z) : Z := if n <? 2 ^ 31 then n else n - 2 ^ 32.
Definition i32_sat_add (a b : Z) : Z := Z.max (- 2 ^ 31) (Z.min (a + b) i32_max).

(** A region of the capture, [(x, y, width, height)].  [converter.rs:97-104 from] *)
Definition rect_of_damage (d : Z * Z * Z * Z) : Rectangle :=
  let '(x, y, w, h) := d in
  mkRect (wrap 16 x) (wrap 16 y) (wrap 16 (Z.max (i32_sat_add x (as_i32 w)) 0)) (wrap 16 (Z.max (i32_sat_add y (as_i32 h)) 0)).

(** ** The buffer pool *)

Definition RDP_BITMAP_ALIGNMENT : nat := 64.
Definition BUFFER_POOL_SIZE : nat := 8.
Definition div_ceil_nat (a b : nat) : nat := (a + b - 1) / b.
(** [converter.rs:418-420 align_to_boundary] *)
Definition align_to_boundary (value boundary : nat) : nat := (div_ceil_nat value boundary * boundary)%nat.

Record vec := mkVec { contents : list Z; capacity_of : nat }.
Definition fresh_vec (n : nat) : vec := mkVec (zeros n) n.
(** [Vec::resize(n, 0)]; a growing vector reallocates to at least [n]. *)
Definition resize_vec (n : nat) (v : vec) : vec :=
  mkVec (take n (contents v) ++ zeros (n - length (contents v))) (Nat.max n (capacity_of v)).

(** [converter.rs:139-143 PooledBuffer] *)
Record PooledBuffer := mkPooled { pooled : vec; capacity : nat; last_used : Z }.
(** [converter.rs:145-148 BufferPool] *)
Record BufferPool := mkPool { buffers : list (option PooledBuffer); free_indices : list nat }.
(** [converter.rs:151-156 new] *)
Definition pool_new (size : nat) : BufferPool := mkPool (replicate size None) (seq 0 size).

Definition reusable (size : nat) (p : BufferPool) (i : nat) (slot : option PooledBuffer) : bool :=
  match slot with Some b => (size <=? capacity b)%nat && bool_decide (i ∈ free_indices p) | None => false end.

(** [converter.rs:158-173 acquire] *)
Definition acquire (now : Z) (size : nat) (p : BufferPool) : vec * BufferPool :=
  match list_find (fun x : nat * option PooledBuffer => reusable size p x.1 x.2 = true) (imap pair (buffers p)) with
  | Some (_, (i, Some b)) =>
      (resize_vec size (pooled b),
       mkPool (<[i := Some (mkPooled (mkVec [] 0) (capacity b) now)]> (buffers p)) (filter (fun j => j <> i) (free_indices p)))
  | _ => (fresh_vec (align_to_boundary size RDP_BITMAP_ALIGNMENT), p)
  end.

(** The slot used longest ago, the first of them.  [converter.rs:180-186 release] *)
Definition least_recent (p : BufferPool) : nat :=
  let used := omap (fun x : nat * option PooledBuffer => (fun b => (x.1, last_used b)) <$> x.2) (imap pair (buffers p)) in
  match foldl (fun best c => match best with Some b => if c.2 <? b.2 then Some c else Some b | None => Some c end) None used with
  | Some (i, _) => i
  | None => 0%nat
  end.

(** [converter.rs:175-194 release] *)
Definition release (now : Z) (buffer : vec) (p : BufferPool) : outcome Empty_set BufferPool :=
  let '(i, free) := match last (free_indices p) with Some i => (i, removelast (free_indices p)) | None => (least_recent p, []) end in
  if (i <? length (buffers p))%nat
  then Ok (mkPool (<[i := Some (mkPooled (mkVec [] (capacity_of buffer)) (capacity_of buffer) now)]> (buffers p)) free) else Panic.

(** ** Damage tracking *)

(** [converter.rs:197-202 DamageTracker] *)
Record DamageTracker := mkTracker { regions : list Rectangle; full_update : bool; screen_width : Z; screen_height : Z }.
(** [converter.rs:205-212 new] *)
Definition tracker_new (w h : Z) : DamageTracker := mkTracker [] false w h.
Definition DAMAGE_THRESHOLD : spec_float := lit32 3 4.

(** A rectangle takes in the later ones it meets, growing as it goes.
    [converter.rs:242-250 consolidate_regions] *)
Fixpoint take_in (r : Rectangle) (rest : list Rectangle) : Rectangle * list Rectangle :=
  match rest with
  | [] => (r, [])
  | o :: rest =>
      if intersects r o then take_in (merge_rect r o) rest
      else let '(r, kept) := take_in r rest in (r, o :: kept)
  end.
Fixpoint consolidate (fuel : nat) (rs : list Rectangle) : list Rectangle :=
  match fuel, rs with
  | S fuel, r :: rest => let '(r, kept) := take_in r rest in r :: consolidate fuel kept
  | _, _ => rs
  end.
(** [converter.rs:239-253 consolidate_regions] *)
Definition consolidate_regions (rs : list Rectangle) : list Rectangle := consolidate (length rs) rs.

(** The first rectangle that meets [r] grows to hold it. *)
Fixpoint merge_first (r : Rectangle) (rs : list Rectangle) : option (list Rectangle) :=
  match rs with
  | [] => None
  | o :: rs => if intersects o r then Some (merge_rect o r :: rs) else cons o <$> merge_first r rs
  end.

(** [converter.rs:214-237 add_damage] *)
Definition add_damage (t : DamageTracker) (r : Rectangle) : DamageTracker :=
  if full_update t then t
  else
    let total := wrap 32 (screen_width t * screen_height t) in
    if (total =? 0) || fgt (div32 (f32_of_Z (rect_area r)) (f32_of_Z total)) DAMAGE_THRESHOLD
    then mkTracker [] true (screen_width t) (screen_height t)
    else
      let rs := match merge_first r (regions t) with Some rs => rs | None => regions t ++ [r] end in
      mkTracker (consolidate_regions rs) false (screen_width t) (screen_height t).

(** [converter.rs:255-261 regions] *)
Definition tracked (t : DamageTracker) : list Rectangle :=
  if full_update t then [mkRect 0 0 (screen_width t) (screen_height t)] else regions t.
(** [converter.rs:263-266 reset] *)
Definition tracker_reset (t : DamageTracker) : DamageTracker := mkTracker [] false (screen_width t) (screen_height t).

(** ** The converter *)

(** [converter.rs:108-112 BitmapData] *)
Record BitmapData := mkBitmap { rectangle : Rectangle; bitmap_format : RdpPixelFormat; bitmap_data : list Z }.
(** [converter.rs:120-124 ConversionError] *)
Inductive ConversionError := InvalidFrame | ConversionFailed (e : str) | RegionOutOfBounds.
(** [converter.rs:270-274 ConversionStats] *)
Record ConversionStats := mkConvStats { frames_converted : Z; bytes_processed : Z; conversion_time_ns : Z }.
(** [converter.rs:276-281 BitmapConverter] *)
Record BitmapConverter := mkConverter { buffer_pool : BufferPool; damage_tracker : DamageTracker; last_frame_hash : Z; conv_stats : ConversionStats }.
(** [converter.rs:284-291 new] *)
Definition converter_new (w h : Z) : BitmapConverter := mkConverter (pool_new BUFFER_POOL_SIZE) (tracker_new w h) 0 (mkConvStats 0 0 0).

(** [frame.rs:236-238 is_valid] *)
Definition is_valid (f : VideoFrame) : bool :=
  negb (bool_decide (f_data f = [])) && (Z.land (f_flags f) 8 =? 0) && (Z.land (f_flags f) 16 =? 0).

(** [converter.rs:365-372 calculate_frame_hash] *)
Definition calculate_frame_hash (data : list Z) : Z :=
  fold_left (fun hash byte => wrap 64 (Z.lxor hash byte * 0x100000001b3)) data 0xcbf29ce484222325.

(** [converter.rs:414-416 calculate_rdp_stride] *)
Definition calculate_rdp_stride (width : nat) (f : RdpPixelFormat) : nat := u32 (align_to_boundary (width * rdp_bytes_per_pixel f) 4).
(** [converter.rs:410-412 calculate_output_size] *)
Definition calculate_output_size (width height : nat) (f : RdpPixelFormat) : nat := (calculate_rdp_stride width f * height)%nat.

(** [converter.rs:374-408 extract_region] *)
Definition extract_region (buffer : list Z) (region : Rectangle) (frame_width frame_height : nat) (f : RdpPixelFormat) : outcome ConversionError BitmapData :=
  if (Z.of_nat frame_width <? r_right region) || (Z.of_nat frame_height <? r_bottom region) then Err RegionOutOfBounds
  else
    let bpp := rdp_bytes_per_pixel f in
    let source_stride := calculate_rdp_stride frame_width f in
    let region_stride := (Z.to_nat (rect_width region) * bpp)%nat in
    data ← mfold (fun data y =>
      let offset := ((Z.to_nat (r_top region) + y) * source_stride + Z.to_nat (r_left region) * bpp)%nat in
      if (length buffer <? offset + region_stride)%nat then Err RegionOutOfBounds
      else Ok (data ++ bytes_at offset region_stride buffer)) [] (seq 0 (Z.to_nat (rect_height region)));
    Ok (mkBitmap region f data).

(** Errors of the conversion keep the new hash and the collected damage, and lose
    the buffer.  The instants are the pool's; [elapsed] is in nanoseconds.
    [converter.rs:293-362 convert_frame] *)
Definition convert_frame (acquired released elapsed : Z) (f : VideoFrame) (c : BitmapConverter)
    : outcome ConversionError (list BitmapData) * BitmapConverter :=
  if negb (is_valid f) then (Err InvalidFrame, c)
  else
    let hash := calculate_frame_hash (f_data f) in
    if hash =? last_frame_hash c then (Ok [], c)
    else
      let tracker := match f_damage f with
                     | [] => mkTracker (regions (damage_tracker c)) true (screen_width (damage_tracker c)) (screen_height (damage_tracker c))
                     | ds => fold_left add_damage (map rect_of_damage ds) (damage_tracker c)
                     end in
      let rdp := from_pixel_format (f_format f) in
      let size := calculate_output_size (f_width f) (f_height f) rdp in
      let '(buffer, pool) := acquire acquired size (buffer_pool c) in
      let buffer := resize_vec size buffer in
      let failed := mkConverter pool tracker hash (conv_stats c) in
      match convert_format (f_data f) (f_format f) (pipewire_format rdp) (f_width f) (f_height f) (f_stride f)
              (calculate_rdp_stride (f_width f) rdp) (contents buffer) with
      | Err e => (Err (ConversionFailed e), failed)
      | Panic => (Panic, failed)
      | Ok out =>
          match mfold (fun acc r => d ← extract_region out r (f_width f) (f_height f) rdp; Ok (acc ++ [d])) [] (tracked tracker) with
          | Err e => (Err e, failed)
          | Panic => (Panic, failed)
          | Ok rects =>
              let st := conv_stats c in
              let stats := mkConvStats (wrap 64 (frames_converted st + 1)) (wrap 64 (bytes_processed st + Z.of_nat (length (f_data f))))
                             (wrap 64 (conversion_time_ns st + elapsed)) in
              match release released (mkVec out (capacity_of buffer)) pool with
              | Ok pool => (Ok rects, mkConverter pool (tracker_reset tracker) hash stats)
              | _ => (Panic, failed)
              end
          end
      end.

(** ** For the protocol library *)

(** Its pixel formats, as far as they are used here. *)
Inductive IronPixelFormat := IronBgrX32 | IronXBgr32.
Record IronBitmapUpdate := mkIron { ix : Z; iy : Z; iwidth : Z; iheight : Z; iformat : IronPixelFormat; idata : list Z; istride : Z }.

(** One rectangle; the library's two formats have four bytes per pixel.
    [display_handler.rs:3023-3058 convert_to_iron_format] *)
Definition to_iron (b : BitmapData) : option IronBitmapUpdate :=
  let fmt := match bitmap_format b with BgrX32 => IronBgrX32 | Bgr24 => IronXBgr32 end in
  let width := rect_width (rectangle b) in
  let height := rect_height (rectangle b) in
  if (width =? 0) || (height =? 0) then None
  else Some (mkIron (r_left (rectangle b)) (r_top (rectangle b)) width height fmt (bitmap_data b) (width * 4)).
(** [display_handler.rs:3020-3062 convert_to_iron_format] *)
Definition convert_to_iron_format (bs : list BitmapData) : option (list IronBitmapUpdate) := mapM to_iron bs.

(** ** The pool *)

(** What the display handler and the converter do with a pool. *)
Inductive pool_op := Acquire (now : Z) (size : nat) | Release (now : Z) (buffer : vec).
Definition pool_step (p : BufferPool) (op : pool_op) : outcome Empty_set BufferPool :=
  match op with Acquire now size => Ok (acquire now size p).2 | Release now b => release now b p end.

(** A free slot holds nothing. *)
Record pool_wf (n : nat) (p : BufferPool) : Prop := mkPoolWf {
  wf_length : length (buffers p) = n;
  wf_nodup : NoDup (free_indices p);
  wf_free : forall i, i ∈ free_indices p -> buffers p !! i = Some None;
}.

Lemma list_find_none {A} (P : A -> bool) (l : list A) : (forall x, x ∈ l -> P x = false) -> list_find (fun x => P x = true) l = None.
Proof. intros Hl. apply list_find_None, Forall_forall. intros x Hx. rewrite (Hl x Hx). congruence. Qed.

Lemma acquire_fresh n now size p : pool_wf n p -> acquire now size p = (fresh_vec (align_to_boundary size RDP_BITMAP_ALIGNMENT), p).
Proof.
  intros [_ _ Hf]. unfold acquire. rewrite (list_find_none (fun x => reusable size p x.1 x.2)); [done|]. intros [i slot] Hi. cbn.
  apply elem_of_lookup_imap in Hi as (j & y & [= -> ->] & Hj). destruct y as [b|]; [|done]. cbn. destruct (bool_decide (j ∈ free_indices p)) eqn:E; [|apply andb_false_r].
  apply bool_decide_eq_true in E. apply Hf in E. congruence.
Qed.

Lemma least_recent_lt p : (0 < length (buffers p))%nat -> (least_recent p < length (buffers p))%nat.
Proof.
  intros Hn. unfold least_recent. set (used := omap _ _).
  assert (Forall (fun c : nat * Z => (c.1 < length (buffers p))%nat) used) as Hu.
  { apply Forall_forall. intros c Hc. apply list_elem_of_omap in Hc as ([i slot] & Hi & Hc). cbn in Hc. destruct slot as [b|]; [|done].
    cbn in Hc. apply (inj Some) in Hc. subst c. apply elem_of_lookup_imap in Hi as (j & y & [= -> <-] & Hj). cbn. by apply lookup_lt_Some in Hj. }
  assert (forall best, match best with Some b => (b.1 < length (buffers p))%nat | None => True end ->
    match foldl (fun best (c : nat * Z) => match best with Some b => if c.2 <? b.2 then Some c else Some b | None => Some c end) best used with
    | Some (i, _) => (i < length (buffers p))%nat | None => True end) as Hfold.
  { induction Hu as [|c used Hc Hu IH]; intros best Hb; cbn; [destruct best as [[]|]; done|]. apply IH. destruct best as [b|]; [destruct (_ <? _)|]; done. }
  specialize (Hfold None I). by destruct (foldl _ None used) as [[]|].
Qed.

Lemma release_wf n now b p : (0 < n)%nat -> pool_wf n p -> exists p', release now b p = Ok p' /\ pool_wf n p'.
Proof.
  intros Hn [Hl Hd Hf]. unfold release. destruct (last (free_indices p)) as [i|] eqn:E.
  - apply last_Some in E as [fr E]. assert (removelast (free_indices p) = fr) as -> by (rewrite E; apply removelast_last).
    assert (i ∈ free_indices p) as Hi by (rewrite E; apply elem_of_app; right; left). pose proof (lookup_lt_Some _ _ _ (Hf i Hi)) as Hlt.
    rewrite (proj2 (Nat.ltb_lt _ _)) by done. eexists. split; [done|]. rewrite E in Hd. apply NoDup_app in Hd as (Hd & Hni & _).
    constructor; cbn; [by rewrite length_insert|done|]. intros j Hj. rewrite list_lookup_insert_ne; [apply Hf; rewrite E; apply elem_of_app; by left|].
    intros ->. apply (Hni j Hj). left.
  - apply last_None in E. rewrite (proj2 (Nat.ltb_lt _ _)) by (apply least_recent_lt; lia). eexists. split; [done|].
    constructor; cbn; [by rewrite length_insert|constructor|by intros ? ?%not_elem_of_nil].
Qed.

Lemma pool_reached n ops : (0 < n)%nat -> exists p, mfold pool_step (pool_new n) ops = Ok p /\ pool_wf n p.
Proof.
  intros Hn. assert (forall p, pool_wf n p -> exists p', mfold pool_step p ops = Ok p' /\ pool_wf n p') as Hall.
  { induction ops as [|op ops IH]; intros p Hp; [by exists p|]. cbn [mfold]. destruct op as [now size|now b].
    - cbn [pool_step]. rewrite (acquire_fresh n) by done. cbn. by apply IH.
    - destruct (release_wf n now b p Hn Hp) as (p1 & E & H1). cbn [pool_step]. rewrite E. cbn. by apply IH. }
  apply Hall. constructor; cbn; [apply length_replicate|apply NoDup_seq|]. intros i [_ Hi]%elem_of_seq. by apply lookup_replicate_2.
Qed.

(** The pool never gives a buffer back: a released buffer goes to a slot that
    leaves the free list, and only free slots are searched, so after any sequence of
    calls an acquisition allocates, while releasing never panics and keeps the last
    buffers alive. *)
Theorem pool_never_reuses ops now size :
  exists p, mfold pool_step (pool_new BUFFER_POOL_SIZE) ops = Ok p /\
    acquire now size p = (fresh_vec (align_to_boundary size RDP_BITMAP_ALIGNMENT), p) /\ length (buffers p) = BUFFER_POOL_SIZE.
Proof.
  destruct (pool_reached BUFFER_POOL_SIZE ops) as (p & E & H); [unfold BUFFER_POOL_SIZE; lia|]. exists p. split; [done|].
  split; [by apply (acquire_fresh BUFFER_POOL_SIZE)|by destruct H].
Qed.

(** ** What the tracker covers *)

Definition rect_contains (r : Rectangle) (x y : Z) : bool := (r_left r <=? x) && (x <? r_right r) && (r_top r <=? y) && (y <? r_bottom r).
Definition covered (rs : list Rectangle) (x y : Z) : bool := existsb (fun r => rect_contains r x y) rs.
Definition within (w h : Z) (r : Rectangle) : Prop := 0 <= r_left r /\ 0 <= r_top r /\ r_right r <= w /\ r_bottom r <= h.

Lemma merge_contains a b x y : rect_contains a x y || rect_contains b x y = true -> rect_contains (merge_rect a b) x y = true.
Proof. unfold rect_contains, merge_rect. cbn. lia. Qed.
Lemma merge_within w h a b : within w h a -> within w h b -> within w h (merge_rect a b).
Proof. unfold within, merge_rect. cbn. lia. Qed.

Lemma take_in_spec r rest r' kept : take_in r rest = (r', kept) ->
  (length kept <= length rest)%nat /\
  (forall x y, covered (r :: rest) x y = true -> covered (r' :: kept) x y = true) /\
  (forall w h, Forall (within w h) (r :: rest) -> Forall (within w h) (r' :: kept)).
Proof.
  revert r r' kept. induction rest as [|o rest IH]; intros r r' kept; cbn [take_in]; [by intros [= <- <-]|]. destruct (intersects r o).
  - intros Ht. destruct (IH _ _ _ Ht) as (L & C & W). cbn [length]. split; [lia|]. split.
    + intros x y Hc. apply C. cbn [covered existsb] in *. rewrite orb_assoc in Hc. apply orb_true_iff in Hc as [Hc|Hc]; [|by rewrite Hc, orb_true_r].
      by rewrite merge_contains.
    + intros w h Hw. apply W. apply Forall_cons in Hw as [H1 Hw]. apply Forall_cons in Hw as [H2 Hw]. apply Forall_cons. split; [by apply merge_within|done].
  - destruct (take_in r rest) as [r1 k1] eqn:E. intros [= <- <-]. destruct (IH _ _ _ E) as (L & C & W). cbn [length]. split; [lia|]. split.
    + intros x y Hc. cbn [covered existsb] in *. specialize (C x y). destruct (rect_contains o x y); [by rewrite orb_true_r|]. cbn [orb] in *. by apply C.
    + intros w h Hw. apply Forall_cons in Hw as [H1 Hw]. apply Forall_cons in Hw as [H2 Hw]. specialize (W w h). rewrite !Forall_cons in *. intuition.
Qed.

Lemma consolidate_spec fuel rs :
  (forall x y, covered rs x y = true -> covered (consolidate fuel rs) x y = true) /\
  (forall w h, Forall (within w h) rs -> Forall (within w h) (consolidate fuel rs)).
Proof.
  revert rs. induction fuel as [|fuel IH]; intros rs; [done|]. destruct rs as [|r rest]; [done|]. cbn [consolidate].
  destruct (take_in r rest) as [r' kept] eqn:E. destruct (take_in_spec _ _ _ _ E) as (_ & C & W). destruct (IH kept) as [IC IW]. split.
  - intros x y Hc%C. cbn [covered existsb] in *. apply orb_true_iff in Hc as [->|Hc]; [done|]. apply orb_true_intro. right. exact (IC x y Hc).
  - intros w h Hw%W. rewrite !Forall_cons in *. destruct Hw. split; [done|]. by apply IW.
Qed.

Lemma merge_first_spec r rs rs' : merge_first r rs = Some rs' ->
  (forall x y, covered (rs ++ [r]) x y = true -> covered rs' x y = true) /\ (forall w h, Forall (within w h) (rs ++ [r]) -> Forall (within w h) rs').
Proof.
  revert rs'. induction rs as [|o rs IH]; intros rs'; [done|]. cbn [merge_first]. destruct (intersects o r).
  - intros [= <-]. split.
    + intros x y. unfold covered. cbn [existsb app]. rewrite existsb_app. cbn [existsb]. rewrite orb_false_r, !orb_true_iff.
      intros [H|[H|H]]; [left; apply merge_contains; by rewrite H|by right|left; apply merge_contains; by rewrite H, orb_true_r].
    + intros w h Hw. cbn [app] in Hw. apply Forall_cons in Hw as [H1 Hw]. apply Forall_app in Hw as [Hw H2]. apply Forall_cons in H2 as [H2 _].
      apply Forall_cons. split; [by apply merge_within|done].
  - destruct (merge_first r rs) as [rs1|]; [|done]. cbn. intros [= <-]. destruct (IH rs1 eq_refl) as [C W]. split.
    + intros x y. unfold covered in *. cbn [existsb app]. destruct (rect_contains o x y); [done|]. cbn [orb]. apply C.
    + intros w h. cbn [app]. rewrite !Forall_cons. intros [? ?]. split; [done|]. by apply W.
Qed.

(** A tracker keeps everything it was told. *)
Lemma add_damage_spec t r :
  (forall x y, 0 <= x < screen_width t -> 0 <= y < screen_height t ->
     covered (tracked t) x y || rect_contains r x y = true -> covered (tracked (add_damage t r)) x y = true) /\
  (Forall (within (screen_width t) (screen_height t)) (tracked t) -> within (screen_width t) (screen_height t) r ->
     Forall (within (screen_width t) (screen_height t)) (tracked (add_damage t r))) /\
  screen_width (add_damage t r) = screen_width t /\ screen_height (add_damage t r) = screen_height t.
Proof.
  unfold add_damage. destruct (full_update t) eqn:F.
  { split; [|split; [done|done]]. intros x y Hx Hy _. unfold tracked. rewrite F. cbn. rewrite orb_false_r. unfold rect_contains. cbn. lia. }
  destruct (_ || _).
  { unfold tracked. cbn. split; [|split; [|done]].
    - intros x y Hx Hy _. rewrite orb_false_r. unfold rect_contains. cbn. lia.
    - intros _ _. apply Forall_cons. split; [|done]. unfold within. cbn. lia. }
  unfold tracked. rewrite F. cbn [full_update regions screen_width screen_height]. unfold consolidate_regions.
  destruct (consolidate_spec (length (match merge_first r (regions t) with Some rs => rs | None => regions t ++ [r] end))
              (match merge_first r (regions t) with Some rs => rs | None => regions t ++ [r] end)) as [CC CW].
  assert (forall x y, covered (regions t ++ [r]) x y = true -> covered (match merge_first r (regions t) with Some rs => rs | None => regions t ++ [r] end) x y = true) as MC.
  { destruct (merge_first r (regions t)) as [rs|] eqn:E; [|done]. by destruct (merge_first_spec _ _ _ E). }
  assert (forall w h, Forall (within w h) (regions t ++ [r]) -> Forall (within w h) (match merge_first r (regions t) with Some rs => rs | None => regions t ++ [r] end)) as MW.
  { destruct (merge_first r (regions t)) as [rs|] eqn:E; [|done]. by destruct (merge_first_spec _ _ _ E). }
  split; [|split; [|done]].
  - intros x y _ _ Hc. apply CC, MC. unfold covered in *. rewrite existsb_app. cbn [existsb]. by rewrite orb_false_r.
  - intros Hr Hw. apply CW, MW. apply Forall_app. split; [done|]. by apply Forall_cons.
Qed.

(** No damage is lost by tracking it: after any sequence of damage rectangles
    every pixel of the screen that one of them contains lies in a rectangle the
    tracker gives out, or the whole screen is updated; merging, consolidating and
    the switch to a full update included.  Rectangles within the screen stay
    within it. *)
Theorem tracker_covers_damage ds w h :
  let t := fold_left add_damage ds (tracker_new w h) in
  (forall x y, 0 <= x < w -> 0 <= y < h -> covered ds x y = true -> covered (tracked t) x y = true) /\
  (Forall (within w h) ds -> Forall (within w h) (tracked t)).
Proof.
  cbn zeta. assert (forall t, screen_width t = w -> screen_height t = h ->
    (forall x y, 0 <= x < w -> 0 <= y < h -> covered (tracked t) x y || covered ds x y = true -> covered (tracked (fold_left add_damage ds t)) x y = true) /\
    (Forall (within w h) (tracked t) -> Forall (within w h) ds -> Forall (within w h) (tracked (fold_left add_damage ds t)))) as Hall.
  - induction ds as [|d ds IH]; intros t Ew Eh; cbn [fold_left covered existsb].
    + split; [|done]. intros x y _ _. by rewrite orb_false_r.
    + destruct (add_damage_spec t d) as (C & W & Sw & Sh). rewrite Ew, Eh in *. destruct (IH (add_damage t d) Sw Sh) as [IC IW]. split.
      * intros x y Hx Hy. rewrite orb_assoc. intros [H|H]%orb_true_iff; apply IC; try done; [by rewrite C|by apply orb_true_intro; right].
      * intros Ht Hd. apply Forall_cons in Hd as [H1 Hd]. apply IW; [by apply W|done].
  - destruct (Hall (tracker_new w h) eq_refl eq_refl) as [C W]. split; [|intros; by apply W].
    intros x y Hx Hy Hc. apply C; [done..|]. by rewrite Hc, orb_true_r.
Qed.

(** The 16-bit cast of a negative origin puts the left edge beyond the right one:
    what is visible of such a region is lost, and the frame with it. *)
Lemma negative_origin_loses_damage :
  rect_of_damage (-5, 0, 100, 10) = mkRect 65531 0 95 10 /\
  covered (tracked (add_damage (tracker_new 1920 1080) (rect_of_damage (-5, 0, 100, 10)))) 0 0 = false /\
  to_iron (mkBitmap (mkRect 65531 0 95 10) BgrX32 []) = None.
Proof. by vm_compute. Qed.

(** ** What a rectangle holds *)

Lemma div_ceil_nat_aligned v b : (0 < b)%nat -> (v <= align_to_boundary v b)%nat.
Proof.
  intros Hb. unfold align_to_boundary, div_ceil_nat. pose proof (Nat.div_mod (v + b - 1) b ltac:(lia)). pose proof (Nat.mod_upper_bound (v + b - 1) b ltac:(lia)).
  rewrite (Nat.mul_comm _ b). lia.
Qed.

(** A frame without padding beyond the stride of its rectangles. *)
Definition passes_through (f : VideoFrame) : Prop :=
  (f_format f = BGRx \/ f_format f = BGR) /\ f_stride f = calculate_rdp_stride (f_width f) (from_pixel_format (f_format f)).

(** Every conversion but the identity is refused. *)
Lemma conversion_refused f dst : ~ passes_through f ->
  convert_format (f_data f) (f_format f) (pipewire_format (from_pixel_format (f_format f))) (f_width f) (f_height f) (f_stride f)
    (calculate_rdp_stride (f_width f) (from_pixel_format (f_format f))) dst = Err (lit "Unsupported conversion").
Proof.
  intros Hn. unfold convert_format, passes_through in *. destruct (Nat.eqb_spec (f_stride f) (calculate_rdp_stride (f_width f) (from_pixel_format (f_format f)))) as [E|E].
  - destruct (f_format f); cbn; try done; exfalso; apply Hn; (split; [|done]); auto.
  - rewrite andb_false_r. by destruct (f_format f).
Qed.

Definition wide (f : VideoFrame) : Prop :=
  Z.of_nat (f_stride f * f_height f) < 2 ^ 32 /\ Z.of_nat (align_to_boundary (f_width f * bpp f) 4) < 2 ^ 32.

(** The identity keeps every pixel at its place. *)
Lemma identity_pixels f out : passes_through f -> frame_valid f -> wide f ->
  convert_format (f_data f) (f_format f) (pipewire_format (from_pixel_format (f_format f))) (f_width f) (f_height f) (f_stride f)
    (calculate_rdp_stride (f_width f) (from_pixel_format (f_format f))) (zeros (calculate_output_size (f_width f) (f_height f) (from_pixel_format (f_format f)))) = Ok out ->
  length out = (f_stride f * f_height f)%nat /\
  forall x y, (x < f_width f)%nat -> (y < f_height f)%nat -> bytes_at (y * f_stride f + x * bpp f) (bpp f) out = pixel f x y.
Proof.
  intros [Hf Hst] Hv [Hb1 Hb2]. pose proof Hv as (Hw & Hh & Hl). unfold calculate_output_size. rewrite <- Hst. unfold convert_format.
  assert (pipewire_format (from_pixel_format (f_format f)) = f_format f) as -> by (by destruct Hf as [->| ->]).
  assert (rdp_bytes_per_pixel (from_pixel_format (f_format f)) = bpp f) as Hbpp by (unfold bpp; by destruct Hf as [->| ->]).
  rewrite bool_decide_eq_true_2, Nat.eqb_refl by done. cbn [andb]. fold (bpp f).
  assert (f_stride f = align_to_boundary (f_width f * bpp f) 4) as Hst' by (rewrite Hst; unfold calculate_rdp_stride; rewrite Hbpp; by apply u32_small).
  pose proof (div_ceil_nat_aligned (f_width f * bpp f) 4 ltac:(lia)) as Hge. rewrite <- Hst' in Hge, Hb2. rewrite u32_small by lia.
  destruct (Nat.eqb_spec (f_width f * bpp f) (f_stride f)) as [E|E].
  - intros Hp. pose proof (buf_put_length _ _ _ _ Hp) as Hlen. rewrite length_zeros in Hlen. split; [done|]. intros x y Hx Hy.
    unfold buf_put in Hp. cbn in Hp. destruct (length (f_data f) <=? _)%nat eqn:L; [|done]. injection Hp as <-. unfold pixel, bytes_at.
    pose proof (pixel_in_buffer f x y Hv Hx Hy). rewrite drop_app_le by lia. rewrite take_app_le; [done|]. rewrite length_drop. lia.
  - intros Hp. destruct (mfold_puts (fun dst y => row ← slice_range (f_data f) (u32 (y * f_stride f)) (u32 (y * f_stride f) + f_width f * bpp f); buf_put (u32 (y * f_stride f)) row dst)
      (fun y => (y * f_stride f)%nat) (fun y => bytes_at (y * f_stride f) (f_width f * bpp f) (f_data f)) (f_width f * bpp f) (seq 0 (f_height f))
      (zeros (f_stride f * f_height f))) as (out' & E' & L' & B').
    + apply NoDup_seq.
    + intros y [_ Hy]%elem_of_seq. rewrite length_zeros. split; [apply length_bytes_at; unfold required_len in Hl; nia|nia].
    + intros y z [_ Hy]%elem_of_seq [_ Hz]%elem_of_seq Hne. nia.
    + intros d y [_ Hy]%elem_of_seq _. rewrite u32_small by nia. unfold slice_range. rewrite !(proj2 (Nat.leb_le _ _)) by (unfold required_len in Hl; nia).
      cbn. by replace (y * f_stride f + f_width f * bpp f - y * f_stride f)%nat with (f_width f * bpp f)%nat by lia.
    + rewrite E' in Hp. apply Ok_inj in Hp. subst out'. rewrite length_zeros in L'. split; [done|]. intros x y Hx Hy.
      specialize (B' y ltac:(apply elem_of_seq; lia)). cbn in B'. unfold pixel.
      rewrite <- (bytes_at_bytes_at (y * f_stride f) (f_width f * bpp f) (x * bpp f) (bpp f) out), B' by nia. apply bytes_at_bytes_at. nia.
Qed.

Lemma extracted buffer r w h fmt b : extract_region buffer r w h fmt = Ok b -> 
  rectangle b = r /\ bitmap_format b = fmt /\ r_right r <= Z.of_nat w /\ r_bottom r <= Z.of_nat h /\
  let rw := Z.to_nat (rect_width r) in let n := rdp_bytes_per_pixel fmt in
  length (bitmap_data b) = (rw * Z.to_nat (rect_height r) * n)%nat /\
  forall x y, (x < rw)%nat -> (y < Z.to_nat (rect_height r))%nat ->
    bytes_at ((y * rw + x) * n) n (bitmap_data b) =
    bytes_at ((Z.to_nat (r_top r) + y) * calculate_rdp_stride w fmt + (Z.to_nat (r_left r) + x) * n) n buffer.
Proof.
  unfold extract_region. destruct (_ || _) eqn:E; [done|]. apply orb_false_iff in E. cbn zeta. set (rw := Z.to_nat (rect_width r)).
  set (n := rdp_bytes_per_pixel fmt). set (st := calculate_rdp_stride w fmt). set (off y := ((Z.to_nat (r_top r) + y) * st + Z.to_nat (r_left r) * n)%nat).
  assert (forall k acc data, mfold (fun data y => if (length buffer <? off y + rw * n)%nat then Err RegionOutOfBounds else Ok (data ++ bytes_at (off y) (rw * n) buffer)) acc (seq 0 k) = Ok data ->
    data = acc ++ concat (map (fun y => bytes_at (off y) (rw * n) buffer) (seq 0 k)) /\ forall y, (y < k)%nat -> (off y + rw * n <= length buffer)%nat) as Hloop.
  { induction k as [|k IH]; intros acc data; [intros [= <-]; split; [by rewrite app_nil_r|lia]|]. rewrite seq_S, mfold_app. cbn [mfold Nat.add].
    destruct (mfold _ acc (seq 0 k)) as [d| |] eqn:Ed; [|done..]. cbn [mbind outcome_bind]. destruct (Nat.ltb_spec (length buffer) (off k + rw * n)); [done|].
    intros [= <-]. destruct (IH _ _ Ed) as [-> Hin]. rewrite map_app, concat_app. cbn. rewrite app_nil_r, app_assoc. split; [done|].
    intros y Hy. destruct (decide (y = k)) as [->|]; [done|]. apply Hin. lia. }
  destruct (mfold _ [] _) as [data| |] eqn:Ed; [|done..]. cbn [mbind outcome_bind]. intros [= <-]. cbn. apply Hloop in Ed as [-> Hin]. cbn [app].
  split_and!; [done..|lia|lia| |].
  - rewrite (length_concat_map (fun y => bytes_at (off y) (rw * n) buffer) (rw * n)) by (intros; apply length_bytes_at; by apply Hin). lia.
  - intros x y Hx Hy. replace ((y * rw + x) * n)%nat with (y * (rw * n) + x * n)%nat by lia.
    rewrite <- (bytes_at_bytes_at (y * (rw * n)) (rw * n)) by nia.
    rewrite (bytes_at_concat (fun y => bytes_at (off y) (rw * n) buffer)) by (done || (intros; apply length_bytes_at; by apply Hin)).
    rewrite bytes_at_bytes_at by nia. f_equal. unfold off. lia.
Qed.

(** The damage a frame adds to what the tracker already holds. *)
Definition damage_after (f : VideoFrame) (c : BitmapConverter) : DamageTracker :=
  match f_damage f with
  | [] => mkTracker (regions (damage_tracker c)) true (screen_width (damage_tracker c)) (screen_height (damage_tracker c))
  | ds => fold_left add_damage (map rect_of_damage ds) (damage_tracker c)
  end.

(** Rectangle [b] shows the frame's own pixels. *)
Definition shows (f : VideoFrame) (b : BitmapData) : Prop :=
  let rw := Z.to_nat (rect_width (rectangle b)) in
  length (bitmap_data b) = (rw * Z.to_nat (rect_height (rectangle b)) * bpp f)%nat /\
  forall x y, (x < rw)%nat -> (y < Z.to_nat (rect_height (rectangle b)))%nat ->
    bytes_at ((y * rw + x) * bpp f) (bpp f) (bitmap_data b) =
    pixel f (Z.to_nat (r_left (rectangle b)) + x) (Z.to_nat (r_top (rectangle b)) + y).

Lemma extract_all out rs w h fmt bs : mfold (fun acc r => d ← extract_region out r w h fmt; Ok (acc ++ [d])) [] rs = Ok bs ->
  map rectangle bs = rs /\ forall b, b ∈ bs -> extract_region out (rectangle b) w h fmt = Ok b.
Proof.
  assert (forall acc, mfold (fun acc r => d ← extract_region out r w h fmt; Ok (acc ++ [d])) acc rs = Ok bs ->
    exists ds, bs = acc ++ ds /\ map rectangle ds = rs /\ forall b, b ∈ ds -> extract_region out (rectangle b) w h fmt = Ok b) as Hall.
  { revert bs. induction rs as [|r rs IH]; intros bs acc; cbn [mfold]; [intros [= <-]; exists []; split; [by rewrite app_nil_r|split; [done|by intros ? ?%not_elem_of_nil]]|].
    destruct (extract_region out r w h fmt) as [d| |] eqn:E; [|done..]. cbn [mbind outcome_bind]. intros (ds & -> & M & B)%IH.
    pose proof (extracted _ _ _ _ _ _ E) as (Er & _). exists (d :: ds). rewrite <- app_assoc. split; [done|]. split; [cbn; by rewrite Er, M|].
    intros b [->|Hb]%elem_of_cons; [by rewrite Er|by apply B]. }
  intros (ds & -> & M & B)%Hall. done.
Qed.

(** The fallback converter converts nothing: a frame that is new to it is
    refused unless it already has the output format, BGRx or BGR, with the output
    stride.  For such a frame the rectangles are those of the collected damage, in
    order, and each holds exactly the frame's pixels at its place, whatever damage
    the capture reported. *)
Theorem fallback_only_copies acquired released elapsed n f c :
  is_valid f = true -> calculate_frame_hash (f_data f) <> last_frame_hash c -> pool_wf n (buffer_pool c) ->
  let result := convert_frame acquired released elapsed f c in
  (~ passes_through f -> result.1 = Err (ConversionFailed (lit "Unsupported conversion"))) /\
  (frame_valid f -> wide f -> forall bs, result.1 = Ok bs ->
     map rectangle bs = tracked (damage_after f c) /\
     forall b, b ∈ bs -> 0 <= r_left (rectangle b) -> 0 <= r_top (rectangle b) -> shows f b).
Proof.
  intros Hval Hnew Hp. cbn zeta. unfold convert_frame. rewrite Hval, (proj2 (Z.eqb_neq _ _) Hnew). cbn [negb]. fold (damage_after f c).
  rewrite (acquire_fresh n) by done. cbn zeta beta iota.
  set (size := calculate_output_size (f_width f) (f_height f) (from_pixel_format (f_format f))).
  assert (contents (resize_vec size (fresh_vec (align_to_boundary size RDP_BITMAP_ALIGNMENT))) = zeros size) as ->.
  { unfold resize_vec, fresh_vec, zeros. cbn [contents]. pose proof (div_ceil_nat_aligned size 64 ltac:(lia)).
    rewrite length_replicate, take_replicate, Nat.min_l by done. replace (size - align_to_boundary size RDP_BITMAP_ALIGNMENT)%nat with 0%nat by (unfold RDP_BITMAP_ALIGNMENT; lia). apply app_nil_r. }
  split.
  - intros Hn. by rewrite conversion_refused.
  - intros Hv Hw bs. destruct (convert_format _ _ _ _ _ _ _ _) as [out| |] eqn:Ec; [|done..].
    assert (passes_through f) as Hpt.
    { unfold passes_through. destruct (decide (f_format f = BGRx)) as [E|E], (decide (f_format f = BGR)) as [E'|E'],
        (decide (f_stride f = calculate_rdp_stride (f_width f) (from_pixel_format (f_format f)))) as [Es|Es]; try (split; [by auto|done]);
        exfalso; rewrite conversion_refused in Ec by (intros [[|] ?]; congruence); congruence. }
    destruct (identity_pixels f out Hpt Hv Hw Ec) as [Lo Po]. destruct (mfold _ [] _) as [rects| |] eqn:Em; [|done..].
    destruct (release _ _ _) as [pool| |]; [|done..]. intros [= <-]. apply extract_all in Em as [M B]. split; [done|].
    intros b Hb Hl Ht. destruct (extracted _ _ _ _ _ _ (B b Hb)) as (_ & _ & R1 & R2 & Lb & Pb). cbn zeta in Lb, Pb.
    assert (rdp_bytes_per_pixel (from_pixel_format (f_format f)) = bpp f) as Hbpp by (unfold bpp; destruct Hpt as [[->| ->] _]; done).
    rewrite Hbpp in Lb, Pb. rewrite <- (proj2 Hpt) in Pb. split; [done|]. intros x y Hx Hy. rewrite (Pb x y Hx Hy). apply Po; unfold rect_width, rect_height, sat_sub in *; lia.
Qed.

Definition two_by_two (f : PixelFormat) (bytes : nat) : VideoFrame :=
  mkVideo 1 0 0 0 2 2 (2 * bytes) f 0 (map Z.of_nat (seq 1 (4 * bytes))) 0 [(1, 0, 1, 2)] 0.

Lemma fallback_only_copies_witness :
  (convert_frame 0 0 0 (two_by_two RGBA 4) (converter_new 2 2)).1 = Err (ConversionFailed (lit "Unsupported conversion")) /\
  (convert_frame 0 0 0 (two_by_two BGRx 4) (converter_new 2 2)).1 = Ok [mkBitmap (mkRect 1 0 2 2) BgrX32 [5; 6; 7; 8; 13; 14; 15; 16]] /\
  shows (two_by_two BGRx 4) (mkBitmap (mkRect 1 0 2 2) BgrX32 [5; 6; 7; 8; 13; 14; 15; 16]).
Proof.
  assert (pool_wf 8 (buffer_pool (converter_new 2 2))) as Hp.
  { constructor; [done|apply NoDup_seq|]. intros i [_ Hi]%elem_of_seq. by apply lookup_replicate_2. }
  split; [|assert ((convert_frame 0 0 0 (two_by_two BGRx 4) (converter_new 2 2)).1 = Ok [mkBitmap (mkRect 1 0 2 2) BgrX32 [5; 6; 7; 8; 13; 14; 15; 16]]) as E by (by vm_compute); split; [exact E|]].
  - refine (proj1 (fallback_only_copies 0 0 0 8 (two_by_two RGBA 4) (converter_new 2 2) _ _ Hp) _); [by vm_compute|by vm_compute|]. intros [[?|?] _]; done.
  - refine (proj2 (proj2 (fallback_only_copies 0 0 0 8 (two_by_two BGRx 4) (converter_new 2 2) _ _ Hp) _ _ _ E) _ _ _ _); try by vm_compute.
    + unfold frame_valid, required_len, bpp. cbn. lia.
    + by left.
Defined.

(** A 24-bit frame passes, but is announced to the library with four bytes per
    pixel: its data ends before the rows it declares. *)
Lemma bgr_announced_too_wide f b : bitmap_format b = Bgr24 -> bpp f = 3%nat -> shows f b -> forall u, to_iron b = Some u ->
  0 < rect_width (rectangle b) -> Z.of_nat (length (idata u)) < istride u * iheight u.
Proof.
  intros Hf Hb [Hl _] u. unfold to_iron. destruct (_ || _) eqn:E; [done|]. intros [= <-] Hw. cbn. rewrite Hl, Hb. unfold rect_height, rect_width, sat_sub in *. nia.
Qed.
