(* ===== verification/Pipeline.v ===== *)
(** * From a captured frame to the client

    Models the H.264 path of the pipeline loop of
    src/src/rdp/server/display_handler.rs for an initialised encoder: the size
    check, damage detection, the adaptive frame rate, the latency governor,
    padding, encoding and sending, composed from Damage.v, AdaptiveFps.v,
    Governor.v, YuvPack.v and Avc444.v.  The encoder is used through the interface
    [Video]; whether the channel accepts a frame that passes the
    sender's check of its sizes is a parameter.  The
    hardware encoder of the [vaapi] feature and logging are left out. *)
From S2P Require Import Prelude Text Float Damage Egfx AdaptiveFps Governor Simd Color YuvPack H264Level AnnexB Avc444 Avc444Run Frames.

(** ** Encoders *)

(** What the pipeline needs of an encoder: one call, which may return the streams
    of a frame, and whether it is going to force an intra refresh. *)
Class Video (E : Type) := {
  v_encode : Instants -> list Z -> Z -> Z -> Z -> E -> outcome EncoderError (option (list Z * option (list Z))) * E;
  v_idr_due : Z -> E -> bool;
}.

(** [display_handler.rs:560-567 encode_bgra] *)
Definition avc444_video {C} `{Codec C} (cpu : simd) : Video (Avc444Encoder C) := {|
  v_encode t data w h ts s :=
    let '(r, s) := encode_bgra cpu t data w h ts s in
    ((fun o : option Avc444Frame => (fun f => (stream1_data f, stream2_data f)) <$> o) <$> r, s);
  v_idr_due := is_periodic_idr_due;
|}.

(** ** State *)

(** [display_handler.rs:1343-1470 start_pipeline] *)
Record Pipeline (E : Type) := mkPipeline {
  p_detector : option DamageDetector;
  p_fps : AdaptiveFpsController;
  fps_enabled : bool;
  p_governor : LatencyGovernor;
  p_encoder : E;
  force_first_frame : bool;
  frames_dropped : Z;
  frames_skipped_damage : Z;
  egfx_frames_sent : Z;
}.
Arguments p_detector {E}. Arguments p_fps {E}. Arguments fps_enabled {E}. Arguments p_governor {E}. Arguments 
p_encoder {E}. Arguments force_first_frame {E}. Arguments frames_dropped {E}. Arguments frames_skipped_damage 
{E}. Arguments egfx_frames_sent {E}.
Arguments mkPipeline {E}.

(** What became of a frame. *)
Inductive verdict :=
| TooSmall
| HeldBack (d : EncodingDecision)
| NoDamage
| EncoderSkipped
| EncoderFailed (e : EncoderError)
| SendFailed (regions : list DamageRegion) (main : list Z) (aux : option (list Z))
| Sent (regions : list DamageRegion) (main : list Z) (aux : option (list Z)).

(** What goes with a frame: its encoded and its displayed size, and its time.
    [display_handler.rs:2719-2745 start_pipeline] *)
Record Envelope := mkEnvelope { env_encoded_width : Z; env_encoded_height : Z; env_display_width : Z; env_display_height : Z; env_timestamp : Z }.
(** The sizes and the time cut to 16 and 32 bits.
    [display_handler.rs:2719-2745 start_pipeline] *)
Definition envelope (w h timestamp : Z) : Envelope :=
  mkEnvelope (wrap 16 (Z.of_nat (align_to_16 (Z.to_nat w)))) (wrap 16 (Z.of_nat (align_to_16 (Z.to_nat h)))) (wrap 16 w) (wrap 16 h) (wrap 32 timestamp).
(** The sender refuses what does not pass its check of the sizes.
    [sender.rs:144-167 validate_frame] *)
Definition sender_check (e : Envelope) (main : list Z) : bool :=
  is_ok (validate_frame main (env_encoded_width e) (env_encoded_height e) (env_display_width e) (env_display_height e)).
(** Whether the rest of the sender, and the channel behind it, accept a frame. *)
Definition delivery : Type := Envelope -> list DamageRegion -> list Z -> option (list Z) -> bool.
Definition accepting : delivery := fun _ _ _ _ => true.

(** The clock readings of one turn. *)
Record Times := mkTimes { t_idr : Z; t_detection : Z; t_fps : Z; t_governor : Z; t_encode : Instants }.

(** [display_handler.rs:2576-2583 start_pipeline] *)
Definition damage_ratio (regions : list DamageRegion) (w h : Z) : spec_float :=
  match regions with
  | [] => fzero
  | _ => div32 (f32_of_Z (wrap 64 (foldr Z.add 0 (map area regions)))) (f32_of_Z (wrap 32 (w * h)))
  end.

Section pipeline.
Context {E : Type} `{Video E} (t : Times).

Definition drop_frame (v : verdict) (p : Pipeline E) : outcome Empty_set (verdict * Pipeline E) :=
  Ok (v, mkPipeline (p_detector p) (p_fps p) (fps_enabled p) (p_governor p) (p_encoder p) (force_first_frame p)
           (wrap 64 (frames_dropped p + 1)) (frames_skipped_damage p) (egfx_frames_sent p)).

(** The regions to send, from the detector unless a full frame is due.
    [display_handler.rs:2552-2574 start_pipeline] *)
Definition plan_regions (data : list Z) (w h : Z) (p : Pipeline E) : outcome Empty_set (list DamageRegion * Pipeline E) :=
  let with_detector d := mkPipeline d (p_fps p) (fps_enabled p) (p_governor p) (p_encoder p) false
    (frames_dropped p) (frames_skipped_damage p) (egfx_frames_sent p) in
  if v_idr_due (t_idr t) (p_encoder p) || force_first_frame p then Ok ([full_frame w h], with_detector (p_detector p))
  else match p_detector p with
       | Some d => r ← detect (t_detection t) data w h d; Ok (r.2, with_detector (Some r.1))
       | None => Ok ([full_frame w h], with_detector None)
       end.

(** [display_handler.rs:2585-2590 start_pipeline] *)
Definition schedule (ratio : spec_float) (p : Pipeline E) : EncodingDecision * Pipeline E :=
  let fps := if fps_enabled p then AdaptiveFps.update (t_fps t) ratio (p_fps p) else p_fps p in
  let '(g, d) := should_encode_frame (t_governor t) ratio (p_governor p) in
  (d, mkPipeline (p_detector p) fps (fps_enabled p) g (p_encoder p) (force_first_frame p)
        (frames_dropped p) (frames_skipped_damage p) (egfx_frames_sent p)).

(** [display_handler.rs:2654-2675 start_pipeline] *)
Definition encoder_input (data : list Z) (w h : Z) : outcome Empty_set (list Z) :=
  let encoded_width := align_to_16 (Z.to_nat w) in
  let encoded_height := align_to_16 (Z.to_nat h) in
  if negb (encoded_width =? Z.to_nat w)%nat || negb (encoded_height =? Z.to_nat h)%nat
  then pad_frame_to_aligned data (Z.to_nat w) (Z.to_nat h) encoded_width encoded_height
  else Ok data.

(** [display_handler.rs:2677-2877 start_pipeline] *)
Definition encode_and_send (data : list Z) (w h timestamp : Z) (delivered : delivery) (regions : list DamageRegion) (p : Pipeline E)
    : outcome Empty_set (verdict * Pipeline E) :=
  input ← encoder_input data w h;
  let '(r, enc) := v_encode (t_encode t) input (Z.of_nat (align_to_16 (Z.to_nat w))) (Z.of_nat (align_to_16 (Z.to_nat h))) timestamp (p_encoder p) in
  let after sent := mkPipeline (p_detector p) (p_fps p) (fps_enabled p) (p_governor p) enc (force_first_frame p)
    (frames_dropped p) (frames_skipped_damage p) sent in
  let unsent := after (egfx_frames_sent p) in
  match r with
  | Panic => Panic
  | Err e => drop_frame (EncoderFailed e) unsent
  | Ok None => drop_frame EncoderSkipped unsent
  | Ok (Some (main, aux)) =>
      let e := envelope w h timestamp in
      if sender_check e main && delivered e regions main aux then Ok (Sent regions main aux, after (wrap 64 (egfx_frames_sent p + 1))) else drop_frame (SendFailed regions main aux) unsent
  end.

(** [display_handler.rs:2531-2877 start_pipeline] *)
Definition process_frame (data : list Z) (w h timestamp : Z) (delivered : delivery) (p : Pipeline E) : outcome Empty_set (verdict * Pipeline E) :=
  if Z.of_nat (length data) <? wrap 32 (wrap 32 (w * h) * 4) then drop_frame TooSmall p
  else
    planned ← plan_regions data w h p;
    let '(regions, p) := planned in
    let '(decision, p) := schedule (damage_ratio regions w h) p in
    match decision with
    | Skip => drop_frame (HeldBack Skip) p
    | WaitForMore => Ok (HeldBack WaitForMore, p)
    | _ =>
        match regions, decision with
        | [], EncodeNow =>
            Ok (NoDamage, mkPipeline (p_detector p) (p_fps p) (fps_enabled p) (p_governor p) (p_encoder p) (force_first_frame p)
                            (frames_dropped p) (wrap 64 (frames_skipped_damage p + 1)) (egfx_frames_sent p))
        | [], _ => encode_and_send data w h timestamp delivered [full_frame w h] p
        | _, _ => encode_and_send data w h timestamp delivered regions p
        end
    end.
End pipeline.

(** ** What is sent *)

(** The regions that one turn plans: everything, or what the detector reports. *)
Lemma plan_regions_inv {E} `{Video E} t data w h (p p1 : Pipeline E) rs : plan_regions t data w h p = Ok (rs, p1) ->
  ((v_idr_due (t_idr t) (p_encoder p) || force_first_frame p = true \/ p_detector p = None) /\ rs = [full_frame w h] /\ p_detector p1 = p_detector p) \/
  (v_idr_due (t_idr t) (p_encoder p) || force_first_frame p = false /\
   exists d d', p_detector p = Some d /\ detect (t_detection t) data w h d = Ok (d', rs) /\ p_detector p1 = Some d').
Proof.
  unfold plan_regions. destruct (v_idr_due _ _ || _); [by intros [= <- <-]; left; auto|]. destruct (p_detector p) as [d|] eqn:Ed.
  - destruct (detect (t_detection t) data w h d) as [[d' r]| |] eqn:E1; [|done..]. cbn. intros [= <- <-]. right. split; [done|]. by exists d, d'.
  - intros [= <- <-]. left. auto.
Qed.

Lemma encode_and_send_regions {E} `{Video E} t data w h ts dl rs (p p' : Pipeline E) v : encode_and_send t data w h ts dl rs p = Ok (v, p') ->
  match v with Sent rs' _ _ => rs' = rs | TooSmall | HeldBack _ | NoDamage => False | _ => True end.
Proof.
  unfold encode_and_send. destruct (encoder_input data w h) as [input| |]; [|done..]. cbn [mbind outcome_bind].
  destruct (v_encode _ _ _ _ _ _) as [[[[main aux]|]| |] enc]; try done; unfold drop_frame; [destruct (_ && _)|..]; by intros [= <- <-].
Qed.

Lemma process_frame_sent {E} `{Video E} t data w h ts dl (p p' : Pipeline E) rs main aux :
  process_frame t data w h ts dl p = Ok (Sent rs main aux, p') ->
  exists planned p1, plan_regions t data w h p = Ok (planned, p1) /\ rs = match planned with [] => [full_frame w h] | _ => planned end.
Proof.
  unfold process_frame. destruct (_ <? _); [done|]. destruct (plan_regions t data w h p) as [[planned p1]| |]; [|done..]. cbn [mbind outcome_bind].
  destruct (schedule t (damage_ratio planned w h) p1) as [d p2]. intros Hs. exists planned, p1. split; [done|].
  destruct d; try done; (destruct planned as [|r planned]; [|apply encode_and_send_regions in Hs; exact Hs]); try done;
    by apply encode_and_send_regions in Hs.
Qed.

(** Only what the channel accepts counts as sent. *)
Lemma process_frame_delivered {E} `{Video E} t data w h ts (dl : delivery) (p p' : Pipeline E) rs main aux :
  process_frame t data w h ts dl p = Ok (Sent rs main aux, p') -> sender_check (envelope w h ts) main = true /\ dl (envelope w h ts) rs main aux = true.
Proof.
  assert (forall rs0 p1, encode_and_send t data w h ts dl rs0 p1 = Ok (Sent rs main aux, p') ->
    sender_check (envelope w h ts) main = true /\ dl (envelope w h ts) rs main aux = true) as He.
  { intros rs0 p1. unfold encode_and_send. destruct (encoder_input data w h); [|done..]. cbn [mbind outcome_bind].
    destruct (v_encode _ _ _ _ _ _) as [[[[m x]|]| |] enc]; try done. destruct (_ && _) eqn:D; [|done]. apply andb_true_iff in D as [D1 D2]. by intros [= -> -> -> _]. }
  unfold process_frame. destruct (_ <? _); [done|]. destruct (plan_regions t data w h p) as [[planned p1]| |]; [|done..]. cbn [mbind outcome_bind].
  destruct (schedule t (damage_ratio planned w h) p1) as [d p2]. destruct d, planned; try done; apply He.
Qed.

Lemma full_frame_covers w h x y : w <= u32_max -> h <= u32_max -> 0 <= x < w -> 0 <= y < h -> contains (full_frame w h) x y = true.
Proof. intros. unfold contains, right_edge, bottom_edge, sat_add, full_frame, u32_max in *. cbn. lia. Qed.
Lemma full_frame_inside w h : 0 <= w -> 0 <= h -> inside w h (full_frame w h).
Proof. intros. unfold inside, region_ok, full_frame. cbn. lia. Qed.

(** C35. The regions sent with a frame are an exact account of it, with any encoder
    and from any state: they are never empty and lie in the picture; they cover
    the whole picture whenever the detector was bypassed or could not compare;
    and otherwise, of the tiles that differ beyond the thresholds from the frame
    the detector saw last, merged as the detector merges them, precisely the
    merged regions that reach the configured minimum are sent, or the whole
    picture when none does and the frame is sent all the same.  In particular a
    differing tile that reaches the minimum by itself is always sent whole. *)
Theorem sent_regions_cover {E} `{Video E} t data w h ts dl (p p' : Pipeline E) rs main aux :
  0 <= w <= u32_max -> 0 <= h <= u32_max ->
  (forall d, p_detector p = Some d -> reachable d /\ 0 < tile_size (Damage.config d) < 2 ^ 32) ->
  process_frame t data w h ts dl p = Ok (Sent rs main aux, p') ->
  rs <> [] /\ Forall (inside w h) rs /\
  (forall x y, 0 <= x < w -> 0 <= y < h ->
    (v_idr_due (t_idr t) (p_encoder p) || force_first_frame p = true -> covered rs x y) /\
    (p_detector p = None -> covered rs x y) /\
    (forall d, p_detector p = Some d -> comparable d w h = false -> covered rs x y)) /\
  (v_idr_due (t_idr t) (p_encoder p) || force_first_frame p = false ->
   forall d prev, p_detector p = Some d -> previous_frame d = Some prev -> comparable d w h = true ->
    (exists planned, reported (Damage.config d) prev data w h planned /\ rs = match planned with [] => [full_frame w h] | _ => planned end) /\
    (forall tile, tile ∈ changed_tiles (Damage.config d) prev data w h -> min_region_area (Damage.config d) <= area tile -> exists r, r ∈ rs /\ within tile r)).
Proof.
  intros Hw Hh Hd Hs. destruct (process_frame_sent _ _ _ _ _ _ _ _ _ _ _ Hs) as (planned & p1 & Hp & ->).
  assert (forall x y, 0 <= x < w -> 0 <= y < h -> covered [full_frame w h] x y) as Hfull.
  { intros x y Hx Hy. exists (full_frame w h). split; [set_solver|]. apply full_frame_covers; lia. }
  assert (Forall (inside w h) [full_frame w h]) as Hone by (constructor; [apply full_frame_inside; lia|constructor]).
  apply plan_regions_inv in Hp as [(Hwhy & -> & _)|(Hforce & d & d' & Ed & Hdet & _)].
  - split; [done|]. split; [done|]. split; [intros x y Hx Hy; specialize (Hfull x y Hx Hy); split; [done|]; by split|].
    intros Hf d prev Ed. destruct Hwhy as [Hwhy|Hwhy]; congruence.
  - destruct (Hd d Ed) as [Hr Hts]. destruct (detect_covers d _ data w h d' planned Hr Hw Hh Hts Hdet) as (Hin & _ & Hfl & Hc). rewrite Hforce, Ed.
    split; [by destruct planned|]. split; [by destruct planned|]. split.
    + intros x y Hx Hy. split; [done|]. split; [done|]. intros d2 [= <-] Hcmp. rewrite (Hfl Hcmp). by apply Hfull.
    + intros _ d2 prev [= <-] Hprev Hcmp. specialize (Hc prev Hcmp Hprev). split; [by exists planned|].
      intros tile Ht A. destruct (reported_tile _ _ _ _ _ _ _ Hw Hh Hc Ht A) as (r & Hr2 & Wi). destruct planned; [set_solver|]. by exists r.
Qed.

(** ** Nothing panics *)

Lemma policy_bounds c w h fixed g : validate_geometry_policy c (w, h) fixed = Ok g -> w <> 0 /\ h <> 0 /\ w * h <= MAX_DESKTOP_AREA.
Proof.
  unfold validate_geometry_policy. destruct (Z.eqb_spec w 0); [done|]. destruct (Z.eqb_spec h 0); [done|]. cbn [orb].
  destruct (Z.ltb_spec MAX_DESKTOP_AREA (w * h)); [done|]. done.
Qed.

Lemma aligned_size w h : 0 < w <= u16_max -> 0 < h <= u16_max -> w * h <= MAX_DESKTOP_AREA ->
  Z.of_nat (align_to_16 (Z.to_nat w)) * Z.of_nat (align_to_16 (Z.to_nat h)) * 4 < 2 ^ 32.
Proof.
  intros Hw Hh Ha. pose proof (align_to_16_spec (Z.to_nat w)) as [_ Bw]. pose proof (align_to_16_spec (Z.to_nat h)) as [_ Bh].
  unfold MAX_DESKTOP_AREA, u16_max in *. set (aw := Z.of_nat (align_to_16 (Z.to_nat w))). set (ah := Z.of_nat (align_to_16 (Z.to_nat h))).
  assert (w <= aw <= w + 15) by lia. assert (h <= ah <= h + 15) by lia. nia.
Qed.

Lemma encoder_input_ok data w h : 0 < w -> 0 < h -> all_bytes data -> Z.of_nat (length data) = w * h * 4 ->
  exists input, encoder_input data w h = Ok input /\ all_bytes input /\
    length input = (align_to_16 (Z.to_nat w) * align_to_16 (Z.to_nat h) * 4)%nat.
Proof.
  intros Hw Hh Hb Hl. unfold encoder_input. pose proof (align_to_16_spec (Z.to_nat w)) as [_ Bw]. pose proof (align_to_16_spec (Z.to_nat h)) as [_ Bh].
  destruct (pad_frame_ok data (Z.to_nat w) (Z.to_nat h) (align_to_16 (Z.to_nat w)) (align_to_16 (Z.to_nat h)) ltac:(lia) ltac:(lia) ltac:(lia)) as (q & Hq & Lq & Pq).
  destruct (Nat.eqb_spec (align_to_16 (Z.to_nat w)) (Z.to_nat w)) as [Ew|]; cbn [negb orb].
  - destruct (Nat.eqb_spec (align_to_16 (Z.to_nat h)) (Z.to_nat h)) as [Eh|]; cbn [negb].
    + exists data. split; [done|]. split; [done|]. lia.
    + exists q. split; [done|]. split; [|done]. by eapply padded_bytes.
  - exists q. split; [done|]. split; [|done]. by eapply padded_bytes.
Qed.

Lemma aligned_even v : Z.odd (Z.of_nat (align_to_16 v)) = false.
Proof. destruct (align_to_16_spec v) as [H _]. unfold align_to_16 in *. rewrite Nat2Z.inj_mul, Z.odd_mul. apply andb_false_r. Qed.

(** Up to 65520 pixels a side the sizes survive the cut to 16 bits and pass the
    sender's check; above, the encoded size is cut to zero. *)
Lemma align_small v : 0 < v -> v <= 65520 -> wrap 16 (Z.of_nat (align_to_16 (Z.to_nat v))) = Z.of_nat (align_to_16 (Z.to_nat v)) /\
  v <= Z.of_nat (align_to_16 (Z.to_nat v)).
Proof.
  intros H0 H1. pose proof (align_to_16_spec (Z.to_nat v)) as [M B]. split; [|lia]. apply wrap_small.
  assert (Z.of_nat (align_to_16 (Z.to_nat v)) mod 16 = 0) as M' by (change 16 with (Z.of_nat 16); rewrite <-Nat2Z.inj_mod; by rewrite M).
  split; [lia|]. change (2 ^ 16) with 65536. Z.div_mod_to_equations. lia.
Qed.
Lemma align_multiple v : Z.of_nat (align_to_16 v) mod 16 = 0.
Proof. destruct (align_to_16_spec v) as [M _]. change 16 with (Z.of_nat 16). rewrite <-Nat2Z.inj_mod. by rewrite M. Qed.
Lemma sender_check_ok w h ts main : 0 < w -> w <= 65520 -> 0 < h -> h <= 65520 -> main <> [] -> sender_check (envelope w h ts) main = true.
Proof.
  intros Hw Hw' Hh Hh' Hm. unfold sender_check, envelope, validate_frame. cbn -[wrap align_to_16]. destruct (align_small w Hw Hw') as [-> Lw].
  destruct (align_small h Hh Hh') as [-> Lh]. rewrite !(wrap_small 16) by lia. rewrite !align_multiple, bool_decide_false by done. cbn [orb negb].
  rewrite !(proj2 (Z.eqb_neq _ _)) by lia. rewrite !(proj2 (Z.ltb_ge _ _)) by lia. done.
Qed.
Lemma widest_frames_refused w h ts main : 65520 < w <= u16_max -> sender_check (envelope w h ts) main = false.
Proof.
  intros Hw. assert (Z.of_nat (align_to_16 (Z.to_nat w)) = 65536) as E.
  { pose proof (align_multiple (Z.to_nat w)). pose proof (align_to_16_spec (Z.to_nat w)) as [_ B]. unfold u16_max in *. Z.div_mod_to_equations. lia. }
  unfold sender_check, envelope, validate_frame. cbn -[wrap align_to_16]. rewrite E. change (wrap 16 65536) with 0. cbn [Z.eqb]. by rewrite orb_true_r.
Qed.

(** C34. No accepted frame is refused or panics on its way to the client through
    the AVC444 encoder: for every geometry the policy accepts and every frame of
    exactly that size, whatever the damage history, the governor and the state
    of the encoder and its library, one turn of the pipeline ends with a
    verdict, never for its size; an encoder error comes from the library; and a
    frame that is encoded but not sent was refused by the channel behind the
    sender, not by the sender's check of the sizes, unless its stream is empty
    or a side is longer than 65520 pixels, which the cut to 16 bits does not
    survive. *)
Theorem accepted_frames_processed {C} `{Codec C} cpu c fixed w h data t ts dl (p : Pipeline (Avc444Encoder (logged C))) :
  validate_geometry_policy c (w, h) fixed = Ok (w, h) -> 0 <= w <= u16_max -> 0 <= h <= u16_max ->
  all_bytes data -> Z.of_nat (length data) = w * h * 4 -> monotone (t_encode t) ->
  (forall d, p_detector p = Some d -> reachable d /\ tile_size (Damage.config d) <> 0 /\ 0 <= pixel_threshold (Damage.config d)) ->
  exists v p', process_frame (H := avc444_video cpu) t data w h ts dl p = Ok (v, p') /\ v <> TooSmall /\
    (forall e, v = EncoderFailed e -> exists reason, e = EncodeFailed reason) /\
    (forall rs main aux, v = SendFailed rs main aux -> main = [] \/ 65520 < w \/ 65520 < h \/ dl (envelope w h ts) rs main aux = false).
Proof.
  intros Hp Hw Hh Hb Hl Ht Hd. destruct (policy_bounds c w h fixed _ Hp) as (W0 & H0 & Ha). unfold MAX_DESKTOP_AREA in Ha.
  assert (w * h * 4 < 2 ^ 32) as Hsz by (unfold u16_max in *; lia). unfold process_frame.
  rewrite (wrap_small 32 (w * h)), wrap_small, (proj2 (Z.ltb_ge _ _)) by nia.
  assert (exists planned p1, plan_regions (H := avc444_video cpu) t data w h p = Ok (planned, p1)) as (planned & p1 & ->).
  { unfold plan_regions. destruct (v_idr_due _ _ || _); [by eexists _, _|]. destruct (p_detector p) as [d|] eqn:Ed; [|by eexists _, _].
    destruct (Hd d eq_refl) as (Hr & Hts & Hpt). destruct (detect_total d (t_detection t) data w h Hr) as (d' & rs & -> & _);
      [unfold u16_max, u32_max in *; lia..|done|done|lia|]. by eexists _, _. }
  cbn [mbind outcome_bind]. destruct (schedule t (damage_ratio planned w h) p1) as [dec p2].
  assert (forall rs, exists v p', encode_and_send (H := avc444_video cpu) t data w h ts dl rs p2 = Ok (v, p') /\ v <> TooSmall /\
    (forall e, v = EncoderFailed e -> exists reason, e = EncodeFailed reason) /\
    (forall rs main aux, v = SendFailed rs main aux -> main = [] \/ 65520 < w \/ 65520 < h \/ dl (envelope w h ts) rs main aux = false)) as Henc.
  { intros rs. unfold encode_and_send. destruct (encoder_input_ok data w h ltac:(lia) ltac:(lia) Hb Hl) as (input & -> & Bi & Li). cbn [mbind outcome_bind].
    set (aw := Z.of_nat (align_to_16 (Z.to_nat w))). set (ah := Z.of_nat (align_to_16 (Z.to_nat h))).
    pose proof (input_cases cpu (t_encode t) input aw ah ts (p_encoder p2) Ht Bi ltac:(lia) ltac:(lia) ltac:(apply aligned_size; unfold MAX_DESKTOP_AREA; lia)) as Hi.
    cbv zeta in Hi. unfold aw, ah in Hi. rewrite !aligned_even in Hi. fold aw ah in Hi.
    pose proof (align_to_16_spec (Z.to_nat w)) as [_ Bw]. pose proof (align_to_16_spec (Z.to_nat h)) as [_ Bh].
    rewrite !(proj2 (Z.eqb_neq _ _)) in Hi by lia. cbn [orb] in Hi. rewrite (proj2 (Z.compare_eq_iff _ _)) in Hi by lia.
    destruct Hi as (m & a & _ & He & Hnp). cbn [v_encode avc444_video].
    pose proof (encode_views_spec (t_encode t) m a ts (p_encoder p2)) as (sg & _ & Hsp). rewrite <- He in Hsp.
    destruct (encode_bgra cpu (t_encode t) input aw ah ts (p_encoder p2)) as [r enc]. cbn [fst snd] in *.
    destruct r as [[fr|]|e|]; cbn -[envelope sender_check]; unfold drop_frame; [|eexists _, _; by split_and!| |done].
    - destruct (_ && _) eqn:D; eexists _, _; (split; [reflexivity|]); (split; [done|]); (split; [done|]); [done|]. intros rs0 main aux [= <- <- <-].
      apply andb_false_iff in D as [D|D]; [|auto]. destruct (decide (stream1_data fr = [])); [by left|]. destruct (Z.le_gt_cases w 65520); [|auto].
      destruct (Z.le_gt_cases h 65520); [|auto]. by rewrite sender_check_ok in D by (done || unfold u16_max in *; lia).
    - eexists _, _. split; [reflexivity|]. split; [done|]. split; [|done]. intros e' [= <-]. inversion Hsp; subst; by eexists. }
  destruct dec, planned as [|r planned]; first [by apply Henc|by eexists _, _].
Qed.

(** A running pipeline over the small library of Avc444Run.v. *)
Definition small_pipeline (mode : LatencyMode) (detector : option DamageDetector) : Pipeline (Avc444Encoder (logged toy)) :=
  mkPipeline detector (fps_new 0 fps_config_default) false (governor_new 0 mode) (toy_state []) true 0 0 0.
Definition times (n : Z) : Times := mkTimes (ms n) 0 (ms n) (ms n) (at_ms n).
Definition one_pixel_tiles : DamageConfig := mkDamageConfig 1 fzero 4 0 0.
#[local] Instance toy_video : Video (Avc444Encoder (logged toy)) := avc444_video NoSimd.

Lemma accepted_frames_processed_witness : exists v p',
  process_frame (times 0) (replicate 8 7) 2 1 0 accepting (small_pipeline Interactive (Some (detector_new one_pixel_tiles))) = Ok (v, p') /\ v <> TooSmall.
Proof.
  destruct (accepted_frames_processed NoSimd (mkDisplay true []) None 2 1 (replicate 8 7) (times 0) 0 accepting
    (small_pipeline Interactive (Some (detector_new one_pixel_tiles)))) as (v & p' & Hv & Hn & _).
  - done.
  - by split.
  - by split.
  - by repeat constructor.
  - done.
  - unfold monotone. cbn. lia.
  - intros d [= <-]. split; [constructor|]. by split.
  - exists v, p'. split; [exact Hv|exact Hn].
Defined.

(** Frames of 64 pixels: the first all black, then one pixel changes per frame. *)
Definition row (bytes : list (nat * Z)) : list Z := foldr (fun '(i, b) l => <[(4 * i)%nat := b]> l) (replicate 256 0) bytes.
Definition play (mode : LatencyMode) : list verdict :=
  let p0 := small_pipeline mode (Some (detector_new one_pixel_tiles)) in
  let next st n data :=
    match st with
    | Ok (vs, p) => match process_frame (times n) data 64 1 n accepting p with Ok (v, p) => @Ok Empty_set _ (vs ++ [v], p) | _ => Panic end
    | _ => Panic
    end in
  match fold_left (fun st '(n, data) => next st n data)
    [(0, row []); (1, row []); (2, row [(3%nat, 9)]); (3, row [(3%nat, 9); (40%nat, 9)])] (Ok ([], p0)) with
  | Ok (vs, _) => vs
  | _ => []
  end.
Definition regions_of (v : verdict) : option (list DamageRegion) := match v with Sent rs _ _ => Some rs | _ => None end.

(** In the interactive mode every change is sent at once. *)
Lemma interactive_sends_all : map regions_of (play Interactive) = [Some [full_frame 64 1]; Some [full_frame 64 1]; Some [mkRegion 3 0 1 1]; Some [mkRegion 40 0 1 1]].
Proof. by vm_compute. Qed.

(** Where the governor holds a frame back, its regions are forgotten: pixel 3
    changed in the third frame, which was skipped, and the fourth, sent for the
    damage of both, names pixel 40 only. *)
Lemma held_back_regions_are_lost : map regions_of (play Balanced) = [Some [full_frame 64 1]; Some [full_frame 64 1]; None; Some [mkRegion 40 0 1 1]].
Proof. by vm_compute. Qed.

Lemma sent_regions_cover_witness : exists rs main aux p',
  process_frame (times 0) (replicate 8 7) 2 1 0 accepting (small_pipeline Interactive (Some (detector_new one_pixel_tiles))) = Ok (Sent rs main aux, p') /\ rs <> [].
Proof.
  assert (match process_frame (times 0) (replicate 8 7) 2 1 0 accepting (small_pipeline Interactive (Some (detector_new one_pixel_tiles))) with
          | Ok (Sent _ _ _, _) => true | _ => false end = true) as Hok by (vm_compute; reflexivity).
  destruct (process_frame (times 0) (replicate 8 7) 2 1 0 accepting (small_pipeline Interactive (Some (detector_new one_pixel_tiles))))
    as [[v p']| |] eqn:E; [|discriminate..]. destruct v as [| | | | | |rs main aux]; try discriminate.
  exists rs, main, aux, p'. split; [reflexivity|].
  assert (0 <= 2 <= u32_max /\ 0 <= 1 <= u32_max) as [H2 H1] by (unfold u32_max; lia).
  refine (proj1 (sent_regions_cover (times 0) (replicate 8 7) 2 1 0 accepting _ p' rs main aux H2 H1 _ E)).
  intros d [= <-]. split; [constructor|]. by split.
Defined.

(** A buffer with one byte more than its picture passes the size check and panics
    in the detector. *)
Lemma oversized_frame_panics :
  match process_frame (times 0) (replicate 256 0) 64 1 0 accepting (small_pipeline Interactive (Some (detector_new one_pixel_tiles))) with
  | Ok (_, p) => match process_frame (times 1) (replicate 257 0) 64 1 0 accepting p with Panic => true | _ => false end
  | _ => false
  end = true.
Proof. by vm_compute. Qed.
