(* ===== verification/Resize.v ===== *)
(** * Client-initiated resizes

    Models [ResizeCoordinator] of src/src/rdp/server/display_handler.rs and the
    pipeline steps that drive it.  Instants and durations are nanoseconds.
    The compositor and the capture are the environment: its mode commands succeed
    or fail, frames arrive with the geometry it has realized. *)
From S2P Require Import Prelude Text.

(** ** The coordinator *)

(** [display_handler.rs:115-118 ResizeRequest] *)
Record ResizeRequest := mkRequest { width : Z; height : Z }.
#[export] Instance ResizeRequest_eq_dec : EqDecision ResizeRequest.
Proof. solve_decision. Defined.

(** [display_handler.rs:121-135 ResizeCoordinator] *)
Record ResizeCoordinator := mkCoordinator {
  pending : option ResizeRequest;
  in_flight : option ResizeRequest;
  committing : option ResizeRequest;
  applied : ResizeRequest;
  retry_not_before : option Z;
  realization_deadline : option Z;
}.

(** [display_handler.rs:139-139 REACTIVATION_GUARD] *)
Definition REACTIVATION_GUARD : Z := secs 2.
(** [display_handler.rs:140-140 RETRY_DELAY] *)
Definition RETRY_DELAY : Z := ms 250.
(** [display_handler.rs:141-141 REALIZATION_TIMEOUT] *)
Definition REALIZATION_TIMEOUT : Z := secs 2.

(** [display_handler.rs:143-152 new] *)
Definition coordinator_new (w h : Z) : ResizeCoordinator := mkCoordinator None None None (mkRequest w h) None None.

Definition with_pending (p : option ResizeRequest) (s : ResizeCoordinator) : ResizeCoordinator :=
  mkCoordinator p (in_flight s) (committing s) (applied s) (retry_not_before s) (realization_deadline s).
Definition with_flight (f : option ResizeRequest) (deadline : option Z) (s : ResizeCoordinator) : ResizeCoordinator :=
  mkCoordinator (pending s) f (committing s) (applied s) (retry_not_before s) deadline.
Definition with_commit (c : option ResizeRequest) (s : ResizeCoordinator) : ResizeCoordinator :=
  mkCoordinator (pending s) (in_flight s) c (applied s) (retry_not_before s) (realization_deadline s).
Definition with_retry (t : option Z) (s : ResizeCoordinator) : ResizeCoordinator :=
  mkCoordinator (pending s) (in_flight s) (committing s) (applied s) t (realization_deadline s).

(** [display_handler.rs:154-170 request] *)
Definition request (r : ResizeRequest) (s : ResizeCoordinator) : ResizeCoordinator :=
  if bool_decide (in_flight s = Some r) || bool_decide (committing s = Some r) then with_pending None s
  else if bool_decide (in_flight s = None) && bool_decide (applied s = r) then with_pending None s
  else with_pending (Some r) s.

(** [display_handler.rs:172-196 take_ready] *)
Definition take_ready (now : Z) (s : ResizeCoordinator) : option ResizeRequest * ResizeCoordinator :=
  let go s :=
    if match retry_not_before s with Some deadline => now <? deadline | None => false end then (None, s)
    else match pending s with
         | None => (None, s)
         | Some r =>
             let s := with_pending None s in
             if bool_decide (r = applied s) then (None, s) else (Some r, with_flight (Some r) None s)
         end in
  match committing s, in_flight s, pending s with
  | Some _, _, _ => (None, s)
  | None, Some _, None => (None, s)
  | None, Some _, Some _ => go (with_flight None None s)
  | None, None, _ => go s
  end.

(** [display_handler.rs:200-206 mark_command_succeeded] *)
Definition mark_command_succeeded (r : ResizeRequest) (now : Z) (s : ResizeCoordinator) : bool * ResizeCoordinator :=
  if negb (bool_decide (in_flight s = Some r)) || bool_decide (is_Some (pending s)) then (false, s)
  else (true, with_flight (in_flight s) (Some (now + REALIZATION_TIMEOUT)) s).

(** [display_handler.rs:210-224 mark_failed] *)
Definition mark_failed (r : ResizeRequest) (now : Z) (s : ResizeCoordinator) : bool * ResizeCoordinator :=
  if negb (bool_decide (in_flight s = Some r)) then (false, s)
  else
    let s := with_flight None None s in
    if bool_decide (is_Some (pending s)) then (false, s)
    else (true, with_retry (Some (now + RETRY_DELAY)) (with_pending (Some r) s)).

(** [display_handler.rs:226-237 expire_realization] *)
Definition expire_realization (now : Z) (s : ResizeCoordinator) : option ResizeRequest * ResizeCoordinator :=
  match in_flight s with
  | None => (None, s)
  | Some r =>
      if match realization_deadline s with Some deadline => deadline <=? now | None => false end
      then (Some r, (mark_failed r now s).2)
      else (None, s)
  end.

(** [display_handler.rs:239-256 matches_realized_frame] *)
Definition matches_realized_frame (w h now : Z) (s : ResizeCoordinator) : option ResizeRequest :=
  match in_flight s with
  | None => None
  | Some r =>
      if bool_decide (pending s = None) && match realization_deadline s with Some deadline => now <=? deadline | None => false end
         && ((w =? width r) && (h =? height r))
      then Some r else None
  end.

(** [display_handler.rs:261-271 begin_commit] *)
Definition begin_commit (r : ResizeRequest) (now : Z) (s : ResizeCoordinator) : bool * ResizeCoordinator :=
  if bool_decide (matches_realized_frame (width r) (height r) now s = Some r)
  then (true, with_commit (Some r) (with_flight None None s))
  else (false, s).

(** [display_handler.rs:273-284 mark_commit_failed] *)
Definition mark_commit_failed (r : ResizeRequest) (now : Z) (s : ResizeCoordinator) : bool * ResizeCoordinator :=
  if negb (bool_decide (committing s = Some r)) then (false, s)
  else
    let s := with_commit None s in
    if bool_decide (is_Some (pending s)) then (false, s)
    else (true, with_retry (Some (now + RETRY_DELAY)) (with_pending (Some r) s)).

(** [display_handler.rs:286-294 mark_applied] *)
Definition mark_applied (r : ResizeRequest) (now : Z) (s : ResizeCoordinator) : bool * ResizeCoordinator :=
  if negb (bool_decide (committing s = Some r)) then (false, s)
  else (true, mkCoordinator (pending s) (in_flight s) None r (Some (now + REACTIVATION_GUARD)) (realization_deadline s)).

(** ** The coordinator in its pipeline *)

(** Where the pipeline stands: it holds the coordinator's lock only for single
    operations, so client requests may come between any two of them. *)
Inductive phase := Idle | Commanding (r : ResizeRequest) | Realized (r : ResizeRequest) | Committing (r : ResizeRequest).

(** [size] is the desktop geometry advertised to the client; [mode] is the
    geometry of the last mode command the compositor accepted. *)
Record system := mkSystem { coordinator : ResizeCoordinator; at_phase : phase; size : ResizeRequest; mode : ResizeRequest }.

(** [display_handler.rs:3230-3235 request_layout] is [Request];
    the pipeline's turns are [Tick] (expiry, then the next command), the
    command's result, a captured frame, and the commit in two parts. *)
Inductive label :=
| Request (r : ResizeRequest)
| Tick (now : Z)
| CommandOk (now : Z) | CommandFailed (now : Z)
| Frame (w h now : Z)
| Begin (now : Z)
| Commit (now : Z) | CommitFailed (now : Z).

(** [display_handler.rs:1572-1591 start_pipeline] *)
Definition tick (now : Z) (s : system) : system :=
  let '(_, c) := expire_realization now (coordinator s) in
  let '(latest, c) := take_ready now c in
  mkSystem c (match latest with Some r => Commanding r | None => Idle end) (size s) (mode s).

(** The results of the command and the commit of a captured frame.
    [display_handler.rs:1594-1811 start_pipeline] *)
Definition step (l : label) (s : system) : option system :=
  let c := coordinator s in
  match l, at_phase s with
  | Request r, p => Some (mkSystem (request r c) p (size s) (mode s))
  | Tick now, Idle => Some (tick now s)
  | CommandOk now, Commanding r => Some (mkSystem (mark_command_succeeded r now c).2 Idle (size s) r)
  | CommandFailed now, Commanding r => Some (mkSystem (mark_failed r now c).2 Idle (size s) (mode s))
  | Frame w h now, Idle =>
      Some (match matches_realized_frame w h now c with
            | Some r => mkSystem c (Realized r) (size s) (mode s)
            | None => s
            end)
  | Begin now, Realized r =>
      let '(started, c) := begin_commit r now c in
      Some (mkSystem c (if started then Committing r else Idle) (size s) (mode s))
  | Commit now, Committing r => Some (mkSystem (mark_applied r now c).2 Idle r (mode s))
  | CommitFailed now, Committing r => Some (mkSystem (mark_commit_failed r now c).2 Idle (size s) (mode s))
  | _, _ => None
  end.

Fixpoint steps (ls : list label) (s : system) : option system :=
  match ls with [] => Some s | l :: ls => step l s ≫= steps ls end.
Definition start (w h : Z) : system := mkSystem (coordinator_new w h) Idle (mkRequest w h) (mkRequest w h).

(** ** Invariant *)

Record consistent (s : system) : Prop := mkConsistent {
  con_applied : size s = applied (coordinator s);
  con_committing : forall r, committing (coordinator s) = Some r <-> at_phase s = Committing r;
  con_exclusive : committing (coordinator s) <> None -> in_flight (coordinator s) = None;
  con_commanding : forall r, at_phase s = Commanding r -> in_flight (coordinator s) = Some r /\ realization_deadline (coordinator s) = None;
  con_realized : forall r, at_phase s = Realized r -> in_flight (coordinator s) = Some r /\ is_Some (realization_deadline (coordinator s));
  con_deadline : is_Some (realization_deadline (coordinator s)) -> in_flight (coordinator s) = Some (mode s);
  con_mode : forall r, at_phase s = Committing r -> mode s = r;
}.

Lemma start_consistent w h : consistent (start w h).
Proof. split; cbn; done. Qed.

Lemma matches_inv w h now c r : matches_realized_frame w h now c = Some r ->
  in_flight c = Some r /\ pending c = None /\ (exists d, realization_deadline c = Some d /\ now <= d) /\ w = width r /\ h = height r.
Proof.
  unfold matches_realized_frame. destruct (in_flight c) as [r'|]; [|done]. case_match eqn:E; [|done]. intros [= <-].
  apply andb_prop in E as [[Hp Hd]%andb_prop [Hw Hh]%andb_prop]. apply bool_decide_eq_true in Hp.
  destruct (realization_deadline c) as [d|]; [|done]. split; [done|]. split; [done|]. split; [exists d; split; [done|lia]|lia].
Qed.

(** What an operation leaves of the transaction. *)
Lemma request_keeps r c : applied (request r c) = applied c /\ committing (request r c) = committing c /\
  in_flight (request r c) = in_flight c /\ realization_deadline (request r c) = realization_deadline c.
Proof. unfold request. by repeat case_match. Qed.

Lemma take_ready_spec now c : let '(o, c') := take_ready now c in
  applied c' = applied c /\ committing c' = committing c /\
  match o with
  | Some r => committing c = None /\ in_flight c' = Some r /\ realization_deadline c' = None /\ pending c = Some r /\ pending c' = None /\ r <> applied c
  | None => (in_flight c' = in_flight c /\ realization_deadline c' = realization_deadline c) \/ (in_flight c' = None /\ (in_flight c = None -> realization_deadline c' = realization_deadline c) /\ (is_Some (in_flight c) -> realization_deadline c' = None))
  end.
Proof.
  unfold take_ready. destruct c as [p f k a t d]; cbn. destruct k as [k|]; [naive_solver|].
  destruct f as [f|], p as [p|]; cbn; destruct (match t with Some deadline => now <? deadline | None => false end); cbn;
    try case_bool_decide; cbn; try naive_solver; intuition (try done; try congruence); right; naive_solver.
Qed.

Lemma mark_failed_spec r now c : let '(b, c') := mark_failed r now c in
  applied c' = applied c /\ committing c' = committing c /\
  (in_flight c = Some r -> in_flight c' = None /\ realization_deadline c' = None) /\ (in_flight c <> Some r -> c' = c).
Proof. unfold mark_failed. case_bool_decide as E; cbn; [|done]. case_bool_decide; cbn; done. Qed.

Lemma expire_spec now c : let '(o, c') := expire_realization now c in
  applied c' = applied c /\ committing c' = committing c /\
  (c' = c \/ in_flight c' = None /\ realization_deadline c' = None).
Proof.
  unfold expire_realization. destruct (in_flight c) as [r|] eqn:E; [|by auto]. destruct (match realization_deadline c with Some deadline => deadline <=? now | None => false end); [|by auto].
  pose proof (mark_failed_spec r now c) as Hm. destruct (mark_failed r now c) as [b c']. destruct Hm as (? & ? & Hm & _). cbn. split; [done|]. split; [done|]. right. by apply Hm.
Qed.

Lemma not_committing s : consistent s -> (forall r, at_phase s <> Committing r) -> committing (coordinator s) = None.
Proof. intros Hc Hp. destruct (committing (coordinator s)) as [r|] eqn:E; [|done]. by apply (con_committing s Hc) in E as ?%Hp. Qed.

Lemma tick_consistent now s : consistent s -> at_phase s = Idle -> consistent (tick now s).
Proof.
  intros Hc Hp. pose proof Hc as [C1 C2 C3 C4 C5 C6 C7]. unfold tick. pose proof (expire_spec now (coordinator s)) as He.
  destruct (expire_realization now (coordinator s)) as [o1 c1]. destruct He as (A1 & K1 & F1).
  pose proof (take_ready_spec now c1) as Ht. destruct (take_ready now c1) as [o2 c2]. destruct Ht as (A2 & K2 & F2).
  assert (committing c2 = None) as Hk by (rewrite K2, K1; apply not_committing; congruence).
  assert (is_Some (realization_deadline c1) -> in_flight c1 = Some (mode s)) as D1.
  { destruct F1 as [->|[_ F1]]; [done|]. rewrite F1. by intros []. }
  destruct o2 as [r|]; split; cbn [coordinator at_phase size mode]; rewrite ?Hk; try done; try congruence.
  - intros r' [= <-]. naive_solver.
  - destruct F2 as (_ & _ & F2 & _). rewrite F2. by intros [].
  - intros Hd. destruct F2 as [[F2 F3]|(F2 & F3 & F4)]; [rewrite F2; apply D1; congruence|].
    destruct (in_flight c1) eqn:E1; [rewrite F4 in Hd by done; by destruct Hd|]. rewrite F3 in Hd by done. apply D1 in Hd. congruence.
Qed.

Lemma step_consistent l s s' : consistent s -> step l s = Some s' -> consistent s'.
Proof.
  intros Hc Hs. pose proof Hc as [C1 C2 C3 C4 C5 C6 C7]. destruct l as [r|now|now|now|w h now|now|now|now]; cbn in Hs.
  - injection Hs as <-. destruct (request_keeps r (coordinator s)) as (A & K & F & D). split; cbn; rewrite ?A, ?K, ?F, ?D; auto.
  - destruct (at_phase s) eqn:Hp; try done. injection Hs as <-. by apply tick_consistent.
  - destruct (at_phase s) as [|r| |] eqn:Hp; try done. injection Hs as <-. destruct (C4 r eq_refl) as [F D].
    assert (committing (coordinator s) = None) as Hk by (apply not_committing; congruence).
    unfold mark_command_succeeded. rewrite F. destruct (_ || _); split; cbn; rewrite ?F, ?D, ?Hk; try done; naive_solver.
  - destruct (at_phase s) as [|r| |] eqn:Hp; try done. injection Hs as <-. destruct (C4 r eq_refl) as [F D].
    pose proof (mark_failed_spec r now (coordinator s)) as Hm. destruct (mark_failed r now (coordinator s)) as [b c']. destruct Hm as (A & K & M & _).
    specialize (M F) as [M1 M2]. cbn [snd]. assert (committing c' = None) as Hk by (rewrite K; apply not_committing; congruence).
    split; cbn; rewrite ?M1, ?M2, ?Hk; try done; try congruence.
  - destruct (at_phase s) eqn:Hp; try done. injection Hs as <-. destruct (matches_realized_frame w h now (coordinator s)) as [r|] eqn:E; [|done].
    apply matches_inv in E as (F & _ & (d & D & _) & _). split; cbn; try done.
    + intros r'. split; [|done]. intros E. apply C2 in E. congruence.
    + intros r' [= <-]. rewrite D. auto.
  - destruct (at_phase s) as [| |r|] eqn:Hp; try done. destruct (C5 r eq_refl) as [F D].
    assert (committing (coordinator s) = None) as Hk by (apply not_committing; congruence).
    unfold begin_commit in Hs. case_bool_decide as E; injection Hs as <-; split; cbn; rewrite ?Hk; try done; try naive_solver.
  - destruct (at_phase s) as [| | |r] eqn:Hp; try done. injection Hs as <-. assert (committing (coordinator s) = Some r) as Hk by by apply C2.
    assert (in_flight (coordinator s) = None) as F by (apply C3; congruence).
    unfold mark_applied. rewrite Hk, bool_decide_true by done. split; cbn; try done; intros Hd; apply C6 in Hd; congruence.
  - destruct (at_phase s) as [| | |r] eqn:Hp; try done. injection Hs as <-. assert (committing (coordinator s) = Some r) as Hk by by apply C2.
    assert (in_flight (coordinator s) = None) as F by (apply C3; congruence).
    unfold mark_commit_failed. rewrite Hk, bool_decide_true by done. cbn [negb]. case_bool_decide; split; cbn; try done; try (intros Hd; apply C6 in Hd; congruence).
Qed.

Lemma steps_app l1 l2 s : steps (l1 ++ l2) s = steps l1 s ≫= steps l2.
Proof. revert s. induction l1 as [|l l1 IH]; intros s; [done|]. cbn. destruct (step l s); cbn; [apply IH|done]. Qed.
Lemma reachable_consistent ls w h s : steps ls (start w h) = Some s -> consistent s.
Proof.
  revert s. induction ls as [|l ls IH] using rev_ind; intros s Hs; [injection Hs as <-; apply start_consistent|].
  rewrite steps_app in Hs. destruct (steps ls (start w h)) as [s1|] eqn:E; [|done]. cbn in Hs. destruct (step l s1) as [s2|] eqn:E2; [|done].
  injection Hs as <-. by eapply step_consistent; [apply IH|].
Qed.

(** ** What a commit rests on *)

Definition is_command (l : label) : bool := match l with CommandOk _ => true | _ => false end.
Definition no_command (ls : list label) : Prop := Forall (fun l => is_command l = false) ls.

(** The geometry was requested, then accepted by the compositor. *)
Definition commanded (ls : list label) (r : ResizeRequest) (t : Z) : Prop :=
  exists l1 l2, ls = l1 ++ CommandOk t :: l2 /\ no_command l2 /\ In (Request r) l1.
(** Then a frame of exactly that geometry was captured, at most two seconds after
    the command and before any other. *)
Definition realized (ls : list label) (r : ResizeRequest) : Prop :=
  exists l1 t l2 t1 l3, ls = l1 ++ CommandOk t :: l2 ++ Frame (width r) (height r) t1 :: l3 /\
    no_command l2 /\ no_command l3 /\ In (Request r) l1 /\ t1 <= t + REALIZATION_TIMEOUT.

Record justified (ls : list label) (s : system) : Prop := mkJustified {
  ju_pending : forall r, pending (coordinator s) = Some r -> In (Request r) ls;
  ju_flight : forall r, in_flight (coordinator s) = Some r -> In (Request r) ls;
  ju_deadline : forall r d, in_flight (coordinator s) = Some r -> realization_deadline (coordinator s) = Some d ->
    commanded ls r (d - REALIZATION_TIMEOUT);
  ju_phase : forall r, (at_phase s = Realized r \/ at_phase s = Committing r) -> realized ls r;
}.

Lemma commanded_later ls l r t : is_command l = false -> commanded ls r t -> commanded (ls ++ [l]) r t.
Proof.
  intros Hl (l1 & l2 & -> & H2 & Hr). exists l1, (l2 ++ [l]). split; [by rewrite <- app_assoc|]. split; [|done].
  apply Forall_app. by repeat constructor.
Qed.
Lemma realized_later ls l r : is_command l = false -> realized ls r -> realized (ls ++ [l]) r.
Proof.
  intros Hl (l1 & t & l2 & t1 & l3 & -> & H2 & H3 & Hr & Ht). exists l1, t, l2, t1, (l3 ++ [l]).
  split; [by rewrite <- !app_assoc; cbn; rewrite <- app_assoc|]. split; [done|]. split; [|done]. apply Forall_app. by repeat constructor.
Qed.

Lemma request_justified r c : match pending (request r c) with Some p => p = r \/ pending c = Some p | None => True end.
Proof. unfold request. repeat case_match; cbn; auto; simplify_eq/=; auto. Qed.
Lemma take_ready_pending now c : let '(o, c') := take_ready now c in
  (pending c' = None \/ pending c' = pending c) /\ match o with Some r => pending c = Some r | None => in_flight c' = in_flight c \/ in_flight c' = None end.
Proof.
  unfold take_ready. destruct c as [p f k a t d]; cbn. destruct k as [k|]; [auto|].
  destruct f as [f|], p as [p|]; cbn; destruct (match t with Some deadline => now <? deadline | None => false end); cbn; try case_bool_decide; cbn; auto.
Qed.
Lemma mark_failed_pending r now c : pending (mark_failed r now c).2 = pending c \/ (pending (mark_failed r now c).2 = Some r /\ in_flight c = Some r).
Proof. unfold mark_failed. case_bool_decide; cbn; [|auto]. case_bool_decide; cbn; auto. Qed.
Lemma expire_pending now c : (pending (expire_realization now c).2 = pending c \/ pending (expire_realization now c).2 = in_flight c) /\
  (in_flight (expire_realization now c).2 = in_flight c \/ in_flight (expire_realization now c).2 = None).
Proof.
  unfold expire_realization. destruct (in_flight c) as [r|] eqn:E; [|auto]. destruct (match realization_deadline c with Some d => d <=? now | None => false end); [|auto].
  cbn [snd]. split.
  - destruct (mark_failed_pending r now c) as [->|[-> _]]; auto.
  - pose proof (mark_failed_spec r now c) as Hm. destruct (mark_failed r now c). right. apply Hm. done.
Qed.

(** Keeping the justification when an operation keeps or clears the transaction. *)
Lemma justified_keep ls l s c' p' m' : justified ls s -> is_command l = false ->
  (forall r, pending c' = Some r -> In (Request r) (ls ++ [l])) ->
  (forall r, in_flight c' = Some r -> In (Request r) (ls ++ [l])) ->
  (forall r d, in_flight c' = Some r -> realization_deadline c' = Some d -> in_flight (coordinator s) = Some r /\ realization_deadline (coordinator s) = Some d) ->
  (forall r, p' = Realized r \/ p' = Committing r -> realized (ls ++ [l]) r) ->
  forall sz, justified (ls ++ [l]) (mkSystem c' p' sz m').
Proof.
  intros J Hl Hp Hf Hd Hph sz. split; cbn; [done..| |done]. intros r d Hf' Hd'. destruct (Hd r d Hf' Hd') as [Hf2 Hd2].
  apply commanded_later; [done|]. by apply (ju_deadline ls s).
Qed.

Lemma tick_justified ls now s : justified ls s -> consistent s -> at_phase s = Idle -> justified (ls ++ [Tick now]) (tick now s).
Proof.
  intros J Hc Hp. unfold tick. pose proof (expire_spec now (coordinator s)) as He. pose proof (expire_pending now (coordinator s)) as [Pe Fe].
  destruct (expire_realization now (coordinator s)) as [o1 c1]. destruct He as (_ & _ & E1). cbn [snd] in *.
  pose proof (take_ready_spec now c1) as Ht. pose proof (take_ready_pending now c1) as Tp. destruct (take_ready now c1) as [o2 c2].
  destruct Ht as (_ & _ & F2), Tp as [Tp1 Tp2]. pose proof (ju_pending ls s J) as Jp. pose proof (ju_flight ls s J) as Jf.
  assert (forall r, pending c1 = Some r -> In (Request r) ls) as J1 by (intros r Hr; destruct Pe as [Pe|Pe]; rewrite Pe in Hr; auto).
  apply justified_keep with (s := s); [done|done|..].
  - intros r Hr. apply in_or_app. left. apply J1. destruct Tp1; congruence.
  - intros r Hr. apply in_or_app. left. destruct o2 as [r2|].
    + destruct F2 as (_ & F2 & _). apply J1. congruence.
    + destruct Tp2 as [E|E]; rewrite E in Hr; [|done]. destruct Fe as [E2|E2]; rewrite E2 in Hr; [auto|done].
  - intros r d Hr Hd. destruct o2 as [r2|]; [destruct F2 as (_ & _ & F2 & _); congruence|].
    destruct F2 as [[F2 F3]|(F2 & _)]; [|congruence]. destruct E1 as [->|[E1 _]]; [split; congruence|congruence].
  - intros r [Hr|Hr]; by destruct o2.
Qed.

Lemma step_justified ls l s s' : justified ls s -> consistent s -> step l s = Some s' -> justified (ls ++ [l]) s'.
Proof.
  intros J Hc Hs. pose proof (ju_pending ls s J) as Jp. pose proof (ju_flight ls s J) as Jf. pose proof (ju_phase ls s J) as Jh.
  assert (forall r, In (Request r) ls -> In (Request r) (ls ++ [l])) as Jin by (intros; apply in_or_app; by left).
  destruct l as [r|now|now|now|w h now|now|now|now]; cbn in Hs.
  - injection Hs as <-. destruct (request_keeps r (coordinator s)) as (_ & _ & F & D). apply justified_keep with (s := s); [done|done|..].
    + intros r' Hr'. pose proof (request_justified r (coordinator s)) as Hq. rewrite Hr' in Hq. destruct Hq as [->|Hq]; [|auto].
      apply in_or_app. right. by left.
    + intros r' Hr'. rewrite F in Hr'. auto.
    + intros r' d. by rewrite F, D.
    + intros r' Hr'. apply realized_later; auto.
  - destruct (at_phase s) eqn:Hp; try done. injection Hs as <-. by apply tick_justified.
  - destruct (at_phase s) as [|r| |] eqn:Hp; try done. injection Hs as <-. destruct (con_commanding s Hc r Hp) as [F D].
    unfold mark_command_succeeded. destruct (_ || _); split; cbn; try (intros ? [|]; done); auto.
    + intros r' d _. congruence.
    + intros r' d Hr' [= <-]. exists ls, []. split; [do 3 f_equal; lia|]. split; [constructor|]. auto.
  - destruct (at_phase s) as [|r| |] eqn:Hp; try done. injection Hs as <-. destruct (con_commanding s Hc r Hp) as [F D].
    pose proof (mark_failed_spec r now (coordinator s)) as Hm. pose proof (mark_failed_pending r now (coordinator s)) as Hq.
    destruct (mark_failed r now (coordinator s)) as [b c']. destruct Hm as (_ & _ & M & _). destruct (M F) as [M1 M2]. cbn [snd] in *.
    apply justified_keep with (s := s); try done; rewrite ?M1, ?M2; try done.
    + intros r' Hr'. apply Jin. destruct Hq as [Hq|[Hq Hq2]]; [apply Jp|apply Jf]; congruence.
    + by intros r' [|].
  - destruct (at_phase s) eqn:Hp; try done. injection Hs as <-. destruct (matches_realized_frame w h now (coordinator s)) as [r|] eqn:E.
    + apply matches_inv in E as (F & _ & (d & D & Hd) & -> & ->). apply justified_keep with (s := s); auto.
      intros r' [[= <-]|]; [|done]. destruct (ju_deadline ls s J r d F D) as (l1 & l2 & -> & H2 & Hr).
      exists l1, (d - REALIZATION_TIMEOUT), l2, now, []. split; [by rewrite <- app_assoc|]. split; [done|]. split; [constructor|]. split; [done|lia].
    + destruct s as [c p sz m]. cbn in *. subst p. apply justified_keep with (s := mkSystem c Idle sz m); auto. by intros r' [|].
  - destruct (at_phase s) as [| |r|] eqn:Hp; try done. unfold begin_commit in Hs. case_bool_decide as E; injection Hs as <-;
      apply justified_keep with (s := s); auto; cbn; try done; try (by intros ? [|]).
    intros r' [|[= <-]]; [done|]. apply realized_later; auto.
  - destruct (at_phase s) as [| | |r] eqn:Hp; try done. injection Hs as <-. unfold mark_applied.
    destruct (negb _); apply justified_keep with (s := s); auto; cbn; auto; by intros ? [|].
  - destruct (at_phase s) as [| | |r] eqn:Hp; try done. injection Hs as <-. unfold mark_commit_failed.
    destruct (Jh r (or_intror eq_refl)) as (l1 & t & l2 & t1 & l3 & Els & _ & _ & Hr & _).
    case_bool_decide; cbn [negb]; [case_bool_decide|]; apply justified_keep with (s := s); auto; cbn; auto; try (by intros ? [|]).
    intros r' [= <-]. apply Jin. rewrite Els. apply in_or_app. by left.
Qed.

Lemma reachable_justified ls w h s : steps ls (start w h) = Some s -> justified ls s.
Proof.
  revert s. induction ls as [|l ls IH] using rev_ind; intros s Hs; [injection Hs as <-; split; cbn; try done; by intros r [|]|].
  rewrite steps_app in Hs. destruct (steps ls (start w h)) as [s1|] eqn:E; [|done]. cbn in Hs. destruct (step l s1) as [s2|] eqn:E2; [|done].
  injection Hs as <-. eapply step_justified; [by apply IH|by eapply reachable_consistent|done].
Qed.

(** C32. The desktop geometry advertised to the client changes only to a geometry
    that is real: in every interleaving of client requests, command results and
    captured frames, a step that changes it is a commit, to a geometry that the
    client requested, the compositor then accepted in its last successful mode
    command, and a captured frame then showed exactly, within two seconds of the
    command. *)
Theorem resize_commits_realized ls w h s l s' : steps ls (start w h) = Some s -> step l s = Some s' -> size s' <> size s ->
  (exists now, l = Commit now) /\ mode s' = size s' /\ applied (coordinator s') = size s' /\ realized ls (size s').
Proof.
  intros Hr Hs Hne. pose proof (reachable_consistent ls w h s Hr) as Hc. pose proof (reachable_justified ls w h s Hr) as J.
  destruct l as [r|now|now|now|fw fh now|now|now|now]; cbn in Hs; try (destruct (at_phase s) as [|r|r|r] eqn:Hp; try done).
  - by injection Hs as <-.
  - injection Hs as <-. unfold tick in Hne. by destruct (expire_realization _ _), (take_ready _ _).
  - by injection Hs as <-.
  - by injection Hs as <-.
  - injection Hs as <-. by destruct (matches_realized_frame _ _ _ _).
  - destruct (begin_commit _ _ _). by injection Hs as <-.
  - injection Hs as <-. cbn [size mode coordinator]. split; [by exists now|].
    split; [by apply (con_mode s Hc)|]. split; [|apply (ju_phase ls s J); by right].
    unfold mark_applied. assert (committing (coordinator s) = Some r) as -> by by apply (con_committing s Hc). by rewrite bool_decide_true.
  - by injection Hs as <-.
Qed.

Definition hd : ResizeRequest := mkRequest 1280 720.
Definition big : ResizeRequest := mkRequest 1920 1080.
Definition realize (r : ResizeRequest) : list label := [Tick 0; CommandOk 0; Frame (width r) (height r) 1; Begin 1].
Lemma resize_commits_realized_witness : exists s s', steps (Request hd :: realize hd) (start 800 600) = Some s /\ step (Commit 2) s = Some s' /\
  mode s' = hd /\ realized (Request hd :: realize hd) hd.
Proof.
  eexists _, _. split; [reflexivity|]. split; [reflexivity|].
  destruct (resize_commits_realized (Request hd :: realize hd) 800 600 _ (Commit 2) _ eq_refl eq_refl ltac:(discriminate)) as (_ & Hm & _ & Hr).
  split; [exact Hm|exact Hr].
Defined.

(** ** The latest request wins *)

(** The geometry the coordinator is heading for. *)
Definition target (c : ResizeCoordinator) : ResizeRequest :=
  default (default (default (applied c) (in_flight c)) (committing c)) (pending c).
(** A request for the geometry still applied, while another one is being
    committed, is dropped. *)
Definition dropped (r : ResizeRequest) (c : ResizeCoordinator) : bool :=
  match committing c with Some k => negb (bool_decide (k = r)) && bool_decide (applied c = r) | None => false end.

Lemma step_target l s s' : consistent s -> step l s = Some s' ->
  target (coordinator s') =
    match l with Request r => if dropped r (coordinator s) then target (with_pending None (coordinator s)) else r | _ => target (coordinator s) end.
Proof.
  intros Hc Hs.
  destruct l as [r|now|now|now|fw fh now|now|now|now]; cbn in Hs; try (destruct (at_phase s) as [|r|r|r] eqn:Hp; try done).
  - injection Hs as <-. pose proof (con_exclusive s Hc) as Hex. unfold request, dropped, target. cbn [coordinator].
    destruct (coordinator s) as [p f k a t d]. cbn in *. destruct k as [k|]; [rewrite Hex by done|];
      repeat case_bool_decide; simplify_eq/=; try done; destruct f; naive_solver.
  - injection Hs as <-. pose proof (con_exclusive s Hc) as Hex. assert (committing (coordinator s) = None) as Hk by (apply not_committing; congruence).
    unfold tick, expire_realization, take_ready, mark_failed, target. cbn [coordinator]. destruct (coordinator s) as [p f k a t d]. cbn in *. subst k.
    destruct f as [f|]; cbn; [destruct (match d with Some d => d <=? now | None => false end); cbn; rewrite ?bool_decide_true by done; cbn|];
      destruct p as [p|]; cbn; repeat case_match; simplify_eq/=; repeat case_bool_decide; simplify_eq/=; done.
  - injection Hs as <-. unfold mark_command_succeeded. by destruct (_ || _).
  - injection Hs as <-. destruct (con_commanding s Hc r Hp) as [F D]. assert (committing (coordinator s) = None) as Hk by (apply not_committing; congruence).
    unfold mark_failed, target. cbn [coordinator]. destruct (coordinator s) as [p f k a t d]. cbn in *. subst. rewrite bool_decide_true by done.
    cbn. by destruct p.
  - injection Hs as <-. by destruct (matches_realized_frame _ _ _ _).
  - destruct (con_realized s Hc r Hp) as [F _]. assert (committing (coordinator s) = None) as Hk by (apply not_committing; congruence).
    unfold begin_commit in Hs. case_bool_decide as E; injection Hs as <-; [|done]. apply matches_inv in E as (_ & Hpn & _).
    unfold target. cbn. by rewrite Hpn, Hk, F.
  - injection Hs as <-. assert (committing (coordinator s) = Some r) as Hk by by apply (con_committing s Hc).
    assert (in_flight (coordinator s) = None) as F by (apply (con_exclusive s Hc); congruence).
    unfold mark_applied, target. cbn [coordinator]. rewrite Hk, bool_decide_true by done. cbn. by rewrite F.
  - injection Hs as <-. assert (committing (coordinator s) = Some r) as Hk by by apply (con_committing s Hc).
    unfold mark_commit_failed, target. cbn [coordinator]. rewrite Hk, bool_decide_true by done. cbn [negb].
    destruct (coordinator s) as [[p|] f k a t d]; cbn in *; by repeat case_bool_decide.
Qed.

(** C33. The latest request wins, against a one-cell specification: every step but a
    request leaves the geometry the coordinator is heading for unchanged, through
    retries, expired deadlines, failed commands, failed commits and superseded
    transactions, and a request replaces it, except that a request for the
    applied geometry made while another one is being committed is dropped. *)
Theorem latest_request_wins ls w h s l s' : steps ls (start w h) = Some s -> step l s = Some s' ->
  target (coordinator s') =
    match l with Request r => if dropped r (coordinator s) then target (with_pending None (coordinator s)) else r | _ => target (coordinator s) end.
Proof. intros Hr. apply step_target. by eapply reachable_consistent. Qed.

Lemma latest_request_wins_witness : exists s s', steps [Request hd; Tick 0] (start 800 600) = Some s /\ step (Request big) s = Some s' /\
  target (coordinator s') = big.
Proof.
  eexists _, _. split; [reflexivity|]. split; [reflexivity|].
  exact (latest_request_wins [Request hd; Tick 0] 800 600 _ (Request big) _ eq_refl eq_refl).
Defined.

(** ** Every request is realized in the end *)

Definition settled (s : system) : Prop :=
  at_phase s = Idle /\ pending (coordinator s) = None /\ in_flight (coordinator s) = None /\ committing (coordinator s) = None.
(** A transaction that waits for a frame without a deadline. *)
Definition stuck (s : system) : Prop :=
  at_phase s = Idle /\ is_Some (in_flight (coordinator s)) /\ realization_deadline (coordinator s) = None /\ pending (coordinator s) = None.
(** Steps of a pipeline whose compositor and channel do not fail, from [t] on. *)
Definition cooperative (t : Z) (l : label) : Prop :=
  match l with
  | Tick now | CommandOk now | Frame _ _ now | Begin now | Commit now => t <= now
  | Request _ | CommandFailed _ | CommitFailed _ => False
  end.
Definition settles (t : Z) (n : nat) (s : system) : Prop :=
  exists ls s', Forall (cooperative t) ls /\ (length ls <= n)%nat /\ steps ls s = Some s' /\ settled s'.

Lemma settles_step t n l s s' : cooperative t l -> step l s = Some s' -> settles t n s' -> settles t (S n) s.
Proof.
  intros Hl Hs (ls & s2 & Hls & Hn & Hr & Hset). exists (l :: ls), s2. split; [by constructor|]. split; [cbn; lia|].
  split; [|done]. cbn. by rewrite Hs.
Qed.
Lemma settles_now t n s : settled s -> settles t n s.
Proof. intros. exists [], s. split; [constructor|]. split; [cbn; lia|done]. Qed.

(** A realized frame is committed. *)
Lemma settles_flight t n c r d sz m : pending c = None -> in_flight c = Some r -> committing c = None ->
  realization_deadline c = Some d -> t <= d -> settles t (3 + n) (mkSystem c Idle sz m).
Proof.
  intros Hp Hf Hk Hd Ht. assert (matches_realized_frame (width r) (height r) t c = Some r) as Hm.
  { unfold matches_realized_frame. rewrite Hf, Hd, !Z.eqb_refl, bool_decide_true, (proj2 (Z.leb_le _ _)) by done. done. }
  apply settles_step with (l := Frame (width r) (height r) t) (s' := mkSystem c (Realized r) sz m); [cbn; lia|cbn; by rewrite Hm|].
  apply settles_step with (l := Begin t) (s' := mkSystem (with_commit (Some r) (with_flight None None c)) (Committing r) sz m); [cbn; lia| |].
  { cbn. unfold begin_commit. by rewrite Hm, bool_decide_true. }
  eapply settles_step with (l := Commit t); [cbn; lia|reflexivity|]. apply settles_now. unfold mark_applied. cbn. by rewrite bool_decide_true.
Qed.

(** A pending request is commanded when the guard is over. *)
Lemma settles_pending t n c r sz m : pending c = Some r -> committing c = None ->
  (forall g, retry_not_before c = Some g -> g <= t) -> settles t (5 + n) (mkSystem c Idle sz m).
Proof.
  intros Hp Hk Hg.
  assert (exists o c', take_ready t (expire_realization t c).2 = (o, c') /\
    match o with Some r' => committing c' = None /\ in_flight c' = Some r' /\ pending c' = None | None => committing c' = None /\ in_flight c' = None /\ pending c' = None end) as (o & c' & Ht & Ho).
  { destruct c as [p f k a g d]. cbn in *. subst p k. unfold expire_realization, mark_failed, take_ready. cbn.
    assert (match g with Some deadline => t <? deadline | None => false end = false) as Hg2.
    { destruct g as [g|]; [|done]. apply Z.ltb_ge. by apply Hg. }
    destruct f as [f|]; cbn; [destruct (match d with Some d => d <=? t | None => false end); cbn; rewrite ?bool_decide_true by done; cbn|];
      rewrite ?bool_decide_true by (by eexists); cbn; rewrite Hg2; case_bool_decide; cbn; by eexists _, _. }
  eapply settles_step with (l := Tick t); [cbn; lia|reflexivity|]. unfold tick. cbn [coordinator size mode].
  destruct (expire_realization t c) as [o1 c1]. cbn [snd] in Ht. rewrite Ht. destruct o as [r'|]; destruct Ho as (Ko & Fo & Po).
  - eapply settles_step with (l := CommandOk t); [cbn; lia|reflexivity|]. cbn [coordinator size mode]. unfold mark_command_succeeded.
    rewrite Fo, Po, bool_decide_true, bool_decide_false by (done || by intros []). cbn [negb orb snd].
    by eapply (settles_flight t n _ r' (t + REALIZATION_TIMEOUT)); [..|unfold REALIZATION_TIMEOUT, secs; lia].
  - apply settles_now. done.
Qed.

Lemma settles_mono t t' n n' s : t <= t' -> (n <= n')%nat -> settles t' n s -> settles t n' s.
Proof.
  intros Ht Hn (ls & s' & Hls & Hl & H). exists ls, s'. split; [|split; [lia|done]]. eapply Forall_impl; [exact Hls|].
  intros []; cbn; lia || done.
Qed.

Lemma settles_idle t s : consistent s -> at_phase s = Idle -> ~ stuck s -> settles t 6 s.
Proof.
  intros Hc Hp Hs. assert (committing (coordinator s) = None) as Hk by (apply not_committing; congruence).
  destruct s as [c p sz m]. cbn in Hp, Hk, Hc. subst p. cbn [coordinator] in *.
  destruct (pending c) as [r|] eqn:Ep.
  - apply settles_mono with (t' := Z.max t (default t (retry_not_before c))) (n := 5%nat); [lia|lia|].
    apply (settles_pending _ 0 c r); [done|done|]. intros g ->. cbn. lia.
  - destruct (in_flight c) as [r|] eqn:Ef; [|by apply settles_now].
    destruct (realization_deadline c) as [d|] eqn:Ed.
    2:{ exfalso. apply Hs. split; [done|]. split; [by eexists|done]. }
    destruct (Z.leb_spec t d).
    + apply (settles_flight t 3 c r d); done.
    + assert (tick t (mkSystem c Idle sz m) = mkSystem (with_retry (Some (t + RETRY_DELAY)) (with_pending (Some r) (with_flight None None c))) Idle sz m) as Htick.
      { destruct c as [p f k a g d']. cbn in *. subst. unfold tick, expire_realization, mark_failed, take_ready. cbn.
        rewrite (proj2 (Z.leb_le _ _)), bool_decide_true by (done || lia). cbn.
        by rewrite (proj2 (Z.ltb_lt _ _)) by (unfold RETRY_DELAY, ms; lia). }
      eapply settles_step with (l := Tick t); [cbn; lia|reflexivity|]. rewrite Htick.
      apply settles_mono with (t' := t + RETRY_DELAY) (n := 5%nat); [unfold RETRY_DELAY, ms; lia|lia|].
      apply (settles_pending _ 0 _ r); [done|done|]. intros g [= <-]. lia.
Qed.

Lemma settles_consistent t s : consistent s -> ~ stuck s -> settles t 8 s.
Proof.
  intros Hc Hs. destruct (at_phase s) as [|r|r|r] eqn:Hp.
  - apply settles_mono with (t' := t) (n := 6%nat); [lia|lia|]. by apply settles_idle.
  - destruct (con_commanding s Hc r Hp) as [F D]. assert (step (CommandOk t) s = Some (mkSystem (mark_command_succeeded r t (coordinator s)).2 Idle (size s) r)) as Hst by (cbn; by rewrite Hp).
    eapply (settles_step t 7); [|exact Hst|]; [cbn; lia|]. apply settles_mono with (t' := t) (n := 6%nat); [lia|lia|].
    apply settles_idle; [by eapply step_consistent|done|]. unfold mark_command_succeeded. rewrite F, bool_decide_true by done.
    unfold stuck. case_bool_decide as E; cbn; [|intros (_ & _ & ? & _); done]. intros (_ & _ & _ & Hpn). rewrite Hpn in E. by destruct E.
  - destruct (con_realized s Hc r Hp) as [F D].
    assert (step (Begin t) s = Some (let '(started, c) := begin_commit r t (coordinator s) in mkSystem c (if started then Committing r else Idle) (size s) (mode s))) as Hst
      by (cbn; rewrite Hp; by destruct (begin_commit _ _ _)).
    eapply (settles_step t 7); [|exact Hst|]; [cbn; lia|]. pose proof (step_consistent _ _ _ Hc Hst) as Hc2. unfold begin_commit in *.
    case_bool_decide.
    + eapply (settles_step t 6 (Commit t)); [cbn; lia|reflexivity|]. assert (step (Commit t) (mkSystem (with_commit (Some r) (with_flight None None (coordinator s))) (Committing r) (size s) (mode s)) =
        Some (mkSystem (mark_applied r t (with_commit (Some r) (with_flight None None (coordinator s)))).2 Idle r (mode s))) as Hst2 by done.
      apply settles_idle; [by eapply step_consistent|done|]. unfold stuck, mark_applied. cbn. rewrite bool_decide_true by done. cbn. intros (_ & [] & _). done.
    + apply settles_mono with (t' := t) (n := 6%nat); [lia|lia|]. apply settles_idle; [done|done|]. intros (_ & _ & Hd & _). cbn in Hd. rewrite Hd in D. by destruct D.
  - assert (step (Commit t) s = Some (mkSystem (mark_applied r t (coordinator s)).2 Idle r (mode s))) as Hst by (cbn; by rewrite Hp).
    eapply (settles_step t 7); [|exact Hst|]; [cbn; lia|]. apply settles_mono with (t' := t) (n := 6%nat); [lia|lia|].
    apply settles_idle; [by eapply step_consistent|done|]. assert (committing (coordinator s) = Some r) as Hk by by apply (con_committing s Hc).
    unfold stuck, mark_applied. rewrite Hk, bool_decide_true by done. cbn. intros (_ & [x Hx] & _). by rewrite (con_exclusive s Hc) in Hx by congruence.
Qed.

Lemma steps_target t ls s s' : consistent s -> Forall (cooperative t) ls -> steps ls s = Some s' ->
  consistent s' /\ target (coordinator s') = target (coordinator s).
Proof.
  intros Hc Hls. revert s Hc. induction Hls as [|l ls Hl Hls IH]; intros s Hc Hs; [by injection Hs as <-|]. cbn in Hs.
  destruct (step l s) as [s1|] eqn:E; [|done]. destruct (IH s1) as [Hc' Ht]; [by eapply step_consistent|done|]. split; [done|].
  rewrite Ht, (step_target l s s1 Hc E). by destruct l.
Qed.

(** A resize is carried out in the end: from every reachable state, except one in
    which a transaction lost its deadline, a pipeline whose compositor and
    channel stop failing settles from any later instant on within eight steps, and
    then the desktop has the geometry the coordinator was heading for. *)
Theorem resize_settles ls w h s t : steps ls (start w h) = Some s -> ~ stuck s ->
  exists ls' s', Forall (cooperative t) ls' /\ (length ls' <= 8)%nat /\ steps ls' s = Some s' /\ settled s' /\ size s' = target (coordinator s).
Proof.
  intros Hr Hst. pose proof (reachable_consistent ls w h s Hr) as Hc. destruct (settles_consistent t s Hc Hst) as (ls' & s' & Hls & Hn & Hs & Hset).
  exists ls', s'. split; [done|]. split; [done|]. split; [done|]. split; [done|]. destruct (steps_target t ls' s s' Hc Hls Hs) as [Hc' <-].
  rewrite (con_applied s' Hc'). unfold target. destruct Hset as (_ & -> & -> & ->). done.
Qed.

Lemma resize_settles_witness : exists ls' s', steps [Request hd; Tick 0; Request big; CommandFailed 5] (start 800 600) ≫= steps ls' = Some s' /\ size s' = big.
Proof.
  destruct (resize_settles [Request hd; Tick 0; Request big; CommandFailed 5] 800 600 _ 10 eq_refl) as (ls' & s' & _ & _ & Hs & _ & Ht).
  - intros (_ & Hf & _). cbn in Hf. by destruct Hf.
  - exists ls', s'. split; [exact Hs|]. exact Ht.
Defined.

(** ** What goes wrong *)

(** A request for the applied geometry that arrives while another one is being
    committed is lost: the desktop keeps the other geometry. *)
Lemma request_during_commit_is_lost :
  exists s, steps (Request hd :: realize hd ++ [Request (mkRequest 800 600); Commit 2]) (start 800 600) = Some s /\ settled s /\ size s = hd.
Proof. by eexists. Qed.

(** Going back to the applied geometry after the compositor accepted another mode
    issues no command: the compositor keeps the other mode, and every frame it
    produces is refused because it does not have the committed geometry. *)
Lemma abandoned_mode_is_kept :
  exists s, steps [Request hd; Tick 0; CommandOk 0; Request (mkRequest 800 600); Tick 1] (start 800 600) = Some s /\
    settled s /\ size s = mkRequest 800 600 /\ mode s = hd.
Proof. by eexists. Qed.

(** A request superseded while its command runs and repeated right afterwards
    never gets a deadline: no frame commits it and no timer expires it. *)
Lemma repeated_request_is_stuck :
  exists s, steps [Request hd; Tick 0; Request big; CommandOk 0; Request hd] (start 800 600) = Some s /\ stuck s /\ mode s = hd /\
    (forall now, step (Tick now) s = Some s) /\ (forall w h now, step (Frame w h now) s = Some s).
Proof. eexists. split; [reflexivity|]. split; [by split|]. done. Qed.
