(* ===== verification/Supervision.v ===== *)
(** * Session supervision

    Models src/src/rdp/session/supervision/ (mod.rs, monitor.rs) and the health
    watcher of src/src/rdp/server/production.rs: the status aggregated from the
    events of the subsystems, the supervisor task that broadcasts it, and the
    watcher that asks the connection to end when the status is invalid. *)
From S2P Require Import Prelude Text.

(** ** Status *)

(** [supervision/mod.rs:32-41 SessionAspectId] *)
Inductive SessionAspectId := Session | Graphics | Input | Clipboard.
#[export] Instance SessionAspectId_eq_dec : EqDecision SessionAspectId.
Proof. solve_decision. Defined.

Module Aspect.
(** [supervision/mod.rs:63-72 AspectHealth] *)
Inductive AspectHealth := Healthy | Degraded (reason : str) | Failed (reason : str) | NotApplicable.
#[global] Instance AspectHealth_eq_dec : EqDecision AspectHealth.
Proof. solve_decision. Defined.

(** [supervision/mod.rs:75-77 is_healthy] *)
Definition is_healthy (h : AspectHealth) : bool := match h with Healthy | NotApplicable => true | _ => false end.
(** [supervision/mod.rs:79-81 is_failed] *)
Definition is_failed (h : AspectHealth) : bool := match h with Failed _ => true | _ => false end.
(** [supervision/mod.rs:84-93 AspectHealth::fmt] *)
Definition fmt_health (h : AspectHealth) : str :=
  match h with
  | Healthy => lit "healthy"
  | Degraded reason => lit "degraded: " ++ reason
  | Failed reason => lit "failed: " ++ reason
  | NotApplicable => lit "not applicable"
  end.
End Aspect.
Import Aspect (AspectHealth, is_healthy, is_failed).

Module Overall.
(** [supervision/mod.rs:277-286 OverallStatus] *)
Inductive OverallStatus := Healthy | Degraded | Invalid | Recovering.
#[global] Instance OverallStatus_eq_dec : EqDecision OverallStatus.
Proof. solve_decision. Defined.
End Overall.
Import Overall (OverallStatus).

(** [supervision/mod.rs:97-108 SessionStatus] *)
Record SessionStatus := mkStatus {
  graphics : AspectHealth; input : AspectHealth; clipboard : AspectHealth; session : AspectHealth;
  overall : OverallStatus }.

(** [supervision/mod.rs:110-120 default] *)
Definition status_default : SessionStatus :=
  mkStatus Aspect.Healthy Aspect.Healthy Aspect.Healthy Aspect.Healthy Overall.Healthy.

(** [supervision/mod.rs:343-347 GraphicsStreamState] *)
Inductive GraphicsStreamState := Streaming | Paused | StreamError.

(** [supervision/mod.rs:301-339 SessionStatusEvent] *)
Inductive SessionStatusEvent :=
| AspectHealthChanged (aspect : SessionAspectId) (health : AspectHealth)
| SessionClosed (reason : str)
| SessionInvalidated (reason : str)
| GraphicsStreamStateChanged (state : GraphicsStreamState)
| VideoFrameStalled (stall_duration_ms : Z)
| VideoFrameNeverStarted (elapsed_ms : Z)
| VideoFrameResumed
| InputFailed (reason : str) (permanent : bool)
| InputRecovered
| ClipboardFailed (reason : str)
| ClipboardRecovered
| CompositorLost (bus_name : str)
| EisStreamEnded (reason : str)
| SubsystemNotAvailable (subsystem : str).

Definition set_graphics (h : AspectHealth) (s : SessionStatus) := mkStatus h (input s) (clipboard s) (session s) (overall s).
Definition set_input (h : AspectHealth) (s : SessionStatus) := mkStatus (graphics s) h (clipboard s) (session s) (overall s).
Definition set_clipboard (h : AspectHealth) (s : SessionStatus) := mkStatus (graphics s) (input s) h (session s) (overall s).
Definition set_session (h : AspectHealth) (s : SessionStatus) := mkStatus (graphics s) (input s) (clipboard s) h (overall s).

(** [supervision/mod.rs:218-225 apply_aspect_health] *)
Definition apply_aspect_health (a : SessionAspectId) (h : AspectHealth) (s : SessionStatus) : SessionStatus :=
  match a with
  | Session => set_session h s | Graphics => set_graphics h s
  | Input => set_input h s | Clipboard => set_clipboard h s
  end.

(** [supervision/mod.rs:227-244 apply_graphics_stream_state] *)
Definition apply_graphics_stream_state (g : GraphicsStreamState) (s : SessionStatus) : SessionStatus :=
  set_graphics (match g with
                | Streaming => Aspect.Healthy
                | Paused => Aspect.Degraded (lit "PipeWire stream paused")
                | StreamError => Aspect.Failed (lit "PipeWire stream error")
                end) s.

(** [supervision/mod.rs:246-252 mark_subsystem_not_available] *)
Definition mark_subsystem_not_available (subsystem : str) (s : SessionStatus) : SessionStatus :=
  if eqs subsystem (lit "clipboard") then set_clipboard Aspect.NotApplicable s
  else if eqs subsystem (lit "input") then set_input Aspect.NotApplicable s
  else s.

(** [supervision/mod.rs:255-272 recompute_overall] *)
Definition recompute_overall (s : SessionStatus) : SessionStatus :=
  mkStatus (graphics s) (input s) (clipboard s) (session s)
    (if is_failed (session s) then Overall.Invalid
     else if is_failed (graphics s) || is_failed (input s) then Overall.Invalid
     else if negb (is_healthy (graphics s)) || negb (is_healthy (input s))
             || negb (is_healthy (clipboard s)) || negb (is_healthy (session s)) then Overall.Degraded
     else Overall.Healthy).

(** [supervision/mod.rs:133-212 apply_event] *)
Definition update (e : SessionStatusEvent) (s : SessionStatus) : SessionStatus :=
  match e with
  | AspectHealthChanged a h => apply_aspect_health a h s
  | SessionClosed reason =>
      set_clipboard (Aspect.Failed (lit "session closed"))
        (set_input (Aspect.Failed (lit "session closed")) (set_session (Aspect.Failed reason) s))
  | SessionInvalidated reason =>
      set_clipboard (Aspect.Failed (lit "session invalidated"))
        (set_input (Aspect.Failed (lit "session invalidated")) (set_session (Aspect.Failed reason) s))
  | GraphicsStreamStateChanged g => apply_graphics_stream_state g s
  | VideoFrameStalled t => set_graphics (Aspect.Degraded (lit "no frames for " ++ fmt_dec t ++ lit "ms")) s
  | VideoFrameNeverStarted t =>
      set_graphics (Aspect.Failed (lit "capture never delivered frames (" ++ fmt_dec t ++ lit "ms)")) s
  | VideoFrameResumed => if negb (is_healthy (graphics s)) then set_graphics Aspect.Healthy s else s
  | InputFailed reason permanent =>
      if permanent then set_input (Aspect.Failed reason) s else set_input (Aspect.Degraded reason) s
  | InputRecovered => if negb (is_healthy (input s)) then set_input Aspect.Healthy s else s
  | ClipboardFailed reason => set_clipboard (Aspect.Failed reason) s
  | ClipboardRecovered => if negb (is_healthy (clipboard s)) then set_clipboard Aspect.Healthy s else s
  | CompositorLost bus =>
      set_graphics (Aspect.Degraded (lit "compositor may have restarted"))
        (set_input (Aspect.Failed (lit "compositor lost"))
           (set_session (Aspect.Failed (lit "compositor lost: " ++ bus)) s))
  | EisStreamEnded reason => set_input (Aspect.Failed reason) s
  | SubsystemNotAvailable subsystem => mark_subsystem_not_available subsystem s
  end.

(** [supervision/mod.rs:127-216 apply_event] *)
Definition apply_event (e : SessionStatusEvent) (s : SessionStatus) : (OverallStatus * OverallStatus) * SessionStatus :=
  let s' := recompute_overall (update e s) in ((overall s, overall s'), s').

(** The supervisor's [handle_event] on the broadcast value.
    [monitor.rs:79-88 handle_event] *)
Definition handle_event (s : SessionStatus) (e : SessionStatusEvent) : SessionStatus := (apply_event e s).2.
Definition status_after (es : list SessionStatusEvent) : SessionStatus := foldl handle_event status_default es.

(** ** The tasks

    [version] counts the broadcasts of the watch channel and [seen] is the last
    one the watcher was woken for; [notified] counts its calls of [notify_one]. *)
Inductive Watcher := Waiting | Woken | Finished.
#[export] Instance Watcher_eq_dec : EqDecision Watcher.
Proof. solve_decision. Defined.

(** [monitor.rs:17-24 SessionSupervisor] *)
Record System := mkSystem {
  queue : list SessionStatusEvent; running : bool; shutdown : bool;
  status : SessionStatus; version : nat;
  watcher : Watcher; seen : nat; notified : nat; aborted : bool }.

(** [monitor.rs:34-53 new] *)
Definition start : System := mkSystem [] true false status_default 0 Waiting 0 0 false.

Inductive label :=
| Report (e : SessionStatusEvent) | Handle | SendShutdown | Stop
| Changed | Look | Closed | AbortWatcher.

Definition set_watcher (w : Watcher) (s : System) : System :=
  mkSystem (queue s) (running s) (shutdown s) (status s) (version s) w (seen s) (notified s) (aborted s).

(** A report is dropped when the supervisor is gone.
    [supervision/mod.rs:401-404 report] *)
Definition report (e : SessionStatusEvent) (s : System) : System :=
  if running s then mkSystem (queue s ++ [e]) true (shutdown s) (status s) (version s) (watcher s) (seen s) (notified s) (aborted s)
  else s.

(** The turns of the supervisor's loop, which may take either ready branch.
    [monitor.rs:58-77 run] *)
Definition supervise (l : label) (s : System) : option System :=
  match l, queue s with
  | Handle, e :: q =>
      if running s then
        Some (mkSystem q true (shutdown s) (handle_event (status s) e) (S (version s))
                (watcher s) (seen s) (notified s) (aborted s))
      else None
  | Stop, _ =>
      if running s && shutdown s then
        Some (mkSystem [] false true (status s) (version s) (watcher s) (seen s) (notified s) (aborted s))
      else None
  | _, _ => None
  end.

(** [production.rs:763-770 invalid_session_reason] *)
Definition invalid_session_reason (s : SessionStatus) : option str :=
  if bool_decide (overall s = Overall.Invalid) then
    Some (lit "production session invalid: session=" ++ Aspect.fmt_health (session s)
          ++ lit ", graphics=" ++ Aspect.fmt_health (graphics s)
          ++ lit ", input=" ++ Aspect.fmt_health (input s)
          ++ lit ", clipboard=" ++ Aspect.fmt_health (clipboard s))
  else None.

(** [changed] answers for an unseen broadcast before it answers that the sender is
    gone; the status is read afterwards, in a step of its own.
    [production.rs:747-761 watch_production_session_health] *)
Definition watch (l : label) (s : System) : option System :=
  match l, watcher s with
  | Changed, Waiting =>
      if (seen s =? version s)%nat then None
      else Some (mkSystem (queue s) (running s) (shutdown s) (status s) (version s) Woken (version s) (notified s) (aborted s))
  | Look, Woken =>
      Some (match invalid_session_reason (status s) with
            | None => set_watcher Waiting s
            | Some _ => mkSystem (queue s) (running s) (shutdown s) (status s) (version s) Finished (seen s) (S (notified s)) (aborted s)
            end)
  | Closed, Waiting =>
      if (seen s =? version s)%nat && negb (running s) then Some (set_watcher Finished s) else None
  | _, _ => None
  end.

Definition step (l : label) (s : System) : option System :=
  match l with
  | Report e => Some (report e s)
  | SendShutdown =>
      Some (mkSystem (queue s) (running s) true (status s) (version s) (watcher s) (seen s) (notified s) (aborted s))
  | AbortWatcher =>
      Some (mkSystem (queue s) (running s) (shutdown s) (status s) (version s) Finished (seen s) (notified s)
              (aborted s || bool_decide (watcher s <> Finished)))
  | Handle | Stop => supervise l s
  | Changed | Look | Closed => watch l s
  end.

Fixpoint steps (ls : list label) (s : System) : option System :=
  match ls with [] => Some s | l :: ls => step l s ≫= steps ls end.

(** ** What the status means *)

Definition aspect (a : SessionAspectId) (s : SessionStatus) : AspectHealth :=
  match a with Session => session s | Graphics => graphics s | Input => input s | Clipboard => clipboard s end.

(** What an event says of an aspect: it gives its health, or that it has recovered. *)
Inductive verdict := Gives (h : AspectHealth) | Recovers.

Definition says (a : SessionAspectId) (e : SessionStatusEvent) : option verdict :=
  match e, a with
  | AspectHealthChanged a' h, _ => if bool_decide (a = a') then Some (Gives h) else None
  | SessionClosed r, Session | SessionInvalidated r, Session => Some (Gives (Aspect.Failed r))
  | SessionClosed _, (Input | Clipboard) => Some (Gives (Aspect.Failed (lit "session closed")))
  | SessionInvalidated _, (Input | Clipboard) => Some (Gives (Aspect.Failed (lit "session invalidated")))
  | GraphicsStreamStateChanged Streaming, Graphics => Some (Gives Aspect.Healthy)
  | GraphicsStreamStateChanged Paused, Graphics => Some (Gives (Aspect.Degraded (lit "PipeWire stream paused")))
  | GraphicsStreamStateChanged StreamError, Graphics => Some (Gives (Aspect.Failed (lit "PipeWire stream error")))
  | VideoFrameStalled t, Graphics => Some (Gives (Aspect.Degraded (lit "no frames for " ++ fmt_dec t ++ lit "ms")))
  | VideoFrameNeverStarted t, Graphics =>
      Some (Gives (Aspect.Failed (lit "capture never delivered frames (" ++ fmt_dec t ++ lit "ms)")))
  | VideoFrameResumed, Graphics | InputRecovered, Input | ClipboardRecovered, Clipboard => Some Recovers
  | InputFailed r permanent, Input => Some (Gives (if permanent then Aspect.Failed r else Aspect.Degraded r))
  | ClipboardFailed r, Clipboard => Some (Gives (Aspect.Failed r))
  | CompositorLost b, Session => Some (Gives (Aspect.Failed (lit "compositor lost: " ++ b)))
  | CompositorLost _, Input => Some (Gives (Aspect.Failed (lit "compositor lost")))
  | CompositorLost _, Graphics => Some (Gives (Aspect.Degraded (lit "compositor may have restarted")))
  | EisStreamEnded r, Input => Some (Gives (Aspect.Failed r))
  | SubsystemNotAvailable n, Clipboard => if eqs n (lit "clipboard") then Some (Gives Aspect.NotApplicable) else None
  | SubsystemNotAvailable n, Input => if eqs n (lit "input") then Some (Gives Aspect.NotApplicable) else None
  | _, _ => None
  end.

(** The last health given, verdicts latest first. *)
Fixpoint last_given (vs : list verdict) : AspectHealth :=
  match vs with [] => Aspect.Healthy | Gives h :: _ => h | Recovers :: vs => last_given vs end.

(** A recovery makes an aspect healthy, unless the aspect does not apply. *)
Definition concluded (vs : list verdict) : AspectHealth :=
  match vs with
  | Recovers :: vs => if bool_decide (last_given vs = Aspect.NotApplicable) then Aspect.NotApplicable else Aspect.Healthy
  | vs => last_given vs
  end.

Definition verdicts (a : SessionAspectId) (es : list SessionStatusEvent) : list verdict := omap (says a) (rev es).
Definition health_after (a : SessionAspectId) (es : list SessionStatusEvent) : AspectHealth := concluded (verdicts a es).

Definition apply_verdict (v : option verdict) (h : AspectHealth) : AspectHealth :=
  match v with None => h | Some (Gives h') => h' | Some Recovers => if is_healthy h then h else Aspect.Healthy end.

Lemma aspect_step a s e : aspect a (handle_event s e) = apply_verdict (says a e) (aspect a s).
Proof.
  destruct a, e as [[] ?| | |[]| | | |? []| | | | | |n]; cbn;
    repeat match goal with |- context [if ?b then _ else _] => destruct b eqn:? end; try done.
  all: unfold mark_subsystem_not_available, eqs in *; repeat case_bool_decide; subst; done.
Qed.

Lemma concluded_cons v vs : concluded (v :: vs) = apply_verdict (Some v) (concluded vs).
Proof.
  destruct v as [h|]; [done|]; cbn.
  destruct vs as [|[[| | |]|] vs]; cbn; try done.
  destruct (bool_decide _) eqn:E; cbn; rewrite ?E; done.
Qed.

Lemma status_snoc es e : status_after (es ++ [e]) = handle_event (status_after es) e.
Proof. unfold status_after. by rewrite foldl_app. Qed.

Lemma health_snoc a es e : health_after a (es ++ [e]) = apply_verdict (says a e) (health_after a es).
Proof.
  unfold health_after, verdicts. rewrite rev_app_distr. cbn [rev app omap list_omap].
  destruct (says a e) as [v|]; [apply concluded_cons | done].
Qed.

Lemma aspect_after a es : aspect a (status_after es) = health_after a es.
Proof.
  induction es as [|e es IH] using rev_ind; [by destruct a|].
  by rewrite status_snoc, aspect_step, health_snoc, IH.
Qed.

Definition fatal (a : SessionAspectId) : Prop := a <> Clipboard.

(** What the overall status summarises. *)
Definition summary (s : SessionStatus) : Prop :=
  (overall s = Overall.Invalid <-> exists a, fatal a /\ is_failed (aspect a s) = true) /\
  (overall s = Overall.Healthy <-> forall a, is_healthy (aspect a s) = true) /\
  overall s <> Overall.Recovering.

Lemma recomputed_summary s : summary (recompute_overall s).
Proof.
  unfold summary, fatal. split_and!.
  - split.
    + unfold recompute_overall. cbn. intros H.
      destruct (is_failed (session s)) eqn:E1; [by exists Session|].
      destruct (is_failed (graphics s)) eqn:E2; [by exists Graphics|].
      destruct (is_failed (input s)) eqn:E3; [by exists Input|].
      cbn in H. by destruct (_ || _).
    + intros ([] & Hf & H); cbn in H |- *; destruct (session s), (graphics s), (input s); done.
  - split.
    + unfold recompute_overall. cbn. intros H a.
      destruct (is_failed (session s)) eqn:E1, (is_failed (graphics s) || is_failed (input s)) eqn:E2; try done.
      destruct a; cbn; destruct (is_healthy (graphics s)), (is_healthy (input s)), (is_healthy (clipboard s)), (is_healthy (session s)); done.
    + intros H. pose proof (H Session) as H1. pose proof (H Graphics) as H2. pose proof (H Input) as H3.
      pose proof (H Clipboard) as H4. cbn in *. rewrite H1, H2, H3, H4.
      destruct (session s), (graphics s), (input s); done.
  - unfold recompute_overall. cbn. by repeat case_match.
Qed.

Lemma summary_after es : summary (status_after es).
Proof.
  destruct es as [|e es _] using rev_ind.
  - unfold summary, fatal. split_and!; [split|split|]; try done; [by intros ([] & ? & ?)|by intros _ []].
  - rewrite status_snoc. apply recomputed_summary.
Qed.

(** The session aspect is spoken of again, and not as failed. *)
Definition revives (e : SessionStatusEvent) : bool :=
  match says Session e with Some (Gives h) => negb (is_failed h) | _ => false end.

Lemma failed_until_revived es fs : is_failed (health_after Session es) = true ->
  Forall (fun e => revives e = false) fs -> is_failed (health_after Session (es ++ fs)) = true.
Proof.
  intros Hf. induction fs as [|f fs IH] using rev_ind; [by rewrite app_nil_r|].
  intros [H1 H2]%Forall_app. rewrite app_assoc, health_snoc.
  specialize (IH H1). apply Forall_cons in H2 as [H2 _]. revert H2. unfold revives.
  destruct (says Session f) as [[h|]|] eqn:E; cbn; intros H2; [by apply negb_false_iff | | done].
  exfalso. unfold says in E. repeat case_match; simplify_eq.
Qed.

(** After any history of events the health of every aspect is the one given
    by the latest event that speaks of it, where a recovery counts as healthy
    unless the aspect was declared not applicable.  The overall status is invalid
    exactly when the session, the graphics or the input has failed and healthy
    exactly when all four aspects are; and a lost session stays invalid whatever
    is reported until a report says the session itself is well again. *)
Theorem status_reports_last es : let s := status_after es in
  (forall a, aspect a s = health_after a es) /\ summary s /\
  (forall pre e fs, es = pre ++ e :: fs ->
    match e with SessionClosed _ | SessionInvalidated _ | CompositorLost _ => True | _ => False end ->
    Forall (fun e => revives e = false) fs -> overall s = Overall.Invalid).
Proof.
  split; [intros; apply aspect_after|]. split; [apply summary_after|].
  intros pre e fs -> He Hfs. apply (summary_after (pre ++ e :: fs)).
  exists Session. split; [done|]. rewrite aspect_after.
  change (e :: fs) with ([e] ++ fs). rewrite app_assoc. apply failed_until_revived; [|done].
  rewrite health_snoc. by destruct e.
Qed.

(** ** The watcher misses nothing *)

Definition reports (ls : list label) : list SessionStatusEvent :=
  omap (fun l => match l with Report e => Some e | _ => None end) ls.

Lemma reports_snoc ls l : reports (ls ++ [l]) = reports ls ++ match l with Report e => [e] | _ => [] end.
Proof. unfold reports. rewrite omap_app. by destruct l. Qed.

Lemma steps_snoc ls l s : steps (ls ++ [l]) s = steps ls s ≫= step l.
Proof.
  revert s. induction ls as [|l' ls IH]; intros s; cbn; [by destruct (step l s)|].
  destruct (step l' s); [apply IH | done].
Qed.

Definition invalid (s : SessionStatus) : Prop := overall s = Overall.Invalid.

(** The statuses broadcast so far are those after the first [version] reports, in
    their order; the watcher sleeps on a status only when it is not invalid. *)
Record attentive (ls : list label) (s : System) : Prop := mkAttentive {
  broadcast_in_order : status s = status_after (take (version s) (reports ls));
  broadcast_reported : (version s <= length (reports ls))%nat;
  seen_broadcast : (seen s <= version s)%nat;
  queue_waits : running s = true -> queue s = drop (version s) (reports ls);
  sleeps_on_valid : watcher s = Waiting -> seen s = version s -> ~ invalid (status s);
  notifies_once : watcher s <> Finished -> notified s = 0%nat;
  finished_why : watcher s = Finished ->
    notified s = 1%nat \/ (notified s = 0%nat /\ (aborted s = true \/ (running s = false /\ ~ invalid (status s))));
  notified_why : notified s = 1%nat -> exists k, (k <= version s)%nat /\ invalid (status_after (take k (reports ls)));
}.

Lemma reason_invalid s : invalid_session_reason s = None <-> ~ invalid s.
Proof. unfold invalid_session_reason, invalid. by case_bool_decide. Qed.

Lemma attentive_start : attentive [] start.
Proof. by split. Qed.

(** A step that reports nothing keeps what was reported. *)
Lemma attentive_quiet ls l s : (forall e, l <> Report e) -> attentive ls s -> attentive (ls ++ [l]) s.
Proof.
  intros Hl [H1 H2 Hs H3 H4 H5 H6 H7].
  assert (E : reports (ls ++ [l]) = reports ls).
  { rewrite reports_snoc. destruct l; rewrite ?app_nil_r; try done. by destruct (Hl e). }
  by split; rewrite ?E.
Qed.

Lemma attentive_report ls e s : attentive ls s -> attentive (ls ++ [Report e]) (report e s).
Proof.
  intros [H1 H2 Hs H3 H4 H5 H6 H7]. unfold report.
  assert (E : forall k, (k <= version s)%nat -> take k (reports (ls ++ [Report e])) = take k (reports ls)).
  { intros k Hk. rewrite reports_snoc, take_app_le; [done | lia]. }
  assert (L : length (reports (ls ++ [Report e])) = S (length (reports ls))).
  { rewrite reports_snoc, length_app. cbn. lia. }
  assert (W : notified s = 1%nat -> exists k, (k <= version s)%nat /\ invalid (status_after (take k (reports (ls ++ [Report e]))))).
  { intros (k & Hk & Hi)%H7. exists k. by rewrite E. }
  destruct (running s) eqn:R; split; cbn; rewrite ?E, ?L by lia; try done; try lia.
  - intros _. rewrite H3 by done. by rewrite reports_snoc, drop_app_le.
  - by rewrite R.
  - by rewrite R.
Qed.

Lemma attentive_supervise ls l s s' : supervise l s = Some s' -> attentive ls s -> attentive ls s'.
Proof.
  intros H [H1 H2 Hs H3 H4 H5 H6 H7]. destruct l; try by destruct (queue s).
  - cbn in H. destruct (queue s) as [|e q] eqn:Q; [done|]. destruct (running s) eqn:R; [|done]. injection H as <-.
    specialize (H3 eq_refl). symmetry in H3.
    assert (Hd : reports ls !! version s = Some e /\ drop (S (version s)) (reports ls) = q).
    { rewrite <- (Nat.add_0_r (version s)), <- lookup_drop, H3. split; [done|].
      rewrite Nat.add_0_r. rewrite <- Nat.add_1_r, <- drop_drop, H3. done. }
    destruct Hd as [Hd1 Hd2]. pose proof (lookup_lt_Some _ _ _ Hd1).
    split; cbn; try done; try lia.
    + by rewrite (take_S_r _ _ _ Hd1), status_snoc, <- H1.
    + intros [?|(? & [?|[? _]])]%H6; [by left | right; auto | done].
    + intros (k & ? & ?)%H7. exists k. split; [lia | done].
  - cbn in H. destruct (running s && shutdown s) eqn:R; [|by destruct (queue s)].
    apply andb_true_iff in R as [R _]. destruct (queue s); injection H as <-; split; cbn; try done.
    all: intros [?|(? & [?|[? _]])]%H6; [by left | right; auto | congruence].
Qed.

Lemma attentive_watch ls l s s' : watch l s = Some s' -> attentive ls s -> attentive ls s'.
Proof.
  intros H [H1 H2 Hs H3 H4 H5 H6 H7]. destruct l, (watcher s) eqn:W; cbn in H; rewrite ?W in H; try done.
  - destruct (seen s =? version s)%nat eqn:E; [done|]. injection H as <-. split; cbn; try done. intros _. by apply H5.
  - destruct (invalid_session_reason (status s)) as [r|] eqn:E; injection H as <-.
    + assert (N : notified s = 0%nat) by by apply H5.
      assert (I : invalid (status s)) by (apply dec_stable; intros F%reason_invalid; congruence).
      split; cbn; try done; [by left; rewrite N | intros _; exists (version s); by rewrite <- H1].
    + apply reason_invalid in E. split; cbn; try done. intros _. by apply H5.
  - destruct (seen s =? version s)%nat eqn:E; [|done]. apply Nat.eqb_eq in E.
    destruct (running s) eqn:R; [done|]. injection H as <-. split; cbn; rewrite ?R; try done.
    intros _. right. split; [by apply H5 | right; auto].
Qed.

Lemma attentive_step ls l s s' : step l s = Some s' -> attentive ls s -> attentive (ls ++ [l]) s'.
Proof.
  intros H A. destruct l; cbn in H.
  - injection H as <-. by apply attentive_report.
  - by apply attentive_quiet, (attentive_supervise _ Handle _ _ H).
  - injection H as <-. apply attentive_quiet; [done|]. destruct A. by split.
  - by apply attentive_quiet, (attentive_supervise _ Stop _ _ H).
  - by apply attentive_quiet, (attentive_watch _ Changed _ _ H).
  - by apply attentive_quiet, (attentive_watch _ Look _ _ H).
  - by apply attentive_quiet, (attentive_watch _ Closed _ _ H).
  - injection H as <-. apply attentive_quiet; [done|]. destruct A as [H1 H2 Hs H3 H4 H5 H6 H7]. split; cbn; try done.
    intros _. destruct (decide (watcher s = Finished)) as [W|W].
    + rewrite bool_decide_false by auto. rewrite orb_false_r. by apply H6.
    + rewrite bool_decide_true by done. rewrite orb_true_r. right. split; [by apply H5 | by left].
Qed.

Lemma attentive_steps ls s : steps ls start = Some s -> attentive ls s.
Proof.
  revert s. induction ls as [|l ls IH] using rev_ind; intros s.
  - intros [= <-]. apply attentive_start.
  - rewrite steps_snoc. destruct (steps ls start) as [s1|]; [|done]. cbn. intros H. by eapply attentive_step; [|apply IH].
Qed.

(** C9. Whatever the interleaving of the subsystems' reports, the supervisor, its
    shutdown and the watcher: the broadcast statuses are those of the reports in
    the order they were made; the connection is asked to end at most once, and only
    after a status that was invalid; and when the status is invalid, the watcher
    (unless it was aborted) has asked already or asks within its next two steps,
    so an invalid status it could still see is never slept through. *)
Theorem invalid_never_missed ls s : steps ls start = Some s ->
  status s = status_after (take (version s) (reports ls)) /\
  (notified s <= 1)%nat /\
  (notified s = 1%nat -> exists k, (k <= version s)%nat /\ invalid (status_after (take k (reports ls)))) /\
  (invalid (status s) -> aborted s = false ->
    notified s = 1%nat \/ exists ws s', (ws = [Look] \/ ws = [Changed; Look]) /\ steps ws s = Some s' /\ notified s' = 1%nat).
Proof.
  intros A%attentive_steps. destruct A as [H1 H2 Hs H3 H4 H5 H6 H7]. split_and!; try done.
  - destruct (decide (watcher s = Finished)) as [[?|[? _]]%H6|?%H5]; lia.
  - intros I Ha. destruct (watcher s) eqn:W; [right.. | left].
    + exists [Changed; Look].
      destruct (seen s =? version s)%nat eqn:E; [by apply Nat.eqb_eq, H4 in E|].
      cbn. rewrite W, E. cbn. destruct (invalid_session_reason (status s)) eqn:R; [|by apply reason_invalid in R].
      eexists. split_and!; [by right | done | cbn; by rewrite H5].
    + exists [Look]. cbn. rewrite W. destruct (invalid_session_reason (status s)) eqn:R; [|by apply reason_invalid in R].
      eexists. split_and!; [by left | done | cbn; by rewrite H5].
    + destruct (H6 eq_refl) as [?|(_ & [?|[_ ?]])]; [done | congruence | done].
Qed.

(** ** Instances *)

Definition lost : list SessionStatusEvent :=
  [SubsystemNotAvailable (lit "clipboard"); CompositorLost (lit "org.compositor"); ClipboardRecovered; InputRecovered].

Lemma status_reports_last_witness :
  overall (status_after lost) = Overall.Invalid /\ clipboard (status_after lost) = Aspect.NotApplicable.
Proof.
  destruct (status_reports_last lost) as (H & _ & L). split.
  - apply (L [SubsystemNotAvailable (lit "clipboard")] (CompositorLost (lit "org.compositor")) [ClipboardRecovered; InputRecovered]);
      [reflexivity | done | repeat constructor].
  - etrans; [apply (H Clipboard) | vm_compute; reflexivity].
Defined.

Lemma invalid_never_missed_witness : exists s ws s',
  steps [Report (SessionClosed (lit "gone")); Handle] start = Some s /\ steps ws s = Some s' /\ notified s' = 1%nat.
Proof.
  set (ls := [Report (SessionClosed (lit "gone")); Handle]).
  destruct (steps ls start) as [s|] eqn:E; [|vm_compute in E; discriminate E].
  destruct (invalid_never_missed ls s E) as (_ & _ & _ & H).
  assert (F : invalid (status s) /\ aborted s = false /\ notified s = 0%nat) by (vm_compute in E; injection E as <-; done).
  destruct F as (F1 & F2 & F3). destruct (H F1 F2) as [H1|(ws & s' & _ & H1 & H2)]; [rewrite F3 in H1; discriminate H1|].
  by exists s, ws, s'.
Defined.
