(* ===== verification/DisplayLoop.v ===== *)
(** * The display loop

    Models the task that [start_pipeline] of src/src/rdp/server/display_handler.rs
    spawns for a connection: one [turn] takes the newest captured frame through the
    resize transaction, the client gate, the frame rate regulator, the wait for the
    EGFX channel, the choice between H.264 and bitmaps, the initialisation of
    encoder and surface, and the output.  It composes Resize.v, Frames.v, Egfx.v,
    Pipeline.v, Bitmap.v and the events of Supervision.v; the other tasks of a
    connection act between turns on the shared [World].  The hardware encoder (not
    in the default build), the heartbeat log and its PTS statistics are left out.
    Instants are nanoseconds. *)
From S2P Require Import Prelude Text Float Damage Egfx AdaptiveFps Governor Simd Color YuvPack H264Level AnnexB Avc444 Avc444Run Avc420 Frames Pipeline.
From S2P Require Bitmap Resize Supervision.

(** ** The encoder of a connection *)

(** [display_handler.rs:485-493 VideoEncoder] *)
Inductive VideoEncoder (C : Type) := Enc420 (e : Avc420Encoder C) | Enc444 (e : Avc444Encoder C).
Arguments Enc420 {C}. Arguments Enc444 {C}.

(** [display_handler.rs:582-595 codec_name] *)
Definition codec_name {C} (e : VideoEncoder C) : str := match e with Enc420 _ => lit "AVC420" | Enc444 _ => lit "AVC444" end.

(** [display_handler.rs:606-613 is_periodic_idr_due] *)
Definition encoder_idr_due {C} (now : Z) (e : VideoEncoder C) : bool := match e with Enc420 _ => false | Enc444 s => is_periodic_idr_due now s end.

(** The settings of the daemon that the loop reads. *)
Record LoopConfig := mkLoopConfig {
  egfx_enabled : bool; egfx_codec : str; avc444_enabled : bool; hardware_enabled : bool;
  h264_bitrate : Z; video_target_fps : Z; color_matrix : str; color_range : str; cfg_qp_min : Z; cfg_qp_max : Z; cfg_threads : Z;
  aux_omission : bool; max_aux_interval : Z; aux_idr_on_return : bool; periodic_idr_interval : Z;
  flip_vertical : bool; rotate_180 : bool;
}.

(** [display_handler.rs:770-772 starts_in_bitmap_mode] *)
Definition starts_in_bitmap_mode (c : LoopConfig) : bool := negb (egfx_enabled c) || eqs (egfx_codec c) (lit "bitmap").

(** [display_handler.rs:2231-2252 start_pipeline] *)
Definition encoder_settings (c : LoopConfig) (encoded_width encoded_height : Z) : EncoderConfig :=
  mkConfig (h264_bitrate c) (f32_of_Z (video_target_fps c)) true (Some encoded_width) (Some encoded_height)
    (Some (space_from_config (color_matrix c) (color_range c) encoded_width encoded_height)) (cfg_qp_min c) (cfg_qp_max c) (wrap 16 (cfg_threads c)).

(** Whether the configuration and the negotiated mode call for AVC444.
    [display_handler.rs:2267-2313 start_pipeline] *)
Definition avc444_chosen `{Unicode} (codec : str) (allowed : bool) (mode : option NegotiatedEgfxMode) : bool :=
  let client_supports_avc444 := bool_decide (mode = Some ModeAvc444) in
  let codec_pref := str_to_lowercase codec in
  if eqs codec_pref (lit "avc420") then false
  else if eqs codec_pref (lit "avc444") then client_supports_avc444 && allowed
  else allowed && client_supports_avc444.

Section encoder.
Context {C : Type} `{Codec C} (cpu : simd) (from_bgra : list Z -> nat -> nat -> Yuv420Frame).

(** [display_handler.rs:549-579 encode_bgra] *)
#[global] Instance video_encoder : Video (VideoEncoder C) := {|
  v_encode t data w h ts e :=
    match e with
    | Enc420 s => let '(r, s) := avc420_encode_bgra from_bgra data w h ts s in
                  ((fun o : option H264Frame => (fun f => (h264_data f, None)) <$> o) <$> r, Enc420 s)
    | Enc444 s => let '(r, s) := encode_bgra cpu t data w h ts s in
                  ((fun o : option Avc444Frame => (fun f => (stream1_data f, stream2_data f)) <$> o) <$> r, Enc444 s)
    end;
  v_idr_due := encoder_idr_due;
|}.

(** The two encoders over the OpenH264 library, which may not load. *)
Context (load : outcome EncoderError unit) (create444 : NativeConfig -> str + C) (create420 : Native420 -> str + C).

(** [display_handler.rs:2353-2414 start_pipeline] *)
Definition create_encoder (now : Z) (c : LoopConfig) (settings : EncoderConfig) (avc444 : bool) : option (VideoEncoder C) :=
  let software := match avc420_new load create420 settings with Ok e => Some (Enc420 e) | _ => None end in
  if avc444 then
    match new load create444 now settings with
    | Ok e => Some (Enc444 (configure_periodic_idr now (periodic_idr_interval c)
                              (configure_aux_omission (aux_omission c) (max_aux_interval c) (aux_idr_on_return c) e)))
    | _ => software
    end
  else software.
End encoder.

(** ** State *)

(** What the client's side of the display receives. *)
Inductive DisplayUpdate := ResizeTo (w h : Z) | BitmapOut (b : Bitmap.IronBitmapUpdate) | DefaultPointer.
(** A bounded channel. *)
Record UpdateChannel := mkChannel { channel_open : bool; channel_capacity : nat; queued : list DisplayUpdate }.
(** [event_multiplexer.rs:8-11 GraphicsFrame] *)
Record GraphicsFrame := mkGraphicsFrame { iron_bitmap : Bitmap.IronBitmapUpdate; sequence : Z }.
Record GraphicsQueue := mkQueue { queue_open : bool; queue_capacity : nat; frames_queued : list GraphicsFrame }.

(** [stream.rs:84-95 PwStreamState] *)
Inductive PwStreamState := Unconnected | Connecting | StreamPaused | StreamStreaming | StreamFailed (msg : str).

(** What the loop keeps for the current client. *)
Record Conn := mkConn {
  cached_frame : option VideoFrame;
  last_frame_time : Z;
  video_stall_reported : bool;
  session_start : Z;
  first_frame_received : bool;
  zero_frame_reported : bool;
  gate_bypassed : bool;
  was_client_active : bool;
}.
Definition with_cached_frame (v : option VideoFrame) (x : Conn) : Conn :=
  mkConn v (last_frame_time x) (video_stall_reported x) (session_start x) (first_frame_received x) (zero_frame_reported x) (gate_bypassed x) (was_client_active x).
Definition with_last_frame_time (v : Z) (x : Conn) : Conn :=
  mkConn (cached_frame x) v (video_stall_reported x) (session_start x) (first_frame_received x) (zero_frame_reported x) (gate_bypassed x) (was_client_active x).
Definition with_video_stall_reported (v : bool) (x : Conn) : Conn :=
  mkConn (cached_frame x) (last_frame_time x) v (session_start x) (first_frame_received x) (zero_frame_reported x) (gate_bypassed x) (was_client_active x).
Definition with_session_start (v : Z) (x : Conn) : Conn :=
  mkConn (cached_frame x) (last_frame_time x) (video_stall_reported x) v (first_frame_received x) (zero_frame_reported x) (gate_bypassed x) (was_client_active x).
Definition with_first_frame_received (v : bool) (x : Conn) : Conn :=
  mkConn (cached_frame x) (last_frame_time x) (video_stall_reported x) (session_start x) v (zero_frame_reported x) (gate_bypassed x) (was_client_active x).
Definition with_zero_frame_reported (v : bool) (x : Conn) : Conn :=
  mkConn (cached_frame x) (last_frame_time x) (video_stall_reported x) (session_start x) (first_frame_received x) v (gate_bypassed x) (was_client_active x).
Definition with_gate_bypassed (v : bool) (x : Conn) : Conn :=
  mkConn (cached_frame x) (last_frame_time x) (video_stall_reported x) (session_start x) (first_frame_received x) (zero_frame_reported x) v (was_client_active x).
Definition with_was_client_active (v : bool) (x : Conn) : Conn :=
  mkConn (cached_frame x) (last_frame_time x) (video_stall_reported x) (session_start x) (first_frame_received x) (zero_frame_reported x) (gate_bypassed x) v.

Section state.
Context {C S : Type}.

(** [display_handler.rs:1419-1558 start_pipeline] *)
Record Locals := mkLocals {
  pipe : Pipeline (option (VideoEncoder C));
  regulator : FrameRateRegulator;
  egfx_sender : option nat;
  frames_sent : Z;
  bitmap_frames_sent : Z;
  conn : Conn;
}.
Definition with_pipe (v : Pipeline (option (VideoEncoder C))) (x : Locals) : Locals :=
  mkLocals v (regulator x) (egfx_sender x) (frames_sent x) (bitmap_frames_sent x) (conn x).
Definition with_regulator (v : FrameRateRegulator) (x : Locals) : Locals :=
  mkLocals (pipe x) v (egfx_sender x) (frames_sent x) (bitmap_frames_sent x) (conn x).
Definition with_egfx_sender (v : option nat) (x : Locals) : Locals :=
  mkLocals (pipe x) (regulator x) v (frames_sent x) (bitmap_frames_sent x) (conn x).
Definition with_frames_sent (v : Z) (x : Locals) : Locals :=
  mkLocals (pipe x) (regulator x) (egfx_sender x) v (bitmap_frames_sent x) (conn x).
Definition with_bitmap_frames_sent (v : Z) (x : Locals) : Locals :=
  mkLocals (pipe x) (regulator x) (egfx_sender x) (frames_sent x) v (conn x).
Definition with_conn (v : Conn) (x : Locals) : Locals :=
  mkLocals (pipe x) (regulator x) (egfx_sender x) (frames_sent x) (bitmap_frames_sent x) v.

(** What the loop shares with the other tasks of its connection.
    [display_handler.rs:676-755 DisplayChannelHandler] *)
Record World := mkWorld {
  stop : bool;
  client_active : bool;
  egfx_needs_init : bool;
  egfx_state : option HandlerState;
  egfx_handle : option nat;
  servers : nat -> GfxServerHandle S;
  events : option EventChannel;
  desk : Z * Z;
  resize : Resize.ResizeCoordinator;
  updates : UpdateChannel;
  graphics_tx : option GraphicsQueue;
  converter : Bitmap.BitmapConverter;
  captured : list VideoFrame;
  stream_events : list PwStreamState;
  health : option (list Supervision.SessionStatusEvent);
  mappings : list (Z * Z * Z * Z);
}.
Definition with_stop (v : bool) (x : World) : World :=
  mkWorld v (client_active x) (egfx_needs_init x) (egfx_state x) (egfx_handle x) (servers x) (events x) (desk x) (resize x) (updates x) (graphics_tx x) (converter x) (captured x) (stream_events x) (health x) (mappings x).
Definition with_client_active (v : bool) (x : World) : World :=
  mkWorld (stop x) v (egfx_needs_init x) (egfx_state x) (egfx_handle x) (servers x) (events x) (desk x) (resize x) (updates x) (graphics_tx x) (converter x) (captured x) (stream_events x) (health x) (mappings x).
Definition with_egfx_needs_init (v : bool) (x : World) : World :=
  mkWorld (stop x) (client_active x) v (egfx_state x) (egfx_handle x) (servers x) (events x) (desk x) (resize x) (updates x) (graphics_tx x) (converter x) (captured x) (stream_events x) (health x) (mappings x).
Definition with_egfx_state (v : option HandlerState) (x : World) : World :=
  mkWorld (stop x) (client_active x) (egfx_needs_init x) v (egfx_handle x) (servers x) (events x) (desk x) (resize x) (updates x) (graphics_tx x) (converter x) (captured x) (stream_events x) (health x) (mappings x).
Definition with_egfx_handle (v : option nat) (x : World) : World :=
  mkWorld (stop x) (client_active x) (egfx_needs_init x) (egfx_state x) v (servers x) (events x) (desk x) (resize x) (updates x) (graphics_tx x) (converter x) (captured x) (stream_events x) (health x) (mappings x).
Definition with_servers (v : nat -> GfxServerHandle S) (x : World) : World :=
  mkWorld (stop x) (client_active x) (egfx_needs_init x) (egfx_state x) (egfx_handle x) v (events x) (desk x) (resize x) (updates x) (graphics_tx x) (converter x) (captured x) (stream_events x) (health x) (mappings x).
Definition with_events (v : option EventChannel) (x : World) : World :=
  mkWorld (stop x) (client_active x) (egfx_needs_init x) (egfx_state x) (egfx_handle x) (servers x) v (desk x) (resize x) (updates x) (graphics_tx x) (converter x) (captured x) (stream_events x) (health x) (mappings x).
Definition with_desk (v : Z * Z) (x : World) : World :=
  mkWorld (stop x) (client_active x) (egfx_needs_init x) (egfx_state x) (egfx_handle x) (servers x) (events x) v (resize x) (updates x) (graphics_tx x) (converter x) (captured x) (stream_events x) (health x) (mappings x).
Definition with_resize (v : Resize.ResizeCoordinator) (x : World) : World :=
  mkWorld (stop x) (client_active x) (egfx_needs_init x) (egfx_state x) (egfx_handle x) (servers x) (events x) (desk x) v (updates x) (graphics_tx x) (converter x) (captured x) (stream_events x) (health x) (mappings x).
Definition with_updates (v : UpdateChannel) (x : World) : World :=
  mkWorld (stop x) (client_active x) (egfx_needs_init x) (egfx_state x) (egfx_handle x) (servers x) (events x) (desk x) (resize x) v (graphics_tx x) (converter x) (captured x) (stream_events x) (health x) (mappings x).
Definition with_graphics_tx (v : option GraphicsQueue) (x : World) : World :=
  mkWorld (stop x) (client_active x) (egfx_needs_init x) (egfx_state x) (egfx_handle x) (servers x) (events x) (desk x) (resize x) (updates x) v (converter x) (captured x) (stream_events x) (health x) (mappings x).
Definition with_converter (v : Bitmap.BitmapConverter) (x : World) : World :=
  mkWorld (stop x) (client_active x) (egfx_needs_init x) (egfx_state x) (egfx_handle x) (servers x) (events x) (desk x) (resize x) (updates x) (graphics_tx x) v (captured x) (stream_events x) (health x) (mappings x).
Definition with_captured (v : list VideoFrame) (x : World) : World :=
  mkWorld (stop x) (client_active x) (egfx_needs_init x) (egfx_state x) (egfx_handle x) (servers x) (events x) (desk x) (resize x) (updates x) (graphics_tx x) (converter x) v (stream_events x) (health x) (mappings x).
Definition with_stream_events (v : list PwStreamState) (x : World) : World :=
  mkWorld (stop x) (client_active x) (egfx_needs_init x) (egfx_state x) (egfx_handle x) (servers x) (events x) (desk x) (resize x) (updates x) (graphics_tx x) (converter x) (captured x) v (health x) (mappings x).
Definition with_health (v : option (list Supervision.SessionStatusEvent)) (x : World) : World :=
  mkWorld (stop x) (client_active x) (egfx_needs_init x) (egfx_state x) (egfx_handle x) (servers x) (events x) (desk x) (resize x) (updates x) (graphics_tx x) (converter x) (captured x) (stream_events x) v (mappings x).
Definition with_mappings (v : list (Z * Z * Z * Z)) (x : World) : World :=
  mkWorld (stop x) (client_active x) (egfx_needs_init x) (egfx_state x) (egfx_handle x) (servers x) (events x) (desk x) (resize x) (updates x) (graphics_tx x) (converter x) (captured x) (stream_events x) (health x) v.
End state.
Arguments Locals : clear implicits. Arguments World : clear implicits.

(** ** Turns *)

(** How a turn of the loop ends. *)
Inductive ending :=
| Stopped | NoFrame | Inactive | WrongGeometry | Regulated | AwaitingEgfx
| EgfxTurn (v : verdict)
| BitmapTooSmall | BitmapRefused (e : Bitmap.ConversionError) | BitmapUnchanged | IronRefused | BitmapsSent (n : nat).

(** The clock readings of a turn, in the order they are taken, and what the
    outside answers: the compositor's mode command, and whether the shared EGFX
    state is free for a write that does not wait. *)
Record Answers := mkAnswers {
  r_top : Z; r_commanded : Z; r_match : Z; r_begin : Z; r_applied : Z; r_frame : Z; r_reset : Z; r_stall : Z; r_zero : Z; r_regulator : Z; r_captured : Z; r_gate : Z; r_init : Z;
  r_times : Times; r_acquired : Z; r_released : Z; r_converted : Z;
  mode_command : bool; state_free : bool;
}.

Section turns.
Context {C : Type} `{Codec C} {S M : Type} `{GraphicsServer S M} `{Unicode}.
Context (cpu : simd) (from_bgra : list Z -> nat -> nat -> Yuv420Frame).
Context (load : outcome EncoderError unit) (create444 : NativeConfig -> str + C) (create420 : Native420 -> str + C).
Context (cfg : LoopConfig) (a : Answers).

Definition St : Type := Locals C * World S.
(** A part of a turn: its value, or the end of the turn. *)
Definition turn (A : Type) : Type := St -> outcome ending A * St.
Definition ret {A} (x : A) : turn A := fun s => (Ok x, s).
Definition bind {A B} (m : turn A) (k : A -> turn B) : turn B := fun s =>
  match m s with (Ok x, s) => k x s | (Err e, s) => (Err e, s) | (Panic, s) => (Panic, s) end.
Definition finish {A} (e : ending) : turn A := fun s => (Err e, s).
Definition here {A} (f : Locals C -> A) : turn A := fun s => (Ok (f s.1), s).
Definition there {A} (f : World S -> A) : turn A := fun s => (Ok (f s.2), s).
Definition set_here (f : Locals C -> Locals C) : turn unit := fun s => (Ok tt, (f s.1, s.2)).
Definition set_there (f : World S -> World S) : turn unit := fun s => (Ok tt, (s.1, f s.2)).
Definition lift_pure {A} (r : outcome Empty_set A) : turn A := fun s => match r with Ok x => (Ok x, s) | Err e => match e with end | Panic => (Panic, s) end.
Local Notation "'let!' x := m 'in' k" := (bind m (fun x => k)) (at level 200, x pattern, m at level 100, k at level 200).
Local Notation "'do!' m 'in' k" := (bind m (fun _ => k)) (at level 200, m at level 100, k at level 200).

Definition on_conn (f : Conn -> Conn) : Locals C -> Locals C := fun l => with_conn (f (conn l)) l.
Definition on_pipe (f : Pipeline (option (VideoEncoder C)) -> Pipeline (option (VideoEncoder C))) : Locals C -> Locals C := fun l => with_pipe (f (pipe l)) l.

(** The pipeline with another encoder, another force flag, one more dropped frame. *)
Definition put_encoder {E F} (e : F) (p : Pipeline E) : Pipeline F :=
  mkPipeline (p_detector p) (p_fps p) (fps_enabled p) (p_governor p) e (force_first_frame p) (frames_dropped p) (frames_skipped_damage p) (egfx_frames_sent p).
Definition force_frame {E} (p : Pipeline E) : Pipeline E :=
  mkPipeline (p_detector p) (p_fps p) (fps_enabled p) (p_governor p) (p_encoder p) true (frames_dropped p) (frames_skipped_damage p) (egfx_frames_sent p).
Definition count_dropped {E} (p : Pipeline E) : Pipeline E :=
  mkPipeline (p_detector p) (p_fps p) (fps_enabled p) (p_governor p) (p_encoder p) (force_first_frame p) (wrap 64 (frames_dropped p + 1)) (frames_skipped_damage p) (egfx_frames_sent p).
Definition forget_picture {E} (p : Pipeline E) : Pipeline E :=
  mkPipeline (invalidate <$> p_detector p) (p_fps p) (fps_enabled p) (p_governor p) (p_encoder p) (force_first_frame p) (frames_dropped p) (frames_skipped_damage p) (egfx_frames_sent p).
Definition fresh_counters {E} (p : Pipeline E) : Pipeline E :=
  mkPipeline (p_detector p) (p_fps p) (fps_enabled p) (p_governor p) (p_encoder p) (force_first_frame p) 0 (frames_skipped_damage p) 0.
Definition with_fps {E} (f : AdaptiveFpsController) (p : Pipeline E) : Pipeline E :=
  mkPipeline (p_detector p) f (fps_enabled p) (p_governor p) (p_encoder p) (force_first_frame p) (frames_dropped p) (frames_skipped_damage p) (egfx_frames_sent p).
(** The encoder and the sender are given up. *)
Definition no_encoder (l : Locals C) : Locals C := with_egfx_sender None (on_pipe (put_encoder None) l).

Definition report (e : Supervision.SessionStatusEvent) (w : World S) : World S := with_health ((fun es => es ++ [e]) <$> health w) w.

(** ** Resizing *)

(** [display_handler.rs:1569-1634 start_pipeline] *)
Definition resize_step : turn unit := fun '(l, w) =>
  let '(_, rz) := Resize.expire_realization (r_top a) (resize w) in
  let '(latest, rz) := Resize.take_ready (r_top a) rz in
  let rz := match latest with
            | None => rz
            | Some r => if mode_command a then (Resize.mark_command_succeeded r (r_commanded a) rz).2 else (Resize.mark_failed r (r_commanded a) rz).2
            end in
  (Ok tt, (l, with_resize rz w)).

(** The exact frame of a requested mode commits it: the size, the converter, the
    detector and the encoder are renewed and the client is told, after a place in
    its queue was reserved.  [display_handler.rs:1702-1811 start_pipeline] *)
Definition commit_resize (f : VideoFrame) : turn unit := fun '(l, w) =>
  let fw := Z.of_nat (Nat.max (f_width f) 1) in
  let fh := Z.of_nat (Nat.max (f_height f) 1) in
  match Resize.matches_realized_frame fw fh (r_match a) (resize w) with
  | None => (Ok tt, (l, w))
  | Some r =>
      let '(started, rz) := Resize.begin_commit r (r_begin a) (resize w) in
      let w := with_resize rz w in
      if negb started then (Ok tt, (l, w))
      else if channel_open (updates w) then
        let rw := Resize.width r in
        let rh := Resize.height r in
        let l := on_pipe force_frame (no_encoder (on_pipe forget_picture l)) in
        let w := with_mappings (mappings w ++ [(rw, rh, fw, fh)]) (with_egfx_needs_init true (with_converter (Bitmap.converter_new rw rh) (with_desk (rw, rh) w))) in
        let w := with_updates (mkChannel true (channel_capacity (updates w)) (queued (updates w) ++ [ResizeTo rw rh])) w in
        (Ok tt, (l, with_resize (Resize.mark_applied r (r_applied a) (resize w)).2 w))
      else (Ok tt, (l, with_resize (Resize.mark_commit_failed r (r_applied a) (resize w)).2 w))
  end.

(** ** Taking a frame *)

(** The capture's state changes become events of the session's supervisor, while
    one listens.  [display_handler.rs:1639-1671 start_pipeline] *)
Definition drain_states (w : World S) : World S :=
  match health w with
  | None => w
  | Some _ =>
      let event st := match st with
                      | StreamStreaming => Some (Supervision.GraphicsStreamStateChanged Supervision.Streaming)
                      | StreamPaused => Some (Supervision.GraphicsStreamStateChanged Supervision.Paused)
                      | StreamFailed _ => Some (Supervision.GraphicsStreamStateChanged Supervision.StreamError)
                      | Unconnected | Connecting => None
                      end in
      with_stream_events [] (fold_left (fun w e => report e w) (omap event (stream_events w)) w)
  end.

(** The newest frame; the older ones are dropped.  [display_handler.rs:1636-1685 start_pipeline] *)
Definition latest_frame : turn (option VideoFrame) := fun '(l, w) =>
  let w := drain_states w in (Ok (last (captured w)), (l, with_captured [] w)).

(** Everything kept for the previous client goes.  [display_handler.rs:1864-1890 start_pipeline] *)
Definition reset_for_client : turn unit := fun '(l, w) =>
  let c := conn l in
  let l := with_frames_sent 0 (no_encoder (on_pipe fresh_counters l)) in
  let l := with_conn (mkConn None (last_frame_time c) (video_stall_reported c) (r_reset a) false false false true) l in
  (Ok tt, (l, with_egfx_needs_init true w)).

(** [display_handler.rs:1813-1893 start_pipeline] *)
Definition frame_arrived (f : VideoFrame) : turn VideoFrame :=
  do! set_here (on_conn (fun c => with_first_frame_received true (with_last_frame_time (r_frame a) (with_cached_frame (Some f) c)))) in
  let! stalled := here (fun l => video_stall_reported (conn l)) in
  do! (if stalled : bool then
         do! set_here (on_conn (with_video_stall_reported false)) in
         set_there (report (Supervision.AspectHealthChanged Supervision.Graphics Supervision.Aspect.Healthy))
       else ret tt) in
  let! active := there client_active in
  if negb active then do! set_here (on_conn (with_was_client_active false)) in finish Inactive
  else
    let! was := here (fun l => was_client_active (conn l)) in
    do! (if was : bool then ret tt else reset_for_client) in ret f.

(** [display_handler.rs:1496-1496 start_pipeline] *)
Definition stall_threshold : Z := secs 3.
(** [display_handler.rs:1517-1517 start_pipeline] *)
Definition zero_frame_threshold : Z := secs 10.
(** [display_handler.rs:1509-1509 start_pipeline] *)
Definition egfx_timeout : Z := secs 5.

(** A capture that stopped is reported once, and so is one that never started.
    [display_handler.rs:1894-1937 start_pipeline] *)
Definition check_stalls : turn unit := fun '(l, w) =>
  let c := conn l in
  let elapsed := since (r_stall a) (last_frame_time c) in
  let stalled := bool_decide (is_Some (cached_frame c)) && negb (video_stall_reported c) && (stall_threshold <? elapsed) in
  let '(c, w) := if stalled then
      (with_video_stall_reported true c,
       report (Supervision.AspectHealthChanged Supervision.Graphics (Supervision.Aspect.Degraded (lit "no frames for " ++ fmt_dec (elapsed / 1000000) ++ lit "ms"))) w)
    else (c, w) in
  let since_start := since (r_zero a) (session_start c) in
  let '(c, w) := if negb (first_frame_received c) && negb (zero_frame_reported c) && (zero_frame_threshold <? since_start) then
      (with_zero_frame_reported true c,
       report (Supervision.AspectHealthChanged Supervision.Graphics
         (Supervision.Aspect.Failed (lit "capture never delivered frames (" ++ fmt_dec (since_start / 1000000) ++ lit "ms)"))) w)
    else (c, w) in
  (Ok tt, (with_conn c l, w)).

(** [display_handler.rs:1209-1223 is_egfx_ready] *)
Definition is_egfx_ready (w : World S) : bool :=
  bool_decide (is_Some (events w)) && bool_decide (is_Some (egfx_handle w)) && match egfx_state w with Some st => is_ready st | None => false end.
(** [display_handler.rs:1226-1232 negotiated_egfx_mode] *)
Definition negotiated_egfx_mode (w : World S) : option NegotiatedEgfxMode := egfx_state w ≫= negotiated_mode.

(** No new frame: the cached one is replayed for a client that waits for its
    first.  [display_handler.rs:1894-2005 start_pipeline] *)
Definition frame_missing : turn VideoFrame :=
  do! check_stalls in
  let! client_waiting := there client_active in
  let! was := here (fun l => was_client_active (conn l)) in
  do! (if client_waiting && negb was then reset_for_client else ret tt) in
  let! needs_init := there egfx_needs_init in
  let! ready := there is_egfx_ready in
  let! cached := here (fun l => cached_frame (conn l)) in
  match cached with
  | Some f => if client_waiting && needs_init && ready then ret f else finish NoFrame
  | None => finish NoFrame
  end.

(** [display_handler.rs:1687-2006 start_pipeline] *)
Definition take_frame : turn VideoFrame :=
  let! latest := latest_frame in
  match latest with
  | Some f => do! commit_resize f in frame_arrived f
  | None => frame_missing
  end.

(** ** Admitting a frame *)

(** [display_handler.rs:2007-2040 start_pipeline] *)
Definition prepare (f : VideoFrame) : turn VideoFrame :=
  let! committed := there desk in
  if negb (bool_decide ((Z.of_nat (f_width f), Z.of_nat (f_height f)) = committed)) then finish WrongGeometry
  else
    let! f := lift_pure (compact_frame f) in
    let! f := (if flip_vertical cfg then lift_pure (flip_frame_vertical f) else ret f) in
    if rotate_180 cfg then lift_pure (rotate_frame_180 f) else ret f.

(** [display_handler.rs:2042-2065 start_pipeline] *)
Definition regulate : turn unit := fun '(l, w) =>
  let p := pipe l in
  let '(l, go) :=
    if fps_enabled p then let '(f, go) := should_capture_frame (r_regulator a) (r_captured a) (p_fps p) in (on_pipe (with_fps f) l, go)
    else let '(r, go) := should_send_frame (r_regulator a) (regulator l) in (with_regulator r l, go) in
  if go : bool then (Ok tt, (with_frames_sent (wrap 64 (frames_sent l + 1)) l, w)) else (Err Regulated, (on_pipe count_dropped l, w)).

(** Output waits for the EGFX channel, but not for ever.
    [display_handler.rs:2088-2111 start_pipeline] *)
Definition egfx_gate : turn unit :=
  let! c := here conn in
  let! ready := there is_egfx_ready in
  if negb (gate_bypassed c) && negb ready then
    if first_frame_received c && (egfx_timeout <? since (r_gate a) (session_start c)) then set_here (on_conn (with_gate_bypassed true))
    else do! set_here (on_pipe count_dropped) in finish AwaitingEgfx
  else ret tt.

(** [display_handler.rs:2113-2133 start_pipeline] *)
Definition late_arrival : turn unit :=
  let! c := here conn in
  let! ready := there is_egfx_ready in
  let! mode := there negotiated_egfx_mode in
  if gate_bypassed c && ready then
    if bool_decide (mode = Some ModeBitmap) then set_there (with_egfx_needs_init false)
    else set_here (on_conn (with_gate_bypassed false))
  else ret tt.

(** ** Choosing the path *)

Definition push_update (u : DisplayUpdate) (w : World S) : World S :=
  with_updates (mkChannel (channel_open (updates w)) (channel_capacity (updates w)) (queued (updates w) ++ [u])) w.
Definition clear_core_reset (st : HandlerState) : HandlerState :=
  mkHandlerState (is_ready st) (negotiated_mode st) (is_avc420_enabled st) (is_avc444_enabled st) false
    (needs_android_pointer_updates st) (primary_surface_id st) (dvc_channel_id st).

(** A pending reset is taken once; the client is sent its size again before the
    fallback, when its queue still exists.
    [display_handler.rs:1234-1255 take_core_graphics_reset] *)
Definition core_reset : turn unit := fun '(l, w) =>
  match egfx_state w with
  | Some st =>
      if requires_core_reset st then
        let w := with_egfx_state (Some (clear_core_reset st)) w in
        let l := no_encoder l in
        if channel_open (updates w) then (Ok tt, (on_pipe force_frame l, push_update (ResizeTo (desk w).1 (desk w).2) w)) else (Ok tt, (l, w))
      else (Ok tt, (l, w))
  | None => (Ok tt, (l, w))
  end.

(** Whether this turn initialises EGFX, and whether it takes the H.264 path.
    [display_handler.rs:2149-2204 start_pipeline] *)
Definition choose_path : turn (bool * bool) :=
  let! bypassed := here (fun l => gate_bypassed (conn l)) in
  let! flag := there egfx_needs_init in
  let needs_init := negb bypassed && flag in
  do! core_reset in
  let! negotiated := there negotiated_egfx_mode in
  let mode := if bypassed : bool then None else negotiated in
  let is_avc := match mode with Some m => uses_avc m | None => false end in
  let use_bitmap := bool_decide (mode = Some ModeBitmap) in
  do! (if use_bitmap then
         do! set_here (fun l => no_encoder (on_conn (with_gate_bypassed true) l)) in set_there (with_egfx_needs_init false)
       else ret tt) in
  let! st := there egfx_state in
  let caps_pending := match st with Some s => negb (is_ready s) | None => false end in
  do! (if needs_init && negb is_avc && negb use_bitmap && negb caps_pending then set_there (with_egfx_needs_init false) else ret tt) in
  ret (needs_init, is_avc).

(** ** Initialising EGFX *)

Definition with_surface (id : Z) (st : HandlerState) : HandlerState :=
  mkHandlerState (is_ready st) (negotiated_mode st) (is_avc420_enabled st) (is_avc444_enabled st) (requires_core_reset st)
    (needs_android_pointer_updates st) (Some id) (dvc_channel_id st).

(** The library is told the visible size, then creates the aligned surface; its
    number is published unless the shared state is being read.  A poisoned lock
    panics.  [display_handler.rs:2434-2487 start_pipeline] *)
Definition create_primary_surface (dw dh ew eh : Z) (gfx : GfxServerHandle S) (st : option HandlerState)
    : outcome Empty_set (GfxServerHandle S * option HandlerState) :=
  if poisoned gfx then Panic
  else
    let sv := resize_with_primary_monitor dw dh (set_output_dimensions dw dh (server gfx)) in
    match create_surface ew eh sv with
    | (Some id, sv) =>
        let sv := (map_surface_to_output id 0 0 sv).2 in
        Ok (mkServer false sv, if state_free a then with_surface id <$> st else st)
    | (None, sv) => Ok (mkServer false sv, st)
    end.

Definition set_server (id : nat) (gfx : GfxServerHandle S) (w : World S) : World S :=
  with_servers (fun n => if bool_decide (n = id) then gfx else servers w n) w.

(** [display_handler.rs:2424-2518 start_pipeline] *)
Definition attach_sender (dw dh ew eh : Z) : turn unit := fun '(l, w) =>
  match egfx_handle w, events w with
  | Some id, Some tx =>
      match create_primary_surface dw dh ew eh (servers w id) (egfx_state w) with
      | Ok (gfx, st) =>
          let '(_, gfx, tx) := flush_pending_server_messages gfx tx in
          let w := with_egfx_needs_init false (with_events (Some tx) (set_server id gfx (with_egfx_state st w))) in
          (Ok tt, (on_pipe force_frame (with_egfx_sender (Some id) l), w))
      | _ => (Panic, (l, w))
      end
  | _, _ => (Ok tt, (l, w))
  end.

Definition dim16 (n : nat) : Z := wrap 16 (Z.of_nat n).

(** [display_handler.rs:2207-2518 start_pipeline] *)
Definition init_egfx (f : VideoFrame) : turn unit :=
  do! set_here (fun l => on_pipe forget_picture (no_encoder l)) in
  let ew := dim16 (align_to_16 (f_width f)) in
  let eh := dim16 (align_to_16 (f_height f)) in
  let! mode := there negotiated_egfx_mode in
  let enc := create_encoder load create444 create420 (r_init a) cfg (encoder_settings cfg ew eh) (avc444_chosen (egfx_codec cfg) (avc444_enabled cfg) mode) in
  do! set_here (on_pipe (put_encoder enc)) in
  match enc with
  | None => ret tt
  | Some _ => attach_sender (dim16 (f_width f)) (dim16 (f_height f)) ew eh
  end.

(** ** Output *)

(** [display_handler.rs:2523-2529 start_pipeline] *)
Definition timestamp_ms (f : VideoFrame) (sent : Z) : Z :=
  if 0 <? pts f then pts f / 1000000 else wrap 64 (sent * (1000 / Z.max (video_target_fps cfg) 1)).

(** A frame of the encoder's kind goes to the sender's server.
    [display_handler.rs:2717-2746 start_pipeline] *)
Definition send_encoded (f : VideoFrame) (timestamp : Z) (dual : bool) (id : nat) (w : World S)
    (regions : list DamageRegion) (main : list Z) (aux : option (list Z)) : outcome SendError Z * World S :=
  match events w with
  | None => (Err EventChannelClosed, w)
  | Some tx =>
      let ew := dim16 (align_to_16 (f_width f)) in
      let eh := dim16 (align_to_16 (f_height f)) in
      let '(r, gfx, tx) :=
        if dual then send_avc444_frame_with_regions main aux ew eh (dim16 (f_width f)) (dim16 (f_height f)) regions (wrap 32 timestamp) (egfx_state w) (servers w id) tx
        else send_frame_with_regions main ew eh (dim16 (f_width f)) (dim16 (f_height f)) regions (wrap 32 timestamp) (egfx_state w) (servers w id) tx in
      (r, with_events (Some tx) (set_server id gfx w))
  end.

Definition is_dual (e : VideoEncoder C) : bool := match e with Enc444 _ => true | Enc420 _ => false end.

(** With an encoder and a sender the frame is theirs, whatever becomes of it.
    [display_handler.rs:2521-2875 start_pipeline] *)
Definition h264_path (f : VideoFrame) : turn unit := fun '(l, w) =>
  match p_encoder (pipe l), egfx_sender l with
  | Some e, Some id =>
      let ts := timestamp_ms f (frames_sent l) in
      let send := send_encoded f ts (is_dual e) id w in
      match process_frame (H := video_encoder cpu from_bgra) (r_times a) (f_data f) (Z.of_nat (f_width f)) (Z.of_nat (f_height f)) ts
              (fun _ rs m x => is_ok (send rs m x).1) (put_encoder e (pipe l)) with
      | Ok (v, p) =>
          let w := match v with Sent rs m x | SendFailed rs m x => (send rs m x).2 | _ => w end in
          (Err (EgfxTurn v), (with_pipe (put_encoder (Some (p_encoder p)) p) l, w))
      | _ => (Panic, (l, w))
      end
  | _, _ => (Ok tt, (l, w))
  end.

(** One bitmap to the queue of the client, or of the multiplexer; what does not
    fit is dropped.  [display_handler.rs:2972-3004 start_pipeline] *)
Definition deliver_bitmap (b : Bitmap.IronBitmapUpdate) : turn unit := fun '(l, w) =>
  match graphics_tx w with
  | Some q =>
      if queue_open q && (length (frames_queued q) <? queue_capacity q)%nat
      then (Ok tt, (l, with_graphics_tx (Some (mkQueue true (queue_capacity q) (frames_queued q ++ [mkGraphicsFrame b (frames_sent l)]))) w))
      else (Ok tt, (l, w))
  | None =>
      if channel_open (updates w) && (length (queued (updates w)) <? channel_capacity (updates w))%nat
      then (Ok tt, (l, push_update (BitmapOut b) w))
      else (Ok tt, (on_pipe count_dropped l, w))
  end.

Fixpoint deliver_bitmaps (bs : list Bitmap.IronBitmapUpdate) : turn unit :=
  match bs with [] => ret tt | b :: bs => do! deliver_bitmap b in deliver_bitmaps bs end.

(** BGRx frames go out as they are, the others through the converter.
    [display_handler.rs:2880-2922 start_pipeline] *)
Definition to_bitmaps (f : VideoFrame) : turn (list Bitmap.BitmapData) :=
  let! f := lift_pure (compact_frame f) in
  match f_format f with
  | BGRx =>
      let expected := (f_width f * f_height f * 4)%nat in
      if (length (f_data f) <? expected)%nat then do! set_here (on_pipe count_dropped) in finish BitmapTooSmall
      else ret [Bitmap.mkBitmap (Bitmap.mkRect 0 0 (dim16 (f_width f)) (dim16 (f_height f))) Bitmap.BgrX32 (take expected (f_data f))]
  | _ => fun '(l, w) =>
      let '(r, c) := Bitmap.convert_frame (r_acquired a) (r_released a) (r_converted a) f (converter w) in
      (match r with Ok bs => Ok bs | Err e => Err (BitmapRefused e) | Panic => Panic end, (l, with_converter c w))
  end.

(** [display_handler.rs:2879-3005 start_pipeline] *)
Definition bitmap_path {A} (f : VideoFrame) : turn A :=
  let! rects := to_bitmaps f in
  match rects with
  | [] => finish BitmapUnchanged
  | _ =>
      match Bitmap.convert_to_iron_format rects with
      | None => finish IronRefused
      | Some irons =>
          do! set_here (fun l => with_bitmap_frames_sent (sat_add u64_max (bitmap_frames_sent l) (Z.of_nat (length irons))) l) in
          do! deliver_bitmaps irons in finish (BitmapsSent (length irons))
      end
  end.

(** ** The turn *)

(** [display_handler.rs:1560-3007 start_pipeline] *)
Definition pipeline_turn : turn Empty_set :=
  let! stopped := there stop in
  if stopped : bool then finish Stopped
  else
    do! resize_step in
    let! f := take_frame in
    let! f := prepare f in
    do! regulate in
    do! egfx_gate in
    do! late_arrival in
    let! path := choose_path in
    let '(needs_init, is_avc) := path in
    do! (if is_avc : bool then
           do! (if needs_init : bool then init_egfx f else ret tt) in h264_path f
         else ret tt) in
    bitmap_path f.

(** ** The rules of the monad *)

(** From [P], [m] goes on with [Q] or ends the turn with [E]; a panic ends the task. *)
Definition triple {A} (P : St -> Prop) (m : turn A) (Q : A -> St -> Prop) (E : ending -> St -> Prop) : Prop :=
  forall s, P s -> match m s with (Ok x, s') => Q x s' | (Err e, s') => E e s' | (Panic, _) => True end.

Lemma triple_bind {A B} P (m : turn A) (k : A -> turn B) R Q E :
  triple P m R E -> (forall x, triple (R x) (k x) Q E) -> triple P (bind m k) Q E.
Proof. intros Hm Hk s Hs. specialize (Hm s Hs). unfold bind. destruct (m s) as [[x|e|] s']; [exact (Hk x s' Hm)|done..]. Qed.
Lemma triple_ret {A} (P : St -> Prop) (x : A) (Q : A -> St -> Prop) E : (forall s, P s -> Q x s) -> triple P (ret x) Q E.
Proof. intros Hq s Hs. by apply Hq. Qed.
Lemma triple_finish {A} (P : St -> Prop) e (Q : A -> St -> Prop) (E : ending -> St -> Prop) : (forall s, P s -> E e s) -> triple P (finish e) Q E.
Proof. intros He s Hs. by apply He. Qed.
Lemma triple_here {A} P (f : Locals C -> A) (Q : A -> St -> Prop) E : (forall s, P s -> Q (f s.1) s) -> triple P (here f) Q E.
Proof. intros Hq s Hs. by apply Hq. Qed.
Lemma triple_there {A} P (f : World S -> A) (Q : A -> St -> Prop) E : (forall s, P s -> Q (f s.2) s) -> triple P (there f) Q E.
Proof. intros Hq s Hs. by apply Hq. Qed.
Lemma triple_set_here P f (Q : unit -> St -> Prop) E : (forall l w, P (l, w) -> Q tt (f l, w)) -> triple P (set_here f) Q E.
Proof. intros Hq [l w] Hs. by apply Hq. Qed.
Lemma triple_set_there P f (Q : unit -> St -> Prop) E : (forall l w, P (l, w) -> Q tt (l, f w)) -> triple P (set_there f) Q E.
Proof. intros Hq [l w] Hs. by apply Hq. Qed.
Lemma triple_pure {A} (P : St -> Prop) (r : outcome Empty_set A) (Q : A -> St -> Prop) E : (forall x s, P s -> Q x s) -> triple P (lift_pure r) Q E.
Proof. intros Hq s Hs. unfold lift_pure. destruct r as [x|[]|]; [by apply Hq|done]. Qed.
Lemma triple_weaken {A} (P P' : St -> Prop) (m : turn A) (Q Q' : A -> St -> Prop) (E E' : ending -> St -> Prop) :
  triple P' m Q' E' -> (forall s, P s -> P' s) -> (forall x s, Q' x s -> Q x s) -> (forall e s, E' e s -> E e s) -> triple P m Q E.
Proof. intros Hm HP HQ HE s Hs. specialize (Hm s (HP s Hs)). destruct (m s) as [[x|e|] s']; auto. Qed.

(** The bitmaps handed over so far. *)
Definition bitmaps_of (us : list DisplayUpdate) : list Bitmap.IronBitmapUpdate := omap (fun u => match u with BitmapOut b => Some b | _ => None end) us.
Definition bitmaps_out (s : St) : list Bitmap.IronBitmapUpdate * option GraphicsQueue := (bitmaps_of (queued (updates s.2)), graphics_tx s.2).

Lemma bitmaps_app us vs : bitmaps_of (us ++ vs) = bitmaps_of us ++ bitmaps_of vs.
Proof. apply omap_app. Qed.

(** [m] hands out no bitmap and, where it ends the turn, ends it before any output. *)
Definition early (e : ending) : Prop := match e with EgfxTurn _ | BitmapsSent _ => False | _ => True end.
Definition quiet {A} (m : turn A) : Prop := forall s, bitmaps_out (m s).2 = bitmaps_out s /\ forall e, (m s).1 = Err e -> early e.

Lemma quiet_bind {A B} (m : turn A) (k : A -> turn B) : quiet m -> (forall x, quiet (k x)) -> quiet (bind m k).
Proof.
  intros Hm Hk s. destruct (Hm s) as [H1' H2']. unfold bind. destruct (m s) as [[x|e|] s']; cbn in *; [|split; [done|]; by intros ? [= <-]; apply H2'|done].
  destruct (Hk x s') as [-> H4']. done.
Qed.
Lemma quiet_ret {A} (x : A) : quiet (ret x). Proof. by intros s. Qed.
Lemma quiet_finish {A} e : early e -> quiet (A := A) (finish e). Proof. intros He s. split; [done|]. by intros ? [= <-]. Qed.
Lemma quiet_here {A} (g : Locals C -> A) : quiet (here g). Proof. by intros s. Qed.
Lemma quiet_there {A} (g : World S -> A) : quiet (there g). Proof. by intros s. Qed.
Lemma quiet_pure {A} (r : outcome Empty_set A) : quiet (lift_pure r). Proof. intros s. by destruct r as [|[]|]. Qed.
Lemma quiet_set_here g : quiet (set_here g). Proof. by intros [l w]. Qed.
Lemma quiet_set_there g : (forall l w, bitmaps_out (l, g w) = bitmaps_out (l, w)) -> quiet (set_there g).
Proof. intros Hg [l w]. split; [apply Hg|done]. Qed.

Local Ltac keep :=
  repeat first
    [ apply quiet_bind; [|intros ?] | apply quiet_ret | apply quiet_finish; exact I | apply quiet_here | apply quiet_there | apply quiet_pure
    | apply quiet_set_here | apply quiet_set_there; done
    | match goal with |- quiet (if ?b then _ else _) => destruct b | |- quiet (match ?o with _ => _ end) => destruct o end ].

Lemma resize_step_quiet : quiet resize_step.
Proof. intros [l w]. unfold resize_step. destruct (Resize.expire_realization _ _) as [e rz]. by destruct (Resize.take_ready _ _) as [t rz']. Qed.
Lemma commit_resize_quiet f : quiet (commit_resize f).
Proof.
  intros [l w]. unfold commit_resize. destruct (Resize.matches_realized_frame _ _ _ _) as [r|]; [|done].
  destruct (Resize.begin_commit _ _ _) as [[] rz]; cbn [negb]; [|done]. destruct (channel_open _); [|done].
  unfold bitmaps_out. cbn. rewrite bitmaps_app. cbn. by rewrite app_nil_r.
Qed.
Lemma drain_states_quiet w : bitmaps_of (queued (updates (drain_states w))) = bitmaps_of (queued (updates w)) /\ graphics_tx (drain_states w) = graphics_tx w.
Proof.
  unfold drain_states. destruct (health w); [|done]. cbn. generalize (omap (fun st => match st with StreamStreaming => Some (Supervision.GraphicsStreamStateChanged Supervision.Streaming) | StreamPaused => Some (Supervision.GraphicsStreamStateChanged Supervision.Paused) | StreamFailed _ => Some (Supervision.GraphicsStreamStateChanged Supervision.StreamError) | _ => None end) (stream_events w)) as es.
  intros es. revert w. induction es as [|e es IH]; intros w; [done|]. cbn. apply (IH (report e w)).
Qed.
Lemma latest_frame_quiet : quiet latest_frame.
Proof. intros [l w]. unfold bitmaps_out. cbn. destruct (drain_states_quiet w) as [-> ->]. done. Qed.
Lemma check_stalls_quiet : quiet check_stalls.
Proof. intros [l w]. unfold check_stalls. destruct (_ && _ && _); cbn [first_frame_received zero_frame_reported with_video_stall_reported session_start]; by destruct (_ && _ && _). Qed.
Lemma take_frame_quiet : quiet take_frame.
Proof.
  unfold take_frame. apply quiet_bind; [apply latest_frame_quiet|]. intros [f|].
  - apply quiet_bind; [apply commit_resize_quiet|]. intros _. unfold frame_arrived. keep. by intros [l w].
  - unfold frame_missing. apply quiet_bind; [apply check_stalls_quiet|intros _]. keep. by intros [l w].
Qed.
Lemma prepare_quiet f : quiet (prepare f).
Proof. unfold prepare. keep. Qed.
Lemma regulate_quiet : quiet regulate.
Proof.
  intros [l w]. unfold regulate. destruct (fps_enabled _).
  - destruct (should_capture_frame _ _ _) as [f []]; (split; [done|]); by intros ? [= <-].
  - destruct (should_send_frame _ _) as [f []]; (split; [done|]); by intros ? [= <-].
Qed.
Lemma egfx_gate_quiet : quiet egfx_gate.
Proof. unfold egfx_gate. keep. Qed.
Lemma late_arrival_quiet : quiet late_arrival.
Proof. unfold late_arrival. keep. Qed.
Lemma core_reset_quiet : quiet core_reset.
Proof.
  intros [l w]. unfold core_reset. destruct (egfx_state w) as [st|]; [|done]. destruct (requires_core_reset st); [|done].
  destruct (channel_open _); [|done]. unfold bitmaps_out. cbn. rewrite bitmaps_app. cbn. by rewrite app_nil_r.
Qed.
Lemma choose_path_quiet : quiet choose_path.
Proof. unfold choose_path. keep. apply core_reset_quiet. Qed.
Lemma init_egfx_quiet f : quiet (init_egfx f).
Proof.
  unfold init_egfx. keep. intros [l w]. unfold attach_sender. destruct (egfx_handle w), (events w); try done.
  destruct (create_primary_surface _ _ _ _ _ _) as [[gfx st]| |]; try done. by destruct (flush_pending_server_messages _ _) as [[r g] tx].
Qed.
Lemma send_encoded_quiet f ts dual id (w : World S) rs m x : updates (send_encoded f ts dual id w rs m x).2 = updates w /\
  graphics_tx (send_encoded f ts dual id w rs m x).2 = graphics_tx w /\ egfx_state (send_encoded f ts dual id w rs m x).2 = egfx_state w /\
  egfx_handle (send_encoded f ts dual id w rs m x).2 = egfx_handle w /\ (is_Some (events w) -> is_Some (events (send_encoded f ts dual id w rs m x).2)).
Proof.
  unfold send_encoded. destruct (events w) as [tx|]; [|by rewrite ?is_Some_alt].
  destruct dual; [destruct (send_avc444_frame_with_regions _ _ _ _ _ _ _ _ _ _) as [[r g] t]|destruct (send_frame_with_regions _ _ _ _ _ _ _ _ _ _) as [[r g] t]]; cbn; eauto.
Qed.
Lemma h264_path_quiet f s : bitmaps_out (h264_path f s).2 = bitmaps_out s.
Proof.
  destruct s as [l w]. unfold h264_path. destruct (p_encoder (pipe l)) as [e|]; [|done]. destruct (egfx_sender l) as [id|]; [|done].
  destruct (process_frame _ _ _ _ _ _ _) as [[v p]| |]; try done. unfold bitmaps_out. destruct v; try done; cbn;
    by destruct (send_encoded_quiet f (timestamp_ms f (frames_sent l)) (is_dual e) id w regions main aux) as (-> & -> & _).
Qed.
Lemma to_bitmaps_quiet f : quiet (to_bitmaps f).
Proof.
  unfold to_bitmaps. keep; intros [l w]; destruct (Bitmap.convert_frame _ _ _ _ _) as [[] c]; (split; [done|]); by intros ? [= <-].
Qed.

(** ** One path per turn *)

(** The client is shown H.264: EGFX is ready with an AVC mode, and has an encoder
    and a sender. *)
Definition on_egfx (s : St) : Prop :=
  gate_bypassed (conn s.1) = false /\ is_egfx_ready s.2 = true /\ (exists m, negotiated_egfx_mode s.2 = Some m /\ uses_avc m = true) /\
  is_Some (p_encoder (pipe s.1)) /\ is_Some (egfx_sender s.1).
Definition off_egfx (s : St) : Prop :=
  gate_bypassed (conn s.1) = true \/ (forall m, negotiated_egfx_mode s.2 = Some m -> uses_avc m = false) \/
  p_encoder (pipe s.1) = None \/ egfx_sender s.1 = None.

Lemma on_off s : on_egfx s -> ~ off_egfx s.
Proof.
  intros (G & _ & (m & Hm & U) & [e He] & [i Hi]) [H'|[H'|[H'|H']]]; try congruence. specialize (H' m Hm). congruence.
Qed.

(** What the paths look at before an encoder exists. *)
Definition view (s : St) : bool * bool * option NegotiatedEgfxMode := (gate_bypassed (conn s.1), is_egfx_ready s.2, negotiated_egfx_mode s.2).

Lemma egfx_gate_ready (s0 : St) : triple (fun s => bitmaps_out s = bitmaps_out s0) egfx_gate
  (fun _ s => bitmaps_out s = bitmaps_out s0 /\ (gate_bypassed (conn s.1) = false -> is_egfx_ready s.2 = true)) (fun _ s => bitmaps_out s = bitmaps_out s0).
Proof.
  intros [l w] Hs. pose proof (proj1 (egfx_gate_quiet (l, w))) as K. unfold egfx_gate, bind, here, there in *. cbn in *.
  destruct (gate_bypassed (conn l)) eqn:G; cbn in *; [by rewrite G|]. destruct (is_egfx_ready w) eqn:R; cbn in *; [by rewrite G|].
  by destruct (_ && _).
Qed.
Lemma late_arrival_ready (s0 : St) : triple (fun s => bitmaps_out s = bitmaps_out s0 /\ (gate_bypassed (conn s.1) = false -> is_egfx_ready s.2 = true)) late_arrival
  (fun _ s => bitmaps_out s = bitmaps_out s0 /\ (gate_bypassed (conn s.1) = false -> is_egfx_ready s.2 = true)) (fun _ _ => False).
Proof.
  intros [l w] [Hs Hr]. unfold late_arrival, bind, here, there. cbn in *. destruct (gate_bypassed (conn l)) eqn:G; cbn; [|by rewrite G].
  destruct (is_egfx_ready w) eqn:R; cbn; [|by rewrite G]. destruct (bool_decide _); cbn; [|by split].
  split; [done|]. by rewrite G.
Qed.

Lemma core_reset_view s : view (core_reset s).2 = view s.
Proof.
  destruct s as [l w]. unfold core_reset. destruct (egfx_state w) as [st|] eqn:E; [|done]. destruct (requires_core_reset st); [|done].
  destruct (channel_open _); unfold view, is_egfx_ready, negotiated_egfx_mode; cbn; by rewrite E.
Qed.

Lemma core_reset_ok s : (core_reset s).1 = Ok tt.
Proof. destruct s as [l w]. unfold core_reset. destruct (egfx_state w) as [st|]; [|done]. destruct (requires_core_reset st); [|done]. by destruct (channel_open _). Qed.

Lemma choose_path_spec (s0 : St) : triple (fun s => bitmaps_out s = bitmaps_out s0 /\ (gate_bypassed (conn s.1) = false -> is_egfx_ready s.2 = true)) choose_path
  (fun p s => bitmaps_out s = bitmaps_out s0 /\
     if p.2 : bool then gate_bypassed (conn s.1) = false /\ is_egfx_ready s.2 = true /\ exists m, negotiated_egfx_mode s.2 = Some m /\ uses_avc m = true
     else off_egfx s) (fun _ _ => False).
Proof.
  set (I s := bitmaps_out s = bitmaps_out s0 /\ (gate_bypassed (conn s.1) = false -> is_egfx_ready s.2 = true)).
  unfold choose_path. apply (triple_bind _ _ _ (fun b s => I s /\ gate_bypassed (conn s.1) = b)); [by apply triple_here|]. intros bypassed.
  apply (triple_bind _ _ _ (fun _ s => I s /\ gate_bypassed (conn s.1) = bypassed)); [by apply triple_there|]. intros flag.
  apply (triple_bind _ _ _ (fun _ s => I s /\ gate_bypassed (conn s.1) = bypassed)).
  { intros s [[Hb Hr] Hg]. pose proof (proj1 (core_reset_quiet s)) as K. pose proof (core_reset_view s) as V. pose proof (core_reset_ok s) as O.
    destruct (core_reset s) as [r s']. cbn in *. subst r. unfold view in V. injection V as V1 V2 V3. unfold I. rewrite K, V1, V2. done. }
  intros _. apply (triple_bind _ _ _ (fun m s => I s /\ gate_bypassed (conn s.1) = bypassed /\ negotiated_egfx_mode s.2 = m)).
  { apply triple_there. tauto. }
  intros negotiated. set (mode := if bypassed then None else negotiated). set (avc := match mode with Some m => uses_avc m | None => false end).
  set (Fin s := bitmaps_out s = bitmaps_out s0 /\
     if avc then gate_bypassed (conn s.1) = false /\ is_egfx_ready s.2 = true /\ exists m, negotiated_egfx_mode s.2 = Some m /\ uses_avc m = true
     else off_egfx s).
  apply (triple_bind _ _ _ (fun _ => Fin)).
  { intros [l w] ([Hb Hr] & Hg & Hm). cbn in *. unfold Fin, avc, mode. destruct bypassed; cbn; [split; [done|by left]|].
    destruct negotiated as [[| |]|]; cbn; (split; [done|]).
    - by left.
    - split; [done|]. split; [by apply Hr|]. by exists ModeAvc420.
    - split; [done|]. split; [by apply Hr|]. by exists ModeAvc444.
    - right. left. intros m. cbn. congruence. }
  intros _. apply (triple_bind _ _ _ (fun _ => Fin)); [by apply triple_there|]. intros st.
  apply (triple_bind _ _ _ (fun _ => Fin)); [destruct (_ && _); [by apply triple_set_there|by apply triple_ret]|]. intros _. by apply triple_ret.
Qed.

Lemma init_egfx_view f s : view (init_egfx f s).2 = view s.
Proof.
  destruct s as [l w]. unfold init_egfx, bind, set_here, there. cbn. destruct (create_encoder _ _ _ _ _ _ _) as [e|]; [|done].
  unfold attach_sender. cbn. destruct (egfx_handle w) as [id|] eqn:Ei; [|done]. destruct (events w) as [tx|] eqn:Et; [|done].
  unfold create_primary_surface. destruct (poisoned _); [done|]. destruct (create_surface _ _ _) as [[sid|] sv]; 
    destruct (flush_pending_server_messages _ _) as [[r g] tx'] eqn:Ef; unfold view, is_egfx_ready, negotiated_egfx_mode; cbn; rewrite Ei, ?Et; [|done].
  destruct (state_free a); [|done]. by destruct (egfx_state w).
Qed.

(** What was sent changes neither readiness nor mode. *)
Lemma sent_view f ts e id v (w : World S) :
  let w' := match v with Sent rs m x | SendFailed rs m x => (send_encoded f ts (is_dual e) id w rs m x).2 | _ => w end in
  is_egfx_ready w = true -> is_egfx_ready w' = true /\ negotiated_egfx_mode w' = negotiated_egfx_mode w.
Proof.
  cbn zeta. intros R. destruct v; try done;
    destruct (send_encoded_quiet f ts (is_dual e) id w regions main aux) as (_ & _ & E1 & E2 & E3); unfold negotiated_egfx_mode; rewrite E1;
    (split; [|done]); unfold is_egfx_ready in *; rewrite E1, E2; apply andb_true_iff in R as [R ->]; apply andb_true_iff in R as [R ->];
    rewrite bool_decide_eq_true_2; try done; apply E3; by apply bool_decide_eq_true in R.
Qed.

Lemma to_bitmaps_off f s : off_egfx s -> off_egfx (to_bitmaps f s).2.
Proof.
  destruct s as [l w]. unfold to_bitmaps, bind, lift_pure. destruct (compact_frame f) as [g|[]|]; [|done]. cbn. destruct (f_format g); cbn;
    first [by destruct (Bitmap.convert_frame _ _ _ _ _) as [[] c] | by match goal with |- context [if ?b then _ else _] => destruct b end].
Qed.
Lemma deliver_bitmaps_off bs s : off_egfx s -> exists s', deliver_bitmaps bs s = (Ok tt, s') /\ off_egfx s'.
Proof.
  revert s. induction bs as [|b bs IH]; intros s Hs; [by exists s|]. cbn. unfold bind.
  assert (exists s1, deliver_bitmap b s = (Ok tt, s1) /\ off_egfx s1) as (s1 & -> & Hs1); [|by apply IH].
  destruct s as [l w]. unfold deliver_bitmap. destruct (graphics_tx w) as [q|]; destruct (_ && _); eexists; (split; [reflexivity|]); exact Hs.
Qed.

(** A turn of the display loop shows a frame in one way only.  It ends on the
    H.264 path only when the channel is ready with an AVC mode, an encoder and a
    sender, and then hands no bitmap to anyone; it hands out bitmaps only when the
    channel was given up, no AVC mode is negotiated, or no encoder or sender could
    be made; and a turn that ends in any other way hands out nothing.  So while a
    client is shown H.264, no bitmap is mixed in. *)
Theorem one_path_per_turn s : match pipeline_turn s with
  | (Err (BitmapsSent _), s') => off_egfx s' /\ ~ on_egfx s'
  | (Err (EgfxTurn _), s') => on_egfx s' /\ ~ off_egfx s' /\ bitmaps_out s' = bitmaps_out s
  | (Err _, s') => bitmaps_out s' = bitmaps_out s
  | _ => True
  end.
Proof.
  set (E e s' := match e with BitmapsSent _ => off_egfx s' | EgfxTurn _ => on_egfx s' /\ bitmaps_out s' = bitmaps_out s | _ => bitmaps_out s' = bitmaps_out s end).
  set (B s' := bitmaps_out s' = bitmaps_out s).
  assert (forall (A : Type) (m : turn A), quiet m -> triple B m (fun _ => B) E) as Hkeep.
  { intros A m Hk s0 Hs0. destruct (Hk s0) as [K1 K2]. unfold B in *. destruct (m s0) as [[x|e|] s1]; cbn in *; [congruence| |done].
    specialize (K2 e eq_refl). unfold E. destruct e; try done; congruence. }
  assert (triple B pipeline_turn (fun _ _ => True) E) as Ht.
  { unfold pipeline_turn. apply (triple_bind _ _ _ (fun _ => B)); [by apply triple_there|]. intros stopped.
    destruct stopped; [by apply triple_finish|]. apply (triple_bind _ _ _ (fun _ => B)); [apply Hkeep, resize_step_quiet|]. intros _.
    apply (triple_bind _ _ _ (fun _ => B)); [apply Hkeep, take_frame_quiet|]. intros f. apply (triple_bind _ _ _ (fun _ => B)); [apply Hkeep, prepare_quiet|].
    clear f. intros f. apply (triple_bind _ _ _ (fun _ => B)); [apply Hkeep, regulate_quiet|]. intros _.
    set (I s' := B s' /\ (gate_bypassed (conn s'.1) = false -> is_egfx_ready s'.2 = true)).
    apply (triple_bind _ _ _ (fun _ => I)).
    { intros s0 Hs0. pose proof (egfx_gate_ready s s0 Hs0) as G. destruct (egfx_gate_quiet s0) as [_ Q]. destruct (egfx_gate s0) as [[x|e|] s1]; cbn in *; [exact G| |done].
      specialize (Q e eq_refl). unfold E. destruct e; try done; congruence. }
    intros _. apply (triple_bind _ _ _ (fun _ => I)); [apply (triple_weaken _ _ _ _ _ _ _ (late_arrival_ready s)); done|]. intros _.
    set (P (p : bool * bool) s' := B s' /\ if p.2 then gate_bypassed (conn s'.1) = false /\ is_egfx_ready s'.2 = true /\ exists m, negotiated_egfx_mode s'.2 = Some m /\ uses_avc m = true
                 else off_egfx s').
    apply (triple_bind _ _ _ P); [apply (triple_weaken _ _ _ _ _ _ _ (choose_path_spec s)); done|]. intros [needs_init is_avc].
    apply (triple_bind _ _ _ (fun _ s' => B s' /\ off_egfx s')).
    - unfold P. destruct is_avc; cbn [snd]; [|by apply triple_ret]. apply (triple_bind _ _ _ (fun _ => P (needs_init, true))).
      + destruct needs_init; [|by apply triple_ret]. intros s0 [Hb Hv]. destruct (init_egfx_quiet f s0) as [K1 K2]. pose proof (init_egfx_view f s0) as V.
        unfold view in V. injection V as V1 V2 V3. unfold P. cbn [snd]. destruct (init_egfx f s0) as [[x|e|] s1]; cbn in *; [| |done].
        * unfold B in *. rewrite K1, V1, V2, V3. done.
        * specialize (K2 e eq_refl). unfold E. unfold B in *. destruct e; try done; congruence.
      + intros _ [l w] [Hb (G & R & Hm)]. pose proof (h264_path_quiet f (l, w)) as K. cbn [fst snd] in *. unfold h264_path in *.
        destruct (p_encoder (pipe l)) as [e|] eqn:Ee; [|split; [exact Hb|]; right; right; left; exact Ee].
        destruct (egfx_sender l) as [id|] eqn:Ei; [|split; [exact Hb|]; do 3 right; exact Ei].
        destruct (process_frame _ _ _ _ _ _ _) as [[v p]| |]; [|done..]. unfold B in Hb. cbn [fst snd] in K. split; [|rewrite <- Hb; exact K].
        destruct (sent_view f (timestamp_ms f (frames_sent l)) e id v w) as (S1 & S2); [exact R|].
        unfold on_egfx. cbn [fst snd]. rewrite S1, S2. cbn. rewrite Ei. split_and!; [exact G|done|exact Hm|by eexists|by eexists].
    - intros _. unfold bitmap_path. apply (triple_bind _ _ _ (fun _ s' => B s' /\ off_egfx s')).
      + intros s0 [Hb Ho]. destruct (to_bitmaps_quiet f s0) as [K1 K2]. pose proof (to_bitmaps_off f s0 Ho) as O.
        destruct (to_bitmaps f s0) as [[x|e|] s1]; cbn in *; unfold B in *; [split; congruence || done| |done].
        specialize (K2 e eq_refl). unfold E. destruct e; try done; congruence.
      + intros rects. destruct rects as [|r rects]; [apply triple_finish; by intros s' []|]. destruct (Bitmap.convert_to_iron_format _) as [irons|]; [|apply triple_finish; by intros s' []].
        apply (triple_bind _ _ _ (fun _ => off_egfx)); [apply triple_set_here; by intros l w []|]. intros _.
        apply (triple_bind _ _ _ (fun _ => off_egfx)); [|intros _; by apply triple_finish].
        intros s0 Hs0. destruct (deliver_bitmaps_off irons s0 Hs0) as (s1 & -> & O). done. }
  specialize (Ht s eq_refl). destruct (pipeline_turn s) as [[[]|e|] s']; [|done]. destruct e; try exact Ht.
  - destruct Ht as [Ht Hb]. split; [done|]. split; [by apply on_off|done].
  - split; [done|]. intros ?. by eapply on_off.
Qed.

(** ** The encoder and the negotiated codec *)

Definition accepted_by (e : VideoEncoder C) (st : option HandlerState) : bool := is_ok (if is_dual e then avc444_state st else avc420_state st).

Lemma unaccepted_not_sent f ts e id (w : World S) rs m x : accepted_by e (egfx_state w) = false -> is_ok (send_encoded f ts (is_dual e) id w rs m x).1 = false.
Proof.
  unfold accepted_by, send_encoded. destruct (events w) as [tx|]; [|done]. intros Ha. destruct (is_dual e).
  - unfold send_avc444_frame_with_regions. destruct (validate_frame _ _ _ _ _); cbn [mbind outcome_bind]; [|done..].
    destruct (bool_decide _); cbn [mbind outcome_bind]; [done|]. by destruct (avc444_state (egfx_state w)).
  - unfold send_frame_with_regions. destruct (validate_frame _ _ _ _ _); cbn [mbind outcome_bind]; [|done..]. by destruct (avc420_state (egfx_state w)).
Qed.

Lemma unaccepted_turn f l w e : p_encoder (pipe l) = Some e -> accepted_by e (egfx_state w) = false ->
  match h264_path f (l, w) with (Err (EgfxTurn (Sent _ _ _)), _) => False | _ => True end.
Proof.
  intros He Ha. unfold h264_path. rewrite He. destruct (egfx_sender l) as [id|]; [|done]. destruct (process_frame _ _ _ _ _ _ _) as [[v p]| |] eqn:E; [|done..].
  destruct v; try done. apply process_frame_delivered in E as [_ E]. by rewrite unaccepted_not_sent in E.
Qed.

Lemma lower_ascii s : forallb (fun c => is_ascii c && negb (is_ascii_upper c)) s = true -> str_to_lowercase s = s.
Proof.
  unfold str_to_lowercase. induction s as [|c s IH]; [done|]. cbn. intros Hs. apply andb_true_iff in Hs as [Hc Hs]. apply andb_true_iff in Hc as [Ha Hu].
  rewrite to_lowercase_ascii by done. unfold ascii_lower. destruct (is_ascii_upper c); [done|]. cbn. f_equal. by apply IH.
Qed.

Lemma chosen_for_policy codec policy allowed mode : parse_codec_policy codec = Some policy ->
  avc444_chosen codec allowed (Some mode) = bool_decide (mode = ModeAvc444) && allowed && negb (bool_decide (policy = Avc420)).
Proof.
  unfold parse_codec_policy, avc444_chosen. repeat (match goal with |- context [eqs codec ?l] => destruct (eqs codec l) eqn:?E end); try done;
    intros [= <-]; match goal with Heq : eqs codec _ = true |- _ => apply eqs_true in Heq; subst codec end; rewrite lower_ascii by done; cbn;
    destruct allowed, mode; done.
Qed.

(** The encoder a connection gets agrees with the mode negotiated for it in all
    cases but one: when the client negotiated AVC444 and the configuration turns
    AVC444 off, or its encoder cannot be created, the loop falls back to an AVC420
    encoder whose frames the sender refuses, and then no turn on the H.264 path
    ever sends a frame.  In every other case the sender accepts the encoder's
    frames. *)
Theorem encoder_matches_mode `{EgfxFlags} now policy cap settings e :
  parse_codec_policy (egfx_codec cfg) = Some policy ->
  let mode := select_mode (effective_codec_policy policy (hardware_enabled cfg)) (codec_support cap) in
  uses_avc mode = true ->
  create_encoder load create444 create420 now cfg settings (avc444_chosen (egfx_codec cfg) (avc444_enabled cfg) (Some mode)) = Some e ->
  let st := Some (ready_with mode) in
  (accepted_by e st = true <-> (mode = ModeAvc444 -> avc444_enabled cfg = true /\ is_ok (new load create444 now settings) = true)) /\
  (accepted_by e st = false -> forall f l w, p_encoder (pipe l) = Some e -> egfx_state w = st ->
     match h264_path f (l, w) with (Err (EgfxTurn (Sent _ _ _)), _) => False | _ => True end).
Proof.
  intros Hp. cbn zeta. set (mode := select_mode _ _). intros Hm Hc. split.
  - rewrite (chosen_for_policy _ _ _ _ Hp) in Hc. unfold accepted_by. destruct (ready_with_codec mode) as [R420 R444]. assert (is_ok (if is_dual e then avc444_state (Some (ready_with mode)) else avc420_state (Some (ready_with mode))) = if is_dual e then bool_decide (mode = ModeAvc444) else bool_decide (mode = ModeAvc420)) as -> by (by destruct (is_dual e)).
    assert (policy = Avc420 -> mode <> ModeAvc444) as Hpol by (intros ->; unfold mode; cbn; by destruct (codec_support cap) as [[] []]).
    unfold create_encoder in Hc. destruct mode; [done|..]; cbn [bool_decide] in *.
    + rewrite (bool_decide_eq_false_2 (ModeAvc420 = ModeAvc444)) in Hc by done. cbn [andb] in Hc. destruct (avc420_new _ _ _); [|done..]. injection Hc as <-. cbn. split; [by intros _|done].
    + rewrite (bool_decide_eq_true_2 (ModeAvc444 = ModeAvc444)), (bool_decide_eq_false_2 (policy = Avc420)) in Hc by (done || tauto). cbn [andb negb] in Hc.
      rewrite andb_true_r in Hc. destruct (avc444_enabled cfg).
      * destruct (new load create444 now settings) as [enc|e'|]; [injection Hc as <-; cbn; split; [done|done]|..];
          (destruct (avc420_new _ _ _); [|done..]; injection Hc as <-; cbn; split; [done|]; intros Hx; by destruct (Hx eq_refl)).
      * destruct (avc420_new _ _ _); [|done..]. injection Hc as <-. cbn. split; [done|]. intros Hx. by destruct (Hx eq_refl).
  - intros Ha f l w He Hw. apply (unaccepted_turn f l w e); [done|]. by rewrite Hw.
Qed.

(** ** Starting *)

(** [display_handler.rs:1344-1526 start_pipeline] *)
Definition locals_new (now : Z) (damage : option DamageConfig) (fps : AdaptiveFpsConfig) (damage_service : bool) (latency : str) : Locals C :=
  let on := AdaptiveFps.enabled fps && damage_service in
  let d := fps_config_default in
  let fps_config := mkFpsConfig on (min_fps fps) (AdaptiveFps.max_fps fps) (history_size d) (high_activity_threshold fps)
                      (medium_activity_threshold fps) (low_activity_threshold fps) (ramp_up_frames d) (ramp_down_frames d) in
  let mode := if eqs latency (lit "interactive") then Interactive else if eqs latency (lit "quality") then Quality else Balanced in
  mkLocals (mkPipeline (detector_new <$> damage) (fps_new now fps_config) on (governor_new now mode) None false 0 0 0)
    (regulator_new now (AdaptiveFps.max_fps fps)) None 0 0 (mkConn None now false now false false (starts_in_bitmap_mode cfg) false).

(** [display_handler.rs:1041-1108 new_direct] *)
Definition world_new (w h : Z) (handler : option HandlerState) (handle : option nat) (table : nat -> GfxServerHandle S) : World S :=
  mkWorld false false true handler handle table None (w, h) (Resize.coordinator_new w h)
    (mkChannel true 64 []) None (Bitmap.converter_new w h) [] [] None [].

(** The protocol library asks for the client's updates: at first, and again when a
    resize reactivates the display, with a new channel and EGFX to set up anew.
    [display_handler.rs:3117-3189 updates] *)
Definition open_updates (receiver_taken converter_free : bool) (w : World S) : World S :=
  let w := if receiver_taken then
             let w := with_egfx_needs_init true (with_updates (mkChannel true 64 []) w) in
             if converter_free then with_converter (Bitmap.converter_new (desk w).1 (desk w).2) w else w
           else w in
  let w := with_client_active true w in
  if channel_open (updates w) && (length (queued (updates w)) <? channel_capacity (updates w))%nat then push_update DefaultPointer w else w.

(** [display_handler.rs:1150-1154 on_client_disconnect] *)
Definition on_client_disconnect (w : World S) : World S := with_client_active false w.
(** [display_handler.rs:1157-1164 release_connection_resources] *)
Definition release_connection_resources (w : World S) : World S := on_client_disconnect (with_stop true w).
(** [display_handler.rs:1196-1201 reset_update_channel] *)
Definition reset_update_channel (w : World S) : World S := with_updates (mkChannel true 64 []) w.

(** The initial size is the one the session was bound with, whatever is asked.
    [display_handler.rs:3072-3106 request_initial_size] *)
Definition request_initial_size (_client_size : Z * Z) (w : World S) : Z * Z := desk w.

(** [display_handler.rs:3191-3246 request_layout] *)
Definition request_layout (adjust : Z -> Z -> Z * Z) (display : DisplayConfig) (managed : bool) (monitors : list (bool * (Z * Z))) (w : World S) : World S :=
  match (match list_find (fun m : bool * (Z * Z) => m.1 = true) monitors with Some (_, m) => Some m | None => head monitors end) with
  | None => w
  | Some (_, (raw_w, raw_h)) =>
      if negb managed then w
      else match allowed_resize adjust display raw_w raw_h with
           | None => w
           | Some (nw, nh) => with_resize (Resize.request (Resize.mkRequest nw nh) (resize w)) w
           end
  end.

(** [display_handler.rs:1268-1296 egfx_wait_reason] *)
Definition egfx_wait_reason (w : World S) : str :=
  match events w, egfx_handle w, egfx_state w with
  | None, _, _ => lit "waiting for client connection"
  | Some _, None, _ => lit "client connected, waiting for EGFX channel"
  | Some _, Some _, None => lit "EGFX channel open, initializing handler state"
  | Some _, Some _, Some st =>
      if negb (is_ready st) then lit "EGFX channel open, negotiating capabilities"
      else match negotiated_mode st with
           | Some ModeBitmap => lit "EGFX unavailable by policy; using FastPath bitmap"
           | Some _ => lit "EGFX ready, AVC/H.264 negotiated"
           | None => lit "ready"
           end
  end.

(** ** A client without the channel *)

(** A running turn with a plain BGRx frame of the desktop's size, for a client that
    never negotiated EGFX, no resize under way and room in its queue. *)
Record plain_turn (f : VideoFrame) (l : Locals C) (w : World S) : Prop := mkPlainTurn {
  pt_running : stop w = false;
  pt_active : client_active w = true /\ was_client_active (conn l) = true;
  pt_no_channel : egfx_state w = None;
  pt_capture : last (captured w) = Some f /\ stream_events w = [] /\ video_stall_reported (conn l) = false;
  pt_no_resize : Resize.pending (resize w) = None /\ Resize.in_flight (resize w) = None;
  pt_frame : f_format f = BGRx /\ f_stride f = (f_width f * 4)%nat /\ length (f_data f) = (f_width f * f_height f * 4)%nat;
  pt_size : 0 < Z.of_nat (f_width f) < 65536 /\ 0 < Z.of_nat (f_height f) < 65536 /\ desk w = (Z.of_nat (f_width f), Z.of_nat (f_height f));
  pt_upright : flip_vertical cfg = false /\ rotate_180 cfg = false;
  pt_room : graphics_tx w = None /\ channel_open (updates w) = true /\ (length (queued (updates w)) < channel_capacity (updates w))%nat;
}.

Lemma with_resize_same (w : World S) : with_resize (resize w) w = w.
Proof. by destruct w. Qed.

Lemma with_stream_events_same (w : World S) : with_stream_events (stream_events w) w = w.
Proof. by destruct w. Qed.
Lemma drain_states_idle (w : World S) : stream_events w = [] -> drain_states w = w.
Proof. intros He. unfold drain_states. destruct (health w); [|done]. rewrite He. cbn [omap list_omap fold_left]. by rewrite <- He, with_stream_events_same. Qed.

Lemma take_ready_idle now rz : Resize.pending rz = None -> Resize.in_flight rz = None -> Resize.take_ready now rz = (None, rz).
Proof.
  intros Hp Hf. unfold Resize.take_ready. rewrite Hf, Hp. destruct (Resize.committing rz); [done|].
  by destruct (match Resize.retry_not_before rz with Some _ => _ | None => false end).
Qed.
Lemma resize_step_idle l w : Resize.pending (resize w) = None -> Resize.in_flight (resize w) = None -> resize_step (l, w) = (Ok tt, (l, w)).
Proof. intros Hp Hf. unfold resize_step, Resize.expire_realization. rewrite Hf, take_ready_idle by done. by rewrite with_resize_same. Qed.

Lemma take_frame_plain f l w : plain_turn f l w ->
  take_frame (l, w) = (Ok f, (on_conn (fun c => with_first_frame_received true (with_last_frame_time (r_frame a) (with_cached_frame (Some f) c))) l, with_captured [] w)).
Proof.
  intros []. destruct pt_capture0 as (Hc & He & Hs), pt_active0 as [Ha Hwas], pt_no_resize0 as [_ Hf].
  assert (latest_frame (l, w) = (Ok (Some f), (l, with_captured [] w))) as Hl.
  { unfold latest_frame. rewrite drain_states_idle by done. by rewrite Hc. }
  unfold take_frame, bind. rewrite Hl. unfold commit_resize, Resize.matches_realized_frame. cbn. rewrite Hf. cbn. rewrite Hs. cbn. rewrite Ha. cbn. by rewrite Hwas.
Qed.

Lemma prepare_plain f l w l' : plain_turn f l w -> prepare f (l', with_captured [] w) = (Ok f, (l', with_captured [] w)).
Proof.
  intros []. destruct pt_frame0 as (Hf & Hs & _), pt_size0 as (Hw & Hh & Hd), pt_upright0 as [Hv Hr].
  unfold prepare, bind, there. cbn. rewrite Hd, bool_decide_eq_true_2 by done. cbn.
  assert (compact_frame f = Ok f) as ->. { unfold compact_frame, bpp. rewrite Hf, Hs. cbn. rewrite (proj2 (Z.leb_le _ _)) by (unfold u32_max; lia). by rewrite Nat.eqb_refl. }
  cbn. by rewrite Hv, Hr.
Qed.

Lemma to_bitmaps_plain f l w s : plain_turn f l w -> to_bitmaps f s =
  (Ok [Bitmap.mkBitmap (Bitmap.mkRect 0 0 (Z.of_nat (f_width f)) (Z.of_nat (f_height f))) Bitmap.BgrX32 (f_data f)], s).
Proof.
  intros []. destruct pt_frame0 as (Hf & Hs & Hl), pt_size0 as (Hw & Hh & Hd). unfold to_bitmaps, bind.
  assert (compact_frame f = Ok f) as ->. { unfold compact_frame, bpp. rewrite Hf, Hs. cbn. rewrite (proj2 (Z.leb_le _ _)) by (unfold u32_max; lia). by rewrite Nat.eqb_refl. }
  unfold lift_pure. rewrite Hf, Hl, Nat.ltb_irrefl, <- Hl, firstn_all. unfold dim16. rewrite !wrap_small by lia. done.
Qed.

(** Whether the frame rate regulator in charge lets the turn through. *)
Definition paced (l : Locals C) : bool :=
  if fps_enabled (pipe l) then (should_capture_frame (r_regulator a) (r_captured a) (p_fps (pipe l))).2 else (should_send_frame (r_regulator a) (regulator l)).2.
(** Whether the wait for the channel is over. *)
Definition wait_over (l : Locals C) : bool := gate_bypassed (conn l) || (egfx_timeout <? since (r_gate a) (session_start (conn l))).
(** The whole frame as one bitmap. *)
Definition picture (f : VideoFrame) : DisplayUpdate :=
  BitmapOut (Bitmap.mkIron 0 0 (Z.of_nat (f_width f)) (Z.of_nat (f_height f)) Bitmap.IronBgrX32 (f_data f) (Z.of_nat (f_width f) * 4)).

Lemma regulate_paced l w : exists l', conn l' = conn l /\ p_encoder (pipe l') = p_encoder (pipe l) /\
  regulate (l, w) = (if paced l then Ok tt else Err Regulated, (l', w)).
Proof.
  unfold regulate, paced. destruct (fps_enabled (pipe l)).
  - destruct (should_capture_frame _ _ _) as [g []]; eexists; (split; [|split; [|reflexivity] ]); done.
  - destruct (should_send_frame _ _) as [g []]; eexists; (split; [|split; [|reflexivity] ]); done.
Qed.

Lemma egfx_gate_plain l w : egfx_state w = None -> first_frame_received (conn l) = true -> exists l',
  egfx_gate (l, w) = (if wait_over l then Ok tt else Err AwaitingEgfx, (l', w)) /\ (wait_over l = true -> gate_bypassed (conn l') = true).
Proof.
  intros Hs Hf. unfold egfx_gate, bind, here, there, wait_over. cbn [fst snd].
  assert (is_egfx_ready w = false) as -> by (unfold is_egfx_ready; rewrite Hs; apply andb_false_r). rewrite Hf. cbn [negb andb].
  destruct (gate_bypassed (conn l)) eqn:G; cbn [negb andb orb]; [by exists l|].
  destruct (egfx_timeout <? _); eexists; (split; [reflexivity|]); done.
Qed.

Lemma choose_path_plain l w : egfx_state w = None -> gate_bypassed (conn l) = true ->
  late_arrival (l, w) = (Ok tt, (l, w)) /\ choose_path (l, w) = (Ok (false, false), (l, w)).
Proof.
  intros Hs Hg. assert (is_egfx_ready w = false) as Hr by (unfold is_egfx_ready; rewrite Hs; apply andb_false_r). split.
  - unfold late_arrival, bind, here, there. cbn [fst snd]. by rewrite Hr, andb_false_r.
  - unfold choose_path, core_reset, bind, here, there. cbn [fst snd]. by rewrite Hg, Hs.
Qed.

Lemma bitmap_path_plain f l w0 w s : plain_turn f l w0 -> s.2 = w -> graphics_tx w = graphics_tx w0 -> updates w = updates w0 ->
  exists l', bitmap_path (A := Empty_set) f s = (Err (BitmapsSent 1), (l', push_update (picture f) w)).
Proof.
  intros Hp Hs Hg Hu. destruct s as [l1 ?]. cbn in Hs. subst. unfold bitmap_path, bind. rewrite (to_bitmaps_plain f l w0) by done.
  destruct Hp, pt_size0 as (Hw & Hh & _), pt_room0 as (Ht & Ho & Hl). unfold Bitmap.convert_to_iron_format, Bitmap.to_iron. cbn [mapM Bitmap.bitmap_format Bitmap.rectangle Bitmap.bitmap_data].
  assert (Bitmap.rect_width (Bitmap.mkRect 0 0 (Z.of_nat (f_width f)) (Z.of_nat (f_height f))) = Z.of_nat (f_width f)) as -> by (unfold Bitmap.rect_width, sat_sub; cbn [Bitmap.r_right Bitmap.r_left]; lia).
  assert (Bitmap.rect_height (Bitmap.mkRect 0 0 (Z.of_nat (f_width f)) (Z.of_nat (f_height f))) = Z.of_nat (f_height f)) as -> by (unfold Bitmap.rect_height, sat_sub; cbn [Bitmap.r_bottom Bitmap.r_top]; lia).
  rewrite !(proj2 (Z.eqb_neq _ 0)) by lia. cbn [orb mbind option_bind option_ret mret Bitmap.r_left Bitmap.r_top set_here fst snd deliver_bitmaps].
  unfold bind, deliver_bitmap, ret, finish. rewrite Hg, Ht, Hu, Ho, (proj2 (Nat.ltb_lt _ _)) by done. cbn [andb]. eexists. reflexivity.
Qed.

(** C17. A client that never negotiates EGFX is served all the same.  Whatever the
    loop's own state, a turn with a plain frame of the desktop's size ends as the
    regulator and the clock decide: held back for the frame rate, waiting for the
    channel during the first five seconds after the client's arrival, and after that always
    the whole frame, unchanged, as the one new update in the client's queue.  No
    turn of such a client panics or reports an error. *)
Theorem no_channel_client_served f l w : plain_turn f l w ->
  let '(r, (_, w')) := pipeline_turn (l, w) in
  r = Err (if paced l then if wait_over l then BitmapsSent 1 else AwaitingEgfx else Regulated) /\
  queued (updates w') = queued (updates w) ++ (if paced l && wait_over l then [picture f] else []).
Proof.
  intros Hp. unfold pipeline_turn. unfold bind at 1, there at 1. cbn [fst snd]. rewrite (pt_running _ _ _ Hp).
  destruct (pt_no_resize _ _ _ Hp) as [Hn Hi]. unfold bind at 1. rewrite resize_step_idle by done.
  unfold bind at 1. rewrite (take_frame_plain f) by done. set (l1 := on_conn _ l). set (w1 := with_captured [] w).
  unfold bind at 1. unfold w1. rewrite (prepare_plain f l w l1) by done. fold w1. unfold bind at 1.
  destruct (regulate_paced l1 w1) as (l2 & Hc & _ & ->). assert (paced l1 = paced l) as -> by done.
  destruct (paced l); [|cbn; by rewrite app_nil_r]. unfold bind at 1.
  assert (egfx_state w1 = None) as Hs by exact (pt_no_channel _ _ _ Hp).
  destruct (egfx_gate_plain l2 w1 Hs) as (l3 & -> & Hb); [by rewrite Hc|]. assert (wait_over l2 = wait_over l) as Ho by (unfold wait_over; by rewrite Hc).
  rewrite Ho in *. destruct (wait_over l); [|cbn; by rewrite app_nil_r]. destruct (choose_path_plain l3 w1 Hs (Hb eq_refl)) as [La Ch].
  unfold bind at 1. rewrite La. unfold bind at 1. rewrite Ch. unfold bind at 1, ret at 1.
  destruct (bitmap_path_plain f l w w1 (l3, w1) Hp) as (l4 & ->); done.
Qed.
End turns.

(** ** A desktop that does not change *)

Section static.
Context {C : Type} `{Codec C} {S M : Type} `{GraphicsServer S M} `{Unicode}.
Context (cpu : simd) (from_bgra : list Z -> nat -> nat -> Yuv420Frame).
Context (load : outcome EncoderError unit) (create444 : NativeConfig -> str + C) (create420 : Native420 -> str + C) (cfg : LoopConfig).

Local Notation take := (pipeline_turn cpu from_bgra load create444 create420 cfg).

(** The turns of the loop, one after the other, and how each of them ended. *)
Fixpoint run_turns (ts : list Answers) (s : Locals C * World S) : list ending * (Locals C * World S) :=
  match ts with
  | [] => ([], s)
  | a :: ts =>
      match take a s with
      | (Err e, s) => let '(es, s) := run_turns ts s in (e :: es, s)
      | (_, s) => ([], s)
      end
  end.

(** A client is there, and the capture delivers nothing; no frame is kept, or the
    one kept is from before the client. *)
Definition starved (s : Locals C * World S) : Prop :=
  stop s.2 = false /\ client_active s.2 = true /\ captured s.2 = [] /\ (was_client_active (conn s.1) = true -> cached_frame (conn s.1) = None).
(** What the client can be shown, and what the display library was told. *)
Definition shown (w : World S) := (queued (updates w), graphics_tx w, servers w, events w).

Lemma drain_states_frame (w : World S) : let w' := drain_states w in
  stop w' = stop w /\ client_active w' = client_active w /\ captured w' = captured w /\ shown w' = shown w /\ egfx_needs_init w' = egfx_needs_init w.
Proof.
  cbn zeta. unfold drain_states. destruct (health w); [|done]. set (w' := fold_left _ _ _).
  assert (stop w' = stop w /\ client_active w' = client_active w /\ captured w' = captured w /\ shown w' = shown w /\ egfx_needs_init w' = egfx_needs_init w) as K; [|exact K].
  unfold w'. generalize (omap (fun st => match st with StreamStreaming => Some (Supervision.GraphicsStreamStateChanged Supervision.Streaming) | StreamPaused => Some (Supervision.GraphicsStreamStateChanged Supervision.Paused) | StreamFailed _ => Some (Supervision.GraphicsStreamStateChanged Supervision.StreamError) | _ => None end) (stream_events w)).
  intros es. clear w'. revert w. induction es as [|e es IH]; intros w; [done|]. cbn [fold_left]. exact (IH (report e w)).
Qed.

Lemma resize_step_frame a (s : Locals C * World S) : exists rz, resize_step a s = (Ok tt, (s.1, with_resize rz s.2)).
Proof.
  destruct s as [l w]. unfold resize_step. destruct (Resize.expire_realization _ _) as [e rz]. destruct (Resize.take_ready _ _) as [t rz']. eexists. reflexivity.
Qed.

Lemma check_stalls_frame a l (w : World S) : exists c h, check_stalls a (l, w) = (Ok tt, (with_conn c (C := C) l, with_health h w)) /\
  cached_frame c = cached_frame (conn l) /\ was_client_active c = was_client_active (conn l).
Proof.
  unfold check_stalls. destruct (_ && _ && _).
  - cbn [first_frame_received zero_frame_reported with_video_stall_reported session_start]. destruct (_ && _ && _); do 2 eexists; by split.
  - destruct (_ && _ && _); [do 2 eexists; by split|]. exists (conn l), (health w). by destruct w.
Qed.

Lemma starved_turn a s : starved s -> exists s', take a s = (Err NoFrame, s') /\ starved s' /\ shown s'.2 = shown s.2.
Proof.
  destruct s as [l w]. intros (Hs & Ha & Hc & Hw). cbn [fst snd] in *. unfold pipeline_turn. unfold bind at 1, there at 1. cbn [fst snd]. rewrite Hs.
  destruct (resize_step_frame a (l, w)) as [rz Hr]. unfold bind at 1. rewrite Hr. cbn [fst snd]. set (w1 := with_resize rz w).
  destruct (drain_states_frame w1) as (D1 & D2 & D3 & D4 & D5). unfold bind at 1, take_frame. unfold bind at 1, latest_frame. rewrite D3.
  change (captured w1) with (captured w). rewrite Hc. cbn [last]. set (w2 := with_captured [] (drain_states w1)). unfold frame_missing.
  destruct (check_stalls_frame a l w2) as (c & h & Hk & Kc & Kw). unfold bind at 1. rewrite Hk. set (l3 := with_conn c l). set (w3 := with_health h w2).
  unfold bind at 1, there at 1. cbn [fst snd]. assert (client_active w3 = true) as -> by (change (client_active w3) with (client_active (drain_states w1)); by rewrite D2).
  unfold bind at 1, here at 1. cbn [fst snd]. change (conn l3) with c. rewrite Kw. cbn [andb].
  assert (shown w3 = shown w) as Sh by exact D4. assert (stop w3 = false) as St by (change (stop w3) with (stop (drain_states w1)); by rewrite D1).
  assert (client_active w3 = true) as Ca by (change (client_active w3) with (client_active (drain_states w1)); by rewrite D2).
  destruct (was_client_active (conn l)); cbn [negb].
  - unfold bind, ret, there, here. cbn [fst snd]. change (conn l3) with c. rewrite Kc, Hw by done. eexists. split; [reflexivity|].
    split; [|exact Sh]. split_and!; try done. cbn. rewrite Kc. by intros _; apply Hw.
  - unfold bind, reset_for_client, there, here. cbn [fst snd]. eexists. split; [reflexivity|]. split; [|exact Sh]. by split_and!.
Qed.

(** A client that arrives at a desktop that does not change is shown nothing.
    However many turns follow its arrival, and whatever channel it negotiates
    meanwhile, each of them ends for want of a frame, and neither its queues nor its EGFX
    server receive anything: the frame kept for this case is dropped when the
    client arrives. *)
Theorem static_desktop_starves ts s : starved s -> let '(es, s') := run_turns ts s in es = (fun _ => NoFrame) <$> ts /\ shown s'.2 = shown s.2 /\ starved s'.
Proof.
  revert s. induction ts as [|a ts IH]; intros s Hs; [done|]. cbn [run_turns]. destruct (starved_turn a s Hs) as (s1 & -> & Hs1 & Hq).
  specialize (IH s1 Hs1). destruct (run_turns ts s1) as [es s']. destruct IH as (-> & Hq' & Hs'). split_and!; [done|congruence|done].
Qed.

(** Ten seconds after the arrival the turn reports the capture as failed, even
    where it delivered frames before the client came, and this report alone makes the
    session invalid, whatever the reports before it. *)
Theorem static_desktop_invalidates a l w es : starved (l, w) -> was_client_active (conn l) = true ->
  first_frame_received (conn l) = false -> zero_frame_reported (conn l) = false -> stream_events w = [] ->
  zero_frame_threshold < since (r_zero a) (session_start (conn l)) -> health w = Some es ->
  exists es', health (take a (l, w)).2.2 = Some es' /\ length es' = Datatypes.S (length es) /\ Supervision.invalid (Supervision.status_after es').
Proof.
  intros (Hs & Ha & Hc & Hw) Hwas Hf Hz He Ht Hh. cbn [fst snd] in *. unfold pipeline_turn. unfold bind at 1, there at 1. cbn [fst snd]. rewrite Hs.
  destruct (resize_step_frame a (l, w)) as [rz Hr]. unfold bind at 1. rewrite Hr. cbn [fst snd]. set (w1 := with_resize rz w).
  unfold bind at 1, take_frame. unfold bind at 1, latest_frame. rewrite drain_states_idle by done. change (captured w1) with (captured w). rewrite Hc. cbn [last].
  set (w2 := with_captured [] w1). unfold frame_missing, bind, check_stalls. rewrite (Hw Hwas), (bool_decide_eq_false_2 (is_Some None)) by (by intros []). cbn [andb].
  rewrite Hf, Hz, (proj2 (Z.ltb_lt _ _) Ht). cbn [negb andb there here fst snd conn with_conn was_client_active with_zero_frame_reported]. rewrite Hwas, andb_false_r.
  cbn [ret fst conn with_conn cached_frame with_zero_frame_reported]. rewrite (Hw Hwas). unfold finish.
  cbn [health report with_health w2 w1 with_captured with_resize fst snd]. rewrite Hh. cbn [fmap option_fmap option_map].
  eexists. split; [reflexivity|]. split; [rewrite length_app; cbn; lia|]. rewrite Supervision.status_snoc.
  unfold Supervision.invalid, Supervision.handle_event, Supervision.apply_event, Supervision.recompute_overall. cbn. by destruct (Supervision.Aspect.is_failed _).
Qed.
End static.

(** ** A small connection *)

#[local] Instance small_server : GraphicsServer Z unit := {
  channel_id _ := Some 7;
  send_avc420_frame _ _ _ _ n := (Some n, n + 1);
  send_avc444_frame _ _ _ _ _ _ n := (Some n, n + 1);
  drain_output n := ([tt], n);
  set_output_dimensions _ _ n := n;
  resize_with_monitors _ _ _ n := n;
  create_surface _ _ n := (Some 1, n);
  map_surface_to_output _ _ _ n := (true, n);
  encode_dvc_messages _ ms := inr ((fun _ => []) <$> ms);
  full_frame_region w h q := mkAvcRegion 0 0 (w - 1) (h - 1) q 100;
}.
#[local] Instance small_flags : EgfxFlags :=
  { v81_AVC420_ENABLED := 16; v81_SMALL_CACHE := 2; v10_AVC_DISABLED := 32; v10_SMALL_CACHE := 2; v103_AVC_DISABLED := 32;
    v104_AVC_DISABLED := 32; v107_AVC_DISABLED := 32; v107_SMALL_CACHE := 2 }.

Definition small_config (avc444 : bool) : LoopConfig :=
  mkLoopConfig true (lit "auto") avc444 false 5000 30 (lit "auto") (lit "auto") 18 36 0 false 30 true 5 false false.
Definition small_yuv (_ : list Z) (w h : nat) : Yuv420Frame := mkYuv420 [] [] [] w h.
Definition small_toy : toy := mkToy false 0 [].
Definition small_frame : VideoFrame := mkVideo 1 0 0 0 2 1 8 BGRx 0 (replicate 8 9) 0 [] 0.
(** A turn in the middle of second [n]. *)
Definition at_second (n : Z) : Answers :=
  let t := secs n in
  mkAnswers t t t t t t t t t t t t t (mkTimes t 0 t t (mkInstants t t t t t t t)) t t t true true.
Definition small_locals (n : Z) : Locals toy :=
  let l := locals_new (C := toy) (small_config false) (secs n) None fps_config_default false (lit "balanced") in
  with_conn (with_was_client_active true (conn l)) l.
Definition small_world (st : option HandlerState) (frames : list VideoFrame) : World Z :=
  with_captured frames (with_events (Some (mkEvents true [])) (with_client_active true (world_new 2 1 st (Some 0%nat) (fun _ => mkServer false 0)))).
Definition small_turn (avc444 : bool) (n : Z) : Locals toy * World Z -> outcome ending Empty_set * (Locals toy * World Z) :=
  pipeline_turn NoSimd small_yuv (Ok tt) (fun _ => inr small_toy) (fun _ => inr small_toy) (small_config avc444) (at_second n).

(** With AVC420 negotiated, the first frame sets the channel up and is sent. *)
Example first_frame_sent : match small_turn false 1 (small_locals 1, small_world (Some (ready_with ModeAvc420)) [small_frame]) with
  | (Err (EgfxTurn (Sent rs _ None)), (_, w)) => rs = [full_frame 2 1] /\ server (servers w 0%nat) = 1 /\ egfx_needs_init w = false
  | _ => False end.
Proof. by vm_compute. Qed.

(** With AVC444 negotiated but turned off, the encoder is one whose frames are refused. *)
Lemma encoder_matches_mode_witness :
  match create_encoder (Ok tt) (fun _ => inr small_toy) (fun _ => inr small_toy) 0 (small_config false) (encoder_settings (small_config false) 16 16)
          (avc444_chosen (lit "auto") false (Some ModeAvc444)) with
  | Some e => accepted_by e (Some (ready_with ModeAvc444)) = false /\
      forall f l w, p_encoder (pipe l) = Some e -> egfx_state w = Some (ready_with ModeAvc444) ->
        match h264_path NoSimd small_yuv (small_config false) (at_second 1) f (l, w) with (Err (EgfxTurn (Sent _ _ _)), _) => False | _ => True end
  | None => False
  end.
Proof.
  destruct (create_encoder _ _ _ _ _ _ _) as [e|] eqn:E; [|vm_compute in E; discriminate].
  assert (select_mode (effective_codec_policy Auto false) (codec_support V10_1) = ModeAvc444) as Hm by (vm_compute; reflexivity).
  pose proof (encoder_matches_mode NoSimd small_yuv (Ok tt) (fun _ => inr small_toy) (fun _ => inr small_toy) (small_config false) (at_second 1)
    0 Auto V10_1 (encoder_settings (small_config false) 16 16) e ltac:(vm_compute; reflexivity) ltac:(vm_compute; reflexivity)) as K.
  cbn zeta in K. change (hardware_enabled (small_config false)) with false in K. rewrite Hm in K. destruct (K E) as [K1 K2].
  assert (accepted_by e (Some (ready_with ModeAvc444)) = false) as Ha; [|split; [exact Ha|exact (K2 Ha)] ].
  apply not_true_is_false. intros A. destruct (proj1 K1 A eq_refl) as [D _]. discriminate D.
Defined.

(** Six seconds after its arrival a client without the channel gets its picture. *)
Lemma no_channel_client_served_witness : exists l' w',
  small_turn true 7 (small_locals 1, small_world None [small_frame]) = (Err (BitmapsSent 1), (l', w')) /\ queued (updates w') = [picture small_frame].
Proof.
  assert (plain_turn (small_config true) small_frame (small_locals 1) (small_world None [small_frame])) as Hp
    by (constructor; vm_compute; repeat split; try reflexivity; try discriminate; lia).
  pose proof (no_channel_client_served NoSimd small_yuv (Ok tt) (fun _ => inr small_toy) (fun _ => inr small_toy) (small_config true) (at_second 7)
    small_frame (small_locals 1) (small_world None [small_frame]) Hp) as K.
  unfold small_turn. destruct (pipeline_turn _ _ _ _ _ _ _ _) as [r [l' w'] ]. destruct K as [-> Hq]. exists l', w'. split; [vm_compute; reflexivity|].
  rewrite Hq. vm_compute. reflexivity.
Defined.

(** Within the first five seconds the same client waits. *)
Example early_client_waits : (small_turn true 3 (small_locals 1, small_world None [small_frame])).1 = Err AwaitingEgfx.
Proof. by vm_compute. Qed.

(** A client whose channel is ready, at a desktop that does not change. *)
Lemma static_desktop_starves_witness :
  (run_turns NoSimd small_yuv (Ok tt) (fun _ => inr small_toy) (fun _ => inr small_toy) (small_config true) [at_second 2; at_second 8; at_second 20]
    (small_locals 1, small_world (Some (ready_with ModeAvc420)) [])).1 = [NoFrame; NoFrame; NoFrame].
Proof.
  assert (starved (small_locals 1, small_world (Some (ready_with ModeAvc420)) [])) as Hs by (repeat split; reflexivity).
  pose proof (static_desktop_starves NoSimd small_yuv (Ok tt) (fun _ => inr small_toy) (fun _ => inr small_toy) (small_config true)
    [at_second 2; at_second 8; at_second 20] _ Hs) as K. destruct (run_turns _ _ _ _ _ _ _ _) as [es s']. exact (proj1 K).
Defined.

Lemma static_desktop_invalidates_witness :
  match health (small_turn true 12 (small_locals 1, with_health (Some []) (small_world None []))).2.2 with
  | Some es => Supervision.invalid (Supervision.status_after es) | None => False end.
Proof.
  assert (starved (small_locals 1, with_health (Some []) (small_world None []))) as Hs by (repeat split; reflexivity).
  destruct (static_desktop_invalidates NoSimd small_yuv (Ok tt) (fun _ => inr small_toy) (fun _ => inr small_toy) (small_config true) (at_second 12)
    (small_locals 1) (with_health (Some []) (small_world None [])) [] Hs eq_refl eq_refl eq_refl eq_refl ltac:(vm_compute; reflexivity) eq_refl) as (es & He & _ & Hi).
  unfold small_turn. unfold St in He. rewrite He. exact Hi.
Defined.
