(* ===== verification/InputMapper.v ===== *)
(** * Scancode translation

    Models src/src/rdp/channels/input/mapper.rs and the error type of
    src/src/rdp/channels/input/error.rs.  The tables are finite maps. *)
From S2P Require Import Prelude Text Float.

(** An I/O error is its message.
    [input/error.rs:13-101 InputError] *)
Inductive InputError :=
| PortalError (m : str) | ScancodeTranslationFailed (m : str) | UnknownScancode (s : Z)
| UnknownKeycode (k : Z) | CoordinateTransformError (m : str) | MonitorNotFound (id : Z)
| InvalidCoordinate (x y : spec_float) | InvalidMonitorConfig (m : str) | LayoutError (m : str) | LayoutNotFound (m : str)
| XkbError (m : str) | EventQueueFull | EventSendFailed | EventReceiveFailed
| LatencyTooHigh (ms max : Z) | InvalidState (m : str) | PortalSessionError (m : str) | DBusError (m : str)
| Io (m : str) | InvalidKeyEvent (m : str) | InvalidMouseEvent (m : str) | Unknown (m : str).

(** ** Linux evdev key codes *)
Module Keys.
(** [mapper.rs:12-12 KEY_ESC] *)
Definition KEY_ESC : Z := 1.
(** [mapper.rs:13-13 KEY_1] *)
Definition KEY_1 : Z := 2.
(** [mapper.rs:14-14 KEY_2] *)
Definition KEY_2 : Z := 3.
(** [mapper.rs:15-15 KEY_3] *)
Definition KEY_3 : Z := 4.
(** [mapper.rs:16-16 KEY_4] *)
Definition KEY_4 : Z := 5.
(** [mapper.rs:17-17 KEY_5] *)
Definition KEY_5 : Z := 6.
(** [mapper.rs:18-18 KEY_6] *)
Definition KEY_6 : Z := 7.
(** [mapper.rs:19-19 KEY_7] *)
Definition KEY_7 : Z := 8.
(** [mapper.rs:20-20 KEY_8] *)
Definition KEY_8 : Z := 9.
(** [mapper.rs:21-21 KEY_9] *)
Definition KEY_9 : Z := 10.
(** [mapper.rs:22-22 KEY_0] *)
Definition KEY_0 : Z := 11.
(** [mapper.rs:23-23 KEY_MINUS] *)
Definition KEY_MINUS : Z := 12.
(** [mapper.rs:24-24 KEY_EQUAL] *)
Definition KEY_EQUAL : Z := 13.
(** [mapper.rs:25-25 KEY_BACKSPACE] *)
Definition KEY_BACKSPACE : Z := 14.
(** [mapper.rs:26-26 KEY_TAB] *)
Definition KEY_TAB : Z := 15.
(** [mapper.rs:27-27 KEY_Q] *)
Definition KEY_Q : Z := 16.
(** [mapper.rs:28-28 KEY_W] *)
Definition KEY_W : Z := 17.
(** [mapper.rs:29-29 KEY_E] *)
Definition KEY_E : Z := 18.
(** [mapper.rs:30-30 KEY_R] *)
Definition KEY_R : Z := 19.
(** [mapper.rs:31-31 KEY_T] *)
Definition KEY_T : Z := 20.
(** [mapper.rs:32-32 KEY_Y] *)
Definition KEY_Y : Z := 21.
(** [mapper.rs:33-33 KEY_U] *)
Definition KEY_U : Z := 22.
(** [mapper.rs:34-34 KEY_I] *)
Definition KEY_I : Z := 23.
(** [mapper.rs:35-35 KEY_O] *)
Definition KEY_O : Z := 24.
(** [mapper.rs:36-36 KEY_P] *)
Definition KEY_P : Z := 25.
(** [mapper.rs:37-37 KEY_LEFTBRACE] *)
Definition KEY_LEFTBRACE : Z := 26.
(** [mapper.rs:38-38 KEY_RIGHTBRACE] *)
Definition KEY_RIGHTBRACE : Z := 27.
(** [mapper.rs:39-39 KEY_ENTER] *)
Definition KEY_ENTER : Z := 28.
(** [mapper.rs:40-40 KEY_LEFTCTRL] *)
Definition KEY_LEFTCTRL : Z := 29.
(** [mapper.rs:41-41 KEY_A] *)
Definition KEY_A : Z := 30.
(** [mapper.rs:42-42 KEY_S] *)
Definition KEY_S : Z := 31.
(** [mapper.rs:43-43 KEY_D] *)
Definition KEY_D : Z := 32.
(** [mapper.rs:44-44 KEY_F] *)
Definition KEY_F : Z := 33.
(** [mapper.rs:45-45 KEY_G] *)
Definition KEY_G : Z := 34.
(** [mapper.rs:46-46 KEY_H] *)
Definition KEY_H : Z := 35.
(** [mapper.rs:47-47 KEY_J] *)
Definition KEY_J : Z := 36.
(** [mapper.rs:48-48 KEY_K] *)
Definition KEY_K : Z := 37.
(** [mapper.rs:49-49 KEY_L] *)
Definition KEY_L : Z := 38.
(** [mapper.rs:50-50 KEY_SEMICOLON] *)
Definition KEY_SEMICOLON : Z := 39.
(** [mapper.rs:51-51 KEY_APOSTROPHE] *)
Definition KEY_APOSTROPHE : Z := 40.
(** [mapper.rs:52-52 KEY_GRAVE] *)
Definition KEY_GRAVE : Z := 41.
(** [mapper.rs:53-53 KEY_LEFTSHIFT] *)
Definition KEY_LEFTSHIFT : Z := 42.
(** [mapper.rs:54-54 KEY_BACKSLASH] *)
Definition KEY_BACKSLASH : Z := 43.
(** [mapper.rs:55-55 KEY_Z] *)
Definition KEY_Z : Z := 44.
(** [mapper.rs:56-56 KEY_X] *)
Definition KEY_X : Z := 45.
(** [mapper.rs:57-57 KEY_C] *)
Definition KEY_C : Z := 46.
(** [mapper.rs:58-58 KEY_V] *)
Definition KEY_V : Z := 47.
(** [mapper.rs:59-59 KEY_B] *)
Definition KEY_B : Z := 48.
(** [mapper.rs:60-60 KEY_N] *)
Definition KEY_N : Z := 49.
(** [mapper.rs:61-61 KEY_M] *)
Definition KEY_M : Z := 50.
(** [mapper.rs:62-62 KEY_COMMA] *)
Definition KEY_COMMA : Z := 51.
(** [mapper.rs:63-63 KEY_DOT] *)
Definition KEY_DOT : Z := 52.
(** [mapper.rs:64-64 KEY_SLASH] *)
Definition KEY_SLASH : Z := 53.
(** [mapper.rs:65-65 KEY_RIGHTSHIFT] *)
Definition KEY_RIGHTSHIFT : Z := 54.
(** [mapper.rs:66-66 KEY_KPASTERISK] *)
Definition KEY_KPASTERISK : Z := 55.
(** [mapper.rs:67-67 KEY_LEFTALT] *)
Definition KEY_LEFTALT : Z := 56.
(** [mapper.rs:68-68 KEY_SPACE] *)
Definition KEY_SPACE : Z := 57.
(** [mapper.rs:69-69 KEY_CAPSLOCK] *)
Definition KEY_CAPSLOCK : Z := 58.
(** [mapper.rs:72-72 KEY_F1] *)
Definition KEY_F1 : Z := 59.
(** [mapper.rs:73-73 KEY_F2] *)
Definition KEY_F2 : Z := 60.
(** [mapper.rs:74-74 KEY_F3] *)
Definition KEY_F3 : Z := 61.
(** [mapper.rs:75-75 KEY_F4] *)
Definition KEY_F4 : Z := 62.
(** [mapper.rs:76-76 KEY_F5] *)
Definition KEY_F5 : Z := 63.
(** [mapper.rs:77-77 KEY_F6] *)
Definition KEY_F6 : Z := 64.
(** [mapper.rs:78-78 KEY_F7] *)
Definition KEY_F7 : Z := 65.
(** [mapper.rs:79-79 KEY_F8] *)
Definition KEY_F8 : Z := 66.
(** [mapper.rs:80-80 KEY_F9] *)
Definition KEY_F9 : Z := 67.
(** [mapper.rs:81-81 KEY_F10] *)
Definition KEY_F10 : Z := 68.
(** [mapper.rs:82-82 KEY_NUMLOCK] *)
Definition KEY_NUMLOCK : Z := 69.
(** [mapper.rs:83-83 KEY_SCROLLLOCK] *)
Definition KEY_SCROLLLOCK : Z := 70.
(** [mapper.rs:86-86 KEY_KP7] *)
Definition KEY_KP7 : Z := 71.
(** [mapper.rs:87-87 KEY_KP8] *)
Definition KEY_KP8 : Z := 72.
(** [mapper.rs:88-88 KEY_KP9] *)
Definition KEY_KP9 : Z := 73.
(** [mapper.rs:89-89 KEY_KPMINUS] *)
Definition KEY_KPMINUS : Z := 74.
(** [mapper.rs:90-90 KEY_KP4] *)
Definition KEY_KP4 : Z := 75.
(** [mapper.rs:91-91 KEY_KP5] *)
Definition KEY_KP5 : Z := 76.
(** [mapper.rs:92-92 KEY_KP6] *)
Definition KEY_KP6 : Z := 77.
(** [mapper.rs:93-93 KEY_KPPLUS] *)
Definition KEY_KPPLUS : Z := 78.
(** [mapper.rs:94-94 KEY_KP1] *)
Definition KEY_KP1 : Z := 79.
(** [mapper.rs:95-95 KEY_KP2] *)
Definition KEY_KP2 : Z := 80.
(** [mapper.rs:96-96 KEY_KP3] *)
Definition KEY_KP3 : Z := 81.
(** [mapper.rs:97-97 KEY_KP0] *)
Definition KEY_KP0 : Z := 82.
(** [mapper.rs:98-98 KEY_KPDOT] *)
Definition KEY_KPDOT : Z := 83.
(** [mapper.rs:100-100 KEY_102ND] *)
Definition KEY_102ND : Z := 86.
(** [mapper.rs:101-101 KEY_F11] *)
Definition KEY_F11 : Z := 87.
(** [mapper.rs:102-102 KEY_F12] *)
Definition KEY_F12 : Z := 88.
(** [mapper.rs:103-103 KEY_RO] *)
Definition KEY_RO : Z := 89.
(** [mapper.rs:104-104 KEY_KATAKANAHIRAGANA] *)
Definition KEY_KATAKANAHIRAGANA : Z := 90.
(** [mapper.rs:105-105 KEY_HENKAN] *)
Definition KEY_HENKAN : Z := 92.
(** [mapper.rs:106-106 KEY_MUHENKAN] *)
Definition KEY_MUHENKAN : Z := 94.
(** [mapper.rs:107-107 KEY_KPENTER] *)
Definition KEY_KPENTER : Z := 96.
(** [mapper.rs:108-108 KEY_RIGHTCTRL] *)
Definition KEY_RIGHTCTRL : Z := 97.
(** [mapper.rs:109-109 KEY_KPSLASH] *)
Definition KEY_KPSLASH : Z := 98.
(** [mapper.rs:110-110 KEY_SYSRQ] *)
Definition KEY_SYSRQ : Z := 99.
(** [mapper.rs:111-111 KEY_RIGHTALT] *)
Definition KEY_RIGHTALT : Z := 100.
(** [mapper.rs:112-112 KEY_HOME] *)
Definition KEY_HOME : Z := 102.
(** [mapper.rs:113-113 KEY_UP] *)
Definition KEY_UP : Z := 103.
(** [mapper.rs:114-114 KEY_PAGEUP] *)
Definition KEY_PAGEUP : Z := 104.
(** [mapper.rs:115-115 KEY_LEFT] *)
Definition KEY_LEFT : Z := 105.
(** [mapper.rs:116-116 KEY_RIGHT] *)
Definition KEY_RIGHT : Z := 106.
(** [mapper.rs:117-117 KEY_END] *)
Definition KEY_END : Z := 107.
(** [mapper.rs:118-118 KEY_DOWN] *)
Definition KEY_DOWN : Z := 108.
(** [mapper.rs:119-119 KEY_PAGEDOWN] *)
Definition KEY_PAGEDOWN : Z := 109.
(** [mapper.rs:120-120 KEY_INSERT] *)
Definition KEY_INSERT : Z := 110.
(** [mapper.rs:121-121 KEY_DELETE] *)
Definition KEY_DELETE : Z := 111.
(** [mapper.rs:122-122 KEY_MUTE] *)
Definition KEY_MUTE : Z := 113.
(** [mapper.rs:123-123 KEY_VOLUMEDOWN] *)
Definition KEY_VOLUMEDOWN : Z := 114.
(** [mapper.rs:124-124 KEY_VOLUMEUP] *)
Definition KEY_VOLUMEUP : Z := 115.
(** [mapper.rs:125-125 KEY_POWER] *)
Definition KEY_POWER : Z := 116.
(** [mapper.rs:126-126 KEY_KPEQUAL] *)
Definition KEY_KPEQUAL : Z := 117.
(** [mapper.rs:127-127 KEY_PAUSE] *)
Definition KEY_PAUSE : Z := 119.
(** [mapper.rs:128-128 KEY_HANGEUL] *)
Definition KEY_HANGEUL : Z := 122.
(** [mapper.rs:129-129 KEY_HANJA] *)
Definition KEY_HANJA : Z := 123.
(** [mapper.rs:130-130 KEY_YEN] *)
Definition KEY_YEN : Z := 124.
(** [mapper.rs:131-131 KEY_LEFTMETA] *)
Definition KEY_LEFTMETA : Z := 125.
(** [mapper.rs:132-132 KEY_RIGHTMETA] *)
Definition KEY_RIGHTMETA : Z := 126.
(** [mapper.rs:133-133 KEY_COMPOSE] *)
Definition KEY_COMPOSE : Z := 127.
(** [mapper.rs:134-134 KEY_STOP] *)
Definition KEY_STOP : Z := 128.
(** [mapper.rs:135-135 KEY_AGAIN] *)
Definition KEY_AGAIN : Z := 129.
(** [mapper.rs:136-136 KEY_PROPS] *)
Definition KEY_PROPS : Z := 130.
(** [mapper.rs:137-137 KEY_UNDO] *)
Definition KEY_UNDO : Z := 131.
(** [mapper.rs:138-138 KEY_FRONT] *)
Definition KEY_FRONT : Z := 132.
(** [mapper.rs:139-139 KEY_COPY] *)
Definition KEY_COPY : Z := 133.
(** [mapper.rs:140-140 KEY_MENU] *)
Definition KEY_MENU : Z := 139.
(** [mapper.rs:141-141 KEY_CALC] *)
Definition KEY_CALC : Z := 140.
(** [mapper.rs:142-142 KEY_SLEEP] *)
Definition KEY_SLEEP : Z := 142.
(** [mapper.rs:143-143 KEY_WAKEUP] *)
Definition KEY_WAKEUP : Z := 143.
(** [mapper.rs:144-144 KEY_MAIL] *)
Definition KEY_MAIL : Z := 155.
(** [mapper.rs:145-145 KEY_BOOKMARKS] *)
Definition KEY_BOOKMARKS : Z := 156.
(** [mapper.rs:146-146 KEY_COMPUTER] *)
Definition KEY_COMPUTER : Z := 157.
(** [mapper.rs:147-147 KEY_BACK] *)
Definition KEY_BACK : Z := 158.
(** [mapper.rs:148-148 KEY_FORWARD] *)
Definition KEY_FORWARD : Z := 159.
(** [mapper.rs:149-149 KEY_EJECTCD] *)
Definition KEY_EJECTCD : Z := 161.
(** [mapper.rs:150-150 KEY_NEXTSONG] *)
Definition KEY_NEXTSONG : Z := 163.
(** [mapper.rs:151-151 KEY_PLAYPAUSE] *)
Definition KEY_PLAYPAUSE : Z := 164.
(** [mapper.rs:152-152 KEY_PREVIOUSSONG] *)
Definition KEY_PREVIOUSSONG : Z := 165.
(** [mapper.rs:153-153 KEY_STOPCD] *)
Definition KEY_STOPCD : Z := 166.
(** [mapper.rs:154-154 KEY_REFRESH] *)
Definition KEY_REFRESH : Z := 173.
(** [mapper.rs:155-155 KEY_F13] *)
Definition KEY_F13 : Z := 183.
(** [mapper.rs:156-156 KEY_F14] *)
Definition KEY_F14 : Z := 184.
(** [mapper.rs:157-157 KEY_F15] *)
Definition KEY_F15 : Z := 185.
(** [mapper.rs:158-158 KEY_F16] *)
Definition KEY_F16 : Z := 186.
(** [mapper.rs:159-159 KEY_F17] *)
Definition KEY_F17 : Z := 187.
(** [mapper.rs:160-160 KEY_F18] *)
Definition KEY_F18 : Z := 188.
(** [mapper.rs:161-161 KEY_F19] *)
Definition KEY_F19 : Z := 189.
(** [mapper.rs:162-162 KEY_F20] *)
Definition KEY_F20 : Z := 190.
(** [mapper.rs:163-163 KEY_F21] *)
Definition KEY_F21 : Z := 191.
(** [mapper.rs:164-164 KEY_F22] *)
Definition KEY_F22 : Z := 192.
(** [mapper.rs:165-165 KEY_F23] *)
Definition KEY_F23 : Z := 193.
(** [mapper.rs:166-166 KEY_F24] *)
Definition KEY_F24 : Z := 194.
(** [mapper.rs:167-167 KEY_MEDIA] *)
Definition KEY_MEDIA : Z := 226.
(** [mapper.rs:168-168 KEY_SEARCH] *)
Definition KEY_SEARCH : Z := 217.
(** [mapper.rs:169-169 KEY_HOMEPAGE] *)
Definition KEY_HOMEPAGE : Z := 172.
(** [mapper.rs:170-170 KEY_BREAK] *)
Definition KEY_BREAK : Z := 411.
(** [mapper.rs:171-171 KEY_PRINT] *)
Definition KEY_PRINT : Z := 210.
End Keys.
Import Keys.

(** [mapper.rs:219-342 initialize_primary_map] *)
Definition primary_mappings : list (Z * Z) := [
  (0x01, KEY_ESC); (0x02, KEY_1); (0x03, KEY_2); (0x04, KEY_3);
  (0x05, KEY_4); (0x06, KEY_5); (0x07, KEY_6); (0x08, KEY_7);
  (0x09, KEY_8); (0x0A, KEY_9); (0x0B, KEY_0); (0x0C, KEY_MINUS);
  (0x0D, KEY_EQUAL); (0x0E, KEY_BACKSPACE); (0x0F, KEY_TAB); (0x10, KEY_Q);
  (0x11, KEY_W); (0x12, KEY_E); (0x13, KEY_R); (0x14, KEY_T);
  (0x15, KEY_Y); (0x16, KEY_U); (0x17, KEY_I); (0x18, KEY_O);
  (0x19, KEY_P); (0x1A, KEY_LEFTBRACE); (0x1B, KEY_RIGHTBRACE); (0x1C, KEY_ENTER);
  (0x1D, KEY_LEFTCTRL); (0x1E, KEY_A); (0x1F, KEY_S); (0x20, KEY_D);
  (0x21, KEY_F); (0x22, KEY_G); (0x23, KEY_H); (0x24, KEY_J);
  (0x25, KEY_K); (0x26, KEY_L); (0x27, KEY_SEMICOLON); (0x28, KEY_APOSTROPHE);
  (0x29, KEY_GRAVE); (0x2A, KEY_LEFTSHIFT); (0x2B, KEY_BACKSLASH); (0x2C, KEY_Z);
  (0x2D, KEY_X); (0x2E, KEY_C); (0x2F, KEY_V); (0x30, KEY_B);
  (0x31, KEY_N); (0x32, KEY_M); (0x33, KEY_COMMA); (0x34, KEY_DOT);
  (0x35, KEY_SLASH); (0x36, KEY_RIGHTSHIFT); (0x37, KEY_KPASTERISK); (0x38, KEY_LEFTALT);
  (0x39, KEY_SPACE); (0x3A, KEY_CAPSLOCK); (0x3B, KEY_F1); (0x3C, KEY_F2);
  (0x3D, KEY_F3); (0x3E, KEY_F4); (0x3F, KEY_F5); (0x40, KEY_F6);
  (0x41, KEY_F7); (0x42, KEY_F8); (0x43, KEY_F9); (0x44, KEY_F10);
  (0x45, KEY_NUMLOCK); (0x46, KEY_SCROLLLOCK); (0x47, KEY_KP7); (0x48, KEY_KP8);
  (0x49, KEY_KP9); (0x4A, KEY_KPMINUS); (0x4B, KEY_KP4); (0x4C, KEY_KP5);
  (0x4D, KEY_KP6); (0x4E, KEY_KPPLUS); (0x4F, KEY_KP1); (0x50, KEY_KP2);
  (0x51, KEY_KP3); (0x52, KEY_KP0); (0x53, KEY_KPDOT); (0x54, KEY_SYSRQ);
  (0x56, KEY_102ND); (0x57, KEY_F11); (0x58, KEY_F12); (0x59, KEY_KPEQUAL);
  (0x5A, KEY_F13); (0x5B, KEY_F14); (0x5C, KEY_F15); (0x5D, KEY_F16);
  (0x5E, KEY_F17); (0x5F, KEY_F18); (0x60, KEY_F19); (0x61, KEY_F20);
  (0x62, KEY_F21); (0x63, KEY_F22); (0x64, KEY_F23); (0x65, KEY_F24);
  (0x70, KEY_KATAKANAHIRAGANA); (0x71, KEY_MUHENKAN); (0x72, KEY_HENKAN); (0x73, KEY_RO);
  (0x74, KEY_YEN); (0x75, KEY_HANGEUL); (0x76, KEY_HANJA); (0x77, KEY_LEFTMETA);
  (0x78, KEY_RIGHTMETA); (0x79, KEY_COMPOSE); (0x7A, KEY_STOP); (0x7B, KEY_AGAIN);
  (0x7C, KEY_PROPS); (0x7D, KEY_UNDO); (0x7E, KEY_FRONT); (0x7F, KEY_COPY) ].

(** [mapper.rs:345-393 initialize_extended_map] *)
Definition extended_mappings : list (Z * Z) := [
  (0xE01C, KEY_KPENTER); (0xE01D, KEY_RIGHTCTRL); (0xE020, KEY_MUTE); (0xE021, KEY_CALC);
  (0xE022, KEY_PLAYPAUSE); (0xE024, KEY_STOPCD); (0xE02E, KEY_VOLUMEDOWN); (0xE030, KEY_VOLUMEUP);
  (0xE032, KEY_HOMEPAGE); (0xE035, KEY_KPSLASH); (0xE037, KEY_PRINT); (0xE038, KEY_RIGHTALT);
  (0xE045, KEY_PAUSE); (0xE047, KEY_HOME); (0xE048, KEY_UP); (0xE049, KEY_PAGEUP);
  (0xE04B, KEY_LEFT); (0xE04D, KEY_RIGHT); (0xE04F, KEY_END); (0xE050, KEY_DOWN);
  (0xE051, KEY_PAGEDOWN); (0xE052, KEY_INSERT); (0xE053, KEY_DELETE); (0xE05B, KEY_LEFTMETA);
  (0xE05C, KEY_RIGHTMETA); (0xE05D, KEY_MENU); (0xE05E, KEY_POWER); (0xE05F, KEY_SLEEP);
  (0xE063, KEY_WAKEUP); (0xE065, KEY_SEARCH); (0xE066, KEY_BOOKMARKS); (0xE067, KEY_REFRESH);
  (0xE068, KEY_STOP); (0xE069, KEY_FORWARD); (0xE06A, KEY_BACK); (0xE06B, KEY_COMPUTER);
  (0xE06C, KEY_MAIL); (0xE06D, KEY_MEDIA); (0xE010, KEY_PREVIOUSSONG); (0xE019, KEY_NEXTSONG);
  (0xE02C, KEY_EJECTCD) ].

(** [mapper.rs:396-399 initialize_e1_map] *)
Definition e1_mappings : list (Z * Z) := [(0xE11D45, KEY_PAUSE); (0xE11D46, KEY_BREAK)].

(** [mapper.rs:407-409 load_layout_overrides] *)
Definition de_overrides : list (Z * Z) := [
  (0x15, KEY_Z); (0x2C, KEY_Y) ].

(** [mapper.rs:413-419 load_layout_overrides] *)
Definition fr_overrides : list (Z * Z) := [
  (0x10, KEY_A); (0x1E, KEY_Q); (0x11, KEY_Z); (0x2C, KEY_W);
  (0x27, KEY_M); (0x32, KEY_COMMA) ].

(** [mapper.rs:423-424 load_layout_overrides] *)
Definition uk_overrides : list (Z * Z) := [
  (0x2B, KEY_102ND) ].

(** [mapper.rs:443-449 load_layout_overrides] *)
Definition be_overrides : list (Z * Z) := [
  (0x10, KEY_A); (0x1E, KEY_Q); (0x11, KEY_Z); (0x2C, KEY_W);
  (0x27, KEY_M); (0x32, KEY_COMMA) ].

(** [mapper.rs:453-455 load_layout_overrides] *)
Definition ch_overrides : list (Z * Z) := [
  (0x15, KEY_Z); (0x2C, KEY_Y) ].

(** [mapper.rs:459-492 load_layout_overrides] *)
Definition dvorak_overrides : list (Z * Z) := [
  (0x10, KEY_APOSTROPHE); (0x11, KEY_COMMA); (0x12, KEY_DOT); (0x13, KEY_P);
  (0x14, KEY_Y); (0x15, KEY_F); (0x16, KEY_G); (0x17, KEY_C);
  (0x18, KEY_R); (0x19, KEY_L); (0x1E, KEY_A); (0x1F, KEY_O);
  (0x20, KEY_E); (0x21, KEY_U); (0x22, KEY_I); (0x23, KEY_D);
  (0x24, KEY_H); (0x25, KEY_T); (0x26, KEY_N); (0x27, KEY_S);
  (0x2C, KEY_SEMICOLON); (0x2D, KEY_Q); (0x2E, KEY_J); (0x2F, KEY_K);
  (0x30, KEY_X); (0x31, KEY_B); (0x32, KEY_M); (0x33, KEY_W);
  (0x34, KEY_V); (0x35, KEY_Z) ].

(** [mapper.rs:496-516 load_layout_overrides] *)
Definition colemak_overrides : list (Z * Z) := [
  (0x12, KEY_F); (0x13, KEY_P); (0x14, KEY_G); (0x15, KEY_J);
  (0x16, KEY_L); (0x17, KEY_U); (0x18, KEY_Y); (0x19, KEY_SEMICOLON);
  (0x1F, KEY_R); (0x20, KEY_S); (0x21, KEY_T); (0x22, KEY_D);
  (0x24, KEY_N); (0x25, KEY_E); (0x26, KEY_I); (0x27, KEY_O);
  (0x31, KEY_K) ].
(** ** The mapper *)
(** [for (scancode, keycode) in mappings { map.insert(scancode, keycode); }] *)
Definition insert_all (l : list (Z * Z)) : gmap Z Z := fold_left (fun m kv => <[kv.1 := kv.2]> m) l ∅.

(** [mapper.rs:405-518 load_layout_overrides] *)
Definition layout_table : list (str * list (Z * Z)) :=
  [(lit "de", de_overrides); (lit "fr", fr_overrides); (lit "uk", uk_overrides); (lit "gb", uk_overrides);
   (lit "es", []); (lit "pt", []); (lit "it", []); (lit "be", be_overrides); (lit "ch", ch_overrides);
   (lit "dvorak", dvorak_overrides); (lit "colemak", colemak_overrides)].

(** [mapper.rs:178-193 ScancodeMapper] *)
Record ScancodeMapper := mkMapper {
  primary_map : gmap Z Z;
  extended_map : gmap Z Z;
  e1_map : gmap Z Z;
  layout_overrides : gmap (list Z) (gmap Z Z);
  current_layout : str;
}.

(** [mapper.rs:197-216 new] *)
Definition mapper_new : ScancodeMapper :=
  mkMapper (insert_all primary_mappings) (insert_all extended_mappings) (insert_all e1_mappings)
    (fold_left (fun m kv => <[kv.1 := insert_all kv.2]> m) layout_table ∅) (lit "us").

(** [mapper.rs:521-554 translate_scancode] *)
Definition translate_scancode (m : ScancodeMapper) (scancode : Z) (extended e1_prefix : bool) : outcome InputError Z :=
  let scan16 := wrap 16 scancode in
  if e1_prefix then ok_or (UnknownScancode scan16) (e1_map m !! scancode)
  else if extended then
    let extended_scan := Z.lor 0xE000 (Z.land scan16 0xFF) in
    ok_or (UnknownScancode extended_scan)
      (match extended_map m !! extended_scan with Some k => Some k | None => primary_map m !! scan16 end)
  else
    match layout_overrides m !! current_layout m ≫= (!!) scan16 with
    | Some keycode => Ok keycode
    | None => ok_or (UnknownScancode scan16) (primary_map m !! scan16)
    end.

(** [mapper.rs:557-559 set_layout] *)
Definition mapper_set_layout (layout : str) (m : ScancodeMapper) : ScancodeMapper :=
  mkMapper (primary_map m) (extended_map m) (e1_map m) (layout_overrides m) layout.

(** ** What the layouts produce *)
(** The letter keys, A to Z. *)
Definition letters : list Z :=
  [KEY_A; KEY_B; KEY_C; KEY_D; KEY_E; KEY_F; KEY_G; KEY_H; KEY_I; KEY_J; KEY_K; KEY_L; KEY_M;
   KEY_N; KEY_O; KEY_P; KEY_Q; KEY_R; KEY_S; KEY_T; KEY_U; KEY_V; KEY_W; KEY_X; KEY_Y; KEY_Z].

(** The digits, and the keys that act in every layout. *)
Definition control_keys : list Z :=
  [KEY_ESC; KEY_ENTER; KEY_TAB; KEY_BACKSPACE; KEY_SPACE; KEY_LEFTSHIFT; KEY_RIGHTSHIFT; KEY_LEFTCTRL; KEY_LEFTALT;
   KEY_CAPSLOCK; KEY_1; KEY_2; KEY_3; KEY_4; KEY_5; KEY_6; KEY_7; KEY_8; KEY_9; KEY_0].

(** The plain scancodes and their keys in a layout. *)
Definition effective (overrides : gmap Z Z) : gmap Z Z := overrides ∪ insert_all primary_mappings.

Definition positions (k : Z) (m : gmap Z Z) : list Z :=
  omap (fun p => if p.2 =? k then Some p.1 else None) (map_to_list m).

Definition single_positions (ks : list Z) (m : gmap Z Z) : bool :=
  forallb (fun k => bool_decide (length (positions k m) = 1%nat)) ks.

Lemma positions_spec k m s : s ∈ positions k m <-> m !! s = Some k.
Proof.
  unfold positions. rewrite list_elem_of_omap. split.
  - intros ([s' k'] & Hp & E). cbn in E. destruct (Z.eqb_spec k' k) as [->|]; [|done].
    injection E as <-. by apply elem_of_map_to_list.
  - intros Hs. exists (s, k). split; [by apply elem_of_map_to_list|]. cbn. by rewrite Z.eqb_refl.
Qed.

Lemma single_positions_spec ks m k : single_positions ks m = true -> k ∈ ks ->
  exists s, m !! s = Some k /\ forall s', m !! s' = Some k -> s' = s.
Proof.
  intros H Hk. unfold single_positions in H. rewrite forallb_forall in H.
  specialize (H k (proj1 (list_elem_of_In _ _) Hk)). apply bool_decide_eq_true in H.
  destruct (positions k m) as [|s [|]] eqn:E; try done. exists s. split.
  - apply positions_spec. rewrite E. set_solver.
  - intros s' Hs'. apply positions_spec in Hs'. rewrite E in Hs'. set_solver.
Qed.

(** The overrides of a layout by name; an unknown name has none. *)
Definition overrides_of (layout : str) : gmap Z Z :=
  match layout_overrides mapper_new !! layout with Some o => o | None => ∅ end.

Lemma overrides_cases (P : gmap Z Z -> Prop) layout :
  P ∅ -> Forall (fun kv => P (insert_all kv.2)) layout_table -> P (overrides_of layout).
Proof.
  intros H0 H. unfold overrides_of. destruct (layout_overrides mapper_new !! layout) as [o|] eqn:E; [|done].
  cbn [layout_overrides mapper_new] in E. revert o E.
  assert (forall (l : list (str * list (Z * Z))) (m : gmap (list Z) (gmap Z Z)), (forall o, m !! layout = Some o -> P o) -> Forall (fun kv => P (insert_all kv.2)) l ->
    forall o, fold_left (fun m kv => <[kv.1 := insert_all kv.2]> m) l m !! layout = Some o -> P o) as Hl.
  { induction l as [|[k v] l IH]; intros m Hm Hf; [done|]. cbn [fold_left].
    apply Forall_cons in Hf as [Hv Hf]. apply IH; [|done]. intros o. cbn [fst snd].
    destruct (decide (k = layout)) as [->|Hne].
    - rewrite lookup_insert_eq. by intros [= <-].
    - rewrite lookup_insert_ne by done. apply Hm. }
  apply (Hl layout_table ∅); [|done]. intros o. by rewrite lookup_empty.
Qed.

Lemma translate_plain layout s :
  translate_scancode (mapper_set_layout layout mapper_new) s false false
  = ok_or (UnknownScancode (wrap 16 s)) (effective (overrides_of layout) !! wrap 16 s).
Proof.
  unfold translate_scancode. cbn [current_layout mapper_set_layout layout_overrides primary_map].
  unfold effective, overrides_of. rewrite lookup_union.
  change (primary_map mapper_new) with (insert_all primary_mappings).
  destruct (layout_overrides mapper_new !! layout) as [o|]; cbn [mbind option_bind].
  - by destruct (o !! wrap 16 s), (insert_all primary_mappings !! wrap 16 s).
  - rewrite lookup_empty. by destruct (insert_all primary_mappings !! wrap 16 s).
Qed.

Lemma all_keys_in_range (m : gmap Z Z) s : forallb (fun p => (0 <=? p.1) && (p.1 <? 65536)) (map_to_list m) = true ->
  is_Some (m !! s) -> 0 <= s < 65536.
Proof.
  intros H [k Hk]. rewrite forallb_forall in H. apply elem_of_map_to_list, list_elem_of_In in Hk.
  specialize (H _ Hk). cbn in H. lia.
Qed.

(** Every layout, known or not, is a usable keyboard: each of the 26 letters,
    the digits and the editing and modifier keys is produced by exactly one plain
    scancode; no layout loses or duplicates one of them. *)
Theorem layouts_reach_every_letter layout k :
  k ∈ letters ++ control_keys ->
  exists s, 0 <= s < 65536 /\
    translate_scancode (mapper_set_layout layout mapper_new) s false false = Ok k /\
    forall s', 0 <= s' < 65536 ->
      translate_scancode (mapper_set_layout layout mapper_new) s' false false = Ok k -> s' = s.
Proof.
  intros Hk.
  assert ((fun o => single_positions (letters ++ control_keys) (effective o) = true /\
            forallb (fun p => (0 <=? p.1) && (p.1 <? 65536)) (map_to_list (effective o)) = true) (overrides_of layout)) as [Hs Hr].
  { apply overrides_cases; [by vm_compute | by repeat constructor; vm_compute]. }
  destruct (single_positions_spec _ _ k Hs Hk) as (s & H1 & H2).
  assert (0 <= s < 65536) as Hsr by (eapply all_keys_in_range; [exact Hr | by eexists]).
  exists s. split; [done|]. rewrite translate_plain, wrap_small by lia. rewrite H1. split; [done|].
  intros s' Hs' E. rewrite translate_plain, wrap_small in E by lia. apply H2.
  destruct (effective (overrides_of layout) !! s'); cbn in E; congruence.
Qed.

Lemma layouts_reach_every_letter_witness :
  exists s, 0 <= s < 65536 /\ translate_scancode (mapper_set_layout (lit "dvorak") mapper_new) s false false = Ok KEY_S.
Proof.
  destruct (layouts_reach_every_letter (lit "dvorak") KEY_S) as (s & H1 & H2 & _); [|by exists s].
  apply (bool_decide_unpack _). by vm_compute.
Defined.

(** The AZERTY tables put the comma on two positions and the semicolon on none. *)
Lemma azerty_has_no_semicolon :
  positions KEY_SEMICOLON (effective (insert_all fr_overrides)) = [] /\
  length (positions KEY_COMMA (effective (insert_all fr_overrides))) = 2%nat.
Proof. by vm_compute. Qed.

(** The Dvorak table leaves no position for the slash. *)
Lemma dvorak_has_no_slash : positions KEY_SLASH (effective (insert_all dvorak_overrides)) = [].
Proof. by vm_compute. Qed.

(** The keys of the E1 table have 24 bits, the scancode of a key event 16. *)
Lemma e1_never_translates layout s extended : 0 <= s < 65536 ->
  translate_scancode (mapper_set_layout layout mapper_new) s extended true = Err (UnknownScancode s).
Proof.
  intros Hs. unfold translate_scancode. cbn [e1_map mapper_set_layout]. rewrite wrap_small by lia.
  change (e1_map mapper_new) with (<[0xE11D46 := KEY_BREAK]> (<[0xE11D45 := KEY_PAUSE]> (∅ : gmap Z Z))).
  by rewrite !lookup_insert_ne, lookup_empty by lia.
Qed.
