(* ===== verification/Keyboard.v ===== *)
(** * Keyboard state

    Models src/src/rdp/channels/input/keyboard.rs.  The clock read of a key
    event is its argument. *)
From S2P Require Import Prelude Text InputMapper.
Import Keys.

(** [keyboard.rs:14-29 KeyModifiers] *)
Record KeyModifiers := mkModifiers {
  shift : bool; ctrl : bool; alt : bool; meta : bool;
  caps_lock : bool; num_lock : bool; scroll_lock : bool;
}.
Definition modifiers_default : KeyModifiers := mkModifiers false false false false false false false.

(** [keyboard.rs:33-72 KeyboardEvent] *)
Inductive KeyboardEvent :=
| Ignored (keycode : Z)
| KeyDown (keycode scancode : Z) (m : KeyModifiers) (timestamp : Z)
| KeyUp (keycode scancode : Z) (m : KeyModifiers) (timestamp : Z)
| KeyRepeat (keycode scancode : Z) (m : KeyModifiers) (timestamp : Z).

(** [keyboard.rs:75-96 KeyboardHandler] *)
Record KeyboardHandler := mkKeyboard {
  mapper : ScancodeMapper;
  pressed_keys : gset Z;
  modifiers : KeyModifiers;
  last_key_times : gmap Z Z;
  repeating_keys : gset Z;
  repeat_delay_ms : Z;
  repeat_rate_ms : Z;
}.

(** [keyboard.rs:100-110 new] *)
Definition keyboard_new : KeyboardHandler := mkKeyboard mapper_new ∅ modifiers_default ∅ ∅ 500 33.

Definition has (k : Z) (s : gset Z) : bool := bool_decide (k ∈ s).

(** The seven modifier fields one at a time. *)
Definition set_shift (b : bool) (m : KeyModifiers) := mkModifiers b (ctrl m) (alt m) (meta m) (caps_lock m) (num_lock m) (scroll_lock m).
Definition set_ctrl (b : bool) (m : KeyModifiers) := mkModifiers (shift m) b (alt m) (meta m) (caps_lock m) (num_lock m) (scroll_lock m).
Definition set_alt (b : bool) (m : KeyModifiers) := mkModifiers (shift m) (ctrl m) b (meta m) (caps_lock m) (num_lock m) (scroll_lock m).
Definition set_meta (b : bool) (m : KeyModifiers) := mkModifiers (shift m) (ctrl m) (alt m) b (caps_lock m) (num_lock m) (scroll_lock m).
Definition set_caps (b : bool) (m : KeyModifiers) := mkModifiers (shift m) (ctrl m) (alt m) (meta m) b (num_lock m) (scroll_lock m).
Definition set_num (b : bool) (m : KeyModifiers) := mkModifiers (shift m) (ctrl m) (alt m) (meta m) (caps_lock m) b (scroll_lock m).
Definition set_scroll (b : bool) (m : KeyModifiers) := mkModifiers (shift m) (ctrl m) (alt m) (meta m) (caps_lock m) (num_lock m) b.

(** [keyboard.rs:205-260 update_modifiers] *)
Definition update_modifiers (keys : gset Z) (keycode : Z) (pressed : bool) (m : KeyModifiers) : KeyModifiers :=
  let either a b := if pressed then true else has a keys || has b keys in
  if (keycode =? KEY_LEFTSHIFT) || (keycode =? KEY_RIGHTSHIFT) then set_shift (either KEY_LEFTSHIFT KEY_RIGHTSHIFT) m
  else if (keycode =? KEY_LEFTCTRL) || (keycode =? KEY_RIGHTCTRL) then set_ctrl (either KEY_LEFTCTRL KEY_RIGHTCTRL) m
  else if (keycode =? KEY_LEFTALT) || (keycode =? KEY_RIGHTALT) then set_alt (either KEY_LEFTALT KEY_RIGHTALT) m
  else if (keycode =? KEY_LEFTMETA) || (keycode =? KEY_RIGHTMETA) then set_meta (either KEY_LEFTMETA KEY_RIGHTMETA) m
  else if keycode =? KEY_CAPSLOCK then (if pressed then set_caps (negb (caps_lock m)) m else m)
  else if keycode =? KEY_NUMLOCK then (if pressed then set_num (negb (num_lock m)) m else m)
  else if keycode =? KEY_SCROLLLOCK then (if pressed then set_scroll (negb (scroll_lock m)) m else m)
  else m.

(** A repeated down event: [None] when it is dropped, otherwise the keys that repeat.
    [keyboard.rs:129-145 handle_key_down] *)
Definition repeat_gate (timestamp keycode : Z) (h : KeyboardHandler) : option (gset Z) :=
  if has keycode (pressed_keys h) then
    let last := match last_key_times h !! keycode with Some t => t | None => timestamp end in
    let elapsed := wrap 64 (since timestamp last / 1000000) in
    if negb (has keycode (repeating_keys h)) then
      if elapsed <? repeat_delay_ms h then None else Some ({[keycode]} ∪ repeating_keys h)
    else if elapsed <? repeat_rate_ms h then None else Some (repeating_keys h)
  else Some (repeating_keys h).

(** [keyboard.rs:113-168 handle_key_down] *)
Definition handle_key_down (timestamp scancode : Z) (extended e1_prefix : bool) (h : KeyboardHandler)
    : KeyboardHandler * outcome InputError KeyboardEvent :=
  match translate_scancode (mapper h) scancode extended e1_prefix with
  | Panic => (h, Panic)
  | Err e => (h, Err e)
  | Ok keycode =>
      let is_repeat := has keycode (pressed_keys h) in
      match repeat_gate timestamp keycode h with
      | None => (h, Ok (Ignored keycode))
      | Some repeating =>
          let keys := {[keycode]} ∪ pressed_keys h in
          let m := update_modifiers keys keycode true (modifiers h) in
          (mkKeyboard (mapper h) keys m (<[keycode := timestamp]> (last_key_times h)) repeating
             (repeat_delay_ms h) (repeat_rate_ms h),
           Ok (if is_repeat then KeyRepeat keycode scancode m timestamp else KeyDown keycode scancode m timestamp))
      end
  end.

(** [keyboard.rs:171-202 handle_key_up] *)
Definition handle_key_up (timestamp scancode : Z) (extended e1_prefix : bool) (h : KeyboardHandler)
    : KeyboardHandler * outcome InputError KeyboardEvent :=
  match translate_scancode (mapper h) scancode extended e1_prefix with
  | Panic => (h, Panic)
  | Err e => (h, Err e)
  | Ok keycode =>
      if negb (has keycode (pressed_keys h)) then (h, Ok (Ignored keycode))
      else
        let keys := pressed_keys h ∖ {[keycode]} in
        let m := update_modifiers keys keycode false (modifiers h) in
        (mkKeyboard (mapper h) keys m (delete keycode (last_key_times h)) (repeating_keys h ∖ {[keycode]})
           (repeat_delay_ms h) (repeat_rate_ms h),
         Ok (KeyUp keycode scancode m timestamp))
  end.

Definition with_modifiers (m : KeyModifiers) (h : KeyboardHandler) : KeyboardHandler :=
  mkKeyboard (mapper h) (pressed_keys h) m (last_key_times h) (repeating_keys h) (repeat_delay_ms h) (repeat_rate_ms h).

(** [keyboard.rs:264-285 synchronize_locks] *)
Definition synchronize_locks (caps num scroll : bool) (h : KeyboardHandler) : KeyboardHandler * list Z :=
  let m := modifiers h in
  let toggle (current desired : bool) keycode := if bool_decide (current = desired) then [] else [keycode] in
  (with_modifiers (set_caps caps (set_num num (set_scroll scroll m))) h,
   toggle (caps_lock m) caps KEY_CAPSLOCK ++ toggle (num_lock m) num KEY_NUMLOCK
   ++ toggle (scroll_lock m) scroll KEY_SCROLLLOCK).

(** [keyboard.rs:288-290 is_key_pressed] *)
Definition is_key_pressed (keycode : Z) (h : KeyboardHandler) : bool := has keycode (pressed_keys h).
(** [keyboard.rs:298-301 set_layout] *)
Definition keyboard_set_layout (layout : str) (h : KeyboardHandler) : KeyboardHandler :=
  mkKeyboard (mapper_set_layout layout (mapper h)) (pressed_keys h) (modifiers h) (last_key_times h)
    (repeating_keys h) (repeat_delay_ms h) (repeat_rate_ms h).
(** [keyboard.rs:309-311 set_repeat_delay] *)
Definition set_repeat_delay (d : Z) (h : KeyboardHandler) : KeyboardHandler :=
  mkKeyboard (mapper h) (pressed_keys h) (modifiers h) (last_key_times h) (repeating_keys h) d (repeat_rate_ms h).
(** [keyboard.rs:314-316 set_repeat_rate] *)
Definition set_repeat_rate (r : Z) (h : KeyboardHandler) : KeyboardHandler :=
  mkKeyboard (mapper h) (pressed_keys h) (modifiers h) (last_key_times h) (repeating_keys h) (repeat_delay_ms h) r.
(** [keyboard.rs:319-325 reset] *)
Definition keyboard_reset (h : KeyboardHandler) : KeyboardHandler :=
  mkKeyboard (mapper h) ∅ modifiers_default ∅ ∅ (repeat_delay_ms h) (repeat_rate_ms h).
(** [keyboard.rs:328-330 pressed_key_count] *)
Definition pressed_key_count (h : KeyboardHandler) : nat := size (pressed_keys h).
(** [keyboard.rs:333-335 get_pressed_keys] *)
Definition get_pressed_keys (h : KeyboardHandler) : list Z := elements (pressed_keys h).

(** ** Runs *)
Inductive key_call :=
| Down (t scancode : Z) (extended e1 : bool)
| Up (t scancode : Z) (extended e1 : bool)
| Locks (caps num scroll : bool)
| Layout (l : str)
| Delay (d : Z)
| Rate (r : Z)
| Reset_.

Definition key_step (h : KeyboardHandler) (c : key_call) : KeyboardHandler * option KeyboardEvent :=
  match c with
  | Down t s x e => let '(h, r) := handle_key_down t s x e h in (h, match r with Ok ev => Some ev | _ => None end)
  | Up t s x e => let '(h, r) := handle_key_up t s x e h in (h, match r with Ok ev => Some ev | _ => None end)
  | Locks a b c => ((synchronize_locks a b c h).1, None)
  | Layout l => (keyboard_set_layout l h, None)
  | Delay d => (set_repeat_delay d h, None)
  | Rate r => (set_repeat_rate r h, None)
  | Reset_ => (keyboard_reset h, None)
  end.

(** A compositor that follows the events: the set of keys it holds down, or
    nothing if an event contradicts it. *)
Definition follow (keys : gset Z) (ev : KeyboardEvent) : option (gset Z) :=
  match ev with
  | Ignored _ => Some keys
  | KeyDown k _ _ _ => if has k keys then None else Some ({[k]} ∪ keys)
  | KeyRepeat k _ _ _ => if has k keys then Some keys else None
  | KeyUp k _ _ _ => if has k keys then Some (keys ∖ {[k]}) else None
  end.

(** Run the handler and the compositor side by side. *)
Fixpoint key_run (h : KeyboardHandler) (keys : gset Z) (cs : list key_call) : option (KeyboardHandler * gset Z) :=
  match cs with
  | [] => Some (h, keys)
  | c :: cs =>
      let '(h', ev) := key_step h c in
      let keys := match c with Reset_ => ∅ | _ => keys end in
      keys ← match ev with Some ev => follow keys ev | None => Some keys end;
      key_run h' keys cs
  end.

(** What every state of the handler satisfies. *)
Record keyboard_inv (h : KeyboardHandler) : Prop := {
  ki_shift : shift (modifiers h) = has KEY_LEFTSHIFT (pressed_keys h) || has KEY_RIGHTSHIFT (pressed_keys h);
  ki_ctrl : ctrl (modifiers h) = has KEY_LEFTCTRL (pressed_keys h) || has KEY_RIGHTCTRL (pressed_keys h);
  ki_alt : alt (modifiers h) = has KEY_LEFTALT (pressed_keys h) || has KEY_RIGHTALT (pressed_keys h);
  ki_meta : meta (modifiers h) = has KEY_LEFTMETA (pressed_keys h) || has KEY_RIGHTMETA (pressed_keys h);
  ki_times : dom (last_key_times h) = pressed_keys h;
  ki_repeat : repeating_keys h ⊆ pressed_keys h;
}.

Lemma has_union k j s : has k ({[j]} ∪ s) = (k =? j) || has k s.
Proof.
  unfold has. apply eq_true_iff_eq. rewrite orb_true_iff, !bool_decide_eq_true, Z.eqb_eq. set_solver.
Qed.

Lemma has_difference k j s : has k (s ∖ {[j]}) = negb (k =? j) && has k s.
Proof.
  unfold has. apply eq_true_iff_eq. rewrite andb_true_iff, !bool_decide_eq_true, negb_true_iff, Z.eqb_neq. set_solver.
Qed.

(** Both kinds of key event keep the four held modifiers exact. *)
Lemma update_modifiers_held (keys keys' : gset Z) (k : Z) (pressed : bool) (m : KeyModifiers) :
  keys' = (if pressed then {[k]} ∪ keys else keys ∖ {[k]}) ->
  shift m = has KEY_LEFTSHIFT keys || has KEY_RIGHTSHIFT keys ->
  ctrl m = has KEY_LEFTCTRL keys || has KEY_RIGHTCTRL keys ->
  alt m = has KEY_LEFTALT keys || has KEY_RIGHTALT keys ->
  meta m = has KEY_LEFTMETA keys || has KEY_RIGHTMETA keys ->
  let m' := update_modifiers keys' k pressed m in
  shift m' = has KEY_LEFTSHIFT keys' || has KEY_RIGHTSHIFT keys' /\
  ctrl m' = has KEY_LEFTCTRL keys' || has KEY_RIGHTCTRL keys' /\
  alt m' = has KEY_LEFTALT keys' || has KEY_RIGHTALT keys' /\
  meta m' = has KEY_LEFTMETA keys' || has KEY_RIGHTMETA keys'.
Proof.
  intros -> Hs Hc Ha Hm. cbv zeta. unfold update_modifiers.
  assert (forall a b, (k =? a) || (k =? b) = true -> has a ({[k]} ∪ keys) || has b ({[k]} ∪ keys) = true) as Hin.
  { intros a b E. rewrite !has_union, (Z.eqb_sym a), (Z.eqb_sym b). by destruct (k =? a), (k =? b), (has a keys). }
  assert (forall a b, (k =? a) || (k =? b) = false ->
            has a (if pressed then {[k]} ∪ keys else keys ∖ {[k]}) || has b (if pressed then {[k]} ∪ keys else keys ∖ {[k]})
            = has a keys || has b keys) as Hout.
  { intros a b E. apply orb_false_iff in E as [E1 E2]. 
    destruct pressed; rewrite ?has_union, ?has_difference, (Z.eqb_sym a), (Z.eqb_sym b), E1, E2; done. }
  assert (forall a b c d, (k =? a) || (k =? b) = true -> ((a =? c) || (a =? d) || (b =? c) || (b =? d)) = false ->
            (k =? c) || (k =? d) = false) as Hdis.
  { intros a b c d E1 E2. destruct (Z.eqb_spec k a), (Z.eqb_spec k b), (Z.eqb_spec k c), (Z.eqb_spec k d); subst; cbn in *;
      rewrite ?Z.eqb_refl, ?orb_true_r in E2; done. }
  destruct ((k =? KEY_LEFTSHIFT) || (k =? KEY_RIGHTSHIFT)) eqn:E1.
  { cbn [shift ctrl alt meta set_shift]. split_and!.
    - destruct pressed; [by rewrite Hin | done].
    - rewrite Hout; [done | by eapply Hdis].
    - rewrite Hout; [done | by eapply Hdis].
    - rewrite Hout; [done | by eapply Hdis]. }
  destruct ((k =? KEY_LEFTCTRL) || (k =? KEY_RIGHTCTRL)) eqn:E2.
  { cbn [shift ctrl alt meta set_ctrl]. split_and!.
    - by rewrite Hout.
    - destruct pressed; [by rewrite Hin | done].
    - rewrite Hout; [done | by eapply Hdis].
    - rewrite Hout; [done | by eapply Hdis]. }
  destruct ((k =? KEY_LEFTALT) || (k =? KEY_RIGHTALT)) eqn:E3.
  { cbn [shift ctrl alt meta set_alt]. split_and!.
    - by rewrite Hout.
    - by rewrite Hout.
    - destruct pressed; [by rewrite Hin | done].
    - rewrite Hout; [done | by eapply Hdis]. }
  destruct ((k =? KEY_LEFTMETA) || (k =? KEY_RIGHTMETA)) eqn:E4.
  { cbn [shift ctrl alt meta set_meta]. split_and!; [by rewrite Hout..|].
    destruct pressed; [by rewrite Hin | done]. }
  rewrite !Hout by done.
  destruct (k =? KEY_CAPSLOCK); [by destruct pressed|].
  destruct (k =? KEY_NUMLOCK); [by destruct pressed|].
  destruct (k =? KEY_SCROLLLOCK); by destruct pressed.
Qed.

Lemma key_step_inv h c : keyboard_inv h ->
  keyboard_inv (key_step h c).1 /\
  (match (key_step h c).2 with
   | Some ev => follow (match c with Reset_ => ∅ | _ => pressed_keys h end) ev
   | None => Some (match c with Reset_ => ∅ | _ => pressed_keys h end)
   end = Some (pressed_keys (key_step h c).1)).
Proof.
  intros Hi. pose proof Hi as [H1 H2 H3 H4 H5 H6].
  destruct c as [t s x e|t s x e|a b c|l|d|r|]; cbn [key_step]; try done.
  - unfold handle_key_down. destruct (translate_scancode _ _ _ _) as [k|er|]; [|done..].
    destruct (repeat_gate t k h) as [rep|] eqn:Eg; [|done].
    assert (rep ⊆ {[k]} ∪ pressed_keys h) as Hrep.
    { unfold repeat_gate in Eg. repeat case_match; simplify_eq; set_solver. }
    destruct (update_modifiers_held (pressed_keys h) ({[k]} ∪ pressed_keys h) k true (modifiers h) eq_refl H1 H2 H3 H4)
      as (M1 & M2 & M3 & M4).
    split.
    + constructor; cbn; try done. rewrite dom_insert_L, H5. done.
    + cbn [fst snd pressed_keys]. unfold follow. destruct (has k (pressed_keys h)) eqn:Eh; [|by rewrite Eh].
      rewrite Eh. f_equal. unfold has in Eh. apply bool_decide_eq_true in Eh. set_solver.
  - unfold handle_key_up. destruct (translate_scancode _ _ _ _) as [k|er|]; [|done..].
    destruct (has k (pressed_keys h)) eqn:Eh; cbn [negb]; [|done].
    destruct (update_modifiers_held (pressed_keys h) (pressed_keys h ∖ {[k]}) k false (modifiers h) eq_refl H1 H2 H3 H4)
      as (M1 & M2 & M3 & M4).
    split.
    + constructor; cbn; try done; [by rewrite dom_delete_L, H5 | set_solver].
    + cbn [fst snd pressed_keys follow]. by rewrite Eh.
Qed.

(** C39. The key events are balanced and the modifiers exact, for every sequence
    of key events, lock synchronisations, layout changes and resets and at any
    timing: no key goes down twice or up without being down, a repeat is only
    sent for a held key, a compositor following the events holds exactly the
    keys the handler believes pressed, and Shift, Ctrl, Alt and Meta are
    reported exactly when one of their keys is held. *)
Theorem key_events_balanced cs :
  exists h, key_run keyboard_new ∅ cs = Some (h, pressed_keys h) /\ keyboard_inv h.
Proof.
  assert (keyboard_inv keyboard_new) as H0 by (constructor; try done; by rewrite dom_empty_L).
  change (∅ : gset Z) with (pressed_keys keyboard_new). revert H0. generalize keyboard_new.
  induction cs as [|c cs IH]; intros h Hi; [by exists h|].
  destruct (key_step_inv h c Hi) as [Hi' Hf]. cbn [key_run].
  destruct (key_step h c) as [h' ev]. cbn [fst snd] in *. rewrite Hf. cbn [mbind option_bind]. by apply IH.
Qed.

(** Lock synchronisation is exact: afterwards the tracked locks are the ones
    the client reported, exactly the differing lock keys are returned for
    toggling, in a fixed order and without repetition, and nothing else changes. *)
Theorem locks_synchronized caps num scroll h :
  let '(h', toggles) := synchronize_locks caps num scroll h in
  (caps_lock (modifiers h') = caps /\ num_lock (modifiers h') = num /\ scroll_lock (modifiers h') = scroll) /\
  (forall k, k ∈ toggles <->
     (k = KEY_CAPSLOCK /\ caps_lock (modifiers h) <> caps) \/ (k = KEY_NUMLOCK /\ num_lock (modifiers h) <> num) \/
     (k = KEY_SCROLLLOCK /\ scroll_lock (modifiers h) <> scroll)) /\
  NoDup toggles /\ pressed_keys h' = pressed_keys h /\
  shift (modifiers h') = shift (modifiers h) /\ synchronize_locks caps num scroll h' = (h', []).
Proof.
  unfold synchronize_locks. cbn [modifiers with_modifiers pressed_keys].
  split_and!; try done.
  - intros k. repeat case_bool_decide; cbn; set_solver.
  - repeat case_bool_decide; cbn; repeat (constructor; [set_solver|]); constructor.
  - cbn. by rewrite !bool_decide_true.
Qed.

(** A held Caps Lock key toggles the tracked state again at every repeat. *)
Lemma repeat_toggles_caps_lock :
  let h1 := (handle_key_down 0 0x3A false false keyboard_new).1 in
  let h2 := (handle_key_down (ms 600) 0x3A false false h1).1 in
  caps_lock (modifiers h1) = true /\ caps_lock (modifiers h2) = false.
Proof. by vm_compute. Qed.
