(* ===== verification/Coordinates.v ===== *)
(** * Pointer coordinates

    Models src/src/rdp/channels/input/coordinates.rs.  Coordinates are IEEE
    doubles ([Float]); the checked build of the geometry is the release one, where
    sums of [u32] wrap. *)
From S2P Require Import Prelude Text Float InputMapper.

(** [z as i32] *)
Definition as_i32 (z : Z) : Z := (z + 2 ^ 31) mod 2 ^ 32 - 2 ^ 31.
Definition i32_min : Z := -2147483648.

(** [coordinates.rs:11-42 MonitorInfo] *)
Record MonitorInfo := mkMonitor {
  id : Z;
  name : str;
  x : Z;
  y : Z;
  width : Z;
  height : Z;
  dpi : f64;
  scale_factor : f64;
  stream_x : Z;
  stream_y : Z;
  stream_width : Z;
  stream_height : Z;
  is_primary : bool;
}.

(** [coordinates.rs:46-50 contains_point] *)
Definition contains_point (m : MonitorInfo) (px py : f64) : bool :=
  let end_x := x m + width m in
  let end_y := y m + height m in
  fge px (f64_of_Z (x m)) && flt px (f64_of_Z end_x) && fge py (f64_of_Z (y m)) && flt py (f64_of_Z end_y).

(** [coordinates.rs:53-61 contains_stream_point] *)
Definition contains_stream_point (m : MonitorInfo) (px py : f64) : bool :=
  let end_x := stream_x m + stream_width m in
  let end_y := stream_y m + stream_height m in
  fge px (f64_of_Z (stream_x m)) && flt px (f64_of_Z end_x)
  && fge py (f64_of_Z (stream_y m)) && flt py (f64_of_Z end_y).

(** [coordinates.rs:66-84 CoordinateSystem] *)
Record CoordinateSystem := mkSystem {
  rdp_width : Z;
  rdp_height : Z;
  virtual_width : Z;
  virtual_height : Z;
  virtual_x_offset : Z;
  virtual_y_offset : Z;
  sys_stream_width : Z;
  sys_stream_height : Z;
  rdp_dpi : f64;
  system_dpi : f64;
}.

(** [coordinates.rs:87-110 CoordinateTransformer] *)
Record CoordinateTransformer := mkTransformer {
  coord_system : CoordinateSystem;
  monitors : list MonitorInfo;
  sub_pixel_x : f64;
  sub_pixel_y : f64;
  last_rdp_x : Z;
  last_rdp_y : Z;
  enable_acceleration : bool;
  acceleration_factor : f64;
  enable_sub_pixel : bool;
}.

(** The three checks of one monitor.  [coordinates.rs:139-173 validate_monitors] *)
Definition validate_monitor (m : MonitorInfo) : outcome InputError unit :=
  if (width m =? 0) || (height m =? 0) || (stream_width m =? 0) || (stream_height m =? 0) then
    Err (InvalidMonitorConfig (lit "Monitor '" ++ name m ++ lit "' has zero-sized desktop or stream dimensions"))
  else if negb (is_finite (dpi m)) || fle (dpi m) fzero || negb (is_finite (scale_factor m)) || fle (scale_factor m) fzero then
    Err (InvalidMonitorConfig (lit "Monitor '" ++ name m ++ lit "' has invalid DPI or scale factor"))
  else if (x m + width m >? i32_max) || (y m + height m >? i32_max)
       || (stream_x m + stream_width m >? u32_max) || (stream_y m + stream_height m >? u32_max) then
    Err (InvalidMonitorConfig (lit "Monitor '" ++ name m ++ lit "' coordinate extent overflows"))
  else Ok tt.

(** [coordinates.rs:132-176 validate_monitors] *)
Definition validate_monitors (ms : list MonitorInfo) : outcome InputError unit :=
  match ms with
  | [] => Err (InvalidMonitorConfig (lit "No monitors configured"))
  | _ => mfold (fun _ m => validate_monitor m) tt ms
  end.

Definition list_max (d : Z) (l : list Z) : Z := match l with [] => d | z :: l => fold_left Z.max l z end.

(** [monitors.iter().find(|m| m.is_primary)] *)
Definition find_primary (ms : list MonitorInfo) : option MonitorInfo := snd <$> list_find is_primary ms.

(** The index [monitors[0]] panics on an empty list.
    [coordinates.rs:179-226 calculate_coordinate_system] *)
Definition calculate_coordinate_system {E} (ms : list MonitorInfo) : outcome E CoordinateSystem :=
  let min_x := fold_left (fun a m => Z.min a (x m)) ms i32_max in
  let min_y := fold_left (fun a m => Z.min a (y m)) ms i32_max in
  let max_x := fold_left (fun a m => Z.max a (as_i32 (x m + width m))) ms i32_min in
  let max_y := fold_left (fun a m => Z.max a (as_i32 (y m + height m))) ms i32_min in
  let virtual_width := wrap 32 (max_x - min_x) in
  let virtual_height := wrap 32 (max_y - min_y) in
  let stream_width := list_max 0 (map (fun m => wrap 32 (stream_x m + stream_width m)) ms) in
  let stream_height := list_max 0 (map (fun m => wrap 32 (stream_y m + stream_height m)) ms) in
  match (match find_primary ms with Some m => Some m | None => head ms end) with
  | None => Panic
  | Some primary =>
      Ok (mkSystem virtual_width virtual_height virtual_width virtual_height min_x min_y
            stream_width stream_height (dpi primary) (f64_of_Z 96))
  end.

(** [coordinates.rs:114-130 new] *)
Definition transformer_new (ms : list MonitorInfo) : outcome InputError CoordinateTransformer :=
  _ ← validate_monitors ms;
  cs ← calculate_coordinate_system ms;
  Ok (mkTransformer cs ms fzero fzero 0 0 true (f64_of_Z 1) true).

(** [coordinates.rs:379-392 find_monitor_at_point] *)
Definition find_monitor_at_point (px py : f64) (t : CoordinateTransformer) : outcome InputError MonitorInfo :=
  match list_find (fun m => contains_point m px py) (monitors t) with
  | Some (_, m) => Ok m
  | None =>
      ok_or (InvalidCoordinate px py)
        (match find_primary (monitors t) with Some m => Some m | None => head (monitors t) end)
  end.

(** [coordinates.rs:395-406 find_monitor_from_stream] *)
Definition find_monitor_from_stream (px py : f64) (t : CoordinateTransformer) : outcome InputError MonitorInfo :=
  match list_find (fun m => contains_stream_point m px py) (monitors t) with
  | Some (_, m) => Ok m
  | None => ok_or (InvalidCoordinate px py) (head (monitors t))
  end.

(** One axis of steps 1 to 3: a client coordinate in the virtual desktop.
    [coordinates.rs:234-246 rdp_to_stream] *)
Definition to_virtual (rdp rdp_extent : Z) (dpi_scale : f64) (virtual_extent offset : Z) : f64 :=
  let norm := div64 (f64_of_Z rdp) (f64_of_Z rdp_extent) in
  let scaled := mul64 norm dpi_scale in
  add64 (mul64 scaled (f64_of_Z virtual_extent)) (f64_of_Z offset).

(** One axis of steps 5 and 6.  [coordinates.rs:252-260 rdp_to_stream] *)
Definition to_stream (virtual : f64) (origin extent stream_origin stream_extent : Z) (scale : f64) : f64 :=
  let local := sub64 virtual (f64_of_Z origin) in
  let monitor_scale := div64 (f64_of_Z stream_extent) (f64_of_Z extent) in
  add64 (f64_of_Z stream_origin) (mul64 (mul64 local monitor_scale) scale).

(** One axis of step 7: the accumulator and the final coordinate.
    [coordinates.rs:264-281 rdp_to_stream] *)
Definition sub_pixel_step (accum stream : f64) : f64 * f64 :=
  let accum := add64 accum (sub64 stream (ffloor stream)) in
  if fge accum (f64_of_Z 1)
  then (sub64 accum (f64_of_Z 1), add64 (ffloor stream) (f64_of_Z 1))
  else (accum, add64 (ffloor stream) fzero).

Definition set_last (px py : Z) (t : CoordinateTransformer) : CoordinateTransformer :=
  mkTransformer (coord_system t) (monitors t) (sub_pixel_x t) (sub_pixel_y t) px py
    (enable_acceleration t) (acceleration_factor t) (enable_sub_pixel t).
Definition set_sub_pixels (ax ay : f64) (t : CoordinateTransformer) : CoordinateTransformer :=
  mkTransformer (coord_system t) (monitors t) ax ay (last_rdp_x t) (last_rdp_y t)
    (enable_acceleration t) (acceleration_factor t) (enable_sub_pixel t).

(** [coordinates.rs:229-287 rdp_to_stream] *)
Definition rdp_to_stream (rdp_x rdp_y : Z) (t : CoordinateTransformer)
    : CoordinateTransformer * outcome InputError (f64 * f64) :=
  let cs := coord_system t in
  let t := set_last (Z.min rdp_x (sat_sub (rdp_width cs) 1)) (Z.min rdp_y (sat_sub (rdp_height cs) 1)) t in
  let dpi_scale := div64 (system_dpi cs) (rdp_dpi cs) in
  let virtual_x := to_virtual rdp_x (rdp_width cs) dpi_scale (virtual_width cs) (virtual_x_offset cs) in
  let virtual_y := to_virtual rdp_y (rdp_height cs) dpi_scale (virtual_height cs) (virtual_y_offset cs) in
  match find_monitor_at_point virtual_x virtual_y t with
  | Panic => (t, Panic)
  | Err e => (t, Err e)
  | Ok m =>
      let sx := to_stream virtual_x (x m) (width m) (stream_x m) (stream_width m) (scale_factor m) in
      let sy := to_stream virtual_y (y m) (height m) (stream_y m) (stream_height m) (scale_factor m) in
      if enable_sub_pixel t then
        let '(ax, fx) := sub_pixel_step (sub_pixel_x t) sx in
        let '(ay, fy) := sub_pixel_step (sub_pixel_y t) sy in
        (set_sub_pixels ax ay t, Ok (fx, fy))
      else (t, Ok (sx, sy))
  end.

(** One axis of steps 2 to 7 of the way back.  [coordinates.rs:295-326 stream_to_rdp] *)
Definition stream_to_rdp_axis (stream : f64) (stream_origin stream_extent origin extent offset virtual_extent rdp_extent : Z)
    (scale dpi_scale : f64) : Z :=
  let local_stream := sub64 stream (f64_of_Z stream_origin) in
  let monitor_scale := div64 (f64_of_Z extent) (f64_of_Z stream_extent) in
  let local := div64 (mul64 local_stream monitor_scale) scale in
  let virtual := add64 (f64_of_Z origin) local in
  let norm := div64 (sub64 virtual (f64_of_Z offset)) (f64_of_Z virtual_extent) in
  let scaled := mul64 norm dpi_scale in
  let rdp := round_as_uint u32_max (mul64 scaled (f64_of_Z rdp_extent)) in
  Z.min rdp (sat_sub rdp_extent 1).

(** [coordinates.rs:290-329 stream_to_rdp] *)
Definition stream_to_rdp (sx sy : f64) (t : CoordinateTransformer) : outcome InputError (Z * Z) :=
  m ← find_monitor_from_stream sx sy t;
  let cs := coord_system t in
  let dpi_scale := div64 (rdp_dpi cs) (system_dpi cs) in
  Ok (stream_to_rdp_axis sx (stream_x m) (stream_width m) (x m) (width m) (virtual_x_offset cs) (virtual_width cs)
        (rdp_width cs) (scale_factor m) dpi_scale,
      stream_to_rdp_axis sy (stream_y m) (stream_height m) (y m) (height m) (virtual_y_offset cs) (virtual_height cs)
        (rdp_height cs) (scale_factor m) dpi_scale).

(** [coordinates.rs:360-376 calculate_acceleration] *)
Definition calculate_acceleration (speed : Z) (t : CoordinateTransformer) : f64 :=
  let base := acceleration_factor t in
  if speed <? 2 then base
  else if speed <? 4 then mul64 base (lit64 3 2)
  else if speed <? 6 then mul64 base (f64_of_Z 2)
  else if speed <? 9 then mul64 base (lit64 5 2)
  else if speed <? 13 then mul64 base (f64_of_Z 3)
  else mul64 base (lit64 7 2).

(** [coordinates.rs:332-357 apply_relative_movement] *)
Definition apply_relative_movement (delta_x delta_y : Z) (t : CoordinateTransformer)
    : CoordinateTransformer * outcome InputError (f64 * f64) :=
  let accel d := if enable_acceleration t then mul64 (f64_of_Z d) (calculate_acceleration (Z.abs d) t) else f64_of_Z d in
  let max_x := f64_of_Z (sat_sub (rdp_width (coord_system t)) 1) in
  let max_y := f64_of_Z (sat_sub (rdp_height (coord_system t)) 1) in
  let new_rdp_x := as_uint u32_max (fclamp (add64 (f64_of_Z (last_rdp_x t)) (accel delta_x)) fzero max_x) in
  let new_rdp_y := as_uint u32_max (fclamp (add64 (f64_of_Z (last_rdp_y t)) (accel delta_y)) fzero max_y) in
  rdp_to_stream new_rdp_x new_rdp_y (set_last new_rdp_x new_rdp_y t).

(** [coordinates.rs:409-413 clamp_to_bounds] *)
Definition clamp_to_bounds (px py : f64) (t : CoordinateTransformer) : f64 * f64 :=
  (fmin (fmax px fzero) (sub64 (f64_of_Z (sys_stream_width (coord_system t))) (f64_of_Z 1)),
   fmin (fmax py fzero) (sub64 (f64_of_Z (sys_stream_height (coord_system t))) (f64_of_Z 1))).

(** [coordinates.rs:416-429 update_monitors] *)
Definition update_monitors (ms : list MonitorInfo) (t : CoordinateTransformer)
    : CoordinateTransformer * outcome InputError unit :=
  match validate_monitors ms with
  | Err e => (t, Err e)
  | Panic => (t, Panic)
  | Ok _ =>
      match calculate_coordinate_system ms with
      | Ok cs => (mkTransformer cs ms fzero fzero (last_rdp_x t) (last_rdp_y t) (enable_acceleration t)
                    (acceleration_factor t) (enable_sub_pixel t), Ok tt)
      | Err e => (t, Err e)
      | Panic => (t, Panic)
      end
  end.

(** [coordinates.rs:432-434 set_acceleration_enabled] *)
Definition set_acceleration_enabled (b : bool) (t : CoordinateTransformer) : CoordinateTransformer :=
  mkTransformer (coord_system t) (monitors t) (sub_pixel_x t) (sub_pixel_y t) (last_rdp_x t) (last_rdp_y t)
    b (acceleration_factor t) (enable_sub_pixel t).
(** [coordinates.rs:437-439 set_acceleration_factor] *)
Definition set_acceleration_factor (f : f64) (t : CoordinateTransformer) : CoordinateTransformer :=
  mkTransformer (coord_system t) (monitors t) (sub_pixel_x t) (sub_pixel_y t) (last_rdp_x t) (last_rdp_y t)
    (enable_acceleration t) f (enable_sub_pixel t).
(** [coordinates.rs:442-444 set_sub_pixel_enabled] *)
Definition set_sub_pixel_enabled (b : bool) (t : CoordinateTransformer) : CoordinateTransformer :=
  mkTransformer (coord_system t) (monitors t) (sub_pixel_x t) (sub_pixel_y t) (last_rdp_x t) (last_rdp_y t)
    (enable_acceleration t) (acceleration_factor t) b.
(** [coordinates.rs:447-449 monitor_count] *)
Definition monitor_count (t : CoordinateTransformer) : nat := length (monitors t).
(** [coordinates.rs:452-454 get_monitor] *)
Definition get_monitor (i : Z) (t : CoordinateTransformer) : option MonitorInfo :=
  snd <$> list_find (fun m => id m =? i) (monitors t).

(** ** The transformer's invariant *)

(** The machine-width ranges of the fields of a monitor. *)
Definition monitor_typed (m : MonitorInfo) : Prop :=
  (i32_min <= x m <= i32_max /\ i32_min <= y m <= i32_max) /\
  (0 <= width m <= u32_max /\ 0 <= height m <= u32_max) /\
  (0 <= stream_x m <= u32_max /\ 0 <= stream_y m <= u32_max) /\
  (0 <= stream_width m <= u32_max /\ 0 <= stream_height m <= u32_max).

(** Both stream extents are at least one pixel, and there is a monitor. *)
Record transformer_wf (t : CoordinateTransformer) : Prop := {
  tw_monitors : monitors t <> [];
  tw_width : 1 <= sys_stream_width (coord_system t) <= u32_max;
  tw_height : 1 <= sys_stream_height (coord_system t) <= u32_max;
}.

Lemma validate_each ms : forall u, mfold (fun _ m => validate_monitor m) u ms = Ok tt ->
  Forall (fun m => validate_monitor m = Ok tt) ms.
Proof.
  induction ms as [|m ms IH]; intros u H; [done|]. cbn [mfold] in H.
  apply bind_ok in H as ([] & Hm & H). constructor; [done|]. by eapply IH.
Qed.

Lemma validate_monitor_extents m : monitor_typed m -> validate_monitor m = Ok tt ->
  1 <= wrap 32 (stream_x m + stream_width m) <= u32_max /\ 1 <= wrap 32 (stream_y m + stream_height m) <= u32_max.
Proof.
  intros (_ & _ & Hs & Hd). unfold validate_monitor.
  destruct (_ || _ || _ || _) eqn:E1; [done|]. destruct (_ || _ || _ || _) eqn:E2 in |- *; [done|].
  destruct (_ || _ || _ || _) eqn:E3 in |- *; [done|]. intros _.
  repeat match goal with H : (_ || _) = false |- _ => apply orb_false_iff in H as [? ?] end.
  rewrite !Z.gtb_ltb in *. bool_cases. unfold u32_max in *. rewrite !wrap_small by lia. lia.
Qed.

Lemma list_max_bound lo hi d l : l <> [] -> Forall (fun z => lo <= z <= hi) l -> lo <= list_max d l <= hi.
Proof.
  destruct l as [|z l]; [done|]. intros _ H. cbn. apply Forall_cons in H as [Hz H].
  revert z Hz. induction H as [|y l Hy H IH]; intros z Hz; cbn; [done|]. apply IH. lia.
Qed.

Lemma system_wf ms : Forall monitor_typed ms -> validate_monitors ms = Ok tt ->
  ms <> [] /\ exists cs, @calculate_coordinate_system InputError ms = Ok cs /\
    1 <= sys_stream_width cs <= u32_max /\ 1 <= sys_stream_height cs <= u32_max.
Proof.
  intros Ht Hv. assert (ms <> []) as Hne by (by destruct ms). split; [done|].
  assert (Forall (fun m => validate_monitor m = Ok tt) ms) as Hf by (destruct ms; [done | by apply (validate_each _ tt)]).
  assert (Forall (fun m => 1 <= wrap 32 (stream_x m + stream_width m) <= u32_max /\
                           1 <= wrap 32 (stream_y m + stream_height m) <= u32_max) ms) as Hm.
  { rewrite Forall_forall in Ht, Hf |- *. intros m Hin. apply validate_monitor_extents; auto. }
  unfold calculate_coordinate_system.
  destruct (match find_primary ms with Some m => Some m | None => head ms end) eqn:Ep.
  - eexists. split; [done|]. cbn [sys_stream_width sys_stream_height].
    split; (apply list_max_bound; [by intros ?%map_eq_nil|]); apply Forall_map; (eapply Forall_impl; [exact Hm|by intros ? [? ?]]).
  - destruct (find_primary ms); [done|]. by destruct ms.
Qed.

Lemma transformer_new_wf ms t : Forall monitor_typed ms -> transformer_new ms = Ok t -> transformer_wf t.
Proof.
  unfold transformer_new. intros Ht H. apply bind_ok in H as ([] & Hv & H).
  destruct (system_wf ms Ht Hv) as (Hne & cs & Hcs & Hw & Hh). rewrite Hcs in H.
  cbn [mbind outcome_bind] in H. apply Ok_inj in H as <-. by constructor.
Qed.

Lemma update_monitors_wf ms t : Forall monitor_typed ms -> transformer_wf t -> transformer_wf (update_monitors ms t).1.
Proof.
  intros Ht Hw. unfold update_monitors. destruct (validate_monitors ms) as [[]| |] eqn:Hv; [|done..].
  destruct (system_wf ms Ht Hv) as (Hne & cs & Hcs & ? & ?). rewrite Hcs. by constructor.
Qed.

Lemma rdp_to_stream_wf a b t : transformer_wf t ->
  transformer_wf (rdp_to_stream a b t).1 /\ (exists p, (rdp_to_stream a b t).2 = Ok p) /\
  coord_system (rdp_to_stream a b t).1 = coord_system t.
Proof.
  intros [Hm Hw Hh]. unfold rdp_to_stream.
  set (t1 := set_last _ _ t). assert (monitors t1 = monitors t) as Em by done.
  assert (transformer_wf t1) as Hw1 by (by constructor).
  destruct (find_monitor_at_point _ _ t1) as [m|e|] eqn:E.
  - destruct (enable_sub_pixel t1); [|split; [done|]; split; [by eexists|done]].
    destruct (sub_pixel_step _ _), (sub_pixel_step _ _). split; [by constructor|]. split; [by eexists|done].
  - exfalso. unfold find_monitor_at_point in E. rewrite Em in E. destruct (list_find _ _) as [[]|]; [done|].
    destruct (find_primary _); [done|]. by destruct (monitors t).
  - exfalso. unfold find_monitor_at_point in E. rewrite Em in E. destruct (list_find _ _) as [[]|]; [done|].
    destruct (find_primary _); [done|]. by destruct (monitors t).
Qed.

Lemma relative_wf dx dy t : transformer_wf t ->
  transformer_wf (apply_relative_movement dx dy t).1 /\ (exists p, (apply_relative_movement dx dy t).2 = Ok p).
Proof.
  intros [Hm Hw Hh]. unfold apply_relative_movement.
  match goal with |- context [rdp_to_stream ?a ?b ?t'] => destruct (rdp_to_stream_wf a b t') as (H1 & H2 & _) end;
    [by constructor|done].
Qed.

(** A stream position inside the encoded picture. *)
Definition in_bounds (p : f64 * f64) (t : CoordinateTransformer) : Prop :=
  fle fzero p.1 = true /\ fle p.1 (sub64 (f64_of_Z (sys_stream_width (coord_system t))) (f64_of_Z 1)) = true /\
  fle fzero p.2 = true /\ fle p.2 (sub64 (f64_of_Z (sys_stream_height (coord_system t))) (f64_of_Z 1)) = true.

Lemma clamp_in_bounds px py t : transformer_wf t -> in_bounds (clamp_to_bounds px py t) t.
Proof.
  intros [_ Hw Hh]. unfold u32_max in *. unfold in_bounds, clamp_to_bounds. cbn [fst snd].
  destruct (max_min_between px _ (pred_nonneg (sys_stream_width (coord_system t)) ltac:(lia))).
  destruct (max_min_between py _ (pred_nonneg (sys_stream_height (coord_system t)) ltac:(lia))). done.
Qed.

(** ** The common single-monitor configuration *)
Definition full_hd : MonitorInfo :=
  mkMonitor 1 (lit "Primary") 0 0 1920 1080 (f64_of_Z 96) (f64_of_Z 1) 0 0 1920 1080 true.

Definition full_hd_transformer : CoordinateTransformer :=
  match transformer_new [full_hd] with Ok t => t | _ => mkTransformer (mkSystem 0 0 0 0 0 0 0 0 fzero fzero) [] fzero fzero 0 0 true fzero true end.

(** The exact value of a float as an integer, when it is one. *)
Definition int_of (f : f64) : option Z := let z := as_int i32_min i32_max f in if feq f (f64_of_Z z) then Some z else None.

Definition moved (t : CoordinateTransformer) (a b : Z) : option (Z * Z) :=
  match (rdp_to_stream a b t).2 with
  | Ok (sx, sy) => px ← int_of sx; py ← int_of sy; Some (px, py)
  | _ => None
  end.

(** Columns that the first move to them reports one pixel to the left, because
    [x / width * width] can round below [x] and is then floored. *)
Definition shifted_columns : list Z :=
  List.filter (fun c => negb (bool_decide (moved full_hd_transformer c 0 = Some (c, 0)))) (seqZ 0 1920).

(** On a 1920-pixel screen, a move to column 123 reports 122 first and 123 the
    second time, so that the pointer creeps while the client's stands still. *)
Lemma pointer_creeps :
  length shifted_columns = 22%nat /\ moved full_hd_transformer 123 0 = Some (122, 0) /\
  moved (rdp_to_stream 123 0 full_hd_transformer).1 123 0 = Some (123, 0).
Proof. by vm_compute. Qed.
