(* ===== verification/Mouse.v ===== *)
(** * Mouse state

    Models src/src/rdp/channels/input/mouse.rs on top of [Coordinates].  The
    clock read of an operation is its first argument. *)
From S2P Require Import Prelude Text Float InputMapper Coordinates.

(** [mouse.rs:11-22 MouseButton] *)
Inductive MouseButton := Left | Right | Middle | Extra1 | Extra2.
#[export] Instance MouseButton_eq_dec : EqDecision MouseButton.
Proof. solve_decision. Defined.

(** [mouse.rs:26-34 to_linux_button] *)
Definition to_linux_button (b : MouseButton) : Z :=
  match b with Left => 0x110 | Right => 0x111 | Middle => 0x112 | Extra1 => 0x113 | Extra2 => 0x114 end.

(** [mouse.rs:37-46 from_rdp_button] *)
Definition from_rdp_button (button : Z) : option MouseButton :=
  if button =? 0x1000 then Some Left
  else if button =? 0x2000 then Some Right
  else if button =? 0x4000 then Some Middle
  else if button =? 0x0080 then Some Extra1
  else if button =? 0x0100 then Some Extra2
  else None.

(** [mouse.rs:51-87 MouseEvent] *)
Inductive MouseEvent :=
| Move (x y : f64) (timestamp : Z)
| ButtonDown (button : MouseButton) (timestamp : Z)
| ButtonUp (button : MouseButton) (timestamp : Z)
| Scroll (delta_x delta_y : Z) (timestamp : Z).

(** [mouse.rs:90-110 MouseHandler] *)
Record MouseHandler := mkMouse {
  current_x : f64;
  current_y : f64;
  button_states : list bool;
  last_event_time : option Z;
  last_button_release : list (option Z);
  high_precision_scroll : bool;
  scroll_accum_x : f64;
  scroll_accum_y : f64;
}.

(** [mouse.rs:114-125 new] *)
Definition mouse_new : MouseHandler :=
  mkMouse fzero fzero (replicate 5 false) None (replicate 5 None) true fzero fzero.

(** [mouse.rs:291-299 button_to_index] *)
Definition button_to_index (b : MouseButton) : nat :=
  match b with Left => 0 | Right => 1 | Middle => 2 | Extra1 => 3 | Extra2 => 4 end%nat.

Definition set_position (px py : f64) (timestamp : Z) (h : MouseHandler) : MouseHandler :=
  mkMouse px py (button_states h) (Some timestamp) (last_button_release h) (high_precision_scroll h)
    (scroll_accum_x h) (scroll_accum_y h).
Definition set_event_time (timestamp : Z) (h : MouseHandler) : MouseHandler :=
  mkMouse (current_x h) (current_y h) (button_states h) (Some timestamp) (last_button_release h)
    (high_precision_scroll h) (scroll_accum_x h) (scroll_accum_y h).

(** The common end of both pointer moves: clamp, remember, report. *)
Definition finish_move (now : Z) (h : MouseHandler) (r : CoordinateTransformer * outcome InputError (f64 * f64))
    : MouseHandler * CoordinateTransformer * outcome InputError MouseEvent :=
  match r with
  | (t, Panic) => (h, t, Panic)
  | (t, Err e) => (h, t, Err e)
  | (t, Ok (sx, sy)) =>
      let '(sx, sy) := clamp_to_bounds sx sy t in
      (set_position sx sy now h, t, Ok (Move sx sy now))
  end.

(** [mouse.rs:128-150 handle_absolute_move] *)
Definition handle_absolute_move (now rdp_x rdp_y : Z) (h : MouseHandler) (t : CoordinateTransformer) :=
  finish_move now h (rdp_to_stream rdp_x rdp_y t).

(** [mouse.rs:153-175 handle_relative_move] *)
Definition handle_relative_move (now delta_x delta_y : Z) (h : MouseHandler) (t : CoordinateTransformer) :=
  finish_move now h (apply_relative_movement delta_x delta_y t).

(** [mouse.rs:189-189 DUPLICATE_PATH_WINDOW] *)
Definition DUPLICATE_PATH_WINDOW : Z := ms 8.

(** [mouse.rs:271-274 is_button_pressed] *)
Definition is_button_pressed (b : MouseButton) (h : MouseHandler) : bool :=
  nth (button_to_index b) (button_states h) false.

(** [mouse.rs:183-205 accept_button_transition_at] *)
Definition accept_button_transition_at (now : Z) (b : MouseButton) (pressed : bool) (h : MouseHandler)
    : MouseHandler * bool :=
  let index := button_to_index b in
  if Bool.eqb (nth index (button_states h) false) pressed then (h, false)
  else if pressed && match nth index (last_button_release h) None with
                     | Some released => since now released <? DUPLICATE_PATH_WINDOW
                     | None => false
                     end then (h, false)
  else
    (mkMouse (current_x h) (current_y h) (<[index := pressed]> (button_states h)) (last_event_time h)
       (if pressed then last_button_release h else <[index := Some now]> (last_button_release h))
       (high_precision_scroll h) (scroll_accum_x h) (scroll_accum_y h), true).

(** [mouse.rs:208-213 handle_button_down] *)
Definition handle_button_down (now : Z) (b : MouseButton) (h : MouseHandler) : MouseHandler * MouseEvent :=
  (set_event_time now h, ButtonDown b now).
(** [mouse.rs:216-221 handle_button_up] *)
Definition handle_button_up (now : Z) (b : MouseButton) (h : MouseHandler) : MouseHandler * MouseEvent :=
  (set_event_time now h, ButtonUp b now).

(** One axis of high-precision scrolling: the accumulator and the whole steps.
    [mouse.rs:230-237 handle_scroll] *)
Definition scroll_step (accum : f64) (delta : Z) : f64 * Z :=
  let accum := add64 accum (div64 (f64_of_Z delta) (f64_of_Z 120)) in
  let steps := as_int i32_min i32_max (ftrunc accum) in
  (sub64 accum (f64_of_Z steps), steps).

(** [mouse.rs:224-250 handle_scroll] *)
Definition handle_scroll (now delta_x delta_y : Z) (h : MouseHandler) : MouseHandler * MouseEvent :=
  let h := set_event_time now h in
  if high_precision_scroll h then
    let '(ax, dx) := scroll_step (scroll_accum_x h) delta_x in
    let '(ay, dy) := scroll_step (scroll_accum_y h) delta_y in
    (mkMouse (current_x h) (current_y h) (button_states h) (last_event_time h) (last_button_release h)
       true ax ay, Scroll dx dy now)
  else (h, Scroll (Z.quot delta_x 120) (Z.quot delta_y 120) now).

(** [mouse.rs:257-268 pressed_buttons] *)
Definition pressed_buttons (h : MouseHandler) : list MouseButton :=
  List.filter (fun b => is_button_pressed b h) [Left; Right; Middle; Extra1; Extra2].

(** [mouse.rs:253-255 current_position] *)
Definition current_position (h : MouseHandler) : f64 * f64 := (current_x h, current_y h).

(** [mouse.rs:282-288 set_high_precision_scroll] *)
Definition set_high_precision_scroll (enabled : bool) (h : MouseHandler) : MouseHandler :=
  mkMouse (current_x h) (current_y h) (button_states h) (last_event_time h) (last_button_release h) enabled
    (if enabled then scroll_accum_x h else fzero) (if enabled then scroll_accum_y h else fzero).

(** [mouse.rs:302-307 reset] *)
Definition mouse_reset (h : MouseHandler) : MouseHandler :=
  mkMouse (current_x h) (current_y h) (replicate 5 false) (last_event_time h) (replicate 5 None)
    (high_precision_scroll h) fzero fzero.

(** ** Pointer moves stay inside the picture *)
Inductive pointer_call :=
| Absolute (now rdp_x rdp_y : Z)
| Relative (now delta_x delta_y : Z)
| Monitors (ms : list MonitorInfo)
| Tune (acceleration : bool) (factor : f64) (sub_pixel : bool).

(** The calls with the transformer they ran against, for the picture's size. *)
Definition pointer_step (h : MouseHandler) (t : CoordinateTransformer) (c : pointer_call)
    : MouseHandler * CoordinateTransformer * option (outcome InputError MouseEvent) :=
  match c with
  | Absolute now a b => let '(h, t, e) := handle_absolute_move now a b h t in (h, t, Some e)
  | Relative now a b => let '(h, t, e) := handle_relative_move now a b h t in (h, t, Some e)
  | Monitors ms => (h, (update_monitors ms t).1, None)
  | Tune a f s => (h, set_sub_pixel_enabled s (set_acceleration_factor f (set_acceleration_enabled a t)), None)
  end.

Fixpoint pointer_run (h : MouseHandler) (t : CoordinateTransformer) (cs : list pointer_call)
    : list (CoordinateTransformer * outcome InputError MouseEvent) :=
  match cs with
  | [] => []
  | c :: cs =>
      let '(h, t, e) := pointer_step h t c in
      match e with Some e => [(t, e)] | None => [] end ++ pointer_run h t cs
  end.

Definition typed_call (c : pointer_call) : Prop :=
  match c with Monitors ms => Forall monitor_typed ms | _ => True end.

Lemma finish_move_in_bounds now h t p : transformer_wf t ->
  exists sx sy, finish_move now h (t, Ok p) = (set_position sx sy now h, t, Ok (Move sx sy now)) /\ in_bounds (sx, sy) t.
Proof.
  intros Hw. destruct p as [px py]. cbn [finish_move]. pose proof (clamp_in_bounds px py t Hw) as Hb.
  destruct (clamp_to_bounds px py t) as [sx sy]. eauto.
Qed.

Lemma pointer_step_wf h t c : transformer_wf t -> typed_call c ->
  let '(_, t', e) := pointer_step h t c in
  transformer_wf t' /\
  match e with
  | Some e => exists sx sy now, e = Ok (Move sx sy now) /\ in_bounds (sx, sy) t'
  | None => True
  end.
Proof.
  intros Hw Hc. destruct c as [now a b|now a b|ms|a f s]; cbn [pointer_step typed_call] in *.
  - unfold handle_absolute_move. destruct (rdp_to_stream_wf a b t Hw) as (Hw' & [p Hp] & _).
    destruct (rdp_to_stream a b t) as [t' r]. cbn [fst snd] in *. subst r.
    destruct (finish_move_in_bounds now h t' p Hw') as (sx & sy & -> & Hb). eauto 6.
  - unfold handle_relative_move. destruct (relative_wf a b t Hw) as (Hw' & [p Hp]).
    destruct (apply_relative_movement a b t) as [t' r]. cbn [fst snd] in *. subst r.
    destruct (finish_move_in_bounds now h t' p Hw') as (sx & sy & -> & Hb). eauto 6.
  - split; [|done]. by apply update_monitors_wf.
  - split; [|done]. by destruct Hw; constructor.
Qed.

(** No pointer motion leaves the encoded picture: for every accepted monitor
    configuration, every sequence of absolute and relative moves with any client
    coordinates, reconfigurations and acceleration settings (infinite and NaN
    factors included), each move succeeds and reports a position between zero and
    the last pixel of the stream, in both axes. *)
Theorem pointer_stays_in_picture ms t h cs :
  Forall monitor_typed ms -> transformer_new ms = Ok t -> Forall typed_call cs ->
  Forall (fun r => exists sx sy now, r.2 = Ok (Move sx sy now) /\ in_bounds (sx, sy) r.1) (pointer_run h t cs).
Proof.
  intros Ht Hn Hc. apply transformer_new_wf in Hn; [|done]. clear ms Ht. revert h t Hn.
  induction Hc as [|c cs Hc Hcs IH]; intros h t Hw; [done|]. cbn [pointer_run].
  pose proof (pointer_step_wf h t c Hw Hc) as Hs. destruct (pointer_step h t c) as [[h' t'] [e|]];
    destruct Hs as [Hw' He]; cbn [app]; [constructor|]; auto.
Qed.

Lemma pointer_stays_in_picture_witness :
  Forall (fun r => exists sx sy now, r.2 = Ok (Move sx sy now) /\ in_bounds (sx, sy) r.1)
    (pointer_run mouse_new full_hd_transformer
       [Absolute 0 5000 5000; Tune true S754_nan true; Relative 1 (-3) 7; Relative 2 i32_min i32_min]).
Proof.
  apply (pointer_stays_in_picture [full_hd]).
  - constructor; [|done]. unfold monitor_typed. cbn. unfold i32_min, i32_max, u32_max. lia.
  - by vm_compute.
  - by repeat constructor.
Defined.

(** ** Button transitions

    The reference: the accepted transitions of each button, newest first. *)
Inductive button_call :=
| Transition (now : Z) (b : MouseButton) (pressed : bool)
| ResetButtons.

Abbreviation button_log := (list (MouseButton * (Z * bool))).

Definition events (b : MouseButton) (log : button_log) : list (Z * bool) :=
  map snd (List.filter (fun e => bool_decide (e.1 = b)) log).

Fixpoint button_run (h : MouseHandler) (log : button_log) (cs : list button_call) : MouseHandler * button_log :=
  match cs with
  | [] => (h, log)
  | Transition now b pressed :: cs =>
      let '(h, accepted) := accept_button_transition_at now b pressed h in
      button_run h (if accepted then (b, (now, pressed)) :: log else log) cs
  | ResetButtons :: cs => button_run (mouse_reset h) [] cs
  end.

(** A clean history: presses and releases alternate, beginning with a press,
    and a press follows a release by at least the duplicate window. *)
Fixpoint clean (l : list (Z * bool)) : Prop :=
  match l with
  | [] => True
  | (t, p) :: l' =>
      match l' with
      | [] => p = true
      | (t', p') :: _ => p = negb p' /\ (p = true -> DUPLICATE_PATH_WINDOW <= t - t')
      end /\ clean l'
  end.

(** The verdict on a transition, from the history of the button alone. *)
Definition verdict (l : list (Z * bool)) (now : Z) (pressed : bool) : bool :=
  match l with
  | [] => pressed
  | (t, p) :: _ => negb (Bool.eqb p pressed) && (negb pressed || (DUPLICATE_PATH_WINDOW <=? since now t))
  end.

(** The handler's two arrays summarise the last event of each button. *)
Definition button_inv (h : MouseHandler) (log : button_log) : Prop :=
  length (button_states h) = 5%nat /\ length (last_button_release h) = 5%nat /\
  forall b, clean (events b log) /\
    match events b log with
    | [] => is_button_pressed b h = false /\ nth (button_to_index b) (last_button_release h) None = None
    | (t, p) :: _ => is_button_pressed b h = p /\
        (p = false -> nth (button_to_index b) (last_button_release h) None = Some t)
    end.

Lemma nth_insert_eq {A} (l : list A) i x d : (i < length l)%nat -> nth i (<[i:=x]> l) d = x.
Proof. revert i; induction l as [|y l IH]; intros [|i] H; cbn in *; try lia; [done|]. apply IH. lia. Qed.

Lemma nth_insert_ne {A} (l : list A) i j x d : i <> j -> nth j (<[i:=x]> l) d = nth j l d.
Proof. revert i j; induction l as [|y l IH]; intros [|i] [|j] H; cbn; try done. apply IH. congruence. Qed.

Lemma button_to_index_inj b c : button_to_index b = button_to_index c -> b = c.
Proof. by destruct b, c. Qed.

Lemma button_to_index_lt b : (button_to_index b < 5)%nat.
Proof. destruct b; cbn; lia. Qed.

Lemma events_cons b c e log : events b ((c, e) :: log) = if decide (c = b) then e :: events b log else events b log.
Proof. unfold events. cbn. by destruct (decide (c = b)) as [->|]; [rewrite bool_decide_true|rewrite bool_decide_false]. Qed.

(** One transition takes the reference's verdict and keeps the invariant. *)
Lemma accept_step now b pressed h log : button_inv h log ->
  (accept_button_transition_at now b pressed h).2 = verdict (events b log) now pressed /\
  button_inv (accept_button_transition_at now b pressed h).1
    (if verdict (events b log) now pressed then (b, (now, pressed)) :: log else log).
Proof.
  intros Hi. pose proof Hi as (H5 & H5' & Hb). pose proof (button_to_index_lt b).
  assert ((accept_button_transition_at now b pressed h).2 = verdict (events b log) now pressed) as Hv.
  { destruct (Hb b) as [_ Hs]. unfold accept_button_transition_at, verdict. fold (is_button_pressed b h).
    destruct (events b log) as [|[t p] l]; destruct Hs as [-> Hr]; [rewrite Hr; by destruct pressed|].
    destruct p, pressed; cbn [Bool.eqb negb andb orb]; try done.
    rewrite Hr by done. rewrite Z.leb_antisym. by destruct (_ <? _). }
  split; [done|]. rewrite <- Hv. revert Hv. unfold accept_button_transition_at.
  destruct (Bool.eqb _ pressed); [done|].
  destruct (pressed && _); [done|]. cbn [fst snd]. intros Hv.
  unfold button_inv. cbn [button_states last_button_release]. split; [by rewrite length_insert|].
  split; [destruct pressed; by rewrite ?length_insert|]. intros c. rewrite events_cons.
  destruct (decide (b = c)) as [<-|Hne].
  - destruct (Hb b) as [Hc Hs]. split.
    + cbn [clean]. split; [|done]. unfold verdict in Hv.
      destruct (events b log) as [|[t p] l]; [done|]. symmetry in Hv.
      apply andb_true_iff in Hv as [Hp Hg]. split; [by destruct p, pressed|].
      intros ->. cbn [negb orb] in Hg. apply Z.leb_le in Hg.
      unfold since, sat_sub, DUPLICATE_PATH_WINDOW, ms in *. lia.
    + unfold is_button_pressed. cbn [button_states]. rewrite nth_insert_eq by lia. split; [done|].
      intros ->. by rewrite nth_insert_eq by lia.
  - destruct (Hb c) as [Hc Hs]. split; [done|].
    assert (button_to_index b <> button_to_index c) by (by intros ?%button_to_index_inj).
    unfold is_button_pressed. cbn [button_states]. rewrite nth_insert_ne by done.
    destruct pressed; rewrite ?nth_insert_ne by done; exact Hs.
Qed.

Lemma button_run_inv cs : forall h log, button_inv h log ->
  button_inv (button_run h log cs).1 (button_run h log cs).2.
Proof.
  induction cs as [|[now b pressed|] cs IH]; intros h log Hi; [done|..]; cbn [button_run].
  - destruct (accept_step now b pressed h log Hi) as [Hv Hi'].
    destruct (accept_button_transition_at now b pressed h) as [h' a]. cbn [fst snd] in *. subst a. by apply IH.
  - apply IH. split_and!; [done..|]. intros b. split; [done|]. by destruct b.
Qed.

(** Duplicate button events are removed and nothing else is: after any
    sequence of transitions and resets, the accepted events of every button
    alternate between press and release, begin with a press, and leave at least
    8 ms between a release and the next press; the pressed buttons are those
    whose last accepted event is a press; and the next event is accepted exactly
    when it changes the button's state and is not such an early press, so that
    the release of a held button is never lost. *)
Theorem buttons_debounced cs now b pressed :
  let '(h, log) := button_run mouse_new [] cs in
  clean (events b log) /\
  (b ∈ pressed_buttons h <-> exists t l, events b log = (t, true) :: l) /\
  (accept_button_transition_at now b pressed h).2 = verdict (events b log) now pressed /\
  (b ∈ pressed_buttons h -> (accept_button_transition_at now b false h).2 = true).
Proof.
  assert (button_inv mouse_new []) as H0 by (split_and!; [done..|]; intros []; done).
  pose proof (button_run_inv cs _ _ H0) as Hi. destruct (button_run mouse_new [] cs) as [h log]. cbn [fst snd] in Hi.
  pose proof Hi as (_ & _ & Hb). destruct (Hb b) as [Hc Hs].
  assert (b ∈ pressed_buttons h <-> exists t l, events b log = (t, true) :: l) as Hp.
  { unfold pressed_buttons. rewrite list_elem_of_In, filter_In.
    split.
    - intros [_ Hp]. destruct (events b log) as [|[t p] l]; destruct Hs as [Hs _]; [congruence|].
      destruct p; [by exists t, l | congruence].
    - intros (t & l & E). rewrite E in Hs. split; [destruct b; cbn; tauto | apply Hs]. }
  split; [done|]. split; [done|]. split; [by apply accept_step|].
  intros H. apply Hp in H as (t & l & E). rewrite (proj1 (accept_step now b false h log Hi)), E. done.
Qed.

(** A full notch sent as 120 unit deltas in high-precision mode is not complete
    with its last delta: the accumulator has lost a few units in the last place. *)
Definition unit_scrolls (n : nat) : f64 * Z :=
  Nat.iter n (fun s => let '(a, k) := scroll_step s.1 1 in (a, s.2 + k)) (fzero, 0).

Lemma notch_of_units_is_late : (unit_scrolls 120).2 = 0 /\ (unit_scrolls 121).2 = 1.
Proof. by vm_compute. Qed.
