(* ===== verification/InputQueue.v ===== *)
(** * The input channel

    Models src/src/rdp/server/input_handler.rs: the bounded queue between the
    protocol library's synchronous callbacks and the worker that injects the events
    into the session, the Unicode and clipboard paste paths for text without a key,
    and the failure accounting.  It composes Keyboard.v, Mouse.v, Coordinates.v and
    the events of Supervision.v.  The session, the clipboard and the client's
    pointer channel are asked through [Backend], whose answers may depend on all
    that happened before.  The log lines and the flags that only guard one are left
    out, and so is the queue's end when the last handle to it is dropped. *)
From S2P Require Import Prelude Text Float InputMapper Keyboard Coordinates Mouse.
From S2P Require Egfx Supervision.
Import Keys.

(** ** Text without a key *)

(** [input_handler.rs:28-31 CjkPasteBuffer] *)
Record CjkPasteBuffer := mkCjk { buf : str; pending_high_surrogate : option Z }.
(** [input_handler.rs:34-39 new] *)
Definition cjk_new : CjkPasteBuffer := mkCjk [] None.
(** [input_handler.rs:41-43 push_char] *)
Definition push_char (c : Z) (b : CjkPasteBuffer) : CjkPasteBuffer := mkCjk (buf b ++ [c]) (pending_high_surrogate b).

Definition is_high_surrogate (u : Z) : bool := (0xD800 <=? u) && (u <=? 0xDBFF).
Definition is_low_surrogate (u : Z) : bool := (0xDC00 <=? u) && (u <=? 0xDFFF).

(** [input_handler.rs:48-57 push_surrogate_pair] *)
Definition push_surrogate_pair (high low : Z) (b : CjkPasteBuffer) : option Z * CjkPasteBuffer :=
  if negb (is_high_surrogate high) || negb (is_low_surrogate low) then (None, mkCjk (buf b) None)
  else
    let code_point := 0x10000 + Z.shiftl (high - 0xD800) 10 + (low - 0xDC00) in
    if is_scalar code_point then (Some code_point, mkCjk (buf b ++ [code_point]) None) else (None, b).

(** [input_handler.rs:59-61 is_empty] *)
Definition cjk_is_empty (b : CjkPasteBuffer) : bool := bool_decide (buf b = []) && bool_decide (pending_high_surrogate b = None).

(** [input_handler.rs:65-72 take_text] *)
Definition take_text (b : CjkPasteBuffer) : option str * CjkPasteBuffer :=
  (match buf b with [] => None | text => Some text end, cjk_new).

(** The keys of a US keyboard, without and with shift.
    [input_handler.rs:89-255 unicode_to_evdev] *)
Definition unicode_to_evdev (cp : Z) : option (Z * bool) :=
  match cp with
  | 0x20 => Some (KEY_SPACE, false) | 0x09 => Some (KEY_TAB, false) | 0x0A | 0x0D => Some (KEY_ENTER, false)
  | 0x30 => Some (KEY_0, false) | 0x31 => Some (KEY_1, false) | 0x32 => Some (KEY_2, false) | 0x33 => Some (KEY_3, false) | 0x34 => Some (KEY_4, false)
  | 0x35 => Some (KEY_5, false) | 0x36 => Some (KEY_6, false) | 0x37 => Some (KEY_7, false) | 0x38 => Some (KEY_8, false) | 0x39 => Some (KEY_9, false)
  | 0x61 => Some (KEY_A, false) | 0x62 => Some (KEY_B, false) | 0x63 => Some (KEY_C, false) | 0x64 => Some (KEY_D, false) | 0x65 => Some (KEY_E, false)
  | 0x66 => Some (KEY_F, false) | 0x67 => Some (KEY_G, false) | 0x68 => Some (KEY_H, false) | 0x69 => Some (KEY_I, false) | 0x6A => Some (KEY_J, false)
  | 0x6B => Some (KEY_K, false) | 0x6C => Some (KEY_L, false) | 0x6D => Some (KEY_M, false) | 0x6E => Some (KEY_N, false) | 0x6F => Some (KEY_O, false)
  | 0x70 => Some (KEY_P, false) | 0x71 => Some (KEY_Q, false) | 0x72 => Some (KEY_R, false) | 0x73 => Some (KEY_S, false) | 0x74 => Some (KEY_T, false)
  | 0x75 => Some (KEY_U, false) | 0x76 => Some (KEY_V, false) | 0x77 => Some (KEY_W, false) | 0x78 => Some (KEY_X, false) | 0x79 => Some (KEY_Y, false)
  | 0x7A => Some (KEY_Z, false) | 0x41 => Some (KEY_A, true) | 0x42 => Some (KEY_B, true) | 0x43 => Some (KEY_C, true) | 0x44 => Some (KEY_D, true)
  | 0x45 => Some (KEY_E, true) | 0x46 => Some (KEY_F, true) | 0x47 => Some (KEY_G, true) | 0x48 => Some (KEY_H, true) | 0x49 => Some (KEY_I, true)
  | 0x4A => Some (KEY_J, true) | 0x4B => Some (KEY_K, true) | 0x4C => Some (KEY_L, true) | 0x4D => Some (KEY_M, true) | 0x4E => Some (KEY_N, true)
  | 0x4F => Some (KEY_O, true) | 0x50 => Some (KEY_P, true) | 0x51 => Some (KEY_Q, true) | 0x52 => Some (KEY_R, true) | 0x53 => Some (KEY_S, true)
  | 0x54 => Some (KEY_T, true) | 0x55 => Some (KEY_U, true) | 0x56 => Some (KEY_V, true) | 0x57 => Some (KEY_W, true) | 0x58 => Some (KEY_X, true)
  | 0x59 => Some (KEY_Y, true) | 0x5A => Some (KEY_Z, true) | 0x2D => Some (KEY_MINUS, false) | 0x3D => Some (KEY_EQUAL, false) | 0x5B => Some (KEY_LEFTBRACE, false)
  | 0x5D => Some (KEY_RIGHTBRACE, false) | 0x5C => Some (KEY_BACKSLASH, false) | 0x3B => Some (KEY_SEMICOLON, false) | 0x27 => Some (KEY_APOSTROPHE, false) | 0x60 => Some (KEY_GRAVE, false)
  | 0x2C => Some (KEY_COMMA, false) | 0x2E => Some (KEY_DOT, false) | 0x2F => Some (KEY_SLASH, false) | 0x21 => Some (KEY_1, true) | 0x40 => Some (KEY_2, true)
  | 0x23 => Some (KEY_3, true) | 0x24 => Some (KEY_4, true) | 0x25 => Some (KEY_5, true) | 0x5E => Some (KEY_6, true) | 0x26 => Some (KEY_7, true)
  | 0x2A => Some (KEY_8, true) | 0x28 => Some (KEY_9, true) | 0x29 => Some (KEY_0, true) | 0x5F => Some (KEY_MINUS, true) | 0x2B => Some (KEY_EQUAL, true)
  | 0x7B => Some (KEY_LEFTBRACE, true) | 0x7D => Some (KEY_RIGHTBRACE, true) | 0x7C => Some (KEY_BACKSLASH, true) | 0x3A => Some (KEY_SEMICOLON, true) | 0x22 => Some (KEY_APOSTROPHE, true)
  | 0x7E => Some (KEY_GRAVE, true) | 0x3C => Some (KEY_COMMA, true) | 0x3E => Some (KEY_DOT, true) | 0x3F => Some (KEY_SLASH, true)
  | _ => None
  end.

(** [input_handler.rs:263-270 unicode_to_keysym] *)
Definition unicode_to_keysym (cp : Z) : option Z :=
  if (0xD800 <=? cp) && (cp <=? 0xDFFF) then None
  else if ((0 <=? cp) && (cp <=? 0x1F)) || ((0x7F <=? cp) && (cp <=? 0x9F)) then None
  else if (0x20 <=? cp) && (cp <=? 0xFF) then Some cp
  else Some (as_i32 (Z.lor 0x01000000 cp)).

(** ** Events *)

(** The protocol library's keyboard event; the flags of a synchronisation are the
    three that are read. *)
Inductive IronKeyboardEvent :=
| Pressed (code : Z) (extended : bool) | Released (code : Z) (extended : bool)
| UnicodePressed (unit : Z) | UnicodeReleased (unit : Z) | Synchronize (caps num scroll : bool).
(** The protocol library's mouse event. *)
Inductive IronMouseEvent :=
| MoveTo (x y : Z) | RelMove (x y : Z)
| LeftPressed | LeftReleased | RightPressed | RightReleased | MiddlePressed | MiddleReleased
| Button4Pressed | Button4Released | Button5Pressed | Button5Released
| VerticalScroll (value : Z) | ScrollBy (x y : Z).
(** [input_handler.rs:285-290 InputEvent] *)
Inductive InputEvent := KeyboardInput (e : IronKeyboardEvent) | MouseInput (e : IronMouseEvent).

#[export] Instance IronKeyboardEvent_eq_dec : EqDecision IronKeyboardEvent.
Proof. solve_decision. Defined.
#[export] Instance IronMouseEvent_eq_dec : EqDecision IronMouseEvent.
Proof. solve_decision. Defined.
#[export] Instance InputEvent_eq_dec : EqDecision InputEvent.
Proof. solve_decision. Defined.

(** [input_handler.rs:292-308 input_event_is_droppable] *)
Definition input_event_is_droppable (e : InputEvent) : bool :=
  match e with
  | KeyboardInput (Released _ _ | UnicodeReleased _) => false
  | KeyboardInput (Synchronize _ _ _) => false
  | KeyboardInput _ => true
  | MouseInput (LeftReleased | RightReleased | MiddleReleased | Button4Released | Button5Released) => false
  | MouseInput _ => true
  end.

(** [input_handler.rs:311-314 QueuePressureAction] *)
Inductive QueuePressureAction := Drop | FailConnection.
(** [input_handler.rs:316-322 queue_pressure_action] *)
Definition queue_pressure_action (e : InputEvent) : QueuePressureAction := if input_event_is_droppable e then Drop else FailConnection.

(** [input_handler.rs:327-327 INPUT_FAILURE_THRESHOLD] *)
Definition INPUT_FAILURE_THRESHOLD : Z := 32.
(** [input_handler.rs:333-335 injection_failures_are_terminal] *)
Definition injection_failures_are_terminal (consecutive_failures : Z) : bool := INPUT_FAILURE_THRESHOLD <=? consecutive_failures.

(** ** Topology *)

(** [backend.rs:93-99 StreamInfo] *)
Record StreamInfo := mkStream { node_id : Z; s_width : Z; s_height : Z; position_x : Z; position_y : Z }.

(** [input_handler.rs:392-395 update_primary_topology] *)
Definition resize_monitor (w h sw sh : Z) (m : MonitorInfo) : MonitorInfo :=
  mkMonitor (id m) (name m) (x m) (y m) w h (dpi m) (scale_factor m) (stream_x m) (stream_y m) sw sh (is_primary m).
(** [input_handler.rs:396-397 update_primary_topology] *)
Definition resize_stream (sw sh : Z) (s : StreamInfo) : StreamInfo := mkStream (node_id s) sw sh (position_x s) (position_y s).

(** [input_handler.rs:372-400 update_primary_topology] *)
Definition update_primary_topology (ms : list MonitorInfo) (ss : list StreamInfo) (primary_stream_id w h sw sh : Z)
    : outcome InputError (list MonitorInfo * list StreamInfo) :=
  i ← ok_or (InvalidMonitorConfig (lit "no primary monitor configured")) (position is_primary ms);
  j ← ok_or (MonitorNotFound primary_stream_id) (position (fun s => node_id s =? primary_stream_id) ss);
  Ok (alter (resize_monitor w h sw sh) i ms, alter (resize_stream sw sh) j ss).

(** ** State *)

(** What the session, the clipboard and the client's pointer see of the handler, in order. *)
Inductive action :=
| Keycode (keycode : Z) (pressed : bool) | Keysym (keysym : Z) (pressed : bool)
| PointerAt (stream : Z) (px py : f64) | PointerButton (button : Z) (pressed : bool) | PointerAxis (dx dy : f64)
| ReadText | WriteText (text : str).

(** The pointer updates for the client, in a bounded channel. *)
Inductive PointerUpdate := RGBAPointer (cache_index w h hot_x hot_y : Z) (data : list Z) | PointerPosition (px py : Z).
Record PointerChannel := mkPointerChannel { pc_open : bool; pc_capacity : nat; pc_queue : list PointerUpdate }.

(** The refusal of an action, and the text the clipboard holds, after the actions so far. *)
Class Backend := {
  refuses : list action -> action -> option str;
  clipboard_text : list action -> option (list Z);
}.

(** What the worker changes: the shared handlers and its own buffer.
    [input_handler.rs:406-446 InputChannelHandler] *)
Record Input := mkInput {
  keyboard : KeyboardHandler;
  mouse : MouseHandler;
  transformer : CoordinateTransformer;
  monitors_kept : list MonitorInfo;
  streams : list StreamInfo;
  cjk : CjkPasteBuffer;
  pointer_updates : option PointerChannel;
  gfx : option Egfx.HandlerState;
  shape_sent : bool;
  log : list action;
}.
Definition with_keyboard (v : KeyboardHandler) (x : Input) : Input :=
  mkInput v (mouse x) (transformer x) (monitors_kept x) (streams x) (cjk x) (pointer_updates x) (gfx x) (shape_sent x) (log x).
Definition with_mouse (v : MouseHandler) (x : Input) : Input :=
  mkInput (keyboard x) v (transformer x) (monitors_kept x) (streams x) (cjk x) (pointer_updates x) (gfx x) (shape_sent x) (log x).
Definition with_transformer (v : CoordinateTransformer) (x : Input) : Input :=
  mkInput (keyboard x) (mouse x) v (monitors_kept x) (streams x) (cjk x) (pointer_updates x) (gfx x) (shape_sent x) (log x).
Definition with_monitors_kept (v : list MonitorInfo) (x : Input) : Input :=
  mkInput (keyboard x) (mouse x) (transformer x) v (streams x) (cjk x) (pointer_updates x) (gfx x) (shape_sent x) (log x).
Definition with_streams (v : list StreamInfo) (x : Input) : Input :=
  mkInput (keyboard x) (mouse x) (transformer x) (monitors_kept x) v (cjk x) (pointer_updates x) (gfx x) (shape_sent x) (log x).
Definition with_cjk (v : CjkPasteBuffer) (x : Input) : Input :=
  mkInput (keyboard x) (mouse x) (transformer x) (monitors_kept x) (streams x) v (pointer_updates x) (gfx x) (shape_sent x) (log x).
Definition with_pointer_updates (v : option PointerChannel) (x : Input) : Input :=
  mkInput (keyboard x) (mouse x) (transformer x) (monitors_kept x) (streams x) (cjk x) v (gfx x) (shape_sent x) (log x).
Definition with_gfx (v : option Egfx.HandlerState) (x : Input) : Input :=
  mkInput (keyboard x) (mouse x) (transformer x) (monitors_kept x) (streams x) (cjk x) (pointer_updates x) v (shape_sent x) (log x).
Definition with_shape_sent (v : bool) (x : Input) : Input :=
  mkInput (keyboard x) (mouse x) (transformer x) (monitors_kept x) (streams x) (cjk x) (pointer_updates x) (gfx x) v (log x).
Definition with_log (v : list action) (x : Input) : Input :=
  mkInput (keyboard x) (mouse x) (transformer x) (monitors_kept x) (streams x) (cjk x) (pointer_updates x) (gfx x) (shape_sent x) v.

Lemma position_spec {A} (p : A -> bool) l i : position p l = Some i -> exists v, l !! i = Some v /\ p v = true.
Proof.
  revert i. induction l as [|v l IH]; intros i; cbn; [done|]. destruct (p v) eqn:E; [intros [= <-]; by exists v|].
  destruct (position p l) as [j|]; [|done]. cbn. intros [= <-]. by apply IH.
Qed.
Lemma list_alter_insert {A} (f : A -> A) (l : list A) (i : nat) v : l !! i = Some v -> alter f i l = <[i := f v]> l.
Proof. intros Hi. apply list_eq. intros j. destruct (decide (i = j)) as [<-|Hn]; [|by rewrite list_lookup_alter_ne, list_lookup_insert_ne].
  rewrite list_lookup_alter_eq, Hi, list_lookup_insert_eq; [done|]. by eapply lookup_lt_Some. Qed.

(** ** Handling one event *)

(** The two clock readings of an event. *)
Record Clock := mkClock { c_first : Z; c_second : Z }.

Section handlers.
Context `{Backend} (stream_id : Z) (cjk_paste_enabled has_clipboard : bool) (clock : Clock).

(** A handler's part: what it returns, or the error that ends it. *)
Definition handler (A : Type) : Type := Input -> outcome InputError A * Input.
Definition ret {A} (v : A) : handler A := fun s => (Ok v, s).
Definition bind {A B} (m : handler A) (k : A -> handler B) : handler B := fun s =>
  match m s with (Ok v, s) => k v s | (Err e, s) => (Err e, s) | (Panic, s) => (Panic, s) end.
Definition raise {A} (e : InputError) : handler A := fun s => (Err e, s).
Definition get {A} (f : Input -> A) : handler A := fun s => (Ok (f s), s).
Definition modify (f : Input -> Input) : handler unit := fun s => (Ok tt, f s).
Local Notation "'let!' x := m 'in' k" := (bind m (fun x => k)) (at level 200, x pattern, m at level 100, k at level 200).
Local Notation "'do!' m 'in' k" := (bind m (fun _ => k)) (at level 200, m at level 100, k at level 200).

(** An action, its refusal as an answer; and one whose refusal is the handler's error. *)
Definition try (a : action) : handler (option str) := fun s => (Ok (refuses (log s) a), with_log (log s ++ [a]) s).
(** [input_handler.rs:272-274 portal_err] *)
Definition portal_err (m : str) : InputError := PortalError m.
Definition inject (a : action) : handler unit :=
  let! refused := try a in match refused with Some m => raise (portal_err m) | None => ret tt end.

(** The clipboard is read, set, pasted with Ctrl+V, and given back what it held
    where that was text; no refusal stops it.
    [input_handler.rs:899-951 flush_cjk_buffer] *)
Definition flush_cjk_buffer : handler unit :=
  let! text := get (fun s => (take_text (cjk s)).1) in
  do! modify (fun s => with_cjk (take_text (cjk s)).2 s) in
  match text with
  | None => ret tt
  | Some text =>
      if has_clipboard then
        let! saved := get (fun s => clipboard_text (log s)) in
        do! try ReadText in
        do! try (WriteText text) in
        do! try (Keycode 29 true) in
        do! try (Keycode 47 true) in
        do! try (Keycode 47 false) in
        do! try (Keycode 29 false) in
        match saved ≫= from_utf8 with
        | Some saved_text => do! try (WriteText saved_text) in ret tt
        | None => ret tt
        end
      else ret tt
  end.

(** A call of the keyboard's or of the pointer's handler. *)
Definition key_call {A} (f : KeyboardHandler -> KeyboardHandler * outcome InputError A) : handler A := fun s =>
  let '(k, r) := f (keyboard s) in (r, with_keyboard k s).
Definition button_call (f : MouseHandler -> MouseHandler * bool) : handler bool := fun s =>
  let '(h, r) := f (mouse s) in (Ok r, with_mouse h s).
Definition move_call (f : MouseHandler -> CoordinateTransformer -> MouseHandler * CoordinateTransformer * outcome InputError MouseEvent) : handler MouseEvent := fun s =>
  let '(h, t, r) := f (mouse s) (transformer s) in (r, with_transformer t (with_mouse h s)).

(** [input_handler.rs:742-778 handle_keyboard_event_impl] *)
Definition handle_pressed (code : Z) (extended : bool) : handler unit :=
  let! empty := get (fun s => cjk_is_empty (cjk s)) in
  do! (if empty : bool then ret tt else flush_cjk_buffer) in
  let! ev := key_call (handle_key_down (c_first clock) code extended false) in
  match ev with
  | KeyDown keycode _ _ _ | KeyRepeat keycode _ _ _ | KeyUp keycode _ _ _ => inject (Keycode (as_i32 keycode) true)
  | Ignored _ => ret tt
  end.

(** [input_handler.rs:780-797 handle_keyboard_event_impl] *)
Definition handle_released (code : Z) (extended : bool) : handler unit :=
  let! ev := key_call (handle_key_up (c_first clock) code extended false) in
  match ev with
  | KeyUp keycode _ _ _ => inject (Keycode (as_i32 keycode) false)
  | Ignored _ => ret tt
  | _ => raise (InvalidKeyEvent (lit "Unexpected event type"))
  end.

(** Text for the paste: a high surrogate waits for its low one, everything else is
    pasted at once.  [input_handler.rs:816-837 handle_keyboard_event_impl] *)
Definition buffer_unicode (u : Z) : handler unit :=
  if is_high_surrogate u then modify (fun s => with_cjk (mkCjk (buf (cjk s)) (Some u)) s)
  else if is_low_surrogate u then
    let! high := get (fun s => pending_high_surrogate (cjk s)) in
    do! modify (fun s => with_cjk (mkCjk (buf (cjk s)) None) s) in
    match high with
    | None => ret tt
    | Some high =>
        let! pushed := get (fun s => (push_surrogate_pair high u (cjk s)).1) in
        do! modify (fun s => with_cjk (push_surrogate_pair high u (cjk s)).2 s) in
        match pushed with Some _ => flush_cjk_buffer | None => ret tt end
    end
  else if is_scalar u then do! modify (fun s => with_cjk (push_char u (cjk s)) s) in flush_cjk_buffer
  else ret tt.

(** [input_handler.rs:799-844 handle_keyboard_event_impl] *)
Definition handle_unicode_pressed (u : Z) : handler unit :=
  match unicode_to_evdev u with
  | Some (keycode, needs_shift) =>
      do! (if needs_shift : bool then inject (Keycode 42 true) else ret tt) in
      inject (Keycode (as_i32 keycode) true)
  | None =>
      if cjk_paste_enabled then buffer_unicode u
      else match unicode_to_keysym u with Some keysym => inject (Keysym keysym true) | None => ret tt end
  end.

(** [input_handler.rs:846-870 handle_keyboard_event_impl] *)
Definition handle_unicode_released (u : Z) : handler unit :=
  match unicode_to_evdev u with
  | Some (keycode, needs_shift) =>
      do! inject (Keycode (as_i32 keycode) false) in
      if needs_shift : bool then inject (Keycode 42 false) else ret tt
  | None => match unicode_to_keysym u with Some keysym => inject (Keysym keysym false) | None => ret tt end
  end.

Fixpoint press_toggles (keycodes : list Z) : handler unit :=
  match keycodes with
  | [] => ret tt
  | k :: ks => do! inject (Keycode (as_i32 k) true) in do! inject (Keycode (as_i32 k) false) in press_toggles ks
  end.

(** [input_handler.rs:872-890 handle_keyboard_event_impl] *)
Definition handle_synchronize (caps num scroll : bool) : handler unit :=
  let! toggles := get (fun s => (synchronize_locks caps num scroll (keyboard s)).2) in
  do! modify (fun s => with_keyboard (synchronize_locks caps num scroll (keyboard s)).1 s) in
  press_toggles toggles.

(** [input_handler.rs:731-894 handle_keyboard_event_impl] *)
Definition handle_keyboard_event_impl (e : IronKeyboardEvent) : handler unit :=
  match e with
  | Pressed code extended => handle_pressed code extended
  | Released code extended => handle_released code extended
  | UnicodePressed u => handle_unicode_pressed u
  | UnicodeReleased u => handle_unicode_released u
  | Synchronize caps num scroll => handle_synchronize caps num scroll
  end.

(** ** The pointer *)

(** One pixel of the arrow: black border, white inside, transparent around it.
    [input_handler.rs:963-972 create_android_arrow_cursor] *)
Definition arrow_pixel (px py : nat) : list Z :=
  if (py <? 24)%nat && (px <=? Nat.min py 14)%nat then
    if (px =? 0)%nat || (px =? Nat.min py 14)%nat || (py =? 23)%nat then [0; 0; 0; 255] else [255; 255; 255; 255]
  else [0; 0; 0; 0].
(** Upside down, as the client wants it.
    [input_handler.rs:953-988 create_android_arrow_cursor] *)
Definition create_android_arrow_cursor : PointerUpdate :=
  RGBAPointer 0 32 32 4 27 (concat (concat (map (fun row => map (fun px => arrow_pixel px (31 - row)) (seq 0 32)) (seq 0 32)))).

(** [input_handler.rs:990-1001 needs_android_pointer_updates] *)
Definition needs_android_pointer_updates (s : Input) : bool :=
  match gfx s with Some st => Egfx.needs_android_pointer_updates st | None => false end.

Definition pointer_send (u : PointerUpdate) (c : PointerChannel) : bool * PointerChannel :=
  if pc_open c && (length (pc_queue c) <? pc_capacity c)%nat then (true, mkPointerChannel true (pc_capacity c) (pc_queue c ++ [u])) else (false, c).

(** The shape is marked as sent also where there is no channel to send it to.
    [input_handler.rs:1003-1030 send_android_pointer_shape_once] *)
Definition send_android_pointer_shape_once (s : Input) : Input :=
  if negb (needs_android_pointer_updates s) || shape_sent s then s
  else match pointer_updates s with
       | None => with_shape_sent true s
       | Some c => let '(sent, c) := pointer_send create_android_arrow_cursor c in with_pointer_updates (Some c) (with_shape_sent sent s)
       end.

(** [input_handler.rs:1032-1050 send_android_pointer_position_update] *)
Definition send_android_pointer_position_update (px py : Z) (s : Input) : Input :=
  if negb (needs_android_pointer_updates s) then s
  else match pointer_updates s with
       | None => s
       | Some c => with_pointer_updates (Some (pointer_send (PointerPosition px py) c).2) s
       end.

(** The position the pointer's handler gives, told to the client's pointer at
    [shown] of it, and injected.  [input_handler.rs:1072-1098 handle_mouse_event_impl] *)
Definition pointer_to (shown : f64 * f64 -> Z * Z) (ev : MouseEvent) : handler unit :=
  match ev with
  | Move sx sy _ =>
      do! modify send_android_pointer_shape_once in
      do! modify (send_android_pointer_position_update (shown (sx, sy)).1 (shown (sx, sy)).2) in
      inject (PointerAt stream_id sx sy)
  | _ => raise (InvalidMouseEvent (lit "Unexpected event type"))
  end.

Definition as_pointer (f : f64) : Z := round_as_uint u16_max (fclamp f fzero (f64_of_Z u16_max)).

(** Duplicate transitions are suppressed.
    [input_handler.rs:1136-1146 handle_mouse_event_impl] *)
Definition button (b : MouseButton) (pressed : bool) : handler unit :=
  let! accepted := button_call (accept_button_transition_at (c_first clock) b pressed) in
  if accepted : bool then
    do! modify (fun s => with_mouse (if pressed then (handle_button_down (c_second clock) b (mouse s)).1 else (handle_button_up (c_second clock) b (mouse s)).1) s) in
    inject (PointerButton (to_linux_button b) pressed)
  else ret tt.

(** Whole notches move the axis, and end the movement.
    [input_handler.rs:1250-1270 handle_mouse_event_impl] *)
Definition scroll (dx dy : Z) : handler unit :=
  let! ev := get (fun s => (handle_scroll (c_first clock) dx dy (mouse s)).2) in
  do! modify (fun s => with_mouse (handle_scroll (c_first clock) dx dy (mouse s)).1 s) in
  match ev with
  | Scroll sx sy _ =>
      if negb (sx =? 0) || negb (sy =? 0) then
        do! inject (PointerAxis (mul64 (f64_of_Z sx) (f64_of_Z 15)) (mul64 (f64_of_Z sy) (f64_of_Z 15))) in
        inject (PointerAxis fzero fzero)
      else ret tt
  | _ => ret tt
  end.

(** [input_handler.rs:1054-1296 handle_mouse_event_impl] *)
Definition handle_mouse_event_impl (e : IronMouseEvent) : handler unit :=
  match e with
  | MoveTo mx my => let! ev := move_call (handle_absolute_move (c_first clock) mx my) in pointer_to (fun _ => (mx, my)) ev
  | RelMove dx dy => let! ev := move_call (handle_relative_move (c_first clock) dx dy) in pointer_to (fun p => (as_pointer p.1, as_pointer p.2)) ev
  | LeftPressed => button Left true | LeftReleased => button Left false
  | RightPressed => button Right true | RightReleased => button Right false
  | MiddlePressed => button Middle true | MiddleReleased => button Middle false
  | Button4Pressed => button Extra1 true | Button4Released => button Extra1 false
  | Button5Pressed => button Extra2 true | Button5Released => button Extra2 false
  | VerticalScroll value => scroll 0 value
  | ScrollBy dx dy => scroll dx dy
  end.

(** [input_handler.rs:518-541 new] *)
Definition handle_event (e : InputEvent) : handler unit :=
  match e with KeyboardInput e => handle_keyboard_event_impl e | MouseInput e => handle_mouse_event_impl e end.
End handlers.

(** ** The queue and its worker *)

(** A connection's input: the handlers, the bounded queue, whether its worker
    still runs, and the failure accounts.  [reports] is what supervision was told.
    [input_handler.rs:406-446 InputChannelHandler] *)
Record Channel := mkChannel {
  input : Input; queue : list InputEvent; running : bool;
  terminal_overflow : bool; overflow_reported : bool; attached : bool; reports : list Supervision.SessionStatusEvent;
  mouse_errors : Z; kbd_errors : Z;
}.
Definition with_input (i : Input) (c : Channel) : Channel :=
  mkChannel i (queue c) (running c) (terminal_overflow c) (overflow_reported c) (attached c) (reports c) (mouse_errors c) (kbd_errors c).
Definition with_queue (q : list InputEvent) (c : Channel) : Channel :=
  mkChannel (input c) q (running c) (terminal_overflow c) (overflow_reported c) (attached c) (reports c) (mouse_errors c) (kbd_errors c).
Definition with_errors (m k : Z) (c : Channel) : Channel :=
  mkChannel (input c) (queue c) (running c) (terminal_overflow c) (overflow_reported c) (attached c) (reports c) m k.
Definition attach_reporter (c : Channel) : Channel :=
  mkChannel (input c) (queue c) (running c) (terminal_overflow c) (overflow_reported c) true (reports c) (mouse_errors c) (kbd_errors c).
Definition set_terminal (c : Channel) : Channel :=
  mkChannel (input c) (queue c) (running c) true (overflow_reported c) (attached c) (reports c) (mouse_errors c) (kbd_errors c).
(** The worker ends: its end of the queue goes, with what is still in it. *)
Definition worker_ends (c : Channel) : Channel :=
  mkChannel (input c) [] false (terminal_overflow c) (overflow_reported c) (attached c) (reports c) (mouse_errors c) (kbd_errors c).

(** [input_handler.rs:479-479 INPUT_QUEUE_CAPACITY] *)
Definition INPUT_QUEUE_CAPACITY : Z := 4096.

(** [input_handler.rs:342-365 report_input_failed_once] *)
Definition report_input_failed_once (reason : str) (c : Channel) : Channel :=
  if negb (terminal_overflow c) || overflow_reported c || negb (attached c) then c
  else mkChannel (input c) (queue c) (running c) (terminal_overflow c) true (attached c)
         (reports c ++ [Supervision.InputFailed reason true]) (mouse_errors c) (kbd_errors c).

(** [input_handler.rs:626-631 fail_input_connection] *)
Definition fail_input_connection (reason : str) (c : Channel) : Channel := report_input_failed_once reason (set_terminal c).

(** A synchronous callback hands its event over without waiting.
    [input_handler.rs:602-624 enqueue_input] *)
Definition enqueue_input (e : InputEvent) (c : Channel) : Channel :=
  if terminal_overflow c then c
  else if negb (running c) then fail_input_connection (lit "bounded input queue closed while the connection was active") c
  else if Z.of_nat (length (queue c)) <? INPUT_QUEUE_CAPACITY then with_queue (queue c ++ [e]) c
  else match queue_pressure_action e with
       | Drop => c
       | FailConnection => fail_input_connection (lit "bounded input queue overflowed before a non-droppable release or synchronize event") c
       end.

(** [input_handler.rs:643-654 set_health_reporter] *)
Definition set_health_reporter (c : Channel) : Channel :=
  report_input_failed_once (lit "input event queue entered a terminal state before supervision was attached") (attach_reporter c).

Definition is_mouse (e : InputEvent) : bool := match e with MouseInput _ => true | KeyboardInput _ => false end.

(** A success clears both accounts; a failure counts in its own, and the last
    tolerated one ends the connection's input.
    [input_handler.rs:542-579 new] *)
Definition account (e : InputEvent) (r : outcome InputError unit) (c : Channel) : Channel :=
  match r with
  | Ok _ => with_errors 0 0 c
  | Panic => worker_ends c
  | Err _ =>
      let m := if is_mouse e then wrap 64 (mouse_errors c + 1) else mouse_errors c in
      let k := if is_mouse e then kbd_errors c else wrap 64 (kbd_errors c + 1) in
      let c := with_errors m k c in
      if injection_failures_are_terminal (if is_mouse e then m else k)
      then worker_ends (fail_input_connection (lit "input injection failed on every attempt past the permanent-failure threshold") c)
      else c
  end.

Section worker.
Context `{Backend} (stream_id : Z) (cjk_paste_enabled has_clipboard : bool).

(** One turn of the worker, and the event it handled with its result.
    [input_handler.rs:506-586 new] *)
Definition work (clock : Clock) (c : Channel) : option (Channel * option (InputEvent * outcome InputError unit)) :=
  if negb (running c) then None
  else match queue c with
  | [] => None
  | e :: q =>
      let c := with_queue q c in
      if terminal_overflow c then Some (worker_ends c, None)
      else let '(r, i) := handle_event stream_id cjk_paste_enabled has_clipboard clock e (input c) in
           Some (account e r (with_input i c), Some (e, r))
  end.
End worker.

(** [input_handler.rs:665-671 update_monitors] *)
Definition update_monitors (ms : list MonitorInfo) (s : Input) : outcome InputError unit * Input :=
  match transformer_new ms with
  | Ok t => (Ok tt, with_transformer t (with_monitors_kept ms s))
  | Err e => (Err e, s)
  | Panic => (Panic, s)
  end.

(** [input_handler.rs:696-727 update_primary_stream_mapping] *)
Definition update_primary_stream_mapping (stream_id rdp_w rdp_h stream_w stream_h : Z) (s : Input) : outcome InputError unit * Input :=
  match update_primary_topology (monitors_kept s) (streams s) stream_id (Z.max rdp_w 1) (Z.max rdp_h 1) (Z.max stream_w 1) (Z.max stream_h 1) with
  | Ok (ms, ss) =>
      match update_monitors ms s with
      | (Ok _, s) => (Ok tt, with_streams ss s)
      | (r, s) => (r, s)
      end
  | Err e => (Err e, s)
  | Panic => (Panic, s)
  end.

(** [input_handler.rs:680-688 update_primary_stream_geometry] *)
Definition update_primary_stream_geometry (stream_id w h : Z) (s : Input) : outcome InputError unit * Input :=
  update_primary_stream_mapping stream_id w h w h s.

(** [input_handler.rs:449-600 new] *)
Definition channel_new (ms : list MonitorInfo) (ss : list StreamInfo) (pointer : option PointerChannel) (handler : option Egfx.HandlerState) (layout : str)
    : outcome InputError Channel :=
  t ← transformer_new ms;
  let keyboard := keyboard_set_layout (if eqs layout (lit "auto") then lit "us" else layout) keyboard_new in
  Ok (mkChannel (mkInput keyboard mouse_new t ms ss cjk_new pointer handler false []) [] true false false false [] 0 0).

(** ** Runs *)

(** What happens to the channel: a callback, a turn of the worker, a shutdown
    broadcast, the supervisor attached, a new geometry. *)
Inductive label := Offer (e : InputEvent) | Work (clock : Clock) | Shutdown | Attach | Remap (w h sw sh : Z).

(** A run with what was offered, and what the worker handled with its results. *)
Record Run := mkRun { chan : Channel; offered : list InputEvent; handled : list (InputEvent * outcome InputError unit) }.

Section runs.
Context `{Backend} (stream_id : Z) (cjk_paste_enabled has_clipboard : bool).

Definition step (l : label) (r : Run) : option Run :=
  match l with
  | Offer e => Some (mkRun (enqueue_input e (chan r)) (offered r ++ [e]) (handled r))
  | Work clock =>
      match work stream_id cjk_paste_enabled has_clipboard clock (chan r) with
      | None => None
      | Some (c, h) => Some (mkRun c (offered r) (handled r ++ match h with Some h => [h] | None => [] end))
      end
  | Shutdown => if running (chan r) then Some (mkRun (worker_ends (chan r)) (offered r) (handled r)) else None
  | Attach => Some (mkRun (set_health_reporter (chan r)) (offered r) (handled r))
  | Remap w h sw sh => Some (mkRun (with_input (update_primary_stream_mapping stream_id w h sw sh (input (chan r))).2 (chan r)) (offered r) (handled r))
  end.
Fixpoint steps (ls : list label) (r : Run) : option Run :=
  match ls with [] => Some r | l :: ls => match step l r with Some r => steps ls r | None => None end end.
Definition start (i : Input) : Run := mkRun (mkChannel i [] true false false false [] 0 0) [] [].

Lemma steps_inv (P : Run -> Prop) ls r r' : P r -> (forall l r r', P r -> step l r = Some r' -> P r') -> steps ls r = Some r' -> P r'.
Proof.
  intros Hr Hs. revert r Hr. induction ls as [|l ls IH]; intros r Hr; cbn; [by intros [= <-]|].
  destruct (step l r) as [r1|] eqn:E; [|done]. apply IH. eapply Hs; eauto.
Qed.

(** *** What is kept, what is lost *)

(** What must not be lost, or the session is left with a key or a button held
    down or with the wrong locks: every release, of a key, of a typed character
    or of any of the five buttons, and every synchronisation of the locks. *)
Definition lossless (e : InputEvent) : bool :=
  match e with
  | KeyboardInput (Released _ _) | KeyboardInput (UnicodeReleased _) | KeyboardInput (Synchronize _ _ _)
  | MouseInput LeftReleased | MouseInput RightReleased | MouseInput MiddleReleased | MouseInput Button4Released | MouseInput Button5Released => true
  | KeyboardInput (Pressed _ _) | KeyboardInput (UnicodePressed _)
  | MouseInput (MoveTo _ _) | MouseInput (RelMove _ _) | MouseInput LeftPressed | MouseInput RightPressed | MouseInput MiddlePressed
  | MouseInput Button4Pressed | MouseInput Button5Pressed | MouseInput (VerticalScroll _) | MouseInput (ScrollBy _ _) => false
  end.
Lemma droppable_not_lossless e : input_event_is_droppable e = true -> lossless e = false.
Proof. by destruct e as [[]|[]]. Qed.

(** Nothing is reordered or invented; and while the connection lives, no release
    and no synchronisation is missing. *)
Record fifo (r : Run) : Prop := mkFifo {
  ff_order : sublist ((handled r).*1 ++ queue (chan r)) (offered r);
  ff_kept : running (chan r) = true -> terminal_overflow (chan r) = false ->
    List.filter lossless ((handled r).*1 ++ queue (chan r)) = List.filter lossless (offered r);
  ff_capacity : Z.of_nat (length (queue (chan r))) <= INPUT_QUEUE_CAPACITY;
}.

Lemma account_shape e r c : queue (account e r c) = queue c \/ queue (account e r c) = [] /\ running (account e r c) = false.
Proof. unfold account. destruct r; [by left| |by right]. destruct (injection_failures_are_terminal _); [by right|by left]. Qed.
Lemma account_live e r c : running (account e r c) = true -> queue (account e r c) = queue c /\ running c = true /\ terminal_overflow (account e r c) = terminal_overflow c.
Proof. unfold account. destruct r; [done| |done]. by destruct (injection_failures_are_terminal _). Qed.
Lemma report_queue reason c : queue (report_input_failed_once reason c) = queue c /\ running (report_input_failed_once reason c) = running c /\
  terminal_overflow (report_input_failed_once reason c) = terminal_overflow c.
Proof. unfold report_input_failed_once. by destruct (_ || _ || _). Qed.

Lemma step_fifo l r r' : fifo r -> step l r = Some r' -> fifo r'.
Proof.
  intros [Ho Hk Hc] Hs. destruct l as [e|clock| | |w h sw sh]; cbn in Hs.
  - injection Hs as <-. unfold enqueue_input. destruct (terminal_overflow (chan r)) eqn:T.
    { constructor; cbn; [by apply sublist_inserts_r|rewrite T; done|done]. }
    assert (sublist ((handled r).*1 ++ queue (chan r)) (offered r ++ [e])) as Ho' by by apply sublist_inserts_r.
    destruct (running (chan r)) eqn:R; cbn [negb].
    2: { unfold fail_input_connection. destruct (report_queue (lit "bounded input queue closed while the connection was active") (set_terminal (chan r))) as (Q & Rn & _).
         constructor; cbn [chan handled offered]; rewrite ?Q, ?Rn; cbn; [done|by rewrite R|done]. }
    destruct (Z.ltb_spec (Z.of_nat (length (queue (chan r)))) INPUT_QUEUE_CAPACITY).
    + constructor; cbn.
      * rewrite app_assoc. by apply sublist_app.
      * intros _ _. rewrite app_assoc, (List.filter_app _ (_ ++ _)), (List.filter_app _ (offered r)), Hk; done.
      * rewrite length_app. cbn. lia.
    + unfold queue_pressure_action. destruct (input_event_is_droppable e) eqn:D.
      * constructor; cbn; [done| |done]. intros _ _. rewrite (List.filter_app _ (offered r)), Hk by done. cbn. rewrite (droppable_not_lossless e D). by rewrite app_nil_r.
      * unfold fail_input_connection. set (reason := lit "bounded input queue overflowed before a non-droppable release or synchronize event"). destruct (report_queue reason (set_terminal (chan r))) as (Q & Rn & Tn).
        constructor; cbn [chan handled offered]; rewrite ?Q, ?Rn, ?Tn; done.
  - unfold work in Hs. destruct (running (chan r)) eqn:R; cbn [negb] in Hs; [|done]. destruct (queue (chan r)) as [|e q] eqn:Q; [done|].
    cbn [terminal_overflow with_queue] in Hs. destruct (terminal_overflow (chan r)) eqn:T.
    + injection Hs as <-. constructor; cbn; rewrite ?app_nil_r; [|done|unfold INPUT_QUEUE_CAPACITY; lia].
      etransitivity; [|exact Ho]. apply sublist_inserts_r. done.
    + destruct (handle_event _ _ _ _ _ _) as [res i] eqn:E. injection Hs as <-. set (c := with_input i (with_queue q (chan r))).
      assert (queue c = q) as Hq by done. assert ((handled r ++ [(e, res)]).*1 = (handled r).*1 ++ [e]) as Hh by by rewrite fmap_app.
      constructor; cbn [chan handled offered]; rewrite ?Hh.
      * destruct (account_shape e res c) as [->|[-> _] ]; rewrite <- app_assoc; cbn; [done|]. etransitivity; [|exact Ho]. apply sublist_app; [done|]. apply sublist_skip, sublist_nil_l.
      * intros Rn Tn. destruct (account_live e res c Rn) as (-> & _ & Ht). rewrite Hq, <- app_assoc. cbn. by apply Hk.
      * destruct (account_shape e res c) as [->|[-> _] ]; cbn in *; [lia|unfold INPUT_QUEUE_CAPACITY; lia].
  - destruct (running (chan r)); [|done]. injection Hs as <-. constructor; cbn; rewrite ?app_nil_r; [|done|unfold INPUT_QUEUE_CAPACITY; lia].
    etransitivity; [|exact Ho]. by apply sublist_inserts_r.
  - injection Hs as <-. unfold set_health_reporter. set (reason := lit "input event queue entered a terminal state before supervision was attached"). destruct (report_queue reason (attach_reporter (chan r))) as (Q & Rn & Tn).
    constructor; cbn [chan handled offered]; rewrite ?Q, ?Rn, ?Tn; done.
  - injection Hs as <-. by constructor.
Qed.
(** C18. No input is invented or reordered, and no release and no lock
    synchronisation is lost while the connection lives: over every interleaving of
    callbacks, worker turns, shutdowns and geometry changes, what was handled followed by
    what waits is a subsequence of what the client sent, and as long as the worker
    runs and the connection was not declared failed, it has all of the client's
    releases and synchronisations.  The queue never exceeds its capacity. *)
Theorem no_release_lost ls i r : steps ls (start i) = Some r ->
  sublist ((handled r).*1 ++ queue (chan r)) (offered r) /\
  (running (chan r) = true -> terminal_overflow (chan r) = false ->
     List.filter lossless ((handled r).*1 ++ queue (chan r)) = List.filter lossless (offered r)) /\
  Z.of_nat (length (queue (chan r))) <= 4096.
Proof.
  intros Hs. assert (fifo r) as [Ho Hk Hc]; [|by split_and!].
  eapply (steps_inv fifo); [|intros l r1 r2; apply step_fifo|exact Hs]. by constructor.
Qed.

(** *** Failures *)

(** The failures of one kind since the last success, newest first. *)
Fixpoint failures (mouse : bool) (hs : list (InputEvent * outcome InputError unit)) : Z :=
  match hs with
  | [] => 0
  | (_, Ok _) :: _ => 0
  | (e, Err _) :: hs => (if Bool.eqb (is_mouse e) mouse then 1 else 0) + failures mouse hs
  | (_, Panic) :: hs => failures mouse hs
  end.

Record accounted (r : Run) : Prop := mkAccounted {
  ac_mouse : mouse_errors (chan r) = failures true (rev (handled r));
  ac_kbd : kbd_errors (chan r) = failures false (rev (handled r));
  ac_range : 0 <= mouse_errors (chan r) <= 32 /\ 0 <= kbd_errors (chan r) <= 32;
  ac_live : running (chan r) = true -> mouse_errors (chan r) < 32 /\ kbd_errors (chan r) < 32;
  ac_fatal : 32 <= mouse_errors (chan r) \/ 32 <= kbd_errors (chan r) -> terminal_overflow (chan r) = true;
  ac_flag : overflow_reported (chan r) = terminal_overflow (chan r) && attached (chan r);
  ac_reports : if overflow_reported (chan r) then exists reason, reports (chan r) = [Supervision.InputFailed reason true] else reports (chan r) = [];
}.

Lemma report_accounts reason c : let c' := report_input_failed_once reason c in
  mouse_errors c' = mouse_errors c /\ kbd_errors c' = kbd_errors c /\ attached c' = attached c /\
  overflow_reported c' = overflow_reported c || (terminal_overflow c && attached c) /\
  reports c' = reports c ++ if overflow_reported c' && negb (overflow_reported c) then [Supervision.InputFailed reason true] else [].
Proof.
  cbn zeta. unfold report_input_failed_once. destruct (terminal_overflow c) eqn:T, (overflow_reported c) eqn:O, (attached c) eqn:A; cbn; rewrite ?T, ?O, ?A, ?app_nil_r; done.
Qed.

(** Failing the connection reports it, where someone listens and nobody did yet. *)
Lemma fail_reports reason c : overflow_reported c = terminal_overflow c && attached c ->
  (if overflow_reported c then exists reason, reports c = [Supervision.InputFailed reason true] else reports c = []) ->
  let c' := fail_input_connection reason c in
  overflow_reported c' = terminal_overflow c' && attached c' /\
  (if overflow_reported c' then exists reason, reports c' = [Supervision.InputFailed reason true] else reports c' = []).
Proof.
  intros Hf Hr. cbn zeta. unfold fail_input_connection. destruct (report_accounts reason (set_terminal c)) as (_ & _ & A & O & R).
  destruct (report_queue reason (set_terminal c)) as (_ & _ & T). rewrite T, A, O, R, O. cbn [terminal_overflow set_terminal overflow_reported attached reports].
  rewrite Hf in *. destruct (terminal_overflow c), (attached c); cbn in *; rewrite ?app_nil_r, ?Hr; eauto.
Qed.

Lemma account_accounts e res r c : accounted r -> running (chan r) = true -> mouse_errors c = mouse_errors (chan r) -> kbd_errors c = kbd_errors (chan r) ->
  overflow_reported c = overflow_reported (chan r) -> terminal_overflow c = terminal_overflow (chan r) -> attached c = attached (chan r) -> reports c = reports (chan r) ->
  accounted (mkRun (account e res c) (offered r) (handled r ++ [(e, res)])).
Proof.
  intros [Am Ak Ar Al Af Ag Ap] Rn Em Ek Eo Et Ea Er. specialize (Al Rn). destruct Ar as [Rm Rk]. rewrite Ag, <- Et, <- Ea in Eo. rewrite Ag, <- Et, <- Ea in Ap.
  assert (forall mouse, failures mouse (rev (handled r ++ [(e, res)])) = match res with Ok _ => 0 | Err _ => (if Bool.eqb (is_mouse e) mouse then 1 else 0) | Panic => 0 end
    + match res with Ok _ => 0 | _ => failures mouse (rev (handled r)) end) as Hf by (intros mouse; rewrite rev_app_distr; cbn; destruct res; lia).
  rewrite <- Er, <- Eo in Ap. destruct res as [v|err|].
  - constructor; cbn [chan handled account with_errors mouse_errors kbd_errors running terminal_overflow overflow_reported attached reports]; rewrite ?Hf; try lia; try done.
  - set (m := if is_mouse e then wrap 64 (mouse_errors c + 1) else mouse_errors c). set (k := if is_mouse e then kbd_errors c else wrap 64 (kbd_errors c + 1)).
    assert (m = failures true (rev (handled r ++ [(e, Err err)])) /\ k = failures false (rev (handled r ++ [(e, Err err)])) /\ 0 <= m <= 32 /\ 0 <= k <= 32 /\
      (injection_failures_are_terminal (if is_mouse e then m else k) = true <-> (32 <= m \/ 32 <= k))) as (Hm & Hk & Bm & Bk & Ht).
    { unfold m, k, injection_failures_are_terminal, INPUT_FAILURE_THRESHOLD. rewrite !Hf, Em, Ek. destruct (is_mouse e); cbn [Bool.eqb]; rewrite wrap_small by lia; rewrite Z.leb_le; split_and!; lia. }
    unfold account. fold m. fold k. destruct (injection_failures_are_terminal _).
    + set (c1 := with_errors m k c). set (reason := lit "input injection failed on every attempt past the permanent-failure threshold").
      destruct (fail_reports reason c1 Eo Ap) as [Fo Fr]. destruct (report_accounts reason (set_terminal c1)) as (Km & Kk & _). destruct (report_queue reason (set_terminal c1)) as (_ & _ & Kt).
      constructor; cbn [chan handled worker_ends mouse_errors kbd_errors running terminal_overflow overflow_reported attached reports]; [..|exact Fo|exact Fr];
        unfold fail_input_connection; rewrite ?Km, ?Kk, ?Kt; cbn [mouse_errors kbd_errors with_errors set_terminal c1 terminal_overflow]; done.
    + assert (m < 32 /\ k < 32) as [Lm Lk] by (destruct (Z.lt_ge_cases m 32), (Z.lt_ge_cases k 32); try tauto; discriminate (proj2 Ht ltac:(lia))).
      constructor; cbn [chan handled with_errors mouse_errors kbd_errors running terminal_overflow overflow_reported attached reports]; try done. lia.
  - constructor; cbn [chan handled account worker_ends mouse_errors kbd_errors running terminal_overflow overflow_reported attached reports];
      [rewrite Hf; lia|rewrite Hf; lia|lia|done|intros ?; rewrite Et; apply Af; lia|done|done].
Qed.

Lemma accounted_same r c o : accounted r -> mouse_errors c = mouse_errors (chan r) -> kbd_errors c = kbd_errors (chan r) ->
  overflow_reported c = overflow_reported (chan r) -> terminal_overflow c = terminal_overflow (chan r) -> attached c = attached (chan r) -> reports c = reports (chan r) ->
  (running c = true -> running (chan r) = true) -> accounted (mkRun c o (handled r)).
Proof. intros [Am Ak Ar Al Af Ag Ap] Em Ek Eo Et Ea Er En. constructor; cbn [chan handled]; rewrite ?Em, ?Ek, ?Eo, ?Et, ?Ea, ?Er; auto. Qed.

Lemma failing_accounted r c o reason : accounted r -> chan r = c -> accounted (mkRun (fail_input_connection reason c) o (handled r)).
Proof.
  intros [Am Ak Ar Al Af Ag Ap] <-. destruct (fail_reports reason (chan r) Ag Ap) as [Fo Fr].
  destruct (report_accounts reason (set_terminal (chan r))) as (Km & Kk & _). destruct (report_queue reason (set_terminal (chan r))) as (_ & Kr & Kt).
  constructor; cbn [chan handled]; [..|exact Fo|exact Fr]; unfold fail_input_connection; rewrite ?Km, ?Kk, ?Kt, ?Kr; done.
Qed.

Lemma attached_accounted r o reason : accounted r -> accounted (mkRun (report_input_failed_once reason (attach_reporter (chan r))) o (handled r)).
Proof.
  intros [Am Ak Ar Al Af Ag Ap]. destruct (report_accounts reason (attach_reporter (chan r))) as (Km & Kk & Ka & Ko & Kr).
  destruct (report_queue reason (attach_reporter (chan r))) as (_ & Kn & Kt).
  constructor; cbn [chan handled]; rewrite ?Km, ?Kk, ?Ka, ?Kn, ?Kt, ?Kr, ?Ko; cbn; try done; rewrite Ag in *;
    destruct (terminal_overflow (chan r)), (attached (chan r)); cbn in *; rewrite ?app_nil_r, ?Ap; eauto.
Qed.

Lemma step_accounted l r r' : accounted r -> step l r = Some r' -> accounted r'.
Proof.
  intros Ac Hs. destruct l as [e|clock| | |w h sw sh]; cbn in Hs.
  - injection Hs as <-. unfold enqueue_input.
    repeat (match goal with |- context [if ?b then _ else _] => destruct b | |- context [match queue_pressure_action e with _ => _ end] => destruct (queue_pressure_action e) end);
      first [by apply (failing_accounted r) | by apply (accounted_same r)].
  - unfold work in Hs. destruct (running (chan r)) eqn:R; cbn [negb] in Hs; [|done]. destruct (queue (chan r)) as [|e q]; [done|].
    cbn [terminal_overflow with_queue] in Hs. destruct (terminal_overflow (chan r)) eqn:T.
    + injection Hs as <-. rewrite app_nil_r. by apply (accounted_same r).
    + destruct (handle_event _ _ _ _ _ _) as [res i]. injection Hs as <-. by apply account_accounts.
  - destruct (running (chan r)); [|done]. injection Hs as <-. by apply (accounted_same r).
  - injection Hs as <-. by apply attached_accounted.
  - injection Hs as <-. by apply (accounted_same r).
Qed.

(** Failed injections are accounted exactly, whatever the session answers.  The
    two counters are the failures of their kind since the last success; the worker
    runs only while both are below thirty-two, and the thirty-second ends it and
    declares the connection's input failed.  Once input is declared failed, for
    this or a lost event, and a supervisor is attached, exactly one permanent
    failure is reported, and before that none; the report makes the session invalid. *)
Theorem input_failures_accounted ls i r : steps ls (start i) = Some r ->
  mouse_errors (chan r) = failures true (rev (handled r)) /\ kbd_errors (chan r) = failures false (rev (handled r)) /\
  (running (chan r) = true -> mouse_errors (chan r) < 32 /\ kbd_errors (chan r) < 32) /\
  (32 <= mouse_errors (chan r) \/ 32 <= kbd_errors (chan r) -> terminal_overflow (chan r) = true) /\
  (if terminal_overflow (chan r) && attached (chan r) then
     exists reason, reports (chan r) = [Supervision.InputFailed reason true] /\
       forall st, Supervision.invalid (Supervision.handle_event st (Supervision.InputFailed reason true))
   else reports (chan r) = []).
Proof.
  intros Hs. assert (accounted r) as [Am Ak Ar Al Af Ag Ap].
  { eapply (steps_inv accounted); [|intros l r1 r2; apply step_accounted|exact Hs]. constructor; cbn; try done; lia. }
  rewrite Ag in Ap. split_and!; try done. destruct (_ && _); [|done]. destruct Ap as [reason ->]. exists reason. split; [done|].
  intros st. unfold Supervision.invalid, Supervision.handle_event, Supervision.apply_event. cbn. destruct (Supervision.Aspect.is_failed _); [done|]. by rewrite orb_true_r.
Qed.

(** *** Buttons *)

(** The transition an event asks for. *)
Definition button_of (e : InputEvent) : option (MouseButton * bool) :=
  match e with
  | MouseInput LeftPressed => Some (Left, true) | MouseInput LeftReleased => Some (Left, false)
  | MouseInput RightPressed => Some (Right, true) | MouseInput RightReleased => Some (Right, false)
  | MouseInput MiddlePressed => Some (Middle, true) | MouseInput MiddleReleased => Some (Middle, false)
  | MouseInput Button4Pressed => Some (Extra1, true) | MouseInput Button4Released => Some (Extra1, false)
  | MouseInput Button5Pressed => Some (Extra2, true) | MouseInput Button5Released => Some (Extra2, false)
  | _ => None
  end.

(** The injected transitions of a button, in order. *)
Definition injected (b : MouseButton) (l : list action) : list bool :=
  omap (fun a => match a with PointerButton code p => if code =? to_linux_button b then Some p else None | _ => None end) l.
(** What a compositor holds after them: nothing is pressed or released twice. *)
Fixpoint hold (held : bool) (ps : list bool) : option bool :=
  match ps with [] => Some held | p :: ps => if Bool.eqb p held then None else hold p ps end.
Definition buttons_agree (s : Input) : Prop :=
  length (button_states (mouse s)) = 5%nat /\ forall b, hold false (injected b (log s)) = Some (is_button_pressed b (mouse s)).

Lemma hold_app held ps qs : hold held (ps ++ qs) = match hold held ps with Some h => hold h qs | None => None end.
Proof. revert held. induction ps as [|p ps IH]; intros held; [done|]. cbn. destruct (Bool.eqb p held); [done|]. apply IH. Qed.
Lemma injected_app b l m : injected b (l ++ m) = injected b l ++ injected b m.
Proof. apply omap_app. Qed.
Lemma to_linux_button_inj b c : to_linux_button b = to_linux_button c -> b = c.
Proof. by destruct b, c. Qed.

(** [m] leaves the buttons alone. *)
Definition calm {A} (m : handler A) : Prop := forall s, button_states (mouse (m s).2) = button_states (mouse s) /\ forall b, injected b (log (m s).2) = injected b (log s).

Lemma calm_ret {A} (v : A) : calm (ret v). Proof. by intros s. Qed.
Lemma calm_raise {A} e : calm (A := A) (raise e). Proof. by intros s. Qed.
Lemma calm_get {A} (f : Input -> A) : calm (get f). Proof. by intros s. Qed.
Lemma calm_bind {A B} (m : handler A) (k : A -> handler B) : calm m -> (forall v, calm (k v)) -> calm (bind m k).
Proof.
  intros Hm Hk s. destruct (Hm s) as [M1 M2]. unfold bind. destruct (m s) as [[v|e|] s']; cbn in *; [|done..].
  destruct (Hk v s') as [K1 K2]. split; [congruence|]. intros b. by rewrite K2.
Qed.
Lemma calm_modify f : (forall s, button_states (mouse (f s)) = button_states (mouse s) /\ log (f s) = log s) -> calm (modify f).
Proof. intros Hf s. destruct (Hf s) as [E1 E2]. split; [done|]. intros b. cbn. by rewrite E2. Qed.
Lemma calm_try a : (forall code p, a <> PointerButton code p) -> calm (try a).
Proof.
  intros Ha s. split; [done|]. intros b. cbn [try snd log with_log]. rewrite injected_app. destruct a as [| | |code p| | |]; try apply app_nil_r. by destruct (Ha code p).
Qed.
Lemma calm_inject a : (forall code p, a <> PointerButton code p) -> calm (inject a).
Proof. intros Ha. apply calm_bind; [by apply calm_try|]. intros [m|]; [apply calm_raise|apply calm_ret]. Qed.
Lemma calm_key {A} (f : KeyboardHandler -> KeyboardHandler * outcome InputError A) : calm (key_call f).
Proof. intros s. unfold key_call. by destruct (f (keyboard s)). Qed.

Lemma finish_move_buttons now h r : button_states (finish_move now h r).1.1 = button_states h.
Proof. unfold finish_move. destruct r as [t [[sx sy]|e|] ]; [|done..]. by destruct (clamp_to_bounds sx sy t). Qed.
Lemma calm_move f : (forall h t, button_states (f h t).1.1 = button_states h) -> calm (move_call f).
Proof. intros Hf s. unfold move_call. specialize (Hf (mouse s) (transformer s)). by destruct (f (mouse s) (transformer s)) as [[h t] r]. Qed.

Local Ltac agree :=
  repeat first
    [ apply calm_bind; [|intros ?] | apply calm_ret | apply calm_raise | apply calm_get | apply calm_key
    | apply calm_inject; done | apply calm_try; done | apply calm_modify; done
    | match goal with |- calm (if ?b then _ else _) => destruct b | |- calm (match ?o with _ => _ end) => destruct o end ].

Lemma flush_calm : calm (flush_cjk_buffer has_clipboard).
Proof. unfold flush_cjk_buffer. agree. Qed.
Lemma toggles_calm ks : calm (press_toggles ks).
Proof. induction ks as [|k ks IH]; cbn; agree. exact IH. Qed.
Lemma keyboard_calm clock e : calm (handle_keyboard_event_impl cjk_paste_enabled has_clipboard clock e).
Proof.
  destruct e; cbn; unfold handle_pressed, handle_released, handle_unicode_pressed, buffer_unicode, handle_unicode_released, handle_synchronize;
    agree; first [apply flush_calm | apply toggles_calm].
Qed.

(** An accepted transition is injected once; afterwards a release has been followed. *)
Lemma accept_spec now b p h : length (button_states h) = 5%nat -> let '(h', ok) := accept_button_transition_at now b p h in
  length (button_states h') = 5%nat /\
  (if ok then is_button_pressed b h = negb p else button_states h' = button_states h) /\
  (ok = true -> forall c, is_button_pressed c h' = if bool_decide (c = b) then p else is_button_pressed c h) /\
  (p = false -> is_button_pressed b h' = false).
Proof.
  intros H5. pose proof (button_to_index_lt b). unfold accept_button_transition_at. fold (is_button_pressed b h).
  destruct (Bool.eqb (is_button_pressed b h) p) eqn:E; [apply Bool.eqb_prop in E; by split_and!; try done; intros ->|].
  assert (is_button_pressed b h = negb p) as Hn by (by destruct (is_button_pressed b h), p). destruct (p && _) eqn:G; [by destruct p|]. cbn [button_states]. split_and!.
  - by rewrite length_insert.
  - done.
  - intros _ c. unfold is_button_pressed. cbn [button_states]. destruct (bool_decide (c = b)) eqn:B.
    + apply bool_decide_eq_true in B as ->. apply nth_insert_eq. lia.
    + apply bool_decide_eq_false in B. apply nth_insert_ne. intros I. by apply B, button_to_index_inj.
  - intros ->. unfold is_button_pressed. cbn [button_states]. apply nth_insert_eq. lia.
Qed.

Lemma button_state clock b p s : (button clock b p s).2 = let '(h, ok) := accept_button_transition_at (c_first clock) b p (mouse s) in
  if ok : bool then with_log (log s ++ [PointerButton (to_linux_button b) p]) (with_mouse (if p then (handle_button_down (c_second clock) b h).1 else (handle_button_up (c_second clock) b h).1) s)
  else with_mouse h s.
Proof.
  unfold button, bind, button_call. destruct (accept_button_transition_at _ _ _ _) as [h []]; [|done].
  unfold modify, inject, bind, try. by destruct (refuses _ _).
Qed.

Lemma button_step clock b p s : buttons_agree s -> let s' := (button clock b p s).2 in
  buttons_agree s' /\ (p = false -> is_button_pressed b (mouse s') = false) /\ forall c, c <> b -> is_button_pressed c (mouse s') = is_button_pressed c (mouse s).
Proof.
  intros [H5 Hs]. cbn zeta. rewrite button_state. pose proof (accept_spec (c_first clock) b p (mouse s) H5) as Ha.
  destruct (accept_button_transition_at _ _ _ _) as [h [] ]; destruct Ha as (L & Hok & Hc & Hr).
  - set (h' := if p then _ else _). assert (button_states h' = button_states h) as E2 by by destruct p.
    assert (forall c, is_button_pressed c h' = is_button_pressed c h) as Eb by (intros c; unfold is_button_pressed; by rewrite E2). clearbody h'.
    unfold buttons_agree. cbn [mouse log with_log with_mouse]. split; [split; [by rewrite E2|] |split].
    + intros c. rewrite injected_app, hold_app, (Hs c), Eb, (Hc eq_refl). cbn [injected omap list_omap].
      destruct (Z.eqb_spec (to_linux_button b) (to_linux_button c)) as [E|E].
      * apply to_linux_button_inj in E as <-. rewrite bool_decide_eq_true_2 by done. cbn. rewrite Hok. by destruct p.
      * rewrite bool_decide_eq_false_2 by congruence. done.
    + intros ->. rewrite Eb. by apply Hr.
    + intros c Hn. rewrite Eb, (Hc eq_refl), bool_decide_eq_false_2; done.
  - unfold buttons_agree. cbn [mouse log with_mouse]. split; [split; [done|] |split; [exact Hr|] ]; intros c; unfold is_button_pressed; rewrite Hok; [rewrite (Hs c)|]; done.
Qed.

(** Scrolling and moving leave the buttons alone. *)
Lemma scroll_buttons now dx dy h : button_states (handle_scroll now dx dy h).1 = button_states h.
Proof. unfold handle_scroll. destruct (high_precision_scroll _); [|done]. by destruct (scroll_step (scroll_accum_x (set_event_time now h)) dx), (scroll_step (scroll_accum_y (set_event_time now h)) dy). Qed.
Lemma shape_once_kept s : mouse (send_android_pointer_shape_once s) = mouse s /\ log (send_android_pointer_shape_once s) = log s.
Proof. unfold send_android_pointer_shape_once. destruct (_ || _); [done|]. destruct (pointer_updates s); [|done]. by destruct (pointer_send _ _). Qed.
Lemma position_kept px py s : mouse (send_android_pointer_position_update px py s) = mouse s /\ log (send_android_pointer_position_update px py s) = log s.
Proof. unfold send_android_pointer_position_update. destruct (negb _); [done|]. by destruct (pointer_updates s). Qed.

Lemma mouse_calm clock e : button_of (MouseInput e) = None -> calm (handle_mouse_event_impl stream_id clock e).
Proof.
  assert (forall shown ev, calm (pointer_to stream_id shown ev)) as Hp.
  { intros shown ev. unfold pointer_to. destruct ev; agree; apply calm_modify; intros r; [destruct (shape_once_kept r) as [-> ->]|destruct (position_kept (shown (x, y)).1 (shown (x, y)).2 r) as [-> ->] ]; done. }
  assert (forall dx dy, calm (scroll clock dx dy)) as Hc.
  { intros dx dy. unfold scroll. agree. apply calm_modify. intros r. cbn. by rewrite scroll_buttons. }
  intros He. destruct e; try done; cbn [handle_mouse_event_impl]; [| |apply Hc|apply Hc];
    (apply calm_bind; [|intros ev; apply Hp]); apply calm_move; intros h t; apply finish_move_buttons.
Qed.

(** One handled event: the agreement, and the effect on each button. *)
Lemma event_buttons clock e s : buttons_agree s -> let s' := (handle_event stream_id cjk_paste_enabled has_clipboard clock e s).2 in
  buttons_agree s' /\ forall b, match button_of e with
    | Some (c, p) => if bool_decide (c = b) then p = false -> is_button_pressed b (mouse s') = false else is_button_pressed b (mouse s') = is_button_pressed b (mouse s)
    | None => is_button_pressed b (mouse s') = is_button_pressed b (mouse s)
    end.
Proof.
  intros Hs. cbn zeta. destruct (button_of e) as [[c p]|] eqn:E.
  - assert (handle_event stream_id cjk_paste_enabled has_clipboard clock e = button clock c p) as ->.
    { destruct e as [e|e]; [done|]. destruct e; try done; by injection E as <- <-. }
    destruct (button_step clock c p s Hs) as (A & R & O). split; [done|]. intros b. destruct (bool_decide (c = b)) eqn:D; [by apply bool_decide_eq_true in D as <-|]. apply bool_decide_eq_false in D. apply O. congruence.
  - assert (calm (handle_event stream_id cjk_paste_enabled has_clipboard clock e)) as Hc by (destruct e; [apply keyboard_calm|by apply mouse_calm]).
    destruct (Hc s) as [C1 C2]. destruct Hs as [H5 Hs]. assert (forall b, is_button_pressed b (mouse (handle_event stream_id cjk_paste_enabled has_clipboard clock e s).2) = is_button_pressed b (mouse s)) as Hb
      by (intros b; unfold is_button_pressed; by rewrite C1).
    split; [split; [by rewrite C1|]|exact Hb]. intros b. by rewrite C2, Hb.
Qed.

(** The last transition the worker handled for a button. *)
Definition last_transition (b : MouseButton) (hs : list (InputEvent * outcome InputError unit)) : option bool :=
  last (omap (fun h => match button_of h.1 with Some (c, p) => if bool_decide (c = b) then Some p else None | None => None end) hs).

Lemma last_transition_snoc b hs e res : last_transition b (hs ++ [(e, res)]) =
  match button_of e with Some (c, p) => if bool_decide (c = b) then Some p else last_transition b hs | None => last_transition b hs end.
Proof.
  unfold last_transition. rewrite omap_app. cbn. destruct (button_of e) as [[c p]|]; [|by rewrite app_nil_r].
  destruct (bool_decide (c = b)); [by rewrite last_snoc|by rewrite app_nil_r].
Qed.

Record buttons_follow (r : Run) : Prop := mkButtonsFollow {
  bf_agree : buttons_agree (input (chan r));
  bf_released : forall b, last_transition b (handled r) = Some false -> is_button_pressed b (mouse (input (chan r))) = false;
}.

Lemma account_input e res c : input (account e res c) = input c.
Proof. unfold account. destruct res; [done| |done]. destruct (injection_failures_are_terminal _); [|done]. unfold fail_input_connection, report_input_failed_once. by destruct (_ || _ || _). Qed.
Lemma enqueue_input_kept e c : input (enqueue_input e c) = input c.
Proof.
  assert (forall reason, input (fail_input_connection reason c) = input c) as Hf by (intros reason; unfold fail_input_connection, report_input_failed_once; by destruct (_ || _ || _)).
  unfold enqueue_input. destruct (terminal_overflow c); [done|]. destruct (negb _); [apply Hf|]. destruct (_ <? _); [done|]. destruct (queue_pressure_action e); [done|apply Hf].
Qed.
Lemma mapping_kept w h sw sh s : let s' := (update_primary_stream_mapping stream_id w h sw sh s).2 in mouse s' = mouse s /\ log s' = log s.
Proof.
  cbn zeta. unfold update_primary_stream_mapping. destruct (update_primary_topology _ _ _ _ _ _ _) as [[ms ss]|e|]; [|done..].
  unfold update_monitors. by destruct (transformer_new ms).
Qed.

Lemma step_buttons l r r' : buttons_follow r -> step l r = Some r' -> buttons_follow r'.
Proof.
  intros [Ha Hl] Hs. destruct l as [e|clock| | |w h sw sh]; cbn in Hs.
  - injection Hs as <-. constructor; cbn [chan handled]; by rewrite enqueue_input_kept.
  - unfold work in Hs. destruct (negb _); [done|]. destruct (queue (chan r)) as [|e q]; [done|]. destruct (terminal_overflow _).
    + injection Hs as <-. constructor; cbn [chan handled]; rewrite ?app_nil_r; done.
    + change (input (with_queue q (chan r))) with (input (chan r)) in Hs. destruct (event_buttons clock e _ Ha) as [A B].
      destruct (handle_event _ _ _ _ _ _) as [res i]. injection Hs as <-. cbn [snd] in *. constructor; cbn [chan handled]; rewrite account_input; [done|].
      intros b. specialize (B b). rewrite last_transition_snoc. cbn [input with_input]. destruct (button_of e) as [[c p]|]; [|rewrite B; apply Hl].
      destruct (bool_decide (c = b)); [|rewrite B; apply Hl]. intros [= ->]. by apply B.
  - destruct (running (chan r)); [|done]. injection Hs as <-. by constructor.
  - injection Hs as <-. unfold set_health_reporter, report_input_failed_once. constructor; cbn [chan handled]; by destruct (_ || _ || _).
  - injection Hs as <-. destruct (mapping_kept w h sw sh (input (chan r))) as [E1 E2].
    constructor; cbn [chan handled input with_input]; unfold buttons_agree, is_button_pressed in *; by rewrite ?E1, ?E2.
Qed.
(** C19. No button sticks.  Over every run, and whatever the session refuses, the
    transitions injected for a button alternate from released on, so that the
    session is never told to press a pressed or release a released button; and once the last
    event handled for a button is a release, the last injection for it is one
    too (or there was none), also where presses were dropped or suppressed. *)
Theorem buttons_never_stick ls i r b : mouse i = mouse_new -> log i = [] -> steps ls (start i) = Some r ->
  exists held, hold false (injected b (log (input (chan r)))) = Some held /\ (last_transition b (handled r) = Some false -> held = false).
Proof.
  intros Hm Hl Hs. assert (buttons_follow r) as [[_ Ha] Hr].
  { eapply (steps_inv buttons_follow); [|intros l r1 r2; apply step_buttons|exact Hs]. constructor; cbn; [|done].
    unfold buttons_agree. rewrite Hm, Hl. split; [done|]. by intros []. }
  exists (is_button_pressed b (mouse (input (chan r)))). split; [apply Ha|apply Hr].
Qed.
End runs.

(** ** Geometry *)

(** A new geometry for the primary stream is taken over completely or not at
    all.  When it is accepted, the pointer is mapped with a fresh transformer of the
    kept monitors, of which only the primary one has the new client and stream
    sizes, and only the primary stream is resized; positions, identities and the
    other monitors and streams are as before.  When it is refused nothing changes. *)
Theorem mapping_all_or_nothing sid w h sw sh s :
  match update_primary_stream_mapping sid w h sw sh s with
  | (Ok _, s') => exists i j m st, monitors_kept s !! i = Some m /\ is_primary m = true /\ streams s !! j = Some st /\ node_id st = sid /\
      monitors_kept s' = <[i := resize_monitor (Z.max w 1) (Z.max h 1) (Z.max sw 1) (Z.max sh 1) m]> (monitors_kept s) /\
      streams s' = <[j := resize_stream (Z.max sw 1) (Z.max sh 1) st]> (streams s) /\
      transformer_new (monitors_kept s') = Ok (transformer s') /\
      (keyboard s', mouse s', log s') = (keyboard s, mouse s, log s)
  | (_, s') => s' = s
  end.
Proof.
  unfold update_primary_stream_mapping, update_primary_topology, update_monitors.
  destruct (position is_primary (monitors_kept s)) as [i|] eqn:Ei; cbn [ok_or mbind outcome_bind]; [|done].
  destruct (position (fun s => node_id s =? sid) (streams s)) as [j|] eqn:Ej; cbn [ok_or mbind outcome_bind]; [|done].
  destruct (position_spec _ _ _ Ei) as (m & Hm & Pm). destruct (position_spec _ _ _ Ej) as (st & Hst & Pst).
  destruct (transformer_new _) as [t|e|] eqn:Et; [|done..]. exists i, j, m, st. cbn [monitors_kept streams transformer keyboard mouse log with_streams with_transformer with_monitors_kept].
  rewrite Et. rewrite (list_alter_insert _ _ _ _ Hm), (list_alter_insert _ _ _ _ Hst). apply Z.eqb_eq in Pst. done.
Qed.

(** ** Typed text *)

Lemma unicode_to_evdev_ascii u k : unicode_to_evdev u = Some k -> 0 <= u < 0x7F.
Proof.
  destruct u as [|p|p]; [done| |done].
  do 7 (destruct p as [p|p|]; try done); cbn; try done; intros _; lia.
Qed.

(** Two characters with the same key and shift are the two line ends. *)
Lemma unicode_keys_distinct u v k : unicode_to_evdev u = Some k -> unicode_to_evdev v = Some k -> u = v \/ (u = 10 /\ v = 13) \/ (u = 13 /\ v = 10).
Proof.
  intros Hu Hv. pose proof (unicode_to_evdev_ascii _ _ Hu) as Bu. pose proof (unicode_to_evdev_ascii _ _ Hv) as Bv.
  set (codes := map Z.of_nat (seq 0 127)).
  assert (forall z, 0 <= z < 0x7F -> z ∈ codes) as Hin.
  { intros z Hz. apply list_elem_of_In, in_map_iff. exists (Z.to_nat z). split; [lia|]. apply in_seq. lia. }
  assert (forallb (fun a => forallb (fun b => negb (bool_decide (unicode_to_evdev a = unicode_to_evdev b)) || bool_decide (unicode_to_evdev a = None) || (a =? b) || ((a =? 10) && (b =? 13)) || ((a =? 13) && (b =? 10))) codes) codes = true) as Hall by (vm_compute; reflexivity).
  rewrite forallb_forall in Hall. specialize (Hall u (proj1 (list_elem_of_In _ _) (Hin u Bu))). cbn beta in Hall. rewrite forallb_forall in Hall.
  specialize (Hall v (proj1 (list_elem_of_In _ _) (Hin v Bv))). rewrite Hu, Hv, bool_decide_eq_true_2, bool_decide_eq_false_2 in Hall by done. cbn in Hall. lia.
Qed.

(** The code units of a character, as a client sends them. *)
Definition utf16_units (c : Z) : list Z := if c <? 0x10000 then [c] else [0xD800 + (c - 0x10000) / 1024; 0xDC00 + (c - 0x10000) mod 1024].

Lemma surrogates_decode c b : 0x10000 <= c < 0x110000 ->
  let high := 0xD800 + (c - 0x10000) / 1024 in let low := 0xDC00 + (c - 0x10000) mod 1024 in
  is_high_surrogate high = true /\ is_high_surrogate low = false /\ is_low_surrogate low = true /\ push_surrogate_pair high low b = (Some c, mkCjk (buf b ++ [c]) None).
Proof.
  intros Hc. cbn zeta. set (d := c - 0x10000). assert (0 <= d < 1048576) as Hd by lia. pose proof (Z.div_mod d 1024 ltac:(lia)). pose proof (Z.mod_pos_bound d 1024 ltac:(lia)).
  assert (0 <= d / 1024 < 1024) as Hq by (split; [apply Z.div_pos; lia|apply Z.div_lt_upper_bound; lia]).
  unfold push_surrogate_pair, is_high_surrogate, is_low_surrogate. split_and!; [lia..|]. rewrite !(proj2 (Z.leb_le _ _)) by lia. cbn [andb negb orb].
  rewrite Z.shiftl_mul_pow2 by lia. replace (0x10000 + (0xD800 + d / 1024 - 0xD800) * 2 ^ 10 + (0xDC00 + d mod 1024 - 0xDC00)) with c by lia.
  replace (is_scalar c) with true; [done|]. unfold is_scalar. lia.
Qed.

(** The keys that are down after these actions. *)
Definition press (h : gset Z) (a : action) : gset Z :=
  match a with Keycode k true => {[k]} ∪ h | Keycode k false => h ∖ {[k]} | _ => h end.
Definition held (l : list action) : gset Z := fold_left press l ∅.
(** What the clipboard held at each Ctrl+V of [ext], after the actions [past]: V
    goes down while Ctrl is down. *)
Fixpoint pastes `{Backend} (past ext : list action) : list (option (list Z)) :=
  match ext with
  | [] => []
  | a :: ext => (match a with Keycode 47 true => if bool_decide (29 ∈ held past) then [clipboard_text past] else [] | _ => [] end) ++ pastes (past ++ [a]) ext
  end.

Lemma held_snoc l a : held (l ++ [a]) = press (held l) a.
Proof. unfold held. by rewrite fold_left_app. Qed.
Lemma pastes_app `{Backend} past ext more : pastes past (ext ++ more) = pastes past ext ++ pastes (past ++ ext) more.
Proof. revert past. induction ext as [|a ext IH]; intros past; cbn; [by rewrite app_nil_r|]. by rewrite IH, <- app_assoc, <- app_assoc. Qed.

Section typed.
Context `{Backend} (clock : Clock).
(** A clipboard that holds the last text written to it, whatever keys are pressed. *)
Context (holds : forall l t, clipboard_text (l ++ [WriteText t]) = Some (as_bytes t))
        (untouched : forall l a, (forall t, a <> WriteText t) -> clipboard_text (l ++ [a]) = clipboard_text l).

(** The client types a text: its code units, in order. *)
Fixpoint type_units (us : list Z) : handler unit :=
  match us with [] => ret tt | u :: us => bind (handle_unicode_pressed true true u) (fun _ => type_units us) end.
Definition type_text (t : str) : handler unit := type_units (t ≫= utf16_units).

(** A character that no key types. *)
Definition keyless (c : Z) : Prop := is_scalar c = true /\ unicode_to_evdev c = None.

Definition chord (c : Z) (old : str) : list action :=
  [ReadText; WriteText [c]; Keycode 29 true; Keycode 47 true; Keycode 47 false; Keycode 29 false; WriteText old].

Lemma flush_spec c old s : cjk s = mkCjk [c] None -> clipboard_text (log s) = Some (as_bytes old) -> valid_str old ->
  flush_cjk_buffer true s = (Ok tt, with_log (log s ++ chord c old) (with_cjk cjk_new s)).
Proof.
  intros Hc Ht Hv. unfold flush_cjk_buffer, bind, get, modify, try, ret. rewrite Hc. cbn [take_text fst snd buf]. cbn [log with_cjk with_log]. rewrite Ht. cbn [mbind option_bind].
  rewrite from_utf8_as_bytes by done. cbn [log with_cjk with_log]. unfold chord. by rewrite <- !app_assoc.
Qed.

Lemma type_char c old s : keyless c -> cjk s = cjk_new -> clipboard_text (log s) = Some (as_bytes old) -> valid_str old ->
  type_units (utf16_units c) s = (Ok tt, with_log (log s ++ chord c old) s).
Proof.
  intros [Hs Hk] Hc Ht Hv. assert (forall t, with_log t (with_cjk cjk_new s) = with_log t s) as Hsame by (intros t; destruct s; cbn in *; by subst).
  unfold utf16_units. destruct (Z.ltb_spec c 0x10000).
  - cbn [type_units]. unfold bind at 1, handle_unicode_pressed, buffer_unicode. rewrite Hk.
    assert (is_high_surrogate c = false /\ is_low_surrogate c = false) as [-> ->] by (unfold is_scalar, is_high_surrogate, is_low_surrogate in *; lia). rewrite Hs.
    unfold bind at 1, modify. rewrite (flush_spec c old); [|cbn [cjk with_cjk]; by rewrite Hc|done..]. unfold ret. by rewrite <- Hsame.
  - assert (0x10000 <= c < 0x110000) as Hr by (unfold is_scalar in Hs; lia). cbn [type_units].
    assert (forall u, 0xD800 <= u -> unicode_to_evdev u = None) as Hn by (intros u Hu; destruct (unicode_to_evdev u) as [k|] eqn:E; [apply unicode_to_evdev_ascii in E; lia|done]).
    destruct (surrogates_decode c cjk_new Hr) as (S1 & S2 & S3 & S4). set (high := 0xD800 + _) in *. set (low := 0xDC00 + _) in *.
    assert (0xD800 <= high /\ 0xD800 <= low) as [Bh Bl] by (unfold is_high_surrogate, is_low_surrogate in *; lia).
    unfold bind at 1, handle_unicode_pressed, buffer_unicode. rewrite (Hn _ Bh), S1. unfold modify at 1.
    unfold bind at 1. rewrite (Hn _ Bl), S2, S3. unfold bind at 1, get at 1. cbn [cjk with_cjk pending_high_surrogate]. unfold bind at 1, modify at 1, bind at 1, get at 1. cbn [cjk with_cjk buf].
    rewrite Hc. change (mkCjk (buf cjk_new) None) with cjk_new. unfold bind at 1, modify at 1. cbn [cjk with_cjk]. rewrite S4. cbn [fst snd].
    rewrite (flush_spec c old); [|done..]. unfold ret. by rewrite <- Hsame.
Qed.

Lemma chord_held c old l : held (l ++ chord c old) = held l ∖ {[47]} ∖ {[29]}.
Proof.
  unfold chord. unfold held. rewrite fold_left_app. cbn [fold_left press]. fold (held l). set_solver.
Qed.
Lemma chord_pastes c old l : clipboard_text l = Some (as_bytes old) -> pastes l (chord c old) = [Some (as_bytes [c])] /\ clipboard_text (l ++ chord c old) = Some (as_bytes old).
Proof.
  intros Hl. unfold chord. cbn [pastes app]. rewrite <- !app_assoc. cbn [app]. split.
  - rewrite bool_decide_true by (replace (l ++ [ReadText; WriteText [c]; Keycode 29 true]) with ((l ++ [ReadText; WriteText [c] ]) ++ [Keycode 29 true]) by (by rewrite <-app_assoc); rewrite held_snoc; cbn; set_solver).
    replace (l ++ [ReadText; WriteText [c]; Keycode 29 true]) with (((l ++ [ReadText]) ++ [WriteText [c] ]) ++ [Keycode 29 true]) by (by rewrite <- !app_assoc).
    by rewrite untouched, holds.
  - change [ReadText; WriteText [c]; Keycode 29 true; Keycode 47 true; Keycode 47 false; Keycode 29 false; WriteText old] with
      ([ReadText; WriteText [c]; Keycode 29 true; Keycode 47 true; Keycode 47 false; Keycode 29 false] ++ [WriteText old]). by rewrite app_assoc, holds.
Qed.

(** C29. Text without keys arrives as it was typed, whatever plane its characters
    are from.  With the clipboard fallback on, and a clipboard that keeps what is
    written to it, the UTF-16 units a client sends for a text of characters that
    no key types make the session paste exactly these characters, one by one and in
    order, each by Ctrl+V from the clipboard; afterwards nothing is left in the
    buffer, no key is down that was not before, and the clipboard holds the text
    it held before. *)
Theorem unicode_text_pasted t old s : Forall keyless t -> cjk s = cjk_new -> clipboard_text (log s) = Some (as_bytes old) -> valid_str old ->
  exists ext, type_text t s = (Ok tt, with_log (log s ++ ext) s) /\
    pastes (log s) ext = (fun c => Some (as_bytes [c])) <$> t /\ held (log s ++ ext) ⊆ held (log s) /\ clipboard_text (log s ++ ext) = Some (as_bytes old).
Proof.
  intros Hk Hc Ht Hv. revert s Hc Ht. induction Hk as [|c t Hkc Hk IH]; intros s Hc Ht.
  - exists []. rewrite app_nil_r. split; [by destruct s|done].
  - destruct (IH (with_log (log s ++ chord c old) s)) as (ext & He & Hp & Hh & Hl); [done|by apply chord_pastes|]. exists (chord c old ++ ext).
    assert (forall us vs r, type_units (us ++ vs) r = bind (type_units us) (fun _ => type_units vs) r) as Happ.
    { intros us vs. induction us as [|u us IHu]; intros r; [done|]. cbn [type_units app]. unfold bind at 1 2 3. destruct (handle_unicode_pressed true true u r) as [[[]|e|] r1]; [apply IHu|done..]. }
    split_and!.
    + unfold type_text. cbn [mbind list_bind]. rewrite Happ. unfold bind at 1. rewrite (type_char c old) by done. unfold type_text in He. rewrite He. cbn [log with_log]. by rewrite <- app_assoc.
    + rewrite pastes_app. destruct (chord_pastes c old (log s) Ht) as [-> _]. cbn [app fmap list_fmap]. f_equal. exact Hp.
    + rewrite app_assoc. cbn [log with_log] in Hh. rewrite chord_held in Hh. set_solver.
    + rewrite app_assoc. exact Hl.
Qed.
End typed.

(** ** A small session *)

(** A session that takes everything, with the text [old] in its clipboard at first. *)
Definition clipboard_of (old : str) (l : list action) : option (list Z) :=
  Some (as_bytes (fold_left (fun t a => match a with WriteText t => t | _ => t end) l old)).
#[local] Instance steady : Backend := { refuses _ _ := None; clipboard_text := clipboard_of (lit "old") }.
(** One that refuses every action. *)
Definition broken : Backend := {| refuses _ _ := Some (lit "gone"); clipboard_text _ := None |}.

Definition small_input : Input := mkInput keyboard_new mouse_new full_hd_transformer [full_hd] [mkStream 42 1920 1080 0 0] cjk_new None None false [].
Definition at_ms (n : Z) : label := Work (mkClock (ms n) (ms n)).

Lemma steady_holds l t : clipboard_text (l ++ [WriteText t]) = Some (as_bytes t).
Proof. cbn. unfold clipboard_of. by rewrite fold_left_app. Qed.
Lemma steady_untouched l a : (forall t, a <> WriteText t) -> clipboard_text (l ++ [a]) = clipboard_text l.
Proof. intros Ha. cbn. unfold clipboard_of. rewrite fold_left_app. destruct a as [| | | | | |t]; try done. by destruct (Ha t). Qed.

Lemma unicode_text_pasted_witness : exists ext,
  type_text [0x4E2D; 0x1F600] small_input = (Ok tt, with_log ext small_input) /\
  pastes [] ext = [Some (as_bytes [0x4E2D]); Some (as_bytes [0x1F600])].
Proof.
  destruct (unicode_text_pasted steady_holds steady_untouched
    [0x4E2D; 0x1F600] (lit "old") small_input) as (ext & He & Hp & _).
  - by repeat constructor.
  - reflexivity.
  - reflexivity.
  - by repeat constructor.
  - exists ext. split; [exact He|exact Hp].
Defined.

(** A key and a button: what was handled, and what waits. *)
Definition press_and_release : list label :=
  [Offer (KeyboardInput (Pressed 30 false)); at_ms 1; Offer (KeyboardInput (Released 30 false)); Offer (MouseInput LeftReleased)].
Lemma no_release_lost_witness : exists r, steps 42 false false press_and_release (start small_input) = Some r /\
  List.filter lossless ((handled r).*1 ++ queue (chan r)) = [KeyboardInput (Released 30 false); MouseInput LeftReleased].
Proof.
  assert (match steps 42 false false press_and_release (start small_input) with
    | Some r => running (chan r) && negb (terminal_overflow (chan r)) && bool_decide (List.filter lossless (offered r) = [KeyboardInput (Released 30 false); MouseInput LeftReleased])
    | None => false end = true) as Hv by (vm_compute; reflexivity).
  destruct (steps 42 false false press_and_release (start small_input)) as [r|] eqn:E; [|discriminate Hv].
  apply andb_true_iff in Hv as [Hv F]. apply andb_true_iff in Hv as [R T]. apply negb_true_iff in T. apply bool_decide_eq_true in F.
  exists r. split; [reflexivity|]. destruct (no_release_lost 42 false false _ small_input r E) as (_ & K & _). rewrite (K R T). exact F.
Defined.

(** A broken session: thirty-two clicks, of which all injections are refused. *)
Definition clicks (n : nat) : list label :=
  Attach :: concat (map (fun k => [Offer (MouseInput LeftPressed); at_ms (20 * Z.of_nat k); Offer (MouseInput LeftReleased); at_ms (20 * Z.of_nat k + 10)]) (seq 1 n)).
Lemma input_failures_accounted_witness : exists r, steps (H := broken) 42 false false (clicks 16) (start small_input) = Some r /\
  mouse_errors (chan r) = 32 /\ terminal_overflow (chan r) = true /\ exists reason, reports (chan r) = [Supervision.InputFailed reason true].
Proof.
  assert (match steps (H := broken) 42 false false (clicks 16) (start small_input) with
    | Some r => (failures true (rev (handled r)) =? 32) && attached (chan r) | None => false end = true) as Hv by (vm_compute; reflexivity).
  destruct (steps (H := broken) 42 false false (clicks 16) (start small_input)) as [r|] eqn:E; [|discriminate Hv].
  apply andb_true_iff in Hv as [Fm At]. apply Z.eqb_eq in Fm.
  exists r. split; [reflexivity|]. destruct (input_failures_accounted (H := broken) 42 false false (clicks 16) small_input r E) as (M & _ & _ & F & R).
  rewrite Fm in M. assert (terminal_overflow (chan r) = true) as T by (apply F; left; lia). rewrite T, At in R.
  split; [exact M|]. split; [exact T|]. destruct R as (reason & Hr & _). exists reason. exact Hr.
Defined.

Lemma buttons_never_stick_witness : exists r, steps (H := broken) 42 false false (clicks 3) (start small_input) = Some r /\
  hold false (injected Left (log (input (chan r)))) = Some false.
Proof.
  assert (match steps (H := broken) 42 false false (clicks 3) (start small_input) with
    | Some r => bool_decide (last_transition Left (handled r) = Some false) | None => false end = true) as Hv by (vm_compute; reflexivity).
  destruct (steps (H := broken) 42 false false (clicks 3) (start small_input)) as [r|] eqn:E; [|discriminate Hv]. apply bool_decide_eq_true in Hv.
  exists r. split; [reflexivity|]. destruct (buttons_never_stick (H := broken) 42 false false (clicks 3) small_input r Left eq_refl eq_refl E) as (held & Hh & Hf).
  rewrite Hh, (Hf Hv). reflexivity.
Defined.

(** Sixteen taps on one key whose code the tables do not know end the input:
    an untranslatable code is accounted like a refused injection. *)
Definition taps (code : Z) (n : nat) : list label :=
  concat (replicate n [Offer (KeyboardInput (Pressed code false)); at_ms 1; Offer (KeyboardInput (Released code false)); at_ms 1]).
Lemma unknown_key_ends_input : match steps 42 false false (Attach :: taps 0x66 16) (start small_input) with
  | Some r => negb (running (chan r)) && bool_decide (length (log (input (chan r))) = 0%nat) && bool_decide (length (reports (chan r)) = 1%nat)
  | None => false end = true.
Proof. by vm_compute. Qed.

(** Text typed while a shift key is held releases that key. *)
Definition shift_and_text : list label :=
  [Offer (KeyboardInput (Pressed 0x2A false)); at_ms 1; Offer (KeyboardInput (UnicodePressed 0x41)); at_ms 1; Offer (KeyboardInput (UnicodeReleased 0x41)); at_ms 1].
Lemma typed_text_releases_shift : match steps 42 false false shift_and_text (start small_input) with
  | Some r => (log (input (chan r)), is_key_pressed 42 (keyboard (input (chan r)))) | None => ([], false) end =
  ([Keycode 42 true; Keycode 42 true; Keycode 30 true; Keycode 30 false; Keycode 42 false], true).
Proof. by vm_compute. Qed.

(** With the clipboard fallback a character is pasted, and then a key symbol is
    released that nobody pressed. *)
Lemma pasted_character_is_released :
  match steps 42 true true [Offer (KeyboardInput (UnicodePressed 0x4E2D)); at_ms 1; Offer (KeyboardInput (UnicodeReleased 0x4E2D)); at_ms 1] (start small_input) with
  | Some r => log (input (chan r)) | None => [] end = chord 0x4E2D (lit "old") ++ [Keysym 0x1004E2D false].
Proof. by vm_compute. Qed.
