(* ===== verification/SesProcess.v ===== *)
(** * Process identity

    Models src/src/sesman/process.rs and src/src/sesman/identity.rs, and the
    identity test of src/src/desktop/compositor/launch.rs.  The host is read
    through [Os], one snapshot per read: a check that reads several files takes a
    [view], whose [i]-th snapshot is what its [i]-th read sees. *)
From S2P Require Import Prelude Text.
From Stdlib Require Import Sorting.Sorted.

(** ** More of [str] *)

(** [s.rsplit_once(p)] for a pattern of several characters *)
Fixpoint rsplit_pat (p s : str) : option (str * str) :=
  match s with
  | [] => None
  | x :: s' =>
      match rsplit_pat p s' with
      | Some (a, b) => Some (x :: a, b)
      | None => pair [] <$> strip_prefix p s
      end
  end.

(** [s.split_whitespace()] *)
Fixpoint words_acc (s acc : str) : list str :=
  match s with
  | [] => match acc with [] => [] | _ => [rev acc] end
  | c :: s =>
      if is_whitespace c
      then match acc with [] => words_acc s [] | _ => rev acc :: words_acc s [] end
      else words_acc s (c :: acc)
  end.
Definition split_whitespace (s : str) : list str := words_acc s [].

(** [iter.find_map(f)] *)
Fixpoint find_map {A B} (f : A -> option B) (l : list A) : option B :=
  match l with
  | [] => None
  | x :: l => match f x with Some b => Some b | None => find_map f l end
  end.

(** ** Dates

    A [DateTime<Utc>] is a number of nanoseconds since the epoch.  Its limits
    belong to the chrono crate: the operations are known to be exact for the
    years from 1970 to 9999. *)
Definition year_10000 : Z := secs 253402300800.
Class Chrono := {
  from_timestamp : Z -> Z -> option Z;
  date_add : Z -> Z -> option Z;
  from_timestamp_exact s n : 0 <= s < 253402300800 -> 0 <= n < 1000000000 -> from_timestamp s n = Some (secs s + n);
  date_add_exact t d : 0 <= t + d < year_10000 -> 0 <= t < year_10000 -> date_add t d = Some (t + d);
}.
Definition timestamp_millis (t : Z) : Z := t / 1000000.

(** ** What the host answers at one instant *)
Inductive file_kind := RegularFile | Directory | Symlink | Socket | OtherFile.
#[export] Instance file_kind_eq_dec : EqDecision file_kind.
Proof. solve_decision. Defined.
Record Metadata := mkMeta { kind : file_kind; owner : Z; group : Z }.

(** The outcome of a file operation that may not find its file. *)
Inductive io (A : Type) := IoOk (a : A) | NotFound | IoErr.
Arguments IoOk {A}. Arguments NotFound {A}. Arguments IoErr {A}.

Record Os := mkOs {
  (** [kill(target, 0)] succeeds; a negative target is a process group. *)
  kill0 : Z -> bool;
  proc_stat : Z -> option str;
  proc_status : Z -> option str;
  boot_stat : option str;
  boot_id_file : option str;
  clk_tck : option Z;
  (** The output of [id <flag> <user>] and [getent passwd <user>] on success. *)
  id_output : str -> str -> option str;
  getent_output : str -> option str;
  lstat : str -> io Metadata;
  connects : str -> bool;
  effective_uid : Z;
  effective_gid : Z;
  utc : Z;
}.
Abbreviation view := (nat -> Os).

(** Drop the first [n] snapshots. *)
Definition later (v : view) (n : nat) : view := fun i => v (n + i)%nat.

(** ** /proc *)

(** [process.rs:15-29 process_alive] *)
Definition process_alive (v : view) (pid : Z) : bool :=
  if (pid <=? 0) || negb (kill0 (v 0%nat) pid) then false
  else match proc_stat (v 1%nat) pid with
       | None => false
       | Some stat =>
           match rsplit_pat (lit ") ") stat with
           | None => false
           | Some (_, after_comm) => negb (starts_with (lit "Z") after_comm)
           end
       end.

(** [process.rs:162-171 read_boot_id] *)
Definition read_boot_id (os : Os) : option str :=
  s ← boot_id_file os;
  let boot_id := trim s in
  if bool_decide (boot_id = []) then None else Some boot_id.

(** [process.rs:178-185 process_status_uids] *)
Definition process_status_uids (os : Os) (pid : Z) : option (Z * Z) :=
  status ← proc_status os pid;
  uid_line ← find_map (strip_prefix (lit "Uid:")) (lines status);
  let fields := split_whitespace uid_line in
  real ← fields !! 0%nat; real ← parse_unsigned u32_max real;
  effective ← fields !! 1%nat; effective ← parse_unsigned u32_max effective;
  Some (real, effective).

(** The [i]-th field after the command name of /proc/<pid>/stat. *)
Definition stat_field (os : Os) (pid : Z) (i : nat) : option str :=
  stat ← proc_stat os pid;
  after_comm ← snd <$> rsplit_pat (lit ") ") stat;
  split_whitespace after_comm !! i.

(** [process.rs:192-196 process_pgid] *)
Definition process_pgid (os : Os) (pid : Z) : option Z := stat_field os pid 2 ≫= parse_i32.

(** [process.rs:198-203 process_start_ticks] *)
Definition process_start_ticks (os : Os) (pid : Z) : option Z := stat_field os pid 19 ≫= parse_unsigned u64_max.

Definition in_u64 (z : Z) : option Z := if z <=? u64_max then Some z else None.

(** [process.rs:205-223 process_started_at] *)
Definition process_started_at `{Chrono} (v : view) (pid : Z) : option Z :=
  start_ticks ← process_start_ticks (v 0%nat) pid;
  stat ← boot_stat (v 1%nat);
  btime ← find_map (strip_prefix (lit "btime ")) (lines stat);
  boot_seconds ← parse_unsigned u64_max btime;
  ticks ← clk_tck (v 2%nat);
  if ticks <=? 0 then None
  else
    seconds ← in_u64 (boot_seconds + start_ticks / ticks);
    scaled ← in_u64 (start_ticks mod ticks * 1000000000);
    let nanos := scaled / ticks in
    if (seconds >? i64_max) || (nanos >? u32_max) then None
    else from_timestamp seconds nanos.

(** [process.rs:225-227 process_group_alive] *)
Definition process_group_alive (os : Os) (pid : Z) : bool := (0 <? pid) && kill0 os (- pid).

(** [process.rs:38-47 MatchPurpose] *)
Inductive MatchPurpose := Status | Signal.
#[export] Instance MatchPurpose_eq_dec : EqDecision MatchPurpose.
Proof. solve_decision. Defined.

(** [process.rs:58-74 ProcessSignature] *)
Record ProcessSignature := mkSignature {
  sig_pid : Z;
  sig_command : list str;
  sig_started_at : Z;
  sig_start_ticks : option Z;
  sig_boot_id : option str;
  sig_uid : option Z;
  sig_pgid : option Z;
}.

Definition is_some {A} (o : option A) : bool := match o with Some _ => true | None => false end.

(** [process.rs:79-84 is_fully_hardened] *)
Definition is_fully_hardened (s : ProcessSignature) : bool :=
  is_some (sig_start_ticks s) && is_some (sig_boot_id s) && is_some (sig_uid s) && is_some (sig_pgid s).

(** How many reads one check makes at most. *)
Definition match_reads : nat := 9.

(** [process.rs:93-134 process_matches] *)
Definition process_matches `{Chrono} (v : view) (s : ProcessSignature) (purpose : MatchPurpose) : bool :=
  if negb (process_alive v (sig_pid s)) || bool_decide (sig_command s = []) then false
  else if bool_decide (purpose = Signal) && negb (is_fully_hardened s) then false
  else if match sig_boot_id s with
          | Some b => bool_decide (read_boot_id (v 2%nat) <> Some b)
          | None => false
          end then false
  else if match sig_uid s with
          | Some u => match process_status_uids (v 3%nat) (sig_pid s) with
                      | Some (real_uid, effective_uid) => negb ((real_uid =? u) || (effective_uid =? u))
                      | None => true
                      end
          | None => false
          end then false
  else if match sig_pgid s with
          | Some g => bool_decide (process_pgid (v 4%nat) (sig_pid s) <> Some g)
          | None => false
          end then false
  else match sig_start_ticks s with
       | Some t => bool_decide (process_start_ticks (v 5%nat) (sig_pid s) = Some t)
       | None =>
           match process_started_at (later v 6) (sig_pid s) with
           | Some actual => Z.abs (timestamp_millis actual - timestamp_millis (sig_started_at s)) <=? 5000
           | None => false
           end
       end.

(** [process.rs:141-146 CapturedIdentity] *)
Record CapturedIdentity := mkCaptured {
  cap_start_ticks : option Z;
  cap_boot_id : option str;
  cap_uid : option Z;
  cap_pgid : option Z;
}.

(** [process.rs:149-156 capture_identity] *)
Definition capture_identity (v : view) (pid : Z) : CapturedIdentity :=
  mkCaptured (process_start_ticks (v 0%nat) pid) (read_boot_id (v 1%nat))
    (fst <$> process_status_uids (v 2%nat) pid) (process_pgid (v 3%nat) pid).

(** [launch.rs:173-179 identity_is_settled] *)
Definition identity_is_settled (i : CapturedIdentity) (expected_uid : Z) (alive : bool) : bool :=
  alive && bool_decide (cap_uid i = Some expected_uid)
  && is_some (cap_start_ticks i) && is_some (cap_boot_id i) && is_some (cap_pgid i).

(** ** Accounts *)

(** [identity.rs:51-67 user_id_field] *)
Definition user_id_field (os : Os) (user flag : str) : option Z :=
  stdout ← id_output os flag user;
  parse_unsigned u32_max (trim stdout).
(** [identity.rs:11-13 uid_for_user] *)
Definition uid_for_user (os : Os) (user : str) : option Z := user_id_field os user (lit "-u").
(** [identity.rs:15-17 gid_for_user] *)
Definition gid_for_user (os : Os) (user : str) : option Z := user_id_field os user (lit "-g").

(** [vec.sort_unstable()] and [vec.dedup()] *)
Fixpoint insert_sorted (z : Z) (l : list Z) : list Z :=
  match l with
  | [] => [z]
  | y :: l' => if z <=? y then z :: l else y :: insert_sorted z l'
  end.
Definition sort_z (l : list Z) : list Z := fold_right insert_sorted [] l.
Fixpoint dedup (l : list Z) : list Z :=
  match l with
  | x :: ((y :: _) as l') => if x =? y then dedup l' else x :: dedup l'
  | _ => l
  end.

Definition mapM_opt {A B} (f : A -> option B) (l : list A) : option (list B) := mapM f l.

(** [identity.rs:19-49 supplementary_groups_for_user] *)
Definition supplementary_groups_for_user (os : Os) (user : str) (primary_gid : Z) : option (list Z) :=
  stdout ← id_output os (lit "-G") user;
  groups ← mapM_opt (parse_unsigned u32_max) (split_whitespace stdout);
  let groups := if bool_decide (primary_gid ∈ groups) then groups else groups ++ [primary_gid] in
  Some (dedup (sort_z groups)).

(** [identity.rs:69-85 home_dir_for_user] *)
Definition home_dir_for_user (os : Os) (user : str) : option str :=
  stdout ← getent_output os user;
  home ← split_on 58 (trim_end stdout) !! 5%nat;
  if bool_decide (home = []) then None else Some home.

(** ** Parsing lemmas *)
Definition no_char (c : Z) (s : str) : Prop := Forall (fun x => x <> c) s.

Lemma rsplit_pat_none p s c : p !! 0%nat = Some c -> no_char c s -> rsplit_pat p s = None.
Proof.
  intros Hp H. induction H as [|x s Hx Hs IH]; cbn [rsplit_pat]; [done|]. rewrite IH.
  destruct p as [|c' p]; [done|]. injection Hp as ->. unfold strip_prefix. cbn [starts_with].
  by rewrite (proj2 (Z.eqb_neq c x)) by congruence.
Qed.

Lemma rsplit_pat_last p c a b : p !! 0%nat = Some c -> no_char c b ->
  no_char c (drop 1 p) -> rsplit_pat p (a ++ p ++ b) = Some (a, b).
Proof.
  intros Hp Hb Hp'. destruct p as [|c' p]; [done|]. injection Hp as ->. cbn [drop] in Hp'.
  assert (rsplit_pat (c :: p) ((c :: p) ++ b) = Some ([], b)) as H0.
  { cbn [app rsplit_pat]. rewrite (rsplit_pat_none (c :: p) (p ++ b) c); [|done|by apply Forall_app].
    change (c :: p ++ b) with ((c :: p) ++ b). by rewrite strip_prefix_app. }
  induction a as [|x a IH]; [exact H0|]. cbn [app rsplit_pat]. cbn [app] in IH. by rewrite IH.
Qed.

(** A token: not empty, no white space and no closing parenthesis. *)
Definition token (t : str) : Prop := t <> [] /\ Forall (fun c => is_whitespace c = false /\ c <> 41) t.

(** Tokens separated by single spaces and ended by a newline. *)
Definition fields_line (fs : list str) : str := concat (map (fun f => f ++ [32]) fs) ++ [10].

Lemma words_acc_token f acc s : Forall (fun c => is_whitespace c = false) f -> rev acc ++ f <> [] ->
  words_acc (f ++ 32 :: s) acc = (rev acc ++ f) :: words_acc s [].
Proof.
  intros H. revert acc. induction H as [|c f Hc Hf IH]; intros acc Hne; cbn [app words_acc].
  - change (is_whitespace 32) with true. cbn iota. rewrite app_nil_r in *. by destruct acc.
  - rewrite Hc. rewrite IH; cbn [rev]; rewrite <- app_assoc; cbn [app]; done.
Qed.

Lemma split_fields_line fs : Forall token fs -> split_whitespace (fields_line fs) = fs.
Proof.
  unfold split_whitespace, fields_line. induction 1 as [|f fs [Hne Hf] Hfs IH]; [done|].
  cbn [map concat]. rewrite <- !app_assoc. cbn [app]. rewrite words_acc_token.
  - cbn [rev app]. f_equal. exact IH.
  - eapply Forall_impl; [exact Hf|]. by intros ? [? ?].
  - done.
Qed.

Lemma fields_line_no_paren fs : Forall token fs -> no_char 41 (fields_line fs).
Proof.
  unfold fields_line, no_char. intros H. apply Forall_app; split; [|by repeat constructor].
  induction H as [|f fs [_ Hf] Hfs IH]; [done|]. cbn [map concat]. apply Forall_app; split; [|done].
  apply Forall_app; split; [|by repeat constructor]. eapply Forall_impl; [exact Hf|]. by intros ? [? ?].
Qed.

(** The line the kernel prints: number, command name in parentheses, fields. *)
Definition stat_line (pid : Z) (comm : str) (fields : list str) : str :=
  fmt_dec pid ++ lit " (" ++ comm ++ lit ") " ++ fields_line fields.

Lemma stat_line_split pid comm fields : Forall token fields ->
  rsplit_pat (lit ") ") (stat_line pid comm fields) = Some (fmt_dec pid ++ lit " (" ++ comm, fields_line fields).
Proof.
  intros H. unfold stat_line.
  replace (fmt_dec pid ++ lit " (" ++ comm ++ lit ") " ++ fields_line fields)
    with ((fmt_dec pid ++ lit " (" ++ comm) ++ lit ") " ++ fields_line fields) by (by rewrite <- !app_assoc).
  apply (rsplit_pat_last _ 41); [done|by apply fields_line_no_paren|by repeat constructor].
Qed.

(** The command name of a process cannot disturb the parsing of its stat
    line: whatever name a user gives a process (spaces, parentheses, text that
    imitates the following fields), the group, the start time and the zombie state
    that sesman reads are the kernel's third, twentieth and first field after it. *)
Theorem stat_fields_survive_comm v pid comm fields :
  0 < pid -> Forall token fields -> fields <> [] ->
  (forall i, proc_stat (v i) pid = Some (stat_line pid comm fields)) ->
  process_pgid (v 0%nat) pid = (fields !! 2%nat) ≫= parse_i32 /\
  process_start_ticks (v 0%nat) pid = (fields !! 19%nat) ≫= parse_unsigned u64_max /\
  process_alive v pid = kill0 (v 0%nat) pid && negb (bool_decide (head fields ≫= head = Some 90)).
Proof.
  intros Hp Hf Hne Hs.
  assert (forall i, stat_field (v 0%nat) pid i = fields !! i) as Hfi.
  { intros i. unfold stat_field. rewrite Hs. cbn [mbind option_bind]. rewrite stat_line_split by done.
    cbn [fmap option_fmap option_map mbind option_bind snd]. by rewrite split_fields_line. }
  unfold process_pgid, process_start_ticks. rewrite !Hfi. split; [done|]. split; [done|].
  unfold process_alive. rewrite (proj2 (Z.leb_gt pid 0)) by lia. cbn [orb].
  destruct (kill0 (v 0%nat) pid); [|done]. cbn [negb andb]. rewrite Hs, stat_line_split by done.
  destruct fields as [|f fields]; [done|]. apply Forall_cons in Hf as [[Hf _] _].
  destruct f as [|c f]; [done|]. unfold fields_line.
  change (lit "Z") with [90]. cbn [map concat app starts_with head mbind option_bind].
  rewrite andb_true_r. destruct (Z.eqb_spec 90 c) as [<-|Hc]; cbn [negb].
  - by rewrite bool_decide_true.
  - rewrite bool_decide_false; [done|]. congruence.
Qed.

Definition sample_fields : list str :=
  lit "S" :: lit "1" :: lit "4242" :: replicate 16 (lit "0") ++ [lit "987654"].
Definition sample_stat : str := stat_line 4242 (lit "x) S 1 1 (y") sample_fields.
Definition sample_os : Os :=
  mkOs (fun _ => true) (fun p => if p =? 4242 then Some sample_stat else None)
    (fun p => if p =? 4242 then Some (lit "Name:" ++ [9] ++ lit "x" ++ [10] ++ lit "Uid:" ++ [9] ++ lit "1000 1000 1000 1000" ++ [10]) else None)
    None (Some (lit "b00t" ++ [10])) (Some 100) (fun _ _ => None) (fun _ => None) (fun _ => NotFound) (fun _ => false) 0 0 0.

Lemma stat_fields_survive_comm_witness :
  process_pgid sample_os 4242 = Some 4242 /\ process_start_ticks sample_os 4242 = Some 987654.
Proof.
  destruct (stat_fields_survive_comm (fun _ => sample_os) 4242 (lit "x) S 1 1 (y") sample_fields) as (H1 & H2 & _).
  - lia.
  - by repeat constructor.
  - done.
  - done.
  - by rewrite H1, H2.
Defined.

(** ** Authentication *)
Section matching.
Context `{Chrono}.

(** A destructive signal is authorised exactly for a live, non-zombie
    process of a recorded command whose four hardened fields were all recorded
    and all equal what the kernel reports: boot, real or effective user, process
    group and start time.  Authority to signal implies a status match, and a
    record that lacks any field is never signalled, whatever the host answers. *)
Theorem signal_match_exact v s :
  (process_matches v s Signal = true <->
     process_alive v (sig_pid s) = true /\ sig_command s <> [] /\
     exists t b u g real eff,
       sig_start_ticks s = Some t /\ sig_boot_id s = Some b /\ sig_uid s = Some u /\ sig_pgid s = Some g /\
       read_boot_id (v 2%nat) = Some b /\
       process_status_uids (v 3%nat) (sig_pid s) = Some (real, eff) /\ (real = u \/ eff = u) /\
       process_pgid (v 4%nat) (sig_pid s) = Some g /\
       process_start_ticks (v 5%nat) (sig_pid s) = Some t) /\
  (process_matches v s Signal = true -> process_matches v s Status = true).
Proof.
  unfold process_matches. split.
  - split.
    + destruct (process_alive v (sig_pid s)); [|done]. cbn [negb orb].
      case_bool_decide; [done|]. rewrite (bool_decide_true (Signal = Signal)) by done.
      unfold is_fully_hardened.
      destruct (sig_start_ticks s) as [t|], (sig_boot_id s) as [b|], (sig_uid s) as [u|], (sig_pgid s) as [g|]; try done.
      cbn [is_some andb negb]. case_bool_decide as Hb; [done|].
      destruct (process_status_uids (v 3%nat) (sig_pid s)) as [[real eff]|] eqn:Eu; [|done].
      destruct ((real =? u) || (eff =? u)) eqn:E; [|done]. cbn [negb].
      case_bool_decide as Hg; [done|]. rewrite bool_decide_eq_true. intros Ht.
      apply orb_true_iff in E. rewrite !Z.eqb_eq in E.
      split; [done|]. split; [done|]. exists t, b, u, g, real, eff. done.
    + intros (-> & Hc & t & b & u & g & real & eff & Ht & Hb & Hu & Hg & Hb' & Hu' & Hm & Hg' & Ht').
      unfold is_fully_hardened. rewrite Ht, Hb, Hu, Hg, Hu'. cbn [negb orb is_some andb].
      rewrite bool_decide_false by done. rewrite bool_decide_true by done. cbn [andb].
      rewrite bool_decide_false by auto.
      assert ((real =? u) || (eff =? u) = true) as -> by (rewrite orb_true_iff, !Z.eqb_eq; done). cbn [negb].
      rewrite bool_decide_false by auto. by rewrite bool_decide_true.
  - destruct (negb _ || _); [done|]. rewrite (bool_decide_true (Signal = Signal)), (bool_decide_false (Status = Signal)) by done.
    cbn [andb]. by destruct (negb (is_fully_hardened s)).
Qed.

(** The signature of a freshly captured identity. *)
Definition signature_of (pid : Z) (command : list str) (started : Z) (i : CapturedIdentity) : ProcessSignature :=
  mkSignature pid command started (cap_start_ticks i) (cap_boot_id i) (cap_uid i) (cap_pgid i).

(** What is captured at spawn authenticates the process later: if the
    captured identity was settled, then it still authorises signals at any later
    time at which the host answers the same about that process; and as soon as
    one of the answers differs (another boot, another owner, another group or
    another start time, hence any reuse of the number), it never does. *)
Theorem captured_identity_authenticates v w pid command started expected_uid :
  command <> [] ->
  identity_is_settled (capture_identity v pid) expected_uid (process_alive v pid) = true ->
  let s := signature_of pid command started (capture_identity v pid) in
  process_matches w s Signal = true <->
    process_alive w pid = true /\ read_boot_id (w 2%nat) = read_boot_id (v 1%nat) /\
    (exists real eff, process_status_uids (w 3%nat) pid = Some (real, eff) /\ (real = expected_uid \/ eff = expected_uid)) /\
    process_pgid (w 4%nat) pid = process_pgid (v 3%nat) pid /\
    process_start_ticks (w 5%nat) pid = process_start_ticks (v 0%nat) pid.
Proof.
  intros Hc. unfold identity_is_settled. rewrite !andb_true_iff, bool_decide_eq_true.
  intros ((((Ha & Hu) & Ht) & Hb) & Hg). cbv zeta. rewrite (proj1 (signal_match_exact w _)).
  unfold signature_of in *. cbn [sig_pid sig_command sig_start_ticks sig_boot_id sig_uid sig_pgid].
  unfold capture_identity in *. cbn [cap_start_ticks cap_boot_id cap_uid cap_pgid] in *. rewrite Hu.
  destruct (process_start_ticks (v 0%nat) pid) as [t|], (read_boot_id (v 1%nat)) as [b|],
    (process_pgid (v 3%nat) pid) as [g|]; try done.
  split.
  - intros (? & _ & t' & b' & u' & g' & real & eff & E1 & E2 & E3 & E4 & ? & ? & ? & ? & ?). simplify_eq. eauto 10.
  - intros (? & ? & (real & eff & ? & ?) & ? & ?). split; [done|]. split; [done|]. exists t, b, expected_uid, g, real, eff. done.
Qed.
End matching.

(** A concrete calendar, for the years it is known to be exact on. *)
Program Definition chrono_9999 : Chrono := {|
  from_timestamp s n := if (0 <=? s) && (s <? 253402300800) && (0 <=? n) && (n <? 1000000000) then Some (secs s + n) else None;
  date_add t d := if (0 <=? t + d) && (t + d <? year_10000) then Some (t + d) else None;
|}.
Next Obligation. intros s n Hs Hn. cbv beta. rewrite !(proj2 (Z.leb_le _ _)), !(proj2 (Z.ltb_lt _ _)) by lia. done. Qed.
Next Obligation. intros t d H _. cbv beta. rewrite (proj2 (Z.leb_le _ _)), (proj2 (Z.ltb_lt _ _)) by lia. done. Qed.

Lemma captured_identity_authenticates_witness :
  @process_matches chrono_9999 (fun _ => sample_os)
    (signature_of 4242 [lit "/usr/bin/labwc"] 0 (capture_identity (fun _ => sample_os) 4242)) Signal = true.
Proof.
  apply (@captured_identity_authenticates chrono_9999 (fun _ => sample_os) (fun _ => sample_os) 4242 [lit "/usr/bin/labwc"] 0 1000).
  - done.
  - by vm_compute.
  - split; [by vm_compute|]. split; [done|]. split; [|done]. exists 1000, 1000. split; [by vm_compute|by left].
Defined.

(** ** Group lists *)
Lemma insert_sorted_in z x l : x ∈ insert_sorted z l <-> x = z \/ x ∈ l.
Proof. induction l as [|y l IH]; cbn; [set_solver|]. destruct (z <=? y); set_solver. Qed.

Lemma insert_sorted_sorted z l : Sorted Z.le l -> Sorted Z.le (insert_sorted z l).
Proof.
  induction 1 as [|y l Hs IH Hd]; cbn; [by repeat constructor|].
  destruct (Z.leb_spec z y); [by repeat constructor|].
  constructor; [done|]. destruct l as [|w l]; cbn; [constructor; lia|].
  inversion Hd; subst. destruct (z <=? w); constructor; lia.
Qed.

Lemma sort_z_spec l : Sorted Z.le (sort_z l) /\ forall x, x ∈ sort_z l <-> x ∈ l.
Proof.
  induction l as [|y l [IH1 IH2]]; cbn; [by split; [constructor|]|]. split; [by apply insert_sorted_sorted|].
  intros x. rewrite insert_sorted_in, IH2. set_solver.
Qed.

Lemma dedup_in x l : x ∈ dedup l <-> x ∈ l.
Proof.
  induction l as [|y [|z l] IH]; [done..|]. cbn [dedup] in *.
  destruct (Z.eqb_spec y z) as [->|]; set_solver.
Qed.

Lemma dedup_strict l : Sorted Z.le l -> Sorted Z.lt (dedup l).
Proof.
  induction l as [|y [|z l] IH]; intros Hs; [constructor|by repeat constructor|].
  apply Sorted_inv in Hs as [Hs Hd]. specialize (IH Hs). cbn [dedup] in *.
  destruct (Z.eqb_spec y z) as [->|Hne]; [done|]. constructor; [done|]. inversion Hd; subst.
  assert (StronglySorted Z.le (z :: l)) as Hss by (apply Sorted_StronglySorted; [intros ???; lia|done]).
  assert (forall w, head (dedup (z :: l)) = Some w -> z <= w) as Hh.
  { intros w Hw. assert (w ∈ z :: l) as Hin.
    { apply dedup_in. destruct (dedup (z :: l)); [done|]. injection Hw as ->. set_solver. }
    apply StronglySorted_inv in Hss as [_ Hf]. apply elem_of_cons in Hin as [->|Hin]; [lia|].
    rewrite Forall_forall in Hf. by apply Hf. }
  cbn [dedup] in Hh. destruct (match l with [] => _ | _ => _ end) as [|w ?]; constructor.
  specialize (Hh w eq_refl). lia.
Qed.

(** A component is started with exactly the groups the account has: the list
    is strictly increasing (so without repetition), contains the primary group,
    and otherwise exactly the numbers [id -G] printed. *)
Theorem supplementary_groups_exact os user primary gs :
  supplementary_groups_for_user os user primary = Some gs ->
  exists printed, (id_output os (lit "-G") user ≫= fun out => mapM_opt (parse_unsigned u32_max) (split_whitespace out)) = Some printed /\
    Sorted Z.lt gs /\ forall g, g ∈ gs <-> g = primary \/ g ∈ printed.
Proof.
  unfold supplementary_groups_for_user. destruct (id_output os (lit "-G") user) as [out|]; [|done].
  cbn [mbind option_bind]. destruct (mapM_opt _ _) as [printed|]; [|done]. cbn [mbind option_bind].
  intros H. assert (gs = dedup (sort_z (if bool_decide (primary ∈ printed) then printed else printed ++ [primary]))) as ->
    by congruence.
  exists printed. split; [done|]. split; [apply dedup_strict, sort_z_spec|].
  intros g. rewrite dedup_in, (proj2 (sort_z_spec _)). case_bool_decide; set_solver.
Qed.

Lemma supplementary_groups_exact_witness :
  let os := mkOs (fun _ => false) (fun _ => None) (fun _ => None) None None None
              (fun f u => Some (lit "1000 27 4 27" ++ [10])) (fun _ => None) (fun _ => NotFound) (fun _ => false) 0 0 0 in
  exists printed : list Z, supplementary_groups_for_user os (lit "alice") 1000 = Some [4; 27; 1000] /\
    Sorted Z.lt [4; 27; 1000] /\ forall g, g ∈ [4; 27; 1000] <-> g = 1000 \/ g ∈ printed.
Proof.
  cbv zeta.
  destruct (supplementary_groups_exact
    (mkOs (fun _ => false) (fun _ => None) (fun _ => None) None None None
              (fun f u => Some (lit "1000 27 4 27" ++ [10])) (fun _ => None) (fun _ => NotFound) (fun _ => false) 0 0 0)
    (lit "alice") 1000 [4; 27; 1000] eq_refl) as (printed & _ & H1 & H2).
  by exists printed.
Defined.
