(* ===== verification/SesConfig.v ===== *)
(** * Session manager configuration

    Models the configuration half of src/src/sesman/state.rs and the defaults of
    src/src/sesman/mod.rs: the schema, its validation and its INI reader and
    writer.  Paths are their text; the process environment is a record. *)
From S2P Require Import Prelude Text Auth SesProcess.

(** ** Paths *)
Definition is_absolute (p : str) : bool := starts_with (lit "/") p.
(** [a.join(b)] *)
Definition path_join (a b : str) : str :=
  if is_absolute b then b
  else match a with
       | [] => b
       | _ => if ends_with 47 a then a ++ b else a ++ lit "/" ++ b
       end.

(** ** What the process environment provides *)
Record Environ := mkEnviron {
  xdg_runtime_dir_var : option str;
  wlr_renderer_var : option str;
  render_device_var : option str;
  own_uid : Z;
  own_name : option str;
}.

(** ** Schema *)

(** [sesman/state.rs:28-31 SessionSize] *)
Record SessionSize := mkSize { size_width : Z; size_height : Z }.

(** [sesman/state.rs:74-82 ReadinessCheck] *)
Inductive ReadinessCheck := ProcessAlive | UnixSocket (path : str) | NoCheck.

(** [sesman/state.rs:52-69 ComponentConfig] *)
Record ComponentConfig := mkComponent {
  comp_name : str;
  command : str;
  args : list str;
  env : list (str * str);
  working_dir : option str;
  log_path : option str;
  readiness : ReadinessCheck;
  required : bool;
  startup_delay_ms : Z;
}.

(** [sesman/state.rs:86-115 SesmanConfig] *)
Record SesmanConfig := mkConfig {
  session_name : str;
  user : str;
  xdg_runtime_dir : str;
  state_dir : str;
  log_dir : str;
  default_size : SessionSize;
  start_timeout_ms : Z;
  stop_timeout_ms : Z;
  idle_timeout_ms : Z;
  environment : list (str * str);
  cleanup_paths : list str;
  cleanup_globs : list str;
  components : list ComponentConfig;
}.

(** ** Defaults *)

(** [sesman/mod.rs:43-43 STATE_VERSION] *)
Definition STATE_VERSION : Z := 2.
(** [sesman/mod.rs:44-44 DEFAULT_SESSION_NAME] *)
Definition DEFAULT_SESSION_NAME : str := lit "default".
(** [sesman/mod.rs:45-46 DEFAULT_WIDTH] *)
Definition default_session_size : SessionSize := mkSize 1920 1080.
(** [sesman/mod.rs:47-47 DEFAULT_START_TIMEOUT_MS] *)
Definition DEFAULT_START_TIMEOUT_MS : Z := 15000.
(** [sesman/mod.rs:48-48 DEFAULT_STOP_TIMEOUT_MS] *)
Definition DEFAULT_STOP_TIMEOUT_MS : Z := 10000.
(** [sesman/mod.rs:49-49 DEFAULT_IDLE_TIMEOUT_MS] *)
Definition DEFAULT_IDLE_TIMEOUT_MS : Z := 30 * 60 * 1000.

(** [runtime.rs:4-4 MANAGED_COMPOSITOR_COMPONENT] *)
Definition MANAGED_COMPOSITOR_COMPONENT : str := lit "wrdp-compositor".
(** [runtime.rs:6-6 MANAGED_COMPOSITOR_COMMAND] *)
Definition MANAGED_COMPOSITOR_COMMAND : str := lit "/usr/lib/wrdp/wrdp-compositor".
(** [runtime.rs:8-8 MANAGED_WRDP_COMPOSITOR_CONFIG_DIR] *)
Definition MANAGED_WRDP_COMPOSITOR_CONFIG_DIR : str := lit "/etc/wrdp/labwc".
(** [runtime.rs:12-12 MANAGED_WAYLAND_SOCKET] *)
Definition MANAGED_WAYLAND_SOCKET : str := lit "wayland-0".
(** [runtime.rs:14-14 MANAGED_WAYLAND_LOCK] *)
Definition MANAGED_WAYLAND_LOCK : str := lit "wayland-0.lock".

Definition or_default {A} (d : A) (o : option A) : A := match o with Some a => a | None => d end.

(** [sesman/mod.rs:1129-1135 default_user] *)
Definition default_user (e : Environ) : str := or_default [] (own_name e).
(** [sesman/mod.rs:1137-1142 default_xdg_runtime_dir] *)
Definition default_xdg_runtime_dir (e : Environ) : str :=
  or_default (lit "/run/user/" ++ fmt_dec (own_uid e) ++ lit "/wrdp") (xdg_runtime_dir_var e).
(** [sesman/mod.rs:1144-1146 default_state_dir] *)
Definition default_state_dir (e : Environ) : str := path_join (default_xdg_runtime_dir e) (lit "sesman").
(** [sesman/mod.rs:1148-1150 default_log_dir] *)
Definition default_log_dir (e : Environ) : str := path_join (default_xdg_runtime_dir e) (lit "logs").
(** [sesman/mod.rs:1152-1185 default_environment] *)
Definition default_environment (e : Environ) : list (str * str) :=
  bt_collect
    [(lit "XDG_CURRENT_DESKTOP", lit "wrdp-compositor");
     (lit "XDG_SESSION_DESKTOP", lit "wrdp-compositor");
     (lit "WLR_BACKENDS", lit "headless");
     (lit "WLR_LIBINPUT_NO_DEVICES", lit "1");
     (lit "WLR_RENDERER", or_default (lit "gles2") (wlr_renderer_var e));
     (lit "WLR_RENDER_DRM_DEVICE", or_default (lit "/dev/dri/renderD128") (render_device_var e));
     (lit "WLR_NO_HARDWARE_CURSORS", lit "1");
     (lit "LIBVA_DRIVER_NAME", lit "iHD");
     (lit "RUST_BACKTRACE", lit "1");
     (lit "PATH", lit "/usr/local/bin:/usr/bin:/bin")].
(** [sesman/mod.rs:1187-1193 default_cleanup_paths] *)
Definition default_cleanup_paths (e : Environ) : list str :=
  let runtime := default_xdg_runtime_dir e in
  [path_join runtime MANAGED_WAYLAND_SOCKET; path_join runtime MANAGED_WAYLAND_LOCK].
(** [sesman/mod.rs:1195-1197 default_cleanup_globs] *)
Definition default_cleanup_globs : list str := [].
(** [sesman/mod.rs:1199-1217 default_components] *)
Definition default_components (e : Environ) : list ComponentConfig :=
  let runtime := default_xdg_runtime_dir e in
  [mkComponent MANAGED_COMPOSITOR_COMPONENT MANAGED_COMPOSITOR_COMMAND
     [lit "--config-dir"; MANAGED_WRDP_COMPOSITOR_CONFIG_DIR] [] None None
     (UnixSocket (path_join runtime MANAGED_WAYLAND_SOCKET)) true 250].

(** [sesman/state.rs:118-134 default] *)
Definition config_default (e : Environ) : SesmanConfig :=
  mkConfig DEFAULT_SESSION_NAME (default_user e) (default_xdg_runtime_dir e) (default_state_dir e) (default_log_dir e)
    default_session_size DEFAULT_START_TIMEOUT_MS DEFAULT_STOP_TIMEOUT_MS DEFAULT_IDLE_TIMEOUT_MS
    (default_environment e) (default_cleanup_paths e) default_cleanup_globs (default_components e).

(** [sesman/state.rs:203-216 apply_runtime_defaults] *)
Definition apply_runtime_defaults (e : Environ) (c : SesmanConfig) : SesmanConfig :=
  mkConfig (session_name c) (user c) (xdg_runtime_dir c) (state_dir c) (log_dir c) (default_size c)
    (start_timeout_ms c) (stop_timeout_ms c) (idle_timeout_ms c)
    (match environment c with [] => default_environment e | l => l end)
    (match cleanup_paths c with [] => default_cleanup_paths e | l => l end)
    (match cleanup_globs c with [] => default_cleanup_globs | l => l end)
    (match components c with [] => default_components e | l => l end).

(** ** Errors *)
Inductive ConfigError :=
| EmptySessionName | UnresolvedUser | InvalidUser (e : UsernameError) | RelativePath | NoComponents
| EmptyComponentName | DuplicateComponent (n : str) | EmptyCommand (n : str)
| ExpectedKeyValue (line : Z) | UnknownGlobal (key : str) (line : Z) | UnknownSizeKey (key : str) (line : Z)
| UnknownCleanupKey (key : str) (line : Z) | UnknownSection (name : str) (line : Z)
| UnknownComponentKey (key : str) (line : Z) | InvalidReadiness (value : str) (line : Z)
| InvalidValue (key : str) (line : Z)
| UserLookup (user : str) | ReadFailed.

(** ** Validation *)
Fixpoint validate_components (seen : list str) (cs : list ComponentConfig) : outcome ConfigError unit :=
  match cs with
  | [] => Ok tt
  | c :: cs =>
      if bool_decide (trim (comp_name c) = []) then Err EmptyComponentName
      else if bool_decide (comp_name c ∈ seen) then Err (DuplicateComponent (comp_name c))
      else if bool_decide (trim (command c) = []) then Err (EmptyCommand (comp_name c))
      else validate_components (comp_name c :: seen) cs
  end.

(** [sesman/state.rs:218-248 validate] *)
Definition validate (c : SesmanConfig) : outcome ConfigError unit :=
  if bool_decide (trim (session_name c) = []) then Err EmptySessionName
  else if bool_decide (trim (user c) = []) then Err UnresolvedUser
  else match validate_username (user c) with
       | Err e => Err (InvalidUser e)
       | Panic => Panic
       | Ok _ =>
           if negb (is_absolute (xdg_runtime_dir c)) || negb (is_absolute (state_dir c)) || negb (is_absolute (log_dir c))
           then Err RelativePath
           else if bool_decide (components c = []) then Err NoComponents
           else validate_components [] (components c)
       end.

(** [sesman/state.rs:250-253 state_path] *)
Definition state_path (c : SesmanConfig) : str := path_join (state_dir c) (session_name c ++ lit ".state.json").
(** [sesman/state.rs:255-257 lock_path] *)
Definition lock_path (c : SesmanConfig) : str := path_join (state_dir c) (session_name c ++ lit ".lock").

(** [sesman/state.rs:151-177 for_user] *)
Definition for_user (e : Environ) (os : Os) (u : str) : outcome ConfigError SesmanConfig :=
  uid ← ok_or (UserLookup u) (uid_for_user os u);
  let runtime := lit "/run/user/" ++ fmt_dec uid ++ lit "/wrdp" in
  let d := config_default e in
  let logs := path_join runtime (lit "logs") in
  let fix_component comp :=
    mkComponent (comp_name comp) (command comp) (args comp) (env comp) (working_dir comp)
      (Some (path_join logs (comp_name comp ++ lit ".log")))
      (if bool_decide (comp_name comp = MANAGED_COMPOSITOR_COMPONENT)
       then UnixSocket (path_join runtime MANAGED_WAYLAND_SOCKET) else readiness comp)
      (required comp) (startup_delay_ms comp) in
  let config :=
    mkConfig (session_name d) u runtime (lit "/run/wrdp/sesman/" ++ fmt_dec uid) logs (default_size d)
      (start_timeout_ms d) (stop_timeout_ms d) (idle_timeout_ms d) (environment d)
      [path_join runtime MANAGED_WAYLAND_SOCKET; path_join runtime (lit "wayland-0.lock")] []
      (map fix_component (components d)) in
  _ ← validate config;
  Ok config.

(** ** Scalars and lists of the INI format *)

(** Scan a line: what precedes (in reverse), and the two quote states. *)
Fixpoint comment_scan (rest prev : str) (in_single in_double : bool) : str :=
  match rest with
  | [] => rev prev
  | c :: rest =>
      if (c =? 39) && negb in_double then comment_scan rest (c :: prev) (negb in_single) in_double
      else if (c =? 34) && negb in_single then comment_scan rest (c :: prev) in_single (negb in_double)
      else if ((c =? 35) || (c =? 59)) && negb in_single && negb in_double
           && match prev with [] => true | p :: _ => is_whitespace p end then rev prev
      else comment_scan rest (c :: prev) in_single in_double
  end.
(** [sesman/state.rs:612-628 strip_ini_comment] *)
Definition strip_ini_comment (line : str) : str := comment_scan line [] false false.

(** [value.strip_prefix(q).and_then(|v| v.strip_suffix(q))] *)
Definition unquote (q : Z) (v : str) : option str := strip_prefix [q] v ≫= strip_suffix [q].

(** [sesman/state.rs:630-638 unquote_ini_scalar] *)
Definition unquote_ini_scalar (value : str) : str :=
  let value := trim value in
  match unquote 34 value with
  | Some v => v
  | None => or_default value (unquote 39 value)
  end.

(** [sesman/state.rs:640-648 parse_ini_value] *)
Definition parse_ini_value {A} (parse : str -> option A) (value : str) (line : Z) (key : str) : outcome ConfigError A :=
  ok_or (InvalidValue key line) (parse value).
Definition parse_bool (s : str) : option bool :=
  if eqs s (lit "true") then Some true else if eqs s (lit "false") then Some false else None.

(** [sesman/state.rs:650-662 parse_ini_list] *)
Definition parse_ini_list (value : str) : list str :=
  let inner := or_default value (strip_prefix (lit "[") (trim value) ≫= strip_suffix (lit "]")) in
  map unquote_ini_scalar (List.filter (fun i => negb (bool_decide (i = []))) (map trim (split_on 44 inner))).

(** [sesman/state.rs:664-670 nonempty_path] *)
Definition nonempty_path (value : str) : option str :=
  if bool_decide (trim value = []) then None else Some value.

(** [value.replace('"', "\\\"")] *)
Definition escape_quotes (v : str) : str := v ≫= fun c => if c =? 34 then [92; 34] else [c].

(** [sesman/state.rs:683-694 format_ini_scalar] *)
Definition format_ini_scalar (v : str) : str :=
  if bool_decide (v = []) || contains 44 v || contains 35 v || contains 59 v || existsb is_whitespace v
  then [34] ++ escape_quotes v ++ [34]
  else v.

Fixpoint join (sep : str) (l : list str) : str :=
  match l with [] => [] | [x] => x | x :: l => x ++ sep ++ join sep l end.

(** [sesman/state.rs:672-681 format_ini_list] *)
Definition format_ini_list (vs : list str) : str := lit "[" ++ join (lit ", ") (map format_ini_scalar vs) ++ lit "]".

(** ** Reading *)

(** [sesman/state.rs:469-481 empty_component] *)
Definition empty_component (name : str) : ComponentConfig :=
  mkComponent name [] [] [] None None ProcessAlive true 0.

(** One field of the configuration replaced. *)
Definition set_globals (c : SesmanConfig) (n u x s l : str) (st sp idle : Z) : SesmanConfig :=
  mkConfig n u x s l (default_size c) st sp idle (environment c) (cleanup_paths c) (cleanup_globs c) (components c).

(** [sesman/state.rs:483-501 apply_sesman_global] *)
Definition apply_sesman_global (c : SesmanConfig) (key value : str) (line : Z) : outcome ConfigError SesmanConfig :=
  let num := @parse_ini_value Z (parse_unsigned u64_max) value line key in
  let mk := set_globals c in
  let n := session_name c in let u := user c in let x := xdg_runtime_dir c in let s := state_dir c in
  let l := log_dir c in let st := start_timeout_ms c in let sp := stop_timeout_ms c in let idle := idle_timeout_ms c in
  if eqs key (lit "session_name") then Ok (mk value u x s l st sp idle)
  else if eqs key (lit "user") then Ok (mk n value x s l st sp idle)
  else if eqs key (lit "xdg_runtime_dir") then Ok (mk n u value s l st sp idle)
  else if eqs key (lit "state_dir") then Ok (mk n u x value l st sp idle)
  else if eqs key (lit "log_dir") then Ok (mk n u x s value st sp idle)
  else if eqs key (lit "start_timeout_ms") then v ← num; Ok (mk n u x s l v sp idle)
  else if eqs key (lit "stop_timeout_ms") then v ← num; Ok (mk n u x s l st v idle)
  else if eqs key (lit "idle_timeout_ms") then v ← num; Ok (mk n u x s l st sp v)
  else Err (UnknownGlobal key line).

(** [sesman/state.rs:503-536 apply_component_key] *)
Definition apply_component_key (c : ComponentConfig) (key value : str) (line : Z) : outcome ConfigError ComponentConfig :=
  let '(mkComponent n cmd a e w l r q d) := c in
  if eqs key (lit "command") then Ok (mkComponent n value a e w l r q d)
  else if eqs key (lit "args") then Ok (mkComponent n cmd (parse_ini_list value) e w l r q d)
  else if eqs key (lit "working_dir") then Ok (mkComponent n cmd a e (nonempty_path value) l r q d)
  else if eqs key (lit "log_path") then Ok (mkComponent n cmd a e w (nonempty_path value) r q d)
  else if eqs key (lit "readiness") then
    if eqs value (lit "process_alive") then Ok (mkComponent n cmd a e w l ProcessAlive q d)
    else if eqs value (lit "none") then Ok (mkComponent n cmd a e w l NoCheck q d)
    else if eqs value (lit "unix_socket") then Ok (mkComponent n cmd a e w l (UnixSocket []) q d)
    else Err (InvalidReadiness value line)
  else if eqs key (lit "readiness_path") then Ok (mkComponent n cmd a e w l (UnixSocket value) q d)
  else if eqs key (lit "required") then v ← parse_ini_value parse_bool value line key; Ok (mkComponent n cmd a e w l r v d)
  else if eqs key (lit "startup_delay_ms") then
    v ← parse_ini_value (parse_unsigned u64_max) value line key; Ok (mkComponent n cmd a e w l r q v)
  else Err (UnknownComponentKey key line).

Definition set_default_size (z : SessionSize) (c : SesmanConfig) : SesmanConfig :=
  mkConfig (session_name c) (user c) (xdg_runtime_dir c) (state_dir c) (log_dir c) z
    (start_timeout_ms c) (stop_timeout_ms c) (idle_timeout_ms c) (environment c) (cleanup_paths c) (cleanup_globs c) (components c).
Definition set_environment (e : list (str * str)) (c : SesmanConfig) : SesmanConfig :=
  mkConfig (session_name c) (user c) (xdg_runtime_dir c) (state_dir c) (log_dir c) (default_size c)
    (start_timeout_ms c) (stop_timeout_ms c) (idle_timeout_ms c) e (cleanup_paths c) (cleanup_globs c) (components c).
Definition set_cleanup (ps gs : list str) (c : SesmanConfig) : SesmanConfig :=
  mkConfig (session_name c) (user c) (xdg_runtime_dir c) (state_dir c) (log_dir c) (default_size c)
    (start_timeout_ms c) (stop_timeout_ms c) (idle_timeout_ms c) (environment c) ps gs (components c).
Definition set_components (cs : list ComponentConfig) (c : SesmanConfig) : SesmanConfig :=
  mkConfig (session_name c) (user c) (xdg_runtime_dir c) (state_dir c) (log_dir c) (default_size c)
    (start_timeout_ms c) (stop_timeout_ms c) (idle_timeout_ms c) (environment c) (cleanup_paths c) (cleanup_globs c) cs.
Definition set_env (e : list (str * str)) (c : ComponentConfig) : ComponentConfig :=
  mkComponent (comp_name c) (command c) (args c) e (working_dir c) (log_path c) (readiness c) (required c) (startup_delay_ms c).

(** What the reader carries from line to line. *)
Record ini_state := mkIni {
  ini_config : SesmanConfig;
  ini_section : str;
  ini_components : list (str * ComponentConfig);
}.

(** [s.trim_start_matches(p)] for a non-empty [p] *)
Fixpoint trim_matches (fuel : nat) (p s : str) : str :=
  match fuel with
  | O => s
  | S fuel => match strip_prefix p s with Some s' => trim_matches fuel p s' | None => s end
  end.
Definition trim_start_matches (p s : str) : str := trim_matches (length s) p s.

(** [components.entry(name.clone()).or_insert_with(|| empty_component(name))] *)
Definition entry (name : str) (m : list (str * ComponentConfig)) : ComponentConfig :=
  or_default (empty_component name) (bt_get name m).

(** One key of one section.  [sesman/state.rs:422-459 parse_sesman_ini] *)
Definition apply_key {U : Unicode} (st : ini_state) (key value : str) (line : Z) : outcome ConfigError ini_state :=
  let '(mkIni c section m) := st in
  let size := default_size c in
  let num := @parse_ini_value Z (parse_unsigned u32_max) value line key in
  if eqs section (lit "globals") then c ← apply_sesman_global c key value line; Ok (mkIni c section m)
  else if eqs section (lit "default_size") then
    if eqs key (lit "width") then v ← num; Ok (mkIni (set_default_size (mkSize v (size_height size)) c) section m)
    else if eqs key (lit "height") then v ← num; Ok (mkIni (set_default_size (mkSize (size_width size) v) c) section m)
    else Err (UnknownSizeKey key line)
  else if eqs section (lit "environment") then
    Ok (mkIni (set_environment (bt_insert (str_to_uppercase key) value (environment c)) c) section m)
  else if eqs section (lit "cleanup") then
    if eqs key (lit "paths") then Ok (mkIni (set_cleanup (parse_ini_list value) (cleanup_globs c) c) section m)
    else if eqs key (lit "globs") then Ok (mkIni (set_cleanup (cleanup_paths c) (parse_ini_list value) c) section m)
    else Err (UnknownCleanupKey key line)
  else if starts_with (lit "component:") section then
    let name := trim_start_matches (lit "component:") section in
    comp ← apply_component_key (entry name m) key value line;
    Ok (mkIni c section (bt_insert name comp m))
  else if starts_with (lit "component_env:") section then
    let name := trim_start_matches (lit "component_env:") section in
    let comp := entry name m in
    Ok (mkIni c section (bt_insert name (set_env (bt_insert (str_to_uppercase key) value (env comp)) comp) m))
  else Err (UnknownSection section line).

(** One line.  [sesman/state.rs:404-460 parse_sesman_ini] *)
Definition parse_line {U : Unicode} (st : ini_state) (numbered : Z * str) : outcome ConfigError ini_state :=
  let '(line_number, raw_line) := numbered in
  let line := trim (strip_ini_comment raw_line) in
  match line with
  | [] => Ok st
  | _ =>
      match strip_prefix (lit "[") line ≫= strip_suffix (lit "]") with
      | Some name => Ok (mkIni (ini_config st) (str_to_lowercase (trim name)) (ini_components st))
      | None =>
          match split_once 61 line with
          | None => Err (ExpectedKeyValue line_number)
          | Some (key, value) =>
              apply_key st (str_to_lowercase (trim key)) (unquote_ini_scalar (trim value)) line_number
          end
      end
  end.

Definition enumerate_lines (ls : list str) : list (Z * str) := imap (fun i l => (Z.of_nat i + 1, l)) ls.

(** [sesman/state.rs:399-467 parse_sesman_ini] *)
Definition parse_sesman_ini {U : Unicode} (e : Environ) (content : str) : outcome ConfigError SesmanConfig :=
  st ← mfold parse_line (mkIni (config_default e) (lit "globals") []) (enumerate_lines (lines content));
  Ok (match ini_components st with
      | [] => ini_config st
      | m => set_components (map snd m) (ini_config st)
      end).

(** [sesman/state.rs:180-196 load] *)
Definition load {U : Unicode} (e : Environ) (file : option (io str)) : outcome ConfigError SesmanConfig :=
  match file with
  | None => Ok (config_default e)
  | Some (IoOk content) =>
      config ← parse_sesman_ini e content;
      let config := apply_runtime_defaults e config in
      _ ← validate config;
      Ok config
  | Some NotFound => Ok (config_default e)
  | Some IoErr => Err ReadFailed
  end.

(** ** Writing *)
Definition kv (key value : str) : str := key ++ lit "=" ++ value.
Definition fmt_bool (b : bool) : str := if b then lit "true" else lit "false".

(** The lines of one component.  [sesman/state.rs:573-607 render_sesman_ini] *)
Definition component_lines (c : ComponentConfig) : list str :=
  [lit "[component:" ++ comp_name c ++ lit "]"; kv (lit "command") (command c); kv (lit "args") (format_ini_list (args c))]
  ++ match working_dir c with Some p => [kv (lit "working_dir") p] | None => [] end
  ++ match log_path c with Some p => [kv (lit "log_path") p] | None => [] end
  ++ match readiness c with
     | ProcessAlive => [lit "readiness=process_alive"]
     | NoCheck => [lit "readiness=none"]
     | UnixSocket p => [lit "readiness=unix_socket"; kv (lit "readiness_path") p]
     end
  ++ [kv (lit "required") (fmt_bool (required c)); kv (lit "startup_delay_ms") (fmt_dec (startup_delay_ms c)); []]
  ++ match env c with
     | [] => []
     | es => [lit "[component_env:" ++ comp_name c ++ lit "]"] ++ map (fun e => kv e.1 (format_ini_scalar e.2)) es ++ [[]]
     end.

(** The lines of the file.  [sesman/state.rs:538-572 render_sesman_ini] *)
Definition config_lines (c : SesmanConfig) : list str :=
  [lit "[globals]"; kv (lit "session_name") (session_name c); kv (lit "user") (user c);
   kv (lit "xdg_runtime_dir") (xdg_runtime_dir c); kv (lit "state_dir") (state_dir c); kv (lit "log_dir") (log_dir c);
   kv (lit "start_timeout_ms") (fmt_dec (start_timeout_ms c)); kv (lit "stop_timeout_ms") (fmt_dec (stop_timeout_ms c));
   kv (lit "idle_timeout_ms") (fmt_dec (idle_timeout_ms c)); [];
   lit "[default_size]"; kv (lit "width") (fmt_dec (size_width (default_size c)));
   kv (lit "height") (fmt_dec (size_height (default_size c))); [];
   lit "[environment]"]
  ++ map (fun e => kv e.1 (format_ini_scalar e.2)) (environment c)
  ++ [[]; lit "[cleanup]"; kv (lit "paths") (format_ini_list (cleanup_paths c));
      kv (lit "globs") (format_ini_list (cleanup_globs c)); []]
  ++ concat (map component_lines (components c)).
(** Each line ends in a newline.  [sesman/state.rs:538-610 render_sesman_ini] *)
Definition render_sesman_ini (c : SesmanConfig) : str := concat (map (fun l => l ++ [LF]) (config_lines c)).

(** [sesman/state.rs:199-201 generate_default_ini] *)
Definition generate_default_ini (e : Environ) : str := render_sesman_ini (config_default e).
