(* ===== verification/SesIni.v ===== *)
(** * The INI format round trip

    What the writer of [SesConfig] produces is read back as the same
    configuration. *)
From S2P Require Import Prelude Text SesConfig.

(** ** Characters *)

(** Not a line feed, a quote, or the start of a comment. *)
Definition calm (c : Z) : bool := negb ((c =? LF) || (c =? 34) || (c =? 39) || (c =? 35) || (c =? 59)).
(** May occur between double quotes. *)
Definition quotable_char (c : Z) : bool := negb ((c =? LF) || (c =? 34) || (c =? 39)).
(** A character of keys and section names. *)
Definition name_char (c : Z) : bool :=
  is_ascii_lower c || is_ascii_digit c || (c =? 95) || (c =? 45).
(** A character of environment variables. *)
Definition var_char (c : Z) : bool := is_ascii_upper c || is_ascii_digit c || (c =? 95).
(** A character of section headers. *)
Definition header_char (c : Z) : bool := name_char c || (c =? 58).

(** Written as it is and read back unchanged. *)
Definition plain (v : str) : Prop := forallb calm v = true /\ trim v = v.
(** Written as a scalar, in quotes where needed. *)
Definition quotable (v : str) : Prop := forallb quotable_char v = true.
(** Written as an item of a list. *)
Definition listable (v : str) : Prop := quotable v /\ contains 44 v = false.
Definition name_ok (n : str) : Prop := n <> [] /\ forallb name_char n = true.
Definition var_ok (k : str) : Prop := k <> [] /\ forallb var_char k = true.

(** ** Comments *)

(** A text that leaves the comment scanner outside quotes and is kept. *)
Definition neutral (t : str) : Prop := forall rest prev,
  comment_scan (t ++ rest) prev false false = comment_scan rest (rev t ++ prev) false false.

Lemma neutral_app a b : neutral a -> neutral b -> neutral (a ++ b).
Proof. intros Ha Hb rest prev. by rewrite <- app_assoc, Ha, Hb, rev_app_distr, app_assoc. Qed.

Lemma neutral_strip t : neutral t -> strip_ini_comment t = t.
Proof.
  intros H. unfold strip_ini_comment. rewrite <- (app_nil_r t) at 1. rewrite H.
  cbn [comment_scan]. by rewrite app_nil_r, rev_involutive.
Qed.

Lemma neutral_calm a : forallb calm a = true -> neutral a.
Proof.
  intros H rest. induction a as [|c a IH]; intros prev; [done|]. cbn [forallb] in H. apply andb_prop in H as [Hc Ha].
  unfold calm in Hc. cbn [app comment_scan rev].
  destruct (c =? 39) eqn:?, (c =? 34) eqn:?, (c =? 35) eqn:?, (c =? 59) eqn:?; try (bool_cases; lia).
  cbn [andb orb negb]. rewrite IH by done. by rewrite <- app_assoc.
Qed.

Lemma scan_double a : forallb quotable_char a = true -> forall rest prev,
  comment_scan (a ++ rest) prev false true = comment_scan rest (rev a ++ prev) false true.
Proof.
  induction a as [|c a IH]; intros H rest prev; [done|]. cbn [forallb] in H. apply andb_prop in H as [Hc Ha].
  unfold quotable_char in Hc. cbn [app comment_scan rev].
  destruct (c =? 39) eqn:?, (c =? 34) eqn:?; try (bool_cases; lia).
  cbn [andb negb]. rewrite andb_false_r. cbn [andb]. rewrite IH by done. by rewrite <- app_assoc.
Qed.

Lemma escape_quotes_id v : quotable v -> escape_quotes v = v.
Proof.
  unfold quotable, escape_quotes. induction v as [|c v IH]; [done|]. cbn [forallb mbind list_bind]. intros [Hc Hv]%andb_prop.
  rewrite IH by done. unfold quotable_char in Hc. by destruct (c =? 34) eqn:?; [bool_cases; lia|].
Qed.

(** The two forms of a formatted scalar. *)
Lemma format_cases v : quotable v ->
  (format_ini_scalar v = [34] ++ v ++ [34]) \/
  (format_ini_scalar v = v /\ v <> [] /\ forallb calm v = true /\ existsb is_whitespace v = false).
Proof.
  intros Hq. unfold format_ini_scalar. rewrite escape_quotes_id by done.
  destruct (_ || existsb is_whitespace v) eqn:E; [by left|]. right.
  rewrite !orb_false_iff, bool_decide_eq_false in E. destruct E as ((((Hn & _) & H35) & H59) & Hw).
  split; [done|]. split; [done|]. split; [|done]. unfold quotable in Hq. clear Hw Hn.
  induction v as [|c v IH]; [done|]. unfold contains in *. cbn [existsb forallb] in *.
  apply orb_false_iff in H35 as [? ?], H59 as [? ?]. apply andb_prop in Hq as [Hc Hv].
  rewrite IH by done. rewrite andb_true_r. unfold calm, quotable_char in *. rewrite !(Z.eqb_sym c).
  rewrite !(Z.eqb_sym c) in Hc. by destruct (LF =? c), (34 =? c), (39 =? c), (35 =? c), (59 =? c).
Qed.

Lemma neutral_format v : quotable v -> neutral (format_ini_scalar v).
Proof.
  intros Hq. destruct (format_cases v Hq) as [->|(-> & _ & Hc & _)]; [|by apply neutral_calm].
  intros rest prev. rewrite <- !app_assoc. cbn [app comment_scan]. change (34 =? 39) with false. change (34 =? 34) with true.
  cbn [andb negb]. rewrite scan_double by done. cbn [app comment_scan]. change (34 =? 39) with false. change (34 =? 34) with true.
  cbn [andb negb]. f_equal. cbn [rev]. rewrite rev_app_distr. cbn [rev app]. by rewrite <- app_assoc.
Qed.

Lemma neutral_list vs : Forall listable vs -> neutral (format_ini_list vs).
Proof.
  intros H. unfold format_ini_list. apply neutral_app; [by apply neutral_calm|]. apply neutral_app; [|by apply neutral_calm].
  induction H as [|v vs [Hv _] Hvs IH]; [done|]. cbn [map join]. destruct vs as [|w vs].
  - by apply neutral_format.
  - apply neutral_app; [by apply neutral_format|]. apply neutral_app; [by apply neutral_calm|exact IH].
Qed.

(** ** White space *)
Lemma drop_while_id p (s : str) : match s with [] => True | c :: _ => p c = false end -> drop_while p s = s.
Proof. destruct s as [|c s]; [done|]. cbn [drop_while]. by intros ->. Qed.

(** Neither the first nor the last character is white space. *)
Definition edges (s : str) : Prop :=
  match s with [] => True | c :: _ => is_whitespace c = false end /\
  match rev s with [] => True | c :: _ => is_whitespace c = false end.

Lemma trim_edges s : edges s -> trim s = s.
Proof.
  intros [H1 H2]. unfold trim, trim_start, trim_end. rewrite (drop_while_id _ s) by done.
  rewrite drop_while_id by done. apply rev_involutive.
Qed.

Lemma drop_while_fixed p (s : str) : length (drop_while p s) = length s ->
  match s with [] => True | c :: _ => p c = false end.
Proof.
  destruct s as [|c s]; [done|]. cbn [drop_while]. destruct (p c); [|done].
  pose proof (drop_while_length p s). cbn. lia.
Qed.

Lemma trim_fixed s : trim s = s -> edges s.
Proof.
  unfold trim, trim_start, trim_end. intros H. pose proof (f_equal length H) as Hl. rewrite length_rev in Hl.
  pose proof (drop_while_length is_whitespace s). pose proof (drop_while_length is_whitespace (rev (drop_while is_whitespace s))) as H2.
  rewrite length_rev in H2.
  assert (match s with [] => True | c :: _ => is_whitespace c = false end) as H1 by (apply drop_while_fixed; lia).
  split; [done|]. rewrite (drop_while_id _ s H1) in *. apply drop_while_fixed. rewrite length_rev. lia.
Qed.

(** ** Scalars *)
Lemma unquote_none q c v : c <> q -> unquote q (c :: v) = None.
Proof. intros H. unfold unquote, strip_prefix. cbn [starts_with]. by rewrite (proj2 (Z.eqb_neq q c)) by congruence. Qed.

Lemma unquote_calm v : trim v = v -> match v with [] => True | c :: _ => c <> 34 /\ c <> 39 end ->
  unquote_ini_scalar v = v.
Proof.
  intros Ht Hc. unfold unquote_ini_scalar. rewrite Ht. destruct v as [|c v]; [done|]. destruct Hc.
  by rewrite !unquote_none.
Qed.

Lemma plain_unquote v : plain v -> unquote_ini_scalar v = v.
Proof.
  intros [Hc Ht]. apply unquote_calm; [done|]. destruct v as [|c v]; [done|]. cbn [forallb] in Hc.
  unfold calm in Hc. split; intros ->; done.
Qed.

Lemma no_space_edges v : existsb is_whitespace v = false -> edges v.
Proof.
  intros H. assert (forall c, c ∈ v -> is_whitespace c = false) as Hc.
  { intros c Hc. destruct (is_whitespace c) eqn:E; [|done]. rewrite <- H. symmetry. apply existsb_exists.
    exists c. by rewrite <- list_elem_of_In. }
  split.
  - destruct v; [done|]. apply Hc. set_solver.
  - destruct (rev v) as [|c l] eqn:E; [done|]. apply Hc.
    assert (In c (rev v)) as Hin by (rewrite E; by left). apply in_rev in Hin. by rewrite list_elem_of_In.
Qed.

Lemma format_edges v : quotable v -> edges (format_ini_scalar v) /\ format_ini_scalar v <> [].
Proof.
  intros Hq. destruct (format_cases v Hq) as [->|(-> & Hn & _ & Hw)]; [|by split; [apply no_space_edges|]].
  split; [|done]. split; [done|]. cbn [app rev]. by rewrite rev_app_distr.
Qed.

Lemma unquote_format v : quotable v -> unquote_ini_scalar (format_ini_scalar v) = v.
Proof.
  intros Hq. pose proof (trim_edges _ (proj1 (format_edges v Hq))) as Ht.
  destruct (format_cases v Hq) as [E|(E & Hn & Hc & Hw)]; rewrite E in *.
  - unfold unquote_ini_scalar. rewrite Ht. unfold unquote. rewrite strip_prefix_app.
    cbn [mbind option_bind]. by rewrite strip_suffix_app.
  - by apply plain_unquote.
Qed.

(** ** Lists *)
Lemma split_on_stop c a b : contains c a = false -> split_on c (a ++ c :: b) = a :: split_on c b.
Proof.
  unfold contains. induction a as [|x a IH]; cbn [existsb app split_on]; intros H; [by rewrite Z.eqb_refl|].
  apply orb_false_iff in H as [Hx Ha]. rewrite Z.eqb_sym in Hx. by rewrite Hx, IH.
Qed.

Lemma split_on_none c a : contains c a = false -> split_on c a = [a].
Proof.
  unfold contains. induction a as [|x a IH]; cbn [existsb split_on]; intros H; [done|].
  apply orb_false_iff in H as [Hx Ha]. rewrite Z.eqb_sym in Hx. by rewrite Hx, IH.
Qed.

Lemma format_no_comma v : listable v -> contains 44 (format_ini_scalar v) = false.
Proof.
  intros [Hq Hc]. destruct (format_cases v Hq) as [->|(-> & _)]; [|done].
  unfold contains in *. rewrite !existsb_app, Hc. done.
Qed.

Lemma trim_space v : edges v -> trim (32 :: v) = trim v.
Proof. done. Qed.

(** The items between the commas, before they are unquoted. *)
Lemma split_items v vs : Forall listable (v :: vs) ->
  map trim (split_on 44 (join (lit ", ") (map format_ini_scalar (v :: vs)))) = map format_ini_scalar (v :: vs).
Proof.
  revert v. induction vs as [|w vs IH]; intros v [Hv Hvs]%Forall_cons.
  - cbn [map join]. rewrite split_on_none by (by apply format_no_comma). cbn [map].
    by rewrite trim_edges by (apply format_edges, Hv).
  - change (join (lit ", ") (map format_ini_scalar (v :: w :: vs)))
      with (format_ini_scalar v ++ 44 :: 32 :: join (lit ", ") (map format_ini_scalar (w :: vs))).
    rewrite split_on_stop by (by apply format_no_comma). specialize (IH w Hvs).
    cbn [split_on]. change (32 =? 44) with false. cbn iota.
    cbn [map]. rewrite trim_edges by (apply format_edges, Hv). f_equal.
    change (map format_ini_scalar (w :: vs)) with (format_ini_scalar w :: map format_ini_scalar vs) in *.
    etrans; [|exact IH]. by destruct (split_on 44 (join _ _)) as [|i its].
Qed.

Lemma parse_format_list vs : Forall listable vs ->
  parse_ini_list (unquote_ini_scalar (format_ini_list vs)) = vs.
Proof.
  intros H.
  assert (trim (format_ini_list vs) = format_ini_list vs) as Ht.
  { apply trim_edges. split; [done|]. unfold format_ini_list. by rewrite !rev_app_distr. }
  rewrite unquote_calm by done. unfold parse_ini_list. rewrite Ht. unfold format_ini_list.
  rewrite strip_prefix_app. cbn [mbind option_bind]. rewrite strip_suffix_app. cbn [or_default].
  destruct vs as [|v vs]; [done|]. rewrite split_items by done.
  assert (forall l, Forall listable l ->
    map unquote_ini_scalar (List.filter (fun i => negb (bool_decide (i = []))) (map format_ini_scalar l)) = l) as Hl.
  { clear. induction 1 as [|v l [Hv _] Hl IH]; [done|]. cbn [map List.filter].
    rewrite bool_decide_false by (by apply format_edges). cbn [negb map]. by rewrite unquote_format, IH. }
  by apply Hl.
Qed.

(** ** Case *)
Section unicode.
Context {U : Unicode}.

Lemma lower_header s : forallb header_char s = true -> str_to_lowercase s = s.
Proof.
  unfold str_to_lowercase. induction s as [|c s IH]; [done|]. cbn [forallb mbind list_bind]. intros [Hc Hs]%andb_prop.
  rewrite IH by done. unfold header_char, name_char, is_ascii_lower, is_ascii_digit in Hc.
  rewrite to_lowercase_ascii by (unfold is_ascii; lia). unfold ascii_lower, is_ascii_upper.
  case_match; [|done]. lia.
Qed.

Lemma upper_lower_var s : forallb var_char s = true -> str_to_uppercase (str_to_lowercase s) = s.
Proof.
  unfold str_to_lowercase, str_to_uppercase. induction s as [|c s IH]; [done|].
  cbn [forallb mbind list_bind]. intros [Hc Hs]%andb_prop.
  unfold var_char, is_ascii_upper, is_ascii_digit in Hc.
  rewrite to_lowercase_ascii by (unfold is_ascii; lia). cbn [app mbind list_bind]. rewrite IH by done.
  unfold ascii_lower, is_ascii_upper. destruct ((65 <=? c) && (c <=? 90)) eqn:E;
    rewrite to_uppercase_ascii by (unfold is_ascii; lia); unfold ascii_upper, is_ascii_lower; case_match; cbn [app]; f_equal; lia.
Qed.

(** ** Lines *)

(** A key: not empty, no white space, quotes, comments, brackets or equals signs. *)
Definition key_char (c : Z) : bool := calm c && negb (is_whitespace c) && negb ((c =? 61) || (c =? 91)).
Definition key_ok (k : str) : Prop := k <> [] /\ forallb key_char k = true.

Lemma key_parts k : key_ok k -> forallb calm k = true /\ existsb is_whitespace k = false /\
  forallb (fun c => negb (c =? 61)) k = true /\ match k with [] => False | c :: _ => c <> 91 end.
Proof.
  intros [Hn Hk]. split_and!.
  - rewrite forallb_forall in *. intros c Hc. specialize (Hk c Hc). unfold key_char in Hk. bool_cases. done.
  - destruct (existsb is_whitespace k) eqn:E; [|done]. apply existsb_exists in E as (c & Hc & Hw).
    rewrite forallb_forall in Hk. specialize (Hk c Hc). unfold key_char in Hk. rewrite Hw in Hk. by rewrite andb_false_r in Hk.
  - rewrite forallb_forall in *. intros c Hc. specialize (Hk c Hc). unfold key_char in Hk. bool_cases. by destruct (c =? 61).
  - destruct k as [|c k]; [done|]. cbn [forallb] in Hk. apply andb_prop in Hk as [Hc _]. intros ->. done.
Qed.

Lemma kv_line_parse st n k v : key_ok k -> neutral v -> trim v = v ->
  parse_line st (n, kv k v) = apply_key st (str_to_lowercase k) (unquote_ini_scalar v) n.
Proof.
  intros Hk Hv Ht. destruct (key_parts k Hk) as (Hc & Hw & He & Hb). unfold parse_line, kv.
  change (lit "=") with [61]. cbn [app].
  rewrite neutral_strip by (apply neutral_app; [by apply neutral_calm|]; change (61 :: v) with ([61] ++ v);
    apply neutral_app; [by apply neutral_calm|done]).
  rewrite trim_edges.
  - destruct k as [|c k]; [done|]. cbn [app]. unfold strip_prefix. change (lit "[") with [91]. cbn [starts_with].
    rewrite (proj2 (Z.eqb_neq 91 c)) by congruence. cbn [andb mbind option_bind].
    change (c :: k ++ 61 :: v) with ((c :: k) ++ 61 :: v). rewrite split_once_stop by done.
    rewrite Ht, (trim_edges (c :: k)) by (by apply no_space_edges). done.
  - destruct (no_space_edges k Hw) as [H1 _]. split; [by destruct k|].
    rewrite rev_app_distr. cbn [rev]. destruct (trim_fixed v Ht) as [_ H2].
    by destruct (rev v) as [|c l].
Qed.

Lemma header_line_parse st n name : forallb header_char name = true ->
  parse_line st (n, lit "[" ++ name ++ lit "]") = Ok (mkIni (ini_config st) name (ini_components st)).
Proof.
  intros Hn.
  assert (forallb calm name = true /\ existsb is_whitespace name = false) as [Hc Hw].
  { split.
    - rewrite forallb_forall in *. intros c Hi. specialize (Hn c Hi).
      unfold header_char, name_char, calm, LF, is_ascii_lower, is_ascii_digit in *. lia.
    - destruct (existsb _ _) eqn:E; [|done]. apply existsb_exists in E as (c & Hi & Hw).
      rewrite forallb_forall in Hn. specialize (Hn c Hi).
      unfold header_char, name_char, is_whitespace, is_ascii_lower, is_ascii_digit in *. lia. }
  unfold parse_line. rewrite neutral_strip by (apply neutral_app; [by apply neutral_calm|]; apply neutral_app; by apply neutral_calm).
  rewrite trim_edges by (split; [done|]; by rewrite !rev_app_distr).
  rewrite strip_prefix_app. cbn [mbind option_bind]. rewrite strip_suffix_app.
  rewrite trim_edges by (by apply no_space_edges). by rewrite lower_header.
Qed.

(** ** Runs of lines *)

(** [lines] gives the line back. *)
Definition line_ok (l : str) : Prop := Forall (fun c => c <> LF) l /\ strip_cr l = l.

Lemma lines_concat ls : Forall line_ok ls -> lines (concat (map (fun l => l ++ [LF]) ls)) = ls.
Proof.
  unfold lines. induction 1 as [|l ls [Hl Hc] Hls IH]; [done|]. cbn [map concat]. rewrite <- app_assoc. cbn [app].
  rewrite lines_acc_app_LF by done. cbn [rev app]. by rewrite Hc, IH.
Qed.

Lemma strip_cr_id l : match rev l with [] => True | c :: _ => c <> CR end -> strip_cr l = l.
Proof.
  intros H. unfold strip_cr, strip_suffix. cbn [rev app starts_with]. destruct (rev l) as [|c r]; [done|].
  by rewrite (proj2 (Z.eqb_neq CR c)) by congruence.
Qed.

(** The lines take the reader from one state to another, whatever their numbers. *)
Definition reads (ls : list str) (st st' : ini_state) : Prop :=
  Forall line_ok ls /\ forall n, mfold parse_line st (imap (fun i l => (n + Z.of_nat i, l)) ls) = Ok st'.

Lemma reads_nil st : reads [] st st.
Proof. done. Qed.

Lemma imap_shift (f : nat -> str -> Z * str) g ls : (forall i l, f i l = g i l) -> imap f ls = imap g ls.
Proof. intros H. apply imap_ext. intros. apply H. Qed.

Lemma reads_app a b st1 st2 st3 : reads a st1 st2 -> reads b st2 st3 -> reads (a ++ b) st1 st3.
Proof.
  intros [Ha Ha'] [Hb Hb']. split; [by apply Forall_app|]. intros n. rewrite imap_app, mfold_app, Ha'.
  cbn [mbind outcome_bind]. rewrite <- (Hb' (n + Z.of_nat (length a))). f_equal. apply imap_ext.
  intros i l _. cbn. f_equal. lia.
Qed.

Lemma reads_one l st st' : line_ok l -> (forall n, parse_line st (n, l) = Ok st') -> reads [l] st st'.
Proof. intros Hl H. split; [by constructor|]. intros n. cbn [imap mfold]. by rewrite H. Qed.

Lemma reads_cons l ls st1 st2 st3 : reads [l] st1 st2 -> reads ls st2 st3 -> reads (l :: ls) st1 st3.
Proof. apply (reads_app [l]). Qed.

(** A value that may follow the equals sign. *)
Definition value_ok (v : str) : Prop := neutral v /\ trim v = v /\ Forall (fun c => c <> LF) v.

Lemma reads_kv k v st st' : key_ok k -> value_ok v ->
  (forall n, apply_key st (str_to_lowercase k) (unquote_ini_scalar v) n = Ok st') -> reads [kv k v] st st'.
Proof.
  intros Hk (Hv & Ht & Hl) H. apply reads_one; [|intros n; by rewrite kv_line_parse].
  destruct (key_parts k Hk) as (Hc & _). split.
  - unfold kv. apply Forall_app; split; [|by apply Forall_app; split; [by repeat constructor|]].
    rewrite forallb_Forall_true in Hc. eapply Forall_impl; [exact Hc|]. intros c E ->. done.
  - apply strip_cr_id. unfold kv. rewrite !rev_app_distr. destruct (trim_fixed v Ht) as [_ H2].
    destruct (rev v) as [|c l]; [done|]. cbn. intros ->. done.
Qed.

Lemma reads_header name st : forallb header_char name = true ->
  reads [lit "[" ++ name ++ lit "]"] st (mkIni (ini_config st) name (ini_components st)).
Proof.
  intros H. apply reads_one; [|intros n; by apply header_line_parse]. split.
  - apply Forall_app; split; [by repeat constructor|]. apply Forall_app; split; [|by repeat constructor].
    rewrite forallb_Forall_true in H. eapply Forall_impl; [exact H|]. intros c E ->. done.
  - apply strip_cr_id. by rewrite !rev_app_distr.
Qed.

Lemma reads_blank st : reads [[]] st st.
Proof. apply reads_one; [by split|done]. Qed.

(** ** The values the writer produces *)
Lemma calm_no_lf v : forallb calm v = true -> Forall (fun c => c <> LF) v.
Proof. rewrite forallb_Forall_true. intros H. eapply Forall_impl; [exact H|]. by intros c E ->. Qed.

Lemma quotable_no_lf v : quotable v -> Forall (fun c => c <> LF) v.
Proof. unfold quotable. rewrite forallb_Forall_true. intros H. eapply Forall_impl; [exact H|]. by intros c E ->. Qed.

Lemma plain_value v : plain v -> value_ok v.
Proof. intros [Hc Ht]. split; [by apply neutral_calm|]. split; [done|]. by apply calm_no_lf. Qed.

Lemma format_no_lf v : quotable v -> Forall (fun c => c <> LF) (format_ini_scalar v).
Proof.
  intros Hq. pose proof (quotable_no_lf v Hq). destruct (format_cases v Hq) as [->|(-> & _)]; [|done].
  apply Forall_app; split; [by repeat constructor|]. apply Forall_app; split; [done|by repeat constructor].
Qed.

Lemma format_value v : quotable v -> value_ok (format_ini_scalar v).
Proof.
  intros Hq. split; [by apply neutral_format|]. split; [by apply trim_edges, format_edges|]. by apply format_no_lf.
Qed.

Lemma list_value vs : Forall listable vs -> value_ok (format_ini_list vs).
Proof.
  intros H. split; [by apply neutral_list|]. split.
  - apply trim_edges. split; [done|]. unfold format_ini_list. by rewrite !rev_app_distr.
  - unfold format_ini_list. apply Forall_app; split; [by repeat constructor|]. apply Forall_app; split; [|by repeat constructor].
    induction H as [|v vs [Hv _] Hvs IH]; [done|]. cbn [map join]. destruct vs as [|w vs]; [by apply format_no_lf|].
    apply Forall_app; split; [by apply format_no_lf|]. apply Forall_app; split; [by repeat constructor|exact IH].
Qed.

Lemma fmt_dec_plain n : 0 <= n -> plain (fmt_dec n).
Proof.
  intros Hn. pose proof (fmt_dec_digits n Hn) as Hd. split.
  - apply forallb_Forall_true. eapply Forall_impl; [exact Hd|]. intros c Hc. unfold is_ascii_digit in Hc. unfold calm, LF. lia.
  - apply trim_id. eapply Forall_impl; [exact Hd|]. apply digit_not_whitespace.
Qed.

Lemma name_chars_header s : forallb name_char s = true -> forallb header_char s = true.
Proof.
  rewrite !forallb_Forall_true. intros H. eapply Forall_impl; [exact H|]. intros c Hc. unfold header_char. by rewrite Hc.
Qed.

Lemma name_key s : name_ok s -> key_ok s.
Proof.
  intros [Hn H]. split; [done|]. rewrite forallb_Forall_true in *. eapply Forall_impl; [exact H|]. intros c Hc.
  unfold name_char, key_char, calm, is_whitespace, LF, is_ascii_lower, is_ascii_digit in *. lia.
Qed.

Lemma var_key s : var_ok s -> key_ok s.
Proof.
  intros [Hn H]. split; [done|]. rewrite forallb_Forall_true in *. eapply Forall_impl; [exact H|]. intros c Hc.
  unfold var_char, key_char, calm, is_whitespace, LF, is_ascii_upper, is_ascii_digit in *. lia.
Qed.

(** A key of the schema with the value written for it. *)
Lemma reads_key k v st st' : name_ok k -> value_ok v ->
  (forall n, apply_key st k (unquote_ini_scalar v) n = Ok st') -> reads [kv k v] st st'.
Proof.
  intros Hk Hv H. apply reads_kv; [by apply name_key|done|]. intros n.
  rewrite lower_header; [apply H|]. apply name_chars_header, Hk.
Qed.

(** ** Configurations the format can carry *)
Definition component_ok (c : ComponentConfig) : Prop :=
  name_ok (comp_name c) /\ plain (command c) /\ Forall listable (args c) /\
  match working_dir c with Some p => plain p /\ p <> [] | None => True end /\
  match log_path c with Some p => plain p /\ p <> [] | None => True end /\
  match readiness c with UnixSocket p => plain p | _ => True end /\
  0 <= startup_delay_ms c <= u64_max /\
  Forall (fun kv => var_ok kv.1 /\ quotable kv.2) (env c) /\ bt_collect (env c) = env c.

Definition config_ok (c : SesmanConfig) : Prop :=
  (plain (session_name c) /\ plain (user c) /\ plain (xdg_runtime_dir c) /\ plain (state_dir c) /\ plain (log_dir c)) /\
  (0 <= size_width (default_size c) <= u32_max /\ 0 <= size_height (default_size c) <= u32_max) /\
  (0 <= start_timeout_ms c <= u64_max /\ 0 <= stop_timeout_ms c <= u64_max /\ 0 <= idle_timeout_ms c <= u64_max) /\
  Forall (fun kv => var_ok kv.1 /\ quotable kv.2) (environment c) /\
  Forall listable (cleanup_paths c) /\ Forall listable (cleanup_globs c) /\
  (components c <> [] /\ Forall component_ok (components c) /\ NoDup (map comp_name (components c))) /\
  map snd (bt_collect (map (fun x => (comp_name x, x)) (components c))) = components c.

(** ** Section by section *)
Lemma parse_num mx z : 0 <= z <= mx -> mx < 10 ^ 40 -> parse_unsigned mx (unquote_ini_scalar (fmt_dec z)) = Some z.
Proof. intros H Hm. rewrite plain_unquote by (apply fmt_dec_plain; lia). by apply parse_fmt_dec. Qed.

Lemma num_value z : 0 <= z -> value_ok (fmt_dec z).
Proof. intros. by apply plain_value, fmt_dec_plain. Qed.

Lemma global_number d m key n u x s l st sp idle v z line c' :
  parse_unsigned u64_max v = Some z ->
  (forall t, parse_unsigned u64_max t = Some z -> apply_sesman_global (set_globals d n u x s l st sp idle) key t line = Ok c') ->
  apply_key (mkIni (set_globals d n u x s l st sp idle) (lit "globals") m) key v line = Ok (mkIni c' (lit "globals") m).
Proof. intros Hv H. unfold apply_key. change (eqs (lit "globals") (lit "globals")) with true. cbn iota. by rewrite (H v Hv). Qed.

Lemma reads_globals d m n u x s l st sp idle n' u' x' s' l' st' sp' idle' :
  (plain n' /\ plain u' /\ plain x' /\ plain s' /\ plain l') ->
  (0 <= st' <= u64_max /\ 0 <= sp' <= u64_max /\ 0 <= idle' <= u64_max) ->
  reads [kv (lit "session_name") n'; kv (lit "user") u'; kv (lit "xdg_runtime_dir") x'; kv (lit "state_dir") s';
         kv (lit "log_dir") l'; kv (lit "start_timeout_ms") (fmt_dec st'); kv (lit "stop_timeout_ms") (fmt_dec sp');
         kv (lit "idle_timeout_ms") (fmt_dec idle')]
    (mkIni (set_globals d n u x s l st sp idle) (lit "globals") m)
    (mkIni (set_globals d n' u' x' s' l' st' sp' idle') (lit "globals") m).
Proof.
  intros (Hn & Hu & Hx & Hs & Hl) (Hst & Hsp & Hi).
  set (G a b c e f g h i := mkIni (set_globals d a b c e f g h i) (lit "globals") m).
  apply (reads_cons _ _ _ (G n' u x s l st sp idle)).
  { apply reads_key; [done|by apply plain_value|]. intros. by rewrite plain_unquote. }
  apply (reads_cons _ _ _ (G n' u' x s l st sp idle)).
  { apply reads_key; [done|by apply plain_value|]. intros. by rewrite plain_unquote. }
  apply (reads_cons _ _ _ (G n' u' x' s l st sp idle)).
  { apply reads_key; [done|by apply plain_value|]. intros. by rewrite plain_unquote. }
  apply (reads_cons _ _ _ (G n' u' x' s' l st sp idle)).
  { apply reads_key; [done|by apply plain_value|]. intros. by rewrite plain_unquote. }
  apply (reads_cons _ _ _ (G n' u' x' s' l' st sp idle)).
  { apply reads_key; [done|by apply plain_value|]. intros. by rewrite plain_unquote. }
  apply (reads_cons _ _ _ (G n' u' x' s' l' st' sp idle)).
  { apply reads_key; [done|apply num_value; lia|]. intros. eapply global_number; [by apply parse_num|].
    intros t Ht. unfold apply_sesman_global, parse_ini_value. by rewrite Ht. }
  apply (reads_cons _ _ _ (G n' u' x' s' l' st' sp' idle)).
  { apply reads_key; [done|apply num_value; lia|]. intros. eapply global_number; [by apply parse_num|].
    intros t Ht. unfold apply_sesman_global, parse_ini_value. by rewrite Ht. }
  apply reads_key; [done|apply num_value; lia|]. intros. eapply global_number; [by apply parse_num|].
  intros t Ht. unfold apply_sesman_global, parse_ini_value. by rewrite Ht.
Qed.

Lemma size_number (set : Z -> SessionSize) d m key v z line :
  parse_unsigned u32_max v = Some z ->
  (forall t, parse_unsigned u32_max t = Some z ->
     apply_key (mkIni d (lit "default_size") m) key t line = Ok (mkIni (set_default_size (set z) d) (lit "default_size") m)) ->
  apply_key (mkIni d (lit "default_size") m) key v line = Ok (mkIni (set_default_size (set z) d) (lit "default_size") m).
Proof. auto. Qed.

Lemma reads_size d m w h : 0 <= w <= u32_max -> 0 <= h <= u32_max ->
  reads [kv (lit "width") (fmt_dec w); kv (lit "height") (fmt_dec h)]
    (mkIni d (lit "default_size") m) (mkIni (set_default_size (mkSize w h) d) (lit "default_size") m).
Proof.
  intros Hw Hh. apply (reads_cons _ _ _ (mkIni (set_default_size (mkSize w (size_height (default_size d))) d) (lit "default_size") m)).
  - apply reads_key; [done|apply num_value; lia|]. intros n. unfold apply_key, parse_ini_value. by rewrite parse_num.
  - apply reads_key; [done|apply num_value; lia|]. intros n. unfold apply_key, parse_ini_value. by rewrite parse_num.
Qed.

Lemma reads_environment d m es : Forall (fun kv => var_ok kv.1 /\ quotable kv.2) es ->
  reads (map (fun e => kv e.1 (format_ini_scalar e.2)) es) (mkIni d (lit "environment") m)
    (mkIni (set_environment (fold_left (fun m kv => bt_insert kv.1 kv.2 m) es (environment d)) d) (lit "environment") m).
Proof.
  intros H. revert d. induction H as [|[k v] es [Hk Hv] Hes IH]; intros d; cbn [map fold_left fst snd] in *.
  { destruct d. apply reads_nil. }
  apply (reads_cons _ _ _ (mkIni (set_environment (bt_insert k v (environment d)) d) (lit "environment") m)).
  - apply reads_kv; [by apply var_key|by apply format_value|]. intros n. rewrite unquote_format by done.
    unfold apply_key. rewrite upper_lower_var by apply Hk. done.
  - exact (IH (set_environment (bt_insert k v (environment d)) d)).
Qed.

Lemma reads_cleanup d m ps gs : Forall listable ps -> Forall listable gs ->
  reads [kv (lit "paths") (format_ini_list ps); kv (lit "globs") (format_ini_list gs)]
    (mkIni d (lit "cleanup") m) (mkIni (set_cleanup ps gs d) (lit "cleanup") m).
Proof.
  intros Hp Hg. apply (reads_cons _ _ _ (mkIni (set_cleanup ps (cleanup_globs d) d) (lit "cleanup") m)).
  - apply reads_key; [done|by apply list_value|]. intros n. unfold apply_key. rewrite parse_format_list by done. done.
  - apply reads_key; [done|by apply list_value|]. intros n. unfold apply_key. rewrite parse_format_list by done. done.
Qed.

(** ** Components *)
Lemma bt_insert_twice {V} k (v w : V) m : bt_insert k v (bt_insert k w m) = bt_insert k v m.
Proof.
  induction m as [|[k' v'] m IH]; cbn [bt_insert].
  { by rewrite (proj2 (str_compare_eq k k)). }
  destruct (str_compare k k') eqn:E; cbn [bt_insert]; rewrite ?E, ?(proj2 (str_compare_eq k k)); try done. by rewrite IH.
Qed.

Lemma bt_get_insert_ne {V} k k' (v : V) m : k <> k' -> bt_get k' (bt_insert k v m) = bt_get k' m.
Proof.
  intros Hne. induction m as [|[j w] m IH]; cbn [bt_insert bt_get]; [by rewrite bool_decide_false by congruence|].
  destruct (str_compare k j) eqn:E; cbn [bt_get].
  - apply str_compare_eq in E as ->. by rewrite !bool_decide_false by congruence.
  - by rewrite (bool_decide_false (k' = k)) by congruence.
  - by rewrite IH.
Qed.

Lemma no_colon n : forallb name_char n = true -> Forall (fun c => c <> 58) n.
Proof. rewrite forallb_Forall_true. intros H. eapply Forall_impl; [exact H|]. by intros c E ->. Qed.

Lemma trim_matches_once p n : 58 ∈ p -> forallb name_char n = true -> trim_start_matches p (p ++ n) = n.
Proof.
  intros Hp Hn. apply no_colon in Hn.
  assert (strip_prefix p n = None) as Hs.
  { unfold strip_prefix. destruct (starts_with p n) eqn:E; [|done]. apply starts_with_spec in E as [r ->].
    rewrite Forall_forall in Hn. exfalso. apply (Hn 58); [set_solver|done]. }
  assert (forall f, trim_matches f p n = n) as Hf by (intros [|f]; cbn [trim_matches]; [done|by rewrite Hs]).
  unfold trim_start_matches. destruct (length (p ++ n)) as [|f] eqn:E.
  - rewrite length_app in E. destruct p; [set_solver|cbn in E; lia].
  - cbn [trim_matches]. rewrite strip_prefix_app. apply Hf.
Qed.

Lemma eqs_false a b : a <> b -> eqs a b = false.
Proof. intros H. unfold eqs. by rewrite bool_decide_false. Qed.

Lemma component_key d n m k v line : name_ok n ->
  apply_key (mkIni d (lit "component:" ++ n) m) k v line =
  (comp ← apply_component_key (entry n m) k v line; Ok (mkIni d (lit "component:" ++ n) (bt_insert n comp m))).
Proof.
  intros [_ Hn]. unfold apply_key. rewrite !eqs_false by discriminate. rewrite starts_with_app.
  by rewrite trim_matches_once by (done || (vm_compute; set_solver)).
Qed.

Lemma component_env_key d n m k v line : name_ok n ->
  apply_key (mkIni d (lit "component_env:" ++ n) m) k v line =
  Ok (mkIni d (lit "component_env:" ++ n)
        (bt_insert n (set_env (bt_insert (str_to_uppercase k) v (env (entry n m))) (entry n m)) m)).
Proof.
  intros [_ Hn]. unfold apply_key. rewrite !eqs_false by discriminate.
  replace (starts_with (lit "component:") (lit "component_env:" ++ n)) with false by done.
  rewrite starts_with_app. by rewrite trim_matches_once by (done || (vm_compute; set_solver)).
Qed.

Lemma entry_insert n comp m : entry n (bt_insert n comp m) = comp.
Proof. unfold entry. by rewrite bt_get_insert. Qed.

(** One key of a component that has an entry. *)
Lemma reads_component_key d n m comp comp' k v : name_ok n -> name_ok k -> value_ok v ->
  (forall line, apply_component_key comp k (unquote_ini_scalar v) line = Ok comp') ->
  reads [kv k v] (mkIni d (lit "component:" ++ n) (bt_insert n comp m)) (mkIni d (lit "component:" ++ n) (bt_insert n comp' m)).
Proof.
  intros Hn Hk Hv H. apply reads_key; [done..|]. intros line. rewrite component_key by done.
  rewrite entry_insert, H. cbn [mbind outcome_bind]. by rewrite bt_insert_twice.
Qed.

(** The same for an optional line. *)
Lemma reads_optional d n m comp comp' k (o : option str) : name_ok n -> name_ok k ->
  match o with Some p => plain p /\ forall line, apply_component_key comp k p line = Ok comp' | None => comp' = comp end ->
  reads (match o with Some p => [kv k p] | None => [] end)
    (mkIni d (lit "component:" ++ n) (bt_insert n comp m)) (mkIni d (lit "component:" ++ n) (bt_insert n comp' m)).
Proof.
  intros Hn Hk H. destruct o as [p|]; [|subst; apply reads_nil]. destruct H as [Hp H].
  apply reads_component_key; [done..|by apply plain_value|]. intros line. by rewrite plain_unquote.
Qed.

Lemma nonempty_plain p : plain p -> p <> [] -> nonempty_path p = Some p.
Proof. intros [_ Ht] Hn. unfold nonempty_path. by rewrite Ht, bool_decide_false. Qed.

Lemma reads_component_env d n m comp es : name_ok n -> Forall (fun kv => var_ok kv.1 /\ quotable kv.2) es ->
  reads (map (fun e => kv e.1 (format_ini_scalar e.2)) es)
    (mkIni d (lit "component_env:" ++ n) (bt_insert n comp m))
    (mkIni d (lit "component_env:" ++ n)
       (bt_insert n (set_env (fold_left (fun m kv => bt_insert kv.1 kv.2 m) es (env comp)) comp) m)).
Proof.
  intros Hn H. revert comp. induction H as [|[k v] es [Hk Hv] Hes IH]; intros comp; cbn [map fold_left fst snd] in *.
  { destruct comp. apply reads_nil. }
  eapply reads_cons; [|exact (IH (set_env (bt_insert k v (env comp)) comp))].
  apply reads_kv; [by apply var_key|by apply format_value|]. intros line. rewrite unquote_format by done.
  rewrite component_env_key by done. rewrite upper_lower_var by apply Hk.
  by rewrite entry_insert, bt_insert_twice.
Qed.

Lemma reads_readiness d n m nm cmd a w l r q dl : name_ok n ->
  match r with UnixSocket p => plain p | _ => True end ->
  reads (match r with
         | ProcessAlive => [lit "readiness=process_alive"]
         | NoCheck => [lit "readiness=none"]
         | UnixSocket p => [lit "readiness=unix_socket"; kv (lit "readiness_path") p]
         end)
    (mkIni d (lit "component:" ++ n) (bt_insert n (mkComponent nm cmd a [] w l ProcessAlive q dl) m))
    (mkIni d (lit "component:" ++ n) (bt_insert n (mkComponent nm cmd a [] w l r q dl) m)).
Proof.
  intros Hn Hp. destruct r as [|p|].
  - apply (reads_component_key _ _ _ _ _ (lit "readiness") (lit "process_alive")); [done|done|by apply plain_value|done].
  - apply (reads_cons _ _ _ (mkIni d (lit "component:" ++ n) (bt_insert n (mkComponent nm cmd a [] w l (UnixSocket []) q dl) m))).
    + apply (reads_component_key _ _ _ _ _ (lit "readiness") (lit "unix_socket")); [done|done|by apply plain_value|done].
    + apply reads_component_key; [done|done|by apply plain_value|]. intros line. by rewrite plain_unquote.
  - apply (reads_component_key _ _ _ _ _ (lit "readiness") (lit "none")); [done|done|by apply plain_value|done].
Qed.

Lemma header_name p n : forallb header_char p = true -> name_ok n -> forallb header_char (p ++ n) = true.
Proof. intros Hp [_ Hn]. by rewrite forallb_app, Hp, name_chars_header. Qed.

Lemma reads_component d sec m c : component_ok c -> bt_get (comp_name c) m = None -> exists sec',
  reads (component_lines c) (mkIni d sec m) (mkIni d sec' (bt_insert (comp_name c) c m)).
Proof.
  destruct c as [n cmd a es w l r q dl]. intros (Hn & Hcmd & Ha & Hw & Hl & Hr & Hd & He & Hes) Hm.
  cbn [comp_name command args env working_dir log_path readiness required startup_delay_ms] in *.
  set (S c := mkIni d (lit "component:" ++ n) (bt_insert n c m)).
  assert (reads [lit "[component:" ++ n ++ lit "]"; kv (lit "command") cmd; kv (lit "args") (format_ini_list a)]
    (mkIni d sec m) (S (mkComponent n cmd a [] None None ProcessAlive true 0))) as H1.
  { eapply reads_cons; [apply (reads_header (lit "component:" ++ n)); by apply header_name|]. cbn [ini_config ini_components].
    apply (reads_cons _ _ _ (S (mkComponent n cmd [] [] None None ProcessAlive true 0))).
    - apply reads_key; [done|by apply plain_value|]. intros line. rewrite component_key, plain_unquote by done.
      unfold entry. by rewrite Hm.
    - apply reads_component_key; [done|done|by apply list_value|]. intros line. cbn [apply_component_key].
      by rewrite parse_format_list. }
  assert (reads (match w with Some p => [kv (lit "working_dir") p] | None => [] end)
    (S (mkComponent n cmd a [] None None ProcessAlive true 0)) (S (mkComponent n cmd a [] w None ProcessAlive true 0))) as H2.
  { apply reads_optional; [done|done|]. destruct w as [p|]; [|done]. destruct Hw. split; [done|]. intros line.
    cbn. by rewrite nonempty_plain. }
  assert (reads (match l with Some p => [kv (lit "log_path") p] | None => [] end)
    (S (mkComponent n cmd a [] w None ProcessAlive true 0)) (S (mkComponent n cmd a [] w l ProcessAlive true 0))) as H3.
  { apply reads_optional; [done|done|]. destruct l as [p|]; [|done]. destruct Hl. split; [done|]. intros line.
    cbn. by rewrite nonempty_plain. }
  pose proof (reads_readiness d n m n cmd a w l r true 0 Hn Hr) as H4.
  assert (reads [kv (lit "required") (fmt_bool q); kv (lit "startup_delay_ms") (fmt_dec dl); []]
    (S (mkComponent n cmd a [] w l r true 0)) (S (mkComponent n cmd a [] w l r q dl))) as H5.
  { apply (reads_cons _ _ _ (S (mkComponent n cmd a [] w l r q 0))).
    - apply reads_component_key; [done|done|by destruct q; apply plain_value|]. intros line. by destruct q.
    - eapply reads_cons; [|apply reads_blank].
      apply reads_component_key; [done|done|apply num_value; lia|]. intros line. unfold apply_component_key, parse_ini_value.
      by rewrite parse_num. }
  assert (exists sec', reads (match es with [] => [] | es => [lit "[component_env:" ++ n ++ lit "]"] ++
            map (fun e => kv e.1 (format_ini_scalar e.2)) es ++ [[]] end)
    (S (mkComponent n cmd a [] w l r q dl)) (mkIni d sec' (bt_insert n (mkComponent n cmd a es w l r q dl) m))) as [sec' H6].
  { destruct es as [|e es]; [by exists (lit "component:" ++ n); apply reads_nil|].
    exists (lit "component_env:" ++ n). eapply reads_app.
    - apply (reads_header (lit "component_env:" ++ n)). by apply header_name.
    - eapply reads_app; [|apply reads_blank]. cbn [ini_config ini_components].
      pose proof (reads_component_env d n m (mkComponent n cmd a [] w l r q dl) (e :: es) Hn He) as Hce.
      cbn [env] in Hce. unfold bt_collect in Hes. (*S*) rewrite Hes in Hce. exact Hce. }
  exists sec'.
  pose proof (reads_app _ _ _ _ _ H1 (reads_app _ _ _ _ _ H2 (reads_app _ _ _ _ _ H3
           (reads_app _ _ _ _ _ H4 (reads_app _ _ _ _ _ H5 H6))))) as H.
  destruct es; exact H.
Qed.

Lemma reads_components d cs : forall sec m, Forall component_ok cs -> NoDup (map comp_name cs) ->
  Forall (fun c => bt_get (comp_name c) m = None) cs -> exists sec',
  reads (concat (map component_lines cs)) (mkIni d sec m)
    (mkIni d sec' (fold_left (fun m kv => bt_insert kv.1 kv.2 m) (map (fun x => (comp_name x, x)) cs) m)).
Proof.
  induction cs as [|c cs IH]; intros sec m Hok Hnd Hm; [by exists sec; apply reads_nil|].
  apply Forall_cons in Hok as [Hc Hok], Hm as [Hmc Hm]. cbn [map] in Hnd. apply NoDup_cons in Hnd as [Hin Hnd].
  destruct (reads_component d sec m c Hc Hmc) as [sec1 H1].
  destruct (IH sec1 (bt_insert (comp_name c) c m) Hok Hnd) as [sec2 H2].
  - rewrite Forall_forall in Hm |- *. intros x Hx. rewrite bt_get_insert_ne; [by apply Hm|].
    intros E. apply Hin. rewrite E. apply list_elem_of_fmap. by exists x.
  - exists sec2. cbn [map concat fold_left fst snd]. by eapply reads_app.
Qed.

(** The environment after reading: the written variables on top of the defaults. *)
Definition merged_environment (e : Environ) (c : SesmanConfig) : list (str * str) :=
  fold_left (fun m kv => bt_insert kv.1 kv.2 m) (environment c) (default_environment e).

Lemma merged_lookup k es : forall d, NoDup (map fst es) ->
  bt_get k (fold_left (fun m (kv : str * str) => bt_insert kv.1 kv.2 m) es d) =
  match bt_get k es with Some v => Some v | None => bt_get k d end.
Proof.
  induction es as [|[j v] es IH]; intros d Hnd; [done|]. cbn [map fst] in Hnd. apply NoDup_cons in Hnd as [Hin Hnd].
  cbn [fold_left fst snd bt_get]. rewrite IH by done. case_bool_decide as E.
  - subst j. rewrite bt_get_insert.
    assert (bt_get k es = None) as ->; [|done]. clear -Hin. induction es as [|[i w] es IH]; [done|].
    cbn [map fst bt_get] in *. rewrite bool_decide_false by set_solver. apply IH. set_solver.
  - by rewrite bt_get_insert_ne by congruence.
Qed.

Lemma fold_insert_nonempty {V} (kvs : list (str * V)) : forall m, m <> [] \/ kvs <> [] ->
  fold_left (fun m kv => bt_insert kv.1 kv.2 m) kvs m <> [].
Proof.
  assert (forall k (v : V) m, bt_insert k v m <> []) as Hi.
  { intros k v [|[k' v'] m]; cbn; [done|]. by destruct (str_compare k k'). }
  induction kvs as [|[k v] kvs IH]; intros m [Hm|Hk]; cbn [fold_left]; try done; apply IH; left; apply Hi.
Qed.

(** C31. The INI writer and reader agree: a configuration whose values the
    format can carry (no quotes or line feeds; scalars without comment signs or
    outer white space; list items without commas; lower-case component names and
    upper-case variable names) is read back exactly from what is written for it,
    except that the variables of the default environment that it lacks reappear. *)
Theorem ini_roundtrip e c : config_ok c ->
  parse_sesman_ini e (render_sesman_ini c) = Ok (set_environment (merged_environment e c) c) /\
  (NoDup (map fst (environment c)) -> forall k, bt_get k (merged_environment e c) =
     match bt_get k (environment c) with Some v => Some v | None => bt_get k (default_environment e) end).
Proof.
  intros (Hg & Hsz & Hnum & Henv & Hp & Hgl & (Hne & Hc & Hnd) & Hmap). split; [|intros; by apply merged_lookup].
  set (d := config_default e). set (m := bt_collect (map (fun x => (comp_name x, x)) (components c))) in *.
  assert (exists sec, reads (config_lines c) (mkIni d (lit "globals") [])
    (mkIni (set_components (components d) (set_environment (merged_environment e c) c)) sec m)) as [sec [Hok Hrun]].
  { assert (d = set_globals d (session_name d) (user d) (xdg_runtime_dir d) (state_dir d) (log_dir d)
      (start_timeout_ms d) (stop_timeout_ms d) (idle_timeout_ms d)) as Hd by done.
    set (d1 := set_globals d (session_name c) (user c) (xdg_runtime_dir c) (state_dir c) (log_dir c)
      (start_timeout_ms c) (stop_timeout_ms c) (idle_timeout_ms c)).
    set (d2 := set_default_size (default_size c) d1).
    set (d3 := set_environment (merged_environment e c) d2).
    set (d4 := set_cleanup (cleanup_paths c) (cleanup_globs c) d3).
    destruct (reads_components d4 (components c) (lit "cleanup") [] Hc Hnd) as [sec Hcs].
    { apply Forall_forall. done. }
    exists sec. unfold config_lines. eapply (reads_app _ _ _ (mkIni d2 (lit "environment") [])).
    - eapply reads_cons; [by apply (reads_header (lit "globals"))|]. cbn [ini_config ini_components]. rewrite Hd.
      eapply (reads_app [_; _; _; _; _; _; _; _]); [by apply reads_globals|]. fold d1.
      eapply reads_cons; [apply reads_blank|]. eapply reads_cons; [by apply (reads_header (lit "default_size"))|].
      cbn [ini_config ini_components]. eapply (reads_app [_; _]); [apply reads_size; apply Hsz|].
      destruct (default_size c) as [w h] eqn:Esz. cbn [size_width size_height]. eapply reads_cons; [apply reads_blank|].
      apply (reads_header (lit "environment") (mkIni d2 (lit "default_size") [])). done.
    - eapply reads_app; [by apply reads_environment|]. fold (merged_environment e c).
      eapply (reads_app [_; _; _; _; _] _ _ (mkIni d4 (lit "cleanup") [])); [|exact Hcs].
      eapply reads_cons; [apply reads_blank|]. eapply reads_cons; [by apply (reads_header (lit "cleanup"))|].
      eapply (reads_app [_; _] [_]); [by apply reads_cleanup|]. apply reads_blank. }
  unfold parse_sesman_ini, render_sesman_ini. rewrite lines_concat by done.
  replace (enumerate_lines (config_lines c)) with (imap (fun i l => (1 + Z.of_nat i, l)) (config_lines c))
    by (apply imap_ext; intros; f_equal; lia).
  fold d. rewrite Hrun. cbn [mbind outcome_bind ini_components ini_config].
  assert (m <> []) as Hm by (apply fold_insert_nonempty; right; by destruct (components c)).
  destruct m as [|x m'] eqn:Em; [done|]. rewrite Hmap. by destruct c.
Qed.
End unicode.

(** ** Instances and limits *)
Definition alice_env : Environ := mkEnviron None None None 1000 (Some (lit "alice")).

Lemma ini_roundtrip_witness :
  parse_sesman_ini alice_env (generate_default_ini alice_env) =
    Ok (set_environment (merged_environment alice_env (config_default alice_env)) (config_default alice_env)).
Proof.
  apply (ini_roundtrip alice_env (config_default alice_env)). unfold config_ok.
  split; [by repeat split|]. split; [split_and!; by vm_compute|]. split; [split_and!; by vm_compute|].
  split; [|split; [|split; [|split; [split; [|split]|]]]].
  - assert (Forall (fun kv => (forallb var_char kv.1 && negb (bool_decide (kv.1 = [])) && forallb quotable_char kv.2) = true)
      (environment (config_default alice_env))) as H by (apply forallb_Forall_true; by vm_compute).
    eapply Forall_impl; [exact H|]. cbv beta. intros kv E. apply andb_prop in E as [[E1 E2]%andb_prop E3].
    split; [split; [|done]|done]. intros E. by rewrite bool_decide_true in E2.
  - by repeat constructor.
  - by repeat constructor.
  - done.
  - constructor; [|done]. unfold component_ok. split; [by split|]. split; [by split|]. split; [by repeat constructor|].
    split; [done|]. split; [done|]. split; [by split|]. split; [|done]. split; by vm_compute.
  - apply NoDup_singleton.
  - by vm_compute.
Defined.

(** A configuration with one component of given arguments and variables. *)
Definition config_with (a : list str) (es : list (str * str)) : SesmanConfig :=
  set_components [mkComponent (lit "app") (lit "/bin/app") a es None None ProcessAlive true 0] (config_default alice_env).
Definition read_back (c : SesmanConfig) : list (list str * list (str * str)) :=
  match parse_sesman_ini alice_env (render_sesman_ini c) with
  | Ok c => map (fun x => (args x, env x)) (components c)
  | _ => []
  end.

(** Quotes are escaped by the writer and not unescaped by the reader, and a
    comma splits an item although it was quoted. *)
Lemma quotes_and_commas_are_lost :
  read_back (config_with [] [(lit "TITLE", lit "a " ++ [34] ++ lit "b" ++ [34] ++ lit " c")])
    = [([], [(lit "TITLE", lit "a \" ++ [34] ++ lit "b\" ++ [34] ++ lit " c")])] /\
  read_back (config_with [lit "x,y"] []) = [([[34] ++ lit "x"; lit "y" ++ [34]], [])].
Proof. by vm_compute. Qed.
