(* ===== verification/SesHost.v ===== *)
(** * The host as sesman uses it

    The effects of src/src/sesman/mod.rs and src/src/desktop/compositor/launch.rs:
    a world with a clock, the registry files and a log of what was done, and a
    [Host] that answers every read and decides every failure.  The host is
    arbitrary; the theorems hold for all of them.  Errors are represented by
    their cause. *)
From S2P Require Import Prelude Text SesProcess SesConfig.

(** ** Session state *)

(** [sesman/state.rs:44-48 ClientInfo] *)
Record ClientInfo := mkClient { peer : str; connected_at : Z; client_size : option SessionSize }.

(** [sesman/state.rs:262-289 ComponentState] *)
Record ComponentState := mkCompState {
  cs_name : str;
  pid : Z;
  cs_command : list str;
  started_at : Z;
  start_ticks : option Z;
  boot_id : option str;
  cs_uid : option Z;
  pgid : option Z;
  cs_required : bool;
  process_group : bool;
}.

(** [sesman/state.rs:293-330 SessionState] *)
Record SessionState := mkState {
  version : Z;
  id : Z;
  st_name : str;
  st_user : str;
  created_at : Z;
  updated_at : Z;
  st_xdg_runtime_dir : str;
  st_boot_id : option str;
  st_uid : option Z;
  st_gid : option Z;
  st_default_size : SessionSize;
  requested_size : option SessionSize;
  last_client : option ClientInfo;
  active_clients : Z;
  last_disconnected_at : option Z;
  idle_deadline_at : option Z;
  st_components : list ComponentState;
}.

(** [sesman/state.rs:367-372 SessionHealth] *)
Inductive SessionHealth := Missing | Healthy | Degraded | Dead.
#[export] Instance SessionHealth_eq_dec : EqDecision SessionHealth.
Proof. solve_decision. Defined.

(** The JSON of the registry belongs to serde: it reads back what it wrote. *)
Class Json := {
  to_json : SessionState -> str;
  from_json : str -> option SessionState;
  from_to_json s : from_json (to_json s) = Some s;
}.

(** ** Errors *)
Inductive SesError :=
| IoError (path : str) | IoNotFound (path : str)
| BadJson (path : str) | UnsafeStateFile (path : str) | UntrustedStateFile (path : str)
| SessionLocked | CannotBind (h : SessionHealth) | NoState
| ExitedBeforeReady (name : str) | ReadyTimeout (name : str)
| SurvivedKill (names : list str) | SignalFailed (pid : Z) (group : bool)
| UserError (user : str)
| RelativeDir (path : str) | UnsafeDir (path : str) | WrongOwner (path : str)
| SpawnFailed (name : str) | SetprivExited (name : str) | SetprivTimeout (name : str)
| StartupFailed (cause : SesError) | StartupAndCleanupFailed (cause cleanup : SesError)
| UnsafeRuntimeRoot (path : str) | UnsafeLog (path : str).

(** ** The world *)
Inductive Sig := SIGTERM | SIGKILL.
#[export] Instance Sig_eq_dec : EqDecision Sig.
Proof. solve_decision. Defined.

(** What was done, for the specifications; the log gives the system call before
    which each event happened. *)
Inductive Event :=
| LockTaken (path : str) | LockReleased (path : str)
| Signalled (target : Z) (sig : Sig)
| RegistryWritten (path : str) | RegistryRemoved (path : str)
| RuntimePathRemoved (path : str)
| DirCreated (path : str) | Chowned (path : str) (uid gid : Z) | Chmodded (path : str) (mode : Z)
| LogTruncated (path : str)
| Spawned (argv : list str) (environment : list (str * str)) (pid : Z) | ChildKilled (pid : Z).

Record RegFile := mkRegFile { reg_meta : Metadata; reg_content : str }.

Record World := mkWorld {
  step : nat;
  now : Z;
  files : gmap (list Z) RegFile;
  log : list (nat * Event);
}.

(** How [fs::create_dir] ends. *)
Inductive mkdir_result := Created | AlreadyExists | MkdirErr.

(** Everything the host decides; [nat] counts the system calls. *)
Class Host := {
  os : nat -> Os;
  faults : nat -> bool;
  elapsed : nat -> Z;
  elapsed_nonneg i : 0 <= elapsed i;
  fresh_uuid : nat -> Z;
  unlink : nat -> str -> io unit;
  read_dir : nat -> str -> io (list str);
  mkdir : nat -> str -> mkdir_result;
  open_dir : nat -> str -> io Metadata;
  open_new : nat -> str -> mkdir_result;
  file_meta : nat -> str -> io (Metadata * Z);
  spawned_pid : nat -> option Z;
  child_exited : nat -> io bool;
}.

(** ** The monad *)
Definition M (A : Type) : Type := World -> outcome SesError A * World.
Definition ret {A} (a : A) : M A := fun w => (Ok a, w).
Definition bind {A B} (m : M A) (k : A -> M B) : M B := fun w =>
  match m w with
  | (Ok a, w) => k a w
  | (Err e, w) => (Err e, w)
  | (Panic, w) => (Panic, w)
  end.
Declare Scope ses_scope.
Delimit Scope ses_scope with ses.
Notation "'let!' x ':=' m 'in' k" := (bind m (fun x => k))
  (at level 200, x binder, m at level 100, k at level 200) : ses_scope.
Notation "'do!' m 'in' k" := (bind m (fun _ => k)) (at level 200, m at level 100, k at level 200) : ses_scope.
#[global] Open Scope ses_scope.
Definition fail {A} (e : SesError) : M A := fun w => (Err e, w).
Definition lift {A} (o : outcome SesError A) : M A := fun w => (o, w).
(** Run [m] and inspect how it ended. *)
Definition attempt {A} (m : M A) : M (outcome SesError A) := fun w => let '(r, w) := m w in (Ok r, w).
Definition when (b : bool) (m : M unit) : M unit := if b then m else ret tt.
(** [for x in xs { f(x)? }] *)
Fixpoint for_each {A} (xs : list A) (f : A -> M unit) : M unit :=
  match xs with [] => ret tt | x :: xs => do! f x in for_each xs f end.
(** [xs.map(f)] in order *)
Fixpoint map_m {A B} (f : A -> M B) (xs : list A) : M (list B) :=
  match xs with [] => ret [] | x :: xs => let! y := f x in let! ys := map_m f xs in ret (y :: ys) end.
(** [xs.all(f)], stopping at the first failure *)
Fixpoint all_m {A} (f : A -> M bool) (xs : list A) : M bool :=
  match xs with [] => ret true | x :: xs => let! b := f x in if b then all_m f xs else ret false end.

Section host.
Context `{Host}.

(** One system call, or [n] of them. *)
Definition tick (w : World) : World := mkWorld (S (step w)) (now w + elapsed (step w)) (files w) (log w).
Definition ticks (n : nat) (w : World) : World := Nat.iter n tick w.

Definition sys {A} (f : nat -> A) : M A := fun w => (Ok (f (step w)), tick w).
(** A check that makes [n] reads. *)
Definition reading {A} (n : nat) (f : view -> A) : M A := fun w => (Ok (f (fun i => os (step w + i)%nat)), ticks n w).
Definition emit (e : Event) : M unit := fun w => (Ok tt, mkWorld (step w) (now w) (files w) (log w ++ [(step w, e)])).
Definition set_files (f : gmap (list Z) RegFile) : M unit := fun w => (Ok tt, mkWorld (step w) (now w) f (log w)).
Definition get_files : M (gmap (list Z) RegFile) := fun w => (Ok (files w), w).

(** [Instant::now()] *)
Definition instant_now : M Z := fun w => (Ok (now w), tick w).
(** [Utc::now()] *)
Definition utc_now : M Z := sys (fun i => utc (os i)).
(** [thread::sleep(d)] sleeps at least [d]. *)
Definition sleep (d : Z) : M unit := fun w => (Ok tt, mkWorld (S (step w)) (now w + d + elapsed (step w)) (files w) (log w)).
(** A fallible step with no result. *)
Definition may_fail (e : SesError) : M unit := let! b := sys faults in if b then fail e else ret tt.
Definition of_io {A} (path : str) (r : io A) : M A :=
  match r with IoOk a => ret a | NotFound => fail (IoNotFound path) | IoErr => fail (IoError path) end.
Definition or_user {A} (user : str) (o : option A) : M A :=
  match o with Some a => ret a | None => fail (UserError user) end.

Definition uid_of (user : str) : M Z := let! o := sys (fun i => uid_for_user (os i) user) in or_user user o.
Definition gid_of (user : str) : M Z := let! o := sys (fun i => gid_for_user (os i) user) in or_user user o.

(** ** Runtime cleanup *)

(** Whether a path outside the registry's directory exists is up to the host; one of
    the registry's own files is there when [files] has it, and is gone afterwards.
    [sesman/cleanup.rs:32-39 remove_stale_path] *)
Definition remove_stale_path (path : str) : M unit :=
  let! r := sys (fun i => unlink i path) in
  let! fs := get_files in
  match r, fs !! path with
  | IoErr, _ => fail (IoError path)
  | NotFound, None => ret tt
  | _, _ => do! set_files (delete path fs) in emit (RuntimePathRemoved path)
  end.

(** The normal components of a path, and [Path::file_name] and [Path::parent],
    which ignore trailing slashes (for paths that do not begin with [./]). *)
Definition path_components (p : str) : list str :=
  List.filter (fun c => negb (bool_decide (c = []) || eqs c (lit "."))) (split_on 47 p).
Definition path_file_name (p : str) : option str :=
  match last (path_components p) with
  | Some n => if eqs n (lit "..") then None else Some n
  | None => None
  end.
Definition path_parent (p : str) : str :=
  match path_components p with
  | [] => lit "."
  | cs => (if is_absolute p then lit "/" else []) ++ join (lit "/") (removelast cs)
  end.

(** [s.ends_with(p)] *)
Definition ends_with_str (p s : str) : bool := starts_with (rev p) (rev s).

(** [sesman/cleanup.rs:41-72 cleanup_simple_glob] *)
Definition cleanup_simple_glob (pattern : str) : M unit :=
  match split_once 42 pattern with
  | None => remove_stale_path pattern
  | Some (prefix, suffix) =>
      match path_file_name prefix with
      | None => ret tt
      | Some name_prefix =>
          let parent := path_parent prefix in
          let! r := sys (fun i => read_dir i parent) in
          match r with
          | NotFound => ret tt
          | IoErr => fail (IoError parent)
          | IoOk names =>
              for_each names (fun file_name =>
                do! may_fail (IoError parent) in
                when (starts_with name_prefix file_name && ends_with_str suffix file_name)
                  (remove_stale_path (path_join parent file_name)))
          end
      end
  end.

(** [sesman/cleanup.rs:19-30 cleanup_runtime_paths] *)
Definition cleanup_runtime_paths (paths globs : list str) : M unit :=
  do! for_each paths remove_stale_path in
  for_each globs cleanup_simple_glob.

(** ** Directories *)

Definition is_dir (m : Metadata) : bool := bool_decide (kind m = Directory).

(** One component of the walk: it exists as a directory, or is created and then
    checked.  The result is whether it was created.
    [sesman/mod.rs:832-866 ensure_secure_directory] *)
Definition secure_component (current : str) : M bool :=
  let! r := sys (fun i => lstat (os i) current) in
  match r with
  | IoOk m => if is_dir m then ret false else fail (UnsafeDir current)
  | IoErr => fail (IoError current)
  | NotFound =>
      let! c := sys (fun i => mkdir i current) in
      let! created := match c with
                | Created => do! emit (DirCreated current) in ret true
                | AlreadyExists => ret false
                | MkdirErr => fail (IoError current)
                end in
      let! r := sys (fun i => lstat (os i) current) in
      let! m := of_io current r in
      if is_dir m then ret created else fail (UnsafeDir current)
  end.

(** The walk from the root; the result is whether the leaf was created.
    [sesman/mod.rs:822-867 ensure_secure_directory] *)
Fixpoint secure_walk (current : str) (cs : list str) : M bool :=
  match cs with
  | [] => ret false
  | c :: cs =>
      if eqs c (lit "..") then fail (UnsafeDir current)
      else
        let current := path_join current c in
        let! created := secure_component current in
        match cs with [] => ret created | _ => secure_walk current cs end
  end.

(** [sesman/mod.rs:811-904 ensure_secure_directory] *)
Definition ensure_secure_directory (path : str) (uid gid : Z) (chown_created : bool) : M unit :=
  if negb (is_absolute path) then fail (RelativeDir path)
  else
    let! created_leaf := secure_walk (lit "/") (path_components path) in
    let! r := sys (fun i => open_dir i path) in
    let! m := of_io path r in
    if negb (is_dir m) then fail (UnsafeDir path)
    else
      do! when (created_leaf && chown_created) (do! may_fail (IoError path) in emit (Chowned path uid gid)) in
      let! r := sys (fun i => open_dir i path) in
      let! m := of_io path r in
      if negb (owner m =? uid) || negb (group m =? gid) then fail (WrongOwner path)
      else do! may_fail (IoError path) in emit (Chmodded path 448).

(** [launch.rs:187-187 MAX_COMPONENT_LOG_BYTES] *)
Definition MAX_COMPONENT_LOG_BYTES : Z := 10 * 1024 * 1024.

Definition is_file (m : Metadata) : bool := bool_decide (kind m = RegularFile).

(** [launch.rs:186-267 open_log] *)
Definition open_log (path : str) (uid gid : Z) : M unit :=
  match path_components path with
  | [] => fail (UnsafeLog path)
  | _ =>
      let parent := path_parent path in
      let! r := sys (fun i => lstat (os i) parent) in
      let! m := of_io parent r in
      if negb (is_dir m) then fail (UnsafeDir parent)
      else if negb (owner m =? uid) || negb (group m =? gid) then fail (WrongOwner parent)
      else
        let! r := sys (fun i => lstat (os i) path) in
        do! match r with
            | IoOk m => if is_file m then ret tt else fail (UnsafeLog path)
            | NotFound => ret tt
            | IoErr => fail (IoError path)
            end in
        let! r := sys (fun i => open_new i path) in
        let! created := match r with
                        | Created => ret true
                        | AlreadyExists => do! may_fail (IoError path) in ret false
                        | MkdirErr => fail (IoError path)
                        end in
        let! r := sys (fun i => file_meta i path) in
        let! ml := of_io path r in
        if negb (is_file ml.1) then fail (UnsafeLog path)
        else
          do! (if created : bool then do! may_fail (IoError path) in emit (Chowned path uid gid)
               else if negb (owner ml.1 =? uid) || negb (group ml.1 =? gid) then fail (WrongOwner path)
               else ret tt) in
          do! may_fail (IoError path) in
          do! emit (Chmodded path 384) in
          let! r := sys (fun i => file_meta i path) in
          let! ml := of_io path r in
          when (snd ml >? MAX_COMPONENT_LOG_BYTES) (do! may_fail (IoError path) in emit (LogTruncated path))
  end.

(** ** Launching *)

(** [launch.rs:29-29 IDENTITY_SETTLE_TIMEOUT] *)
Definition IDENTITY_SETTLE_TIMEOUT : Z := secs 1.
(** [launch.rs:30-30 IDENTITY_SETTLE_POLL_INTERVAL] *)
Definition IDENTITY_SETTLE_POLL_INTERVAL : Z := ms 10.

Definition or_else {A} (a b : option A) : option A := match a with Some _ => a | None => b end.

(** The polling loop; its fuel is never exhausted ([SesStart.settle_extra]).
    [launch.rs:139-171 settle_setpriv_identity] *)
Fixpoint settle_loop (fuel : nat) (name : str) (p expected_uid deadline : Z) (start_ticks : option Z) : M CapturedIdentity :=
  match fuel with
  | O => fail (SetprivTimeout name)
  | S fuel =>
      let! r := sys child_exited in
      let! exited := of_io name r in
      if exited : bool then fail (SetprivExited name)
      else
        let! identity := reading 4 (fun v => capture_identity v p) in
        let start_ticks := or_else start_ticks (cap_start_ticks identity) in
        let identity := mkCaptured start_ticks (cap_boot_id identity) (cap_uid identity) (cap_pgid identity) in
        let! alive := reading 2 (fun v => process_alive v p) in
        if identity_is_settled identity expected_uid alive then ret identity
        else
          let! t := instant_now in
          let remaining := sat_sub deadline t in
          if remaining =? 0 then fail (SetprivTimeout name)
          else
            do! sleep (Z.min IDENTITY_SETTLE_POLL_INTERVAL remaining) in
            settle_loop fuel name p expected_uid deadline start_ticks
  end.
Definition settle_fuel : nat := 102.

(** [launch.rs:33-42 LaunchContext] *)
Record LaunchContext := mkLaunch {
  lc_user : str; lc_uid : Z; lc_gid : Z; lc_groups : list Z; lc_home : str;
  lc_xdg_runtime_dir : str; lc_log_dir : str; lc_environment : list (str * str);
}.

(** The command line: the component behind [setpriv].  [launch.rs:56-73 spawn_managed_component] *)
Definition launch_argv (c : ComponentConfig) (x : LaunchContext) : list str :=
  [lit "/usr/bin/setpriv"; lit "--reuid"; fmt_dec (lc_uid x); lit "--regid"; fmt_dec (lc_gid x);
   lit "--groups"; join (lit ",") (map fmt_dec (lc_groups x)); lit "--"; command c] ++ args c.
(** The variables set on the command, later settings first in force.
    [launch.rs:74-79 spawn_managed_component] *)
Definition launch_environment (c : ComponentConfig) (x : LaunchContext) : list (str * str) :=
  bt_collect ([(lit "XDG_RUNTIME_DIR", lc_xdg_runtime_dir x); (lit "USER", lc_user x); (lit "LOGNAME", lc_user x);
               (lit "HOME", lc_home x)] ++ lc_environment x ++ env c).

(** [launch.rs:45-135 spawn_managed_component] *)
Definition spawn_managed_component (c : ComponentConfig) (x : LaunchContext) : M ComponentState :=
  let name := comp_name c in
  let log_path := or_default (path_join (lc_log_dir x) (name ++ lit ".log")) (log_path c) in
  do! open_log log_path (lc_uid x) (lc_gid x) in
  do! may_fail (IoError log_path) in
  let! child := sys spawned_pid in
  match child with
  | None => fail (SpawnFailed name)
  | Some p =>
      do! emit (Spawned (launch_argv c x) (launch_environment c x) p) in
      let! t := instant_now in
      let identity_deadline := t + IDENTITY_SETTLE_TIMEOUT in
      if p >? i32_max then fail (SpawnFailed name)
      else
        let! r := attempt (settle_loop settle_fuel name p (lc_uid x) identity_deadline None) in
        match r with
        | Ok identity =>
            let! t := utc_now in
            ret (mkCompState name p (command c :: args c) t (cap_start_ticks identity) (cap_boot_id identity)
                   (cap_uid identity) (cap_pgid identity) (required c) true)
        | Err e => do! emit (ChildKilled p) in fail e
        | Panic => lift Panic
        end
  end.
End host.
