(* ===== verification/Sesman.v ===== *)
(** * The session manager

    Models [SessionManager] of src/src/sesman/mod.rs: every public operation with
    its lock, registry accesses, process checks, signals, waits and error paths. *)
From S2P Require Import Prelude Text SesProcess SesConfig SesHost.

(** [a == b] on paths compares their components. *)
Definition path_eq (a b : str) : bool :=
  Bool.eqb (is_absolute a) (is_absolute b) && bool_decide (path_components a = path_components b).

(** [sesman/state.rs:376-381 SessionStatus] *)
Record SessionStatus := mkStatus {
  health : SessionHealth;
  status_path : str;
  state : option SessionState;
  dead_components : list str;
}.

(** [sesman/state.rs:385-388 EnsureResult] *)
Record EnsureResult := mkEnsured { reused_existing : bool; ensured_status : SessionStatus }.

(** [sesman/state.rs:392-398 EnsureOptions] *)
Record EnsureOptions := mkOptions {
  force_restart : bool;
  wanted_size : option SessionSize;
  client_peer : option str;
  client_connected : bool;
}.

(** [sesman/mod.rs:797-807 component_signature] *)
Definition component_signature (c : ComponentState) : ProcessSignature :=
  mkSignature (pid c) (cs_command c) (started_at c) (start_ticks c) (boot_id c) (cs_uid c) (pgid c).

(** Some fields of a session state replaced. *)
Definition set_clients (n : Z) (disconnected deadline : option Z) (s : SessionState) : SessionState :=
  mkState (version s) (id s) (st_name s) (st_user s) (created_at s) (updated_at s) (st_xdg_runtime_dir s) (st_boot_id s)
    (st_uid s) (st_gid s) (st_default_size s) (requested_size s) (last_client s) n disconnected deadline (st_components s).
(** [sesman/state.rs:360-362 mark_updated] *)
Definition mark_updated (t : Z) (s : SessionState) : SessionState :=
  mkState (version s) (id s) (st_name s) (st_user s) (created_at s) t (st_xdg_runtime_dir s) (st_boot_id s)
    (st_uid s) (st_gid s) (st_default_size s) (requested_size s) (last_client s) (active_clients s)
    (last_disconnected_at s) (idle_deadline_at s) (st_components s).
Definition set_request (z : option SessionSize) (c : option ClientInfo) (s : SessionState) : SessionState :=
  mkState (version s) (id s) (st_name s) (st_user s) (created_at s) (updated_at s) (st_xdg_runtime_dir s) (st_boot_id s)
    (st_uid s) (st_gid s) (st_default_size s) z c (active_clients s)
    (last_disconnected_at s) (idle_deadline_at s) (st_components s).
Definition push_component (c : ComponentState) (s : SessionState) : SessionState :=
  mkState (version s) (id s) (st_name s) (st_user s) (created_at s) (updated_at s) (st_xdg_runtime_dir s) (st_boot_id s)
    (st_uid s) (st_gid s) (st_default_size s) (requested_size s) (last_client s) (active_clients s)
    (last_disconnected_at s) (idle_deadline_at s) (st_components s ++ [c]).

(** [n as i64] of a [u64] *)
Definition as_i64 (n : Z) : Z := if n <=? i64_max then n else n - 2 ^ 64.

(** [path.with_extension("state.json.tmp")] of a path that ends in [.json] *)
Definition tmp_path (p : str) : str := take (length p - 5) p ++ lit ".state.json.tmp".

Section manager.
Context `{Chrono, Json, Host}.
Variable config : SesmanConfig.

(** ** The registry file *)

(** [sesman/mod.rs:605-609 is_production_registry] *)
Definition is_production_registry (o : Os) : bool :=
  match uid_for_user o (user config) with
  | Some uid => path_eq (state_dir config) (lit "/run/wrdp/sesman/" ++ fmt_dec uid)
  | None => false
  end.
(** A production registry not owned by the daemon. *)
Definition untrusted (m : Metadata) (v : view) : bool :=
  is_production_registry (v 0%nat) && negb (owner m =? effective_uid (v 1%nat)).

(** [sesman/mod.rs:694-721 read_state_file] *)
Definition read_state_file (path : str) : M str :=
  do! may_fail (IoError path) in
  let! fs := get_files in
  match fs !! path with
  | None => fail (IoNotFound path)
  | Some f =>
      if negb (is_file (reg_meta f)) then fail (UnsafeStateFile path)
      else
        let! bad := reading 2 (untrusted (reg_meta f)) in
        if bad : bool then fail (UntrustedStateFile path)
        else
          do! may_fail (IoError path) in
          let! bad := reading 2 (untrusted (reg_meta f)) in
          if bad : bool then fail (UntrustedStateFile path)
          else do! may_fail (IoError path) in ret (reg_content f)
  end.

(** [sesman/mod.rs:723-738 remove_state_file] *)
Definition remove_state_file (path : str) : M unit :=
  do! may_fail (IoError path) in
  let! fs := get_files in
  match fs !! path with
  | None => ret tt
  | Some f =>
      if negb (is_file (reg_meta f)) then fail (UnsafeStateFile path)
      else
        let! bad := reading 2 (untrusted (reg_meta f)) in
        if bad : bool then fail (UntrustedStateFile path)
        else
          do! may_fail (IoError path) in
          do! set_files (delete path fs) in
          emit (RegistryRemoved path)
  end.

(** The write goes to a temporary file that replaces the registry at the end.
    [sesman/mod.rs:740-770 write_state] *)
Definition write_state (s : SessionState) : M unit :=
  let path := state_path config in
  let tmp := tmp_path path in
  let data := to_json s in
  do! may_fail (IoError tmp) in
  let! fs := get_files in
  let! euid := sys (fun i => effective_uid (os i)) in
  let! egid := sys (fun i => effective_gid (os i)) in
  let! m := match fs !! tmp with
            | Some f => if is_file (reg_meta f) then ret (reg_meta f) else fail (IoError tmp)
            | None => ret (mkMeta RegularFile euid egid)
            end in
  do! set_files (<[tmp := mkRegFile m []]> fs) in
  do! may_fail (IoError tmp) in
  do! may_fail (IoError tmp) in
  do! set_files (<[tmp := mkRegFile m data]> fs) in
  do! may_fail (IoError tmp) in
  do! may_fail (IoError path) in
  do! set_files (delete tmp (<[path := mkRegFile m data]> fs)) in
  emit (RegistryWritten path).

(** [sesman/mod.rs:781-794 acquire] and the release when the guard is dropped. *)
Definition with_lock {A} (body : M A) : M A :=
  let path := lock_path config in
  do! may_fail (IoError path) in
  do! may_fail SessionLocked in
  do! emit (LockTaken path) in
  let! r := attempt body in
  do! emit (LockReleased path) in
  lift r.

(** ** Status *)

(** [sesman/mod.rs:506-516 state_belongs_to_config] *)
Definition state_belongs_to_config (v : view) (s : SessionState) : bool :=
  let expected_uid := uid_for_user (v 0%nat) (user config) in
  let expected_gid := gid_for_user (v 1%nat) (user config) in
  (version s =? STATE_VERSION) && eqs (st_name s) (session_name config) && eqs (st_user s) (user config)
  && path_eq (st_xdg_runtime_dir s) (xdg_runtime_dir config)
  && bool_decide (st_boot_id s = read_boot_id (v 2%nat))
  && bool_decide (st_uid s = expected_uid) && bool_decide (st_gid s = expected_gid).

(** [sesman/mod.rs:677-688 unix_socket_ready] *)
Definition unix_socket_ready (path : str) (v : view) : bool :=
  match uid_for_user (v 0%nat) (user config) with
  | None => false
  | Some target_uid =>
      match lstat (v 1%nat) path with
      | IoOk m => bool_decide (kind m = Socket) && (owner m =? target_uid) && connects (v 2%nat) path
      | _ => false
      end
  end.

Definition find_state (n : str) (s : SessionState) : option ComponentState :=
  snd <$> list_find (fun c => eqs (cs_name c) n) (st_components s).
Definition find_config (n : str) : option ComponentConfig :=
  snd <$> list_find (fun c => eqs (comp_name c) n) (components config).

Definition matches (c : ComponentState) (p : MatchPurpose) : M bool :=
  reading match_reads (fun v => process_matches v (component_signature c) p).

(** One configured component: is it alive, and the name to report otherwise.
    [sesman/mod.rs:185-212 status] *)
Definition classify_one (s : SessionState) (configured : ComponentConfig) : M (nat * list str) :=
  match find_state (comp_name configured) s with
  | None => ret (0%nat, if required configured then [comp_name configured] else [])
  | Some c =>
      let! matched := (if bool_decide (cs_command c = command configured :: args configured)
                       then matches c Status else ret false) in
      let! ready := (if matched : bool then
                       match readiness configured with
                       | NoCheck | ProcessAlive => ret true
                       | UnixSocket path => reading 3 (unix_socket_ready path)
                       end
                     else ret false) in
      ret (if ready : bool then (1%nat, []) else (0%nat, [cs_name c]))
  end.

Fixpoint classify (s : SessionState) (cs : list ComponentConfig) : M (nat * list str) :=
  match cs with
  | [] => ret (0%nat, [])
  | c :: cs =>
      let! r := classify_one s c in
      let! rs := classify s cs in
      ret ((r.1 + rs.1)%nat, r.2 ++ rs.2)
  end.

(** Persisted components that are no longer configured.  [sesman/mod.rs:216-225 status] *)
Definition removed_components (s : SessionState) : list str :=
  List.filter (fun n => negb (is_some (find_config n))) (map cs_name (st_components s)).

(** [sesman/mod.rs:154-242 status] *)
Definition status : M SessionStatus :=
  let path := state_path config in
  let! r := attempt (read_state_file path) in
  let! st := match r with
             | Ok content => match from_json content with Some s => ret (Some s) | None => fail (BadJson path) end
             | Err (IoNotFound _) => ret None
             | Err e => fail e
             | Panic => lift Panic
             end in
  match st with
  | None => ret (mkStatus Missing path None [])
  | Some s =>
      let! owned := reading 3 (fun v => state_belongs_to_config v s) in
      let! counts := (if owned : bool then
                        let! r := classify s (components config) in
                        ret (r.1, r.2 ++ removed_components s)
                      else ret (0%nat, [lit "session-registry"])) in
      let dead := snd counts in
      let h := if bool_decide (dead = []) then Healthy else if bool_decide (fst counts = 0%nat) then Dead else Degraded in
      ret (mkStatus h path (Some s) dead)
  end.

(** [sesman/mod.rs:518-528 status_can_serve] *)
Definition status_can_serve (s : SessionStatus) : bool :=
  bool_decide (health s = Healthy)
  || (bool_decide (health s = Degraded)
      && forallb (fun n => match find_config n with Some c => negb (required c) | None => false end) (dead_components s)).

(** ** Stopping *)

(** The check made once per component before anything is signalled.
    [sesman/mod.rs:424-432 stop_state] *)
Definition authorize (owned : bool) (c : ComponentState) : M bool :=
  let! m := (if owned then matches c Signal else ret false) in
  ret (m && (negb (process_group c) || bool_decide (pgid c = Some (pid c)))).

(** [sesman/mod.rs:433-440 stop_state] *)
Definition target_alive (t : bool * ComponentState) : M bool :=
  let '(authorized, c) := t in
  if authorized then
    if process_group c then sys (fun i => process_group_alive (os i) (pid c)) else matches c Signal
  else ret false.

(** [sesman/mod.rs:441-447 stop_state] *)
Definition all_targets_stopped (ts : list (bool * ComponentState)) : M bool :=
  all_m (fun t => let! a := target_alive t in ret (negb a)) ts.

(** [process.rs:229-238 signal_process] *)
Definition signal_process (c : ComponentState) (sig : Sig) : M unit :=
  let target := if process_group c then - pid c else pid c in
  do! emit (Signalled target sig) in
  may_fail (SignalFailed (pid c) (process_group c)).

(** One pass over the targets, last started first.  [sesman/mod.rs:449-460 stop_state] *)
Definition signal_all (sig : Sig) (ts : list (bool * ComponentState)) : M unit :=
  for_each (rev ts) (fun t =>
    let! alive := target_alive t in
    when alive (
      let! r := attempt (signal_process t.2 sig) in
      match r with
      | Ok _ => ret tt
      | Err e => let! still := target_alive t in if still : bool then fail e else ret tt
      | Panic => lift Panic
      end)).

(** [while now < deadline && !all_targets_stopped() { sleep(100ms) }]; the fuel is
    never exhausted ([SesStart.wait_stopped_extra]).  [sesman/mod.rs:462-465 stop_state] *)
Fixpoint wait_stopped (fuel : nat) (deadline : Z) (ts : list (bool * ComponentState)) : M unit :=
  match fuel with
  | O => ret tt
  | S fuel =>
      let! t := instant_now in
      if t <? deadline then
        let! stopped := all_targets_stopped ts in
        if stopped : bool then ret tt
        else do! sleep (ms 100) in wait_stopped fuel deadline ts
      else ret tt
  end.
(** Iterations of a loop that sleeps 100 ms, within [timeout] milliseconds. *)
Definition poll_fuel (timeout : Z) : nat := Z.to_nat (timeout / 100 + 2).

Definition wait_for_stop (ts : list (bool * ComponentState)) : M unit :=
  let! t := instant_now in
  wait_stopped (poll_fuel (stop_timeout_ms config)) (t + ms (stop_timeout_ms config)) ts.

(** [sesman/mod.rs:486-492 stop_state] *)
Fixpoint survivors (ts : list (bool * ComponentState)) : M (list str) :=
  match ts with
  | [] => ret []
  | t :: ts =>
      let! alive := target_alive t in
      let! rest := survivors ts in
      ret (if alive : bool then cs_name t.2 :: rest else rest)
  end.

(** [sesman/mod.rs:690-692 cleanup_runtime_paths] *)
Definition cleanup_runtime : M unit := cleanup_runtime_paths (cleanup_paths config) (cleanup_globs config).

(** [sesman/mod.rs:418-504 stop_state] *)
Definition stop_state (s : SessionState) : M unit :=
  let! owned := reading 3 (fun v => state_belongs_to_config v s) in
  let! authorized := map_m (authorize owned) (st_components s) in
  let ts := combine authorized (st_components s) in
  do! signal_all SIGTERM ts in
  do! wait_for_stop ts in
  do! signal_all SIGKILL ts in
  do! wait_for_stop ts in
  let! left_over := survivors ts in
  if bool_decide (left_over <> []) then fail (SurvivedKill left_over)
  else do! cleanup_runtime in remove_state_file (state_path config).

(** [sesman/mod.rs:410-416 stop_locked] *)
Definition stop_locked : M unit :=
  let! st := status in
  match state st with None => ret tt | Some s => stop_state s end.

(** [sesman/mod.rs:245-249 stop] *)
Definition stop : M SessionStatus := with_lock (do! stop_locked in status).

(** ** Clients and idleness *)

(** [sesman/mod.rs:389-394 idle_deadline_after] *)
Definition idle_deadline_after (base : Z) : M (option Z) :=
  if idle_timeout_ms config =? 0 then ret None
  else match date_add base (ms (as_i64 (idle_timeout_ms config))) with
       | Some t => ret (Some t)
       | None => lift Panic
       end.

(** [sesman/mod.rs:400-408 effective_idle_deadline] *)
Definition effective_idle_deadline (s : SessionState) : M (option Z) :=
  match idle_deadline_at s with
  | Some d => ret (Some d)
  | None =>
      if idle_timeout_ms config =? 0 then ret None
      else match last_disconnected_at s with None => ret None | Some t => idle_deadline_after t end
  end.

Definition touch (s : SessionState) : M SessionState := let! t := utc_now in ret (mark_updated t s).

(** [sesman/mod.rs:257-272 bind_single_client] *)
Definition bind_single_client : M SessionStatus :=
  with_lock (
    let! st := status in
    if negb (status_can_serve st) then fail (CannotBind (health st))
    else match state st with
         | None => fail NoState
         | Some s =>
             let! s := touch (set_clients 1 None None s) in
             do! write_state s in
             status
         end).

(** [sesman/mod.rs:276-289 unbind_single_client] *)
Definition unbind_single_client : M SessionStatus :=
  with_lock (
    let! st := status in
    match state st with
    | None => ret st
    | Some s =>
        let! now := utc_now in
        let! deadline := idle_deadline_after now in
        let! s := touch (set_clients 0 (Some now) deadline s) in
        do! write_state s in
        status
    end).

(** [sesman/mod.rs:292-307 disconnect_client] *)
Definition disconnect_client : M SessionStatus :=
  with_lock (
    let! st := status in
    match state st with
    | None => ret st
    | Some s =>
        let n := sat_sub (active_clients s) 1 in
        let! s := (if n =? 0 then
                     let! now := utc_now in
                     let! deadline := idle_deadline_after now in
                     ret (set_clients n (Some now) deadline s)
                   else ret (set_clients n (last_disconnected_at s) (idle_deadline_at s) s)) in
        let! s := touch s in
        do! write_state s in
        status
    end).

(** [sesman/mod.rs:361-385 cleanup_idle_locked] *)
Definition cleanup_idle_locked : M bool :=
  let! st := status in
  match health st, state st with
  | Missing, _ | _, None => ret false
  | _, Some s =>
      if active_clients s >? 0 then ret false
      else
        let! deadline := effective_idle_deadline s in
        match deadline with
        | None => ret false
        | Some d =>
            let! now := utc_now in
            if now <? d then ret false
            else do! stop_locked in ret true
        end
  end.

(** [sesman/mod.rs:311-314 cleanup_idle] *)
Definition cleanup_idle : M bool := with_lock cleanup_idle_locked.

(** The reconciled state and whether it changed.
    [sesman/mod.rs:331-348 reconcile_after_daemon_restart] *)
Definition reconcile (now : Z) (s : SessionState) : M (SessionState * bool) :=
  let changed := active_clients s >? 0 in
  let s := if changed then set_clients 0 (last_disconnected_at s) (idle_deadline_at s) s else s in
  let missing := negb (is_some (last_disconnected_at s)) in
  let s := if missing then set_clients (active_clients s) (Some now) (idle_deadline_at s) s else s in
  let changed := changed || missing in
  if negb (is_some (idle_deadline_at s)) && negb (idle_timeout_ms config =? 0) then
    let! d := idle_deadline_after (or_default now (last_disconnected_at s)) in
    ret (set_clients (active_clients s) (last_disconnected_at s) d s, true)
  else ret (s, changed).

(** [sesman/mod.rs:325-355 reconcile_after_daemon_restart] *)
Definition reconcile_after_daemon_restart : M SessionStatus :=
  with_lock (
    let! st := status in
    match state st with
    | None => ret st
    | Some s =>
        let! now := utc_now in
        let! sc := reconcile now s in
        do! when (snd sc) (let! s := touch (fst sc) in write_state s) in
        do! (let! _ := cleanup_idle_locked in ret tt) in
        status
    end).

(** ** Starting *)

(** [sesman/mod.rs:601-603 is_production_runtime] *)
Definition is_production_runtime (target_uid : Z) : bool :=
  path_eq (xdg_runtime_dir config) (lit "/run/user/" ++ fmt_dec target_uid ++ lit "/wrdp").

(** [sesman/mod.rs:553-599 prepare_directories] *)
Definition prepare_directories : M unit :=
  let! target_uid := uid_of (user config) in
  let! target_gid := gid_of (user config) in
  let! euid := sys (fun i => effective_uid (os i)) in
  let! egid := sys (fun i => effective_gid (os i)) in
  do! when (is_production_runtime target_uid) (
    let root := lit "/run/user/" ++ fmt_dec target_uid in
    let! r := sys (fun i => lstat (os i) root) in
    let! m := of_io root r in
    if negb (is_dir m) || negb (owner m =? target_uid) then fail (UnsafeRuntimeRoot root) else ret tt) in
  do! ensure_secure_directory (state_dir config) euid egid true in
  do! ensure_secure_directory (xdg_runtime_dir config) target_uid target_gid true in
  ensure_secure_directory (log_dir config) target_uid target_gid true.

(** [sesman/mod.rs:611-629 spawn_component] *)
Definition spawn_component (c : ComponentConfig) : M ComponentState :=
  let! uid := uid_of (user config) in
  let! gid := gid_of (user config) in
  let! o := sys (fun i => supplementary_groups_for_user (os i) (user config) gid) in
  let! groups := or_user (user config) o in
  let! o := sys (fun i => home_dir_for_user (os i) (user config)) in
  let! home := or_user (user config) o in
  spawn_managed_component c
    (mkLaunch (user config) uid gid groups home (xdg_runtime_dir config) (log_dir config) (environment config)).

(** One look at a starting component: [Some] ends the wait.
    [sesman/mod.rs:634-658 wait_until_ready] *)
Definition look_ready (c : ComponentConfig) (s : SessionState) : M (option (outcome SesError unit)) :=
  let! alive := match find_state (comp_name c) s with
                | Some x => matches x Status
                | None => ret false
                end in
  if negb alive then ret (Some (if required c then Err (ExitedBeforeReady (comp_name c)) else Ok tt))
  else match readiness c with
       | NoCheck | ProcessAlive => ret (Some (Ok tt))
       | UnixSocket path =>
           let! ready := reading 3 (unix_socket_ready path) in
           ret (if ready : bool then Some (Ok tt) else None)
       end.

(** The polling loop; its fuel is never exhausted ([SesStart.wait_ready_extra]).
    [sesman/mod.rs:633-674 wait_until_ready] *)
Fixpoint wait_ready (fuel : nat) (deadline : Z) (c : ComponentConfig) (s : SessionState) : M unit :=
  let timed_out := if required c then fail (ReadyTimeout (comp_name c)) else ret tt in
  match fuel with
  | O => timed_out
  | S fuel =>
      let! r := look_ready c s in
      match r with
      | Some o => lift o
      | None =>
          let! t := instant_now in
          if deadline <=? t then timed_out
          else do! sleep (ms 100) in wait_ready fuel deadline c s
      end
  end.

(** [sesman/mod.rs:631-675 wait_until_ready] *)
Definition wait_until_ready (c : ComponentConfig) (s : SessionState) : M unit :=
  let! t := instant_now in
  wait_ready (poll_fuel (start_timeout_ms config)) (t + ms (start_timeout_ms config)) c s.

(** [sesman/state.rs:333-358 new] *)
Definition session_new : M SessionState :=
  let! now := utc_now in
  let! uuid := sys fresh_uuid in
  let! b := sys (fun i => read_boot_id (os i)) in
  let! uid := sys (fun i => uid_for_user (os i) (user config)) in
  let! gid := sys (fun i => gid_for_user (os i) (user config)) in
  ret (mkState STATE_VERSION uuid (session_name config) (user config) now now (xdg_runtime_dir config) b uid gid
         (default_size config) None None 0 None None []).

(** [sesman/mod.rs:530-547 update_reconnect_state] *)
Definition update_reconnect_state (s : SessionState) (o : EnsureOptions) : M SessionState :=
  let size := match wanted_size o with Some z => Some z | None => requested_size s end in
  let! client := match client_peer o with
                 | Some p => let! t := utc_now in ret (Some (mkClient p t (wanted_size o)))
                 | None => ret (last_client s)
                 end in
  let s := set_request size client s in
  touch (if client_connected o then set_clients (sat_add u32_max (active_clients s) 1) None None s else s).

(** One component of the start loop.  [sesman/mod.rs:122-131 ensure] *)
Definition start_component (s : SessionState) (c : ComponentConfig) : M SessionState :=
  let! cs := spawn_component c in
  ret (push_component cs s).

(** The start loop.  The session state survives a failure, for the cleanup.
    [sesman/mod.rs:121-133 ensure] *)
Fixpoint start_all (s : SessionState) (cs : list ComponentConfig) : M (SessionState * outcome SesError unit) :=
  match cs with
  | [] => ret (s, Ok tt)
  | c :: cs =>
      let! r := attempt (start_component s c) in
      match r with
      | Err e => ret (s, Err e)
      | Panic => ret (s, Panic)
      | Ok s =>
          let! s := touch s in
          let! r := attempt (
            do! write_state s in
            do! wait_until_ready c s in
            when (startup_delay_ms c >? 0) (sleep (ms (startup_delay_ms c)))) in
          match r with
          | Ok _ => start_all s cs
          | r => ret (s, r)
          end
      end
  end.

(** The body of [ensure] under the lock.  [sesman/mod.rs:86-150 ensure] *)
Definition ensure_locked (o : EnsureOptions) : M EnsureResult :=
  let! st := status in
  let! st := (if force_restart o then do! stop_locked in status else ret st) in
  if status_can_serve st then
    match state st with
    | None => fail NoState
    | Some s =>
        let! s := update_reconnect_state s o in
        do! write_state s in
        let! st := status in
        ret (mkEnsured true st)
    end
  else
    do! when (bool_decide (health st = Degraded) || bool_decide (health st = Dead)) stop_locked in
    do! cleanup_runtime in
    let! s := session_new in
    let! s := update_reconnect_state s o in
    let! r := start_all s (components config) in
    match snd r with
    | Ok _ => let! st := status in ret (mkEnsured false st)
    | Panic => lift Panic
    | Err e =>
        let! c := attempt (stop_state (fst r)) in
        match c with
        | Ok _ => fail (StartupFailed e)
        | Err e' => fail (StartupAndCleanupFailed e e')
        | Panic => lift Panic
        end
    end.

(** [sesman/mod.rs:82-151 ensure] *)
Definition ensure (o : EnsureOptions) : M EnsureResult :=
  do! prepare_directories in
  with_lock (ensure_locked o).
End manager.
