(* ===== verification/SesSample.v ===== *)
(** * A concrete host and a concrete registry format

    A serialisation of session states that reads back what it wrote, and a host
    on which one component runs until it is signalled; the instances of [Json]
    and [Host] that show the hypotheses of the session theorems can hold. *)
From S2P Require Import Prelude Text SesProcess SesConfig SesHost Sesman.

(** ** Serialisation *)
Class Codec (A : Type) := {
  put : A -> list Z;
  get : list Z -> option (A * list Z);
  get_put a r : get (put a ++ r) = Some (a, r);
}.

#[export] Program Instance codec_Z : Codec Z := {|
  put z := [z];
  get l := match l with z :: r => Some (z, r) | [] => None end;
|}.
Next Obligation. done. Qed.

#[export] Program Instance codec_pair {A B} `{Codec A, Codec B} : Codec (A * B) := {|
  put p := put p.1 ++ put p.2;
  get l := '(a, r) ← get l; '(b, r) ← get r; Some ((a, b), r);
|}.
Next Obligation. intros A B CA CB [a b] r. cbn. rewrite <- app_assoc, get_put. cbn. by rewrite get_put. Qed.

(** A type that embeds in another with a codec. *)
Definition codec_via {A B} `{Codec B} (f : A -> B) (g : B -> option A) (Hgf : forall a, g (f a) = Some a) : Codec A.
Proof.
  refine {| put a := put (f a); get l := '(b, r) ← get l; a ← g b; Some (a, r) |}.
  intros a r. rewrite get_put. cbn. by rewrite Hgf.
Defined.

#[export] Instance codec_bool : Codec bool := codec_via (fun b : bool => if b then 1 else 0) (fun z => Some (z =? 1))
  ltac:(by intros []).

#[export] Program Instance codec_option {A} `{Codec A} : Codec (option A) := {|
  put o := match o with Some a => 1 :: put a | None => [0] end;
  get l := match l with
           | z :: r => if z =? 0 then Some (None, r) else '(a, r) ← get r; Some (Some a, r)
           | [] => None
           end;
|}.
Next Obligation. intros A CA [a|] r; [|done]. cbn. by rewrite get_put. Qed.

Fixpoint get_n {A} `{Codec A} (n : nat) (l : list Z) : option (list A * list Z) :=
  match n with
  | O => Some ([], l)
  | S n => '(a, r) ← get l; '(xs, r) ← get_n n r; Some (a :: xs, r)
  end.
Lemma get_n_put {A} `{Codec A} (xs : list A) r : get_n (length xs) (concat (map put xs) ++ r) = Some (xs, r).
Proof. induction xs as [|x xs IH]; [done|]. cbn. rewrite <- app_assoc, get_put. cbn. by rewrite IH. Qed.

#[export] Program Instance codec_list {A} `{Codec A} : Codec (list A) := {|
  put xs := Z.of_nat (length xs) :: concat (map put xs);
  get l := match l with n :: r => get_n (Z.to_nat n) r | [] => None end;
|}.
Next Obligation. intros A CA xs r. cbn. rewrite Nat2Z.id. apply get_n_put. Qed.

#[export] Instance codec_size : Codec SessionSize :=
  codec_via (fun z => (size_width z, size_height z)) (fun p => Some (mkSize p.1 p.2)) ltac:(by intros []).
#[export] Instance codec_client : Codec ClientInfo :=
  codec_via (fun c => (peer c, (connected_at c, client_size c))) (fun '(a, (b, c)) => Some (mkClient a b c)) ltac:(by intros []).
#[export] Instance codec_component : Codec ComponentState :=
  codec_via (fun c => (cs_name c, (pid c, (cs_command c, (started_at c, (start_ticks c, (boot_id c, (cs_uid c,
      (pgid c, (cs_required c, process_group c))))))))))
    (fun '(a, (b, (c, (d, (e, (f, (g, (h, (i, j))))))))) => Some (mkCompState a b c d e f g h i j)) ltac:(by intros []).
#[export] Instance codec_state : Codec SessionState :=
  codec_via (fun s => (version s, (id s, (st_name s, (st_user s, (created_at s, (updated_at s, (st_xdg_runtime_dir s,
      (st_boot_id s, (st_uid s, (st_gid s, (st_default_size s, (requested_size s, (last_client s, (active_clients s,
      (last_disconnected_at s, (idle_deadline_at s, st_components s)))))))))))))))))
    (fun '(a, (b, (c, (d, (e, (f, (g, (h, (i, (j, (k, (l, (m, (n, (o, (p, q)))))))))))))))) =>
      Some (mkState a b c d e f g h i j k l m n o p q)) ltac:(by intros []).

Program Definition sample_json : Json := {| to_json s := put s; from_json l := fst <$> get l |}.
Next Obligation. intros s. cbv beta. rewrite <- (app_nil_r (put s)), get_put. done. Qed.

(** ** The host *)

(** What is at a path: directories of root and of the user, and one socket. *)
Definition sample_dir (p : str) : Metadata :=
  if starts_with (lit "/run/user/1000") p then mkMeta Directory 1000 1000 else mkMeta Directory 0 0.
Definition sample_lstat (p : str) : io Metadata :=
  if eqs p (lit "/run/user/1000/wrdp/wayland-0") then IoOk (mkMeta Socket 1000 1000)
  else if starts_with (rev (lit ".log")) (rev p) then NotFound
  else IoOk (sample_dir p).

(** The process 4242 answers until [dies]; after it no process does. *)
Definition sample_os_at (dies n : nat) : Os :=
  mkOs (fun _ => (n <? dies)%nat)
    (fun p => if (p =? 4242) && (n <? dies)%nat then Some sample_stat else None)
    (proc_status sample_os) None (boot_id_file sample_os) (Some 100)
    (fun flag u => if eqs u (lit "alice") then Some (lit "1000" ++ [10]) else None)
    (fun u => if eqs u (lit "alice") then Some (lit "alice:x:1000:1000::/home/alice:/bin/sh" ++ [10]) else None)
    sample_lstat (fun _ => true) 0 0 (secs 1700000000).

Program Definition sample_host (dies : nat) : Host := {|
  os := sample_os_at dies;
  faults _ := false;
  elapsed _ := ms 1;
  fresh_uuid _ := 7;
  unlink _ _ := NotFound;
  read_dir _ _ := IoOk [];
  mkdir _ _ := Created;
  open_dir _ p := IoOk (sample_dir p);
  open_new _ _ := Created;
  file_meta _ _ := IoOk (mkMeta RegularFile 1000 1000, 0);
  spawned_pid _ := Some 4242;
  child_exited _ := IoOk false;
|}.
Next Obligation. done. Qed.

Definition sample_component : ComponentConfig :=
  mkComponent MANAGED_COMPOSITOR_COMPONENT MANAGED_COMPOSITOR_COMMAND [] [] None None
    (UnixSocket (lit "/run/user/1000/wrdp/wayland-0")) true 250.
Definition sample_config : SesmanConfig :=
  mkConfig (lit "default") (lit "alice") (lit "/run/user/1000/wrdp") (lit "/run/wrdp/sesman/1000")
    (lit "/run/user/1000/wrdp/logs") default_session_size 15000 10000 1800000 []
    [lit "/run/user/1000/wrdp/wayland-0"] [] [sample_component].

Definition sample_state (clients : Z) : SessionState :=
  mkState STATE_VERSION 7 (lit "default") (lit "alice") 0 0 (lit "/run/user/1000/wrdp") (Some (lit "b00t"))
    (Some 1000) (Some 1000) default_session_size None None clients None None
    [mkCompState MANAGED_COMPOSITOR_COMPONENT 4242 [MANAGED_COMPOSITOR_COMMAND] 0 (Some 987654) (Some (lit "b00t"))
       (Some 1000) (Some 4242) true true].
Definition sample_world (clients : Z) : World :=
  mkWorld 0 0 {[state_path sample_config := mkRegFile (mkMeta RegularFile 0 0) (put (sample_state clients))]} [].

(** Stopping the sample session terminates its process group and forgets it. *)
Example stop_sample :
  let '(r, w) := @stop chrono_9999 sample_json (sample_host 40) sample_config (sample_world 1) in
  is_ok r = true /\ map snd (log w) =
    [LockTaken (lock_path sample_config); Signalled (-4242) SIGTERM;
     RegistryRemoved (state_path sample_config); LockReleased (lock_path sample_config)].
Proof. by vm_compute. Qed.
(** A process that survives is killed, and the session is kept. *)
Example stop_stubborn_sample :
  let '(r, w) := @stop chrono_9999 sample_json (sample_host 100000) sample_config (sample_world 1) in
  r = Err (SurvivedKill [MANAGED_COMPOSITOR_COMPONENT]) /\ map snd (log w) =
    [LockTaken (lock_path sample_config); Signalled (-4242) SIGTERM; Signalled (-4242) SIGKILL;
     LockReleased (lock_path sample_config)].
Proof. by vm_compute. Qed.
(** The sample session is healthy. *)
Example status_sample : 
  (fst (@status chrono_9999 sample_json (sample_host 1000) sample_config (sample_world 0))) =
  Ok (mkStatus Healthy (state_path sample_config) (Some (sample_state 0)) []).
Proof. by vm_compute. Qed.

(** Starting from nothing spawns the component and registers it; then dying
    before it is ready ends with a stop and no registration. *)
Definition sample_options : EnsureOptions := mkOptions false None (Some (lit "203.0.113.7")) true.
Definition empty_world : World := mkWorld 0 0 ∅ [].
Example ensure_sample :
  let '(r, w) := @ensure chrono_9999 sample_json (sample_host 100000) sample_config sample_options empty_world in
  match r with Ok e => negb (reused_existing e) && bool_decide (health (ensured_status e) = Healthy) | _ => false end = true /\
  In 4242 (flat_map (fun ke => match snd ke with Spawned _ _ p => [p] | _ => [] end) (log w)).
Proof. vm_compute. split; [done|by left]. Qed.
Example ensure_failing_sample :
  fst (@ensure chrono_9999 sample_json (sample_host 60) sample_config sample_options empty_world) =
  Err (StartupFailed (ExitedBeforeReady MANAGED_COMPOSITOR_COMPONENT)).
Proof. vm_compute. done. Qed.
