(* ===== verification/SesTrace.v ===== *)
(** * Reasoning about sesman runs

    A relation between the worlds before and after a computation that every
    silent step satisfies is kept by every computation whose effects satisfy it. *)
From S2P Require Import Prelude Text SesProcess SesConfig SesHost Sesman.

Section trace.
Context `{C : Chrono, J : Json, HH : Host}.

Definition add_event (e : Event) (w : World) : World := mkWorld (step w) (now w) (files w) (log w ++ [(step w, e)]).

(** Reflexive, transitive, and true of steps that change no file and log nothing. *)
Class Quiet (R : World -> World -> Prop) : Prop := {
  quiet_trans w1 w2 w3 : R w1 w2 -> R w2 w3 -> R w1 w3;
  quiet_silent w w' : files w' = files w -> log w' = log w -> (step w <= step w')%nat -> now w <= now w' -> R w w';
}.

Definition respects {A} (R : World -> World -> Prop) (m : M A) : Prop := forall w, R w (m w).2.
Definition allows (R : World -> World -> Prop) (e : Event) : Prop := forall w, R w (add_event e w).

Section rules.
Context (R : World -> World -> Prop) `{!Quiet R}.

Lemma quiet_refl w : R w w.
Proof. apply quiet_silent; (done || lia). Qed.

Lemma respects_ret {A} (a : A) : respects R (ret a).
Proof. intros w. apply quiet_refl. Qed.
Lemma respects_fail {A} e : respects R (@fail A e).
Proof. intros w. apply quiet_refl. Qed.
Lemma respects_lift {A} (o : outcome SesError A) : respects R (lift o).
Proof. intros w. apply quiet_refl. Qed.

Lemma respects_bind {A B} (m : M A) (k : A -> M B) :
  respects R m -> (forall a, respects R (k a)) -> respects R (bind m k).
Proof.
  intros Hm Hk w. unfold bind. specialize (Hm w). destruct (m w) as [[a|e|] w']; cbn [snd] in *; [|done..].
  eapply quiet_trans; [exact Hm|apply Hk].
Qed.

Lemma respects_attempt {A} (m : M A) : respects R m -> respects R (attempt m).
Proof. intros Hm w. unfold attempt. specialize (Hm w). by destruct (m w). Qed.

Lemma respects_when b m : (b = true -> respects R m) -> respects R (when b m).
Proof. destruct b; intros Hm; [by apply Hm|apply respects_ret]. Qed.

Lemma respects_for_each {A} (xs : list A) f : (forall x, x ∈ xs -> respects R (f x)) -> respects R (for_each xs f).
Proof.
  induction xs as [|x xs IH]; intros Hf; cbn [for_each]; [apply respects_ret|].
  apply respects_bind; [apply Hf; set_solver|]. intros _. apply IH. intros y Hy. apply Hf. set_solver.
Qed.

Lemma respects_map_m {A B} (f : A -> M B) xs : (forall x, respects R (f x)) -> respects R (map_m f xs).
Proof.
  intros Hf. induction xs as [|x xs IH]; cbn [map_m]; [apply respects_ret|].
  apply respects_bind; [apply Hf|]. intros y. apply respects_bind; [exact IH|]. intros ys. apply respects_ret.
Qed.

Lemma respects_all_m {A} (f : A -> M bool) xs : (forall x, respects R (f x)) -> respects R (all_m f xs).
Proof.
  intros Hf. induction xs as [|x xs IH]; cbn [all_m]; [apply respects_ret|].
  apply respects_bind; [apply Hf|]. intros []; [exact IH|apply respects_ret].
Qed.

Lemma respects_tick w : R w (tick w).
Proof. apply quiet_silent; cbn; [done|done|lia|]. pose proof (elapsed_nonneg (step w)). lia. Qed.

Lemma respects_ticks n w : R w (ticks n w).
Proof.
  unfold ticks. induction n as [|n IH]; cbn; [apply quiet_refl|]. eapply quiet_trans; [exact IH|apply respects_tick].
Qed.

Lemma respects_sys {A} (f : nat -> A) : respects R (sys f).
Proof. intros w. apply respects_tick. Qed.
Lemma respects_reading {A} n (f : view -> A) : respects R (reading n f).
Proof. intros w. apply respects_ticks. Qed.
Lemma respects_now : respects R instant_now.
Proof. intros w. apply respects_tick. Qed.
Lemma respects_get : respects R get_files.
Proof. intros w. apply quiet_refl. Qed.
Lemma respects_sleep d : 0 <= d -> respects R (sleep d).
Proof. intros Hd w. apply quiet_silent; cbn; [done|done|lia|]. pose proof (elapsed_nonneg (step w)). lia. Qed.
Lemma respects_may_fail e : respects R (may_fail e).
Proof. apply respects_bind; [apply respects_sys|]. intros []; [apply respects_fail|apply respects_ret]. Qed.
Lemma respects_of_io {A} p (r : io A) : respects R (of_io p r).
Proof. destruct r; [apply respects_ret|apply respects_fail..]. Qed.
Lemma respects_or_user {A} u (o : option A) : respects R (or_user u o).
Proof. destruct o; [apply respects_ret|apply respects_fail]. Qed.
Lemma respects_emit e : allows R e -> respects R (emit e).
Proof. intros He w. apply He. Qed.
End rules.
End trace.

(** Take a computation apart; what is left are effects and sleeps. *)
Ltac resp :=
  repeat match goal with
  | |- respects _ (bind _ _) => apply respects_bind; [apply _| |intros ?]
  | |- respects _ (ret _) => apply respects_ret; apply _
  | |- respects _ (fail _) => apply respects_fail; apply _
  | |- respects _ (lift _) => apply respects_lift; apply _
  | |- respects _ (attempt _) => apply respects_attempt
  | |- respects _ (when _ _) => apply respects_when; [apply _|intros ?]
  | |- respects _ (sys _) => apply respects_sys; apply _
  | |- respects _ (reading _ _) => apply respects_reading; apply _
  | |- respects _ instant_now => apply respects_now; apply _
  | |- respects _ get_files => apply respects_get; apply _
  | |- respects _ (may_fail _) => apply respects_may_fail; apply _
  | |- respects _ (of_io _ _) => apply respects_of_io; apply _
  | |- respects _ (or_user _ _) => apply respects_or_user; apply _
  | |- respects _ (match ?x with _ => _ end) => destruct x
  | |- respects _ (let '_ := ?x in _) => destruct x
  end.
