(* ===== verification/SesSignal.v ===== *)
(** * Which processes sesman signals

    No operation of the session manager signals a process that it has not
    authenticated earlier in the same operation. *)
From S2P Require Import Prelude Text SesProcess SesConfig SesHost Sesman SesTrace.

Section signal.
Context `{C : Chrono, J : Json, HH : Host}.
Variable config : SesmanConfig.

(** ** Silent operations *)
Section silent.
Context (R : World -> World -> Prop) `{!Quiet R}.

Lemma silent_uid u : respects R (uid_of u).
Proof. unfold uid_of. resp. Qed.
Lemma silent_gid u : respects R (gid_of u).
Proof. unfold gid_of. resp. Qed.
Lemma silent_read_state p : respects R (read_state_file config p).
Proof. unfold read_state_file. resp. Qed.
Lemma silent_matches c p : respects R (matches c p).
Proof. unfold matches. resp. Qed.

Lemma silent_classify_one s c : respects R (classify_one config s c).
Proof. unfold classify_one, matches. resp. Qed.

Lemma silent_classify s cs : respects R (classify config s cs).
Proof.
  induction cs as [|c cs IH]; cbn [classify]; [resp|].
  apply respects_bind; [done|apply silent_classify_one|]. intros r. apply respects_bind; [done|exact IH|]. intros rs. resp.
Qed.

Lemma silent_status : respects R (status config).
Proof.
  unfold status. apply respects_bind; [done|apply respects_attempt, silent_read_state|]. intros r.
  apply respects_bind; [done|resp|]. intros [s|]; [|resp]. apply respects_bind; [done|resp|]. intros owned.
  apply respects_bind; [done| |intros; resp]. destruct owned; [|resp].
  apply respects_bind; [done|apply silent_classify|]. intros. resp.
Qed.

Lemma silent_target_alive t : respects R (target_alive t).
Proof. destruct t as [[] c]; unfold target_alive, matches; resp. Qed.

Lemma silent_all_stopped ts : respects R (all_targets_stopped ts).
Proof.
  apply respects_all_m; [done|]. intros t. apply respects_bind; [done|apply silent_target_alive|]. intros. resp.
Qed.

Lemma silent_survivors ts : respects R (survivors ts).
Proof.
  induction ts as [|t ts IH]; cbn [survivors]; [resp|].
  apply respects_bind; [done|apply silent_target_alive|]. intros a. apply respects_bind; [done|exact IH|]. intros. resp.
Qed.

Lemma silent_wait_stopped fuel d ts : respects R (wait_stopped fuel d ts).
Proof.
  induction fuel as [|fuel IH]; cbn [wait_stopped]; [resp|].
  apply respects_bind; [done|resp|]. intros t. destruct (t <? d); [|resp].
  apply respects_bind; [done|apply silent_all_stopped|]. intros []; [resp|].
  apply respects_bind; [done|apply respects_sleep; [done|unfold ms; lia]|]. done.
Qed.

Lemma silent_wait_for_stop ts : respects R (wait_for_stop config ts).
Proof. unfold wait_for_stop. apply respects_bind; [done|resp|]. intros. apply silent_wait_stopped. Qed.

Lemma silent_look_ready c s : respects R (look_ready config c s).
Proof. unfold look_ready, matches. resp. Qed.

Lemma silent_wait_ready fuel d c s : respects R (wait_ready config fuel d c s).
Proof.
  induction fuel as [|fuel IH]; cbn [wait_ready]; [resp|].
  apply respects_bind; [done|apply silent_look_ready|]. intros [o|]; [resp|].
  apply respects_bind; [done|resp|]. intros t. destruct (d <=? t); [resp|].
  apply respects_bind; [done|apply respects_sleep; [done|unfold ms; lia]|]. done.
Qed.

Lemma silent_wait_until_ready c s : respects R (wait_until_ready config c s).
Proof. unfold wait_until_ready. apply respects_bind; [done|resp|]. intros. apply silent_wait_ready. Qed.

Lemma silent_utc : respects R utc_now.
Proof. unfold utc_now. resp. Qed.

Lemma silent_touch s : respects R (touch s).
Proof. unfold touch. apply respects_bind; [done|apply silent_utc|]. intros. resp. Qed.

Lemma silent_session_new : respects R (session_new config).
Proof. unfold session_new. apply respects_bind; [done|apply silent_utc|]. intros. resp. Qed.

Lemma silent_update_reconnect s o : respects R (update_reconnect_state s o).
Proof.
  unfold update_reconnect_state. apply respects_bind; [done| |intros; apply silent_touch].
  destruct (client_peer o); [|resp]. apply respects_bind; [done|apply silent_utc|]. intros. resp.
Qed.

Lemma silent_deadline_after b : respects R (idle_deadline_after config b).
Proof. unfold idle_deadline_after. resp. Qed.

Lemma silent_effective_deadline s : respects R (effective_idle_deadline config s).
Proof. unfold effective_idle_deadline, idle_deadline_after. resp. Qed.

Lemma silent_reconcile n s : respects R (reconcile config n s).
Proof. unfold reconcile, idle_deadline_after. resp. Qed.
End silent.

(** ** Operations with effects *)
Definition is_signal (e : Event) : bool := match e with Signalled _ _ => true | _ => false end.
Definition is_lock (e : Event) : bool := match e with LockTaken _ | LockReleased _ => true | _ => false end.
Definition is_inner (e : Event) : bool := negb (is_signal e || is_lock e).
Definition with_files (f : gmap (list Z) RegFile) (w : World) : World := mkWorld (step w) (now w) f (log w).

(** A relation that only restricts signals and the lock. *)
Class OnlySignals (R : World -> World -> Prop) : Prop := {
  os_quiet :: Quiet R;
  os_event e : is_inner e = true -> allows R e;
  os_files f w : R w (with_files f w);
}.

Section effects.
Context (R : World -> World -> Prop) `{!OnlySignals R}.

Lemma eff_emit e : is_inner e = true -> respects R (emit e).
Proof. intros He. apply respects_emit. by apply os_event. Qed.
Lemma eff_set_files f : respects R (set_files f).
Proof. intros w. apply os_files. Qed.

Ltac eff := resp; try first [apply eff_emit; done | apply eff_set_files | apply os_event; done].

Lemma eff_remove_stale p : respects R (remove_stale_path p).
Proof. unfold remove_stale_path. eff. Qed.

Lemma eff_cleanup ps gs : respects R (cleanup_runtime_paths ps gs).
Proof.
  unfold cleanup_runtime_paths. apply respects_bind; [apply _|apply respects_for_each; [apply _|intros; apply eff_remove_stale]|].
  intros _. apply respects_for_each; [apply _|]. intros g _. unfold cleanup_simple_glob.
  destruct (split_once 42 g) as [[pre suf]|]; [|apply eff_remove_stale]. destruct (path_file_name pre); [|resp].
  apply respects_bind; [apply _|resp|]. intros [names| |]; [|resp..].
  apply respects_for_each; [apply _|]. intros x _. apply respects_bind; [apply _|resp|]. intros _.
  apply respects_when; [apply _|]. intros _. apply eff_remove_stale.
Qed.

Lemma eff_remove_state p : respects R (remove_state_file config p).
Proof. unfold remove_state_file. eff. Qed.

Lemma eff_write_state s : respects R (write_state config s).
Proof. unfold write_state. eff. Qed.

Lemma eff_secure_walk cs : forall cur, respects R (secure_walk cur cs).
Proof.
  induction cs as [|c cs IH]; intros cur; cbn [secure_walk]; [resp|]. destruct (eqs c (lit "..")); [resp|]. cbv zeta.
  apply respects_bind; [apply _|unfold secure_component; eff|]. intros b. destruct cs; [resp|apply IH].
Qed.

Lemma eff_secure_directory p u g b : respects R (ensure_secure_directory p u g b).
Proof.
  unfold ensure_secure_directory. destruct (negb (is_absolute p)); [resp|].
  apply respects_bind; [apply _|apply eff_secure_walk|]. intros. eff.
Qed.

Lemma eff_settle fuel n p u d : forall t, respects R (settle_loop fuel n p u d t).
Proof.
  induction fuel as [|fuel IH]; intros t; cbn [settle_loop]; [resp|].
  apply respects_bind; [apply _|resp|]. intros r. apply respects_bind; [apply _|resp|]. intros [].
  { resp. }
  apply respects_bind; [apply _|resp|]. intros i. apply respects_bind; [apply _|resp|]. intros a.
  case_match; [resp|]. apply respects_bind; [apply _|resp|]. intros now'. case_match; [resp|].
  apply respects_bind; [apply _| |intros; apply IH]. apply respects_sleep; [apply _|].
  unfold IDENTITY_SETTLE_POLL_INTERVAL, ms, sat_sub. lia.
Qed.

Lemma eff_open_log p u g : respects R (open_log p u g).
Proof. unfold open_log. eff. Qed.

Lemma eff_spawn c x : respects R (spawn_managed_component c x).
Proof.
  unfold spawn_managed_component. apply respects_bind; [apply _|apply eff_open_log|]. intros _.
  apply respects_bind; [apply _|resp|]. intros _. apply respects_bind; [apply _|resp|]. intros [p|]; [|resp].
  apply respects_bind; [apply _|by apply eff_emit|]. intros _. apply respects_bind; [apply _|resp|]. intros t.
  case_match; [resp|]. apply respects_bind; [apply _|apply respects_attempt, eff_settle|]. intros [i|e|]; [|eff|resp].
  unfold utc_now. resp.
Qed.

Lemma eff_prepare : respects R (prepare_directories config).
Proof.
  unfold prepare_directories, uid_of, gid_of. do 7 (resp; try apply eff_secure_directory).
Qed.

Lemma eff_with_lock {A} (m : M A) : (forall e, is_lock e = true -> allows R e) ->
  respects R m -> respects R (with_lock config m).
Proof. intros Hl Hm. unfold with_lock. resp; try (apply respects_emit; by apply Hl). done. Qed.

Lemma eff_start_all cs : forall s, respects R (start_all config s cs).
Proof.
  induction cs as [|c cs IH]; intros s; cbn [start_all]; [resp|].
  apply respects_bind; [apply _| |].
  { apply respects_attempt. unfold start_component, spawn_component, uid_of, gid_of. resp; apply eff_spawn. }
  intros [s'|e|]; [|resp..]. apply respects_bind; [apply _|apply silent_touch; apply _|]. intros s2.
  apply respects_bind; [apply _| |intros [?|?|]; [apply IH|resp..]]. apply respects_attempt.
  apply respects_bind; [apply _|apply eff_write_state|]. intros _.
  apply respects_bind; [apply _|apply silent_wait_until_ready; apply _|]. intros _.
  apply respects_when; [apply _|]. rewrite Z.gtb_lt. intros Hd. apply respects_sleep; [apply _|unfold ms; lia].
Qed.

(** If stopping respects the relation, then so does every public operation. *)
Section public.
Hypothesis stop_ok : forall s, respects R (stop_state config s).

Lemma eff_stop_locked : respects R (stop_locked config).
Proof.
  unfold stop_locked. apply respects_bind; [apply _|apply silent_status; apply _|]. intros st.
  destruct (state st); [apply stop_ok|resp].
Qed.

Lemma eff_cleanup_idle_locked : respects R (cleanup_idle_locked config).
Proof.
  unfold cleanup_idle_locked. apply respects_bind; [apply _|apply silent_status; apply _|]. intros st.
  destruct (health st); [resp|..]; (destruct (state st) as [s|]; [|resp]); (case_match; [resp|]);
    (apply respects_bind; [apply _|apply silent_effective_deadline; apply _|]); intros [d|]; try resp;
    unfold utc_now; resp; apply eff_stop_locked.
Qed.

Lemma eff_update_registry (k : SessionState -> M SessionState) (s : SessionState) : respects R (k s) ->
  respects R (let! s := k s in do! write_state config s in status config).
Proof.
  intros Hk. apply respects_bind; [apply _|exact Hk|]. intros s'.
  apply respects_bind; [apply _|apply eff_write_state|]. intros _. apply silent_status; apply _.
Qed.

(** Every operation but the query is a body under the lock, after the
    directories of [ensure]; all bodies respect the relation. *)
Lemma body_stop : exists body, stop config = with_lock config body /\ respects R body.
Proof.
  eexists; split; [reflexivity|].
  apply respects_bind; [apply _|apply eff_stop_locked|]. intros _. apply silent_status; apply _.
Qed.

Lemma body_bind : exists body, bind_single_client config = with_lock config body /\ respects R body.
Proof.
  eexists; split; [reflexivity|]. apply respects_bind; [apply _|apply silent_status; apply _|]. intros st.
  case_match; [resp|]. destruct (state st) as [s|]; [|resp].
  apply (eff_update_registry (fun s => touch (set_clients 1 None None s))). apply silent_touch; apply _.
Qed.

Lemma body_unbind : exists body, unbind_single_client config = with_lock config body /\ respects R body.
Proof.
  eexists; split; [reflexivity|]. apply respects_bind; [apply _|apply silent_status; apply _|]. intros st.
  destruct (state st) as [s|]; [|resp]. apply respects_bind; [apply _|apply silent_utc; apply _|]. intros t.
  apply respects_bind; [apply _|apply silent_deadline_after; apply _|]. intros d.
  apply (eff_update_registry (fun s => touch (set_clients 0 (Some t) d s))). apply silent_touch; apply _.
Qed.

Lemma body_disconnect : exists body, disconnect_client config = with_lock config body /\ respects R body.
Proof.
  eexists; split; [reflexivity|]. apply respects_bind; [apply _|apply silent_status; apply _|]. intros st.
  destruct (state st) as [s|]; [|resp]. cbv zeta. apply respects_bind; [apply _| |].
  { case_match; [|resp]. apply respects_bind; [apply _|apply silent_utc; apply _|]. intros t.
    apply respects_bind; [apply _|apply silent_deadline_after; apply _|]. intros d. resp. }
  intros s'. apply (eff_update_registry touch). apply silent_touch; apply _.
Qed.

Lemma body_cleanup_idle : exists body, cleanup_idle config = with_lock config body /\ respects R body.
Proof. eexists; split; [reflexivity|]. apply eff_cleanup_idle_locked. Qed.

Lemma body_reconcile : exists body, reconcile_after_daemon_restart config = with_lock config body /\ respects R body.
Proof.
  eexists; split; [reflexivity|]. apply respects_bind; [apply _|apply silent_status; apply _|]. intros st.
  destruct (state st) as [s|]; [|resp]. apply respects_bind; [apply _|apply silent_utc; apply _|]. intros t.
  apply respects_bind; [apply _|apply silent_reconcile; apply _|]. intros sc.
  apply respects_bind; [apply _| |].
  { apply respects_when; [apply _|]. intros _. apply respects_bind; [apply _|apply silent_touch; apply _|].
    intros s'. apply eff_write_state. }
  intros _. apply respects_bind; [apply _| |intros _; apply silent_status; apply _].
  apply respects_bind; [apply _|apply eff_cleanup_idle_locked|]. intros _. resp.
Qed.

Lemma eff_ensure_locked o : respects R (ensure_locked config o).
Proof.
  unfold ensure_locked.
  apply respects_bind; [apply _|apply silent_status; apply _|]. intros st0.
  apply respects_bind; [apply _| |].
  { destruct (force_restart o); [|resp]. apply respects_bind; [apply _|apply eff_stop_locked|]. intros _. apply silent_status; apply _. }
  intros st. case_match.
  - destruct (state st) as [s|]; [|resp]. apply respects_bind; [apply _|apply silent_update_reconnect; apply _|]. intros s'.
    apply respects_bind; [apply _|apply eff_write_state|]. intros _.
    apply respects_bind; [apply _|apply silent_status; apply _|]. intros st'. resp.
  - apply respects_bind; [apply _| |].
    { apply respects_when; [apply _|]. intros _. apply eff_stop_locked. }
    intros _. apply respects_bind; [apply _|apply eff_cleanup|]. intros _.
    apply respects_bind; [apply _|apply silent_session_new; apply _|]. intros s0.
    apply respects_bind; [apply _|apply silent_update_reconnect; apply _|]. intros s1.
    apply respects_bind; [apply _|apply eff_start_all|]. intros [s2 [u|e|]]; cbn [fst snd]; [|..].
    + apply respects_bind; [apply _|apply silent_status; apply _|]. intros. resp.
    + apply respects_bind; [apply _|apply respects_attempt, stop_ok|]. intros [?|?|]; resp.
    + resp.
Qed.
End public.
End effects.

(** ** Evidence *)
Definition view_at (n : nat) : view := fun i => os (n + i)%nat.
Definition target_of (c : ComponentState) : Z := if process_group c then - pid c else pid c.

(** An entry of the log, if it is a signal, is preceded (after system call [n0])
    by the authentication of a component of a session state that belongs to this
    configuration, and goes to that component: to its process, or to the group
    it leads. *)
Definition evidence (n0 : nat) (ke : nat * Event) : Prop :=
  match ke.2 with
  | Signalled target _ => exists s c n' n,
      (n0 <= n' <= n /\ n < ke.1)%nat /\ c ∈ st_components s /\ target = target_of c /\
      state_belongs_to_config config (view_at n') s = true /\
      process_matches (view_at n) (component_signature c) Signal = true /\
      (process_group c = true -> pgid c = Some (pid c))
  | _ => True
  end.

Definition signals_after (n0 k0 : nat) (w w' : World) : Prop :=
  (step w <= step w')%nat /\
  ((k0 <= step w)%nat -> exists es, log w' = log w ++ es /\ Forall (evidence n0) es).

#[export] Instance signals_after_quiet n0 k0 : Quiet (signals_after n0 k0).
Proof.
  split.
  - intros w1 w2 w3 [H1 H2] [H3 H4]. split; [lia|]. intros Hk. destruct (H2 Hk) as (e1 & E1 & F1).
    destruct (H4 ltac:(lia)) as (e2 & E2 & F2). exists (e1 ++ e2). rewrite E2, E1, app_assoc. split; [done|]. by apply Forall_app.
  - intros w w' _ Hl Hs _. split; [done|]. intros _. exists []. by rewrite app_nil_r.
Qed.

#[export] Instance signals_after_only n0 k0 : OnlySignals (signals_after n0 k0).
Proof.
  split; [apply _| |].
  - intros e He w. split; [done|]. intros _. exists [(step w, e)]. split; [done|]. constructor; [|done]. by destruct e.
  - intros f w. split; [done|]. intros _. exists []. by rewrite app_nil_r.
Qed.

(** Authorised targets carry their evidence. *)
Lemma authorize_evidence owned cs w l w' : map_m (authorize owned) cs w = (Ok l, w') ->
  (step w <= step w')%nat /\ log w' = log w /\ files w' = files w /\ length l = length cs /\
  forall t, t ∈ combine l cs -> t.1 = true -> owned = true /\ t.2 ∈ cs /\ exists n, (step w <= n /\ n < step w')%nat /\
    process_matches (view_at n) (component_signature t.2) Signal = true /\
    (process_group t.2 = true -> pgid t.2 = Some (pid t.2)).
Proof.
  revert w l w'. induction cs as [|c cs IH]; intros w l w' E; cbn [map_m] in E.
  { unfold ret in E. simplify_eq. split_and!; try done. intros t Ht. by apply elem_of_nil in Ht. }
  unfold bind in E. unfold authorize at 1 in E. unfold bind in E.
  assert (exists m w1, (if owned then matches c Signal else ret false) w = (Ok m, w1) /\
    files w1 = files w /\ log w1 = log w /\ (step w <= step w1)%nat /\ (m = true -> owned = true /\ (step w < step w1)%nat /\
      process_matches (view_at (step w)) (component_signature c) Signal = true)) as (m & w1 & E1 & F1 & L1 & S1 & M1).
  { destruct owned.
    - unfold matches, reading. eexists _, _. split; [reflexivity|]. unfold ticks, match_reads. cbn.
      split_and!; try done; [lia|]. intros Hm. split_and!; [done|lia|done].
    - unfold ret. eexists _, _. split; [reflexivity|]. split_and!; done. }
  rewrite E1 in E. cbn [ret] in E.
  destruct (map_m (authorize owned) cs w1) as [[l1|e|] w2] eqn:E2; unfold ret in E; simplify_eq.
  destruct (IH _ _ _ E2) as (S2 & L2 & F2 & Len & Hall).
  split_and!; [lia|congruence|congruence|cbn; lia|].
  intros t Ht Ht1. cbn [combine] in Ht. apply elem_of_cons in Ht as [->|Ht].
  - cbn [fst snd] in *. apply andb_prop in Ht1 as [Hm Hg]. destruct (M1 Hm) as (? & ? & ?).
    split; [done|]. split; [set_solver|]. exists (step w). split; [lia|]. split; [done|].
    intros Hgr. rewrite Hgr in Hg. cbn in Hg. by apply bool_decide_eq_true in Hg.
  - destruct (Hall t Ht Ht1) as (? & ? & n & ? & ? & ?). split; [done|]. split; [set_solver|]. exists n. split; [lia|done].
Qed.

Lemma signal_all_evidence n0 k0 sig ts :
  (forall t, t ∈ ts -> t.1 = true -> forall k, (k0 <= k)%nat -> evidence n0 (k, Signalled (target_of t.2) sig)) ->
  respects (signals_after n0 k0) (signal_all sig ts).
Proof.
  intros Hts. apply respects_for_each; [apply _|]. intros [a c] Hin.
  assert ((a, c) ∈ ts) as Hin' by (by rewrite list_elem_of_In, in_rev, <- list_elem_of_In).
  destruct a.
  - apply respects_bind; [apply _|apply silent_target_alive; apply _|]. intros alive.
    apply respects_when; [apply _|]. intros _. apply respects_bind; [apply _| |].
    + apply respects_attempt. unfold signal_process. apply respects_bind; [apply _| |intros _; resp].
      intros w. split; [done|]. intros Hk. exists [(step w, Signalled (target_of c) sig)]. split; [done|].
      constructor; [|done]. by apply (Hts (true, c)).
    + intros [?|e|]; [resp| |resp]. apply respects_bind; [apply _|apply silent_target_alive; apply _|]. intros []; resp.
  - intros w. apply quiet_refl; apply _.
Qed.

Lemma evidence_mono a b ke : (a <= b)%nat -> evidence b ke -> evidence a ke.
Proof.
  unfold evidence. destruct ke.2; try done. intros Hab (s & c & n' & n & ? & ?). exists s, c, n', n. split; [lia|done].
Qed.

(** Stopping only signals what it has authenticated. *)
Lemma stop_state_from s w : signals_after (step w) (step w) w (stop_state config s w).2.
Proof.
  set (n0 := step w). unfold stop_state. unfold bind at 1. unfold reading at 1. cbv beta iota.
  set (owned := state_belongs_to_config config _ s). set (w0 := ticks 3 w).
  eapply quiet_trans; [apply (respects_ticks _ 3)|]. fold w0.
  assert (step w0 = (step w + 3)%nat) as Es by (unfold w0, ticks; cbn; lia).
  assert (respects (signals_after n0 n0) (map_m (authorize owned) (st_components s))) as Hq.
  { apply respects_map_m; [apply _|]. intros c. unfold authorize. apply respects_bind; [apply _| |intros; resp].
    destruct owned; [apply silent_matches; apply _|resp]. }
  unfold bind at 1. specialize (Hq w0).
  destruct (map_m (authorize owned) (st_components s) w0) as [[l|e|] w1] eqn:E; cbn [snd] in Hq; [|exact Hq..].
  destruct (authorize_evidence _ _ _ _ _ E) as (S1 & L1 & _ & _ & Hall).
  eapply quiet_trans; [exact Hq|]. clear Hq.
  match goal with |- signals_after _ _ _ (?m w1).2 => assert (respects (signals_after n0 (step w1)) m) as Hm end.
  { assert (forall sig t, t ∈ combine l (st_components s) -> t.1 = true ->
      forall k, (step w1 <= k)%nat -> evidence n0 (k, Signalled (target_of t.2) sig)) as Hev.
    { intros sig t Ht Ht1 k Hk. destruct (Hall t Ht Ht1) as (Ho & Hin & n & ? & ? & ?).
      exists s, t.2, (step w), n. cbn [fst]. split; [lia|]. done. }
    cbv zeta. apply respects_bind; [apply _|apply signal_all_evidence, Hev|]. intros _.
    apply respects_bind; [apply _|apply silent_wait_for_stop; apply _|]. intros _.
    apply respects_bind; [apply _|apply signal_all_evidence, Hev|]. intros _.
    apply respects_bind; [apply _|apply silent_wait_for_stop; apply _|]. intros _.
    apply respects_bind; [apply _|apply silent_survivors; apply _|]. intros left_over. case_match; [resp|].
    apply respects_bind; [apply _|apply eff_cleanup; apply _|]. intros _. apply eff_remove_state; apply _. }
  destruct (Hm w1) as [H1 H2]. split; [done|]. intros _. by apply H2.
Qed.

Lemma stop_state_evidence n0 s : respects (signals_after n0 n0) (stop_state config s).
Proof.
  intros w. destruct (stop_state_from s w) as [H1 H2]. split; [done|]. intros Hn.
  destruct (H2 ltac:(done)) as (es & E & F). exists es. split; [done|].
  eapply Forall_impl; [exact F|]. intros ke. by apply evidence_mono.
Qed.

(** The public operations of the manager. *)
Inductive operation :=
| Ensure (o : EnsureOptions) | Stop | Bind | Unbind | Disconnect | CleanupIdle | Reconcile | QueryStatus.
Definition run_operation (op : operation) : M unit :=
  match op with
  | Ensure o => let! _ := ensure config o in ret tt
  | Stop => let! _ := stop config in ret tt
  | Bind => let! _ := bind_single_client config in ret tt
  | Unbind => let! _ := unbind_single_client config in ret tt
  | Disconnect => let! _ := disconnect_client config in ret tt
  | CleanupIdle => let! _ := cleanup_idle config in ret tt
  | Reconcile => let! _ := reconcile_after_daemon_restart config in ret tt
  | QueryStatus => let! _ := status config in ret tt
  end.

Lemma operation_respects (R : World -> World -> Prop) `{!OnlySignals R} op :
  (forall e, is_lock e = true -> allows R e) ->
  (forall s, respects R (stop_state config s)) -> respects R (run_operation op).
Proof.
  intros Hl Hs. destruct op; apply respects_bind; try apply _; try (intros; resp).
  - apply respects_bind; [apply _|apply eff_prepare; apply _|]. intros _. apply eff_with_lock; [apply _|done|by apply eff_ensure_locked].
  - destruct (body_stop R Hs) as (b & -> & Hb). apply eff_with_lock; [apply _|done|done].
  - destruct (body_bind R) as (b & -> & Hb). apply eff_with_lock; [apply _|done|done].
  - destruct (body_unbind R) as (b & -> & Hb). apply eff_with_lock; [apply _|done|done].
  - destruct (body_disconnect R) as (b & -> & Hb). apply eff_with_lock; [apply _|done|done].
  - destruct (body_cleanup_idle R Hs) as (b & -> & Hb). apply eff_with_lock; [apply _|done|done].
  - destruct (body_reconcile R Hs) as (b & -> & Hb). apply eff_with_lock; [apply _|done|done].
  - apply silent_status; apply _.
Qed.

(** The evidence an operation leaves for its signals. *)
Lemma operation_evidence op w : exists es,
  log (run_operation op w).2 = log w ++ es /\ Forall (evidence (step w)) es.
Proof.
  assert (forall e, is_lock e = true -> allows (signals_after (step w) (step w)) e) as Hl.
  { intros e He w'. split; [done|]. intros _. exists [(step w', e)]. split; [done|]. constructor; [|done]. by destruct e. }
  destruct (operation_respects (signals_after (step w) (step w)) op Hl (stop_state_evidence (step w)) w) as [_ H].
  by apply H.
Qed.

(** C1. No process is signalled without authentication: whatever the host
    answers, whatever the registry contains and however the operation ends, every
    signal sent by an operation of the session manager was preceded, in that same
    operation, by a check that the session record belongs to this configuration
    (same version, user, runtime directory, boot and account) and by a check that
    the recorded component is the live process with that number (boot, user,
    group, start time), and goes to that process or to the group it leads. *)
Theorem signals_authenticated op w : exists es,
  log (run_operation op w).2 = log w ++ es /\ Forall (evidence (step w)) es.
Proof. apply operation_evidence. Qed.
End signal.
