(* ===== verification/SesLife.v ===== *)
(** * The life cycle of a managed session

    The lock, the registry file, idle cleanup, stopping and starting. *)
From S2P Require Import Prelude Text SesProcess SesConfig SesHost Sesman SesSample SesTrace SesSignal.

Section life.
Context `{C : Chrono, J : Json, HH : Host}.
Variable config : SesmanConfig.

(** ** Inversion *)
Lemma bind_inv {A B} (m : M A) (k : A -> M B) w r w' : bind m k w = (r, w') ->
  (exists a w1, m w = (Ok a, w1) /\ k a w1 = (r, w')) \/
  (exists e, m w = (Err e, w') /\ r = Err e) \/ (m w = (Panic, w') /\ r = Panic).
Proof. unfold bind. destruct (m w) as [[a|e|] w1]; intros E; simplify_eq; eauto 10. Qed.

Lemma bind_ok_inv {A B} (m : M A) (k : A -> M B) w b w' : bind m k w = (Ok b, w') ->
  exists a w1, m w = (Ok a, w1) /\ k a w1 = (Ok b, w').
Proof. intros [?|[(e & _ & ?)|[_ ?]]]%bind_inv; done. Qed.

Lemma attempt_inv {A} (m : M A) w r w' : attempt m w = (r, w') -> exists o, r = Ok o /\ m w = (o, w').
Proof. unfold attempt. destruct (m w) as [o w1]. intros E. simplify_eq. eauto. Qed.

(** A property of the final world of a quiet computation. *)
Lemma respects_run {A} (R : World -> World -> Prop) (m : M A) w r w' : respects R m -> m w = (r, w') -> R w w'.
Proof. intros Hm E. specialize (Hm w). by rewrite E in Hm. Qed.

(** ** Relations *)
Definition same_files (w w' : World) : Prop := files w' = files w.
#[export] Instance same_files_quiet : Quiet same_files.
Proof. split; unfold same_files; [congruence|done]. Qed.

Definition same_log (w w' : World) : Prop := log w' = log w /\ files w' = files w.
#[export] Instance same_log_quiet : Quiet same_log.
Proof. split; unfold same_log; [|done]. intros ???[][]. split; congruence. Qed.

(** Only events of a given kind are added. *)
Definition only_events (ok : Event -> bool) (w w' : World) : Prop :=
  exists es, log w' = log w ++ es /\ Forall (fun ke => ok ke.2 = true) es.
#[export] Instance only_events_quiet ok : Quiet (only_events ok).
Proof.
  split.
  - intros w1 w2 w3 (e1 & E1 & F1) (e2 & E2 & F2). exists (e1 ++ e2). rewrite E2, E1, app_assoc. split; [done|]. by apply Forall_app.
  - intros w w' _ Hl _ _. exists []. by rewrite app_nil_r.
Qed.

Lemma only_events_allows (ok : Event -> bool) e : ok e = true -> allows (only_events ok) e.
Proof. intros He w. exists [(step w, e)]. split; [done|]. by constructor. Qed.

(** ** The lock *)
Definition not_lock (e : Event) : bool := negb (is_lock e).
#[export] Instance not_lock_only : OnlySignals (only_events not_lock).
Proof.
  split; [apply _| |].
  - intros e He. apply only_events_allows. unfold is_inner, not_lock in *. by destruct (is_lock e); rewrite ?orb_true_r in He.
  - intros f w. exists []. by rewrite app_nil_r.
Qed.

(** What must only happen under the lock. *)
Definition protected (e : Event) : bool :=
  match e with
  | Signalled _ _ | RegistryWritten _ | RegistryRemoved _ | RuntimePathRemoved _ | Spawned _ _ _ | ChildKilled _ => true
  | _ => false
  end.

(** A log in which the lock is taken at most once, last, and released at the end. *)
Definition locked_log (es : list (nat * Event)) : Prop :=
  Forall (fun ke => not_lock ke.2 = true /\ protected ke.2 = false) es \/
  exists pre k1 p mid k2,
    es = pre ++ (k1, LockTaken p) :: mid ++ [(k2, LockReleased p)] /\
    Forall (fun ke => not_lock ke.2 = true /\ protected ke.2 = false) pre /\
    Forall (fun ke => not_lock ke.2 = true) mid.

Lemma stop_no_lock s : respects (only_events not_lock) (stop_state config s).
Proof.
  unfold stop_state. apply respects_bind; [apply _|resp|]. intros owned. apply respects_bind; [apply _| |].
  { apply respects_map_m; [apply _|]. intros c. unfold authorize. apply respects_bind; [apply _| |intros; resp].
    destruct owned; [apply silent_matches; apply _|resp]. }
  intros l. cbv zeta.
  assert (forall sig ts, respects (only_events not_lock) (signal_all sig ts)) as Hs.
  { intros sig ts. apply respects_for_each; [apply _|]. intros t _. apply respects_bind; [apply _|apply silent_target_alive; apply _|].
    intros alive. apply respects_when; [apply _|]. intros _. apply respects_bind; [apply _| |].
    - apply respects_attempt. unfold signal_process. apply respects_bind; [apply _| |intros; resp].
      apply respects_emit. by apply only_events_allows.
    - intros [?|e|]; [resp| |resp]. apply respects_bind; [apply _|apply silent_target_alive; apply _|]. intros []; resp. }
  apply respects_bind; [apply _|apply Hs|]. intros _. apply respects_bind; [apply _|apply silent_wait_for_stop; apply _|]. intros _.
  apply respects_bind; [apply _|apply Hs|]. intros _. apply respects_bind; [apply _|apply silent_wait_for_stop; apply _|]. intros _.
  apply respects_bind; [apply _|apply silent_survivors; apply _|]. intros x. case_match; [resp|].
  apply respects_bind; [apply _|apply eff_cleanup; apply _|]. intros _. apply eff_remove_state; apply _.
Qed.

Lemma with_lock_log {A} (body : M A) w : respects (only_events not_lock) body ->
  exists es, log (with_lock config body w).2 = log w ++ es /\ (es = [] \/ exists k1 p mid k2,
    es = (k1, LockTaken p) :: mid ++ [(k2, LockReleased p)] /\ Forall (fun ke => not_lock ke.2 = true) mid).
Proof.
  intros Hb. unfold with_lock. unfold bind at 1. unfold may_fail at 1. unfold bind at 1, sys at 1.
  destruct (faults (step w)); [by exists []; rewrite app_nil_r; split; [|left]|]. unfold ret at 1.
  unfold bind at 1. unfold may_fail at 1. unfold bind at 1, sys at 1.
  destruct (faults (step (tick w))); [by exists []; rewrite app_nil_r; split; [|left]|]. unfold ret at 1.
  unfold bind at 1. unfold emit at 1. set (w1 := mkWorld _ _ _ _). unfold bind at 1, attempt at 1.
  destruct (Hb w1) as (mid & Hl & Hm). destruct (body w1) as [o w2]. cbn [snd] in Hl.
  unfold bind at 1, emit at 1. unfold lift. cbn [snd log].
  eexists. rewrite Hl. unfold w1 at 1. cbn [log tick]. rewrite <- !app_assoc. split; [reflexivity|]. right. cbn [app]. eauto 10.
Qed.

Lemma prepare_unprotected : respects (only_events (fun e => not_lock e && negb (protected e))) (prepare_directories config).
Proof.
  assert (forall p u g b, respects (only_events (fun e => not_lock e && negb (protected e))) (ensure_secure_directory p u g b)) as Hd.
  { intros p u g b. unfold ensure_secure_directory. destruct (negb (is_absolute p)); [resp|]. apply respects_bind; [apply _| |].
    - generalize (lit "/"). induction (path_components p) as [|c cs IH]; intros cur; cbn [secure_walk]; [resp|].
      destruct (eqs c (lit "..")); [resp|]. cbv zeta. apply respects_bind; [apply _| |].
      + unfold secure_component. resp. apply respects_emit. by apply only_events_allows.
      + intros created. destruct cs; [resp|apply IH].
    - intros. resp; apply respects_emit; by apply only_events_allows. }
  unfold prepare_directories, uid_of, gid_of. do 7 (resp; try apply Hd).
Qed.

(** Where an operation takes and releases the lock. *)
Lemma operation_locked op w : exists es, log (run_operation config op w).2 = log w ++ es /\ locked_log es.
Proof.
  assert (forall (A : Type) (m : M A), (let! _ := m in ret tt) w = (match (m w).1 with Ok _ => Ok tt | Err e => Err e | Panic => Panic end, (m w).2)) as Hrun.
  { intros A m. unfold bind, ret. by destruct (m w) as [[?|?|] ?]. }
  assert (forall (A : Type) (m : M A), (exists body, m = with_lock config body /\ respects (only_events not_lock) body) ->
    exists es, log (m w).2 = log w ++ es /\ locked_log es) as Hlock.
  { intros A m (body & -> & Hb). destruct (with_lock_log body w Hb) as (es & E & He). exists es. split; [done|].
    destruct He as [->|(k1 & p & mid & k2 & -> & Hm)]; [by left|]. right. exists [], k1, p, mid, k2. done. }
  destruct op; cbn [run_operation]; rewrite Hrun; cbn [snd].
  - unfold ensure. destruct (prepare_unprotected w) as (pre & Ep & Fp).
    assert (Forall (fun ke => not_lock ke.2 = true /\ protected ke.2 = false) pre) as Fp'.
    { eapply Forall_impl; [exact Fp|]. intros ke [? ?%negb_true_iff]%andb_prop. done. }
    unfold bind. destruct (prepare_directories config w) as [[u|e|] w1]; cbn [snd] in Ep |- *; [|exists pre; by split; [|left]..].
    destruct (with_lock_log (ensure_locked config o) w1) as (es & E & He).
    { apply eff_ensure_locked; [apply _|apply stop_no_lock]. }
    exists (pre ++ es). rewrite E, Ep, app_assoc. split; [done|].
    destruct He as [->|(k1 & p & mid & k2 & -> & Hm)]; [left; by rewrite app_nil_r|].
    right. exists pre, k1, p, mid, k2. done.
  - apply Hlock, body_stop; [apply _|apply stop_no_lock].
  - apply Hlock, body_bind; apply _.
  - apply Hlock, body_unbind; apply _.
  - apply Hlock, body_disconnect; apply _.
  - apply Hlock, body_cleanup_idle; [apply _|apply stop_no_lock].
  - apply Hlock, body_reconcile; [apply _|apply stop_no_lock].
  - assert (respects same_log (status config)) as Hs by (apply silent_status; apply _).
    destruct (Hs w) as [-> _]. exists []. rewrite app_nil_r. split; [done|]. by left.
Qed.

(** C2. Mutual exclusion: an operation takes the registry lock at most once and
    releases it at its very end, also when it fails or panics, and everything that
    touches processes, the registry or the runtime paths happens in between; only
    the creation of directories precedes it. *)
Theorem lock_discipline op w : exists es, log (run_operation config op w).2 = log w ++ es /\ locked_log es.
Proof. apply operation_locked. Qed.

(** ** The registry file *)
Definition registry_of (w : World) : option str := reg_content <$> files w !! state_path config.

Lemma tmp_path_neq p : tmp_path p <> p.
Proof.
  unfold tmp_path. intros E. apply (f_equal length) in E. rewrite length_app, length_take in E.
  change (length (lit ".state.json.tmp")) with 15%nat in E. lia.
Qed.

(** Writing is atomic: it replaces the registry on success and leaves it on failure. *)
Lemma write_state_atomic s w r w' : write_state config s w = (r, w') ->
  (r = Ok tt /\ registry_of w' = Some (to_json s)) \/
  ((exists e, r = Err e) /\ registry_of w' = registry_of w /\
   files w' !! state_path config = files w !! state_path config).
Proof.
  unfold write_state, may_fail, get_files, set_files, sys, bind, ret, fail, emit, tick. cbn [step now files log].
  set (path := state_path config). set (tmp := tmp_path path). assert (tmp <> path) as Hne by apply tmp_path_neq.
  unfold registry_of. fold path.
  destruct (faults _); [intros; simplify_eq; right; split; [by eexists|done]|]. cbn [files].
  destruct (files w !! tmp) as [f|] eqn:Ef.
  - destruct (is_file (reg_meta f)); [|intros; simplify_eq; right; split; [by eexists|done]]. cbn [step now files log]. 
    repeat (destruct (faults _); cbn [step now files log];
      [intros; simplify_eq; right; cbn [files]; rewrite ?lookup_insert_ne by done; split; [by eexists|done]|]).
    intros; simplify_eq; left. cbn [files]. rewrite lookup_delete_ne, lookup_insert_eq by done. done.
  - cbn [step now files log].
    repeat (destruct (faults _); cbn [step now files log];
      [intros; simplify_eq; right; cbn [files]; rewrite ?lookup_insert_ne by done; split; [by eexists|done]|]).
    intros; simplify_eq; left. cbn [files]. rewrite lookup_delete_ne, lookup_insert_eq by done. done.
Qed.

Lemma remove_state_outcome w r w' : remove_state_file config (state_path config) w = (r, w') ->
  (r = Ok tt /\ files w' = delete (state_path config) (files w)) \/ ((exists e, r = Err e) /\ files w' = files w).
Proof.
  unfold remove_state_file, may_fail, get_files, set_files, sys, reading, bind, ret, fail, emit, tick, ticks, Nat.iter, nat_rect.
  cbn [step now files log].
  destruct (faults _); [intros; simplify_eq; right; split; [by eexists|done]|]. cbn [step now files log].
  destruct (files w !! state_path config) as [f|] eqn:Ef.
  - destruct (negb (is_file (reg_meta f))); [intros; simplify_eq; right; split; [by eexists|done]|]. cbn [step now files log].
    destruct (untrusted _ _ _); [intros; simplify_eq; right; split; [by eexists|done]|]. cbn [step now files log].
    destruct (faults _); intros; simplify_eq; [right; split; [by eexists|done]|by left].
  - intros; simplify_eq. left. split; [done|]. cbn [files]. by rewrite delete_id.
Qed.

(** The paths the configuration has removed before and after a session. *)
Definition sweeps (p : str) : Prop :=
  p ∈ cleanup_paths config \/
  exists g, g ∈ cleanup_globs config /\
    match split_once 42 g with
    | None => p = g
    | Some (pre, suf) => exists prefix name, path_file_name pre = Some prefix /\
        starts_with prefix name && ends_with_str suf name = true /\ p = path_join (path_parent pre) name
    end.
(** Files are gone only at such paths. *)
Definition swept (w w' : World) : Prop := forall p, files w' !! p = files w !! p \/ (sweeps p /\ files w' !! p = None).
#[export] Instance swept_quiet : Quiet swept.
Proof.
  split; unfold swept; [|intros w w' E _ _ _ p; left; by rewrite E].
  intros w1 w2 w3 H1 H2 p. destruct (H2 p) as [->|?]; [apply H1|by right].
Qed.

Lemma remove_swept p : sweeps p -> respects swept (remove_stale_path p).
Proof.
  intros Hp w q. unfold remove_stale_path, sys, get_files, set_files, emit, bind, ret, fail. cbn [files SesHost.tick].
  destruct (unlink _ p); destruct (files w !! p); cbn [snd files]; try (by left).
  all: destruct (decide (q = p)) as [->|Hq]; [right; split; [done|apply lookup_delete_eq]|left; by rewrite lookup_delete_ne by done].
Qed.

Lemma cleanup_swept : respects swept (cleanup_runtime config).
Proof.
  unfold cleanup_runtime, cleanup_runtime_paths.
  apply respects_bind; [apply _|apply respects_for_each; [apply _|intros p Hp; apply remove_swept; by left]|].
  intros _. apply respects_for_each; [apply _|]. intros g Hg. unfold cleanup_simple_glob.
  destruct (split_once 42 g) as [[pre suf]|] eqn:Es.
  2: { apply remove_swept. right. exists g. split; [exact Hg|by rewrite Es]. }
  destruct (path_file_name pre) as [prefix|] eqn:Ep; [|resp].
  apply respects_bind; [apply _|resp|]. intros [names| |]; [|resp..].
  apply respects_for_each; [apply _|]. intros x _. apply respects_bind; [apply _|resp|]. intros _.
  destruct (starts_with prefix x && ends_with_str suf x) eqn:Em; unfold when; [|resp].
  apply remove_swept. right. exists g. split; [exact Hg|]. rewrite Es. by exists prefix, x.
Qed.

Lemma signal_all_files sig ts : respects same_files (signal_all sig ts).
Proof.
  apply respects_for_each; [apply _|]. intros t _. apply respects_bind; [apply _|apply silent_target_alive; apply _|].
  intros alive. apply respects_when; [apply _|]. intros _. apply respects_bind; [apply _| |].
  - apply respects_attempt. unfold signal_process. apply respects_bind; [apply _|by apply respects_emit|]. intros; resp.
  - intros [?|e|]; [resp| |resp]. apply respects_bind; [apply _|apply silent_target_alive; apply _|]. intros []; resp.
Qed.

(** The count of system calls only grows. *)
Definition later_than (w w' : World) : Prop := (step w <= step w')%nat.
#[export] Instance later_than_quiet : Quiet later_than.
Proof. split; unfold later_than; [lia|done]. Qed.

Lemma signal_all_later sig ts : respects later_than (signal_all sig ts).
Proof.
  apply respects_for_each; [apply _|]. intros t _. apply respects_bind; [apply _|apply silent_target_alive; apply _|].
  intros alive. apply respects_when; [apply _|]. intros _. apply respects_bind; [apply _| |].
  - apply respects_attempt. unfold signal_process. apply respects_bind; [apply _|apply respects_emit; intros w; unfold later_than; cbn; lia|]. intros; resp.
  - intros [?|e|]; [resp| |resp]. apply respects_bind; [apply _|apply silent_target_alive; apply _|]. intros []; resp.
Qed.

Lemma authorize_files owned cs : respects same_files (map_m (authorize owned) cs).
Proof.
  apply respects_map_m; [apply _|]. intros c. unfold authorize. apply respects_bind; [apply _| |intros; resp].
  destruct owned; [apply silent_matches; apply _|resp].
Qed.

(** No authorised target of the session answered its last survivor check. *)
Definition nobody_left (s : SessionState) (w : World) : Prop := exists l w1 w2 w3 w4,
  map_m (authorize (state_belongs_to_config config (view_at (step w)) s)) (st_components s) w1 = (Ok l, w2) /\
  survivors (combine l (st_components s)) w3 = (Ok [], w4) /\ (step w <= step w1)%nat /\ (step w2 <= step w3)%nat.

(** How a teardown that began in [w] may end: the registry is only removed, and the
    runtime paths only swept, when nobody is left. *)
Definition teardown (s : SessionState) (w : World) (r : outcome SesError unit) (w' : World) : Prop :=
  match r with
  | Ok _ => nobody_left s w /\ exists w5, swept w w5 /\ files w' = delete (state_path config) (files w5)
  | _ => files w' = files w \/ (nobody_left s w /\ swept w w')
  end.

Lemma stop_state_outcome s w :
  let '(r, w') := stop_state config s w in teardown s w r w'.
Proof.
  destruct (stop_state config s w) as [r w'] eqn:E. unfold teardown. unfold stop_state in E.
  apply bind_inv in E as [(owned & w1 & E1 & E)|[(e & E1 & ->)|[E1 ->]]]; try by unfold reading in E1.
  assert (same_files w w1) as F1 by (eapply (respects_run _ (reading 3 _)); [resp|exact E1]).
  apply bind_inv in E as [(l & w2 & E2 & E)|[(e & E2 & ->)|[E2 ->]]];
    [|left; pose proof (respects_run _ _ _ _ _ (authorize_files _ _) E2); unfold same_files in *; congruence..].
  pose proof (authorize_evidence owned _ _ _ _ E2) as (_ & _ & F2 & Hlen & _).
  cbv zeta in E. set (ts := combine l (st_components s)) in *.
  apply bind_inv in E as [(? & w3 & E3 & E)|[(e & E3 & ->)|[E3 ->]]];
    pose proof (respects_run _ _ _ _ _ (signal_all_files SIGTERM ts) E3) as F3; unfold same_files in *; [|left; congruence..].
  apply bind_inv in E as [(? & w4 & E4 & E)|[(e & E4 & ->)|[E4 ->]]];
    pose proof (respects_run same_files _ _ _ _ (silent_wait_for_stop config same_files ts) E4) as F4; unfold same_files in *; [|left; congruence..].
  apply bind_inv in E as [(? & w5 & E5 & E)|[(e & E5 & ->)|[E5 ->]]];
    pose proof (respects_run _ _ _ _ _ (signal_all_files SIGKILL ts) E5) as F5; unfold same_files in *; [|left; congruence..].
  apply bind_inv in E as [(? & w6 & E6 & E)|[(e & E6 & ->)|[E6 ->]]];
    pose proof (respects_run same_files _ _ _ _ (silent_wait_for_stop config same_files ts) E6) as F6; unfold same_files in *; [|left; congruence..].
  apply bind_inv in E as [(left_over & w7 & E7 & E)|[(e & E7 & ->)|[E7 ->]]];
    pose proof (respects_run same_files _ _ _ _ (silent_survivors same_files ts) E7) as F7; unfold same_files in *; [|left; congruence..].
  case_bool_decide as Hl. { unfold fail in E. simplify_eq. left. congruence. }
  assert (nobody_left s w) as Hn.
  { subst left_over. unfold reading in E1. injection E1 as <- <-.
    exists l, (ticks 3 w), w2, w6, w7. split; [exact E2|]. split; [exact E7|].
    split; [apply (respects_ticks later_than)|].
    pose proof (respects_run later_than _ _ _ _ (signal_all_later SIGTERM ts) E3).
    pose proof (respects_run later_than _ _ _ _ (silent_wait_for_stop config _ ts) E4).
    pose proof (respects_run later_than _ _ _ _ (signal_all_later SIGKILL ts) E5).
    pose proof (respects_run later_than _ _ _ _ (silent_wait_for_stop config _ ts) E6).
    unfold later_than in *. lia. }
  assert (files w7 = files w) as F by congruence.
  assert (forall w8, swept w7 w8 -> swept w w8) as Hw by by intros w8 H8 p; rewrite <-F.
  apply bind_inv in E as [(? & w8 & E8 & E)|[(e & E8 & ->)|[E8 ->]]];
    pose proof (Hw _ (respects_run _ _ _ _ _ cleanup_swept E8)) as F8; [|by right..].
  destruct (remove_state_outcome _ _ _ E) as [[-> Ef]|[[e ->] Ef]]; [by split; [|exists w8]|].
  right. split; [done|]. intros p. rewrite Ef. apply F8.
Qed.

(** C3. Teardown never forgets: stopping a session removes its registry entry
    only at the end of a successful stop, when no authorised target answered the
    last survivor check; if anything fails before (a signal that could not be
    delivered to a living target, a survivor of SIGKILL), every registry file is as
    it was, and if a runtime path cannot be removed or the entry cannot, so is every
    file that the configuration does not itself list for the cleanup; it never lists
    the entry unless its owner wrote it there ([default_sweep_spares_registry]). *)
Theorem stop_keeps_or_removes s w :
  let '(r, w') := stop_state config s w in teardown s w r w'.
Proof. apply stop_state_outcome. Qed.

(** The cleanup the program sets up by itself never removes a registry entry. *)
Lemma default_sweep_spares_registry e : cleanup_paths config = default_cleanup_paths e -> cleanup_globs config = default_cleanup_globs ->
  ~ sweeps (state_path config).
Proof.
  assert (forall a b c, last (path_join a (b ++ [c])) = Some c) as Hl.
  { intros a b c. unfold path_join. destruct (is_absolute _); [apply last_snoc|]. destruct a; [apply last_snoc|].
    destruct (ends_with _ _); rewrite !app_assoc; apply last_snoc. }
  intros Ep Eg [Hp|(g & Hg & _)]; [|by rewrite Eg in Hg; apply elem_of_nil in Hg].
  rewrite Ep in Hp. unfold default_cleanup_paths in Hp.
  assert (last (state_path config) = Some 110) as L.
  { unfold state_path. change (lit ".state.json") with (lit ".state.jso" ++ [110]). rewrite app_assoc. apply Hl. }
  apply elem_of_cons in Hp as [Hp|Hp%list_elem_of_singleton]; rewrite Hp in L;
    [change MANAGED_WAYLAND_SOCKET with (lit "wayland-" ++ [48]) in L|change MANAGED_WAYLAND_LOCK with (lit "wayland-0.loc" ++ [107]) in L];
    rewrite Hl in L; done.
Qed.

(** ** What a status is based on *)
Lemma read_state_content p w c w' : read_state_file config p w = (Ok c, w') ->
  exists f, files w !! p = Some f /\ reg_content f = c.
Proof.
  unfold read_state_file, may_fail, get_files, sys, reading, bind, ret, fail, tick, ticks, Nat.iter, nat_rect.
  cbn [step now files log]. destruct (faults _); [done|]. cbn [step now files log].
  destruct (files w !! p) as [f|]; [|done]. destruct (negb (is_file (reg_meta f))); [done|]. cbn [step now files log].
  destruct (untrusted _ _ _); [done|]. cbn [step now files log]. destruct (faults _); [done|]. cbn [step now files log].
  destruct (untrusted _ _ _); [done|]. cbn [step now files log]. destruct (faults _); [done|].
  intros. simplify_eq. eauto.
Qed.

(** A status with a session state has read it from the registry, and changed nothing. *)
Lemma status_reads w st w' : status config w = (Ok st, w') ->
  same_log w w' /\ status_path st = state_path config /\
  match state st with
  | Some s => exists f, files w !! state_path config = Some f /\ from_json (reg_content f) = Some s
  | None => health st = Missing
  end.
Proof.
  intros E. split; [eapply respects_run; [apply silent_status; apply _|exact E]|].
  unfold status in E. cbv zeta in E. apply bind_ok_inv in E as (r & w1 & E1 & E). apply attempt_inv in E1 as (o & [= ->] & E1).
  apply bind_ok_inv in E as (os' & w2 & E2 & E).
  assert (match os' with Some s => exists f, files w !! state_path config = Some f /\ from_json (reg_content f) = Some s | None => True end) as Hs.
  { destruct o as [c|e|]; [| |done].
    - apply read_state_content in E1 as (f & Hf & Hc). destruct (from_json c) as [s|] eqn:Ej; unfold ret, fail in E2; simplify_eq.
      exists f. split; [done|]. by rewrite Ej.
    - destruct e; unfold ret, fail in E2; by simplify_eq. }
  destruct os' as [s|]; [|unfold ret in E; by simplify_eq].
  apply bind_ok_inv in E as (ow & w3 & _ & E). apply bind_ok_inv in E as (cn & w4 & _ & E). unfold ret in E. by simplify_eq.
Qed.

(** ** Client accounting *)

Lemma registry_same w w' : same_log w w' -> registry_of w' = registry_of w.
Proof. intros [_ E]. unfold registry_of. by rewrite E. Qed.

Lemma with_lock_registry {A} (body : M A) w : exists w1, same_files w w1 /\
  ((registry_of (with_lock config body w).2 = registry_of w /\ is_ok (with_lock config body w).1 = false) \/
   registry_of (with_lock config body w).2 = registry_of (body w1).2 /\
   ((with_lock config body w).1 = (body w1).1)).
Proof.
  unfold with_lock, may_fail, sys, bind, ret, fail, emit, attempt, lift. cbn [step now files log].
  destruct (faults (step w)); [exists w; split; [done|left; done]|]. cbn [step now files log].
  destruct (faults _); [exists w; split; [done|left; done]|]. cbn [step now files log].
  match goal with |- context [body (mkWorld ?a ?b ?c ?d)] => exists (mkWorld a b c d) end. split; [done|]. right.
  by destruct (body _) as [o w2].
Qed.

(** The common tail of the client operations. *)
Lemma write_then_status (k : M SessionState) (P : SessionState -> Prop) w :
  respects same_log k -> (forall s' w1, k w = (Ok s', w1) -> P s') ->
  let r := bind k (fun s => do! write_state config s in status config) w in
  (registry_of r.2 = registry_of w /\ is_ok r.1 = false) \/ (exists s', P s' /\ registry_of r.2 = Some (to_json s')).
Proof.
  intros Hk HP. unfold bind. cbv zeta. specialize (Hk w).
  destruct (k w) as [[s'|e|] w1] eqn:E; cbn [snd fst] in *; [|left; split; [by apply registry_same|done]..].
  destruct (write_state config s' w1) as [r w2] eqn:Ew. apply write_state_atomic in Ew as [[-> Hr]|[[e ->] [Hr _]]].
  - right. exists s'. split; [by eapply HP|]. assert (respects same_log (status config)) as Hst by (apply silent_status; apply _).
    by rewrite (registry_same _ _ (Hst w2)).
  - left. cbn [snd fst]. rewrite Hr. split; [by apply registry_same|done].
Qed.

Lemma touch_inv s w s' w' : touch s w = (Ok s', w') -> exists t, s' = mark_updated t s.
Proof. unfold touch. intros (t & w1 & _ & E)%bind_ok_inv. unfold ret in E. simplify_eq. eauto. Qed.

(** The idle deadline that a disconnect at [t] gets. *)
Definition deadline_after (t : Z) (d : option Z) : Prop :=
  if idle_timeout_ms config =? 0 then d = None
  else d = date_add t (ms (as_i64 (idle_timeout_ms config))) /\ d <> None.

Lemma deadline_after_inv t w d w' : idle_deadline_after config t w = (Ok d, w') -> deadline_after t d.
Proof.
  unfold idle_deadline_after, deadline_after, ret, lift. destruct (_ =? 0); [by intros [= <- <-]|].
  destruct (date_add _ _); [|done]. by intros [= <- <-].
Qed.

(** What a client operation makes of the session state. *)
Definition client_update (op : operation) (s s' : SessionState) : Prop :=
  match op with
  | Bind => exists t, s' = mark_updated t (set_clients 1 None None s)
  | Unbind => exists t0 d t, deadline_after t0 d /\ s' = mark_updated t (set_clients 0 (Some t0) d s)
  | Disconnect =>
      let n := sat_sub (active_clients s) 1 in
      if n =? 0 then exists t0 d t, deadline_after t0 d /\ s' = mark_updated t (set_clients n (Some t0) d s)
      else exists t, s' = mark_updated t (set_clients n (last_disconnected_at s) (idle_deadline_at s) s)
  | _ => False
  end.

(** The registry has become the operation's update of what it held; or it is as
    it was, because the operation failed or there was no session. *)
Definition accounted (op : operation) (w w' : World) (ok : bool) : Prop :=
  (exists s s', (registry_of w ≫= from_json) = Some s /\ client_update op s s' /\ registry_of w' = Some (to_json s')) \/
  (registry_of w' = registry_of w /\ (ok = false \/ (op <> Bind /\ exists w1 w2 st, status config w1 = (Ok st, w2) /\ state st = None))).

Lemma status_registry w st s w' : status config w = (Ok st, w') -> state st = Some s ->
  (registry_of w ≫= from_json) = Some s /\ registry_of w' = registry_of w.
Proof.
  intros E Hs. apply status_reads in E as (Hl & _ & H). rewrite Hs in H. destruct H as (f & Hf & Hj).
  split; [|by apply registry_same]. unfold registry_of. by rewrite Hf.
Qed.

(** A client operation is a status followed by an update of the state it found. *)
Lemma client_body op w (guard : SessionStatus -> M SessionStatus) :
  (forall st, (exists s k, state st = Some s /\ (forall w, guard st w = bind k (fun s' => do! write_state config s' in status config) w) /\
       respects same_log k /\ forall s' w1 w2, k w1 = (Ok s', w2) -> client_update op s s') \/
     (exists e, guard st = fail e) \/ (op <> Bind /\ state st = None /\ guard st = ret st)) ->
  let r := with_lock config (bind (status config) guard) w in accounted op w r.2 (is_ok r.1).
Proof.
  intros Hg. cbv zeta. unfold accounted.
  destruct (with_lock_registry (bind (status config) guard) w) as (w1 & F1 & [[Hr Hok]|[-> ->]]).
  { right. split; [done|]. by left. }
  assert (registry_of w1 = registry_of w) as Hw1 by (unfold registry_of; by rewrite F1).
  change (bind (status config) guard w1) with
    (match status config w1 with (Ok a, w) => guard a w | (Err e, w) => (Err e, w) | (Panic, w) => (Panic, w) end).
  destruct (status config w1) as [[st|e|] w2] eqn:Es; cbn [fst snd];
    [|right; assert (respects same_log (status config)) as Hq by (apply silent_status; apply _); specialize (Hq w1);
      rewrite Es in Hq; cbn [snd] in Hq; rewrite (registry_same _ _ Hq); split; [done|by left]..].
  pose proof (status_reads _ _ _ Es) as (Hl & _ & _).
  destruct (Hg st) as [(s & k & Hs & Hgk & Hk & Hu)|[[e ->]|(Hop & Hs & ->)]].
  - destruct (status_registry _ _ _ _ Es Hs) as [Hp Hw2]. rewrite Hgk.
    destruct (write_then_status k (client_update op s) w2 Hk) as [[Hr Hok]|(s' & Hc & Hr)].
    { intros s' w3. apply Hu. }
    + right. rewrite Hr, Hw2. split; [done|]. by left.
    + left. exists s, s'. rewrite <- Hw1. done.
  - right. cbn [fail fst snd]. rewrite (registry_same _ _ Hl). split; [done|]. by left.
  - right. cbn [ret fst snd]. rewrite (registry_same _ _ Hl). split; [done|]. right. split; [done|]. eauto.
Qed.

(** The three client operations, by their guards. *)
Lemma client_accounted op w : (op = Bind \/ op = Unbind \/ op = Disconnect) ->
  let r := run_operation config op w in accounted op w r.2 (is_ok r.1).
Proof.
  assert (forall m : M SessionStatus, accounted op w (m w).2 (is_ok (m w).1) ->
    accounted op w ((let! _ := m in ret tt) w).2 (is_ok ((let! _ := m in ret tt) w).1)) as Hrun.
  { intros m. unfold bind, ret. by destruct (m w) as [[?|?|] ?]. }
  intros Hop. cbv zeta. destruct Hop as [->|[->| ->]]; cbn [run_operation]; apply Hrun, client_body; intros st.
  - destruct (negb (status_can_serve config st)); [right; left; eauto|]. destruct (state st) as [s|]; [|right; left; eauto].
    left. exists s, (touch (set_clients 1 None None s)). split; [done|]. split; [done|].
    split; [apply silent_touch; apply _|]. intros s' w1 w2 E. by apply touch_inv in E.
  - destruct (state st) as [s|]; [|by right; right]. left.
    exists s, (let! t := utc_now in let! d := idle_deadline_after config t in touch (set_clients 0 (Some t) d s)).
    split; [done|]. split.
    { intros w0. unfold bind. destruct (utc_now w0) as [[t|?|] w1]; [|done..].
      by destruct (idle_deadline_after config t w1) as [[d|?|] w2]. }
    split.
    + apply respects_bind; [apply _|apply silent_utc; apply _|]. intros t.
      apply respects_bind; [apply _|apply silent_deadline_after; apply _|]. intros d. apply silent_touch; apply _.
    + intros s' w1 w2 E. apply bind_ok_inv in E as (t & w3 & _ & E). apply bind_ok_inv in E as (d & w4 & Ed & E).
      apply deadline_after_inv in Ed. apply touch_inv in E as [t' ->]. cbn [client_update]. eauto 10.
  - destruct (state st) as [s|]; [|by right; right]. left. cbv zeta.
    exists s, (let! s := (if sat_sub (active_clients s) 1 =? 0 then
                     let! now := utc_now in
                     let! deadline := idle_deadline_after config now in
                     ret (set_clients (sat_sub (active_clients s) 1) (Some now) deadline s)
                   else ret (set_clients (sat_sub (active_clients s) 1) (last_disconnected_at s) (idle_deadline_at s) s)) in touch s).
    split; [done|]. split; [|split].
    + intros w0. destruct (sat_sub (active_clients s) 1 =? 0); [|done]. unfold bind.
      destruct (utc_now w0) as [[t|?|] w1]; [|done..]. by destruct (idle_deadline_after config t w1) as [[d|?|] w2].
    + apply respects_bind; [apply _| |intros; apply silent_touch; apply _]. case_match; [|resp].
      apply respects_bind; [apply _|apply silent_utc; apply _|]. intros t.
      apply respects_bind; [apply _|apply silent_deadline_after; apply _|]. intros d. resp.
    + intros s' w1 w2 E. apply bind_ok_inv in E as (s1 & w3 & E1 & E). apply touch_inv in E as [t' ->]. cbn [client_update].
      destruct (sat_sub (active_clients s) 1 =? 0).
      * apply bind_ok_inv in E1 as (t & w4 & _ & E1). apply bind_ok_inv in E1 as (d & w5 & Ed & E1).
        apply deadline_after_inv in Ed. unfold ret in E1. simplify_eq. eauto 10.
      * unfold ret in E1. simplify_eq. eauto.
Qed.

(** Client accounting is exact: a bind, unbind or disconnect of the client
    either leaves the registry as it was, which happens only when it fails or (for
    an unbind or disconnect) there is no session, or replaces it by the stored session with one client and no
    deadline, respectively with none or one less; and when no client is left, the
    disconnect time and the configured idle deadline are recorded. *)
Theorem client_accounting op w : (op = Bind \/ op = Unbind \/ op = Disconnect) ->
  let r := run_operation config op w in accounted op w r.2 (is_ok r.1).
Proof. apply client_accounted. Qed.

(** ** Idle cleanup *)
Definition effective_deadline (s : SessionState) (d : Z) : Prop :=
  idle_deadline_at s = Some d \/
  (idle_deadline_at s = None /\ exists t, last_disconnected_at s = Some t /\ deadline_after t (Some d)).

Definition overdue (w : World) : Prop := exists s d n,
  (registry_of w ≫= from_json) = Some s /\ active_clients s <= 0 /\ effective_deadline s d /\
  (step w <= n)%nat /\ d <= utc (os n).

Lemma effective_inv s w d w' : effective_idle_deadline config s w = (Ok (Some d), w') -> effective_deadline s d.
Proof.
  unfold effective_idle_deadline, effective_deadline. destruct (idle_deadline_at s) as [d0|] eqn:Ed.
  { unfold ret. intros [= <- <-]. by left. }
  destruct (idle_timeout_ms config =? 0) eqn:Ei; [done|]. destruct (last_disconnected_at s) as [t|]; [|done].
  intros E. right. split; [done|]. exists t. split; [done|]. by eapply deadline_after_inv.
Qed.

Definition uneventful (w : World) (r : outcome SesError bool * World) : Prop := same_log w r.2 /\ r.1 <> Ok true.

(** The part of the idle check after the session state is known. *)
Definition idle_check (s : SessionState) : M bool :=
  if active_clients s >? 0 then ret false
  else
    let! deadline := effective_idle_deadline config s in
    match deadline with
    | None => ret false
    | Some d => let! now := utc_now in if now <? d then ret false else do! stop_locked config in ret true
    end.

Lemma idle_check_cases s w :
  (exists d n, active_clients s <= 0 /\ effective_deadline s d /\ (step w <= n)%nat /\ d <= utc (os n)) \/
  uneventful w (idle_check s w).
Proof.
  unfold idle_check. destruct (active_clients s >? 0) eqn:Ea; [by right|].
  assert (respects same_log (effective_idle_deadline config s)) as Hd by (apply silent_effective_deadline; apply _).
  assert (respects later_than (effective_idle_deadline config s)) as Ht by (apply silent_effective_deadline; apply _).
  specialize (Hd w). specialize (Ht w). unfold bind at 1.
  destruct (effective_idle_deadline config s w) as [[[d|]|e|] w1] eqn:Ed; cbn [snd] in *; [|by right..].
  unfold bind at 1. change (utc_now w1) with (@Ok SesError Z (utc (os (step w1))), tick w1). cbv beta iota.
  destruct (utc (os (step w1)) <? d) eqn:El.
  - right. split; [|done]. eapply quiet_trans; [exact Hd|]. apply (respects_tick same_log).
  - left. exists d, (step w1). rewrite Z.gtb_ltb in Ea. bool_cases. split; [lia|].
    split; [by eapply effective_inv|]. done.
Qed.

Lemma cleanup_idle_cases w : overdue w \/ uneventful w (cleanup_idle_locked config w).
Proof.
  assert (respects same_log (status config)) as Hq by (apply silent_status; apply _).
  assert (respects later_than (status config)) as Ht by (apply silent_status; apply _).
  specialize (Hq w). specialize (Ht w). unfold cleanup_idle_locked. unfold bind at 1.
  destruct (status config w) as [[st|e|] w1] eqn:Es; cbn [snd] in *; [|by right..].
  destruct (state st) as [s|] eqn:Ess; [|right; by destruct (health st)].
  destruct (status_registry _ _ _ _ Es Ess) as [Hreg _].
  change (overdue w \/ uneventful w ((match health st with Missing => ret false | _ => idle_check s end) w1)).
  destruct (idle_check_cases s w1) as [(d & n & Ha & Hd & Hn & Hu)|Hno].
  - left. exists s, d, n. unfold later_than in Ht. split; [done|]. split; [done|]. split; [done|]. split; [lia|done].
  - right. destruct (health st); [by split|..]; (destruct Hno as [H1 H2]; split; [by eapply quiet_trans|done]).
Qed.

(** A session in use is never cleaned up, and an idle one only when it is
    due: unless the registry holds a session without clients whose deadline, the
    recorded one or else the configured time after the recorded disconnect, had
    passed by the clock during the operation, idle cleanup signals nothing, leaves
    the registry and the runtime paths alone, and does not report a stop. *)
Theorem idle_cleanup_safe w :
  overdue w \/
  let r := cleanup_idle config w in
  files r.2 = files w /\ r.1 <> Ok true /\
  exists es, log r.2 = log w ++ es /\ Forall (fun ke => protected ke.2 = false) es.
Proof.
  unfold cleanup_idle, with_lock, may_fail, sys, bind, ret, fail, emit, attempt, lift, tick. cbv zeta. cbn [step now files log].
  destruct (faults (step w)); [right; split; [done|]; split; [done|]; exists []; by rewrite app_nil_r|].
  cbn [step now files log].
  destruct (faults _); [right; split; [done|]; split; [done|]; exists []; by rewrite app_nil_r|]. cbn [step now files log].
  match goal with |- context [cleanup_idle_locked config ?u] => set (w1 := u); destruct (cleanup_idle_cases w1) as [Hd|[Hl Hr]] end.
  - left. destruct Hd as (s & d & n & H1 & H2 & H3 & H4 & H5). exists s, d, n. split; [done|]. split; [done|]. split; [done|].
    split; [|done]. cbn in H4. lia.
  - right. destruct (cleanup_idle_locked config w1) as [o w2]. destruct Hl as [Hl Hf]. cbn [fst snd log files] in *.
    split; [done|]. split; [done|]. eexists. rewrite Hl. unfold w1 at 1. cbn [log]. rewrite <- app_assoc. split; [reflexivity|].
    by repeat constructor.
Qed.

(** The timeout is reinterpreted as a signed number: one close to the maximum of
    [u64] makes a session overdue at the very moment it is disconnected. *)
Lemma huge_timeout_wraps t : idle_timeout_ms config = u64_max -> 1000000 <= t < year_10000 ->
  forall w, idle_deadline_after config t w = (Ok (Some (t - 1000000)), w).
Proof.
  intros Ht Hb w. unfold idle_deadline_after. rewrite Ht. cbn -[date_add].
  rewrite date_add_exact; [done| |]; unfold ms, as_i64, u64_max; cbn; lia.
Qed.
End life.

Lemma client_accounting_witness :
  let r := @run_operation chrono_9999 sample_json (sample_host 1000) sample_config Disconnect (sample_world 1) in
  @accounted chrono_9999 sample_json (sample_host 1000) sample_config Disconnect (sample_world 1) r.2 (is_ok r.1) /\
  is_ok r.1 = true /\
  active_clients <$> (registry_of sample_config r.2 ≫= @from_json sample_json) = Some 0 /\
  (registry_of sample_config r.2 ≫= @from_json sample_json) ≫= idle_deadline_at = Some (secs 1700001800).
Proof.
  cbv zeta. split; [|split; [|split]]; [|by vm_compute..].
  apply (@client_accounting chrono_9999 sample_json (sample_host 1000) sample_config Disconnect (sample_world 1)).
  right. by right.
Defined.
