(* ===== verification/SesStart.v ===== *)
(** * Readiness and start-up

    The polling loops, what a usable status means, and what a successful start
    leaves behind. *)
From S2P Require Import Prelude Text SesProcess SesConfig SesHost Sesman SesSample SesTrace SesSignal SesLife.

Section start.
Context `{C : Chrono, J : Json, HH : Host}.
Variable config : SesmanConfig.

(** ** Polling loops *)

(** The clock never goes back. *)
Definition clock (w w' : World) : Prop := now w <= now w'.
#[export] Instance clock_quiet : Quiet clock.
Proof. split; unfold clock; [lia|done]. Qed.

Lemma clock_sleep d w : 0 <= d -> now w + d <= now (sleep d w).2.
Proof. intros Hd. cbn. pose proof (elapsed_nonneg (step w)). lia. Qed.

Lemma clock_now w : instant_now w = (Ok (now w), tick w) /\ now w <= now (tick w).
Proof. split; [done|]. cbn. pose proof (elapsed_nonneg (step w)). lia. Qed.

(** Two continuations that agree after every success of the first step. *)
Lemma bind_congr {A B} (m : M A) (k k' : A -> M B) w :
  (forall a w1, m w = (Ok a, w1) -> k a w1 = k' a w1) -> bind m k w = bind m k' w.
Proof. intros H. unfold bind. destruct (m w) as [[a|e|] w1]; [by apply H|done..]. Qed.

(** The clock after a step that only looks. *)
Lemma clock_run {A} (m : M A) w r w' : respects clock m -> m w = (r, w') -> now w <= now w'.
Proof. intros Hm E. apply (respects_run clock _ _ _ _ Hm E). Qed.

Lemma clock_after_sleep d w r w' : 0 <= d -> sleep d w = (r, w') -> now w + d <= now w'.
Proof. intros Hd E. pose proof (clock_sleep d w Hd) as H. by rewrite E in H. Qed.

Lemma wait_stopped_extra ts d extra : forall fuel w, d - now w <= ms 100 * Z.of_nat fuel ->
  wait_stopped (S fuel + extra) d ts w = wait_stopped (S fuel) d ts w.
Proof.
  induction fuel as [|fuel IH]; intros w Hf; cbn [Nat.add wait_stopped]; apply bind_congr; intros t w1 Et;
    apply (clock_run instant_now) in Et as Hw1; [|apply respects_now; apply _| |apply respects_now; apply _];
    assert (t = now w) as -> by (unfold instant_now in Et; congruence).
  - by rewrite (proj2 (Z.ltb_ge (now w) d)) by lia.
  - destruct (now w <? d); [|done]. apply bind_congr. intros stopped w2 E2.
    apply (clock_run _ _ _ _ (silent_all_stopped clock ts)) in E2. destruct stopped; [done|].
    apply bind_congr. intros [] w3 E3. apply clock_after_sleep in E3; [|unfold ms; lia].
    apply (IH w3). unfold ms in *. lia.
Qed.

Lemma wait_ready_extra c s d extra : forall fuel w, d - now w <= ms 100 * Z.of_nat fuel ->
  wait_ready config (S fuel + extra) d c s w = wait_ready config (S fuel) d c s w.
Proof.
  induction fuel as [|fuel IH]; intros w Hf; cbn [Nat.add wait_ready]; apply bind_congr; intros [o|] w1 E1; try done;
    (apply clock_run in E1; [|apply silent_look_ready; apply _]);
    apply bind_congr; intros t w2 Et;
    (apply (clock_run instant_now) in Et as Hw2; [|apply respects_now; apply _]);
    assert (t = now w1) as -> by (unfold instant_now in Et; congruence).
  - by rewrite (proj2 (Z.leb_le d (now w1))) by lia.
  - destruct (d <=? now w1); [done|]. apply bind_congr. intros [] w3 E3.
    apply clock_after_sleep in E3; [|unfold ms; lia]. apply (IH w3). unfold ms in *. lia.
Qed.

Lemma settle_extra n p u d extra : forall fuel w t, d - now w <= ms 10 * Z.of_nat fuel ->
  settle_loop (S fuel + extra) n p u d t w = settle_loop (S fuel) n p u d t w.
Proof.
  induction fuel as [|fuel IH]; intros w t Hf; cbn [Nat.add settle_loop];
    apply bind_congr; intros r w1 E1; (apply clock_run in E1; [|apply respects_sys; apply _]);
    apply bind_congr; intros [] w2 E2; try done; (apply clock_run in E2; [|apply respects_of_io; apply _]);
    apply bind_congr; intros i w3 E3; (apply clock_run in E3; [|apply respects_reading; apply _]); cbv zeta;
    apply bind_congr; intros alive w4 E4; (apply clock_run in E4; [|apply respects_reading; apply _]);
    (destruct (identity_is_settled _ _ _); [done|]);
    apply bind_congr; intros t5 w5 E5; (apply (clock_run instant_now) in E5 as H5; [|apply respects_now; apply _]);
    assert (t5 = now w4) as -> by (unfold instant_now in E5; congruence).
  - unfold sat_sub. by rewrite (proj2 (Z.eqb_eq _ 0)) by lia.
  - destruct (Z.eqb_spec (sat_sub d (now w4)) 0) as [|Hr]; [done|]. apply bind_congr. intros [] w6 E6.
    apply clock_after_sleep in E6; [|unfold IDENTITY_SETTLE_POLL_INTERVAL, ms, sat_sub; lia].
    apply (IH w6). unfold IDENTITY_SETTLE_POLL_INTERVAL, sat_sub, ms in *. lia.
Qed.

Lemma poll_fuel_spec T : 0 <= T -> exists k, poll_fuel T = S k /\ ms T <= ms 100 * Z.of_nat k.
Proof.
  intros HT. unfold poll_fuel. exists (Z.to_nat (T / 100 + 1)). pose proof (Z.div_mod T 100). pose proof (Z.mod_pos_bound T 100).
  assert (0 <= T / 100) by (apply Z.div_pos; lia). split; [lia|]. unfold ms. lia.
Qed.

(** The waits with further iterations. *)
Definition patient_stop (extra : nat) (ts : list (bool * ComponentState)) : M unit :=
  let! t := instant_now in
  wait_stopped (poll_fuel (stop_timeout_ms config) + extra) (t + ms (stop_timeout_ms config)) ts.
Definition patient_ready (extra : nat) (c : ComponentConfig) (s : SessionState) : M unit :=
  let! t := instant_now in
  wait_ready config (poll_fuel (start_timeout_ms config) + extra) (t + ms (start_timeout_ms config)) c s.

(** C5. Every wait of the manager ends within its timeout, and is given enough
    iterations by the model: with any number of further iterations, the wait for
    termination, the wait for readiness and the wait for a child's identity give
    the same result, because each iteration sleeps and the clock reaches the
    deadline first. *)
Theorem polling_complete extra w : 0 <= stop_timeout_ms config -> 0 <= start_timeout_ms config ->
  (forall ts, wait_for_stop config ts w = patient_stop extra ts w) /\
  (forall c s, wait_until_ready config c s w = patient_ready extra c s w) /\
  (forall n p u, settle_loop settle_fuel n p u (now w + IDENTITY_SETTLE_TIMEOUT) None w =
     settle_loop (settle_fuel + extra) n p u (now w + IDENTITY_SETTLE_TIMEOUT) None w).
Proof.
  intros (k1 & E1 & H1)%poll_fuel_spec (k2 & E2 & H2)%poll_fuel_spec. pose proof (proj2 (clock_now w)) as Hclk. split; [|split].
  - intros ts. unfold wait_for_stop, patient_stop, bind, instant_now. rewrite E1. symmetry. apply wait_stopped_extra. lia.
  - intros c s. unfold wait_until_ready, patient_ready, bind, instant_now. rewrite E2. symmetry. apply wait_ready_extra. lia.
  - intros n p u. symmetry. apply (settle_extra n p u _ extra 101). unfold IDENTITY_SETTLE_TIMEOUT, secs, ms. lia.
Qed.

(** ** Usable sessions *)

(** What the look at one configured component found. *)
Definition component_ready (s : SessionState) (c : ComponentConfig) : Prop := exists cs n,
  find_state (comp_name c) s = Some cs /\ cs_command cs = command c :: args c /\
  process_matches (view_at n) (component_signature cs) Status = true /\
  match readiness c with
  | UnixSocket path => exists n', unix_socket_ready config path (view_at n') = true
  | _ => True
  end.

Lemma find_state_name n s c : find_state n s = Some c -> cs_name c = n.
Proof.
  unfold find_state. destruct (list_find _ _) as [[i x]|] eqn:E; [|done]. cbn. intros [= <-].
  apply list_find_Some in E as (_ & Hx & _). by apply eqs_true, Is_true_true.
Qed.

Lemma classify_one_spec s c w n dead w' : classify_one config s c w = (Ok (n, dead), w') ->
  required c = true -> (comp_name c ∈ dead) \/ component_ready s c.
Proof.
  unfold classify_one. intros E Hr. destruct (find_state (comp_name c) s) as [cs|] eqn:Ef.
  - pose proof (find_state_name _ _ _ Ef) as Hn.
    apply bind_ok_inv in E as (matched & w1 & E1 & E). apply bind_ok_inv in E as (ready & w2 & E2 & E).
    unfold ret in E. destruct ready; simplify_eq; [|left; rewrite <- Hn; set_solver]. right.
    destruct matched; [|unfold ret in E2; simplify_eq]. case_bool_decide as Hc; [|unfold ret in E1; simplify_eq].
    unfold matches, reading in E1. injection E1 as Hm _. exists cs, (step w). split; [done|]. split; [done|]. split; [done|].
    destruct (readiness c) as [|path|]; [done| |done]. unfold reading in E2. injection E2 as Hs _. exists (step w1). done.
  - rewrite Hr in E. unfold ret in E. simplify_eq. left. set_solver.
Qed.

Lemma classify_spec s cs : forall w n dead w', classify config s cs w = (Ok (n, dead), w') ->
  forall c, c ∈ cs -> required c = true -> (comp_name c ∈ dead) \/ component_ready s c.
Proof.
  induction cs as [|c0 cs IH]; intros w n dead w' E c Hin Hr; [by apply elem_of_nil in Hin|]. cbn [classify] in E.
  apply bind_ok_inv in E as ([n1 d1] & w1 & E1 & E). apply bind_ok_inv in E as ([n2 d2] & w2 & E2 & E).
  unfold ret in E. cbn [fst snd] in E. simplify_eq. apply elem_of_cons in Hin as [->|Hin].
  - destruct (classify_one_spec _ _ _ _ _ _ E1 Hr) as [H|H]; [left; set_solver|by right].
  - destruct (IH _ _ _ _ E2 c Hin Hr) as [H|H]; [left; set_solver|by right].
Qed.

Lemma find_config_unique c : NoDup (map comp_name (components config)) -> c ∈ components config ->
  find_config config (comp_name c) = Some c.
Proof.
  unfold find_config. generalize (components config). intros l. induction l as [|x l IH]; intros Hnd Hin; [by apply elem_of_nil in Hin|].
  cbn in Hnd. apply NoDup_cons in Hnd as [Hx Hnd]. cbn [list_find]. destruct (decide _) as [Hd|Hd].
  - cbn. f_equal. apply elem_of_cons in Hin as [->|Hin]; [done|]. exfalso. apply Hx.
    apply Is_true_true, eqs_true in Hd. rewrite Hd. apply list_elem_of_In, in_map, list_elem_of_In. done.
  - apply elem_of_cons in Hin as [->|Hin].
    { exfalso. apply Hd. apply Is_true_true. by apply eqs_true. }
    specialize (IH Hnd Hin). destruct (list_find _ l) as [[i y]|]; [done|done].
Qed.

(** A session that is offered to a client works: when a status is judged able
    to serve, it holds a session state that belongs to the configuration, and every
    required component of the configuration has a record with the configured
    command line whose process was alive and authentic at the time of the look,
    and whose socket, where one is configured, was owned by the user and accepted a
    connection. *)
Theorem usable_session_is_ready w st w' : NoDup (map comp_name (components config)) ->
  status config w = (Ok st, w') -> status_can_serve config st = true ->
  exists s, state st = Some s /\ (exists n, state_belongs_to_config config (view_at n) s = true) /\
    forall c, c ∈ components config -> required c = true -> component_ready s c.
Proof.
  intros Hnd E Hcan. unfold status in E. cbv zeta in E.
  apply bind_ok_inv in E as (r & w1 & _ & E). apply bind_ok_inv in E as ([s|] & w2 & _ & E);
    [|unfold ret in E; simplify_eq; done].
  apply bind_ok_inv in E as (owned & w3 & E3 & E). unfold reading in E3. injection E3 as Ho <-.
  apply bind_ok_inv in E as ([n dead] & w4 & E4 & E). unfold ret in E. injection E as <- _. cbn [snd fst] in Hcan.
  exists s. split; [done|]. destruct owned; [|unfold ret in E4; injection E4 as <- <- _; by vm_compute in Hcan].
  split; [by exists (step w2)|]. intros c Hc Hr.
  apply bind_ok_inv in E4 as ([n1 d1] & w5 & E5 & E4). unfold ret in E4. cbn [fst snd] in E4. injection E4 as <- <- _.
  destruct (classify_spec _ _ _ _ _ _ E5 c Hc Hr) as [Hd|]; [|done]. exfalso.
  assert (bool_decide (d1 ++ removed_components config s = []) = false) as Hnil.
  { apply bool_decide_eq_false. intros [-> _]%app_eq_nil. by apply elem_of_nil in Hd. }
  unfold status_can_serve in Hcan. cbn [health dead_components] in Hcan. rewrite Hnil in Hcan.
  destruct (bool_decide (n1 = 0%nat)); [by vm_compute in Hcan|].
  apply orb_prop in Hcan as [Hcan|Hcan]; [by vm_compute in Hcan|]. apply andb_prop in Hcan as [_ Hcan].
  rewrite forallb_forall in Hcan. specialize (Hcan (comp_name c)). rewrite (find_config_unique c Hnd Hc), Hr in Hcan.
  assert (In (comp_name c) (d1 ++ removed_components config s)) as Hin by (apply list_elem_of_In; set_solver). by specialize (Hcan Hin).
Qed.

(** ** What a start leaves behind *)

Lemma settle_settled n p u d : forall fuel t w i w', settle_loop fuel n p u d t w = (Ok i, w') ->
  exists alive, identity_is_settled i u alive = true.
Proof.
  induction fuel as [|fuel IH]; intros t w i w' E; cbn [settle_loop] in E; [done|].
  apply bind_ok_inv in E as (r & w1 & _ & E). apply bind_ok_inv in E as ([] & w2 & _ & E); [done|].
  apply bind_ok_inv in E as (j & w3 & _ & E). cbv zeta in E. apply bind_ok_inv in E as (alive & w4 & _ & E).
  destruct (identity_is_settled _ _ alive) eqn:Es; [unfold ret in E; simplify_eq; by exists alive|].
  apply bind_ok_inv in E as (t5 & w5 & _ & E). destruct (_ =? 0); [done|].
  apply bind_ok_inv in E as ([] & w6 & _ & E). by eapply IH.
Qed.

(** The record of a started component: it names the configured command line and
    carries everything that later authenticates the process. *)
Definition started (c : ComponentConfig) (cs : ComponentState) : Prop :=
  cs_name cs = comp_name c /\ cs_command cs = command c :: args c /\ cs_required cs = required c /\
  process_group cs = true /\ pid cs <= i32_max /\ is_fully_hardened (component_signature cs) = true.

Lemma spawn_started c w cs w' : spawn_component config c w = (Ok cs, w') -> started c cs.
Proof.
  unfold spawn_component, spawn_managed_component. intros E.
  do 6 (apply bind_ok_inv in E as (? & ? & _ & E)). cbv zeta in E.
  do 2 (apply bind_ok_inv in E as (? & ? & _ & E)). apply bind_ok_inv in E as ([p|] & ? & _ & E); [|done].
  apply bind_ok_inv in E as (? & ? & _ & E). apply bind_ok_inv in E as (? & ? & _ & E).
  destruct (Z.gtb_spec p i32_max) as [|Hp]; [done|].
  apply bind_ok_inv in E as (r & ? & Er & E). apply attempt_inv in Er as (o & Ho & Er). injection Ho as ->.
  destruct o as [i|e|]; [| |done].
  - apply bind_ok_inv in E as (? & ? & _ & E). unfold ret in E. injection E as <- _.
    apply settle_settled in Er as [alive Hs]. unfold identity_is_settled in Hs.
    apply andb_prop in Hs as [Hs H4]. apply andb_prop in Hs as [Hs H3]. apply andb_prop in Hs as [Hs H2].
    apply andb_prop in Hs as [_ H1%bool_decide_eq_true].
    unfold started, is_fully_hardened, component_signature. cbn. rewrite H1, H2, H3, H4. done.
  - by apply bind_ok_inv in E as (? & ? & _ & E).
Qed.

Lemma start_all_spec cs : forall s w s' w', start_all config s cs w = (Ok (s', Ok tt), w') -> cs <> [] ->
  exists new, st_components s' = st_components s ++ new /\ Forall2 started cs new /\ registry_of config w' = Some (to_json s').
Proof.
  induction cs as [|c cs IH]; intros s w s' w' E Hne; [done|]. cbn [start_all] in E.
  apply bind_ok_inv in E as (r & w1 & Er & E). apply attempt_inv in Er as (o & Ho & Er). injection Ho as ->.
  destruct o as [s1|e|]; [|by unfold ret in E; simplify_eq..].
  unfold start_component in Er. apply bind_ok_inv in Er as (x & w2 & Ex & Er). unfold ret in Er. simplify_eq.
  apply spawn_started in Ex. apply bind_ok_inv in E as (s2 & w3 & Et & E). apply touch_inv in Et as [t ->].
  apply bind_ok_inv in E as (r & w4 & Er & E). apply attempt_inv in Er as (o & Ho & Er). injection Ho as ->.
  destruct o as [u|e|]; [|by unfold ret in E; simplify_eq..].
  apply bind_ok_inv in Er as (? & w5 & Ew & Er). apply write_state_atomic in Ew as [[_ Hw]|[[e He] _]]; [|done].
  assert (registry_of config w4 = Some (to_json (mark_updated t (push_component x s)))) as Hw4.
  { rewrite <- Hw. unfold registry_of. f_equal. f_equal.
    assert (forall s', respects same_files (do! wait_until_ready config c s' in
      when (startup_delay_ms c >? 0) (sleep (ms (startup_delay_ms c))))) as Hq.
    { intros s'0. apply respects_bind; [apply _|apply silent_wait_until_ready; apply _|]. intros _.
      apply respects_when; [apply _|]. intros Hd. apply respects_sleep; [apply _|]. unfold ms. lia. }
    apply (respects_run _ _ _ _ _ (Hq _) Er). }
  destruct cs as [|c' cs].
  - cbn [start_all] in E. unfold ret in E. simplify_eq. exists [x]. split; [done|]. split; [by apply Forall2_cons; split; [|constructor]|done].
  - destruct (IH _ _ _ _ E ltac:(done)) as (new & Hc & Hf & Hr). exists (x :: new). rewrite Hc. cbn.
    rewrite <- app_assoc. split; [done|]. split; [by constructor|done].
Qed.

(** What the body of [ensure] promises about the registry. *)
Definition ensured (r : outcome SesError EnsureResult) (w' : World) : Prop :=
  match r with
  | Ok e => reused_existing e = true \/
      exists s, registry_of config w' = Some (to_json s) /\ Forall2 started (components config) (st_components s)
  | Err (StartupFailed _) => registry_of config w' = None
  | _ => True
  end.

Lemma status_same_registry w r w' : status config w = (r, w') -> registry_of config w' = registry_of config w.
Proof. intros E. apply registry_same. eapply respects_run; [apply silent_status; apply _|exact E]. Qed.

(** Which errors a computation can end with. *)
Definition errs {A} (P : SesError -> Prop) (m : M A) : Prop := forall w e w', m w = (Err e, w') -> P e.
Definition ordinary (e : SesError) : Prop := match e with StartupFailed _ => False | _ => True end.

Lemma errs_ok {A} P (m : M A) : (forall w, is_ok (m w).1 = true) -> errs P m.
Proof. intros H w e w' E. specialize (H w). by rewrite E in H. Qed.
Lemma errs_fail {A} (P : SesError -> Prop) e : P e -> errs P (@fail A e).
Proof. intros He w e' w' E. unfold fail in E. by simplify_eq. Qed.
Lemma errs_panic {A} P : errs P (@lift A Panic).
Proof. intros w e w' E. unfold lift in E. by simplify_eq. Qed.
Lemma errs_bind {A B} P (m : M A) (k : A -> M B) : errs P m -> (forall a, errs P (k a)) -> errs P (bind m k).
Proof.
  intros Hm Hk w e w' E. apply bind_inv in E as [(a & w1 & _ & E)|[(e1 & E & He)|[_ ?]]]; [by eapply Hk| |done].
  simplify_eq. by eapply Hm.
Qed.
Lemma errs_attempt {A} P (m : M A) : errs P (attempt m).
Proof. apply errs_ok. intros w. unfold attempt. by destruct (m w). Qed.
Lemma errs_bind_attempt {A B} P (m : M A) (k : outcome SesError A -> M B) : errs P m ->
  (forall o, (forall e, o = Err e -> P e) -> errs P (k o)) -> errs P (bind (attempt m) k).
Proof.
  intros Hm Hk w e w' E. apply bind_inv in E as [(a & w1 & E1 & E)|[(e1 & E & He)|[_ ?]]]; [| |done].
  - apply attempt_inv in E1 as (o & Ho & E1). injection Ho as ->. apply (Hk o) in E; [done|]. intros e1 ->. by eapply Hm.
  - injection He as ->. by apply (errs_attempt P m) in E.
Qed.
Lemma errs_map_m {A B} P (f : A -> M B) xs : (forall x, errs P (f x)) -> errs P (map_m f xs).
Proof. intros Hf. induction xs; cbn; repeat (apply errs_bind; [done|intros]); by apply errs_ok. Qed.
Lemma errs_all_m {A} P (f : A -> M bool) xs : (forall x, errs P (f x)) -> errs P (all_m f xs).
Proof. intros Hf. induction xs; cbn; [by apply errs_ok|]. apply errs_bind; [done|]. intros []; [done|by apply errs_ok]. Qed.
Lemma errs_for_each {A} P xs (f : A -> M unit) : (forall x, errs P (f x)) -> errs P (for_each xs f).
Proof. intros Hf. induction xs; cbn; [by apply errs_ok|]. by apply errs_bind. Qed.

Ltac errs :=
  repeat match goal with
  | |- errs _ (bind _ _) => apply errs_bind; [|intros ?]
  | |- errs _ (ret _) => by apply errs_ok
  | |- errs _ (sys _) => by apply errs_ok
  | |- errs _ (reading _ _) => by apply errs_ok
  | |- errs _ instant_now => by apply errs_ok
  | |- errs _ utc_now => by apply errs_ok
  | |- errs _ get_files => by apply errs_ok
  | |- errs _ (set_files _) => by apply errs_ok
  | |- errs _ (emit _) => by apply errs_ok
  | |- errs _ (sleep _) => by apply errs_ok
  | |- errs _ (attempt _) => apply errs_attempt
  | |- errs _ (fail _) => by apply errs_fail
  | |- errs _ (lift Panic) => apply errs_panic
  | |- errs _ (when ?b _) => destruct b; unfold when
  | |- errs _ (may_fail _) => unfold may_fail
  | |- errs _ (for_each _ _) => apply errs_for_each; intros ?
  | |- errs _ (map_m _ _) => apply errs_map_m; intros ?
  | |- errs _ (all_m _ _) => apply errs_all_m; intros ?
  | |- errs _ (match ?x with _ => _ end) => destruct x
  | |- errs _ (let '_ := ?x in _) => destruct x
  end.

Lemma errs_target_alive t : errs ordinary (target_alive t).
Proof. unfold target_alive, matches. errs. Qed.
Lemma errs_cleanup : errs ordinary (cleanup_runtime config).
Proof. unfold cleanup_runtime, cleanup_runtime_paths, cleanup_simple_glob, remove_stale_path. errs. Qed.
Lemma errs_write s : errs ordinary (write_state config s).
Proof. unfold write_state. cbv zeta. errs. Qed.

Lemma errs_status : errs ordinary (status config).
Proof.
  assert (forall s cs, errs ordinary (classify config s cs)) as Hc.
  { intros s cs. induction cs as [|c cs IH]; cbn [classify]; [errs|].
    apply errs_bind; [unfold classify_one, matches; errs|]. intros r. apply errs_bind; [done|]. intros. errs. }
  unfold status. apply errs_bind_attempt; [unfold read_state_file; errs|]. intros r Hr. apply errs_bind.
  - destruct r as [c|e|]; [errs| |errs]. specialize (Hr e eq_refl). destruct e; try (by apply errs_fail); errs.
  - intros [s|]; [|errs]. apply errs_bind; [errs|]. intros []; (apply errs_bind; [|intros; errs]); [|errs].
    apply errs_bind; [apply Hc|]. intros; errs.
Qed.

Lemma errs_stop_state s : errs ordinary (stop_state config s).
Proof.
  assert (forall sig ts, errs ordinary (signal_all sig ts)) as Hs.
  { intros sig ts. apply errs_for_each. intros t. apply errs_bind; [apply errs_target_alive|]. intros []; [|by apply errs_ok].
    apply errs_bind_attempt; [unfold signal_process; errs|]. intros [u|e|] He; [errs| |errs].
    apply errs_bind; [apply errs_target_alive|]. intros []; [apply errs_fail; by apply He|errs]. }
  assert (forall fuel d ts, errs ordinary (wait_stopped fuel d ts)) as Hw.
  { induction fuel as [|fuel IH]; intros d ts; cbn [wait_stopped]; [errs|].
    apply errs_bind; [errs|]. intros t. destruct (t <? d); [|errs]. apply errs_bind.
    - unfold all_targets_stopped. apply errs_all_m. intros x. apply errs_bind; [apply errs_target_alive|]. intros; errs.
    - intros []; [errs|]. apply errs_bind; [errs|]. intros. apply IH. }
  assert (forall ts, errs ordinary (survivors ts)) as Hv.
  { induction ts as [|t ts IH]; cbn [survivors]; [errs|].
    apply errs_bind; [apply errs_target_alive|]. intros a. apply errs_bind; [done|]. intros. errs. }
  unfold stop_state, wait_for_stop. apply errs_bind; [errs|]. intros owned.
  apply errs_bind; [unfold authorize, matches; errs|]. intros l. cbv zeta.
  do 4 (apply errs_bind; [first [apply Hs|apply errs_bind; [errs|intros; apply Hw]]|intros _]).
  apply errs_bind; [apply Hv|]. intros x. case_match; [errs|].
  apply errs_bind; [apply errs_cleanup|]. intros _. unfold remove_state_file. errs.
Qed.

Lemma errs_stop_locked : errs ordinary (stop_locked config).
Proof.
  apply errs_bind; [apply errs_status|]. intros st. destruct (state st); [apply errs_stop_state|errs].
Qed.

Lemma errs_update_reconnect s o : errs ordinary (update_reconnect_state s o).
Proof. unfold update_reconnect_state, touch. cbv zeta. errs. Qed.

Definition good (m : M EnsureResult) : Prop := forall w, ensured (m w).1 (m w).2.

Lemma good_bind {A} (m : M A) (k : A -> M EnsureResult) : errs ordinary m ->
  (forall a w w1, m w = (Ok a, w1) -> ensured (k a w1).1 (k a w1).2) -> good (bind m k).
Proof.
  intros Hm Hk w. unfold bind. destruct (m w) as [[a|e|] w1] eqn:E; [by eapply Hk| |done].
  apply Hm in E. by destruct e.
Qed.
Lemma good_fail e : ordinary e -> good (fail e).
Proof. intros He w. by destruct e. Qed.

(** The start loop and what follows it. *)
Definition start_tail (s : SessionState) : M EnsureResult :=
  let! r := start_all config s (components config) in
  match snd r with
  | Ok _ => let! st := status config in ret (mkEnsured false st)
  | Panic => lift Panic
  | Err e =>
      let! c := attempt (stop_state config (fst r)) in
      match c with
      | Ok _ => fail (StartupFailed e)
      | Err e' => fail (StartupAndCleanupFailed e e')
      | Panic => lift Panic
      end
  end.

Lemma start_all_returns s cs : errs (fun _ => False) (start_all config s cs).
Proof.
  revert s. induction cs as [|c cs IH]; intros s; cbn [start_all]; [errs|].
  apply errs_bind; [errs|]. intros [s1|e|]; [|errs..]. apply errs_bind; [unfold touch; errs|]. intros s2.
  apply errs_bind; [errs|]. intros [u|e|]; [apply IH|errs..].
Qed.

Lemma good_start s : components config <> [] -> st_components s = [] -> good (start_tail s).
Proof.
  intros Hne Hs w. unfold start_tail, bind.
  destruct (start_all config s (components config) w) as [[[s' o]|e|] w1] eqn:E; [| |done];
    [|by apply start_all_returns in E]. cbn [fst snd].
  destruct o as [[]|e|]; [| |done].
  - apply start_all_spec in E as (new & Hc & Hf & Hr); [|done]. rewrite Hs in Hc. cbn in Hc.
    destruct (status config w1) as [[st|e|] w2] eqn:Es; [| |done].
    + right. exists s'. unfold ret. cbn [fst snd]. rewrite (status_same_registry _ _ _ Es), Hc. done.
    + apply errs_status in Es. by destruct e.
  - unfold attempt. pose proof (stop_state_outcome config s' w1) as Ho.
    destruct (stop_state config s' w1) as [[u|e'|] w2]; [|done..]. destruct Ho as (_ & w5 & _ & Ho). cbn.
    unfold registry_of. by rewrite Ho, lookup_delete_eq.
Qed.

Lemma good_ensure_locked o : components config <> [] -> good (ensure_locked config o).
Proof.
  intros Hne. unfold ensure_locked. apply good_bind; [apply errs_status|]. intros st0 _ w1 _. revert w1. apply good_bind.
  { destruct (force_restart o); [|errs]. apply errs_bind; [apply errs_stop_locked|]. intros _. apply errs_status. }
  intros st _ w1 _. revert w1. destruct (status_can_serve config st).
  - destruct (state st) as [s|]; [|by apply good_fail]. apply good_bind; [apply errs_update_reconnect|]. intros s1 _ w1 _. revert w1.
    apply good_bind; [apply errs_write|]. intros _ _ w1 _. revert w1. apply good_bind; [apply errs_status|].
    intros st' _ w1 _. by left.
  - apply good_bind; [unfold when; case_match; [apply errs_stop_locked|errs]|]. intros _ _ w1 _. revert w1.
    apply good_bind; [apply errs_cleanup|]. intros _ _ w1 _. revert w1.
    apply good_bind; [unfold session_new; errs|]. intros s0 w0 w1 E0.
    assert (st_components s0 = []) as H0.
    { unfold session_new in E0. do 5 (apply bind_ok_inv in E0 as (? & ? & _ & E0)). unfold ret in E0. by simplify_eq. }
    clear E0. revert w1. apply good_bind; [apply errs_update_reconnect|]. intros s1 w2 w3 E1. apply good_start; [done|].
    unfold update_reconnect_state in E1. cbv zeta in E1. apply bind_ok_inv in E1 as (cl & w4 & _ & E1).
    apply touch_inv in E1 as [t ->]. by destruct (client_connected o).
Qed.

(** C4. What a start leaves behind: when [ensure] starts a session, the registry
    holds the session state with one record per configured component, in order,
    each with the configured command line, its own process group and the full
    identity (start time, boot, user, group) that later signals are authenticated
    by; and when the start fails and the cleanup succeeds, no session is left
    registered. *)
Theorem ensure_registers_hardened o w : components config <> [] ->
  let r := ensure config o w in ensured r.1 r.2.
Proof.
  intros Hne. cbv zeta. assert (errs ordinary (prepare_directories config)) as Hp.
  { assert (forall p u g b, errs ordinary (ensure_secure_directory p u g b)) as Hd.
    { intros p u g b. unfold ensure_secure_directory. destruct (negb (is_absolute p)); [errs|]. apply errs_bind; [|intros; unfold of_io; errs].
      generalize (lit "/"). induction (path_components p) as [|c cs IH]; intros cur; cbn [secure_walk]; [errs|].
      destruct (eqs c (lit "..")); [errs|]. cbv zeta. apply errs_bind; [unfold secure_component, of_io; errs|].
      intros created. destruct cs; [errs|apply IH]. }
    unfold prepare_directories, uid_of, gid_of, or_user, of_io. repeat (errs; try apply Hd). }
  revert w. apply good_bind; [done|]. intros _ _ w1 _. revert w1. unfold with_lock.
  apply good_bind; [errs|]. intros _ _ w1 _. revert w1. apply good_bind; [errs|]. intros _ _ w1 _. revert w1.
  apply good_bind; [errs|]. intros _ _ w1 _. revert w1. intros w1. unfold bind, attempt, emit, lift.
  pose proof (good_ensure_locked o Hne w1) as Hg. by destruct (ensure_locked config o w1) as [r w2].
Qed.
End start.

Lemma polling_complete_witness :
  @wait_for_stop chrono_9999 (sample_host 100) sample_config
    [(true, mkCompState [] 4242 [[120]] 0 None None None None true true)] (mkWorld 0 0 ∅ []) =
  @patient_stop chrono_9999 (sample_host 100) sample_config 1000
    [(true, mkCompState [] 4242 [[120]] 0 None None None None true true)] (mkWorld 0 0 ∅ []).
Proof.
  destruct (@polling_complete chrono_9999 (sample_host 100) sample_config 1000 (mkWorld 0 0 ∅ [])) as (H & _);
    [done..|]. exact (H _).
Defined.

Lemma usable_session_is_ready_witness : exists n,
  process_matches (H := chrono_9999) (fun i => @os (sample_host 1000) (n + i)%nat)
    (component_signature (mkCompState MANAGED_COMPOSITOR_COMPONENT 4242 [MANAGED_COMPOSITOR_COMMAND] 0 (Some 987654)
      (Some (lit "b00t")) (Some 1000) (Some 4242) true true)) Status = true.
Proof.
  pose (r := @status chrono_9999 sample_json (sample_host 1000) sample_config (sample_world 0)).
  destruct (@usable_session_is_ready chrono_9999 sample_json (sample_host 1000) sample_config (sample_world 0)
    (mkStatus Healthy (state_path sample_config) (Some (sample_state 0)) []) r.2) as (s & Hs & _ & Hc).
  - by apply NoDup_singleton.
  - by vm_compute.
  - by vm_compute.
  - injection Hs as <-. destruct (Hc sample_component) as (cs & n & Hf & _ & Hm & _); [by left|done|].
    injection Hf as <-. by exists n.
Defined.

Lemma ensure_registers_hardened_witness :
  exists s, registry_of sample_config (@ensure chrono_9999 sample_json (sample_host 100000) sample_config sample_options empty_world).2 =
    Some (@to_json sample_json s) /\ Forall2 started (components sample_config) (st_components s).
Proof.
  pose proof (@ensure_registers_hardened chrono_9999 sample_json (sample_host 100000) sample_config sample_options empty_world ltac:(done)) as H.
  pose proof ensure_sample as Hs. cbv zeta in H.
  destruct (@ensure chrono_9999 sample_json (sample_host 100000) sample_config sample_options empty_world) as [[e|e|] w] eqn:E;
    [|by destruct Hs..]. destruct H as [H|H]; [|exact H]. rewrite H in Hs. by destruct Hs.
Defined.

