(* ===== verification/SesScan.v ===== *)
(** * Scans over all production sessions

    Models the daemon-wide scans of src/src/sesman/mod.rs: at start-up every
    registered session is reconciled, and periodically idle sessions are cleaned
    up.  Only root-owned registries are believed, and only as far as the name of
    their user. *)
From S2P Require Import Prelude Text SesProcess SesConfig SesHost Sesman SesSample SesTrace SesSignal SesLife.

(** [sesman/mod.rs:907-907 PRODUCTION_REGISTRY_ROOT] *)
Definition PRODUCTION_REGISTRY_ROOT : str := lit "/run/wrdp/sesman".

(** [sesman/mod.rs:910-913 ProductionSessionScanOperation] *)
Inductive ProductionSessionScanOperation := ReconcileAfterDaemonRestart | CleanupIdleSessions.

(** [path.extension()] of a path whose last component is [name] *)
Definition extension (name : str) : option str :=
  match rsplit_once 46 name with
  | Some ([], _) | None => None
  | Some (_, ext) => Some ext
  end.

Section scan.
Context {C : Chrono} {J : Json} {HH : Host}.
Variable environ : Environ.

(** [sesman/mod.rs:927-937 apply] *)
Definition scan_apply (op : ProductionSessionScanOperation) (config : SesmanConfig) : M unit :=
  match op with
  | ReconcileAfterDaemonRestart => run_operation config Reconcile
  | CleanupIdleSessions => run_operation config CleanupIdle
  end.

(** A [warn!] for the error of one entry; a panic goes on. *)
Definition logged (m : M unit) : M unit :=
  let! r := attempt m in match r with Panic => lift Panic | _ => ret tt end.

(** The file is inspected, opened and inspected again; a registry that changes in
    between is an error of the host.
    [sesman/mod.rs:1050-1103 scan_production_state_file] *)
Definition scan_production_state_file (path : str) (dir_uid : Z) (op : ProductionSessionScanOperation) : M unit :=
  do! may_fail (IoError path) in
  let! fs := get_files in
  match fs !! path with
  | None => fail (IoNotFound path)
  | Some f =>
      if negb (is_file (reg_meta f)) || negb (owner (reg_meta f) =? 0) then fail (UnsafeStateFile path)
      else
        do! may_fail (IoError path) in
        match from_json (reg_content f) with
        | None => fail (BadJson path)
        | Some s =>
            let! uid := uid_of (st_user s) in
            if negb (uid =? dir_uid) then fail (UntrustedStateFile path)
            else
              let! config := sys (fun i => for_user environ (os i) (st_user s)) in
              match config with
              | Ok config =>
                  if path_eq (state_path config) path then scan_apply op config
                  else fail (UntrustedStateFile path)
              | _ => fail (UserError (st_user s))
              end
        end
  end.

Definition root_directory (m : Metadata) : bool := is_dir m && (owner m =? 0).

(** The entries of a directory; an unreadable entry is skipped.
    [sesman/mod.rs:976-995 scan_production_sessions] *)
Definition scan_entries (path : str) (names : list str) (each : str -> M unit) : M unit :=
  for_each names (fun name =>
    let! unreadable := sys faults in
    if unreadable : bool then ret tt else logged (each name)).

(** [sesman/mod.rs:1000-1047 scan_production_registry_dir] *)
Definition scan_production_registry_dir (name : str) (op : ProductionSessionScanOperation) : M unit :=
  let dir_path := path_join PRODUCTION_REGISTRY_ROOT name in
  match parse_unsigned u32_max name with
  | None => ret tt
  | Some dir_uid =>
      let! r := sys (fun i => lstat (os i) dir_path) in
      let! m := of_io dir_path r in
      if negb (root_directory m) then fail (UnsafeDir dir_path)
      else
        let! r := sys (fun i => read_dir i dir_path) in
        let! names := of_io dir_path r in
        scan_entries dir_path names (fun name =>
          if bool_decide (extension name = Some (lit "json"))
          then scan_production_state_file (path_join dir_path name) dir_uid op else ret tt)
  end.

(** [sesman/mod.rs:957-997 scan_production_sessions] *)
Definition scan_production_sessions (op : ProductionSessionScanOperation) : M unit :=
  let root := PRODUCTION_REGISTRY_ROOT in
  let! r := sys (fun i => lstat (os i) root) in
  match r with
  | NotFound => ret tt
  | IoErr => fail (IoError root)
  | IoOk m =>
      if negb (root_directory m) then fail (UnsafeDir root)
      else
        let! r := sys (fun i => read_dir i root) in
        let! names := of_io root r in
        scan_entries root names (fun name => scan_production_registry_dir name op)
  end.

(** [sesman/mod.rs:940-942 reconcile_production_sessions] *)
Definition reconcile_production_sessions : M unit := scan_production_sessions ReconcileAfterDaemonRestart.
(** [sesman/mod.rs:945-947 cleanup_production_sessions] *)
Definition cleanup_production_sessions : M unit := scan_production_sessions CleanupIdleSessions.

(** ** What a scan does *)

(** One operation of the scan: on the session of the user named in a root-owned
    registry that lies where that user's registry belongs; it keeps the lock's
    discipline and signals only what it has authenticated. *)
Definition confined (w : World) (es : list (nat * Event)) : Prop :=
  exists path f s i config w1,
    files w1 !! path = Some f /\ is_file (reg_meta f) = true /\ owner (reg_meta f) = 0 /\
    from_json (reg_content f) = Some s /\ for_user environ (os i) (st_user s) = Ok config /\
    path_eq (state_path config) path = true /\
    (step w <= step w1)%nat /\ locked_log es /\ Forall (evidence config (step w1)) es.

Definition scanned (w w' : World) : Prop :=
  (step w <= step w')%nat /\ exists ess, log w' = log w ++ concat ess /\ Forall (confined w) ess.

Lemma confined_later w1 w2 es : (step w1 <= step w2)%nat -> confined w2 es -> confined w1 es.
Proof.
  intros Hs (path & f & s & i & config & w & H1 & H2 & H3 & H4 & H5 & H6 & H7 & H8).
  exists path, f, s, i, config, w. split_and!; try done; [lia|apply H8..].
Qed.

#[export] Instance scanned_quiet : Quiet scanned.
Proof.
  split.
  - intros w1 w2 w3 (S1 & e1 & L1 & F1) (S2 & e2 & L2 & F2). split; [lia|]. exists (e1 ++ e2).
    rewrite L2, L1, concat_app, app_assoc. split; [done|]. apply Forall_app. split; [done|].
    eapply Forall_impl; [exact F2|]. intros es. by apply confined_later.
  - intros w w' _ Hl Hs _. split; [done|]. exists []. by rewrite app_nil_r.
Qed.

Lemma silent_then {A B} (m : M A) (k : A -> M B) w : respects same_log m -> respects later_than m ->
  (forall a w1, files w1 = files w -> scanned w1 (k a w1).2) -> scanned w (bind m k w).2.
Proof.
  intros Hs Hl Hk. specialize (Hs w). specialize (Hl w). unfold bind, same_log, later_than in *.
  assert (forall w1, log w1 = log w -> (step w <= step w1)%nat -> scanned w w1) as Hq.
  { intros w1 E L. split; [done|]. exists []. by rewrite app_nil_r. }
  destruct (m w) as [[a|e|] w1]; cbn [snd] in *; destruct Hs as [H1 H2]; [|by apply Hq..].
  eapply quiet_trans; [by apply Hq|]. by apply Hk.
Qed.

Lemma operation_later config op w : (step w <= step (run_operation config op w).2)%nat.
Proof.
  assert (forall e, is_lock e = true -> allows (signals_after config (step w) (step w)) e) as Hl.
  { intros e He w'. split; [done|]. intros _. exists [(step w', e)]. split; [done|]. constructor; [|done]. by destruct e. }
  by destruct (operation_respects config (signals_after config (step w) (step w)) op Hl (stop_state_evidence config (step w)) w).
Qed.

Lemma apply_scanned op config w path f s i : files w !! path = Some f -> is_file (reg_meta f) = true -> owner (reg_meta f) = 0 ->
  from_json (reg_content f) = Some s -> for_user environ (os i) (st_user s) = Ok config -> path_eq (state_path config) path = true ->
  scanned w (scan_apply op config w).2.
Proof.
  intros H1 H2 H3 H4 H5 H6.
  assert (forall o, scanned w (run_operation config o w).2) as Ho; [|destruct op; apply Ho].
  intros o. split; [apply operation_later|].
  destruct (operation_evidence config o w) as (es & L & F). destruct (operation_locked config o w) as (es' & L' & K).
  assert (es' = es) as -> by (rewrite L in L'; by apply app_inv_head in L').
  exists [es]. cbn. rewrite app_nil_r. split; [done|]. constructor; [|done].
  exists path, f, s, i, config, w. by split_and!.
Qed.

Lemma scan_file_scanned path uid op : respects scanned (scan_production_state_file path uid op).
Proof.
  intros w. unfold scan_production_state_file.
  apply silent_then; [apply respects_may_fail, _..|]. intros _ w1 _. unfold bind at 1, get_files at 1.
  destruct (files w1 !! path) as [f|] eqn:Hf; [|apply (respects_fail scanned)].
  destruct (is_file (reg_meta f)) eqn:Hk; cbn [negb orb]; [|apply (respects_fail scanned)]. destruct (owner (reg_meta f) =? 0) eqn:Ho; cbn [negb orb]; [|apply (respects_fail scanned)].
  apply silent_then; [apply respects_may_fail, _..|]. intros _ w2 F2.
  destruct (from_json (reg_content f)) as [s|] eqn:Hj; [|apply (respects_fail scanned)].
  assert (forall R, Quiet R -> respects R (uid_of (st_user s))) as Hu.
  { intros R HR. unfold uid_of. apply respects_bind; [done|apply respects_sys, _|]. intros o. apply respects_or_user, _. }
  apply silent_then; [apply Hu, _..|]. intros u w3 F3. destruct (u =? uid); cbn [negb]; [|apply (respects_fail scanned)].
  unfold bind, sys. eapply (quiet_trans _ (tick w3)); [apply (respects_tick scanned w3)|].
  destruct (for_user environ (os (step w3)) (st_user s)) as [config|e|] eqn:Hc; [|apply (respects_fail scanned)..].
  destruct (path_eq (state_path config) path) eqn:Hp; [|apply (respects_fail scanned)].
  eapply (apply_scanned op config _ path f s (step w3)); try done; [by rewrite <- Hf; cbn; congruence|by apply Z.eqb_eq].
Qed.

Lemma logged_scanned m : respects scanned m -> respects scanned (logged m).
Proof.
  intros Hm. apply respects_bind; [apply _|by apply respects_attempt|]. intros [a|e|]; [apply respects_ret, _..|apply respects_lift, _].
Qed.

Lemma entries_scanned p names each : (forall n, respects scanned (each n)) -> respects scanned (scan_entries p names each).
Proof.
  intros He. apply respects_for_each; [apply _|]. intros n _. apply respects_bind; [apply _|apply respects_sys, _|].
  intros []; [apply respects_ret, _|by apply logged_scanned].
Qed.

Lemma directory_scanned name op : respects scanned (scan_production_registry_dir name op).
Proof.
  unfold scan_production_registry_dir. destruct (parse_unsigned _ _) as [uid|]; [|apply respects_ret, _]. cbv zeta.
  do 2 (apply respects_bind; [apply _|first [apply respects_sys, _|apply respects_of_io, _]|intros ?]).
  destruct (negb _); [apply respects_fail, _|].
  do 2 (apply respects_bind; [apply _|first [apply respects_sys, _|apply respects_of_io, _]|intros ?]).
  apply entries_scanned. intros n. destruct (bool_decide _); [apply scan_file_scanned|apply respects_ret, _].
Qed.

(** The loops end well unless something panics. *)
Lemma entries_outcome p names each w e : (scan_entries p names each w).1 <> Err e.
Proof.
  unfold scan_entries. revert w. induction names as [|n names IH]; intros w; [done|]. cbn [for_each].
  unfold bind at 1. unfold bind at 1, sys at 1. destruct (faults (step w)); [apply IH|].
  unfold logged, bind at 1, attempt. destruct (each n (tick w)) as [[a|e'|] w1]; [apply IH..|done].
Qed.

(** A scan over the production sessions operates only on the session of a user
    whose registry is a root-owned regular file at the very path the configuration
    of that user gives; each operation keeps the lock's discipline and signals only
    processes it has authenticated.  No error of one session, directory or entry
    stops the scan: once the registry root is a readable directory of root, the
    scan ends well or something panics. *)
Theorem scan_confined op w : let '(r, w') := scan_production_sessions op w in
  scanned w w' /\
  (r = Ok tt \/ r = Panic \/
   (log w' = log w /\ files w' = files w /\
    forall m names, lstat (os (step w)) PRODUCTION_REGISTRY_ROOT = IoOk m -> root_directory m = true ->
      read_dir (S (step w)) PRODUCTION_REGISTRY_ROOT <> IoOk names)).
Proof.
  assert (respects scanned (scan_production_sessions op)) as Hs.
  { unfold scan_production_sessions. cbv zeta. apply respects_bind; [apply _|apply respects_sys, _|].
    intros [m| |]; [|apply respects_ret, _|apply respects_fail, _]. destruct (negb _); [apply respects_fail, _|].
    do 2 (apply respects_bind; [apply _|first [apply respects_sys, _|apply respects_of_io, _]|intros ?]).
    apply entries_scanned. intros n. apply directory_scanned. }
  specialize (Hs w). destruct (scan_production_sessions op w) as [r w'] eqn:E. split; [exact Hs|]. clear Hs.
  unfold scan_production_sessions, bind at 1, sys at 1 in E. destruct (lstat _ _) as [m| |] eqn:El; [|by unfold ret in E; simplify_eq; left|].
  - destruct (root_directory m) eqn:Er; cbn [negb] in E; [|unfold fail in E; simplify_eq; right; right; split_and!; [done..|]; intros m' ? H1 H2; congruence].
    unfold bind at 1, sys at 1 in E. destruct (read_dir _ _) as [names| |] eqn:Ed.
    + unfold of_io in E. change (bind (ret names) ?k ?v) with (k names v) in E. cbv beta in E.
      match type of E with scan_entries ?p ?ns ?each ?v = _ => pose proof (fun e => entries_outcome p ns each v e) as H end.
      rewrite E in H. destruct r as [[]|e|]; [by left|by destruct (H e)|by right; left].
    + unfold of_io, bind, fail in E. simplify_eq. right; right. split_and!; try done; intros; cbn in Ed; congruence.
    + unfold of_io, bind, fail in E. simplify_eq. right; right. split_and!; try done; intros; cbn in Ed; congruence.
  - unfold fail in E. simplify_eq. right; right. split_and!; done.
Qed.
End scan.

(** ** Instances *)

(** The sample host with one production registry, of the user with number 1000. *)
Program Definition scan_host : Host := {|
  os := sample_os_at 1000000;
  faults _ := false;
  elapsed _ := ms 1;
  fresh_uuid _ := 7;
  unlink _ _ := NotFound;
  read_dir _ p := if eqs p PRODUCTION_REGISTRY_ROOT then IoOk [lit "lost+found"; lit "1000"] else IoOk [lit "default.lock"; lit "default.state.json"];
  mkdir _ _ := Created;
  open_dir _ p := IoOk (sample_dir p);
  open_new _ _ := Created;
  file_meta _ _ := IoOk (mkMeta RegularFile 1000 1000, 0);
  spawned_pid _ := Some 4242;
  child_exited _ := IoOk false;
|}.
Next Obligation. done. Qed.

Definition scan_world (owner : Z) : World :=
  mkWorld 0 0 {[ lit "/run/wrdp/sesman/1000/default.state.json" := mkRegFile (mkMeta RegularFile owner owner) (@to_json sample_json (sample_state 1)) ]} [].

Definition clients_after (owner : Z) : outcome SesError unit * option Z :=
  let '(r, w) := @scan_production_sessions chrono_9999 sample_json scan_host (mkEnviron None None None 0 (Some (lit "root")))
    ReconcileAfterDaemonRestart (scan_world owner) in
  (r, active_clients <$> ((reg_content <$> files w !! lit "/run/wrdp/sesman/1000/default.state.json") ≫= @from_json sample_json)).

(** The client count of a session left by an earlier daemon is reset; a registry the
    user owns is not believed. *)
Example scan_sample : clients_after 0 = (Ok tt, Some 0) /\ clients_after 1000 = (Ok tt, Some 1).
Proof. by vm_compute. Qed.
