(* ===== verification/Connection.v ===== *)
(** * Connection deadlines and cancellation

    Models the part of src/src/rdp/server/production.rs that runs one RDP
    connection: the accept loop's retry policy, and [run_with_connection_timeouts],
    which ends a connection at its deadline or when its session becomes invalid
    but never while the binder is admitting it.  Instants and durations are
    nanoseconds. *)
From S2P Require Import Prelude Text.

(** ** Policies *)

(** [production.rs:81-84 ProductionChannelPolicy] *)
Record ProductionChannelPolicy := mkChannels { clipboard_channel : bool; input_channel : bool }.

(** [production.rs:86-91 production_channel_policy] *)
Definition production_channel_policy (clipboard_enabled view_only : bool) : ProductionChannelPolicy :=
  mkChannels (clipboard_enabled && negb view_only) (negb view_only).

(** ** Accepting connections *)

(** [ErrorKind] and errno of a failed accept; the kinds the code does not
    distinguish are [OtherKind]. *)
Inductive ErrorKind := ConnectionAborted | ConnectionReset | Interrupted | TimedOut | WouldBlock | OtherKind.
#[export] Instance ErrorKind_eq_dec : EqDecision ErrorKind.
Proof. solve_decision. Defined.
Record io_error := mkIoError { kind : ErrorKind; raw_os_error : option Z }.

Definition ENOMEM : Z := 12.
Definition ENFILE : Z := 23.
Definition EMFILE : Z := 24.
Definition ENOBUFS : Z := 105.

(** [production.rs:258-274 is_recoverable_accept_error] *)
Definition is_recoverable_accept_error (e : io_error) : bool :=
  match kind e with
  | ConnectionAborted | ConnectionReset | Interrupted | TimedOut | WouldBlock => true
  | OtherKind =>
      match raw_os_error e with
      | Some n => (n =? EMFILE) || (n =? ENFILE) || (n =? ENOBUFS) || (n =? ENOMEM)
      | None => false
      end
  end.

(** [production.rs:94-94 MAX_ACCEPT_RETRY_DELAY] *)
Definition MAX_ACCEPT_RETRY_DELAY : Z := secs 1.

(** [production.rs:276-279 accept_retry_delay] *)
Definition accept_retry_delay (consecutive_errors : Z) : Z :=
  let shift := Z.min (Z.max (consecutive_errors - 1) 0) 7 in
  ms (Z.min (Z.shiftl 10 shift) (MAX_ACCEPT_RETRY_DELAY / 1000000)).

(** One run of the inner accept loop over the results of [accept]: the delays slept
    and how it ended; [None] when it still waits.
    [production.rs:471-491 run] *)
Fixpoint accept_loop {A} (results : list (A + io_error)) (errors : Z) : list Z * option (A + io_error) :=
  match results with
  | [] => ([], None)
  | inl accepted :: _ => ([], Some (inl accepted))
  | inr e :: results =>
      if is_recoverable_accept_error e then
        let errors := Z.min (errors + 1) u32_max in
        let '(delays, r) := accept_loop results errors in (accept_retry_delay errors :: delays, r)
      else ([], Some (inr e))
  end.

(** ** Deadlines *)

(** [production.rs:103-106 ConnectionTimeoutPhase] *)
Inductive ConnectionTimeoutPhase := PreAuth | SessionPhase.
(** [production.rs:109-112 SelectedConnectionTimeout] *)
Record SelectedConnectionTimeout := mkTimeout { deadline : Z; phase : ConnectionTimeoutPhase }.
(** [production.rs:115-118 ConnectionCancellation] *)
Inductive ConnectionCancellation := Timeout (p : ConnectionTimeoutPhase) | SessionInvalid.
(** [production.rs:121-124 CancellationDecision] *)
Inductive CancellationDecision := Cancel | DeferUntilAdmissionFinishes.

(** [production.rs:93-93 PRE_AUTH_TIMEOUT] *)
Definition PRE_AUTH_TIMEOUT : Z := secs 30.

(** [production.rs:126-135 cancellation_decision] *)
Definition cancellation_decision (admission_started admission_finished : bool) : CancellationDecision :=
  if admission_started && negb admission_finished then DeferUntilAdmissionFinishes else Cancel.

(** An [Instant] holds its seconds in an [i64]; a sum beyond it panics. *)
Definition instant_limit : Z := secs (i64_max + 1).
Definition instant_add (t d : Z) : outcome Empty_set Z := if t + d <? instant_limit then Ok (t + d) else Panic.

(** [production.rs:155-176 selected_connection_timeout] *)
Definition selected_connection_timeout (started : Z) (admission_started : bool) (session_timeout : option Z)
    : outcome Empty_set (option SelectedConnectionTimeout) :=
  session ← match session_timeout with
            | Some timeout => d ← instant_add started timeout; Ok (Some (mkTimeout d SessionPhase))
            | None => Ok None
            end;
  if admission_started then Ok session
  else
    d ← instant_add started PRE_AUTH_TIMEOUT;
    let pre_auth := mkTimeout d PreAuth in
    match session with
    | Some s => if deadline s <=? deadline pre_auth then Ok (Some s) else Ok (Some pre_auth)
    | None => Ok (Some pre_auth)
    end.

(** [0] means no timeout.  [production.rs:463-464 run] *)
Definition configured_timeout (session_timeout : Z) : option Z :=
  if session_timeout =? 0 then None else Some (secs session_timeout).

(** ** One connection

    The flags the binder and the loop share, with the permits their [Notify]s
    store.  The permits of the admission notifications outlive a connection. *)
Record Flags := mkFlags {
  started : bool; finished : bool;
  started_permit : bool; finished_permit : bool; invalid_permit : bool }.

(** Entering [bind_connection], and the drop of its guard when it returns.
    [production.rs:858-864 bind_connection] *)
Definition enter (f : Flags) : Flags := mkFlags true false true (finished_permit f) (invalid_permit f).
(** [production.rs:149-152 drop] *)
Definition leave (f : Flags) : Flags := mkFlags (started f) true (started_permit f) true (invalid_permit f).

Inductive admission := Enter | Leave.
#[export] Instance admission_eq_dec : EqDecision admission.
Proof. solve_decision. Defined.
Definition admit_step (f : Flags) (a : admission) : Flags := match a with Enter => enter f | Leave => leave f end.

(** What one poll of the task meets: the time the timers have reached, whether
    the watcher has called [notify_one] since the last poll, and what polling the
    connection does. *)
Record Poll (R : Type) := mkPoll { at_time : Z; invalidated : bool; progress : list admission; ready : option R }.
Arguments mkPoll {_}. Arguments at_time {_}. Arguments invalidated {_}. Arguments progress {_}. Arguments ready {_}.

(** The loop either waits in its [select!], with the values read at its top, or
    polls the connection a last time before it cancels. *)
Inductive Mode :=
| Last (c : ConnectionCancellation)
| Select (admitted seen_finished : bool) (pending : option ConnectionCancellation) (timeout : option SelectedConnectionTimeout).

Section connection.
Context {R : Type} (begun : Z) (session_timeout : option Z).

(** [production.rs:194-220 run_with_connection_timeouts] *)
Definition loop_top (pending : option ConnectionCancellation) (f : Flags) : outcome Empty_set Mode :=
  let select :=
    timeout ← match pending with None => selected_connection_timeout begun (started f) session_timeout | Some _ => Ok None end;
    Ok (Select (started f) (finished f) pending timeout) in
  match pending with
  | Some c => match cancellation_decision (started f) (finished f) with Cancel => Ok (Last c) | DeferUntilAdmissionFinishes => select end
  | None => select
  end.

Inductive next := Return (r : R + ConnectionCancellation) | Loop (pending : option ConnectionCancellation) | Wait.

(** A cancellation that may have to wait for the binder.
    [production.rs:228-239 run_with_connection_timeouts] *)
Definition cancel (c : ConnectionCancellation) (f : Flags) : next :=
  match cancellation_decision (started f) (finished f) with
  | DeferUntilAdmissionFinishes => Loop (Some c)
  | Cancel => Return (inr c)
  end.

(** The branches in their order, [biased]; a branch whose guard fails is not polled.
    [production.rs:222-254 run_with_connection_timeouts] *)
Definition poll_select (p : Poll R) (f : Flags) (admitted seen_finished : bool)
    (pending : option ConnectionCancellation) (timeout : option SelectedConnectionTimeout) : next * Flags :=
  let f := foldl admit_step f (progress p) in
  match ready p with
  | Some r => (Return (inl r), f)
  | None =>
      if negb admitted && started_permit f then
        (Loop pending, mkFlags (started f) (finished f) false (finished_permit f) (invalid_permit f))
      else if bool_decide (is_Some pending) && negb seen_finished && finished_permit f then
        (Loop pending, mkFlags (started f) (finished f) (started_permit f) false (invalid_permit f))
      else if bool_decide (pending = None) && invalid_permit f then
        (cancel SessionInvalid f, mkFlags (started f) (finished f) (started_permit f) (finished_permit f) false)
      else match timeout with
           | Some t => if deadline t <=? at_time p then (cancel (Timeout (phase t)) f, f) else (Wait, f)
           | None => (Wait, f)
           end
  end.

Definition notice (p : Poll R) (f : Flags) : Flags :=
  mkFlags (started f) (finished f) (started_permit f) (finished_permit f) (invalid_permit f || invalidated p).

(** How a connection stands after its polls, with the polls it did not need. *)
Inductive progress_report := Running (m : Mode) (f : Flags) | Ended (r : R + ConnectionCancellation) (f : Flags) (rest : list (Poll R)) | Panicked.

(** [production.rs:178-256 run_with_connection_timeouts] *)
Fixpoint drive (polls : list (Poll R)) (m : Mode) (f : Flags) : progress_report :=
  match polls with
  | [] => Running m f
  | p :: polls =>
      let f := notice p f in
      match m with
      | Last c =>
          let f := foldl admit_step f (progress p) in
          Ended (match ready p with Some r => inl r | None => inr c end) f polls
      | Select admitted seen_finished pending timeout =>
          let '(n, f) := poll_select p f admitted seen_finished pending timeout in
          match n with
          | Return r => Ended r f polls
          | Loop pending => match loop_top pending f with Ok m => drive polls m f | _ => Panicked end
          | Wait => drive polls m f
          end
      end
  end.

(** The flags are reset before a connection and its [connection_invalid] is new.
    [production.rs:499-518 run] *)
Definition run_with_connection_timeouts (f : Flags) (polls : list (Poll R)) : progress_report :=
  let f := mkFlags false false (started_permit f) (finished_permit f) false in
  match loop_top None f with Ok m => drive polls m f | _ => Panicked end.
End connection.

(** ** What the loop promises *)

Section promises.
Context {R : Type} (begun : Z) (session_timeout : option Z).

Definition admissions (polls : list (Poll R)) : list admission := concat (map progress polls).

(** The server enters the binder at most once in a connection. *)
Definition once (tr : list admission) : Prop := tr = [] \/ tr = [Enter] \/ tr = [Enter; Leave].

(** Why a connection may be cancelled, from the polls seen. *)
Definition justified (seen : list (Poll R)) (c : ConnectionCancellation) : Prop :=
  match c with
  | Timeout PreAuth => admissions seen = [] /\ (exists p, p ∈ seen /\ begun + PRE_AUTH_TIMEOUT <= at_time p) /\
      forall d, session_timeout = Some d -> PRE_AUTH_TIMEOUT < d
  | Timeout SessionPhase => exists d p, session_timeout = Some d /\ p ∈ seen /\ begun + d <= at_time p
  | SessionInvalid => exists p, p ∈ seen /\ invalidated p = true
  end.

(** The flags say where the admission is. *)
Definition placed (tr : list admission) (f : Flags) : Prop :=
  started f = bool_decide (tr <> []) /\ finished f = bool_decide (tr = [Enter; Leave]).

Record select_ok (seen : list (Poll R)) (f : Flags) (admitted seen_finished : bool)
    (pending : option ConnectionCancellation) (timeout : option SelectedConnectionTimeout) : Prop := mkSelectOk {
  late_start : admitted = false -> admissions seen <> [] -> started_permit f = true;
  early_start : admitted = true -> admissions seen <> [];
  deferred : forall c, pending = Some c -> admissions seen = [Enter] /\ admitted = true /\ seen_finished = false /\
    timeout = None /\ c <> Timeout PreAuth /\ justified seen c;
  undeferred : pending = None -> selected_connection_timeout begun admitted session_timeout = Ok timeout;
}.

Record waiting (seen : list (Poll R)) (m : Mode) (f : Flags) : Prop := mkWaiting {
  where_admission : placed (admissions seen) f;
  invalid_seen : invalid_permit f = true -> exists p, p ∈ seen /\ invalidated p = true;
  mode_ok : match m with
            | Last c => admissions seen = [Enter; Leave] /\ c <> Timeout PreAuth /\ justified seen c
            | Select a s pe t => select_ok seen f a s pe t /\
                (pe = None -> (exists p, p ∈ seen /\ invalidated p = true) -> invalid_permit f = true)
            end;
}.

Lemma admissions_snoc seen p : admissions (seen ++ [p]) = admissions seen ++ progress p.
Proof. unfold admissions. rewrite map_app, concat_app. cbn. by rewrite app_nil_r. Qed.

Lemma once_prefix a b : once (a ++ b) -> once a.
Proof.
  unfold once. intros [H|[H|H]]; destruct a as [|x [|y [|z a]]]; cbn in H; simplify_eq; auto.
Qed.

Lemma justified_snoc seen p c : c <> Timeout PreAuth -> justified seen c -> justified (seen ++ [p]) c.
Proof.
  destruct c as [[]|]; cbn; [done|..].
  - intros _ (d & q & ? & ? & ?). exists d, q. rewrite elem_of_app. auto.
  - intros _ (q & ? & ?). exists q. rewrite elem_of_app. auto.
Qed.

Lemma placed_progress tr ps f : once (tr ++ ps) -> placed tr f -> placed (tr ++ ps) (foldl admit_step f ps).
Proof.
  unfold placed. intros Ho [H1 H2].
  destruct Ho as [H|[H|H]]; destruct tr as [|x [|y [|z tr]]]; cbn in H; simplify_eq; cbn in *; auto.
Qed.

Lemma progress_permits ps f : let g := foldl admit_step f ps in
  invalid_permit g = invalid_permit f /\
  (started_permit f = true -> started_permit g = true) /\ (finished_permit f = true -> finished_permit g = true) /\
  (Enter ∈ ps -> started_permit g = true) /\ (Leave ∈ ps -> finished_permit g = true).
Proof.
  revert f. induction ps as [|a ps IH]; intros f; cbn.
  - split_and!; try done; intros H; by apply elem_of_nil in H.
  - destruct (IH (admit_step f a)) as (H1 & H2 & H3 & H4 & H5). split_and!; destruct a; cbn in *; auto.
    all: intros [?|?]%elem_of_cons; auto; done.
Qed.

Lemma running_spec tr f : placed tr f -> once tr -> cancellation_decision (started f) (finished f) =
  if bool_decide (tr = [Enter]) then DeferUntilAdmissionFinishes else Cancel.
Proof. intros [-> ->] [->|[->| ->]]; reflexivity. Qed.

Lemma loop_top_waiting seen f pe m : placed (admissions seen) f -> once (admissions seen) ->
  (invalid_permit f = true -> exists p, p ∈ seen /\ invalidated p = true) ->
  (pe = None -> (exists p, p ∈ seen /\ invalidated p = true) -> invalid_permit f = true) ->
  (forall c, pe = Some c -> admissions seen <> [] /\ c <> Timeout PreAuth /\ justified seen c) ->
  loop_top begun session_timeout pe f = Ok m -> waiting seen m f.
Proof.
  intros Hp Ho Hi Hk Hc H. pose proof Hp as [E1 E2]. unfold loop_top in H.
  destruct pe as [c|].
  - destruct (Hc c eq_refl) as (H1 & H2 & H3). rewrite (running_spec _ _ Hp Ho) in H.
    destruct (bool_decide (admissions seen = [Enter])) eqn:B; apply Ok_inj in H as <-; split; try done.
    + apply bool_decide_eq_true in B. split; [|done]. split; rewrite ?E1, ?E2, ?B; cbn; try done. by intros ? [= <-].
    + apply bool_decide_eq_false in B. by destruct Ho as [?|[?|?]].
  - apply bind_ok in H as (t & H & [= <-]). split; try done. split; [|by auto]. split; try done.
    + intros A B. rewrite E1 in A. by apply bool_decide_eq_false in A.
    + intros A. rewrite E1 in A. by apply bool_decide_eq_true in A.
Qed.

Lemma selected_spec a t : selected_connection_timeout begun a session_timeout = Ok (Some t) ->
  match phase t with
  | PreAuth => a = false /\ deadline t = begun + PRE_AUTH_TIMEOUT /\ forall d, session_timeout = Some d -> PRE_AUTH_TIMEOUT < d
  | SessionPhase => exists d, session_timeout = Some d /\ deadline t = begun + d
  end.
Proof.
  unfold selected_connection_timeout, instant_add.
  destruct session_timeout as [d|]; cbn.
  - destruct (begun + d <? instant_limit); cbn; [|done].
    destruct a; cbn; [intros H; apply Ok_inj in H as [= <-]; cbn; eauto|].
    destruct (begun + PRE_AUTH_TIMEOUT <? instant_limit); cbn; [|done].
    destruct (Z.leb_spec (begun + d) (begun + PRE_AUTH_TIMEOUT)); intros H1; apply Ok_inj in H1 as [= <-]; cbn; [eauto|].
    split_and!; try done. intros ? [= <-]. lia.
  - destruct a; cbn; [intros H; by apply Ok_inj in H|].
    destruct (begun + PRE_AUTH_TIMEOUT <? instant_limit); cbn; [|done]. intros H; apply Ok_inj in H as [= <-]. by cbn.
Qed.

Lemma cancel_spec seen c f : placed (admissions seen) f -> once (admissions seen) ->
  cancel c f = if bool_decide (admissions seen = [Enter]) then Loop (R := R) (Some c) else Return (inr c).
Proof. intros Hp Ho. unfold cancel. rewrite (running_spec _ _ Hp Ho). by destruct (bool_decide _). Qed.

(** What a turn of the loop hands on: the result, or what the top of the loop needs. *)
Definition handed (seen : list (Poll R)) (n : next (R := R)) (f : Flags) (w : Prop) : Prop :=
  match n with
  | Return (inl _) => True
  | Return (inr c) => admissions seen <> [Enter] /\ justified seen c
  | Loop pe => placed (admissions seen) f /\
      (invalid_permit f = true -> exists p, p ∈ seen /\ invalidated p = true) /\
      (pe = None -> (exists p, p ∈ seen /\ invalidated p = true) -> invalid_permit f = true) /\
      (forall c, pe = Some c -> admissions seen <> [] /\ c <> Timeout PreAuth /\ justified seen c)
  | Wait => w
  end.

Lemma cancel_handed seen c f f' w : placed (admissions seen) f -> placed (admissions seen) f' -> once (admissions seen) -> justified seen c ->
  (invalid_permit f' = true -> exists p, p ∈ seen /\ invalidated p = true) ->
  (admissions seen = [Enter] -> c <> Timeout PreAuth) -> handed seen (cancel c f) f' w.
Proof.
  intros Hp Hp' Ho Hj Hi Hc. rewrite (cancel_spec _ _ _ Hp Ho). case_bool_decide as B; [|done].
  split_and!; try done. intros ? [= <-]. split_and!; [by rewrite B | by apply Hc | done].
Qed.

Lemma exists_snoc (seen : list (Poll R)) p (P : Poll R -> Prop) :
  (exists q, q ∈ seen ++ [p] /\ P q) <-> (exists q, q ∈ seen /\ P q) \/ P p.
Proof.
  split.
  - intros (q & H & Hq). apply elem_of_app in H as [H|H]; [eauto|]. apply list_elem_of_singleton in H as ->. auto.
  - intros [(q & H & Hq)|H]; [exists q | exists p]; rewrite elem_of_app, ?list_elem_of_singleton; auto.
Qed.

Lemma select_step seen p f a s pe t n f' : waiting seen (Select a s pe t) f -> once (admissions (seen ++ [p])) ->
  poll_select p (notice p f) a s pe t = (n, f') ->
  handed (seen ++ [p]) n f' (waiting (seen ++ [p]) (Select a s pe t) f').
Proof.
  intros [Wp Wi [[Ls Es Df Ud] Wk]] Ho H. unfold poll_select in H.
  destruct (progress_permits (progress p) (notice p f)) as (Pi & Ps & Pf & PE & PL).
  assert (placed (admissions (seen ++ [p])) (foldl admit_step (notice p f) (progress p))) as Gp.
  { rewrite admissions_snoc in *. by apply placed_progress. }
  set (g := foldl admit_step (notice p f) (progress p)) in *. cbn in Pi, Ps, Pf.
  assert (invalid_permit g = true -> exists q, q ∈ seen ++ [p] /\ invalidated q = true) as Gi.
  { rewrite Pi, exists_snoc. intros [?|?]%orb_true_iff; auto. }
  assert (pe = None -> (exists q, q ∈ seen ++ [p] /\ invalidated q = true) -> invalid_permit g = true) as Gk.
  { intros E. rewrite Pi, exists_snoc, orb_true_iff. intros [?|?]; auto. }
  assert (forall c, pe = Some c -> admissions (seen ++ [p]) <> [] /\ c <> Timeout PreAuth /\ justified (seen ++ [p]) c) as Gc.
  { intros c E. destruct (Df c E) as (D1 & _ & _ & _ & D2 & D3). rewrite admissions_snoc, D1. split_and!; try done. by apply justified_snoc. }
  destruct (ready p); [by injection H as <- <-|].
  destruct (negb a && started_permit g) eqn:B1; [injection H as <- <-; by split_and!|].
  assert (a = false -> admissions (seen ++ [p]) = []) as Late.
  { intros ->. cbn in B1. rewrite admissions_snoc. destruct (decide (admissions seen = [])) as [E|E].
    - rewrite E in *. cbn. destruct (progress p) as [|[] ?] eqn:Ep; [done|rewrite PE in B1; [done|left]|].
      rewrite admissions_snoc, E, Ep in Ho. by destruct Ho as [?|[?|?]].
    - rewrite Ps in B1; [done | by apply Ls]. }
  destruct (bool_decide (is_Some pe) && negb s && finished_permit g) eqn:B2; [injection H as <- <-; by split_and!|].
  destruct (bool_decide (pe = None) && invalid_permit g) eqn:B3.
  { injection H as <- <-. apply andb_true_iff in B3 as [_ B3]. by apply cancel_handed; [..|apply Gi| |]. }
  assert (waiting (seen ++ [p]) (Select a s pe t) g) as Gw.
  { split; try done. split; [|done]. split.
    - intros E F. by rewrite Late in F.
    - intros E F. rewrite admissions_snoc in F. apply app_eq_nil in F as [F _]. by apply Es.
    - intros c E. destruct (Df c E) as (D1 & D2 & D3 & D4 & D5 & D6). split_and!; try done; [|by apply justified_snoc].
      rewrite admissions_snoc, D1 in *. subst. cbn in B2. destruct (progress p) as [|x [|? ?]] eqn:Ep; [done|..].
      + destruct Ho as [?|[?|Ho]]; try done. injection Ho as ->. rewrite PL in B2; [done | left].
      + by destruct Ho as [?|[?|?]].
    - done. }
  destruct t as [t|]; [|by injection H as <- <-].
  destruct (Z.leb_spec (deadline t) (at_time p)) as [T|T]; [|by injection H as <- <-].
  injection H as <- <-. destruct pe as [c|]; [by destruct (Df c eq_refl) as (_ & _ & _ & ? & _)|].
  pose proof (selected_spec a t (Ud eq_refl)) as S.
  apply cancel_handed; try done.
  - destruct (phase t); cbn.
    + destruct S as (S1 & S2 & S3). split_and!; [by apply Late | exists p | done]. rewrite elem_of_app, list_elem_of_singleton. split; [auto|lia].
    + destruct S as (d & S1 & S2). exists d, p. rewrite elem_of_app, list_elem_of_singleton. split_and!; [done|auto|lia].
  - intros E F. injection F as F. rewrite F in S. destruct S as [S _]. by rewrite Late in E.
Qed.

(** No deadline of the connection lies beyond what an instant can hold. *)
Definition in_range : Prop :=
  begun + PRE_AUTH_TIMEOUT < instant_limit /\ forall d, session_timeout = Some d -> begun + d < instant_limit.

Lemma loop_top_total pe f : in_range -> exists m, loop_top begun session_timeout pe f = Ok m.
Proof.
  intros [H1 H2]. unfold loop_top, selected_connection_timeout, instant_add.
  destruct pe; [by destruct (cancellation_decision _ _); eexists|].
  destruct session_timeout as [d|]; cbn.
  - rewrite (proj2 (Z.ltb_lt _ _) (H2 d eq_refl)). cbn. destruct (started f); [by eexists|].
    rewrite (proj2 (Z.ltb_lt _ _) H1). cbn. destruct (_ <=? _); by eexists.
  - destruct (started f); [by eexists|]. rewrite (proj2 (Z.ltb_lt _ _) H1). by eexists.
Qed.

Definition told (polls seen : list (Poll R)) (r : progress_report (R := R)) : Prop :=
  match r with
  | Running m f => waiting (seen ++ polls) m f
  | Ended r _ rest => exists used, polls = used ++ rest /\
      match r with inl _ => True | inr c => admissions (seen ++ used) <> [Enter] /\ justified (seen ++ used) c end
  | Panicked => ~ in_range
  end.

Lemma told_cons p polls seen r : told polls (seen ++ [p]) r -> told (p :: polls) seen r.
Proof.
  destruct r as [m f|r f rest|]; cbn; rewrite <- ?app_assoc; [done| |done].
  intros (used & -> & H). exists (p :: used). rewrite <- app_assoc in H. by split.
Qed.

Lemma once_cons seen p polls : once (admissions (seen ++ p :: polls)) -> once (admissions (seen ++ [p])).
Proof.
  change (p :: polls) with ([p] ++ polls). rewrite app_assoc. unfold admissions at 1.
  rewrite map_app, concat_app. apply once_prefix.
Qed.

Lemma drive_told polls : forall seen m f, waiting seen m f -> once (admissions (seen ++ polls)) ->
  told polls seen (drive begun session_timeout polls m f).
Proof.
  induction polls as [|p polls IH]; intros seen m f W Ho; cbn [drive]; [cbn; by rewrite app_nil_r|].
  pose proof (once_cons _ _ _ Ho) as Hp. apply told_cons.
  replace (seen ++ p :: polls) with ((seen ++ [p]) ++ polls) in Ho by by rewrite <- app_assoc.
  destruct m as [c|a s pe t].
  - destruct W as [_ _ (W1 & W2 & W3)]. exists []. split; [done|]. destruct (ready p); [done|]. rewrite app_nil_r.
    split; [|by apply justified_snoc]. rewrite admissions_snoc, W1 in *. by destruct (progress p).
  - destruct (poll_select p (notice p f) a s pe t) as [n f'] eqn:E.
    pose proof (select_step _ _ _ _ _ _ _ _ _ W Hp E) as S. destruct n as [r|pe'|]; cbn in S.
    + exists []. rewrite app_nil_r. by split.
    + destruct S as (S1 & S2 & S3 & S4).
      destruct (loop_top begun session_timeout pe' f') as [m| |] eqn:L.
      * apply IH; [by eapply loop_top_waiting | done].
      * intros Hr. destruct (loop_top_total pe' f' Hr). congruence.
      * intros Hr. destruct (loop_top_total pe' f' Hr). congruence.
    + by apply IH.
Qed.

Lemma run_told f polls : once (admissions polls) -> told polls [] (run_with_connection_timeouts begun session_timeout f polls).
Proof.
  intros Ho. unfold run_with_connection_timeouts.
  set (f0 := mkFlags false false (started_permit f) (finished_permit f) false).
  destruct (loop_top begun session_timeout None f0) as [m| |] eqn:L.
  - apply drive_told; [|done]. eapply loop_top_waiting; [..|exact L]; [by split | by left | done | | done].
    intros _ (p & Hp & _). by apply elem_of_nil in Hp.
  - intros Hr. destruct (loop_top_total None f0 Hr). congruence.
  - intros Hr. destruct (loop_top_total None f0 Hr). congruence.
Qed.

(** A connection that enters the binder at most once is never cancelled while
    the binder runs, whatever permits an earlier connection has left: when it is
    cancelled, the binder has not been entered or has returned.  The reason given
    is true: the pre-authentication deadline is given only when the binder was
    never entered, thirty seconds have passed and the session's limit is longer;
    the session limit only after it; an invalid session only after the watcher's
    call. *)
Theorem cancellation_justified f polls c f' rest : once (admissions polls) ->
  run_with_connection_timeouts begun session_timeout f polls = Ended (inr c) f' rest ->
  exists used, polls = used ++ rest /\ (admissions used = [] \/ admissions used = [Enter; Leave]) /\ justified used c.
Proof.
  intros Ho E. pose proof (run_told f polls Ho) as H. rewrite E in H. destruct H as (used & -> & H1 & H2).
  exists used. split; [done|]. split; [|done]. unfold admissions in Ho. rewrite map_app, concat_app in Ho.
  by destruct (once_prefix _ _ Ho) as [?|[?|?]]; [left | destruct H1 | right].
Qed.

Lemma drive_app (pre post : list (Poll R)) : forall m f, drive begun session_timeout (pre ++ post) m f =
  match drive begun session_timeout pre m f with
  | Running m f => drive begun session_timeout post m f
  | Ended r f rest => Ended r f (rest ++ post)
  | Panicked => Panicked
  end.
Proof.
  induction pre as [|p pre IH]; intros m f; cbn; [done|].
  destruct m as [c|a s pe t]; [done|]. destruct (poll_select _ _ _ _ _ _) as [[r|pe'|] f']; [done| |apply IH].
  by destruct (loop_top _ _ _ _).
Qed.

(** The deadline that applies has passed. *)
Definition overdue (tr : list admission) (p : Poll R) : Prop :=
  match tr with
  | [] => begun + PRE_AUTH_TIMEOUT <= at_time p \/ exists d, session_timeout = Some d /\ begun + d <= at_time p
  | _ => exists d, session_timeout = Some d /\ begun + d <= at_time p
  end.

Definition ended (r : progress_report (R := R)) : Prop := match r with Ended _ _ _ => True | _ => False end.

Lemma selected_due a t (p : Poll R) : selected_connection_timeout begun a session_timeout = Ok t ->
  (if a then exists d, session_timeout = Some d /\ begun + d <= at_time p
   else begun + PRE_AUTH_TIMEOUT <= at_time p \/ exists d, session_timeout = Some d /\ begun + d <= at_time p) ->
  exists t', t = Some t' /\ deadline t' <= at_time p.
Proof.
  unfold selected_connection_timeout, instant_add. destruct session_timeout as [d|]; cbn.
  - destruct (begun + d <? instant_limit); cbn; [|done].
    destruct a; cbn; [intros H (d' & [= <-] & ?); apply Ok_inj in H as <-; by eexists|].
    destruct (begun + PRE_AUTH_TIMEOUT <? instant_limit); cbn; [|done].
    destruct (Z.leb_spec (begun + d) (begun + PRE_AUTH_TIMEOUT)); intros H1; apply Ok_inj in H1 as <-; cbn.
    + intros [?|(? & [= <-] & ?)]; eexists; (split; [done|cbn; lia]).
    + intros [?|(? & [= <-] & ?)]; eexists; (split; [done|cbn; lia]).
  - destruct a; cbn; [by intros _ (? & ? & _)|].
    destruct (begun + PRE_AUTH_TIMEOUT <? instant_limit); cbn; [|done]. intros H; apply Ok_inj in H as <-.
    intros [?|(? & ? & _)]; [|done]. by eexists.
Qed.

Definition called (seen : list (Poll R)) : Prop := exists p, p ∈ seen /\ invalidated p = true.

Lemma due_poll seen p f a s pe t : waiting seen (Select a s pe t) f -> once (admissions seen) -> admissions seen <> [Enter] ->
  progress p = [] -> called seen \/ overdue (admissions seen) p -> negb a && started_permit f = false ->
  exists r f', poll_select p (notice p f) a s pe t = (Return r, f').
Proof.
  intros [Wp Wi [[Ls Es Df Ud] Wk]] Ho Hne Hpr Hd B. unfold poll_select. rewrite Hpr. cbn [foldl].
  destruct (ready p) as [r|]; [by eexists _, _|].
  destruct pe as [c|]; [by destruct (Df c eq_refl)|].
  cbn [started_permit notice]. rewrite B. cbn [is_Some bool_decide].
  assert (forall c, cancel (R := R) c (notice p f) = Return (inr c)) as Hc.
  { intros c. rewrite (cancel_spec seen); [by rewrite bool_decide_false | exact Wp | done]. }
  rewrite (bool_decide_false (is_Some None)) by (intros [? ?]; done). cbn [andb].
  rewrite (bool_decide_true (None = None)) by done. cbn [andb].
  destruct (invalid_permit (notice p f)) eqn:I; [rewrite Hc; by eexists _, _|].
  destruct Hd as [Hd|Hd].
  { apply (Wk eq_refl) in Hd. cbn in I. by rewrite Hd in I. }
  destruct (selected_due a t p (Ud eq_refl)) as (t' & -> & Ht').
  - destruct a; [specialize (Es eq_refl); by destruct (admissions seen)|].
    destruct (admissions seen) eqn:E; [done|]. rewrite Ls in B; done.
  - rewrite (proj2 (Z.leb_le _ _) Ht'), Hc. by eexists _, _.
Qed.

Lemma due_ends seen p1 p2 rest m f : in_range -> waiting seen m f -> once (admissions seen) -> admissions seen <> [Enter] ->
  progress p1 = [] -> progress p2 = [] -> called seen \/ (overdue (admissions seen) p1 /\ overdue (admissions seen) p2) ->
  ended (drive begun session_timeout (p1 :: p2 :: rest) m f).
Proof.
  intros Hr W Ho Hne P1 P2 Hd. cbn [drive]. destruct m as [c|a s pe t]; [done|].
  destruct (negb a && started_permit f) eqn:B.
  - destruct (ready p1) as [r|] eqn:R1.
    { unfold poll_select. rewrite R1. done. }
    assert (exists g, poll_select p1 (notice p1 f) a s pe t = (Loop pe, g) /\ started_permit g = false) as (g & E & Eg).
    { unfold poll_select. rewrite R1, P1. cbn [foldl started_permit notice]. rewrite B. by eexists. }
    assert (once (admissions (seen ++ [p1]))) as Ho' by by rewrite admissions_snoc, P1, app_nil_r.
    pose proof (select_step seen p1 f a s pe t _ _ W Ho' E) as (S1 & S2 & S3 & S4).
    rewrite E. destruct (loop_top_total pe g Hr) as [m Hm]. rewrite Hm.
    assert (waiting (seen ++ [p1]) m g) as W'.
    { by eapply loop_top_waiting. }
    destruct m as [c|a' s' pe' t']; [done|]. cbn [drive].
    destruct (due_poll (seen ++ [p1]) p2 g a' s' pe' t' W') as (r & f2 & ->); rewrite ?admissions_snoc, ?P1, ?app_nil_r; try done.
    + destruct Hd as [(q & ? & ?)|[_ ?]]; [|auto]. left. exists q. rewrite elem_of_app. auto.
    + by rewrite Eg, andb_false_r.
  - destruct (due_poll seen p1 f a s pe t W Ho Hne P1) as (r & f1 & ->); [|done|done]. destruct Hd as [?|[? _]]; auto.
Qed.

(** C8. A connection ends.  Once its session has been reported invalid, or its
    deadline has passed (thirty seconds or the session limit before the binder is
    entered, the session limit afterwards), and the binder is not running, two
    further polls of the task are enough to end it, with the connection's own
    result or with a cancellation: no permit is lost and none left over from an
    earlier connection delays it longer. *)
Theorem connection_ends f pre p1 p2 rest : in_range ->
  admissions pre = [] \/ admissions pre = [Enter; Leave] -> progress p1 = [] -> progress p2 = [] ->
  called pre \/ (overdue (admissions pre) p1 /\ overdue (admissions pre) p2) ->
  ended (run_with_connection_timeouts begun session_timeout f (pre ++ p1 :: p2 :: rest)).
Proof.
  intros Hr Ha P1 P2 Hd. assert (once (admissions pre)) as Ho by (destruct Ha; unfold once; auto).
  pose proof (run_told f pre Ho) as T. unfold run_with_connection_timeouts in *.
  destruct (loop_top begun session_timeout None _) as [m| |]; [|by destruct T..].
  rewrite drive_app. destruct (drive begun session_timeout pre m _) as [m' f'| |]; [|done|by destruct T].
  apply (due_ends pre); try done. by destruct Ha as [-> | ->].
Qed.
End promises.

(** ** Back-off and limits *)

Lemma retry_delay_table n : 0 <= n -> accept_retry_delay n =
  if n <=? 1 then ms 10 else if n =? 2 then ms 20 else if n =? 3 then ms 40 else if n =? 4 then ms 80
  else if n =? 5 then ms 160 else if n =? 6 then ms 320 else if n =? 7 then ms 640 else secs 1.
Proof.
  intros Hn. unfold accept_retry_delay.
  destruct (Z.leb_spec n 1); [by replace (Z.min (Z.max (n - 1) 0) 7) with 0 by lia|].
  repeat (match goal with |- context [n =? ?k] => destruct (Z.eqb_spec n k) as [->|]; [reflexivity|] end).
  by replace (Z.min (Z.max (n - 1) 0) 7) with 7 by lia.
Qed.

(** The delays between accepts start at ten milliseconds, double and stay at one
    second; an accepted client and a final error end the loop. *)
Lemma accept_loop_delays {A} (results : list (A + io_error)) : forall n, 0 <= n <= u32_max ->
  Forall (fun d => ms 10 <= d <= secs 1) (accept_loop results n).1 /\
  match (accept_loop results n).2 with Some (inr e) => is_recoverable_accept_error e = false | _ => True end.
Proof.
  induction results as [|[a|e] results IH]; intros n Hn; cbn; [by split..|].
  destruct (is_recoverable_accept_error e) eqn:E; [|by split].
  specialize (IH (Z.min (n + 1) u32_max) ltac:(unfold u32_max in *; lia)).
  destruct (accept_loop results (Z.min (n + 1) u32_max)) as [ds r]. destruct IH as [I1 I2]. split; [|done].
  cbn. constructor; [|done]. rewrite retry_delay_table by (unfold u32_max in *; lia).
  unfold ms, secs. repeat case_match; lia.
Qed.

(** A session limit beyond the range of an instant panics before the first poll. *)
Lemma huge_session_timeout_panics {R} begun n f (polls : list (Poll R)) : 0 <= begun -> i64_max < n ->
  run_with_connection_timeouts begun (configured_timeout n) f polls = Panicked.
Proof.
  intros Hb Hn. unfold run_with_connection_timeouts, loop_top, selected_connection_timeout, configured_timeout.
  rewrite (proj2 (Z.eqb_neq n 0)) by (unfold i64_max in Hn; lia).
  assert (instant_add begun (secs n) = Panic) as ->; [|done].
  unfold instant_add. rewrite (proj2 (Z.ltb_ge _ _)); [done|]. unfold instant_limit, secs. lia.
Qed.

(** ** Instances *)

Definition no_flags : Flags := mkFlags false false true true false.
Definition quiet (t : Z) : Poll unit := mkPoll t false [] None.

(** The limit of 35 seconds passes while the binder runs. *)
Definition slow_bind : list (Poll unit) :=
  [quiet 0; mkPoll (secs 5) false [Enter] None; quiet (secs 36); mkPoll (secs 40) false [Leave] None; quiet (secs 40)].

Lemma cancellation_justified_witness : exists f,
  run_with_connection_timeouts 0 (Some (secs 35)) no_flags slow_bind = Ended (inr (Timeout SessionPhase)) f [] /\
  admissions slow_bind = [Enter; Leave].
Proof.
  destruct (run_with_connection_timeouts 0 (Some (secs 35)) no_flags slow_bind) as [m f|r f rest|] eqn:E;
    [vm_compute in E; discriminate E| |vm_compute in E; discriminate E].
  assert (r = inr (Timeout SessionPhase) /\ rest = []) as [-> ->] by (vm_compute in E; by injection E as <- <- <-).
  assert (once (admissions slow_bind)) as Ho by (right; right; reflexivity).
  destruct (cancellation_justified 0 (Some (secs 35)) no_flags slow_bind _ _ _ Ho E) as (used & H1 & H2 & _).
  exists f. split; [done|]. rewrite app_nil_r in H1. subst used. by destruct H2 as [H2|H2]; [vm_compute in H2|].
Defined.

Lemma connection_ends_witness :
  ended (run_with_connection_timeouts 0 None no_flags ([quiet 0; quiet (secs 10)] ++ quiet (secs 31) :: quiet (secs 31) :: [])).
Proof.
  apply (connection_ends 0 None no_flags [quiet 0; quiet (secs 10)] (quiet (secs 31)) (quiet (secs 31)) []).
  - split; [reflexivity | intros d H; discriminate H].
  - by left.
  - done.
  - done.
  - right. split; left; vm_compute; discriminate.
Defined.
