(* ===== verification/ManagedSocket.v ===== *)
(** * The managed compositor seen by the daemon

    The checks of src/src/rdp/server/production.rs that stand between the
    privileged daemon and a path the session's user can write: the account the
    session belongs to, the directories above the Wayland socket and the socket
    itself.  The answers of the file system are a function from paths. *)
From S2P Require Import Prelude Text SesProcess SesConfig SesHost.

(** What [symlink_metadata] tells of a path. *)
Record Stat := mkStat { file_type : file_kind; st_owner : Z; st_mode : Z }.

(** ** The account *)

(** [production.rs:1022-1026 TargetUserIdentity] *)
Record TargetUserIdentity := mkTarget { t_uid : Z; t_gid : Z; t_groups : str }.

Inductive IdentityError :=
| PasswdFailed | UnknownAccount | IdFailed | GroupNotUtf8 | GroupNotNumeric | NoGroups.

(** [u8::is_ascii_whitespace] *)
Definition is_ascii_whitespace (b : Z) : bool := (b =? 32) || (b =? 9) || (b =? 10) || (b =? 12) || (b =? 13).

(** [bytes.split(is_ascii_whitespace)] without its empty parts *)
Fixpoint byte_words (s acc : list Z) : list (list Z) :=
  match s with
  | [] => match acc with [] => [] | _ => [rev acc] end
  | c :: s =>
      if is_ascii_whitespace c
      then match acc with [] => byte_words s [] | _ => rev acc :: byte_words s [] end
      else byte_words s (c :: acc)
  end.

(** [production.rs:1073-1079 resolve_target_user_identity] *)
Definition parse_group (group : list Z) : outcome IdentityError Z :=
  s ← ok_or GroupNotUtf8 (from_utf8 group);
  ok_or GroupNotNumeric (parse_unsigned u32_max s).

Fixpoint collect {E A} (l : list (outcome E A)) : outcome E (list A) :=
  match l with [] => Ok [] | x :: l => a ← x; r ← collect l; Ok (a :: r) end.

(** [passwd] is the account's entry (uid and gid), if it can be looked up;
    [id_groups] is what [id -G] prints, when it succeeds.
    [production.rs:1050-1098 resolve_target_user_identity] *)
Definition resolve_target_user_identity (passwd : option (option (Z * Z))) (id_groups : option (list Z))
    : outcome IdentityError TargetUserIdentity :=
  entry ← ok_or PasswdFailed passwd;
  ids ← ok_or UnknownAccount entry;
  stdout ← ok_or IdFailed id_groups;
  groups ← collect (map parse_group (byte_words stdout []));
  let groups := if bool_decide (ids.2 ∈ groups) then groups else groups ++ [ids.2] in
  let groups := dedup (sort_z groups) in
  if bool_decide (groups = []) then Err NoGroups
  else Ok (mkTarget ids.1 ids.2 (join (lit ",") (map fmt_dec groups))).

Lemma collect_total {E A} (l : list (outcome E A)) : Forall (fun r => r <> Panic) l -> collect l <> Panic.
Proof. induction 1 as [|r l Hr Hl IH]; cbn; [done|]. destruct r; cbn; [|done..]. by destruct (collect l). Qed.

Lemma resolve_total passwd groups : resolve_target_user_identity passwd groups <> Panic.
Proof.
  unfold resolve_target_user_identity.
  destruct passwd as [[ids|]|]; cbn; [|done..]. destruct groups as [out|]; cbn; [|done].
  assert (collect (map parse_group (byte_words out [])) <> Panic) as Hc.
  { apply collect_total, Forall_map, Forall_true. intros g. unfold parse_group.
    destruct (from_utf8 g) as [s|]; cbn; [|done]. by destruct (parse_unsigned u32_max s). }
  destruct (collect _); cbn; [by destruct (bool_decide _) | done..].
Qed.

(** ** The socket *)

Inductive SocketError :=
| NoRuntimeDirectory | OutsideRuntimeBase | Uninspectable (path : str) | UnsafeDirectory (path : str) | UnsafeSocket.

(** [/run/user/<uid>] *)
Definition runtime_base (uid : Z) : list str := [lit "run"; lit "user"; fmt_dec uid].

(** The absolute path of components. *)
Definition absolute (cs : list str) : str := lit "/" ++ join (lit "/") cs.

(** [rest] when the components begin with [base]. *)
Fixpoint strip_components (base cs : list str) : option (list str) :=
  match base, cs with
  | [], rest => Some rest
  | b :: base, c :: cs => if eqs b c then strip_components base cs else None
  | _ :: _, [] => None
  end.

(** The directories from the base down, in order.
    [production.rs:1131-1138 validate_runtime_directory_hierarchy] *)
Fixpoint runtime_directories (current rest : list str) : list (list str) :=
  current :: match rest with [] => [] | c :: rest => runtime_directories (current ++ [c]) rest end.

(** [production.rs:1143-1147 validate_runtime_directory_hierarchy] *)
Definition safe_directory (expected_uid : Z) (m : Stat) : bool :=
  negb (bool_decide (file_type m = Symlink) || negb (bool_decide (file_type m = Directory))
        || negb (st_owner m =? expected_uid) || negb (Z.land (st_mode m) 511 =? 448)).

Section socket.
Variable symlink_metadata : str -> option Stat.

(** [production.rs:1140-1154 validate_runtime_directory_hierarchy] *)
Fixpoint check_directories (dirs : list (list str)) (expected_uid : Z) : outcome SocketError unit :=
  match dirs with
  | [] => Ok tt
  | d :: dirs =>
      m ← ok_or (Uninspectable (absolute d)) (symlink_metadata (absolute d));
      if safe_directory expected_uid m then check_directories dirs expected_uid else Err (UnsafeDirectory (absolute d))
  end.

(** [production.rs:1116-1156 validate_runtime_directory_hierarchy] *)
Definition validate_runtime_directory_hierarchy (wayland_socket : str) (expected_uid : Z) : outcome SocketError unit :=
  match path_components wayland_socket with
  | [] => Err NoRuntimeDirectory
  | cs =>
      if is_absolute wayland_socket then
        match strip_components (runtime_base expected_uid) (removelast cs) with
        | None => Err OutsideRuntimeBase
        | Some rest => check_directories (runtime_directories (runtime_base expected_uid) rest) expected_uid
        end
      else Err OutsideRuntimeBase
  end.

(** [production.rs:1158-1178 validate_managed_wayland_socket] *)
Definition validate_managed_wayland_socket (wayland_socket : str) (expected_uid : Z) : outcome SocketError unit :=
  _ ← validate_runtime_directory_hierarchy wayland_socket expected_uid;
  m ← ok_or (Uninspectable wayland_socket) (symlink_metadata wayland_socket);
  if bool_decide (file_type m = Symlink) || negb (bool_decide (file_type m = Socket)) || negb (st_owner m =? expected_uid)
  then Err UnsafeSocket else Ok tt.
End socket.

(** ** What an accepted socket is *)

Lemma check_directories_total fs dirs uid : check_directories fs dirs uid <> Panic.
Proof.
  induction dirs as [|d dirs IH]; cbn [check_directories]; [done|].
  destruct (fs (absolute d)); cbn [ok_or mbind outcome_bind]; [by destruct (safe_directory _ _)|done].
Qed.

Lemma validate_total fs path uid : validate_managed_wayland_socket fs path uid <> Panic.
Proof.
  unfold validate_managed_wayland_socket.
  assert (validate_runtime_directory_hierarchy fs path uid <> Panic) as Hh.
  { unfold validate_runtime_directory_hierarchy. destruct (path_components path); [done|].
    destruct (is_absolute path); [|done]. destruct (strip_components _ _); [apply check_directories_total|done]. }
  destruct (validate_runtime_directory_hierarchy fs path uid); cbn; [|done..].
  destruct (fs path); cbn; [by destruct (_ || _)|done].
Qed.

Definition vetted_directory (fs : str -> option Stat) (uid : Z) (d : list str) : Prop :=
  exists m, fs (absolute d) = Some m /\ file_type m = Directory /\ st_owner m = uid /\ Z.land (st_mode m) 511 = 448.

Lemma safe_directory_spec uid m : safe_directory uid m = true <->
  file_type m = Directory /\ st_owner m = uid /\ Z.land (st_mode m) 511 = 448.
Proof.
  unfold safe_directory. rewrite negb_true_iff, !orb_false_iff, !negb_false_iff, bool_decide_eq_true, bool_decide_eq_false, !Z.eqb_eq.
  split; [tauto|]. intros (H & ? & ?). by rewrite H.
Qed.

Lemma check_directories_spec fs dirs uid : check_directories fs dirs uid = Ok tt <-> Forall (vetted_directory fs uid) dirs.
Proof.
  induction dirs as [|d dirs IH]; cbn [check_directories]; [by split|]. rewrite Forall_cons, <- IH. unfold vetted_directory.
  destruct (fs (absolute d)) as [m|] eqn:E; cbn [ok_or mbind outcome_bind];
    [|split; [done|intros [(m & F & _) _]; congruence]].
  destruct (safe_directory uid m) eqn:S.
  - apply safe_directory_spec in S. split; [eauto|by intros [_ ?]].
  - split; [done|]. intros [(m' & [= <-] & H) _]. apply safe_directory_spec in H. congruence.
Qed.

Lemma runtime_directories_spec rest : forall base d, d ∈ runtime_directories base rest <->
  exists n, (n <= length rest)%nat /\ d = base ++ take n rest.
Proof.
  induction rest as [|c rest IH]; intros base d; cbn; rewrite elem_of_cons.
  - split.
    + intros [->|H]; [|by apply elem_of_nil in H]. exists 0%nat. by rewrite app_nil_r.
    + intros (n & Hn & ->). left. by rewrite take_nil, app_nil_r.
  - rewrite IH. split.
    + intros [->|(n & Hn & ->)].
      * exists 0%nat. cbn. rewrite app_nil_r. split; [lia|done].
      * exists (S n). cbn. rewrite <- app_assoc. split; [lia|done].
    + intros ([|n] & Hn & ->); [left; cbn; by rewrite app_nil_r|]. right. exists n. cbn. rewrite <- app_assoc. split; [lia|done].
Qed.

Lemma strip_components_spec base : forall cs rest, strip_components base cs = Some rest <-> cs = base ++ rest.
Proof.
  induction base as [|b base IH]; intros cs rest; cbn; [split; congruence|].
  destruct cs as [|c cs]; [done|]. unfold eqs. case_bool_decide as B.
  - subst. rewrite IH. split; congruence.
  - split; [done|]. congruence.
Qed.

(** A Wayland socket is accepted for an account exactly when its path is
    absolute and lies below /run/user/<uid>, every directory from that base down
    to the one that holds the socket is itself a directory (not a symbolic link)
    owned by the account with mode 0700, and the socket is a socket (not a
    symbolic link) owned by the account. *)
Theorem accepted_socket_vetted fs path uid : validate_managed_wayland_socket fs path uid = Ok tt <->
  is_absolute path = true /\
  (exists below name, path_components path = runtime_base uid ++ below ++ [name] /\
     forall n, (n <= length below)%nat -> vetted_directory fs uid (runtime_base uid ++ take n below)) /\
  exists m, fs path = Some m /\ file_type m = Socket /\ st_owner m = uid.
Proof.
  unfold validate_managed_wayland_socket. split.
  - intros H. apply bind_ok in H as ([] & H1 & H2). apply bind_ok in H2 as (m & Hm & H2).
    destruct (fs path) as [m'|]; [|done]. apply Ok_inj in Hm as ->.
    unfold validate_runtime_directory_hierarchy in H1.
    destruct (path_components path) as [|c cs] eqn:E; [done|]. destruct (is_absolute path); [|done].
    destruct (strip_components _ _) as [rest|] eqn:Es; [|done].
    apply strip_components_spec in Es. apply check_directories_spec in H1.
    split; [done|]. split.
    + exists rest, (List.last (c :: cs) []). split.
      * rewrite app_assoc, <- Es. by apply app_removelast_last.
      * intros n Hn. rewrite Forall_forall in H1. apply H1, runtime_directories_spec. eauto.
    + exists m. split; [done|]. destruct (_ || _) eqn:B; [done|].
      rewrite !orb_false_iff, !negb_false_iff, bool_decide_eq_true, Z.eqb_eq in B. tauto.
  - intros (Ha & (below & name & E & Hv) & m & Hm & Hs & Ho).
    assert (validate_runtime_directory_hierarchy fs path uid = Ok tt) as ->.
    { unfold validate_runtime_directory_hierarchy. rewrite E, Ha.
      destruct (runtime_base uid ++ below ++ [name]) as [|c cs] eqn:El; [done|]. rewrite <- El, app_assoc, removelast_last.
      rewrite (proj2 (strip_components_spec (runtime_base uid) _ below)) by done.
      apply check_directories_spec, Forall_forall. intros d Hd. apply runtime_directories_spec in Hd as (n & Hn & ->). by apply Hv. }
    cbn. rewrite Hm. cbn. rewrite Hs, Ho, Z.eqb_refl. done.
Qed.
