(* ===== verification/Binder.v ===== *)
(** * Binding a connection to a user session

    Models the admission of an authenticated client in
    src/src/rdp/server/production.rs: [bind_connection] with its rollbacks, and the
    clean-up [run] does after every connection.  The session manager is the one of
    Sesman.v, on its [World]; the portal session, the display pipeline and
    wlr-randr are the [Desktop], which answers at every step and decides every
    failure.  [acts] logs what the daemon did, for the specifications. *)
From S2P Require Import Prelude Text Auth SesProcess SesConfig SesHost Sesman SesSample SesSignal SesLife Frames Connection ManagedSocket.

Inductive BindError :=
| NoGeneration | GeometryRejected (e : GeometryError)
| ConfigError_ (e : ConfigError) | SesmanError (e : SesError) | TaskPanicked
| NoPersistedState | IdentityUnresolved (e : IdentityError)
| UnsafeWaylandSocket (e : SocketError) | WlrRandrFailed | ModeNotRealized
| PortalFailed | AttachFailed
| PortalShutdownFailed
| FatalShutdown | ConnectionInterrupted | AcceptFailed (e : io_error).

(** What the session manager is asked for: a session of a size, the registration of
    the client, its removal, its removal followed by the idle clean-up, the end of
    the session; and its answer, which says whether the session existed before. *)
Inductive call := CallEnsure (size : Z * Z) | CallBind | CallUnbind | CallDisconnect | CallStop.
Inductive reply := Failed | Done | Ensured (reused : bool).

(** What the daemon did: a session manager call, with its answer and the world
    before and after it, the life of a portal session, a command run as the target
    account, a delayed idle clean-up, and a pause before the next accept. *)
Inductive Act :=
| Called (c : call) (user : str) (r : reply) (before after : World)
| PortalOpened | PortalClosed (ok : bool)
| RanAs (t : TargetUserIdentity) (args : list str)
| CleanupScheduled (user : str) (delay_ms : Z)
| Paused (delay : Z).

(** [open_portals] counts the portal sessions created and not yet shut down. *)
Record Daemon := mkDaemon {
  active_bound_user : option str;
  active_connection : bool;
  cancel_generation : bool;
  fatal_shutdown_error : bool;
  audio_target : option str;
  open_portals : Z;
  acts : list Act;
  world : World;
}.

(** The environment of the daemon, at the steps of the world. *)
Class Desktop := {
  daemon_environ : Environ;
  headless_output : option str;
  passwd_entry : nat -> str -> option (option (Z * Z));
  id_groups_output : nat -> str -> option (list Z);
  symlink_stat : nat -> str -> option Stat;
  wlr_randr : nat -> list str -> option str;
  portal_settings : nat -> bool;
  portal_create : nat -> bool;
  portal_attach : nat -> bool;
  portal_shutdown : nat -> bool;
}.

(** A state and error monad over the daemon. *)
Definition D (A : Type) : Type := Daemon -> outcome BindError A * Daemon.
Definition dret {A} (a : A) : D A := fun d => (Ok a, d).
Definition dfail {A} (e : BindError) : D A := fun d => (Err e, d).
Definition dbind {A B} (m : D A) (k : A -> D B) : D B := fun d =>
  match m d with (Ok a, d) => k a d | (Err e, d) => (Err e, d) | (Panic, d) => (Panic, d) end.
Declare Scope daemon_scope.
Delimit Scope daemon_scope with daemon.
Notation "'let*' x ':=' m 'in' k" := (dbind m (fun x => k))
  (at level 200, x name, m at level 100, k at level 200) : daemon_scope.
Notation "'do*' m 'in' k" := (dbind m (fun _ => k)) (at level 200, m at level 100, k at level 200) : daemon_scope.
Open Scope daemon_scope.

Definition upd (f : Daemon -> Daemon) : D unit := fun d => (Ok tt, f d).
Definition act (a : Act) : D unit :=
  upd (fun d => mkDaemon (active_bound_user d) (active_connection d) (cancel_generation d) (fatal_shutdown_error d)
                  (audio_target d) (open_portals d) (acts d ++ [a]) (world d)).
Definition set_bound (u : option str) (c : bool) (a : option str) : D unit :=
  upd (fun d => mkDaemon u c (cancel_generation d) (fatal_shutdown_error d) a (open_portals d) (acts d) (world d)).
Definition set_cancel (b : bool) : D unit :=
  upd (fun d => mkDaemon (active_bound_user d) (active_connection d) b (fatal_shutdown_error d)
                  (audio_target d) (open_portals d) (acts d) (world d)).
Definition set_fatal (b : bool) : D unit :=
  upd (fun d => mkDaemon (active_bound_user d) (active_connection d) (cancel_generation d) b
                  (audio_target d) (open_portals d) (acts d) (world d)).
Definition count_portal (n : Z) : D unit :=
  upd (fun d => mkDaemon (active_bound_user d) (active_connection d) (cancel_generation d) (fatal_shutdown_error d)
                  (audio_target d) (open_portals d + n) (acts d) (world d)).

Section binder.
Context {CC : Chrono} {JJ : Json} {HH : Host} {DD : Desktop}.

(** An answer of the environment at the current step. *)
Definition ask {A} (f : nat -> A) : D A := fun d =>
  (Ok (f (SesHost.step (world d))),
   mkDaemon (active_bound_user d) (active_connection d) (cancel_generation d) (fatal_shutdown_error d)
     (audio_target d) (open_portals d) (acts d) (SesHost.tick (world d))).

Definition of_error {E A} (f : E -> BindError) (o : outcome E A) : D A :=
  match o with Ok a => dret a | Err e => dfail (f e) | Panic => fun d => (Panic, d) end.

(** [spawn_blocking]: a session manager call on its own thread; a panic there is
    an error of the join here. *)
Definition blocking {A} (user : str) (c : call) (answer : A -> reply) (m : SesmanConfig -> M A) : D (outcome BindError A) := fun d =>
  let w := world d in
  let '(r, w') :=
    match for_user daemon_environ (os (SesHost.step w)) user with
    | Ok config =>
        let '(r, w) := m config (SesHost.tick w) in
        (match r with Ok a => Ok a | Err e => Err (SesmanError e) | Panic => Err TaskPanicked end, w)
    | Err e => (Err (ConfigError_ e), SesHost.tick w)
    | Panic => (Err TaskPanicked, SesHost.tick w)
    end in
  (Ok r, mkDaemon (active_bound_user d) (active_connection d) (cancel_generation d) (fatal_shutdown_error d)
           (audio_target d) (open_portals d) (acts d ++ [Called c user (match r with Ok a => answer a | _ => Failed end) w w']) w').

Definition try {A} (o : outcome BindError A) : D A := of_error (fun e => e) o.

(** The delayed clean-up of an idle session is scheduled when there is a limit. *)
Definition schedule_cleanup (user : str) (idle_timeout : Z) : D unit :=
  if 0 <? idle_timeout then act (CleanupScheduled user idle_timeout) else dret tt.

(** Errors are only logged.
    [production.rs:687-745 rollback_ensured_production_session] *)
Definition rollback_ensured_production_session (user : str) (reused : bool) : D unit :=
  if reused then
    let* r := blocking user CallUnbind (fun _ => Done) (fun c => bind (unbind_single_client c) (fun _ => ret (idle_timeout_ms c))) in
    match r with Ok idle_timeout => schedule_cleanup user idle_timeout | _ => dret tt end
  else
    do* blocking user CallStop (fun _ => Done) stop in dret tt.

(** Errors are only logged; the clean-up runs only after a successful unbind.
    [production.rs:642-681 record_production_disconnect] *)
Definition record_production_disconnect (user : str) : D unit :=
  let* r := blocking user CallDisconnect (fun _ => Done) (fun c =>
    bind (unbind_single_client c) (fun _ =>
    bind (cleanup_idle c) (fun stopped => ret (stopped, idle_timeout_ms c)))) in
  match r with
  | Ok (stopped, idle_timeout) => if stopped then dret tt else schedule_cleanup user idle_timeout
  | _ => dret tt
  end.

(** ** The managed output *)

(** [production.rs:1180-1229 run_wlr_randr_as_target] *)
Definition run_wlr_randr_as_target (socket : str) (t : TargetUserIdentity) (args : list str) : D str :=
  let* safe := ask (fun i => validate_managed_wayland_socket (symlink_stat i) socket (t_uid t)) in
  do* of_error UnsafeWaylandSocket safe in
  do* act (RanAs t args) in
  let* out := ask (fun i => wlr_randr i args) in
  of_error (fun e => e) (ok_or WlrRandrFailed out).

(** [production.rs:1241-1282 resize_production_compositor] *)
Definition resize_production_compositor (socket : str) (size : Z * Z) (t : TargetUserIdentity) : D unit :=
  let output_name := or_default (lit "HEADLESS-1") headless_output in
  let mode := resolution size.1 size.2 in
  do* run_wlr_randr_as_target socket t [lit "--output"; output_name; lit "--custom-mode"; mode] in
  let* query := run_wlr_randr_as_target socket t [lit "--output"; output_name] in
  if wlr_randr_reports_current_mode query size.1 size.2 then dret tt else dfail ModeNotRealized.

(** ** The portal session *)

(** The session handle's [shutdown]. *)
Definition shutdown_portal : D bool :=
  let* ok := ask portal_shutdown in
  do* (if ok : bool then count_portal (-1) else dret tt) in
  do* act (PortalClosed ok) in dret ok.

(** The connection's own tasks are stopped around the portal's shutdown.
    [production.rs:807-831 shutdown] *)
Definition shutdown_resources : D unit :=
  let* ok := shutdown_portal in if ok : bool then dret tt else dfail PortalShutdownFailed.

(** The builder: everything after the creation is one answer of the desktop.
    [production.rs:1363-1614 build_production_portal_generic_connection] *)
Definition build_production_portal_generic_connection (socket : str) (t : TargetUserIdentity) : D unit :=
  let* settings := ask portal_settings in
  do* (if settings : bool then dret tt else dfail PortalFailed) in
  let* safe := ask (fun i => validate_managed_wayland_socket (symlink_stat i) socket (t_uid t)) in
  do* of_error UnsafeWaylandSocket safe in
  let* created := ask portal_create in
  if negb created then dfail PortalFailed
  else
    do* count_portal 1 in
    do* act PortalOpened in
    let* attached := ask portal_attach in
    if attached : bool then dret tt
    else
      let* ok := shutdown_portal in
      if ok : bool then dfail AttachFailed
      else do* set_fatal true in dfail PortalShutdownFailed.

(** ** Admission *)

Record admission_config := mkAdmission { display_config : DisplayConfig }.

(** [production.rs:97-100 PRODUCTION_DEFAULT_DESKTOP_SIZE] *)
Definition PRODUCTION_DEFAULT_DESKTOP_SIZE : Z * Z := (1920, 1080).

(** A step whose failure rolls the session back.
    [production.rs:932-944 bind_connection] *)
Definition or_rollback {A} (user : str) (reused : bool) (m : D A) : D A := fun d =>
  match m d with
  | (Err e, d) => (do* rollback_ensured_production_session user reused in dfail e) d
  | r => r
  end.

(** Recording the client, and the tear-down when that fails.
    [production.rs:967-1004 bind_connection] *)
Definition record_client (user : str) (reused : bool) : D unit :=
  let* r := blocking user CallBind (fun _ => Done) (fun c => bind_single_client c) in
  match r with
  | Ok _ => dret tt
  | r =>
      let* closed := shutdown_portal in
      if closed : bool then do* rollback_ensured_production_session user reused in do* try r in dret tt
      else do* set_fatal true in dfail PortalShutdownFailed
  end.

(** Admission up to the registered client; the account and its runtime directory.
    [production.rs:866-1004 bind_connection] *)
Definition admit_client (config : DisplayConfig) (username : str) (desktop_size : Z * Z) : D (str * str) :=
  let* generation := (fun d => (Ok (cancel_generation d), d)) in
  do* (if generation : bool then dret tt else dfail NoGeneration) in
  let* size := of_error GeometryRejected
    (validate_geometry_policy config desktop_size (Some PRODUCTION_DEFAULT_DESKTOP_SIZE)) in
  let user := normalize_local_account_name username in
  let* ensured := blocking user (CallEnsure size) (fun e => Ensured (reused_existing e)) (fun c => ensure c
    (mkOptions false (Some (mkSize size.1 size.2)) None false)) in
  let* ensured := try ensured in
  let reused := reused_existing ensured in
  let* runtime_dir := or_rollback user reused
    (of_error (fun e => e) (ok_or NoPersistedState (st_xdg_runtime_dir <$> state (ensured_status ensured)))) in
  let socket := path_join runtime_dir MANAGED_WAYLAND_SOCKET in
  let* target := or_rollback user reused
    (let* r := ask (fun i => resolve_target_user_identity (passwd_entry i user) (id_groups_output i user)) in
     of_error IdentityUnresolved r) in
  do* or_rollback user reused (resize_production_compositor socket size target) in
  do* or_rollback user reused (build_production_portal_generic_connection socket target) in
  do* record_client user reused in
  dret (user, runtime_dir).

(** [production.rs:853-1018 bind_connection] *)
Definition bind_connection (config : DisplayConfig) (username : str) (desktop_size : Z * Z) : D unit :=
  let* bound := admit_client config username desktop_size in
  set_bound (Some bound.1) true (Some bound.2).

(** ** One connection of the daemon *)

(** What the protocol library does with one connection: its polls, and the
    credentials and desktop size it hands to the binder. *)
Record Incoming := mkIncoming { polls : list (Poll bool); username : str; desktop_size : Z * Z; begun : Z }.

(** The connection ends by itself, is cancelled, or is still running when the polls
    run out; the binder has run once if it was entered and has returned.
    [production.rs:493-533 run] *)
Definition run_connection (config : DisplayConfig) (session_timeout : option Z) (f : Flags) (c : Incoming) : D (option Flags) :=
  do* set_cancel true in
  match run_with_connection_timeouts (begun c) session_timeout f (polls c) with
  | Running _ _ => dret None
  | Panicked => fun d => (Panic, d)
  | Ended r f rest =>
      let used := take (length (polls c) - length rest) (polls c) in
      do* (match admissions used with
           | [] => dret tt
           | [Enter; Leave] => fun d => (Ok tt, (bind_connection config (username c) (desktop_size c) d).2)
           | _ => dfail ConnectionInterrupted
           end) in
      dret (Some f)
  end.

(** The clean-up common to every end of a connection; clearing the clipboard
    manager's connection state has no counterpart here.
    [production.rs:534-572 run] *)
Definition clean_up : D unit :=
  do* set_cancel false in
  let* fatal := (fun d => (Ok (fatal_shutdown_error d), d)) in
  if fatal : bool then do* set_fatal false in dfail FatalShutdown
  else
    let* connection := (fun d => (Ok (active_connection d), d)) in
    do* (if connection : bool then
           do* (fun d => set_bound (active_bound_user d) false (audio_target d) d) in shutdown_resources
         else dret tt) in
    do* (fun d => set_bound (active_bound_user d) (active_connection d) None d) in
    let* bound := (fun d => (Ok (active_bound_user d), d)) in
    match bound with
    | None => dret tt
    | Some user =>
        do* (fun d => set_bound None (active_connection d) (audio_target d) d) in
        record_production_disconnect user
    end.

(** The daemon's loop over the results of [accept]: a client is served and cleaned
    up after, a recoverable error is retried after a pause that grows with the
    number of errors in a row, and any other error ends the daemon.
    [production.rs:470-573 run] *)
Fixpoint serve (config : DisplayConfig) (session_timeout : option Z) (f : Flags) (consecutive_accept_errors : Z)
  (accepts : list (Incoming + io_error)) : D unit :=
  match accepts with
  | [] => dret tt
  | inr error :: accepts =>
      if is_recoverable_accept_error error then
        let consecutive_accept_errors := Z.min (consecutive_accept_errors + 1) u32_max in
        do* act (Paused (accept_retry_delay consecutive_accept_errors)) in
        serve config session_timeout f consecutive_accept_errors accepts
      else dfail (AcceptFailed error)
  | inl c :: accepts =>
      let* r := run_connection config session_timeout f c in
      match r with
      | None => dret tt
      | Some f => do* clean_up in serve config session_timeout f 0 accepts
      end
  end.

(** ** What the calls do

    The session manager's own operation for a call, and a call as it must have gone
    between the worlds logged for it: the operation of the manager configured for
    the account took the one to the other, and the answer is its answer. *)
Definition requested (c : call) (config : SesmanConfig) : M reply :=
  match c with
  | CallEnsure size => bind (ensure config (mkOptions false (Some (mkSize size.1 size.2)) None false))
                         (fun e => ret (Ensured (reused_existing e)))
  | CallBind => bind (run_operation config SesSignal.Bind) (fun _ => ret Done)
  | CallUnbind => bind (run_operation config SesSignal.Unbind) (fun _ => ret Done)
  | CallDisconnect => bind (run_operation config SesSignal.Unbind) (fun _ =>
                      bind (run_operation config SesSignal.CleanupIdle) (fun _ => ret Done))
  | CallStop => bind (run_operation config SesSignal.Stop) (fun _ => ret Done)
  end.

Definition performed (c : call) (u : str) (r : reply) (w w' : World) : Prop :=
  match for_user daemon_environ (os (SesHost.step w)) u with
  | Ok config => exists o, requested c config (SesHost.tick w) = (o, w') /\ r = match o with Ok r => r | _ => Failed end
  | _ => w' = SesHost.tick w /\ r = Failed
  end.

Definition succeeded (r : reply) : bool := match r with Failed => false | _ => true end.

(** What a client's registration and removal do to the registry of the account. *)
Definition client_counted (c : call) (u : str) (r : reply) (w w' : World) : Prop :=
  forall config, for_user daemon_environ (os (SesHost.step w)) u = Ok config ->
  match c with
  | CallBind => accounted config SesSignal.Bind w w' (succeeded r)
  | CallUnbind => accounted config SesSignal.Unbind w w' (succeeded r)
  | CallDisconnect => exists ok w1, accounted config SesSignal.Unbind w w1 ok /\
      (if ok : bool then w' = (cleanup_idle config w1).2 else r = Failed /\ w' = w1)
  | _ => True
  end.

Definition is_call (a : Act) : bool := match a with Called _ _ _ _ _ => true | _ => false end.

(** A log of the daemon between two worlds: every session manager call in it went
    as it must, and nothing between the calls touches the registry. *)
Inductive history : World -> list Act -> World -> Prop :=
| history_end w w' : files w' = files w -> history w [] w'
| history_call w c u r w1 w2 l w' : files w1 = files w -> performed c u r w1 w2 -> client_counted c u r w1 w2 ->
    history w2 l w' -> history w (Called c u r w1 w2 :: l) w'
| history_other w a l w' : is_call a = false -> history w l w' -> history w (a :: l) w'.

Lemma history_files w0 w l w' : files w = files w0 -> history w l w' -> history w0 l w'.
Proof.
  intros E H. induction H; [apply history_end; congruence|eapply history_call; try done; congruence|].
  apply history_other; auto.
Qed.

Lemma history_app w l w1 l' w' : history w l w1 -> history w1 l' w' -> history w (l ++ l') w'.
Proof.
  intros H H'. induction H; cbn; [by eapply history_files|eapply history_call; eauto|by apply history_other; auto].
Qed.

Lemma finish_then {A B} (m : M A) (f : A -> B) w :
  bind m (fun a => ret (f a)) w = (match (m w).1 with Ok a => Ok (f a) | Err e => Err e | Panic => Panic end, (m w).2).
Proof. unfold bind. by destruct (m w) as [[]]. Qed.

(** A call that runs the operation it stands for leaves the worlds as it must. *)
Definition runs_as {A} (c : call) (answer : A -> reply) (m : SesmanConfig -> M A) : Prop := forall config w,
  requested c config w = (match (m config w).1 with Ok a => Ok (answer a) | Err e => Err e | Panic => Panic end, (m config w).2).

Lemma performed_counted c u r w w' : performed c u r w w' -> client_counted c u r w w'.
Proof.
  unfold performed, client_counted. intros Hp config E. rewrite E in Hp. destruct Hp as (o & Hr & ->).
  assert (forall op, op = SesSignal.Bind \/ op = SesSignal.Unbind \/ op = SesSignal.Disconnect -> forall o w1,
    run_operation config op (SesHost.tick w) = (o, w1) -> accounted config op w w1 (is_ok o)) as Ha.
  { intros op Hop o' w1 Eo. pose proof (client_accounted config op (SesHost.tick w) Hop) as Ha. cbv zeta in Ha. rewrite Eo in Ha. exact Ha. }
  destruct c; [done| | | |done]; unfold requested in Hr.
  - rewrite finish_then in Hr. destruct (run_operation config SesSignal.Bind _) as [o1 w1] eqn:Eo. injection Hr as <- <-.
    apply Ha in Eo; [|auto]. by destruct o1.
  - rewrite finish_then in Hr. destruct (run_operation config SesSignal.Unbind _) as [o1 w1] eqn:Eo. injection Hr as <- <-.
    apply Ha in Eo; [|auto]. by destruct o1.
  - unfold bind at 1 in Hr. destruct (run_operation config SesSignal.Unbind _) as [[[]|e|] w1] eqn:Eo; apply Ha in Eo; [|auto| |auto| |auto].
    + rewrite finish_then in Hr. injection Hr as <- <-. exists true, w1. split; [exact Eo|]. cbn [run_operation].
      unfold bind. by destruct (cleanup_idle config w1) as [[]].
    + injection Hr as <- <-. exists false, w1. by split_and!.
    + injection Hr as <- <-. exists false, w1. by split_and!.
Qed.

(** ** Reasoning about the daemon

    What a computation does to the daemon besides its connection slots: portals
    opened and left open, whether it latched a fatal error, and its significant
    acts, without the commands run, the clean-ups scheduled and the pauses. *)
Inductive Deed := Did (c : call) (user : str) (r : reply) | Opened | Closed (ok : bool).
Definition significant (a : Act) : option Deed :=
  match a with
  | Called c u r _ _ => Some (Did c u r)
  | PortalOpened => Some Opened
  | PortalClosed ok => Some (Closed ok)
  | RanAs _ _ | CleanupScheduled _ _ | Paused _ => None
  end.
Definition shape (l : list Act) : list Deed := omap significant l.

Record effect (n : Z) (fatal : bool) (s : list Deed) (d d' : Daemon) : Prop := mkEffect {
  same_bound : active_bound_user d' = active_bound_user d;
  same_active : active_connection d' = active_connection d;
  same_cancel : cancel_generation d' = cancel_generation d;
  same_audio : audio_target d' = audio_target d;
  latched : fatal_shutdown_error d' = fatal_shutdown_error d || fatal;
  portals : open_portals d' = open_portals d + n;
  done_acts : exists l, acts d' = acts d ++ l /\ shape l = s /\ history (world d) l (world d');
}.

Lemma shape_app l l' : shape (l ++ l') = shape l ++ shape l'.
Proof. apply omap_app. Qed.

Lemma effect_refl d : effect 0 false [] d d.
Proof.
  split; try done; [by rewrite orb_false_r | lia |]. exists []. rewrite app_nil_r. split_and!; [done..|by apply history_end].
Qed.

Lemma effect_trans n1 f1 s1 n2 f2 s2 d d1 d2 : effect n1 f1 s1 d d1 -> effect n2 f2 s2 d1 d2 ->
  effect (n1 + n2) (f1 || f2) (s1 ++ s2) d d2.
Proof.
  intros [????? ? (l & E1 & <- & H1)] [????? ? (l' & E2 & <- & H2)]. split; try congruence; [by rewrite orb_assoc; congruence | lia |].
  exists (l ++ l'). rewrite shape_app, E2, E1, app_assoc. split_and!; [done..|by eapply history_app].
Qed.

(** A step that only touches the counters, or logs something that is no call. *)
Lemma effect_plain d d' n f l : active_bound_user d' = active_bound_user d -> active_connection d' = active_connection d ->
  cancel_generation d' = cancel_generation d -> audio_target d' = audio_target d ->
  fatal_shutdown_error d' = fatal_shutdown_error d || f -> open_portals d' = open_portals d + n ->
  acts d' = acts d ++ l -> Forall (fun a => is_call a = false) l -> files (world d') = files (world d) ->
  effect n f (shape l) d d'.
Proof.
  intros. split; try done. exists l. split_and!; [done..|].
  induction l as [|a l IH]; [by apply history_end|]. apply Forall_cons in H6 as [? ?]. apply history_other; [done|].
  clear IH H5. induction l as [|b l IH]; [by apply history_end|]. apply Forall_cons in H8 as [? ?]. apply history_other; auto.
Qed.

(** The result, the effect and the world it ends in satisfy [Q]. *)
Definition post (A : Type) : Type := outcome BindError A -> Z -> bool -> list Deed -> World -> Prop.
Definition runs {A} (m : D A) (Q : post A) : Prop :=
  forall d, exists n f s, effect n f s d (m d).2 /\ Q (m d).1 n f s (world (m d).2).

Lemma runs_weaken {A} (m : D A) (Q Q' : post A) : runs m Q -> (forall r n f s w, Q r n f s w -> Q' r n f s w) -> runs m Q'.
Proof. intros H HQ d. destruct (H d) as (n & f & s & E & P). exists n, f, s. auto. Qed.

Lemma runs_bind {A B} (m : D A) (k : A -> D B) (Q : post A) (Q' : post B) : runs m Q ->
  (forall a n f s w, Q (Ok a) n f s w -> runs (k a) (fun r n' f' s' w' => Q' r (n + n') (f || f') (s ++ s') w')) ->
  (forall e n f s w, Q (Err e) n f s w -> Q' (Err e) n f s w) ->
  (forall n f s w, ~ Q Panic n f s w) -> runs (dbind m k) Q'.
Proof.
  intros Hm Hk He Hp d. destruct (Hm d) as (n & f & s & E & P). unfold dbind.
  destruct (m d) as [[a|e|] d1]; cbn [fst snd] in *.
  - destruct (Hk a n f s _ P d1) as (n' & f' & s' & E' & P'). exists (n + n'), (f || f'), (s ++ s').
    split; [by eapply effect_trans | done].
  - exists n, f, s. auto.
  - by apply Hp in P.
Qed.

(** Nothing significant happens and nothing panics. *)
Definition plain {A} (Q : outcome BindError A -> Prop) : post A := fun r n f s _ => n = 0 /\ f = false /\ s = [] /\ r <> Panic /\ Q r.

Lemma runs_plain_bind {A B} (m : D A) (k : A -> D B) (Q : outcome BindError A -> Prop) (Q' : post B) : runs m (plain Q) ->
  (forall a, Q (Ok a) -> runs (k a) Q') -> (forall e w, Q (Err e) -> Q' (Err e) 0 false [] w) -> runs (dbind m k) Q'.
Proof.
  intros Hm Hk He. eapply runs_bind; [exact Hm|..].
  - intros a n f s w (-> & -> & -> & _ & Ha). by apply Hk.
  - intros e n f s w (-> & -> & -> & _ & Ha). by apply He.
  - intros n f s w (_ & _ & _ & H' & _). done.
Qed.

Lemma runs_ret {A} (a : A) (Q : post A) : (forall w, Q (Ok a) 0 false [] w) -> runs (dret a) Q.
Proof. intros HQ d. exists 0, false, []. split; [apply effect_refl | apply HQ]. Qed.
Lemma runs_fail {A} e (Q : post A) : (forall w, Q (Err e) 0 false [] w) -> runs (dfail e) Q.
Proof. intros HQ d. exists 0, false, []. split; [apply effect_refl | apply HQ]. Qed.
Lemma runs_ask {A} (g : nat -> A) : runs (ask g) (plain (fun r => exists i, r = Ok (g i))).
Proof.
  intros d. exists 0, false, []. split; [|split_and!; try done; by eexists].
  apply (effect_plain d _ 0 false []); cbn; try done; [by rewrite orb_false_r | lia | by rewrite app_nil_r].
Qed.
Lemma runs_of_error {E A} (g : E -> BindError) (o : outcome E A) : o <> Panic -> runs (of_error g o) (plain (fun _ => True)).
Proof. intros Ho. destruct o; [by apply runs_ret | by apply runs_fail | done]. Qed.
Lemma runs_act a : is_call a = false -> runs (act a) (fun r n f s _ => r = Ok tt /\ n = 0 /\ f = false /\ s = shape [a]).
Proof.
  intros Ha d. exists 0, false, (shape [a]). split; [|done].
  apply effect_plain; cbn; try done; [by rewrite orb_false_r | lia | by constructor].
Qed.
Lemma runs_count n : runs (count_portal n) (fun r n' f s _ => r = Ok tt /\ n' = n /\ f = false /\ s = []).
Proof.
  intros d. exists n, false, []. split; [|done].
  apply (effect_plain _ _ _ _ []); cbn; try done; [by rewrite orb_false_r | by rewrite app_nil_r].
Qed.
Lemma runs_fatal : runs (set_fatal true) (fun r n f s _ => r = Ok tt /\ n = 0 /\ f = true /\ s = []).
Proof.
  intros d. exists 0, true, []. split; [|done].
  apply (effect_plain _ _ _ _ []); cbn; try done; [by rewrite orb_true_r | lia | by rewrite app_nil_r].
Qed.

Lemma runs_blocking {A} u c answer (m : SesmanConfig -> M A) : runs_as c answer m -> runs (blocking u c answer m) (fun r n f s w =>
  exists o, r = Ok o /\ o <> Panic /\ n = 0 /\ f = false /\ s = [Did c u (match o with Ok a => answer a | _ => Failed end)] /\
    forall a, o = Ok a -> exists i config w0, for_user daemon_environ (os i) u = Ok config /\ m config w0 = (Ok a, w)).
Proof.
  intros Hm d.
  assert (forall (o : outcome BindError A) w', performed c u (match o with Ok a => answer a | _ => Failed end) (world d) w' ->
    effect 0 false [Did c u (match o with Ok a => answer a | _ => Failed end)] d
      (mkDaemon (active_bound_user d) (active_connection d) (cancel_generation d) (fatal_shutdown_error d) (audio_target d) (open_portals d)
         (acts d ++ [Called c u (match o with Ok a => answer a | _ => Failed end) (world d) w']) w')) as He.
  { intros o w' Hp. split; cbn; try done; [by rewrite orb_false_r | lia |]. eexists. split_and!; [done..|].
    apply history_call; [done|done|by apply performed_counted|by apply history_end]. }
  unfold blocking. destruct (for_user daemon_environ (os (SesHost.step (world d))) u) as [config|e|] eqn:E.
  - destruct (m config (SesHost.tick (world d))) as [r w] eqn:Em.
    set (o := match r with Ok a => Ok a | Err e => Err (SesmanError e) | Panic => Err TaskPanicked end).
    exists 0, false, [Did c u (match o with Ok a => answer a | _ => Failed end)]. split.
    + apply He. unfold performed. rewrite E, Hm, Em. cbn [fst snd]. eexists. split; [done|]. by destruct r.
    + exists o. split; [done|]. split; [by destruct r|]. split_and!; try done.
      intros a Ha. destruct r as [a'|e|]; simplify_eq. eauto 10.
  - exists 0, false, [Did c u Failed]. split; [|by eexists].
    apply (He (Err (ConfigError_ e))). unfold performed. by rewrite E.
  - exists 0, false, [Did c u Failed]. split; [|by eexists].
    apply (He (Err TaskPanicked)). unfold performed. by rewrite E.
Qed.

Lemma runs_schedule u t : runs (schedule_cleanup u t) (plain (fun r => r = Ok tt)).
Proof.
  unfold schedule_cleanup. destruct (0 <? t); [|by apply runs_ret].
  eapply runs_weaken; [by apply runs_act|]. by intros r n f s w (-> & -> & -> & ->).
Qed.

(** The calls of the daemon run the operations they stand for. *)
Lemma runs_as_unbind : runs_as CallUnbind (fun _ => Done) (fun c => bind (unbind_single_client c) (fun _ => ret (idle_timeout_ms c))).
Proof. intros config w. unfold requested. cbn [run_operation]. unfold bind. by destruct (unbind_single_client config w) as [[]]. Qed.
Lemma runs_as_stop : runs_as CallStop (fun _ => Done) stop.
Proof. intros config w. unfold requested. cbn [run_operation]. unfold bind. by destruct (stop config w) as [[]]. Qed.
Lemma runs_as_bind : runs_as CallBind (fun _ => Done) (fun c => bind_single_client c).
Proof. intros config w. unfold requested. cbn [run_operation]. unfold bind. by destruct (bind_single_client config w) as [[]]. Qed.
Lemma runs_as_ensure size : runs_as (CallEnsure size) (fun e => Ensured (reused_existing e))
  (fun c => ensure c (mkOptions false (Some (mkSize size.1 size.2)) None false)).
Proof. intros config w. apply finish_then. Qed.
Lemma runs_as_disconnect : runs_as CallDisconnect (fun _ => Done) (fun c =>
  bind (unbind_single_client c) (fun _ => bind (cleanup_idle c) (fun stopped => ret (stopped, idle_timeout_ms c)))).
Proof.
  intros config w. unfold requested. cbn [run_operation]. unfold bind. destruct (unbind_single_client config w) as [[] w1]; [|done..].
  cbn [fst snd ret]. by destruct (cleanup_idle config w1) as [[]].
Qed.

Definition undo (reused : bool) : call := if reused then CallUnbind else CallStop.

Lemma runs_rollback u reused : runs (rollback_ensured_production_session u reused) (fun r n f s _ =>
  exists a, r = Ok tt /\ n = 0 /\ f = false /\ s = [Did (undo reused) u a]).
Proof.
  unfold rollback_ensured_production_session. destruct reused.
  - eapply runs_bind; [apply runs_blocking, runs_as_unbind|..].
    + intros o n f s w (o' & [= <-] & Hp & -> & -> & -> & _).
      assert (runs (A := unit) (match o with Ok t => schedule_cleanup u t | _ => dret tt end) (plain (fun r => r = Ok tt))) as Hr.
      { destruct o; [apply runs_schedule | by apply runs_ret..]. }
      eapply runs_weaken; [exact Hr|]. intros r n f s w' (-> & -> & -> & _ & ->). by eexists.
    + intros e n f s w (o & ? & _). done.
    + intros n f s w (o & ? & _). done.
  - eapply runs_bind; [apply runs_blocking, runs_as_stop|..].
    + intros o n f s w (o' & [= <-] & Hp & -> & -> & -> & _). apply runs_ret. intros. by eexists.
    + intros e n f s w (o & ? & _). done.
    + intros n f s w (o & ? & _). done.
Qed.

Lemma runs_or_rollback {A} u reused (m : D A) (Q : post A) : runs m Q -> (forall n f s w, ~ Q Panic n f s w) ->
  runs (or_rollback u reused m) (fun r n f s w => match r with
    | Ok a => Q (Ok a) n f s w
    | Err e => exists s' a w', Q (Err e) n f s' w' /\ s = s' ++ [Did (undo reused) u a]
    | Panic => False
    end).
Proof.
  intros Hm Hp d. destruct (Hm d) as (n & f & s & E & P). unfold or_rollback.
  destruct (m d) as [[a|e|] d1]; cbn [fst snd] in *; [by exists n, f, s | | by apply Hp in P].
  destruct (runs_rollback u reused d1) as (n' & f' & s' & E' & (a & Hr & -> & -> & ->)).
  unfold dbind. destruct (rollback_ensured_production_session u reused d1) as [[[]|?|] d2]; try done. cbn [dfail fst snd] in *.
  exists n, f, (s ++ [Did (undo reused) u a]). split; [|by eauto].
  replace n with (n + 0) by lia. rewrite <- (orb_false_r f). by eapply effect_trans.
Qed.

Lemma geometry_total c requested fixed : validate_geometry_policy c requested fixed <> Panic.
Proof. unfold validate_geometry_policy. destruct requested. by repeat case_match. Qed.

Lemma runs_wlr_randr socket t args : runs (run_wlr_randr_as_target socket t args) (plain (fun _ => True)).
Proof.
  unfold run_wlr_randr_as_target. eapply runs_plain_bind; [apply runs_ask| |by intros e w [? ?]]. intros safe [i [= ->]].
  eapply runs_plain_bind; [apply runs_of_error, validate_total| |done]. intros [] _.
  eapply runs_bind; [by apply runs_act| |by intros ? ? ? ? ? (? & _)|by intros ? ? ? ? (? & _)].
  intros [] n f s w (_ & -> & -> & ->).
  eapply runs_weaken; [eapply runs_plain_bind; [apply runs_ask| |by intros ? ? [? ?]]|].
  - intros out _. by apply (runs_of_error (fun e => e) (ok_or WlrRandrFailed out)); destruct out.
  - by intros r n f s w' (-> & -> & -> & ? & ?).
Qed.

Lemma runs_resize socket size t : runs (resize_production_compositor socket size t) (plain (fun _ => True)).
Proof.
  unfold resize_production_compositor. eapply runs_plain_bind; [apply runs_wlr_randr| |done]. intros _ _.
  eapply runs_plain_bind; [apply runs_wlr_randr| |done]. intros q _.
  destruct (wlr_randr_reports_current_mode _ _ _); [by apply runs_ret | by apply runs_fail].
Qed.

Lemma runs_shutdown : runs shutdown_portal (fun r n f s _ => exists ok : bool, r = Ok ok /\
  n = (if ok then -1 else 0) /\ f = false /\ s = [Closed ok]).
Proof.
  unfold shutdown_portal. eapply runs_plain_bind; [apply runs_ask| |by intros e w [? ?]]. intros ok _.
  eapply (runs_bind _ _ (fun r n f s _ => r = Ok tt /\ n = (if ok then -1 else 0) /\ f = false /\ s = []));
    [|..|by intros ? ? ? ? ? (? & _)|by intros ? ? ? ? (? & _)].
  - destruct ok; [apply runs_count | by apply runs_ret].
  - intros [] n f s w (_ & -> & -> & ->).
    eapply runs_bind; [by apply runs_act| |by intros ? ? ? ? ? (? & _)|by intros ? ? ? ? (? & _)].
    intros [] n' f' s' w' (_ & -> & -> & ->). apply runs_ret. intros w''. exists ok. split_and!; try done. lia.
Qed.

(** The builder ends with one portal open, or with none; a portal it could not close
    is a fatal error. *)
Lemma runs_build socket t : runs (build_production_portal_generic_connection socket t) (fun r n f s _ =>
  (r = Ok tt /\ n = 1 /\ f = false /\ s = [Opened]) \/
  (is_ok r = false /\ r <> Panic /\ n = 0 /\ f = false /\ (s = [] \/ s = [Opened; Closed true])) \/
  (r = Err PortalShutdownFailed /\ n = 1 /\ f = true /\ s = [Opened; Closed false])).
Proof.
  unfold build_production_portal_generic_connection.
  eapply runs_plain_bind; [apply runs_ask| |by intros ? ? [? ?]]. intros settings _.
  eapply (runs_plain_bind _ _ (fun _ => True)); [destruct settings; [by apply runs_ret|by apply runs_fail]
    |intros [] _|intros e w _; right; left; split_and!; [done..|by left]].
  eapply runs_plain_bind; [apply runs_ask| |by intros ? ? [? ?]]. intros safe [i [= ->]].
  eapply runs_plain_bind; [apply runs_of_error, validate_total|intros [] _|intros e w _; right; left; split_and!; [done..|by left]].
  eapply runs_plain_bind; [apply runs_ask| |by intros ? ? [? ?]]. intros created _.
  destruct created; cbn [negb]; [|apply runs_fail; intros; right; left; split_and!; [done..|by left]].
  eapply runs_bind; [apply runs_count| |by intros ? ? ? ? ? (? & _)|by intros ? ? ? ? (? & _)].
  intros [] n f s w (_ & -> & -> & ->).
  eapply runs_bind; [by apply runs_act| |by intros ? ? ? ? ? (? & _)|by intros ? ? ? ? (? & _)].
  intros [] n f s w1 (_ & -> & -> & ->).
  eapply runs_bind; [apply runs_ask| |by intros ? ? ? ? ? (_ & _ & _ & _ & ? & ?)|by intros ? ? ? ? (_ & _ & _ & _ & ? & ?)].
  intros attached n f s w2 (-> & -> & -> & _).
  destruct attached; [apply runs_ret; intros; by left|].
  eapply runs_bind; [apply runs_shutdown| |by intros ? ? ? ? ? (? & ? & _)|by intros ? ? ? ? (? & ? & _)].
  intros ok n f s w3 (ok' & [= <-] & -> & -> & ->). destruct ok.
  - apply runs_fail. intros w4. right. left. split_and!; try done. by right.
  - eapply runs_bind; [apply runs_fatal| |by intros ? ? ? ? ? (? & _)|by intros ? ? ? ? (? & _)].
    intros [] n f s w4 (_ & -> & -> & ->). apply runs_fail. intros w5. by right; right.
Qed.

(** The registry holds one client of the account. *)
Definition registered (user : str) (w : World) : Prop := exists i config s,
  for_user daemon_environ (os i) user = Ok config /\ registry_of config w = Some (to_json s) /\ active_clients s = 1.

Lemma bind_registers config w st w' : bind_single_client config w = (Ok st, w') ->
  exists s, registry_of config w' = Some (to_json s) /\ active_clients s = 1.
Proof.
  intros E. pose proof (client_accounted config SesSignal.Bind w (or_introl eq_refl)) as Ha. cbv zeta in Ha.
  assert (run_operation config SesSignal.Bind w = (Ok tt, w')) as Er by (cbn [run_operation]; unfold bind; by rewrite E).
  rewrite Er in Ha. cbn [fst snd is_ok] in Ha.
  destruct Ha as [(s & s' & _ & (t & ->) & Hr)|(_ & [?|[? _]])]; [by eexists | done | done].
Qed.

Lemma runs_record u reused : runs (record_client u reused) (fun r n f s w =>
  (r = Ok tt /\ n = 0 /\ f = false /\ s = [Did CallBind u Done] /\ registered u w) \/
  (is_ok r = false /\ r <> Panic /\ n = -1 /\ f = false /\
     exists a, s = [Did CallBind u Failed; Closed true; Did (undo reused) u a]) \/
  (r = Err PortalShutdownFailed /\ n = 0 /\ f = true /\ s = [Did CallBind u Failed; Closed false])).
Proof.
  intros d. destruct (runs_blocking u _ _ _ runs_as_bind d) as (n & f & s & E & (o & Hr & Hp & -> & -> & -> & Ho)).
  destruct (blocking u CallBind (fun _ => Done) (fun c => bind_single_client c) d) as [r0 d1] eqn:Eb. cbn [fst snd] in *. subst r0.
  assert (record_client u reused d = (match o with
    | Ok _ => dret tt
    | r => let* closed := shutdown_portal in
           if closed : bool then do* rollback_ensured_production_session u reused in do* try r in dret tt
           else do* set_fatal true in dfail PortalShutdownFailed
    end) d1) as -> by (unfold record_client; unfold dbind at 1; by rewrite Eb).
  assert (is_ok o = false -> runs (A := unit)
    (let* closed := shutdown_portal in
     if closed : bool then do* rollback_ensured_production_session u reused in do* try o in dret tt
     else do* set_fatal true in dfail PortalShutdownFailed)
    (fun r n f s w => (is_ok r = false /\ r <> Panic /\ n = -1 /\ f = false /\
       exists a, s = [Closed true; Did (undo reused) u a]) \/
     (r = Err PortalShutdownFailed /\ n = 0 /\ f = true /\ s = [Closed false]))) as Hf.
  { intros Ho'. eapply runs_bind; [apply runs_shutdown| |by intros ? ? ? ? ? (? & ? & _)|by intros ? ? ? ? (? & ? & _)].
    intros ok n f s w1 (ok' & [= <-] & -> & -> & ->). destruct ok.
    - eapply runs_bind; [apply runs_rollback| |by intros ? ? ? ? ? (? & ? & _)|by intros ? ? ? ? (? & ? & _)].
      intros [] n f s w2 (b & _ & -> & -> & ->).
      destruct o as [a|e|]; [done| |done]. cbn [try of_error].
      assert (runs (A := unit) (do* dfail (A := SessionStatus) e in dret tt) (fun r n f s _ => r = Err e /\ n = 0 /\ f = false /\ s = [])) as He.
      { intros d2. exists 0, false, []. split; [apply effect_refl|done]. }
      eapply runs_weaken; [exact He|]. intros r n f s w3 (-> & -> & -> & ->). left. split_and!; try done. by exists b.
    - eapply runs_bind; [apply runs_fatal| |by intros ? ? ? ? ? (? & _)|by intros ? ? ? ? (? & _)].
      intros [] n f s w4 (_ & -> & -> & ->). apply runs_fail. intros w5. by right. }
  destruct o as [a|e|]; [|destruct (Hf eq_refl d1) as (n & f & s & E' & Q)|done].
  - exists 0, false, [Did CallBind u Done]. split; [exact E|]. left. split_and!; try done.
    destruct (Ho a eq_refl) as (i & config & w0 & Hu & Hb). apply bind_registers in Hb as (st & ? & ?). by exists i, config, st.
  - exists (0 + n), (false || f), ([Did CallBind u Failed] ++ s). split; [by eapply effect_trans|].
    destruct Q as [(? & ? & -> & -> & a & ->)|(-> & -> & -> & ->)].
    + right. left. split_and!; try done. by exists a.
    + by right; right.
Qed.

(** A value returned after a computation, in the world it ended in. *)
Lemma runs_returning {A B} (m : D A) (b : B) (Q : post A) (Q' : post B) : runs m Q ->
  (forall a n f s w, Q (Ok a) n f s w -> Q' (Ok b) n f s w) -> (forall e n f s w, Q (Err e) n f s w -> Q' (Err e) n f s w) ->
  (forall n f s w, ~ Q Panic n f s w) -> runs (do* m in dret b) Q'.
Proof.
  intros Hm Hk He Hp d. destruct (Hm d) as (n & f & s & E & P). exists n, f, s. unfold dbind.
  destruct (m d) as [[a|e|] d1]; cbn [fst snd dret] in *; [eauto..|by apply Hp in P].
Qed.

(** How an admission can go: whether the client may try at all, whether it is
    admitted, whether a fatal error is latched, the portals left open, and what was
    done for it.  A session that the
    session manager had before is unbound when the admission fails, and one it has
    just made is stopped. *)
Inductive admission (user : str) (size : Z * Z) : bool -> bool -> bool -> Z -> list Deed -> Prop :=
| refused : admission user size false false false 0 []
| not_ensured : admission user size true false false 0 [Did (CallEnsure size) user Failed]
| undone_early reused a : admission user size true false false 0
    [Did (CallEnsure size) user (Ensured reused); Did (undo reused) user a]
| undone reused a : admission user size true false false 0
    [Did (CallEnsure size) user (Ensured reused); Opened; Closed true; Did (undo reused) user a]
| undone_late reused a : admission user size true false false 0
    [Did (CallEnsure size) user (Ensured reused); Opened; Did CallBind user Failed; Closed true; Did (undo reused) user a]
| stuck reused a : admission user size true false true 1
    [Did (CallEnsure size) user (Ensured reused); Opened; Closed false; Did (undo reused) user a]
| stuck_late reused : admission user size true false true 1
    [Did (CallEnsure size) user (Ensured reused); Opened; Did CallBind user Failed; Closed false]
| admitted reused : admission user size true true false 1
    [Did (CallEnsure size) user (Ensured reused); Opened; Did CallBind user Done].

(** The size the policy grants the client; without one it is turned away. *)
Definition granted_size (config : DisplayConfig) (desktop_size : Z * Z) : Z * Z :=
  match validate_geometry_policy config desktop_size (Some PRODUCTION_DEFAULT_DESKTOP_SIZE) with Ok size => size | _ => (0, 0) end.
Definition may_try (config : DisplayConfig) (desktop_size : Z * Z) (d : Daemon) : bool :=
  cancel_generation d && is_ok (validate_geometry_policy config desktop_size (Some PRODUCTION_DEFAULT_DESKTOP_SIZE)).

(** Reading a field of the daemon. *)
Lemma runs_get {A B} (g : Daemon -> A) (k : A -> D B) (Q : post B) : (forall a, runs (k a) Q) ->
  runs (let* x := (fun d => (Ok (g d), d)) in k x) Q.
Proof. intros Hk d. exact (Hk (g d) d). Qed.

Definition admits (user : str) (size : Z * Z) (tried : bool) : post (str * str) := fun r n f s w =>
  r <> Panic /\ admission user size tried (is_ok r) f n s /\ forall b, r = Ok b -> b.1 = user /\ registered user w.

Lemma admits_err u size t e f n s w : admission u size t false f n s -> admits u size t (Err e) n f s w.
Proof. by split. Qed.

(** A step after [ensure] that does nothing significant: it goes on, or the session
    is rolled back. *)
Lemma admits_step {A} u size reused (m : D A) (k : A -> D (str * str)) Q : runs m (plain Q) ->
  (forall a, runs (k a) (fun r n f s w => admits u size true r n f ([Did (CallEnsure size) u (Ensured reused)] ++ s) w)) ->
  runs (dbind (or_rollback u reused m) k) (fun r n f s w => admits u size true r n f ([Did (CallEnsure size) u (Ensured reused)] ++ s) w).
Proof.
  intros Hm Hk. eapply runs_bind; [apply runs_or_rollback; [exact Hm|]| | |].
  - by intros n f s w (_ & _ & _ & ? & _).
  - intros a n f s w (-> & -> & -> & _ & _). apply Hk.
  - intros e n f s w (s' & a & w' & (-> & -> & -> & _ & _) & ->). apply admits_err, undone_early.
  - intros n f s w [].
Qed.

(** A client that may not try leaves no trace. *)
Lemma admit_refused config name size d : may_try config size d = false -> exists e, admit_client config name size d = (Err e, d).
Proof.
  unfold may_try, admit_client, dbind. intros E. destruct (cancel_generation d); [|by eexists]. cbn in E |- *.
  pose proof (geometry_total config size (Some PRODUCTION_DEFAULT_DESKTOP_SIZE)).
  destruct (validate_geometry_policy _ _ _); [done|by eexists|done].
Qed.

(** The admission of a client that may try. *)
Definition admit_rest (name : str) (size : Z * Z) : D (str * str) :=
  let user := normalize_local_account_name name in
  let* ensured := blocking user (CallEnsure size) (fun e => Ensured (reused_existing e)) (fun c => ensure c
    (mkOptions false (Some (mkSize size.1 size.2)) None false)) in
  let* ensured := try ensured in
  let reused := reused_existing ensured in
  let* runtime_dir := or_rollback user reused
    (of_error (fun e => e) (ok_or NoPersistedState (st_xdg_runtime_dir <$> state (ensured_status ensured)))) in
  let socket := path_join runtime_dir MANAGED_WAYLAND_SOCKET in
  let* target := or_rollback user reused
    (let* r := ask (fun i => resolve_target_user_identity (passwd_entry i user) (id_groups_output i user)) in
     of_error IdentityUnresolved r) in
  do* or_rollback user reused (resize_production_compositor socket size target) in
  do* or_rollback user reused (build_production_portal_generic_connection socket target) in
  do* record_client user reused in
  dret (user, runtime_dir).

Lemma admit_tries config name size d : may_try config size d = true ->
  admit_client config name size d = admit_rest name (granted_size config size) d.
Proof.
  unfold may_try, granted_size. intros [E1 E2]%andb_prop. unfold admit_client. unfold dbind at 1. rewrite E1.
  change ((do* dret tt in ?k) d) with (k d). unfold dbind at 1. cbn [dret].
  destruct (validate_geometry_policy config size _) as [sz|e|]; [|done..]. reflexivity.
Qed.

Lemma runs_admit_rest name sz : runs (admit_rest name sz) (admits (normalize_local_account_name name) sz true).
Proof.
  set (u := normalize_local_account_name name). unfold admit_rest. fold u.
  eapply runs_bind; [apply runs_blocking, runs_as_ensure| |by intros ? ? ? ? ? (? & ? & _)|by intros ? ? ? ? (? & ? & _)].
  intros o n f s w (o' & [= <-] & Hp & -> & -> & -> & _).
  destruct o as [ens|e|]; [|apply runs_fail; intros; apply admits_err, not_ensured|done].
  cbn [try of_error is_ok]. change (dbind (dret ens) ?k) with (k ens).
  eapply admits_step; [apply runs_of_error; by destruct (st_xdg_runtime_dir <$> _)|]. intros dir.
  eapply (admits_step _ _ _ _ _ (fun _ => True)).
  { eapply runs_plain_bind; [apply runs_ask| |by intros ? ? [? ?]]. intros r [i [= ->]]. apply runs_of_error, resolve_total. }
  intros t. eapply admits_step; [apply runs_resize|]. intros [].
  eapply runs_bind; [apply runs_or_rollback; [apply runs_build|]| | |].
  - by intros n f s w1 [(? & _)|[(_ & ? & _)|(? & _)]].
  - intros [] n f s w1 [(_ & -> & -> & ->)|[(? & _)|(? & _)]]; [|done..].
    eapply runs_returning; [apply runs_record| | |].
    + intros [] n f s w2 [(_ & -> & -> & -> & Hr)|[(? & _)|(? & _)]]; [|done..].
      split; [done|]. split; [apply admitted|]. by intros b [= <-].
    + intros e n f s w2 [(? & _)|[(_ & _ & -> & -> & a & ->)|(_ & -> & -> & ->)]]; [done|..].
      * apply admits_err, undone_late.
      * apply admits_err, stuck_late.
    + by intros n f s w2 [(? & _)|[(_ & ? & _)|(? & _)]].
  - intros e n f s w1 (s' & a & w' & [(? & _)|[(_ & _ & -> & -> & [-> | ->])|(_ & -> & -> & ->)]] & ->); [done|..].
    + apply admits_err, undone_early.
    + apply admits_err, undone.
    + apply admits_err, stuck.
  - intros n f s w1 [].
Qed.

(** The admission, with the slots it sets. *)
Lemma admission_outcome config name size d : let u := normalize_local_account_name name in
  let '(r, d') := bind_connection config name size d in
  exists fatal n s l, admission u (granted_size config size) (may_try config size d) (is_ok r) fatal n s /\ r <> Panic /\
    acts d' = acts d ++ l /\ shape l = s /\ history (world d) l (world d') /\ open_portals d' = open_portals d + n /\
    fatal_shutdown_error d' = fatal_shutdown_error d || fatal /\ cancel_generation d' = cancel_generation d /\
    if is_ok r then active_bound_user d' = Some u /\ active_connection d' = true /\ registered u (world d')
    else active_bound_user d' = active_bound_user d /\ active_connection d' = active_connection d /\ audio_target d' = audio_target d.
Proof.
  cbv zeta. assert (exists n f s, effect n f s d (admit_client config name size d).2 /\
    admits (normalize_local_account_name name) (granted_size config size) (may_try config size d) (admit_client config name size d).1 n f s
      (world (admit_client config name size d).2)) as (n & f & s & E & Hp & Ha & Hb).
  { destruct (may_try config size d) eqn:Et.
    - rewrite (admit_tries _ _ _ _ Et). apply runs_admit_rest.
    - destruct (admit_refused config name size d Et) as [e ->]. exists 0, false, []. split; [apply effect_refl|]. apply admits_err, refused. }
  unfold bind_connection, dbind. destruct (admit_client config name size d) as [[b|e|] d1]; cbn [fst snd is_ok] in *; [| |done].
  - destruct (Hb b eq_refl) as [Hu Hr]. destruct E as [????? ? (l & ? & ? & ?)]. exists f, n, s, l. cbn. rewrite Hu. by split_and!.
  - destruct E as [????? ? (l & ? & ? & ?)]. exists f, n, s, l. by split_and!.
Qed.

(** C7. Admission is all or nothing.  A client may try when the connection is not
    cancelled and the policy grants it a size; it is admitted exactly when a session
    of that size was ensured, its portal was opened and its registration as the one
    client succeeded; then the connection's slots name the account of the
    credentials and the registry of that account holds one client.  Otherwise the
    slots are as they were, the session that was ensured has been handed back (one
    that the session manager reused is unbound, a new one stopped) and the portal
    opened for it closed, unless that closing failed, which latches the fatal error.
    Every call in the log is the session manager's own operation between the worlds
    logged for it, and nothing between the calls touches the registry. *)
Theorem admission_all_or_nothing config name size d : let u := normalize_local_account_name name in
  let '(r, d') := bind_connection config name size d in
  exists fatal n s l, admission u (granted_size config size) (may_try config size d) (is_ok r) fatal n s /\ r <> Panic /\
    acts d' = acts d ++ l /\ shape l = s /\ history (world d) l (world d') /\ open_portals d' = open_portals d + n /\
    fatal_shutdown_error d' = fatal_shutdown_error d || fatal /\ cancel_generation d' = cancel_generation d /\
    if is_ok r then active_bound_user d' = Some u /\ active_connection d' = true /\ registered u (world d')
    else active_bound_user d' = active_bound_user d /\ active_connection d' = active_connection d /\ audio_target d' = audio_target d.
Proof. apply admission_outcome. Qed.

(** ** The loop over connections *)

(** Nothing of an earlier connection is left. *)
Definition clean (d : Daemon) : Prop :=
  active_bound_user d = None /\ active_connection d = false /\ cancel_generation d = false /\
  fatal_shutdown_error d = false /\ audio_target d = None /\ open_portals d = 0.

Definition account (c : Incoming) : str := normalize_local_account_name (username c).

(** The connection ended before the binder was entered. *)
Definition never_entered (st : option Z) (c : Incoming) : Prop := exists f r f' rest,
  run_with_connection_timeouts (begun c) st f (polls c) = Ended r f' rest /\
  admissions (take (length (polls c) - length rest) (polls c)) = [].

(** What one connection of a client does, and whether the daemon goes on: [tried]
    says whether the policy grants the client a desktop size. *)
Inductive visit (config : DisplayConfig) (st : option Z) (c : Incoming) : bool -> list Deed -> Prop :=
| not_entered : never_entered st c -> visit config st c true []
| turned_away tried s : tried = is_ok (validate_geometry_policy config (desktop_size c) (Some PRODUCTION_DEFAULT_DESKTOP_SIZE)) ->
    admission (account c) (granted_size config (desktop_size c)) tried false false 0 s -> visit config st c true s
| turned_away_stuck s : admission (account c) (granted_size config (desktop_size c)) true false true 1 s -> visit config st c false s
| visited reused a : visit config st c true
    [Did (CallEnsure (granted_size config (desktop_size c))) (account c) (Ensured reused); Opened; Did CallBind (account c) Done;
     Closed true; Did CallDisconnect (account c) a]
| visited_stuck reused : visit config st c false
    [Did (CallEnsure (granted_size config (desktop_size c))) (account c) (Ensured reused); Opened; Did CallBind (account c) Done;
     Closed false].

(** The protocol library enters the binder at most once in a connection and waits
    for it before the connection ends; and the connection ends. *)
Record well_formed (session_timeout : option Z) (c : Incoming) : Prop := mkWellFormed {
  binds_once : once (admissions (polls c));
  waits_for_binder : forall pre p post, polls c = pre ++ p :: post -> ready p <> None -> admissions (pre ++ [p]) <> [Enter];
  ends : forall f, ended (run_with_connection_timeouts (begun c) session_timeout f (polls c));
}.

Lemma drive_result {R} (t : Z) st (ps : list (Poll R)) : forall m f r f' rest, drive t st ps m f = Ended (inl r) f' rest ->
  exists pre p, ps = pre ++ p :: rest /\ ready p = Some r.
Proof.
  induction ps as [|p ps IH]; intros m f r f' rest; cbn [drive]; [done|].
  assert (forall m f, drive t st ps m f = Ended (inl r) f' rest -> exists pre q, p :: ps = pre ++ q :: rest /\ ready q = Some r) as Hi.
  { intros m' g (pre & q & -> & ?)%IH. by exists (p :: pre), q. }
  destruct m as [c|a s pe to].
  - intros [= H1 _ H2]. destruct (ready p) as [r'|] eqn:E; [|done]. injection H1 as ->. subst rest. by exists [], p.
  - destruct (poll_select p (notice p f) a s pe to) as [[r'|pe'|] g] eqn:E; [| |apply Hi].
    + intros [= -> _ <-]. exists [], p. split; [done|]. unfold poll_select in E.
      destruct (ready p) as [r'|]; [by simplify_eq|]. unfold cancel in E. exfalso. by repeat case_match; simplify_eq.
    + destruct (loop_top t st pe' g); [apply Hi|done..].
Qed.

(** The binder was not entered, or has returned. *)
Lemma ended_admissions st c f r f' rest : well_formed st c ->
  run_with_connection_timeouts (begun c) st f (polls c) = Ended r f' rest ->
  let used := take (length (polls c) - length rest) (polls c) in admissions used = [] \/ admissions used = [Enter; Leave].
Proof.
  intros [Ho Hw _] E. cbv zeta.
  assert (exists used, polls c = used ++ rest /\ admissions used <> [Enter]) as (used & Hu & Hne).
  { pose proof (run_told (begun c) st f (polls c) Ho) as T. rewrite E in T. destruct T as (used & Hu & T).
    destruct r as [r|x]; [|by destruct T; exists used].
    unfold run_with_connection_timeouts in E. destruct (loop_top _ _ _ _) as [m| |]; [|done..].
    apply drive_result in E as (pre & p & Hp & Hr). exists (pre ++ [p]).
    rewrite <- app_assoc. split; [done|]. eapply Hw; [exact Hp|by rewrite Hr]. }
  rewrite Hu, length_app. replace (length used + length rest - length rest)%nat with (length used) by lia.
  rewrite take_app_length. rewrite Hu in Ho. unfold admissions in Ho. rewrite map_app, concat_app in Ho.
  by destruct (once_prefix _ _ Ho) as [?|[?|?]]; [left|destruct Hne|right].
Qed.

Lemma runs_record_disconnect u : runs (record_production_disconnect u) (fun r n f s _ =>
  exists a, r = Ok tt /\ n = 0 /\ f = false /\ s = [Did CallDisconnect u a]).
Proof.
  unfold record_production_disconnect.
  eapply runs_bind; [apply runs_blocking, runs_as_disconnect| |by intros ? ? ? ? ? (? & ? & _)|by intros ? ? ? ? (? & ? & _)].
  intros o n f s w (o' & [= <-] & Hp & -> & -> & -> & _).
  assert (runs (match o with Ok (stopped, t) => if stopped then dret tt else schedule_cleanup u t | _ => dret tt end)
    (plain (fun r => r = Ok tt))) as Hr.
  { destruct o as [[[] t]|e|]; [by apply runs_ret | apply runs_schedule | by apply runs_ret..]. }
  eapply runs_weaken; [exact Hr|]. intros r n f s w' (-> & -> & -> & _ & ->). by eexists.
Qed.

(** From one daemon to the other the log grew by [s], which its worlds bear out. *)
Definition grew (d : Daemon) (s : list Deed) (d' : Daemon) : Prop :=
  exists l, acts d' = acts d ++ l /\ shape l = s /\ history (world d) l (world d').

Lemma grew_refl d d' : acts d' = acts d -> files (world d') = files (world d) -> grew d [] d'.
Proof. intros E F. exists []. rewrite app_nil_r. split_and!; [done..|by apply history_end]. Qed.
Lemma grew_trans d s d1 s' d' : grew d s d1 -> grew d1 s' d' -> grew d (s ++ s') d'.
Proof.
  intros (l & E & <- & H) (l' & E' & <- & H'). exists (l ++ l'). rewrite shape_app, E', E, app_assoc.
  split_and!; [done..|by eapply history_app].
Qed.
Lemma grew_from d0 d s d' : acts d = acts d0 -> files (world d) = files (world d0) -> grew d s d' -> grew d0 s d'.
Proof. intros E F H. by apply (grew_trans d0 [] d s d' (grew_refl _ _ E F)). Qed.

(** The clean-up after a connection that latched a fatal error, after one that was
    not admitted, and after one that was. *)
Lemma clean_up_fatal d : fatal_shutdown_error d = true -> (clean_up d).1 = Err FatalShutdown /\
  grew d [] (clean_up d).2 /\ open_portals (clean_up d).2 = open_portals d.
Proof. intros E. unfold clean_up, dbind, set_cancel, upd. cbn. rewrite E. split_and!; [done|by apply grew_refl|done]. Qed.

Lemma clean_up_idle d : fatal_shutdown_error d = false -> active_connection d = false -> active_bound_user d = None ->
  open_portals d = 0 -> (clean_up d).1 = Ok tt /\ grew d [] (clean_up d).2 /\ clean (clean_up d).2.
Proof.
  intros E1 E2 E3 E4. unfold clean_up, dbind, set_cancel, upd. cbn. rewrite E1. cbn. rewrite E2. cbn. rewrite E3.
  split_and!; [done|by apply grew_refl|]. by split_and!.
Qed.

Lemma clean_up_admitted d u : fatal_shutdown_error d = false -> active_connection d = true -> active_bound_user d = Some u ->
  open_portals d = 1 ->
  ((clean_up d).1 = Err PortalShutdownFailed /\ grew d [Closed false] (clean_up d).2 /\ open_portals (clean_up d).2 = 1) \/
  ((clean_up d).1 = Ok tt /\ clean (clean_up d).2 /\ exists a, grew d [Closed true; Did CallDisconnect u a] (clean_up d).2).
Proof.
  intros E1 E2 E3 E4.
  set (d2 := mkDaemon (Some u) false false false (audio_target d) 1 (acts d) (world d)).
  destruct (runs_shutdown d2) as (n & f & s & E & (ok & Hr & -> & -> & ->)).
  destruct (shutdown_portal d2) as [r d3] eqn:Es. cbn [fst snd] in *. subst r. destruct E as [B1 B2 B3 B4 B5 B6 B7].
  change (grew d [Closed ok] d3) in B7. cbn in B1, B2, B3, B4, B5, B6.
  set (d4 := mkDaemon None false false false None (open_portals d3) (acts d3) (world d3)).
  assert (clean_up d = if ok then record_production_disconnect u d4 else (Err PortalShutdownFailed, d3)) as ->.
  { unfold clean_up, shutdown_resources. set (rp := record_production_disconnect). set (sp := shutdown_portal) in *. clearbody rp sp.
    unfold dbind, set_cancel, set_bound, upd. cbn. rewrite E1. cbn. rewrite E2. cbn.
    replace (mkDaemon _ _ _ _ _ _ _ _) with d2 by by unfold d2; rewrite E3, E4.
    rewrite Es. destruct ok; [|done]. cbn. rewrite B1. cbn. unfold d4. by rewrite B2, B3, B5. }
  destruct ok; [right|left].
  - destruct (runs_record_disconnect u d4) as (n & f & s & [C1 C2 C3 C4 C5 C6 C7] & (a & Hr & -> & -> & ->)).
    cbn in C1, C2, C3, C4, C5, C6. change (grew d3 [Did CallDisconnect u a] (record_production_disconnect u d4).2) in C7.
    split; [done|]. split; [split_and!; congruence || lia|]. exists a.
    exact (grew_trans _ _ _ _ _ B7 C7).
  - cbn [fst snd]. split_and!; [done|done|lia].
Qed.

Definition one_connection (config : DisplayConfig) (st : option Z) (f : Flags) (c : Incoming) : D (option Flags) :=
  let* r := run_connection config st f c in
  match r with None => dret None | Some f => do* clean_up in dret (Some f) end.

Lemma stuck_admission u sz tried ok n s : admission u sz tried ok true n s -> tried = true /\ ok = false /\ n = 1.
Proof. by inversion 1. Qed.
Lemma admitted_admission u sz tried n s : admission u sz tried true false n s ->
  n = 1 /\ exists reused, s = [Did (CallEnsure sz) u (Ensured reused); Opened; Did CallBind u Done].
Proof. inversion 1; subst. eauto. Qed.
Lemma refused_admission u sz tried n s : admission u sz tried false false n s -> n = 0.
Proof. by inversion 1. Qed.

Lemma one_connection_visit config st f c d : clean d -> well_formed st c ->
  let '(r, d') := one_connection config st f c d in
  exists go s, visit config st c go s /\ grew d s d' /\
    if go : bool then (exists f', r = Ok (Some f')) /\ clean d'
    else (r = Err FatalShutdown \/ r = Err PortalShutdownFailed) /\ open_portals d' = 1.
Proof.
  intros (K1 & K2 & K3 & K4 & K5 & K6) Hw. cbv zeta.
  set (d0 := mkDaemon (active_bound_user d) (active_connection d) true (fatal_shutdown_error d) (audio_target d) (open_portals d) (acts d) (world d)).
  pose proof (ends _ _ Hw f) as He. pose proof (ended_admissions st c f) as Ha.
  destruct (run_with_connection_timeouts (begun c) st f (polls c)) as [|r f' rest|] eqn:Er; [done| |done].
  specialize (Ha _ _ _ Hw eq_refl). cbv zeta in Ha.
  set (d1 := if bool_decide (admissions (take (length (polls c) - length rest) (polls c)) = []) then d0
             else (bind_connection config (username c) (desktop_size c) d0).2).
  assert (one_connection config st f c d = (do* clean_up in dret (Some f')) d1) as ->.
  { unfold one_connection, run_connection. rewrite Er. unfold dbind, set_cancel, upd. cbn [fst snd]. fold d0.
    unfold d1. destruct Ha as [-> | ->]; done. }
  assert (forall k, (do* clean_up in dret (Some f')) d1 = k -> k = match clean_up d1 with (Ok _, d) => (Ok (Some f'), d) | (Err e, d) => (Err e, d) | (Panic, d) => (Panic, d) end) as Hk by by intros k <-.
  rewrite (Hk _ eq_refl). clear Hk. unfold d1. clear d1.
  case_bool_decide as Hn.
  - destruct (clean_up_idle d0) as (H1 & H2 & H3); [done..|]. destruct (clean_up d0) as [r0 d2]. cbn [fst snd] in *. subst r0.
    exists true, []. split; [apply not_entered; by exists f, r, f', rest|]. split; [exact H2|]. split; [by eexists|done].
  - pose proof (admission_outcome config (username c) (desktop_size c) d0) as Ho. cbv zeta in Ho.
    destruct (bind_connection config (username c) (desktop_size c) d0) as [rb d1]. cbn [snd].
    destruct Ho as (fatal & n & s & l & Had & _ & Hl & Hs & Hh & Hp & Hf & _ & Hb). cbn in Hl, Hh, Hp, Hf. rewrite K4 in Hf. rewrite K6 in Hp. cbn in Hf.
    assert (grew d s d1) as Hg by by exists l.
    change (may_try config (desktop_size c) d0) with (is_ok (validate_geometry_policy config (desktop_size c) (Some PRODUCTION_DEFAULT_DESKTOP_SIZE))) in Had.
    change (normalize_local_account_name (username c)) with (account c) in *.
    destruct fatal.
    + destruct (clean_up_fatal d1 Hf) as (H1 & H2 & H3). destruct (clean_up d1) as [r0 d2]. cbn [fst snd] in *. subst r0.
      destruct (stuck_admission _ _ _ _ _ _ Had) as (Ht & Hok & ->). rewrite Ht, Hok in Had.
      exists false, s. split; [by apply turned_away_stuck|]. split; [rewrite <- (app_nil_r s); by eapply grew_trans|]. split; [by left|]. by rewrite H3.
    + destruct (is_ok rb) eqn:Hok.
      * destruct (admitted_admission _ _ _ _ _ Had) as [-> [reused ->]].
        destruct Hb as (B1 & B2 & _).
        destruct (clean_up_admitted d1 _ Hf B2 B1 Hp) as [(H1 & H2 & H3)|(H1 & H2 & a & H3)];
          destruct (clean_up d1) as [r0 d2]; cbn [fst snd] in *; subst r0.
        -- exists false. eexists. split; [apply (visited_stuck _ _ _ reused)|]. split; [exact (grew_trans _ _ _ _ _ Hg H2)|]. split; [by right|done].
        -- exists true. eexists. split; [apply (visited _ _ _ reused a)|]. split; [exact (grew_trans _ _ _ _ _ Hg H3)|]. split; [by eexists|done].
      * pose proof (refused_admission _ _ _ _ _ Had) as ->. destruct Hb as (B1 & B2 & B3). cbn in B1, B2, B3.
        destruct (clean_up_idle d1) as (H1 & H2 & H3); [done|congruence..|done|].
        destruct (clean_up d1) as [r0 d2]. cbn [fst snd] in *. subst r0.
        exists true, s. split; [eapply turned_away; [done|exact Had]|]. split; [rewrite <- (app_nil_r s); by eapply grew_trans|]. split; [by eexists|done].
Qed.

Lemma serve_cons config st f n c accepts d : serve config st f n (inl c :: accepts) d =
  match one_connection config st f c d with
  | (Ok (Some f), d) => serve config st f 0 accepts d
  | (Ok None, d) => (Ok tt, d)
  | (Err e, d) => (Err e, d)
  | (Panic, d) => (Panic, d)
  end.
Proof.
  unfold one_connection. cbn [serve]. unfold dbind. destruct (run_connection config st f c d) as [[[f'|]|e|] d1]; [|done..].
  by destruct (clean_up d1) as [[[]|e|] d2].
Qed.

(** The clients among the results of [accept]; and results whose errors are all
    recoverable. *)
Definition clients (accepts : list (Incoming + io_error)) : list Incoming :=
  omap (fun a => match a with inl c => Some c | inr _ => None end) accepts.
Definition retried (accepts : list (Incoming + io_error)) : Prop :=
  Forall (fun a => match a with inl _ => True | inr e => is_recoverable_accept_error e = true end) accepts.

(** How the daemon's loop may end: it still waits for a client; the listener failed;
    or a portal session could not be shut down. *)
Inductive served (config : DisplayConfig) (st : option Z) (accepts : list (Incoming + io_error)) :
  outcome BindError unit -> Daemon -> list (list Deed) -> Prop :=
| waiting d ss : clean d -> retried accepts -> Forall2 (fun c s => visit config st c true s) (clients accepts) ss ->
    served config st accepts (Ok tt) d ss
| listener_failed e before after d ss : accepts = before ++ inr e :: after -> retried before ->
    is_recoverable_accept_error e = false -> clean d -> Forall2 (fun c s => visit config st c true s) (clients before) ss ->
    served config st accepts (Err (AcceptFailed e)) d ss
| portal_stuck r before c after d ss s : accepts = before ++ inl c :: after -> retried before ->
    r = Err FatalShutdown \/ r = Err PortalShutdownFailed -> open_portals d = 1 ->
    Forall2 (fun c s => visit config st c true s) (clients before) ss -> visit config st c false s ->
    served config st accepts r d (ss ++ [s]).

Lemma served_error config st e accepts r d ss : is_recoverable_accept_error e = true ->
  served config st accepts r d ss -> served config st (inr e :: accepts) r d ss.
Proof.
  intros He [d' ss' ? ? ?|e' before after d' ss' -> ? ? ? ?|r' before c after d' ss' s -> ? ? ? ? ?].
  - apply waiting; [done|by constructor|done].
  - by eapply (listener_failed _ _ _ _ (inr e :: before)); [done|constructor|..].
  - by eapply (portal_stuck _ _ _ _ (inr e :: before)); [done|constructor|..].
Qed.

Lemma served_client config st c s accepts r d ss : visit config st c true s ->
  served config st accepts r d ss -> served config st (inl c :: accepts) r d (s :: ss).
Proof.
  intros Hv [d' ss' ? ? ?|e' before after d' ss' -> ? ? ? ?|r' before c' after d' ss' s' -> ? ? ? ? ?].
  - apply waiting; [done|by constructor|by constructor].
  - by eapply (listener_failed _ _ _ _ (inl c :: before)); [done|constructor|..|constructor].
  - by eapply (portal_stuck _ _ _ _ (inl c :: before) _ _ _ (s :: ss')); [done|constructor|..|constructor|].
Qed.

(** C6. The daemon leaves nothing behind.  Over any sequence of accepted
    connections and accept errors, with whatever polls, cancellations, failures of
    the session manager and of the desktop: after each connection the slots are
    empty, no portal is open, and a client that was registered has been unbound,
    after its portal was closed, by the session manager's own unbind and idle
    clean-up, which are all that touches the registry, so that when the unbind
    succeeds the registry counts no client.  The daemon goes on after an accept
    error exactly when it is recoverable, and otherwise stops only after a portal
    session it could not shut down, which is then the only thing left. *)
Theorem connections_leave_nothing config st accepts : forall f n d, clean d -> Forall (well_formed st) (clients accepts) ->
  let '(r, d') := serve config st f n accepts d in
  exists ss, grew d (concat ss) d' /\ served config st accepts r d' ss.
Proof.
  induction accepts as [|[c|e] accepts IH]; intros f n d Hc Hw.
  - exists []. split; [by apply grew_refl|]. apply waiting; [done|constructor..].
  - apply Forall_cons in Hw as [Hw1 Hw2]. rewrite serve_cons.
    pose proof (one_connection_visit config st f c d Hc Hw1) as H1. cbv zeta in H1.
    destruct (one_connection config st f c d) as [r1 d1]. destruct H1 as (go & s & Hv & Hs & H1). destruct go.
    + destruct H1 as [[f' ->] Hc1]. specialize (IH f' 0 d1 Hc1 Hw2).
      destruct (serve config st f' 0 accepts d1) as [r d2]. destruct IH as (ss & Hss & IH).
      exists (s :: ss). split; [by eapply grew_trans|by apply served_client].
    + destruct H1 as [Hr Hp]. assert (served config st (inl c :: accepts) (match r1 with Ok _ => Ok tt | Err e => Err e | Panic => Panic end) d1 ([] ++ [s])) as H1.
      { eapply (portal_stuck _ _ _ _ []); [done|constructor|by destruct Hr as [-> | ->]; auto|done|constructor|done]. }
      destruct Hr as [-> | ->]; (exists [s]; split; [by rewrite concat_cons, app_nil_r|exact H1]).
  - cbn [serve]. destruct (is_recoverable_accept_error e) eqn:Ee.
    + set (d1 := mkDaemon (active_bound_user d) (active_connection d) (cancel_generation d) (fatal_shutdown_error d) (audio_target d)
        (open_portals d) (acts d ++ [Paused (accept_retry_delay (Z.min (n + 1) u32_max))]) (world d)).
      cbv zeta. change (dbind (act ?a) ?k d) with (k tt d1). cbv beta.
      specialize (IH f (Z.min (n + 1) u32_max) d1 Hc Hw). destruct (serve config st f _ accepts d1) as [r d2]. destruct IH as (ss & Hss & IH).
      exists ss. split; [|by apply served_error]. change (concat ss) with ([] ++ concat ss). eapply grew_trans; [|exact Hss].
      eexists. split; [done|]. split; [done|]. apply history_other; [done|by apply history_end].
    + exists []. split; [by apply grew_refl|]. eapply (listener_failed _ _ _ _ []); [done|constructor|done|done|constructor].
Qed.

(** A session manager call that finds the registry locked fails and leaves the
    registry as it is; after a connection this failure is only logged, so the
    registry keeps its one client. *)
Lemma busy_lock_keeps_client config w : faults (SesHost.step w) = false -> faults (S (SesHost.step w)) = true ->
  let '(r, w') := unbind_single_client config w in r = Err SessionLocked /\ files w' = files w.
Proof.
  intros F1 F2. unfold unbind_single_client, with_lock, bind, may_fail, bind, sys. cbn [fst snd].
  rewrite F1. unfold ret. cbn [SesHost.step SesHost.tick]. rewrite F2. done.
Qed.
End binder.

(** ** Instances *)

Definition sample_stat_at (p : str) : option Stat :=
  if eqs p (lit "/run/user/1000/wrdp/wayland-0") then Some (mkStat Socket 1000 448) else Some (mkStat Directory 1000 448).

(** A desktop on which everything works, or on which the display cannot be attached
    and the portal cannot be shut down. *)
Definition sample_desktop (works : bool) : Desktop := {|
  daemon_environ := mkEnviron None None None 0 (Some (lit "root"));
  headless_output := None;
  passwd_entry _ _ := Some (Some (1000, 1000));
  id_groups_output _ _ := Some (as_bytes (lit "1000 27"));
  symlink_stat _ := sample_stat_at;
  wlr_randr _ _ := Some (lit "  1920x1080 px, 60.000000 Hz (current)");
  portal_settings _ := true;
  portal_create _ := true;
  portal_attach _ := works;
  portal_shutdown _ := works;
|}.

Definition sample_serve (works : bool) := @serve chrono_9999 sample_json (sample_host 1000000) (sample_desktop works) (mkDisplay true []).
Definition sample_daemon : Daemon := mkDaemon None false false false None 0 [] empty_world.
Definition sample_connection : Incoming :=
  mkIncoming [mkPoll 0 false [] None; mkPoll 1 false [Enter] None; mkPoll 2 false [Leave] None; mkPoll 3 false [] (Some true)]
    (lit "CORP\alice") (1920, 1080) 0.
(** Two clients in turn, with a pause between them, and the listener's end. *)
Definition sample_accepts : list (Incoming + io_error) :=
  [inl sample_connection; inr (mkIoError TimedOut None); inl sample_connection; inr (mkIoError OtherKind None)].

Lemma sample_well_formed : well_formed None sample_connection.
Proof.
  split.
  - by right; right.
  - intros pre p post E Hr. do 4 (destruct pre as [|? pre]; [injection E as <- <-; try done; cbn; by intros [=]|injection E as <- E]).
    by destruct pre.
  - intros [[] [] [] [] []]; by vm_compute.
Qed.

(** Two clients in turn are served and leave nothing, and the daemon stops when its
    listener fails; where the display cannot be attached and the portal not be
    closed, it stops after the first. *)
Lemma connections_leave_nothing_witness :
  let '(r, d) := sample_serve true None no_flags 0 sample_accepts sample_daemon in
  let '(r', d') := sample_serve false None no_flags 0 sample_accepts sample_daemon in
  r = Err (AcceptFailed (mkIoError OtherKind None)) /\ clean d /\ length (shape (acts d)) = 10%nat /\
  r' = Err FatalShutdown /\ open_portals d' = 1.
Proof.
  assert (Forall (well_formed None) (clients sample_accepts)) as Hw.
  { constructor; [apply sample_well_formed|]. constructor; [apply sample_well_formed|constructor]. }
  assert (clean sample_daemon) as Hc by (split; [|split; [|split; [|split; [|split]]]]; reflexivity).
  pose proof (@connections_leave_nothing chrono_9999 sample_json (sample_host 1000000) (sample_desktop true)
    (mkDisplay true []) None sample_accepts no_flags 0 sample_daemon Hc Hw) as H1.
  pose proof (@connections_leave_nothing chrono_9999 sample_json (sample_host 1000000) (sample_desktop false)
    (mkDisplay true []) None sample_accepts no_flags 0 sample_daemon Hc Hw) as H2.
  unfold sample_serve.
  destruct (@serve _ _ _ (sample_desktop true) _ _ _ _ _ _) as [r d] eqn:E1.
  destruct (@serve _ _ _ (sample_desktop false) _ _ _ _ _ _) as [r' d'] eqn:E2.
  assert (r = Err (AcceptFailed (mkIoError OtherKind None)) /\ length (shape (acts d)) = 10%nat) as [Er El].
  { assert (forall p, p = (r, d) -> p.1 = Err (AcceptFailed (mkIoError OtherKind None)) /\ length (shape (acts p.2)) = 10%nat ->
      r = Err (AcceptFailed (mkIoError OtherKind None)) /\ length (shape (acts d)) = 10%nat) as Hp by (intros p ->; done).
    apply (Hp _ E1). vm_compute. split; reflexivity. }
  assert (r' = Err FatalShutdown) as Er'.
  { assert (forall p, p = (r', d') -> p.1 = Err FatalShutdown -> r' = Err FatalShutdown) as Hp by (intros p ->; done).
    apply (Hp _ E2). vm_compute. reflexivity. }
  destruct H1 as (ss & _ & H1). destruct H2 as (ss' & _ & H2).
  rewrite Er in H1. rewrite Er' in H2.
  split; [exact Er|]. split; [by inversion H1; destruct_or?|]. split; [exact El|]. split; [exact Er'|by inversion H2].
Defined.

Example socket_checks :
  validate_managed_wayland_socket sample_stat_at (lit "/run/user/1000/wrdp/wayland-0") 1000 = Ok tt /\
  validate_managed_wayland_socket sample_stat_at (lit "/run/user/1001/wrdp/wayland-0") 1000 = Err OutsideRuntimeBase /\
  is_ok (validate_managed_wayland_socket (fun p => if eqs p (lit "/run/user/1000/wrdp") then Some (mkStat Symlink 1000 448) else sample_stat_at p)
    (lit "/run/user/1000/wrdp/wayland-0") 1000) = false.
Proof. by vm_compute. Qed.
