(* ===== verification/PortalState.v ===== *)
(** * The desktop portal's sessions

    The data the portal's interfaces exchange (xdg_desktop/types.rs, error.rs),
    one session and its state machine (session/state.rs), and the manager that
    owns all of them (session/manager.rs).  Every reading of the system clock
    is an argument; D-Bus object paths are strings. *)
From S2P Require Import Prelude Text Float.

(** ** What the interfaces exchange *)

(** [xdg/types.rs:30-37 SourceType] *)
Inductive SourceType := Monitor | Window | Virtual.
#[export] Instance source_type_eq_dec : EqDecision SourceType.
Proof. solve_decision. Defined.

(** [xdg/types.rs:41-47 to_bits] *)
Definition source_to_bits (t : SourceType) : Z := match t with Monitor => 0x01 | Window => 0x02 | Virtual => 0x04 end.
(** [xdg/types.rs:50-62 from_bits] *)
Definition source_from_bits (bits : Z) : list SourceType :=
  (if Z.land bits 0x01 =? 0 then [] else [Monitor]) ++ (if Z.land bits 0x02 =? 0 then [] else [Window]) ++
  (if Z.land bits 0x04 =? 0 then [] else [Virtual]).

(** [xdg/types.rs:10-25 SourceInfo] *)
Record SourceInfo := mkSource { source_id : Z; source_name : str; description : str; source_width : Z; source_height : Z; refresh_rate : Z; source_type : SourceType }.
#[export] Instance source_info_eq_dec : EqDecision SourceInfo.
Proof. solve_decision. Defined.

(** The further properties are empty in every stream the program makes.
    [xdg/types.rs:67-85 StreamInfo] *)
Record StreamInfo := mkStream { node_id : Z; stream_source : Z; stream_position : Z * Z; stream_size : Z * Z; stream_type : SourceType; mapping_id : option str }.
#[export] Instance stream_info_eq_dec : EqDecision StreamInfo.
Proof. solve_decision. Defined.

(** [xdg/types.rs:92-103 StreamOutputMapping] *)
Record StreamOutputMapping := mkMapping { stream_node_id : Z; map_x : Z; map_y : Z; map_width : Z; map_height : Z }.

(** [xdg/types.rs:107-114 DeviceTypes] *)
Record DeviceTypes := mkDevices { keyboard : bool; pointer : bool; touchscreen : bool }.
#[export] Instance device_types_eq_dec : EqDecision DeviceTypes.
Proof. solve_decision. Defined.
Definition no_devices : DeviceTypes := mkDevices false false false.
(** [xdg/types.rs:118-124 all] *)
Definition devices_all : DeviceTypes := mkDevices true true true.
(** [xdg/types.rs:127-133 from_bits] *)
Definition devices_from_bits (bits : Z) : DeviceTypes :=
  mkDevices (negb (Z.land bits 0x01 =? 0)) (negb (Z.land bits 0x02 =? 0)) (negb (Z.land bits 0x04 =? 0)).
(** [xdg/types.rs:136-148 to_bits] *)
Definition devices_to_bits (d : DeviceTypes) : Z :=
  let bits := if keyboard d then Z.lor 0 0x01 else 0 in
  let bits := if pointer d then Z.lor bits 0x02 else bits in
  if touchscreen d then Z.lor bits 0x04 else bits.
(** [xdg/types.rs:151-153 any] *)
Definition any_device (d : DeviceTypes) : bool := keyboard d || pointer d || touchscreen d.

Lemma devices_round_trip d : devices_from_bits (devices_to_bits d) = d.
Proof. by destruct d as [[] [] []]. Qed.

(** [xdg/types.rs:182-187 KeyState] *)
Inductive KeyState := KeyPressed | KeyReleased.
(** [xdg/types.rs:191-197 from_dbus] *)
Definition key_from_dbus (state : Z) : KeyState := if state =? 1 then KeyPressed else KeyReleased.
(** [xdg/types.rs:272-277 ButtonState] *)
Inductive ButtonState := ButtonPressed | ButtonReleased.
(** [xdg/types.rs:281-287 from_dbus] *)
Definition button_from_dbus (state : Z) : ButtonState := if state =? 1 then ButtonPressed else ButtonReleased.
(** [xdg/types.rs:301-306 ScrollAxis] *)
Inductive ScrollAxis := Vertical | Horizontal.
(** [xdg/types.rs:310-316 from_dbus] *)
Definition axis_from_dbus (axis : Z) : ScrollAxis := if axis =? 0 then Vertical else Horizontal.

(** [xdg/types.rs:170-177 KeyboardEvent] *)
Record KeyboardEvent := mkKey { keycode : Z; key_state : KeyState; key_time : Z }.
(** Coordinates and deltas are [f64].
    [xdg/types.rs:211-267 PointerEvent] *)
Inductive PointerEvent :=
| Motion (dx dy : spec_float) (time_usec : Z)
| MotionAbsolute (x y : spec_float) (stream time_usec : Z)
| Button (button : Z) (state : ButtonState) (time_usec : Z)
| Scroll (dx dy : spec_float) (time_usec : Z)
| ScrollDiscrete (axis : ScrollAxis) (steps time_usec : Z)
| ScrollStop (time_usec : Z).
(** [xdg/types.rs:322-356 TouchEvent] *)
Inductive TouchEvent :=
| TouchDown (id : Z) (x y : spec_float) (stream time_usec : Z)
| TouchMotion (id : Z) (x y : spec_float) (stream time_usec : Z)
| TouchUp (id time_usec : Z).
(** [xdg/types.rs:159-166 InputEvent] *)
Inductive InputEvent := Keyboard (e : KeyboardEvent) | Pointer (e : PointerEvent) | Touch (e : TouchEvent).

(** [xdg/types.rs:360-365 ClipboardData] *)
Record ClipboardData := mkClipboard { mime_types : list str; mime_data : gmap str (list Z) }.

(** [xdg/types.rs:370-378 CursorMode] *)
Inductive CursorMode := Hidden | Embedded | Metadata.
#[export] Instance cursor_mode_eq_dec : EqDecision CursorMode.
Proof. solve_decision. Defined.
Definition cursor_default : CursorMode := Embedded.
(** [xdg/types.rs:382-390 from_bits] *)
Definition cursor_from_bits (bits : Z) : CursorMode :=
  if negb (Z.land bits 0x04 =? 0) then Metadata else if negb (Z.land bits 0x02 =? 0) then Embedded else Hidden.
(** [xdg/types.rs:393-399 to_bits] *)
Definition cursor_to_bits (m : CursorMode) : Z := match m with Hidden => 0x01 | Embedded => 0x02 | Metadata => 0x04 end.

(** ** Errors

    The errors of the D-Bus library and of the operating system are their texts.
    [xdg/error.rs:8-97 PortalError] *)
Inductive PortalError :=
| InvalidSession (s : str) | SessionNotFound (s : str) | InvalidState (expected actual : str)
| SessionLimitExceeded (app : str) (max : Z) | PermissionDenied (s : str) | UserCancelled
| EisCreationFailed (s : str) | PipeWireCreationFailed (s : str) | SourceNotFound (id : Z)
| WaylandError (s : str) | DBus (s : str) | InvalidArgument (s : str) | Io (s : str) | FdPassingFailed (s : str)
| ClipboardNotEnabled | ClipboardDataTooLarge (size max : Z) | UnsupportedMimeType (s : str)
| PipeWireError (s : str) | Screencopy (s : str) | ConfigError (s : str) | RateLimitExceeded (s : str).
#[export] Instance portal_error_eq_dec : EqDecision PortalError.
Proof. solve_decision. Defined.

(** [xdg/error.rs:10-96 PortalError] *)
Definition portal_error_text (e : PortalError) : str :=
  match e with
  | InvalidSession s => lit "Invalid session: " ++ s
  | SessionNotFound s => lit "Session not found: " ++ s
  | InvalidState expected actual => lit "Session in invalid state: expected " ++ expected ++ lit ", got " ++ actual
  | SessionLimitExceeded app max => lit "Session limit exceeded for app " ++ app ++ lit ": max " ++ fmt_dec max
  | PermissionDenied s => lit "Permission denied for " ++ s
  | UserCancelled => lit "User cancelled operation"
  | EisCreationFailed s => lit "Failed to create EIS context: " ++ s
  | PipeWireCreationFailed s => lit "Failed to create PipeWire stream: " ++ s
  | SourceNotFound id => lit "Source not found: " ++ fmt_dec id
  | WaylandError s => lit "Wayland error: " ++ s
  | DBus s => lit "D-Bus error: " ++ s
  | InvalidArgument s => lit "Invalid D-Bus argument: " ++ s
  | Io s => lit "I/O error: " ++ s
  | FdPassingFailed s => lit "Failed to pass file descriptor: " ++ s
  | ClipboardNotEnabled => lit "Clipboard not enabled for session"
  | ClipboardDataTooLarge size max => lit "Clipboard data too large: " ++ fmt_dec size ++ lit " bytes (max " ++ fmt_dec max ++ lit ")"
  | UnsupportedMimeType s => lit "Unsupported MIME type: " ++ s
  | PipeWireError s => lit "PipeWire error: " ++ s
  | Screencopy s => lit "Screencopy error: " ++ s
  | ConfigError s => lit "Configuration error: " ++ s
  | RateLimitExceeded s => lit "Rate limit exceeded for " ++ s
  end.

(** The errors a D-Bus caller can get. *)
Inductive FdoError := AccessDenied (s : str) | InvalidArgs (s : str) | Failed (s : str) | NotSupported (s : str).
(** [xdg/error.rs:104-114 from] *)
Definition fdo_from (e : PortalError) : FdoError :=
  match e with
  | PermissionDenied _ | UserCancelled => AccessDenied (portal_error_text e)
  | InvalidArgument _ => InvalidArgs (portal_error_text e)
  | _ => Failed (portal_error_text e)
  end.

(** ** One session *)

(** [session/state.rs:17-24 RestoreData] *)
Record RestoreData := mkRestore { vendor : str; version : Z; output_names : list str }.
(** [session/state.rs:29-37 PersistMode] *)
Inductive PersistMode := PersistNone | Persistent | Transient.
#[export] Instance persist_mode_eq_dec : EqDecision PersistMode.
Proof. solve_decision. Defined.
(** [session/state.rs:41-47 from_dbus] *)
Definition persist_from_dbus (value : Z) : PersistMode :=
  if value =? 1 then Transient else if value =? 2 then Persistent else PersistNone.
(** [session/state.rs:50-56 to_dbus] *)
Definition persist_to_dbus (m : PersistMode) : Z := match m with PersistNone => 0 | Transient => 1 | Persistent => 2 end.
Lemma persist_round_trip m : persist_from_dbus (persist_to_dbus m) = m.
Proof. by destruct m. Qed.

(** [session/state.rs:62-70 SessionState] *)
Inductive SessionState := Init | Started | Closed.
#[export] Instance session_state_eq_dec : EqDecision SessionState.
Proof. solve_decision. Defined.
(** [session/state.rs:73-79 fmt] *)
Definition state_text (s : SessionState) : str := match s with Init => lit "Init" | Started => lit "Started" | Closed => lit "Closed" end.

(** [session/state.rs:87-136 Session] *)
Record Session := mkSession {
  id : str; sender : str; app_id : str; state : SessionState;
  device_types : DeviceTypes; devices_selected : bool; uses_eis : bool; eis_context_id : option Z;
  sources : list SourceInfo; sources_selected : bool; streams : list StreamInfo;
  clipboard_enabled : bool; clipboard_requested : bool;
  persist_mode : PersistMode; restore_token : option str; restore_data : option RestoreData;
  created_at : Z; started_at : option Z; last_activity : Z }.
Definition with_state (v : SessionState) (x : Session) : Session :=
  mkSession (id x) (sender x) (app_id x) v (device_types x) (devices_selected x) (uses_eis x) (eis_context_id x) (sources x) (sources_selected x) (streams x) (clipboard_enabled x) (clipboard_requested x) (persist_mode x) (restore_token x) (restore_data x) (created_at x) (started_at x) (last_activity x).
Definition with_device_types (v : DeviceTypes) (x : Session) : Session :=
  mkSession (id x) (sender x) (app_id x) (state x) v (devices_selected x) (uses_eis x) (eis_context_id x) (sources x) (sources_selected x) (streams x) (clipboard_enabled x) (clipboard_requested x) (persist_mode x) (restore_token x) (restore_data x) (created_at x) (started_at x) (last_activity x).
Definition with_devices_selected (v : bool) (x : Session) : Session :=
  mkSession (id x) (sender x) (app_id x) (state x) (device_types x) v (uses_eis x) (eis_context_id x) (sources x) (sources_selected x) (streams x) (clipboard_enabled x) (clipboard_requested x) (persist_mode x) (restore_token x) (restore_data x) (created_at x) (started_at x) (last_activity x).
Definition with_uses_eis (v : bool) (x : Session) : Session :=
  mkSession (id x) (sender x) (app_id x) (state x) (device_types x) (devices_selected x) v (eis_context_id x) (sources x) (sources_selected x) (streams x) (clipboard_enabled x) (clipboard_requested x) (persist_mode x) (restore_token x) (restore_data x) (created_at x) (started_at x) (last_activity x).
Definition with_eis_context_id (v : option Z) (x : Session) : Session :=
  mkSession (id x) (sender x) (app_id x) (state x) (device_types x) (devices_selected x) (uses_eis x) v (sources x) (sources_selected x) (streams x) (clipboard_enabled x) (clipboard_requested x) (persist_mode x) (restore_token x) (restore_data x) (created_at x) (started_at x) (last_activity x).
Definition with_sources (v : list SourceInfo) (x : Session) : Session :=
  mkSession (id x) (sender x) (app_id x) (state x) (device_types x) (devices_selected x) (uses_eis x) (eis_context_id x) v (sources_selected x) (streams x) (clipboard_enabled x) (clipboard_requested x) (persist_mode x) (restore_token x) (restore_data x) (created_at x) (started_at x) (last_activity x).
Definition with_sources_selected (v : bool) (x : Session) : Session :=
  mkSession (id x) (sender x) (app_id x) (state x) (device_types x) (devices_selected x) (uses_eis x) (eis_context_id x) (sources x) v (streams x) (clipboard_enabled x) (clipboard_requested x) (persist_mode x) (restore_token x) (restore_data x) (created_at x) (started_at x) (last_activity x).
Definition with_streams (v : list StreamInfo) (x : Session) : Session :=
  mkSession (id x) (sender x) (app_id x) (state x) (device_types x) (devices_selected x) (uses_eis x) (eis_context_id x) (sources x) (sources_selected x) v (clipboard_enabled x) (clipboard_requested x) (persist_mode x) (restore_token x) (restore_data x) (created_at x) (started_at x) (last_activity x).
Definition with_clipboard_enabled (v : bool) (x : Session) : Session :=
  mkSession (id x) (sender x) (app_id x) (state x) (device_types x) (devices_selected x) (uses_eis x) (eis_context_id x) (sources x) (sources_selected x) (streams x) v (clipboard_requested x) (persist_mode x) (restore_token x) (restore_data x) (created_at x) (started_at x) (last_activity x).
Definition with_clipboard_requested (v : bool) (x : Session) : Session :=
  mkSession (id x) (sender x) (app_id x) (state x) (device_types x) (devices_selected x) (uses_eis x) (eis_context_id x) (sources x) (sources_selected x) (streams x) (clipboard_enabled x) v (persist_mode x) (restore_token x) (restore_data x) (created_at x) (started_at x) (last_activity x).
Definition with_persist_mode (v : PersistMode) (x : Session) : Session :=
  mkSession (id x) (sender x) (app_id x) (state x) (device_types x) (devices_selected x) (uses_eis x) (eis_context_id x) (sources x) (sources_selected x) (streams x) (clipboard_enabled x) (clipboard_requested x) v (restore_token x) (restore_data x) (created_at x) (started_at x) (last_activity x).
Definition with_restore_data (v : option RestoreData) (x : Session) : Session :=
  mkSession (id x) (sender x) (app_id x) (state x) (device_types x) (devices_selected x) (uses_eis x) (eis_context_id x) (sources x) (sources_selected x) (streams x) (clipboard_enabled x) (clipboard_requested x) (persist_mode x) (restore_token x) v (created_at x) (started_at x) (last_activity x).
Definition with_started_at (v : option Z) (x : Session) : Session :=
  mkSession (id x) (sender x) (app_id x) (state x) (device_types x) (devices_selected x) (uses_eis x) (eis_context_id x) (sources x) (sources_selected x) (streams x) (clipboard_enabled x) (clipboard_requested x) (persist_mode x) (restore_token x) (restore_data x) (created_at x) v (last_activity x).
Definition with_last_activity (v : Z) (x : Session) : Session :=
  mkSession (id x) (sender x) (app_id x) (state x) (device_types x) (devices_selected x) (uses_eis x) (eis_context_id x) (sources x) (sources_selected x) (streams x) (clipboard_enabled x) (clipboard_requested x) (persist_mode x) (restore_token x) (restore_data x) (created_at x) (started_at x) v.

(** The two readings of the clock are [created] and [active].
    [session/state.rs:140-167 new] *)
Definition session_new (id sender app_id : str) (created active : Z) : Session :=
  mkSession id sender app_id Init no_devices false false None [] false [] false false PersistNone None None created None active.

(** [session/state.rs:170-172 touch] *)
Definition touch (now : Z) (s : Session) : Session := with_last_activity now s.
(** [session/state.rs:175-177 can_select_devices] *)
Definition can_select_devices (s : Session) : bool := bool_decide (state s = Init).
(** [session/state.rs:180-182 can_select_sources] *)
Definition can_select_sources (s : Session) : bool := bool_decide (state s = Init).
(** [session/state.rs:185-188 can_request_clipboard] *)
Definition can_request_clipboard (s : Session) : bool := bool_decide (state s <> Closed).
(** [session/state.rs:194-196 can_start] *)
Definition can_start (s : Session) : bool := bool_decide (state s = Init) && (devices_selected s || sources_selected s).
(** [session/state.rs:199-201 is_started] *)
Definition is_started (s : Session) : bool := bool_decide (state s = Started).
(** [session/state.rs:204-206 can_connect_to_eis] *)
Definition can_connect_to_eis (s : Session) : bool := bool_decide (state s = Started) && devices_selected s && negb (uses_eis s).

(** A method of the session: its result and the session afterwards. *)
Abbreviation method A := (Session -> outcome PortalError A * Session) (only parsing).

(** [session/state.rs:209-236 transition_to] *)
Definition transition_to (new_state : SessionState) (now : Z) : method unit := fun s =>
  let valid := match state s, new_state with
    | Init, Started | _, Closed => true
    | s1, s2 => bool_decide (s1 = s2)
    end in
  if valid then
    let s := with_state new_state s in
    (Ok tt, if bool_decide (new_state = Started) then with_started_at (Some now) s else s)
  else (Err (InvalidState (lit "valid transition from " ++ state_text (state s)) (state_text (state s) ++ lit " -> " ++ state_text new_state)), s).

(** [session/state.rs:239-255 select_devices] *)
Definition select_devices (devices : DeviceTypes) : method unit := fun s =>
  if negb (can_select_devices s) then (Err (InvalidState (lit "Init") (state_text (state s))), s)
  else (Ok tt, with_devices_selected true (with_device_types devices s)).

(** [session/state.rs:258-269 select_sources] *)
Definition select_sources (l : list SourceInfo) : method unit := fun s =>
  if negb (can_select_sources s) then (Err (InvalidState (lit "Init") (state_text (state s))), s)
  else (Ok tt, with_sources_selected true (with_sources l s)).

(** [session/state.rs:272-283 request_clipboard] *)
Definition request_clipboard : method unit := fun s =>
  if negb (can_request_clipboard s) then (Err (InvalidState (lit "not Closed") (state_text (state s))), s)
  else (Ok tt, with_clipboard_enabled true (with_clipboard_requested true s)).

(** [session/state.rs:286-297 start] *)
Definition start (l : list StreamInfo) (now : Z) : method unit := fun s =>
  if negb (can_start s) then (Err (InvalidState (lit "Init") (state_text (state s))), s)
  else transition_to Started now (with_streams l s).

(** [session/state.rs:300-314 connect_to_eis] *)
Definition connect_to_eis (context_id : Z) : method unit := fun s =>
  if negb (can_connect_to_eis s) then
    (Err (InvalidState (lit "Started with devices selected")
       (lit "state=" ++ state_text (state s) ++ lit ", devices_selected=" ++ (if devices_selected s then lit "true" else lit "false"))), s)
  else (Ok tt, with_eis_context_id (Some context_id) (with_uses_eis true s)).

(** [session/state.rs:317-322 close] *)
Definition close (s : Session) : Session := if bool_decide (state s <> Closed) then with_state Closed s else s.
(** [session/state.rs:325-327 stream_ids] *)
Definition stream_ids (s : Session) : list Z := map node_id (streams s).

(** ** The manager *)

(** [session/manager.rs:38-45 SessionManager] *)
Record SessionManager := mkManager { sessions : gmap str Session; app_counts : gmap str nat; max_sessions_per_app : nat }.
Definition with_sessions (v : gmap str Session) (m : SessionManager) : SessionManager := mkManager v (app_counts m) (max_sessions_per_app m).
Definition with_app_counts (v : gmap str nat) (m : SessionManager) : SessionManager := mkManager (sessions m) v (max_sessions_per_app m).

(** [session/manager.rs:14-14 DEFAULT_MAX_SESSIONS_PER_APP] *)
Definition DEFAULT_MAX_SESSIONS_PER_APP : nat := 10.
(** [session/manager.rs:54-60 with_config] *)
Definition with_config (max : nat) : SessionManager := mkManager ∅ ∅ max.
(** [session/manager.rs:49-51 new] *)
Definition manager_new : SessionManager := with_config DEFAULT_MAX_SESSIONS_PER_APP.

(** [session/manager.rs:287-289 app_session_count] *)
Definition app_session_count (app : str) (m : SessionManager) : nat := default 0%nat (app_counts m !! app).

(** [session/manager.rs:265-279 enforce_session_limit] *)
Definition enforce_session_limit (app : str) (m : SessionManager) : outcome PortalError unit :=
  if (max_sessions_per_app m <=? app_session_count app m)%nat
  then Err (SessionLimitExceeded app (Z.of_nat (max_sessions_per_app m))) else Ok tt.

(** [session/manager.rs:77-111 create_session] *)
Definition create_session (handle sender app : str) (mode : PersistMode) (created active : Z) (m : SessionManager) : outcome PortalError unit * SessionManager :=
  match enforce_session_limit app m with
  | Ok _ =>
      match sessions m !! handle with
      | Some _ => (Err (InvalidSession (lit "Session already exists: " ++ handle)), m)
      | None =>
          let session := with_persist_mode mode (session_new handle sender app created active) in
          let m := with_app_counts (<[app := S (app_session_count app m)]> (app_counts m)) m in
          (Ok tt, with_sessions (<[handle := session]> (sessions m)) m)
      end
  | Err e => (Err e, m)
  | Panic => (Panic, m)
  end.

(** [session/manager.rs:114-116 get_session] *)
Definition get_session (handle : str) (m : SessionManager) : option Session := sessions m !! handle.
(** A method called through the reference to a session, after the callers'
    [ok_or_else] for an unknown handle.
    [session/manager.rs:119-121 get_session_mut] *)
Definition get_session_mut {A} (handle : str) (f : method A) (m : SessionManager) : outcome PortalError A * SessionManager :=
  match sessions m !! handle with
  | None => (Err (SessionNotFound handle), m)
  | Some s => let '(r, s') := f s in (r, with_sessions (<[handle := s']> (sessions m)) m)
  end.

(** [session/manager.rs:134-172 validate_session] *)
Definition validate_session (handle app sender_name : str) (m : SessionManager) : outcome PortalError unit :=
  match sessions m !! handle with
  | None => Err (SessionNotFound handle)
  | Some s =>
      if bool_decide (app_id s <> app) then Err (PermissionDenied (lit "App " ++ app ++ lit " tried to access session owned by " ++ app_id s))
      else if bool_decide (sender s <> sender_name) then Err (PermissionDenied (lit "Sender " ++ sender_name ++ lit " tried to access session owned by " ++ sender s))
      else Ok tt
  end.

(** The counter of an application after one of its sessions has gone.
    [session/manager.rs:183-188 close_session] *)
Definition uncount (app : str) (m : SessionManager) : SessionManager :=
  match app_counts m !! app with
  | None => m
  | Some n => let n := (n - 1)%nat in
      with_app_counts (if (n =? 0)%nat then delete app (app_counts m) else <[app := n]> (app_counts m)) m
  end.

(** [session/manager.rs:178-196 close_session] *)
Definition close_session (handle : str) (m : SessionManager) : option Session * SessionManager :=
  match sessions m !! handle with
  | None => (None, m)
  | Some s =>
      let m := with_sessions (delete handle (sessions m)) m in
      let s := close s in
      (Some s, uncount (app_id s) m)
  end.

(** The handles of the sessions that satisfy [p]; a [HashMap] yields them in no
    particular order, and nothing here depends on it. *)
Definition handles_where (p : Session -> bool) (m : SessionManager) : list str :=
  map fst (filter (fun kv => p kv.2) (map_to_list (sessions m))).

(** [session/manager.rs:209-215 close_app_sessions] *)
Fixpoint remove_app (handles : list str) (m : SessionManager) : list Session * SessionManager :=
  match handles with
  | [] => ([], m)
  | h :: handles =>
      match sessions m !! h with
      | None => remove_app handles m
      | Some s => let '(l, m) := remove_app handles (with_sessions (delete h (sessions m)) m) in (close s :: l, m)
      end
  end.
(** [session/manager.rs:201-225 close_app_sessions] *)
Definition close_app_sessions (app : str) (m : SessionManager) : list Session * SessionManager :=
  let '(closed, m) := remove_app (handles_where (fun s => bool_decide (app_id s = app)) m) m in
  (closed, with_app_counts (delete app (app_counts m)) m).

(** The removal with the counters kept, shared by the next two.
    [session/manager.rs:239-251 close_sender_sessions] *)
Fixpoint remove_counted (handles : list str) (m : SessionManager) : list Session * SessionManager :=
  match handles with
  | [] => ([], m)
  | h :: handles =>
      match sessions m !! h with
      | None => remove_counted handles m
      | Some s => let m := uncount (app_id s) (with_sessions (delete h (sessions m)) m) in
                  let '(l, m) := remove_counted handles m in (close s :: l, m)
      end
  end.
(** [session/manager.rs:230-262 close_sender_sessions] *)
Definition close_sender_sessions (sender_name : str) (m : SessionManager) : list Session * SessionManager :=
  remove_counted (handles_where (fun s => bool_decide (sender s = sender_name)) m) m.

(** [session/manager.rs:317-348 cleanup_stale_sessions] *)
Definition stale (now max_idle : Z) (s : Session) : bool :=
  match state s with
  | Init => max_idle <? since now (created_at s)
  | Started => max_idle * 2 <? since now (last_activity s)
  | Closed => true
  end.
(** [session/manager.rs:311-366 cleanup_stale_sessions] *)
Definition cleanup_stale_sessions (now max_idle : Z) (m : SessionManager) : list Session * SessionManager :=
  remove_counted (handles_where (stale now max_idle) m) m.

(** [session/manager.rs:297-303 clipboard_session_handles] *)
Definition clipboard_session_handles (m : SessionManager) : list str :=
  map (fun kv => id kv.2) (filter (fun kv => clipboard_enabled kv.2 && bool_decide (state kv.2 <> Closed)) (map_to_list (sessions m))).
(** [session/manager.rs:282-284 session_count] *)
Definition session_count (m : SessionManager) : nat := size (sessions m).

(** ** The operations the interfaces use *)

Inductive SessionOp :=
| Active (now : Z) | SelectDevices (d : DeviceTypes) | SelectSources (mode : PersistMode) (r : option RestoreData) (l : list SourceInfo)
| RequestClipboard | Start (l : list StreamInfo) (now : Z) | ConnectToEis (context_id : Z) | DevicesSelected.
(** [SelectSources] stores the persistence options before the selection may be
    refused, and [DevicesSelected] is the assignment of ConnectToEIS.
    [dbus/remote_desktop.rs:470-475 connect_to_eis] *)
Definition session_op (o : SessionOp) : method unit := fun s =>
  match o with
  | Active now => (Ok tt, touch now s)
  | SelectDevices d => select_devices d s
  | SelectSources mode r l => select_sources l (with_restore_data r (with_persist_mode mode s))
  | RequestClipboard => request_clipboard s
  | Start l now => start l now s
  | ConnectToEis c => connect_to_eis c s
  | DevicesSelected => (Ok tt, with_devices_selected true s)
  end.

Inductive ManagerOp :=
| Create (handle sn app : str) (mode : PersistMode) (created active : Z) | CloseOne (handle : str) | CloseApp (app : str)
| CloseSender (sn : str) | Cleanup (now max_idle : Z) | On (handle : str) (o : SessionOp).
Definition manager_op (o : ManagerOp) (m : SessionManager) : SessionManager :=
  match o with
  | Create h sn app mode c a => (create_session h sn app mode c a m).2
  | CloseOne h => (close_session h m).2
  | CloseApp app => (close_app_sessions app m).2
  | CloseSender sn => (close_sender_sessions sn m).2
  | Cleanup now idle => (cleanup_stale_sessions now idle m).2
  | On h o => (get_session_mut h (session_op o) m).2
  end.
Definition manager_run (ops : list ManagerOp) (m : SessionManager) : SessionManager := foldl (fun m o => manager_op o m) m ops.

(** ** Well-formed sessions and managers *)

Record session_ok (h : str) (s : Session) : Prop := mkSessionOk {
  ok_id : id s = h;
  ok_open : state s <> Closed;
  ok_started : state s = Started -> devices_selected s || sources_selected s = true /\ is_Some (started_at s);
  ok_init : state s = Init -> streams s = [] /\ started_at s = None /\ uses_eis s = false;
  ok_eis : uses_eis s = true -> is_Some (eis_context_id s) /\ devices_selected s = true;
  ok_no_eis : uses_eis s = false -> eis_context_id s = None;
  ok_devices : devices_selected s = false -> device_types s = no_devices;
  ok_sources : sources_selected s = false -> sources s = [];
  ok_clipboard : clipboard_enabled s = clipboard_requested s }.

Definition sessions_of (app : str) (m : SessionManager) : gmap str Session := filter (fun kv => app_id kv.2 = app) (sessions m).
(** The counter of an application with [n] sessions. *)
Definition counted (n : nat) : option nat := if (n =? 0)%nat then None else Some n.

Record manager_ok (m : SessionManager) : Prop := mkManagerOk {
  ok_sessions : map_Forall session_ok (sessions m);
  ok_counts app : app_counts m !! app = counted (size (sessions_of app m));
  ok_limit app : (size (sessions_of app m) <= max_sessions_per_app m)%nat }.

Lemma session_new_ok h sn app mode c a : session_ok h (with_persist_mode mode (session_new h sn app c a)).
Proof. by constructor. Qed.
Ltac ok_fields := constructor; cbn -[lit app]; try assumption; try done; try (intros; congruence).
Lemma session_op_ok h o s : session_ok h s -> session_ok h (session_op o s).2.
Proof.
  intros K. pose proof K as [I O S N E E' D R C]. destruct o; cbn -[lit app].
  - ok_fields.
  - unfold select_devices, can_select_devices. destruct (bool_decide_reflect (state s = Init)); cbn -[lit app]; [ok_fields|done].
    intros H. by destruct (E H).
  - unfold select_sources, can_select_sources. cbn -[lit app]. destruct (bool_decide_reflect (state s = Init)); cbn -[lit app]; ok_fields.
  - unfold request_clipboard. destruct (can_request_clipboard s); cbn -[lit app]; [ok_fields|done].
  - unfold start, can_start, transition_to. destruct (bool_decide_reflect (state s = Init)) as [e|]; cbn -[lit app]; [|done].
    destruct (devices_selected s || sources_selected s) eqn:Q; cbn -[lit app]; [rewrite e; cbn -[lit app]|done]. ok_fields.
  - unfold connect_to_eis. destruct (can_connect_to_eis s) eqn:Q; cbn -[lit app]; [|done].
    unfold can_connect_to_eis in Q. apply andb_prop in Q as [[Q%bool_decide_eq_true Q']%andb_prop _]. ok_fields.
  - ok_fields; [intros H; by split; [|apply S]|intros H; by destruct (E H)].
Qed.

Lemma session_op_app o s : app_id (session_op o s).2 = app_id s.
Proof.
  destruct o; cbn -[lit app]; try done; unfold select_devices, select_sources, request_clipboard, start, transition_to, connect_to_eis;
    repeat case_match; done.
Qed.

(** ** The counters *)

Lemma sessions_of_insert app h s m : sessions m !! h = None ->
  size (sessions_of app (with_sessions (<[h := s]> (sessions m)) m)) = (size (sessions_of app m) + if bool_decide (app_id s = app) then 1 else 0)%nat.
Proof.
  intros N. unfold sessions_of, with_sessions. cbn [sessions]. case_bool_decide as A.
  - rewrite map_filter_insert_True by done. rewrite map_size_insert_None; [lia|]. by apply map_lookup_filter_None; left.
  - rewrite map_filter_insert_False, delete_id by done. lia.
Qed.
Lemma sessions_of_update app h s s' m : sessions m !! h = Some s -> app_id s' = app_id s ->
  size (sessions_of app (with_sessions (<[h := s']> (sessions m)) m)) = size (sessions_of app m).
Proof.
  intros L A. unfold sessions_of, with_sessions. cbn [sessions]. destruct (decide (app_id s = app)).
  - rewrite map_filter_insert_True by (cbn; congruence). rewrite map_size_insert_Some; [done|]. exists s. by apply map_lookup_filter_Some.
  - rewrite map_filter_insert_False by (cbn; congruence). rewrite map_filter_delete, delete_id; [done|]. apply map_lookup_filter_None. right. intros x ?. cbn. congruence.
Qed.
Lemma sessions_of_delete app h s m : sessions m !! h = Some s ->
  size (sessions_of app (with_sessions (delete h (sessions m)) m)) = (size (sessions_of app m) - if bool_decide (app_id s = app) then 1 else 0)%nat.
Proof.
  intros L. unfold sessions_of, with_sessions. cbn [sessions]. rewrite map_filter_delete. case_bool_decide as A.
  - rewrite map_size_delete_Some; [lia|]. exists s. by apply map_lookup_filter_Some.
  - rewrite delete_id; [lia|]. apply map_lookup_filter_None. right. intros x ?. cbn. congruence.
Qed.
Lemma counted_default n : default 0%nat (counted n) = n.
Proof. by destruct n. Qed.

Lemma uncount_sessions app m : sessions (uncount app m) = sessions m /\ max_sessions_per_app (uncount app m) = max_sessions_per_app m.
Proof. unfold uncount. by destruct (app_counts m !! app). Qed.
Lemma uncount_lookup app m app' n : app_counts m !! app = counted n ->
  app_counts (uncount app m) !! app' = if bool_decide (app = app') then counted (n - 1) else app_counts m !! app'.
Proof.
  intros C. unfold uncount. destruct (app_counts m !! app) as [k|] eqn:E.
  - assert (k = n) as -> by (destruct n; cbn in C; congruence). cbn -[Nat.sub counted]. case_bool_decide as A; [subst app'|].
    + unfold counted. destruct (Nat.eqb_spec (n - 1) 0); [by rewrite lookup_delete_eq|by rewrite lookup_insert_eq].
    + destruct (Nat.eqb_spec (n - 1) 0); [by rewrite lookup_delete_ne|by rewrite lookup_insert_ne].
  - assert (n = 0%nat) as -> by (destruct n; cbn in C; congruence). case_bool_decide as A; [by subst|done].
Qed.

Lemma uncounted_ok h s m : manager_ok m -> sessions m !! h = Some s -> manager_ok (uncount (app_id s) (with_sessions (delete h (sessions m)) m)).
Proof.
  intros [O C L] E. destruct (uncount_sessions (app_id s) (with_sessions (delete h (sessions m)) m)) as [Q M].
  assert (forall app, sessions_of app (uncount (app_id s) (with_sessions (delete h (sessions m)) m)) = sessions_of app (with_sessions (delete h (sessions m)) m)) as Qs
    by (intros app; unfold sessions_of; by rewrite Q).
  constructor.
  - rewrite Q. cbn. by apply map_Forall_delete.
  - intros app. rewrite Qs, (sessions_of_delete app h s), (uncount_lookup _ _ _ (size (sessions_of (app_id s) m))) by (done || apply C).
    case_bool_decide as A; [by rewrite A|]. cbn [app_counts with_sessions]. rewrite C. f_equal. lia.
  - intros app. rewrite Qs, (sessions_of_delete app h s), M by done. specialize (L app). cbn [max_sessions_per_app with_sessions]. lia.
Qed.

(** ** Closing several sessions *)

Lemma remove_counted_spec hs m l m' : remove_counted hs m = (l, m') -> NoDup hs ->
  sessions m' = filter (fun kv => kv.1 ∉ hs) (sessions m) /\ l = omap (fun h => close <$> sessions m !! h) hs /\ (manager_ok m -> manager_ok m').
Proof.
  revert m l m'. induction hs as [|h hs IH]; intros m l m' R D.
  { injection R as <- <-. split_and!; [|done..]. symmetry. apply map_filter_id. intros i x _. cbn. set_solver. }
  apply NoDup_cons in D as [N D]. cbn in R. cbn [omap list_omap]. destruct (sessions m !! h) as [s|] eqn:E; cbn [fmap option_fmap option_map].
  - destruct (remove_counted hs _) as [l1 m1] eqn:R1. injection R as <- <-. destruct (IH _ _ _ R1 D) as (Q & -> & K).
    rewrite (proj1 (uncount_sessions _ _)) in Q. cbn [sessions with_sessions] in Q. split_and!.
    + rewrite Q. apply map_eq. intros i. apply option_eq. intros x. rewrite !map_lookup_filter_Some, lookup_delete_Some. cbn. set_solver.
    + f_equal. apply list_eq. intros i. rewrite (proj1 (uncount_sessions _ _)). cbn [sessions with_sessions]. f_equal. clear -N.
      induction hs as [|k hs IH]; [done|]. cbn. rewrite lookup_delete_ne by set_solver. rewrite IH by set_solver. done.
    + intros M. by apply K, uncounted_ok.
  - destruct (IH _ _ _ R D) as (Q & -> & K). split_and!; [|done..]. rewrite Q. apply map_eq. intros i. apply option_eq. intros x.
    rewrite !map_lookup_filter_Some. cbn. split; [|set_solver]. intros [Hi Hn]. split; [done|]. intros [->|]%elem_of_cons; [by simplify_eq|done].
Qed.

Lemma handles_where_spec p m h : h ∈ handles_where p m <-> exists s, sessions m !! h = Some s /\ p s = true.
Proof.
  unfold handles_where. rewrite list_elem_of_fmap. split.
  - intros ([k s] & -> & [P K]%list_elem_of_filter). apply elem_of_map_to_list in K. exists s. split; [done|]. by apply Is_true_true_1.
  - intros (s & E & P). exists (h, s). split; [done|]. apply list_elem_of_filter. split; [by apply Is_true_true_2|by apply elem_of_map_to_list].
Qed.
Lemma handles_where_NoDup p m : NoDup (handles_where p m).
Proof.
  unfold handles_where. change (map fst ?l) with (l.*1). apply NoDup_fmap_fst; [|apply NoDup_filter, NoDup_map_to_list].
  intros k s1 s2 [_ K1]%list_elem_of_filter [_ K2]%list_elem_of_filter. apply elem_of_map_to_list in K1, K2. congruence.
Qed.
Lemma handles_where_filter p m : filter (fun kv => kv.1 ∉ handles_where p m) (sessions m) = filter (fun kv => p kv.2 = false) (sessions m).
Proof.
  apply map_filter_ext. intros h s E. cbn. rewrite handles_where_spec. split; [|intros P (s' & E' & P'); congruence].
  intros N. destruct (p s) eqn:P; [|done]. destruct N. by exists s.
Qed.

(** The sessions that satisfy [p], as closed sessions, in the manager's order. *)
Definition closed_where (p : Session -> bool) (m : SessionManager) : list Session :=
  omap (fun h => close <$> sessions m !! h) (handles_where p m).
Lemma closed_where_spec p m s' : s' ∈ closed_where p m <-> exists h s, sessions m !! h = Some s /\ p s = true /\ s' = close s.
Proof.
  unfold closed_where. rewrite list_elem_of_omap. split.
  - intros (h & K & E). apply handles_where_spec in K as (s & L & P). rewrite L in E. injection E as <-. by exists h, s.
  - intros (h & s & L & P & ->). exists h. rewrite L. split; [|done]. apply handles_where_spec. by exists s.
Qed.

(** What [close_sender_sessions] and [cleanup_stale_sessions] do. *)
Lemma remove_where p m : exists m', remove_counted (handles_where p m) m = (closed_where p m, m') /\
  sessions m' = filter (fun kv => p kv.2 = false) (sessions m) /\ (manager_ok m -> manager_ok m').
Proof.
  destruct (remove_counted (handles_where p m) m) as [l m'] eqn:R. destruct (remove_counted_spec _ _ _ _ R (handles_where_NoDup p m)) as (Q & -> & K).
  exists m'. by rewrite <-(handles_where_filter p m).
Qed.

Lemma remove_app_spec hs m : sessions (remove_app hs m).2 = filter (fun kv => kv.1 ∉ hs) (sessions m) /\
  app_counts (remove_app hs m).2 = app_counts m /\ max_sessions_per_app (remove_app hs m).2 = max_sessions_per_app m.
Proof.
  revert m. induction hs as [|h hs IH]; intros m; cbn [remove_app].
  { split_and!; [|done..]. symmetry. apply map_filter_id. intros i x _. cbn. set_solver. }
  destruct (sessions m !! h) as [s|] eqn:E.
  - specialize (IH (with_sessions (delete h (sessions m)) m)). destruct (remove_app hs _) as [l m']. cbn in *. destruct IH as (Q & C & M). split_and!; [|done..].
    rewrite Q. apply map_eq. intros i. apply option_eq. intros x. rewrite !map_lookup_filter_Some, lookup_delete_Some. cbn. set_solver.
  - destruct (IH m) as (Q & C & M). split_and!; [|done..]. rewrite Q. apply map_eq. intros i. apply option_eq. intros x.
    rewrite !map_lookup_filter_Some. cbn. split; [|set_solver]. intros [Hi Hn]. split; [done|]. intros [->|]%elem_of_cons; [by simplify_eq|done].
Qed.

Lemma close_app_ok app m : manager_ok m -> manager_ok (close_app_sessions app m).2.
Proof.
  intros [O C L]. unfold close_app_sessions. pose proof (remove_app_spec (handles_where (fun s => bool_decide (app_id s = app)) m) m) as (Q & A & M).
  rewrite handles_where_filter in Q. destruct (remove_app _ m) as [l m']. cbn in *.
  assert (forall app', sessions_of app' (with_app_counts (delete app (app_counts m')) m') = if bool_decide (app' = app) then ∅ else sessions_of app' m) as S.
  { intros app'. unfold sessions_of. cbn. rewrite Q. case_bool_decide as D.
    - apply map_empty_filter_2. intros h s [_ P]%map_lookup_filter_Some K. cbn in *. apply bool_decide_eq_false in P. congruence.
    - rewrite map_filter_filter. apply map_filter_ext. intros h s _. cbn. rewrite bool_decide_eq_false. naive_solver. }
  constructor.
  - cbn. rewrite Q. intros h s [K _]%map_lookup_filter_Some. by apply O.
  - intros app'. rewrite S. cbn. rewrite A. case_bool_decide as D; [by rewrite D, lookup_delete_eq|by rewrite lookup_delete_ne].
  - intros app'. rewrite S. cbn. rewrite M. case_bool_decide; [rewrite map_size_empty; lia|done].
Qed.

Lemma create_ok h sn app mode c a m : manager_ok m -> manager_ok (create_session h sn app mode c a m).2.
Proof.
  intros [O C L]. unfold create_session, enforce_session_limit. destruct (Nat.leb_spec (max_sessions_per_app m) (app_session_count app m)) as [|N]; [done|].
  destruct (sessions m !! h) eqn:E; [done|]. unfold app_session_count in N. rewrite C, counted_default in N.
  set (s := with_persist_mode mode _). assert (app_id s = app) as As by done. assert (session_ok h s) by apply session_new_ok. clearbody s. cbn [snd].
  set (m1 := with_app_counts _ m). assert (forall app', size (sessions_of app' (with_sessions (<[h:=s]> (sessions m1)) m1)) = (size (sessions_of app' m) + if bool_decide (app = app') then 1 else 0)%nat) as S.
  { intros app'. rewrite <-As. apply (sessions_of_insert app' h s m1 E). }
  constructor.
  - by apply map_Forall_insert_2.
  - intros app'. rewrite S. subst m1. cbn -[counted]. unfold app_session_count. rewrite C, counted_default. case_bool_decide as D.
    + subst. rewrite lookup_insert_eq. unfold counted. by rewrite Nat.add_1_r.
    + rewrite lookup_insert_ne, C by done. f_equal. lia.
  - intros app'. rewrite S. cbn. case_bool_decide; [subst; lia|]. specialize (L app'). lia.
Qed.

Lemma manager_op_ok o m : manager_ok m -> manager_ok (manager_op o m).
Proof.
  intros M. destruct o; cbn [manager_op].
  - by apply create_ok.
  - unfold close_session. destruct (sessions m !! handle) as [s|] eqn:E; [|done]. cbn [snd].
    replace (app_id (close s)) with (app_id s) by (unfold close; by case_match). by apply uncounted_ok.
  - by apply close_app_ok.
  - unfold close_sender_sessions. destruct (remove_where (fun s => bool_decide (sender s = sn)) m) as (m' & -> & _ & K). by apply K.
  - unfold cleanup_stale_sessions. destruct (remove_where (stale now max_idle) m) as (m' & -> & _ & K). by apply K.
  - unfold get_session_mut. destruct (sessions m !! handle) as [s|] eqn:E; [|done]. destruct M as [O C L].
    pose proof (session_op_ok handle o s (O _ _ E)) as K. pose proof (session_op_app o s) as A. destruct (session_op o s) as [r s']. cbn [snd] in *.
    constructor; [by apply map_Forall_insert_2|intros app|intros app]; rewrite (sessions_of_update app handle s s') by done; [apply C|apply L].
Qed.

(** C28. The portal's session manager is well formed after every sequence of
    operations.  Every session is filed under its own handle and is open; it is
    started only with devices or sources selected, has streams only then, and
    an input context only with devices selected; nothing that was not selected
    is recorded as selected.  The counter of every application is exactly the
    number of its sessions, absent when there are none, and never passes the
    configured limit. *)
Theorem sessions_well_formed max ops : manager_ok (manager_run ops (with_config max)).
Proof.
  unfold manager_run. assert (manager_ok (with_config max)) as M.
  { constructor; cbn; [apply map_Forall_empty|..]; intros app; unfold sessions_of; cbn; rewrite map_filter_empty, map_size_empty; [done|lia]. }
  revert M. generalize (with_config max). induction ops as [|o ops IH]; intros m M; [done|]. by apply IH, manager_op_ok.
Qed.
