(* ===== verification/PortalClipboard.v ===== *)
(** * The clipboard of the managed compositor

    The data-control path of the clipboard: the choice of a protocol and the
    matching of MIME types (services/clipboard/mod.rs), the backend that queues
    commands for the Wayland event loop (ext_backend.rs; wlr_backend.rs is the
    same code), the event loop's side of the protocol (wayland/data_control.rs)
    and the provider the clipboard orchestrator talks to
    (rdp/channels/clipboard/providers/data_control.rs).

    The compositor is outside: its events arrive in any order, and the requests
    made to it are recorded.  What a pipe yields is an argument. *)
From S2P Require Import Prelude Text PortalState.

(** ** Protocols and preferences *)

(** [wayland/globals.rs:11-35 AvailableProtocols] *)
Record AvailableProtocols := mkProtocols {
  ext_image_copy_capture : bool; wlr_screencopy : bool; wlr_virtual_pointer : bool; zwp_virtual_keyboard : bool;
  ext_data_control : bool; wlr_data_control : bool; seat : bool; output_count : Z }.
(** [wayland/globals.rs:39-41 has_capture] *)
Definition has_capture (p : AvailableProtocols) : bool := ext_image_copy_capture p || wlr_screencopy p.
(** [wayland/globals.rs:44-46 has_input] *)
Definition has_input (p : AvailableProtocols) : bool := wlr_virtual_pointer p || zwp_virtual_keyboard p.
(** [wayland/globals.rs:49-51 has_clipboard] *)
Definition has_clipboard (p : AvailableProtocols) : bool := ext_data_control p || wlr_data_control p.

(** [services/clipboard/mod.rs:29-34 ClipboardProtocol] *)
Inductive ClipboardProtocol := ExtDataControl | WlrDataControl.
#[export] Instance clipboard_protocol_eq_dec : EqDecision ClipboardProtocol.
Proof. solve_decision. Defined.
(** [services/clipboard/mod.rs:37-42 fmt] *)
Definition clipboard_protocol_text (p : ClipboardProtocol) : str :=
  match p with ExtDataControl => lit "ext-data-control-v1" | WlrDataControl => lit "wlr-data-control-v1" end.
(** [services/clipboard/mod.rs:49-55 ClipboardPreference] *)
Record ClipboardPreference := mkClipPref { clip_preferred : option ClipboardProtocol; clip_allow_fallback : bool }.
(** [services/clipboard/mod.rs:58-63 default] *)
Definition clip_pref_default : ClipboardPreference := mkClipPref None true.

(** The environment as the variables that are set and valid Unicode. *)
Abbreviation environment := (str -> option str) (only parsing).
(** [services/clipboard/mod.rs:72-92 from_env] *)
Definition clip_pref_from_env `{Unicode} (env : environment) : ClipboardPreference :=
  let prefs := clip_pref_default in
  let prefs := match env (lit "XDP_GENERIC_CLIPBOARD_PROTOCOL") with
    | None => prefs
    | Some protocol =>
        let p := str_to_lowercase protocol in
        if eqs p (lit "ext") || eqs p (lit "ext-data-control") then mkClipPref (Some ExtDataControl) (clip_allow_fallback prefs)
        else if eqs p (lit "wlr") || eqs p (lit "wlr-data-control") then mkClipPref (Some WlrDataControl) (clip_allow_fallback prefs)
        else prefs
    end in
  match env (lit "XDP_GENERIC_CLIPBOARD_NO_FALLBACK") with Some _ => mkClipPref (clip_preferred prefs) false | None => prefs end.

(** [services/clipboard/mod.rs:206-209 create_clipboard_backend] *)
Definition clip_available (p : AvailableProtocols) (x : ClipboardProtocol) : bool :=
  match x with ExtDataControl => ext_data_control p | WlrDataControl => wlr_data_control p end.
(** [services/clipboard/mod.rs:214-217 create_clipboard_backend] *)
Definition clip_fallback (x : ClipboardProtocol) : ClipboardProtocol :=
  match x with ExtDataControl => WlrDataControl | WlrDataControl => ExtDataControl end.
(** [services/clipboard/mod.rs:202-249 create_clipboard_backend] *)
Definition clip_selected (p : AvailableProtocols) (prefs : ClipboardPreference) : option ClipboardProtocol :=
  match clip_preferred prefs with
  | Some preferred =>
      if clip_available p preferred then Some preferred
      else if clip_allow_fallback prefs then
        let fallback := clip_fallback preferred in
        if clip_available p fallback then Some fallback else None
      else None
  | None => if ext_data_control p then Some ExtDataControl else if wlr_data_control p then Some WlrDataControl else None
  end.

(** ** MIME types *)

(** [m.split(';').next()], which is always there. *)
Definition base_mime (m : str) : str := hd [] (split_on 59 m).
Definition first_some {A} (a b : option A) : option A := match a with Some _ => a | None => b end.

(** [services/clipboard/mod.rs:150-184 find_mime_match] *)
Definition find_mime_match (requested : str) (available : list str) : option str :=
  match find (fun m => eqs m requested) available with
  | Some m => Some m
  | None =>
      if negb (starts_with (lit "text/") requested) then None
      else
        let base := base_mime requested in
        let parameter := contains 59 requested in
        first_some (if parameter then find (fun m => eqs m base) available else None)
          (first_some
            (if parameter then None
             else first_some (find (fun m => eqs m (requested ++ lit ";charset=utf-8")) available)
                             (find (fun m => eqs m (requested ++ lit ";charset=UTF-8")) available))
            (find (fun m => eqs (base_mime m) base) available))
  end.

(** ** Reading a pipe *)

(** One round of the loop: what [poll] and then [read] say. *)
Inductive PipeEvent :=
| PollTimeout | PollInterrupted | PollError (text : str)
| ReadEof | ReadBytes (chunk : list Z) | ReadInterrupted | ReadWouldBlock | ReadError (text : str).

(** [clipboard/ext_backend.rs:193-193 MAX_SIZE] *)
Definition MAX_PIPE_SIZE : Z := 100 * 1024 * 1024.
Definition some_if_any (data : list Z) : option (list Z) := match data with [] => None | _ => Some data end.
(** [None] while the pipe has said nothing final.
    [clipboard/ext_backend.rs:180-237 read_pipe_data] *)
Fixpoint read_pipe (data : list Z) (events : list PipeEvent) : option (outcome PortalError (option (list Z))) :=
  match events with
  | [] => None
  | PollTimeout :: _ => Some (Ok (some_if_any data))
  | PollInterrupted :: events => read_pipe data events
  | PollError text :: _ => Some (Err (Io text))
  | ReadEof :: _ => Some (Ok (some_if_any data))
  | ReadBytes chunk :: events =>
      let size := Z.of_nat (length data) + Z.of_nat (length chunk) in
      if MAX_PIPE_SIZE <? size then Some (Err (ClipboardDataTooLarge size MAX_PIPE_SIZE)) else read_pipe (data ++ chunk) events
  | ReadInterrupted :: events => read_pipe data events
  | ReadWouldBlock :: events => read_pipe data events
  | ReadError text :: _ => Some (Err (Io text))
  end.

(** ** The event loop's side *)

(** [wayland/data_control.rs:113-143 ClipboardCommand] *)
Inductive ClipboardCommand :=
| CmdSetSelection (mimes : list str) (data : gmap str (list Z))
| CmdUpdateSourceData (mime : str) (data : list Z)
| CmdReceiveFromOffer (mime : str) (fd : Z).

(** Requests to the compositor, bytes written to its pipes, and the calls of
    the registered callback, in order. *)
Inductive Request :=
| OfferDestroy (offer : Z) | OfferReceive (offer : Z) (mime : str) (fd : Z)
| SourceCreate (source : Z) | SourceOffer (source : Z) (mime : str) | SourceDestroy (source : Z)
| DeviceSetSelection (source : Z) | WriteFd (fd : Z) (data : list Z) | CloseFd (fd : Z) | OnChange (mimes : list str).

(** Managers and devices are known by their protocol, offers by the
    compositor's number, sources by the order of their creation.  The shared
    state is held inline, its callback as whether there is one.
    [wayland/data_control.rs:179-194 DataControlState] *)
Record DataControlState := mkDataControl {
  manager : option ClipboardProtocol; device : option ClipboardProtocol; current_offer : option Z; current_source : option Z;
  source_data : gmap str (list Z); pending_offer : option (Z * list str);
  shared_mimes : list str; shared_serial : Z; on_change : bool; next_source : Z }.
(** [wayland/data_control.rs:197-207 default] *)
Definition data_control_default : DataControlState := mkDataControl None None None None ∅ None [] 0 false 0.

(** An operation of the event loop: the requests it makes and the state after. *)
Abbreviation turn := (DataControlState -> list Request * DataControlState) (only parsing).
Definition destroy_offer (o : option Z) : list Request := match o with Some o => [OfferDestroy o] | None => [] end.
Definition destroy_source (o : option Z) : list Request := match o with Some s => [SourceDestroy s] | None => [] end.
Definition notify (mimes : list str) (s : DataControlState) : list Request := if on_change s then [OnChange mimes] else [].

(** [wayland/data_control.rs:214-230 create_device] *)
Definition create_device : turn := fun s =>
  match manager s with
  | Some p => ([], mkDataControl (manager s) (Some p) (current_offer s) (current_source s) (source_data s) (pending_offer s) (shared_mimes s) (shared_serial s) (on_change s) (next_source s))
  | None => ([], s)
  end.
(** [wayland/data_control.rs:245-251 set_pending_offer] *)
Definition set_pending_offer (offer : Z) : turn := fun s =>
  (destroy_offer (fst <$> pending_offer s),
   mkDataControl (manager s) (device s) (current_offer s) (current_source s) (source_data s) (Some (offer, [])) (shared_mimes s) (shared_serial s) (on_change s) (next_source s)).
(** [wayland/data_control.rs:254-258 on_offer_mime_type] *)
Definition on_offer_mime_type (mime : str) : turn := fun s =>
  match pending_offer s with
  | Some (o, l) => ([], mkDataControl (manager s) (device s) (current_offer s) (current_source s) (source_data s) (Some (o, l ++ [mime])) (shared_mimes s) (shared_serial s) (on_change s) (next_source s))
  | None => ([], s)
  end.
(** [wayland/data_control.rs:264-294 on_selection] *)
Definition on_selection : turn := fun s =>
  let mimes := match pending_offer s with Some (_, l) => l | None => [] end in
  (destroy_offer (current_offer s) ++ notify mimes s,
   mkDataControl (manager s) (device s) (fst <$> pending_offer s) (current_source s) (source_data s) None mimes (wrap 32 (shared_serial s + 1)) (on_change s) (next_source s)).
(** [wayland/data_control.rs:297-316 on_selection_cleared] *)
Definition on_selection_cleared : turn := fun s =>
  (destroy_offer (current_offer s) ++ destroy_offer (fst <$> pending_offer s) ++ notify [] s,
   mkDataControl (manager s) (device s) None (current_source s) (source_data s) None [] (wrap 32 (shared_serial s + 1)) (on_change s) (next_source s)).
(** [wayland/data_control.rs:324-331 update_source_data] *)
Definition update_source_data (mime : str) (data : list Z) : turn := fun s =>
  ([], mkDataControl (manager s) (device s) (current_offer s) (current_source s) (<[mime := data]> (source_data s)) (pending_offer s) (shared_mimes s) (shared_serial s) (on_change s) (next_source s)).
(** [wayland/data_control.rs:343-351 on_source_send] *)
Definition source_lookup (mime : str) (data : gmap str (list Z)) : option (list Z) :=
  first_some (data !! mime) (data !! trim (base_mime mime)).
(** [wayland/data_control.rs:337-367 on_source_send] *)
Definition on_source_send (mime : str) (fd : Z) : turn := fun s =>
  (match source_lookup mime (source_data s) with Some data => [WriteFd fd data; CloseFd fd] | None => [CloseFd fd] end, s).
(** [wayland/data_control.rs:372-378 on_source_cancelled] *)
Definition on_source_cancelled : turn := fun s =>
  (destroy_source (current_source s),
   mkDataControl (manager s) (device s) (current_offer s) None ∅ (pending_offer s) (shared_mimes s) (shared_serial s) (on_change s) (next_source s)).
(** [wayland/data_control.rs:383-397 on_device_finished] *)
Definition on_device_finished : turn := fun s =>
  (destroy_offer (current_offer s) ++ destroy_offer (fst <$> pending_offer s) ++ destroy_source (current_source s),
   mkDataControl (manager s) None None None ∅ None (shared_mimes s) (shared_serial s) (on_change s) (next_source s)).
(** [wayland/data_control.rs:403-456 set_selection] *)
Definition set_selection (mimes : list str) (data : gmap str (list Z)) : turn := fun s =>
  let without := mkDataControl (manager s) (device s) (current_offer s) None (source_data s) (pending_offer s) (shared_mimes s) (shared_serial s) (on_change s) (next_source s) in
  match manager s with
  | None => (destroy_source (current_source s), without)
  | Some p =>
      let src := next_source s in
      let made := destroy_source (current_source s) ++ [SourceCreate src] ++ map (SourceOffer src) mimes in
      if bool_decide (device s = Some p) then
        (made ++ [DeviceSetSelection src],
         mkDataControl (manager s) (device s) (current_offer s) (Some src) data (pending_offer s) (shared_mimes s) (shared_serial s) (on_change s) (src + 1))
      else (made ++ [SourceDestroy src],
            mkDataControl (manager s) (device s) (current_offer s) None (source_data s) (pending_offer s) (shared_mimes s) (shared_serial s) (on_change s) (src + 1))
  end.
(** [wayland/data_control.rs:466-477 receive_from_offer] *)
Definition receive_from_offer (mime : str) (fd : Z) : turn := fun s =>
  (match current_offer s with Some o => [OfferReceive o mime fd; CloseFd fd] | None => [CloseFd fd] end, s).

(** [wayland/mod.rs:835-851 process_clipboard_commands] *)
Definition run_command (c : ClipboardCommand) : turn :=
  match c with
  | CmdSetSelection mimes data => set_selection mimes data
  | CmdUpdateSourceData mime data => update_source_data mime data
  | CmdReceiveFromOffer mime fd => receive_from_offer mime fd
  end.

(** The compositor's events, as the dispatcher hands them on. *)
Inductive CompositorEvent :=
| EvDataOffer (offer : Z) | EvOffer (mime : str) | EvSelection (some : bool) | EvPrimarySelection | EvFinished
| EvSend (mime : str) (fd : Z) | EvCancelled.
(** [wayland/dispatch.rs:532-604 event] *)
Definition dispatch (e : CompositorEvent) : turn :=
  match e with
  | EvDataOffer o => set_pending_offer o
  | EvOffer m => on_offer_mime_type m
  | EvSelection true => on_selection
  | EvSelection false => on_selection_cleared
  | EvPrimarySelection => fun s => ([], s)
  | EvFinished => on_device_finished
  | EvSend m fd => on_source_send m fd
  | EvCancelled => on_source_cancelled
  end.

(** ** The backend *)

(** [open] is whether the event loop still holds the other end of the command
    channel.
    [clipboard/ext_backend.rs:35-44 ExtClipboardBackend] *)
Record Backend := mkBackend { protocol : ClipboardProtocol; open : bool; local_data : gmap str (list Z); local_mime_types : list str }.
(** [clipboard/ext_backend.rs:48-58 new] *)
Definition backend_new (p : ClipboardProtocol) (alive : bool) : Backend := mkBackend p alive ∅ [].
(** [services/clipboard/mod.rs:196-271 create_clipboard_backend] *)
Definition create_clipboard_backend (p : AvailableProtocols) (prefs : ClipboardPreference) (alive : bool) : option Backend :=
  match clip_selected p prefs with
  | Some ExtDataControl => Some (backend_new ExtDataControl alive)
  | Some WlrDataControl => Some (backend_new WlrDataControl alive)
  | None => None
  end.

Definition sending_failed (b : Backend) (what : str) : PortalError := WaylandError (lit "Failed to send " ++ what ++ lit " command: sending on a closed channel").
(** A command put on the channel. *)
Definition push (c : ClipboardCommand) (what : str) (b : Backend) : outcome PortalError (list ClipboardCommand) :=
  if open b then Ok [c] else Err (sending_failed b what).

(** [clipboard/ext_backend.rs:66-75 get_clipboard] *)
Definition get_clipboard (s : DataControlState) : ClipboardData := mkClipboard (shared_mimes s) ∅.
(** [clipboard/ext_backend.rs:77-99 set_clipboard] *)
Definition set_clipboard (d : ClipboardData) (b : Backend) : outcome PortalError (list ClipboardCommand) * Backend :=
  let b := mkBackend (protocol b) (open b) (mime_data d) (mime_types d) in
  (push (CmdSetSelection (mime_types d) (mime_data d)) (lit "SetSelection") b, b).
(** [clipboard/ext_backend.rs:101-105 on_selection_changed] *)
Definition on_selection_changed (s : DataControlState) : DataControlState :=
  mkDataControl (manager s) (device s) (current_offer s) (current_source s) (source_data s) (pending_offer s) (shared_mimes s) (shared_serial s) true (next_source s).

(** A read ends at once, or waits for what the current offer's owner writes to
    the pipe, of which [fd] is the writing end. *)
Inductive Reading := Done (r : outcome PortalError (option (list Z))) | Asked (c : ClipboardCommand).
(** [make_pipe] is the writing end of the new pipe, or why there is none.
    [clipboard/ext_backend.rs:107-140 read_selection] *)
Definition read_selection (mime : str) (make_pipe : Z + str) (s : DataControlState) (b : Backend) : Reading :=
  match local_data b !! mime with
  | Some data => Done (Ok (Some data))
  | None =>
      match find_mime_match mime (shared_mimes s) with
      | None => Done (Ok None)
      | Some actual =>
          match make_pipe with
          | inr why => Done (Err (FdPassingFailed (lit "Failed to create pipe: " ++ why)))
          | inl fd =>
              match push (CmdReceiveFromOffer actual fd) (lit "ReceiveFromOffer") b with
              | Ok _ => Asked (CmdReceiveFromOffer actual fd)
              | Err e => Done (Err e)
              | Panic => Done Panic
              end
          end
      end
  end.
(** [clipboard/ext_backend.rs:142-152 update_source_data] *)
Definition backend_update_source_data (mime : str) (data : list Z) (b : Backend) : outcome PortalError (list ClipboardCommand) :=
  push (CmdUpdateSourceData mime data) (lit "UpdateSourceData") b.
(** [clipboard/ext_backend.rs:154-162 write_done] *)
Definition write_done (serial : Z) (success : bool) : outcome PortalError unit := Ok tt.

(** ** The provider, and all of them together *)

(** [queue] is the command channel; [told] are the selection changes sent to
    the orchestrator; [sent] is everything asked of the compositor. *)
Record World := mkWorld {
  wayland : DataControlState; queue : list ClipboardCommand; backend : Backend;
  pending : gmap str (list Z); stopped : bool; told : list (list str); sent : list Request }.
Definition with_wayland (v : DataControlState) (w : World) : World := mkWorld v (queue w) (backend w) (pending w) (stopped w) (told w) (sent w).
Definition with_pending (v : gmap str (list Z)) (w : World) : World := mkWorld (wayland w) (queue w) (backend w) v (stopped w) (told w) (sent w).
Definition with_backend (v : Backend) (q : list ClipboardCommand) (w : World) : World := mkWorld (wayland w) (queue w ++ q) v (pending w) (stopped w) (told w) (sent w).

(** [providers/data_control.rs:29-52 new] *)
Definition provider_new (s : DataControlState) (b : Backend) : World := mkWorld (on_selection_changed s) [] b ∅ false [] [].

(** The callback is the provider's: it passes a change on until the provider is
    stopped.
    [providers/data_control.rs:37-43 new] *)
Definition told_of (stopped : bool) (l : list Request) : list (list str) :=
  if stopped then [] else omap (fun r => match r with OnChange mimes => Some mimes | _ => None end) l.
Definition take_turn (t : turn) (w : World) : World :=
  let '(l, s) := t (wayland w) in
  mkWorld s (queue w) (backend w) (pending w) (stopped w) (told w ++ told_of (stopped w) l) (sent w ++ l).

(** The commands of the channel, in their order.
    [wayland/mod.rs:835-851 process_clipboard_commands] *)
Definition process_clipboard_commands (w : World) : World :=
  foldl (fun w c => take_turn (run_command c) w) (mkWorld (wayland w) [] (backend w) (pending w) (stopped w) (told w) (sent w)) (queue w).

(** The orchestrator's errors carry the portal's text. *)
Definition to_clipboard {A} (r : outcome PortalError A) : outcome str A :=
  match r with Ok a => Ok a | Err e => Err (portal_error_text e) | Panic => Panic end.

(** [providers/data_control.rs:95-104 announce_formats] *)
Definition announced_data (mimes : list str) (cache : gmap str (list Z)) : gmap str (list Z) :=
  list_to_map (omap (fun m => pair m <$> cache !! m) mimes).
(** [providers/data_control.rs:93-114 announce_formats] *)
Definition announce_formats (mimes : list str) (w : World) : outcome str unit * World :=
  let '(r, b) := set_clipboard (mkClipboard mimes (announced_data mimes (pending w))) (backend w) in
  match r with
  | Ok q => (Ok tt, with_pending ∅ (with_backend b q w))
  | Err e => (Err (portal_error_text e), with_backend b [] w)
  | Panic => (Panic, w)
  end.
(** [providers/data_control.rs:124-135 provide_data] *)
Definition provide_data (mime : str) (data : list Z) (w : World) : outcome str unit * World :=
  let w := with_pending (<[mime := data]> (pending w)) w in
  match backend_update_source_data mime data (backend w) with
  | Ok q => (Ok tt, with_backend (backend w) q w)
  | Err e => (Err (portal_error_text e), w)
  | Panic => (Panic, w)
  end.
(** [providers/data_control.rs:166-172 write_text] *)
Definition write_text (text : str) (w : World) : outcome str unit * World :=
  let bytes := as_bytes text in
  match provide_data (lit "text/plain") bytes w with
  | (Ok _, w) =>
      match provide_data (lit "text/plain;charset=utf-8") bytes w with
      | (Ok _, w) => announce_formats [lit "text/plain"; lit "text/plain;charset=utf-8"] w
      | bad => bad
      end
  | bad => bad
  end.
(** The blocking read: the request is put on the channel, the event loop takes
    its turn, and [pipe] is what then comes through.  [None] while it waits.
    [providers/data_control.rs:115-123 read_data] *)
Definition read_data (mime : str) (make_pipe : Z + str) (pipe : list PipeEvent) (w : World) : option (outcome str (list Z)) * World :=
  match read_selection mime make_pipe (wayland w) (backend w) with
  | Done r => (Some (default [] <$> to_clipboard r), w)
  | Asked c =>
      let w := process_clipboard_commands (with_backend (backend w) [c] w) in
      ((fun r => default [] <$> to_clipboard r) <$> read_pipe [] pipe, w)
  end.
(** [providers/data_control.rs:136-148 complete_transfer] *)
Definition complete_transfer (serial : Z) (mime : str) (data : list Z) (success : bool) : outcome str unit := to_clipboard (write_done serial success).
(** [providers/data_control.rs:173-176 shutdown] *)
Definition provider_shutdown (w : World) : World := mkWorld (wayland w) (queue w) (backend w) (pending w) true (told w) (sent w).
(** [providers/data_control.rs:87-89 supports_file_transfer] *)
Definition supports_file_transfer : bool := true.
(** [providers/data_control.rs:90-92 requires_upfront_data] *)
Definition requires_upfront_data : bool := true.

(** A step of any of the parties. *)
Inductive Step :=
| Announce (mimes : list str) | Provide (mime : str) (data : list Z) | WriteText (text : str)
| Read (mime : str) (fd : Z) (pipe : list PipeEvent) | Loop | Event (e : CompositorEvent) | Shutdown.
Definition step (s : Step) (w : World) : World :=
  match s with
  | Announce mimes => (announce_formats mimes w).2
  | Provide mime data => (provide_data mime data w).2
  | WriteText text => (write_text text w).2
  | Read mime fd pipe => (read_data mime (inl fd) pipe w).2
  | Loop => process_clipboard_commands w
  | Event e => take_turn (dispatch e) w
  | Shutdown => provider_shutdown w
  end.
Definition run (l : list Step) (w : World) : World := foldl (fun w s => step s w) w l.

(** A compositor with the protocol and a device, and a provider on it. *)
Definition fresh (p : ClipboardProtocol) : World :=
  provider_new (mkDataControl (Some p) (Some p) None None ∅ None [] 0 false 0) (backend_new p true).

(** ** Matching types *)

Lemma find_some_in (p : str -> bool) l m : find p l = Some m -> m ∈ l /\ p m = true.
Proof. intros [K P]%find_some. split; [by apply list_elem_of_In|done]. Qed.
Lemma base_mime_plain m : contains 59 m = false -> base_mime m = m.
Proof.
  unfold base_mime, contains. induction m as [|c m IH]; [done|]. intros [E N]%orb_false_elim. cbn [split_on].
  rewrite Z.eqb_sym, E. specialize (IH N). destruct (split_on 59 m); cbn in *; [by subst|by rewrite IH].
Qed.
Lemma base_mime_suffix m t : contains 59 m = false -> base_mime (m ++ 59 :: t) = m.
Proof.
  unfold base_mime, contains. induction m as [|c m IH]; [done|]. intros [E N]%orb_false_elim. cbn [split_on app].
  rewrite Z.eqb_sym, E. specialize (IH N). destruct (split_on 59 (m ++ 59 :: t)); cbn in *; [by subst|by rewrite IH].
Qed.
Lemma base_mime_no_semicolon m : contains 59 (base_mime m) = false.
Proof.
  unfold base_mime, contains. induction m as [|c m IH]; [done|]. cbn [split_on]. destruct (c =? 59)%Z eqn:E; [done|].
  destruct (split_on 59 m); cbn [hd existsb] in *; rewrite Z.eqb_sym, E; [done|exact IH].
Qed.
Lemma base_mime_base m : base_mime (base_mime m) = base_mime m.
Proof. apply base_mime_plain, base_mime_no_semicolon. Qed.

Lemma first_some_cases {A} (a b : option A) x : first_some a b = Some x -> a = Some x \/ b = Some x.
Proof. destruct a; cbn; auto. Qed.
Lemma find_base (p : str -> bool) requested available x : (forall y, p y = true -> base_mime y = base_mime requested) ->
  find p available = Some x -> x ∈ available /\ base_mime x = base_mime requested.
Proof. intros P (I & Q)%find_some_in. auto. Qed.

Lemma find_mime_match_sound requested available m : find_mime_match requested available = Some m ->
  m ∈ available /\ (m = requested \/ starts_with (lit "text/") requested = true /\ base_mime m = base_mime requested).
Proof.
  unfold find_mime_match. destruct (find (fun m => eqs m requested) available) as [m'|] eqn:F.
  { intros [= <-]. apply find_some_in in F as [K E]. split; [done|]. left. by apply bool_decide_eq_true in E. }
  destruct (starts_with (lit "text/") requested) eqn:T; [|done]. cbn [negb]. intros E.
  enough (m ∈ available /\ base_mime m = base_mime requested) as [? ?] by auto. destruct (contains 59 requested) eqn:C.
  - apply first_some_cases in E as [E|E]; [|apply first_some_cases in E as [[=]|E]]; eapply find_base, E; intros y Y%bool_decide_eq_true; [subst; apply base_mime_base|done].
  - apply first_some_cases in E as [[=]|E]. apply first_some_cases in E as [E|E]; [apply first_some_cases in E as [E|E]|]; eapply find_base, E; intros y Y%bool_decide_eq_true; [subst y..|done].
    all: change (lit (String _ ?s)) with (59 :: lit s); by rewrite base_mime_suffix, base_mime_plain.
Qed.

Lemma find_mime_match_exact requested available : requested ∈ available -> find_mime_match requested available = Some requested.
Proof.
  intros K. unfold find_mime_match. destruct (find (fun m => eqs m requested) available) as [m|] eqn:F.
  - apply find_some_in in F as [_ E]. by apply bool_decide_eq_true in E as ->.
  - apply list_elem_of_In in K. apply (find_none _ _ F) in K. by apply bool_decide_eq_false in K.
Qed.

Lemma read_pipe_chunks data chunks rest : Z.of_nat (length data + length (concat chunks)) <= MAX_PIPE_SIZE ->
  read_pipe data (map ReadBytes chunks ++ ReadEof :: rest) = Some (Ok (some_if_any (data ++ concat chunks))).
Proof.
  revert data. induction chunks as [|c chunks IH]; intros data L; [by rewrite app_nil_r|]. cbn [concat map app read_pipe] in *. rewrite length_app in L.
  destruct (Z.ltb_spec MAX_PIPE_SIZE (Z.of_nat (length data) + Z.of_nat (length c))); [lia|]. rewrite IH; [by rewrite <-app_assoc|]. rewrite length_app. lia.
Qed.

(** ** The parties together *)

Definition run_commands (q : list ClipboardCommand) (w : World) : World := foldl (fun w c => take_turn (run_command c) w) w q.
Definition emptied (w : World) : World := mkWorld (wayland w) [] (backend w) (pending w) (stopped w) (told w) (sent w).
Lemma process_run w : process_clipboard_commands w = run_commands (queue w) (emptied w).
Proof. done. Qed.
Lemma take_turn_fields t w : wayland (take_turn t w) = (t (wayland w)).2 /\ queue (take_turn t w) = queue w /\ backend (take_turn t w) = backend w /\
  pending (take_turn t w) = pending w /\ sent (take_turn t w) = sent w ++ (t (wayland w)).1.
Proof. unfold take_turn. by destruct (t (wayland w)). Qed.
Lemma run_commands_fields q w : queue (run_commands q w) = queue w /\ backend (run_commands q w) = backend w /\ pending (run_commands q w) = pending w.
Proof.
  revert w. induction q as [|c q IH]; intros w; [done|]. change (run_commands (c :: q) w) with (run_commands q (take_turn (run_command c) w)). destruct (IH (take_turn (run_command c) w)) as (-> & -> & ->).
  destruct (take_turn_fields (run_command c) w) as (_ & -> & -> & -> & _). done.
Qed.
Lemma run_commands_sent q w : exists l, sent (run_commands q w) = sent w ++ l.
Proof.
  revert w. induction q as [|c q IH]; intros w; [exists []; by rewrite app_nil_r|]. change (run_commands (c :: q) w) with (run_commands q (take_turn (run_command c) w)). destruct (IH (take_turn (run_command c) w)) as [l E].
  destruct (take_turn_fields (run_command c) w) as (_ & _ & _ & _ & S). rewrite S in E. exists ((run_command c (wayland w)).1 ++ l). by rewrite app_assoc.
Qed.

(** The compositor's objects are there, and the event loop runs. *)
Definition alive (p : ClipboardProtocol) (w : World) : Prop :=
  manager (wayland w) = Some p /\ device (wayland w) = Some p /\ open (backend w) = true.
Lemma command_keeps c s : manager (run_command c s).2 = manager s /\ device (run_command c s).2 = device s /\
  current_offer (run_command c s).2 = current_offer s /\ shared_mimes (run_command c s).2 = shared_mimes s.
Proof. destruct c as [mimes data| |]; cbn; [|done..]. unfold set_selection. destruct (manager s); [|done]. by case_bool_decide. Qed.
Lemma run_commands_keeps q w : manager (wayland (run_commands q w)) = manager (wayland w) /\ device (wayland (run_commands q w)) = device (wayland w) /\
  current_offer (wayland (run_commands q w)) = current_offer (wayland w) /\ shared_mimes (wayland (run_commands q w)) = shared_mimes (wayland w).
Proof.
  revert w. induction q as [|c q IH]; intros w; [done|]. change (run_commands (c :: q) w) with (run_commands q (take_turn (run_command c) w)). destruct (IH (take_turn (run_command c) w)) as (-> & -> & -> & ->).
  destruct (take_turn_fields (run_command c) w) as (-> & _). apply command_keeps.
Qed.
Lemma alive_commands p q w : alive p w -> alive p (run_commands q w).
Proof. intros (M & D & O). destruct (run_commands_keeps q w) as (E1 & E2 & _). destruct (run_commands_fields q w) as (_ & B & _). unfold alive. by rewrite E1, E2, B. Qed.

(** Steps that leave what our own source serves alone, once it is set. *)
Definition quiet (s : Step) : Prop :=
  match s with
  | Announce _ | Provide _ _ | WriteText _ | Event EvFinished | Event EvCancelled => False
  | _ => True
  end.
Definition receives (c : ClipboardCommand) : Prop := match c with CmdReceiveFromOffer _ _ => True | _ => False end.
Lemma receives_keep q w : Forall receives q -> wayland (run_commands q w) = wayland w.
Proof.
  revert w. induction q as [|c q IH]; intros w F; [done|]. apply Forall_cons in F as [C F]. change (run_commands (c :: q) w) with (run_commands q (take_turn (run_command c) w)). rewrite IH by done.
  destruct (take_turn_fields (run_command c) w) as (-> & _). by destruct c.
Qed.
Definition serving (data : gmap str (list Z)) (w : World) : Prop := source_data (wayland w) = data /\ Forall receives (queue w).
Lemma quiet_serving data s w : quiet s -> serving data w -> serving data (step s w) /\ local_data (backend (step s w)) = local_data (backend w).
Proof.
  intros Q [S F]. destruct s as [| | |mime fd pipe| |e|]; try done; cbn [step].
  - unfold read_data. destruct (read_selection _ _ _ _) as [r|c] eqn:R; [done|]. cbn [snd]. rewrite process_run.
    assert (receives c) as C by (revert R; unfold read_selection; repeat case_match; intros [= <-]; done).
    set (q := queue _). assert (Forall receives q) as Fq by (apply Forall_app; by split; [|constructor]).
    unfold serving. rewrite receives_keep by done. destruct (run_commands_fields q (emptied (with_backend (backend w) [c] w))) as (-> & -> & _). done.
  - rewrite process_run. unfold serving. rewrite receives_keep by done. destruct (run_commands_fields (queue w) (emptied w)) as (-> & -> & _). done.
  - unfold serving. destruct (take_turn_fields (dispatch e) w) as (-> & -> & -> & _). split; [|done]. split; [|done]. rewrite <-S.
    destruct e as [| |[]| | | |]; try done; cbn; unfold on_offer_mime_type; by repeat case_match.
Qed.
Lemma quiet_run data l w : Forall quiet l -> serving data w -> serving data (run l w) /\ local_data (backend (run l w)) = local_data (backend w).
Proof.
  revert w. induction l as [|s l IH]; intros w F S; [done|]. apply Forall_cons in F as [Q F]. destruct (quiet_serving data s w Q S) as [S' L].
  destruct (IH (step s w) F S') as [? E].
  change (run (s :: l) w) with (run l (step s w)). by rewrite E, L.
Qed.

Lemma announce_alive p mimes w : alive p w -> announce_formats mimes w =
  (Ok tt, let data := announced_data mimes (pending w) in with_pending ∅ (with_backend (mkBackend (protocol (backend w)) true data mimes) [CmdSetSelection mimes data] w)).
Proof. intros (_ & _ & O). unfold announce_formats, set_clipboard, push. cbn -[announced_data]. by rewrite O. Qed.
Lemma provide_alive p mime data w : alive p w -> provide_data mime data w =
  (Ok tt, with_backend (backend w) [CmdUpdateSourceData mime data] (with_pending (<[mime := data]> (pending w)) w)).
Proof. intros (_ & _ & O). unfold provide_data, backend_update_source_data, push. cbn. by rewrite O. Qed.

Definition PLAIN : str := lit "text/plain".
Definition PLAIN8 : str := lit "text/plain;charset=utf-8".
Definition plain_data (b : list Z) : gmap str (list Z) := <[PLAIN := b]> {[PLAIN8 := b]}.
Lemma announced_plain b cache : announced_data [PLAIN; PLAIN8] (<[PLAIN8 := b]> (<[PLAIN := b]> cache)) = plain_data b.
Proof. unfold announced_data. cbn -[PLAIN PLAIN8]. rewrite lookup_insert_ne, lookup_insert_eq by done. cbn -[PLAIN PLAIN8]. by rewrite lookup_insert_eq. Qed.

Lemma write_text_alive p text w : alive p w -> exists w', write_text text w = (Ok tt, w') /\ alive p w' /\ wayland w' = wayland w /\ sent w' = sent w /\ pending w' = ∅ /\
  local_data (backend w') = plain_data (as_bytes text) /\ stopped w' = stopped w /\
  queue w' = queue w ++ [CmdUpdateSourceData PLAIN (as_bytes text); CmdUpdateSourceData PLAIN8 (as_bytes text); CmdSetSelection [PLAIN; PLAIN8] (plain_data (as_bytes text))].
Proof.
  intros A. unfold write_text. set (b := as_bytes text). clearbody b. rewrite (provide_alive p) by done. cbv iota beta.
  set (w1 := with_backend _ _ _). assert (alive p w1) as A1 by done. rewrite (provide_alive p) by done. cbv iota beta.
  set (w2 := with_backend _ _ _). assert (alive p w2) as A2 by done. rewrite (announce_alive p) by done. cbv zeta.
  change (announced_data _ (pending w2)) with (announced_data [PLAIN; PLAIN8] (<[PLAIN8 := b]> (<[PLAIN := b]> (pending w)))). rewrite announced_plain.
  eexists. split; [done|]. destruct A as (M & D & O). split_and!; try done. cbn. by rewrite <-!app_assoc.
Qed.

Lemma alive_step p s w : s <> Event EvFinished -> alive p w -> alive p (step s w).
Proof.
  intros N A. destruct s as [mimes|mime data|text|mime fd pipe| |e|]; cbn [step].
  - rewrite (announce_alive p) by done. by destruct A as (M & D & O).
  - rewrite (provide_alive p) by done. done.
  - by destruct (write_text_alive p text w A) as (w' & -> & A' & _).
  - unfold read_data. destruct (read_selection _ _ _ _); [done|]. cbn [snd]. rewrite process_run. by apply alive_commands.
  - rewrite process_run. by apply alive_commands.
  - destruct A as (M & D & O). unfold alive. destruct (take_turn_fields (dispatch e) w) as (-> & _ & -> & _). rewrite O.
    destruct e as [| |[]| | | |]; try done; cbn; unfold on_offer_mime_type; by repeat case_match.
  - done.
Qed.
Lemma alive_run p l w : Forall (fun s => s <> Event EvFinished) l -> alive p w -> alive p (run l w).
Proof. revert w. induction l as [|s l IH]; intros w F A; [done|]. apply Forall_cons in F as [N F]. by apply IH, alive_step. Qed.
Lemma alive_fresh p : alive p (fresh p).
Proof. done. Qed.

(** What the source holds serves every plain-text type. *)
Lemma plain_served mime b : base_mime mime = PLAIN -> source_lookup mime (plain_data b) = Some b.
Proof.
  intros E. unfold source_lookup. rewrite E. change (trim PLAIN) with PLAIN. unfold plain_data. rewrite (lookup_insert_eq _ PLAIN).
  destruct (decide (mime = PLAIN)) as [->|N]; [by rewrite lookup_insert_eq|]. rewrite lookup_insert_ne by done.
  destruct (decide (mime = PLAIN8)) as [->|N']; [by rewrite lookup_singleton_eq|]. by rewrite lookup_singleton_ne.
Qed.

Lemma text_published p text w : alive p w -> exists before src, let w' := step Loop (step (WriteText text) w) in
  serving (plain_data (as_bytes text)) w' /\ local_data (backend w') = plain_data (as_bytes text) /\ alive p w' /\
  sent w' = sent w ++ before ++ [SourceCreate src; SourceOffer src PLAIN; SourceOffer src PLAIN8; DeviceSetSelection src].
Proof.
  intros A. cbn [step]. destruct (write_text_alive p text w A) as (w1 & -> & A1 & W & S & _ & L & _ & Q). cbn [snd]. rewrite process_run, Q.
  unfold run_commands. rewrite foldl_app. change (foldl _ (emptied w1) (queue w)) with (run_commands (queue w) (emptied w1)).
  set (w2 := run_commands (queue w) (emptied w1)). assert (alive p w2) as A2 by by apply alive_commands.
  destruct (run_commands_fields (queue w) (emptied w1)) as (Q2 & B2 & _). fold w2 in Q2, B2. destruct (run_commands_sent (queue w) (emptied w1)) as [l S2]. fold w2 in S2.
  cbn [sent emptied] in S2. rewrite S in S2. clearbody w2. destruct A2 as (M & D & O).
  set (w3 := foldl _ w2 _). exists (l ++ destroy_source (current_source (wayland w2))), (next_source (wayland w2)). cbv zeta.
  assert (w3 = mkWorld (mkDataControl (Some p) (Some p) (current_offer (wayland w2)) (Some (next_source (wayland w2))) (plain_data (as_bytes text)) (pending_offer (wayland w2)) (shared_mimes (wayland w2)) (shared_serial (wayland w2)) (on_change (wayland w2)) (next_source (wayland w2) + 1)) (queue w2) (backend w2) (pending w2) (stopped w2) (told w3) (sent w3)) as E3.
  { subst w3. unfold take_turn, run_command, update_source_data, set_selection. cbn -[plain_data PLAIN PLAIN8]. rewrite M, D. cbn -[plain_data PLAIN PLAIN8]. rewrite bool_decide_true by done. done. }
  assert (sent w3 = sent w2 ++ destroy_source (current_source (wayland w2)) ++ [SourceCreate (next_source (wayland w2)); SourceOffer (next_source (wayland w2)) PLAIN; SourceOffer (next_source (wayland w2)) PLAIN8; DeviceSetSelection (next_source (wayland w2))]) as E4.
  { subst w3. clear E3. unfold take_turn, run_command, update_source_data, set_selection. cbn -[plain_data PLAIN PLAIN8]. rewrite M, D. cbn -[plain_data PLAIN PLAIN8]. rewrite bool_decide_true by done.
    cbn -[plain_data PLAIN PLAIN8]. rewrite !app_nil_r, <-!app_assoc. done. }
  rewrite S2 in E4. split_and!.
  - rewrite E3. split; [done|]. cbn. by rewrite Q2.
  - rewrite E3. cbn. by rewrite B2.
  - rewrite E3. by unfold alive.
  - rewrite E4. by rewrite <-!app_assoc.
Qed.

(** C26. Text written to the local clipboard is what every local program pastes.
    Whatever happened before, once the event loop has taken its turn our own
    source is the selection and offers exactly the two plain-text types, and
    until another program takes the selection, or the orchestrator announces
    something else, a paste of plain text under any charset receives exactly
    the text's UTF-8 bytes and the end of the data. *)
Theorem written_text_pasted p before text during mime fd :
  Forall (fun s => s <> Event EvFinished) before -> Forall quiet during -> base_mime mime = PLAIN ->
  let published := step Loop (step (WriteText text) (run before (fresh p))) in
  (exists l src, sent published = sent (run before (fresh p)) ++ l ++ [SourceCreate src; SourceOffer src PLAIN; SourceOffer src PLAIN8; DeviceSetSelection src]) /\
  let w := run during published in
  sent (step (Event (EvSend mime fd)) w) = sent w ++ [WriteFd fd (as_bytes text); CloseFd fd].
Proof.
  intros B Q E published. pose proof (alive_run p before _ B (alive_fresh p)) as A.
  destruct (text_published p text _ A) as (l & src & S & _ & _ & P). fold published in S, P. split; [by exists l, src|]. intros w.
  destruct (quiet_run _ during published Q S) as [[D _] _]. fold w in D. cbn [step]. destruct (take_turn_fields (dispatch (EvSend mime fd)) w) as (_ & _ & _ & _ & ->).
  cbn [dispatch]. unfold on_source_send. by rewrite D, plain_served.
Qed.

(** ** Reading the selection of another program *)

(** How the compositor announces the selection [o] of another program. *)
Definition offer_events (o : Z) (mimes : list str) : list Step :=
  Event (EvDataOffer o) :: map (fun m => Event (EvOffer m)) mimes ++ [Event (EvSelection true)].
(** Steps that are not about the compositor's selection. *)
Definition unrelated (s : Step) : Prop :=
  match s with Event (EvDataOffer _ | EvOffer _ | EvSelection _ | EvFinished) => False | _ => True end.

Lemma step_event e w : wayland (step (Event e) w) = (dispatch e (wayland w)).2.
Proof. apply take_turn_fields. Qed.
Lemma announce_wayland mimes w : wayland (announce_formats mimes w).2 = wayland w.
Proof. unfold announce_formats, set_clipboard, push. cbn -[announced_data]. by destruct (open (backend w)). Qed.
Lemma provide_wayland mime data w : wayland (provide_data mime data w).2 = wayland w.
Proof. unfold provide_data, backend_update_source_data, push. cbn. by destruct (open (backend w)). Qed.
Lemma write_text_wayland text w : wayland (write_text text w).2 = wayland w.
Proof.
  unfold write_text. pose proof (provide_wayland (lit "text/plain") (as_bytes text) w) as E1. destruct (provide_data (lit "text/plain") _ w) as [[] w1]; try done. cbn [snd] in E1.
  pose proof (provide_wayland (lit "text/plain;charset=utf-8") (as_bytes text) w1) as E2. destruct (provide_data _ _ w1) as [[] w2]; cbn [snd] in *; [by rewrite announce_wayland, E2|by rewrite E2..].
Qed.
Lemma unrelated_keeps s w : unrelated s -> current_offer (wayland (step s w)) = current_offer (wayland w) /\ shared_mimes (wayland (step s w)) = shared_mimes (wayland w).
Proof.
  intros U. destruct s as [mimes|mime data|text|mime fd pipe| |e|]; cbn [step]; try done.
  - by rewrite announce_wayland.
  - by rewrite provide_wayland.
  - by rewrite write_text_wayland.
  - unfold read_data. destruct (read_selection _ _ _ _) as [|c]; [done|]. cbn [snd]. rewrite process_run. destruct (run_commands_keeps (queue (with_backend (backend w) [c] w)) (emptied (with_backend (backend w) [c] w))) as (_ & _ & -> & ->). done.
  - rewrite process_run. destruct (run_commands_keeps (queue w) (emptied w)) as (_ & _ & -> & ->). done.
  - rewrite (proj1 (take_turn_fields _ _)). by destruct e as [| |[]| | | |].
Qed.
Lemma unrelated_run l w : Forall unrelated l -> current_offer (wayland (run l w)) = current_offer (wayland w) /\ shared_mimes (wayland (run l w)) = shared_mimes (wayland w).
Proof.
  revert w. induction l as [|s l IH]; intros w F; [done|]. apply Forall_cons in F as [U F]. change (run (s :: l) w) with (run l (step s w)).
  destruct (IH (step s w) F) as [-> ->]. by apply unrelated_keeps.
Qed.
Lemma run_app l1 l2 w : run (l1 ++ l2) w = run l2 (run l1 w).
Proof. apply foldl_app. Qed.

Lemma offered_mimes mimes o l w : pending_offer (wayland w) = Some (o, l) ->
  let w' := run (map (fun m => Event (EvOffer m)) mimes) w in pending_offer (wayland w') = Some (o, l ++ mimes) /\
  on_change (wayland w') = on_change (wayland w) /\ told w' = told w /\ stopped w' = stopped w.
Proof.
  revert l w. induction mimes as [|m mimes IH]; intros l w P w'; [subst w'; cbn; by rewrite app_nil_r|]. subst w'. cbn [map].
  change (run (Event (EvOffer m) :: ?k) w) with (run k (step (Event (EvOffer m)) w)). cbv zeta in IH. specialize (IH (l ++ [m]) (step (Event (EvOffer m)) w)).
  assert (step (Event (EvOffer m)) w = mkWorld (on_offer_mime_type m (wayland w)).2 (queue w) (backend w) (pending w) (stopped w) (told w) (sent w)) as E.
  { cbn [step dispatch]. unfold take_turn, on_offer_mime_type. rewrite P. cbn. unfold told_of. destruct (stopped w); cbn; by rewrite !app_nil_r. }
  rewrite E in IH |- *. unfold on_offer_mime_type in IH |- *. rewrite P in IH |- *. destruct (IH eq_refl) as (-> & -> & -> & ->). by rewrite <-app_assoc.
Qed.
Lemma offered o mimes w : let w' := run (offer_events o mimes) w in current_offer (wayland w') = Some o /\ shared_mimes (wayland w') = mimes /\
  told w' = told w ++ (if stopped w then [] else if on_change (wayland w) then [mimes] else []).
Proof.
  unfold offer_events. change (run (?s :: ?k) w) with (run k (step s w)). rewrite run_app. set (w1 := step _ w).
  assert (pending_offer (wayland w1) = Some (o, []) /\ on_change (wayland w1) = on_change (wayland w) /\ told w1 = told w /\ stopped w1 = stopped w) as (P & C & T & S).
  { subst w1. cbn. destruct (pending_offer (wayland w)) as [[]|]; unfold told_of; destruct (stopped w); cbn; by rewrite ?app_nil_r. }
  clearbody w1. destruct (offered_mimes mimes o [] w1 P) as (P' & C' & T' & S'). set (w2 := run _ w1) in *. clearbody w2. cbn.
  rewrite P'. cbn. split_and!; [done..|]. rewrite T', T, S', S. f_equal. unfold told_of, notify. rewrite C', C. destruct (stopped w); [done|].
  rewrite omap_app. destruct (current_offer (wayland w2)); cbn; by destruct (on_change (wayland w)).
Qed.

Lemma on_change_kept s w : on_change (wayland (step s w)) = on_change (wayland w).
Proof.
  assert (forall q v, on_change (wayland (run_commands q v)) = on_change (wayland v)) as K.
  { intros q. induction q as [|c q IH]; intros v; [done|]. change (run_commands (c :: q) v) with (run_commands q (take_turn (run_command c) v)). rewrite IH, (proj1 (take_turn_fields _ _)).
    destruct c; [|done..]. cbn. unfold set_selection. destruct (manager (wayland v)); [|done]. by case_bool_decide. }
  destruct s as [mimes|mime data|text|mime fd pipe| |e|]; cbn [step].
  - by rewrite announce_wayland.
  - by rewrite provide_wayland.
  - by rewrite write_text_wayland.
  - unfold read_data. destruct (read_selection _ _ _ _) as [|c]; [done|]. cbn [snd]. by rewrite process_run, K.
  - by rewrite process_run, K.
  - rewrite (proj1 (take_turn_fields _ _)). destruct e as [| |[]| | | |]; try done. cbn. unfold on_offer_mime_type. by destruct (pending_offer (wayland w)) as [[]|].
  - done.
Qed.
Lemma on_change_run l w : on_change (wayland (run l w)) = on_change (wayland w).
Proof. revert w. induction l as [|s l IH]; intros w; [done|]. change (run (s :: l) w) with (run l (step s w)). by rewrite IH, on_change_kept. Qed.

Lemma read_kept mime fd pipe w data : local_data (backend w) !! mime = Some data -> read_data mime (inl fd) pipe w = (Some (Ok data), w).
Proof. intros L. unfold read_data, read_selection. by rewrite L. Qed.

(** C27. What another program has copied can be read.  When the compositor
    announces its selection the orchestrator is told the offered types, unless
    the provider is stopped.  From then on, for a type that is not among the
    data we announced ourselves last (of such a type a read returns our own old
    data, see [copied_text_shadowed]), a read asks the offer for the offered type
    that matches best, hands over the writing end of the pipe, and, when the owner
    writes at most 100 MiB and closes the pipe without ever pausing for the 5
    seconds after which a read gives up and keeps what it has (see
    [stalled_read_truncated]), returns exactly what its owner writes; when nothing offered matches, nothing is asked and the answer
    is empty. *)
Theorem selection_read_exactly p before o mimes during mime fd chunks :
  Forall (fun s => s <> Event EvFinished) before -> Forall unrelated during ->
  Z.of_nat (length (concat chunks)) <= MAX_PIPE_SIZE ->
  let w0 := run before (fresh p) in let w1 := run (offer_events o mimes) w0 in let w := run during w1 in
  told w1 = told w0 ++ (if stopped w0 then [] else [mimes]) /\
  (local_data (backend w) !! mime = None ->
   match find_mime_match mime mimes with
   | None => read_data mime (inl fd) (map ReadBytes chunks ++ [ReadEof]) w = (Some (Ok []), w)
   | Some m => m ∈ mimes /\ exists w' l, read_data mime (inl fd) (map ReadBytes chunks ++ [ReadEof]) w = (Some (Ok (concat chunks)), w') /\
       sent w' = sent w ++ l ++ [OfferReceive o m fd; CloseFd fd]
   end).
Proof.
  intros B U L w0 w1 w. pose proof (alive_run p before _ B (alive_fresh p)) as A0. fold w0 in A0.
  destruct (offered o mimes w0) as (O1 & M1 & T1). fold w1 in O1, M1, T1. destruct (unrelated_run during w1 U) as [O M]. fold w in O, M. rewrite O1 in O. rewrite M1 in M.
  assert (alive p w) as (_ & _ & A).
  { apply alive_run; [eapply Forall_impl; [exact U|]; by intros s Us ->|]. apply alive_run; [|done]. unfold offer_events.
    constructor; [done|]. apply Forall_app. split; [|by repeat constructor]. apply Forall_map, Forall_true. by intros m. }
  split.
  - rewrite T1. do 2 f_equal. case_match; [done|]. unfold w0. by rewrite on_change_run.
  - intros K. unfold read_data, read_selection. rewrite K, M. destruct (find_mime_match mime mimes) as [m|] eqn:F; [|done].
    apply find_mime_match_sound in F as [I _]. split; [done|]. unfold push. rewrite A.
    assert (read_pipe [] (map ReadBytes chunks ++ [ReadEof]) = Some (Ok (some_if_any (concat chunks)))) as -> by by apply (read_pipe_chunks [] chunks []).
    rewrite process_run. cbn [queue with_backend]. unfold run_commands. rewrite foldl_app. change (foldl _ (emptied ?v) (queue w)) with (run_commands (queue w) (emptied v)).
    set (v := with_backend _ _ w). destruct (run_commands_keeps (queue w) (emptied v)) as (_ & _ & Ov & _). destruct (run_commands_sent (queue w) (emptied v)) as [l S].
    set (w2 := run_commands (queue w) (emptied v)) in *. clearbody w2. cbn [foldl]. exists (take_turn (run_command (CmdReceiveFromOffer m fd)) w2), l. split.
    + cbn. f_equal. f_equal. by destruct (concat chunks).
    + destruct (take_turn_fields (run_command (CmdReceiveFromOffer m fd)) w2) as (_ & _ & _ & _ & ->). cbn. rewrite S, Ov. cbn. rewrite O, <-app_assoc. done.
Qed.

(** ** Where it fails

    The backend keeps the data of the last announcement and looks there first,
    and nothing but the next announcement takes them away: after text came from
    the client, a later selection of another program is announced to the
    orchestrator, but every read of plain text returns the old text, and the
    offer is not asked. *)
Definition keeps_local (s : Step) : Prop := match s with Announce _ | Provide _ _ | WriteText _ => False | _ => True end.
Lemma keeps_local_run l w : Forall keeps_local l -> local_data (backend (run l w)) = local_data (backend w).
Proof.
  revert w. induction l as [|s l IH]; intros w F; [done|]. apply Forall_cons in F as [K F]. change (run (s :: l) w) with (run l (step s w)). rewrite IH by done. clear IH.
  destruct s as [| | |mime fd pipe| |e|]; try done; cbn [step].
  - unfold read_data. destruct (read_selection _ _ _ _) as [|c]; [done|]. cbn [snd]. rewrite process_run. by destruct (run_commands_fields (queue (with_backend (backend w) [c] w)) (emptied (with_backend (backend w) [c] w))) as (_ & -> & _).
  - rewrite process_run. by destruct (run_commands_fields (queue w) (emptied w)) as (_ & -> & _).
  - by destruct (take_turn_fields (dispatch e) w) as (_ & _ & -> & _).
Qed.
Lemma copied_text_shadowed p before text o mimes mime fd pipe :
  Forall (fun s => s <> Event EvFinished) before -> mime = PLAIN \/ mime = PLAIN8 ->
  let w := run (Event EvCancelled :: offer_events o mimes) (step Loop (step (WriteText text) (run before (fresh p)))) in
  read_data mime (inl fd) pipe w = (Some (Ok (as_bytes text)), w) /\ current_offer (wayland w) = Some o.
Proof.
  intros B M w. destruct (text_published p text _ (alive_run p before _ B (alive_fresh p))) as (_ & _ & _ & L & _). split.
  - apply read_kept. unfold w. rewrite keeps_local_run, L.
    + unfold plain_data. destruct M as [->| ->]; [by rewrite lookup_insert_eq|]. by rewrite lookup_insert_ne, lookup_singleton_eq.
    + constructor; [done|]. unfold offer_events. constructor; [done|]. apply Forall_app. split; [|by repeat constructor]. apply Forall_map, Forall_true. by intros.
  - unfold w. change (run (?s :: ?k) ?v) with (run k (step s v)). apply (offered o mimes).
Qed.

(** An owner that pauses for longer than the timeout is cut off: the read succeeds
    with what came before the pause. *)
Lemma stalled_read_truncated data chunks rest : Z.of_nat (length data + length (concat chunks)) <= MAX_PIPE_SIZE ->
  read_pipe data (map ReadBytes chunks ++ PollTimeout :: rest) = Some (Ok (some_if_any (data ++ concat chunks))).
Proof.
  revert data. induction chunks as [|c chunks IH]; intros data L; [by rewrite app_nil_r|]. cbn [concat map app read_pipe] in *. rewrite length_app in L.
  destruct (Z.ltb_spec MAX_PIPE_SIZE (Z.of_nat (length data) + Z.of_nat (length c))); [lia|]. rewrite IH by (rewrite length_app; lia). by rewrite <-app_assoc.
Qed.

(** ** Witnesses *)

Lemma written_text_pasted_witness :
  let before := offer_events 3 [lit "image/png"] ++ [Provide (lit "text/html") [60; 98; 62]] in
  let published := step Loop (step (WriteText (lit "hi")) (run before (fresh ExtDataControl))) in
  let w := run [Event (EvDataOffer 4); Loop; Read (lit "text/plain") 8 [PollTimeout]] published in
  sent (step (Event (EvSend (lit "text/plain;charset=UTF-8") 9)) w) = sent w ++ [WriteFd 9 [104; 105]; CloseFd 9].
Proof.
  intros before published w. apply (written_text_pasted ExtDataControl before (lit "hi") [Event (EvDataOffer 4); Loop; Read (lit "text/plain") 8 [PollTimeout]]); [|by repeat constructor|done].
  repeat (constructor; [done|]). constructor.
Defined.

Lemma selection_read_exactly_witness :
  let mimes := [lit "text/html"; lit "text/plain;charset=UTF-8"] in
  let w0 := run [WriteText (lit "old"); Loop; Announce []; Loop] (fresh WlrDataControl) in
  let w := run [Event EvCancelled; Loop] (run (offer_events 5 mimes) w0) in
  told w = told w0 ++ [mimes] /\ (read_data (lit "text/plain") (inl 7) (map ReadBytes [[110; 101]; [119]] ++ [ReadEof]) w).1 = Some (Ok (lit "new")).
Proof.
  intros mimes w0 w.
  destruct (selection_read_exactly WlrDataControl [WriteText (lit "old"); Loop; Announce []; Loop] 5 mimes [Event EvCancelled; Loop] (lit "text/plain") 7 [[110; 101]; [119]]) as [T R].
  - repeat (constructor; [done|]). constructor.
  - by repeat constructor.
  - done.
  - split; [vm_compute; reflexivity|]. destruct (R eq_refl) as [_ (w' & l & E & _)]. exact (f_equal fst E).
Defined.
