(* ===== verification/PortalServices.v ===== *)
(** * The portal's services: which protocol serves what

    The preferences for screen capture and input injection, their reading from
    the environment, the detection of what the compositor offers and the choice
    between it (services/capture/mod.rs, services/capture/detection.rs,
    services/input/mod.rs, services/input/detection.rs; the clipboard's are in
    PortalClipboard.v), and the settings the daemon resolves once at startup
    from its configuration and environment (config/portal_startup.rs). *)
From S2P Require Import Prelude Text PortalState PortalClipboard.

(** ** Screen capture *)

(** [services/capture/mod.rs:32-37 CaptureProtocol] *)
Inductive CaptureProtocol := ExtImageCopyCapture | WlrScreencopy.
#[export] Instance capture_protocol_eq_dec : EqDecision CaptureProtocol.
Proof. solve_decision. Defined.
(** [services/capture/mod.rs:40-45 fmt] *)
Definition capture_protocol_text (p : CaptureProtocol) : str :=
  match p with ExtImageCopyCapture => lit "ext-image-copy-capture-v1" | WlrScreencopy => lit "wlr-screencopy-v1" end.
(** The derived [Debug]. *)
Definition capture_protocol_debug (p : CaptureProtocol) : str :=
  match p with ExtImageCopyCapture => lit "ExtImageCopyCapture" | WlrScreencopy => lit "WlrScreencopy" end.

(** [services/capture/mod.rs:56-75 CapturePreference] *)
Record CapturePreference := mkCapture {
  preferred : option CaptureProtocol; allow_fallback : bool; handshake_timeout_ms : Z;
  broken_protocols : list CaptureProtocol; direct_frame_channel : bool }.
(** [services/capture/mod.rs:78-86 default] *)
Definition capture_default : CapturePreference := mkCapture None true 5000 [] false.
Definition with_preferred v (c : CapturePreference) := mkCapture v (allow_fallback c) (handshake_timeout_ms c) (broken_protocols c) (direct_frame_channel c).
Definition with_allow_fallback v (c : CapturePreference) := mkCapture (preferred c) v (handshake_timeout_ms c) (broken_protocols c) (direct_frame_channel c).
Definition with_handshake v (c : CapturePreference) := mkCapture (preferred c) (allow_fallback c) v (broken_protocols c) (direct_frame_channel c).

Definition u64_max : Z := 2 ^ 64 - 1.
(** [services/capture/mod.rs:96-122 from_env] *)
Definition capture_from_env `{Unicode} (env : environment) : CapturePreference :=
  let prefs := capture_default in
  let prefs := match env (lit "XDP_GENERIC_CAPTURE_PROTOCOL") with
    | None => prefs
    | Some protocol =>
        let p := str_to_lowercase protocol in
        if eqs p (lit "ext") || eqs p (lit "ext-image-copy-capture") then with_preferred (Some ExtImageCopyCapture) prefs
        else if eqs p (lit "wlr") || eqs p (lit "wlr-screencopy") then with_preferred (Some WlrScreencopy) prefs
        else prefs
    end in
  let prefs := match env (lit "XDP_GENERIC_CAPTURE_NO_FALLBACK") with Some _ => with_allow_fallback false prefs | None => prefs end in
  match env (lit "XDP_GENERIC_CAPTURE_TIMEOUT_MS") with
  | Some timeout => match parse_unsigned u64_max timeout with Some ms => with_handshake ms prefs | None => prefs end
  | None => prefs
  end.

(** [capture/detection.rs:15-21 AvailableCaptureProtocols] *)
Record AvailableCaptureProtocols := mkAvailable { has_ext : bool; has_wlr : bool }.
(** [capture/detection.rs:25-27 any] *)
Definition any_capture (a : AvailableCaptureProtocols) : bool := has_ext a || has_wlr a.
(** [capture/detection.rs:30-35 has] *)
Definition has_protocol (a : AvailableCaptureProtocols) (p : CaptureProtocol) : bool :=
  match p with ExtImageCopyCapture => has_ext a | WlrScreencopy => has_wlr a end.
(** [capture/detection.rs:43-48 detect] *)
Definition detect (p : AvailableProtocols) : AvailableCaptureProtocols := mkAvailable (ext_image_copy_capture p) (wlr_screencopy p).
(** [capture/detection.rs:135-140 fallback_for] *)
Definition fallback_for (p : CaptureProtocol) : CaptureProtocol :=
  match p with ExtImageCopyCapture => WlrScreencopy | WlrScreencopy => ExtImageCopyCapture end.

(** [capture/detection.rs:64-71 select] *)
Definition usable (prefs : CapturePreference) (a : AvailableCaptureProtocols) (p : CaptureProtocol) : bool :=
  has_protocol a p && negb (bool_decide (p ∈ broken_protocols prefs)).

Fixpoint join (sep : str) (l : list str) : str :=
  match l with [] => [] | [x] => x | x :: l => x ++ sep ++ join sep l end.
Definition bool_text (b : bool) : str := if b then lit "true" else lit "false".
(** [capture/detection.rs:121-131 select] *)
Definition no_capture (prefs : CapturePreference) (a : AvailableCaptureProtocols) : PortalError :=
  if negb (any_capture a)
  then ConfigError (lit "No capture protocols available. Compositor must support ext-image-copy-capture or wlr-screencopy.")
  else ConfigError (lit "No usable capture protocol: preferred=" ++
         (match preferred prefs with Some p => lit "Some(" ++ capture_protocol_debug p ++ lit ")" | None => lit "None" end) ++
         lit ", broken=[" ++ join (lit ", ") (map capture_protocol_debug (broken_protocols prefs)) ++
         lit "], fallback=" ++ bool_text (allow_fallback prefs)).

(** [capture/detection.rs:59-132 select] *)
Definition select (prefs : CapturePreference) (a : AvailableCaptureProtocols) : outcome PortalError CaptureProtocol :=
  match preferred prefs with
  | Some p =>
      if usable prefs a p then Ok p
      else if allow_fallback prefs && usable prefs a (fallback_for p) then Ok (fallback_for p)
      else Err (no_capture prefs a)
  | None =>
      if usable prefs a ExtImageCopyCapture then Ok ExtImageCopyCapture
      else if usable prefs a WlrScreencopy then Ok WlrScreencopy
      else Err (no_capture prefs a)
  end.

(** ** Input injection *)

(** [services/input/mod.rs:45-58 InputProtocol] *)
Inductive InputProtocol := Eis | WlrVirtualInput.
#[export] Instance input_protocol_eq_dec : EqDecision InputProtocol.
Proof. solve_decision. Defined.
(** [services/input/mod.rs:61-66 fmt] *)
Definition input_protocol_text (p : InputProtocol) : str := match p with Eis => lit "EIS" | WlrVirtualInput => lit "wlr-virtual-input" end.
Definition input_protocol_debug (p : InputProtocol) : str := match p with Eis => lit "Eis" | WlrVirtualInput => lit "WlrVirtualInput" end.

(** [services/input/mod.rs:229-248 WlrConfig] *)
Record WlrConfig := mkWlr { wayland_display : option str; wayland_socket_path : option str; expected_wayland_peer_uid : option Z; keyboard_layout : str }.
(** [services/input/mod.rs:251-258 default] *)
Definition wlr_default : WlrConfig := mkWlr None None None (lit "us").
(** [eis_socket_path] is the EIS part.
    [services/input/mod.rs:162-174 InputBackendConfig] *)
Record InputBackendConfig := mkInputConfig { input_preferred : InputProtocol; input_allow_fallback : bool; eis_socket_path : option str; wlr : WlrConfig }.
(** [services/input/mod.rs:177-185 default] *)
Definition input_default : InputBackendConfig := mkInputConfig Eis true None wlr_default.
Definition with_input_preferred v (c : InputBackendConfig) := mkInputConfig v (input_allow_fallback c) (eis_socket_path c) (wlr c).
Definition with_input_fallback v (c : InputBackendConfig) := mkInputConfig (input_preferred c) v (eis_socket_path c) (wlr c).
Definition with_eis_socket v (c : InputBackendConfig) := mkInputConfig (input_preferred c) (input_allow_fallback c) v (wlr c).
Definition with_wlr v (c : InputBackendConfig) := mkInputConfig (input_preferred c) (input_allow_fallback c) (eis_socket_path c) v.

(** [services/input/mod.rs:195-215 from_env] *)
Definition input_from_env `{Unicode} (env : environment) : InputBackendConfig :=
  let c := input_default in
  let c := match env (lit "XDP_GENERIC_INPUT_PROTOCOL") with
    | None => c
    | Some protocol =>
        let p := str_to_lowercase protocol in
        if eqs p (lit "eis") then with_input_preferred Eis c
        else if eqs p (lit "wlr") then with_input_preferred WlrVirtualInput c else c
    end in
  let c := match env (lit "XDP_GENERIC_INPUT_NO_FALLBACK") with Some _ => with_input_fallback false c | None => c end in
  match env (lit "XDP_GENERIC_EIS_SOCKET") with Some path => with_eis_socket (Some path) c | None => c end.

(** [input/detection.rs:14-20 AvailableProtocols] *)
Record AvailableInput := mkAvailableInput { eis_available : bool; wlr_virtual_input : bool }.
(** [input/detection.rs:24-26 any] *)
Definition any_input (a : AvailableInput) : bool := eis_available a || wlr_virtual_input a.
(** [input/detection.rs:29-34 has] *)
Definition has_input_protocol (a : AvailableInput) (p : InputProtocol) : bool := match p with Eis => eis_available a | WlrVirtualInput => wlr_virtual_input a end.
(** [input/detection.rs:42-53 detect] *)
Definition detect_input (p : AvailableProtocols) : AvailableInput :=
  let wlr_available := wlr_virtual_pointer p || zwp_virtual_keyboard p in mkAvailableInput wlr_available wlr_available.
(** [input/detection.rs:101-106 fallback_for] *)
Definition input_fallback_for (p : InputProtocol) : InputProtocol := match p with Eis => WlrVirtualInput | WlrVirtualInput => Eis end.
(** [input/detection.rs:62-98 select] *)
Definition select_input (c : InputBackendConfig) (a : AvailableInput) : outcome PortalError InputProtocol :=
  if has_input_protocol a (input_preferred c) then Ok (input_preferred c)
  else if input_allow_fallback c && has_input_protocol a (input_fallback_for (input_preferred c)) then Ok (input_fallback_for (input_preferred c))
  else if negb (any_input a)
  then Err (ConfigError (lit "No input protocols available. Compositor must support either EIS or wlr virtual input."))
  else Err (ConfigError (lit "Preferred protocol " ++ input_protocol_debug (input_preferred c) ++ lit " unavailable and fallback disabled")).

(** What [create_input_backend] sets out to make, before it connects.
    [services/input/mod.rs:276-311 create_input_backend] *)
Definition input_backend_kind (c : InputBackendConfig) (p : AvailableProtocols) : outcome PortalError InputProtocol :=
  protocol ← select_input c (detect_input p);
  match protocol with
  | Eis =>
      if negb (wlr_virtual_pointer p) && negb (zwp_virtual_keyboard p)
      then Err (ConfigError (lit "EIS bridge mode requires wlr virtual input protocols")) else Ok Eis
  | WlrVirtualInput => Ok WlrVirtualInput
  end.

(** ** The settings resolved at startup *)

(** The parts of the daemon's configuration that reach the portal. *)
Record Config := mkConfig {
  capture_protocol_name : str; capture_allow_fallback : bool; capture_handshake_ms : Z;
  clipboard_protocol_name : str; clipboard_allow_fallback : bool; input_keyboard_layout : str }.
(** [portal_startup.rs:30-34 PortalStartupSettings] *)
Record PortalStartupSettings := mkSettings { capture : CapturePreference; clipboard : ClipboardPreference; input : InputBackendConfig }.

(** [portal_startup.rs:109-116 capture_protocol] *)
Definition capture_protocol (value : str) : outcome str (option CaptureProtocol) :=
  if eqs value (lit "auto") then Ok None
  else if eqs value (lit "ext") || eqs value (lit "ext-image-copy-capture") then Ok (Some ExtImageCopyCapture)
  else if eqs value (lit "wlr") || eqs value (lit "wlr-screencopy") then Ok (Some WlrScreencopy)
  else Err (lit "unsupported capture protocol: " ++ value).
(** [portal_startup.rs:118-125 clipboard_protocol] *)
Definition clipboard_protocol (value : str) : outcome str (option ClipboardProtocol) :=
  if eqs value (lit "auto") then Ok None
  else if eqs value (lit "ext") || eqs value (lit "ext-data-control") then Ok (Some ExtDataControl)
  else if eqs value (lit "wlr") || eqs value (lit "wlr-data-control") then Ok (Some WlrDataControl)
  else Err (lit "unsupported clipboard protocol: " ++ value).
(** [portal_startup.rs:87-93 resolve] *)
Definition input_protocol (value : str) : outcome str InputProtocol :=
  if eqs value (lit "eis") then Ok Eis else if eqs value (lit "wlr") then Ok WlrVirtualInput
  else Err (lit "unsupported input protocol: " ++ value).

(** An override from the environment, when it is there. *)
Definition override {A} (value : option str) (f : str -> outcome str A) (old : A) : outcome str A :=
  match value with Some v => f v | None => Ok old end.

(** [portal_startup.rs:49-106 resolve] *)
Definition resolve (c : Config) (env : environment) : outcome str PortalStartupSettings :=
  cp ← capture_protocol (capture_protocol_name c);
  let cap := mkCapture cp (capture_allow_fallback c) (capture_handshake_ms c) [] true in
  bp ← clipboard_protocol (clipboard_protocol_name c);
  let layout := if eqs (input_keyboard_layout c) (lit "auto") then lit "us" else input_keyboard_layout c in
  let inp := with_wlr (mkWlr None None None layout) (with_input_preferred WlrVirtualInput input_default) in
  cp ← override (env (lit "XDP_GENERIC_CAPTURE_PROTOCOL")) capture_protocol (preferred cap);
  let cap := with_preferred cp cap in
  let cap := match env (lit "XDP_GENERIC_CAPTURE_NO_FALLBACK") with Some _ => with_allow_fallback false cap | None => cap end in
  t ← override (env (lit "XDP_GENERIC_CAPTURE_TIMEOUT_MS"))
        (fun v => ok_or (lit "XDP_GENERIC_CAPTURE_TIMEOUT_MS must be an integer") (parse_unsigned u64_max v)) (handshake_timeout_ms cap);
  let cap := with_handshake t cap in
  bp ← override (env (lit "XDP_GENERIC_CLIPBOARD_PROTOCOL")) clipboard_protocol bp;
  let bf := match env (lit "XDP_GENERIC_CLIPBOARD_NO_FALLBACK") with Some _ => false | None => clipboard_allow_fallback c end in
  ip ← override (env (lit "XDP_GENERIC_INPUT_PROTOCOL")) input_protocol (input_preferred inp);
  let inp := with_input_preferred ip inp in
  let inp := match env (lit "XDP_GENERIC_INPUT_NO_FALLBACK") with Some _ => with_input_fallback false inp | None => inp end in
  let inp := match env (lit "XDP_GENERIC_EIS_SOCKET") with Some path => with_eis_socket (Some path) inp | None => inp end in
  Ok (mkSettings cap (mkClipPref bp bf) inp).

(** [portal_startup.rs:18-27 ENV_KEYS] *)
Definition ENV_KEYS : list str := [
  lit "XDP_GENERIC_CAPTURE_PROTOCOL"; lit "XDP_GENERIC_CAPTURE_NO_FALLBACK"; lit "XDP_GENERIC_CAPTURE_TIMEOUT_MS";
  lit "XDP_GENERIC_CLIPBOARD_PROTOCOL"; lit "XDP_GENERIC_CLIPBOARD_NO_FALLBACK"; lit "XDP_GENERIC_INPUT_PROTOCOL";
  lit "XDP_GENERIC_INPUT_NO_FALLBACK"; lit "XDP_GENERIC_EIS_SOCKET"].
(** [portal_startup.rs:37-47 from_process] *)
Definition from_process (c : Config) (env : environment) : outcome str PortalStartupSettings :=
  resolve c (fun k => if bool_decide (k ∈ ENV_KEYS) then env k else None).

(** ** What is chosen *)

Section chosen.
Context (prefs : CapturePreference) (a : AvailableCaptureProtocols).

Lemma select_usable p : select prefs a = Ok p -> usable prefs a p = true.
Proof. unfold select. repeat case_match; try done; intros [= <-]; bool_cases; done. Qed.
Lemma select_never_panics : select prefs a <> Panic.
Proof. unfold select. by repeat case_match. Qed.
(** A protocol is refused only when none is allowed and usable. *)
Lemma select_refuses e : select prefs a = Err e -> forall p, usable prefs a p = true ->
  preferred prefs = Some (fallback_for p) /\ allow_fallback prefs = false.
Proof.
  unfold select. intros H p U. destruct (preferred prefs) as [q|].
  - destruct (usable prefs a q) eqn:Q; [done|]. assert (p = fallback_for q) as -> by (destruct p, q; congruence || done).
    rewrite U, andb_true_r in H. destruct (allow_fallback prefs); [done|]. by destruct q.
  - destruct (usable prefs a ExtImageCopyCapture) eqn:Q1; [done|]. destruct (usable prefs a WlrScreencopy) eqn:Q2; [done|]. destruct p; congruence.
Qed.
(** Without a preference the newer protocol wins whenever it is usable. *)
Lemma select_auto : preferred prefs = None -> usable prefs a ExtImageCopyCapture = true -> select prefs a = Ok ExtImageCopyCapture.
Proof. unfold select. by intros -> ->. Qed.
End chosen.

Lemma select_input_sound c a p : select_input c a = Ok p -> has_input_protocol a p = true /\ (p = input_preferred c \/ input_allow_fallback c = true /\ has_input_protocol a (input_preferred c) = false).
Proof. unfold select_input. repeat case_match; try done; intros [= <-]; bool_cases; auto. Qed.

(** The startup settings never list a protocol as broken, and always ask for
    the direct frame channel. *)
Lemma resolve_capture c env s : resolve c env = Ok s -> broken_protocols (capture s) = [] /\ direct_frame_channel (capture s) = true.
Proof.
  unfold resolve. intros H. repeat (apply bind_ok in H as (? & _ & H)). apply Ok_inj in H as <-. cbn -[lit]. by destruct (env (lit "XDP_GENERIC_CAPTURE_NO_FALLBACK")).
Qed.
