(* ===== verification/PortalCapture.v ===== *)
(** * Screen capture of the managed compositor

    The outputs the compositor announces (wayland/dispatch.rs), the capture
    backends that open streams on them (services/capture/wlr_backend.rs and
    ext_backend.rs) through PipeWire (pipewire/mod.rs) or the direct channel,
    the commands to the event loop (wayland/mod.rs), and the wlr-screencopy
    state machine that turns the compositor's events into frames
    (wayland/screencopy.rs).

    Outside are the compositor, the graphics memory (GBM) and shared memory:
    what an allocation or a mapping yields is an argument.  Sizes in bytes are
    computed in 32 bits, as in a release build. *)
From S2P Require Import Prelude Text PortalState PortalClipboard PortalServices.

(** ** Outputs *)

(** [wayland/dispatch.rs:64-87 OutputInfo] *)
Record OutputInfo := mkOutput {
  global_name : Z; output_name : option str; output_description : option str; out_physical : Z * Z;
  out_width : Z; out_height : Z; out_refresh : Z; out_position : Z * Z; output_done : bool }.
(** [wayland/dispatch.rs:91-104 to_source_info] *)
Definition to_source_info (o : OutputInfo) : SourceInfo :=
  mkSource (global_name o) (default (lit "output-" ++ fmt_dec (global_name o)) (output_name o)) (default [] (output_description o))
    (out_width o) (out_height o) (out_refresh o) Monitor.
(** [wayland/dispatch.rs:142-154 get_sources] *)
Definition output_sources (outputs : list OutputInfo) : list SourceInfo :=
  map to_source_info (List.filter (fun o => output_done o && (0 <? out_width o) && (0 <? out_height o)) outputs).

Inductive OutputEvent :=
| OutputGeometry (position physical : Z * Z) | OutputMode (current : bool) (width height refresh : Z)
| OutputName (name : str) | OutputDescription (text : str) | OutputDone.
(** Widths, heights and rates arrive as [i32] and are stored as [u32].
    [wayland/dispatch.rs:236-295 event] *)
Definition output_event (e : OutputEvent) (o : OutputInfo) : OutputInfo :=
  match e with
  | OutputGeometry p q => mkOutput (global_name o) (output_name o) (output_description o) q (out_width o) (out_height o) (out_refresh o) p (output_done o)
  | OutputMode true w h r => mkOutput (global_name o) (output_name o) (output_description o) (out_physical o) (wrap 32 w) (wrap 32 h) (wrap 32 r) (out_position o) (output_done o)
  | OutputMode false _ _ _ => o
  | OutputName n => mkOutput (global_name o) (Some n) (output_description o) (out_physical o) (out_width o) (out_height o) (out_refresh o) (out_position o) (output_done o)
  | OutputDescription t => mkOutput (global_name o) (output_name o) (Some t) (out_physical o) (out_width o) (out_height o) (out_refresh o) (out_position o) (output_done o)
  | OutputDone => mkOutput (global_name o) (output_name o) (output_description o) (out_physical o) (out_width o) (out_height o) (out_refresh o) (out_position o) true
  end.
Definition output_new (name : Z) : OutputInfo := mkOutput name None None (0, 0) 0 0 0 (0, 0) false.
(** An output that appears or goes once the connection is initialised.
    [wayland/dispatch.rs:160-210 event] *)
Definition registry_event (added : bool) (name : Z) (outputs : list OutputInfo) : list OutputInfo :=
  if added then outputs ++ [output_new name]
  else match position (fun o => global_name o =? name) outputs with Some i => delete i outputs | None => outputs end.

(** ** PipeWire *)

(** The manager without a PipeWire thread, or with the thread that answers the
    [n]-th command by [reply n].
    [pipewire/mod.rs:117-124 PipeWireManager] *)
Inductive PipeWireManager := PwDisabled | PwRunning (reply : nat -> outcome PortalError Z).
(** [pipewire/mod.rs:131-138 disabled] *)
Definition pipewire_disabled : PipeWireManager := PwDisabled.
(** [pipewire/mod.rs:348-360 create_stream] *)
Definition create_stream (pw : PipeWireManager) (n : nat) : outcome PortalError Z :=
  match pw with PwDisabled => Err (PipeWireError (lit "PipeWire thread not running")) | PwRunning reply => reply n end.

(** Where a call is made from: no runtime, one of its blocking threads, or one
    of its asynchronous tasks, where waiting for a future panics. *)
Inductive Caller := NoRuntime | BlockingThread | AsyncTask.
(** [capture/ext_backend.rs:95-105 create_capture_session] *)
Definition stream_from_pipewire (pw : PipeWireManager) (n : nat) (caller : Caller) : outcome PortalError Z :=
  match caller with
  | NoRuntime => Err (PipeWireError (lit "Cannot create PipeWire stream outside async context"))
  | AsyncTask => Panic
  | BlockingThread =>
      match create_stream pw n with
      | Ok id => Ok id
      | Err e => Err (PipeWireError (lit "Failed to create stream: " ++ portal_error_text e))
      | Panic => Panic
      end
  end.

(** ** The capture backends *)

(** [wayland/mod.rs:83-109 CaptureCommand] *)
Inductive CaptureCommand :=
| StartCapture (output_global_name node width height : Z) (cursor : CursorMode) | StopCapture (node : Z)
| CaptureScreenshot (output_global_name reply : Z).

(** Both backends: [direct] is the wlr backend's flag and [false] for ext;
    [created] counts the commands to PipeWire so far.
    [capture/wlr_backend.rs:25-36 WlrCaptureBackend] *)
Record CaptureBackend := mkCaptureBackend {
  capture_kind : CaptureProtocol; known_sources : list SourceInfo; active_streams : gmap Z StreamInfo;
  pipewire : PipeWireManager; created : nat; direct : bool }.
Definition with_active v (b : CaptureBackend) := mkCaptureBackend (capture_kind b) (known_sources b) v (pipewire b) (created b) (direct b).
Definition with_created v (b : CaptureBackend) := mkCaptureBackend (capture_kind b) (known_sources b) (active_streams b) (pipewire b) v (direct b).
(** [capture/wlr_backend.rs:40-53 new] *)
Definition wlr_new (sources : list SourceInfo) (pw : PipeWireManager) (d : bool) : CaptureBackend := mkCaptureBackend WlrScreencopy sources ∅ pw 0 d.
(** [capture/ext_backend.rs:40-51 new] *)
Definition ext_new (sources : list SourceInfo) (pw : PipeWireManager) : CaptureBackend := mkCaptureBackend ExtImageCopyCapture sources ∅ pw 0 false.

(** [capture/wlr_backend.rs:61-72 get_sources] *)
Definition get_sources (types : list SourceType) (b : CaptureBackend) : list SourceInfo :=
  match types with [] => known_sources b | _ => List.filter (fun s => bool_decide (source_type s ∈ types)) (known_sources b) end.

(** [capture/wlr_backend.rs:115-123 create_capture_session] *)
Definition stream_of (node : Z) (s : SourceInfo) : StreamInfo :=
  mkStream node (source_id s) (0, 0) (source_width s, source_height s) (source_type s) (Some (lit "output:" ++ source_name s)).
(** [capture/wlr_backend.rs:87-113 create_capture_session] *)
Definition stream_node (caller : Caller) (s : SourceInfo) (b : CaptureBackend) : outcome PortalError Z * CaptureBackend :=
  if direct b then (Ok (Z.max (source_id s) 1), b)
  else (stream_from_pipewire (pipewire b) (created b) caller, with_created (S (created b)) b).
(** The commands sent stay sent when a later source fails.
    [capture/wlr_backend.rs:74-165 create_capture_session] *)
Fixpoint create_capture_session (caller : Caller) (sources : list SourceInfo) (cursor : CursorMode) (b : CaptureBackend)
    : outcome PortalError (list StreamInfo) * list CaptureCommand * CaptureBackend :=
  match sources with
  | [] => (Ok [], [], b)
  | s :: sources =>
      if negb (existsb (fun k => source_id k =? source_id s) (known_sources b)) then (Err (SourceNotFound (source_id s)), [], b)
      else
        let '(r, b) := stream_node caller s b in
        match r with
        | Ok node =>
            let st := stream_of node s in
            let c := StartCapture (source_id s) node (source_width s) (source_height s) cursor in
            let '(r, cs, b) := create_capture_session caller sources cursor (with_active (<[node := st]> (active_streams b)) b) in
            (cons st <$> r, c :: cs, b)
        | Err e => (Err e, [], b)
        | Panic => (Panic, [], b)
        end
  end.
(** Waiting for PipeWire panics in a task, after the capture was stopped.
    [capture/wlr_backend.rs:167-192 destroy_capture_session] *)
Fixpoint destroy_capture_session (caller : Caller) (ids : list Z) (b : CaptureBackend) : outcome PortalError unit * list CaptureCommand * CaptureBackend :=
  match ids with
  | [] => (Ok tt, [], b)
  | id :: ids =>
      match active_streams b !! id with
      | Some _ =>
          let b := with_active (delete id (active_streams b)) b in
          match direct b, caller with
          | false, AsyncTask => (Panic, [StopCapture id], b)
          | _, _ => let '(r, cs, b) := destroy_capture_session caller ids b in (r, StopCapture id :: cs, b)
          end
      | None => destroy_capture_session caller ids b
      end
  end.
(** [capture/wlr_backend.rs:198-201 available_cursor_modes] *)
Definition available_cursor_modes (b : CaptureBackend) : Z :=
  let both := Z.lor (cursor_to_bits Hidden) (cursor_to_bits Embedded) in
  match capture_kind b with WlrScreencopy => both | ExtImageCopyCapture => Z.lor both (cursor_to_bits Metadata) end.
(** [capture/wlr_backend.rs:203-210 update_sources] *)
Definition update_sources (sources : list SourceInfo) (b : CaptureBackend) : CaptureBackend :=
  mkCaptureBackend (capture_kind b) sources (active_streams b) (pipewire b) (created b) (direct b).

(** A failed choice is not an error: the backend then has no sources.
    [services/capture/mod.rs:174-212 create_capture_backend] *)
Definition create_capture_backend (p : AvailableProtocols) (prefs : CapturePreference) (sources : list SourceInfo) (pw : PipeWireManager) : CaptureBackend :=
  match select prefs (detect p) with
  | Ok ExtImageCopyCapture => ext_new sources pw
  | Ok WlrScreencopy => wlr_new sources pw (direct_frame_channel prefs)
  | _ => ext_new [] pw
  end.

(** ** Screencopy: buffers and captures *)

(** [wayland/screencopy.rs:49-60 BufferFormatInfo] *)
Record BufferFormatInfo := mkFormat { format_raw : Z; fmt_width : Z; fmt_height : Z; fmt_stride : Z }.
#[export] Instance buffer_format_eq_dec : EqDecision BufferFormatInfo.
Proof. solve_decision. Defined.
(** [wayland/screencopy.rs:38-45 DmabufFormatInfo] *)
Record DmabufFormatInfo := mkDmaFormat { dma_format : Z; dma_width : Z; dma_height : Z }.

(** Buffers, frames and screenshot channels are known by numbers.
    [wayland/screencopy.rs:63-74 DmabufFrameBuffer] *)
Record DmabufFrameBuffer := mkDma { dma_id : Z; buf_width : Z; buf_height : Z; buf_stride : Z }.
(** [wayland/screencopy.rs:156-167 ShmFrameBuffer] *)
Record ShmFrameBuffer := mkShm { shm_id : Z; shm_size : Z; shm_format : BufferFormatInfo }.

(** [wayland/screencopy.rs:300-328 ActiveCapture] *)
Record ActiveCapture := mkActive {
  cap_output : Z; cursor_overlay : bool; dmabuf_buffer : option DmabufFrameBuffer; shm_buffer : option ShmFrameBuffer;
  pending_frame : option Z; pending_format : option BufferFormatInfo; pending_dmabuf_format : option DmabufFormatInfo;
  dmabuf_disabled : bool; buffer_done_received : bool; screenshot_reply : option Z }.
(** [wayland/screencopy.rs:334-345 RawFrame] *)
Record RawFrame := mkRaw { raw_data : list Z; raw_width : Z; raw_height : Z; raw_stride : Z; raw_format : Z }.

(** [wayland/screencopy.rs:348-366 ScreencopyState] *)
Record ScreencopyState := mkScreencopy {
  manager_bound : bool; manager_version : Z; frame_count : Z; captures : gmap Z ActiveCapture;
  pipewire_bound : bool; frame_tx : bool; shm_bound : bool; linux_dmabuf : bool; next_frame : Z; next_buffer : Z }.

(** Requests to the compositor, frames passed on and answers to screenshots. *)
Inductive Effect :=
| CaptureOutput (frame output : Z) (cursor : bool) | DestroyFrame (frame : Z) | CopyInto (frame buffer : Z)
| SendFrame (node : Z) (f : RawFrame) | QueueBuffer (node : Z) (f : RawFrame) | ReplyShot (reply : Z) (r : outcome str RawFrame).

(** What memory allocation and mapping yield: the stride of a new GBM buffer,
    the failure of shared memory, the failure to map, and whether anyone still
    receives frames. *)
Record Memory := mkMemory { gbm : option Z; shm_fails : bool; map_fails : bool; receiver : bool }.
Definition with_dmabuf_buffer (v : option DmabufFrameBuffer) (x : ActiveCapture) : ActiveCapture :=
  mkActive (cap_output x) (cursor_overlay x) v (shm_buffer x) (pending_frame x) (pending_format x) (pending_dmabuf_format x) (dmabuf_disabled x) (buffer_done_received x) (screenshot_reply x).
Definition with_shm_buffer (v : option ShmFrameBuffer) (x : ActiveCapture) : ActiveCapture :=
  mkActive (cap_output x) (cursor_overlay x) (dmabuf_buffer x) v (pending_frame x) (pending_format x) (pending_dmabuf_format x) (dmabuf_disabled x) (buffer_done_received x) (screenshot_reply x).
Definition with_pending_frame (v : option Z) (x : ActiveCapture) : ActiveCapture :=
  mkActive (cap_output x) (cursor_overlay x) (dmabuf_buffer x) (shm_buffer x) v (pending_format x) (pending_dmabuf_format x) (dmabuf_disabled x) (buffer_done_received x) (screenshot_reply x).
Definition with_pending_format (v : option BufferFormatInfo) (x : ActiveCapture) : ActiveCapture :=
  mkActive (cap_output x) (cursor_overlay x) (dmabuf_buffer x) (shm_buffer x) (pending_frame x) v (pending_dmabuf_format x) (dmabuf_disabled x) (buffer_done_received x) (screenshot_reply x).
Definition with_pending_dmabuf_format (v : option DmabufFormatInfo) (x : ActiveCapture) : ActiveCapture :=
  mkActive (cap_output x) (cursor_overlay x) (dmabuf_buffer x) (shm_buffer x) (pending_frame x) (pending_format x) v (dmabuf_disabled x) (buffer_done_received x) (screenshot_reply x).
Definition with_dmabuf_disabled (v : bool) (x : ActiveCapture) : ActiveCapture :=
  mkActive (cap_output x) (cursor_overlay x) (dmabuf_buffer x) (shm_buffer x) (pending_frame x) (pending_format x) (pending_dmabuf_format x) v (buffer_done_received x) (screenshot_reply x).
Definition with_buffer_done_received (v : bool) (x : ActiveCapture) : ActiveCapture :=
  mkActive (cap_output x) (cursor_overlay x) (dmabuf_buffer x) (shm_buffer x) (pending_frame x) (pending_format x) (pending_dmabuf_format x) (dmabuf_disabled x) v (screenshot_reply x).
Definition with_frame_count (v : Z) (x : ScreencopyState) : ScreencopyState :=
  mkScreencopy (manager_bound x) (manager_version x) v (captures x) (pipewire_bound x) (frame_tx x) (shm_bound x) (linux_dmabuf x) (next_frame x) (next_buffer x).
Definition with_captures (v : gmap Z ActiveCapture) (x : ScreencopyState) : ScreencopyState :=
  mkScreencopy (manager_bound x) (manager_version x) (frame_count x) v (pipewire_bound x) (frame_tx x) (shm_bound x) (linux_dmabuf x) (next_frame x) (next_buffer x).
Definition with_frame_tx (v : bool) (x : ScreencopyState) : ScreencopyState :=
  mkScreencopy (manager_bound x) (manager_version x) (frame_count x) (captures x) (pipewire_bound x) v (shm_bound x) (linux_dmabuf x) (next_frame x) (next_buffer x).
Definition with_next_frame (v : Z) (x : ScreencopyState) : ScreencopyState :=
  mkScreencopy (manager_bound x) (manager_version x) (frame_count x) (captures x) (pipewire_bound x) (frame_tx x) (shm_bound x) (linux_dmabuf x) v (next_buffer x).
Definition with_next_buffer (v : Z) (x : ScreencopyState) : ScreencopyState :=
  mkScreencopy (manager_bound x) (manager_version x) (frame_count x) (captures x) (pipewire_bound x) (frame_tx x) (shm_bound x) (linux_dmabuf x) (next_frame x) v.

(** [wayland/screencopy.rs:369-380 default] *)
Definition screencopy_default : ScreencopyState := mkScreencopy false 0 0 ∅ false false false false 0 0.
Abbreviation stepping := (ScreencopyState -> list Effect * ScreencopyState) (only parsing).
Definition with_capture (n : Z) (c : ActiveCapture) (s : ScreencopyState) : ScreencopyState := with_captures (<[n := c]> (captures s)) s.

(** A request for the output's next frame.
    [wayland/screencopy.rs:776-779 request_next_frame] *)
Definition ask_frame (c : ActiveCapture) (s : ScreencopyState) : list Effect * ActiveCapture * ScreencopyState :=
  ([CaptureOutput (next_frame s) (cap_output c) (cursor_overlay c)], with_pending_frame (Some (next_frame s)) c, with_next_frame (next_frame s + 1) s).

Definition active_new (output : Z) (overlay : bool) (reply : option Z) : ActiveCapture := mkActive output overlay None None None None None false false reply.
(** [wayland/screencopy.rs:387-433 start_capture] *)
Definition start_capture (output node : Z) (cursor : CursorMode) : stepping := fun s =>
  if negb (manager_bound s) then ([], s)
  else
    let '(es, c, s) := ask_frame (active_new output (bool_decide (cursor = Embedded)) None) s in (es, with_capture node c s).
(** [id] is the next of the screenshots' counter.
    [wayland/screencopy.rs:439-478 start_screenshot] *)
Definition start_screenshot (output id reply : Z) : stepping := fun s =>
  if negb (manager_bound s) then ([ReplyShot reply (Err (lit "Screencopy manager not bound"))], s)
  else
    let '(es, c, s) := ask_frame (active_new output true (Some reply)) s in (es, with_capture id c s).
Definition destroy_frame (c : ActiveCapture) : list Effect := match pending_frame c with Some f => [DestroyFrame f] | None => [] end.
(** [wayland/screencopy.rs:481-490 stop_capture] *)
Definition stop_capture (node : Z) : stepping := fun s =>
  match captures s !! node with
  | Some c => (destroy_frame c, with_captures (delete node (captures s)) s)
  | None => ([], s)
  end.

(** [wayland/screencopy.rs:566-569 allocate_and_copy] *)
Definition dma_fits (info : DmabufFormatInfo) (b : DmabufFrameBuffer) : bool := (buf_width b =? dma_width info) && (buf_height b =? dma_height info).
(** The DMA-BUF half: the capture after it, and the buffer to copy into.
    [wayland/screencopy.rs:565-594 allocate_and_copy] *)
Definition try_dmabuf (m : Memory) (c : ActiveCapture) (s : ScreencopyState) : option (Z * Z) * ActiveCapture * ScreencopyState :=
  match linux_dmabuf s, pending_dmabuf_format c with
  | true, Some info =>
      let '(c, s) :=
        match dmabuf_buffer c with
        | Some b =>
            if dma_fits info b then (c, s)
            else match gbm m with
                 | Some stride => (with_shm_buffer None (with_dmabuf_buffer (Some (mkDma (next_buffer s) (dma_width info) (dma_height info) stride)) c), with_next_buffer (next_buffer s + 1) s)
                 | None => (with_dmabuf_disabled true (with_pending_dmabuf_format None c), s)
                 end
        | None =>
            match gbm m with
            | Some stride => (with_shm_buffer None (with_dmabuf_buffer (Some (mkDma (next_buffer s) (dma_width info) (dma_height info) stride)) c), with_next_buffer (next_buffer s + 1) s)
            | None => (with_dmabuf_disabled true (with_pending_dmabuf_format None c), s)
            end
        end in
      (match pending_frame c, dmabuf_buffer c with Some f, Some b => Some (f, dma_id b) | _, _ => None end, c, s)
  | _, _ => (None, c, s)
  end.
(** [wayland/screencopy.rs:187-187 new] *)
Definition shm_bytes (f : BufferFormatInfo) : Z := wrap 32 (fmt_stride f * fmt_height f).
(** [wayland/screencopy.rs:182-238 new] *)
Definition shm_new (m : Memory) (f : BufferFormatInfo) (id : Z) : option ShmFrameBuffer :=
  if (shm_bytes f =? 0) || shm_fails m then None else Some (mkShm id (shm_bytes f) f).
(** The shared-memory half.
    [wayland/screencopy.rs:596-627 allocate_and_copy] *)
Definition try_shm (m : Memory) (c : ActiveCapture) (s : ScreencopyState) : option (Z * Z) * ActiveCapture * ScreencopyState :=
  match shm_bound s, pending_format c with
  | true, Some f =>
      let fits := match shm_buffer c with Some b => bool_decide (shm_format b = f) | None => false end in
      let made := if fits then Some (c, s)
        else match shm_new m f (next_buffer s) with
             | Some b => Some (with_shm_buffer (Some b) c, with_next_buffer (next_buffer s + 1) s)
             | None => None
             end in
      match made with
      | Some (c, s) => (match pending_frame c, shm_buffer c with Some fr, Some b => Some (fr, shm_id b) | _, _ => None end, c, s)
      | None => (None, c, s)
      end
  | _, _ => (None, c, s)
  end.
(** [wayland/screencopy.rs:556-627 allocate_and_copy] *)
Definition allocate_and_copy (node : Z) (m : Memory) : stepping := fun s =>
  match captures s !! node with
  | None => ([], s)
  | Some c =>
      let '(copy, c, s) := try_dmabuf m c s in
      match copy with
      | Some (f, b) => ([CopyInto f b], with_capture node c s)
      | None =>
          let '(copy, c, s) := try_shm m c s in
          (match copy with Some (f, b) => [CopyInto f b] | None => [] end, with_capture node c s)
      end
  end.

(** [wayland/screencopy.rs:496-522 on_frame_buffer] *)
Definition on_frame_buffer (node : Z) (f : BufferFormatInfo) (m : Memory) : stepping := fun s =>
  let s := match captures s !! node with
    | Some c => match pending_format c with None => with_capture node (with_pending_format (Some f) c) s | Some _ => s end
    | None => s
    end in
  if manager_version s <? 3 then allocate_and_copy node m s else ([], s).
(** [wayland/screencopy.rs:525-539 on_frame_linux_dmabuf] *)
Definition on_frame_linux_dmabuf (node : Z) (info : DmabufFormatInfo) : stepping := fun s =>
  match captures s !! node with
  | Some c =>
      match dmabuf_disabled c, pending_dmabuf_format c with
      | false, None => ([], with_capture node (with_pending_dmabuf_format (Some info) c) s)
      | _, _ => ([], s)
      end
  | None => ([], s)
  end.
(** [wayland/screencopy.rs:545-550 on_frame_buffer_done] *)
Definition on_frame_buffer_done (node : Z) (m : Memory) : stepping := fun s =>
  match captures s !! node with
  | Some c => allocate_and_copy node m (with_capture node (with_buffer_done_received true c) s)
  | None => ([], s)
  end.

(** [wayland/screencopy.rs:764-780 request_next_frame] *)
Definition request_next_frame (node : Z) : stepping := fun s =>
  if negb (manager_bound s) then ([], s)
  else match captures s !! node with
  | None => ([], s)
  | Some c =>
      let c := with_buffer_done_received false (with_pending_dmabuf_format None (with_pending_format None c)) in
      let '(es, c, s) := ask_frame c s in (es, with_capture node c s)
  end.

(** A buffer's memory, seen through a mapping of [size] bytes. *)
Definition mapped (size : Z) (bytes : list Z) : list Z := take (Z.to_nat size) (bytes ++ replicate (Z.to_nat size - length bytes) 0).
(** The pixels of the frame that is ready, or none when they cannot be read;
    [memory] is what the buffers hold.
    [wayland/screencopy.rs:643-680 on_frame_ready] *)
Definition ready_pixels (memory : Z -> list Z) (m : Memory) (c : ActiveCapture) : option RawFrame * ActiveCapture :=
  match dmabuf_buffer c with
  | Some b =>
      if map_fails m then (None, with_dmabuf_disabled true (with_pending_dmabuf_format None (with_dmabuf_buffer None c)))
      else (Some (mkRaw (mapped (wrap 32 (buf_stride b * buf_height b)) (memory (dma_id b))) (buf_width b) (buf_height b) (buf_stride b)
                    match pending_format c with Some f => format_raw f | None => 1 end), c)
  | None =>
      match shm_buffer c with
      | Some b => let f := shm_format b in
          (Some (mkRaw (mapped (shm_size b) (memory (shm_id b))) (fmt_width f) (fmt_height f) (fmt_stride f) (format_raw f)), c)
      | None => (None, c)
      end
  end.
Definition then_ (es : list Effect) (k : stepping) : stepping := fun s => let '(l, s) := k s in (es ++ l, s).
(** [wayland/screencopy.rs:634-733 on_frame_ready] *)
Definition on_frame_ready (node : Z) (memory : Z -> list Z) (m : Memory) : stepping := fun s =>
  let s := with_frame_count (wrap 64 (frame_count s + 1)) s in
  match captures s !! node with
  | None => ([], s)
  | Some c =>
      let gone := destroy_frame c in
      let '(pixels, c) := ready_pixels memory m (with_pending_frame None c) in
      let s := with_capture node c s in
      match pixels with
      | None => then_ gone (request_next_frame node) s
      | Some f =>
          match screenshot_reply c with
          | Some r => (gone ++ [ReplyShot r (Ok f)], with_captures (delete node (captures s)) s)
          | None =>
              if frame_tx s then
                if receiver m then then_ (gone ++ [SendFrame node f]) (request_next_frame node) s
                else then_ gone (stop_capture node) (with_frame_tx false s)
              else if pipewire_bound s then then_ (gone ++ [QueueBuffer node f]) (request_next_frame node) s
              else then_ gone (request_next_frame node) s
          end
      end
  end.
(** [wayland/screencopy.rs:739-761 on_frame_failed] *)
Definition on_frame_failed (node : Z) : stepping := fun s =>
  match captures s !! node with
  | None => request_next_frame node s
  | Some c =>
      let gone := destroy_frame c in let c := with_pending_frame None c in
      match screenshot_reply c with
      | Some r => (gone ++ [ReplyShot r (Err (lit "Screencopy frame capture failed"))], with_captures (delete node (captures s)) s)
      | None => then_ gone (request_next_frame node) (with_capture node c s)
      end
  end.

(** The compositor's events about a frame of a capture. *)
Inductive FrameEvent :=
| FrameBuffer (format : option BufferFormatInfo) | FrameFlags | FrameReady | FrameFailed | FrameDamage
| FrameDmabuf (info : DmabufFormatInfo) | FrameBufferDone.
(** A format the protocol does not know is [None].
    [wayland/dispatch.rs:418-490 event] *)
Definition frame_event (node : Z) (e : FrameEvent) (memory : Z -> list Z) (m : Memory) : stepping :=
  match e with
  | FrameBuffer (Some f) => on_frame_buffer node f m
  | FrameReady => on_frame_ready node memory m
  | FrameFailed => on_frame_failed node
  | FrameDmabuf info => on_frame_linux_dmabuf node info
  | FrameBufferDone => on_frame_buffer_done node m
  | FrameBuffer None | FrameFlags | FrameDamage => fun s => ([], s)
  end.

(** The event loop's handling of the commands when it uses wlr-screencopy; an
    output that is not known is skipped, a screenshot of it refused.
    [wayland/mod.rs:752-832 process_capture_commands] *)
Definition capture_command (outputs : list OutputInfo) (shot : Z) (c : CaptureCommand) : stepping := fun s =>
  let known n := existsb (fun o => global_name o =? n) outputs in
  match c with
  | StartCapture out node _ _ cursor => if known out then start_capture out node cursor s else ([], s)
  | StopCapture node => stop_capture node s
  | CaptureScreenshot out reply =>
      if known out then start_screenshot out shot reply s
      else ([ReplyShot reply (Err (lit "Output not found: " ++ fmt_dec out))], s)
  end.

(** ** One frame after the other

    A compositor that speaks version 3 of the protocol offers buffer types for
    the frame it was asked for, says that this was all, and once it has been
    given a buffer either fails or writes the frame into that buffer. *)
Record Cycle := mkCycle { offers : list FrameEvent; memory_of : Memory; written : list Z; fails : bool }.
Definition offering (e : FrameEvent) : Prop := match e with FrameReady | FrameFailed | FrameBufferDone => False | _ => True end.
Fixpoint first_shm (l : list FrameEvent) : option BufferFormatInfo :=
  match l with [] => None | FrameBuffer (Some f) :: _ => Some f | _ :: l => first_shm l end.
Fixpoint first_dma (l : list FrameEvent) : option DmabufFormatInfo :=
  match l with [] => None | FrameDmabuf i :: _ => Some i | _ :: l => first_dma l end.
Definition copied (es : list Effect) : option Z := match es with [CopyInto _ b] => Some b | _ => None end.

Fixpoint run_offers (node : Z) (l : list FrameEvent) (old : Z -> list Z) (m : Memory) : stepping := fun s =>
  match l with [] => ([], s) | e :: l => let '(es, s) := frame_event node e old m s in then_ es (run_offers node l old m) s end.
(** The buffer is handed over, then the frame fails or is written and ready;
    [old] is what the buffers held before. *)
Definition run_buffer (node : Z) (old : Z -> list Z) (c : Cycle) : stepping := fun s =>
  let '(es, s) := frame_event node FrameBufferDone old (memory_of c) s in
  match copied es with
  | None => (es, s)
  | Some b =>
      then_ es (if fails c then frame_event node FrameFailed old (memory_of c)
                else frame_event node FrameReady (fun id => if id =? b then written c else old id) (memory_of c)) s
  end.
Definition run_cycle (node : Z) (old : Z -> list Z) (c : Cycle) : stepping := fun s =>
  let '(es, s) := run_offers node (offers c) old (memory_of c) s in then_ es (run_buffer node old c) s.
Fixpoint run_cycles (node : Z) (old : Z -> list Z) (l : list Cycle) : stepping := fun s =>
  match l with [] => ([], s) | c :: l => let '(es, s) := run_cycle node old c s in then_ es (run_cycles node old l) s end.

(** What the frames should be: the graphics buffer in use, and whether graphics
    memory has been given up. *)
Record Spec := mkSpec { in_use : option (Z * Z * Z); given_up : bool }.
Definition spec_shm (c : Cycle) (sp : Spec) : option RawFrame * Spec :=
  (match first_shm (offers c) with
   | Some f => if fails c then None else Some (mkRaw (mapped (shm_bytes f) (written c)) (fmt_width f) (fmt_height f) (fmt_stride f) (format_raw f))
   | None => None
   end, sp).
Definition spec_dma (c : Cycle) (w h stride : Z) : option RawFrame * Spec :=
  if fails c then (None, mkSpec (Some (w, h, stride)) false)
  else if map_fails (memory_of c) then (None, mkSpec None true)
  else (Some (mkRaw (mapped (wrap 32 (stride * h)) (written c)) w h stride match first_shm (offers c) with Some f => format_raw f | None => 1 end),
        mkSpec (Some (w, h, stride)) false).
Definition spec_cycle (gpu : bool) (c : Cycle) (sp : Spec) : option RawFrame * Spec :=
  match gpu && negb (given_up sp), first_dma (offers c) with
  | true, Some i =>
      match in_use sp with
      | Some (w, h, stride) =>
          if (w =? dma_width i) && (h =? dma_height i) then spec_dma c w h stride
          else match gbm (memory_of c) with Some stride => spec_dma c (dma_width i) (dma_height i) stride | None => (None, sp) end
      | None =>
          match gbm (memory_of c) with Some stride => spec_dma c (dma_width i) (dma_height i) stride | None => spec_shm c (mkSpec None true) end
      end
  | _, _ => spec_shm c sp
  end.
Fixpoint spec_frames (gpu : bool) (l : list Cycle) (sp : Spec) : list RawFrame :=
  match l with [] => [] | c :: l => option_list (spec_cycle gpu c sp).1 ++ spec_frames gpu l (spec_cycle gpu c sp).2 end.

(** The conditions under which a cycle cannot go wrong: graphics memory, once
    used, stays on offer and can be allocated anew, shared memory can be
    allocated for an offered format, and frames are received. *)
Definition shm_possible (c : Cycle) : Prop := exists f, first_shm (offers c) = Some f /\ shm_bytes f <> 0 /\ shm_fails (memory_of c) = false.
Definition possible (gpu : bool) (c : Cycle) (sp : Spec) : Prop :=
  Forall offering (offers c) /\ receiver (memory_of c) = true /\
  match gpu && negb (given_up sp), first_dma (offers c) with
  | true, Some i => gbm (memory_of c) <> None \/ in_use sp = None /\ shm_possible c
  | _, _ => in_use sp = None /\ shm_possible c
  end.
Fixpoint all_possible (gpu : bool) (l : list Cycle) (sp : Spec) : Prop :=
  match l with [] => True | c :: l => possible gpu c sp /\ all_possible gpu l (spec_cycle gpu c sp).2 end.

Definition spec_of (c : ActiveCapture) : Spec := mkSpec ((fun b => (buf_width b, buf_height b, buf_stride b)) <$> dmabuf_buffer c) (dmabuf_disabled c).
(** A capture between two frames. *)
Record between (node : Z) (sp : Spec) (c : ActiveCapture) (s : ScreencopyState) : Prop := mkBetween {
  bt_capture : captures s !! node = Some c;
  bt_fresh : pending_format c = None /\ pending_dmabuf_format c = None /\ buffer_done_received c = false;
  bt_frame : is_Some (pending_frame c);
  bt_stream : screenshot_reply c = None;
  bt_spec : sp = spec_of c;
  bt_shm : forall b, shm_buffer c = Some b -> shm_size b = shm_bytes (shm_format b);
  bt_globals : manager_bound s = true /\ manager_version s = 3 /\ frame_tx s = true /\ shm_bound s = true }.

Lemma with_capture_twice n c c' s : with_capture n c (with_capture n c' s) = with_capture n c s.
Proof. unfold with_capture, with_captures. cbn. by rewrite insert_insert_eq. Qed.
Lemma captures_with n c s : captures (with_capture n c s) !! n = Some c.
Proof. unfold with_capture, with_captures. cbn. by rewrite lookup_insert_eq. Qed.
Lemma with_capture_id n c s : captures s !! n = Some c -> with_capture n c s = s.
Proof. intros E. unfold with_capture, with_captures. destruct s. cbn in *. by rewrite insert_id. Qed.

Lemma run_offers_spec node l old m c s : captures s !! node = Some c -> manager_version s = 3 -> Forall offering l ->
  run_offers node l old m s = ([], with_capture node
    (with_pending_format (match pending_format c with Some f => Some f | None => first_shm l end)
      (with_pending_dmabuf_format (match pending_dmabuf_format c with Some i => Some i | None => if dmabuf_disabled c then None else first_dma l end) c)) s).
Proof.
  revert c s. induction l as [|e l IH]; intros c s E V F.
  { cbn. rewrite with_capture_id; [done|]. rewrite E. f_equal. destruct c as [? ? ? ? ? pf pd dd ? ?]. unfold with_pending_format, with_pending_dmabuf_format. cbn. by destruct pf, pd, dd. }
  apply Forall_cons in F as [O F]. cbn [run_offers].
  assert (forall c', captures s !! node = Some c -> run_offers node l old m (with_capture node c' s) = ([], with_capture node
    (with_pending_format (match pending_format c' with Some f => Some f | None => first_shm l end)
      (with_pending_dmabuf_format (match pending_dmabuf_format c' with Some i => Some i | None => if dmabuf_disabled c' then None else first_dma l end) c')) s)) as K.
  { intros c' _. rewrite (IH c' (with_capture node c' s)) by (apply captures_with || done). by rewrite with_capture_twice. }
  specialize (IH c s E V F). unfold then_.
  destruct e as [[f|]| | | | |i|]; try done; cbn [frame_event first_shm first_dma].
  - unfold on_frame_buffer. rewrite E. destruct (pending_format c) as [g|] eqn:P; cbn beta iota zeta.
    + rewrite V. change (3 <? 3) with false. cbn iota beta. rewrite IH. cbn. by rewrite ?P.
    + replace (manager_version (with_capture node (with_pending_format (Some f) c) s)) with (manager_version s) by done. rewrite V. change (3 <? 3) with false. cbn iota beta.
      rewrite K by done. cbn. by rewrite ?P.
  - rewrite IH. done.
  - rewrite IH. done.
  - rewrite IH. done.
  - unfold on_frame_linux_dmabuf. rewrite E. destruct (dmabuf_disabled c) eqn:D; [rewrite IH; cbn; by destruct (pending_dmabuf_format c)|].
    destruct (pending_dmabuf_format c) as [j|] eqn:P; [rewrite IH; done|]. rewrite K by done. cbn. by rewrite ?P, ?D.
Qed.

(** The frames passed on, and the number of frames asked for. *)
Definition frames_sent (node : Z) (es : list Effect) : list RawFrame :=
  omap (fun e => match e with SendFrame n f => if n =? node then Some f else None | _ => None end) es.
Definition frames_asked (es : list Effect) : nat := length (List.filter (fun e => match e with CaptureOutput _ _ _ => true | _ => false end) es).

(** A capture whose frame is being made: what does not change while it is. *)
Record busy (node : Z) (c : ActiveCapture) (s : ScreencopyState) : Prop := mkBusy {
  bs_capture : captures s !! node = Some c;
  bs_frame : is_Some (pending_frame c);
  bs_stream : screenshot_reply c = None;
  bs_shm : forall b, shm_buffer c = Some b -> shm_size b = shm_bytes (shm_format b);
  bs_globals : manager_bound s = true /\ manager_version s = 3 /\ frame_tx s = true /\ shm_bound s = true }.

Lemma next_between node c s : captures s !! node = Some c -> screenshot_reply c = None ->
  (forall b, shm_buffer c = Some b -> shm_size b = shm_bytes (shm_format b)) ->
  manager_bound s = true /\ manager_version s = 3 /\ frame_tx s = true /\ shm_bound s = true ->
  exists f c' s', request_next_frame node s = ([CaptureOutput f (cap_output c) (cursor_overlay c)], s') /\ between node (spec_of c) c' s' /\ linux_dmabuf s' = linux_dmabuf s.
Proof.
  intros E R H (M & V & T & B). unfold request_next_frame. rewrite M, E. cbn -[with_capture]. eexists _, _, _. split; [done|]. split; [|done].
  constructor; [apply captures_with|done|by eexists|done..].
Qed.

Lemma failed_between node c s : busy node c s -> exists es c' s', on_frame_failed node s = (es, s') /\ between node (spec_of c) c' s' /\ linux_dmabuf s' = linux_dmabuf s /\
  frames_sent node es = [] /\ frames_asked es = 1%nat.
Proof.
  intros [E [f F] R H G]. unfold on_frame_failed. rewrite E. cbn [screenshot_reply with_pending_frame]. rewrite R.
  destruct (next_between node (with_pending_frame None c) (with_capture node (with_pending_frame None c) s)) as (f' & c' & s' & Q & B & L); [apply captures_with|done..|].
  unfold then_, destroy_frame. rewrite Q, F. by eexists _, c', s'.
Qed.
Lemma ready_between node memory m c c1 px s : busy node c s -> receiver m = true -> ready_pixels memory m (with_pending_frame None c) = (px, c1) ->
  exists es c' s', on_frame_ready node memory m s = (es, s') /\ between node (spec_of c1) c' s' /\ linux_dmabuf s' = linux_dmabuf s /\
  frames_sent node es = option_list px /\ frames_asked es = 1%nat.
Proof.
  intros [E [f F] R H G] V P. unfold on_frame_ready. cbn [captures with_frame_count]. rewrite E. rewrite P.
  assert (screenshot_reply c1 = None /\ (forall b, shm_buffer c1 = Some b -> shm_size b = shm_bytes (shm_format b)) /\ cap_output c1 = cap_output c) as (R1 & H1 & O1).
  { revert P. unfold ready_pixels. cbn [dmabuf_buffer with_pending_frame]. destruct (dmabuf_buffer c); [destruct (map_fails m)|cbn [shm_buffer with_pending_frame]; destruct (shm_buffer c) eqn:Sb]; intros [= <- <-]; cbn; split_and!; rewrite ?Sb; done. }
  set (s1 := with_capture node c1 _). destruct (next_between node c1 s1) as (f' & c' & s' & Q & B & L); [apply captures_with|done|done|done|].
  change (frame_tx s1) with (frame_tx s). destruct G as (_ & _ & T & _). unfold then_, destroy_frame. rewrite F. destruct px as [r|].
  - rewrite R1, T, V, Q. eexists _, c', s'. split_and!; try done. unfold frames_sent. cbn. by rewrite Z.eqb_refl.
  - rewrite Q. eexists _, c', s'. by split_and!.
Qed.

(** What a step before [ready] may change of a capture. *)
Definition same_frame (c c' : ActiveCapture) : Prop :=
  pending_frame c' = pending_frame c /\ screenshot_reply c' = screenshot_reply c /\ pending_format c' = pending_format c.
Definition same_globals (s s' : ScreencopyState) : Prop :=
  captures s' = captures s /\ manager_bound s' = manager_bound s /\ manager_version s' = manager_version s /\ frame_tx s' = frame_tx s /\
  shm_bound s' = shm_bound s /\ linux_dmabuf s' = linux_dmabuf s.
Lemma busy_again node c s c' s' : busy node c s -> same_frame c c' -> same_globals s s' ->
  (forall b, shm_buffer c' = Some b -> shm_size b = shm_bytes (shm_format b)) -> busy node c' (with_capture node c' s').
Proof.
  intros [E F R H G] (F' & R' & _) (_ & G1 & G2 & G3 & G4 & _) H'. constructor; [apply captures_with|by rewrite F'|by rewrite R'|done|].
  cbn. by rewrite G1, G2, G3, G4.
Qed.

Lemma try_shm_spec m c s f : is_Some (pending_frame c) -> (forall b, shm_buffer c = Some b -> shm_size b = shm_bytes (shm_format b)) -> shm_bound s = true -> pending_format c = Some f -> shm_bytes f <> 0 -> shm_fails m = false ->
  exists fr b c' s', try_shm m c s = (Some (fr, shm_id b), c', s') /\ shm_buffer c' = Some b /\ shm_format b = f /\ shm_size b = shm_bytes f /\
    dmabuf_buffer c' = dmabuf_buffer c /\ dmabuf_disabled c' = dmabuf_disabled c /\ same_frame c c' /\ same_globals s s'.
Proof.
  intros [fr F] H B P N A. unfold try_shm. rewrite B, P. destruct (shm_buffer c) as [b|] eqn:S.
  - destruct (bool_decide_reflect (shm_format b = f)) as [Q|Q].
    + rewrite F, S. exists fr, b, c, s. split_and!; try done. rewrite (H b eq_refl). by rewrite Q.
    + unfold shm_new. rewrite (proj2 (Z.eqb_neq _ _) N), A. cbn. rewrite F. eexists fr, (mkShm (next_buffer s) (shm_bytes f) f), _, _. by split_and!.
  - unfold shm_new. rewrite (proj2 (Z.eqb_neq _ _) N), A. cbn. rewrite F. eexists fr, (mkShm (next_buffer s) (shm_bytes f) f), _, _. by split_and!.
Qed.

(** The buffer that is copied into is the one that is read when the frame is
    ready, and it has the offered geometry. *)
Lemma arm_dma node m c s i : busy node c s -> linux_dmabuf s = true -> pending_dmabuf_format c = Some i -> gbm m <> None ->
  exists fr b c' s', allocate_and_copy node m s = ([CopyInto fr (dma_id b)], s') /\ busy node c' s' /\ linux_dmabuf s' = true /\
    dmabuf_buffer c' = Some b /\ same_frame c c' /\ dmabuf_disabled c' = dmabuf_disabled c /\
    buf_width b = dma_width i /\ buf_height b = dma_height i /\
    match dmabuf_buffer c with Some old => if dma_fits i old then b = old else gbm m = Some (buf_stride b) | None => gbm m = Some (buf_stride b) end.
Proof.
  intros K D P N. pose proof K as [E [fr F] R H G]. unfold allocate_and_copy. rewrite E. unfold try_dmabuf. rewrite D, P. destruct (gbm m) as [stride|] eqn:Q; [clear N|done].
  destruct (dmabuf_buffer c) as [old|] eqn:O; [destruct (dma_fits i old) eqn:T|].
  - rewrite F, O. exists fr, old, c, (with_capture node c s). split; [done|]. split; [by apply (busy_again node c s)|].
    unfold dma_fits in T. apply andb_prop in T as [T1%Z.eqb_eq T2%Z.eqb_eq]. by split_and!.
  - cbn -[with_capture]. rewrite F. eexists fr, (mkDma (next_buffer s) (dma_width i) (dma_height i) stride), _, _. split; [done|]. split; [by apply (busy_again node c s)|]. by split_and!.
  - cbn -[with_capture]. rewrite F. eexists fr, (mkDma (next_buffer s) (dma_width i) (dma_height i) stride), _, _. split; [done|]. split; [by apply (busy_again node c s)|]. by split_and!.
Qed.
Lemma arm_shm node m c s f : busy node c s -> dmabuf_buffer c = None -> pending_format c = Some f -> shm_bytes f <> 0 -> shm_fails m = false ->
  (linux_dmabuf s = true -> forall i, pending_dmabuf_format c = Some i -> gbm m = None) ->
  exists fr b c' s', allocate_and_copy node m s = ([CopyInto fr (shm_id b)], s') /\ busy node c' s' /\ linux_dmabuf s' = linux_dmabuf s /\
    dmabuf_buffer c' = None /\ same_frame c c' /\ shm_buffer c' = Some b /\ shm_format b = f /\ shm_size b = shm_bytes f /\
    dmabuf_disabled c' = match linux_dmabuf s, pending_dmabuf_format c with true, Some _ => true | _, _ => dmabuf_disabled c end.
Proof.
  intros K D P N A Q. pose proof K as [E F R H G]. unfold allocate_and_copy. rewrite E.
  assert (exists c1, try_dmabuf m c s = (None, c1, s) /\ dmabuf_buffer c1 = None /\ same_frame c c1 /\ shm_buffer c1 = shm_buffer c /\
    dmabuf_disabled c1 = match linux_dmabuf s, pending_dmabuf_format c with true, Some _ => true | _, _ => dmabuf_disabled c end) as (c1 & -> & D1 & (F1 & R1 & P1) & S1 & X1).
  { unfold try_dmabuf. destruct (linux_dmabuf s) eqn:L; [|by exists c]. destruct (pending_dmabuf_format c) as [i|] eqn:I; [|by exists c].
    rewrite D, (Q eq_refl i eq_refl). cbn. rewrite D. eexists. split; [by destruct (pending_frame c)|]. done. }
  destruct (try_shm_spec m c1 s f) as (fr & b & c2 & s2' & -> & S2 & B1 & B2 & D2 & X2 & (F2 & R2 & P2) & G2'); [by rewrite F1|by rewrite S1|apply G|by rewrite P1|done..|].
  exists fr, b, c2, (with_capture node c2 s2'). split; [done|]. split.
  { apply (busy_again node c s); [done| |done|by rewrite S2; intros ? [= <-]; rewrite B1, B2]. unfold same_frame. by rewrite F2, R2, P2. }
  split; [by destruct G2' as (_ & _ & _ & _ & _ & L2)|]. unfold same_frame. rewrite D2, X2, F2, R2, P2. by split_and!.
Qed.

(** What is read once the buffer is written is what was written. *)
Lemma read_dma content m c b old : dmabuf_buffer c = Some b -> map_fails m = false ->
  ready_pixels (fun id => if id =? dma_id b then content else old id) m (with_pending_frame None c) =
  (Some (mkRaw (mapped (wrap 32 (buf_stride b * buf_height b)) content) (buf_width b) (buf_height b) (buf_stride b) match pending_format c with Some f => format_raw f | None => 1 end), with_pending_frame None c).
Proof. intros D M. unfold ready_pixels. cbn [dmabuf_buffer with_pending_frame]. rewrite D, M, Z.eqb_refl. done. Qed.
Lemma read_shm content m c b old : dmabuf_buffer c = None -> shm_buffer c = Some b ->
  ready_pixels (fun id => if id =? shm_id b then content else old id) m (with_pending_frame None c) =
  (Some (mkRaw (mapped (shm_size b) content) (fmt_width (shm_format b)) (fmt_height (shm_format b)) (fmt_stride (shm_format b)) (format_raw (shm_format b))), with_pending_frame None c).
Proof. intros D S. unfold ready_pixels. cbn [dmabuf_buffer shm_buffer with_pending_frame]. by rewrite D, S, Z.eqb_refl. Qed.

Lemma frames_sent_app node a b : frames_sent node (a ++ b) = frames_sent node a ++ frames_sent node b.
Proof. apply omap_app. Qed.
Lemma frames_asked_app a b : frames_asked (a ++ b) = (frames_asked a + frames_asked b)%nat.
Proof. unfold frames_asked. by rewrite List.filter_app, length_app. Qed.

(** One cycle has done what the specification says. *)
Definition cycle_done (node : Z) (p : list Effect * ScreencopyState) (px : option RawFrame) (sp : Spec) (gpu : bool) : Prop :=
  exists c, between node sp c p.2 /\ linux_dmabuf p.2 = gpu /\ frames_sent node p.1 = option_list px /\ frames_asked p.1 = 1%nat.

Lemma buffer_done node cyc old s c fr b c2 s2 px c3 : captures s !! node = Some c ->
  allocate_and_copy node (memory_of cyc) (with_capture node (with_buffer_done_received true c) s) = ([CopyInto fr b], s2) ->
  busy node c2 s2 -> receiver (memory_of cyc) = true ->
  ready_pixels (fun id => if id =? b then written cyc else old id) (memory_of cyc) (with_pending_frame None c2) = (px, c3) ->
  cycle_done node (run_buffer node old cyc s) (if fails cyc then None else px) (spec_of (if fails cyc then c2 else c3)) (linux_dmabuf s2).
Proof.
  intros E A K V P. unfold run_buffer. cbn [frame_event]. unfold on_frame_buffer_done. rewrite E, A. cbn [copied]. unfold cycle_done, then_.
  destruct (fails cyc); cbn [frame_event].
  - destruct (failed_between node c2 s2 K) as (es & c' & s' & -> & B & L & S & N). by exists c'.
  - destruct (ready_between node _ _ c2 c3 px s2 K V P) as (es & c' & s' & -> & B & L & S & N). by exists c'.
Qed.

(** A capture that has been offered buffers. *)
Record offered (node : Z) (cyc : Cycle) (c : ActiveCapture) (s : ScreencopyState) : Prop := mkOffered {
  of_busy : busy node c s;
  of_shm : pending_format c = first_shm (offers cyc);
  of_dma : pending_dmabuf_format c = if dmabuf_disabled c then None else first_dma (offers cyc) }.

Lemma armed_busy node c s : busy node c s -> busy node (with_buffer_done_received true c) (with_capture node (with_buffer_done_received true c) s).
Proof. intros K. apply (busy_again node c s); [done..|apply K]. Qed.

Lemma dma_cycle node cyc old c s i : offered node cyc c s -> receiver (memory_of cyc) = true -> linux_dmabuf s = true -> dmabuf_disabled c = false ->
  first_dma (offers cyc) = Some i -> gbm (memory_of cyc) <> None ->
  cycle_done node (run_buffer node old cyc s) (spec_cycle true cyc (spec_of c)).1 (spec_cycle true cyc (spec_of c)).2 true.
Proof.
  intros [K Fs Fd] V L D I N. rewrite D, I in Fd.
  destruct (arm_dma node (memory_of cyc) _ _ i (armed_busy node c s K) L Fd N) as (fr & b & c2 & s2 & A & K2 & L2 & B & (W1 & W2 & W3) & D2 & Bw & Bh & Bs).
  assert (spec_cycle true cyc (spec_of c) = spec_dma cyc (buf_width b) (buf_height b) (buf_stride b)) as ->.
  { unfold spec_cycle, spec_of. cbn [given_up in_use]. rewrite D, I. cbn [andb negb]. rewrite Bw, Bh. destruct (dmabuf_buffer c) as [o|] eqn:O; cbn [fmap option_fmap option_map dmabuf_buffer with_buffer_done_received] in *; rewrite ?O in Bs; [|by rewrite Bs].
    unfold dma_fits in Bs. destruct ((buf_width o =? dma_width i) && (buf_height o =? dma_height i)) eqn:T; [|by rewrite Bs].
    apply andb_prop in T as [->%Z.eqb_eq ->%Z.eqb_eq]. by rewrite Bs. }
  assert (dmabuf_disabled c2 = false) as D2' by by rewrite D2. assert (pending_format c2 = first_shm (offers cyc)) as Fs2 by by rewrite W3.
  unfold spec_dma. destruct (map_fails (memory_of cyc)) eqn:M.
  - assert (ready_pixels (fun id => if id =? dma_id b then written cyc else old id) (memory_of cyc) (with_pending_frame None c2) = (None, with_dmabuf_disabled true (with_pending_dmabuf_format None (with_dmabuf_buffer None (with_pending_frame None c2))))) as P.
    { unfold ready_pixels. cbn [dmabuf_buffer with_pending_frame]. by rewrite B, M. }
    pose proof (buffer_done node cyc old s c fr (dma_id b) c2 s2 _ _ (bs_capture _ _ _ K) A K2 V P) as Q. rewrite L2 in Q. destruct (fails cyc); [|exact Q].
    unfold spec_of in Q. by rewrite B, D2' in Q.
  - pose proof (buffer_done node cyc old s c fr (dma_id b) c2 s2 _ _ (bs_capture _ _ _ K) A K2 V (read_dma _ _ c2 b old B M)) as Q. rewrite L2, Fs2 in Q.
    unfold spec_of in Q. destruct (fails cyc); cbn [dmabuf_buffer dmabuf_disabled with_pending_frame] in Q; rewrite B, D2' in Q; exact Q.
Qed.

Lemma shm_cycle node cyc old c s : offered node cyc c s -> receiver (memory_of cyc) = true -> dmabuf_buffer c = None -> shm_possible cyc ->
  (linux_dmabuf s = true -> dmabuf_disabled c = false -> forall i, first_dma (offers cyc) = Some i -> gbm (memory_of cyc) = None) ->
  cycle_done node (run_buffer node old cyc s) (spec_cycle (linux_dmabuf s) cyc (spec_of c)).1 (spec_cycle (linux_dmabuf s) cyc (spec_of c)).2 (linux_dmabuf s).
Proof.
  intros [K Fs Fd] V D (f & Pf & Nf & Af) Z. rewrite Pf in Fs.
  destruct (arm_shm node (memory_of cyc) _ _ f (armed_busy node c s K) D Fs Nf Af) as (fr & b & c2 & s2 & A & K2 & L2 & D2 & (W1 & W2 & W3) & B & Bf & Bs & X).
  { cbn. rewrite Fd. intros L. specialize (Z L). destruct (dmabuf_disabled c); [done|by apply Z]. }
  cbn in L2, X. pose proof (buffer_done node cyc old s c fr (shm_id b) c2 s2 _ _ (bs_capture _ _ _ K) A K2 V (read_shm _ _ c2 b old D2 B)) as Q.
  rewrite L2, Bf, Bs in Q.
  assert (spec_cycle (linux_dmabuf s) cyc (spec_of c) = spec_shm cyc (spec_of c2)) as ->.
  { unfold spec_cycle, spec_of. rewrite D2, X, Fd, D. cbn [given_up in_use fmap option_fmap option_map]. destruct (linux_dmabuf s); [|done]. specialize (Z eq_refl). destruct (dmabuf_disabled c); [done|].
    cbn [andb negb]. destruct (first_dma (offers cyc)) as [i|]; [|done]. by rewrite (Z eq_refl i eq_refl). }
  unfold spec_shm. rewrite Pf. by destruct (fails cyc).
Qed.

Lemma cycle_between node sp c s cyc old : between node sp c s -> possible (linux_dmabuf s) cyc sp ->
  cycle_done node (run_cycle node old cyc s) (spec_cycle (linux_dmabuf s) cyc sp).1 (spec_cycle (linux_dmabuf s) cyc sp).2 (linux_dmabuf s).
Proof.
  intros [E (F1 & F2 & F3) F R -> H G] (O & V & Q). unfold run_cycle. rewrite (run_offers_spec node _ _ _ c) by (done || apply G). rewrite F1, F2.
  set (c0 := with_pending_format _ _). set (s0 := with_capture node c0 s).
  assert (offered node cyc c0 s0) as K by (constructor; [constructor; [apply captures_with|done..]|done..]).
  assert (then_ [] (run_buffer node old cyc) s0 = run_buffer node old cyc s0) as -> by (unfold then_; by destruct (run_buffer node old cyc s0)).
  change (spec_of c) with (spec_of c0) in *. change (linux_dmabuf s) with (linux_dmabuf s0) in *. cbn [given_up in_use spec_of] in Q.
  destruct (linux_dmabuf s0 && negb (dmabuf_disabled c0)) eqn:T; [|destruct Q as [Q1 Q2]; apply shm_cycle; try done].
  - apply andb_prop in T as [T1 T2%negb_true_iff]. destruct (first_dma (offers cyc)) as [i|] eqn:I.
    + destruct (decide (gbm (memory_of cyc) = None)) as [N|N]; [destruct Q as [Q|[Q1 Q2]]; [done|]; apply shm_cycle; try done|].
      * by destruct (dmabuf_buffer c0).
      * rewrite T1. by apply (dma_cycle node cyc old c0 s0 i).
    + destruct Q as [Q1 Q2]. apply shm_cycle; try done; [by destruct (dmabuf_buffer c0)|]. intros _ _ i J. congruence.
  - by destruct (dmabuf_buffer c0).
  - intros L D. by rewrite L, D in T.
Qed.


(** A capture of output 7 begun in a compositor with DMA-BUF support. *)
Definition example_screencopy (gpu : bool) : ScreencopyState := mkScreencopy true 3 0 ∅ false true true gpu 0 0.
Definition example_started (gpu : bool) : ScreencopyState := (start_capture 7 7 Embedded (example_screencopy gpu)).2.
Definition example_shm : FrameEvent := FrameBuffer (Some (mkFormat 1 2 1 8)).
Definition example_cycle (gbm : option Z) (map_fails fails : bool) (first : Z) : Cycle :=
  mkCycle [example_shm; FrameFlags; FrameDmabuf (mkDmaFormat 875713112 2 1)] (mkMemory gbm false map_fails true) (map (fun k => first + k) [0; 1; 2; 3; 4; 5; 6; 7]) fails.
Definition example_cycles : list Cycle :=
  [example_cycle (Some 8) false false 10; example_cycle (Some 8) false true 20; example_cycle (Some 8) true false 30; example_cycle None false false 40].

(** ** Where frames are lost or wrong *)

Definition resized_cycle (gbm : option Z) (fails : bool) : Cycle :=
  mkCycle [FrameBuffer (Some (mkFormat 1 1 1 4)); FrameDmabuf (mkDmaFormat 875713112 1 1)] (mkMemory gbm false false true) [90; 91; 92; 93] fails.
(** When the output is resized and no new graphics buffer can be had, the old
    one, of the wrong size, is offered for the frame; and from then on every
    frame is written to shared memory while the old graphics buffer is what is
    delivered. *)
Lemma stale_after_failed_reallocation :
  let old id := if id =? 0 then [10; 11; 12; 13; 14; 15; 16; 17] else [] in
  let s1 := (run_cycle 7 old (example_cycle (Some 8) false false 10) (example_started true)).2 in
  let r2 := run_cycle 7 old (resized_cycle None true) s1 in
  let r3 := run_cycle 7 old (resized_cycle None false) r2.2 in
  r2.1 = [CopyInto 1 0; DestroyFrame 1; CaptureOutput 2 7 true] /\
  r3.1 = [CopyInto 2 1; DestroyFrame 2; SendFrame 7 (mkRaw [10; 11; 12; 13; 14; 15; 16; 17] 2 1 8 1); CaptureOutput 3 7 true].
Proof. by vm_compute. Qed.

(** Likewise when the compositor stops offering graphics memory. *)
Lemma stale_without_offer :
  let old id := if id =? 0 then [10; 11; 12; 13; 14; 15; 16; 17] else [] in
  let s1 := (run_cycle 7 old (example_cycle (Some 8) false false 10) (example_started true)).2 in
  frames_sent 7 (run_cycle 7 old (mkCycle [example_shm] (mkMemory None false false true) [50; 51; 52; 53; 54; 55; 56; 57] false) s1).1 =
    [mkRaw [10; 11; 12; 13; 14; 15; 16; 17] 2 1 8 1].
Proof. by vm_compute. Qed.

(** A frame for which no buffer can be had is never copied, destroyed or asked
    for again: the capture stops for good without a word to its client. *)
Lemma capture_stalls node old c s cyc : captures s !! node = Some c -> manager_version s = 3 -> linux_dmabuf s = false ->
  pending_format c = None -> shm_buffer c = None -> Forall offering (offers cyc) ->
  first_shm (offers cyc) = None \/ shm_fails (memory_of cyc) = true ->
  (run_cycle node old cyc s).1 = [].
Proof.
  intros E V L P S O N. unfold run_cycle. rewrite (run_offers_spec node _ _ _ c) by done. rewrite P. cbn [then_ app fst].
  set (c' := with_pending_format _ _). set (s' := with_capture node c' s).
  unfold then_, run_buffer. cbn [frame_event]. unfold on_frame_buffer_done. change (captures s' !! node) with (captures (with_capture node c' s) !! node). rewrite captures_with.
  unfold allocate_and_copy. rewrite captures_with. unfold try_dmabuf.
  change (linux_dmabuf (with_capture node (with_buffer_done_received true c') s')) with (linux_dmabuf s). rewrite L.
  unfold try_shm. cbn [pending_format with_buffer_done_received c' with_pending_format shm_buffer]. cbn [shm_bound with_capture with_captures s'].
  change (shm_buffer (with_pending_dmabuf_format _ c)) with (shm_buffer c). rewrite S.
  destruct (shm_bound s), (first_shm (offers cyc)) as [f|]; try done. destruct N as [|N]; [done|]. unfold shm_new. by rewrite N, orb_true_r.
Qed.

(** A compositor with ext-image-copy-capture is captured through it whenever
    nothing else is asked for; that backend asks PipeWire for its streams, and
    with PipeWire disabled no session can be created. *)
Lemma ext_capture_never_starts p prefs sources s rest cursor :
  usable prefs (detect p) ExtImageCopyCapture = true -> preferred prefs = None -> In s sources ->
  (create_capture_session BlockingThread (s :: rest) cursor (create_capture_backend p prefs sources pipewire_disabled)).1.1 =
  Err (PipeWireError (lit "Failed to create stream: PipeWire error: PipeWire thread not running")).
Proof.
  intros U P I. unfold create_capture_backend, select. rewrite P, U. cbn -[lit existsb].
  assert (existsb (fun k => source_id k =? source_id s) sources = true) as -> by (apply existsb_exists; exists s; by rewrite Z.eqb_refl).
  reflexivity.
Qed.
