(* ===== verification/PortalInput.v ===== *)
(** * Virtual input devices

    The input backend that creates virtual pointers and keyboards in the managed
    compositor and sends them the events of the RDP client
    (services/input/wlr_backend.rs), and the bridge that accepts EIS clients in
    front of it (services/input/eis_bridge.rs).

    The xkbcommon library, the Wayland connection and the EIS sockets are
    outside: a keymap with its state, the failures of a call and the requests of
    an EIS client are arguments. *)
From S2P Require Import Prelude Text Float PortalState PortalClipboard PortalServices.

(** What the library compiles from a layout: the keymap's text, its keysyms by
    keycode and level, and the state that follows the keys. *)
Record Xkb (X : Type) := mkXkb {
  keymap_text : str; min_keycode : Z; max_keycode : Z; keysyms : Z -> list (list Z);
  initial : X; update_key : Z -> bool -> X -> X; serialize : X -> Z * Z * Z * Z }.
Arguments mkXkb {X}. Arguments keymap_text {X}. Arguments min_keycode {X}. Arguments max_keycode {X}. Arguments keysyms {X}.
Arguments initial {X}. Arguments update_key {X}. Arguments serialize {X}.

(** The failures of one call: writing the keymap to memory, writing to the
    connection, and waiting for the compositor. *)
Record Link := mkLink { memfd_error : option str; flush_error : option str; roundtrip_error : option str }.
Definition healthy : Link := mkLink None None None.

(** The requests, by the number of the device they are for. *)
Inductive VirtualRequest :=
| NewPointer (d : Z) | NewKeyboard (d : Z) | SetKeymap (d : Z) (text : list Z) | DestroyDevice (d : Z)
| PMotion (d time : Z) (dx dy : spec_float) | PMotionAbsolute (d time x y x_extent y_extent : Z) | PFrame (d : Z)
| PButton (d time button : Z) (state : ButtonState) | PAxisSource (d : Z) (wheel : bool)
| PAxis (d time : Z) (a : ScrollAxis) (value : spec_float) | PAxisStop (d time : Z) (a : ScrollAxis)
| PAxisDiscrete (d time : Z) (a : ScrollAxis) (value : spec_float) (steps : Z)
| VKey (d time code state : Z) | VModifiers (d : Z) (masks : Z * Z * Z * Z).

(** [xdg/types.rs:92-103 StreamOutputMapping] *)
Record StreamOutputMapping := mkMapping { stream_node_id : Z; map_x : Z; map_y : Z; map_width : Z; map_height : Z }.
(** [input/wlr_backend.rs:136-141 WlrSessionContext] *)
Record WlrSessionContext := mkContext { ctx_pointer : option Z; ctx_keyboard : option Z }.
(** The protocols that were found, the sessions and where the streams are.
    [input/wlr_backend.rs:104-118 WlrInputBackend] *)
Record WlrInputBackend (X : Type) := mkWlrInput {
  pointer_manager : bool; keyboard_manager : bool; seat : bool; xkb : Xkb X; xkb_state : X;
  contexts : gmap str WlrSessionContext; stream_mappings : gmap Z StreamOutputMapping; next_device : Z }.
Arguments mkWlrInput {X}. Arguments pointer_manager {X}. Arguments keyboard_manager {X}. Arguments seat {X}. Arguments xkb {X}. Arguments xkb_state {X}.
Arguments contexts {X}. Arguments stream_mappings {X}. Arguments next_device {X}.
Definition with_xkb_state {X} (v : X) (b : WlrInputBackend X) := mkWlrInput (pointer_manager b) (keyboard_manager b) (seat b) (xkb b) v (contexts b) (stream_mappings b) (next_device b).
Definition with_contexts {X} v (b : WlrInputBackend X) := mkWlrInput (pointer_manager b) (keyboard_manager b) (seat b) (xkb b) (xkb_state b) v (stream_mappings b) (next_device b).
Definition with_stream_mappings {X} v (b : WlrInputBackend X) := mkWlrInput (pointer_manager b) (keyboard_manager b) (seat b) (xkb b) (xkb_state b) (contexts b) v (next_device b).
Definition with_next_device {X} v (b : WlrInputBackend X) := mkWlrInput (pointer_manager b) (keyboard_manager b) (seat b) (xkb b) (xkb_state b) (contexts b) (stream_mappings b) v.

(** [input/wlr_backend.rs:76-80 keymap_payload] *)
Definition keymap_payload (keymap : str) : list Z := as_bytes (rev (drop_while (fun c => c =? 0) (rev keymap))) ++ [0].

(** The managers found in the compositor; neither is an error.
    [input/wlr_backend.rs:296-343 bind_globals] *)
Definition bind_globals (pointer keyboard : bool) : outcome PortalError unit :=
  if negb pointer && negb keyboard then Err (ConfigError (lit "Neither virtual pointer nor virtual keyboard protocols available")) else Ok tt.
(** The connection, with whatever made it fail, and the keymap the library
    compiles for the layout.
    [input/wlr_backend.rs:148-208 new] *)
Definition wlr_input_new {X} (connected : outcome PortalError unit) (pointer keyboard has_seat : bool) (compile : str -> option (Xkb X)) (c : WlrConfig)
    : outcome PortalError (WlrInputBackend X) :=
  _ ← connected;
  _ ← bind_globals pointer keyboard;
  k ← ok_or (ConfigError (lit "Failed to create XKB keymap from default rules")) (compile (keyboard_layout c));
  Ok (mkWlrInput pointer keyboard has_seat k (initial k) ∅ ∅ 0).

Section wlr.
Context {X : Type}.
Abbreviation Backend := (WlrInputBackend X) (only parsing).
Implicit Types (b : WlrInputBackend X) (l : Link).

(** [input/wlr_backend.rs:428-433 flush] *)
Definition flush l : outcome PortalError unit :=
  match flush_error l with Some e => Err (WaylandError (lit "flush failed (connection may be broken): " ++ e)) | None => Ok tt end.
(** [input/wlr_backend.rs:346-350 create_pointer] *)
Definition create_pointer b : option Z * list VirtualRequest * WlrInputBackend X :=
  if pointer_manager b then (Some (next_device b), [NewPointer (next_device b)], with_next_device (next_device b + 1) b) else (None, [], b).
(** The keymap, sent while its file is open; whether that failed.
    [input/wlr_backend.rs:254-293 set_keyboard_keymap] *)
Definition set_keyboard_keymap l (d : Z) (text : str) : bool * list VirtualRequest :=
  match memfd_error l with
  | Some _ => (false, [])
  | None => (match flush_error l with Some _ => false | None => true end, [SetKeymap d (keymap_payload text)])
  end.
(** [input/wlr_backend.rs:353-376 create_keyboard] *)
Definition create_keyboard l b : option Z * list VirtualRequest * WlrInputBackend X :=
  if keyboard_manager b && seat b then
    let d := next_device b in
    let '(ok, rs) := set_keyboard_keymap l d (keymap_text (xkb b)) in
    let b := with_next_device (d + 1) b in
    if ok then (Some d, NewKeyboard d :: rs, b) else (None, NewKeyboard d :: rs ++ [DestroyDevice d], b)
  else (None, [], b).

(** [input/wlr_backend.rs:441-493 create_context] *)
Definition create_context l (session : str) (devices : DeviceTypes) b : outcome PortalError unit * list VirtualRequest * WlrInputBackend X :=
  match contexts b !! session with
  | Some _ => (Err (InvalidSession (lit "wlr context already exists for session " ++ session)), [], b)
  | None =>
      let '(p, rs1, b) := if pointer devices then create_pointer b else (None, [], b) in
      let '(k, rs2, b) := if keyboard devices then create_keyboard l b else (None, [], b) in
      (match flush l with
       | Ok _ => match roundtrip_error l with Some e => Err (WaylandError (lit "input context roundtrip failed: " ++ e)) | None => Ok tt end
       | r => r
       end, rs1 ++ rs2,
       match flush_error l, roundtrip_error l with None, None => with_contexts (<[session := mkContext p k]> (contexts b)) b | _, _ => b end)
  end.
Definition destroy_device (d : option Z) : list VirtualRequest := match d with Some d => [DestroyDevice d] | None => [] end.
(** [input/wlr_backend.rs:495-508 destroy_context] *)
Definition destroy_context l (session : str) b : outcome PortalError unit * list VirtualRequest * WlrInputBackend X :=
  match contexts b !! session with
  | Some c => (flush l, destroy_device (ctx_pointer c) ++ destroy_device (ctx_keyboard c), with_contexts (delete session (contexts b)) b)
  | None => (Ok tt, [], b)
  end.

(** ** Where the pointer goes *)

Definition mapped_outputs b : list StreamOutputMapping := (map_to_list (stream_mappings b)).*2.
Definition least (l : list Z) : Z := match l with [] => 0 | x :: l => foldr Z.min x l end.
Definition greatest (l : list Z) : Z := match l with [] => 1 | x :: l => foldr Z.max x l end.
(** [input/wlr_backend.rs:387-421 compute_output_bounds] *)
Definition compute_output_bounds b : Z * Z * Z * Z :=
  match mapped_outputs b with
  | [] => (0, 0, 1920, 1080)
  | l =>
      let min_x := least (map map_x l) in let min_y := least (map map_y l) in
      let max_x := greatest (map (fun m => map_x m + map_width m) l) in let max_y := greatest (map (fun m => map_y m + map_height m) l) in
      (min_x, min_y, wrap 32 (Z.max (max_x - min_x) 1), wrap 32 (Z.max (max_y - min_y) 1))
  end.
Definition extent : Z := 10000.
(** One axis of a position on an output, in ten-thousandths of all outputs.
    [input/wlr_backend.rs:544-558 inject_event] *)
Definition to_extent (pos : Z) (v : spec_float) (size origin total : Z) : Z :=
  let pixel := add64 (f64_of_Z pos) (mul64 v (f64_of_Z size)) in
  as_uint (2 ^ 32 - 1) (mul64 (fclamp (div64 (sub64 pixel (f64_of_Z origin)) (f64_of_Z total)) fzero (f64_of_Z 1)) (f64_of_Z extent)).
(** [input/wlr_backend.rs:540-567 inject_event] *)
Definition absolute_position b (stream : Z) (x y : spec_float) : Z * Z :=
  match stream_mappings b !! stream with
  | Some m => let '(ox, oy, w, h) := compute_output_bounds b in (to_extent (map_x m) x (map_width m) ox w, to_extent (map_y m) y (map_height m) oy h)
  | None => (as_uint (2 ^ 32 - 1) (mul64 x (f64_of_Z extent)), as_uint (2 ^ 32 - 1) (mul64 y (f64_of_Z extent)))
  end.

Definition fabs (f : spec_float) : spec_float :=
  match f with S754_zero _ => S754_zero false | S754_infinity _ => S754_infinity false | S754_finite _ m e => S754_finite false m e | S754_nan => S754_nan end.
(** [f64::EPSILON] *)
Definition epsilon64 : spec_float := binary_normalize 53 1024 1 (-52) false.
(** [input/wlr_backend.rs:520-520 inject_event] *)
Definition time_ms (usec : Z) : Z := wrap 32 (usec / 1000).
(** [input/wlr_backend.rs:523-640 inject_event] *)
Definition pointer_requests b (d : Z) (e : PointerEvent) : list VirtualRequest :=
  match e with
  | Motion dx dy t => [PMotion d (time_ms t) dx dy; PFrame d]
  | MotionAbsolute x y stream t => let '(ax, ay) := absolute_position b stream x y in [PMotionAbsolute d (time_ms t) ax ay extent extent; PFrame d]
  | Button button s t => [PButton d (time_ms t) button s; PFrame d]
  | Scroll dx dy t =>
      let some v := fgt (fabs v) epsilon64 in let none v := fle (fabs v) epsilon64 in
      [PAxisSource d false] ++ (if some dy then [PAxis d (time_ms t) Vertical dy] else []) ++ (if some dx then [PAxis d (time_ms t) Horizontal dx] else []) ++
      (if none dy && none dx then [PAxisStop d (time_ms t) Vertical; PAxisStop d (time_ms t) Horizontal] else []) ++ [PFrame d]
  | ScrollDiscrete a steps t => [PAxisSource d true; PAxisDiscrete d (time_ms t) a (mul64 (f64_of_Z steps) (f64_of_Z 15)) steps; PFrame d]
  | ScrollStop t => [PAxisStop d (time_ms t) Vertical; PAxisStop d (time_ms t) Horizontal; PFrame d]
  end.
(** A key, followed by the modifiers as the library sees them after it.
    [input/wlr_backend.rs:642-676 inject_event] *)
Definition key_requests b (d : Z) (e : KeyboardEvent) : list VirtualRequest * WlrInputBackend X :=
  let pressed := match key_state e with KeyPressed => true | KeyReleased => false end in
  let s := update_key (xkb b) (wrap 32 (keycode e + 8)) pressed (xkb_state b) in
  ([VKey d (time_ms (key_time e)) (keycode e) (if pressed then 1 else 0); VModifiers d (serialize (xkb b) s)], with_xkb_state s b).
(** An event for a device that the session does not have does nothing.
    [input/wlr_backend.rs:514-690 inject_event] *)
Definition inject_event l (session : str) (e : InputEvent) b : outcome PortalError unit * list VirtualRequest * WlrInputBackend X :=
  match contexts b !! session with
  | None => (Err (SessionNotFound session), [], b)
  | Some c =>
      match e with
      | Touch _ => (Err (ConfigError (lit "Touch input not supported via wlr virtual pointer protocol")), [], b)
      | Pointer e => (flush l, match ctx_pointer c with Some d => pointer_requests b d e | None => [] end, b)
      | Keyboard e =>
          match ctx_keyboard c with
          | Some d => let '(rs, b) := key_requests b d e in (flush l, rs, b)
          | None => (flush l, [], b)
          end
      end
  end.
(** [input/wlr_backend.rs:698-700 has_context] *)
Definition has_context (session : str) b : bool := match contexts b !! session with Some _ => true | None => false end.
(** [input/wlr_backend.rs:702-704 context_count] *)
Definition context_count b : nat := size (contexts b).
(** [input/wlr_backend.rs:733-746 set_stream_mappings] *)
Definition set_stream_mappings (ms : list StreamOutputMapping) b : WlrInputBackend X :=
  with_stream_mappings (foldl (fun m x => <[stream_node_id x := x]> m) ∅ ms) b.
(** [input/wlr_backend.rs:706-731 keysym_to_keycode] *)
Definition keysym_to_keycode (keysym : Z) b : option Z :=
  let codes := map (fun i => min_keycode (xkb b) + Z.of_nat i) (seq 0 (Z.to_nat (max_keycode (xkb b) - min_keycode (xkb b) + 1))) in
  match List.find (fun c => existsb (existsb (Z.eqb keysym)) (keysyms (xkb b) c)) codes with Some c => Some (c - 8) | None => None end.
End wlr.

(** ** The EIS bridge

    The requests of an EIS client as its library delivers them; positions and
    deltas are [f32]. *)
Inductive EisRequest :=
| EisMotion (dx dy : spec_float) (time : Z) | EisMotionAbsolute (x y : spec_float) (time : Z)
| EisButton (button : Z) (press : bool) (time : Z) | EisScrollDelta (dx dy : spec_float) (time : Z)
| EisScrollDiscrete (dx dy time : Z) | EisScrollStop (time : Z) | EisKey (key : Z) (press : bool) (time : Z)
| EisTouchDown (id : Z) (x y : spec_float) (time : Z) | EisTouchMotion (id : Z) (x y : spec_float) (time : Z) | EisTouchUp (id time : Z)
| EisDisconnect | EisBind | EisFrame | EisStartEmulating | EisStopEmulating | EisScrollCancel | EisTouchCancel.

(** [u32 as i32] *)
Definition as_i32 (n : Z) : Z := if n <? 2 ^ 31 then n else n - 2 ^ 32.
(** [input/eis_bridge.rs:74-175 eis_request_to_input_event] *)
Definition eis_request_to_input_event (r : EisRequest) : option InputEvent :=
  match r with
  | EisMotion dx dy t => Some (Pointer (Motion (f64_of_f32 dx) (f64_of_f32 dy) t))
  | EisMotionAbsolute x y t => Some (Pointer (MotionAbsolute (f64_of_f32 x) (f64_of_f32 y) 0 t))
  | EisButton b press t => Some (Pointer (Button b (if press then ButtonPressed else ButtonReleased) t))
  | EisScrollDelta dx dy t => Some (Pointer (Scroll (f64_of_f32 dx) (f64_of_f32 dy) t))
  | EisScrollDiscrete dx dy t => Some (Pointer (if negb (dy =? 0) then ScrollDiscrete Vertical dy t else ScrollDiscrete Horizontal dx t))
  | EisScrollStop t => Some (Pointer (ScrollStop t))
  | EisKey key press t => Some (Keyboard (mkKey key (if press then KeyPressed else KeyReleased) t))
  | EisTouchDown id x y t => Some (Touch (TouchDown (as_i32 id) (f64_of_f32 x) (f64_of_f32 y) 0 t))
  | EisTouchMotion id x y t => Some (Touch (TouchMotion (as_i32 id) (f64_of_f32 x) (f64_of_f32 y) 0 t))
  | EisTouchUp id t => Some (Touch (TouchUp (as_i32 id) t))
  | EisDisconnect | EisBind | EisFrame | EisStartEmulating | EisStopEmulating | EisScrollCancel | EisTouchCancel => None
  end.
(** [input/eis_bridge.rs:47-52 EisBridgeBackend] *)
Record EisBridgeBackend (X : Type) := mkBridge { eis_sessions : gset str; wlr_side : WlrInputBackend X }.
Arguments mkBridge {X}. Arguments eis_sessions {X}. Arguments wlr_side {X}.

Section bridge.
Context {X : Type}.
Implicit Types (b : EisBridgeBackend X).

(** [eis] is what the EIS side of the session does.
    [input/eis_bridge.rs:183-210 create_context] *)
Definition bridge_create_context (eis : outcome PortalError unit) l (session : str) (devices : DeviceTypes) b : outcome PortalError unit * list VirtualRequest * EisBridgeBackend X :=
  if bool_decide (session ∈ eis_sessions b) then (Err (InvalidSession (lit "EIS bridge context already exists for session " ++ session)), [], b)
  else match eis with
  | Ok _ =>
      let '(r, rs, w) := create_context l session devices (wlr_side b) in
      (r, rs, mkBridge (match r with Ok _ => {[session]} ∪ eis_sessions b | _ => eis_sessions b end) w)
  | e => (e, [], b)
  end.
(** [input/eis_bridge.rs:212-221 destroy_context] *)
Definition bridge_destroy_context l (session : str) b : outcome PortalError unit * list VirtualRequest * EisBridgeBackend X :=
  let '(r, rs, w) := destroy_context l session (wlr_side b) in (r, rs, mkBridge (eis_sessions b ∖ {[session]}) w).
(** [input/eis_bridge.rs:223-228 inject_event] *)
Definition bridge_inject_event l (session : str) (e : InputEvent) b : outcome PortalError unit * list VirtualRequest * EisBridgeBackend X :=
  let '(r, rs, w) := inject_event l session e (wlr_side b) in (r, rs, mkBridge (eis_sessions b) w).
(** The events of one session, forwarded in order; whether it disconnected.
    [input/eis_bridge.rs:243-261 process_events] *)
Fixpoint forward l (session : str) (requests : list EisRequest) b : list InputEvent * bool * list VirtualRequest * EisBridgeBackend X :=
  match requests with
  | [] => ([], false, [], b)
  | EisDisconnect :: requests => let '(es, _, rs, b) := forward l session requests b in (es, true, rs, b)
  | r :: requests =>
      match eis_request_to_input_event r with
      | Some e =>
          let '(_, rs, b) := bridge_inject_event l session e b in
          let '(es, gone, rs', b) := forward l session requests b in (e :: es, gone, rs ++ rs', b)
      | None => forward l session requests b
      end
  end.
(** The sessions in the order they are visited, each with what its client sent. *)
Fixpoint poll_sessions l (polled : list (str * outcome PortalError (list EisRequest))) b : list (str * InputEvent) * list str * list VirtualRequest * EisBridgeBackend X :=
  match polled with
  | [] => ([], [], [], b)
  | (session, Ok requests) :: polled =>
      let '(es, gone, rs, b) := forward l session requests b in
      let '(es', gone', rs', b) := poll_sessions l polled b in
      (map (fun e => (session, e)) es ++ es', (if gone then [session] else []) ++ gone', rs ++ rs', b)
  | _ :: polled => poll_sessions l polled b
  end.
Fixpoint drop_sessions l (gone : list str) b : list VirtualRequest * EisBridgeBackend X :=
  match gone with
  | [] => ([], b)
  | session :: gone =>
      let '(_, rs, b) := bridge_destroy_context l session b in
      let '(rs', b) := drop_sessions l gone b in (rs ++ rs', b)
  end.
(** [input/eis_bridge.rs:230-283 process_events] *)
Definition bridge_process_events l (polled : list (str * outcome PortalError (list EisRequest))) b : list (str * InputEvent) * list VirtualRequest * EisBridgeBackend X :=
  let '(es, gone, rs, b) := poll_sessions l polled b in
  let '(rs', b) := drop_sessions l gone b in (es, rs ++ rs', b).
End bridge.

(** ** What the compositor sees

    A device is created, a keyboard is given its keymap, the device is used and
    destroyed; a request to a device in any other order is a protocol error. *)
Inductive Device := PointerDevice | NewKeyboardDevice | KeyboardDevice.
#[export] Instance device_eq_dec : EqDecision Device.
Proof. solve_decision. Defined.
Definition require (d : Z) (k : Device) (m : gmap Z Device) : option (gmap Z Device) := if bool_decide (m !! d = Some k) then Some m else None.
Definition accept (r : VirtualRequest) (m : gmap Z Device) : option (gmap Z Device) :=
  match r with
  | NewPointer d => match m !! d with None => Some (<[d := PointerDevice]> m) | Some _ => None end
  | NewKeyboard d => match m !! d with None => Some (<[d := NewKeyboardDevice]> m) | Some _ => None end
  | SetKeymap d _ => match m !! d with Some (NewKeyboardDevice | KeyboardDevice) => Some (<[d := KeyboardDevice]> m) | _ => None end
  | DestroyDevice d => match m !! d with Some _ => Some (delete d m) | None => None end
  | PMotion d _ _ _ | PMotionAbsolute d _ _ _ _ _ | PFrame d | PButton d _ _ _ | PAxisSource d _ | PAxis d _ _ _ | PAxisStop d _ _ | PAxisDiscrete d _ _ _ _ =>
      require d PointerDevice m
  | VKey d _ _ _ | VModifiers d _ => require d KeyboardDevice m
  end.
Fixpoint accept_all (rs : list VirtualRequest) (m : gmap Z Device) : option (gmap Z Device) :=
  match rs with [] => Some m | r :: rs => match accept r m with Some m => accept_all rs m | None => None end end.

(** The library's state after the keys that were sent, if every key is followed
    at once by exactly its modifiers. *)
Fixpoint follow {X} (k : Xkb X) (rs : list VirtualRequest) (x : X) : option X :=
  match rs with
  | [] => Some x
  | VKey d _ code state :: VModifiers d' masks :: rs =>
      let x := update_key k (wrap 32 (code + 8)) (state =? 1) x in
      if (d =? d') && bool_decide (masks = serialize k x) then follow k rs x else None
  | VKey _ _ _ _ :: _ | VModifiers _ _ :: _ => None
  | _ :: rs => follow k rs x
  end.

Section use.
Context {X : Type}.
Implicit Types (b : WlrInputBackend X).

Inductive InputOp := OpCreate (l : Link) (session : str) (devices : DeviceTypes) | OpDestroy (l : Link) (session : str)
| OpInject (l : Link) (session : str) (e : InputEvent) | OpMap (ms : list StreamOutputMapping).
Definition input_op (o : InputOp) b : list VirtualRequest * WlrInputBackend X :=
  match o with
  | OpCreate l s d => let '(_, rs, b) := create_context l s d b in (rs, b)
  | OpDestroy l s => let '(_, rs, b) := destroy_context l s b in (rs, b)
  | OpInject l s e => let '(_, rs, b) := inject_event l s e b in (rs, b)
  | OpMap ms => ([], set_stream_mappings ms b)
  end.
Fixpoint input_run (os : list InputOp) b : list VirtualRequest * WlrInputBackend X :=
  match os with [] => ([], b) | o :: os => let '(rs, b) := input_op o b in let '(rs', b) := input_run os b in (rs ++ rs', b) end.

Definition devices_of (c : WlrSessionContext) : list (Z * Device) :=
  match ctx_pointer c with Some d => [(d, PointerDevice)] | None => [] end ++ match ctx_keyboard c with Some d => [(d, KeyboardDevice)] | None => [] end.
(** Every session's devices are live, of their kind and its own; new devices
    get numbers that are not in use. *)
Record devices_ok (m : gmap Z Device) b : Prop := mkDevicesOk {
  dv_live : forall s c d k, contexts b !! s = Some c -> (d, k) ∈ devices_of c -> m !! d = Some k;
  dv_own : forall s s' c c' d k k', contexts b !! s = Some c -> contexts b !! s' = Some c' -> (d, k) ∈ devices_of c -> (d, k') ∈ devices_of c' -> s = s';
  dv_fresh : forall d, is_Some (m !! d) -> d < next_device b }.
Definition all_owned (m : gmap Z Device) b : Prop :=
  forall d k, m !! d = Some k -> exists s c, contexts b !! s = Some c /\ (d, k) ∈ devices_of c.
Definition link_of (o : InputOp) : Link := match o with OpCreate l _ _ | OpDestroy l _ | OpInject l _ _ => l | OpMap _ => healthy end.
Definition works (o : InputOp) : Prop := link_of o = healthy.

Lemma accept_all_app rs rs' m : accept_all (rs ++ rs') m = match accept_all rs m with Some m => accept_all rs' m | None => None end.
Proof. revert m. induction rs as [|r rs IH]; intros m; [done|]. cbn. destruct (accept r m); [apply IH|done]. Qed.
Lemma pointer_accepted b d e m : m !! d = Some PointerDevice -> accept_all (pointer_requests b d e) m = Some m.
Proof.
  intros E. assert (require d PointerDevice m = Some m) as R by (unfold require; by rewrite bool_decide_eq_true_2).
  destruct e; cbn -[absolute_position]; rewrite ?R; try done.
  - destruct (absolute_position _ _ _ _). cbn. by rewrite !R.
  - repeat case_match; cbn; by rewrite !R.
Qed.
Lemma pointer_silent b (k : Xkb X) d e rs x : follow k (pointer_requests b d e ++ rs) x = follow k rs x.
Proof. destruct e; cbn -[absolute_position]; try done; [by destruct (absolute_position _ _ _ _)|]. by repeat case_match. Qed.
Lemma key_accepted b d e m rs b' : m !! d = Some KeyboardDevice -> key_requests b d e = (rs, b') -> accept_all rs m = Some m.
Proof. intros E [= <- <-]. cbn. unfold require. by rewrite !bool_decide_eq_true_2. Qed.
Lemma key_followed b d e rs b' : key_requests b d e = (rs, b') -> follow (xkb b) rs (xkb_state b) = Some (xkb_state b').
Proof. intros [= <- <-]. cbn. rewrite Z.eqb_refl. destruct (key_state e); cbn; by rewrite bool_decide_eq_true_2. Qed.

(** What one half of a new context adds. *)
Definition added (p : option (Z * Device)) (m : gmap Z Device) : gmap Z Device := match p with Some (d, k) => <[d := k]> m | None => m end.
Record extends (p : option (Z * Device)) b b' : Prop := mkExtends {
  ex_contexts : contexts b' = contexts b; ex_xkb : xkb b' = xkb b; ex_state : xkb_state b' = xkb_state b;
  ex_next : next_device b <= next_device b';
  ex_new : forall d k, p = Some (d, k) -> next_device b <= d < next_device b' }.
Lemma extends_refl b : extends None b b.
Proof. constructor; try done; lia. Qed.
Definition fresh_from (n : Z) (m : gmap Z Device) : Prop := forall d, is_Some (m !! d) -> d < n.

Lemma pointer_part (on : bool) b p rs b' m : (if on then create_pointer b else (None, [], b)) = (p, rs, b') -> fresh_from (next_device b) m ->
  accept_all rs m = Some (added ((fun d => (d, PointerDevice)) <$> p) m) /\ extends ((fun d => (d, PointerDevice)) <$> p) b b' /\ forall k rs' x, follow (X:=X) k (rs ++ rs') x = follow k rs' x.
Proof.
  unfold create_pointer. intros E F.
  destruct on; [destruct (pointer_manager b)|]; injection E as <- <- <-; [|by (split; [done|]; split; [apply extends_refl|done])..].
  split_and!; [|constructor; cbn; try done; [lia|intros ? ? [= <- <-]; lia]|done].
  cbn. destruct (m !! next_device b) eqn:L; [|done]. assert (is_Some (m !! next_device b)) as S by by rewrite L. apply F in S. lia.
Qed.
Lemma keyboard_part (on : bool) l b p rs b' m : (if on then create_keyboard l b else (None, [], b)) = (p, rs, b') -> fresh_from (next_device b) m ->
  accept_all rs m = Some (added ((fun d => (d, KeyboardDevice)) <$> p) m) /\ extends ((fun d => (d, KeyboardDevice)) <$> p) b b' /\ forall k rs' x, follow (X:=X) k (rs ++ rs') x = follow k rs' x.
Proof.
  unfold create_keyboard. intros E F.
  assert (m !! next_device b = None) as L. { destruct (m !! next_device b) eqn:L; [|done]. assert (is_Some (m !! next_device b)) as S by by rewrite L. apply F in S. lia. }
  destruct on; [destruct (keyboard_manager b && seat b)|]; [|injection E as <- <- <-; by (split; [done|]; split; [apply extends_refl|done])..].
  assert (forall rs : list VirtualRequest, rs = [] \/ rs = [SetKeymap (next_device b) (keymap_payload (keymap_text (xkb b)))] ->
    accept_all (NewKeyboard (next_device b) :: rs ++ [DestroyDevice (next_device b)]) m = Some m) as K.
  { intros r [-> | ->]; cbn; rewrite L; cbn; rewrite lookup_insert_eq; cbn; rewrite ?lookup_insert_eq; cbn; by rewrite ?insert_insert_eq, delete_insert_id. }
  assert (extends None b (with_next_device (next_device b + 1) b)) as G by (constructor; cbn; try done; lia).
  unfold set_keyboard_keymap in E. destruct (memfd_error l), (flush_error l); injection E as <- <- <-; [by (split; [apply (K []); auto|])..|by (split; [apply (K [_]); auto|])|].
  split; [|split; [|done]].
  - cbn. rewrite L. cbn. by rewrite lookup_insert_eq, insert_insert_eq.
  - constructor; cbn; try done; [lia|]. intros d k [= <- <-]. lia.
Qed.

Lemma fresh_extended p b b' m : extends p b b' -> fresh_from (next_device b) m -> fresh_from (next_device b') (added p m).
Proof.
  intros [_ _ _ N A] F d. destruct p as [[d' k]|]; cbn [added]; [|intros H; specialize (F d H); lia].
  destruct (A d' k eq_refl). destruct (decide (d' = d)) as [->|D]; [lia|]. rewrite lookup_insert_ne by done. intros K. specialize (F d K). lia.
Qed.
Lemma added_old p b b' m d k : extends p b b' -> d < next_device b -> added p m !! d = Some k <-> m !! d = Some k.
Proof. intros [_ _ _ _ A] L. destruct p as [[d' k']|]; [|done]. cbn. destruct (A d' k' eq_refl). by rewrite lookup_insert_ne by lia. Qed.

(** Adding a pointer, or a keyboard, to the devices. *)
Lemma added_devices {k0} p b b' m : extends ((fun d => (d, k0)) <$> p) b b' -> fresh_from (next_device b) m ->
  let m' := added ((fun d => (d, k0)) <$> p) m in
  fresh_from (next_device b') m' /\ next_device b <= next_device b' /\ (forall d k, m !! d = Some k -> m' !! d = Some k) /\
  (forall d, p = Some d -> m' !! d = Some k0 /\ next_device b <= d) /\ (forall d k, m' !! d = Some k -> m !! d = Some k \/ p = Some d /\ k = k0).
Proof.
  intros Ex F m'. split; [by apply (fresh_extended _ b)|]. split; [apply Ex|]. split; [|split].
  - intros d k H. apply (added_old _ b b'); [done|by apply F|done].
  - intros d ->. destruct (ex_new _ _ _ Ex _ _ eq_refl). split; [|done]. unfold m'. cbn. by rewrite lookup_insert_eq.
  - intros d k. unfold m'. destruct p as [q|]; cbn; [|by left]. destruct (decide (q = d)) as [->|D]; [rewrite lookup_insert_eq; intros [= <-]; by right|rewrite lookup_insert_ne by done; by left].
Qed.
(** A context that is entered brings its own devices. *)
Lemma entered_ok m m' b b' s c : devices_ok m b -> contexts b !! s = None -> contexts b' = contexts b -> fresh_from (next_device b') m' ->
  (forall d k, m !! d = Some k -> m' !! d = Some k) -> (forall d k, (d, k) ∈ devices_of c -> m' !! d = Some k /\ next_device b <= d) ->
  devices_ok m' b' /\ devices_ok m' (with_contexts (<[s := c]> (contexts b')) b').
Proof.
  intros [Vl Vo Vf] C E F O N. assert (forall s c d k, contexts b !! s = Some c -> (d, k) ∈ devices_of c -> d < next_device b) as B.
  { intros s0 c0 d k H1 H2. apply Vf. by rewrite (Vl _ _ _ _ H1 H2). }
  split; constructor; cbn; rewrite ?E; try done; [by intros; eapply O, Vl|..].
  - intros s' c' d k. destruct (decide (s = s')) as [<-|D]; [rewrite lookup_insert_eq; intros [= <-] H; by apply N|]. rewrite lookup_insert_ne by done. intros; by eapply O, Vl.
  - intros s1 s2 c1 c2 d k1 k2. destruct (decide (s = s1)) as [<-|D1], (decide (s = s2)) as [<-|D2]; [done| | |]; rewrite ?lookup_insert_eq, ?lookup_insert_ne by done; [| |apply Vo].
    + intros [= <-] H2 H3 H4. apply N in H3 as [_ H3]. specialize (B _ _ _ _ H2 H4). lia.
    + intros H1 [= <-] H3 H4. apply N in H4 as [_ H4]. specialize (B _ _ _ _ H1 H3). lia.
Qed.
Lemma devices_of_elem p k d k' : (d, k') ∈ devices_of (mkContext p k) <-> p = Some d /\ k' = PointerDevice \/ k = Some d /\ k' = KeyboardDevice.
Proof.
  unfold devices_of. cbn. rewrite elem_of_app.
  destruct p, k; rewrite ?list_elem_of_singleton, ?elem_of_nil; naive_solver.
Qed.
Lemma create_devices l s d b r rs b' m : create_context l s d b = (r, rs, b') -> devices_ok m b ->
  exists m', accept_all rs m = Some m' /\ devices_ok m' b' /\ (flush_error l = None -> roundtrip_error l = None -> all_owned m b -> all_owned m' b').
Proof.
  unfold create_context. intros E V. destruct (contexts b !! s) as [c|] eqn:C; [injection E as <- <- <-; by exists m|].
  destruct (if pointer d then _ else _) as [[p rs1] b1] eqn:E1. destruct (if keyboard d then _ else _) as [[k rs2] b2] eqn:E2.
  destruct (pointer_part _ b p rs1 b1 m E1 (dv_fresh _ _ V)) as (A1 & X1 & _). destruct (added_devices _ _ _ _ X1 (dv_fresh _ _ V)) as (F1 & L1 & O1 & N1 & B1).
  destruct (keyboard_part _ l b1 k rs2 b2 _ E2 F1) as (A2 & X2 & _). destruct (added_devices _ _ _ _ X2 F1) as (F2 & L2 & O2 & N2 & B2).
  set (m2 := added _ (added _ m)) in *. assert (accept_all (rs1 ++ rs2) m = Some m2) as A by by rewrite accept_all_app, A1.
  assert (contexts b2 = contexts b) as Cs by by rewrite (ex_contexts _ _ _ X2), (ex_contexts _ _ _ X1).
  destruct (entered_ok m m2 b b2 s (mkContext p k)) as [V2 V3]; try done; [by intros; apply O2, O1| |].
  { intros d' k' [[-> ->]|[-> ->]]%devices_of_elem; [destruct (N1 _ eq_refl) as [H ?]|destruct (N2 _ eq_refl) as [H ?]]; split; [by apply O2|lia|done|lia]. }
  exists m2. destruct (flush_error l) eqn:Fl; [|destruct (roundtrip_error l) eqn:Rt]; injection E as <- <- <-; (split; [exact A|]); (split; [done|]); [by intros..|].
  intros _ _ O d' k' H. cbn. rewrite Cs. assert ((d', k') ∈ devices_of (mkContext p k) \/ m !! d' = Some k') as [I|I].
  { rewrite devices_of_elem. apply B2 in H as [H|[H1 H2]]; [|by auto]. apply B1 in H as [H|[H1 H2]]; by auto. }
  - exists s, (mkContext p k). by rewrite lookup_insert_eq.
  - destruct (O d' k' I) as (s' & c' & E' & J). exists s', c'. split; [|done]. rewrite lookup_insert_ne; [done|]. intros ->. by rewrite C in E'.
Qed.

Lemma destroy_devices l s b r rs b' m : destroy_context l s b = (r, rs, b') -> devices_ok m b ->
  exists m', accept_all rs m = Some m' /\ devices_ok m' b' /\ (all_owned m b -> all_owned m' b').
Proof.
  unfold destroy_context. intros E V. destruct (contexts b !! s) as [c|] eqn:C; injection E as <- <- <-; [|by exists m].
  destruct V as [Vl Vo Vf]. pose proof (fun d k => Vl s c d k C) as Vc. destruct c as [p k].
  assert (exists m', accept_all (destroy_device p ++ destroy_device k) m = Some m' /\
    forall d, m' !! d = if bool_decide (p = Some d \/ k = Some d) then None else m !! d) as (m' & A & M).
  { setoid_rewrite devices_of_elem in Vc. destruct p as [p|], k as [k|]; cbn.
    - assert (m !! p = Some PointerDevice) as Hp by auto. assert (m !! k = Some KeyboardDevice) as Hk by auto. assert (p <> k) as D by congruence.
      rewrite Hp, lookup_delete_ne, Hk by done. eexists. split; [done|]. intros d. case_bool_decide as H; [|rewrite !lookup_delete_ne by (intros ->; auto); done].
      destruct (decide (k = d)) as [->|]; [by rewrite lookup_delete_eq|rewrite lookup_delete_ne by done; destruct H as [[= ->]|[= ->]]; [by rewrite lookup_delete_eq|done]].
    - assert (m !! p = Some PointerDevice) as -> by auto. eexists. split; [done|]. intros d. case_bool_decide as H; [destruct H as [[= ->]|[=]]; by rewrite lookup_delete_eq|by rewrite lookup_delete_ne by (intros ->; auto)].
    - assert (m !! k = Some KeyboardDevice) as -> by auto. eexists. split; [done|]. intros d. case_bool_decide as H; [destruct H as [[=]|[= ->]]; by rewrite lookup_delete_eq|by rewrite lookup_delete_ne by (intros ->; auto)].
    - eexists. split; [done|]. intros d. by rewrite bool_decide_eq_false_2 by (intros [|]; done). }
  exists m'. split; [done|]. assert (forall s' c' d k', s <> s' -> contexts b !! s' = Some c' -> (d, k') ∈ devices_of c' -> m' !! d = m !! d) as K.
  { intros s' c' d k' D E' I. rewrite M, bool_decide_eq_false_2; [done|]. intros H. apply D.
    assert (exists k0, (d, k0) ∈ devices_of (mkContext p k)) as [k0 I0] by (setoid_rewrite devices_of_elem; destruct H; eauto). by eapply Vo. }
  split; [constructor; cbn|].
  - intros s' c' d k'. rewrite lookup_delete_Some. intros [D E'] I. by rewrite (K s' c' d k'), (Vl s' c' d k').
  - intros s1 s2 c1 c2 d k1 k2. rewrite !lookup_delete_Some. intros [_ H1] [_ H2]. by eapply Vo.
  - intros d [k' H]. rewrite M in H. case_bool_decide; [done|]. apply Vf. by rewrite H.
  - intros O d k' H. cbn. rewrite M in H. case_bool_decide as Q; [done|]. destruct (O d k' H) as (s' & c' & E' & I). exists s', c'. split; [|done].
    apply lookup_delete_Some. split; [|done]. intros <-. rewrite C in E'. injection E' as <-. apply devices_of_elem in I. apply Q. naive_solver.
Qed.

Lemma inject_devices l s e b r rs b' m : inject_event l s e b = (r, rs, b') -> devices_ok m b -> accept_all rs m = Some m /\ contexts b' = contexts b /\ next_device b' = next_device b.
Proof.
  unfold inject_event. intros E [Vl _ _]. destruct (contexts b !! s) as [[p k]|] eqn:C; [|by injection E as <- <- <-]. pose proof (fun d q => Vl _ _ d q C) as Vc. setoid_rewrite devices_of_elem in Vc.
  destruct e as [e|e|e]; cbn [ctx_pointer ctx_keyboard] in E; [|injection E as <- <- <-; split; [|done]|by injection E as <- <- <-].
  - destruct k as [d|]; [|by injection E as <- <- <-]. destruct (key_requests b d e) as [rs' b0] eqn:K. injection E as <- <- <-.
    split; [eapply key_accepted; [|done]; auto|]. by injection K as <- <-.
  - destruct p as [d|]; [|done]. apply pointer_accepted. auto.
Qed.
Lemma op_devices o b rs b' m : input_op o b = (rs, b') -> devices_ok m b ->
  exists m', accept_all rs m = Some m' /\ devices_ok m' b' /\ (works o -> all_owned m b -> all_owned m' b').
Proof.
  intros E V. destruct o as [l s d|l s|l s e|ms]; cbn [input_op] in E.
  - destruct (create_context l s d b) as [[r rs0] b0] eqn:C. injection E as <- <-. destruct (create_devices l s d b r _ _ m C V) as (m' & A & V' & O). exists m'. split_and!; try done. unfold works. cbn. intros ->. by apply O.
  - destruct (destroy_context l s b) as [[r rs0] b0] eqn:C. injection E as <- <-. destruct (destroy_devices l s b r _ _ m C V) as (m' & ? & ? & ?). exists m'. by auto.
  - destruct (inject_event l s e b) as [[r rs0] b0] eqn:C. injection E as <- <-. destruct (inject_devices l s e b r _ _ m C V) as (A & Cs & N).
    exists m. split; [done|]. split; [|intros _ O; unfold all_owned; by rewrite Cs]. destruct V. constructor; by rewrite ?Cs, ?N.
  - injection E as <- <-. exists m. split; [done|]. by destruct V.
Qed.

Lemma follow_app (k : Xkb X) rs rs' x y : follow k rs x = Some y -> follow k (rs ++ rs') x = follow k rs' y.
Proof.
  revert x. induction rs as [rs IH] using (induction_ltof1 _ (@length VirtualRequest)). unfold ltof in IH. intros x. destruct rs as [|r rs]; [by intros [= ->]|].
  destruct r; cbn [follow app]; try (apply IH; cbn; lia).
  - destruct rs as [|r rs]; [done|]. destruct r; try done. cbn [follow app]. destruct (_ && _); [|done]. apply IH. cbn. lia.
  - done.
Qed.
Lemma op_follow o b rs b' : input_op o b = (rs, b') -> follow (xkb b) rs (xkb_state b) = Some (xkb_state b') /\ xkb b' = xkb b.
Proof.
  intros E. destruct o as [l s d|l s|l s e|ms]; cbn [input_op] in E.
  - destruct (create_context l s d b) as [[r rs0] b0] eqn:C. injection E as <- <-. unfold create_context in C.
    destruct (contexts b !! s); [by injection C as <- <- <-|].
    destruct (if pointer d then _ else _) as [[p rs1] b1] eqn:E1. destruct (if keyboard d then _ else _) as [[k rs2] b2] eqn:E2.
    assert ((forall rs' x, follow (xkb b) (rs1 ++ rs') x = follow (xkb b) rs' x) /\ xkb b1 = xkb b /\ xkb_state b1 = xkb_state b) as (S1 & K1 & T1).
    { unfold create_pointer in E1. destruct (pointer d); [destruct (pointer_manager b)|]; by injection E1 as <- <- <-. }
    assert (follow (xkb b) rs2 (xkb_state b) = Some (xkb_state b) /\ xkb b2 = xkb b1 /\ xkb_state b2 = xkb_state b1) as (S2 & K2 & T2).
    { unfold create_keyboard, set_keyboard_keymap in E2. destruct (keyboard d); [destruct (keyboard_manager b1 && seat b1); [destruct (memfd_error l), (flush_error l)|]|]; by injection E2 as <- <- <-. }
    assert (follow (xkb b) (rs1 ++ rs2) (xkb_state b) = Some (xkb_state b2) /\ xkb b2 = xkb b) as R by (rewrite S1, S2; by rewrite K2, T2, T1).
    destruct (flush_error l); [|destruct (roundtrip_error l)]; injection C as <- <- <-; exact R.
  - destruct (destroy_context l s b) as [[r rs0] b0] eqn:C. injection E as <- <-. unfold destroy_context in C. destruct (contexts b !! s) as [[p k]|]; injection C as <- <- <-; [|done].
    by destruct p, k.
  - destruct (inject_event l s e b) as [[r rs0] b0] eqn:C. injection E as <- <-. unfold inject_event in C.
    destruct (contexts b !! s) as [[p k]|]; [|by injection C as <- <- <-]. destruct e as [e|e|e]; cbn [ctx_pointer ctx_keyboard] in C; [|injection C as <- <- <-|by injection C as <- <- <-].
    + destruct k as [d|]; [|by injection C as <- <- <-]. destruct (key_requests b d e) as [rs' b0'] eqn:K. injection C as <- <- <-. split; [by eapply key_followed|]. by injection K as <- <-.
    + destruct p as [d|]; [|done]. split; [|done]. rewrite <-(app_nil_r (pointer_requests b d e)). apply pointer_silent.
  - by injection E as <- <-.
Qed.

Lemma input_run_sound os b0 m0 rs b : input_run os b0 = (rs, b) -> devices_ok m0 b0 ->
  (exists m, accept_all rs m0 = Some m /\ devices_ok m b /\ (Forall works os -> all_owned m0 b0 -> all_owned m b)) /\
  follow (xkb b0) rs (xkb_state b0) = Some (xkb_state b).
Proof.
  revert b0 m0 rs. induction os as [|o os IH]; intros b0 m0 rs E V.
  { injection E as <- <-. split; [by exists m0|done]. }
  cbn [input_run] in E. destruct (input_op o b0) as [rs1 b1] eqn:E1. destruct (input_run os b1) as [rs2 b2] eqn:E2. injection E as <- <-.
  destruct (op_devices o b0 rs1 b1 m0 E1 V) as (m1 & A1 & V1 & O1). destruct (op_follow o b0 rs1 b1 E1) as [F1 K1].
  destruct (IH b1 m1 rs2 E2 V1) as ((m2 & A2 & V2 & O2) & F2). split.
  - exists m2. rewrite accept_all_app, A1. split_and!; try done. intros [W Ws]%Forall_cons O. by apply O2, O1.
  - rewrite (follow_app _ _ _ _ _ F1). by rewrite <-K1.
Qed.

(** C23. The virtual devices are used as the protocol allows and as the keymap
    demands.  Over every sequence of contexts made and destroyed, events
    injected and outputs mapped, on a connection that may fail at any time:
    every request is for a device that exists and is of the right kind, a
    keyboard has its keymap before its first key, no device is used after it was
    destroyed; every key is followed at once by exactly the modifiers that the
    keymap yields after all keys sent so far, by whatever session; and while the
    connection works every device that exists belongs to a session, so nothing
    is left when the last one is destroyed. *)
Theorem virtual_devices_sound (k : Xkb X) pointers keyboards has_seat os :
  let r := input_run os (mkWlrInput pointers keyboards has_seat k (initial k) ∅ ∅ 0) in
  (exists m, accept_all r.1 ∅ = Some m /\ devices_ok m r.2 /\ (Forall works os -> all_owned m r.2)) /\
  follow k r.1 (initial k) = Some (xkb_state r.2).
Proof.
  intros r. destruct (input_run_sound os _ ∅ r.1 r.2 (surjective_pairing r)) as ((m & A & V & O) & F).
  - constructor; cbn; intros; by simplify_map_eq.
  - split; [|exact F]. exists m. split_and!; try done. intros W. apply O; [done|]. intros d q. by rewrite lookup_empty.
Qed.
End use.
