(* ===== verification/FramePath.v ===== *)
(** * From the captured frame to the display loop

    Every frame of the compositor passes three threads before the display loop
    sees it: the raw-frame bridge (portal_generic.rs, direct_frame_receiver), the
    forwarder that first waits for a frame of the negotiated size
    (production.rs, prime_direct_frame_receiver), and the adapter that makes
    video frames of them (pw_thread.rs, new_direct).  Each is a machine that one
    label moves by one turn of its loop; the channels between them have the
    capacities of the code, a blocked thread does not move, and the threads, the
    capture and the display take their turns in any order. *)
From S2P Require Import Prelude Text PortalState PortalClipboard PortalServices PortalCapture.
From S2P Require Frames.
From Stdlib Require Import Sorted.
Abbreviation VideoFrame := Frames.VideoFrame (only parsing).

(** [frame.rs:15-26 RawFrameData] *)
Record RawFrameData := mkRawData { rd_data : list Z; rd_width : option Z; rd_height : option Z; rd_stride : option Z; rd_format : option Frames.PixelFormat }.
(** [portal_generic.rs:672-678 direct_frame_receiver] *)
Definition converted (f : RawFrame) : RawFrameData := mkRawData (raw_data f) (Some (raw_width f)) (Some (raw_height f)) (Some (raw_stride f)) None.
(** The adapter's [count]-th frame; [width] and [height] are those it was made
    with.
    [pw_thread.rs:205-220 new_direct] *)
Definition adapted (width height count now : Z) (d : RawFrameData) : VideoFrame :=
  Frames.mkVideo count (wrap 64 (count * 33333333)) (wrap 64 (count * 33333333)) 33333333
    (Z.to_nat (default width (rd_width d))) (Z.to_nat (default height (rd_height d))) (Z.to_nat (default (wrap 32 (width * 4)) (rd_stride d)))
    (default Frames.BGRx (rd_format d)) 0 (rd_data d) now [] 0.

(** Where a thread is.  The bridge is at the top of its loop or waits for a
    frame; the forwarder waits for the first frame of a size, waits, or holds a
    frame it cannot send yet. *)
Inductive BridgeAt := Top | Receive | BridgeGone.
Inductive ForwarderAt := Priming (width height : Z) | Waiting | Holding (d : RawFrameData) | ForwarderGone.

Record Path := mkPath {
  raw : list RawFrame; capturing : bool;
  bridge : BridgeAt; bridge_pending : option RawFrameData; dropped : Z; bridge_stop : bool; invalidated : nat;
  slot1 : option RawFrameData; forwarder : ForwarderAt; slot2 : option RawFrameData;
  adapter : bool; adapter_stop : bool; count : Z; frames : list VideoFrame; display : bool;
  sources : list RawFrame; shown : list VideoFrame }.
Definition set_raw (v : list RawFrame) (p : Path) : Path := mkPath v (capturing p) (bridge p) (bridge_pending p) (dropped p) (bridge_stop p) (invalidated p) (slot1 p) (forwarder p) (slot2 p) (adapter p) (adapter_stop p) (count p) (frames p) (display p) (sources p) (shown p).
Definition set_capturing (v : bool) (p : Path) : Path := mkPath (raw p) v (bridge p) (bridge_pending p) (dropped p) (bridge_stop p) (invalidated p) (slot1 p) (forwarder p) (slot2 p) (adapter p) (adapter_stop p) (count p) (frames p) (display p) (sources p) (shown p).
Definition set_bridge (v : BridgeAt) (p : Path) : Path := mkPath (raw p) (capturing p) v (bridge_pending p) (dropped p) (bridge_stop p) (invalidated p) (slot1 p) (forwarder p) (slot2 p) (adapter p) (adapter_stop p) (count p) (frames p) (display p) (sources p) (shown p).
Definition set_bridge_pending (v : option RawFrameData) (p : Path) : Path := mkPath (raw p) (capturing p) (bridge p) v (dropped p) (bridge_stop p) (invalidated p) (slot1 p) (forwarder p) (slot2 p) (adapter p) (adapter_stop p) (count p) (frames p) (display p) (sources p) (shown p).
Definition set_dropped (v : Z) (p : Path) : Path := mkPath (raw p) (capturing p) (bridge p) (bridge_pending p) v (bridge_stop p) (invalidated p) (slot1 p) (forwarder p) (slot2 p) (adapter p) (adapter_stop p) (count p) (frames p) (display p) (sources p) (shown p).
Definition set_bridge_stop (v : bool) (p : Path) : Path := mkPath (raw p) (capturing p) (bridge p) (bridge_pending p) (dropped p) v (invalidated p) (slot1 p) (forwarder p) (slot2 p) (adapter p) (adapter_stop p) (count p) (frames p) (display p) (sources p) (shown p).
Definition set_invalidated (v : nat) (p : Path) : Path := mkPath (raw p) (capturing p) (bridge p) (bridge_pending p) (dropped p) (bridge_stop p) v (slot1 p) (forwarder p) (slot2 p) (adapter p) (adapter_stop p) (count p) (frames p) (display p) (sources p) (shown p).
Definition set_slot1 (v : option RawFrameData) (p : Path) : Path := mkPath (raw p) (capturing p) (bridge p) (bridge_pending p) (dropped p) (bridge_stop p) (invalidated p) v (forwarder p) (slot2 p) (adapter p) (adapter_stop p) (count p) (frames p) (display p) (sources p) (shown p).
Definition set_forwarder (v : ForwarderAt) (p : Path) : Path := mkPath (raw p) (capturing p) (bridge p) (bridge_pending p) (dropped p) (bridge_stop p) (invalidated p) (slot1 p) v (slot2 p) (adapter p) (adapter_stop p) (count p) (frames p) (display p) (sources p) (shown p).
Definition set_slot2 (v : option RawFrameData) (p : Path) : Path := mkPath (raw p) (capturing p) (bridge p) (bridge_pending p) (dropped p) (bridge_stop p) (invalidated p) (slot1 p) (forwarder p) v (adapter p) (adapter_stop p) (count p) (frames p) (display p) (sources p) (shown p).
Definition set_adapter (v : bool) (p : Path) : Path := mkPath (raw p) (capturing p) (bridge p) (bridge_pending p) (dropped p) (bridge_stop p) (invalidated p) (slot1 p) (forwarder p) (slot2 p) v (adapter_stop p) (count p) (frames p) (display p) (sources p) (shown p).
Definition set_adapter_stop (v : bool) (p : Path) : Path := mkPath (raw p) (capturing p) (bridge p) (bridge_pending p) (dropped p) (bridge_stop p) (invalidated p) (slot1 p) (forwarder p) (slot2 p) (adapter p) v (count p) (frames p) (display p) (sources p) (shown p).
Definition set_count (v : Z) (p : Path) : Path := mkPath (raw p) (capturing p) (bridge p) (bridge_pending p) (dropped p) (bridge_stop p) (invalidated p) (slot1 p) (forwarder p) (slot2 p) (adapter p) (adapter_stop p) v (frames p) (display p) (sources p) (shown p).
Definition set_frames (v : list VideoFrame) (p : Path) : Path := mkPath (raw p) (capturing p) (bridge p) (bridge_pending p) (dropped p) (bridge_stop p) (invalidated p) (slot1 p) (forwarder p) (slot2 p) (adapter p) (adapter_stop p) (count p) v (display p) (sources p) (shown p).
Definition set_display (v : bool) (p : Path) : Path := mkPath (raw p) (capturing p) (bridge p) (bridge_pending p) (dropped p) (bridge_stop p) (invalidated p) (slot1 p) (forwarder p) (slot2 p) (adapter p) (adapter_stop p) (count p) (frames p) v (sources p) (shown p).
Definition set_sources (v : list RawFrame) (p : Path) : Path := mkPath (raw p) (capturing p) (bridge p) (bridge_pending p) (dropped p) (bridge_stop p) (invalidated p) (slot1 p) (forwarder p) (slot2 p) (adapter p) (adapter_stop p) (count p) (frames p) (display p) v (shown p).
Definition set_shown (v : list VideoFrame) (p : Path) : Path := mkPath (raw p) (capturing p) (bridge p) (bridge_pending p) (dropped p) (bridge_stop p) (invalidated p) (slot1 p) (forwarder p) (slot2 p) (adapter p) (adapter_stop p) (count p) (frames p) (display p) (sources p) v.

Definition forwarder_gone (p : Path) : bool := match forwarder p with ForwarderGone => true | _ => false end.
Definition bridge_gone (p : Path) : bool := match bridge p with BridgeGone => true | _ => false end.

(** The thread ends: its end of the capture's channel goes with what it holds. *)
Definition bridge_exit (p : Path) : Path := set_bridge BridgeGone (set_bridge_pending None (set_raw [] p)).
(** The top of the bridge's loop: the frame it keeps is offered on.
    [portal_generic.rs:657-668 direct_frame_receiver] *)
Definition bridge_top (p : Path) : Path :=
  if bridge_stop p then bridge_exit p
  else match bridge_pending p with
  | Some f =>
      if forwarder_gone p then bridge_exit p
      else set_bridge Receive (match slot1 p with None => set_slot1 (Some f) (set_bridge_pending None p) | Some _ => p end)
  | None => set_bridge Receive p
  end.
(** A newer frame replaces the one that is kept; at the end of the capture the
    last frame is offered once, and the session invalidated unless the bridge
    was told to stop.
    [portal_generic.rs:670-717 direct_frame_receiver] *)
Definition bridge_receive (p : Path) : Path :=
  match raw p with
  | f :: rest =>
      let p := match bridge_pending p with Some _ => set_dropped (Z.min (dropped p + 1) (2 ^ 64 - 1)) p | None => p end in
      set_bridge Top (set_bridge_pending (Some (converted f)) (set_raw rest p))
  | [] =>
      if capturing p then set_bridge Top p
      else
        let p := match bridge_pending p, slot1 p with
          | Some f, None => if forwarder_gone p then p else set_slot1 (Some f) p
          | _, _ => p
          end in
        let p := if bridge_stop p then p else set_invalidated (S (invalidated p)) p in
        bridge_exit p
  end.
(** One turn of the bridge.
    [portal_generic.rs:656-718 direct_frame_receiver] *)
Definition bridge_turn (p : Path) : Path :=
  match bridge p with Top => bridge_top p | Receive => bridge_receive p | BridgeGone => p end.

(** [production.rs:1297-1301 prime_direct_frame_receiver] *)
Definition of_size (w h : Z) (d : RawFrameData) : bool := bool_decide (rd_width d = Some w) && bool_decide (rd_height d = Some h).
(** One move of the forwarder; [production.rs] gives up when the capture ends
    before a frame of the right size came.
    [production.rs:1284-1318 prime_direct_frame_receiver] *)
Definition forward_turn (p : Path) : Path :=
  match forwarder p with
  | Priming w h =>
      match slot1 p with
      | Some d => let p := set_slot1 None p in if of_size w h d then set_forwarder (Holding d) p else p
      | None => if bridge_gone p then set_forwarder ForwarderGone p else p
      end
  | Waiting =>
      match slot1 p with
      | Some d => set_forwarder (Holding d) (set_slot1 None p)
      | None => if bridge_gone p then set_forwarder ForwarderGone p else p
      end
  | Holding d =>
      if negb (adapter p) then set_slot1 None (set_forwarder ForwarderGone p)
      else match slot2 p with None => set_forwarder Waiting (set_slot2 (Some d) p) | Some _ => p end
  | ForwarderGone => p
  end.
(** The wait for the first frame has run out.
    [production.rs:1290-1296 prime_direct_frame_receiver] *)
Definition prime_timeout (p : Path) : Path :=
  match forwarder p with Priming _ _ => set_slot1 None (set_forwarder ForwarderGone p) | _ => p end.

Definition FRAME_QUEUE : nat := 256.
(** One turn of the adapter: a frame for which there is no room is dropped.
    [pw_thread.rs:192-224 new_direct] *)
Definition adapter_turn (width height now : Z) (p : Path) : Path :=
  if negb (adapter p) then p
  else if adapter_stop p then set_slot2 None (set_adapter false p)
  else match slot2 p with
  | Some d =>
      let n := count p + 1 in
      let p := set_count n (set_slot2 None p) in
      if display p && (length (frames p) <? FRAME_QUEUE)%nat then set_frames (frames p ++ [adapted width height n now d]) p else p
  | None => if forwarder_gone p then set_adapter false p else p
  end.

(** The steps: the capture sends a frame or ends, the threads take their turns,
    the display takes all frames there are, teardown is asked for. *)
Inductive PathStep := Captured (f : RawFrame) | CaptureEnds | BridgeTurn | ForwardTurn | PrimeTimeout | AdapterTurn (now : Z) | TakeAll | StopBridge | StopAdapter | DropDisplay.
Section path.
Context (width height : Z).

Definition path_step (l : PathStep) (p : Path) : Path :=
  match l with
  | Captured f => if capturing p && negb (bridge_gone p) then set_sources (sources p ++ [f]) (set_raw (raw p ++ [f]) p) else p
  | CaptureEnds => set_capturing false p
  | BridgeTurn => bridge_turn p
  | ForwardTurn => forward_turn p
  | PrimeTimeout => prime_timeout p
  | AdapterTurn now => adapter_turn width height now p
  | TakeAll => set_frames [] (set_shown (shown p ++ frames p) p)
  | StopBridge => set_bridge_stop true p
  | StopAdapter => set_adapter_stop true p
  | DropDisplay => set_display false p
  end.
Definition path_run (ls : list PathStep) (p : Path) : Path := foldl (fun p l => path_step l p) p ls.
(** The path as it is built for a desktop of the negotiated size. *)
Definition path_new : Path := mkPath [] true Top None 0 false 0 None (Priming width height) None true false 0 [] true [] [].

(** What a frame shows, at each stage: its pixels, size and stride, and the format
    the pixels are read in.  The path reads every captured frame as BGRx, whatever
    format the compositor wrote it in ([raw_format]). *)
Definition picture : Type := list Z * nat * nat * nat * Frames.PixelFormat.
Definition of_raw (f : RawFrame) : picture := (raw_data f, Z.to_nat (raw_width f), Z.to_nat (raw_height f), Z.to_nat (raw_stride f), Frames.BGRx).
Definition of_data (d : RawFrameData) : picture :=
  (rd_data d, Z.to_nat (default width (rd_width d)), Z.to_nat (default height (rd_height d)), Z.to_nat (default (wrap 32 (width * 4)) (rd_stride d)),
   default Frames.BGRx (rd_format d)).
Definition of_video (f : VideoFrame) : picture := (Frames.f_data f, Frames.f_width f, Frames.f_height f, Frames.f_stride f, Frames.f_format f).
Definition held (p : Path) : list RawFrameData := match forwarder p with Holding d => [d] | _ => [] end.
(** All frames on the path, the oldest first. *)
Definition inflight (p : Path) : list RawFrameData := option_list (slot2 p) ++ held p ++ option_list (slot1 p) ++ option_list (bridge_pending p).
Definition line (p : Path) : list picture := map of_video (shown p ++ frames p) ++ map of_data (inflight p) ++ map of_raw (raw p).

Lemma of_converted f : of_data (converted f) = of_raw f.
Proof. done. Qed.
Lemma of_adapted n now d : of_video (adapted width height n now d) = of_data d.
Proof. done. Qed.

Lemma line_app p : line p = map of_video (shown p) ++ map of_video (frames p) ++ map of_data (option_list (slot2 p)) ++ map of_data (held p) ++
  map of_data (option_list (slot1 p)) ++ map of_data (option_list (bridge_pending p)) ++ map of_raw (raw p).
Proof. unfold line, inflight. by rewrite !map_app, <-!app_assoc. Qed.

(** The two sides share what is in front and behind. *)
Ltac keep_order := cbn; repeat first [reflexivity | apply sublist_nil_l | apply sublist_app; [reflexivity|] | apply sublist_skip | apply sublist_cons | apply sublist_inserts_l].
Ltac open_path p := destruct p as [raw0 cap0 br0 pend0 drop0 bstop0 inv0 s10 fw0 s20 ad0 astop0 n0 q0 disp0 src0 shown0]; cbn in *.

Lemma bridge_line p : line (bridge_turn p) `sublist_of` line p.
Proof.
  rewrite !line_app. open_path p. unfold bridge_turn, bridge_top, bridge_receive, bridge_exit, held. cbn.
  destruct br0; cbn; [destruct bstop0; cbn; [|destruct pend0 as [r|], s10, fw0; cbn]|destruct raw0; cbn; [destruct cap0, pend0, s10, fw0, bstop0; cbn|destruct pend0; cbn]|]; keep_order.
Qed.
Lemma forward_line p : line (forward_turn p) `sublist_of` line p.
Proof.
  rewrite !line_app. open_path p. unfold forward_turn, held, bridge_gone. cbn. destruct fw0; cbn; [destruct s10 as [d|]; cbn; [destruct (of_size _ _ d); cbn|destruct br0; cbn]|destruct s10; cbn; [|destruct br0; cbn]|destruct ad0, s20; cbn|]; keep_order.
Qed.
Lemma timeout_line p : line (prime_timeout p) `sublist_of` line p.
Proof. rewrite !line_app. open_path p. unfold prime_timeout, held. cbn. destruct fw0; cbn; keep_order. Qed.
Lemma adapter_line now p : line (adapter_turn width height now p) `sublist_of` line p.
Proof.
  rewrite !line_app. open_path p. unfold adapter_turn, held, forwarder_gone. cbn.
  destruct ad0; cbn; [|keep_order]. destruct astop0; cbn; [keep_order|]. destruct s20 as [d|]; cbn; [|destruct fw0; cbn; keep_order].
  destruct (disp0 && _); cbn; [rewrite map_app, <-!app_assoc; cbn; rewrite of_adapted|]; keep_order.
Qed.

Definition accepted (l : PathStep) (p : Path) : list RawFrame := match l with Captured f => if capturing p && negb (bridge_gone p) then [f] else [] | _ => [] end.
Lemma bridge_sources p : sources (bridge_turn p) = sources p /\ shown (bridge_turn p) = shown p /\ frames (bridge_turn p) = frames p /\ count (bridge_turn p) = count p.
Proof. unfold bridge_turn, bridge_top, bridge_receive, bridge_exit. repeat case_match; done. Qed.
Lemma forward_sources p : sources (forward_turn p) = sources p /\ shown (forward_turn p) = shown p /\ frames (forward_turn p) = frames p /\ count (forward_turn p) = count p.
Proof. unfold forward_turn. repeat case_match; done. Qed.
Lemma step_sources l p : sources (path_step l p) = sources p ++ accepted l p.
Proof.
  destruct l; cbn [path_step accepted]; rewrite ?app_nil_r; try done.
  - destruct (_ && _); by rewrite ?app_nil_r.
  - apply bridge_sources.
  - apply forward_sources.
  - unfold prime_timeout. by case_match.
  - unfold adapter_turn. repeat case_match; done.
Qed.
Lemma step_line l p : line (path_step l p) `sublist_of` line p ++ map of_raw (accepted l p).
Proof.
  destruct l; cbn [path_step accepted map]; rewrite ?app_nil_r; try reflexivity.
  - destruct (_ && _); [|by rewrite app_nil_r]. rewrite !line_app. unfold held. cbn. by rewrite map_app, <-!app_assoc.
  - apply bridge_line.
  - apply forward_line.
  - apply timeout_line.
  - apply adapter_line.
  - unfold line, inflight, held. cbn. by rewrite app_nil_r.
Qed.

Definition numbered (p : Path) : Prop :=
  0 <= count p /\ StronglySorted Z.lt (map Frames.frame_id (shown p ++ frames p)) /\ Forall (fun f => 1 <= Frames.frame_id f <= count p) (shown p ++ frames p).
Lemma increasing_snoc (l : list Z) x : StronglySorted Z.lt l -> Forall (fun y => y < x) l -> StronglySorted Z.lt (l ++ [x]).
Proof. induction 1 as [|y l S IH F]; intros H; [by repeat constructor|]. apply Forall_cons in H as [H1 H2]. cbn. constructor; [by apply IH|]. apply Forall_app. by auto. Qed.
Lemma step_numbered l p : numbered p -> numbered (path_step l p).
Proof.
  intros N. unfold numbered in *. destruct l; cbn [path_step]; try exact N.
  - by destruct (_ && _).
  - destruct (bridge_sources p) as (_ & -> & -> & ->). exact N.
  - destruct (forward_sources p) as (_ & -> & -> & ->). exact N.
  - unfold prime_timeout. by case_match.
  - unfold adapter_turn. destruct (negb (adapter p)); [exact N|]. destruct (adapter_stop p); [exact N|]. destruct (slot2 p) as [d|]; [|by destruct (forwarder_gone p)].
    destruct N as (C & S & F). assert (Forall (fun f => 1 <= Frames.frame_id f <= count p + 1) (shown p ++ frames p)) as F' by (eapply Forall_impl; [exact F|]; cbn; intros; lia).
    destruct (_ && _); cbn; [|split; [lia|by split]]. split; [lia|]. rewrite app_assoc, map_app. split.
    + apply increasing_snoc; [done|]. apply Forall_map. eapply Forall_impl; [exact F|]. cbn. lia.
    + apply Forall_app. split; [done|]. constructor; [cbn; lia|constructor].
  - cbn. by rewrite app_nil_r.
Qed.

(** C22. The display is shown the bytes that were captured, read as BGRx.  Over
    every interleaving of the capture, the three threads, the display and teardown,
    the frames shown, those waiting and those still on the way form, in this order,
    a subsequence of the frames captured, each with its bytes, its size and its
    stride unchanged; every one is labelled BGRx, which is what the compositor wrote
    only if that was its format, since the bridge drops the format of the capture
    ([bridge_forgets_format]); and the numbers of the frames given to the display
    increase strictly. *)
Theorem shown_frames_captured ls :
  let p := path_run ls (path_new) in
  line p `sublist_of` map of_raw (sources p) /\ StronglySorted Z.lt (map Frames.frame_id (shown p ++ frames p)).
Proof.
  assert (line (path_new) `sublist_of` map of_raw (sources (path_new)) /\ numbered (path_new)) as I.
  { split; [reflexivity|]. unfold numbered. cbn. split; [done|]. by split; constructor. }
  revert I. generalize (path_new). intros p. cbn zeta. revert p. induction ls as [|l ls IH]; intros p [L N]; [by split; [|apply N]|].
  apply (IH (path_step l p)). split; [|by apply step_numbered].
  rewrite step_sources, map_app. etrans; [apply step_line|]. by apply sublist_app.
Qed.

(** ** The newest frame arrives

    One round: every thread gets its turns and the display takes what there is. *)
Definition round (now : Z) : list PathStep := [BridgeTurn; BridgeTurn; ForwardTurn; ForwardTurn; AdapterTurn now; TakeAll].
(** The path runs: the first frame of the right size has come, nothing has ended
    or been told to. *)
Record running (p : Path) : Prop := mkRunning {
  rn_capture : capturing p = true; rn_bridge : bridge p <> BridgeGone; rn_stop : bridge_stop p = false;
  rn_forwarder : match forwarder p with Waiting | Holding _ => True | _ => False end;
  rn_adapter : adapter p = true; rn_adapter_stop : adapter_stop p = false; rn_display : display p = true }.
Definition places (p : Path) : nat :=
  (length (option_list (slot2 p)) + 2 * length (held p) + 3 * length (option_list (slot1 p)) + 4 * length (option_list (bridge_pending p)) + 5 * length (raw p))%nat.

Lemma last_line p : frames p = [] -> places p = 0%nat -> last (line p) = last (map of_video (shown p)).
Proof.
  unfold places. intros Q E. rewrite line_app, Q. destruct (slot2 p), (held p), (slot1 p), (bridge_pending p), (raw p); cbn in E; try lia. cbn. by rewrite app_nil_r.
Qed.
Ltac ends := do 3 (cbn; rewrite ?map_app, ?last_app, ?last_cons, ?of_converted, ?of_adapted); repeat case_match; rewrite ?of_converted, ?of_adapted in *; done || congruence.
Definition in_front (p : Path) : nat := (length (option_list (slot2 p)) + length (held p) + length (option_list (slot1 p)))%nat.
Lemma bridge_half p : running p -> frames p = [] ->
  let p' := bridge_turn (bridge_turn p) in running p' /\ frames p' = [] /\ last (line p') = last (line p) /\
  (places p' < places p \/ places p' = places p /\ (0 < in_front p' \/ places p = 0))%nat.
Proof.
  cbn zeta. rewrite !line_app. unfold places, in_front, held. intros [C B S F A T D] Q. open_path p. subst.
  destruct fw0; try done; destruct br0; try done; destruct pend0, s10, raw0 as [|f raw0]; cbn; (split; [constructor; done|]); (split; [done|]); (split; [|destruct s20; cbn; lia]); rewrite ?app_nil_r; ends.
Qed.
Lemma forward_one p : running p -> frames p = [] ->
  let p' := forward_turn p in running p' /\ frames p' = [] /\ line p' = line p /\ (slot2 p <> None -> slot2 p' <> None) /\
  (places p' < places p \/ places p' = places p /\ (in_front p = 0 \/ slot2 p <> None))%nat.
Proof.
  cbn zeta. rewrite !line_app. unfold places, in_front, held, forward_turn, bridge_gone. intros [C B S F A T D] Q. open_path p. subst.
  destruct fw0; try done; destruct s10, s20, br0; try done; cbn; (split; [constructor; done|]); (split; [done|]); (split; [done|]); (split; [done|]); try (left; lia); right; (split; [lia|]); auto.
Qed.
Lemma adapter_one now p : running p -> frames p = [] ->
  let p' := path_step TakeAll (adapter_turn width height now p) in running p' /\ frames p' = [] /\ line p' = line p /\
  (places p' < places p \/ places p' = places p /\ slot2 p = None)%nat.
Proof.
  cbn zeta. intros [C B S F A T D] Q. unfold adapter_turn. rewrite A, T. cbn [negb]. destruct (slot2 p) as [d|] eqn:S2.
  - cbn [display frames set_count set_slot2]. rewrite D, Q. change (true && (length [] <? FRAME_QUEUE)%nat) with true. cbn iota. rewrite !line_app. unfold places, held. cbn. rewrite S2, Q. cbn.
    split; [by constructor|]. split; [done|]. split; [by rewrite map_app, <-app_assoc|]. left. lia.
  - assert (forwarder_gone p = false) as -> by (unfold forwarder_gone; by destruct (forwarder p)). rewrite !line_app. unfold places, held. cbn. rewrite S2, Q. cbn.
    split; [by constructor|]. split; [done|]. split; [by rewrite app_nil_r|]. by right.
Qed.
Lemma front_half now p : running p -> frames p = [] ->
  let p' := path_step TakeAll (adapter_turn width height now (forward_turn (forward_turn p))) in running p' /\ frames p' = [] /\ line p' = line p /\
  (places p' < places p \/ places p' = places p /\ in_front p = 0)%nat.
Proof.
  intros R Q p'. destruct (forward_one p R Q) as (R1 & Q1 & L1 & S1 & P1). destruct (forward_one _ R1 Q1) as (R2 & Q2 & L2 & S2 & P2).
  destruct (adapter_one now _ R2 Q2) as (R3 & Q3 & L3 & P3). fold p' in R3, Q3, L3, P3. split; [done|]. split; [done|]. split; [by rewrite L3, L2|].
  destruct P1 as [P1|[P1 [I|I]]]; [left; lia|lia|]. left. destruct P3 as [P3|[P3 N]]; [lia|]. exfalso. by apply S2, N; apply S1.
Qed.
Lemma round_runs now p : running p -> frames p = [] ->
  let p' := path_run (round now) p in running p' /\ frames p' = [] /\ last (line p') = last (line p) /\ (places p' < places p \/ places p' = 0)%nat.
Proof.
  intros R Q p'. destruct (bridge_half p R Q) as (R1 & Q1 & L1 & P1). destruct (front_half now _ R1 Q1) as (R2 & Q2 & L2 & P2).
  change p' with (path_step TakeAll (adapter_turn width height now (forward_turn (forward_turn (bridge_turn (bridge_turn p)))))).
  split; [done|]. split; [done|]. split; [by rewrite L2, L1|]. lia.
Qed.

Fixpoint rounds (times : list Z) (p : Path) : Path := match times with [] => p | now :: times => rounds times (path_run (round now) p) end.
Lemma rounds_run times p : running p -> frames p = [] ->
  running (rounds times p) /\ frames (rounds times p) = [] /\ last (line (rounds times p)) = last (line p) /\
  (places p <= length times -> places (rounds times p) = 0)%nat.
Proof.
  revert p. induction times as [|now times IH]; intros p R Q; [split_and!; try done; cbn; lia|]. cbn [rounds length].
  destruct (round_runs now p R Q) as (R1 & Q1 & L1 & P1). destruct (IH _ R1 Q1) as (R2 & Q2 & L2 & P2). split_and!; [done..|by rewrite L2|]. intros N. apply P2. lia.
Qed.

(** C21. The newest frame reaches the display.  On a running path, whatever
    frames are still on their way, a frame that is captured is the last one
    shown after as many rounds as there are places to move the waiting frames
    through, and the path runs on: no newer frame is ever held up by older ones
    or lost, as long as the display takes its frames. *)
Theorem newest_frame_arrives p f times :
  running p -> frames p = [] -> (places p + 5 <= length times)%nat ->
  let p' := rounds times (path_step (Captured f) p) in last (map of_video (shown p')) = Some (of_raw f) /\ running p'.
Proof.
  intros R Q N. set (q := path_step (Captured f) p).
  assert (q = set_sources (sources p ++ [f]) (set_raw (raw p ++ [f]) p)) as E.
  { unfold q. cbn [path_step]. rewrite (rn_capture _ R). assert (bridge_gone p = false) as -> by (pose proof (rn_bridge _ R); unfold bridge_gone; by destruct (bridge p)). done. }
  assert (running q /\ frames q = [] /\ last (line q) = Some (of_raw f) /\ places q = (places p + 5)%nat) as (R1 & Q1 & L1 & P1).
  { rewrite E. split; [by destruct R|]. split; [done|]. split; [|unfold places, held; cbn; rewrite length_app; cbn; lia].
    rewrite line_app. cbn. rewrite map_app. cbn. by rewrite !app_assoc, last_snoc. }
  destruct (rounds_run times q R1 Q1) as (R2 & Q2 & L2 & P2). cbn zeta. split; [|done]. change (rounds times (path_step (Captured f) p)) with (rounds times q). rewrite <-(last_line _ Q2), L2; [done|]; apply P2; lia.
Qed.
End path.

(** A path on which the first frame of the negotiated size has come. *)
Definition example_frame (b : Z) : RawFrame := mkRaw [b; b; b; 255] 1 1 4 1.
Definition example_path : Path := path_run 1 1 [Captured (example_frame 7); BridgeTurn; BridgeTurn; BridgeTurn; ForwardTurn; ForwardTurn; AdapterTurn 0; TakeAll] (path_new 1 1).
Lemma newest_frame_arrives_witness :
  (running example_path /\ frames example_path = [] /\ (places example_path + 5 <= 5)%nat) /\
  let p' := rounds 1 1 [0; 1; 2; 3; 4] (path_step 1 1 (Captured (example_frame 9)) example_path) in
  last (map of_video (shown p')) = Some (of_raw (example_frame 9)) /\ running p'.
Proof.
  split; [vm_compute; by split_and!; [constructor|..]|]. apply (newest_frame_arrives 1 1 example_path (example_frame 9) [0; 1; 2; 3; 4]); [by constructor|done|vm_compute; lia].
Defined.

(** ** What the path does otherwise *)

(** The pixel format of the frame is forgotten on the way: every frame is taken
    for BGRx, whatever the compositor wrote. *)
Lemma bridge_forgets_format w h n now f : Frames.f_format (adapted w h n now (converted f)) = Frames.BGRx.
Proof. done. Qed.

(** The bridge keeps only the newest frame when its reader is slow, but its
    reader never is: the adapter takes every frame at once and queues up to 256
    of them, and when the display stands still it is the newest that are lost
    while the oldest wait. *)
Definition busy_round (b : Z) : list PathStep := [Captured (example_frame b); BridgeTurn; BridgeTurn; ForwardTurn; ForwardTurn; AdapterTurn 0].
Lemma oldest_frames_kept :
  let p := path_run 1 1 (concat (map (fun k => busy_round (Z.of_nat k)) (seq 0 300))) example_path in
  dropped p = 0 /\ length (frames p) = 256%nat /\
  option_map Frames.f_data (head (frames p)) = Some [0; 0; 0; 255] /\ option_map Frames.f_data (last (frames p)) = Some [255; 255; 255; 255].
Proof. by vm_compute. Qed.

(** A capture that ends is reported at most once, and only when the bridge was
    not told to stop. *)
Lemma invalidated_once w h ls : let p := path_run w h ls (path_new w h) in (invalidated p <= 1)%nat /\ (0 < invalidated p -> bridge p = BridgeGone)%nat.
Proof.
  assert (forall p, ((invalidated p <= 1)%nat /\ (0 < invalidated p -> bridge p = BridgeGone)%nat) -> forall l, (invalidated (path_step w h l p) <= 1)%nat /\ (0 < invalidated (path_step w h l p) -> bridge (path_step w h l p) = BridgeGone)%nat) as K.
  { intros p [I B] l. destruct l; cbn [path_step]; try done.
    - by destruct (_ && _).
    - unfold bridge_turn. destruct (bridge p) eqn:E; [| |done]; (assert (invalidated p = 0%nat) as Z by (destruct (invalidated p); [done|by discriminate B; lia])).
      + unfold bridge_top, bridge_exit. repeat case_match; cbn; rewrite ?Z; (split; [lia|]); lia.
      + unfold bridge_receive, bridge_exit. repeat case_match; cbn; rewrite ?Z; (split; [lia|]); try lia; done.
    - unfold forward_turn. repeat case_match; done.
    - unfold prime_timeout. by case_match.
    - unfold adapter_turn. repeat case_match; done. }
  cbn zeta. unfold path_run. assert ((invalidated (path_new w h) <= 1)%nat /\ (0 < invalidated (path_new w h) -> bridge (path_new w h) = BridgeGone)%nat) as I by (cbn; lia).
  revert I. generalize (path_new w h). induction ls as [|l ls IH]; intros p I; [done|]. by apply IH, K.
Qed.
