(* ===== verification/PortalSession.v ===== *)
(** * The session of one connection

    The embedded session backend (rdp/session/backends/portal_generic.rs): its
    construction from a connection to the managed compositor with the rollback
    of what was begun, the injection of the client's input, its health latch,
    and its shutdown.  The compositor, the keymap library and the native threads
    are outside: what connecting, a call or a join yields is an argument. *)
From S2P Require Import Prelude Text Float PortalState PortalClipboard PortalServices PortalCapture PortalInput.
From S2P Require InputQueue Supervision.
Abbreviation Stream := InputQueue.StreamInfo (only parsing).
Abbreviation HealthEvent := Supervision.SessionStatusEvent (only parsing).

(** ** The health latch

    The reporter by its number, the event kept for it, and whether an event was
    sent.  The lock on the event makes each operation one step. *)
Record Health := mkHealth { reporter : option nat; pending_event : option HealthEvent; reported : bool }.
Definition health_new : Health := mkHealth None None false.
(** [portal_generic.rs:82-116 report_health_once] *)
Definition report_health_once (e : HealthEvent) (h : Health) : list (nat * HealthEvent) * Health :=
  if reported h then ([], h)
  else match reporter h with
  | Some r => ([(r, e)], mkHealth (reporter h) (pending_event h) true)
  | None => ([], match pending_event h with None => mkHealth None (Some e) false | Some _ => h end)
  end.
(** [portal_generic.rs:120-146 install_health_reporter] *)
Definition install_health_reporter (r : nat) (h : Health) : list (nat * HealthEvent) * Health :=
  match pending_event h with
  | Some e => if reported h then ([], mkHealth (Some r) None true) else ([(r, e)], mkHealth (Some r) None true)
  | None => ([], mkHealth (Some r) None (reported h))
  end.

Inductive HealthOp := ReportHealth (e : HealthEvent) | InstallReporter (r : nat).
Definition health_op (o : HealthOp) : Health -> list (nat * HealthEvent) * Health :=
  match o with ReportHealth e => report_health_once e | InstallReporter r => install_health_reporter r end.
Fixpoint health_run (os : list HealthOp) (h : Health) : list (nat * HealthEvent) * Health :=
  match os with [] => ([], h) | o :: os => let '(es, h) := health_op o h in let '(es', h) := health_run os h in (es ++ es', h) end.

(** What should be sent: the first event, to the reporter in place then, or else
    to the first one after it. *)
Fixpoint first_reporter (os : list HealthOp) : option nat :=
  match os with [] => None | InstallReporter r :: _ => Some r | ReportHealth _ :: os => first_reporter os end.
Fixpoint health_spec (r : option nat) (os : list HealthOp) : list (nat * HealthEvent) :=
  match os with
  | [] => []
  | InstallReporter r :: os => health_spec (Some r) os
  | ReportHealth e :: os => match match r with Some r => Some r | None => first_reporter os end with Some r => [(r, e)] | None => [] end
  end.

Lemma health_run_cons o os h : (health_run (o :: os) h).1 = (health_op o h).1 ++ (health_run os (health_op o h).2).1.
Proof. cbn [health_run]. destruct (health_op o h) as [es h']. cbn. by destruct (health_run os h'). Qed.
Lemma nothing_more os r : (health_run os (mkHealth (Some r) None true)).1 = [].
Proof. revert r. induction os as [|[e|r'] os IH]; intros r; [done|..]; rewrite health_run_cons; apply IH. Qed.
Lemma latched os e : (health_run os (mkHealth None (Some e) false)).1 = match first_reporter os with Some r => [(r, e)] | None => [] end.
Proof.
  induction os as [|[e'|r] os IH]; [done|..]; rewrite health_run_cons; [exact IH|].
  cbn [health_op]. unfold install_health_reporter. cbn [pending_event reported fst snd]. by rewrite nothing_more.
Qed.
(** C24. The end of a session is reported exactly once.  Over every order of
    reports (by the frame bridge, shutdown and drop) and of supervisors being
    attached, exactly the first event is sent, once: to the supervisor attached
    at that time, or when there is none to the first one attached later. *)
Theorem health_reported_once os : (health_run os health_new).1 = health_spec None os.
Proof.
  assert (forall r, (health_run os (mkHealth r None false)).1 = health_spec r os) as K; [|apply K].
  induction os as [|[e|r'] os IH]; intros r; [done|..]; rewrite health_run_cons; cbn [health_op health_spec]; [|apply IH].
  unfold report_health_once. cbn [reported reporter pending_event]. destruct r as [r|]; cbn [fst snd]; [by rewrite nothing_more|apply latched].
Qed.

(** ** Construction *)

(** The input backend that was chosen. *)
Inductive InputSide (X : Type) := WlrSide (b : WlrInputBackend X) | BridgeSide (b : EisBridgeBackend X).
Arguments WlrSide {X}. Arguments BridgeSide {X}.
Inductive SessionEffect :=
| SpawnLoop (force_wlr : bool) (handshake : option Z) | StopLoop | JoinLoop | SpawnBridge | StopBridge | JoinBridge
| Virtual (r : VirtualRequest) | CloseInput | ToCapture (c : CaptureCommand) | Report (to : nat) (e : HealthEvent).

(** The outside: the connection with the protocols and outputs it finds, the
    input backend's own connection, the EIS side, the calls' failures, and the
    name of the context. *)
Record SessionEnv (X : Type) := mkEnv {
  connect : outcome PortalError (AvailableProtocols * list OutputInfo); make_input : WlrConfig -> outcome PortalError (WlrInputBackend X);
  eis : outcome PortalError unit; create_link : Link; rollback_link : Link; context_id : str }.
Arguments mkEnv {X}. Arguments connect {X}. Arguments make_input {X}. Arguments eis {X}. Arguments create_link {X}. Arguments rollback_link {X}. Arguments context_id {X}.

(** [portal_generic.rs:505-542 PortalGenericSessionHandle] *)
Record Handle (X : Type) := mkHandle {
  h_input : option (str * InputSide X); first_pointer_event : bool; h_capture : CaptureBackend; capture_stream_ids : list Z;
  h_clipboard : option PortalClipboard.Backend; h_streams : list Stream; frame_rx : bool; wayland_stop : bool; event_loop : bool;
  h_bridge_stop : bool; bridge_handle : bool; shutdown_done : bool; shutdown_failure : option str; health : Health }.
Arguments mkHandle {X}. Arguments h_input {X}. Arguments first_pointer_event {X}. Arguments h_capture {X}. Arguments capture_stream_ids {X}. Arguments h_clipboard {X}.
Arguments h_streams {X}. Arguments frame_rx {X}. Arguments wayland_stop {X}. Arguments event_loop {X}. Arguments h_bridge_stop {X}. Arguments bridge_handle {X}.
Arguments shutdown_done {X}. Arguments shutdown_failure {X}. Arguments health {X}.

Section session.
Context {X : Type}.

(** [services/input/mod.rs:276-311 create_input_backend] *)
Definition create_input_backend (make : WlrConfig -> outcome PortalError (WlrInputBackend X)) (c : InputBackendConfig) (p : AvailableProtocols) : outcome PortalError (InputSide X) :=
  kind ← input_backend_kind c p;
  b ← make (wlr c);
  Ok (match kind with Eis => BridgeSide (mkBridge ∅ b) | WlrVirtualInput => WlrSide b end).
Definition side_create (eis : outcome PortalError unit) (l : Link) (session : str) (d : DeviceTypes) (b : InputSide X) : outcome PortalError unit * list VirtualRequest * InputSide X :=
  match b with
  | WlrSide b => let '(r, rs, b) := create_context l session d b in (r, rs, WlrSide b)
  | BridgeSide b => let '(r, rs, b) := bridge_create_context eis l session d b in (r, rs, BridgeSide b)
  end.
Definition side_destroy (l : Link) (session : str) (b : InputSide X) : outcome PortalError unit * list VirtualRequest * InputSide X :=
  match b with
  | WlrSide b => let '(r, rs, b) := destroy_context l session b in (r, rs, WlrSide b)
  | BridgeSide b => let '(r, rs, b) := bridge_destroy_context l session b in (r, rs, BridgeSide b)
  end.
Definition side_inject (l : Link) (session : str) (e : InputEvent) (b : InputSide X) : outcome PortalError unit * list VirtualRequest * InputSide X :=
  match b with
  | WlrSide b => let '(r, rs, b) := inject_event l session e b in (r, rs, WlrSide b)
  | BridgeSide b => let '(r, rs, b) := bridge_inject_event l session e b in (r, rs, BridgeSide b)
  end.
Definition side_set_mappings (ms : list StreamOutputMapping) (b : InputSide X) : InputSide X :=
  match b with WlrSide b => WlrSide (set_stream_mappings ms b) | BridgeSide b => BridgeSide (mkBridge (eis_sessions b) (set_stream_mappings ms (wlr_side b))) end.

(** What the event loop is started with, what is offered and what can be shown.
    [portal_generic.rs:226-251 prepare_wayland] *)
Definition prepare_wayland (env : SessionEnv X) (c : CapturePreference) : outcome str (bool * option Z * AvailableProtocols * list SourceInfo) :=
  match connect env with
  | Ok (protocols, outputs) =>
      let avoid_ext := bool_decide (preferred c = Some WlrScreencopy) || bool_decide (ExtImageCopyCapture ∈ broken_protocols c) in
      Ok (avoid_ext, if handshake_timeout_ms c =? 0 then None else Some (handshake_timeout_ms c), protocols, output_sources outputs)
  | Err _ => Err (lit "connect to managed Wayland display")
  | Panic => Panic
  end.
(** A backend whose context could not be made is dropped with its connection.
    [portal_generic.rs:253-277 attach_input] *)
Definition attach_input (env : SessionEnv X) (c : InputBackendConfig) (p : AvailableProtocols) (socket : option str) (uid : option Z)
    : outcome str (str * InputSide X) * list SessionEffect :=
  let c := with_wlr (mkWlr (wayland_display (wlr c)) socket uid (keyboard_layout (wlr c))) c in
  match create_input_backend (make_input env) c p with
  | Ok b =>
      let '(r, rs, b) := side_create (eis env) (create_link env) (context_id env) (mkDevices true true false) b in
      match r with
      | Ok _ => (Ok (context_id env, b), map Virtual rs)
      | Err e => (Err (lit "create input context: " ++ portal_error_text e), map Virtual rs ++ [CloseInput])
      | Panic => (Panic, map Virtual rs ++ [CloseInput])
      end
  | Err e => (Err (lit "create input backend: " ++ portal_error_text e), [])
  | Panic => (Panic, [])
  end.
Definition to_stream (s : StreamInfo) : Stream :=
  InputQueue.mkStream (node_id s) (stream_size s).1 (stream_size s).2 (stream_position s).1 (stream_position s).2.
(** [portal_generic.rs:279-309 start_monitor_capture] *)
Definition start_monitor_capture (c : CapturePreference) (p : AvailableProtocols) (sources : list SourceInfo)
    : outcome str (CaptureBackend * list Stream) * list SessionEffect :=
  let b := create_capture_backend p c sources pipewire_disabled in
  let '(r, cs, b) := create_capture_session BlockingThread (get_sources [Monitor] b) Hidden b in
  (match r with
   | Ok streams => Ok (b, map to_stream streams)
   | Err e => Err (lit "start monitor capture: " ++ portal_error_text e)
   | Panic => Panic
   end, map ToCapture cs).

(** What was begun and is undone unless it is disarmed.
    [portal_generic.rs:154-163 ConstructionRollback] *)
Record ConstructionRollback := mkRollback { rb_input : option (str * InputSide X); rb_capture : option (CaptureBackend * list Z); armed : bool }.
(** [portal_generic.rs:199-223 drop] *)
Definition rollback_drop (env : SessionEnv X) (rb : ConstructionRollback) : list SessionEffect :=
  if negb (armed rb) then []
  else
    (match rb_input rb with
     | Some (id, b) => let '(_, rs, _) := side_destroy (rollback_link env) id b in map Virtual rs
     | None => []
     end) ++
    (match rb_capture rb with
     | Some (b, (_ :: _) as ids) => let '(_, cs, _) := destroy_capture_session BlockingThread ids b in map ToCapture cs
     | _ => []
     end) ++ [StopLoop; JoinLoop].

(** [portal_generic.rs:389-489 create_session_with_wayland] *)
Definition create_session_with_wayland (env : SessionEnv X) (settings : PortalStartupSettings) (socket : option str)
    (enable_input enable_clipboard : bool) (uid : option Z) : outcome str (Handle X) * list SessionEffect :=
  match prepare_wayland env (capture settings) with
  | Err e => (Err e, [])
  | Panic => (Panic, [])
  | Ok (force_wlr, timeout, protocols, sources) =>
      let spawned := [SpawnLoop force_wlr timeout] in
      let rb := mkRollback None None true in
      let '(input, es) := if enable_input then let '(r, es) := attach_input env (input settings) protocols socket uid in (Some <$> r, es) else (Ok None, []) in
      match input with
      | Err e => (Err e, spawned ++ es ++ rollback_drop env rb)
      | Panic => (Panic, spawned ++ es ++ rollback_drop env rb)
      | Ok input =>
          let rb := mkRollback input None true in
          let closing := match input with Some _ => [CloseInput] | None => [] end in
          let '(r, cs) := start_monitor_capture (capture settings) protocols sources in
          match r with
          | Err e => (Err e, spawned ++ es ++ cs ++ rollback_drop env rb ++ closing)
          | Panic => (Panic, spawned ++ es ++ cs ++ rollback_drop env rb ++ closing)
          | Ok (backend, streams) =>
              let clipboard := if enable_clipboard then create_clipboard_backend protocols (clipboard settings) true else None in
              (Ok (mkHandle input false backend (map InputQueue.node_id streams) clipboard streams true false true false false false None health_new),
               spawned ++ es ++ cs)
          end
      end
  end.
End session.

(** ** The session in use *)

Definition with_h_input {X} v (h : Handle X) : Handle X := mkHandle v (first_pointer_event h) (h_capture h) (capture_stream_ids h) (h_clipboard h) (h_streams h) (frame_rx h) (wayland_stop h) (event_loop h) (h_bridge_stop h) (bridge_handle h) (shutdown_done h) (shutdown_failure h) (health h).
Definition with_first_pointer_event {X} v (h : Handle X) : Handle X := mkHandle (h_input h) v (h_capture h) (capture_stream_ids h) (h_clipboard h) (h_streams h) (frame_rx h) (wayland_stop h) (event_loop h) (h_bridge_stop h) (bridge_handle h) (shutdown_done h) (shutdown_failure h) (health h).
Definition with_h_capture {X} v (h : Handle X) : Handle X := mkHandle (h_input h) (first_pointer_event h) v (capture_stream_ids h) (h_clipboard h) (h_streams h) (frame_rx h) (wayland_stop h) (event_loop h) (h_bridge_stop h) (bridge_handle h) (shutdown_done h) (shutdown_failure h) (health h).
Definition with_h_streams {X} v (h : Handle X) : Handle X := mkHandle (h_input h) (first_pointer_event h) (h_capture h) (capture_stream_ids h) (h_clipboard h) v (frame_rx h) (wayland_stop h) (event_loop h) (h_bridge_stop h) (bridge_handle h) (shutdown_done h) (shutdown_failure h) (health h).
Definition with_frame_rx {X} v (h : Handle X) : Handle X := mkHandle (h_input h) (first_pointer_event h) (h_capture h) (capture_stream_ids h) (h_clipboard h) (h_streams h) v (wayland_stop h) (event_loop h) (h_bridge_stop h) (bridge_handle h) (shutdown_done h) (shutdown_failure h) (health h).
Definition with_wayland_stop {X} v (h : Handle X) : Handle X := mkHandle (h_input h) (first_pointer_event h) (h_capture h) (capture_stream_ids h) (h_clipboard h) (h_streams h) (frame_rx h) v (event_loop h) (h_bridge_stop h) (bridge_handle h) (shutdown_done h) (shutdown_failure h) (health h).
Definition with_event_loop {X} v (h : Handle X) : Handle X := mkHandle (h_input h) (first_pointer_event h) (h_capture h) (capture_stream_ids h) (h_clipboard h) (h_streams h) (frame_rx h) (wayland_stop h) v (h_bridge_stop h) (bridge_handle h) (shutdown_done h) (shutdown_failure h) (health h).
Definition with_h_bridge_stop {X} v (h : Handle X) : Handle X := mkHandle (h_input h) (first_pointer_event h) (h_capture h) (capture_stream_ids h) (h_clipboard h) (h_streams h) (frame_rx h) (wayland_stop h) (event_loop h) v (bridge_handle h) (shutdown_done h) (shutdown_failure h) (health h).
Definition with_bridge_handle {X} v (h : Handle X) : Handle X := mkHandle (h_input h) (first_pointer_event h) (h_capture h) (capture_stream_ids h) (h_clipboard h) (h_streams h) (frame_rx h) (wayland_stop h) (event_loop h) (h_bridge_stop h) v (shutdown_done h) (shutdown_failure h) (health h).
Definition with_shutdown_done {X} v (h : Handle X) : Handle X := mkHandle (h_input h) (first_pointer_event h) (h_capture h) (capture_stream_ids h) (h_clipboard h) (h_streams h) (frame_rx h) (wayland_stop h) (event_loop h) (h_bridge_stop h) (bridge_handle h) v (shutdown_failure h) (health h).
Definition with_shutdown_failure {X} v (h : Handle X) : Handle X := mkHandle (h_input h) (first_pointer_event h) (h_capture h) (capture_stream_ids h) (h_clipboard h) (h_streams h) (frame_rx h) (wayland_stop h) (event_loop h) (h_bridge_stop h) (bridge_handle h) (shutdown_done h) v (health h).
Definition with_health {X} v (h : Handle X) : Handle X := mkHandle (h_input h) (first_pointer_event h) (h_capture h) (capture_stream_ids h) (h_clipboard h) (h_streams h) (frame_rx h) (wayland_stop h) (event_loop h) (h_bridge_stop h) (bridge_handle h) (shutdown_done h) (shutdown_failure h) v.

Section handle.
Context {X : Type}.
Implicit Types (h : Handle X).

(** [portal_generic.rs:571-589 normalize_absolute_pointer_position] *)
Definition normalize_absolute_pointer_position (streams : list Stream) (stream_id : Z) (x y : spec_float) : spec_float * spec_float :=
  let unit v := fclamp v fzero (f64_of_Z 1) in
  match match List.find (fun s => InputQueue.node_id s =? stream_id) streams with Some s => Some s | None => head streams end with
  | None => (unit x, unit y)
  | Some s => (unit (div64 x (f64_of_Z (Z.max (InputQueue.s_width s) 1))), unit (div64 y (f64_of_Z (Z.max (InputQueue.s_height s) 1))))
  end.
(** [portal_generic.rs:594-596 input_unavailable_error] *)
Definition input_unavailable_error (operation : str) : str := operation ++ lit ": input injection is not available for this view-only session".
(** [poisoned] when a call panicked while it held the backend.
    [portal_generic.rs:599-610 inject] *)
Definition inject (l : Link) (poisoned : bool) (e : InputEvent) (operation : str) h : outcome str unit * list SessionEffect * Handle X :=
  match h_input h with
  | None => (Err (input_unavailable_error operation), [], h)
  | Some (id, b) =>
      if poisoned then (Err (lit "input backend lock poisoned"), [], h)
      else
        let '(r, rs, b) := side_inject l id e b in
        (match r with Ok _ => Ok tt | Err e => Err (operation ++ lit ": " ++ portal_error_text e) | Panic => Panic end,
         map Virtual rs, with_h_input (Some (id, b)) h)
  end.
(** [portal_generic.rs:763-775 notify_keyboard_keycode] *)
Definition notify_keyboard_keycode l poisoned (now keycode : Z) (pressed : bool) h :=
  inject l poisoned (Keyboard (mkKey (wrap 32 keycode) (if pressed then KeyPressed else KeyReleased) now)) (lit "keyboard injection") h.
(** [portal_generic.rs:777-810 notify_pointer_motion_absolute] *)
Definition notify_pointer_motion_absolute l poisoned (now stream : Z) (x y : spec_float) h :=
  let '(x, y) := normalize_absolute_pointer_position (h_streams h) stream x y in
  inject l poisoned (Pointer (MotionAbsolute x y stream now)) (lit "absolute pointer injection") (with_first_pointer_event true h).
(** [portal_generic.rs:812-824 notify_pointer_button] *)
Definition notify_pointer_button l poisoned (now button : Z) (pressed : bool) h :=
  inject l poisoned (Pointer (Button (wrap 32 button) (if pressed then ButtonPressed else ButtonReleased) now)) (lit "pointer button injection") h.
(** [portal_generic.rs:826-834 notify_pointer_axis] *)
Definition notify_pointer_axis l poisoned (now : Z) (dx dy : spec_float) h :=
  inject l poisoned (Pointer (Scroll dx dy now)) (lit "pointer scroll injection") h.
(** [portal_generic.rs:742-753 set_streams] *)
Definition to_mapping (s : Stream) : StreamOutputMapping :=
  mkMapping (InputQueue.node_id s) (InputQueue.position_x s) (InputQueue.position_y s) (InputQueue.s_width s) (InputQueue.s_height s).
(** [portal_generic.rs:738-761 set_streams] *)
Definition set_streams (poisoned : bool) (streams : list Stream) h : Handle X :=
  let h := match h_input h with Some (id, b) => if poisoned then h else with_h_input (Some (id, side_set_mappings (map to_mapping streams) b)) h | None => h end in
  with_h_streams streams h.
(** The frames can be taken once; then the bridge runs.
    [portal_generic.rs:624-729 direct_frame_receiver] *)
Definition direct_frame_receiver (spawn_error : option str) h : outcome str unit * list SessionEffect * Handle X :=
  if frame_rx h then
    let h := with_frame_rx false h in
    match spawn_error with
    | Some e => (Err (lit "failed to spawn raw-frame-bridge thread: " ++ e), [], h)
    | None => (Ok tt, [SpawnBridge], with_bridge_handle true h)
    end
  else (Err (lit "portal-generic direct frame channel was already taken"), [], h).
(** [portal_generic.rs:615-622 set_health_reporter] *)
Definition set_health_reporter (r : nat) h : list SessionEffect * Handle X :=
  let '(es, x) := install_health_reporter r (health h) in (map (fun '(r, e) => Report r e) es, with_health x h).
Definition report_once (e : HealthEvent) h : list SessionEffect * Handle X :=
  let '(es, x) := report_health_once e (health h) in (map (fun '(r, e) => Report r e) es, with_health x h).

(** ** Shutdown *)

(** What became of the native threads: joined, with the panics found; the
    coordinator lost; not stopped in time; no coordinator; or the caller stopped
    waiting. *)
Inductive JoinResult := Joined (loop_panicked bridge_panicked : bool) | CoordinatorLost (e : str) | JoinTimeout | NoCoordinator (e : str) | Cancelled.
(** [portal_generic.rs:73-75 begin_shutdown_once] *)
Definition begin_shutdown_once h : bool * Handle X := (negb (shutdown_done h), with_shutdown_done true h).
(** [portal_generic.rs:854-865 shutdown] *)
Definition shutdown_input l (poisoned : bool) h : list str * list SessionEffect * Handle X :=
  match h_input h with
  | Some (id, b) =>
      if poisoned then ([lit "input backend lock poisoned"], [], h)
      else let '(r, rs, b) := side_destroy l id b in
        (match r with Err e => [lit "destroy input context: " ++ portal_error_text e] | _ => [] end, map Virtual rs, with_h_input (Some (id, b)) h)
  | None => ([], [], h)
  end.
(** [portal_generic.rs:867-876 shutdown] *)
Definition shutdown_capture (poisoned : bool) h : list str * list SessionEffect * Handle X :=
  match capture_stream_ids h with
  | [] => ([], [], h)
  | ids =>
      if poisoned then ([lit "capture backend lock poisoned"], [], h)
      else let '(r, cs, b) := destroy_capture_session BlockingThread ids (h_capture h) in
        (match r with Err e => [lit "destroy capture session: " ++ portal_error_text e] | _ => [] end, map ToCapture cs, with_h_capture b h)
  end.
(** [portal_generic.rs:886-935 shutdown] *)
Definition join_failures (j : JoinResult) (has_loop has_bridge : bool) : list str :=
  match j with
  | Joined p q => (if has_loop && p then [lit "Wayland event-loop thread panicked"] else []) ++ (if has_bridge && q then [lit "raw-frame bridge thread panicked"] else [])
  | CoordinatorLost e => [lit "native join coordinator exited without a result: " ++ e]
  | JoinTimeout => [lit "native threads did not stop within 2s"]
  | NoCoordinator e => [lit "failed to spawn native join coordinator: " ++ e]
  | Cancelled => []
  end.
Definition join_effects (j : JoinResult) (has_loop has_bridge : bool) : list SessionEffect :=
  match j with Joined _ _ => (if has_loop then [JoinLoop] else []) ++ (if has_bridge then [JoinBridge] else []) | _ => [] end.
(** [None] when the caller stopped waiting.
    [portal_generic.rs:836-962 shutdown] *)
Definition shutdown l (input_poisoned capture_poisoned : bool) (j : JoinResult) h : option (outcome str unit) * list SessionEffect * Handle X :=
  let '(first, h) := begin_shutdown_once h in
  if negb first then (Some (match shutdown_failure h with Some e => Err e | None => Ok tt end), [], h)
  else
    let '(f1, es1, h) := shutdown_input l input_poisoned h in
    let '(f2, es2, h) := shutdown_capture capture_poisoned h in
    let h := with_h_bridge_stop true (with_wayland_stop true h) in
    let es := es1 ++ es2 ++ [StopLoop; StopBridge] ++ join_effects j (event_loop h) (bridge_handle h) in
    let failures := f1 ++ f2 ++ join_failures j (event_loop h) (bridge_handle h) in
    let h := with_bridge_handle false (with_event_loop false h) in
    match j with
    | Cancelled => (None, es, h)
    | _ =>
        let '(rs, h) := report_once (Supervision.SessionClosed (lit "portal-generic session shutdown")) h in
        match failures with
        | [] => (Some (Ok tt), es ++ rs, h)
        | _ =>
            let e := lit "portal-generic session shutdown failed: " ++ join (lit "; ") failures in
            (Some (Err e), es ++ rs, with_shutdown_failure (Some e) h)
        end
    end.
(** [portal_generic.rs:545-560 drop] *)
Definition handle_drop h : list SessionEffect * Handle X :=
  let h := with_h_bridge_stop true (with_wayland_stop true h) in
  let '(rs, h) := report_once (Supervision.SessionClosed (lit "portal-generic session dropped")) h in ([StopLoop; StopBridge] ++ rs, h).
End handle.

(** ** What a session leaves behind

    The two threads, the devices on the input connection and the captures in the
    event loop, as the effects make and end them.  A thread ends only once it was
    told to stop, and a join of one that was not never returns; the captures that
    are still there when the event loop ends are cut off, and so are the devices
    when their connection is closed. *)
Inductive Thread := Ended | Running | Stopping.
Definition told (t : Thread) : Thread := match t with Running => Stopping | t => t end.
Record Left := mkLeft { left_loop : Thread; left_bridge : Thread; left_devices : gmap Z Device; left_captures : gset Z;
  cut_devices : bool; cut_captures : bool }.
Definition nothing : Left := mkLeft Ended Ended ∅ ∅ false false.
Definition with_left_devices m (l : Left) : Left := mkLeft (left_loop l) (left_bridge l) m (left_captures l) (cut_devices l) (cut_captures l).
Definition with_left_captures c (l : Left) : Left := mkLeft (left_loop l) (left_bridge l) (left_devices l) c (cut_devices l) (cut_captures l).
Definition with_left_loop t (l : Left) : Left := mkLeft t (left_bridge l) (left_devices l) (left_captures l) (cut_devices l) (cut_captures l).
Definition with_left_bridge t (l : Left) : Left := mkLeft (left_loop l) t (left_devices l) (left_captures l) (cut_devices l) (cut_captures l).
Definition after (l : Left) (e : SessionEffect) : Left :=
  match e with
  | SpawnLoop _ _ => with_left_loop Running l
  | StopLoop => with_left_loop (told (left_loop l)) l
  | JoinLoop =>
      match left_loop l with
      | Stopping => mkLeft Ended (left_bridge l) (left_devices l) ∅ (cut_devices l) (cut_captures l || bool_decide (left_captures l <> ∅))
      | _ => l
      end
  | SpawnBridge => with_left_bridge Running l
  | StopBridge => with_left_bridge (told (left_bridge l)) l
  | JoinBridge => match left_bridge l with Stopping => with_left_bridge Ended l | _ => l end
  | Virtual r => with_left_devices (default (left_devices l) (accept r (left_devices l))) l
  | CloseInput => mkLeft (left_loop l) (left_bridge l) ∅ (left_captures l) (cut_devices l || bool_decide (left_devices l <> ∅)) (cut_captures l)
  | ToCapture (StartCapture _ n _ _ _) => with_left_captures ({[n]} ∪ left_captures l) l
  | ToCapture (StopCapture n) => with_left_captures (left_captures l ∖ {[n]}) l
  | _ => l
  end.
Definition left (es : list SessionEffect) (l : Left) : Left := foldl after l es.

Section left.
Context {X : Type}.
Implicit Types (h : Handle X).

Inductive SessionOp :=
| UseKey (l : Link) (poisoned : bool) (now keycode : Z) (pressed : bool) | UseMotion (l : Link) (poisoned : bool) (now stream : Z) (x y : spec_float)
| UseButton (l : Link) (poisoned : bool) (now button : Z) (pressed : bool) | UseAxis (l : Link) (poisoned : bool) (now : Z) (dx dy : spec_float)
| UseStreams (poisoned : bool) (ss : list Stream) | UseReporter (r : nat) | UseFrames (e : option str).
Definition session_op (o : SessionOp) h : list SessionEffect * Handle X :=
  match o with
  | UseKey l p now k pressed => let '(_, es, h) := notify_keyboard_keycode l p now k pressed h in (es, h)
  | UseMotion l p now s x y => let '(_, es, h) := notify_pointer_motion_absolute l p now s x y h in (es, h)
  | UseButton l p now b pressed => let '(_, es, h) := notify_pointer_button l p now b pressed h in (es, h)
  | UseAxis l p now dx dy => let '(_, es, h) := notify_pointer_axis l p now dx dy h in (es, h)
  | UseStreams p ss => ([], set_streams p ss h)
  | UseReporter r => set_health_reporter r h
  | UseFrames e => let '(_, es, h) := direct_frame_receiver e h in (es, h)
  end.
Fixpoint session_run (os : list SessionOp) h : list SessionEffect * Handle X :=
  match os with [] => ([], h) | o :: os => let '(es, h) := session_op o h in let '(es', h) := session_run os h in (es ++ es', h) end.

Lemma left_app es es' l : left (es ++ es') l = left es' (left es l).
Proof. apply foldl_app. Qed.
Lemma left_virtual rs l m : accept_all rs (left_devices l) = Some m -> left (map Virtual rs) l = with_left_devices m l.
Proof.
  destruct l as [t u d c x y]. revert d. induction rs as [|r rs IH]; intros d E; cbn in E; [by injection E as ->|]. cbn [map]. unfold left, with_left_devices in *. cbn [foldl after left_devices left_loop left_bridge left_captures cut_devices cut_captures] in *. unfold with_left_devices. cbn [left_devices left_loop left_bridge left_captures cut_devices cut_captures].
  destruct (accept r d) as [d'|]; [|done]. by apply IH.
Qed.
(** Nothing that is only reported or signalled changes what is left. *)
Lemma left_reports xs l : left (map (fun '(r, e) => Report r e) xs) l = l.
Proof. induction xs as [|[r e] xs IH]; [done|]. exact IH. Qed.

Lemma started_captures caller ss cursor b r cs b' l : create_capture_session caller ss cursor b = (r, cs, b') -> left_captures l = dom (active_streams b) ->
  left (map ToCapture cs) l = with_left_captures (dom (active_streams b')) l /\
  (forall streams, r = Ok streams -> dom (active_streams b') ⊆ dom (active_streams b) ∪ list_to_set (map node_id streams)).
Proof.
  revert b r cs b' l. induction ss as [|s ss IH]; intros b r cs b' l E L; cbn [create_capture_session] in E.
  { injection E as <- <- <-. destruct l. cbn in *. subst. split; [done|]. intros ? [= <-]. set_solver. }
  destruct (negb _); [injection E as <- <- <-; destruct l; cbn in *; subst; by split|].
  destruct (stream_node caller s b) as [rn b1] eqn:N. assert (active_streams b1 = active_streams b) as A by (unfold stream_node in N; destruct (direct b); by injection N as _ <-).
  destruct rn as [node|e|]; [|injection E as <- <- <-; rewrite A; destruct l; cbn in *; subst; by split..].
  destruct (create_capture_session caller ss cursor _) as [[r2 cs2] b2] eqn:E2. injection E as <- <- <-.
  destruct (IH _ _ _ _ (with_left_captures ({[node]} ∪ left_captures l) l) E2) as [K1 K2]; [cbn; rewrite dom_insert_L; by rewrite A, L|].
  split; [exact K1|]. intros streams F. destruct r2 as [streams2|e|]; [|done..]. apply Ok_inj in F as <-. specialize (K2 _ eq_refl). cbn in *. rewrite dom_insert_L, A in K2. set_solver.
Qed.
Lemma stopped_captures ids b r cs b' l : destroy_capture_session BlockingThread ids b = (r, cs, b') -> left_captures l = dom (active_streams b) ->
  left (map ToCapture cs) l = with_left_captures (dom (active_streams b')) l /\ dom (active_streams b') = dom (active_streams b) ∖ list_to_set ids.
Proof.
  revert b r cs b' l. induction ids as [|id ids IH]; intros b r cs b' l E L; cbn [destroy_capture_session] in E.
  { injection E as <- <- <-. destruct l. cbn in *. subst. split; [done|]. set_solver. }
  destruct (active_streams b !! id) eqn:A.
  - cbv zeta in E. destruct (destroy_capture_session BlockingThread ids (with_active (delete id (active_streams b)) b)) as [[r2 cs2] b2] eqn:E2.
    assert (cs = StopCapture id :: cs2 /\ b' = b2) as [-> ->] by (destruct (direct _); by injection E as <- <- <-).
    destruct (IH _ _ _ _ (with_left_captures (left_captures l ∖ {[id]}) l) E2) as [K1 K2]; [cbn; rewrite dom_delete_L; by rewrite L|].
    split; [exact K1|]. rewrite K2. cbn. rewrite dom_delete_L. set_solver.
  - destruct (IH _ _ _ _ l E L) as [K1 K2]. split; [done|]. rewrite K2. cbn. apply not_elem_of_dom in A. set_solver.
Qed.

(** ** The input side's devices *)
Definition wlr_of (b : InputSide X) : WlrInputBackend X := match b with WlrSide b => b | BridgeSide b => wlr_side b end.
(** The devices are exactly those of the backend's contexts. *)
Definition devices_exact (m : gmap Z Device) (b : WlrInputBackend X) : Prop := devices_ok m b /\ all_owned m b.
Definition only_context (id : str) (b : WlrInputBackend X) : Prop := dom (contexts b) ⊆ {[id]}.

Lemma exact_empty (b : WlrInputBackend X) : contexts b = ∅ -> devices_exact ∅ b /\ forall id, only_context id b.
Proof.
  intros C. split; [|intros id; unfold only_context; rewrite C; set_solver]. split.
  - constructor; rewrite ?C; intros; by simplify_map_eq.
  - intros d k. by rewrite lookup_empty.
Qed.
Lemma exact_none (b : WlrInputBackend X) m : devices_exact m b -> contexts b = ∅ -> m = ∅.
Proof. intros [_ O] C. apply map_empty. intros d. destruct (m !! d) as [k|] eqn:E; [|done]. destruct (O d k E) as (s & c & F & _). by rewrite C, lookup_empty in F. Qed.

Lemma side_created eis l id d (b b' : InputSide X) r rs m : side_create eis l id d b = (r, rs, b') -> devices_ok m (wlr_of b) ->
  exists m', accept_all rs m = Some m' /\ (r = Ok tt -> all_owned m (wlr_of b) -> only_context id (wlr_of b) -> devices_exact m' (wlr_of b') /\ only_context id (wlr_of b')).
Proof.
  assert (forall w w' r rs, create_context l id d w = (r, rs, w') -> devices_ok m w -> exists m', accept_all rs m = Some m' /\ (r = Ok tt -> all_owned m w -> only_context id w -> devices_exact m' w' /\ only_context id w')) as K.
  { intros w w' r0 rs0 E V. destruct (create_devices l id d w r0 rs0 w' m E V) as (m' & A & V' & O). exists m'. split; [done|]. intros -> Ow On.
    unfold create_context in E. destruct (contexts w !! id); [done|]. destruct (if pointer d then _ else _) as [[p rs1] b1] eqn:E1. destruct (if keyboard d then _ else _) as [[k rs2] b2] eqn:E2.
    unfold flush in E. destruct (flush_error l) eqn:F; [done|]. destruct (roundtrip_error l) eqn:T; [done|]. injection E as <- <-. split; [split; [done|by apply O]|].
    assert (contexts b2 = contexts w) as C.
    { unfold create_pointer in E1. unfold create_keyboard, set_keyboard_keymap in E2. repeat (case_match; simplify_eq/=); try done. }
    unfold only_context in *. cbn. rewrite dom_insert_L, C. set_solver. }
  intros E V. destruct b as [w|b]; cbn in E.
  - destruct (create_context l id d w) as [[r0 rs0] w'] eqn:C. injection E as <- <- <-. by apply (K w w').
  - unfold bridge_create_context in E. destruct (bool_decide _); [injection E as <- <- <-; by exists m|]. destruct eis; [|injection E as <- <- <-; by exists m..].
    destruct (create_context l id d (wlr_side b)) as [[r0 rs0] w'] eqn:C. injection E as <- <- <-. by apply (K (wlr_side b) w').
Qed.
Lemma side_destroyed l id (b b' : InputSide X) r rs m : side_destroy l id b = (r, rs, b') -> devices_exact m (wlr_of b) -> only_context id (wlr_of b) -> accept_all rs m = Some ∅.
Proof.
  assert (forall w w' r rs, destroy_context l id w = (r, rs, w') -> devices_exact m w -> only_context id w -> accept_all rs m = Some ∅) as K.
  { intros w w' r0 rs0 E [V O] On. destruct (destroy_devices l id w r0 rs0 w' m E V) as (m' & A & V' & O'). rewrite A. f_equal. apply (exact_none w' m'); [by split; [|apply O']|].
    unfold destroy_context in E. unfold only_context in On. destruct (contexts w !! id) eqn:C; injection E as <- <- <-.
    - cbn. apply dom_empty_iff_L. rewrite dom_delete_L. set_solver.
    - apply dom_empty_iff_L. apply not_elem_of_dom in C. set_solver. }
  intros E V O. destruct b as [w|b]; cbn in E.
  - destruct (destroy_context l id w) as [[r0 rs0] w'] eqn:C. injection E as <- <- <-. by apply (K w w' r0).
  - unfold bridge_destroy_context in E. destruct (destroy_context l id (wlr_side b)) as [[r0 rs0] w'] eqn:C. injection E as <- <- <-. by apply (K (wlr_side b) w' r0).
Qed.
Lemma side_injected l id e (b b' : InputSide X) r rs m : side_inject l id e b = (r, rs, b') -> devices_exact m (wlr_of b) ->
  accept_all rs m = Some m /\ devices_exact m (wlr_of b') /\ contexts (wlr_of b') = contexts (wlr_of b).
Proof.
  assert (forall w w' r rs, inject_event l id e w = (r, rs, w') -> devices_exact m w -> accept_all rs m = Some m /\ devices_exact m w' /\ contexts w' = contexts w) as K.
  { intros w w' r0 rs0 E [V O]. destruct (inject_devices l id e w r0 rs0 w' m E V) as (A & C & N). split; [done|]. split; [|done].
    split; [destruct V; constructor; by rewrite ?C, ?N|unfold all_owned; by rewrite C]. }
  intros E V. destruct b as [w|b]; cbn in E.
  - destruct (inject_event l id e w) as [[r0 rs0] w'] eqn:C. injection E as <- <- <-. by apply (K w w' r0).
  - unfold bridge_inject_event in E. destruct (inject_event l id e (wlr_side b)) as [[r0 rs0] w'] eqn:C. injection E as <- <- <-. by apply (K (wlr_side b) w' r0).
Qed.

(** What a session in use has left outside, exactly. *)
Record holds (l : Left) h : Prop := mkHolds {
  hd_captures : left_captures l = dom (active_streams (h_capture h)); hd_ids : left_captures l ⊆ list_to_set (capture_stream_ids h);
  hd_devices : match h_input h with Some (id, b) => devices_exact (left_devices l) (wlr_of b) /\ only_context id (wlr_of b) | None => left_devices l = ∅ end;
  hd_loop : left_loop l = Running; hd_handle : event_loop h = true; hd_open : shutdown_done h = false;
  hd_bridge : left_bridge l = if bridge_handle h then Running else Ended; hd_frames : frame_rx h = true -> bridge_handle h = false;
  hd_devices_whole : cut_devices l = false; hd_captures_whole : cut_captures l = false }.

Lemma inject_holds l poisoned e op (x : Left) h r es h' : inject l poisoned e op h = (r, es, h') -> holds x h -> left es x = x /\ holds x h'.
Proof.
  unfold inject. intros E H. destruct (h_input h) as [[id b]|] eqn:I; [|by injection E as <- <- <-]. destruct poisoned; [by injection E as <- <- <-|].
  destruct (side_inject l id e b) as [[r0 rs] b'] eqn:S. injection E as <- <- <-. destruct H as [H1 H2 H3 H4 H5 H6 H7 H8 H9 H10]. rewrite I in H3. destruct H3 as [H3 H3'].
  destruct (side_injected l id e b b' r0 rs _ S H3) as (A & D & C). split; [rewrite (left_virtual _ _ _ A); by destruct x|].
  constructor; try done. cbn. split; [done|]. unfold only_context. by rewrite C.
Qed.
Lemma op_holds o (x : Left) h : holds x h -> holds (left (session_op o h).1 x) (session_op o h).2.
Proof.
  intros H. assert (forall l p e op h1 r es h', holds x h1 -> inject l p e op h1 = (r, es, h') -> holds (left es x) h') as Inj.
  { intros l p e op h1 r es h' H1 E. by destruct (inject_holds _ _ _ _ _ _ _ _ _ E H1) as [-> ?]. }
  destruct o as [l p now k pressed|l p now s px py|l p now b pressed|l p now dx dy|p ss|r|e]; cbn [session_op].
  - unfold notify_keyboard_keycode. destruct (inject _ _ _ _ h) as [[r es] h'] eqn:E. by eapply Inj.
  - unfold notify_pointer_motion_absolute. destruct (normalize_absolute_pointer_position _ _ _ _) as [nx ny]. destruct (inject _ _ _ _ _) as [[r es] h'] eqn:E.
    eapply Inj; [|exact E]. destruct H. by constructor.
  - unfold notify_pointer_button. destruct (inject _ _ _ _ h) as [[r es] h'] eqn:E. by eapply Inj.
  - unfold notify_pointer_axis. destruct (inject _ _ _ _ h) as [[r es] h'] eqn:E. by eapply Inj.
  - destruct H as [H1 H2 H3 H4 H5 H6 H7 H8 H9 H10]. unfold set_streams. destruct (h_input h) as [[id b]|] eqn:I; [destruct p|]; constructor; cbn; try rewrite I; try done.
    destruct H3 as [[[V1 V2 V3] O] C], b; by (split; [split; [constructor|]|]).
  - unfold set_health_reporter. destruct (install_health_reporter r (health h)) as [es hh]. cbn [fst snd]. rewrite left_reports. by destruct H.
  - unfold direct_frame_receiver. destruct (frame_rx h) eqn:F; [|exact H]. destruct e; destruct H as [H1 H2 H3 H4 H5 H6 H7 H8 H9 H10]; by constructor.
Qed.
Lemma run_holds os (x : Left) h : holds x h -> holds (left (session_run os h).1 x) (session_run os h).2.
Proof.
  revert x h. induction os as [|o os IH]; intros x h H; [done|]. cbn [session_run]. pose proof (op_holds o x h H) as H1. destruct (session_op o h) as [es h1]. cbn [fst snd] in *.
  specialize (IH _ h1 H1). destruct (session_run os h1) as [es' h2]. cbn [fst snd] in *. by rewrite left_app.
Qed.

(** The threads a shutdown joins end, when nothing is left for the loop to cut off. *)
Lemma left_joined (bridge : bool) p q (x : Left) : left_loop x = Running -> left_bridge x = (if bridge then Running else Ended) ->
  left_devices x = ∅ -> left_captures x = ∅ -> cut_devices x = false -> cut_captures x = false ->
  left ([StopLoop; StopBridge] ++ join_effects (Joined p q) true bridge) x = nothing.
Proof. destruct x as [t u d c v w]. cbn. intros -> -> -> -> -> ->. by destruct bridge. Qed.

Lemma shutdown_leaves l p q (x : Left) h : holds x h -> left (shutdown l false false (Joined p q) h).1.2 x = nothing.
Proof.
  intros [H1 H2 H3 H4 H5 H6 H7 _ H9 H10]. unfold shutdown, begin_shutdown_once. rewrite H6. cbn [negb].
  destruct (shutdown_input l false (with_shutdown_done true h)) as [[f1 es1] h1] eqn:E1.
  assert (left es1 x = with_left_devices ∅ x /\ h_capture h1 = h_capture h /\ capture_stream_ids h1 = capture_stream_ids h /\ event_loop h1 = true /\
    bridge_handle h1 = bridge_handle h) as (L1 & C1 & I1 & V1 & B1).
  { unfold shutdown_input in E1. cbn in E1. destruct (h_input h) as [[id b]|]; [|injection E1 as <- <- <-; destruct x; cbn in *; by subst].
    destruct (side_destroy l id b) as [[r rs] b'] eqn:S. injection E1 as <- <- <-. destruct H3 as [H3 H3']. by rewrite (left_virtual _ _ ∅) by (by eapply side_destroyed). }
  destruct (shutdown_capture false h1) as [[f2 es2] h2] eqn:E2.
  assert (left es2 (with_left_devices ∅ x) = with_left_captures ∅ (with_left_devices ∅ x) /\ event_loop h2 = true /\ bridge_handle h2 = bridge_handle h) as (L2 & V2 & B2).
  { unfold shutdown_capture in E2. rewrite I1 in E2. destruct (capture_stream_ids h) as [|i ids] eqn:I.
    - injection E2 as <- <- <-. split; [|done]. cbn. assert (left_captures x = ∅) as C by set_solver. unfold with_left_captures. cbn. unfold with_left_devices. by rewrite C.
    - destruct (destroy_capture_session BlockingThread (i :: ids) (h_capture h1)) as [[r cs] b'] eqn:S. injection E2 as <- <- <-.
      destruct (stopped_captures _ _ _ _ _ (with_left_devices ∅ x) S) as [L D]; [cbn; by rewrite C1|]. rewrite L, D, C1, <-H1. split; [|done]. f_equal. set_solver. }
  cbv zeta. cbn [event_loop bridge_handle with_h_bridge_stop with_wayland_stop with_event_loop with_bridge_handle]. rewrite V2, B2.
  destruct (report_once _ _) as [rs h3] eqn:R. assert (left rs nothing = nothing) as L3.
  { unfold report_once in R. destruct (report_health_once _ _) as [xs hh]. injection R as <- _. apply left_reports. }
  assert (left (es1 ++ es2 ++ [StopLoop; StopBridge] ++ join_effects (Joined p q) true (bridge_handle h)) x = nothing) as L4.
  { rewrite left_app, L1, left_app, L2. by apply left_joined. }
  destruct (f1 ++ f2 ++ _); cbn [fst snd]; by rewrite left_app, L4.
Qed.

(** A backend that was just made has no contexts. *)
Definition made_fresh (env : SessionEnv X) : Prop := forall c b, make_input env c = Ok b -> contexts b = ∅.

(** Where a construction fails. *)
Definition context_stage : str := lit "create input context: ".
Definition capture_stage : str := lit "start monitor capture: ".
Definition failed_in {A} (stage : str) (r : outcome str A) : Prop := r = Panic \/ exists e, r = Err (stage ++ e).
Definition with_cut_devices v (l : Left) : Left := mkLeft (left_loop l) (left_bridge l) (left_devices l) (left_captures l) v (cut_captures l).
(** Nothing is left of a construction that failed; the devices of a context that
    could not be made are cut off with its connection, and what a capture that could
    not be started had begun is cut off by the end of the event loop. *)
Definition undone {A} (r : outcome str A) (l : Left) : Prop :=
  left_loop l = Ended /\ left_bridge l = Ended /\ left_devices l = ∅ /\ left_captures l = ∅ /\
  (cut_devices l = true -> failed_in context_stage r) /\ (cut_captures l = true -> failed_in capture_stage r).

Lemma attached env c p socket uid r es (x : Left) : made_fresh env -> attach_input env c p socket uid = (r, es) -> left_devices x = ∅ ->
  match r with
  | Ok (id, b) => exists m, left es x = with_left_devices m x /\ devices_exact m (wlr_of b) /\ only_context id (wlr_of b)
  | _ => exists cut, left es x = with_cut_devices (cut_devices x || cut) x /\ (cut = true -> failed_in context_stage r)
  end.
Proof.
  intros F E D. unfold attach_input in E. set (c' := with_wlr _ c) in E. clearbody c'. destruct (create_input_backend (make_input env) c' p) as [b|e|] eqn:M; [|injection E as <- <-; exists false; split; [by destruct x; cbn; rewrite orb_false_r|done]..].
  assert (contexts (wlr_of b) = ∅) as C.
  { unfold create_input_backend in M. destruct (input_backend_kind c' p) as [k| |]; [|done..]. cbn in M. destruct (make_input env (wlr c')) as [w| |] eqn:W; [|done..]. apply Ok_inj in M as <-.
    apply F in W. by destruct k. }
  destruct (exact_empty _ C) as [[V O] On]. destruct (side_create (eis env) (create_link env) (context_id env) _ b) as [[r0 rs] b'] eqn:S.
  destruct (side_created _ _ _ _ _ _ _ _ ∅ S V) as (m & A & Q). rewrite <-D in A.
  assert (left (map Virtual rs ++ [CloseInput]) x = with_cut_devices (cut_devices x || bool_decide (m <> ∅)) x) as Closed
    by (rewrite left_app, (left_virtual _ _ _ A); destruct x; cbn in *; by subst).
  destruct r0 as [[]|e|]; injection E as <- <-.
  - exists m. split; [by apply left_virtual|]. by apply Q.
  - eexists. split; [exact Closed|]. intros _. right. by eexists.
  - eexists. split; [exact Closed|]. intros _. by left.
Qed.
Lemma capturing c p sources r es (x : Left) : start_monitor_capture c p sources = (r, es) -> left_captures x = ∅ ->
  exists caps, left es x = with_left_captures caps x /\
  match r with Ok (b, ss) => caps = dom (active_streams b) /\ caps ⊆ list_to_set (map InputQueue.node_id ss) | _ => True end.
Proof.
  unfold start_monitor_capture. intros E L. set (b := create_capture_backend p c sources pipewire_disabled) in E.
  assert (active_streams b = ∅) as A by (unfold b, create_capture_backend; by repeat case_match).
  destruct (create_capture_session BlockingThread _ Hidden b) as [[r0 cs] b'] eqn:S. injection E as <- <-.
  destruct (started_captures _ _ _ _ _ _ _ x S) as [L1 L2]; [by rewrite A, dom_empty_L|]. exists (dom (active_streams b')). split; [done|].
  destruct r0 as [ss| |]; [|done..]. split; [done|]. specialize (L2 ss eq_refl). rewrite A, dom_empty_L, map_map in *. set_solver.
Qed.
Lemma rolled_back env input m (x : Left) : match input with Some (id, b) => devices_exact m (wlr_of b) /\ only_context id (wlr_of b) | None => m = ∅ end ->
  left_devices x = m -> left_loop x = Running -> left_bridge x = Ended ->
  left (rollback_drop env (mkRollback input None true)) x = mkLeft Ended Ended ∅ ∅ (cut_devices x) (cut_captures x || bool_decide (left_captures x <> ∅)).
Proof.
  intros D <- R B. unfold rollback_drop. cbn [armed negb rb_input rb_capture]. rewrite left_app. destruct input as [[id b]|].
  - destruct (side_destroy (rollback_link env) id b) as [[r rs] b'] eqn:S. destruct D as [D1 D2]. rewrite (left_virtual _ _ _ (side_destroyed _ _ _ _ _ _ _ S D1 D2)).
    destruct x. cbn in *. by subst.
  - destruct x. cbn in *. by subst.
Qed.
Lemma constructed env settings socket ei ec uid r es : made_fresh env -> create_session_with_wayland env settings socket ei ec uid = (r, es) ->
  match r with Ok h => holds (left es nothing) h | _ => undone r (left es nothing) end.
Proof.
  intros F E. unfold create_session_with_wayland in E. destruct (prepare_wayland env (capture settings)) as [[[[fw t] protocols] sources]| |]; [|injection E as <- <-; done..].
  set (spawned := [SpawnLoop fw t]) in E. set (x := with_left_loop Running nothing). assert (left spawned nothing = x) as Sp by done.
  destruct (if ei then _ else _) as [input es1] eqn:I.
  assert (match input with
    | Ok input => exists m, left es1 x = with_left_devices m x /\ match input with Some (id, b) => devices_exact m (wlr_of b) /\ only_context id (wlr_of b) | None => m = ∅ end
    | _ => exists cut, left es1 x = with_cut_devices cut x /\ (cut = true -> failed_in context_stage input) end) as K.
  { destruct ei; [|injection I as <- <-; by exists ∅]. destruct (attach_input env (PortalServices.input settings) protocols socket uid) as [r1 es2] eqn:A. injection I as <- <-.
    pose proof (attached _ _ _ _ _ _ _ x F A eq_refl) as Q. destruct r1 as [[id b]| |]; [exact Q|..]; destruct Q as (cut & L & K); exists cut; (split; [exact L|]); intros C; specialize (K C).
    all: destruct K as [K|[e' K]]; [discriminate K || by left|]; first [discriminate K|injection K as ->; right; by exists e']. }
  assert (forall (r : outcome str (Handle X)) cut, (cut = true -> failed_in context_stage r) ->
    left es1 x = with_cut_devices cut x -> undone r (left (spawned ++ es1 ++ rollback_drop env (mkRollback None None true)) nothing)) as Bad.
  { intros r0 cut K' L. rewrite !left_app, Sp, L, (rolled_back env None ∅) by done. by split_and!. }
  destruct input as [input|e|]; [|destruct K as (cut & L & K)..].
  2: { injection E as <- <-. apply (Bad _ cut); [|exact L]. intros C. destruct (K C) as [?|[e' [= ->]]]; [done|]. right. by eexists. }
  2: { injection E as <- <-. apply (Bad _ cut); [|exact L]. by left. }
  destruct K as (m & L1 & D).
  destruct (start_monitor_capture (capture settings) protocols sources) as [r1 cs] eqn:C. pose proof (capturing _ _ _ _ _ (left es1 x) C) as Q. rewrite L1 in Q. destruct (Q eq_refl) as (caps & L2 & R).
  assert (forall r0 : outcome str (Handle X), failed_in capture_stage r0 ->
    undone r0 (left (spawned ++ es1 ++ cs ++ rollback_drop env (mkRollback input None true) ++ (if input then [CloseInput] else [])) nothing)) as Undone.
  { intros r0 Fr. rewrite !left_app, Sp, L1, L2, (rolled_back env input m) by done. destruct input; by split_and!. }
  destruct r1 as [[b ss]|e|]; injection E as <- <-.
  - change (holds (left (spawned ++ es1 ++ cs) nothing) (mkHandle input false b (map InputQueue.node_id ss) (if ec then create_clipboard_backend protocols (clipboard settings) true else None) ss true false true false false false None health_new)).
    rewrite !left_app, Sp, L1, L2. destruct R as [-> R]. by constructor.
  - apply Undone. unfold start_monitor_capture in C. destruct (create_capture_session _ _ _ _) as [[rr ?] ?]. destruct rr; [done| |done]. injection C as <- _. right. by eexists.
  - apply Undone. by left.
Qed.

(** C20. A session leaves nothing behind.  Whatever fails while it is built, in
    any order of failures, everything begun is undone: the event loop was told to
    stop and has ended, no virtual device exists and nothing is captured; only the
    devices of a context that could not be made are left to the closing of their
    connection, and only what a capture that failed had begun to the end of the
    loop.  And a session that was built is rid of everything by its shutdown, after
    any use of it on a connection that may fail at any time and whatever the
    shutdown's own calls answer: every device and every capture has been destroyed
    before the threads end, and the event loop and, once the frames were taken, the
    frame bridge have been told to stop and were joined. *)
Theorem sessions_leave_nothing env settings socket enable_input enable_clipboard uid ops l p q :
  made_fresh env ->
  let '(r, es) := create_session_with_wayland env settings socket enable_input enable_clipboard uid in
  match r with
  | Ok h => let '(es1, h1) := session_run ops h in left (es ++ es1 ++ (shutdown l false false (Joined p q) h1).1.2) nothing = nothing
  | _ => undone r (left es nothing)
  end.
Proof.
  intros F. destruct (create_session_with_wayland env settings socket enable_input enable_clipboard uid) as [r es] eqn:E. pose proof (constructed _ _ _ _ _ _ _ _ F E) as C.
  destruct r as [h| |]; [|done..]. pose proof (run_holds ops _ h C) as H1. destruct (session_run ops h) as [es1 h1]. cbn [fst snd] in *. rewrite !left_app. by apply shutdown_leaves.
Qed.
End left.

(** ** Examples and oddities *)

(** A compositor with one output and the wlroots protocols, and a keymap on
    which key 42 is Shift. *)
Definition toy_xkb : Xkb Z := mkXkb (lit "keymap") 9 255 (fun c => if c =? 38 then [[97]; [65]] else []) 0 (fun c down s => if c =? 50 then if down then 1 else 0 else s) (fun s => (s, 0, 0, 0)).
Definition toy_output : OutputInfo := mkOutput 5 (Some (lit "HEADLESS-1")) None (0, 0) 1920 1080 60000 (0, 0) true.
Definition toy_env (protocols : AvailableProtocols) : SessionEnv Z :=
  mkEnv (Ok (protocols, [toy_output])) (fun c => Ok (mkWlrInput true true true toy_xkb 0 ∅ ∅ 0)) (Ok tt) healthy healthy (lit "context").
Definition toy_settings : PortalStartupSettings := mkSettings (mkCapture None true 5000 [] true) (mkClipPref None true) (with_input_preferred WlrVirtualInput input_default).
Definition wlroots : AvailableProtocols := mkProtocols false true true true false true true 1.
Definition with_ext : AvailableProtocols := mkProtocols true true true true true true true 1.
Lemma sessions_leave_nothing_witness :
  made_fresh (toy_env wlroots) /\
  let '(r, es) := create_session_with_wayland (toy_env wlroots) toy_settings None true true None in
  match r with
  | Ok h => let '(es1, h1) := session_run [UseKey healthy false 0 30 true; UseFrames None] h in left (es ++ es1 ++ (shutdown healthy false false (Joined false false) h1).1.2) nothing = nothing
  | _ => undone r (left es nothing)
  end.
Proof.
  assert (made_fresh (toy_env wlroots)) as F by (intros c b E; by apply Ok_inj in E as <-). split; [exact F|].
  exact (sessions_leave_nothing (toy_env wlroots) toy_settings None true true None [UseKey healthy false 0 30 true; UseFrames None] healthy false false F).
Defined.
(** The example does construct a session, with its devices and its capture. *)
Lemma example_session :
  (create_session_with_wayland (toy_env wlroots) toy_settings None true true None).2 =
    [SpawnLoop false (Some 5000); Virtual (NewPointer 0); Virtual (NewKeyboard 1); Virtual (SetKeymap 1 (keymap_payload (lit "keymap"))); ToCapture (StartCapture 5 5 1920 1080 Hidden)].
Proof. by vm_compute. Qed.

(** With the default settings no session can be built on a compositor that also
    offers ext-image-copy-capture: everything is undone again. *)
Lemma no_session_with_ext_capture :
  let r := create_session_with_wayland (toy_env with_ext) toy_settings None true true None in
  r.1 = Err (lit "start monitor capture: PipeWire error: Failed to create stream: PipeWire error: PipeWire thread not running") /\
  left r.2 nothing = nothing.
Proof. by vm_compute. Qed.

(** A shutdown that ran to its end is remembered: later calls do nothing and
    answer the same. *)
Lemma shutdown_idempotent {X} l p q j l' p' q' j' (h : Handle X) r es h1 :
  shutdown l p q j h = (Some r, es, h1) -> shutdown_done h = false -> shutdown_failure h = None ->
  shutdown l' p' q' j' h1 = (Some (match r with Ok _ => Ok tt | r => r end), [], h1).
Proof.
  intros E D F. unfold shutdown in E. unfold begin_shutdown_once in E. rewrite D in E. cbn [negb] in E.
  destruct (shutdown_input l p (with_shutdown_done true h)) as [[f1 es1] h2] eqn:E1. destruct (shutdown_capture q h2) as [[f2 es2] h3] eqn:E2.
  assert (shutdown_done h2 = true /\ shutdown_failure h2 = None) as [D2 F2].
  { unfold shutdown_input in E1. cbn in E1. destruct (h_input h) as [[id b]|]; [destruct p; [|destruct (side_destroy l id b) as [[? ?] ?]]|]; by injection E1 as _ _ <-. }
  assert (shutdown_done h3 = true /\ shutdown_failure h3 = None) as [D3 F3].
  { unfold shutdown_capture in E2. destruct (capture_stream_ids h2); [|destruct q; [|destruct (destroy_capture_session _ _ _) as [[? ?] ?]]]; by injection E2 as _ _ <-. }
  clear E1 E2. cbv zeta in E. set (h4 := with_bridge_handle false _) in E.
  assert (shutdown_done h4 = true /\ shutdown_failure h4 = None) as [D4 F4] by done. clearbody h4.
  assert (forall fs es0, (let '(rs, h) := report_once (Supervision.SessionClosed (lit "portal-generic session shutdown")) h4 in
     match fs with
     | [] => (Some (Ok tt), es0 ++ rs, h)
     | _ => (Some (Err (lit "portal-generic session shutdown failed: " ++ join (lit "; ") fs)), es0 ++ rs, with_shutdown_failure (Some (lit "portal-generic session shutdown failed: " ++ join (lit "; ") fs)) h)
     end) = (Some r, es, h1) -> shutdown l' p' q' j' h1 = (Some (match r with Ok _ => Ok tt | r => r end), [], h1)) as K.
  { intros fs es0 Q. unfold report_once in Q. destruct (report_health_once _ _) as [xs hh].
    assert (forall h : Handle X, shutdown_done h = true -> shutdown l' p' q' j' h = (Some match shutdown_failure h with Some e => Err e | None => Ok tt end, [], h)) as Done.
    { intros [? ? ? ? ? ? ? ? ? ? ? d ? ?] Hd. cbn in Hd. subst d. done. }
    destruct fs as [|f fs]; injection Q as <- _ <-; rewrite Done by done; cbn; by rewrite ?F4. }
  destruct j; [by eapply K..|done].
Qed.
(** But one whose caller stopped waiting is taken for a success: the second call
    answers that all is well although nothing was joined, no failure of the
    first is kept, and no end is reported. *)
Lemma cancelled_shutdown_forgotten {X} l l' (h : Handle X) p' q' j' : shutdown_done h = false -> shutdown_failure h = None ->
  let '(_, _, h1) := shutdown l true true Cancelled h in shutdown l' p' q' j' h1 = (Some (Ok tt), [], h1) /\ health h1 = health h.
Proof.
  destruct h as [i ? ? ids ? ? ? ? ? ? ? d f ?]. cbn. intros -> ->. destruct i as [[id b]|], ids; by cbn.
Qed.

(** A position on the screen is sent in ten-thousandths of it, rounded down, so
    that on an output 1920 pixels wide the pointer is put left of the pixel that
    was asked for in all but every 24th column. *)
Definition sent_column (w x : Z) : Z := as_uint (2 ^ 32 - 1) (mul64 (normalize_absolute_pointer_position [InputQueue.mkStream 7 w 1080 0 0] 7 (f64_of_Z x) fzero).1 (f64_of_Z extent)).
Lemma pointer_put_left : List.filter (fun x => negb (sent_column 1920 x * 1920 / 10000 =? x)) (map Z.of_nat (seq 0 1920)) =
  List.filter (fun x => negb (x mod 24 =? 0)) (map Z.of_nat (seq 0 1920)).
Proof. by vm_compute. Qed.

(** The comment asks for the unshifted keysym of a key; any level is taken. *)
Lemma shifted_keysyms_found : keysym_to_keycode 65 (mkWlrInput true true true toy_xkb 0 ∅ ∅ 0) = Some 30.
Proof. by vm_compute. Qed.
(** A modifier that was held when a context was destroyed is still held in the
    next one: the first key there is sent with Shift. *)
Lemma modifiers_survive_contexts :
  (input_run [OpCreate healthy [1] devices_all; OpInject healthy [1] (Keyboard (mkKey 42 KeyPressed 0)); OpDestroy healthy [1];
      OpCreate healthy [2] devices_all; OpInject healthy [2] (Keyboard (mkKey 30 KeyPressed 0))] (mkWlrInput false true true toy_xkb 0 ∅ ∅ 0)).1 =
  [NewKeyboard 0; SetKeymap 0 (keymap_payload (lit "keymap")); VKey 0 0 42 1; VModifiers 0 (1, 0, 0, 0); DestroyDevice 0;
   NewKeyboard 1; SetKeymap 1 (keymap_payload (lit "keymap")); VKey 1 0 30 1; VModifiers 1 (1, 0, 0, 0)].
Proof. by vm_compute. Qed.
(** EIS clients give positions in pixels, but they are taken for fractions of
    the output: a client at column 100 is sent far outside. *)
Lemma eis_positions_not_scaled :
  option_map (fun e => (inject_event healthy [1] e (mkWlrInput true false true toy_xkb 0 {[[1] := mkContext (Some 0) None]} ∅ 1)).1.2)
    (eis_request_to_input_event (EisMotionAbsolute (f32_of_Z 100) (f32_of_Z 50) 0)) = Some [PMotionAbsolute 0 0 1000000 500000 10000 10000; PFrame 0].
Proof. by vm_compute. Qed.
